(* ===== verification/_CoqProject ===== *)
-Q . S2P
Prelude.v
PyData.v
Sha256.v
Utf8.v
PyFloat.v
ODict.v
Constants.v
PacketUtils.v
Airtime.v
Packet.v
Crypto.v
TransportKeys.v
RegionMap.v
PacketFilter.v
Forward.v
Acks.v
Dispatcher.v
TxBudget.v
DispatcherLife.v
PacketBuilder.v
Messages.v
Utils.v
GroupText.v
Kiss.v
Stores.v
Contacts.v
TextHandler.v
Telemetry.v
ReturnPath.v
Replies.v
ProtocolResponse.v
Login.v
ProtocolRequest.v
NodeHandlers.v
FrameCodes.v
BinaryParsing.v
AdvertHandler.v
CompanionSession.v
CompanionConfig.v
CompanionSend.v
CompanionRequests.v
CompanionEvents.v
CompanionBridge.v
CompanionDelivery.v
CompanionChannels.v
CompanionAdverts.v
RfFabric.v
KissModem.v
KissModemLink.v
Sx1262.v
Sx1262Send.v
ModemProtocol.v
ModemRadio.v
ModemCommands.v
ModemSync.v
FrameServer.v
FrameStream.v
FrameContacts.v
FrameMessages.v
FrameSessions.v
FrameClients.v
