(* ===== verification/Prelude.v ===== *)
(** * openHop Core: a verification library

    openHop Core ([src/src/openhop_core]) is a Python implementation of a LoRa
    mesh node: a packet format, its cryptography, a dispatcher that receives,
    deduplicates, dispatches, forwards and sends packets, and a companion layer
    that keeps contacts, channels and messages for a user. This library models
    that core as executable definitions and proves what makes it correct.

    ** How the parts work together

    A radio hands frames to the dispatcher. It parses them ([Packet]), drops
    repeats ([PacketFilter]), records the region of the request ([RegionMap]
    with the codes of [TransportKeys]), gives the packet to the handler of its
    type, wakes the sends that wait for an ACK ([Acks]) and, as a client
    repeater, builds the retransmission ([Forward]). Outgoing packets are built
    by [PacketBuilder] with the encrypt-then-MAC of [Crypto], scoped and
    transmitted by the dispatcher, and read at the other end by the handlers:
    path returns ([Messages]), group texts ([GroupText]), adverts ([Utils]),
    texts ([TextHandler]), logins and discovery ([Login]), requests
    ([ProtocolRequest]) and their responses ([ProtocolResponse], with the
    telemetry of [Telemetry]), which also learn and teach routes
    ([ReturnPath]). The companion stores ([Stores], [Contacts]) hold what
    arrives, and the companion ([CompanionConfig], with the tables of its
    [CompanionSession]) keeps the preferences of the device around them. It
    sends and waits for answers ([CompanionSend]), receives packets with
    handlers of its own ([CompanionBridge], [AdvertHandler]) and turns what they
    publish into queued messages, contacts and push events
    ([CompanionEvents]). The frame server ([FrameServer]) drives the companion
    from an application, frame by frame. Below the dispatcher, [RfFabric] joins
    several radios behind one; a radio may be an SX1262 chip on the bus
    ([Sx1262]), a KISS device ([Kiss]), MeshCore's KISS modem ([KissModem]) or an
    openHop modem, whose drivers ([ModemRadio], [ModemSync]) speak
    [ModemProtocol] over a serial line or a socket.

    ** Files and the code they model

    Support: [Prelude] (exceptions, the error monad [res], the stateful monad
    [py] that keeps the state reached when an exception is raised, bit masks,
    tactics), [PyData] (bytes, slices, integer codecs, hexadecimal text),
    [Utf8], [PyFloat] (binary64), [ODict] (dictionaries with insertion order),
    [Sha256] (hashlib and hmac).

    - [Constants]: protocol/constants.py.
    - [PacketUtils]: protocol/packet_utils.py, one module per class.
    - [Airtime]: the airtime, score and delay functions of packet_utils.py and
      companion/timing.py ([Timing]).
    - [Packet]: protocol/packet.py; [Packet.t] is the object, methods keep
      their names; [write_to] and [read_from] are the wire format.
    - [Crypto]: protocol/crypto.py over the interface [BlockCipher].
    - [TransportKeys], [RegionMap], [PacketFilter]: the modules of the same
      name in protocol/.
    - [Forward], [Acks], [Dispatcher]: node/dispatcher.py: the forward
      builders, the ACK table (with node/handlers/ack.py and multipart.py), and
      the receive and send paths. [sys_step] interleaves receptions (each cut
      in two at the await of its flood hold), transmissions, reconfiguration
      and maintenance. [TxBudget] is the airtime budget and the retransmission
      delays of the same file, over the interface [Num] of arithmetic;
      [DispatcherLife] is its start and stop, a step relation of the tasks that
      call [run_forever] and [stop].
    - [PacketBuilder]: protocol/packet_builder.py, over [KeyExchange].
    - [Messages]: the readers of path returns (node/handlers/crypto_helpers.py
      and ack.py) and the theorems that join builders and readers.
    - [Utils]: protocol/utils.py. [GroupText]: node/handlers/group_text.py.
    - [Kiss]: the encoder and decoders of hardware/kiss_serial_wrapper.py.
    - [Stores]: companion/message_queue.py, path_cache.py, channel_store.py,
      stats_collector.py and the records of models.py.
    - [Contacts]: companion/contact_store.py ([ContactStore]) and what adverts
      and anonymous requests do to the stores, from base_contacts.py and
      base_send.py ([AdvertIngest]).
    - [TextHandler]: node/handlers/text.py.
    - [Telemetry]: protocol/cayenne_lpp.py ([CayenneLPP]) and the decoder of
      node/handlers/protocol_response.py ([LPPDecoder]).
    - [ReturnPath]: node/handlers/return_path.py. The state of the teacher
      holds its pending tasks; a task is cut where the code awaits:
      [dispatch_begin] runs it from the end of the settle window to the
      injector, [dispatch_end] from the injector's answer on.
    - [Replies]: what a reply to a request carries, shared by the next three.
    - [ProtocolResponse]: node/handlers/protocol_response.py; reciprocal paths
      are tasks as in [ReturnPath].
    - [Login]: node/handlers/login_server.py, anon_request.py and
      login_response.py.
    - [ProtocolRequest]: node/handlers/protocol_request.py; the client objects,
      which the application shares, are a store addressed by number.
    - [NodeHandlers]: node/handlers/control.py, trace.py and path.py, with
      hardware/signal_utils.py.
    - [FrameCodes]: companion/constants.py. [BinaryParsing]:
      companion/binary_parsing.py.
    - [AdvertHandler]: node/handlers/advert.py.
    - [CompanionSession]: what companion_base.py keeps of pending requests,
      logins, ACKs and duplicates, with the callbacks the handlers hold for
      them ([Session]); the duplicate cache of base_support.py ([SeenCache]).
      What is handed to the transport ([outbox]) and pushed to the application
      ([events]) are logs.
    - [CompanionConfig]: the state of a companion and the operations of
      companion/base_config.py, base_contacts.py and base_support.py.
    - [CompanionSend]: companion/base_send.py over [Environment]. A task that
      waits is a function of its own ([_finish_started_request],
      [finish_frame_login]); what other tasks do during a wait is [meanwhile].
    - [CompanionEvents]: companion/base_events.py and the responses of
      base_callbacks.py. [CompanionBridge]: companion/companion_bridge.py: each
      handler runs on its view of the companion's state, and its outputs are
      performed in order.
    - [CompanionRequests], [CompanionDelivery], [CompanionChannels] and
      [CompanionAdverts] hold the theorems on these five.
    - [RfFabric]: rf_fabric/fabric.py, fabric_radio.py and models.py on one
      state: the registry of radios, the callbacks bound on them, the adapter
      that presents the fabric as one radio.
    - [ModemProtocol]: hardware/protocol_constants.py and the parser of the
      receive threads; [ModemRadio]: hardware/usb_radio.py and tcp_radio.py,
      which share their code up to the interface [Link]; [ModemSync]: their
      blocking halves, one module per driver ([Usb], [Tcp]). [ModemCommands]
      holds the theorems on [ModemRadio].
    - [KissModem]: hardware/kiss_modem_wrapper.py. The receive, transmit and
      reconnect threads act on the state in slices of a wait ([activity],
      [act]); the code under the in-flight and command locks is the caller.
      [KissModemLink] holds its theorems.
    - [Sx1262]: hardware/sx1262_wrapper.py. The interrupt handler, the background
      task and the settings act in the awaits of a send or a scan ([activity],
      [act]); what the driver tells the chip and what it hears is the [log].
      [Sx1262Send] holds its theorems.
    - [FrameServer]: companion/frame_server, one module per file: [Frames],
      [Server] (transport.py), [ChannelCommands], [ContactCommands],
      [MessagingCommands], [DeviceCommands], [Push] and [Dispatch] (the command
      table, the read loop). [FrameSessions] is the rest of transport.py: the
      sessions of clients, the task that accepts each one, the writer of its
      queue, eviction and [stop] as interleaved steps. [FrameStream],
      [FrameContacts], [FrameMessages] and [FrameClients] hold the theorems:
      the byte streams, the contact dump, the messages, one client at a time
      ([clients_isolated]).

    ** What the theorems show

    - Wire format: [read_from] accepts exactly the frames of the grammar, and
      reading and writing are inverse both ways; bounds of accepted frames.
    - Forwarding: the forward of a flood, direct or TRACE packet is a valid
      frame with the right path, and the path a flood collects leads a direct
      packet through the same nodes. [wire_eq], equality of what is
      transmitted, is the equivalence the relays respect.
    - Traces and discovery: a trace visits the nodes of its path in order,
      collecting their SNRs, and is complete exactly at the end; discovery
      requests and responses arrive as they were built.
    - Dispatcher: over every run of [sys_step], no packet reaches the handlers
      twice within the duplicate window; the echo of an own transmission is
      dropped; packets in transit (which the duplicate filter does not see)
      are not delivered locally, only their ACKs are heard; the scope of a
      reply to a captured request refines the rule [choose_reply_scope].
    - Airtime budget: over every run of [repeater_step] in exact arithmetic, with
      constant settings, the weighted airtime between two states is at most the
      duty cycle of the time between them and of one window, and of one window
      more for each time client repeat is switched on ([duty_cycle_kept]); waiting as long as the
      code says is enough for the transmission ([budget_wait_suffices]).
    - Start and stop: once a [stop] has returned and until a loop is scheduled
      again, no loop runs and a received packet gets no task; a [stop] that waits
      can go on after the next turn of the loop.
    - ACKs: a registered wait is woken by the ACK of its CRC in every
      interleaving, and the end of a wait removes that waiter only.
    - Messages: texts, their ACKs, path returns with embedded ACKs and group
      texts survive from the builder of one node to the handler of another;
      every text packet that is built can be transmitted.
    - Requests: a text is delivered and its ACKs confirm it to the sender; a
      login reaches the application and its answer completes the client's
      pending login; a request reaches its handler and its answer the waiter
      of its tag ([carries] and [answers] of [Replies] are the contract between
      the server that builds a reply and the client that reads it). An answered
      request is never served again, a waiter is called no more often than it
      was registered, and the discovery replies keep to a rate.
    - Routes: of the copies of a flood reply the best is kept, a contact is
      not taught twice within the cooldown, and a taught route is learned.
    - Telemetry: the decoder reads back the encoded fields to their
      resolution, and its loop ends on every input.
    - Cryptography: decryption inverts encryption up to zero padding, and only
      authenticated data is decrypted.
    - Filters: bounded, well-formed, clean-up is invisible.
    - Companion: contacts and their proxies stay coherent, adverts respect what
      the owner set, eviction takes the oldest evictable contact, saving and
      loading round-trips, the queue conserves direct messages.
    - Sending: whatever happens during its waits, a request that ends has
      removed the callbacks it registered; all attempts after the first flood.
      The ACK of a text confirms it once, whatever the transport and the wait did,
      and the table of expected ACKs is bounded.
    - Receiving: of the copies of a text within the cache's time exactly the
      first is queued and announced; a channel datagram reaches the members of
      the channel, unchanged, and is not heard by its sender; a published
      advert carries a valid signature of the node it names, and can be passed
      on by sharing the contact it made.
    - Frame server: every command whose answer has a fixed size is answered
      to a connected client (unless the outbound queue is full), the frames in a byte stream are dispatched
      in order however they are cut, everything written is a sequence of
      well-formed frames; what a client reads with GET_CONTACTS restores the
      contacts, and the queued messages reach it in order.
    - RF fabric: in every reachable state a radio is bound exactly while the
      fabric is armed and the radio registered; a reception reaches the observer
      and the callback once each, observer first, if the callback raises no
      TypeError; a packet is transmitted by one
      radio and the result names it.
    - Modem drivers: a send that reports success heard a TX_DONE after its
      request was written (a late one of an earlier request cannot be told
      apart); it ends within its time budget however the
      modem answers; commands leave no waiter and no response behind; the
      packets in the stream of the modem reach the callback in order, however
      the link cuts it; the TCP driver is linked only after a complete
      handshake.
    - KISS: frames survive the serial line however it is cut into chunks, and
      the bulk decoders equal the byte-wise ones on valid streams.
    - KISS modem: packets pass a queue of 64 in order, none twice, and only those
      that find it full are lost, however the line is cut and whenever those
      without metrics are flushed; a transmission is
      confirmed only by a TX_DONE heard after it was queued; a command is
      answered only by a response it accepts, heard after the whole command was
      written or left over in the queue; both waits end.
    - SX1262: a send that reports success was confirmed by the chip after its
      preparation, which wrote the packet once, undisturbed and with no received
      packet left unread; every send ends with the lock free, and, if the calls
      of the library do not raise, restarts reception.
    - Behaviour that differs from what the code means to do is stated as
      theorems too: [trace_forward_overflows], [longer_stored_path_unsendable],
      [transient_upgrade_exceeds_limit], [kiss_decoders_diverge],
      [decoders_diverge], [late_error_answers], [late_tx_done_confirms],
      [long_message_lost], [failed_send_deafens], [late_cad_aborts],
      [drained_twice], [ldro_differs], [two_clients_share],
      [hang_up_loses_frame], [survives_stop].

    ** Conventions, parameters and bounds

    Integers are [Z]; where the code masks, packs or indexes, so does the
    model, and out-of-range values give the exception Python raises. Clock
    readings and random bytes are arguments. Code that is not in the repository
    is a parameter: the signature scheme of PyNaCl ([SignatureScheme]), the
    cayennelpp package ([lpp_from_bytes]), AES ([BlockCipher], with [BlockCipherLaws]: decryption
    inverts encryption block by block), X25519 ([KeyExchange]), the platform's
    [pow] ([fpow]). [Environment] gathers what a companion meets while it runs:
    clocks, random numbers, the transport (any function on its state), what
    happens during a wait, the handlers the host installed. [Modem],
    [LinkIO] and [KissEnv] are what the modem drivers meet: the link, the clock,
    the jitter, the traffic and the other tasks or threads during a wait; [Chip]
    is what the SX1262 driver meets: what its calls of the register library
    read, which of them raise, the clocks, the other tasks in an await;
    [RadioObjects] is what the fabric is told to join, [LifeRadio] what the
    dispatcher is started on. Time is the interface [Clock]: [float_clock] is Python's,
    [ClockLaws] what exact time has; so are [Num], [float_num] and [exact_num]. Concrete instances ([xor_cipher],
    [xor_exchange], [tick_clock]) show that the hypotheses can hold.

    Recursion that is not structural takes fuel, always the length of its input
    ([blocks_fuel] of [Crypto], [decode_fuel] of [Utf8], [decode_loop] of
    [Kiss] and of [Telemetry], the block loop of [Sha256]); each step consumes
    input, so the fuel does not run out, which the lemmas on these functions
    prove. Loops that end by the clock (the attempts of a modem send, the waits
    of its handshake) take turns as fuel; their results tell that the turns were
    used up, and the theorems give a number of turns that is enough, from how
    many readings of the clock their deadline takes. The callbacks of the application (authentication, request handlers,
    stored routes, probes, waiters) are arguments that may raise; callbacks
    that are only called are numbers, and their calls entries of a log.
    [isprintable] of [ProtocolResponse] is Unicode's notion of printable text,
    [identity_ok] of [ProtocolRequest] PyNaCl's check of a public key.

    ** What is not modelled

    I/O (serial ports, sockets, GPIO lines, SPI registers) and the creation and
    joining of its threads, the search for USB ports, logging and observers, the
    PyNaCl calls of the identities, the display texts of statistics and
    telemetry, the status dictionaries of the drivers, the sockets
    of the frame server, the registration of callbacks, the start of the
    teacher's tasks by a bridge. The drivers of other devices (wsradio.py,
    gpio_manager.py, the LoRaRF register library and the CH341 bridge) are I/O
    for the most part; node.py and companion_radio.py
    hand calls on to parts that are modelled. *)

From stdpp Require Export base tactics list numbers strings option relations.
From Stdlib Require Export ZArith Lia Ascii.

Open Scope Z_scope.

(** ** Python exceptions and results

    A Python function that may raise returns [res A]; the constructors name
    the exception classes the modelled code raises or catches. The text of a
    [ValueError] is kept up to its formatted operands. *)
Inductive exn : Type :=
| ValueError (msg : string)
| UnicodeError
| IndexError
| KeyError
| OverflowError
| StructError
| TypeError
| AttributeError
| ZeroDivisionError
| OtherError (msg : string).

Inductive res (A : Type) : Type :=
| Ok (a : A)
| Err (e : exn).
Arguments Ok {A} a.
Arguments Err {A} e.

(** [except ValueError]: [UnicodeError] is a subclass of [ValueError]. *)
Definition is_value_error (e : exn) : bool :=
  match e with ValueError _ | UnicodeError => true | _ => false end.

Global Instance res_ret : MRet res := fun A a => Ok a.
Global Instance res_bind : MBind res := fun A B f m =>
  match m with Ok a => f a | Err e => Err e end.
Global Instance res_fmap : FMap res := fun A B f m =>
  match m with Ok a => Ok (f a) | Err e => Err e end.

(** Stateful code: a method that mutates [self : S]. The state reached is
    returned also when an exception is raised, since Python does not undo the
    assignments made before the [raise]. *)
Definition py (S A : Type) : Type := S → S * res A.

Global Instance py_ret S : MRet (py S) := fun A a s => (s, Ok a).
Global Instance py_bind S : MBind (py S) := fun A B f m s =>
  match m s with (s', Ok a) => f a s' | (s', Err e) => (s', Err e) end.

Definition raise {S A} (e : exn) : py S A := fun s => (s, Err e).
Definition lift {S A} (r : res A) : py S A := fun s => (s, r).
Definition get {S} : py S S := fun s => (s, Ok s).
Definition modify {S} (f : S → S) : py S unit := fun s => (f s, Ok tt).

(** [try: m except Exception: h] *)
Definition py_try {S A} (m h : py S A) : py S A := fun s =>
  match m s with (s', Err _) => h s' | r => r end.

(** [if cond: raise e] *)
Definition raise_if (b : bool) (e : exn) : res unit := if b then Err e else Ok tt.

Definition is_ok {A} (r : res A) : bool := match r with Ok _ => true | Err _ => false end.

Lemma res_bind_ok {A B} (f : A → res B) (m : res A) b :
  (m ≫= f) = Ok b ↔ ∃ a, m = Ok a ∧ f a = Ok b.
Proof.
  destruct m as [a|e]; cbn; split; [eauto|intros (? & [= ->] & ?); done|done|].
  intros (? & ? & ?). done.
Qed.

Lemma raise_if_ok b e u : raise_if b e = Ok u ↔ b = false.
Proof. destruct b, u; done. Qed.

Lemma py_bind_ok {S A B} (f : A → py S B) (m : py S A) s s' b :
  (m ≫= f : py S B) s = (s', Ok b) ↔ ∃ s1 a, m s = (s1, Ok a) ∧ f a s1 = (s', Ok b).
Proof.
  unfold mbind, py_bind. destruct (m s) as [s1 [a|e]]; split.
  - eauto.
  - by intros (? & ? & [= -> ->] & ?).
  - done.
  - by intros (? & ? & ? & ?).
Qed.

Lemma lift_ok {S A} (r : res A) (s s' : S) a : lift r s = (s', Ok a) ↔ s' = s ∧ r = Ok a.
Proof. unfold lift. split; [by intros [= -> ->]|by intros [-> ->]]. Qed.

Lemma modify_ok {S} (f : S → S) s s' u : modify f s = (s', Ok u) ↔ s' = f s.
Proof. unfold modify. destruct u. split; [by intros [= ->]|by intros ->]. Qed.

(** A handled computation succeeds by itself, or its handler does. *)
Lemma py_try_ok {S A} (m h : py S A) s s' a :
  py_try m h s = (s', Ok a) ↔ m s = (s', Ok a) ∨ ∃ s1 e, m s = (s1, Err e) ∧ h s1 = (s', Ok a).
Proof.
  unfold py_try. destruct (m s) as [s1 [b|e]]; split.
  - by left.
  - by intros [?|(? & ? & [=] & _)].
  - intros H. right. eauto.
  - by intros [?|(? & ? & [= -> ->] & ?)].
Qed.

Lemma get_ok {S} (s s' a : S) : get s = (s', Ok a) ↔ s' = s ∧ a = s.
Proof. unfold get. split; [by intros [= -> ->]|by intros [-> ->]]. Qed.

Lemma mret_ok {S A} (a b : A) (s s' : S) : (mret a : py S A) s = (s', Ok b) ↔ s' = s ∧ b = a.
Proof. unfold mret, py_ret. split; [by intros [= -> ->]|by intros [-> ->]]. Qed.

(** A computation that moves the state along [R], whatever its result; [R] is
    a preorder, such as [same f] or [upholds I]. *)
Definition keeps {S A} (R : S → S → Prop) (m : py S A) : Prop := ∀ s, R s (m s).1.

Definition same {S B} (f : S → B) (s s' : S) : Prop := f s' = f s.
Definition upholds {S} (I : S → Prop) (s s' : S) : Prop := I s → I s'.

Global Instance same_preorder {S B} (f : S → B) : PreOrder (same f).
Proof. split; unfold same; repeat intro; congruence. Qed.

Global Instance upholds_preorder {S} (I : S → Prop) : PreOrder (upholds I).
Proof. split; unfold upholds; repeat intro; auto. Qed.

Section keeps.
Context {S : Type} (R : S → S → Prop) `{!PreOrder R}.

Lemma keeps_ret {A} (a : A) : keeps R (mret a).
Proof. intros s. reflexivity. Qed.

Lemma keeps_lift {A} (r : res A) : keeps R (lift r).
Proof. intros s. reflexivity. Qed.

Lemma keeps_raise {A} e : keeps R (raise e : py S A).
Proof. intros s. reflexivity. Qed.

Lemma keeps_get : keeps R get.
Proof. intros s. reflexivity. Qed.

Lemma keeps_modify f : (∀ s, R s (f s)) → keeps R (modify f).
Proof. intros Hf s. apply Hf. Qed.

Lemma keeps_bind {A B} (m : py S A) (k : A → py S B) :
  keeps R m → (∀ a, keeps R (k a)) → keeps R (m ≫= k).
Proof.
  intros Hm Hk s. specialize (Hm s). unfold mbind, py_bind. destruct (m s) as [s1 [a|e]]; [|done].
  cbn in Hm. etransitivity; [exact Hm|apply Hk].
Qed.

Lemma keeps_try {A} (m h : py S A) : keeps R m → keeps R h → keeps R (py_try m h).
Proof.
  intros Hm Hh s. specialize (Hm s). unfold py_try. destruct (m s) as [s1 [a|e]]; [done|].
  cbn in Hm. etransitivity; [exact Hm|apply Hh].
Qed.

(** After [get] the state is known. *)
Lemma keeps_get_bind {B} (k : S → py S B) : (∀ s, R s (k s s).1) → keeps R (get ≫= k).
Proof. intros Hk s. apply Hk. Qed.
End keeps.

(** *** Runs *)

Lemma py_bind_run {S A B} (m : py S A) (k : A → py S B) s s' a : m s = (s', Ok a) → (m ≫= k) s = k a s'.
Proof. intros H. unfold mbind, py_bind. by rewrite H. Qed.

Lemma py_bind_ext {S A B} (m m' : py S A) (k : A → py S B) s : m s = m' s → (m ≫= k) s = (m' ≫= k) s.
Proof. intros H. unfold mbind, py_bind. by rewrite H. Qed.

(** [py_try] with a handler that does not raise. *)
Lemma py_try_total {S A} (R : S → S → Prop) `{!PreOrder R} (m : py S A) (a : A) s :
  keeps R m → ∃ s' x, py_try m (mret a) s = (s', Ok x) ∧ R s s' ∧ (m s = (s', Ok x) ∨ x = a).
Proof.
  intros Hm. specialize (Hm s). unfold py_try. destruct (m s) as [s1 [x|e]]; cbn in Hm.
  - exists s1, x. auto.
  - exists s1, a. auto.
Qed.

Lemma run_keeps {S A} (R : S → S → Prop) (m : py S A) s s' r : m s = (s', r) → keeps R m → R s s'.
Proof. intros H Hk. specialize (Hk s). by rewrite H in Hk. Qed.

(** [py_try] with a handler that runs from the state of the failure. *)
Lemma py_try_else {S A} (R : S → S → Prop) `{!PreOrder R} (m h : py S A) s :
  keeps R m → (∃ s' x, m s = (s', Ok x) ∧ R s s' ∧ py_try m h s = (s', Ok x)) ∨ (∃ s', R s s' ∧ py_try m h s = h s').
Proof.
  intros Hm. specialize (Hm s). unfold py_try. destruct (m s) as [s1 [x|e]]; cbn in Hm; [left|right]; eauto.
Qed.

(** ** Integers *)

(** A value a Python [bytes] object may hold. *)
Definition is_byte (z : Z) : Prop := 0 ≤ z < 256.

Global Instance is_byte_dec z : Decision (is_byte z).
Proof. unfold is_byte. apply _. Defined.

(** The masks and shifts of the wire format as arithmetic. *)
Lemma land_3 z : Z.land z 3 = z mod 4.
Proof. apply (Z.land_ones z 2). lia. Qed.
Lemma land_15 z : Z.land z 15 = z mod 16.
Proof. apply (Z.land_ones z 4). lia. Qed.
Lemma land_63 z : Z.land z 63 = z mod 64.
Proof. apply (Z.land_ones z 6). lia. Qed.
Lemma land_255 z : Z.land z 255 = z mod 256.
Proof. apply (Z.land_ones z 8). lia. Qed.
Lemma shiftr_2 z : Z.shiftr z 2 = z / 4.
Proof. by apply (Z.shiftr_div_pow2 z 2). Qed.
Lemma shiftr_6 z : Z.shiftr z 6 = z / 64.
Proof. by apply (Z.shiftr_div_pow2 z 6). Qed.
Lemma shiftl_2 z : Z.shiftl z 2 = z * 4.
Proof. by apply (Z.shiftl_mul_pow2 z 2). Qed.
Lemma shiftl_6 z : Z.shiftl z 6 = z * 64.
Proof. by apply (Z.shiftl_mul_pow2 z 6). Qed.

Create Rewrite HintDb bits.
#[export] Hint Rewrite land_3 land_15 land_63 land_255 shiftr_2 shiftr_6 shiftl_2 shiftl_6 : bits.

Lemma is_byte_land_l z m : is_byte m → is_byte (Z.land z m).
Proof.
  intros [Hm1 Hm2]. split.
  - apply Z.land_nonneg. auto.
  - destruct (Z.eq_dec (Z.land z m) 0) as [->|Hne]; [lia|].
    assert (0 ≤ Z.land z m) by (apply Z.land_nonneg; auto).
    destruct (Z.eq_dec m 0) as [->|]; [rewrite Z.land_0_r in Hne; lia|].
    change 256 with (2 ^ 8). apply Z.log2_lt_pow2; [lia|].
    assert (Z.log2 m < 8) by (apply Z.log2_lt_pow2; lia).
    destruct (Z_lt_ge_dec (Z.log2 (Z.land z m)) 8); [done|].
    exfalso. assert (Z.testbit (Z.land z m) (Z.log2 (Z.land z m)) = true) as Hb
      by (apply Z.bit_log2; lia).
    rewrite Z.land_spec, (Z.bits_above_log2 m) in Hb by lia.
    by rewrite andb_false_r in Hb.
Qed.

(** A lor of bit fields that do not overlap is a sum. *)
Lemma lor_disjoint_add a b n : 0 ≤ n → 0 ≤ a < 2 ^ n → Z.lor a (b * 2 ^ n) = a + b * 2 ^ n.
Proof.
  intros Hn Ha. rewrite <- Z.add_lor_land.
  enough (Z.land a (b * 2 ^ n) = 0) by lia.
  apply Z.bits_inj'. intros k Hk. rewrite Z.land_spec, Z.bits_0, <- Z.shiftl_mul_pow2 by lia.
  destruct (Z_lt_ge_dec k n).
  - rewrite Z.shiftl_spec_low by lia. apply andb_false_r.
  - destruct (Z.eq_dec a 0) as [->|]; [by rewrite Z.bits_0|].
    rewrite Z.bits_above_log2; [done|lia|].
    assert (Z.log2 a < n) by (apply Z.log2_lt_pow2; lia). lia.
Qed.

(** Enumerate the integers below a small bound: decides a byte-wide claim. *)
Lemma forall_below (P : Z → bool) (n : nat) :
  forallb (fun i => P (Z.of_nat i)) (seq 0 n) = true →
  ∀ z, 0 ≤ z < Z.of_nat n → P z = true.
Proof.
  intros H z Hz. rewrite forallb_forall in H.
  specialize (H (Z.to_nat z)). rewrite Z2Nat.id in H by lia.
  apply H, in_seq. lia.
Qed.

(** ** Tactics of the development *)

(** Split boolean tests of the goal and turn them into propositions. *)
Ltac bool_hyps :=
  repeat match goal with
  | H : (_ && _)%bool = true |- _ => apply andb_true_iff in H as [? ?]
  | H : (_ || _)%bool = false |- _ => apply orb_false_iff in H as [? ?]
  | H : negb _ = true |- _ => apply negb_true_iff in H
  | H : negb _ = false |- _ => apply negb_false_iff in H
  | H : (_ =? _) = true |- _ => apply Z.eqb_eq in H
  | H : (_ =? _) = false |- _ => apply Z.eqb_neq in H
  | H : (_ <? _) = true |- _ => apply Z.ltb_lt in H
  | H : (_ <? _) = false |- _ => apply Z.ltb_ge in H
  | H : (_ <=? _) = true |- _ => apply Z.leb_le in H
  | H : (_ <=? _) = false |- _ => apply Z.leb_gt in H
  | H : (_ >? _) = true |- _ => rewrite Z.gtb_lt in H
  | H : (_ >? _) = false |- _ => rewrite Z.gtb_ltb in H; apply Z.ltb_ge in H
  | H : (_ >=? _) = true |- _ => rewrite Z.geb_le in H
  | H : (_ >=? _) = false |- _ => rewrite Z.geb_leb in H; apply Z.leb_gt in H
  | H : bool_decide _ = true |- _ => apply bool_decide_eq_true in H
  | H : bool_decide _ = false |- _ => apply bool_decide_eq_false in H
  end.

(** Peel a successful computation in the error monad. *)
Ltac res_inv :=
  repeat match goal with
  | H : mbind _ _ = Ok _ |- _ => apply res_bind_ok in H as (? & ? & ?)
  | H : raise_if _ _ = Ok _ |- _ => apply raise_if_ok in H
  | H : mret _ = Ok _ |- _ => unfold mret, res_ret in H
  | H : Ok _ = Ok _ |- _ => injection H as H
  | H : Err _ = Ok _ |- _ => discriminate H
  | H : Ok _ = Err _ |- _ => discriminate H
  end; subst.

(** Peel a successful stateful computation. *)
Ltac py_inv :=
  repeat match goal with
  | H : @mbind (py _) _ _ _ _ _ _ = (_, Ok _) |- _ => apply py_bind_ok in H as (? & ? & ? & ?)
  | H : lift _ _ = (_, Ok _) |- _ => apply lift_ok in H as [? ?]
  | H : modify _ _ = (_, Ok _) |- _ => apply modify_ok in H
  | H : get _ = (_, Ok _) |- _ => apply get_ok in H as [? ?]
  | H : @mret (py _) _ _ _ _ = (_, Ok _) |- _ => apply mret_ok in H as [? ?]
  | H : raise _ _ = (_, Ok _) |- _ => discriminate H
  | H : (_, Err _) = (_, Ok _) |- _ => discriminate H
  | H : (if ?b then _ else _) _ = (_, Ok _) |- _ => destruct b eqn:?
  end; subst.

(** Decompose [keeps R m] along the structure of [m]; what is left are the
    assignments. *)
Ltac keeps :=
  repeat match goal with
  | |- keeps _ (mbind _ _) => apply keeps_bind; [apply _| |intros ?]
  | |- keeps _ (mret _) => apply keeps_ret; apply _
  | |- keeps _ (lift _) => apply keeps_lift; apply _
  | |- keeps _ (raise _) => apply keeps_raise; apply _
  | |- keeps _ get => apply keeps_get; apply _
  | |- keeps _ (modify _) => apply keeps_modify
  | |- keeps _ (let _ := _ in _) => cbv zeta
  | |- keeps _ (if ?b then _ else _) => destruct b
  | |- keeps _ (match ?x with _ => _ end) => destruct x
  end.

(** Division and remainder by constants. *)
Ltac zdm := Z.div_mod_to_equations; lia.

(** Decide a boolean property of a byte by enumeration. *)
Ltac byte_cases x Hx P :=
  let H := fresh "Hb" in
  assert (P x = true) as H
    by (apply (forall_below P 256); [vm_compute; reflexivity | unfold is_byte in Hx; lia]).

(** Decide a closed proposition by computation. *)
Ltac decide_now := match goal with |- ?P => refine (bool_decide_unpack P _); vm_compute; exact I end.
