(* ===== verification/PyData.v ===== *)
(** * Python data used by the code: [bytes], slices, integer codecs, hex

    [bytes] and [bytearray] objects are lists of integers; [bytes_ok] says the
    integers are in 0..255, which Python enforces when the object is built.
    Slices follow Python's rules for negative and out-of-range bounds. *)

From S2P Require Import Prelude.

Abbreviation bytes := (list Z).

Definition bytes_ok (b : bytes) : Prop := Forall is_byte b.

Global Instance bytes_ok_dec b : Decision (bytes_ok b).
Proof. unfold bytes_ok. apply _. Defined.

Definition len {A} (l : list A) : Z := Z.of_nat (length l).

Definition bytes_eqb (a b : bytes) : bool := bool_decide (a = b).

(** ** Slices and indexing *)

Definition clamp_index (n i : Z) : Z := if i <? 0 then Z.max 0 (n + i) else Z.min i n.

(** [l[i:j]] *)
Definition slice {A} (l : list A) (i j : Z) : list A :=
  let i' := clamp_index (len l) i in
  let j' := clamp_index (len l) j in
  take (Z.to_nat (j' - i')) (drop (Z.to_nat i') l).

(** [l[:j]] *)
Definition slice_to {A} (l : list A) (j : Z) : list A :=
  take (Z.to_nat (clamp_index (len l) j)) l.

(** [l[i:]] *)
Definition slice_from {A} (l : list A) (i : Z) : list A :=
  drop (Z.to_nat (clamp_index (len l) i)) l.

(** [l[i]] *)
Definition index {A} (l : list A) (i : Z) : res A :=
  let k := if i <? 0 then len l + i else i in
  if k <? 0 then Err IndexError
  else match l !! Z.to_nat k with Some x => Ok x | None => Err IndexError end.

(** ** Building bytes from integers *)

(** [bytes([x, ...])], [bytearray([x, ...])], [bytearray.append]. *)
Definition bytes_of_ints (l : list Z) : res bytes :=
  if forallb (fun z => (0 <=? z) && (z <? 256)) l then Ok l
  else Err (ValueError "byte must be in range(0, 256)").

Definition zeros (n : Z) : bytes := replicate (Z.to_nat n) 0.

(** [b.ljust(n, b"\x00")] *)
Definition ljust (b : bytes) (n : Z) : bytes := b ++ zeros (n - len b).

(** [b.split(b"\x00", 1)[0]]: the bytes before the first NUL. *)
Fixpoint before_nul (b : bytes) : bytes :=
  match b with
  | [] => []
  | x :: b' => if x =? 0 then [] else x :: before_nul b'
  end.

Fixpoint lstrip_nul (b : bytes) : bytes :=
  match b with
  | x :: b' => if x =? 0 then lstrip_nul b' else b
  | [] => []
  end.

(** [b.strip(b"\x00")] *)
Definition strip_nul (b : bytes) : bytes := reverse (lstrip_nul (reverse (lstrip_nul b))).

(** [b.rstrip(b"\x00")], also of text. *)
Definition rstrip_nul (b : bytes) : bytes := reverse (lstrip_nul (reverse b)).

(** ** Little- and big-endian integers *)

Fixpoint le_bytes (n : nat) (z : Z) : bytes :=
  match n with
  | O => []
  | S n' => z mod 256 :: le_bytes n' (z / 256)
  end.

(** [int.from_bytes(b, "little")] *)
Fixpoint from_le (b : bytes) : Z :=
  match b with
  | [] => 0
  | x :: b' => x + 256 * from_le b'
  end.

(** [int.from_bytes(b, "little", signed=True)] *)
Definition from_le_signed (b : bytes) : Z :=
  let v := from_le b in
  let m := 2 ^ (8 * len b) in
  if (negb (bool_decide (b = []))) && (m / 2 <=? v) then v - m else v.

(** [z.to_bytes(n, "little")] and [z.to_bytes(n, "big")] *)
Definition to_bytes_le (n : nat) (z : Z) : res bytes :=
  if (0 <=? z) && (z <? 256 ^ Z.of_nat n) then Ok (le_bytes n z) else Err OverflowError.

Definition to_bytes_be (n : nat) (z : Z) : res bytes :=
  if (0 <=? z) && (z <? 256 ^ Z.of_nat n) then Ok (reverse (le_bytes n z))
  else Err OverflowError.

(** [struct.pack("<I")], ["<H"], ["<B"] and ["<i"]. *)
Definition pack_uint (n : nat) (z : Z) : res bytes :=
  if (0 <=? z) && (z <? 256 ^ Z.of_nat n) then Ok (le_bytes n z) else Err StructError.

Definition pack_I := pack_uint 4.
Definition pack_H := pack_uint 2.
Definition pack_B := pack_uint 1.

Definition pack_i (z : Z) : res bytes :=
  if (- 2 ^ 31 <=? z) && (z <? 2 ^ 31) then Ok (le_bytes 4 (z mod 2 ^ 32))
  else Err StructError.

(** [struct.pack("<b")] and [("<h")] *)
Definition pack_int (n : nat) (z : Z) : res bytes :=
  if (- (256 ^ Z.of_nat n / 2) <=? z) && (z <? 256 ^ Z.of_nat n / 2) then Ok (le_bytes n (z mod 256 ^ Z.of_nat n))
  else Err StructError.

(** ** Hexadecimal text *)

Definition hex_digit (d : Z) : ascii :=
  ascii_of_nat (Z.to_nat (if d <? 10 then 48 + d else 87 + d)).

(** [b.hex()] *)
Fixpoint hex (b : bytes) : string :=
  match b with
  | [] => EmptyString
  | x :: b' => String (hex_digit (x / 16)) (String (hex_digit (x mod 16)) (hex b'))
  end.

Definition upper_ascii (c : ascii) : ascii :=
  let n := nat_of_ascii c in
  if ((97 <=? n) && (n <=? 122))%nat then ascii_of_nat (n - 32) else c.

(** [s.upper()] on ASCII text *)
Fixpoint upper (s : string) : string :=
  match s with
  | EmptyString => EmptyString
  | String c s' => String (upper_ascii c) (upper s')
  end.

Definition hex_value (c : ascii) : option Z :=
  let n := Z.of_nat (nat_of_ascii c) in
  if (48 <=? n) && (n <=? 57) then Some (n - 48)
  else if (97 <=? n) && (n <=? 102) then Some (n - 87)
  else if (65 <=? n) && (n <=? 70) then Some (n - 55)
  else None.

Definition is_space (c : ascii) : bool :=
  let n := nat_of_ascii c in
  ((n =? 32) || ((9 <=? n) && (n <=? 13)))%nat.

(** [bytes.fromhex(s)]: pairs of digits, ASCII white space allowed between
    the pairs. *)
Fixpoint fromhex (s : string) : res bytes :=
  match s with
  | EmptyString => Ok []
  | String a s' =>
      if is_space a then fromhex s'
      else match s' with
           | String b s'' =>
               match hex_value a, hex_value b with
               | Some x, Some y => r ← fromhex s''; mret (16 * x + y :: r)
               | _, _ => Err (ValueError "non-hexadecimal number found in fromhex() arg")
               end
           | EmptyString => Err (ValueError "non-hexadecimal number found in fromhex() arg")
           end
  end.

(** ** Lemmas on lengths and slices *)

Lemma len_nonneg {A} (l : list A) : 0 ≤ len l.
Proof. unfold len. lia. Qed.

Lemma len_app {A} (l k : list A) : len (l ++ k) = len l + len k.
Proof. unfold len. rewrite length_app. lia. Qed.

Lemma len_cons {A} (x : A) l : len (x :: l) = 1 + len l.
Proof. unfold len. cbn [length]. lia. Qed.

Lemma len_nil {A} : len (@nil A) = 0.
Proof. done. Qed.

Lemma len_zero_iff {A} (l : list A) : len l = 0 ↔ l = [].
Proof. unfold len. destruct l; cbn; split; intros; try done; lia. Qed.

Lemma slice_to_nonneg {A} (l : list A) j :
  0 ≤ j → slice_to l j = take (Z.to_nat j) l.
Proof.
  intros Hj. unfold slice_to, clamp_index, len.
  destruct (Z.ltb_spec j 0); [lia|].
  destruct (Z_le_gt_dec j (Z.of_nat (length l))).
  - by rewrite Z.min_l by lia.
  - rewrite Z.min_r, Nat2Z.id by lia. rewrite !take_ge by lia. done.
Qed.

Lemma slice_to_all {A} (l : list A) : slice_to l (len l) = l.
Proof. rewrite slice_to_nonneg by apply len_nonneg. unfold len. rewrite Nat2Z.id. by apply take_ge. Qed.

Lemma slice_to_ge {A} (l : list A) j : len l ≤ j → slice_to l j = l.
Proof.
  pose proof (len_nonneg l). intros. rewrite slice_to_nonneg by lia.
  apply take_ge. unfold len in *. lia.
Qed.

Lemma slice_from_nonneg {A} (l : list A) i :
  0 ≤ i → slice_from l i = drop (Z.to_nat i) l.
Proof.
  intros Hj. unfold slice_from, clamp_index, len.
  destruct (Z.ltb_spec i 0); [lia|].
  destruct (Z_le_gt_dec i (Z.of_nat (length l))).
  - by rewrite Z.min_l by lia.
  - rewrite Z.min_r, Nat2Z.id by lia. rewrite !drop_ge by lia. done.
Qed.

Lemma slice_nonneg {A} (l : list A) i j :
  0 ≤ i ≤ j → slice l i j = take (Z.to_nat (j - i)) (drop (Z.to_nat i) l).
Proof.
  intros Hij. unfold slice, clamp_index, len.
  destruct (Z.ltb_spec i 0); [lia|]. destruct (Z.ltb_spec j 0); [lia|].
  destruct (Z_le_gt_dec i (Z.of_nat (length l))).
  - rewrite (Z.min_l i) by lia.
    destruct (Z_le_gt_dec j (Z.of_nat (length l))).
    + by rewrite Z.min_l by lia.
    + rewrite Z.min_r by lia. rewrite !take_ge; [done|..]; rewrite length_drop; lia.
  - rewrite !drop_ge by lia. by rewrite !take_nil.
Qed.

Lemma slice_to_app_exact {A} (l k : list A) n : n = len l → slice_to (l ++ k) n = l.
Proof.
  intros ->. rewrite slice_to_nonneg by apply len_nonneg. unfold len.
  rewrite Nat2Z.id. by apply take_app_length.
Qed.

Lemma slice_from_app_exact {A} (l k : list A) n : n = len l → slice_from (l ++ k) n = k.
Proof.
  intros ->. rewrite slice_from_nonneg by apply len_nonneg. unfold len.
  rewrite Nat2Z.id. by apply drop_app_length.
Qed.

Lemma slice_app_exact {A} (a b c : list A) i j :
  i = len a → j = len a + len b → slice (a ++ b ++ c) i j = b.
Proof.
  intros -> ->. pose proof (len_nonneg a). pose proof (len_nonneg b).
  rewrite slice_nonneg by lia.
  replace (len a + len b - len a) with (len b) by lia.
  unfold len. rewrite !Nat2Z.id, drop_app_length. by apply take_app_length.
Qed.

Lemma slice_to_from {A} (l : list A) n : 0 ≤ n → slice_to l n ++ slice_from l n = l.
Proof. intros. rewrite slice_to_nonneg, slice_from_nonneg by lia. apply take_drop. Qed.

Lemma len_slice_to {A} (l : list A) n : 0 ≤ n ≤ len l → len (slice_to l n) = n.
Proof.
  intros. rewrite slice_to_nonneg by lia. unfold len in *. rewrite length_take. lia.
Qed.

Lemma len_slice_to_le {A} (l : list A) n : 0 ≤ n → len (slice_to l n) ≤ n.
Proof. intros. rewrite slice_to_nonneg by lia. unfold len. rewrite length_take. lia. Qed.

Lemma len_slice_from {A} (l : list A) n : 0 ≤ n ≤ len l → len (slice_from l n) = len l - n.
Proof.
  intros. rewrite slice_from_nonneg by lia. unfold len in *. rewrite length_drop. lia.
Qed.

Lemma len_slice {A} (l : list A) i j : 0 ≤ i ≤ j → j ≤ len l → len (slice l i j) = j - i.
Proof.
  intros. rewrite slice_nonneg by lia. unfold len in *. rewrite length_take, length_drop. lia.
Qed.

Lemma slice_split {A} (l : list A) i j k :
  0 ≤ i ≤ j → j ≤ k → slice l i j ++ slice l j k = slice l i k.
Proof.
  intros. rewrite !slice_nonneg by lia.
  replace (Z.to_nat j) with (Z.to_nat i + Z.to_nat (j - i))%nat by lia.
  rewrite <- drop_drop, take_take_drop. f_equal. lia.
Qed.

Lemma len_zeros n : 0 ≤ n → len (zeros n) = n.
Proof. intros. unfold len, zeros. rewrite length_replicate. lia. Qed.

Lemma bytes_ok_app a b : bytes_ok (a ++ b) ↔ bytes_ok a ∧ bytes_ok b.
Proof. apply Forall_app. Qed.

Lemma bytes_ok_cons x b : bytes_ok (x :: b) ↔ is_byte x ∧ bytes_ok b.
Proof. apply Forall_cons_iff. Qed.

Lemma bytes_ok_take n b : bytes_ok b → bytes_ok (take n b).
Proof. apply Forall_take. Qed.

Lemma bytes_ok_drop n b : bytes_ok b → bytes_ok (drop n b).
Proof. apply Forall_drop. Qed.

Lemma bytes_ok_slice_to b j : bytes_ok b → bytes_ok (slice_to b j).
Proof. apply bytes_ok_take. Qed.

Lemma bytes_ok_slice_from b j : bytes_ok b → bytes_ok (slice_from b j).
Proof. apply bytes_ok_drop. Qed.

Lemma bytes_ok_slice b i j : bytes_ok b → bytes_ok (slice b i j).
Proof. intros. by apply bytes_ok_take, bytes_ok_drop. Qed.

Lemma bytes_ok_zeros n : bytes_ok (zeros n).
Proof. apply Forall_replicate. unfold is_byte. lia. Qed.

Lemma bytes_ok_nil : bytes_ok [].
Proof. constructor. Qed.

Lemma bytes_of_ints_ok l : bytes_ok l → bytes_of_ints l = Ok l.
Proof.
  intros H. unfold bytes_of_ints.
  replace (forallb _ l) with true; [done|]. symmetry.
  apply forallb_forall. intros x Hx. unfold bytes_ok in H.
  rewrite List.Forall_forall in H. apply H in Hx. unfold is_byte in Hx. lia.
Qed.

Lemma bytes_of_ints_inv l b : bytes_of_ints l = Ok b → b = l ∧ bytes_ok l.
Proof.
  unfold bytes_of_ints. destruct (forallb _ l) eqn:E; [|done]. intros [= <-].
  split; [done|]. rewrite forallb_forall in E. apply List.Forall_forall.
  intros x Hx. apply E in Hx. unfold is_byte. lia.
Qed.

Lemma bytes_eqb_true a b : bytes_eqb a b = true ↔ a = b.
Proof. apply bool_decide_eq_true. Qed.

Lemma bytes_eqb_refl a : bytes_eqb a a = true.
Proof. by apply bytes_eqb_true. Qed.

(** ** Lemmas on the integer codecs *)

Lemma length_le_bytes n z : length (le_bytes n z) = n.
Proof. revert z. induction n; intros; cbn; auto. Qed.

Lemma len_le_bytes n z : len (le_bytes n z) = Z.of_nat n.
Proof. unfold len. by rewrite length_le_bytes. Qed.

Lemma bytes_ok_le_bytes n z : bytes_ok (le_bytes n z).
Proof.
  revert z. induction n as [|n IH]; intros; cbn [le_bytes]; [apply bytes_ok_nil|].
  apply bytes_ok_cons. split; [|done]. unfold is_byte. apply Z.mod_pos_bound. lia.
Qed.

Lemma pow256_succ n : 256 ^ Z.of_nat (S n) = 256 * 256 ^ Z.of_nat n.
Proof. rewrite Nat2Z.inj_succ, Z.pow_succ_r; lia. Qed.

Lemma from_le_le_bytes n z : 0 ≤ z < 256 ^ Z.of_nat n → from_le (le_bytes n z) = z.
Proof.
  revert z. induction n as [|n IH]; intros z Hz.
  - cbn in Hz. cbn. lia.
  - rewrite pow256_succ in Hz. cbn [le_bytes from_le]. rewrite IH.
    + pose proof (Z.div_mod z 256). lia.
    + split; [apply Z.div_pos; lia|]. apply Z.div_lt_upper_bound; lia.
Qed.

Lemma from_le_bound b : bytes_ok b → 0 ≤ from_le b < 256 ^ len b.
Proof.
  unfold len. induction 1 as [|x b Hx Hb IH]; [done|].
  cbn [from_le length]. rewrite pow256_succ. unfold is_byte in Hx. nia.
Qed.

Lemma le_bytes_from_le b : bytes_ok b → le_bytes (length b) (from_le b) = b.
Proof.
  induction 1 as [|x b Hx Hb IH]; [done|]. cbn [length le_bytes from_le]. unfold is_byte in Hx.
  rewrite (Z.mul_comm 256), Z.mod_add, Z.mod_small by lia.
  rewrite Z.div_add, Z.div_small, Z.add_0_l, IH by lia. done.
Qed.

Lemma pack_uint_ok n z : 0 ≤ z < 256 ^ Z.of_nat n → pack_uint n z = Ok (le_bytes n z).
Proof.
  intros [??]. unfold pack_uint.
  rewrite (proj2 (Z.leb_le _ _)), (proj2 (Z.ltb_lt _ _)) by done. done.
Qed.

Lemma pack_uint_inv n z b :
  pack_uint n z = Ok b → 0 ≤ z < 256 ^ Z.of_nat n ∧ b = le_bytes n z.
Proof. unfold pack_uint. destruct (_ && _) eqn:E; [|done]. intros [= <-]. bool_hyps. auto. Qed.

Lemma to_bytes_le_ok n z : 0 ≤ z < 256 ^ Z.of_nat n → to_bytes_le n z = Ok (le_bytes n z).
Proof.
  intros [??]. unfold to_bytes_le.
  rewrite (proj2 (Z.leb_le _ _)), (proj2 (Z.ltb_lt _ _)) by done. done.
Qed.

Lemma to_bytes_le_inv n z b :
  to_bytes_le n z = Ok b → 0 ≤ z < 256 ^ Z.of_nat n ∧ b = le_bytes n z.
Proof. unfold to_bytes_le. destruct (_ && _) eqn:E; [|done]. intros [= <-]. bool_hyps. auto. Qed.

(** ** Hint databases *)

Create HintDb pybytes.
Create Rewrite HintDb pylen.
#[export] Hint Resolve bytes_ok_slice bytes_ok_slice_to bytes_ok_slice_from bytes_ok_le_bytes
  bytes_ok_zeros bytes_ok_nil bytes_ok_take bytes_ok_drop len_nonneg : pybytes.
#[export] Hint Rewrite @len_app @len_cons @len_nil len_le_bytes : pylen.

(** Normalise lengths, then arithmetic. *)
Ltac len_lia :=
  autorewrite with pylen in *;
  repeat match goal with
  | |- context [len ?l] =>
      lazymatch goal with H : 0 ≤ len l |- _ => fail | _ => pose proof (len_nonneg l) end
  | _ : context [len ?l] |- _ =>
      lazymatch goal with H : 0 ≤ len l |- _ => fail | _ => pose proof (len_nonneg l) end
  end; lia.

(** ** Positions *)

Lemma index_app_exact {A} (l k : list A) x n : n = len l → index (l ++ x :: k) n = Ok x.
Proof.
  intros ->. pose proof (len_nonneg l). unfold index. destruct (Z.ltb_spec (len l) 0); [lia|].
  destruct (Z.ltb_spec (len l) 0); [lia|]. unfold len. by rewrite Nat2Z.id, list_lookup_middle.
Qed.

Lemma index_inv {A} (l : list A) i x :
  0 ≤ i → index l i = Ok x → ∃ l1 l2, l = l1 ++ x :: l2 ∧ len l1 = i.
Proof.
  intros Hi. unfold index. destruct (Z.ltb_spec i 0); [lia|].
  destruct (Z.ltb_spec i 0); [lia|].
  destruct (l !! Z.to_nat i) eqn:E; [|done]. intros [= <-].
  exists (take (Z.to_nat i) l), (drop (S (Z.to_nat i)) l).
  split; [by rewrite take_drop_middle|].
  apply lookup_lt_Some in E. unfold len. rewrite length_take. lia.
Qed.

(** Splitting data of sufficient length at an index. *)
Lemma split_at_len {A} (l : list A) n :
  0 ≤ n ≤ len l → ∃ l1 l2, l = l1 ++ l2 ∧ len l1 = n.
Proof.
  intros. exists (slice_to l n), (slice_from l n).
  split; [by rewrite slice_to_from by lia|by apply len_slice_to].
Qed.

Lemma index_in_range {A} (l : list A) i : 0 ≤ i < len l → ∃ x, index l i = Ok x.
Proof.
  intros Hi. destruct (split_at_len l i) as (a & b & -> & Ha); [lia|].
  destruct b as [|x b]; [autorewrite with pylen in *; lia|].
  exists x. by apply index_app_exact.
Qed.

(** Lengths of packed fields. *)
Lemma len_pack n z b : pack_uint n z = Ok b → len b = Z.of_nat n.
Proof. intros H. apply pack_uint_inv in H as [_ ->]. apply len_le_bytes. Qed.
Lemma len_pack_i z b : pack_i z = Ok b → len b = 4.
Proof. unfold pack_i. destruct (_ && _); [|done]. by intros [= <-]. Qed.
Lemma len_pack_int n z b : pack_int n z = Ok b → len b = Z.of_nat n.
Proof. unfold pack_int. destruct (_ && _); [|done]. intros [= <-]. apply len_le_bytes. Qed.
Lemma len_ints l b : bytes_of_ints l = Ok b → len b = len l.
Proof. intros H. by apply bytes_of_ints_inv in H as [-> _]. Qed.
Lemma len_ljust b n : 0 ≤ n → len (ljust (slice_to b n) n) = n.
Proof.
  intros Hn. unfold ljust. rewrite len_app. pose proof (len_slice_to_le b n Hn). rewrite len_zeros by lia. lia.
Qed.

Lemma signed_roundtrip z b : pack_i z = Ok b → from_le_signed b = z.
Proof.
  unfold pack_i. destruct (_ && _) eqn:E; [|done]. bool_hyps. intros [= <-].
  change [_; _; _; _] with (le_bytes 4 (z mod 2 ^ 32)). unfold from_le_signed. rewrite from_le_le_bytes, len_le_bytes by zdm.
  rewrite bool_decide_false by done. cbn [negb andb]. change (2 ^ (8 * Z.of_nat 4)) with (2 ^ 32).
  change (2 ^ 32 / 2) with (2 ^ 31). destruct (2 ^ 31 <=? z mod 2 ^ 32) eqn:E1; bool_hyps; zdm.
Qed.

Lemma pack_i_ok z : - 2 ^ 31 ≤ z < 2 ^ 31 → ∃ b, pack_i z = Ok b ∧ len b = 4 ∧ from_le_signed b = z.
Proof.
  intros Hz. assert (∃ b, pack_i z = Ok b) as [b Hb].
  { unfold pack_i. destruct (_ && _) eqn:E; [by eexists|]. apply andb_false_iff in E as [E|E]; bool_hyps; lia. }
  exists b. split_and!; [done|by eapply len_pack_i|by apply signed_roundtrip].
Qed.

Lemma zeros_start n : zeros n = [] ∨ ∃ r, zeros n = 0 :: r.
Proof. unfold zeros. destruct (Z.to_nat n); [by left|right; by eexists]. Qed.
