(* ===== verification/Sha256.v ===== *)
(** * SHA-256 and HMAC-SHA256 ([hashlib.sha256], [hmac.new])

    The digests of Python's standard library as executable functions on
    [bytes]; words are 32-bit integers kept in range by [w32]. The theorems of
    the development use only that a digest is 32 bytes long; the witnesses
    compute with the functions. *)

From S2P Require Import Prelude PyData.

Definition w32 (x : Z) : Z := x mod 2 ^ 32.
Definition add32 (x y : Z) : Z := w32 (x + y).
Definition rotr (n x : Z) : Z := Z.lor (Z.shiftr x n) (w32 (Z.shiftl x (32 - n))).

(** The constants of FIPS 180-4, from their definition: the first 32 bits of
    the fractional parts of the cube and square roots of the first primes. *)
Definition is_prime (n : Z) : bool :=
  (2 <=? n) && forallb (fun d => negb (n mod Z.of_nat d =? 0)) (seq 2 (Z.to_nat n - 2)).

Definition primes_to (n : nat) : list Z := List.filter is_prime (map Z.of_nat (seq 0 (S n))).

(** The integer part of the cube root of [n] below [2 ^ bits]. *)
Definition cube_root (bits : nat) (n : Z) : Z :=
  fold_left (fun r i => let r' := r + 2 ^ Z.of_nat i in if r' * r' * r' <=? n then r' else r)
    (reverse (seq 0 bits)) 0.

Definition K256 : list Z :=
  Eval vm_compute in map (fun p => w32 (cube_root 36 (p * 2 ^ 96))) (primes_to 311).

(** Working variables a..h. *)
Record hstate := HState { ha : Z; hb : Z; hc : Z; hd : Z; he : Z; hf : Z; hg : Z; hh : Z }.

Definition H256 : hstate :=
  Eval vm_compute in
    match map (fun p => w32 (Z.sqrt (p * 2 ^ 64))) (primes_to 19) with
    | [a; b; c; d; e; f; g; h] => HState a b c d e f g h
    | _ => HState 0 0 0 0 0 0 0 0
    end.

Definition big_sigma0 x := Z.lxor (rotr 2 x) (Z.lxor (rotr 13 x) (rotr 22 x)).
Definition big_sigma1 x := Z.lxor (rotr 6 x) (Z.lxor (rotr 11 x) (rotr 25 x)).
Definition small_sigma0 x := Z.lxor (rotr 7 x) (Z.lxor (rotr 18 x) (Z.shiftr x 3)).
Definition small_sigma1 x := Z.lxor (rotr 17 x) (Z.lxor (rotr 19 x) (Z.shiftr x 10)).
Definition sha_ch x y z := Z.lxor (Z.land x y) (Z.land (Z.lxor x (Z.ones 32)) z).
Definition sha_maj x y z := Z.lxor (Z.land x y) (Z.lxor (Z.land x z) (Z.land y z)).

Definition sha_round (s : hstate) (k w : Z) : hstate :=
  let t1 := w32 (hh s + big_sigma1 (he s) + sha_ch (he s) (hf s) (hg s) + k + w) in
  let t2 := w32 (big_sigma0 (ha s) + sha_maj (ha s) (hb s) (hc s)) in
  HState (add32 t1 t2) (ha s) (hb s) (hc s) (add32 (hd s) t1) (he s) (hf s) (hg s).

(** [win] holds the current and the next fifteen schedule words. *)
Fixpoint sha_rounds (ks : list Z) (win : list Z) (s : hstate) : hstate :=
  match ks with
  | [] => s
  | k :: ks' =>
      let wd (i : nat) := nth i win 0 in
      let next := w32 (small_sigma1 (wd 14%nat) + wd 9%nat + small_sigma0 (wd 1%nat) + wd 0%nat) in
      sha_rounds ks' (tl win ++ [next]) (sha_round s k (wd 0%nat))
  end.

Definition sha_compress (s : hstate) (block : list Z) : hstate :=
  let r := sha_rounds K256 block s in
  HState (add32 (ha s) (ha r)) (add32 (hb s) (hb r)) (add32 (hc s) (hc r)) (add32 (hd s) (hd r))
         (add32 (he s) (he r)) (add32 (hf s) (hf r)) (add32 (hg s) (hg r)) (add32 (hh s) (hh r)).

Definition be_bytes (n : nat) (z : Z) : bytes := reverse (le_bytes n z).

(** Big-endian words of a byte string whose length is a multiple of four. *)
Fixpoint be_words (b : bytes) : list Z :=
  match b with
  | w :: x :: y :: z :: b' => (((w * 256 + x) * 256 + y) * 256 + z) :: be_words b'
  | _ => []
  end.

(** Message padding: 0x80, zeros up to 56 mod 64, then the bit length. *)
Definition sha_pad (m : bytes) : bytes :=
  m ++ [0x80] ++ zeros ((55 - len m) mod 64) ++ be_bytes 8 (8 * len m).

Fixpoint sha_blocks (fuel : nat) (ws : list Z) (s : hstate) : hstate :=
  match fuel with
  | O => s
  | S fuel' =>
      match ws with
      | [] => s
      | _ => sha_blocks fuel' (drop 16 ws) (sha_compress s (take 16 ws))
      end
  end.

(** One block is consumed per unit of fuel, so the word count is enough. *)
Definition sha256 (m : bytes) : bytes :=
  let ws := be_words (sha_pad m) in
  let s := sha_blocks (length ws) ws H256 in
  concat (map (be_bytes 4) [ha s; hb s; hc s; hd s; he s; hf s; hg s; hh s]).

(** [hmac.new(key, data, hashlib.sha256).digest()] *)
Definition hmac_block_key (key : bytes) : bytes :=
  let k := if 64 <? len key then sha256 key else key in ljust k 64.

Definition hmac_sha256 (key data : bytes) : bytes :=
  let k := hmac_block_key key in
  let inner := sha256 (map (Z.lxor 0x36) k ++ data) in
  sha256 (map (Z.lxor 0x5c) k ++ inner).

(** More fuel than words changes nothing: the loop ends by itself. *)
Lemma sha_blocks_enough ws f1 f2 s :
  (length ws ≤ f1)%nat → (length ws ≤ f2)%nat → sha_blocks f1 ws s = sha_blocks f2 ws s.
Proof.
  revert ws f2 s. induction f1 as [|f1 IH]; intros ws f2 s H1 H2.
  - destruct ws; [by destruct f2|cbn in H1; lia].
  - destruct ws as [|w ws]; [by destruct f2|]. destruct f2 as [|f2]; [cbn in H2; lia|].
    cbn [sha_blocks]. apply IH; rewrite length_drop; cbn [length] in *; lia.
Qed.

(** ** A digest is 32 bytes *)

Lemma len_be_bytes n z : len (be_bytes n z) = Z.of_nat n.
Proof. unfold len, be_bytes. by rewrite length_reverse, length_le_bytes. Qed.

Lemma bytes_ok_be_bytes n z : bytes_ok (be_bytes n z).
Proof.
  unfold be_bytes, bytes_ok. apply List.Forall_forall. intros x Hx.
  rewrite <- list_elem_of_In, elem_of_reverse in Hx.
  pose proof (bytes_ok_le_bytes n z) as H. unfold bytes_ok in H.
  rewrite List.Forall_forall in H. by apply H, list_elem_of_In.
Qed.

Lemma len_sha256 m : len (sha256 m) = 32.
Proof.
  unfold sha256. cbv zeta. generalize (sha_blocks (length (be_words (sha_pad m))) (be_words (sha_pad m)) H256).
  intros s. cbn [map concat]. rewrite !len_app, !len_be_bytes. done.
Qed.

Lemma bytes_ok_sha256 m : bytes_ok (sha256 m).
Proof.
  unfold sha256. cbv zeta. generalize (sha_blocks (length (be_words (sha_pad m))) (be_words (sha_pad m)) H256).
  intros s. cbn [map concat]. rewrite !bytes_ok_app. auto 12 using bytes_ok_be_bytes, bytes_ok_nil.
Qed.

Lemma len_hmac_sha256 k m : len (hmac_sha256 k m) = 32.
Proof. apply len_sha256. Qed.

Lemma bytes_ok_hmac_sha256 k m : bytes_ok (hmac_sha256 k m).
Proof. apply bytes_ok_sha256. Qed.

#[export] Hint Resolve bytes_ok_sha256 bytes_ok_hmac_sha256 bytes_ok_be_bytes : pybytes.

(** Known answers: FIPS 180-4 ("abc"), the empty message, and RFC 4231 test
    case 2 for HMAC. *)
Example sha256_abc :
  hex (sha256 [0x61; 0x62; 0x63])
  = "ba7816bf8f01cfea414140de5dae2223b00361a396177a9cb410ff61f20015ad"%string.
Proof. vm_compute. reflexivity. Qed.

Example sha256_empty :
  hex (sha256 []) = "e3b0c44298fc1c149afbf4c8996fb92427ae41e4649b934ca495991b7852b855"%string.
Proof. vm_compute. reflexivity. Qed.

Example hmac_sha256_rfc4231_2 :
  hex (hmac_sha256 [0x4a; 0x65; 0x66; 0x65]
         [0x77; 0x68; 0x61; 0x74; 0x20; 0x64; 0x6f; 0x20; 0x79; 0x61; 0x20; 0x77; 0x61; 0x6e;
          0x74; 0x20; 0x66; 0x6f; 0x72; 0x20; 0x6e; 0x6f; 0x74; 0x68; 0x69; 0x6e; 0x67; 0x3f])
  = "5bdcc146bf60754e6a042426089575c75a003f089d2739839dec58b964ec3843"%string.
Proof. vm_compute. reflexivity. Qed.

Global Opaque sha256 hmac_sha256.
