(* ===== verification/Utf8.v ===== *)
(** * Python [str] and its UTF-8 codec

    A [str] is a list of code points. [encode] is [s.encode("utf-8")]; the
    three decoders are [b.decode("utf-8")] with [errors] "strict", "ignore"
    and "replace". One decoding step follows CPython: an invalid start byte is
    one error, a broken sequence is one error that spans the bytes read so
    far, and a sequence cut by the end of the input is one error that spans
    the rest. *)

From S2P Require Import Prelude PyData.

Abbreviation pystr := (list Z).

(** Code points UTF-8 can encode: surrogates are excluded. *)
Definition is_scalar (c : Z) : bool :=
  (0 <=? c) && (c <=? 0x10FFFF) && negb ((0xD800 <=? c) && (c <=? 0xDFFF)).

Definition str_ok (s : pystr) : Prop := Forall (fun c => is_scalar c = true) s.

Global Instance str_ok_dec s : Decision (str_ok s).
Proof. unfold str_ok. apply _. Defined.

Definition encode_char (c : Z) : bytes :=
  if c <? 0x80 then [c]
  else if c <? 0x800 then [0xC0 + c / 64; 0x80 + c mod 64]
  else if c <? 0x10000 then [0xE0 + c / 4096; 0x80 + (c / 64) mod 64; 0x80 + c mod 64]
  else [0xF0 + c / 262144; 0x80 + (c / 4096) mod 64; 0x80 + (c / 64) mod 64; 0x80 + c mod 64].

(** [s.encode("utf-8")] *)
Fixpoint encode (s : pystr) : res bytes :=
  match s with
  | [] => Ok []
  | c :: s' =>
      if is_scalar c then r ← encode s'; mret (encode_char c ++ r) else Err UnicodeError
  end.

(** [s.encode("utf-8", errors="replace")]: a surrogate becomes "?". *)
Definition encode_replace (s : pystr) : bytes :=
  concat (map (fun c => if is_scalar c then encode_char c else [63]) s).

Inductive u8step : Type :=
| U8Char (c : Z) (n : nat)
| U8Bad (n : nat).

Definition is_cont (b : Z) : bool := (0x80 <=? b) && (b <? 0xC0).

(** The second byte of a three- or four-byte sequence is restricted further:
    no over-long forms, no surrogates, nothing above U+10FFFF. *)
Definition second_ok (b1 b2 : Z) : bool :=
  is_cont b2
  && negb ((b1 =? 0xE0) && (b2 <? 0xA0)) && negb ((b1 =? 0xED) && (0xA0 <=? b2))
  && negb ((b1 =? 0xF0) && (b2 <? 0x90)) && negb ((b1 =? 0xF4) && (0x90 <=? b2)).

Definition decode_step (b : bytes) : u8step :=
  match b with
  | [] => U8Bad 0
  | b1 :: rest =>
      if b1 <? 0x80 then U8Char b1 1
      else if b1 <? 0xC2 then U8Bad 1
      else if b1 <? 0xE0 then
        match rest with
        | [] => U8Bad 1
        | b2 :: _ =>
            if is_cont b2 then U8Char ((b1 - 0xC0) * 64 + (b2 - 0x80)) 2 else U8Bad 1
        end
      else if b1 <? 0xF0 then
        match rest with
        | [] => U8Bad 1
        | b2 :: rest2 =>
            if negb (second_ok b1 b2) then U8Bad 1
            else match rest2 with
                 | [] => U8Bad 2
                 | b3 :: _ =>
                     if is_cont b3
                     then U8Char ((b1 - 0xE0) * 4096 + (b2 - 0x80) * 64 + (b3 - 0x80)) 3
                     else U8Bad 2
                 end
        end
      else if b1 <? 0xF5 then
        match rest with
        | [] => U8Bad 1
        | b2 :: rest2 =>
            if negb (second_ok b1 b2) then U8Bad 1
            else match rest2 with
                 | [] => U8Bad 2
                 | b3 :: rest3 =>
                     if negb (is_cont b3) then U8Bad 2
                     else match rest3 with
                          | [] => U8Bad 3
                          | b4 :: _ =>
                              if is_cont b4
                              then U8Char ((b1 - 0xF0) * 262144 + (b2 - 0x80) * 4096
                                           + (b3 - 0x80) * 64 + (b4 - 0x80)) 4
                              else U8Bad 3
                          end
                 end
        end
      else U8Bad 1
  end.

(** The decoder: [on_error] is [None] for "strict", the replacement text
    otherwise. A step consumes at least one byte, so the length of the input
    is enough fuel. *)
Fixpoint decode_fuel (on_error : option pystr) (fuel : nat) (b : bytes) : res pystr :=
  match b, fuel with
  | [], _ => Ok []
  | _, O => Ok []
  | _, S fuel' =>
      match decode_step b with
      | U8Char c n => r ← decode_fuel on_error fuel' (drop n b); mret (c :: r)
      | U8Bad n =>
          match on_error with
          | None => Err UnicodeError
          | Some t => r ← decode_fuel on_error fuel' (drop n b); mret (t ++ r)
          end
      end
  end.

(** [b.decode("utf-8")] *)
Definition decode (b : bytes) : res pystr := decode_fuel None (length b) b.

(** The lenient decoders never raise. *)
Definition decode_lenient (t : pystr) (b : bytes) : pystr :=
  match decode_fuel (Some t) (length b) b with Ok s => s | Err _ => [] end.

(** [b.decode("utf-8", errors="ignore")] and [errors="replace"] *)
Definition decode_ignore : bytes → pystr := decode_lenient [].
Definition decode_replace : bytes → pystr := decode_lenient [0xFFFD].

(** [s.find("\x00")] and the cut there: the code points before the first NUL. *)
Definition str_before_nul : pystr → pystr := before_nul.

(** [str.isspace] of one character, and [s.strip()]. *)
Definition is_whitespace (c : Z) : bool :=
  ((9 <=? c) && (c <=? 13)) || ((28 <=? c) && (c <=? 32)) || (c =? 133) || (c =? 160) || (c =? 5760)
  || ((8192 <=? c) && (c <=? 8202)) || (c =? 8232) || (c =? 8233) || (c =? 8239) || (c =? 8287) || (c =? 12288).

Fixpoint lstrip (s : pystr) : pystr :=
  match s with
  | c :: s' => if is_whitespace c then lstrip s' else s
  | [] => []
  end.

Definition strip (s : pystr) : pystr := reverse (lstrip (reverse (lstrip s))).

(** ** The codec round trip *)

Lemma encode_char_length c : (1 ≤ length (encode_char c))%nat.
Proof. unfold encode_char. repeat case_match; cbn; lia. Qed.

Lemma second_ok_intro b1 b2 :
  is_cont b2 = true →
  (b1 = 0xE0 → 0xA0 ≤ b2) → (b1 = 0xED → b2 < 0xA0) →
  (b1 = 0xF0 → 0x90 ≤ b2) → (b1 = 0xF4 → b2 < 0x90) → second_ok b1 b2 = true.
Proof. intros Hc. unfold second_ok. rewrite Hc. lia. Qed.

Lemma decode_step_encode_char c rest :
  is_scalar c = true →
  decode_step (encode_char c ++ rest) = U8Char c (length (encode_char c)).
Proof.
  unfold is_scalar. intros Hc. bool_hyps.
  assert (c < 0xD800 ∨ 0xDFFF < c) by lia. clear H0.
  unfold encode_char.
  destruct (c <? 0x80) eqn:E1; [cbn; by rewrite E1|].
  destruct (c <? 0x800) eqn:E2; [|destruct (c <? 0x10000) eqn:E3]; bool_hyps; cbn -[Z.div Z.modulo].
  - rewrite (proj2 (Z.ltb_ge _ _)), (proj2 (Z.ltb_ge _ _)), (proj2 (Z.ltb_lt _ _)) by zdm.
    replace (is_cont _) with true by (unfold is_cont; zdm). f_equal. zdm.
  - rewrite (proj2 (Z.ltb_ge _ _)), (proj2 (Z.ltb_ge _ _)), (proj2 (Z.ltb_ge _ _)),
      (proj2 (Z.ltb_lt _ _)) by zdm.
    rewrite second_ok_intro; [|unfold is_cont; zdm|intros; zdm..].
    cbn [negb]. replace (is_cont _) with true by (unfold is_cont; zdm). f_equal. zdm.
  - rewrite (proj2 (Z.ltb_ge _ _)), (proj2 (Z.ltb_ge _ _)), (proj2 (Z.ltb_ge _ _)),
      (proj2 (Z.ltb_ge _ _)), (proj2 (Z.ltb_lt _ _)) by zdm.
    rewrite second_ok_intro; [|unfold is_cont; zdm|intros; zdm..].
    cbn [negb]. replace (is_cont (128 + c / 64 mod 64)) with true by (unfold is_cont; zdm).
    replace (is_cont _) with true by (unfold is_cont; zdm). cbn [negb]. f_equal. zdm.
Qed.

Lemma decode_step_progress x b : 
  match decode_step (x :: b) with U8Char _ n | U8Bad n => (1 ≤ n)%nat end.
Proof. unfold decode_step. repeat case_match; simplify_eq; lia. Qed.

Lemma decode_fuel_enough e b fuel1 fuel2 :
  (length b ≤ fuel1)%nat → (length b ≤ fuel2)%nat →
  decode_fuel e fuel1 b = decode_fuel e fuel2 b.
Proof.
  revert fuel2 b. induction fuel1 as [|fuel1 IH]; intros fuel2 b H1 H2.
  - by destruct b; [destruct fuel2|cbn in H1; lia].
  - destruct b as [|x b]; [by destruct fuel2|]. destruct fuel2 as [|fuel2]; [cbn in H2; lia|].
    pose proof (decode_step_progress x b) as Hp. cbn [length] in *. cbn [decode_fuel].
    assert (∀ n, (1 ≤ n)%nat → decode_fuel e fuel1 (drop n (x :: b)) = decode_fuel e fuel2 (drop n (x :: b))) as Hrec.
    { intros n Hn. apply IH; rewrite length_drop; cbn [length]; lia. }
    destruct (decode_step (x :: b)) as [c n|n]; [by rewrite Hrec|].
    destruct e; [by rewrite Hrec|done].
Qed.

(** Decoding a scalar value followed by anything yields it, then the rest. *)
Lemma decode_fuel_char e c rest :
  is_scalar c = true →
  decode_fuel e (length (encode_char c ++ rest)) (encode_char c ++ rest)
  = (r ← decode_fuel e (length rest) rest; mret (c :: r)).
Proof.
  intros Hc. pose proof (decode_step_encode_char c rest Hc) as Hs.
  pose proof (encode_char_length c) as Hl.
  destruct (encode_char c ++ rest) as [|x b] eqn:E.
  - apply (f_equal length) in E. rewrite length_app in E. cbn in E. lia.
  - cbn [length decode_fuel]. rewrite Hs. rewrite <- E, drop_app_length.
    rewrite (decode_fuel_enough e rest (length b) (length rest)); [done| |done].
    apply (f_equal length) in E. rewrite length_app in E. cbn in E. lia.
Qed.

Lemma encode_cons_inv c s b :
  encode (c :: s) = Ok b → ∃ r, is_scalar c = true ∧ encode s = Ok r ∧ b = encode_char c ++ r.
Proof.
  cbn [encode]. destruct (is_scalar c); [|done]. intros H. res_inv. eauto.
Qed.

Lemma decode_fuel_encode e s b :
  encode s = Ok b → decode_fuel e (length b) b = Ok s.
Proof.
  revert b. induction s as [|c s IH]; intros b Hb.
  - by injection Hb as <-.
  - apply encode_cons_inv in Hb as (r & Hc & Hr & ->).
    rewrite decode_fuel_char, (IH r) by done. done.
Qed.

Lemma decode_encode s b : encode s = Ok b → decode b = Ok s.
Proof. apply decode_fuel_encode. Qed.

Lemma decode_replace_encode s b : encode s = Ok b → decode_replace b = s.
Proof. intros H. unfold decode_replace, decode_lenient. by rewrite (decode_fuel_encode _ s). Qed.

Lemma decode_ignore_encode s b : encode s = Ok b → decode_ignore b = s.
Proof. intros H. unfold decode_ignore, decode_lenient. by rewrite (decode_fuel_encode _ s). Qed.

(** A proper prefix of one character's bytes is a single decoding error. *)
Lemma decode_step_cut c n :
  is_scalar c = true → (0 < n < length (encode_char c))%nat →
  decode_step (take n (encode_char c)) = U8Bad n.
Proof.
  unfold is_scalar. intros Hc Hn. bool_hyps.
  assert (c < 0xD800 ∨ 0xDFFF < c) by lia. clear H0.
  unfold encode_char in *.
  destruct (c <? 0x80) eqn:E1; [cbn in Hn; lia|].
  destruct (c <? 0x800) eqn:E2; [|destruct (c <? 0x10000) eqn:E3]; bool_hyps; cbn -[Z.div Z.modulo] in Hn.
  - assert (n = 1%nat) as -> by lia. cbn -[Z.div Z.modulo].
    rewrite (proj2 (Z.ltb_ge _ _)), (proj2 (Z.ltb_ge _ _)), (proj2 (Z.ltb_lt _ _)) by zdm. done.
  - assert (n = 1 ∨ n = 2)%nat as [-> | ->] by lia; cbn -[Z.div Z.modulo];
      rewrite (proj2 (Z.ltb_ge _ _)), (proj2 (Z.ltb_ge _ _)), (proj2 (Z.ltb_ge _ _)),
        (proj2 (Z.ltb_lt _ _)) by zdm; [done|].
    rewrite second_ok_intro; [done|unfold is_cont; zdm|intros; zdm..].
  - assert (n = 1 ∨ n = 2 ∨ n = 3)%nat as [-> | [-> | ->]] by lia; cbn -[Z.div Z.modulo];
      rewrite (proj2 (Z.ltb_ge _ _)), (proj2 (Z.ltb_ge _ _)), (proj2 (Z.ltb_ge _ _)),
        (proj2 (Z.ltb_ge _ _)), (proj2 (Z.ltb_lt _ _)) by zdm; [done|..];
      (rewrite second_ok_intro; [|unfold is_cont; zdm|intros; zdm..]); [done|].
    cbn [negb]. replace (is_cont _) with true by (unfold is_cont; zdm). done.
Qed.

Lemma decode_fuel_lenient t fuel b e : decode_fuel (Some t) fuel b ≠ Err e.
Proof.
  revert b e. induction fuel as [|fuel IH]; intros b e; destruct b as [|x b]; try done.
  cbn [decode_fuel]. destruct (decode_step (x :: b)) as [c m|m];
    (destruct (decode_fuel _ _ _) eqn:E; [done|by apply IH in E]).
Qed.

(** Cutting encoded text at any byte and decoding with [errors="ignore"]
    loses whole characters only: the result is a prefix of the text, and fits
    the cut. *)
Lemma decode_ignore_cut s b n :
  encode s = Ok b →
  ∃ k c, decode_ignore (take n b) = take k s ∧ encode (take k s) = Ok c ∧ (length c ≤ n)%nat.
Proof.
  unfold decode_ignore, decode_lenient. revert b n.
  induction s as [|c s IH]; intros b n Hb.
  - injection Hb as <-. exists 0%nat, []. rewrite take_nil. split_and!; [done|done|cbn; lia].
  - apply encode_cons_inv in Hb as (r & Hc & Hr & ->).
    destruct (decide (length (encode_char c) ≤ n)%nat) as [Hle|Hlt].
    + rewrite take_app_ge by done. rewrite decode_fuel_char by done.
      destruct (IH r (n - length (encode_char c))%nat Hr) as (k & e & Hk & He & Hl).
      exists (S k), (encode_char c ++ e). cbn [take encode]. rewrite Hc, He.
      split_and!; [|done|rewrite length_app; lia].
      destruct (decode_fuel _ _ _) eqn:E; cbn; [by rewrite <- Hk|by apply decode_fuel_lenient in E].
    + rewrite take_app_le by lia. exists 0%nat, []. rewrite take_0.
      split_and!; [|done|cbn; lia].
      destruct (decide (n = 0)%nat) as [->|Hn0]; [done|].
      pose proof (decode_step_cut c n Hc ltac:(lia)) as Hs.
      destruct (take n (encode_char c)) as [|x b'] eqn:E; [done|].
      cbn [length decode_fuel]. rewrite Hs.
      assert (length (x :: b') = n) as Hlen by (rewrite <- E, length_take; lia).
      rewrite drop_ge by lia. by destruct (length b').
Qed.

Lemma encode_app s t b c : encode s = Ok b → encode t = Ok c → encode (s ++ t) = Ok (b ++ c).
Proof.
  revert b. induction s as [|x s IH]; intros b Hs Ht.
  - by injection Hs as <-.
  - apply encode_cons_inv in Hs as (r & Hc & Hr & ->).
    cbn [app encode]. rewrite Hc, (IH r) by done. cbn. by rewrite app_assoc.
Qed.

Lemma encode_total s : str_ok s ↔ is_ok (encode s) = true.
Proof.
  unfold str_ok. induction s as [|c s IH]; cbn [encode]; [split; [done|constructor]|].
  rewrite Forall_cons_iff, IH. destruct (is_scalar c), (encode s); cbn; intuition congruence.
Qed.

Lemma encode_take s b k : encode s = Ok b → ∃ c, encode (take k s) = Ok c ∧ (length c ≤ length b)%nat.
Proof.
  revert b k. induction s as [|x s IH]; intros b k Hb.
  - rewrite take_nil. eauto.
  - apply encode_cons_inv in Hb as (r & Hc & Hr & ->).
    destruct k as [|k]; [exists []; cbn; split; [done|lia]|].
    destruct (IH r k Hr) as (c & Hcc & Hl). cbn [take encode].
    rewrite Hc, Hcc. cbn. eexists; split; [done|]. rewrite !length_app. lia.
Qed.

Lemma bytes_ok_encode s b : encode s = Ok b → bytes_ok b.
Proof.
  revert b. induction s as [|c s IH]; intros b Hb; [injection Hb as <-; constructor|].
  apply encode_cons_inv in Hb as (r & Hc & Hr & ->).
  apply bytes_ok_app. split; [|eauto].
  unfold is_scalar in Hc. bool_hyps. unfold encode_char, bytes_ok, is_byte.
  repeat case_match; bool_hyps; repeat constructor; zdm.
Qed.

(** ** NUL bytes: text without NUL has none in its encoding *)

Lemma before_nul_no_nul b : Forall (λ x, x ≠ 0) b → before_nul b = b.
Proof. induction 1 as [|x b Hx _ IH]; [done|]. cbn. rewrite IH. by destruct (Z.eqb_spec x 0). Qed.

Lemma before_nul_app b r : Forall (λ x, x ≠ 0) b → before_nul (b ++ 0 :: r) = b.
Proof. induction 1 as [|x b Hx _ IH]; [done|]. cbn. rewrite IH. by destruct (Z.eqb_spec x 0). Qed.

Lemma before_nul_app_zeros b r :
  Forall (λ x, x ≠ 0) b → r = [] ∨ (∃ r', r = 0 :: r') → before_nul (b ++ r) = b.
Proof.
  intros Hb [->|[r' ->]]; [rewrite app_nil_r; by apply before_nul_no_nul|by apply before_nul_app].
Qed.

Lemma encode_char_no_nul c : c ≠ 0 → is_scalar c = true → Forall (λ x, x ≠ 0) (encode_char c).
Proof.
  intros Hc Hs. unfold encode_char, is_scalar in *.
  repeat match goal with |- context [if ?t then _ else _] => destruct t eqn:?; bool_hyps end;
    repeat constructor; try lia; zdm.
Qed.

Lemma encode_no_nul s b : encode (str_before_nul s) = Ok b → Forall (λ x, x ≠ 0) b.
Proof.
  unfold str_before_nul. revert b. induction s as [|c s IH]; intros b Hb; cbn in Hb.
  - injection Hb as <-. constructor.
  - destruct (c =? 0) eqn:E; bool_hyps; [injection Hb as <-; constructor|].
    cbn in Hb. destruct (is_scalar c) eqn:Es; [|done]. res_inv.
    apply Forall_app. split; [by apply encode_char_no_nul|by apply IH].
Qed.

Lemma nul_free_encode s b : 0 ∉ s → encode s = Ok b → Forall (λ x, x ≠ 0) b.
Proof.
  intros Hn Hb. apply (encode_no_nul s). unfold str_before_nul.
  rewrite before_nul_no_nul; [done|]. apply list.Forall_forall. intros x Hx ->. done.
Qed.

Lemma before_nul_encode s b : 0 ∉ s → encode s = Ok b → before_nul b = b.
Proof. intros Hn Hb. by eapply before_nul_no_nul, nul_free_encode. Qed.
