(* ===== verification/PyFloat.v ===== *)
(** * Python [float]

    IEEE-754 binary64 as the executable specification of the Standard Library
    ([SpecFloat]): the operations round to nearest, ties to even, as CPython's
    do. An [int] operand of a mixed operation is converted first. *)

From S2P Require Import Prelude PyData.
From Stdlib Require Export SpecFloat.

Abbreviation float := spec_float.

Definition prec64 : Z := 53.
Definition emax64 : Z := 1024.

Definition fadd : float → float → float := SFadd prec64 emax64.
Definition fsub : float → float → float := SFsub prec64 emax64.
Definition fmul : float → float → float := SFmul prec64 emax64.
Definition fneg : float → float := SFopp.
Definition fltb : float → float → bool := SFltb.
Definition fleb : float → float → bool := SFleb.
Definition feqb : float → float → bool := SFeqb.

(** [x / y] on floats: a zero divisor raises. *)
Definition fdiv (x y : float) : res float :=
  match y with S754_zero _ => Err ZeroDivisionError | _ => Ok (SFdiv prec64 emax64 x y) end.

(** The float nearest to an integer; [float(z)] raises when it overflows. *)
Definition f_of_Z (z : Z) : float := binary_normalize prec64 emax64 z 0 false.

(** The float nearest to [n / 10^k]: a decimal literal of the source. *)
Definition f_dec (n : Z) (k : Z) : float := SFdiv prec64 emax64 (f_of_Z n) (f_of_Z (10 ^ k)).

(** [int(x)]: truncation toward zero. *)
Definition int_of_float (x : float) : res Z :=
  match x with
  | S754_zero _ => Ok 0
  | S754_nan => Err (ValueError "cannot convert float NaN to integer")
  | S754_infinity _ => Err OverflowError
  | S754_finite s m e =>
      let a := if 0 <=? e then Z.pos m * 2 ^ e else Z.pos m / 2 ^ (- e) in
      Ok (if s then - a else a)
  end.

(** [round(x)]: to the nearest integer, halves to the even one. *)
Definition py_round (x : float) : res Z :=
  match x with
  | S754_zero _ => Ok 0
  | S754_nan => Err (ValueError "cannot convert float NaN to integer")
  | S754_infinity _ => Err OverflowError
  | S754_finite s m e =>
      let a := if 0 <=? e then Z.pos m * 2 ^ e
               else
                 let d := 2 ^ (- e) in
                 let q := Z.pos m / d in
                 let r := Z.pos m mod d in
                 if (2 * r <? d) || ((2 * r =? d) && Z.even q) then q else q + 1 in
      Ok (if s then - a else a)
  end.

(** [max(a, b)] and [min(a, b)]: the first argument wins unless the second is
    strictly larger (smaller), NaN included. *)
Definition py_fmax (a b : float) : float := if fltb a b then b else a.
Definition py_fmin (a b : float) : float := if fltb b a then b else a.

Definition f_zero : float := S754_zero false.
Definition f_one : float := f_of_Z 1.

Definition is_nan (x : float) : bool := match x with S754_nan => true | _ => false end.

(** Python's [int / int]: correctly rounded; exact conversions for operands
    below 2^53. *)
Definition int_truediv (a b : Z) : res float := fdiv (f_of_Z a) (f_of_Z b).

(** [bool(x)] *)
Definition f_truthy (x : float) : bool := negb (feqb x f_zero).

(** [float(n)] *)
Definition float_of_int (z : Z) : res float :=
  match f_of_Z z with S754_infinity _ => Err OverflowError | x => Ok x end.

(** [float(x or 0)] *)
Definition float_or_zero (x : float) : float := if f_truthy x then x else f_zero.

(** [struct.unpack("<f", struct.pack("<f", x))]: binary32 rounding; a finite
    value that overflows raises. *)
Definition _f32 (value : float) : res float :=
  match value with
  | S754_finite s m e =>
      match binary_normalize 24 128 (if s then Z.neg m else Z.pos m) e s with
      | S754_finite s m e => Ok (binary_normalize prec64 emax64 (if s then Z.neg m else Z.pos m) e s)
      | S754_infinity _ => Err OverflowError
      | x => Ok x
      end
  | x => Ok x
  end.

(** ** Order

    The comparisons order every float but NaN: sign and magnitude class, then
    exponent, then mantissa. *)

Definition fkey (x : float) : list Z :=
  match x with
  | S754_zero _ | S754_nan => [0; 0; 0]
  | S754_infinity s => [if s then -2 else 2; 0; 0]
  | S754_finite s m e => if s then [-1; - e; - Z.pos m] else [1; e; Z.pos m]
  end.

(** Lexicographic order of keys. *)
Fixpoint lex_lt (a b : list Z) : Prop :=
  match a, b with
  | x :: a', y :: b' => x < y ∨ x = y ∧ lex_lt a' b'
  | _, _ => False
  end.

Global Instance lex_lt_dec a b : Decision (lex_lt a b).
Proof. revert b. induction a; intros []; cbn; apply _. Defined.

Lemma lex_irrefl a : ¬ lex_lt a a.
Proof. induction a; cbn; [tauto|]. intros [|[]]; [lia|done]. Qed.

Lemma lex_trans a b c : lex_lt a b → lex_lt b c → lex_lt a c.
Proof.
  revert b c. induction a as [|x a IH]; intros [|y b] [|z c]; cbn; try done.
  intros [H|[-> H]] [H'|[-> H']]; [left; lia|by left|by left|right; split; [done|by eapply IH]].
Qed.

Lemma lex_total a b : length a = length b → ¬ lex_lt a b → ¬ lex_lt b a → a = b.
Proof.
  revert b. induction a as [|x a IH]; intros [|y b]; cbn; try done. intros [= Hl] H1 H2.
  assert (x = y) as -> by lia. f_equal. apply IH; tauto.
Qed.

Lemma lex_app a b c d :
  length a = length b → lex_lt (a ++ c) (b ++ d) ↔ lex_lt a b ∨ a = b ∧ lex_lt c d.
Proof.
  revert b. induction a as [|x a IH]; intros [|y b] Hl; cbn; try done; [tauto|].
  injection Hl as Hl. rewrite (IH b Hl). split.
  - intros [H|[-> [H|[-> H]]]]; [by left; left|by left; right|by right].
  - intros [[H|[-> H]]|[[= -> ->] H]]; [by left|by right; split; [|left]|by right; split; [|right]].
Qed.

Lemma length_fkey x : length (fkey x) = 3%nat.
Proof. by destruct x as [|[]| |[]]. Qed.

Lemma SFcompare_key x y :
  is_nan x = false → is_nan y = false →
  match SFcompare x y with
  | Some Eq => fkey x = fkey y
  | Some Lt => lex_lt (fkey x) (fkey y)
  | Some Gt => lex_lt (fkey y) (fkey x)
  | None => False
  end.
Proof.
  intros Hx Hy. destruct x as [[]|[]| |[] m1 e1], y as [[]|[]| |[] m2 e2]; try done; cbn; try lia;
    (destruct (Z.compare_spec e1 e2) as [->| |];
     [change (Pos.compare_cont Eq m1 m2) with (Pos.compare m1 m2); destruct (Pos.compare_spec m1 m2) as [->| |]|..];
     cbn; try lia; done).
Qed.

(** Each comparison, on the keys. *)
Lemma fcompare_key x y :
  is_nan x = false → is_nan y = false →
  (fltb x y = true ↔ lex_lt (fkey x) (fkey y)) ∧ (fleb x y = true ↔ ¬ lex_lt (fkey y) (fkey x))
  ∧ (feqb x y = true ↔ fkey x = fkey y).
Proof.
  intros Hx Hy. pose proof (SFcompare_key x y Hx Hy) as H.
  unfold fltb, SFltb, fleb, SFleb, feqb, SFeqb.
  pose proof (lex_irrefl (fkey x)). pose proof (lex_irrefl (fkey y)).
  destruct (SFcompare x y) as [[]|]; [rewrite H in *; split_and!; split; intros; (done || congruence)|..|done].
  - assert (fkey x ≠ fkey y) by (intros E; rewrite E in *; done).
    assert (¬ lex_lt (fkey y) (fkey x)) by (intros H'; by eapply lex_irrefl, lex_trans).
    split_and!; split; intros; (done || congruence).
  - assert (fkey x ≠ fkey y) by (intros E; rewrite E in *; done).
    assert (¬ lex_lt (fkey x) (fkey y)) by (intros H'; by eapply lex_irrefl, lex_trans).
    split_and!; split; intros; (done || congruence).
Qed.

Example f_dec_7_5 : f_dec 75 1 = SFdiv prec64 emax64 (f_of_Z 15) (f_of_Z 2).
Proof. vm_compute. reflexivity. Qed.

Example py_round_half_even :
  map py_round [f_dec 25 1; f_dec 35 1; f_dec (-25) 1; f_dec 249 2] = [Ok 2; Ok 4; Ok (-2); Ok 2].
Proof. vm_compute. reflexivity. Qed.

Example int_of_float_trunc :
  (int_of_float (f_dec (-85) 1), int_of_float (fmul (f_dec 425 2) (f_of_Z 4))) = (Ok (-8), Ok 17).
Proof. vm_compute. reflexivity. Qed.
