(* ===== verification/ODict.v ===== *)
(** * Python dictionaries with their insertion order

    [dict] and [OrderedDict] objects whose order the code observes
    (iteration, FIFO eviction, [move_to_end]) are association lists without
    repeated keys. *)

From S2P Require Import Prelude PyData.

Section odict.
Context {K V : Type} `{EqDecision K}.
Implicit Types (d : list (K * V)) (k : K) (v : V).

Definition dkeys d : list K := d.*1.
Definition dvalues d : list V := d.*2.

(** [d.get(k)] *)
Fixpoint dget k d : option V :=
  match d with
  | [] => None
  | (k', v) :: d' => if decide (k = k') then Some v else dget k d'
  end.

(** [k in d] *)
Definition dmem k d : bool := match dget k d with Some _ => true | None => false end.

(** [d[k] = v]: an existing key keeps its position, a new one goes last. *)
Fixpoint dset k v d : list (K * V) :=
  match d with
  | [] => [(k, v)]
  | (k', v') :: d' => if decide (k = k') then (k, v) :: d' else (k', v') :: dset k v d'
  end.

(** [del d[k]], for a key that is present (and nothing otherwise). *)
Fixpoint ddel k d : list (K * V) :=
  match d with
  | [] => []
  | (k', v') :: d' => if decide (k = k') then d' else (k', v') :: ddel k d'
  end.

(** [d.move_to_end(k)] *)
Definition move_to_end k d : list (K * V) :=
  match dget k d with Some v => ddel k d ++ [(k, v)] | None => d end.

(** [d.popitem(last=False)] *)
Definition pop_first d : list (K * V) := tail d.

(** [for k in ks: del d[k]] *)
Definition ddel_all (ks : list K) d : list (K * V) := fold_left (fun d k => ddel k d) ks d.

Definition keys_unique d : Prop := NoDup (dkeys d).

(** ** Lemmas *)

Lemma dget_None k d : dget k d = None ↔ k ∉ dkeys d.
Proof.
  induction d as [|[k' v'] d IH]; cbn; [split; [intros _; apply not_elem_of_nil|done]|].
  rewrite not_elem_of_cons. destruct (decide (k = k')) as [->|]; [|rewrite IH]; intuition congruence.
Qed.

Lemma dget_Some_elem k v d : dget k d = Some v → (k, v) ∈ d.
Proof.
  induction d as [|[k' v'] d IH]; cbn; [done|].
  destruct (decide (k = k')) as [->|]; [intros [= ->]; left|intros; right; auto].
Qed.

Lemma elem_keys k v d : (k, v) ∈ d → k ∈ dkeys d.
Proof. intros H. apply list_elem_of_fmap. by exists (k, v). Qed.

Lemma elem_dget k v d : keys_unique d → (k, v) ∈ d → dget k d = Some v.
Proof.
  unfold keys_unique. induction d as [|[k' v'] d IH]; cbn; [by intros _ ?%not_elem_of_nil|].
  rewrite list.NoDup_cons, elem_of_cons. intros [Hn Hd] [[= -> ->]|He]; [by rewrite decide_True|].
  rewrite decide_False; [auto|]. intros ->. by eapply Hn, elem_keys.
Qed.

Lemma dmem_true k d : dmem k d = true ↔ k ∈ dkeys d.
Proof.
  unfold dmem. destruct (dget k d) eqn:E; split; try done.
  - intros _. by eapply elem_keys, dget_Some_elem.
  - apply dget_None in E. done.
Qed.

Lemma dget_dset k k' v d : dget k (dset k' v d) = if decide (k = k') then Some v else dget k d.
Proof.
  induction d as [|[k1 v1] d IH]; cbn.
  - by destruct (decide (k = k')).
  - destruct (decide (k' = k1)) as [->|]; cbn.
    + by destruct (decide (k = k1)).
    + destruct (decide (k = k1)) as [->|]; [by rewrite decide_False by congruence|apply IH].
Qed.

Lemma dset_fresh k v d : dmem k d = false → dset k v d = d ++ [(k, v)].
Proof.
  unfold dmem. induction d as [|[k' v'] d IH]; [done|]. cbn [dget dset]. destruct (decide (k = k')) as [->|Hne]; [done|].
  intros H. cbn [app]. by rewrite (IH H).
Qed.

Lemma dkeys_cons e d : dkeys (e :: d) = e.1 :: dkeys d.
Proof. done. Qed.

Lemma dkeys_dset k v d : dkeys (dset k v d) = if dmem k d then dkeys d else dkeys d ++ [k].
Proof.
  unfold dmem. induction d as [|[k1 v1] d IH]; [done|]. cbn [dget dset].
  destruct (decide (k = k1)) as [->|]; [done|]. rewrite !dkeys_cons, IH. by destruct (dget k d).
Qed.

Lemma keys_unique_dset k v d : keys_unique d → keys_unique (dset k v d).
Proof.
  unfold keys_unique. rewrite dkeys_dset. destruct (dmem k d) eqn:E; [done|].
  intros H. apply list.NoDup_app. split_and!; [done| |apply NoDup_singleton].
  intros x Hx ->%list_elem_of_singleton. apply dmem_true in Hx. congruence.
Qed.

Lemma ddel_sublist k d : sublist (ddel k d) d.
Proof.
  induction d as [|[k1 v1] d IH]; cbn; [done|].
  destruct (decide (k = k1)); [by apply sublist_cons|by apply sublist_skip].
Qed.

Lemma sublist_keys d d' : sublist d d' → sublist (dkeys d) (dkeys d').
Proof. induction 1; cbn; constructor; auto. Qed.

Lemma keys_unique_sublist d d' : sublist d d' → keys_unique d' → keys_unique d.
Proof. intros H%sublist_keys Hn. by eapply sublist_NoDup. Qed.

Lemma keys_unique_ddel k d : keys_unique d → keys_unique (ddel k d).
Proof. eapply keys_unique_sublist, ddel_sublist. Qed.

Lemma dget_ddel k k' d :
  keys_unique d → dget k (ddel k' d) = if decide (k = k') then None else dget k d.
Proof.
  unfold keys_unique. induction d as [|[k1 v1] d IH]; cbn; [by destruct (decide (k = k'))|].
  rewrite list.NoDup_cons. intros [Hn Hd]. destruct (decide (k' = k1)) as [->|]; cbn.
  - destruct (decide (k = k1)) as [->|]; [by apply dget_None|done].
  - destruct (decide (k = k1)) as [->|]; [by rewrite decide_False by congruence|by apply IH].
Qed.

Lemma filter_all {A} (P : A → Prop) `{!∀ x, Decision (P x)} (l : list A) :
  (∀ x, x ∈ l → P x) → filter P l = l.
Proof.
  induction l as [|x l IH]; intros Hl; [done|].
  rewrite filter_cons_True by (apply Hl; left). f_equal. apply IH. intros y Hy. apply Hl. by right.
Qed.

Lemma ddel_filter k d : keys_unique d → ddel k d = filter (λ e, e.1 ≠ k) d.
Proof.
  unfold keys_unique. induction d as [|[k1 v1] d IH]; [done|]. cbn [ddel].
  rewrite dkeys_cons, list.NoDup_cons. intros [Hn Hd]. destruct (decide (k = k1)) as [->|].
  - rewrite filter_cons_False by (cbn; congruence). symmetry. apply filter_all.
    intros [k' v'] He. cbn. intros ->. by eapply Hn, elem_keys.
  - rewrite filter_cons_True by (cbn; congruence). by rewrite IH.
Qed.

Lemma ddel_all_filter ks d :
  keys_unique d → ddel_all ks d = filter (λ e, e.1 ∉ ks) d.
Proof.
  unfold ddel_all. revert d. induction ks as [|k ks IH]; intros d Hd; cbn [fold_left].
  - symmetry. apply filter_all. intros e _. apply not_elem_of_nil.
  - rewrite IH by (by apply keys_unique_ddel). rewrite ddel_filter, list_filter_filter by done.
    apply list_filter_iff. intros e. rewrite not_elem_of_cons. tauto.
Qed.

Lemma dget_filter (P : K * V → Prop) `{!∀ e, Decision (P e)} k d :
  keys_unique d →
  dget k (filter P d) = match dget k d with
                        | Some v => if decide (P (k, v)) then Some v else None
                        | None => None end.
Proof.
  unfold keys_unique. induction d as [|[k1 v1] d IH]; [done|].
  cbn [dkeys fmap list_fmap fst dget]. rewrite list.NoDup_cons. intros [Hn Hd].
  destruct (decide (P (k1, v1))) as [HP|HP].
  - rewrite filter_cons_True by done. cbn [dget].
    destruct (decide (k = k1)) as [->|]; [by rewrite decide_True|by apply IH].
  - rewrite filter_cons_False by done. rewrite IH by done.
    destruct (decide (k = k1)) as [->|]; [|done].
    rewrite decide_False by done.
    destruct (dget k1 d) eqn:E; [|done]. apply dget_Some_elem in E. exfalso. by eapply Hn, elem_keys.
Qed.

Lemma dget_app k d d' : dget k (d ++ d') = match dget k d with Some v => Some v | None => dget k d' end.
Proof.
  induction d as [|[k1 v1] d IH]; cbn; [done|]. by destruct (decide (k = k1)).
Qed.

Lemma dget_tail k d :
  keys_unique d → dget k (tail d) = if decide (Some k = head (dkeys d)) then None else dget k d.
Proof.
  destruct d as [|[k1 v1] d]; cbn; [by destruct (decide _)|].
  unfold keys_unique. cbn. rewrite list.NoDup_cons. intros [Hn Hd].
  destruct (decide (k = k1)) as [->|].
  - rewrite decide_True by done. by apply dget_None.
  - rewrite decide_False by congruence. done.
Qed.

Lemma keys_unique_tail d : keys_unique d → keys_unique (tail d).
Proof. unfold keys_unique. destruct d; cbn; [done|]. by rewrite list.NoDup_cons; intros []. Qed.

(** [d[k] = v; d.move_to_end(k)]: [k] becomes the newest entry. *)
Lemma set_move_to_end k v d :
  keys_unique d → move_to_end k (dset k v d) = ddel k d ++ [(k, v)].
Proof.
  intros Hd. unfold move_to_end. rewrite dget_dset, decide_True by done. f_equal.
  clear Hd. induction d as [|[k1 v1] d IH]; cbn; [by rewrite decide_True|].
  destruct (decide (k = k1)) as [->|]; cbn; [by rewrite decide_True|].
  rewrite decide_False by done. by rewrite IH.
Qed.

Lemma keys_unique_refresh k v d : keys_unique d → keys_unique (ddel k d ++ [(k, v)]).
Proof.
  intros H. unfold keys_unique, dkeys. rewrite fmap_app. apply list.NoDup_app.
  split_and!; [by apply keys_unique_ddel| |apply NoDup_singleton].
  intros x Hx ->%list_elem_of_singleton. revert Hx. fold (dkeys (ddel k d)). cbn.
  apply dget_None. by rewrite dget_ddel, decide_True.
Qed.

Lemma dget_refresh k k' v d :
  keys_unique d →
  dget k (ddel k' d ++ [(k', v)]) = if decide (k = k') then Some v else dget k d.
Proof.
  intros H. rewrite dget_app, dget_ddel by done. cbn.
  destruct (decide (k = k')); [done|]. by destruct (dget k d).
Qed.

Lemma length_ddel k d : (length (ddel k d) ≤ length d)%nat.
Proof. apply sublist_length, ddel_sublist. Qed.

Lemma length_ddel_mem k d : dmem k d = true → S (length (ddel k d)) = length d.
Proof.
  unfold dmem. induction d as [|[k1 v1] d IH]; cbn; [done|].
  destruct (decide (k = k1)); cbn; [done|]. intros H. by rewrite IH.
Qed.

Lemma length_dset k v d : length (dset k v d) = if dmem k d then length d else S (length d).
Proof.
  rewrite <- (length_fmap fst (dset k v d)). fold (dkeys (dset k v d)). rewrite dkeys_dset.
  unfold dkeys. destruct (dmem k d); [by rewrite length_fmap|].
  rewrite length_app, length_fmap. cbn. lia.
Qed.

End odict.

Create HintDb odict.
#[export] Hint Resolve keys_unique_dset keys_unique_ddel keys_unique_tail keys_unique_refresh
  : odict.
