(* ===== verification/Constants.v ===== *)
(** * Protocol constants ([protocol/constants.py])

    The wire values of the mesh protocol, with the three helpers the module
    defines over them. *)

From S2P Require Import Prelude PyData.

Definition PH_ROUTE_MASK : Z := 0x03.
Definition PH_TYPE_SHIFT : Z := 2.
Definition PH_TYPE_MASK : Z := 0x0F.
Definition PH_VER_SHIFT : Z := 6.
Definition PH_VER_MASK : Z := 0x03.
Definition ROUTE_TYPE_TRANSPORT_FLOOD : Z := 0x00.
Definition ROUTE_TYPE_FLOOD : Z := 0x01.
Definition ROUTE_TYPE_DIRECT : Z := 0x02.
Definition ROUTE_TYPE_TRANSPORT_DIRECT : Z := 0x03.
Definition PAYLOAD_TYPE_REQ : Z := 0x00.
Definition PAYLOAD_TYPE_RESPONSE : Z := 0x01.
Definition PAYLOAD_TYPE_TXT_MSG : Z := 0x02.
Definition PAYLOAD_TYPE_ACK : Z := 0x03.
Definition PAYLOAD_TYPE_ADVERT : Z := 0x04.
Definition PAYLOAD_TYPE_GRP_TXT : Z := 0x05.
Definition PAYLOAD_TYPE_GRP_DATA : Z := 0x06.
Definition PAYLOAD_TYPE_ANON_REQ : Z := 0x07.
Definition PAYLOAD_TYPE_PATH : Z := 0x08.
Definition PAYLOAD_TYPE_TRACE : Z := 0x09.
Definition PAYLOAD_TYPE_MULTIPART : Z := 0x0A.
Definition PAYLOAD_TYPE_CONTROL : Z := 0x0B.
Definition PAYLOAD_TYPE_RAW_CUSTOM : Z := 0x0F.
Definition PAYLOAD_VER_1 : Z := 0x00.
Definition PAYLOAD_VER_2 : Z := 0x01.
Definition PAYLOAD_VER_3 : Z := 0x02.
Definition PAYLOAD_VER_4 : Z := 0x03.
Definition MAX_SUPPORTED_PAYLOAD_VERSION : Z := PAYLOAD_VER_1.
Definition MAX_ADVERT_DATA_SIZE : Z := 32.
Definition PUB_KEY_SIZE : Z := 32.
Definition SIGNATURE_SIZE : Z := 64.
Definition PATH_HASH_SIZE : Z := 1.
Definition PATH_HASH_COUNT_MASK : Z := 0x3F.
Definition PATH_HASH_SIZE_SHIFT : Z := 6.
Definition CIPHER_MAC_SIZE : Z := 2.
Definition CIPHER_BLOCK_SIZE : Z := 16.
Definition MAX_PACKET_PAYLOAD : Z := 184.
Definition MAX_TEXT_LEN : Z := 10 * CIPHER_BLOCK_SIZE.
Definition MAX_PATH_SIZE : Z := 64.
Definition MAX_HASH_SIZE : Z := 32.
Definition NAME_MAX_LEN : Z := 16.
Definition TIMESTAMP_SIZE : Z := 4.
Definition ADVERT_FLAG_IS_CHAT_NODE : Z := 0x01.
Definition ADVERT_FLAG_IS_REPEATER : Z := 0x02.
Definition ADVERT_FLAG_IS_ROOM_SERVER : Z := 0x03.
Definition ADVERT_FLAG_IS_SENSOR : Z := 0x04.
Definition ADVERT_FLAG_HAS_LOCATION : Z := 0x10.
Definition ADVERT_FLAG_HAS_FEATURE1 : Z := 0x20.
Definition ADVERT_FLAG_HAS_FEATURE2 : Z := 0x40.
Definition ADVERT_FLAG_HAS_NAME : Z := 0x80.
Definition CONTACT_TYPE_UNKNOWN : Z := 0.
Definition CONTACT_TYPE_CHAT_NODE : Z := 1.
Definition CONTACT_TYPE_REPEATER : Z := 2.
Definition CONTACT_TYPE_ROOM_SERVER : Z := 3.
Definition CONTACT_TYPE_HYBRID : Z := 4.
Definition REQ_TYPE_GET_STATUS : Z := 0x01.
Definition REQ_TYPE_GET_TELEMETRY_DATA : Z := 0x03.
Definition REQ_TYPE_GET_OWNER_INFO : Z := 0x07.
Definition TELEM_PERM_BASE : Z := 0x01.
Definition TELEM_PERM_LOCATION : Z := 0x02.
Definition TELEM_PERM_ENVIRONMENT : Z := 0x04.
Definition PERM_ACL_ROLE_MASK : Z := 0x03.
Definition PERM_ACL_GUEST : Z := 0.
Definition PERM_ACL_READ_ONLY : Z := 1.
Definition PERM_ACL_READ_WRITE : Z := 2.
Definition PERM_ACL_ADMIN : Z := 3.
Definition ANON_REQ_TYPE_REGIONS : Z := 0x01.
Definition ANON_REQ_TYPE_OWNER : Z := 0x02.
Definition ANON_REQ_TYPE_BASIC : Z := 0x03.
Definition TXT_TYPE_PLAIN : Z := 0.
Definition TXT_TYPE_CLI_DATA : Z := 1.
Definition TXT_TYPE_SIGNED_PLAIN : Z := 2.
Definition TXT_TYPE_CLI_COMMAND : Z := 3.

(** [describe_advert_flags]: the node type is the low nibble, the feature
    flags are single bits. [labels] are joined with ", ". *)
Definition truthy (z : Z) : bool := negb (z =? 0).

Fixpoint join (sep : string) (l : list string) : string :=
  match l with
  | [] => ""
  | [s] => s
  | s :: l' => String.append s (String.append sep (join sep l'))
  end.

Definition describe_advert_flags (flags : Z) : string :=
  let node_type := Z.land flags 0x0F in
  let labels :=
    (if node_type =? ADVERT_FLAG_IS_CHAT_NODE then ["is chat node"]
     else if node_type =? ADVERT_FLAG_IS_REPEATER then ["is repeater"]
     else if node_type =? ADVERT_FLAG_IS_ROOM_SERVER then ["is room server"]
     else if node_type =? 0x04 then ["is sensor"]
     else [])
    ++ (if truthy (Z.land flags ADVERT_FLAG_HAS_LOCATION) then ["has location"] else [])
    ++ (if truthy (Z.land flags ADVERT_FLAG_HAS_FEATURE1) then ["has feature 1"] else [])
    ++ (if truthy (Z.land flags ADVERT_FLAG_HAS_FEATURE2) then ["has feature 2"] else [])
    ++ (if truthy (Z.land flags ADVERT_FLAG_HAS_NAME) then ["has name"] else []) in
  match labels with [] => "none" | _ => join ", " labels end%string.

(** [acl_role], [acl_is_admin] *)
Definition acl_role (permissions : Z) : Z := Z.land permissions PERM_ACL_ROLE_MASK.

Definition acl_is_admin (permissions : Z) : bool := acl_role permissions =? PERM_ACL_ADMIN.
