(* ===== verification/PacketUtils.v ===== *)
(** * Packet helpers ([protocol/packet_utils.py])

    One module per Python class: [PacketValidationUtils], [PathUtils],
    [PacketDataUtils], [PacketHeaderUtils], [PacketHashingUtils],
    [RouteTypeUtils]. *)

From S2P Require Import Prelude PyData Sha256 Utf8 PyFloat Constants.

(** ** PacketValidationUtils *)
Module PacketValidationUtils.

(** An entry of a routing path: the code tests the type of each item. *)
Inductive path_item : Type :=
| PStr (s : string)
| PInt (z : Z)
| PFloat (x : float)
| POther.

Definition hex_byte (s : string) : res Z :=
  match s with
  | String a (String b _) =>
      match hex_value a, hex_value b with
      | Some x, Some y => Ok (16 * x + y)
      | _, _ => Err (ValueError "contains invalid hex characters")
      end
  | _ => Err (ValueError "hex string too short, need at least 2 characters")
  end.

Definition byte_range (byte_val : Z) : res Z :=
  if (0 <=? byte_val) && (byte_val <=? 255) then Ok byte_val
  else Err (ValueError "value out of range (0-255)").

Definition validate_item (item : path_item) : res Z :=
  match item with
  | PStr s => hex_byte s
  | PInt z => byte_range z
  | PFloat x => byte_val ← int_of_float x; byte_range byte_val
  | POther => Err (ValueError "invalid type, expected string or int")
  end.

Fixpoint validate_items (l : list path_item) : res bytes :=
  match l with
  | [] => Ok []
  | item :: l' => byte_val ← validate_item item; r ← validate_items l'; mret (byte_val :: r)
  end.

Definition validate_routing_path (routing_path : list path_item) : res bytes :=
  if len routing_path >? MAX_PATH_SIZE then Err (ValueError "Path length exceeds maximum")
  else validate_items routing_path.

Definition validate_packet_bounds (idx required data_len : Z) (error_msg : string) : res unit :=
  raise_if (idx + required >? data_len) (ValueError error_msg).

Definition validate_buffer_lengths
    (expected_path_len actual_path_len expected_payload_len actual_payload_len : Z) : res unit :=
  if negb (expected_path_len =? actual_path_len) then Err (ValueError "path_len mismatch")
  else if negb (expected_payload_len =? actual_payload_len)
       then Err (ValueError "payload_len mismatch")
       else Ok tt.

Definition validate_payload_size (payload_len : Z) : res unit :=
  raise_if (payload_len >? MAX_PACKET_PAYLOAD) (ValueError "payload too large").

End PacketValidationUtils.

(** ** PathUtils: the encoded path length byte *)
Module PathUtils.

Definition get_path_hash_size (path_len_byte : Z) : Z :=
  Z.shiftr path_len_byte PATH_HASH_SIZE_SHIFT + 1.

Definition get_path_hash_count (path_len_byte : Z) : Z :=
  Z.land path_len_byte PATH_HASH_COUNT_MASK.

Definition get_path_byte_len (path_len_byte : Z) : Z :=
  Z.land path_len_byte PATH_HASH_COUNT_MASK * (Z.shiftr path_len_byte PATH_HASH_SIZE_SHIFT + 1).

Definition encode_path_len (hash_size hash_count : Z) : res Z :=
  if negb ((0 <=? hash_count) && (hash_count <=? 63))
  then Err (ValueError "hop count must be 0-63 for path_len encoding")
  else Ok (Z.lor (Z.shiftl (hash_size - 1) PATH_HASH_SIZE_SHIFT)
                 (Z.land hash_count PATH_HASH_COUNT_MASK)).

Definition is_valid_path_len (path_len_byte : Z) : bool :=
  let hash_size := Z.shiftr path_len_byte PATH_HASH_SIZE_SHIFT + 1 in
  if hash_size >? 3 then false
  else let hash_count := Z.land path_len_byte PATH_HASH_COUNT_MASK in
       hash_count * hash_size <=? MAX_PATH_SIZE.

Definition is_path_at_max_hops (path_len_byte : Z) : bool :=
  if path_len_byte =? 0 then false
  else let hash_size := get_path_hash_size path_len_byte in
       if hash_size >? 3 then false
       else let hash_count := Z.land path_len_byte PATH_HASH_COUNT_MASK in
            let max_hops := Z.min PATH_HASH_COUNT_MASK (MAX_PATH_SIZE / hash_size) in
            hash_count >=? max_hops.

Definition trace_payload_hash_width (flags : Z) : Z := Z.shiftl 1 (Z.land flags 0x03).

End PathUtils.

(** ** PacketDataUtils *)
Module PacketDataUtils.

(** The variable arguments of [pack_timestamp_data], by their type. *)
Inductive part : Type :=
| PartInt (z : Z)
| PartBytes (b : bytes)
| PartStr (s : pystr).

Definition pack_part (p : part) : res bytes :=
  match p with
  | PartInt z => bytes_of_ints [z]
  | PartBytes b => Ok b
  | PartStr s => encode s
  end.

Fixpoint pack_parts (l : list part) : res bytes :=
  match l with
  | [] => Ok []
  | p :: l' => b ← pack_part p; r ← pack_parts l'; mret (b ++ r)
  end.

Definition pack_timestamp_data (timestamp : Z) (data_parts : list part) : res bytes :=
  t ← pack_I timestamp; r ← pack_parts data_parts; mret (t ++ r).

Definition hash_byte (pubkey : bytes) : res Z :=
  match pubkey with
  | [] => Err (ValueError "pubkey must be non-empty bytes")
  | x :: _ => Ok x
  end.

Definition hash_bytes (dest_pubkey src_pubkey : bytes) : res bytes :=
  d ← hash_byte dest_pubkey; s ← hash_byte src_pubkey; bytes_of_ints [d; s].

(** [_snr] is the float the radio reported. *)
Definition calculate_snr_db (raw_snr : option float) : float :=
  match raw_snr with Some x => x | None => f_zero end.

End PacketDataUtils.

(** ** PacketHeaderUtils *)
Module PacketHeaderUtils.

Definition create_header (payload_type route_type version : Z) : Z :=
  Z.lor (Z.lor (Z.land route_type PH_ROUTE_MASK) (Z.shiftl payload_type PH_TYPE_SHIFT))
        (Z.shiftl version PH_VER_SHIFT).

Record header_fields := HeaderFields { route_type : Z; payload_type : Z; version : Z }.

Definition parse_header (header : Z) : header_fields :=
  HeaderFields (Z.land header PH_ROUTE_MASK)
               (Z.land (Z.shiftr header PH_TYPE_SHIFT) PH_TYPE_MASK)
               (Z.land (Z.shiftr header PH_VER_SHIFT) PH_VER_MASK).

End PacketHeaderUtils.

(** ** PacketHashingUtils *)
Module PacketHashingUtils.

(** The bytes hashed: payload type, the path length (TRACE only, as a
    16-bit integer), payload. *)
Definition calculate_packet_hash (payload_type path_len : Z) (payload : bytes) : res bytes :=
  t ← bytes_of_ints [payload_type];
  p ← (if payload_type =? PAYLOAD_TYPE_TRACE then pack_H path_len else mret []);
  mret (slice_to (sha256 (t ++ p ++ payload)) MAX_HASH_SIZE).

Definition calculate_packet_hash_string
    (payload_type path_len : Z) (payload : bytes) (length : option Z) : res string :=
  raw_hash ← calculate_packet_hash payload_type path_len payload;
  let hex_str := upper (hex raw_hash) in
  mret (match length with
        | None => hex_str
        | Some n => String.string_of_list_ascii (slice_to (String.list_ascii_of_string hex_str) n)
        end).

Definition calculate_crc (payload_type path_len : Z) (payload : bytes) : res Z :=
  hash_bytes ← calculate_packet_hash payload_type path_len payload;
  mret (from_le (slice_to hash_bytes 4)).

End PacketHashingUtils.

(** ** RouteTypeUtils *)
Module RouteTypeUtils.

Definition ROUTE_MAP (route_type : string) : option Z :=
  if String.eqb route_type "transport_flood" then Some ROUTE_TYPE_TRANSPORT_FLOOD
  else if String.eqb route_type "flood" then Some ROUTE_TYPE_FLOOD
  else if String.eqb route_type "direct" then Some ROUTE_TYPE_DIRECT
  else if String.eqb route_type "transport_direct" then Some ROUTE_TYPE_TRANSPORT_DIRECT
  else None.

Definition get_route_type_value (route_type : string) (has_routing_path : bool) : Z :=
  if has_routing_path then default ROUTE_TYPE_DIRECT (ROUTE_MAP route_type)
  else default ROUTE_TYPE_FLOOD (ROUTE_MAP route_type).

End RouteTypeUtils.

(** ** Lemmas: the path length byte *)

Import PathUtils.

Ltac path_unfold :=
  unfold get_path_byte_len, get_path_hash_count, get_path_hash_size, PATH_HASH_COUNT_MASK,
    PATH_HASH_SIZE_SHIFT, is_byte in *; autorewrite with bits in *.

(** The two fields of a path length byte determine it. *)
Lemma path_len_fields b :
  is_byte b → 0 ≤ get_path_hash_count b ≤ 63 ∧ 1 ≤ get_path_hash_size b ≤ 4
  ∧ b = 64 * (get_path_hash_size b - 1) + get_path_hash_count b.
Proof. intros Hb. path_unfold. zdm. Qed.

Lemma byte_len_fields b : get_path_byte_len b = get_path_hash_count b * get_path_hash_size b.
Proof. done. Qed.

Lemma byte_len_nonneg b : is_byte b → 0 ≤ get_path_byte_len b.
Proof. intros Hb. rewrite byte_len_fields. pose proof (path_len_fields b Hb). nia. Qed.

Lemma encode_path_len_val hash_size hash_count :
  0 ≤ hash_count ≤ 63 →
  encode_path_len hash_size hash_count = Ok (64 * (hash_size - 1) + hash_count).
Proof.
  intros Hc. unfold encode_path_len.
  replace ((0 <=? hash_count) && (hash_count <=? 63)) with true by lia. cbn [negb]. f_equal.
  unfold PATH_HASH_COUNT_MASK, PATH_HASH_SIZE_SHIFT. autorewrite with bits.
  rewrite Z.mod_small, Z.lor_comm by lia.
  change 64 with (2 ^ 6). rewrite lor_disjoint_add by lia. lia.
Qed.

Lemma fields_of_val hash_size hash_count :
  0 ≤ hash_count ≤ 63 →
  get_path_hash_size (64 * (hash_size - 1) + hash_count) = hash_size
  ∧ get_path_hash_count (64 * (hash_size - 1) + hash_count) = hash_count.
Proof. intros Hc. path_unfold. split; zdm. Qed.

Lemma is_valid_path_len_iff b :
  is_valid_path_len b = true ↔ get_path_hash_size b ≤ 3 ∧ get_path_byte_len b ≤ MAX_PATH_SIZE.
Proof.
  unfold is_valid_path_len, get_path_byte_len, get_path_hash_size.
  destruct (_ >? 3) eqn:E; bool_hyps; [lia|]. rewrite Z.leb_le. lia.
Qed.
