(* ===== verification/Airtime.v ===== *)
(** * Airtime, reception score and request timeouts
      ([protocol/packet_utils.py], [companion/timing.py])

    Computed in binary64 as CPython does. [fpow], the [**] of floats, is the
    platform's [pow]: a parameter of the definitions that use it. *)

From S2P Require Import Prelude PyData PyFloat Constants PacketUtils.

(** [math.ceil(x)] *)
Definition ceil_of_float (x : float) : res Z :=
  match x with
  | S754_finite s m e =>
      if 0 <=? e then Ok ((if s then -1 else 1) * (Z.pos m * 2 ^ e))
      else Ok (if s then - (Z.pos m / 2 ^ (- e)) else - ((- Z.pos m) / 2 ^ (- e)))
  | _ => int_of_float x
  end.

Definition coding_rate_denominator (cr_val : Z) : Z :=
  if (1 <=? cr_val) && (cr_val <=? 4) then cr_val + 4 else Z.max 5 (Z.min 8 cr_val).

Definition calculate_lora_airtime_ms (payload_len sf : Z) (bw_hz : float) (cr preamble_symbols : Z)
    (crc_enabled explicit_header : bool) (low_dr_opt : option bool) : res float :=
  let sf := Z.max 5 (Z.min 12 sf) in
  let bw_hz := if f_truthy bw_hz then bw_hz else f_of_Z 250000 in
  let cr_denom := coding_rate_denominator cr in
  symbol_time_s ← fdiv (f_of_Z (Z.shiftl 1 sf)) bw_hz;
  let low_dr_opt := match low_dr_opt with
                    | None => fleb (f_of_Z 16) (fmul symbol_time_s (f_of_Z 1000))
                    | Some b => b
                    end in
  let sync_symbols := if sf <=? 6 then f_dec 625 2 else f_dec 425 2 in
  let sf_coeff2 := if sf <=? 6 then 0 else 8 in
  let bit_count := 8 * payload_len + (if crc_enabled then 16 else 0) - 4 * sf + sf_coeff2
                   + (if explicit_header then 20 else 0) in
  let denom := if low_dr_opt then 4 * (sf - 2) else 4 * sf in
  q ← int_truediv (Z.max bit_count 0) denom;
  c ← ceil_of_float q;
  let payload_symbols := 8 + c * cr_denom in
  let total_symbols := fadd (fadd (f_of_Z preamble_symbols) sync_symbols) (f_of_Z payload_symbols) in
  mret (fmul (fmul total_symbols symbol_time_s) (f_of_Z 1000)).

(** The defaults of the keyword arguments. *)
Definition lora_airtime (payload_len sf : Z) (bw_hz : float) (cr preamble_symbols : Z) : res float :=
  calculate_lora_airtime_ms payload_len sf bw_hz cr preamble_symbols true true None.

Definition _PACKET_SCORE_SNR_THRESHOLDS : list float :=
  [f_dec (-75) 1; f_of_Z (-10); f_dec (-125) 1; f_of_Z (-15); f_dec (-175) 1; f_of_Z (-20)].

Definition packet_score (snr : float) (sf packet_len : Z) : res float :=
  if sf <? 7 then Ok f_zero
  else
    threshold ← index _PACKET_SCORE_SNR_THRESHOLDS (Z.min sf 12 - 7);
    if fltb snr threshold then Ok f_zero
    else
      snr_margin_rate ← fdiv (fsub snr threshold) (f_of_Z 10);
      l ← fdiv (f_of_Z packet_len) (f_of_Z 256);
      let collision_penalty := fsub f_one l in
      mret (py_fmax f_zero (py_fmin f_one (fmul snr_margin_rate collision_penalty))).

Record FloodRxMetrics := mkMetrics { score : float; air_time_ms : float; delay_ms : float }.

Definition flood_rx_metrics (fpow : float → float → float) (frame_len : Z) (snr : float) (sf : Z)
    (bw_hz : float) (cr preamble_symbols : Z)
    (rx_delay_base min_delay_ms max_delay_ms : float) : res FloodRxMetrics :=
  score ← packet_score snr sf frame_len;
  air_time_ms ← lora_airtime frame_len sf bw_hz cr preamble_symbols;
  if fleb rx_delay_base f_zero then Ok (mkMetrics score air_time_ms f_zero)
  else
    let delay_ms := fmul (fsub (fpow rx_delay_base (fsub (f_dec 85 2) score)) f_one) air_time_ms in
    let delay_ms := if fltb delay_ms min_delay_ms then f_zero else py_fmin delay_ms max_delay_ms in
    Ok (mkMetrics score air_time_ms delay_ms).

(** [PacketTimingUtils.estimate_airtime_ms]: a measured value in the
    configuration wins; a bandwidth below 1000 is in kHz. *)
Record radio_config := mkRadioConfig {
  measured_airtime_ms : option float;
  spreading_factor : Z;
  bandwidth : Z;
  coding_rate : Z;
  preamble_length : Z
}.

Definition default_radio_config : radio_config := mkRadioConfig None 10 250000 5 8.

Definition estimate_airtime_ms (packet_length_bytes : Z) (rc : option radio_config) : res float :=
  let rc := default default_radio_config rc in
  match measured_airtime_ms rc with
  | Some m => Ok m
  | None =>
      let bw := if bandwidth rc <? 1000 then bandwidth rc * 1000 else bandwidth rc in
      airtime_ms ← lora_airtime packet_length_bytes (spreading_factor rc) (f_of_Z bw)
                     (coding_rate rc) (preamble_length rc);
      mret (py_fmax airtime_ms (f_of_Z 50))
  end.

(** ** companion/timing.py *)
Module Timing.

Definition SEND_TIMEOUT_BASE_MILLIS : Z := 500.
Definition FLOOD_SEND_TIMEOUT_FACTOR : float := f_of_Z 16.
Definition DIRECT_SEND_PERHOP_FACTOR : float := f_of_Z 6.
Definition DIRECT_SEND_PERHOP_EXTRA_MILLIS : Z := 250.
Definition DEFAULT_MAX_ATTEMPTS : Z := 3.
Definition MIN_TIMEOUT_MILLIS : Z := 1500.
Definition MAX_TIMEOUT_MILLIS : Z := 12000.

(** [int(bw_hz) or 250000] *)
Definition estimate_airtime_ms (packet_length sf bw_hz cr preamble_symbols : Z)
    (low_dr_opt : option bool) : res float :=
  calculate_lora_airtime_ms packet_length sf
    (f_of_Z (if bw_hz =? 0 then 250000 else bw_hz)) cr preamble_symbols true true low_dr_opt.

Definition calc_flood_timeout_ms (airtime_ms : float) : res Z :=
  int_of_float (fadd (f_of_Z SEND_TIMEOUT_BASE_MILLIS) (fmul FLOOD_SEND_TIMEOUT_FACTOR airtime_ms)).

Definition calc_direct_timeout_ms_for_hops (airtime_ms : float) (hop_count : Z) : res Z :=
  let hops := Z.land (Z.max 0 hop_count) 63 in
  int_of_float
    (fadd (f_of_Z SEND_TIMEOUT_BASE_MILLIS)
       (fmul (fadd (fmul DIRECT_SEND_PERHOP_FACTOR airtime_ms)
                   (f_of_Z DIRECT_SEND_PERHOP_EXTRA_MILLIS))
             (f_of_Z (hops + 1)))).

Definition calc_direct_timeout_ms (airtime_ms : float) (out_path_len : Z) : res Z :=
  let hops := if out_path_len >? 0 then PathUtils.get_path_hash_count out_path_len else 0 in
  calc_direct_timeout_ms_for_hops airtime_ms hops.

Definition response_timeout_ms (raw_length : Z) (is_flood : bool) (out_path_len sf bw_hz cr : Z)
    (preamble_symbols : Z) : res Z :=
  airtime ← estimate_airtime_ms raw_length sf bw_hz cr preamble_symbols None;
  ms ← (if is_flood then calc_flood_timeout_ms airtime
        else calc_direct_timeout_ms airtime out_path_len);
  mret (Z.max MIN_TIMEOUT_MILLIS (Z.min MAX_TIMEOUT_MILLIS ms)).

End Timing.

(** ** Lemmas *)

Lemma fltb_fleb x y : fltb x y = true → fleb x y = true.
Proof. unfold fltb, fleb, SFltb, SFleb. by destruct (SFcompare x y) as [[]|]. Qed.

Lemma SFcompare_antisym x y : SFcompare y x = CompOpp <$> SFcompare x y.
Proof.
  destruct x as [[]|[]| |[] m1 e1], y as [[]|[]| |[] m2 e2]; try done;
    cbn; rewrite (Z.compare_antisym e1 e2); destruct (e1 ?= e2)%Z eqn:E; try done; cbn;
    f_equal; rewrite (Pos.compare_antisym m1 m2 : Pos.compare_cont Eq m2 m1 = _); try done.
Qed.

Lemma fltb_irrefl x : fltb x x = false.
Proof.
  pose proof (SFcompare_antisym x x) as H. unfold fltb, SFltb.
  by destruct (SFcompare x x) as [[]|].
Qed.

Lemma fleb_not_flt x y : fleb x y = true → fltb y x = false.
Proof.
  unfold fleb, fltb, SFleb, SFltb. rewrite (SFcompare_antisym x y).
  by destruct (SFcompare x y) as [[]|].
Qed.

(** A value clamped to [0, 1]; a NaN gives 1. *)
Lemma clamp_unit x :
  let y := py_fmax f_zero (py_fmin f_one x) in fleb f_zero y = true ∧ fleb y f_one = true.
Proof.
  cbv zeta. unfold py_fmax, py_fmin. destruct (fltb x f_one) eqn:E1.
  - destruct (fltb f_zero x) eqn:E2; [by split; apply fltb_fleb|done].
  - done.
Qed.

(** The reception score of any packet, for any SNR (NaN and infinities
    included), spreading factor and length, is a number in [0, 1]. *)
Theorem packet_score_unit snr sf packet_len :
  ∃ s, packet_score snr sf packet_len = Ok s ∧ fleb f_zero s = true ∧ fleb s f_one = true.
Proof.
  unfold packet_score. destruct (sf <? 7) eqn:E; [by exists f_zero|]. bool_hyps.
  assert (0 ≤ Z.min sf 12 - 7 ≤ 5) as Hr by lia. revert Hr. generalize (Z.min sf 12 - 7). intros i Hr.
  assert (∃ th, index _PACKET_SCORE_SNR_THRESHOLDS i = Ok th) as [th ->].
  { assert (i = 0 ∨ i = 1 ∨ i = 2 ∨ i = 3 ∨ i = 4 ∨ i = 5) as Hi by lia.
    destruct Hi as [->|[->|[->|[->|[->| ->]]]]]; by eexists. }
  cbn [mbind res_bind]. destruct (fltb snr th); [by exists f_zero|].
  eexists. split; [reflexivity|]. apply clamp_unit.
Qed.

(** Both timeouts of a frame of [n] bytes, for every hop count. *)
Definition airtime_timeouts_ok (a : res float) : bool :=
  match a with
  | Ok a => is_ok (Timing.calc_flood_timeout_ms a)
            && forallb (fun h => is_ok (Timing.calc_direct_timeout_ms_for_hops a (Z.of_nat h)))
                 (seq 0 64)
  | Err _ => false
  end.

Lemma timeouts_return (a : res float) (is_flood : bool) out_path_len :
  airtime_timeouts_ok a = true →
  is_ok ((airtime ← a;
         ms ← (if is_flood then Timing.calc_flood_timeout_ms airtime
               else Timing.calc_direct_timeout_ms airtime out_path_len);
         mret (Z.max Timing.MIN_TIMEOUT_MILLIS (Z.min Timing.MAX_TIMEOUT_MILLIS ms))) : res Z) = true.
Proof.
  destruct a as [a|]; [|done]. unfold airtime_timeouts_ok. intros [Hf Hd]%andb_true_iff.
  cbn [mbind res_bind]. destruct is_flood; [by destruct (Timing.calc_flood_timeout_ms a)|].
  unfold Timing.calc_direct_timeout_ms. set (hops := if out_path_len >? 0 then _ else _).
  assert (0 ≤ hops < 64) as Hh.
  { unfold hops, PathUtils.get_path_hash_count, PATH_HASH_COUNT_MASK. rewrite land_63.
    destruct (_ >? 0); [apply Z.mod_pos_bound|]; lia. }
  pose proof (forall_below (fun h => is_ok (Timing.calc_direct_timeout_ms_for_hops a h)) 64 Hd hops Hh) as Hx.
  cbv beta in Hx. by destruct (Timing.calc_direct_timeout_ms_for_hops a hops).
Qed.

Lemma default_timeouts_checked :
  forallb (fun n => airtime_timeouts_ok (Timing.estimate_airtime_ms (Z.of_nat n) 10 250000 5 8 None))
    (seq 0 256) = true.
Proof. vm_cast_no_check (eq_refl true). Qed.

Lemma default_timeout_returns raw_length is_flood out_path_len :
  0 ≤ raw_length < 256 →
  is_ok (Timing.response_timeout_ms raw_length is_flood out_path_len 10 250000 5 8) = true.
Proof.
  intros Hr. apply timeouts_return.
  exact (forall_below (fun n => airtime_timeouts_ok (Timing.estimate_airtime_ms n 10 250000 5 8 None))
    256 default_timeouts_checked raw_length Hr).
Qed.

(** A request waits between 1.5 and 12 seconds for its response,
    whatever the packet, the route and the radio settings; at the default
    radio settings the computation succeeds for every frame length and path. *)
Theorem response_timeout_bounds raw_length is_flood out_path_len sf bw_hz cr preamble :
  (∀ ms, Timing.response_timeout_ms raw_length is_flood out_path_len sf bw_hz cr preamble = Ok ms →
     1500 ≤ ms ≤ 12000)
  ∧ (0 ≤ raw_length < 256 →
     ∃ ms, Timing.response_timeout_ms raw_length is_flood out_path_len 10 250000 5 8 = Ok ms).
Proof.
  split.
  - unfold Timing.response_timeout_ms. intros ms H. res_inv.
    unfold Timing.MIN_TIMEOUT_MILLIS, Timing.MAX_TIMEOUT_MILLIS. lia.
  - intros Hr. pose proof (default_timeout_returns raw_length is_flood out_path_len Hr) as H.
    destruct (Timing.response_timeout_ms _ _ _ _ _ _ _) as [ms|]; [by exists ms|done].
Qed.

Example airtime_default : (a ← lora_airtime 20 10 (f_of_Z 250000) 5 8; int_of_float a) = Ok 185.
Proof. vm_compute. reflexivity. Qed.

(** the flood hold is off (0), or neither below the lower nor above
    the upper bound. *)
Theorem flood_delay_bounds fpow frame_len snr sf bw cr preamble base dmin dmax m :
  flood_rx_metrics fpow frame_len snr sf bw cr preamble base dmin dmax = Ok m →
  fleb dmin dmax = true →
  delay_ms m = f_zero
  ∨ (fltb (delay_ms m) dmin = false ∧ fltb dmax (delay_ms m) = false).
Proof.
  unfold flood_rx_metrics. intros H Hd. res_inv.
  destruct (fleb base f_zero); res_inv; [by left|]. cbn [delay_ms].
  set (d := fmul _ _). destruct (fltb d dmin) eqn:E; [by left|]. right.
  unfold py_fmin. destruct (fltb dmax d) eqn:E2; [|done].
  split; [by apply fleb_not_flt|apply fltb_irrefl].
Qed.

Lemma response_timeout_bounds_witness :
  ∃ ms, Timing.response_timeout_ms 100 true 0 10 250000 5 8 = Ok ms ∧ 1500 ≤ ms ≤ 12000.
Proof.
  destruct (response_timeout_bounds 100 true 0 10 250000 5 8) as [Hb Ht].
  destruct Ht as [ms Hms]; [lia|]. exists ms. split; [exact Hms|exact (Hb ms Hms)].
Defined.
