(* ===== verification/Packet.v ===== *)
(** * The mesh packet ([protocol/packet.py])

    [Packet.t] is the Python object; a method that assigns attributes is a
    stateful computation over it ([py t A]), one that only reads is a function
    of it. [write_to] and [read_from] are the wire format. *)

From S2P Require Import Prelude PyData Sha256 Utf8 PyFloat Constants PacketUtils.

Module Packet.

(** The attributes of [Packet.__slots__] that the modelled code reads or
    writes. ([decrypted] and [_tx_metadata], scratch space of handlers, are
    left out.) *)
Record t := mk {
  header : Z;
  path : bytes;
  payload : bytes;
  path_len : Z;
  payload_len : Z;
  transport_codes : Z * Z;
  _snr : float;
  _rssi : Z;
  _rx_radio_id : option string;
  _do_not_retransmit : bool;
  drop_reason : option string;
  _path_hash_mode_applied : bool;
  _flood_scope_applied : bool;
  _injected_for_tx : bool;
  _injected_origin_hash : option string;
  _recv_region_captured : bool;
  _recv_region_key : option bytes;
  _recv_region_unscoped : bool
}.

(** [Packet()] *)
Definition init : t :=
  mk 0x00 [] [] 0 0 (0, 0) f_zero 0 None false None false false false None false None false.

(** Attribute assignment. *)
Definition with_header v p := mk v (path p) (payload p) (path_len p) (payload_len p)
  (transport_codes p) (_snr p) (_rssi p) (_rx_radio_id p) (_do_not_retransmit p) (drop_reason p)
  (_path_hash_mode_applied p) (_flood_scope_applied p) (_injected_for_tx p)
  (_injected_origin_hash p) (_recv_region_captured p) (_recv_region_key p)
  (_recv_region_unscoped p).
Definition with_path v p := mk (header p) v (payload p) (path_len p) (payload_len p)
  (transport_codes p) (_snr p) (_rssi p) (_rx_radio_id p) (_do_not_retransmit p) (drop_reason p)
  (_path_hash_mode_applied p) (_flood_scope_applied p) (_injected_for_tx p)
  (_injected_origin_hash p) (_recv_region_captured p) (_recv_region_key p)
  (_recv_region_unscoped p).
Definition with_payload v p := mk (header p) (path p) v (path_len p) (payload_len p)
  (transport_codes p) (_snr p) (_rssi p) (_rx_radio_id p) (_do_not_retransmit p) (drop_reason p)
  (_path_hash_mode_applied p) (_flood_scope_applied p) (_injected_for_tx p)
  (_injected_origin_hash p) (_recv_region_captured p) (_recv_region_key p)
  (_recv_region_unscoped p).
Definition with_path_len v p := mk (header p) (path p) (payload p) v (payload_len p)
  (transport_codes p) (_snr p) (_rssi p) (_rx_radio_id p) (_do_not_retransmit p) (drop_reason p)
  (_path_hash_mode_applied p) (_flood_scope_applied p) (_injected_for_tx p)
  (_injected_origin_hash p) (_recv_region_captured p) (_recv_region_key p)
  (_recv_region_unscoped p).
Definition with_payload_len v p := mk (header p) (path p) (payload p) (path_len p) v
  (transport_codes p) (_snr p) (_rssi p) (_rx_radio_id p) (_do_not_retransmit p) (drop_reason p)
  (_path_hash_mode_applied p) (_flood_scope_applied p) (_injected_for_tx p)
  (_injected_origin_hash p) (_recv_region_captured p) (_recv_region_key p)
  (_recv_region_unscoped p).
Definition with_transport_codes v p := mk (header p) (path p) (payload p) (path_len p)
  (payload_len p) v (_snr p) (_rssi p) (_rx_radio_id p) (_do_not_retransmit p) (drop_reason p)
  (_path_hash_mode_applied p) (_flood_scope_applied p) (_injected_for_tx p)
  (_injected_origin_hash p) (_recv_region_captured p) (_recv_region_key p)
  (_recv_region_unscoped p).
Definition with_signal (snr : float) (rssi : Z) p := mk (header p) (path p) (payload p)
  (path_len p) (payload_len p) (transport_codes p) snr rssi (_rx_radio_id p)
  (_do_not_retransmit p) (drop_reason p)
  (_path_hash_mode_applied p) (_flood_scope_applied p) (_injected_for_tx p)
  (_injected_origin_hash p) (_recv_region_captured p) (_recv_region_key p)
  (_recv_region_unscoped p).
Definition with_rx_radio_id v p := mk (header p) (path p) (payload p) (path_len p)
  (payload_len p) (transport_codes p) (_snr p) (_rssi p) v (_do_not_retransmit p) (drop_reason p)
  (_path_hash_mode_applied p) (_flood_scope_applied p) (_injected_for_tx p)
  (_injected_origin_hash p) (_recv_region_captured p) (_recv_region_key p)
  (_recv_region_unscoped p).
Definition with_do_not_retransmit v p := mk (header p) (path p) (payload p) (path_len p)
  (payload_len p) (transport_codes p) (_snr p) (_rssi p) (_rx_radio_id p) v (drop_reason p)
  (_path_hash_mode_applied p) (_flood_scope_applied p) (_injected_for_tx p)
  (_injected_origin_hash p) (_recv_region_captured p) (_recv_region_key p)
  (_recv_region_unscoped p).
Definition with_path_hash_mode_applied v p := mk (header p) (path p) (payload p) (path_len p)
  (payload_len p) (transport_codes p) (_snr p) (_rssi p) (_rx_radio_id p) (_do_not_retransmit p)
  (drop_reason p) v (_flood_scope_applied p) (_injected_for_tx p)
  (_injected_origin_hash p) (_recv_region_captured p) (_recv_region_key p)
  (_recv_region_unscoped p).
Definition with_flood_scope_applied v p := mk (header p) (path p) (payload p) (path_len p)
  (payload_len p) (transport_codes p) (_snr p) (_rssi p) (_rx_radio_id p) (_do_not_retransmit p)
  (drop_reason p) (_path_hash_mode_applied p) v (_injected_for_tx p)
  (_injected_origin_hash p) (_recv_region_captured p) (_recv_region_key p)
  (_recv_region_unscoped p).
Definition with_recv_region (captured : bool) (key : option bytes) (unscoped : bool) p :=
  mk (header p) (path p) (payload p) (path_len p)
  (payload_len p) (transport_codes p) (_snr p) (_rssi p) (_rx_radio_id p) (_do_not_retransmit p)
  (drop_reason p) (_path_hash_mode_applied p) (_flood_scope_applied p) (_injected_for_tx p)
  (_injected_origin_hash p) captured key unscoped.

(** ** Reading the header and the path *)

Definition get_route_type (p : t) : Z := Z.land (header p) PH_ROUTE_MASK.

Definition get_payload_type (p : t) : Z :=
  Z.land (Z.shiftr (header p) PH_TYPE_SHIFT) PH_TYPE_MASK.

Definition get_payload_ver (p : t) : Z :=
  Z.land (Z.shiftr (header p) PH_VER_SHIFT) PH_VER_MASK.

Definition has_transport_codes (p : t) : bool :=
  let route_type := get_route_type p in
  (route_type =? ROUTE_TYPE_TRANSPORT_FLOOD) || (route_type =? ROUTE_TYPE_TRANSPORT_DIRECT).

Definition is_route_flood (p : t) : bool :=
  let route_type := get_route_type p in
  (route_type =? ROUTE_TYPE_TRANSPORT_FLOOD) || (route_type =? ROUTE_TYPE_FLOOD).

Definition is_route_direct (p : t) : bool :=
  let route_type := get_route_type p in
  (route_type =? ROUTE_TYPE_TRANSPORT_DIRECT) || (route_type =? ROUTE_TYPE_DIRECT).

Definition get_path_hash_size (p : t) : Z := PathUtils.get_path_hash_size (path_len p).

Definition get_path_hash_count (p : t) : Z := PathUtils.get_path_hash_count (path_len p).

Definition get_path_byte_len (p : t) : Z := PathUtils.get_path_byte_len (path_len p).

Definition apply_path_hash_mode (mode : Z) (mark_applied : bool) : py t unit :=
  p ← get;
  if negb ((mode =? 0) || (mode =? 1) || (mode =? 2))
  then raise (ValueError "path_hash_mode must be 0, 1, or 2")
  else if get_payload_type p =? PAYLOAD_TYPE_TRACE then mret tt
  else if negb (get_path_hash_count p =? 0) then mret tt
  else
    l ← lift (PathUtils.encode_path_len (mode + 1) 0);
    modify (with_path_len l);;
    (if mark_applied then modify (with_path_hash_mode_applied true) else mret tt).

(** [for i in range(count)]: the entries that lie inside [path]. *)
Definition get_path_hashes (p : t) : list bytes :=
  let hash_size := get_path_hash_size p in
  let count := get_path_hash_count p in
  concat (map (fun i =>
    let start := Z.of_nat i * hash_size in
    let end_ := start + hash_size in
    if end_ <=? len (path p) then [slice (path p) start end_] else [])
    (seq 0 (Z.to_nat count))).

Definition get_path_hashes_hex (p : t) : list string :=
  map (fun entry => upper (hex entry)) (get_path_hashes p).

Definition set_path (path_bytes : bytes) (path_len_encoded : option Z) : py t unit :=
  modify (with_path path_bytes);;
  match path_len_encoded with
  | Some l => modify (with_path_len l)
  | None =>
      let hop_count := len path_bytes in
      if hop_count >? 63
      then raise (ValueError "path length exceeds maximum encodable hop count 63")
      else l ← lift (PathUtils.encode_path_len 1 hop_count); modify (with_path_len l)
  end.

Definition get_payload (p : t) : bytes := slice_to (payload p) (payload_len p).

Definition get_payload_app_data (p : t) : bytes :=
  let offset := PUB_KEY_SIZE + TIMESTAMP_SIZE + SIGNATURE_SIZE in
  if payload_len p >=? offset then slice_from (get_payload p) offset else [].

(** ** The wire format *)

Definition _validate_lengths (p : t) : res unit :=
  PacketValidationUtils.validate_buffer_lengths
    (get_path_byte_len p) (len (path p)) (payload_len p) (len (payload p)).

Definition _validate_payload_size (p : t) : res unit :=
  PacketValidationUtils.validate_payload_size (payload_len p).

Definition _check_bounds (idx required data_len : Z) (error_msg : string) : res unit :=
  PacketValidationUtils.validate_packet_bounds idx required data_len error_msg.

Definition write_to (p : t) : res bytes :=
  _validate_lengths p;;
  _validate_payload_size p;;
  out ← bytes_of_ints [header p];
  codes ← (if has_transport_codes p
           then a ← to_bytes_le 2 (transport_codes p).1;
                b ← to_bytes_le 2 (transport_codes p).2; mret (a ++ b)
           else mret []);
  l ← bytes_of_ints [path_len p];
  mret (out ++ codes ++ l ++ slice_to (path p) (get_path_byte_len p)
        ++ slice_to (payload p) (payload_len p)).

(** [if self.has_transport_codes(): ...]: reads the codes at [idx] and returns
    the index after them. *)
Definition read_codes (data : bytes) (idx : Z) : py t Z :=
  p ← get;
  if has_transport_codes p then
    lift (_check_bounds idx 4 (len data) "missing transport codes");;
    modify (with_transport_codes (from_le (slice data idx (idx + 2)),
                                  from_le (slice data (idx + 2) (idx + 4))));;
    mret (idx + 4)
  else modify (with_transport_codes (0, 0));; mret idx.

Definition read_from (data : bytes) : py t bool :=
  modify (with_recv_region false None false);;
  modify (with_flood_scope_applied false);;
  modify (with_path_hash_mode_applied false);;
  let idx := 0 in let data_len := len data in
  h ← lift (index data idx);
  modify (with_header h);;
  let idx := idx + 1 in
  p ← get;
  (if get_payload_ver p >? MAX_SUPPORTED_PAYLOAD_VERSION
   then raise (ValueError "Unsupported packet version") else mret tt);;
  idx ← read_codes data idx;
  lift (_check_bounds idx 1 data_len "missing path_len");;
  l ← lift (index data idx);
  modify (with_path_len l);;
  let idx := idx + 1 in
  (if negb (PathUtils.is_valid_path_len l) then
     if PathUtils.get_path_hash_size l >? 3
     then raise (ValueError "invalid path_len encoding")
     else raise (ValueError "path_len too large")
   else mret tt);;
  let path_byte_len := PathUtils.get_path_byte_len l in
  lift (_check_bounds idx path_byte_len data_len "truncated path");;
  modify (with_path (slice data idx (idx + path_byte_len)));;
  let idx := idx + path_byte_len in
  let body := slice_from data idx in
  modify (with_payload body);;
  modify (with_payload_len (len body));;
  lift (PacketValidationUtils.validate_payload_size (len body));;
  mret true.

(** ** Hashes and lengths *)

Definition calculate_packet_hash (p : t) : res bytes :=
  PacketHashingUtils.calculate_packet_hash (get_payload_type p) (path_len p) (get_payload p).

Definition get_packet_hash_hex (p : t) (length : option Z) : res string :=
  PacketHashingUtils.calculate_packet_hash_string
    (get_payload_type p) (path_len p) (get_payload p) length.

Definition get_crc (p : t) : res Z :=
  PacketHashingUtils.calculate_crc (get_payload_type p) (path_len p) (get_payload p).

Definition get_raw_length (p : t) : Z :=
  let base_length := 2 + get_path_byte_len p + payload_len p in
  base_length + (if has_transport_codes p then 4 else 0).

Definition get_snr (p : t) : float := PacketDataUtils.calculate_snr_db (Some (_snr p)).

Definition mark_do_not_retransmit : py t unit := modify (with_do_not_retransmit true).

Definition is_marked_do_not_retransmit (p : t) : bool := _do_not_retransmit p.

End Packet.

(** ** The wire format: lemmas *)

Import Packet.

(** What a packet must satisfy to be a frame of the protocol. *)
Record wire_wf (p : Packet.t) : Prop := {
  wf_header : is_byte (header p);
  wf_version : get_payload_ver p = 0;
  wf_codes : if has_transport_codes p
             then 0 ≤ (transport_codes p).1 < 65536 ∧ 0 ≤ (transport_codes p).2 < 65536
             else transport_codes p = (0, 0);
  wf_path_len : is_byte (path_len p);
  wf_path_valid : PathUtils.is_valid_path_len (path_len p) = true;
  wf_path : len (path p) = get_path_byte_len p;
  wf_path_bytes : bytes_ok (path p);
  wf_payload_len : payload_len p = len (payload p);
  wf_payload_max : payload_len p ≤ MAX_PACKET_PAYLOAD;
  wf_payload_bytes : bytes_ok (payload p)
}.

(** The bytes of a frame: header, transport codes, path length, path, payload. *)
Definition frame_codes (p : Packet.t) : bytes :=
  if has_transport_codes p
  then le_bytes 2 (transport_codes p).1 ++ le_bytes 2 (transport_codes p).2 else [].

Definition frame_of (p : Packet.t) : bytes :=
  [header p] ++ frame_codes p ++ [path_len p] ++ path p ++ payload p.

(** [q] after the frame of [p] was read into it. *)
Definition received (p q : Packet.t) : Packet.t :=
  with_payload_len (len (payload p)) (with_payload (payload p) (with_path (path p)
    (with_path_len (path_len p)
      (with_transport_codes (if has_transport_codes p then transport_codes p else (0, 0))
        (with_header (header p)
          (with_path_hash_mode_applied false (with_flood_scope_applied false
            (with_recv_region false None false q)))))))).

Lemma valid_path_len_bound b :
  is_byte b → PathUtils.is_valid_path_len b = true → 0 ≤ PathUtils.get_path_byte_len b ≤ 64.
Proof.
  intros Hb Hv. apply is_valid_path_len_iff in Hv as [_ Hv].
  split; [by apply byte_len_nonneg|exact Hv].
Qed.

Lemma frame_codes_ok p :
  (if has_transport_codes p
   then 0 ≤ (transport_codes p).1 < 65536 ∧ 0 ≤ (transport_codes p).2 < 65536 else True) →
  (if has_transport_codes p
   then a ← to_bytes_le 2 (transport_codes p).1;
        b ← to_bytes_le 2 (transport_codes p).2; mret (a ++ b)
   else mret []) = Ok (frame_codes p).
Proof.
  unfold frame_codes. destruct (has_transport_codes p); [|done]. intros [? ?].
  rewrite !to_bytes_le_ok by (cbn; lia). done.
Qed.

Lemma write_to_frame p : wire_wf p → write_to p = Ok (frame_of p).
Proof.
  intros [Hh Hv Hc Hl Hlv Hp Hpb Hn Hm Hb].
  unfold write_to, _validate_lengths, _validate_payload_size,
    PacketValidationUtils.validate_buffer_lengths, PacketValidationUtils.validate_payload_size.
  rewrite Hp, Hn, !Z.eqb_refl. rewrite Hn in Hm.
  replace (len (payload p) >? MAX_PACKET_PAYLOAD) with false by lia. cbn [negb raise_if mbind res_bind].
  rewrite bytes_of_ints_ok by (apply bytes_ok_cons; auto with pybytes).
  rewrite frame_codes_ok by (destruct (has_transport_codes p); auto).
  rewrite bytes_of_ints_ok by (apply bytes_ok_cons; auto with pybytes).
  rewrite <- Hp, !slice_to_all. done.
Qed.

Lemma get_payload_ver_header p q : header p = header q → get_payload_ver p = get_payload_ver q.
Proof. unfold get_payload_ver. by intros ->. Qed.

Lemma has_transport_codes_header p q :
  header p = header q → has_transport_codes p = has_transport_codes q.
Proof. unfold has_transport_codes, get_route_type. by intros ->. Qed.

Ltac py_run := unfold mbind, py_bind, modify, lift, get, mret, py_ret, raise.

Lemma check_bounds_ok idx n l msg : idx + n ≤ l → _check_bounds idx n l msg = Ok tt.
Proof.
  intros. unfold _check_bounds, PacketValidationUtils.validate_packet_bounds.
  by replace (idx + n >? l) with false by lia.
Qed.

Lemma from_le_2 z : 0 ≤ z < 65536 → from_le (le_bytes 2 z) = z.
Proof. intros. by apply from_le_le_bytes. Qed.

Lemma read_codes_frame p s rest :
  header s = header p →
  (if has_transport_codes p
   then 0 ≤ (transport_codes p).1 < 65536 ∧ 0 ≤ (transport_codes p).2 < 65536 else True) →
  read_codes ([header p] ++ frame_codes p ++ rest) 1 s
  = (with_transport_codes (if has_transport_codes p then transport_codes p else (0, 0)) s,
     Ok (1 + len (frame_codes p))).
Proof.
  intros Hh Hc. unfold read_codes. py_run.
  rewrite (has_transport_codes_header s p Hh). unfold frame_codes.
  destruct (has_transport_codes p) eqn:E; [|done]. destruct Hc as [H1 H2].
  rewrite check_bounds_ok by len_lia.
  rewrite <- !app_assoc.
  rewrite (slice_app_exact [header p] (le_bytes 2 _)) by done.
  rewrite (app_assoc [header p]), (slice_app_exact ([header p] ++ _) (le_bytes 2 _)) by done.
  rewrite !from_le_2, <- surjective_pairing by done. do 2 f_equal.
Qed.

Lemma read_from_frame p q : wire_wf p → read_from (frame_of p) q = (received p q, Ok true).
Proof.
  intros [Hh Hv Hc Hl Hlv Hp Hpb Hn Hm Hb].
  unfold read_from. set (data := frame_of p).
  assert (index data 0 = Ok (header p)) as Hi by done.
  pose (s1 := with_header (header p)
    (with_path_hash_mode_applied false (with_flood_scope_applied false
       (with_recv_region false None false q)))).
  assert (read_codes data 1 s1 = (with_transport_codes
    (if has_transport_codes p then transport_codes p else (0, 0)) s1, Ok (1 + len (frame_codes p)))) as Hrc.
  { apply read_codes_frame; [done|]. destruct (has_transport_codes p); auto. }
  assert (index data (1 + len (frame_codes p)) = Ok (path_len p)) as Hil.
  { unfold data, frame_of. rewrite app_assoc. apply index_app_exact. len_lia. }
  pose proof (valid_path_len_bound _ Hl Hlv) as Hbl.
  unfold get_path_byte_len in Hp.
  assert (len data = 2 + len (frame_codes p) + len (path p) + len (payload p)) as Hlen.
  { unfold data, frame_of. len_lia. }
  py_run. rewrite Hi. fold s1.
  rewrite (get_payload_ver_header s1 p), Hv by done.
  replace (0 >? MAX_SUPPORTED_PAYLOAD_VERSION) with false by done.
  change (0 + 1) with 1. rewrite Hrc.
  rewrite check_bounds_ok by len_lia. rewrite Hil, Hlv. cbn [negb].
  rewrite check_bounds_ok by len_lia.
  assert (slice data (1 + len (frame_codes p) + 1)
            (1 + len (frame_codes p) + 1 + PathUtils.get_path_byte_len (path_len p)) = path p) as ->.
  { unfold data, frame_of. rewrite !app_assoc, <- (app_assoc _ (path p)).
    apply slice_app_exact; len_lia. }
  assert (slice_from data (1 + len (frame_codes p) + 1 + PathUtils.get_path_byte_len (path_len p))
          = payload p) as ->.
  { unfold data, frame_of. rewrite !app_assoc. apply slice_from_app_exact. len_lia. }
  unfold PacketValidationUtils.validate_payload_size.
  by replace (len (payload p) >? MAX_PACKET_PAYLOAD) with false by lia.
Qed.

Lemma check_bounds_inv idx n l msg u : _check_bounds idx n l msg = Ok u → idx + n ≤ l.
Proof.
  unfold _check_bounds, PacketValidationUtils.validate_packet_bounds. intros H. res_inv.
  bool_hyps. lia.
Qed.

Ltac bounds_inv :=
  repeat match goal with H : _check_bounds _ _ _ _ = Ok _ |- _ => apply check_bounds_inv in H end.

Lemma le_bytes_2_from_le b : bytes_ok b → len b = 2 → le_bytes 2 (from_le b) = b.
Proof. intros Hb Hl. rewrite <- (le_bytes_from_le b) at 2 by done. f_equal. unfold len in Hl. lia. Qed.

Lemma from_le_2_bound b : bytes_ok b → len b = 2 → 0 ≤ from_le b < 65536.
Proof. intros Hb Hl. pose proof (from_le_bound b Hb) as H. by rewrite Hl in H. Qed.

Lemma read_codes_inv h rest s s' idx :
  header s = h → bytes_ok rest → read_codes (h :: rest) 1 s = (s', Ok idx) →
  ∃ rest', rest = frame_codes s' ++ rest' ∧ idx = 1 + len (frame_codes s')
    ∧ s' = with_transport_codes (transport_codes s') s
    ∧ (if has_transport_codes s
       then 0 ≤ (transport_codes s').1 < 65536 ∧ 0 ≤ (transport_codes s').2 < 65536
       else transport_codes s' = (0, 0)).
Proof.
  intros Hh Hb H. unfold read_codes in H. apply py_bind_ok in H as (? & ? & H1 & H).
  apply get_ok in H1 as [-> ->]. destruct (has_transport_codes s) eqn:E.
  - py_inv. bounds_inv.
    destruct (split_at_len rest 2) as (a & r1 & -> & Ha); [len_lia|].
    destruct (split_at_len r1 2) as (b & r2 & -> & Hr); [len_lia|].
    rewrite !bytes_ok_app in Hb. destruct Hb as (Hba & Hbb & _).
    change (header s :: a ++ b ++ r2) with ([header s] ++ a ++ b ++ r2).
    rewrite (slice_app_exact [header s] a) by (autorewrite with pylen; lia).
    rewrite (app_assoc [header s]), (slice_app_exact ([header s] ++ a) b)
      by (autorewrite with pylen; lia).
    exists r2. unfold frame_codes.
    rewrite (has_transport_codes_header (with_transport_codes (from_le a, from_le b) s) s), E by done.
    cbn [transport_codes with_transport_codes fst snd].
    rewrite !le_bytes_2_from_le by done.
    split; [by rewrite app_assoc|]. split; [len_lia|]. split; [done|].
    split; by apply from_le_2_bound.
  - py_inv. exists rest. unfold frame_codes.
    rewrite (has_transport_codes_header (with_transport_codes (0, 0) s) s), E by done. done.
Qed.

(** A frame whose header and codes were read, split at the path. *)
Lemma read_path_inv (pre : bytes) l rest n :
  is_byte l → PathUtils.is_valid_path_len l = true → n = len pre →
  n + PathUtils.get_path_byte_len l ≤ len (pre ++ rest) →
  slice (pre ++ rest) n (n + PathUtils.get_path_byte_len l)
    ++ slice_from (pre ++ rest) (n + PathUtils.get_path_byte_len l) = rest
  ∧ len (slice (pre ++ rest) n (n + PathUtils.get_path_byte_len l)) = PathUtils.get_path_byte_len l.
Proof.
  intros Hl Hv -> Hlen. pose proof (valid_path_len_bound l Hl Hv) as Hb.
  destruct (split_at_len rest (PathUtils.get_path_byte_len l)) as (a & b & -> & Ha); [len_lia|].
  rewrite (slice_app_exact pre a b) by lia.
  rewrite (app_assoc pre a b), slice_from_app_exact by len_lia. done.
Qed.

Lemma read_from_inv data q p r :
  read_from data q = (p, Ok r) → bytes_ok data →
  r = true ∧ wire_wf p ∧ data = frame_of p ∧ p = received p q.
Proof.
  intros H Hb. unfold read_from in H. py_inv.
  destruct data as [|h rest]; [done|].
  match goal with H : index _ 0 = Ok _ |- _ => injection H as <- end.
  apply bytes_ok_cons in Hb as [Hh Hb].
  match goal with H : read_codes _ _ ?s = (?s', Ok ?i) |- _ =>
    apply (read_codes_inv h rest s s' i) in H as (rest' & -> & -> & Hs & Hc); [|done..];
    rename s' into sc end.
  remember (transport_codes sc) as c eqn:Hcc. clear Hcc. subst sc.
  match goal with H : index _ (1 + _) = Ok ?l |- _ => rename H into Hi; rename l into pl end.
  bounds_inv. destruct rest' as [|l rest]; [autorewrite with pylen in *; lia|].
  match goal with Hi : index (h :: ?cs ++ _) _ = _ |- _ => set (codes := cs) in * end.
  change (h :: codes ++ l :: rest) with ([h] ++ codes ++ l :: rest) in *.
  rewrite app_assoc, index_app_exact in Hi by len_lia. injection Hi as ->.
  rewrite (cons_middle pl codes rest), !(app_assoc [h]), !(app_assoc ([h] ++ codes)) in *.
  apply bytes_ok_app in Hb as [_ Hb]. apply bytes_ok_cons in Hb as [Hl Hb].
  match goal with H : negb (PathUtils.is_valid_path_len _) = false |- _ =>
    apply negb_false_iff in H; rename H into Hv end.
  destruct (read_path_inv (([h] ++ codes) ++ [pl]) pl rest (1 + len codes + 1)) as [Hsplit Hplen];
    [done|done|len_lia|lia|].
  set (pth := slice _ _ _) in *. set (pld := slice_from _ _) in *. clearbody pth pld.
  subst rest. apply bytes_ok_app in Hb as [Hb1 Hb2].
  unfold PacketValidationUtils.validate_payload_size in *. res_inv. bool_hyps.
  split; [done|]. split; [|split].
  - split; cbn; try done.
    match goal with H : get_payload_ver _ ≤ _ |- _ => rename H into Hver end.
    unfold get_payload_ver, PH_VER_SHIFT, PH_VER_MASK, MAX_SUPPORTED_PAYLOAD_VERSION, PAYLOAD_VER_1 in *.
    cbn [header with_header] in Hver. cbn. autorewrite with bits in *. zdm.
  - unfold frame_of. cbn. unfold codes. by rewrite <- !app_assoc.
  - unfold received. revert Hc. unfold has_transport_codes, get_route_type. cbn.
    match goal with |- context [if ?b then c else _] => destruct b end; [done|by intros ->].
Qed.

Lemma write_to_inv p w :
  write_to p = Ok w →
  w = frame_of p ∧ is_byte (header p) ∧ is_byte (path_len p)
  ∧ len (path p) = get_path_byte_len p
  ∧ payload_len p = len (payload p) ∧ payload_len p ≤ MAX_PACKET_PAYLOAD
  ∧ (if has_transport_codes p
     then 0 ≤ (transport_codes p).1 < 65536 ∧ 0 ≤ (transport_codes p).2 < 65536 else True).
Proof.
  intros H. unfold write_to, _validate_lengths, _validate_payload_size,
    PacketValidationUtils.validate_buffer_lengths, PacketValidationUtils.validate_payload_size in H.
  destruct (negb (get_path_byte_len p =? len (path p))) eqn:E1; [done|].
  destruct (negb (payload_len p =? len (payload p))) eqn:E2; [done|].
  res_inv. bool_hyps.
  repeat match goal with H : bytes_of_ints _ = Ok _ |- _ =>
    apply bytes_of_ints_inv in H as [-> H]; apply bytes_ok_cons in H as [? _] end.
  rewrite E2, E1, !slice_to_all.
  unfold frame_of, frame_codes.
  destruct (has_transport_codes p); res_inv;
    repeat match goal with H : to_bytes_le _ _ = Ok _ |- _ =>
      apply to_bytes_le_inv in H as [? ->] end.
  - split_and!; done || lia.
  - split_and!; done || lia.
Qed.

(** Unused transport codes do not reach the wire. *)
Definition canonical (p : Packet.t) : Packet.t :=
  with_transport_codes (if has_transport_codes p then transport_codes p else (0, 0)) p.

Lemma frame_of_canonical p : frame_of (canonical p) = frame_of p.
Proof.
  unfold frame_of, frame_codes. rewrite (has_transport_codes_header (canonical p) p) by done.
  unfold canonical. by destruct (has_transport_codes p).
Qed.

Lemma received_canonical p q : received (canonical p) q = received p q.
Proof.
  unfold received. rewrite (has_transport_codes_header (canonical p) p) by done.
  unfold canonical. by destruct (has_transport_codes p).
Qed.

Lemma write_to_wf p w :
  write_to p = Ok w → get_payload_ver p = 0 → PathUtils.is_valid_path_len (path_len p) = true →
  bytes_ok (path p) → bytes_ok (payload p) → wire_wf (canonical p).
Proof.
  intros Hw Hv Hl Hb1 Hb2. apply write_to_inv in Hw as (-> & ? & ? & ? & ? & ? & Hc).
  split; try done. rewrite (has_transport_codes_header (canonical p) p) by done.
  unfold canonical. by destruct (has_transport_codes p).
Qed.

Lemma len_frame_codes p : len (frame_codes p) = if has_transport_codes p then 4 else 0.
Proof. unfold frame_codes. destruct (has_transport_codes p); [len_lia|done]. Qed.

Lemma len_frame_of p :
  len (path p) = get_path_byte_len p → payload_len p = len (payload p) →
  len (frame_of p) = get_raw_length p.
Proof.
  intros Hp Hn. unfold frame_of, get_raw_length. rewrite Hn, <- Hp.
  autorewrite with pylen. rewrite len_frame_codes. lia.
Qed.

(** ** The wire format: properties *)

(** C1: reading back what [write_to] produced restores the header, the
    transport codes (when the route type carries them), the path and the
    payload, whatever packet object is read into, for every version-0 packet
    with a valid path length. *)
Theorem packet_write_read p w q :
  write_to p = Ok w → get_payload_ver p = 0 → PathUtils.is_valid_path_len (path_len p) = true →
  bytes_ok (path p) → bytes_ok (payload p) → read_from w q = (received p q, Ok true).
Proof.
  intros Hw Hv Hl Hb1 Hb2. pose proof (write_to_wf p w Hw Hv Hl Hb1 Hb2) as Hwf.
  apply write_to_inv in Hw as (-> & _).
  rewrite <- frame_of_canonical, <- received_canonical. by apply read_from_frame.
Qed.

(** C2: a frame [read_from] accepts is reproduced byte for byte by
    [write_to]: the wire format has one encoding per packet. *)
Theorem packet_read_write data q p r :
  read_from data q = (p, Ok r) → bytes_ok data → write_to p = Ok data.
Proof.
  intros Hr Hb. apply read_from_inv in Hr as (_ & Hwf & -> & _); [|done]. by apply write_to_frame.
Qed.

(** C37: [read_from] accepts exactly the frames of the protocol grammar:
    header byte with version 0, two 16-bit codes when the route type asks for
    them, a valid path length byte, that many path bytes, at most 184 payload
    bytes. *)
Theorem read_from_accepts_grammar data q :
  bytes_ok data →
  (∃ p, read_from data q = (p, Ok true)) ↔ (∃ p, wire_wf p ∧ data = frame_of p).
Proof.
  intros Hb. split; intros [p H].
  - apply read_from_inv in H as (_ & ? & ? & _); eauto.
  - destruct H as [Hwf ->]. eexists. by apply read_from_frame.
Qed.

(** An accepted frame is at most 254 bytes, its length is
    [get_raw_length], and the parsed packet satisfies the wire invariant
    (path at most 64 bytes and as long as encoded, payload at most 184). *)
Theorem read_from_bounds data q p r :
  read_from data q = (p, Ok r) → bytes_ok data →
  wire_wf p ∧ len data = get_raw_length p ∧ len data ≤ 254 ∧ len (path p) ≤ 64.
Proof.
  intros Hr Hb. apply read_from_inv in Hr as (_ & Hwf & -> & _); [|done].
  destruct (Hwf) as [Hh Hv Hc Hl Hlv Hp Hpb Hn Hm Hpb2].
  pose proof (valid_path_len_bound _ Hl Hlv) as Hbl. fold (get_path_byte_len p) in Hbl.
  rewrite len_frame_of by done. unfold get_raw_length. split; [done|].
  unfold MAX_PACKET_PAYLOAD in Hm. destruct (has_transport_codes p); lia.
Qed.

(** Flags that describe a decision about one frame. *)
Definition fresh_flags (p : Packet.t) : Prop :=
  _recv_region_captured p = false ∧ _recv_region_key p = None ∧ _recv_region_unscoped p = false
  ∧ _flood_scope_applied p = false ∧ _path_hash_mode_applied p = false.

Lemma check_bounds_cases idx n l msg :
  (_check_bounds idx n l msg = Ok tt ∧ idx + n ≤ l) ∨ _check_bounds idx n l msg = Err (ValueError msg).
Proof.
  unfold _check_bounds, PacketValidationUtils.validate_packet_bounds, raise_if.
  destruct (idx + n >? l) eqn:E; bool_hyps; auto.
Qed.

Lemma read_codes_cases data s :
  (∃ c i, read_codes data 1 s = (with_transport_codes c s, Ok i) ∧ 1 ≤ i)
  ∨ ∃ m, read_codes data 1 s = (s, Err (ValueError m)).
Proof.
  unfold read_codes. py_run. destruct (has_transport_codes s); [|left; eexists _, _; split; [done|lia]].
  destruct (check_bounds_cases 1 4 (len data) "missing transport codes") as [[-> ?]| ->]; eauto.
  left; eexists _, _; split; [done|lia].
Qed.

(** [read_from] on any input and any reused packet object: every
    per-frame decision flag is cleared, the result is [True] or a
    [ValueError], and an [IndexError] only for the empty frame. *)
Theorem read_from_total data q p r :
  read_from data q = (p, r) →
  fresh_flags p ∧
  match r with
  | Ok b => b = true
  | Err e => (data = [] ∧ e = IndexError) ∨ ∃ m, e = ValueError m
  end.
Proof.
  unfold read_from. py_run. destruct data as [|h rest].
  { intros [= <- <-]. split; [done|]. auto. }
  change (index (h :: rest) 0) with (@Ok Z h). cbv beta iota zeta.
  destruct (_ >? MAX_SUPPORTED_PAYLOAD_VERSION); [intros [= <- <-]; split; [done|eauto]|].
  change (0 + 1) with 1.
  match goal with |- context [read_codes ?d 1 ?s] =>
    destruct (read_codes_cases d s) as [(c & i & -> & Hi)|[m ->]] end;
    [|intros [= <- <-]; split; [done|eauto]].
  destruct (check_bounds_cases i 1 (len (h :: rest)) "missing path_len") as [[-> ?]| ->];
    [|intros [= <- <-]; split; [done|eauto]].
  destruct (index_in_range (h :: rest) i) as [l ->]; [lia|].
  destruct (negb (PathUtils.is_valid_path_len l)).
  { destruct (_ >? 3); intros [= <- <-]; (split; [done|eauto]). }
  destruct (check_bounds_cases (i + 1) (PathUtils.get_path_byte_len l) (len (h :: rest))
    "truncated path") as [[-> ?]| ->]; [|intros [= <- <-]; split; [done|eauto]].
  unfold PacketValidationUtils.validate_payload_size, raise_if.
  destruct (_ >? MAX_PACKET_PAYLOAD); intros [= <- <-]; (split; [done|eauto]).
Qed.

(** ** Paths *)

Lemma concat_pieces (l : bytes) (size : Z) (n k : nat) :
  0 ≤ size → Z.of_nat (k + n) * size ≤ len l →
  concat (concat (map (fun i =>
    let start := Z.of_nat i * size in
    let end_ := start + size in
    if end_ <=? len l then [slice l start end_] else []) (seq k n)))
  = slice l (Z.of_nat k * size) (Z.of_nat (k + n) * size).
Proof.
  intros Hs. revert k. induction n as [|n IH]; intros k Hl.
  - cbn. rewrite Nat.add_0_r, slice_nonneg by nia. by rewrite Z.sub_diag.
  - cbn [seq map concat]. cbv zeta.
    replace (Z.of_nat k * size + size <=? len l) with true by nia.
    rewrite concat_app. cbn [concat app]. rewrite IH, app_nil_r by (rewrite <- Nat.add_succ_comm in Hl; done).
    replace (Z.of_nat k * size + size) with (Z.of_nat (S k) * size) by nia.
    rewrite slice_split by nia. by rewrite Nat.add_succ_comm.
Qed.

Lemma path_pieces_len (l : bytes) (size : Z) (n k : nat) :
  0 ≤ size ∧ Z.of_nat (k + n) * size ≤ len l →
  let pieces := concat (map (fun i =>
    let start := Z.of_nat i * size in
    let end_ := start + size in
    if end_ <=? len l then [slice l start end_] else []) (seq k n)) in
  Forall (fun e => len e = size) pieces ∧ len pieces = Z.of_nat n.
Proof.
  intros [Hs Hl]. revert k Hl. induction n as [|n IH]; intros k Hl; [done|].
  cbn [seq map concat]. cbv zeta in *.
  replace (Z.of_nat k * size + size <=? len l) with true by nia.
  destruct (IH (S k)) as [IH1 IH2]; [rewrite Nat.add_succ_comm; done|].
  cbn [app]. split; [|rewrite len_cons, IH2; lia].
  constructor; [|done]. rewrite len_slice; nia.
Qed.

(** On a well-formed packet [get_path_hashes] cuts the whole path into
    [get_path_hash_count] entries, so joining them restores the path. *)
Theorem path_hashes_partition p :
  wire_wf p →
  concat (get_path_hashes p) = path p
  ∧ len (get_path_hashes p) = get_path_hash_count p
  ∧ Forall (fun e => len e = get_path_hash_size p) (get_path_hashes p).
Proof.
  intros [Hh Hv Hc Hl Hlv Hp Hpb Hn Hm Hb].
  pose proof (path_len_fields _ Hl) as (Hcnt & Hsz & _).
  unfold get_path_byte_len in Hp. rewrite byte_len_fields in Hp.
  unfold get_path_hashes, get_path_hash_size, get_path_hash_count in *.
  set (sz := PathUtils.get_path_hash_size (path_len p)) in *.
  set (cnt := PathUtils.get_path_hash_count (path_len p)) in *.
  destruct (path_pieces_len (path p) sz (Z.to_nat cnt) 0) as [H1 H2]; [cbn; lia|].
  rewrite Z2Nat.id in H2 by lia. split; [|by split].
  rewrite concat_pieces by (cbn; lia). cbn [Nat.add].
  rewrite Z2Nat.id by lia. change (Z.of_nat 0 * sz) with 0. rewrite <- Hp.
  pose proof (len_nonneg (path p)). rewrite slice_nonneg, Z.sub_0_r, drop_0 by lia.
  apply take_ge. unfold len. lia.
Qed.

(** a negative [payload_len] does not give an empty payload, as the
    documentation of [get_payload] says, but all but the last bytes: the slice
    bound is read from the end. *)
Theorem get_payload_negative p :
  - len (payload p) < payload_len p < 0 →
  get_payload p ≠ [] ∧ len (get_payload p) = len (payload p) + payload_len p.
Proof.
  intros H. unfold get_payload, slice_to, clamp_index.
  destruct (Z.ltb_spec (payload_len p) 0); [|lia].
  assert (len (take (Z.to_nat (Z.max 0 (len (payload p) + payload_len p))) (payload p))
          = len (payload p) + payload_len p) as Hl.
  { unfold len in *. rewrite length_take. lia. }
  split; [|done]. intros E. rewrite E, len_nil in Hl. lia.
Qed.

(** ** Instances *)

(** A flood RESPONSE with two one-byte hops, as read off the air. *)
Definition sample_packet : Packet.t :=
  with_payload_len 3 (with_payload [1; 2; 3] (with_path [7; 8] (with_path_len 2 (with_header 5 Packet.init)))).

(** Well-formedness of a concrete packet. *)
Ltac wf_now := split; first [reflexivity | decide_now | vm_compute; split; split; first [discriminate | reflexivity]].

Lemma sample_wf : wire_wf sample_packet.
Proof. wf_now. Qed.

Lemma packet_write_read_witness :
  read_from [5; 2; 7; 8; 1; 2; 3] Packet.init = (received sample_packet Packet.init, Ok true).
Proof. apply (packet_write_read sample_packet); first [reflexivity | decide_now]. Defined.

Lemma packet_read_write_witness : write_to (received sample_packet Packet.init) = Ok [5; 2; 7; 8; 1; 2; 3].
Proof.
  apply (packet_read_write [5; 2; 7; 8; 1; 2; 3] Packet.init _ true); [vm_compute; reflexivity|decide_now].
Defined.

Lemma read_from_accepts_grammar_witness : ∃ p, wire_wf p ∧ [5; 2; 7; 8; 1; 2; 3] = frame_of p.
Proof.
  apply (read_from_accepts_grammar [5; 2; 7; 8; 1; 2; 3] Packet.init); [decide_now|].
  eexists. vm_compute. reflexivity.
Defined.

Lemma read_from_bounds_witness :
  let p := received sample_packet Packet.init in
  wire_wf p ∧ len [5; 2; 7; 8; 1; 2; 3] = get_raw_length p ∧ len [5; 2; 7; 8; 1; 2; 3] ≤ 254 ∧ len (path p) ≤ 64.
Proof.
  apply (read_from_bounds [5; 2; 7; 8; 1; 2; 3] Packet.init _ true); [vm_compute; reflexivity|decide_now].
Defined.

(** A frame cut inside its path. *)
Lemma read_from_total_witness :
  fresh_flags (read_from [5; 2; 7] Packet.init).1
  ∧ match (read_from [5; 2; 7] Packet.init).2 with
    | Ok b => b = true
    | Err e => ([5; 2; 7] = [] ∧ e = IndexError) ∨ ∃ m, e = ValueError m
    end.
Proof. apply (read_from_total [5; 2; 7] Packet.init). vm_compute. reflexivity. Defined.

Lemma path_hashes_partition_witness :
  concat (get_path_hashes sample_packet) = path sample_packet
  ∧ len (get_path_hashes sample_packet) = get_path_hash_count sample_packet
  ∧ Forall (fun e => len e = get_path_hash_size sample_packet) (get_path_hashes sample_packet).
Proof. apply path_hashes_partition. apply sample_wf. Defined.
