(* ===== verification/Crypto.v ===== *)
(** * Encrypt-then-MAC ([protocol/crypto.py])

    AES comes from a third-party package: [BlockCipher] is its interface (what
    [AES.new(key, AES.MODE_ECB)] offers) and [BlockCipherLaws] the documented
    behaviour of the ECB mode the code relies on. HMAC-SHA256 is the Standard
    Library's. *)

From S2P Require Import Prelude PyData Sha256 Constants.

(** The [cipher] object's [encrypt] and [decrypt] for a key, and the key
    lengths [AES.new] accepts. *)
Class BlockCipher := {
  key_ok : bytes → bool;
  ecb_encrypt : bytes → bytes → bytes;
  ecb_decrypt : bytes → bytes → bytes
}.

(** ECB: blocks are processed independently, a block stays 16 bytes, and
    decryption inverts encryption of a block. *)
Class BlockCipherLaws (C : BlockCipher) := {
  key_ok_16 : ∀ key, len key = 16 → key_ok key = true;
  ecb_encrypt_nil : ∀ key, ecb_encrypt key [] = [];
  ecb_encrypt_block : ∀ key b rest, len b = 16 →
    ecb_encrypt key (b ++ rest) = ecb_encrypt key b ++ ecb_encrypt key rest;
  ecb_encrypt_len : ∀ key b, len b = 16 → len (ecb_encrypt key b) = 16;
  ecb_encrypt_bytes : ∀ key b, len b = 16 → bytes_ok b → bytes_ok (ecb_encrypt key b);
  ecb_decrypt_len : ∀ key b, len b = 16 → len (ecb_decrypt key b) = 16;
  ecb_decrypt_encrypt : ∀ key b, len b = 16 → ecb_decrypt key (ecb_encrypt key b) = b
}.

(** [data[i : i + n] for i in range(0, len(data), n)], for [n = 16]. *)
Fixpoint blocks_fuel (fuel : nat) (l : bytes) : list bytes :=
  match l, fuel with
  | [], _ => []
  | _, O => []
  | _, S fuel' => take 16 l :: blocks_fuel fuel' (drop 16 l)
  end.

Definition blocks (l : bytes) : list bytes := blocks_fuel (length l) l.

Module CryptoUtils.
Section WithCipher.
Context `{C : BlockCipher}.

Definition _hmac_sha256 (key data : bytes) : bytes := hmac_sha256 key data.

Definition _aes_encrypt (key data : bytes) : res bytes :=
  if negb (key_ok key) then Err (ValueError "Incorrect AES key length")
  else
    let pad_len := (CIPHER_BLOCK_SIZE - len data mod CIPHER_BLOCK_SIZE) mod CIPHER_BLOCK_SIZE in
    let data := if pad_len >? 0 then data ++ zeros pad_len else data in
    Ok (ecb_encrypt key data).

Definition _aes_decrypt (key ciphertext : bytes) : res bytes :=
  if negb (key_ok key) then Err (ValueError "Incorrect AES key length")
  else
    let orig_len := len ciphertext in
    let ciphertext :=
      if negb (orig_len mod CIPHER_BLOCK_SIZE =? 0)
      then let pad_len := CIPHER_BLOCK_SIZE - orig_len mod CIPHER_BLOCK_SIZE in
           ciphertext ++ zeros pad_len
      else ciphertext in
    let out := concat (map (ecb_decrypt key) (blocks ciphertext)) in
    Ok (slice_to out orig_len).

Definition encrypt_then_mac (key_aes shared_secret plaintext : bytes) : res bytes :=
  ciphertext ← _aes_encrypt key_aes plaintext;
  let mac := slice_to (_hmac_sha256 shared_secret ciphertext) CIPHER_MAC_SIZE in
  mret (mac ++ ciphertext).

Definition mac_then_decrypt (aes_key shared_secret data : bytes) : res bytes :=
  if len data <=? CIPHER_MAC_SIZE
  then Err (ValueError "Data too short to contain MAC + ciphertext")
  else
    let mac := slice_to data CIPHER_MAC_SIZE in
    let ciphertext := slice_from data CIPHER_MAC_SIZE in
    let expected_mac := slice_to (_hmac_sha256 shared_secret ciphertext) CIPHER_MAC_SIZE in
    if negb (bytes_eqb mac expected_mac) then Err (ValueError "Invalid HMAC")
    else _aes_decrypt aes_key ciphertext.

End WithCipher.

(** [x25519_clamp_scalar]: clears the low three bits of byte 0 and fixes the
    top two bits of byte 31. *)
Definition x25519_clamp_scalar (scalar : bytes) : res bytes :=
  if negb (len scalar =? 32) then Err (ValueError "scalar must be 32 bytes")
  else
    let s := <[0%nat := Z.land (nth 0 scalar 0) 248]> scalar in
    let s := <[31%nat := Z.land (nth 31 s 0) 63]> s in
    Ok (<[31%nat := Z.lor (nth 31 s 0) 64]> s).

End CryptoUtils.

(** ** Lemmas *)

Section Laws.
Context `{C : BlockCipher} {L : BlockCipherLaws C}.
Import CryptoUtils.

Definition aligned (l : bytes) : Prop := len l mod 16 = 0.

(** Induction on whole blocks. *)
Lemma aligned_ind (P : bytes → Prop) :
  P [] → (∀ b rest, len b = 16 → aligned rest → P rest → P (b ++ rest)) →
  ∀ l, aligned l → P l.
Proof.
  intros H0 HS l. remember (length l) as n eqn:Hn.
  revert l Hn. induction n as [n IH] using lt_wf_ind. intros l -> Hl.
  destruct (decide (l = [])) as [->|Hne]; [done|]. unfold aligned in Hl.
  assert (16 ≤ len l) as H16.
  { pose proof (len_nonneg l). assert (len l ≠ 0) by (by rewrite len_zero_iff). zdm. }
  rewrite <- (take_drop 16 l).
  assert (len (take 16 l) = 16) as Ht by (unfold len in *; rewrite length_take; lia).
  assert (len (drop 16 l) = len l - 16) as Hd by (unfold len in *; rewrite length_drop; lia).
  assert (aligned (drop 16 l)) as Ha by (unfold aligned; rewrite Hd; zdm).
  apply HS; [done|done|]. eapply IH; [|reflexivity|done].
  unfold len in *. rewrite length_drop. lia.
Qed.

Lemma blocks_fuel_enough l f1 f2 :
  (length l ≤ f1)%nat → (length l ≤ f2)%nat → blocks_fuel f1 l = blocks_fuel f2 l.
Proof.
  revert l f2. induction f1 as [|f1 IH]; intros l f2 H1 H2.
  - by destruct l; [destruct f2|cbn in H1; lia].
  - destruct l as [|x l]; [by destruct f2|]. destruct f2 as [|f2]; [cbn in H2; lia|].
    cbn [blocks_fuel]. f_equal. apply IH; rewrite length_drop; cbn [length] in *; lia.
Qed.

Lemma blocks_app b rest : len b = 16 → blocks (b ++ rest) = b :: blocks rest.
Proof.
  intros Hb. assert (length b = 16%nat) as Hl by (unfold len in Hb; lia).
  unfold blocks. destruct (b ++ rest) as [|x l] eqn:E.
  { apply (f_equal length) in E. rewrite length_app in E. cbn in E. lia. }
  cbn [length blocks_fuel]. rewrite <- E.
  rewrite take_app_le, take_ge, drop_app_ge, Hl, Nat.sub_diag, drop_0 by lia. f_equal.
  apply blocks_fuel_enough; [|done].
  apply (f_equal length) in E. rewrite length_app in E. cbn in E. lia.
Qed.

Lemma ecb_encrypt_aligned_len key l : aligned l → len (ecb_encrypt key l) = len l.
Proof.
  revert l. apply aligned_ind; [by rewrite ecb_encrypt_nil|].
  intros b rest Hb _ IH. rewrite ecb_encrypt_block, !len_app, ecb_encrypt_len by done. lia.
Qed.

Lemma ecb_encrypt_aligned_bytes key l : aligned l → bytes_ok l → bytes_ok (ecb_encrypt key l).
Proof.
  revert l. apply (aligned_ind (fun l => bytes_ok l → bytes_ok (ecb_encrypt key l)));
    [by rewrite ecb_encrypt_nil|].
  intros b rest Hb _ IH. rewrite ecb_encrypt_block, !bytes_ok_app by done.
  intros [? ?]. auto using ecb_encrypt_bytes.
Qed.

Lemma decrypt_blocks_encrypt key l :
  aligned l → concat (map (ecb_decrypt key) (blocks (ecb_encrypt key l))) = l.
Proof.
  revert l. apply aligned_ind; [by rewrite ecb_encrypt_nil|].
  intros b rest Hb _ IH. rewrite ecb_encrypt_block, blocks_app by (done || by apply ecb_encrypt_len).
  cbn [map concat]. by rewrite ecb_decrypt_encrypt, IH.
Qed.

Lemma decrypt_blocks_len key l :
  aligned l → len (concat (map (ecb_decrypt key) (blocks l))) = len l.
Proof.
  revert l. apply (aligned_ind (fun l => len (concat (map (ecb_decrypt key) (blocks l))) = len l));
    [done|].
  intros b rest Hb _ IH. rewrite blocks_app by done. cbn [map concat].
  rewrite !len_app, IH, ecb_decrypt_len by done. lia.
Qed.

(** Zero padding to whole blocks, as [_aes_encrypt] appends it. *)
Definition pad_zeros (data : bytes) : bytes := data ++ zeros ((16 - len data mod 16) mod 16).

Lemma len_pad_zeros data : len (pad_zeros data) = len data + (16 - len data mod 16) mod 16.
Proof. unfold pad_zeros. rewrite len_app, len_zeros; [done|]. zdm. Qed.

Lemma pad_zeros_aligned data : aligned (pad_zeros data).
Proof. unfold aligned. rewrite len_pad_zeros. zdm. Qed.

Lemma aes_encrypt_eq key data :
  key_ok key = true → _aes_encrypt key data = Ok (ecb_encrypt key (pad_zeros data)).
Proof.
  intros Hk. unfold _aes_encrypt, pad_zeros, CIPHER_BLOCK_SIZE. rewrite Hk. cbn [negb].
  destruct (_ >? 0) eqn:E; [done|]. bool_hyps.
  replace ((16 - len data mod 16) mod 16) with 0 by zdm. by rewrite app_nil_r.
Qed.

Lemma aes_decrypt_encrypt key data c :
  key_ok key = true → _aes_encrypt key data = Ok c → _aes_decrypt key c = Ok (pad_zeros data).
Proof.
  intros Hk. rewrite aes_encrypt_eq by done. intros [= <-].
  unfold _aes_decrypt, CIPHER_BLOCK_SIZE. rewrite Hk. cbn [negb].
  pose proof (pad_zeros_aligned data) as Ha.
  rewrite ecb_encrypt_aligned_len by done. rewrite Ha. cbn [Z.eqb negb].
  by rewrite decrypt_blocks_encrypt, slice_to_all.
Qed.
End Laws.

(** ** Properties *)

Section CryptoProperties.
Context `{C : BlockCipher} {L : BlockCipherLaws C}.
Import CryptoUtils.

Lemma mac_then_decrypt_encrypt key secret plaintext c :
  key_ok key = true → plaintext ≠ [] → encrypt_then_mac key secret plaintext = Ok c →
  mac_then_decrypt key secret c = Ok (pad_zeros plaintext)
  ∧ slice_to (pad_zeros plaintext) (len plaintext) = plaintext.
Proof.
  intros Hk Hne Henc. unfold encrypt_then_mac in Henc. res_inv.
  match goal with H : _aes_encrypt _ _ = Ok ?x |- _ => rename H into Ha; rename x into ct end.
  pose proof (aes_decrypt_encrypt _ _ _ Hk Ha) as Hd.
  rewrite aes_encrypt_eq in Ha by done. injection Ha as Ha.
  assert (len ct = len (pad_zeros plaintext)) as Hlen.
  { rewrite <- Ha. by apply ecb_encrypt_aligned_len, pad_zeros_aligned. }
  assert (1 ≤ len ct) as H1.
  { rewrite Hlen, len_pad_zeros. pose proof (len_nonneg plaintext).
    assert (len plaintext ≠ 0) by (by rewrite len_zero_iff). zdm. }
  set (mac := slice_to (_hmac_sha256 secret ct) CIPHER_MAC_SIZE).
  assert (len mac = 2) as Hm.
  { apply len_slice_to. unfold _hmac_sha256. rewrite len_hmac_sha256. done. }
  split; [|unfold pad_zeros; by apply slice_to_app_exact].
  unfold mac_then_decrypt. rewrite len_app, Hm.
  destruct (Z.leb_spec (2 + len ct) CIPHER_MAC_SIZE) as [Hx|_]; [unfold CIPHER_MAC_SIZE in Hx; lia|].
  rewrite slice_to_app_exact, slice_from_app_exact by done.
  fold mac. by rewrite bytes_eqb_refl.
Qed.

(** A non-empty plaintext survives encryption and authenticated
    decryption up to the zero padding, and cutting at its length restores
    it. *)
Theorem decrypt_encrypt key secret plaintext c :
  key_ok key = true → plaintext ≠ [] → encrypt_then_mac key secret plaintext = Ok c →
  mac_then_decrypt key secret c = Ok (pad_zeros plaintext)
  ∧ slice_to (pad_zeros plaintext) (len plaintext) = plaintext.
Proof. apply mac_then_decrypt_encrypt. Qed.

(** [mac_then_decrypt] returns a plaintext only for data whose first two
    bytes are the truncated HMAC of the rest, and the plaintext is as long as
    the ciphertext, block-aligned or not. *)
Theorem mac_then_decrypt_authentic key secret data pt :
  mac_then_decrypt key secret data = Ok pt →
  2 < len data
  ∧ slice_to data 2 = slice_to (hmac_sha256 secret (slice_from data 2)) 2
  ∧ len pt = len data - 2.
Proof.
  unfold mac_then_decrypt, CIPHER_MAC_SIZE. intros H.
  destruct (Z.leb_spec (len data) 2) as [|Hlt]; [done|].
  destruct (bytes_eqb _ _) eqn:E; [|done]. cbn [negb] in H. apply bytes_eqb_true in E.
  split; [done|]. split; [exact E|].
  unfold _aes_decrypt, CIPHER_BLOCK_SIZE in H. destruct (key_ok key); [|done]. injection H as <-.
  rewrite len_slice_from by lia. apply len_slice_to.
  set (ct := slice_from data 2) in *.
  assert (len ct = len data - 2) as Hct by (apply len_slice_from; lia).
  split; [lia|]. rewrite decrypt_blocks_len.
  - destruct (negb _); [rewrite len_app, len_zeros; zdm|lia].
  - unfold aligned. rewrite <- Hct. destruct (len ct mod 16 =? 0) eqn:Em; bool_hyps; [done|].
    cbn [negb]. rewrite len_app, len_zeros; zdm.
Qed.
End CryptoProperties.

(** ** Instances *)

(** A cipher with the laws of the interface: every byte of the data is xored
    with the first byte of the key. *)
Definition xor_key (key : bytes) (z : Z) : Z :=
  Z.lxor (Z.land (match key with k :: _ => k | [] => 0 end) 255) z.

Definition xor_cipher : BlockCipher := {|
  key_ok := fun key => len key =? 16;
  ecb_encrypt := fun key data => map (xor_key key) data;
  ecb_decrypt := fun key data => map (xor_key key) data
|}.

Lemma lxor_byte a b : is_byte a → is_byte b → is_byte (Z.lxor a b).
Proof.
  unfold is_byte. intros Ha Hb. split; [apply Z.lxor_nonneg; lia|].
  destruct (Z.eq_dec (Z.lxor a b) 0) as [->|Hne]; [lia|].
  assert (0 ≤ Z.lxor a b) by (apply Z.lxor_nonneg; lia).
  change 256 with (2 ^ 8). apply Z.log2_lt_pow2; [lia|].
  pose proof (Z.log2_lxor a b ltac:(lia) ltac:(lia)).
  assert (∀ c, 0 ≤ c < 256 → Z.log2 c < 8) as Hl.
  { intros c Hc. destruct (Z.eq_dec c 0) as [->|]; [done|]. apply Z.log2_lt_pow2; lia. }
  pose proof (Hl a Ha). pose proof (Hl b Hb). lia.
Qed.

Lemma xor_cipher_laws : BlockCipherLaws xor_cipher.
Proof.
  split; cbn; try done.
  - intros key ->. done.
  - intros. apply map_app.
  - intros. unfold len in *. by rewrite length_map.
  - intros key b _ Hb. unfold bytes_ok in *. rewrite Forall_map. eapply list.Forall_impl; [exact Hb|].
    intros z Hz. apply lxor_byte; [|done]. apply is_byte_land_l. done.
  - intros. unfold len in *. by rewrite length_map.
  - intros key b _. rewrite map_map. rewrite <- (map_id b) at 2. apply map_ext. intros z.
    unfold xor_key. by rewrite <- Z.lxor_assoc, Z.lxor_nilpotent, Z.lxor_0_l.
Qed.

#[local] Existing Instances xor_cipher xor_cipher_laws.

Definition sample_key : bytes := replicate 16 90.

Lemma decrypt_encrypt_witness :
  match CryptoUtils.encrypt_then_mac sample_key sample_key [104; 105] with
  | Ok c => CryptoUtils.mac_then_decrypt sample_key sample_key c = Ok (pad_zeros [104; 105])
            ∧ slice_to (pad_zeros [104; 105]) 2 = [104; 105]
  | Err _ => False
  end.
Proof.
  destruct (CryptoUtils.encrypt_then_mac sample_key sample_key [104; 105]) as [c|] eqn:E.
  - exact (decrypt_encrypt (C:=xor_cipher) sample_key sample_key [104; 105] c eq_refl ltac:(discriminate) E).
  - vm_compute in E. discriminate E.
Defined.

Lemma mac_then_decrypt_authentic_witness :
  match CryptoUtils.encrypt_then_mac sample_key sample_key [104; 105] with
  | Ok c => slice_to c 2 = slice_to (hmac_sha256 sample_key (slice_from c 2)) 2 ∧ len c - 2 = 16
  | Err _ => False
  end.
Proof.
  destruct (CryptoUtils.encrypt_then_mac sample_key sample_key [104; 105]) as [c|] eqn:E.
  - destruct (mac_then_decrypt_authentic sample_key sample_key c (pad_zeros [104; 105])) as (H1 & H2 & H3).
    + by apply (mac_then_decrypt_encrypt (C:=xor_cipher) sample_key sample_key [104; 105] c eq_refl ltac:(discriminate) E).
    + split; [exact H2|]. rewrite <- H3. reflexivity.
  - vm_compute in E. discriminate E.
Defined.
