(* ===== verification/TransportKeys.v ===== *)
(** * Transport keys and codes ([protocol/transport_keys.py]) *)

From S2P Require Import Prelude PyData Sha256 Utf8 PyFloat Constants PacketUtils Packet Crypto.

Import Packet.

(** [s.encode("ascii")] *)
Definition encode_ascii (s : pystr) : res bytes :=
  if forallb (fun c => (0 <=? c) && (c <? 128)) s then Ok s else Err UnicodeError.

(** ['#' = 35]: a name that does not start with it is an implicit hashtag. *)
Definition starts_with (c : Z) (s : pystr) : bool :=
  match s with x :: _ => x =? c | [] => false end.

Definition get_auto_key_for (name : pystr) : res bytes :=
  if bool_decide (name = []) then Err (ValueError "Region name cannot be empty")
  else
    let canonical_name := if starts_with 35 name then name else 35 :: name in
    if len canonical_name >? 64
    then Err (ValueError "Region name is too long (max 64 characters)")
    else b ← encode_ascii canonical_name; mret (slice_to (sha256 b) 16).

Definition calc_transport_code (key : bytes) (packet : Packet.t) : res Z :=
  if negb (len key =? 16) then Err (ValueError "Transport key must be 16 bytes")
  else
    let payload_type := get_payload_type packet in
    let payload_data := get_payload packet in
    t ← bytes_of_ints [payload_type];
    let hmac_data := t ++ payload_data in
    let hmac_digest := CryptoUtils._hmac_sha256 key hmac_data in
    let code := from_le (slice_to hmac_digest 2) in
    mret (if code =? 0 then 1 else if code =? 0xFFFF then 0xFFFE else code).

Definition scope_packet (key : bytes) : py Packet.t unit :=
  pkt ← get;
  code ← lift (calc_transport_code key pkt);
  modify (fun p => with_transport_codes (code, (transport_codes p).2) p);;
  modify (fun p => with_transport_codes ((transport_codes p).1, 0) p);;
  modify (fun p => with_header (Z.lor (Z.land (header p) (Z.lnot 0x03)) ROUTE_TYPE_TRANSPORT_FLOOD) p).

(** ** Lemmas *)

Lemma payload_type_byte p : is_byte (get_payload_type p).
Proof.
  unfold get_payload_type, PH_TYPE_MASK. autorewrite with bits. unfold is_byte. zdm.
Qed.

Lemma packet_hash_ok q :
  get_payload_type q ≠ PAYLOAD_TYPE_TRACE → ∃ h, calculate_packet_hash q = Ok h.
Proof.
  intros Ht. unfold calculate_packet_hash, PacketHashingUtils.calculate_packet_hash.
  rewrite bytes_of_ints_ok by (apply bytes_ok_cons; split; [apply payload_type_byte|apply bytes_ok_nil]).
  rewrite (proj2 (Z.eqb_neq _ _) Ht). by eexists.
Qed.

(** A transport code is never one of the reserved values 0 and 0xFFFF. *)
Lemma calc_transport_code_ok key p :
  len key = 16 → ∃ c, calc_transport_code key p = Ok c ∧ 1 ≤ c ≤ 0xFFFE.
Proof.
  intros Hk. unfold calc_transport_code. rewrite Hk. cbn [Z.eqb negb Pos.eqb].
  rewrite bytes_of_ints_ok by (apply bytes_ok_cons; split; [apply payload_type_byte|constructor]).
  cbn [mbind res_bind mret res_ret].
  set (d := CryptoUtils._hmac_sha256 key _).
  assert (0 ≤ from_le (slice_to d 2) < 65536) as Hb.
  { apply from_le_2_bound.
    - unfold d, CryptoUtils._hmac_sha256. auto with pybytes.
    - apply len_slice_to. unfold d, CryptoUtils._hmac_sha256. rewrite len_hmac_sha256. lia. }
  eexists; split; [done|].
  destruct (_ =? 0) eqn:E1; [lia|]. destruct (_ =? 0xFFFF) eqn:E2; bool_hyps; lia.
Qed.

Lemma calc_transport_code_key key p c : calc_transport_code key p = Ok c → len key = 16.
Proof. unfold calc_transport_code. destruct (len key =? 16) eqn:E; [|done]. by bool_hyps. Qed.

(** The code depends on the payload type and the payload only. *)
Lemma calc_transport_code_ext key p q :
  get_payload_type p = get_payload_type q → get_payload p = get_payload q →
  calc_transport_code key p = calc_transport_code key q.
Proof. unfold calc_transport_code. by intros -> ->. Qed.

Lemma land_lnot3 h : Z.lor (Z.land h (Z.lnot 3)) 0 = 4 * (h / 4).
Proof.
  rewrite Z.lor_0_r. change 3 with (Z.ones 2).
  rewrite <- Z.ldiff_land, Z.ldiff_ones_r, Z.shiftr_div_pow2, Z.shiftl_mul_pow2 by lia. change (2 ^ 2) with 4. lia.
Qed.

(** The packet [scope_packet] leaves, when the code is [c]. *)
Definition scoped (c : Z) (p : Packet.t) : Packet.t :=
  with_header (4 * (header p / 4)) (with_transport_codes (c, 0) p).

Lemma scope_packet_eq key p c :
  calc_transport_code key p = Ok c → scope_packet key p = (scoped c p, Ok tt).
Proof.
  intros Hc. unfold scope_packet. py_run. rewrite Hc. unfold scoped.
  cbn [transport_codes with_transport_codes header fst snd].
  change ROUTE_TYPE_TRANSPORT_FLOOD with 0. by rewrite land_lnot3.
Qed.

Lemma scoped_route c p : get_route_type (scoped c p) = ROUTE_TYPE_TRANSPORT_FLOOD.
Proof.
  unfold get_route_type, scoped, PH_ROUTE_MASK. cbn [header with_header]. rewrite land_3.
  change ROUTE_TYPE_TRANSPORT_FLOOD with 0. zdm.
Qed.

Lemma scoped_type c p : get_payload_type (scoped c p) = get_payload_type p.
Proof.
  unfold get_payload_type, scoped, PH_TYPE_SHIFT, PH_TYPE_MASK. cbn [header with_header].
  autorewrite with bits. zdm.
Qed.

Lemma scoped_code key c p : calc_transport_code key (scoped c p) = calc_transport_code key p.
Proof. apply calc_transport_code_ext; [apply scoped_type|done]. Qed.

Lemma scoped_codes c p : has_transport_codes (scoped c p) = true.
Proof. unfold has_transport_codes. by rewrite scoped_route. Qed.

(** Scoping keeps a packet well-formed. *)
Lemma scoped_wf c p : 0 ≤ c < 65536 → wire_wf p → wire_wf (scoped c p).
Proof.
  intros Hc [Hh Hv Hcs Hl Hlv Hp Hpb Hn Hm Hb]. split; try done.
  - unfold scoped, is_byte in *. cbn [header with_header]. zdm.
  - revert Hv. unfold get_payload_ver, scoped, PH_VER_SHIFT, PH_VER_MASK, is_byte in *.
    cbn [header with_header]. autorewrite with bits. zdm.
  - rewrite scoped_codes. cbn. lia.
Qed.
