(* ===== verification/RegionMap.v ===== *)
(** * Regions ([protocol/region_map.py])

    The region registry, the match of a received packet against it, and the
    scope decision a reply inherits from its request. *)

From S2P Require Import Prelude PyData Sha256 Utf8 PyFloat Constants PacketUtils Packet Crypto TransportKeys.

Import Packet.

Definition REGION_DENY_FLOOD : Z := 0x01.
Definition REGION_DENY_DIRECT : Z := 0x02.

(** [REPLY_SCOPE_REQUEST], [REPLY_SCOPE_DEFAULT], [REPLY_SCOPE_NONE] *)
Inductive reply_scope : Type := REPLY_SCOPE_REQUEST | REPLY_SCOPE_DEFAULT | REPLY_SCOPE_NONE.

Record RegionEntry := mkRegion {
  id : Z;
  parent : Z;
  flags : Z;
  name : pystr;
  private_keys : option (list bytes)
}.

Definition is_wildcard (r : RegionEntry) : bool := id r =? 0.

Record RegionMap := mkRegionMap { _regions : list RegionEntry; wildcard : RegionEntry }.

(** [RegionMap(regions)]: the wildcard "*" is kept outside the list. *)
Definition init_region_map (regions : list RegionEntry) : RegionMap :=
  mkRegionMap regions (mkRegion 0 0 0 [42] None).

Definition add_region (m : RegionMap) (entry : RegionEntry) : RegionMap :=
  mkRegionMap (_regions m ++ [entry]) (wildcard m).

Definition extend (m : RegionMap) (entries : list RegionEntry) : RegionMap :=
  mkRegionMap (_regions m ++ entries) (wildcard m).

Definition usable_keys (keys : list bytes) : list bytes :=
  List.filter (fun key => len key =? 16) keys.

(** The keys the generator yields, in order. ['$' = 36], ['#' = 35]. *)
Definition _iter_region_keys (region : RegionEntry) : list bytes :=
  let name := name region in
  if starts_with 36 name then usable_keys (default [] (private_keys region))
  else
    match private_keys region with
    | Some (k :: ks) => usable_keys (k :: ks)
    | _ =>
        if bool_decide (name = []) then []
        else
          let canonical := if starts_with 35 name then name else 35 :: name in
          match get_auto_key_for canonical with
          | Ok key => [key]
          | Err _ => []
          end
    end.

Definition first_key_for (region : option RegionEntry) : option bytes :=
  match region with
  | None => None
  | Some r => head (_iter_region_keys r)
  end.

(** [expected == code] for some key of the region. *)
Definition region_matches (packet : Packet.t) (code : Z) (region : RegionEntry) : bool :=
  existsb (fun key =>
    match calc_transport_code key packet with
    | Ok expected => expected =? code
    | Err _ => false
    end) (_iter_region_keys region).

Definition find_match (m : RegionMap) (packet : Packet.t) (mask : Z) : option RegionEntry :=
  if negb (has_transport_codes packet) then None
  else
    let code := (transport_codes packet).1 in
    if code =? 0 then None
    else List.find (fun region =>
           if truthy (Z.land (flags region) mask) then false
           else region_matches packet code region) (_regions m).

Definition choose_reply_scope
    (request_scope_known request_was_unscoped_flood default_scope_known : bool) : reply_scope :=
  if request_scope_known then REPLY_SCOPE_REQUEST
  else if request_was_unscoped_flood then REPLY_SCOPE_NONE
  else if default_scope_known then REPLY_SCOPE_DEFAULT
  else REPLY_SCOPE_NONE.

Definition capture_recv_region (region_map : option RegionMap) : py Packet.t unit :=
  match region_map with
  | None => mret tt
  | Some m =>
      pkt ← get;
      if _recv_region_captured pkt
         && (bool_decide (_recv_region_key pkt ≠ None) || _recv_region_unscoped pkt)
      then mret tt
      else
        modify (fun p => with_recv_region true (_recv_region_key p) (_recv_region_unscoped p) p);;
        modify (fun p => with_recv_region (_recv_region_captured p) (_recv_region_key p) false p);;
        let route_type := get_route_type pkt in
        if route_type =? ROUTE_TYPE_TRANSPORT_FLOOD then
          let entry := find_match m pkt REGION_DENY_FLOOD in
          match entry with
          | Some e =>
              if is_wildcard e
              then modify (fun p => with_recv_region (_recv_region_captured p) None true p)
              else modify (fun p => with_recv_region (_recv_region_captured p) (first_key_for entry)
                                      (_recv_region_unscoped p) p)
          | None => modify (fun p => with_recv_region (_recv_region_captured p) (first_key_for entry)
                                       (_recv_region_unscoped p) p)
          end
        else if route_type =? ROUTE_TYPE_FLOOD then
          modify (fun p => with_recv_region (_recv_region_captured p) None
                             (negb (truthy (Z.land (flags (wildcard m)) REGION_DENY_FLOOD))) p)
        else modify (fun p => with_recv_region (_recv_region_captured p) None
                                (_recv_region_unscoped p) p)
  end.

(** [reply_pkt] is the state; [request_pkt] is only read. *)
Definition apply_reply_scope (request_pkt : option Packet.t) : py Packet.t unit :=
  match request_pkt with
  | None => mret tt
  | Some req =>
      if negb (_recv_region_captured req) then mret tt
      else
        match _recv_region_key req with
        | Some req_key =>
            reply ← get;
            (if get_route_type reply =? ROUTE_TYPE_FLOOD then scope_packet req_key else mret tt);;
            modify (with_flood_scope_applied true)
        | None =>
            if _recv_region_unscoped req then modify (with_flood_scope_applied true)
            else mret tt
        end
  end.

(** ** Lemmas *)

Lemma usable_keys_len keys k : k ∈ usable_keys keys → len k = 16.
Proof.
  unfold usable_keys. rewrite list_elem_of_In, filter_In. intros [_ H]. by bool_hyps.
Qed.

Lemma auto_key_len n k : get_auto_key_for n = Ok k → len k = 16.
Proof.
  unfold get_auto_key_for. repeat case_match; try done; intros Hk; res_inv;
    apply len_slice_to; rewrite len_sha256; lia.
Qed.

(** Every key a region yields is a usable 16-byte key. *)
Lemma iter_region_keys_len r k : k ∈ _iter_region_keys r → len k = 16.
Proof.
  unfold _iter_region_keys.
  destruct (starts_with 36 (name r)); [apply usable_keys_len|].
  assert (k ∈ (if bool_decide (name r = []) then []
    else match get_auto_key_for (if starts_with 35 (name r) then name r else 35 :: name r) with
         | Ok key => [key] | Err _ => [] end) → len k = 16) as Hauto.
  { case_bool_decide; [by intros ?%elem_of_nil|].
    destruct (get_auto_key_for _) eqn:E; [|by intros ?%elem_of_nil].
    intros ->%list_elem_of_singleton. by eapply auto_key_len. }
  destruct (private_keys r) as [[|k0 ks]|]; [exact Hauto|apply usable_keys_len|exact Hauto].
Qed.

Lemma region_matches_iff p code r :
  region_matches p code r = true ↔
  ∃ key, key ∈ _iter_region_keys r ∧ calc_transport_code key p = Ok code.
Proof.
  unfold region_matches. rewrite existsb_exists. split.
  - intros (key & Hin & Hk). exists key. rewrite list_elem_of_In. split; [done|].
    destruct (calc_transport_code key p); [|done]. bool_hyps. by subst.
  - intros (key & Hin & Hk). exists key. rewrite list_elem_of_In in Hin. split; [done|].
    rewrite Hk. lia.
Qed.

Lemma find_first {A} (f : A → bool) l x :
  List.find f l = Some x ↔
  ∃ l1 l2, l = l1 ++ x :: l2 ∧ f x = true ∧ Forall (fun y => f y = false) l1.
Proof.
  split.
  - induction l as [|y l IH]; [done|]. cbn. destruct (f y) eqn:E.
    + intros [= ->]. by exists [], l.
    + intros H. destruct (IH H) as (l1 & l2 & -> & ? & ?).
      exists (y :: l1), l2. auto.
  - intros (l1 & l2 & -> & Hx & Hl). induction Hl as [|y l1 Hy Hl IH]; cbn; [by rewrite Hx|].
    by rewrite Hy.
Qed.

Lemma find_some_intro {A} (f : A → bool) l x :
  x ∈ l → f x = true → ∃ y, List.find f l = Some y ∧ y ∈ l ∧ f y = true.
Proof.
  intros Hx Hf. destruct (List.find f l) as [y|] eqn:E.
  - apply List.find_some in E as [? ?]. exists y. by rewrite list_elem_of_In.
  - rewrite list_elem_of_In in Hx. by eapply find_none in E; [|done]; congruence.
Qed.

(** ** Properties *)

(** [find_match] returns the first region of the list that is not
    denied by the mask and has a key whose transport code equals the packet's;
    no match is made without transport codes or for code 0. *)
Theorem find_match_first m p mask r :
  find_match m p mask = Some r ↔
  has_transport_codes p = true ∧ (transport_codes p).1 ≠ 0 ∧
  ∃ before after,
    _regions m = before ++ r :: after
    ∧ (Z.land (flags r) mask = 0 ∧ region_matches p (transport_codes p).1 r = true)
    ∧ Forall (fun r' => Z.land (flags r') mask ≠ 0
                        ∨ region_matches p (transport_codes p).1 r' = false) before.
Proof.
  unfold find_match. destruct (has_transport_codes p); [|split; [done|by intros [? _]]].
  cbn [negb]. destruct ((transport_codes p).1 =? 0) eqn:E; bool_hyps; [split; [done|]|].
  { by intros (_ & ? & _). }
  rewrite find_first. unfold truthy. split.
  - intros (l1 & l2 & Hl & Hr & Hf). split; [done|]. split; [done|]. exists l1, l2.
    split; [done|]. destruct (Z.land (flags r) mask =? 0) eqn:Er; [|done]. bool_hyps.
    split; [done|]. eapply list.Forall_impl; [exact Hf|]. intros r' H. cbn in H.
    destruct (Z.land (flags r') mask =? 0) eqn:Er'; bool_hyps; [by right|by left].
  - intros (_ & _ & l1 & l2 & Hl & [Hr1 Hr2] & Hf). exists l1, l2. split; [done|].
    rewrite Hr1. split; [done|]. eapply list.Forall_impl; [exact Hf|]. intros r' H. cbn in *.
    destruct (Z.land (flags r') mask =? 0) eqn:Er'; bool_hyps; [|done].
    by destruct H.
Qed.

(** A flood packet scoped with a region's key, serialised, and parsed by
    any receiver, matches a region there as soon as one of the receiver's
    regions that allows flooding holds that key. *)
Theorem scoped_packet_matches m key p region q :
  wire_wf p → len key = 16 → region ∈ _regions m → key ∈ _iter_region_keys region →
  Z.land (flags region) REGION_DENY_FLOOD = 0 →
  ∃ p' w r e,
    scope_packet key p = (p', Ok tt) ∧ write_to p' = Ok w ∧ read_from w q = (r, Ok true)
    ∧ find_match m r REGION_DENY_FLOOD = Some e
    ∧ e ∈ _regions m ∧ region_matches r (transport_codes r).1 e = true.
Proof.
  intros Hwf Hk Hreg Hkey Hfl. destruct (calc_transport_code_ok key p Hk) as (c & Hc & Hcr).
  pose proof (scoped_wf c p ltac:(lia) Hwf) as Hwf'.
  exists (scoped c p), (frame_of (scoped c p)), (received (scoped c p) q).
  assert (calc_transport_code key (received (scoped c p) q) = Ok c) as Hc'.
  { rewrite <- Hc, <- (scoped_code key c p). apply calc_transport_code_ext; [done|].
    unfold get_payload. cbn. by rewrite (wf_payload_len _ Hwf). }
  assert (transport_codes (received (scoped c p) q) = (c, 0)) as Hcodes.
  { cbn. by rewrite scoped_codes. }
  edestruct (find_some_intro (fun region =>
     if truthy (Z.land (flags region) REGION_DENY_FLOOD) then false
     else region_matches (received (scoped c p) q) c region)) as (e & Hf & He & Hm).
  { exact Hreg. }
  { rewrite Hfl. cbn. apply region_matches_iff. eauto. }
  exists e. split; [by apply scope_packet_eq|]. split; [by apply write_to_frame|].
  split; [by apply read_from_frame|].
  unfold find_match. rewrite Hcodes. cbn [fst].
  rewrite (has_transport_codes_header _ (scoped c p)), scoped_codes by done.
  destruct (Z.eqb_spec c 0); [lia|]. split; [done|]. split; [done|].
  by destruct (truthy _).
Qed.

(** ** Reply scope *)

(** What a received packet says about the scope of its reply. *)
Inductive scope_decision : Type := ScopeKey (key : bytes) | ScopeUnscoped.

(** The decision one region map takes, read off the firmware rule: the key of
    the matched region, un-scoped for the wildcard or a plain flood it allows,
    unknown otherwise. *)
Definition region_decision (m : RegionMap) (p : Packet.t) : option scope_decision :=
  if get_route_type p =? ROUTE_TYPE_TRANSPORT_FLOOD then
    match find_match m p REGION_DENY_FLOOD with
    | None => None
    | Some e => if is_wildcard e then Some ScopeUnscoped
                else ScopeKey <$> head (_iter_region_keys e)
    end
  else if get_route_type p =? ROUTE_TYPE_FLOOD then
    if truthy (Z.land (flags (wildcard m)) REGION_DENY_FLOOD) then None else Some ScopeUnscoped
  else None.

(** The decision the packet's attributes record. *)
Definition recorded (p : Packet.t) : option scope_decision :=
  match _recv_region_key p with
  | Some k => Some (ScopeKey k)
  | None => if _recv_region_unscoped p then Some ScopeUnscoped else None
  end.

(** One capture keeps a recorded decision and otherwise records the map's. *)
Lemma capture_step m p :
  (_recv_region_captured p = false → recorded p = None) →
  ∃ k u, capture_recv_region (Some m) p = (with_recv_region true k u p, Ok tt)
    ∧ recorded (with_recv_region true k u p)
      = match recorded p with Some d => Some d | None => region_decision m p end.
Proof.
  intros Hfresh. unfold capture_recv_region. py_run.
  destruct (_recv_region_captured p && _) eqn:E.
  - apply andb_true_iff in E as [E1 E2].
    exists (_recv_region_key p), (_recv_region_unscoped p).
    assert (with_recv_region true (_recv_region_key p) (_recv_region_unscoped p) p = p) as ->.
    { rewrite <- E1. by destruct p. }
    split; [done|]. unfold recorded. destruct (_recv_region_key p); [done|].
    rewrite bool_decide_eq_false_2 in E2 by (intros H; by apply H). cbn in E2. by rewrite E2.
  - assert (recorded p = None) as Hnone.
    { destruct (_recv_region_captured p); [|by apply Hfresh]. cbn in E.
      apply orb_false_iff in E as [E1 E2]. apply bool_decide_eq_false in E1.
      unfold recorded. rewrite E2. destruct (_recv_region_key p); [|done].
      exfalso. apply E1. done. }
    rewrite Hnone. unfold region_decision.
    destruct (get_route_type p =? ROUTE_TYPE_TRANSPORT_FLOOD).
    + destruct (find_match m p REGION_DENY_FLOOD) as [e|]; [destruct (is_wildcard e)|];
        eexists _, _; (split; [reflexivity|]); [done| |done].
      cbn. by destruct (_iter_region_keys e).
    + destruct (get_route_type p =? ROUTE_TYPE_FLOOD); eexists _, _; (split; [reflexivity|]); [|done].
      cbn. by destruct (truthy _).
Qed.

Lemma region_decision_flags m p c k u :
  region_decision m (with_recv_region c k u p) = region_decision m p.
Proof. done. Qed.

(** A packet that passes two capture points (the dispatcher, then a
    bridge with its own region map) ends with the first decision that was
    reached: the second map is consulted only when the first left the scope
    unknown, and nothing but the capture attributes changes. *)
Theorem capture_first_decision m1 m2 p :
  fresh_flags p →
  ∃ k u,
    (capture_recv_region (Some m1);; capture_recv_region (Some m2)) p
    = (with_recv_region true k u p, Ok tt)
    ∧ recorded (with_recv_region true k u p)
      = match region_decision m1 p with Some d => Some d | None => region_decision m2 p end.
Proof.
  intros (Hc & Hk & Hu & _).
  destruct (capture_step m1 p) as (k1 & u1 & H1 & R1); [unfold recorded; by rewrite Hk, Hu|].
  destruct (capture_step m2 (with_recv_region true k1 u1 p)) as (k2 & u2 & H2 & R2); [done|].
  exists k2, u2. unfold mbind, py_bind. rewrite H1, H2. split; [done|].
  rewrite region_decision_flags, R1 in R2. unfold recorded in R2 at 2. rewrite Hk, Hu in R2.
  exact R2.
Qed.

(** The reply after [apply_reply_scope]: the request's decision, if any. *)
Definition reply_for (d : option scope_decision) (reply reply' : Packet.t) : Prop :=
  match d with
  | Some (ScopeKey key) =>
      if get_route_type reply =? ROUTE_TYPE_FLOOD
      then ∃ c, calc_transport_code key reply = Ok c
                ∧ reply' = with_flood_scope_applied true (scoped c reply)
      else reply' = with_flood_scope_applied true reply
  | Some ScopeUnscoped => reply' = with_flood_scope_applied true reply
  | None => reply' = reply
  end.

(** [apply_reply_scope] gives a reply exactly the scope its request was
    captured with: the transport code is recomputed from the reply's own
    payload with the request region's key, an un-scoped request keeps the
    reply plain, both are marked final; an unknown scope leaves the reply to
    the send layer. *)
Theorem apply_reply_scope_mirrors req reply :
  _recv_region_captured req = true →
  (∀ k, _recv_region_key req = Some k → len k = 16) →
  ∃ reply', apply_reply_scope (Some req) reply = (reply', Ok tt)
            ∧ reply_for (recorded req) reply reply'.
Proof.
  intros Hc Hk. unfold apply_reply_scope, recorded. rewrite Hc. cbn [negb].
  destruct (_recv_region_key req) as [k|]; [|destruct (_recv_region_unscoped req); by eexists].
  py_run. unfold reply_for. destruct (get_route_type reply =? ROUTE_TYPE_FLOOD); [|by eexists].
  destruct (calc_transport_code_ok k reply (Hk k eq_refl)) as (c & Hcode & _).
  rewrite (scope_packet_eq k reply c Hcode). eauto.
Qed.

(** ** Instances *)

(** A registry with a closed region "#x" and an open region "#a". *)
Definition region_x : RegionEntry := mkRegion 1 0 REGION_DENY_FLOOD [35; 120] None.
Definition region_a : RegionEntry := mkRegion 2 0 0 [35; 97] None.
Definition sample_regions : RegionMap := init_region_map [region_x; region_a].
Definition key_a : bytes := match get_auto_key_for [35; 97] with Ok k => k | Err _ => [] end.

(** A flood advert as received, scoped to region "#a". *)
Definition sample_scoped : Packet.t := (scope_packet key_a sample_packet).1.

Lemma find_match_first_witness :
  (has_transport_codes sample_scoped = true ∧ (transport_codes sample_scoped).1 ≠ 0 ∧
   ∃ before after,
    _regions sample_regions = before ++ region_a :: after
    ∧ (Z.land (flags region_a) REGION_DENY_FLOOD = 0
       ∧ region_matches sample_scoped (transport_codes sample_scoped).1 region_a = true)
    ∧ Forall (fun r' => Z.land (flags r') REGION_DENY_FLOOD ≠ 0
                        ∨ region_matches sample_scoped (transport_codes sample_scoped).1 r' = false) before).
Proof. apply (find_match_first sample_regions). vm_compute. reflexivity. Defined.

Lemma scoped_packet_matches_witness :
  ∃ p' w r e,
    scope_packet key_a sample_packet = (p', Ok tt) ∧ write_to p' = Ok w ∧ read_from w Packet.init = (r, Ok true)
    ∧ find_match sample_regions r REGION_DENY_FLOOD = Some e
    ∧ e ∈ _regions sample_regions ∧ region_matches r (transport_codes r).1 e = true.
Proof.
  apply (scoped_packet_matches sample_regions key_a sample_packet region_a).
  - apply sample_wf.
  - vm_compute. reflexivity.
  - apply elem_of_cons. right. apply elem_of_cons. by left.
  - vm_compute. apply elem_of_cons. by left.
  - reflexivity.
Defined.

Lemma capture_first_decision_witness :
  ∃ k u,
    (capture_recv_region (Some sample_regions);; capture_recv_region (Some (init_region_map [])))
      (received sample_scoped Packet.init)
    = (with_recv_region true k u (received sample_scoped Packet.init), Ok tt)
    ∧ recorded (with_recv_region true k u (received sample_scoped Packet.init)) = Some (ScopeKey key_a).
Proof.
  destruct (capture_first_decision sample_regions (init_region_map []) (received sample_scoped Packet.init))
    as (k & u & H1 & H2); [by vm_compute|].
  exists k, u. split; [exact H1|]. rewrite H2. vm_compute. reflexivity.
Defined.

Lemma apply_reply_scope_mirrors_witness :
  let req := with_recv_region true (Some key_a) false Packet.init in
  ∃ reply', apply_reply_scope (Some req) sample_packet = (reply', Ok tt)
            ∧ reply_for (recorded req) sample_packet reply'.
Proof.
  apply apply_reply_scope_mirrors; [reflexivity|]. intros k [= <-]. vm_compute. reflexivity.
Defined.
