(* ===== verification/PacketFilter.v ===== *)
(** * Duplicate and blacklist filters ([protocol/packet_filter.py])

    [PacketFilter] is the dispatcher's seen-table and malformed-frame
    blacklist, [PacketHashCache] the bounded TTL cache of the companion layer.

    A clock reading is a value of a type [T] with the operations of the
    interface [Clock]: the code computes [now - then] and compares it with a
    bound. The operations are those of Python floats in the instance
    [float_clock]; [ClockLaws] states what exact time has (a total order that
    subtraction respects) and [tick_clock], time in integer ticks, provides it. *)

From stdpp Require Import sorting.
From S2P Require Import Prelude PyData Sha256 PyFloat ODict.

Class Clock (T : Type) := {
  elapsed : T → T → T;          (** [now - then] *)
  before : T → T → bool         (** [a < b] *)
}.

(** [a <= b] *)
Class ClockLaws (T : Type) `{Clock T} := {
  before_irrefl a : before a a = false;
  before_trans a b c : before a b = true → before b c = true → before a c = true;
  before_total a b : before a b = true ∨ before b a = true ∨ a = b;
  elapsed_mono_now n m a : before m n = false → before (elapsed m a) (elapsed n a) = false;
  elapsed_mono_then n a b : before b a = false → before (elapsed n a) (elapsed n b) = false
}.

Global Instance float_clock : Clock float := {| elapsed := fsub; before := fltb |}.

Global Instance tick_clock : Clock Z := {| elapsed := Z.sub; before := Z.ltb |}.

Global Instance tick_clock_laws : ClockLaws Z.
Proof. split; cbn; intros; lia. Qed.

(** ** PacketFilter *)
Module PacketFilter.

Definition BLACKLIST_MAX_ENTRIES : Z := 4096.

Section filter.
Context {T : Type} `{Clock T}.

(** [BLACKLIST_TTL_SECONDS] (300 s) and the window are clock spans. *)
Record t := mk {
  window_seconds : T;
  BLACKLIST_TTL_SECONDS : T;
  _packet_hashes : list (string * T);
  _blacklist : list (string * T)
}.

Definition init (window ttl : T) : t := mk window ttl [] [].

(** The calls of [time.time()] are the arguments [now]. *)
Definition generate_hash (data : bytes) : string :=
  String.string_of_list_ascii (slice_to (String.list_ascii_of_string (hex (sha256 data))) 16).

Definition is_duplicate (now : T) (packet_hash : string) (f : t) : bool :=
  match dget packet_hash (_packet_hashes f) with
  | Some ts => let age := elapsed now ts in before age (window_seconds f)
  | None => false
  end.

Definition track_packet (now : T) (packet_hash : string) (f : t) : t :=
  mk (window_seconds f) (BLACKLIST_TTL_SECONDS f)
     (dset packet_hash now (_packet_hashes f)) (_blacklist f).

Definition blacklist (now : T) (packet_hash : string) (f : t) : t :=
  let b := move_to_end packet_hash (dset packet_hash now (_blacklist f)) in
  mk (window_seconds f) (BLACKLIST_TTL_SECONDS f) (_packet_hashes f)
     (if len b >? BLACKLIST_MAX_ENTRIES then pop_first b else b).

Definition is_blacklisted (now : T) (packet_hash : string) (f : t) : bool :=
  match dget packet_hash (_blacklist f) with
  | None => false
  | Some inserted_at => before (elapsed now inserted_at) (BLACKLIST_TTL_SECONDS f)
  end.

(** [[h for h, ts in d.items() if current_time - ts > bound]] *)
Definition older_than (current_time bound : T) (d : list (string * T)) : list string :=
  concat (map (fun e => if before bound (elapsed current_time e.2) then [e.1] else []) d).

Definition cleanup_old_hashes (current_time : T) (f : t) : t :=
  let old_hashes := older_than current_time (window_seconds f) (_packet_hashes f) in
  let expired_blacklist := older_than current_time (BLACKLIST_TTL_SECONDS f) (_blacklist f) in
  mk (window_seconds f) (BLACKLIST_TTL_SECONDS f)
     (ddel_all old_hashes (_packet_hashes f)) (ddel_all expired_blacklist (_blacklist f)).

Record stats := Stats { tracked_packets : Z; blacklisted_packets : Z; stats_window : T }.

Definition get_stats (f : t) : stats :=
  Stats (len (_packet_hashes f)) (len (_blacklist f)) (window_seconds f).

Definition clear (f : t) : t := mk (window_seconds f) (BLACKLIST_TTL_SECONDS f) [] [].

End filter.
Arguments t T : clear implicits.
End PacketFilter.

(** ** PacketHashCache *)
Module PacketHashCache.
Section cache.
Context {T : Type} `{Clock T}.

Record t := mk { ttl_seconds : T; max_entries : Z; _entries : list (string * T) }.

(** [zero] is the clock span 0. *)
Definition init (zero ttl : T) (max : Z) : res t :=
  if before ttl zero then Err (ValueError "ttl_seconds must be non-negative")
  else if max <=? 0 then Err (ValueError "max_entries must be positive")
  else Ok (mk ttl max []).

(** [while self._entries: ... popitem(last=False)] *)
Fixpoint evict (now ttl : T) (d : list (string * T)) : list (string * T) :=
  match d with
  | [] => []
  | (h, seen_at) :: d' => if negb (before ttl (elapsed now seen_at)) then d else evict now ttl d'
  end.

Definition _evict_expired (now : T) (c : t) : t :=
  mk (ttl_seconds c) (max_entries c) (evict now (ttl_seconds c) (_entries c)).

Definition check_and_add (now : T) (packet_hash : string) (c : t) : t * bool :=
  let c := _evict_expired now c in
  let hit := dmem packet_hash (_entries c) in
  let e := move_to_end packet_hash (dset packet_hash now (_entries c)) in
  (mk (ttl_seconds c) (max_entries c) (if len e >? max_entries c then pop_first e else e), hit).

End cache.
Arguments t T : clear implicits.
End PacketHashCache.

(** ** Lemmas: the packet filter *)

Section filter_lemmas.
Context {T : Type} `{ClockLaws T}.
Import PacketFilter.

(** Both tables have one entry per hash and the blacklist is bounded. *)
Record filter_wf (f : PacketFilter.t T) : Prop := {
  hashes_unique : keys_unique (_packet_hashes f);
  blacklist_unique : keys_unique (_blacklist f);
  blacklist_bound : len (_blacklist f) ≤ BLACKLIST_MAX_ENTRIES
}.

Lemma elem_older_than now bound d h :
  h ∈ older_than now bound d ↔ ∃ ts, (h, ts) ∈ d ∧ before bound (elapsed now ts) = true.
Proof.
  unfold older_than. induction d as [|[k ts] d IH]; cbn.
  - rewrite elem_of_nil. split; [done|]. intros (? & Hin & _). by apply not_elem_of_nil in Hin.
  - rewrite elem_of_app, IH. setoid_rewrite elem_of_cons. split.
    + intros [Hh|(ts' & ? & ?)]; [|eauto].
      destruct (before bound (elapsed now ts)) eqn:E; [|by apply not_elem_of_nil in Hh].
      apply list_elem_of_singleton in Hh as ->. eauto.
    + intros (ts' & [[= -> ->]|?] & Hb); [|eauto]. left. rewrite Hb. by apply list_elem_of_singleton.
Qed.

(** A pruned table answers a lookup unless the entry was too old. *)
Lemma dget_prune now bound d h :
  keys_unique d →
  dget h (ddel_all (older_than now bound d) d) =
  match dget h d with
  | Some ts => if before bound (elapsed now ts) then None else Some ts
  | None => None
  end.
Proof.
  intros Hd. rewrite ddel_all_filter, dget_filter by done. destruct (dget h d) as [ts|] eqn:E; [|done].
  cbn [fst]. destruct (before bound (elapsed now ts)) eqn:Eb.
  - apply decide_False. intros Hn. apply Hn, elem_older_than. exists ts.
    by split; [apply dget_Some_elem|].
  - apply decide_True. rewrite elem_older_than. intros (ts' & Hin & Hb).
    apply elem_dget in Hin; [|done]. congruence.
Qed.

Lemma length_prune ks (d : list (string * T)) : (length (ddel_all ks d) ≤ length d)%nat.
Proof.
  unfold ddel_all. revert d. induction ks as [|k ks IH]; intros d; cbn; [done|].
  etrans; [apply IH|apply length_ddel].
Qed.

Lemma keys_unique_prune ks (d : list (string * T)) : keys_unique d → keys_unique (ddel_all ks d).
Proof.
  unfold ddel_all. revert d. induction ks as [|k ks IH]; intros d Hd; cbn; auto with odict.
Qed.

Lemma init_wf window ttl : filter_wf (init window ttl).
Proof. split; [constructor..|]. done. Qed.

Lemma track_wf now h f : filter_wf f → filter_wf (track_packet now h f).
Proof. intros []. split; cbn; auto with odict. Qed.

Lemma len_refresh (k : string) (v : T) d : len (ddel k d ++ [(k, v)]) ≤ len d + 1.
Proof. autorewrite with pylen. pose proof (length_ddel k d). unfold len. lia. Qed.

Lemma len_tail {A} (l : list A) : len l ≠ 0 → len (tail l) = len l - 1.
Proof. destruct l; [done|]. rewrite len_cons. change (tail (a :: l)) with l. lia. Qed.

Lemma blacklist_wf now h f : filter_wf f → filter_wf (blacklist now h f).
Proof.
  intros [H1 H2 H3]. unfold blacklist. rewrite set_move_to_end by done.
  pose proof (len_refresh h now (_blacklist f)) as Hl. unfold BLACKLIST_MAX_ENTRIES in *.
  destruct (_ >? _) eqn:E; bool_hyps; split; cbn [_packet_hashes _blacklist]; auto with odict.
  - unfold pop_first. auto with odict.
  - unfold pop_first. rewrite len_tail; unfold BLACKLIST_MAX_ENTRIES; lia.
Qed.

Lemma cleanup_wf now f : filter_wf f → filter_wf (cleanup_old_hashes now f).
Proof.
  intros [H1 H2 H3]. split; cbn; auto using keys_unique_prune.
  pose proof (length_prune (older_than now (BLACKLIST_TTL_SECONDS f) (_blacklist f)) (_blacklist f)).
  unfold len in *. lia.
Qed.

(** An entry older than the bound stays too old. *)
Lemma expired_stays now now' bound ts :
  before now' now = false → before bound (elapsed now ts) = true →
  before (elapsed now' ts) bound = false.
Proof.
  intros Hn Hb. destruct (before (elapsed now' ts) bound) eqn:E; [|done].
  pose proof (before_trans _ _ _ E Hb) as Hc.
  by rewrite (elapsed_mono_now _ _ _ Hn) in Hc.
Qed.

(** What the dispatcher does with its filter. *)
Inductive filter_step : PacketFilter.t T → PacketFilter.t T → Prop :=
| FTrack now h f : filter_step f (track_packet now h f)
| FBlacklist now h f : filter_step f (blacklist now h f)
| FCleanup now f : filter_step f (cleanup_old_hashes now f)
| FClear f : filter_step f (clear f).

Lemma filter_step_wf f f' : filter_step f f' → filter_wf f → filter_wf f'.
Proof.
  destruct 1; auto using track_wf, blacklist_wf, cleanup_wf. intros _. apply init_wf.
Qed.

(** From a new filter, no sequence of operations grows the blacklist
    beyond 4096 entries or stores a hash twice. *)
Theorem filter_bounded window ttl f :
  rtc filter_step (init window ttl) f → filter_wf f.
Proof.
  intros Hr. remember (init window ttl) as f0 eqn:E.
  assert (filter_wf f0) as Hw by (subst; apply init_wf). clear E.
  induction Hr; eauto using filter_step_wf.
Qed.

(** The periodic clean-up is invisible: at any later time every
    duplicate and blacklist query has the answer it would have had without it. *)
Theorem cleanup_invisible now now' h f :
  filter_wf f → before now' now = false →
  is_duplicate now' h (cleanup_old_hashes now f) = is_duplicate now' h f
  ∧ is_blacklisted now' h (cleanup_old_hashes now f) = is_blacklisted now' h f.
Proof.
  intros [H1 H2 _] Hn. unfold is_duplicate, is_blacklisted. cbn.
  rewrite !dget_prune by done. split.
  - destruct (dget h _) as [ts|]; [|done]. destruct (before _ (elapsed now ts)) eqn:E; [|done].
    by rewrite (expired_stays now now').
  - destruct (dget h (_blacklist f)) as [ts|]; [|done].
    destruct (before _ (elapsed now ts)) eqn:E; [|done]. by rewrite (expired_stays now now').
Qed.

Lemma is_duplicate_track now now' h h' f :
  is_duplicate now' h (track_packet now h' f)
  = if decide (h = h') then before (elapsed now' now) (window_seconds f) else is_duplicate now' h f.
Proof. unfold is_duplicate. cbn. rewrite dget_dset. by destruct (decide (h = h')). Qed.

End filter_lemmas.

(** ** Lemmas: the hash cache *)

Section cache_lemmas.
Context {T : Type} `{ClockLaws T}.
Import PacketHashCache.

(** Oldest first: the order [_evict_expired] relies on. *)
Definition by_age (d : list (string * T)) : Prop :=
  StronglySorted (λ a b, before b.2 a.2 = false) d.

Definition fresh (now ttl : T) (e : string * T) : Prop := before ttl (elapsed now e.2) = false.

Global Instance fresh_dec now ttl e : Decision (fresh now ttl e).
Proof. unfold fresh. apply _. Defined.

(** A cache whose last update was at [now]. *)
Record cache_wf (now : T) (c : PacketHashCache.t T) : Prop := {
  entries_unique : keys_unique (_entries c);
  entries_sorted : by_age (_entries c);
  entries_past : Forall (λ e, before now e.2 = false) (_entries c);
  entries_bound : len (_entries c) ≤ max_entries c;
  bound_positive : 0 < max_entries c
}.

Lemma before_ge_trans a b c : before b a = false → before c b = false → before c a = false.
Proof.
  intros H1 H2. destruct (before c a) eqn:E; [|done].
  destruct (before_total b c) as [Hc|[Hc|Hc]]; [|congruence|congruence].
  pose proof (before_trans _ _ _ Hc E). congruence.
Qed.

Lemma evict_keeps now ttl d :
  by_age d → evict now ttl d = filter (fresh now ttl) d.
Proof.
  induction 1 as [|[h ts] d Hs IH Ha]; [done|]. cbn [evict].
  destruct (before ttl (elapsed now ts)) eqn:E; cbn [negb].
  - rewrite filter_cons_False by (unfold fresh; cbn; congruence). done.
  - rewrite filter_cons_True by done. f_equal. symmetry. apply filter_all.
    intros e He. unfold fresh. rewrite list.Forall_forall in Ha. apply Ha in He. cbn in He.
    eapply before_ge_trans; [|exact E]. by apply elapsed_mono_then.
Qed.

Lemma evict_sublist now ttl d : sublist (evict now ttl d) d.
Proof.
  induction d as [|[h ts] d IH]; [done|]. cbn. destruct (negb _); [done|by apply sublist_cons].
Qed.

Lemma sublist_Forall {A} (P : A → Prop) l k : sublist l k → Forall P k → Forall P l.
Proof.
  induction 1; [done|..]; intros [Hx Hk]%Forall_cons_iff; auto.
Qed.

Lemma by_age_sublist d d' : sublist d d' → by_age d' → by_age d.
Proof.
  induction 1 as [|x l k Hs IH|x l k Hs IH]; intros Hb; [constructor|..]; inversion_clear Hb.
  - constructor; [by apply IH|]. by eapply sublist_Forall.
  - by apply IH.
Qed.

Lemma by_age_snoc d h now :
  by_age d → Forall (λ e, before now e.2 = false) d → by_age (d ++ [(h, now)]).
Proof.
  induction 1 as [|e d Hs IH Ha]; intros Hp; [repeat constructor|].
  apply Forall_cons_iff in Hp as [He Hp]. cbn. constructor; [by apply IH|].
  apply Forall_app. split; [done|]. constructor; [done|constructor].
Qed.

Lemma past_later now now' d :
  before now' now = false → Forall (λ e : string * T, before now e.2 = false) d →
  Forall (λ e : string * T, before now' e.2 = false) d.
Proof.
  intros Hn Hp. eapply list.Forall_impl; [exact Hp|]. intros e He. by apply (before_ge_trans _ now).
Qed.

(** What is left after the eviction of expired entries, refreshed with [h]. *)
Lemma refreshed_wf now now' h c :
  cache_wf now c → before now' now = false →
  let d := ddel h (evict now' (ttl_seconds c) (_entries c)) ++ [(h, now')] in
  keys_unique d ∧ by_age d ∧ Forall (λ e, before now' e.2 = false) d
  ∧ len d ≤ max_entries c + 1.
Proof.
  intros [H1 H2 H3 H4 H5] Hn d.
  assert (sublist (ddel h (evict now' (ttl_seconds c) (_entries c))) (_entries c)) as Hs
    by (etrans; [apply ddel_sublist|apply evict_sublist]).
  assert (Forall (λ e : string * T, before now' e.2 = false)
            (ddel h (evict now' (ttl_seconds c) (_entries c)))) as Hp
    by (eapply sublist_Forall; [exact Hs|by eapply past_later]).
  split_and!.
  - apply keys_unique_refresh. eapply keys_unique_sublist; [apply evict_sublist|done].
  - apply by_age_snoc; [by eapply by_age_sublist|done].
  - apply Forall_app. split; [done|]. constructor; [apply before_irrefl|constructor].
  - unfold d. autorewrite with pylen. apply sublist_length in Hs. unfold len in *. lia.
Qed.

(** A refreshed entry survives the eviction of the oldest one. *)
Lemma dget_newest_tail (h : string) (now : T) d :
  keys_unique (d ++ [(h, now)]) → d ≠ [] → dget h (tail (d ++ [(h, now)])) = Some now.
Proof.
  destruct d as [|[k v] d]; [done|]. intros Hu _. cbn [app tail].
  apply elem_dget; [by apply (keys_unique_tail ((k, v) :: d ++ [(h, now)]))|].
  apply elem_of_app. right. by apply list_elem_of_singleton.
Qed.

(** [check_and_add] on a well-formed cache. *)
Lemma check_and_add_spec now now' h c :
  cache_wf now c → before now' now = false →
  let '(c', hit) := check_and_add now' h c in
  cache_wf now' c'
  ∧ hit = match dget h (_entries c) with
          | Some ts => negb (before (ttl_seconds c) (elapsed now' ts))
          | None => false
          end
  ∧ dget h (_entries c') = Some now'
  ∧ ∀ h' ts, h' ≠ h → dget h' (_entries c') = Some ts → dget h' (_entries c) = Some ts.
Proof.
  intros Hc Hn. pose proof (refreshed_wf now now' h c Hc Hn) as (Hu & Hs & Hp & Hb).
  destruct Hc as [H1 H2 H3 H4 H5]. unfold check_and_add, _evict_expired. cbn [_entries ttl_seconds max_entries].
  set (ev := evict now' (ttl_seconds c) (_entries c)) in *.
  assert (keys_unique ev) as Hev by (eapply keys_unique_sublist; [apply evict_sublist|done]).
  rewrite set_move_to_end by done.
  assert (∀ h' ts, h' ≠ h → dget h' (ddel h ev ++ [(h, now')]) = Some ts →
                   dget h' (_entries c) = Some ts) as Hold.
  { intros h' ts Hne. rewrite dget_refresh, decide_False by done.
    unfold ev. rewrite evict_keeps, dget_filter by done.
    destruct (dget h' (_entries c)); [|done]. by destruct (decide _). }
  split_and!.
  - destruct (_ >? _) eqn:E; bool_hyps; split; cbn; try done.
    + by apply keys_unique_tail.
    + eapply by_age_sublist; [|exact Hs]. destruct (_ ++ _); [done|by apply sublist_cons].
    + by destruct (ddel h ev ++ [(h, now')]); [|inversion Hp].
    + unfold pop_first. rewrite len_tail; lia.
  - unfold dmem, ev. rewrite evict_keeps, dget_filter by done.
    destruct (dget h (_entries c)) as [ts|]; [|done]. unfold fresh. cbn.
    case_decide as Ed; [by rewrite Ed|by destruct (before (ttl_seconds c) _)].
  - destruct (_ >? _) eqn:E; bool_hyps; cbn.
    + apply dget_newest_tail; [done|]. intros E'. rewrite E' in E. change (len _) with 1 in E. lia.
    + by rewrite dget_refresh, decide_True.
  - destruct (_ >? _) eqn:E; cbn; [|done]. intros h' ts Hne Hg. apply Hold; [done|].
    unfold pop_first in Hg. rewrite dget_tail in Hg by done. by destruct (decide _).
Qed.

Lemma check_and_add_ttl now h (c : PacketHashCache.t T) : ttl_seconds (check_and_add now h c).1 = ttl_seconds c.
Proof. done. Qed.

(** [check_and_add] keeps the cache well-formed (one entry per hash,
    oldest first, within the bound), reports a hit exactly when the hash was
    last seen at most [ttl_seconds] ago, leaves the hash stored with the
    current time, and never invents or alters another entry. *)
Theorem check_and_add_correct now now' h c :
  cache_wf now c → before now' now = false →
  let '(c', hit) := check_and_add now' h c in
  cache_wf now' c'
  ∧ hit = match dget h (_entries c) with
          | Some ts => negb (before (ttl_seconds c) (elapsed now' ts))
          | None => false
          end
  ∧ dget h (_entries c') = Some now'
  ∧ ∀ h' ts, h' ≠ h → dget h' (_entries c') = Some ts → dget h' (_entries c) = Some ts.
Proof. apply check_and_add_spec. Qed.

End cache_lemmas.

(** ** Instances *)

Lemma filter_bounded_witness :
  filter_wf (PacketFilter.blacklist 2 "b" (PacketFilter.track_packet 1 "a" (PacketFilter.init (T:=Z) 60 300))).
Proof.
  apply (filter_bounded 60 300).
  eapply rtc_l; [apply (FTrack 1 "a")|]. eapply rtc_l; [apply (FBlacklist 2 "b")|]. apply rtc_refl.
Defined.

Lemma cleanup_invisible_witness :
  let f := PacketFilter.track_packet 50 "b" (PacketFilter.track_packet 1 "a" (PacketFilter.init (T:=Z) 60 300)) in
  (PacketFilter.is_duplicate 105 "b" (PacketFilter.cleanup_old_hashes 100 f) = PacketFilter.is_duplicate 105 "b" f)
  ∧ (PacketFilter.is_blacklisted 105 "b" (PacketFilter.cleanup_old_hashes 100 f)
     = PacketFilter.is_blacklisted 105 "b" f).
Proof. apply cleanup_invisible; [apply track_wf, track_wf, init_wf|reflexivity]. Defined.

Lemma check_and_add_correct_witness :
  let c := PacketHashCache.mk (T:=Z) 10 2 [("a", 1); ("b", 5)]%string in
  let r := PacketHashCache.check_and_add 12 "b" c in
  cache_wf 12 r.1 ∧ r.2 = true ∧ dget "b"%string (PacketHashCache._entries r.1) = Some 12.
Proof.
  destruct (check_and_add_correct 5 12 "b" (PacketHashCache.mk (T:=Z) 10 2 [("a", 1); ("b", 5)]%string))
    as (H1 & H2 & H3 & _).
  - split; first [reflexivity | decide_now | repeat constructor].
  - reflexivity.
  - split; [exact H1|]. split; [exact H2|exact H3].
Defined.
