(* ===== verification/Forward.v ===== *)
(** * Client-repeat forwarding ([node/dispatcher.py], forward builders)

    How a node builds the retransmission of a packet it received: flood
    packets get the node's hash appended to their path, routed-direct packets
    lose their first hop when it is this node, direct TRACE packets get the
    reception SNR appended. [self_key] is the node's public key,
    [local_identity] is [None] before an identity is configured. *)

From S2P Require Import Prelude PyData Sha256 PyFloat Constants PacketUtils Packet TransportKeys.

Import Packet.

(** [l[i] = v] on a bytearray. *)
Definition set_index {A} (l : list A) (i : Z) (v : A) : res (list A) :=
  let k := if i <? 0 then len l + i else i in
  if (k <? 0) || (len l <=? k) then Err IndexError else Ok (<[Z.to_nat k := v]> l).

Definition _copy_packet_for_forward (pkt : Packet.t) : Packet.t :=
  let fwd := Packet.init in
  let fwd := with_header (header pkt) fwd in
  let fwd := with_path_len (path_len pkt) fwd in
  let fwd := with_path (path pkt) fwd in
  let fwd := with_payload (slice_to (payload pkt) (payload_len pkt)) fwd in
  let fwd := with_payload_len (payload_len pkt) fwd in
  let fwd := with_transport_codes (transport_codes pkt) fwd in
  let fwd := with_signal (_snr pkt) (_rssi pkt) fwd in
  let fwd := with_flood_scope_applied true fwd in
  with_path_hash_mode_applied true fwd.

Definition _is_transit_direct_not_next_hop (local_identity : option bytes) (pkt : Packet.t) : bool :=
  if negb (is_route_direct pkt) || (get_path_hash_count pkt <=? 0) then false
  else if get_payload_type pkt =? PAYLOAD_TYPE_TRACE then false
  else match local_identity with
       | None => false
       | Some self_key =>
           let hash_size := get_path_hash_size pkt in
           if len (path pkt) <? hash_size then false
           else negb (bytes_eqb (slice_to (path pkt) hash_size) (slice_to self_key hash_size))
       end.

Definition _build_flood_forward (pkt : Packet.t) (self_key : bytes) : res (option Packet.t) :=
  let hash_size := get_path_hash_size pkt in
  let hop_count := get_path_hash_count pkt in
  if hop_count >=? 63 then Ok None
  else if (hop_count + 1) * hash_size >? MAX_PATH_SIZE then Ok None
  else
    let fwd := _copy_packet_for_forward pkt in
    let fwd := with_path (path fwd ++ slice_to self_key hash_size) fwd in
    l ← PathUtils.encode_path_len hash_size (hop_count + 1);
    mret (Some (with_path_len l fwd)).

Definition _build_direct_forward (pkt : Packet.t) (self_key : bytes) : res (option Packet.t) :=
  let hash_size := get_path_hash_size pkt in
  if len (path pkt) <? hash_size then Ok None
  else if negb (bytes_eqb (slice_to (path pkt) hash_size) (slice_to self_key hash_size)) then Ok None
  else
    let hop_count := get_path_hash_count pkt in
    let fwd := _copy_packet_for_forward pkt in
    let fwd := with_path (slice_from (path fwd) hash_size) fwd in
    l ← PathUtils.encode_path_len hash_size (hop_count - 1);
    mret (Some (with_path_len l fwd)).

(** [while len(fwd.path) <= fwd.path_len: fwd.path.append(0)] *)
Definition pad_path (p : bytes) (n : Z) : bytes := p ++ zeros (n + 1 - len p).

Definition _build_trace_forward (pkt : Packet.t) (self_key : bytes) : res (option Packet.t) :=
  if path_len pkt >=? MAX_PATH_SIZE then Ok None
  else if payload_len pkt <? 9 then Ok None
  else
    flags ← index (payload pkt) 8;
    let path_sz := Z.land flags 0x03 in
    let hash_width := Z.shiftl 1 path_sz in
    let header_len := 9 in
    let length := payload_len pkt - header_len in
    let offset := Z.shiftl (path_len pkt) path_sz in
    if offset >=? length then Ok None
    else
      let start := header_len + offset in
      if negb (bytes_eqb (slice (payload pkt) start (start + hash_width))
                         (slice_to self_key hash_width)) then Ok None
      else
        let fwd := _copy_packet_for_forward pkt in
        snr ← int_of_float (fmul (get_snr pkt) (f_of_Z 4));
        let snr_byte := Z.land snr 0xFF in
        p ← set_index (pad_path (path fwd) (path_len fwd)) (path_len fwd) snr_byte;
        mret (Some (with_path_len (path_len fwd + 1) (with_path p fwd))).

Definition _build_client_repeat_forward (local_identity : option bytes) (pkt : Packet.t)
    : res (option Packet.t) :=
  match local_identity with
  | None => Ok None
  | Some self_key =>
      let ptype := get_payload_type pkt in
      if is_route_direct pkt && (ptype =? PAYLOAD_TYPE_TRACE) then _build_trace_forward pkt self_key
      else if is_route_direct pkt && (get_path_hash_count pkt >? 0)
      then _build_direct_forward pkt self_key
      else if is_route_flood pkt then _build_flood_forward pkt self_key
      else Ok None
  end.

(** ** Lemmas *)

(** A copy is the packet itself as far as the wire is concerned. *)
Lemma copy_wf p : wire_wf p → wire_wf (_copy_packet_for_forward p).
Proof.
  intros [Hh Hv Hc Hl Hlv Hp Hpb Hn Hm Hb].
  split; try done; unfold _copy_packet_for_forward; cbn; rewrite Hn, slice_to_all; done.
Qed.

(** Two packets with the same header, payload type aside TRACE, and payload
    have the same hash. *)
Lemma hash_ext p q :
  get_payload_type p = get_payload_type q → get_payload p = get_payload q →
  get_payload_type p ≠ PAYLOAD_TYPE_TRACE → calculate_packet_hash p = calculate_packet_hash q.
Proof.
  unfold calculate_packet_hash, PacketHashingUtils.calculate_packet_hash. intros Ht Hp Hn.
  rewrite <- Ht, <- Hp, (proj2 (Z.eqb_neq _ _) Hn). done.
Qed.

(** Replace the path of a well-formed packet. *)
Lemma repath_wf p pa size count :
  wire_wf p → 1 ≤ size ≤ 3 → 0 ≤ count ≤ 63 → count * size ≤ MAX_PATH_SIZE →
  len pa = count * size → bytes_ok pa →
  wire_wf (with_path_len (64 * (size - 1) + count) (with_path pa p)).
Proof.
  intros [Hh Hv Hc Hl Hlv Hp Hpb Hn Hm Hb] Hs Hcnt Hmax Hlen Hok.
  destruct (fields_of_val size count Hcnt) as [F1 F2].
  split; try done; cbn [path_len with_path_len].
  - unfold is_byte. lia.
  - apply is_valid_path_len_iff. rewrite byte_len_fields, F1, F2. lia.
  - unfold get_path_byte_len. cbn [path_len with_path_len path with_path].
    rewrite byte_len_fields, F1, F2. done.
Qed.

Lemma repath_fields p pa size count :
  0 ≤ count ≤ 63 →
  get_path_hash_size (with_path_len (64 * (size - 1) + count) (with_path pa p)) = size
  ∧ get_path_hash_count (with_path_len (64 * (size - 1) + count) (with_path pa p)) = count.
Proof. apply fields_of_val. Qed.

Lemma wf_hash_size p : wire_wf p → 1 ≤ get_path_hash_size p ≤ 3 ∧ 0 ≤ get_path_hash_count p ≤ 63
  ∧ len (path p) = get_path_hash_count p * get_path_hash_size p
  ∧ get_path_hash_count p * get_path_hash_size p ≤ MAX_PATH_SIZE.
Proof.
  intros [Hh Hv Hc Hl Hlv Hp Hpb Hn Hm Hb]. destruct (path_len_fields _ Hl) as (H1 & H2 & _).
  apply is_valid_path_len_iff in Hlv as [H3 H4]. unfold get_path_byte_len in Hp.
  rewrite byte_len_fields in *. unfold get_path_hash_size, get_path_hash_count. lia.
Qed.

(** The packet a flood forward sends. *)
Definition flood_next (p : Packet.t) (key : bytes) : Packet.t :=
  let size := get_path_hash_size p in
  with_path_len (64 * (size - 1) + (get_path_hash_count p + 1))
    (with_path (path p ++ slice_to key size) (_copy_packet_for_forward p)).

(** There is room for one more hop. *)
Definition hop_room (p : Packet.t) : Prop :=
  get_path_hash_count p + 1 ≤ 63 ∧ (get_path_hash_count p + 1) * get_path_hash_size p ≤ 64.

Global Instance hop_room_dec p : Decision (hop_room p).
Proof. unfold hop_room. apply _. Defined.

Lemma flood_forward_eq p key :
  wire_wf p →
  _build_flood_forward p key = Ok (if decide (hop_room p) then Some (flood_next p key) else None).
Proof.
  intros Hw. destruct (wf_hash_size p Hw) as (Hs & Hc & _).
  unfold _build_flood_forward, hop_room, MAX_PATH_SIZE.
  destruct (get_path_hash_count p >=? 63) eqn:E1; bool_hyps;
    [rewrite decide_False by lia; done|].
  destruct (_ >? 64) eqn:E2; bool_hyps; [rewrite decide_False by lia; done|].
  rewrite decide_True, encode_path_len_val by lia. done.
Qed.

Lemma flood_next_wf p key :
  wire_wf p → bytes_ok key → 3 ≤ len key → hop_room p → wire_wf (flood_next p key).
Proof.
  intros Hw Hk Hl [H1 H2]. destruct (wf_hash_size p Hw) as (Hs & Hc & Hp & _).
  apply repath_wf; try done; [by apply copy_wf|lia| |].
  - autorewrite with pylen. rewrite len_slice_to by lia. lia.
  - apply bytes_ok_app. split; [apply Hw|auto with pybytes].
Qed.

(** The packet a direct forward sends. *)
Definition direct_next (p : Packet.t) : Packet.t :=
  let size := get_path_hash_size p in
  with_path_len (64 * (size - 1) + (get_path_hash_count p - 1))
    (with_path (slice_from (path p) size) (_copy_packet_for_forward p)).

(** This node is the first hop of the path. *)
Definition is_next_hop (p : Packet.t) (key : bytes) : Prop :=
  slice_to (path p) (get_path_hash_size p) = slice_to key (get_path_hash_size p).

Global Instance is_next_hop_dec p key : Decision (is_next_hop p key).
Proof. unfold is_next_hop. apply _. Defined.

Lemma direct_forward_eq p key :
  wire_wf p → 0 < get_path_hash_count p →
  _build_direct_forward p key = Ok (if decide (is_next_hop p key) then Some (direct_next p) else None).
Proof.
  intros Hw Hpos. destruct (wf_hash_size p Hw) as (Hs & Hc & Hp & _).
  unfold _build_direct_forward.
  replace (len (path p) <? get_path_hash_size p) with false by nia.
  destruct (decide (is_next_hop p key)) as [E|E]; unfold is_next_hop in E.
  - rewrite (proj2 (bytes_eqb_true _ _) E), encode_path_len_val by lia. done.
  - rewrite <- bytes_eqb_true in E. apply not_true_is_false in E. by rewrite E.
Qed.

Lemma direct_next_wf p :
  wire_wf p → 0 < get_path_hash_count p → wire_wf (direct_next p).
Proof.
  intros Hw Hpos. destruct (wf_hash_size p Hw) as (Hs & Hc & Hp & Hm).
  apply repath_wf; try done; [by apply copy_wf|lia|nia| |].
  - rewrite len_slice_from by nia. nia.
  - apply bytes_ok_slice_from, Hw.
Qed.

(** ** Equality on the wire

    Packets that agree on everything a frame carries. *)
Record wire_eq (p q : Packet.t) : Prop := {
  weq_header : header p = header q;
  weq_codes : transport_codes p = transport_codes q;
  weq_path_len : path_len p = path_len q;
  weq_path : path p = path q;
  weq_payload : payload p = payload q;
  weq_payload_len : payload_len p = payload_len q
}.

Global Instance wire_eq_equivalence : Equivalence wire_eq.
Proof.
  split; [done|by intros p q []|].
  intros p q r [] []. split; congruence.
Qed.

Ltac wire_eq_rewrite :=
  match goal with H : wire_eq ?p ?q |- _ =>
    destruct H as [?Hh ?Hc ?Hl ?Hp ?Hy ?Hn] end;
  unfold get_payload_type, get_payload_ver, has_transport_codes, get_route_type, is_route_flood,
    is_route_direct, get_payload, get_path_byte_len, get_path_hash_size, get_path_hash_count in *.

Global Instance frame_of_proper : Proper (wire_eq ==> eq) frame_of.
Proof.
  intros p q H. unfold frame_of, frame_codes. wire_eq_rewrite. unfold get_route_type. by rewrite Hh, Hc, Hl, Hp, Hy.
Qed.

Global Instance wire_wf_proper : Proper (wire_eq ==> iff) wire_wf.
Proof.
  enough (∀ p q, wire_eq p q → wire_wf p → wire_wf q) as H
    by (intros p q Hpq; split; apply H; [done|by symmetry]).
  intros p q H []. wire_eq_rewrite. split;
    unfold get_payload_ver, has_transport_codes, get_route_type, get_path_byte_len in *; congruence || (by rewrite <- Hh, <- Hc).
Qed.

(** What a node with an empty packet object reads from the frame of [p]. *)
Lemma received_wire_eq p q : wire_wf p → wire_eq (received p q) p.
Proof.
  intros [Hh Hv Hc Hl Hlv Hp Hpb Hn Hm Hb]. split; try done.
  unfold received. cbn. destruct (has_transport_codes p); [done|by rewrite Hc].
Qed.

Lemma read_frame p : wire_wf p → read_from (frame_of p) Packet.init = (received p Packet.init, Ok true).
Proof. apply read_from_frame. Qed.

(** ** Relaying frames

    One node with public key [key] hears a frame, builds the forward and puts
    it on the air. *)
Definition relay (key : bytes) (frame : bytes) : res (option bytes) :=
  let '(pkt, r) := read_from frame Packet.init in
  _ ← r;
  fwd ← _build_client_repeat_forward (Some key) pkt;
  match fwd with
  | Some f => w ← write_to f; mret (Some w)
  | None => mret None
  end.

(** A chain of nodes, each hearing the one before it. *)
Fixpoint relay_all (keys : list bytes) (frame : bytes) : res (option bytes) :=
  match keys with
  | [] => Ok (Some frame)
  | key :: keys' =>
      r ← relay key frame;
      match r with Some f => relay_all keys' f | None => mret None end
  end.

Definition key_ok (key : bytes) : Prop := bytes_ok key ∧ 3 ≤ len key.

(** The path a flood collects from [keys], at [size] bytes per hop. *)
Definition hops (size : Z) (keys : list bytes) : bytes := concat (map (fun k => slice_to k size) keys).

Lemma len_hops size keys :
  0 ≤ size ≤ 3 → Forall key_ok keys → len (hops size keys) = len keys * size.
Proof.
  intros Hs. induction 1 as [|k keys [_ Hk] _ IH]; [done|].
  change (hops size (k :: keys)) with (slice_to k size ++ hops size keys).
  rewrite len_app, IH, len_slice_to, len_cons by lia. lia.
Qed.

(** [p] with another path. *)
Definition rerouted (pa : bytes) (size count : Z) (p : Packet.t) : Packet.t :=
  with_path_len (64 * (size - 1) + count) (with_path pa p).

Global Instance rerouted_proper pa size count : Proper (wire_eq ==> wire_eq) (rerouted pa size count).
Proof. intros p q []. by split. Qed.

Lemma copy_wire_eq p : wire_wf p → wire_eq (_copy_packet_for_forward p) p.
Proof. intros [Hh Hv Hc Hl Hlv Hp Hpb Hn Hm Hb]. split; try done. cbn. by rewrite Hn, slice_to_all. Qed.

Lemma size_wire_eq p q : wire_eq p q → get_path_hash_size p = get_path_hash_size q.
Proof. intros []. unfold get_path_hash_size. congruence. Qed.

Lemma count_wire_eq p q : wire_eq p q → get_path_hash_count p = get_path_hash_count q.
Proof. intros []. unfold get_path_hash_count. congruence. Qed.

Lemma type_wire_eq p q : wire_eq p q → get_payload_type p = get_payload_type q.
Proof. intros []. unfold get_payload_type. congruence. Qed.

Lemma flood_wire_eq p q : wire_eq p q → is_route_flood p = is_route_flood q.
Proof. intros []. unfold is_route_flood, get_route_type. congruence. Qed.

Lemma direct_wire_eq p q : wire_eq p q → is_route_direct p = is_route_direct q.
Proof. intros []. unfold is_route_direct, get_route_type. congruence. Qed.

Lemma flood_not_direct p : is_route_flood p = true → is_route_direct p = false.
Proof.
  unfold is_route_flood, is_route_direct, ROUTE_TYPE_TRANSPORT_FLOOD, ROUTE_TYPE_FLOOD,
    ROUTE_TYPE_TRANSPORT_DIRECT, ROUTE_TYPE_DIRECT.
  generalize (get_route_type p). intros z H. lia.
Qed.

(** A node reads, forwards and writes. *)
Lemma relay_eq key p :
  wire_wf p →
  relay key (frame_of p) =
  match _build_client_repeat_forward (Some key) (received p Packet.init) with
  | Ok (Some f) => w ← write_to f; mret (Some w)
  | Ok None => Ok None
  | Err e => Err e
  end.
Proof.
  intros Hp. unfold relay. pose proof (read_frame p Hp) as Hr.
  destruct (read_from (frame_of p) Packet.init) as [pkt r]. injection Hr as -> ->.
  generalize (_build_client_repeat_forward (Some key) (received p Packet.init)).
  by intros [[f|]|e].
Qed.

Lemma relay_frame key p f :
  wire_wf p → wire_wf f →
  _build_client_repeat_forward (Some key) (received p Packet.init) = Ok (Some f) →
  relay key (frame_of p) = Ok (Some (frame_of f)).
Proof.
  intros Hp Hf Hb. rewrite relay_eq by done. generalize dependent
    (_build_client_repeat_forward (Some key) (received p Packet.init)).
  intros ? ->. pose proof (write_to_frame f Hf) as Hwr.
  destruct (write_to f); [by injection Hwr as ->|done].
Qed.

Lemma relay_flood key p :
  wire_wf p → is_route_flood p = true → key_ok key → hop_room p →
  let size := get_path_hash_size p in
  let f := rerouted (path p ++ slice_to key size) size (get_path_hash_count p + 1) p in
  wire_wf f ∧ relay key (frame_of p) = Ok (Some (frame_of f)).
Proof.
  intros Hw Hr [Hk1 Hk2] Hroom. cbv zeta.
  pose proof (received_wire_eq p Packet.init Hw) as He. set (q := received p Packet.init) in *.
  assert (wire_wf q) as Hq by (by rewrite He).
  assert (hop_room q) as Hroomq
    by (unfold hop_room in *; by rewrite (size_wire_eq _ _ He), (count_wire_eq _ _ He)).
  assert (wire_eq (flood_next q key) (rerouted (path p ++ slice_to key (get_path_hash_size p))
    (get_path_hash_size p) (get_path_hash_count p + 1) p)) as Hf.
  { unfold flood_next. rewrite (size_wire_eq _ _ He), (count_wire_eq _ _ He), (weq_path _ _ He).
    apply rerouted_proper. rewrite <- He. by apply copy_wire_eq. }
  pose proof (flood_next_wf q key Hq Hk1 Hk2 Hroomq) as Hfw.
  split; [by rewrite <- Hf|]. rewrite <- Hf. apply relay_frame; [done|done|].
  unfold _build_client_repeat_forward. fold q. rewrite <- (flood_wire_eq _ _ He) in Hr.
  rewrite (flood_not_direct _ Hr), Hr. cbn [andb].
  by rewrite flood_forward_eq, decide_True.
Qed.

Lemma relay_flood_full key p :
  wire_wf p → is_route_flood p = true → ¬ hop_room p → relay key (frame_of p) = Ok None.
Proof.
  intros Hw Hf Hroom. rewrite relay_eq by done.
  pose proof (received_wire_eq p Packet.init Hw) as He. set (q := received p Packet.init) in *.
  assert (_build_client_repeat_forward (Some key) q = Ok None) as Hb; [|by rewrite Hb].
  unfold _build_client_repeat_forward.
  rewrite <- (flood_wire_eq _ _ He) in Hf. rewrite (flood_not_direct _ Hf), Hf. cbn [andb].
  rewrite flood_forward_eq by (by rewrite He). rewrite decide_False; [done|].
  unfold hop_room in *. by rewrite (size_wire_eq _ _ He), (count_wire_eq _ _ He).
Qed.

Lemma relay_direct key p :
  wire_wf p → is_route_direct p = true → get_payload_type p ≠ PAYLOAD_TYPE_TRACE →
  0 < get_path_hash_count p → is_next_hop p key →
  let size := get_path_hash_size p in
  let f := rerouted (slice_from (path p) size) size (get_path_hash_count p - 1) p in
  wire_wf f ∧ relay key (frame_of p) = Ok (Some (frame_of f)).
Proof.
  intros Hw Hr Ht Hc Hn. cbv zeta.
  pose proof (received_wire_eq p Packet.init Hw) as He. set (q := received p Packet.init) in *.
  assert (wire_wf q) as Hq by (by rewrite He).
  assert (wire_eq (direct_next q) (rerouted (slice_from (path p) (get_path_hash_size p))
    (get_path_hash_size p) (get_path_hash_count p - 1) p)) as Hf.
  { unfold direct_next. rewrite (size_wire_eq _ _ He), (count_wire_eq _ _ He), (weq_path _ _ He).
    apply rerouted_proper. rewrite <- He. by apply copy_wire_eq. }
  assert (is_next_hop q key) as Hnq.
  { unfold is_next_hop in *. by rewrite (size_wire_eq _ _ He), (weq_path _ _ He). }
  rewrite <- (count_wire_eq _ _ He) in Hc.
  pose proof (direct_next_wf q Hq Hc) as Hfw.
  split; [by rewrite <- Hf|]. rewrite <- Hf. apply relay_frame; [done|done|].
  unfold _build_client_repeat_forward. fold q. rewrite <- (direct_wire_eq _ _ He) in Hr.
  rewrite <- (type_wire_eq _ _ He) in Ht.
  rewrite Hr, (proj2 (Z.eqb_neq _ _) Ht), (proj2 (Z.gtb_lt _ _) Hc). cbn [andb].
  by rewrite direct_forward_eq, decide_True.
Qed.

(** The first hop of a path collected from nodes is the first node. *)
Lemma hops_next size count key keys p :
  wire_wf p → 1 ≤ size ≤ 3 → Forall key_ok (key :: keys) → get_path_hash_size p = size →
  path p = hops size (key :: keys) → count = len keys →
  is_next_hop p key ∧ slice_from (path p) size = hops size keys.
Proof.
  intros Hw Hs Hk Hsz Hp Hc. apply Forall_cons_iff in Hk as [[_ Hk] _].
  unfold is_next_hop. rewrite Hsz, Hp.
  change (hops size (key :: keys)) with (slice_to key size ++ hops size keys).
  assert (len (slice_to key size) = size) as Hl by (apply len_slice_to; lia).
  split; [by apply slice_to_app_exact|by apply slice_from_app_exact].
Qed.

Lemma rerouted_twice pa1 c1 pa2 c2 size p :
  rerouted pa2 size c2 (rerouted pa1 size c1 p) = rerouted pa2 size c2 p.
Proof. done. Qed.

Lemma rerouted_route pa size c p :
  is_route_flood (rerouted pa size c p) = is_route_flood p
  ∧ is_route_direct (rerouted pa size c p) = is_route_direct p
  ∧ get_payload_type (rerouted pa size c p) = get_payload_type p.
Proof. done. Qed.

Lemma relay_all_flood keys p :
  wire_wf p → is_route_flood p = true → Forall key_ok keys →
  get_path_hash_count p + len keys ≤ 63 →
  (get_path_hash_count p + len keys) * get_path_hash_size p ≤ 64 →
  let size := get_path_hash_size p in
  relay_all keys (frame_of p) =
  Ok (Some (frame_of (rerouted (path p ++ hops size keys) size (get_path_hash_count p + len keys) p))).
Proof.
  cbv zeta. revert p. induction keys as [|key keys IH]; intros p Hw Hr Hk Hc Hm; cbn [relay_all].
  - do 2 f_equal. apply frame_of_proper. destruct (wf_hash_size p Hw) as (Hs & _).
    destruct (path_len_fields _ (wf_path_len p Hw)) as (_ & _ & Hl).
    split; try done; cbn [path_len rerouted with_path_len with_path path].
    + rewrite len_nil. unfold get_path_hash_size, get_path_hash_count. lia.
    + cbn. by rewrite app_nil_r.
  - apply Forall_cons_iff in Hk as [Hk Hks]. rewrite len_cons in *.
    destruct (wf_hash_size p Hw) as (Hs & Hcnt & _). pose proof (len_nonneg keys).
    assert (hop_room p) as Hroom by (unfold hop_room; nia).
    destruct (relay_flood key p Hw Hr Hk Hroom) as [Hw' ->]. cbn [mbind res_bind].
    set (size := get_path_hash_size p) in *. set (cnt := get_path_hash_count p) in *.
    set (f := rerouted _ _ _ _) in *.
    assert (get_path_hash_size f = size ∧ get_path_hash_count f = cnt + 1) as [Hfs Hfc]
      by (apply repath_fields; lia).
    rewrite (IH f); [|done|exact Hr|done|rewrite Hfc; lia|rewrite Hfs, Hfc; lia]. rewrite Hfs, Hfc. unfold f.
    rewrite rerouted_twice. cbn [path rerouted with_path_len with_path].
    rewrite <- app_assoc. by replace (cnt + 1 + len keys) with (cnt + (1 + len keys)) by lia.
Qed.

Lemma relay_all_direct keys p :
  wire_wf p → is_route_direct p = true → get_payload_type p ≠ PAYLOAD_TYPE_TRACE →
  Forall key_ok keys → get_path_hash_count p = len keys →
  path p = hops (get_path_hash_size p) keys →
  relay_all keys (frame_of p) = Ok (Some (frame_of (rerouted [] (get_path_hash_size p) 0 p))).
Proof.
  revert p. induction keys as [|key keys IH]; intros p Hw Hr Ht Hk Hc Hp; cbn [relay_all].
  - do 2 f_equal. apply frame_of_proper.
    destruct (path_len_fields _ (wf_path_len p Hw)) as (_ & _ & Hl).
    unfold get_path_hash_size, get_path_hash_count in *. rewrite len_nil in Hc.
    split; try done; cbn [path_len rerouted with_path_len with_path path]. lia.
  - destruct (wf_hash_size p Hw) as (Hs & Hcnt & _). pose proof (len_nonneg keys).
    rewrite len_cons in Hc.
    destruct (hops_next _ (len keys) key keys p Hw Hs Hk eq_refl Hp eq_refl) as [Hn Hrest].
    destruct (relay_direct key p Hw Hr Ht) as [Hw' ->]; [lia|done|]. cbn [mbind res_bind].
    apply Forall_cons_iff in Hk as [Hk Hks].
    set (size := get_path_hash_size p) in *. set (f := rerouted _ _ _ _) in *.
    assert (get_path_hash_size f = size ∧ get_path_hash_count f = get_path_hash_count p - 1)
      as [Hfs Hfc] by (apply repath_fields; lia).
    rewrite (IH f) by (exact Hr || exact Ht || done || rewrite ?Hfs, ?Hfc; (lia || done)). by rewrite Hfs.
Qed.

(** ** Forwarding: properties *)

(** A flood packet is forwarded exactly when its path has room for one
    more hop (63 hops, 64 bytes). The forward appends this node's hash, is a
    valid frame, keeps header, codes and payload, and has the same packet hash,
    so the node drops its own echo; the send path then neither re-scopes it
    nor changes its hash width. *)
Theorem flood_forward_correct p key :
  wire_wf p → key_ok key → get_payload_type p ≠ PAYLOAD_TYPE_TRACE →
  (hop_room p ∧ ∃ f, _build_flood_forward p key = Ok (Some f)
     ∧ wire_wf f ∧ path f = path p ++ slice_to key (get_path_hash_size p)
     ∧ get_path_hash_count f = get_path_hash_count p + 1
     ∧ get_path_hash_size f = get_path_hash_size p
     ∧ header f = header p ∧ transport_codes f = transport_codes p ∧ payload f = payload p
     ∧ calculate_packet_hash f = calculate_packet_hash p
     ∧ _flood_scope_applied f = true ∧ _path_hash_mode_applied f = true)
  ∨ (¬ hop_room p ∧ _build_flood_forward p key = Ok None).
Proof.
  intros Hw [Hk1 Hk2] Ht. rewrite flood_forward_eq by done.
  destruct (decide (hop_room p)) as [Hr|Hr]; [left|by right]. split; [done|].
  destruct (wf_hash_size p Hw) as (Hs & Hc & _).
  destruct (repath_fields (_copy_packet_for_forward p) (path p ++ slice_to key (get_path_hash_size p))
    (get_path_hash_size p) (get_path_hash_count p + 1)) as [F1 F2]; [unfold hop_room in Hr; lia|].
  pose proof (copy_wire_eq p Hw) as He.
  exists (flood_next p key). split_and!; try done; [by apply flood_next_wf|apply (weq_payload _ _ He)|].
  apply hash_ext; [done| |done]. unfold get_payload. cbn.
  rewrite (wf_payload_len p Hw), slice_to_all. apply slice_to_all.
Qed.

(** A routed-direct packet is forwarded exactly by its next hop; the
    forward is a valid frame without that hop, and exactly the nodes that do
    not forward it leave it out of the duplicate table. *)
Theorem direct_forward_correct p key :
  wire_wf p → is_route_direct p = true → 0 < get_path_hash_count p →
  get_payload_type p ≠ PAYLOAD_TYPE_TRACE →
  (is_next_hop p key ∧ _is_transit_direct_not_next_hop (Some key) p = false
   ∧ ∃ f, _build_client_repeat_forward (Some key) p = Ok (Some f) ∧ wire_wf f
     ∧ slice_to key (get_path_hash_size p) ++ path f = path p
     ∧ get_path_hash_count f = get_path_hash_count p - 1
     ∧ payload f = payload p ∧ calculate_packet_hash f = calculate_packet_hash p)
  ∨ (¬ is_next_hop p key ∧ _is_transit_direct_not_next_hop (Some key) p = true
     ∧ _build_client_repeat_forward (Some key) p = Ok None).
Proof.
  intros Hw Hd Hc Ht. destruct (wf_hash_size p Hw) as (Hs & Hcnt & Hp & _).
  assert (_is_transit_direct_not_next_hop (Some key) p
          = negb (bool_decide (is_next_hop p key))) as ->.
  { unfold _is_transit_direct_not_next_hop, bytes_eqb, is_next_hop.
    rewrite Hd, (proj2 (Z.eqb_neq _ _) Ht).
    replace (get_path_hash_count p <=? 0) with false by lia.
    replace (len (path p) <? get_path_hash_size p) with false by nia. done. }
  assert (_build_client_repeat_forward (Some key) p = _build_direct_forward p key) as ->.
  { unfold _build_client_repeat_forward.
    rewrite Hd, (proj2 (Z.eqb_neq _ _) Ht), (proj2 (Z.gtb_lt _ _) Hc). done. }
  rewrite direct_forward_eq by done.
  destruct (decide (is_next_hop p key)) as [Hn|Hn].
  - left. rewrite bool_decide_true by done. split_and!; [done|done|].
    exists (direct_next p). pose proof (copy_wire_eq p Hw) as He.
    split_and!; [done|by apply direct_next_wf| |apply fields_of_val; lia|apply (weq_payload _ _ He)|].
    + unfold is_next_hop in Hn. rewrite <- Hn. apply slice_to_from. lia.
    + apply hash_ext; [done| |done]. unfold get_payload. cbn.
      rewrite (wf_payload_len p Hw), slice_to_all. apply slice_to_all.
  - right. by rewrite bool_decide_false.
Qed.

(** C4: routes close: the path a flood collects on its way through a chain
    of nodes, used as the path of a direct packet, leads that packet through
    the same chain, hop by hop, to a frame with an empty path. *)
Theorem flood_path_routes_direct keys p d :
  wire_wf p → is_route_flood p = true → path p = [] → get_path_hash_count p = 0 →
  Forall key_ok keys → len keys ≤ 63 → len keys * get_path_hash_size p ≤ 64 →
  wire_wf d → is_route_direct d = true → get_payload_type d ≠ PAYLOAD_TYPE_TRACE →
  ∃ f, relay_all keys (frame_of p) = Ok (Some (frame_of f))
    ∧ wire_wf f ∧ payload f = payload p
    ∧ relay_all keys (frame_of (with_path_len (path_len f) (with_path (path f) d)))
      = Ok (Some (frame_of (rerouted [] (get_path_hash_size p) 0 d))).
Proof.
  intros Hw Hr Hp0 Hc0 Hk Hn Hm Hwd Hrd Htd. destruct (wf_hash_size p Hw) as (Hs & _).
  set (size := get_path_hash_size p) in *. pose proof (len_nonneg keys).
  assert (len (hops size keys) = len keys * size) as Hl by (apply len_hops; [lia|done]).
  assert (bytes_ok (hops size keys)) as Hb.
  { clear -Hk. induction Hk as [|k ks [Hb _] _ IH]; [apply bytes_ok_nil|].
    change (hops size (k :: ks)) with (slice_to k size ++ hops size ks).
    apply bytes_ok_app. auto with pybytes. }
  exists (rerouted (hops size keys) size (len keys) p). split_and!.
  - rewrite relay_all_flood by (done || rewrite Hc0; fold size; lia).
    by rewrite Hp0, Hc0.
  - by apply repath_wf.
  - done.
  - set (d' := rerouted (hops size keys) size (len keys) d).
    change (with_path_len _ (with_path _ d)) with d'.
    destruct (repath_fields d (hops size keys) size (len keys)) as [F1 F2]; [lia|].
    fold (rerouted (hops size keys) size (len keys) d) in F1, F2. fold d' in F1, F2.
    rewrite (relay_all_direct keys d'); [by rewrite F1|by apply repath_wf|done..|by rewrite F1].
Qed.

(** ** TRACE forwarding *)

Lemma set_index_append (l : bytes) v : set_index (pad_path l (len l)) (len l) v = Ok (l ++ [v]).
Proof.
  pose proof (len_nonneg l) as Hn. unfold pad_path.
  replace (len l + 1 - len l) with 1 by lia. change (zeros 1) with [0].
  unfold set_index. rewrite (proj2 (Z.ltb_ge _ _) Hn).
  autorewrite with pylen. replace (1 + 0) with 1 by lia.
  rewrite (proj2 (Z.ltb_ge _ _) Hn), (proj2 (Z.leb_gt _ _)) by lia. cbn [orb].
  unfold len. rewrite Nat2Z.id. f_equal.
  rewrite insert_app_r_alt by lia. by rewrite Nat.sub_diag.
Qed.

(** One-byte entries: below 64 the path length byte is the hop count. *)
Lemma small_path_len p : wire_wf p → path_len p < 64 → len (path p) = path_len p.
Proof.
  intros Hw Hlt. destruct (path_len_fields _ (wf_path_len p Hw)) as (H1 & H2 & H3).
  destruct (wf_hash_size p Hw) as (_ & _ & Hp & _).
  unfold get_path_hash_size, get_path_hash_count in *. nia.
Qed.

Lemma trace_forward_inv p key f :
  wire_wf p → _build_trace_forward p key = Ok (Some f) →
  path_len p < 64 ∧ ∃ snr, int_of_float (fmul (get_snr p) (f_of_Z 4)) = Ok snr
  ∧ f = with_path_len (path_len p + 1)
          (with_path (path p ++ [Z.land snr 0xFF]) (_copy_packet_for_forward p)).
Proof.
  intros Hw. unfold _build_trace_forward, MAX_PATH_SIZE.
  destruct (path_len p >=? 64) eqn:E1; [done|]. bool_hyps.
  destruct (payload_len p <? 9); [done|].
  destruct (index (payload p) 8) as [flags|]; [|done]. cbn [mbind res_bind].
  destruct (_ >=? _); [done|]. destruct (negb _); [done|].
  destruct (int_of_float _) as [snr|]; [|done]. cbn [mbind res_bind].
  change (path (_copy_packet_for_forward p)) with (path p).
  change (path_len (_copy_packet_for_forward p)) with (path_len p).
  rewrite <- (small_path_len p Hw E1), set_index_append. intros [= <-].
  split; [by rewrite small_path_len|]. by exists snr.
Qed.

(** A forwarded TRACE below 63 recorded hops is a valid frame whose
    path is the old one and the reception SNR, in quarter dB, as a
    two's-complement byte. *)
Theorem trace_forward_correct p key f :
  wire_wf p → path_len p < 63 → _build_trace_forward p key = Ok (Some f) →
  wire_wf f ∧ path_len f = path_len p + 1 ∧ payload f = payload p ∧
  ∃ snr, int_of_float (fmul (get_snr p) (f_of_Z 4)) = Ok snr ∧ path f = path p ++ [snr mod 256].
Proof.
  intros Hw Hlt Hf. destruct (trace_forward_inv p key f Hw Hf) as (_ & snr & Hsnr & ->).
  rewrite land_255. split_and!; [|done|apply (weq_payload _ _ (copy_wire_eq p Hw))|by exists snr].
  pose proof (small_path_len p Hw ltac:(lia)) as Hl.
  destruct (path_len_fields _ (wf_path_len p Hw)) as (H1 & H2 & H3).
  replace (path_len p + 1) with (64 * (1 - 1) + (path_len p + 1)) by lia.
  pose proof (len_nonneg (path p)). unfold MAX_PATH_SIZE in *.
  apply repath_wf; [by apply copy_wf|lia|lia|unfold MAX_PATH_SIZE; lia| |].
  - autorewrite with pylen. lia.
  - apply bytes_ok_app. split; [apply Hw|]. apply bytes_ok_cons.
    split; [apply Z.mod_pos_bound; lia|apply bytes_ok_nil].
Qed.

(** At 63 recorded hops the guard of [_build_trace_forward] still
    accepts the packet, but the incremented length 64 encodes an empty path of
    two-byte entries: the forward it builds can not be written. *)
Theorem trace_forward_overflows p key f :
  wire_wf p → path_len p = 63 → _build_trace_forward p key = Ok (Some f) →
  path_len f = 64 ∧ get_path_hash_size f = 2 ∧ get_path_hash_count f = 0 ∧
  write_to f = Err (ValueError "path_len mismatch").
Proof.
  intros Hw H63 Hf. destruct (trace_forward_inv p key f Hw Hf) as (_ & snr & _ & ->).
  pose proof (small_path_len p Hw ltac:(lia)) as Hl. rewrite H63 in *.
  split_and!; [done..|]. unfold write_to, _validate_lengths, PacketValidationUtils.validate_buffer_lengths.
  cbn [path with_path with_path_len]. rewrite len_app, Hl. done.
Qed.

(** ** Instances *)

Definition sample_key1 : bytes := [11; 12; 13].
Definition sample_key2 : bytes := [21; 22; 23].

Lemma sample_keys_ok : Forall key_ok [sample_key1; sample_key2].
Proof. repeat constructor; try discriminate; decide_now. Qed.

(** A routed-direct packet on its way over the two nodes. *)
Definition sample_direct : Packet.t :=
  with_payload_len 3 (with_payload [1; 2; 3] (with_path [11; 21] (with_path_len 2 (with_header 6 Packet.init)))).

Lemma sample_direct_wf : wire_wf sample_direct.
Proof. wf_now. Qed.

Lemma flood_forward_correct_witness :
  ∃ f, _build_flood_forward sample_packet sample_key1 = Ok (Some f)
       ∧ wire_wf f ∧ path f = path sample_packet ++ [11].
Proof.
  destruct (flood_forward_correct sample_packet sample_key1) as [[_ (f & H1 & H2 & H3 & _)]|[_ H]].
  - apply sample_wf.
  - apply (proj1 (proj1 (Forall_cons_iff _ _ _) sample_keys_ok)).
  - discriminate.
  - exists f. split; [exact H1|]. split; [exact H2|]. rewrite H3. reflexivity.
  - vm_compute in H. discriminate H.
Defined.

Lemma direct_forward_correct_witness :
  ∃ f, _build_client_repeat_forward (Some sample_key1) sample_direct = Ok (Some f) ∧ wire_wf f
       ∧ get_path_hash_count f = 1.
Proof.
  destruct (direct_forward_correct sample_direct sample_key1) as [(_ & _ & f & H1 & H2 & _ & H3 & _)|(H & _)].
  - apply sample_direct_wf.
  - reflexivity.
  - reflexivity.
  - discriminate.
  - exists f. split; [exact H1|]. split; [exact H2|]. rewrite H3. reflexivity.
  - exfalso. apply H. reflexivity.
Defined.

Lemma flood_path_routes_direct_witness :
  let p := with_path [] (with_path_len 0 sample_packet) in
  ∃ f, relay_all [sample_key1; sample_key2] (frame_of p) = Ok (Some (frame_of f))
    ∧ wire_wf f ∧ payload f = payload p
    ∧ relay_all [sample_key1; sample_key2]
        (frame_of (with_path_len (path_len f) (with_path (path f) sample_direct)))
      = Ok (Some (frame_of (rerouted [] 1 0 sample_direct))).
Proof.
  apply (flood_path_routes_direct [sample_key1; sample_key2]
           (with_path [] (with_path_len 0 sample_packet)) sample_direct).
  - wf_now.
  - reflexivity.
  - reflexivity.
  - reflexivity.
  - apply sample_keys_ok.
  - decide_now.
  - decide_now.
  - apply sample_direct_wf.
  - reflexivity.
  - discriminate.
Defined.

(** A TRACE (type 9, direct) over the two nodes, not yet relayed. *)
Definition sample_trace : Packet.t :=
  with_payload_len 11 (with_payload [1; 2; 3; 4; 5; 6; 7; 8; 0; 11; 21] (with_header 38 Packet.init)).

Lemma trace_forward_correct_witness :
  ∃ f, _build_trace_forward sample_trace sample_key1 = Ok (Some f) ∧ wire_wf f ∧ path_len f = 1.
Proof.
  destruct (_build_trace_forward sample_trace sample_key1) as [[f|]|] eqn:E;
    [|vm_compute in E; discriminate E..].
  exists f. split; [reflexivity|].
  destruct (trace_forward_correct sample_trace sample_key1 f) as (H1 & H2 & _).
  - wf_now.
  - reflexivity.
  - exact E.
  - split; [exact H1|]. rewrite H2. reflexivity.
Defined.

(** The TRACE of 64 hops after 63 of them. *)
Definition long_trace : Packet.t :=
  with_payload_len 73 (with_payload ([1; 2; 3; 4; 5; 6; 7; 8; 0] ++ replicate 64 11)
    (with_path (replicate 63 5) (with_path_len 63 (with_header 38 Packet.init)))).

Lemma trace_forward_overflows_witness :
  match _build_trace_forward long_trace sample_key1 with
  | Ok (Some f) => path_len f = 64 ∧ write_to f = Err (ValueError "path_len mismatch")
  | _ => False
  end.
Proof.
  destruct (_build_trace_forward long_trace sample_key1) as [[f|]|] eqn:E;
    [|vm_compute in E; discriminate E..].
  destruct (trace_forward_overflows long_trace sample_key1 f) as (H1 & _ & _ & H2).
  - wf_now.
  - reflexivity.
  - exact E.
  - split; [exact H1|exact H2].
Defined.
