(* ===== verification/Acks.v ===== *)
(** * ACK correlation ([node/dispatcher.py] ACK tracking, [node/handlers/ack.py],
      [node/handlers/multipart.py])

    A sender that wants an ACK registers an [asyncio.Event] under the CRC it
    expects; the receive path sets the events of a CRC that arrived. An event
    is a number (its identity); [_fired] are the events that were set. *)

From S2P Require Import Prelude PyData PyFloat ODict Constants PacketUtils Packet PacketFilter.

Import Packet.

Module Acks.
Section acks.
Context {T : Type} `{Clock T}.

Record t := mk {
  _recent_acks : list (Z * T);
  _waiting_acks : list (Z * list nat);
  _fired : list nat;
  _next_event : nat
}.

Definition init : t := mk [] [] [] 0.

(** [expect_ack]: a new event per call, appended to the waiters of [crc]. *)
Definition expect_ack (crc : Z) (s : t) : t * nat :=
  let evt := _next_event s in
  let waiters := default [] (dget crc (_waiting_acks s)) in
  (mk (_recent_acks s) (dset crc (waiters ++ [evt]) (_waiting_acks s))
      (if dmem crc (_recent_acks s) then evt :: _fired s else _fired s)
      (S evt), evt).

(** [for index, waiter in enumerate(waiters): if waiter is event: del ...; break] *)
Fixpoint remove_first (event : nat) (waiters : list nat) : list nat :=
  match waiters with
  | [] => []
  | w :: ws => if decide (w = event) then ws else w :: remove_first event ws
  end.

Definition _discard_ack_waiter (crc : Z) (event : nat) (s : t) : t :=
  match dget crc (_waiting_acks s) with
  | None => s
  | Some waiters =>
      let waiters := remove_first event waiters in
      let w := dset crc waiters (_waiting_acks s) in
      mk (_recent_acks s) (if bool_decide (waiters = []) then ddel crc w else w)
         (_fired s) (_next_event s)
  end.

(** [_register_ack_received] without the application listener. *)
Definition record_ack (now : T) (crc : Z) (s : t) : t :=
  let recent := dset crc now (_recent_acks s) in
  match dget crc (_waiting_acks s) with
  | None => mk recent (_waiting_acks s) (_fired s) (_next_event s)
  | Some waiters => mk recent (ddel crc (_waiting_acks s)) (waiters ++ _fired s) (_next_event s)
  end.

(** [listener]: [_ack_received_listener], [None] when not set. Its answer is
    whether the CRC matched a send of the application. *)
Definition _register_ack_received (now : T) (listener : option (Z → bool)) (crc : Z) (s : t)
    : t * bool :=
  (record_ack now crc s, match listener with Some f => f crc | None => false end).

(** The maintenance loop forgets ACKs older than five seconds. *)
Definition prune_recent (now five : T) (s : t) : t :=
  mk (filter (λ e, before (elapsed now e.2) five = true) (_recent_acks s))
     (_waiting_acks s) (_fired s) (_next_event s).

End acks.
Arguments t T : clear implicits.
End Acks.

(** ** AckHandler and MultipartAckHandler *)
Module AckHandler.

(** [process_discrete_ack]: the CRC of the first four payload bytes. *)
Definition process_discrete_ack (packet : Packet.t) : option Z :=
  if len (payload packet) <? 4 then None else Some (from_le (slice_to (payload packet) 4)).

(** [__call__]: mark the packet before the waiters are resolved, notify, mark
    again when the listener consumed the ACK. *)
Definition call {T} `{Clock T} (now : T) (listener : option (Z → bool))
    (packet : Packet.t) (s : Acks.t T) : Packet.t * Acks.t T :=
  match process_discrete_ack packet with
  | None => (packet, s)
  | Some ack_crc =>
      let packet := if dmem ack_crc (Acks._waiting_acks s)
                    then with_do_not_retransmit true packet else packet in
      let '(s, consumed) := Acks._register_ack_received now listener ack_crc s in
      (if consumed then with_do_not_retransmit true packet else packet, s)
  end.

End AckHandler.

Module MultipartAckHandler.

Definition extract_ack_crc (packet : Packet.t) : res (option Z) :=
  if len (payload packet) <? 5 then Ok None
  else
    b ← index (payload packet) 0;
    let inner_type := Z.land b 0x0F in
    if negb (inner_type =? PAYLOAD_TYPE_ACK) then Ok None
    else Ok (Some (from_le (slice (payload packet) 1 5))).

Definition call {T} `{Clock T} (now : T) (listener : option (Z → bool))
    (packet : Packet.t) (s : Acks.t T) : res (Acks.t T) :=
  crc ← extract_ack_crc packet;
  mret (match crc with
        | Some crc => (Acks._register_ack_received now listener crc s).1
        | None => s
        end).

End MultipartAckHandler.

(** ** Lemmas *)

Section lemmas.
Context {T : Type} `{Clock T}.
Import Acks.
Implicit Types s : Acks.t T.

Definition waiting_at (crc : Z) s : list nat := default [] (dget crc (_waiting_acks s)).

(** Every list of waiters is non-empty, and an event waits in one place. *)
Record acks_wf s : Prop := {
  waiting_unique : keys_unique (_waiting_acks s);
  waiting_nonempty : ∀ crc, dget crc (_waiting_acks s) ≠ Some [];
  waiting_nodup : ∀ crc, NoDup (waiting_at crc s);
  waiting_disjoint : ∀ crc crc' e, e ∈ waiting_at crc s → e ∈ waiting_at crc' s → crc = crc';
  waiting_known : ∀ crc e, e ∈ waiting_at crc s → (e < _next_event s)%nat
}.

Lemma remove_first_filter e l : NoDup l → remove_first e l = filter (λ x, x ≠ e) l.
Proof.
  induction l as [|x l IH]; [done|]. rewrite list.NoDup_cons. intros [Hn Hd]. cbn [remove_first].
  destruct (decide (x = e)) as [->|].
  - rewrite filter_cons_False by (intros Hne; by apply Hne). symmetry. apply filter_all.
    intros y Hy ->. done.
  - rewrite filter_cons_True by done. by rewrite IH.
Qed.

Lemma waiting_expect crc crc' s :
  waiting_at crc (expect_ack crc' s).1
  = if decide (crc = crc') then waiting_at crc s ++ [_next_event s] else waiting_at crc s.
Proof.
  unfold waiting_at, expect_ack. cbn. rewrite dget_dset. by destruct (decide (crc = crc')) as [->|].
Qed.

Lemma dget_discard crc crc' e s :
  acks_wf s →
  dget crc (_waiting_acks (_discard_ack_waiter crc' e s))
  = if decide (crc = crc')
    then let w := filter (λ x, x ≠ e) (waiting_at crc s) in
         if bool_decide (w = []) then None else Some w
    else dget crc (_waiting_acks s).
Proof.
  intros Hw. unfold _discard_ack_waiter, waiting_at.
  pose proof (waiting_nodup s Hw crc') as Hnd. unfold waiting_at in Hnd.
  destruct (dget crc' (_waiting_acks s)) as [w|] eqn:E.
  - cbn [default _waiting_acks] in *. rewrite remove_first_filter by done. change (from_option id [] (Some w)) with w in *.
    destruct (bool_decide _) eqn:Eb.
    + rewrite dget_ddel, dget_dset by (apply keys_unique_dset, Hw).
      destruct (decide (crc = crc')) as [->|]; [|done]. rewrite E. cbn. by rewrite Eb.
    + rewrite dget_dset. destruct (decide (crc = crc')) as [->|]; [|done]. rewrite E. cbn. by rewrite Eb.
  - destruct (decide (crc = crc')) as [->|]; [|done]. by rewrite E.
Qed.

Lemma waiting_discard crc crc' e s :
  acks_wf s →
  waiting_at crc (_discard_ack_waiter crc' e s)
  = if decide (crc = crc') then filter (λ x, x ≠ e) (waiting_at crc s) else waiting_at crc s.
Proof.
  intros Hw. unfold waiting_at at 1. rewrite dget_discard by done.
  destruct (decide (crc = crc')) as [->|]; [|done]. cbv zeta.
  destruct (bool_decide _) eqn:E; [|done]. apply bool_decide_eq_true in E. by rewrite E.
Qed.

Lemma waiting_record now crc crc' s :
  acks_wf s →
  waiting_at crc (record_ack now crc' s) = if decide (crc = crc') then [] else waiting_at crc s.
Proof.
  intros Hw. unfold waiting_at, record_ack. destruct (dget crc' _) as [w|] eqn:E; cbn.
  - rewrite dget_ddel by apply Hw. by destruct (decide (crc = crc')).
  - destruct (decide (crc = crc')) as [->|]; [by rewrite E|done].
Qed.

Lemma expect_wf crc s : acks_wf s → acks_wf (expect_ack crc s).1.
Proof.
  intros Hw. destruct (Hw) as [H1 H2 H3 H4 H5].
  assert (∀ c e, e ∈ waiting_at c (expect_ack crc s).1 ↔
                 e ∈ waiting_at c s ∨ (c = crc ∧ e = _next_event s)) as He.
  { intros c e. rewrite waiting_expect. destruct (decide (c = crc)) as [->|];
      [rewrite elem_of_app, list_elem_of_singleton|]; intuition congruence. }
  split.
  - apply keys_unique_dset, H1.
  - intros c. cbn. rewrite dget_dset. destruct (decide (c = crc)); [|apply H2].
    by destruct (default [] _).
  - intros c. rewrite waiting_expect. destruct (decide (c = crc)); [|done].
    apply list.NoDup_app. split_and!; [done| |apply NoDup_singleton].
    intros x Hin ->%list_elem_of_singleton. apply H5 in Hin. lia.
  - intros c c' e [Hc|[-> ->]]%He [Hc'|[-> ?]]%He; [by eapply H4| | |done];
      subst; [apply H5 in Hc|apply H5 in Hc']; lia.
  - intros c e [Hc|[-> ->]]%He; cbn; [apply H5 in Hc; lia|lia].
Qed.

Lemma discard_wf crc e s : acks_wf s → acks_wf (_discard_ack_waiter crc e s).
Proof.
  intros Hw. destruct (Hw) as [H1 H2 H3 H4 H5].
  assert (∀ c x, x ∈ waiting_at c (_discard_ack_waiter crc e s) → x ∈ waiting_at c s) as He.
  { intros c x. rewrite waiting_discard by done. destruct (decide _); [|done].
    by rewrite list_elem_of_filter; intros []. }
  split.
  - unfold _discard_ack_waiter. destruct (dget crc _); [|done]. cbn.
    destruct (bool_decide _); auto with odict.
  - intros c. rewrite dget_discard by done. destruct (decide _); [|apply H2]. cbv zeta.
    destruct (bool_decide _) eqn:E; [done|]. apply bool_decide_eq_false in E. congruence.
  - intros c. rewrite waiting_discard by done. destruct (decide _); [|done].
    apply NoDup_filter, H3.
  - intros c c' x Hc%He Hc'%He. by eapply H4.
  - intros c x Hc%He. apply H5 in Hc. unfold _discard_ack_waiter. by destruct (dget crc _).
Qed.

Lemma record_wf now crc s : acks_wf s → acks_wf (record_ack now crc s).
Proof.
  intros Hw. destruct (Hw) as [H1 H2 H3 H4 H5].
  assert (∀ c x, x ∈ waiting_at c (record_ack now crc s) → x ∈ waiting_at c s) as He.
  { intros c x. rewrite waiting_record by done. by destruct (decide _) as [->|];
      [intros ?%not_elem_of_nil|]. }
  split.
  - unfold record_ack. destruct (dget crc _); cbn; auto with odict.
  - intros c. unfold record_ack. destruct (dget crc _); cbn; [|apply H2].
    rewrite dget_ddel by done. destruct (decide _); [done|apply H2].
  - intros c. rewrite waiting_record by done. by destruct (decide _); [constructor|].
  - intros c c' x Hc%He Hc'%He. by eapply H4.
  - intros c x Hc%He. apply H5 in Hc. unfold record_ack. by destruct (dget crc _).
Qed.

(** Everything that happens to the table: sends register, waits end (by ACK,
    timeout or cancellation: [_discard_ack_waiter] runs in every case), ACKs
    arrive, the maintenance loop prunes. *)
Inductive ack_event : Type :=
| Expect (crc : Z)
| Discard (crc : Z) (event : nat)
| Received (now : T) (crc : Z)
| Prune (now five : T).

Definition ack_step s (ev : ack_event) : Acks.t T :=
  match ev with
  | Expect crc => (expect_ack crc s).1
  | Discard crc e => _discard_ack_waiter crc e s
  | Received now crc => record_ack now crc s
  | Prune now five => prune_recent now five s
  end.

Definition ack_run s (evs : list ack_event) : Acks.t T := fold_left ack_step evs s.

Lemma ack_step_wf s ev : acks_wf s → acks_wf (ack_step s ev).
Proof.
  destruct ev; cbn [ack_step]; auto using expect_wf, discard_wf, record_wf.
  intros [H1 H2 H3 H4 H5]. split; [exact H1|exact H2|exact H3|exact H4|exact H5].
Qed.

Lemma ack_run_wf evs s : acks_wf s → acks_wf (ack_run s evs).
Proof.
  revert s. induction evs as [|ev evs IH]; intros s Hs; [done|]. apply IH. by apply ack_step_wf.
Qed.

Lemma init_acks_wf : acks_wf (Acks.init : Acks.t T).
Proof.
  split; try done; try by constructor.
  - intros crc crc' e He. by apply not_elem_of_nil in He.
  - intros crc e He. by apply not_elem_of_nil in He.
Qed.

(** Nothing but its own discard or its ACK takes a waiter out of the table. *)
Lemma waiter_stays s ev crc e :
  acks_wf s → e ∈ waiting_at crc s → ev ≠ Discard crc e →
  e ∈ waiting_at crc (ack_step s ev) ∨ e ∈ _fired (ack_step s ev).
Proof.
  intros Hw He Hne. destruct ev as [crc'|crc' e'|now crc'|now five]; cbn [ack_step].
  - left. rewrite waiting_expect. destruct (decide _); [apply elem_of_app; by left|done].
  - left. rewrite waiting_discard by done. destruct (decide _) as [->|]; [|done].
    apply list_elem_of_filter. split; [|done]. congruence.
  - rewrite waiting_record by done. destruct (decide _) as [->|]; [right|by left].
    unfold waiting_at in He. unfold record_ack. destruct (dget crc' _); cbn in *;
      [apply elem_of_app; by left|by apply not_elem_of_nil in He].
  - by left.
Qed.

Lemma fired_stays s ev e : e ∈ _fired s → e ∈ _fired (ack_step s ev).
Proof.
  intros He. destruct ev as [crc'|crc' e'|now crc'|now five]; cbn; [| | |done].
  - destruct (dmem _ _); [by right|done].
  - unfold _discard_ack_waiter. by destruct (dget _ _).
  - unfold record_ack. destruct (dget _ _); cbn; [apply elem_of_app; by right|done].
Qed.

Lemma waiter_stays_run evs s crc e :
  acks_wf s → e ∈ waiting_at crc s ∨ e ∈ _fired s → Discard crc e ∉ evs →
  e ∈ waiting_at crc (ack_run s evs) ∨ e ∈ _fired (ack_run s evs).
Proof.
  revert s. induction evs as [|ev evs IH]; intros s Hw He Hn; [done|].
  apply not_elem_of_cons in Hn as [Hn1 Hn2]. apply (IH (ack_step s ev)); [by apply ack_step_wf| |done].
  destruct He as [He|He]; [|right; by apply fired_stays].
  apply waiter_stays; congruence.
Qed.

Lemma record_fires now crc s e : e ∈ waiting_at crc s → e ∈ _fired (record_ack now crc s).
Proof.
  unfold waiting_at, record_ack. destruct (dget crc _); cbn;
    [intros; apply elem_of_app; by left|by intros ?%not_elem_of_nil].
Qed.

End lemmas.

(** ** ACK correlation: properties *)

Section properties.
Context {T : Type} `{Clock T}.
Import Acks.

(** C15: no send misses its ACK. An event registered for [crc] is set by
    the ACK of [crc], whatever other sends, waits, ACKs and prunings happen in
    between, unless its own wait ended first; co-waiters on the same CRC do not
    take each other's registration. *)
Theorem ack_wakes_waiter (before_evs after_evs : list (ack_event (T:=T))) crc now :
  let s0 := ack_run Acks.init before_evs in
  let '(s1, e) := expect_ack crc s0 in
  Discard crc e ∉ after_evs →
  e ∈ _fired (record_ack now crc (ack_run s1 after_evs)).
Proof.
  cbv zeta. destruct (expect_ack crc (ack_run Acks.init before_evs)) as [s1 e] eqn:E. intros Hn.
  assert (acks_wf (ack_run Acks.init before_evs)) as Hw by (apply ack_run_wf, init_acks_wf).
  assert (s1 = (expect_ack crc (ack_run Acks.init before_evs)).1) as Hs1 by (by rewrite E).
  assert (e = _next_event (ack_run Acks.init before_evs)) as He by (by injection E as _ <-).
  assert (acks_wf s1) as Hw1 by (rewrite Hs1; by apply expect_wf).
  assert (e ∈ waiting_at crc s1) as Hin.
  { rewrite Hs1, waiting_expect, decide_True by done. apply elem_of_app. right.
    rewrite He. by apply list_elem_of_singleton. }
  destruct (waiter_stays_run after_evs s1 crc e) as [Hf|Hf]; [done|by left|done|..].
  - by apply record_fires.
  - by apply (fired_stays _ (Received now crc)).
Qed.

(** The end of a wait removes that waiter only: it is no longer
    registered, every other registration is unchanged, and the CRC is a key of
    [_waiting_acks] exactly when some waiter is left, in every reachable state. *)
Theorem discard_scoped (evs : list (ack_event (T:=T))) crc e :
  let s := ack_run Acks.init evs in
  let s' := _discard_ack_waiter crc e s in
  (e ∉ waiting_at crc s')
  ∧ (∀ crc' e', (crc', e') ≠ (crc, e) → e' ∈ waiting_at crc' s ↔ e' ∈ waiting_at crc' s')
  ∧ ∀ crc', dmem crc' (_waiting_acks s') = true ↔ waiting_at crc' s' ≠ [].
Proof.
  cbv zeta. assert (acks_wf (ack_run (Acks.init : Acks.t T) evs)) as Hw
    by (apply ack_run_wf, init_acks_wf).
  set (s := ack_run _ evs) in *. split_and!.
  - rewrite waiting_discard, decide_True by done. rewrite list_elem_of_filter. by intros [].
  - intros crc' e' Hne. rewrite waiting_discard by done. destruct (decide _) as [->|]; [|done].
    rewrite list_elem_of_filter. assert (e' ≠ e) by congruence. tauto.
  - intros crc'. pose proof (waiting_nonempty _ (discard_wf crc e s Hw) crc') as Hne.
    unfold dmem, waiting_at. destruct (dget crc' _) as [w|]; [|by split].
    split; [intros _ E; cbn in E; congruence|done].
Qed.

(** The ACK handler keeps a packet off the air exactly when its CRC was
    awaited here, by a waiter of this node or by the application. *)
Theorem ack_handler_marks now listener packet (s : Acks.t T) :
  _do_not_retransmit packet = false →
  let '(packet', s') := AckHandler.call now listener packet s in
  _do_not_retransmit packet' = true ↔
  4 ≤ len (payload packet) ∧
  let crc := from_le (slice_to (payload packet) 4) in
  dmem crc (_waiting_acks s) = true ∨ ∃ f, listener = Some f ∧ f crc = true.
Proof.
  intros Hm. unfold AckHandler.call, AckHandler.process_discrete_ack.
  destruct (len (payload packet) <? 4) eqn:E; bool_hyps; [rewrite Hm; split; [done|lia]|].
  cbn [_register_ack_received]. set (crc := from_le _).
  destruct (dmem crc _) eqn:Ed; destruct listener as [f|]; try destruct (f crc) eqn:Ef; cbn;
    rewrite ?Hm; split; try done; intros; split_and?; auto; eauto.
  - destruct H0 as [_ [?|(g & [= ->] & ?)]]; congruence.
  - destruct H0 as [_ [?|(g & ? & ?)]]; congruence.
Qed.

End properties.

(** ** Instances *)

Lemma ack_wakes_waiter_witness :
  let '(s1, e) := Acks.expect_ack 7 (ack_run (Acks.init (T:=Z)) [Expect 7]) in
  e ∈ Acks._fired (Acks.record_ack 3 7 (ack_run s1 [Discard 7 0%nat; Expect 9])).
Proof.
  apply (ack_wakes_waiter (T:=Z) [Expect 7] [Discard 7 0%nat; Expect 9] 7 3).
  rewrite !not_elem_of_cons. split_and!; [discriminate|discriminate|apply not_elem_of_nil].
Defined.

Lemma discard_scoped_witness :
  let s := ack_run (Acks.init (T:=Z)) [Expect 7; Expect 7] in
  1%nat ∈ waiting_at 7 s ↔ 1%nat ∈ waiting_at 7 (Acks._discard_ack_waiter 7 0%nat s).
Proof.
  destruct (discard_scoped (T:=Z) [Expect 7; Expect 7] 7 0%nat) as (_ & H & _).
  apply H. congruence.
Defined.

Lemma ack_handler_marks_witness :
  let packet := with_payload [7; 0; 0; 0] Packet.init in
  let s := ack_run (Acks.init (T:=Z)) [Expect 7] in
  let '(packet', s') := AckHandler.call 3 None packet s in
  _do_not_retransmit packet' = true ↔
  4 ≤ len (payload packet) ∧
  let crc := from_le (slice_to (payload packet) 4) in
  dmem crc (Acks._waiting_acks s) = true ∨ ∃ f : Z → bool, None = Some f ∧ f crc = true.
Proof.
  apply (ack_handler_marks 3 None (with_payload [7; 0; 0; 0] Packet.init)
           (ack_run (Acks.init (T:=Z)) [Expect 7])). reflexivity.
Defined.
