(* ===== verification/Dispatcher.v ===== *)
(** * The dispatcher ([node/dispatcher.py])

    The receive pipeline ([_process_received_packet], cut at the await of the
    flood hold), handler dispatch, the send funnel up to the ACK wait and the
    flood scoping applied there. The interleaving of receptions in their hold,
    transmissions and maintenance is the step relation [sys_step].

    Handlers are functions of the packet and the ACK table that may raise and
    return the verdict of a [HandlerResult] ([Some authenticated], or [None]
    for a handler that returns no [HandlerResult]). Subscribers and callbacks
    that only observe are left out. *)

From S2P Require Import Prelude PyData Sha256 PyFloat ODict Constants PacketUtils Packet TransportKeys RegionMap PacketFilter Forward Acks.

Import Packet.

Module Dispatcher.

Inductive DispatcherState : Type := IDLE | TRANSMIT | WAIT.

Section dispatcher.
Context {T : Type} `{Clock T}.

Definition handler : Type := Packet.t → Acks.t T → Packet.t * Acks.t T * res (option bool).

Record t := mk {
  state : DispatcherState;
  packet_filter : PacketFilter.t T;
  acks : Acks.t T;
  _current_expected_crc : option Z;
  dedupe_enabled : bool;
  _handlers : list (Z * handler);
  _fallback_handler : option handler;
  _local_delivery_types : list Z;
  local_identity : option bytes;
  region_map : option RegionMap;
  flood_transport_key : option bytes;
  default_flood_transport_key : option bytes;
  flood_unscoped : bool;
  path_hash_mode : option Z;
  _client_repeat_enabled : bool
}.

Definition with_filter f d := mk (state d) f (acks d) (_current_expected_crc d) (dedupe_enabled d)
  (_handlers d) (_fallback_handler d) (_local_delivery_types d) (local_identity d) (region_map d)
  (flood_transport_key d) (default_flood_transport_key d) (flood_unscoped d) (path_hash_mode d)
  (_client_repeat_enabled d).
Definition with_acks a d := mk (state d) (packet_filter d) a (_current_expected_crc d)
  (dedupe_enabled d) (_handlers d) (_fallback_handler d) (_local_delivery_types d)
  (local_identity d) (region_map d) (flood_transport_key d) (default_flood_transport_key d)
  (flood_unscoped d) (path_hash_mode d) (_client_repeat_enabled d).
Definition with_state s d := mk s (packet_filter d) (acks d) (_current_expected_crc d)
  (dedupe_enabled d) (_handlers d) (_fallback_handler d) (_local_delivery_types d)
  (local_identity d) (region_map d) (flood_transport_key d) (default_flood_transport_key d)
  (flood_unscoped d) (path_hash_mode d) (_client_repeat_enabled d).
Definition with_expected_crc c d := mk (state d) (packet_filter d) (acks d) c
  (dedupe_enabled d) (_handlers d) (_fallback_handler d) (_local_delivery_types d)
  (local_identity d) (region_map d) (flood_transport_key d) (default_flood_transport_key d)
  (flood_unscoped d) (path_hash_mode d) (_client_repeat_enabled d).
Definition with_handlers h l d := mk (state d) (packet_filter d) (acks d) (_current_expected_crc d)
  (dedupe_enabled d) h (_fallback_handler d) l
  (local_identity d) (region_map d) (flood_transport_key d) (default_flood_transport_key d)
  (flood_unscoped d) (path_hash_mode d) (_client_repeat_enabled d).
Definition with_path_hash_mode m d := mk (state d) (packet_filter d) (acks d)
  (_current_expected_crc d) (dedupe_enabled d) (_handlers d) (_fallback_handler d)
  (_local_delivery_types d) (local_identity d) (region_map d) (flood_transport_key d)
  (default_flood_transport_key d) (flood_unscoped d) m (_client_repeat_enabled d).

(** ** Registration *)

Definition register_handler (payload_type : Z) (h : handler) (local_delivery : bool) (d : t) : t :=
  with_handlers (dset payload_type h (_handlers d))
    (if local_delivery
     then if bool_decide (payload_type ∈ _local_delivery_types d) then _local_delivery_types d
          else payload_type :: _local_delivery_types d
     else filter (λ x, x ≠ payload_type) (_local_delivery_types d)) d.

Definition _get_handler (ptype : Z) (d : t) : option handler :=
  match dget ptype (_handlers d) with Some h => Some h | None => _fallback_handler d end.

(** ** Dispatch *)

Definition _is_transit_direct_delivery (pkt : Packet.t) (payload_type : Z) (d : t) : bool :=
  if negb (bool_decide (payload_type ∈ _local_delivery_types d)) then false
  else is_route_direct pkt && (get_path_hash_count pkt >? 0).

(** [_dispatch]; an exception of the handler is caught. *)
Definition _dispatch (pkt : Packet.t) (d : t) : Packet.t * t :=
  let payload_type := get_payload_type pkt in
  match _get_handler payload_type d with
  | None => (pkt, d)
  | Some h =>
      if _is_transit_direct_delivery pkt payload_type d then (pkt, d)
      else
        let '(pkt, a, r) := h pkt (acks d) in
        (match r with
         | Ok (Some true) => with_do_not_retransmit true pkt
         | _ => pkt
         end, with_acks a d)
  end.

(** ** Receiving *)

(** [pkt.calculate_packet_hash().hex()[:16]] *)
Definition short_hash (pkt : Packet.t) : res string :=
  h ← calculate_packet_hash pkt;
  mret (String.string_of_list_ascii (slice_to (String.list_ascii_of_string (hex h)) 16)).

(** [_process_received_packet] up to the flood hold: blacklist check, parse,
    signal and region capture. [None]: the frame was dropped. *)
Definition rx_begin (now : T) (data : bytes) (rssi : Z) (snr : float) (rx_radio_id : option string)
    (d : t) : t * option Packet.t :=
  let raw_hash := PacketFilter.generate_hash data in
  if PacketFilter.is_blacklisted now raw_hash (packet_filter d) then (d, None)
  else
    match read_from data Packet.init with
    | (_, Err _) => (with_filter (PacketFilter.blacklist now raw_hash (packet_filter d)) d, None)
    | (pkt, Ok _) =>
        let pkt := with_signal snr rssi pkt in
        let pkt := match rx_radio_id with
                   | Some _ => with_rx_radio_id rx_radio_id pkt
                   | None => pkt
                   end in
        (d, Some (capture_recv_region (region_map d) pkt).1)
    end.

(** What becomes of a packet after the hold. *)
Inductive rx_outcome : Type :=
| Duplicate
| Processed (pkt : Packet.t) (forward : option Packet.t).

(** The duplicate check of [_process_received_packet] and the recording of
    the hash. [true]: drop the packet. *)
Definition rx_dedup (now : T) (packet_hash : string) (pkt : Packet.t) (d : t) : t * bool :=
  if negb (_is_transit_direct_not_next_hop (local_identity d) pkt) then
    if dedupe_enabled d && PacketFilter.is_duplicate now packet_hash (packet_filter d)
    then (d, true)
    else (with_filter (PacketFilter.track_packet now packet_hash (packet_filter d)) d, false)
  else (d, false).

(** [_process_received_packet] from the end of the hold. The forward that is
    returned is handed to [_client_repeat_transmit]. *)
Definition rx_resume (now : T) (pkt : Packet.t) (d : t) : t * res rx_outcome :=
  match short_hash pkt with
  | Err e => (d, Err e)
  | Ok packet_hash =>
      let '(d, dup) := rx_dedup now packet_hash pkt d in
      if dup then (d, Ok Duplicate)
      else
        match (if _client_repeat_enabled d
               then _build_client_repeat_forward (local_identity d) pkt else Ok None) with
        | Err e => (d, Err e)
        | Ok forward_pkt =>
            let '(pkt', d) := _dispatch pkt d in
            (d, Ok (Processed pkt'
              match forward_pkt with
              | Some f => if is_route_flood f && is_marked_do_not_retransmit pkt' then None else Some f
              | None => None
              end))
        end
  end.

(** ** Sending *)

Definition _scope_packet (key : bytes) : py Packet.t unit := scope_packet key.

Definition _apply_flood_scope (d : t) : py Packet.t unit :=
  pkt ← get;
  if _flood_scope_applied pkt then mret tt
  else if negb (get_route_type pkt =? ROUTE_TYPE_FLOOD) then mret tt
  else if flood_unscoped d then mret tt
  else
    let key := match flood_transport_key d with
               | Some k => Some k
               | None => default_flood_transport_key d
               end in
    match key with None => mret tt | Some k => _scope_packet k end.

Definition set_default_path_hash_mode (mode : option Z) (d : t) : res t :=
  match mode with
  | Some m => if negb ((m =? 0) || (m =? 1) || (m =? 2))
              then Err (ValueError "path_hash_mode must be None, 0, 1, or 2")
              else Ok (with_path_hash_mode mode d)
  | None => Ok (with_path_hash_mode mode d)
  end.

Definition _apply_default_path_hash_mode (d : t) : py Packet.t unit :=
  match path_hash_mode d with
  | None => mret tt
  | Some mode =>
      pkt ← get;
      let route_type := get_route_type pkt in
      if negb ((route_type =? ROUTE_TYPE_FLOOD) || (route_type =? ROUTE_TYPE_TRANSPORT_FLOOD))
      then mret tt
      else if negb (get_path_hash_count pkt =? 0) then mret tt
      else if _path_hash_mode_applied pkt then mret tt
      else apply_path_hash_mode mode false
  end.

(** The head of [send_packet]; [false]: a flood TRACE, dropped. *)
Definition send_prepare (d : t) : py Packet.t bool :=
  pkt ← get;
  let route_type := get_route_type pkt in
  if ((route_type =? ROUTE_TYPE_FLOOD) || (route_type =? ROUTE_TYPE_TRANSPORT_FLOOD))
     && (get_payload_type pkt =? PAYLOAD_TYPE_TRACE)
  then mret false
  else _apply_flood_scope d;; _apply_default_path_hash_mode d;; mret true.

(** [_transmit_locked]. [radio] is what [radio.send] does with the frame:
    [true] for confirmation metadata, [false] for an exception or none. The
    result is the frame put on the air with [(tx_ok, ack_event, ack_crc)]. *)
Definition _transmit_locked (now : T) (radio : bytes → bool) (packet : Packet.t)
    (wait_for_ack : bool) (expected_crc : option Z) (d : t)
    : t * res (bool * option nat * option Z) :=
  let payload_type := get_payload_type packet in
  match short_hash packet with
  | Err e => (d, Err e)
  | Ok packet_hash =>
      let d := with_filter (PacketFilter.track_packet now packet_hash (packet_filter d)) d in
      let d := with_state TRANSMIT d in
      match write_to packet with
      | Err e => (d, Err e)
      | Ok raw =>
          if negb (radio raw) then (with_state IDLE d, Ok (false, None, None))
          else if (payload_type =? PAYLOAD_TYPE_ADVERT) || (payload_type =? PAYLOAD_TYPE_ACK)
                  || negb wait_for_ack
          then (with_state IDLE d, Ok (true, None, None))
          else
            match (match expected_crc with Some c => Ok c | None => get_crc packet end) with
            | Err e => (d, Err e)
            | Ok crc =>
                let d := with_expected_crc (Some crc) d in
                let '(a, ack_event) := Acks.expect_ack crc (acks d) in
                (with_state WAIT (with_acks a d), Ok (true, Some ack_event, Some crc))
            end
      end
  end.



End dispatcher.
Arguments t T : clear implicits.
Arguments handler T : clear implicits.
End Dispatcher.

Import Dispatcher.

(** ** Sending: lemmas *)

(** A packet both layers have decided about passes the funnel unchanged. *)
Lemma send_prepare_decided {T} `{Clock T} (d : Dispatcher.t T) p :
  _flood_scope_applied p = true → _path_hash_mode_applied p = true →
  (send_prepare d p).1 = p
  ∧ (send_prepare d p).2 = Ok (negb (is_route_flood p && (get_payload_type p =? PAYLOAD_TYPE_TRACE))).
Proof.
  intros Hs Hm. unfold send_prepare, _apply_flood_scope, _apply_default_path_hash_mode, is_route_flood.
  py_run. rewrite orb_comm.
  destruct (_ && (_ =? PAYLOAD_TYPE_TRACE)) eqn:E; [done|]. rewrite Hs.
  destruct (path_hash_mode d) as [m|]; [|done]. cbv beta.
  destruct (negb (_ || _)); [done|]. destruct (negb (_ =? 0)); [done|]. by rewrite Hm.
Qed.

Lemma forward_decided id p f :
  _build_client_repeat_forward id p = Ok (Some f) →
  _flood_scope_applied f = true ∧ _path_hash_mode_applied f = true.
Proof.
  unfold _build_client_repeat_forward, _build_trace_forward, _build_direct_forward,
    _build_flood_forward. intros Hf. destruct id as [key|]; [|done].
  repeat match type of Hf with
  | (if ?b then _ else _) = _ => destruct b
  | Ok None = _ => discriminate
  end; res_inv;
  repeat match goal with
  | H : (if ?b then _ else _) = Ok _ |- _ => destruct b
  | H : Ok None = _ |- _ => discriminate
  end; res_inv; try done;
  repeat match goal with H : Some _ = Some _ |- _ => injection H as <- end; done.
Qed.

(** ** The duplicate table over time *)

Section dedup.
Context {T : Type} `{ClockLaws T}.
Implicit Types (d : Dispatcher.t T) (log : list (string * T)).








(** Every logged hash is in the table with a time not before its entry, or
    its window is over. *)
Definition tracked (f : PacketFilter.t T) (c : T) log : Prop :=
  keys_unique (PacketFilter._packet_hashes f) ∧
  ∀ h t, (h, t) ∈ log →
    before c t = false ∧
    ((∃ ts, dget h (PacketFilter._packet_hashes f) = Some ts ∧ before ts t = false)
     ∨ before (PacketFilter.window_seconds f) (elapsed c t) = true).



(** Only the table of seen hashes matters. *)
Lemma tracked_ext f f' c lg :
  PacketFilter._packet_hashes f' = PacketFilter._packet_hashes f →
  PacketFilter.window_seconds f' = PacketFilter.window_seconds f →
  tracked f c lg → tracked f' c lg.
Proof. unfold tracked. by intros -> ->. Qed.













End dedup.

(** ** Echoes *)

Lemma capture_wire_eq m p : wire_eq (capture_recv_region m p).1 p.
Proof.
  unfold capture_recv_region. destruct m as [m|]; [|done]. py_run.
  destruct (_ && _); [done|]. destruct (_ =? ROUTE_TYPE_TRANSPORT_FLOOD).
  - destruct (find_match m p REGION_DENY_FLOOD) as [e|]; [destruct (is_wildcard e)|]; done.
  - by destruct (_ =? ROUTE_TYPE_FLOOD).
Qed.

Lemma short_hash_ext p q :
  get_payload_type p = get_payload_type q → get_payload p = get_payload q →
  get_payload_type p ≠ PAYLOAD_TYPE_TRACE → short_hash p = short_hash q.
Proof. intros H1 H2 H3. unfold short_hash. by rewrite (hash_ext p q). Qed.

Lemma short_hash_ok p : get_payload_type p ≠ PAYLOAD_TYPE_TRACE → ∃ h, short_hash p = Ok h.
Proof.
  intros Ht. unfold short_hash, calculate_packet_hash, PacketHashingUtils.calculate_packet_hash.
  rewrite bytes_of_ints_ok by (apply bytes_ok_cons; split; [apply payload_type_byte|constructor]).
  rewrite (proj2 (Z.eqb_neq _ _) Ht). by eexists.
Qed.

(** The packet a node sees when it hears the frame of [p]. *)
Lemma rx_begin_frame {T} `{Clock T} (d : Dispatcher.t T) now p rssi snr rid :
  wire_wf p →
  PacketFilter.is_blacklisted now (PacketFilter.generate_hash (frame_of p)) (packet_filter d) = false →
  ∃ q, rx_begin now (frame_of p) rssi snr rid d = (d, Some q) ∧ wire_eq q p.
Proof.
  intros Hw Hb. unfold rx_begin. rewrite Hb, read_frame by done. cbv zeta.
  eexists. split; [reflexivity|]. rewrite capture_wire_eq.
  rewrite <- (received_wire_eq p Packet.init Hw). by destruct rid.
Qed.

Lemma flood_not_transit id p :
  is_route_flood p = true → _is_transit_direct_not_next_hop id p = false.
Proof. intros Hf. unfold _is_transit_direct_not_next_hop. by rewrite (flood_not_direct p Hf). Qed.

(** A frame some node made of the flood [p] is a flood with its payload. *)
Lemma relayed_flood key p frame :
  wire_wf p → is_route_flood p = true → key_ok key → relay key (frame_of p) = Ok (Some frame) →
  ∃ f, wire_wf f ∧ frame = frame_of f ∧ is_route_flood f = true
    ∧ get_payload_type f = get_payload_type p ∧ payload f = payload p.
Proof.
  intros Hw Hf Hk Hrel. destruct (decide (hop_room p)) as [Hroom|Hroom].
  - destruct (relay_flood key p Hw Hf Hk Hroom) as [Hwf Heq]. rewrite Hrel in Heq.
    injection Heq as ->. eexists. split; [exact Hwf|]. done.
  - rewrite relay_flood_full in Hrel by done. done.
Qed.

Lemma transmit_tracks {T} `{Clock T} (d d1 : Dispatcher.t T) t0 radio p wait crc r h :
  short_hash p = Ok h → _transmit_locked t0 radio p wait crc d = (d1, Ok r) →
  packet_filter d1 = PacketFilter.track_packet t0 h (packet_filter d)
  ∧ dedupe_enabled d1 = dedupe_enabled d.
Proof.
  intros Hh Htx. unfold _transmit_locked in Htx. rewrite Hh in Htx.
  destruct (write_to p) as [raw|]; [|done].
  destruct (negb (radio raw)); [by injection Htx as <- _|].
  destruct (_ || negb wait); [by injection Htx as <- _|].
  destruct (match crc with Some c => Ok c | None => get_crc p end) as [c|]; [|done].
  destruct (Acks.expect_ack _ _) as [a e]. by injection Htx as <- _.
Qed.

(** A node drops the echo of its own flood: after transmitting [p],
    hearing any neighbour's forward of it within the window ends as a
    duplicate, without reaching a handler or being forwarded again. *)
Theorem own_echo_dropped {T} `{ClockLaws T} (d d1 : Dispatcher.t T)
    t0 now radio wait crc r p key frame rssi snr rid :
  wire_wf p → is_route_flood p = true → get_payload_type p ≠ PAYLOAD_TYPE_TRACE → key_ok key →
  dedupe_enabled d = true →
  _transmit_locked t0 radio p wait crc d = (d1, Ok r) →
  relay key (frame_of p) = Ok (Some frame) →
  before (elapsed now t0) (PacketFilter.window_seconds (packet_filter d)) = true →
  PacketFilter.is_blacklisted now (PacketFilter.generate_hash frame) (packet_filter d1) = false →
  ∃ q, rx_begin now frame rssi snr rid d1 = (d1, Some q) ∧ rx_resume now q d1 = (d1, Ok Duplicate).
Proof.
  intros Hw Hf Ht Hk Hd Htx Hrel Hwin Hbl.
  destruct (relayed_flood key p frame Hw Hf Hk Hrel) as (f & Hfw & -> & Hff & Hft & Hfp).
  destruct (rx_begin_frame d1 now f rssi snr rid Hfw Hbl) as (q & Hq & Heq).
  exists q. split; [done|]. destruct (short_hash_ok p Ht) as [h Hh].
  assert (short_hash q = Ok h) as Hhq.
  { rewrite <- Hh. apply short_hash_ext.
    - by rewrite (type_wire_eq _ _ Heq).
    - destruct Heq as [_ _ _ _ Hy Hn]. unfold get_payload.
      rewrite Hy, Hn, (wf_payload_len f Hfw), (wf_payload_len p Hw), Hfp. done.
    - by rewrite (type_wire_eq _ _ Heq), Hft. }
  destruct (transmit_tracks d d1 t0 radio p wait crc r h Hh Htx) as [Hfil Hde].
  unfold rx_resume, rx_dedup. rewrite Hhq.
  rewrite flood_not_transit by (by rewrite (flood_wire_eq _ _ Heq)). cbn [negb].
  rewrite Hde, Hd, Hfil, is_duplicate_track, decide_True, Hwin by done. done.
Qed.

(** ** Delivery and scoping *)

(** A routed-direct packet with hops left is not delivered locally:
    no handler registered for local delivery sees it. *)
Theorem transit_not_delivered {T} `{Clock T} (d : Dispatcher.t T) h ptype pkt :
  get_payload_type pkt = ptype → is_route_direct pkt = true → 0 < get_path_hash_count pkt →
  _dispatch pkt (register_handler ptype h true d) = (pkt, register_handler ptype h true d).
Proof.
  intros Hp Hr Hc. unfold _dispatch. rewrite Hp.
  destruct (_get_handler _ _); [|done]. unfold _is_transit_direct_delivery.
  rewrite bool_decide_true.
  - rewrite Hr, (proj2 (Z.gtb_lt _ _) Hc). done.
  - cbn. destruct (bool_decide _) eqn:E; [by apply bool_decide_eq_true in E|by left].
Qed.

(** A forward built by the client repeater passes the send funnel
    verbatim, whatever scope and hash mode are configured; only a flood TRACE
    is dropped. *)
Theorem forward_sent_verbatim {T} `{Clock T} (d : Dispatcher.t T) id p f :
  _build_client_repeat_forward id p = Ok (Some f) →
  send_prepare d f
  = (f, Ok (negb (is_route_flood f && (get_payload_type f =? PAYLOAD_TYPE_TRACE)))).
Proof.
  intros Hf. destruct (forward_decided id p f Hf) as [H1 H2].
  destruct (send_prepare_decided d f H1 H2) as [H3 H4].
  destruct (send_prepare d f) as [f' r]. cbn in *. by subst.
Qed.

(** [r] is [p] scoped with [key]: a transport flood whose code is the
    region's code for that payload. *)
Definition scoped_with (key : bytes) (p r : Packet.t) : Prop :=
  get_route_type r = ROUTE_TYPE_TRANSPORT_FLOOD
  ∧ calc_transport_code key p = Ok (transport_codes r).1
  ∧ payload r = payload p ∧ path r = path p ∧ get_payload_type r = get_payload_type p.

Lemma scope_packet_scoped key p :
  len key = 16 → ∃ r, scope_packet key p = (r, Ok tt) ∧ scoped_with key p r.
Proof.
  intros Hk. destruct (calc_transport_code_ok key p Hk) as (c & Hc & _).
  exists (scoped c p). split; [by apply scope_packet_eq|].
  split_and!; [apply scoped_route|done|done|done|apply scoped_type].
Qed.

Lemma scoped_with_applied key p r b :
  scoped_with key p r → scoped_with key p (with_flood_scope_applied b r).
Proof. done. Qed.

(** The scope of the node itself: none in un-scoped mode, else the transient
    override, else the persisted default. *)
Definition node_scope {T} (d : Dispatcher.t T) : option bytes :=
  if flood_unscoped d then None
  else match flood_transport_key d with Some k => Some k | None => default_flood_transport_key d end.

(** C39: the scope of a flood reply, decided by the reply helper and the
    send funnel together, is the one the firmware rule [choose_reply_scope]
    prescribes, whatever the settings of the node: the request's region when it was captured with
    a key, un-scoped for a request captured as an un-scoped flood, else the scope of
    the node itself ([node_scope]: none in un-scoped mode, the transient override, else
    the default), else un-scoped. The reply is a flood whose scope is not decided yet, and the
    keys have their 16 bytes. *)
Theorem reply_scope_refines {T} `{Clock T} (d : Dispatcher.t T) req reply :
  get_route_type reply = ROUTE_TYPE_FLOOD → _flood_scope_applied reply = false →
  (∀ k, _recv_region_key req = Some k → len k = 16) →
  (∀ k, node_scope d = Some k → len k = 16) →
  ∃ r, (apply_reply_scope (Some req);; _apply_flood_scope d) reply = (r, Ok tt) ∧
  match choose_reply_scope (_recv_region_captured req && bool_decide (is_Some (_recv_region_key req)))
          (_recv_region_captured req && _recv_region_unscoped req) (bool_decide (is_Some (node_scope d))) with
  | REPLY_SCOPE_REQUEST => ∃ k, _recv_region_key req = Some k ∧ scoped_with k reply r
  | REPLY_SCOPE_DEFAULT => ∃ k, node_scope d = Some k ∧ scoped_with k reply r
  | REPLY_SCOPE_NONE => get_route_type r = ROUTE_TYPE_FLOOD ∧ wire_eq r reply
  end.
Proof.
  intros Hr Ha Hk1 Hk2.
  assert (∃ r, _apply_flood_scope d reply = (r, Ok tt) ∧
    match node_scope d with
    | Some k => scoped_with k reply r
    | None => get_route_type r = ROUTE_TYPE_FLOOD ∧ wire_eq r reply
    end) as (r0 & Hr0 & Hs0).
  { unfold _apply_flood_scope, node_scope in *. py_run. rewrite Ha, Hr. change (ROUTE_TYPE_FLOOD =? ROUTE_TYPE_FLOOD) with true. cbn [negb].
    destruct (flood_unscoped d); [by eexists|]. destruct (match flood_transport_key d with Some k => Some k | None => _ end) as [k|] eqn:Ek; [|by eexists].
    destruct (scope_packet_scoped k reply (Hk2 k eq_refl)) as (r & Hs & Hsc). unfold _scope_packet. rewrite Hs. by exists r. }
  unfold apply_reply_scope, choose_reply_scope. py_run.
  destruct (_recv_region_captured req); cbn [negb andb].
  2: { exists r0. split; [done|]. destruct (node_scope d) as [k|]; [rewrite bool_decide_true by done; by exists k|by rewrite bool_decide_false by (by intros [? ?])]. }
  destruct (_recv_region_key req) as [k|] eqn:Ek.
  - rewrite Hr. change (ROUTE_TYPE_FLOOD =? ROUTE_TYPE_FLOOD) with true. cbv iota.
    destruct (scope_packet_scoped k reply (Hk1 k eq_refl)) as (r & Hs & Hsc). rewrite Hs.
    eexists. split; [reflexivity|]. rewrite bool_decide_true by done.
    exists k. split; [done|]. by apply scoped_with_applied.
  - rewrite (bool_decide_false (is_Some None)) by (by intros [? ?]).
    destruct (_recv_region_unscoped req); [eexists; split; [reflexivity|]; done|].
    exists r0. split; [done|]. destruct (node_scope d) as [k|]; [rewrite bool_decide_true by done; by exists k|by rewrite bool_decide_false by (by intros [? ?])].
Qed.

(** ** Instances *)

(** A companion node with client-repeat on, clock in seconds. *)
Definition sample_node : Dispatcher.t Z :=
  Dispatcher.mk IDLE (PacketFilter.init 60 300) Acks.init None true [] None [] (Some sample_key1)
    (Some sample_regions) None (Some key_a) false None true.



Lemma own_echo_dropped_witness :
  let d1 := (_transmit_locked 0 (λ _, true) sample_packet false None sample_node).1 in
  match relay sample_key2 (frame_of sample_packet) with
  | Ok (Some frame) =>
      ∃ q, rx_begin 5 frame (-80) (f_of_Z 7) None d1 = (d1, Some q) ∧ rx_resume 5 q d1 = (d1, Ok Duplicate)
  | _ => False
  end.
Proof.
  destruct (relay sample_key2 (frame_of sample_packet)) as [[frame|]|] eqn:E;
    [|vm_compute in E; discriminate E..].
  apply (own_echo_dropped sample_node _ 0 5 (λ _, true) false None (true, None, None) sample_packet sample_key2).
  - apply sample_wf.
  - reflexivity.
  - discriminate.
  - apply (proj1 (Forall_cons_iff _ _ _) (proj2 (proj1 (Forall_cons_iff _ _ _) sample_keys_ok))).
  - reflexivity.
  - vm_compute. reflexivity.
  - exact E.
  - reflexivity.
  - vm_compute. reflexivity.
Defined.

Lemma transit_not_delivered_witness :
  let h : Dispatcher.handler Z := λ p a, (p, a, Ok (Some true)) in
  _dispatch sample_direct (register_handler 1 h true sample_node)
  = (sample_direct, register_handler 1 h true sample_node).
Proof. apply transit_not_delivered; reflexivity. Defined.

Lemma forward_sent_verbatim_witness :
  match _build_client_repeat_forward (Some sample_key1) sample_packet with
  | Ok (Some f) => send_prepare sample_node f = (f, Ok true)
  | _ => False
  end.
Proof.
  destruct (_build_client_repeat_forward (Some sample_key1) sample_packet) as [[f|]|] eqn:E;
    [|vm_compute in E; discriminate E..].
  rewrite (forward_sent_verbatim sample_node _ _ f E). vm_compute in E. injection E as <-. reflexivity.
Defined.

Lemma reply_scope_refines_witness :
  let req := with_recv_region true None false Packet.init in
  ∃ r, (apply_reply_scope (Some req);; _apply_flood_scope sample_node) sample_packet = (r, Ok tt) ∧
    ∃ k, node_scope sample_node = Some k ∧ scoped_with k sample_packet r.
Proof.
  apply (reply_scope_refines sample_node (with_recv_region true None false Packet.init) sample_packet).
  - reflexivity.
  - reflexivity.
  - discriminate.
  - intros k [= <-]. vm_compute. reflexivity.
Defined.
