(* ===== verification/TxBudget.v ===== *)
(** * The airtime budget of the dispatcher ([node/dispatcher.py])

    A node that repeats for others keeps a leaky bucket of airtime: it fills at
    the duty cycle, a transmission spends its estimated airtime, and
    [send_packet] waits until the bucket admits the next one. The lock holder is
    the only one that spends; every other task may refill while it is on the air.

    The arithmetic is the interface [Num]: [float_num] is Python's, [exact_num]
    computes with rationals and carries the theorems on amounts. The delays that
    are computed from the airtime of a packet are at the end. *)

From Stdlib Require Import QArith Lqa.
From S2P Require Import Prelude PyData PyFloat Constants PacketUtils Airtime Packet PacketFilter Acks Dispatcher.

Open Scope Z_scope.

(** [n_div] raises on a zero divisor. *)
Class Num (N : Type) := {
  n_of_Z : Z → N;
  n_add : N → N → N;
  n_sub : N → N → N;
  n_mul : N → N → N;
  n_div : N → N → res N;
  n_ltb : N → N → bool;
  n_leb : N → N → bool
}.

#[export] Instance float_num : Num float := {|
  n_of_Z := f_of_Z; n_add := fadd; n_sub := fsub; n_mul := fmul; n_div := fdiv; n_ltb := fltb; n_leb := fleb
|}.

#[export] Instance exact_num : Num Q := {|
  n_of_Z := inject_Z;
  n_add x y := Qred (x + y);
  n_sub x y := Qred (x - y);
  n_mul x y := Qred (x * y);
  n_div x y := if Qeq_bool y 0 then Err ZeroDivisionError else Ok (Qred (x / y));
  n_ltb x y := negb (Qle_bool y x);
  n_leb := Qle_bool
|}.

Module TxBudget.

Definition DUTY_CYCLE_WINDOW_MS : Z := 3600000.
Definition MIN_TX_BUDGET_RESERVE_MS : Z := 100.
Definition MIN_TX_BUDGET_AIRTIME_DIV : Z := 2.
Definition MAX_TRANS_UNIT : Z := 255.

Record t (N : Type) : Type := mk {
  airtime_budget_factor : N;
  _tx_budget_ms : N;
  _tx_budget_last_update : N;
  _tx_next_time : N;
  _client_repeat_enabled : bool
}.
Arguments mk {N}.
Arguments airtime_budget_factor {N}.
Arguments _tx_budget_ms {N}.
Arguments _tx_budget_last_update {N}.
Arguments _tx_next_time {N}.
Arguments _client_repeat_enabled {N}.

Section budget.
Context {N : Type} `{Num N}.

(** [_tx_est_airtime_ms]: of a number of bytes, from the settings of the radio. *)
Variable est : Z → res N.

Definition with_bucket (budget last : N) (s : t N) : t N :=
  mk (airtime_budget_factor s) budget last (_tx_next_time s) (_client_repeat_enabled s).
Definition with_next_time (v : N) (s : t N) : t N :=
  mk (airtime_budget_factor s) (_tx_budget_ms s) (_tx_budget_last_update s) v (_client_repeat_enabled s).
Definition with_enabled (b : bool) (s : t N) : t N :=
  mk (airtime_budget_factor s) (_tx_budget_ms s) (_tx_budget_last_update s) (_tx_next_time s) b.

(** [min(a, b)] and [max(a, b)] *)
Definition n_min (a b : N) : N := if n_ltb b a then b else a.
Definition n_max (a b : N) : N := if n_ltb a b then b else a.

Definition _duty_cycle (s : t N) : res N :=
  n_div (n_of_Z 1) (n_add (n_of_Z 1) (n_max (n_of_Z 0) (airtime_budget_factor s))).

Definition _reset_tx_budget (now : N) : py (t N) unit :=
  s ← get;
  duty ← lift (_duty_cycle s);
  modify (fun s => with_next_time now (with_bucket (n_mul (n_of_Z DUTY_CYCLE_WINDOW_MS) duty) now s)).

Definition set_client_repeat_enabled (now : N) (enabled : bool) : py (t N) unit :=
  s ← get;
  (if enabled && negb (_client_repeat_enabled s) then _reset_tx_budget now else mret tt);;
  modify (with_enabled enabled).

Definition _refill_tx_budget (now : N) : py (t N) unit :=
  s ← get;
  duty ← lift (_duty_cycle s);
  let max_budget := n_mul (n_of_Z DUTY_CYCLE_WINDOW_MS) duty in
  let elapsed_ms := n_mul (n_sub now (_tx_budget_last_update s)) (n_of_Z 1000) in
  let refill := n_mul elapsed_ms duty in
  if n_ltb (n_of_Z 0) refill
  then modify (fun s => with_bucket (n_min (n_add (_tx_budget_ms s) refill) max_budget) now s)
  else mret tt.

Definition _tx_budget_wait_s (now : N) : py (t N) N :=
  _refill_tx_budget now;;
  e ← lift (est MAX_TRANS_UNIT);
  reserve_ms ← lift (n_div e (n_of_Z MIN_TX_BUDGET_AIRTIME_DIV));
  s ← get;
  wait_ms ← lift (if n_ltb (_tx_budget_ms s) reserve_ms
                  then duty ← _duty_cycle s; n_div (n_sub reserve_ms (_tx_budget_ms s)) duty
                  else Ok (n_of_Z 0));
  let pace_s := n_sub (_tx_next_time s) now in
  w ← lift (n_div wait_ms (n_of_Z 1000));
  mret (n_max w pace_s).

(** A turn of [_await_tx_budget]: how long to sleep before the next one, if there
    is a next one. *)
Definition await_turn (now : N) : py (t N) (option N) :=
  s ← get;
  if negb (_client_repeat_enabled s) then mret None
  else
    wait_s ← _tx_budget_wait_s now;
    mret (if n_leb wait_s (n_of_Z 0) then None else Some wait_s).

(** The decision of [send_packet] under the lock. *)
Definition admitted (now : N) : py (t N) bool :=
  s ← get;
  if negb (_client_repeat_enabled s) then mret true
  else wait_s ← _tx_budget_wait_s now; mret (n_leb wait_s (n_of_Z 0)).

(** The next transmission waits until the bucket holds the reserve. *)
Definition pace_next (now duty : N) : py (t N) unit :=
  s ← get;
  if n_ltb (_tx_budget_ms s) (n_of_Z MIN_TX_BUDGET_RESERVE_MS)
  then
    let needed := n_sub (n_of_Z MIN_TX_BUDGET_RESERVE_MS) (_tx_budget_ms s) in
    q ← lift (n_div needed duty);
    q ← lift (n_div q (n_of_Z 1000));
    modify (with_next_time (n_add now q))
  else modify (with_next_time now).

Definition _debit_tx_budget (now : N) (packet : Packet.t) : py (t N) unit :=
  _refill_tx_budget now;;
  airtime_ms ← lift (est (Packet.get_raw_length packet));
  modify (fun s => with_bucket (if n_ltb (_tx_budget_ms s) airtime_ms then n_of_Z 0 else n_sub (_tx_budget_ms s) airtime_ms)
                     (_tx_budget_last_update s) s);;
  s ← get;
  duty ← lift (_duty_cycle s);
  pace_next now duty.

(** What the lock holder does after a confirmed transmission. *)
Definition after_transmit (now : N) (packet : Packet.t) : py (t N) unit :=
  s ← get;
  if _client_repeat_enabled s then _debit_tx_budget now packet else mret tt.

(** [_transmit_locked] with the budget: [sent_at] is the time at which the radio
    has confirmed. An exception of the debit leaves the dispatcher in the state of
    the transmission. *)
Definition transmit {T} `{Clock T} (now : T) (sent_at : N) (radio : bytes → bool) (packet : Packet.t)
    (wait_for_ack : bool) (expected_crc : option Z) (ds : Dispatcher.t T * t N)
    : (Dispatcher.t T * t N) * res (bool * option nat * option Z) :=
  let '(d, s) := ds in
  let '(d', r) := Dispatcher._transmit_locked now radio packet wait_for_ack expected_crc d in
  match Dispatcher.short_hash packet, Packet.write_to packet with
  | Ok packet_hash, Ok raw =>
      if radio raw then
        match after_transmit sent_at packet s with
        | (s', Ok _) => ((d', s'), r)
        | (s', Err e) =>
            let f := PacketFilter.track_packet now packet_hash (Dispatcher.packet_filter d) in
            ((Dispatcher.with_state Dispatcher.TRANSMIT (Dispatcher.with_filter f d), s'), Err e)
        end
      else ((d', s), r)
  | _, _ => ((d', s), r)
  end.

(** ** The tasks that send

    Any number of tasks waits for the budget; one holds the lock, with the time
    of its admission. The log holds the airtimes that were spent while client
    repeat was on: without it transmissions are not budgeted. *)

Record sys : Type := mkSys { bucket : t N; time : N; sending : option (Packet.t * N); aired : list N }.

Inductive budget_step : sys → sys → Prop :=
| BPoll now b' r s :
    n_ltb now (time s) = false → await_turn now (bucket s) = (b', r) →
    budget_step s (mkSys b' now (sending s) (aired s))
| BRefused now b' s :
    n_ltb now (time s) = false → sending s = None → admitted now (bucket s) = (b', Ok false) →
    budget_step s (mkSys b' now None (aired s))
| BAdmit now b' p s :
    n_ltb now (time s) = false → sending s = None → Packet.get_raw_length p ≤ MAX_TRANS_UNIT →
    admitted now (bucket s) = (b', Ok true) →
    budget_step s (mkSys b' now (Some (p, now)) (aired s))
| BFailed now p since s :
    n_ltb now (time s) = false → sending s = Some (p, since) →
    budget_step s (mkSys (bucket s) now None (aired s))
| BSent now b' p since a r s :
    n_ltb now (time s) = false → sending s = Some (p, since) → est (Packet.get_raw_length p) = Ok a →
    n_ltb (n_mul (n_sub now since) (n_of_Z 1000)) a = false →
    after_transmit now p (bucket s) = (b', r) →
    budget_step s (mkSys b' now None ((if _client_repeat_enabled (bucket s) then [a] else []) ++ aired s)).

(** The tasks, and the switch, which fills the bucket when it turns client repeat
    on; the number counts these fillings. *)
Inductive repeater_step : sys * Z → sys * Z → Prop :=
| RTask s s' n : budget_step s s' → repeater_step (s, n) (s', n)
| RSwitch now enabled b' s n :
    n_ltb now (time s) = false → set_client_repeat_enabled now enabled (bucket s) = (b', Ok tt) →
    repeater_step (s, n)
      (mkSys b' now (sending s) (aired s), if enabled && negb (_client_repeat_enabled (bucket s)) then n + 1 else n).

End budget.

(** ** Delays from the airtime of a packet *)

(** The radio's settings, with the defaults of [getattr]. *)
Record RadioSettings : Type := mkSettings { sf : Z; bw_hz : Z; cr : Z; preamble : Z }.

Definition unknown_radio : RadioSettings := mkSettings 10 250000 5 8.

Definition _tx_est_airtime_ms (r : RadioSettings) (byte_len : Z) : res float :=
  lora_airtime byte_len (sf r) (f_of_Z (bw_hz r)) (cr r) (preamble r).

Definition MIN_RX_DELAY_MS : float := f_of_Z 50.
Definition MAX_RX_DELAY_MS : float := f_of_Z 32000.

(** [fpow] is the [**] of floats. *)
Definition calc_rx_delay (fpow : float → float → float) (rx_delay_base score air_time_ms : float) : float :=
  if fleb rx_delay_base f_zero then f_zero
  else fmul (fsub (fpow rx_delay_base (fsub (f_dec 85 2) score)) f_one) air_time_ms.

Definition _flood_rx_delay_ms (fpow : float → float → float) (r : RadioSettings) (rx_delay_base : float)
    (frame_len : Z) (snr : float) : res float :=
  m ← flood_rx_metrics fpow frame_len snr (sf r) (f_of_Z (bw_hz r)) (cr r) (preamble r)
        rx_delay_base MIN_RX_DELAY_MS MAX_RX_DELAY_MS;
  mret (delay_ms m).

(** [randint k] is what [random.randint(0, k)] gives. *)
Definition _client_repeat_delay_ms (randint : Z → Z) (r : RadioSettings) (pkt : Packet.t) : res float :=
  let frame_len := Packet.get_path_byte_len pkt + Packet.payload_len pkt + 2 in
  airtime_ms ← _tx_est_airtime_ms r frame_len;
  let factor := if Packet.is_route_flood pkt then f_dec 5 1 else f_dec 2 1 in
  let t := fmul airtime_ms factor in
  if fleb t f_zero then Ok f_zero
  else k ← int_of_float (fmul (f_of_Z 5) t); mret (f_of_Z (randint k)).

End TxBudget.

Import TxBudget.

(** ** With exact numbers *)

Section exact.
Open Scope Q_scope.

Lemma Qltb_lt x y : n_ltb x y = true ↔ x < y.
Proof. cbn. rewrite negb_true_iff, <- not_true_iff_false, Qle_bool_iff. lra. Qed.

Lemma Qltb_ge x y : n_ltb x y = false ↔ y <= x.
Proof. cbn. rewrite negb_false_iff. apply Qle_bool_iff. Qed.

Lemma n_add_eq (x y : Q) : n_add x y == x + y.
Proof. apply Qred_correct. Qed.

Lemma n_sub_eq (x y : Q) : n_sub x y == x - y.
Proof. apply Qred_correct. Qed.

Lemma n_mul_eq (x y : Q) : n_mul x y == x * y.
Proof. apply Qred_correct. Qed.

Lemma Qdiv_run x y : ~ y == 0 → ∃ q, n_div x y = Ok q ∧ q == x / y.
Proof.
  intros Hy. cbn. destruct (Qeq_bool y 0) eqn:E; [by apply Qeq_bool_eq in E|]. eexists. split; [reflexivity|]. apply Qred_correct.
Qed.

Lemma n_min_spec (x y : Q) : n_min x y <= x ∧ n_min x y <= y ∧ (n_min x y = x ∨ n_min x y = y).
Proof.
  unfold n_min. destruct (n_ltb y x) eqn:E; [apply Qltb_lt in E|apply Qltb_ge in E]; split_and!; try lra; auto.
Qed.

Lemma n_max_spec (x y : Q) : x <= n_max x y ∧ y <= n_max x y ∧ (n_max x y = x ∨ n_max x y = y).
Proof.
  unfold n_max. destruct (n_ltb x y) eqn:E; [apply Qltb_lt in E|apply Qltb_ge in E]; split_and!; try lra; auto.
Qed.

(** The duty cycle is a proportion. *)
Lemma duty_run (s : t Q) : ∃ d, _duty_cycle s = Ok d ∧ 0 < d ∧ d <= 1 ∧ d == / (1 + n_max 0 (airtime_budget_factor s)).
Proof.
  unfold _duty_cycle. set (x := n_add _ _).
  assert (x == 1 + n_max 0 (airtime_budget_factor s)) as Hx by apply Qred_correct.
  destruct (n_max_spec 0 (airtime_budget_factor s)) as (H0 & _). assert (1 <= x) by (rewrite Hx; lra).
  destruct (Qdiv_run (n_of_Z 1) x) as (d & -> & Hd); [lra|]. exists d. change (n_of_Z 1) with 1 in Hd.
  assert (d * x == 1) as Hdx by (rewrite Hd; field; lra).
  split; [done|]. split; [nra|]. split; [nra|]. rewrite Hd, Hx. field. lra.
Qed.

Variable est : Z → res Q.
Variable worst : Q.
Hypothesis est_worst : est MAX_TRANS_UNIT = Ok worst.
Hypothesis est_bound : ∀ n a, (n <= MAX_TRANS_UNIT)%Z → est n = Ok a → 0 <= a ∧ a <= worst.

Abbreviation window := (inject_Z DUTY_CYCLE_WINDOW_MS).

(** What a refill gives. *)
Record refilled (d : Q) (now : Q) (s s1 : t Q) : Prop := {
  rf_factor : airtime_budget_factor s1 = airtime_budget_factor s;
  rf_next : _tx_next_time s1 = _tx_next_time s;
  rf_enabled : _client_repeat_enabled s1 = _client_repeat_enabled s;
  rf_last : _tx_budget_last_update s1 == now;
  rf_full : _tx_budget_ms s1 <= window * d;
  rf_more : _tx_budget_ms s <= _tx_budget_ms s1;
  rf_upper : _tx_budget_ms s1 <= _tx_budget_ms s + d * ((now - _tx_budget_last_update s) * 1000);
  rf_lower : _tx_budget_ms s1 == window * d ∨ _tx_budget_ms s1 == _tx_budget_ms s + d * ((now - _tx_budget_last_update s) * 1000)
}.

Lemma refill_run now d s :
  _duty_cycle s = Ok d → 0 < d → _tx_budget_last_update s <= now → _tx_budget_ms s <= window * d →
  ∃ s1, _refill_tx_budget now s = (s1, Ok tt) ∧ refilled d now s s1.
Proof.
  intros Hd Hpos Hlast Hfull. unfold _refill_tx_budget. rewrite (py_bind_run _ _ s s s) by done. rewrite Hd.
  rewrite (py_bind_run _ _ s s d) by done. cbv zeta. set (refill := n_mul (n_mul _ _) _). set (most := n_mul _ d).
  assert (most == window * d) as Hmost by apply Qred_correct.
  assert (refill == d * ((now - _tx_budget_last_update s) * 1000)) as Hr.
  { unfold refill. rewrite !n_mul_eq, n_sub_eq. change (n_of_Z 1000) with 1000. ring. }
  destruct (n_ltb (n_of_Z 0) refill) eqn:E.
  - apply Qltb_lt in E. change (n_of_Z 0) with 0 in E. eexists. split; [reflexivity|].
    destruct (n_min_spec (n_add (_tx_budget_ms s) refill) most) as (H1 & H2 & H3).
    assert (n_add (_tx_budget_ms s) refill == _tx_budget_ms s + refill) as Ha by apply Qred_correct.
    split; cbn [airtime_budget_factor _tx_next_time _client_repeat_enabled _tx_budget_last_update _tx_budget_ms with_bucket]; try done; try lra.
    + destruct H3 as [->| ->]; lra.
    + destruct H3 as [->| ->]; [right|left]; lra.
  - apply Qltb_ge in E. change (n_of_Z 0) with 0 in E. exists s. split; [reflexivity|].
    assert (_tx_budget_last_update s == now) as Heq.
    { destruct (Qlt_le_dec (_tx_budget_last_update s) now) as [Hlt|]; [|lra].
      assert (0 < d * (now - _tx_budget_last_update s)) by (apply Qmult_lt_0_compat; lra). lra. }
    assert (d * ((now - _tx_budget_last_update s) * 1000) == 0) as Hzero by (rewrite Heq; ring).
    split; try done; try lra.
Qed.

(** What the gate tells. *)
Lemma wait_run now d s :
  _duty_cycle s = Ok d → 0 < d → _tx_budget_last_update s <= now → _tx_budget_ms s <= window * d →
  ∃ s1 w, _tx_budget_wait_s est now s = (s1, Ok w) ∧ refilled d now s s1 ∧ 0 <= w
    ∧ (1 # 2) * worst <= _tx_budget_ms s1 + d * (w * 1000) ∧ _tx_next_time s1 <= now + w
    ∧ ((1 # 2) * worst <= _tx_budget_ms s1 → _tx_next_time s1 <= now → w <= 0).
Proof.
  intros Hd Hpos Hlast Hfull. destruct (refill_run now d s Hd Hpos Hlast Hfull) as (s1 & Hrun & Hrf).
  assert (_duty_cycle s1 = Ok d) as Hd1 by (unfold _duty_cycle; by rewrite (rf_factor _ _ _ _ Hrf)).
  unfold _tx_budget_wait_s. rewrite (py_bind_run _ _ _ _ _ Hrun), est_worst. rewrite (py_bind_run _ _ s1 s1 worst) by done.
  destruct (Qdiv_run worst (n_of_Z MIN_TX_BUDGET_AIRTIME_DIV)) as (reserve & -> & Hres); [done|].
  assert (reserve == (1 # 2) * worst) as Hr by (rewrite Hres; change (n_of_Z MIN_TX_BUDGET_AIRTIME_DIV) with 2; field).
  rewrite (py_bind_run _ _ s1 s1 reserve) by done. rewrite (py_bind_run _ _ s1 s1 s1) by done. rewrite Hd1. cbn [mbind res_bind].
  set (gap := n_sub reserve (_tx_budget_ms s1)). assert (gap == reserve - _tx_budget_ms s1) as Hgap by apply n_sub_eq.
  destruct (Qdiv_run gap d) as (q & Hq & Heq); [lra|]. rewrite Hq.
  assert (d * q == gap) as Hdq by (rewrite Heq; field; lra).
  set (wait := if n_ltb (_tx_budget_ms s1) reserve then q else 0).
  assert ((if n_ltb (_tx_budget_ms s1) reserve then Ok q else Ok (n_of_Z 0)) = Ok wait) as ->.
  { unfold wait. by destruct (n_ltb _ _). }
  assert (0 <= wait ∧ reserve <= _tx_budget_ms s1 + d * wait ∧ (reserve <= _tx_budget_ms s1 → wait == 0)) as (Hw0 & Hw1 & Hw2).
  { unfold wait. destruct (n_ltb (_tx_budget_ms s1) reserve) eqn:E; [apply Qltb_lt in E|apply Qltb_ge in E].
    - split_and!; [|lra|lra]. apply Qlt_le_weak, Qmult_lt_l with (z := d); lra.
    - split_and!; [lra|lra|done]. }
  rewrite (py_bind_run _ _ s1 s1 wait) by done. cbv zeta. destruct (Qdiv_run wait (n_of_Z 1000)) as (v & -> & Hv); [done|].
  assert (v * 1000 == wait) as Hvw by (rewrite Hv; change (n_of_Z 1000) with 1000; field).
  rewrite (py_bind_run _ _ s1 s1 v) by done. set (pace := n_sub _ now).
  assert (pace == _tx_next_time s1 - now) as Hpace by apply n_sub_eq. destruct (n_max_spec v pace) as (Hm1 & Hm2 & Hm3).
  exists s1, (n_max v pace). split; [done|]. split; [done|]. split; [lra|]. split; [|split; [lra|]].
  - assert (d * wait <= d * (n_max v pace * 1000)); [|lra]. apply Qmult_le_l; lra.
  - intros H1 H2. destruct Hm3 as [->| ->]; [|lra]. assert (wait == 0) by (apply Hw2; lra). lra.
Qed.

Lemma admitted_run now d s :
  _duty_cycle s = Ok d → 0 < d → _tx_budget_last_update s <= now → _tx_budget_ms s <= window * d → _client_repeat_enabled s = true →
  ∃ s1 b, admitted est now s = (s1, Ok b) ∧ refilled d now s s1 ∧ (b = true → (1 # 2) * worst <= _tx_budget_ms s1).
Proof.
  intros Hd Hpos Hlast Hfull He. unfold admitted. rewrite (py_bind_run _ _ s s s) by done. rewrite He. cbn [negb].
  destruct (wait_run now d s Hd Hpos Hlast Hfull) as (s1 & w & Hrun & Hrf & Hw0 & Hw1 & _ & _). rewrite (py_bind_run _ _ _ _ _ Hrun).
  exists s1, (n_leb w (n_of_Z 0)). split; [done|]. split; [done|]. intros Hle. apply Qle_bool_iff in Hle. change (n_of_Z 0) with 0 in Hle.
  assert (w == 0) as Hz by lra. rewrite Hz in Hw1. lra.
Qed.

Lemma pace_run now d s : ~ d == 0 → ∃ v, pace_next now d s = (with_next_time v s, Ok tt).
Proof.
  intros Hd. unfold pace_next. rewrite (py_bind_run _ _ s s s) by done. destruct (n_ltb _ _); [|by exists now]. cbv zeta.
  destruct (Qdiv_run (n_sub (n_of_Z MIN_TX_BUDGET_RESERVE_MS) (_tx_budget_ms s)) d Hd) as (q & -> & _).
  rewrite (py_bind_run _ _ s s q) by done. destruct (Qdiv_run q (n_of_Z 1000)) as (q' & -> & _); [done|]. by exists (n_add now q').
Qed.

(** The proportion of an airtime that is spent at least. *)
Definition share (d : Q) : Q := n_min 1 ((1 # 2) + d).

Lemma debit_run now d p a s since :
  _duty_cycle s = Ok d → 0 < d → _tx_budget_last_update s <= now → 0 <= _tx_budget_ms s → _tx_budget_ms s <= window * d →
  worst <= window * d → (Packet.get_raw_length p <= MAX_TRANS_UNIT)%Z → est (Packet.get_raw_length p) = Ok a →
  a <= (now - since) * 1000 →
  (window * d <= _tx_budget_ms s ∨ (1 # 2) * worst + d * ((_tx_budget_last_update s - since) * 1000) <= _tx_budget_ms s) →
  ∃ s1 s2, _debit_tx_budget est now p s = (s2, Ok tt) ∧ refilled d now s s1
    ∧ airtime_budget_factor s2 = airtime_budget_factor s1 ∧ _client_repeat_enabled s2 = _client_repeat_enabled s1
    ∧ _tx_budget_last_update s2 = _tx_budget_last_update s1 ∧ 0 <= _tx_budget_ms s2 ∧ share d * a + _tx_budget_ms s2 <= _tx_budget_ms s1.
Proof.
  intros Hd Hpos Hlast Hlow Hfull Hworst Hn Ha Hlong Hadm. destruct (refill_run now d s Hd Hpos Hlast Hfull) as (s1 & Hrun & Hrf).
  assert (window * d <= _tx_budget_ms s1 ∨ (1 # 2) * worst + d * ((now - since) * 1000) <= _tx_budget_ms s1) as Hadm1.
  { pose proof (rf_more _ _ _ _ Hrf). destruct Hadm as [Hadm|Hadm]; [left; lra|]. destruct (rf_lower _ _ _ _ Hrf); [left|right]; lra. }
  destruct (est_bound _ _ Hn Ha) as [Ha0 Haw].
  unfold _debit_tx_budget. rewrite (py_bind_run _ _ _ _ _ Hrun), Ha. rewrite (py_bind_run _ _ s1 s1 a) by done.
  set (left := if n_ltb (_tx_budget_ms s1) a then n_of_Z 0 else n_sub (_tx_budget_ms s1) a).
  set (s2 := with_bucket left (_tx_budget_last_update s1) s1). rewrite (py_bind_run _ _ s1 s2 tt) by done.
  assert (0 <= left ∧ share d * a + left <= _tx_budget_ms s1) as (Hleft & Hspent).
  { destruct (n_min_spec 1 ((1 # 2) + d)) as (Hs1 & Hs2 & _). fold (share d) in Hs1, Hs2.
    pose proof (rf_more _ _ _ _ Hrf) as Hmore. unfold left. destruct (n_ltb (_tx_budget_ms s1) a) eqn:E; [apply Qltb_lt in E|apply Qltb_ge in E].
    - change (n_of_Z 0) with 0. split; [lra|]. destruct Hadm1 as [|Hadm1]; [lra|].
      assert (share d * a <= ((1 # 2) + d) * a) by (by apply Qmult_le_compat_r). assert (d * a <= d * ((now - since) * 1000)) by (by apply Qmult_le_l). lra.
    - rewrite n_sub_eq. split; [lra|]. assert (share d * a <= 1 * a) by (by apply Qmult_le_compat_r). lra. }
  assert (_duty_cycle s2 = Ok d) as Hd2.
  { change (_duty_cycle s2) with (_duty_cycle s1). unfold _duty_cycle in *. by rewrite (rf_factor _ _ _ _ Hrf). }
  rewrite (py_bind_run _ _ s2 s2 s2) by done. rewrite Hd2. rewrite (py_bind_run _ _ s2 s2 d) by done.
  destruct (pace_run now d s2) as (v & Hv); [lra|].
  exists s1, (with_next_time v s2). split; [exact Hv|]. by split_and!.
Qed.

(** ** Over a run *)

(** The bucket is between empty and full, and a packet on the air was admitted with
    half the worst airtime, to which the time since has added. *)
Record bounded (d : Q) (s : sys) : Prop := {
  bd_duty : _duty_cycle (bucket s) = Ok d;
  bd_enabled : _client_repeat_enabled (bucket s) = true;
  bd_last : _tx_budget_last_update (bucket s) <= time s;
  bd_low : 0 <= _tx_budget_ms (bucket s);
  bd_full : _tx_budget_ms (bucket s) <= window * d;
  bd_sending : match sending s with
               | None => True
               | Some (p, since) => (Packet.get_raw_length p <= MAX_TRANS_UNIT)%Z ∧
                   (window * d <= _tx_budget_ms (bucket s)
                    ∨ (1 # 2) * worst + d * ((_tx_budget_last_update (bucket s) - since) * 1000) <= _tx_budget_ms (bucket s))
               end
}.

Definition total (l : list Q) : Q := foldr Qplus 0 l.

(** What was spent since [s0], of [k] buckets and what they have gained. *)
Definition accounted (d k : Q) (s0 s : sys) : Prop :=
  time s0 <= time s ∧ ∃ l, aired s = l ++ aired s0 ∧
    ((l = [] ∧ _tx_budget_last_update (bucket s) <= time s0)
     ∨ (time s0 <= _tx_budget_last_update (bucket s)
        ∧ share d * total l + _tx_budget_ms (bucket s) <= window * d * k + d * ((_tx_budget_last_update (bucket s) - time s0) * 1000))).

Lemma refilled_duty d now s s1 : refilled d now s s1 → _duty_cycle s1 = _duty_cycle s.
Proof. intros H. unfold _duty_cycle. by rewrite (rf_factor _ _ _ _ H). Qed.

Lemma refilled_bounded d now s b o a :
  0 < d → bounded d s → time s <= now → refilled d now (bucket s) b →
  match o with None => True | Some (p, since) => sending s = o ∨ (Packet.get_raw_length p <= MAX_TRANS_UNIT)%Z ∧ since = now ∧ (1 # 2) * worst <= _tx_budget_ms b end →
  bounded d (mkSys b now o a).
Proof.
  intros Hpos [Hd He Hl Hlow Hfull Hs] Hnow Hrf Ho. pose proof (rf_more _ _ _ _ Hrf). pose proof (rf_last _ _ _ _ Hrf) as Hlast.
  split; cbn [bucket time sending]; [by rewrite (refilled_duty _ _ _ _ Hrf)|by rewrite (rf_enabled _ _ _ _ Hrf)|lra|lra|apply (rf_full _ _ _ _ Hrf)|].
  destruct o as [[p since]|]; [|done]. destruct Ho as [Ho|(Hn & -> & Hb)].
  - rewrite Ho in Hs. destruct Hs as [Hn Hs]. split; [done|]. destruct Hs as [Hs|Hs]; [left; lra|].
    destruct (rf_lower _ _ _ _ Hrf); [left|right; rewrite Hlast]; lra.
  - split; [done|]. right. assert (d * ((_tx_budget_last_update b - now) * 1000) == 0) by (rewrite Hlast; ring). lra.
Qed.

Lemma more_buckets d k : 0 < d → 1 <= k → window * d <= window * d * k.
Proof.
  intros Hd Hk. assert (0 <= window * d) by (apply Qmult_le_0_compat; [done|lra]).
  assert (window * d * 1 <= window * d * k); [|lra]. rewrite <- !(Qmult_comm _ (window * d)). by apply Qmult_le_compat_r.
Qed.

Lemma refilled_accounted d k now s0 s b :
  0 < d → 1 <= k → bounded d s → accounted d k s0 s → time s <= now → refilled d now (bucket s) b →
  ∃ l, aired s = l ++ aired s0 ∧ share d * total l + _tx_budget_ms b <= window * d * k + d * ((now - time s0) * 1000).
Proof.
  intros Hpos Hk Hb (Ht & l & Hl & Hacc) Hnow Hrf. exists l. split; [done|]. pose proof (more_buckets d k Hpos Hk).
  assert (0 <= d * ((now - time s0) * 1000)) by (apply Qmult_le_0_compat; lra).
  destruct Hacc as [[-> Hacc]|[Hu Hacc]].
  - pose proof (rf_full _ _ _ _ Hrf). cbn [total foldr]. lra.
  - pose proof (rf_upper _ _ _ _ Hrf). lra.
Qed.

Lemma accounted_refill d k now s0 s b o :
  0 < d → 1 <= k → bounded d s → accounted d k s0 s → time s <= now → refilled d now (bucket s) b →
  accounted d k s0 (mkSys b now o (aired s)).
Proof.
  intros Hpos Hk Hb Hacc Hnow Hrf. pose proof (rf_last _ _ _ _ Hrf) as Hlast. pose proof Hacc as [Ht _]. split; [cbn; lra|].
  destruct (refilled_accounted d k now s0 s b Hpos Hk Hb Hacc Hnow Hrf) as (l & Hl & Hle). exists l. split; [done|]. right. cbn [bucket].
  split; [lra|]. rewrite Hlast. exact Hle.
Qed.

Lemma poll_run d now s b r :
  0 < d → bounded d s → time s <= now → await_turn est now (bucket s) = (b, r) → refilled d now (bucket s) b.
Proof.
  intros Hpos [Hd He Hl Hlow Hfull Hs] Hnow H. unfold await_turn in H. rewrite (py_bind_run _ _ (bucket s) (bucket s) (bucket s)) in H by done.
  rewrite He in H. cbn [negb] in H. destruct (wait_run now d (bucket s) Hd Hpos) as (b1 & w & Hrun & Hrf & _); [lra|done|].
  rewrite (py_bind_run _ _ _ _ _ Hrun) in H. by injection H as <- <-.
Qed.

Lemma admit_run d now s b r :
  0 < d → bounded d s → time s <= now → admitted est now (bucket s) = (b, Ok r) →
  refilled d now (bucket s) b ∧ (r = true → (1 # 2) * worst <= _tx_budget_ms b).
Proof.
  intros Hpos [Hd He Hl Hlow Hfull Hs] Hnow H. destruct (admitted_run now d (bucket s) Hd Hpos) as (b1 & x & Hrun & Hrf & Hx); [lra|done..|].
  rewrite Hrun in H. by injection H as <- <-.
Qed.

Lemma step_bounded d k s0 s s' :
  0 < d → 1 <= k → worst <= window * d → budget_step est s s' → bounded d s → accounted d k s0 s →
  bounded d s' ∧ accounted d k s0 s'.
Proof.
  intros Hpos Hk Hworst Hstep Hb Hacc. destruct Hstep as [now b r s Hnow H|now b s Hnow Hs H|now b p s Hnow Hs Hn H|now p since s Hnow Hs|now b p since a r s Hnow Hs Ha Hlong H];
    apply Qltb_ge in Hnow.
  - pose proof (poll_run d now s b r Hpos Hb Hnow H) as Hrf. split; [|by apply accounted_refill].
    apply (refilled_bounded d now s); try done. destruct (sending s) as [[]|]; [by left|done].
  - destruct (admit_run d now s b _ Hpos Hb Hnow H) as [Hrf _]. split; [|by apply accounted_refill]. by apply (refilled_bounded d now s).
  - destruct (admit_run d now s b _ Hpos Hb Hnow H) as [Hrf Hx]. split; [|by apply accounted_refill].
    apply (refilled_bounded d now s); try done. right. split; [done|]. split; [done|]. by apply Hx.
  - destruct Hb as [Hd He Hl Hlow Hfull _], Hacc as [Ht Hacc]. split; [split; cbn; try done; lra|split; [cbn; lra|exact Hacc]].
  - destruct (Hb) as [Hd He Hl Hlow Hfull Hsend]. rewrite Hs in Hsend. destruct Hsend as [Hn Hadm]. apply Qltb_ge in Hlong.
    rewrite n_mul_eq, n_sub_eq in Hlong. change (n_of_Z 1000) with 1000 in Hlong. rewrite He. cbn [app].
    unfold after_transmit in H. rewrite (py_bind_run _ _ (bucket s) (bucket s) (bucket s)) in H by done. rewrite He in H.
    destruct (debit_run now d p a (bucket s) since) as (b1 & b2 & Hrun & Hrf & Hf & He2 & Hl2 & Hlow2 & Hsp); try done; [lra|].
    rewrite Hrun in H. injection H as <- <-. pose proof (rf_last _ _ _ _ Hrf) as Hlast. pose proof (rf_full _ _ _ _ Hrf) as Hfull1.
    destruct (est_bound _ _ Hn Ha) as [Ha0 _]. assert (0 <= share d * a).
    { apply Qmult_le_0_compat; [|done]. unfold share. destruct (n_min_spec 1 ((1 # 2) + d)) as (_ & _ & [->| ->]); lra. }
    split.
    + split; cbn [bucket time sending]; try done; [|by rewrite He2, (rf_enabled _ _ _ _ Hrf)|rewrite Hl2; lra|lra].
      unfold _duty_cycle in *. by rewrite Hf, (rf_factor _ _ _ _ Hrf).
    + destruct (refilled_accounted d k now s0 s b1 Hpos Hk Hb Hacc Hnow Hrf) as (l & Hl' & Hle). destruct Hacc as [Ht _].
      split; [cbn; lra|]. exists (a :: l). split; [cbn; by rewrite Hl'|]. right. cbn [bucket total foldr]. fold (total l). rewrite Hl2, Hlast. split; lra.
Qed.

(** With the switch. While client repeat is off, nothing is known of the bucket. *)
Definition short_packet (o : option (Packet.t * Q)) : Prop :=
  match o with None => True | Some (p, _) => (Packet.get_raw_length p <= MAX_TRANS_UNIT)%Z end.

Definition sound (d : Q) (s : sys) : Prop :=
  if _client_repeat_enabled (bucket s) then bounded d s else _duty_cycle (bucket s) = Ok d ∧ short_packet (sending s).

Definition kept (d k : Q) (s0 s : sys) : Prop :=
  if _client_repeat_enabled (bucket s) then accounted d k s0 s
  else time s0 <= time s ∧ ∃ l, aired s = l ++ aired s0 ∧ share d * total l <= window * d * k + d * ((time s - time s0) * 1000).

Lemma sound_short d s : sound d s → short_packet (sending s).
Proof.
  unfold sound. destruct (_client_repeat_enabled _); [|by intros [_ ?]]. intros [_ _ _ _ _ Hs].
  destruct (sending s) as [[p since]|]; [by destruct Hs|done].
Qed.

Lemma accounted_kept d k s0 s : 0 < d → 1 <= k → bounded d s → accounted d k s0 s →
  time s0 <= time s ∧ ∃ l, aired s = l ++ aired s0 ∧ share d * total l <= window * d * k + d * ((time s - time s0) * 1000).
Proof.
  intros Hpos Hk [_ _ Hlast Hlow _ _] (Ht & l & Hl & Hacc). split; [done|]. exists l. split; [done|].
  pose proof (more_buckets d k Hpos Hk). assert (0 <= window * d) by (apply Qmult_le_0_compat; [done|lra]).
  assert (0 <= d * ((time s - time s0) * 1000)) by (apply Qmult_le_0_compat; lra). destruct Hacc as [[-> _]|[Hu Hacc]].
  - cbn [total foldr]. lra.
  - assert (d * ((_tx_budget_last_update (bucket s) - time s0) * 1000) <= d * ((time s - time s0) * 1000)) by (apply Qmult_le_l; lra). lra.
Qed.

(** Nothing is budgeted while client repeat is off. *)
Lemma idle_step s s' :
  budget_step est s s' → _client_repeat_enabled (bucket s) = false → short_packet (sending s) →
  bucket s' = bucket s ∧ time s <= time s' ∧ aired s' = aired s ∧ short_packet (sending s').
Proof.
  intros H Hoff Hs. destruct H as [now b r s Hnow H|now b s Hnow Hn H|now b p s Hnow Hn Hp H|now p since s Hnow Hn|now b p since a r s Hnow Hn Ha Hlong H];
    apply Qltb_ge in Hnow; cbn [bucket time aired sending].
  - unfold await_turn in H. rewrite (py_bind_run _ _ (bucket s) (bucket s) (bucket s)) in H by done. rewrite Hoff in H. by injection H as <- _.
  - unfold admitted in H. rewrite (py_bind_run _ _ (bucket s) (bucket s) (bucket s)) in H by done. by rewrite Hoff in H.
  - unfold admitted in H. rewrite (py_bind_run _ _ (bucket s) (bucket s) (bucket s)) in H by done. rewrite Hoff in H. by injection H as <-.
  - done.
  - unfold after_transmit in H. rewrite (py_bind_run _ _ (bucket s) (bucket s) (bucket s)) in H by done. rewrite Hoff in H |- *.
    by injection H as <- _.
Qed.

(** Enabling the repeater starts with a full bucket; a packet may be on the air. *)
Lemma switched_on d now b b' :
  _duty_cycle b = Ok d → 0 < d → _client_repeat_enabled b = false → set_client_repeat_enabled now true b = (b', Ok tt) →
  _client_repeat_enabled b' = true ∧ _tx_budget_last_update b' = now ∧ _tx_budget_ms b' == window * d
  ∧ ∀ o a, short_packet o → bounded d (mkSys b' now o a).
Proof.
  intros Hd Hpos He H. unfold set_client_repeat_enabled, _reset_tx_budget in H. rewrite (py_bind_run _ _ b b b) in H by done. rewrite He in H. cbn [negb andb] in H.
  rewrite py_bind_run with (s' := with_next_time now (with_bucket (n_mul (n_of_Z DUTY_CYCLE_WINDOW_MS) d) now b)) (a := tt) in H.
  2: { rewrite (py_bind_run _ _ b b b) by done. rewrite Hd. by rewrite (py_bind_run _ _ b b d) by done. }
  set (m := n_mul (n_of_Z DUTY_CYCLE_WINDOW_MS) d) in H. assert (m == window * d) as Hm by apply n_mul_eq. clearbody m.
  injection H as <-. assert (0 <= window * d) by (apply Qmult_le_0_compat; [done|lra]). split_and!; [done..|]. intros o a Ho.
  split; cbn [bucket time sending with_enabled with_next_time with_bucket _tx_budget_ms _tx_budget_last_update _client_repeat_enabled]; try done; try lra.
  destruct o as [[p since]|]; [|done]. split; [done|]. left. lra.
Qed.

Lemma switched_same now enabled b b' :
  (enabled && negb (_client_repeat_enabled b) = false)%bool → set_client_repeat_enabled now enabled b = (b', Ok tt) →
  b' = with_enabled enabled b.
Proof.
  intros He H. unfold set_client_repeat_enabled in H. rewrite (py_bind_run _ _ b b b) in H by done. rewrite He in H. by injection H as <-.
Qed.

Lemma repeater_kept d k s0 s n s' m :
  0 < d → 1 <= k → worst <= window * d → repeater_step est (s, n) (s', m) → sound d s → kept d k s0 s →
  (n <= m)%Z ∧ sound d s' ∧ kept d (k + inject_Z (m - n)) s0 s'.
Proof.
  intros Hpos Hk Hworst Hstep. inversion Hstep as [x y z H|now enabled b' x z Hnow H]; subst; clear Hstep.
  - intros Hs Ha. split; [done|]. replace (m - m)%Z with 0%Z by lia. unfold sound, kept in *.
    destruct (_client_repeat_enabled (bucket s)) eqn:He.
    + destruct (step_bounded d k s0 s s' Hpos Hk Hworst H Hs Ha) as [Hb' (Ht & l & Hl & Ha')].
      rewrite (bd_enabled _ _ Hb'). split; [done|]. split; [done|]. exists l. split; [done|]. change (inject_Z 0) with 0. rewrite Qplus_0_r. done.
    + destruct Hs as [Hd Hp]. destruct (idle_step s s' H He Hp) as (-> & Ht & -> & Hp'). rewrite He. split; [done|].
      destruct Ha as (Ht0 & l & Hl & Ha). split; [lra|]. exists l. split; [done|]. change (inject_Z 0) with 0. rewrite Qplus_0_r.
      assert (d * ((time s - time s0) * 1000) <= d * ((time s' - time s0) * 1000)) by (apply Qmult_le_l; lra). lra.
  - intros Hs Ha. apply Qltb_ge in Hnow. pose proof (sound_short d s Hs) as Hp. unfold sound, kept in *. cbn [bucket time aired sending].
    destruct (enabled && negb (_client_repeat_enabled (bucket s))) eqn:Hsw.
    + apply andb_true_iff in Hsw as [-> He%negb_true_iff]. rewrite He in Hs, Ha. destruct Hs as [Hd _], Ha as (Ht & l & Hl & Ha).
      destruct (switched_on d now (bucket s) b' Hd Hpos He H) as (He' & Hlast & Hfull & Hb). rewrite He'. split; [lia|]. split; [by apply Hb|].
      split; [cbn; lra|]. exists l. split; [done|]. right. cbn [bucket time]. rewrite Hlast. split; [lra|]. rewrite Hfull.
      replace (n + 1 - n)%Z with 1%Z by lia. change (inject_Z 1) with 1.
      assert (d * ((time s - time s0) * 1000) <= d * ((now - time s0) * 1000)) by (apply Qmult_le_l; lra). lra.
    + pose proof (switched_same now enabled (bucket s) b' Hsw H) as ->. replace (n - n)%Z with 0%Z by lia. split; [done|].
      cbn [_client_repeat_enabled with_enabled]. assert (k + inject_Z 0 == k) as Hk0 by (change (inject_Z 0) with 0; ring).
      destruct enabled.
      * apply andb_false_iff in Hsw as [|He%negb_false_iff]; [done|]. rewrite He in Hs, Ha.
        assert (with_enabled true (bucket s) = bucket s) as -> by (destruct (bucket s); cbn in He; by subst).
        destruct Hs as [Hd _ Hlast Hlow Hfull Hsend]. split; [split; cbn; try done; lra|].
        destruct Ha as (Ht & l & Hl & Ha). split; [cbn; lra|]. exists l. split; [done|]. cbn [bucket]. rewrite Hk0. exact Ha.
      * split; [split; [|done]; destruct (_client_repeat_enabled (bucket s)); apply Hs|].
        assert (time s0 <= time s ∧ ∃ l, aired s = l ++ aired s0 ∧ share d * total l <= window * d * k + d * ((time s - time s0) * 1000)) as (Ht & l & Hl & Hle).
        { destruct (_client_repeat_enabled (bucket s)); [by apply accounted_kept|done]. }
        split; [lra|]. exists l. split; [done|]. rewrite Hk0.
        assert (d * ((time s - time s0) * 1000) <= d * ((now - time s0) * 1000)) by (apply Qmult_le_l; lra). lra.
Qed.

Lemma kept_proper d k k' s0 s : k == k' → kept d k s0 s → kept d k' s0 s.
Proof.
  intros Hk. unfold kept, accounted. destruct (_client_repeat_enabled _); intros (Ht & l & Hl & H); (split; [done|]); exists l; (split; [done|]); by rewrite <- Hk.
Qed.

Lemma run_kept d k s0 s n s' m :
  0 < d → 1 <= k → worst <= window * d → rtc (repeater_step est) (s, n) (s', m) → sound d s → kept d k s0 s →
  (n <= m)%Z ∧ sound d s' ∧ kept d (k + inject_Z (m - n)) s0 s'.
Proof.
  intros Hpos Hk Hworst Hrun. remember (s, n) as x eqn:Hx. remember (s', m) as y eqn:Hy. revert k s n Hk Hx.
  induction Hrun as [x|x [s1 n1] y Hstep _ IH]; intros k s n Hk Hx Hs Ha; subst.
  - injection Hx as -> ->. split; [done|]. split; [done|]. apply (kept_proper d k); [|done]. rewrite Z.sub_diag. change (inject_Z 0) with 0. ring.
  - destruct (repeater_kept d k s0 s n s1 n1 Hpos Hk Hworst Hstep Hs Ha) as (Hn & Hs1 & Ha1).
    assert (0 <= inject_Z (n1 - n)) by (change 0 with (inject_Z 0); rewrite <- Zle_Qle; lia).
    destruct (IH eq_refl (k + inject_Z (n1 - n)) s1 n1 ltac:(lra) eq_refl Hs1 Ha1) as (Hm & Hs' & Ha'). split; [lia|]. split; [done|].
    eapply kept_proper; [|exact Ha']. rewrite <- Qplus_assoc, <- inject_Z_plus. by replace (n1 - n + (m - n1))%Z with (m - n)%Z by lia.
Qed.

Lemma budget_kept_refl d s : 0 < d → sound d s → kept d 1 s s.
Proof.
  intros Hpos Hs. unfold sound, kept in *. destruct (_client_repeat_enabled _).
  - destruct Hs. split; [lra|]. exists []. split; [done|]. by left.
  - split; [lra|]. exists []. split; [done|]. cbn [total foldr]. assert (0 <= window * d) by (apply Qmult_le_0_compat; [done|lra]). lra.
Qed.

(** C23: a repeater keeps its duty cycle, computed with exact numbers. Whatever its
    tasks do and however client repeat is switched, between any two states the
    airtime spent while it was on, weighted with [share] (1 for a duty cycle of a
    half or more, as by default, and 1/2 plus the duty cycle below), is at most the
    duty cycle of the time between them and of one window, and of one window more
    for each time client repeat was switched on in between, which fills the
    bucket. The amounts are rationals, where the code rounds to binary64 at each
    operation; the airtime factor and the radio's settings are constant; a
    transmission takes at least its estimated airtime, the largest packet fits into
    the bucket, and packets have at most 255 bytes. *)
Theorem duty_cycle_kept d s0 s n s' m :
  _duty_cycle (bucket s0) = Ok d → worst <= window * d →
  _client_repeat_enabled (bucket s0) = false → short_packet (sending s0) →
  rtc (repeater_step est) (s0, 0%Z) (s, n) → rtc (repeater_step est) (s, n) (s', m) →
  ∃ spent, aired s' = spent ++ aired s
    ∧ share d * total spent <= d * (window * inject_Z (1 + (m - n)) + (time s' - time s) * 1000).
Proof.
  intros Hd Hworst Hoff Hp Hs Hs'. destruct (duty_run (bucket s0)) as (d' & Hd' & Hpos & _ & _). assert (d' = d) as -> by congruence.
  assert (sound d s0) as H0 by (unfold sound; by rewrite Hoff).
  destruct (run_kept d 1 s0 s0 0 s n Hpos ltac:(lra) Hworst Hs H0 (budget_kept_refl d s0 Hpos H0)) as (_ & H1 & _).
  destruct (run_kept d 1 s s n s' m Hpos ltac:(lra) Hworst Hs' H1 (budget_kept_refl d s Hpos H1)) as (Hm & H2 & H3).
  assert (0 <= inject_Z (m - n)) by (change 0 with (inject_Z 0); rewrite <- Zle_Qle; lia).
  assert (∃ l, aired s' = l ++ aired s ∧ share d * total l <= window * d * (1 + inject_Z (m - n)) + d * ((time s' - time s) * 1000)) as (l & Hl & Hle).
  { unfold sound, kept in *. destruct (_client_repeat_enabled (bucket s')); [|apply H3]. by apply (accounted_kept d (1 + inject_Z (m - n))); [..|lra| |]. }
  exists l. split; [done|]. rewrite inject_Z_plus. change (inject_Z 1) with 1. lra.
Qed.

(** Nothing was spent since [s0], and the bucket has filled. *)
Definition filling (d : Q) (s0 s : sys) : Prop :=
  (length (aired s0) < length (aired s))%nat ∨
  aired s = aired s0 ∧ _tx_next_time (bucket s) = _tx_next_time (bucket s0)
  ∧ (window * d <= _tx_budget_ms (bucket s)
     ∨ _tx_budget_ms (bucket s0) + d * ((_tx_budget_last_update (bucket s) - _tx_budget_last_update (bucket s0)) * 1000) <= _tx_budget_ms (bucket s)).

Lemma refilled_filling d now s0 s b o :
  filling d s0 s → refilled d now (bucket s) b → filling d s0 (mkSys b now o (aired s)).
Proof.
  intros [Hf|(Ha & Hn & Hf)] Hrf; [by left|right]. split; [done|]. cbn [bucket]. split; [by rewrite (rf_next _ _ _ _ Hrf)|].
  pose proof (rf_more _ _ _ _ Hrf). pose proof (rf_last _ _ _ _ Hrf) as Hlast.
  destruct Hf as [Hf|Hf]; [left; lra|]. destruct (rf_lower _ _ _ _ Hrf); [left|right; rewrite Hlast]; lra.
Qed.

Lemma step_filling d s0 s s' : 0 < d → budget_step est s s' → bounded d s → filling d s0 s → filling d s0 s'.
Proof.
  intros Hpos Hstep Hb Hf. destruct Hstep as [now b r s Hnow H|now b s Hnow Hs H|now b p s Hnow Hs Hn H|now p since s Hnow Hs|now b p since a r s Hnow Hs Ha Hlong H];
    apply Qltb_ge in Hnow.
  - apply refilled_filling; [done|]. by apply (poll_run d now s b r).
  - apply refilled_filling; [done|]. by apply (admit_run d now s b false).
  - apply refilled_filling; [done|]. by apply (admit_run d now s b true).
  - exact Hf.
  - left. cbn [aired]. rewrite (bd_enabled _ _ Hb). cbn. destruct Hf as [Hf|(-> & _)]; lia.
Qed.

Lemma accounted_refl d s : bounded d s → accounted d 1 s s.
Proof. intros []. split; [lra|]. exists []. split; [done|]. by left. Qed.

Lemma run_filling d s0 s s' :
  0 < d → worst <= window * d → rtc (budget_step est) s s' → bounded d s → filling d s0 s → bounded d s' ∧ filling d s0 s'.
Proof.
  intros Hpos Hworst Hrun. induction Hrun as [|x y z Hstep _ IH]; [done|]. intros Hb Hf. apply IH.
  - by apply (step_bounded d 1 x x y Hpos ltac:(lra) Hworst Hstep Hb (accounted_refl d x Hb)).
  - by apply (step_filling d s0 x y).
Qed.

(** Waiting is enough. If a turn of [_await_tx_budget] says to sleep for [w]
    seconds and nobody completes a transmission in that time, whatever the other
    tasks do, the gate under the lock admits the packet after it. *)
Theorem budget_wait_suffices d s now b w s' :
  0 < d → worst <= window * d → bounded d s → time s <= now →
  await_turn est now (bucket s) = (b, Ok (Some w)) →
  rtc (budget_step est) (mkSys b now (sending s) (aired s)) s' → aired s' = aired s → time s' <= now + w →
  ∃ b', admitted est (now + w) (bucket s') = (b', Ok true).
Proof.
  intros Hpos Hworst Hb Hnow H Hrun Haired Htime. set (s1 := mkSys b now (sending s) (aired s)) in Hrun.
  pose proof (poll_run d now s b _ Hpos Hb Hnow H) as Hrf.
  assert (bounded d s1) as Hb1.
  { apply (refilled_bounded d now s); try done. destruct (sending s) as [[]|]; [by left|done]. }
  assert (bounded d s' ∧ filling d s1 s') as [Hb' Hf].
  { apply (run_filling d s1 s1); [done..|]. right. split_and!; [done|done|right; lra]. }
  destruct Hf as [Hf|(_ & Hnext & Hf)]; [cbn in Hf; rewrite Haired in Hf; lia|].
  destruct Hb as [Hd He Hl Hlow Hfull _]. unfold await_turn in H. rewrite (py_bind_run _ _ (bucket s) (bucket s) (bucket s)) in H by done.
  rewrite He in H. cbn [negb] in H. destruct (wait_run now d (bucket s) Hd Hpos) as (b1 & w1 & Hw & _ & Hw0 & Hw1 & Hw2 & _); [lra|done|].
  rewrite (py_bind_run _ _ _ _ _ Hw) in H. injection H as -> H. destruct (Qle_bool w1 (inject_Z 0)); [done|]. injection H as ->.
  destruct Hb' as [Hd' He' Hl' Hlow' Hfull' _]. destruct (wait_run (now + w) d (bucket s') Hd' Hpos) as (b2 & v & Hv & Hrf2 & _ & _ & _ & Hv2); [lra|done|].
  exists b2. unfold admitted. rewrite (py_bind_run _ _ (bucket s') (bucket s') (bucket s')) by done. rewrite He'. cbn [negb].
  rewrite (py_bind_run _ _ _ _ _ Hv). assert (v <= 0) as Hv0; [|apply Qle_bool_iff in Hv0; change (n_leb v (n_of_Z 0)) with (Qle_bool v 0); by rewrite Hv0].
  apply Hv2; [|rewrite (rf_next _ _ _ _ Hrf2), Hnext; cbn [bucket s1]; lra].
  pose proof (rf_more _ _ _ _ Hrf2). pose proof (rf_last _ _ _ _ Hrf) as Hlast. destruct (est_bound MAX_TRANS_UNIT worst (Z.le_refl _) est_worst).
  cbn [bucket s1] in Hf. destruct Hf as [Hf|Hf]; [lra|]. destruct (rf_lower _ _ _ _ Hrf2) as [Hlo|Hlo]; [lra|]. rewrite Hlast in Hf. lra.
Qed.

End exact.

(** ** A repeater *)

Open Scope Q_scope.

(** A millisecond a byte. *)
Definition per_byte (n : Z) : res Q := Ok (inject_Z (Z.max 0 n)).

Lemma per_byte_bound n a : (n <= MAX_TRANS_UNIT)%Z → per_byte n = Ok a → 0 <= a ∧ a <= 255.
Proof. unfold MAX_TRANS_UNIT. intros Hn [= <-]. unfold Qle. cbn. lia. Qed.

(** A duty cycle of a quarter. *)
Definition quiet : t Q := mk 3 0 0 0 false.

Definition started : t Q := (set_client_repeat_enabled 10 true quiet).1.

Definition small_packet : Packet.t := Packet.with_payload_len 3 (Packet.with_payload [1; 2; 3]%Z Packet.init).

(** Client repeat is switched on at second 10; the packet is admitted at once, and
    confirmed a second later. *)
Definition asleep : sys := mkSys quiet 0 None [].

Definition awake : sys := mkSys started 10 None [].

Definition on_air : sys := mkSys (admitted per_byte 10 started).1 10 (Some (small_packet, 10)) [].

Definition on_time : sys := mkSys (after_transmit per_byte 11 small_packet (bucket on_air)).1 11 None [9].

Lemma demo_run : rtc (repeater_step per_byte) (awake, 1%Z) (on_time, 1%Z).
Proof.
  eapply rtc_l; [|apply rtc_once].
  - apply RTask. apply (BAdmit per_byte 10 (admitted per_byte 10 started).1 small_packet awake); vm_compute; done.
  - apply RTask. apply (BSent per_byte 11 (after_transmit per_byte 11 small_packet (bucket on_air)).1 small_packet 10 9 (Ok tt) on_air); vm_compute; done.
Qed.

Lemma duty_cycle_kept_witness :
  ∃ spent, aired on_time = spent ++ []
    ∧ share (1 # 4) * total spent <= (1 # 4) * (inject_Z DUTY_CYCLE_WINDOW_MS * inject_Z (1 + (1 - 1)) + (11 - 10) * 1000).
Proof.
  apply (duty_cycle_kept per_byte 255 eq_refl per_byte_bound (1 # 4) asleep awake 1 on_time 1).
  - vm_compute. reflexivity.
  - vm_compute. discriminate.
  - reflexivity.
  - exact I.
  - apply rtc_once. apply (RSwitch per_byte 10 true started asleep 0); vm_compute; reflexivity.
  - apply demo_run.
Defined.

(** An empty bucket at second 10: half a second fills it far enough. *)
Definition empty : sys := mkSys (mk 3 0 10 10 true) 10 None [].

Lemma empty_bounded : bounded 255 (1 # 4) empty.
Proof. split; cbn; try done; try lra. Qed.

Lemma budget_wait_suffices_witness :
  (await_turn per_byte 10 (bucket empty)).2 = Ok (Some (51 # 100)) ∧ ∃ b', admitted per_byte (10 + (51 # 100)) (bucket empty) = (b', Ok true).
Proof.
  split; [vm_compute; reflexivity|].
  refine (budget_wait_suffices per_byte 255 eq_refl per_byte_bound (1 # 4) empty 10 (bucket empty) (51 # 100) empty _ _ empty_bounded _ _ (rtc_refl _ _) _ _).
  - reflexivity.
  - vm_compute. discriminate.
  - vm_compute. discriminate.
  - vm_compute. reflexivity.
  - reflexivity.
  - vm_compute. discriminate.
Defined.

(** In binary64, with the default factor: half an hour of airtime, and a delay
    after a transmission that has emptied the bucket. *)
Example float_bucket :
  let est := _tx_est_airtime_ms unknown_radio in
  let s := (set_client_repeat_enabled (f_of_Z 10) true (mk (f_of_Z 1) f_zero f_zero f_zero false)).1 in
  let low := mk (f_of_Z 1) f_zero (f_of_Z 10) (f_of_Z 10) true in
  _tx_budget_ms s = f_of_Z 1800000 ∧ (admitted est (f_of_Z 10) s).2 = Ok true
  ∧ is_ok (await_turn est (f_of_Z 10) low).2 = true ∧ (admitted est (f_of_Z 10) low).2 = Ok false.
Proof. vm_compute. by split_and!. Qed.
