(* ===== verification/DispatcherLife.v ===== *)
(** * Starting and stopping the dispatcher ([node/dispatcher.py])

    [run_forever] is the maintenance loop, [stop] ends it and disarms reception.
    Both are cut where they await: the loop at its one-second wait, [stop] at its
    [sleep(0)] and at the wait for the loop's end. [life_step] interleaves them. *)

From S2P Require Import Prelude.

Module DispatcherLife.

(** What the radio offers: [set_rx_callback], whether clearing the callback
    works, [check_radio_health]. *)
Class LifeRadio := { has_set_rx_callback : bool; clearing_works : bool; has_health_check : bool }.

(** The events are made when they are first needed. [callback]: the radio holds
    the callback of the dispatcher. *)
Record t : Type := mk {
  _stop_event : option bool;
  _stopped_event : option bool;
  _run_forever_active : bool;
  _rx_enabled : bool;
  callback : bool;
  health_checks : nat
}.

Definition with_events (stop stopped : bool) (s : t) : t :=
  mk (Some stop) (Some stopped) (_run_forever_active s) (_rx_enabled s) (callback s) (health_checks s).
Definition with_active (b : bool) (s : t) : t :=
  mk (_stop_event s) (_stopped_event s) b (_rx_enabled s) (callback s) (health_checks s).
Definition with_rx (b c : bool) (s : t) : t :=
  mk (_stop_event s) (_stopped_event s) (_run_forever_active s) b c (health_checks s).
Definition with_checks (n : nat) (s : t) : t :=
  mk (_stop_event s) (_stopped_event s) (_run_forever_active s) (_rx_enabled s) (callback s) n.

Section life.
Context `{R : LifeRadio}.

Definition _ensure_lifecycle_events (s : t) : t :=
  match _stop_event s with None => with_events false true s | Some _ => s end.

(** [event.set()] of the two events. *)
Definition set_stop (s : t) : t := mk (Some true) (_stopped_event s) (_run_forever_active s) (_rx_enabled s) (callback s) (health_checks s).
Definition set_stopped (s : t) : t := mk (_stop_event s) (Some true) (_run_forever_active s) (_rx_enabled s) (callback s) (health_checks s).

Definition _arm_rx (s : t) : t := with_rx true (if has_set_rx_callback then true else callback s) s.

Definition _disarm_rx (s : t) : t :=
  with_rx false (if has_set_rx_callback && clearing_works then false else callback s) s.

(** A dispatcher after its constructor. *)
Definition init : t := _arm_rx (mk None None false true false 0).

(** Whether a received packet gets a task. *)
Definition _on_packet_received (s : t) : bool := _rx_enabled s.

(** [run_forever] up to its loop. *)
Definition run_prelude (s : t) : t :=
  _arm_rx (with_active true (with_events false false (_ensure_lifecycle_events s))).

(** The health check of a turn of the loop: the new counter. *)
Definition health_turn (counter : nat) (s : t) : t * nat :=
  if (60 <=? S counter)%nat then (if has_health_check then with_checks (S (health_checks s)) s else s, 0%nat)
  else (s, S counter).

(** The [finally] of [run_forever]. *)
Definition run_finally (s : t) : t := set_stopped (_disarm_rx (with_active false s)).

Definition is_set (e : option bool) : bool := match e with Some b => b | None => false end.

(** A turn of the loop, to its wait: [None] when the loop has ended. What the turn
    cleans up is [Dispatcher.maintenance]. *)
Definition run_turn (counter : nat) (s : t) : t * option nat :=
  if is_set (_stop_event s) then (run_finally s, None)
  else let '(s, counter) := health_turn counter s in (s, Some counter).

(** Where [stop] awaits. *)
Inductive stopper : Type :=
| Yielded
| Awaiting
| Returned.

Definition stop_begin (s : t) : t * stopper :=
  let s := set_stop (_disarm_rx (_ensure_lifecycle_events s)) in
  (s, if _run_forever_active s then Awaiting else Yielded).

Definition stop_resume (s : t) : t * stopper :=
  let s := _disarm_rx (set_stop s) in
  (s, if _run_forever_active s then Awaiting else Returned).

Definition cleanup (s : t) : t :=
  let s := _disarm_rx s in
  match _stop_event s with Some _ => set_stop s | None => s end.

(** ** The tasks *)

Inductive loop : Type :=
| Idle
| Scheduled
| Running (counter : nat).

Record sys : Type := mkSys { node : t; task : loop; stoppers : list stopper }.

(** The event loop runs what is ready in order: a [stop] that has yielded resumes
    after a loop that was scheduled before it was called. Nobody schedules a loop
    while a [stop] is under way. The wait of the loop ends by its timeout or the
    event; its task may be cancelled there. *)
Inductive life_step : sys → sys → Prop :=
| LSchedule s : task s = Idle → Forall (eq Returned) (stoppers s) → life_step s (mkSys (node s) Scheduled [])
| LStart s n : task s = Scheduled → run_turn 0 (run_prelude (node s)) = n →
    life_step s (mkSys n.1 (match n.2 with Some c => Running c | None => Idle end) (stoppers s))
| LTurn s c n : task s = Running c → run_turn c (node s) = n →
    life_step s (mkSys n.1 (match n.2 with Some c => Running c | None => Idle end) (stoppers s))
| LCancel s c : task s = Running c → life_step s (mkSys (run_finally (node s)) Idle (stoppers s))
| LStop s n : stop_begin (node s) = n → life_step s (mkSys n.1 (task s) (n.2 :: stoppers s))
| LResume s n l1 l2 : task s ≠ Scheduled → stoppers s = l1 ++ Yielded :: l2 → stop_resume (node s) = n →
    life_step s (mkSys n.1 (task s) (l1 ++ n.2 :: l2))
| LStopped s l1 l2 : stoppers s = l1 ++ Awaiting :: l2 → is_set (_stopped_event (node s)) = true →
    life_step s (mkSys (node s) (task s) (l1 ++ Returned :: l2))
| LCleanup s : life_step s (mkSys (cleanup (node s)) (task s) (stoppers s)).

End life.
End DispatcherLife.

Import DispatcherLife.

Section life.
Context `{R : LifeRadio}.

(** The loop runs exactly while it is active and not reported as stopped; a
    [stop] past its yield has disarmed reception and told the loop to end. *)
Record live (s : sys) : Prop := {
  lv_active : _run_forever_active (node s) = true ↔ ∃ c, task s = Running c;
  lv_stopped : (∃ c, task s = Running c) → _stopped_event (node s) = Some false ∧ is_Some (_stop_event (node s));
  lv_made : is_Some (_stop_event (node s)) → (∀ c, task s ≠ Running c) → _stopped_event (node s) = Some true;
  lv_stopping : (∃ p, p ∈ stoppers s ∧ p ≠ Yielded) → task s ≠ Scheduled ∧ _rx_enabled (node s) = false
                  ∧ ((∃ c, task s = Running c) → _stop_event (node s) = Some true);
  lv_returned : Returned ∈ stoppers s → task s = Idle;
  lv_pending : stoppers s ≠ [] → is_Some (_stop_event (node s))
}.

Lemma disarmed s : _rx_enabled (_disarm_rx s) = false.
Proof. done. Qed.

Lemma live_init : live (mkSys init Idle []).
Proof.
  split; cbn; try done.
  - split; [done|by intros [c Hc]].
  - by intros [c Hc].
  - intros (p & Hp & _). by apply list.not_elem_of_nil in Hp.
Qed.

(** The loop ends, by its event or by a cancellation. *)
Lemma live_finally s c : live s → task s = Running c → live (mkSys (run_finally (node s)) Idle (stoppers s)).
Proof.
  intros [Ha Hs Hm Hst Hr Hp] Hc. destruct Hs as [Hs Hmade]; [by exists c|]. split; cbn; try done.
  - split; [done|by intros [x Hx]].
  - by intros [x Hx].
  - intros Hp'. split; [done|]. split; [done|]. by intros [x Hx].
Qed.

Lemma live_turn s c : live s → task s = Running c →
  let n := run_turn c (node s) in live (mkSys n.1 (match n.2 with Some c => Running c | None => Idle end) (stoppers s)).
Proof.
  intros Hl Hc n. unfold n, run_turn. destruct (is_set _); [by apply (live_finally s c)|]. destruct Hl as [Ha Hs Hm Hst Hr Hp].
  assert (∃ c, task s = Running c) as Hex by (by exists c). destruct (Hs Hex) as [Hs1 Hs2]. unfold health_turn.
  assert (Returned ∉ stoppers s) as Hnr by (intros Hin; apply Hr in Hin; congruence).
  destruct (60 <=? S c)%nat; [destruct has_health_check|]; (split; cbn;
    [by rewrite Ha; split; intros; [eexists|done]|done|by intros _ H; specialize (H _ eq_refl)|
     intros Hx; destruct (Hst Hx) as (_ & Hrx & Hse); split; [done|]; split; [done|]; intros _; by apply Hse|done|done]).
Qed.

Lemma live_start s : live s → task s = Scheduled →
  let n := run_turn 0 (run_prelude (node s)) in live (mkSys n.1 (match n.2 with Some c => Running c | None => Idle end) (stoppers s)).
Proof.
  intros [Ha Hs Hm Hst Hr Hp] Hc n. assert (n = (run_prelude (node s), Some 1%nat)) as -> by done. split; cbn.
  - split; [by eexists|done].
  - intros _. by split.
  - intros _ H. by specialize (H 1%nat).
  - intros Hx. by destruct (Hst Hx).
  - intros Hin. apply Hr in Hin. congruence.
  - done.
Qed.

Lemma live_stop s : live s → live (mkSys (stop_begin (node s)).1 (task s) ((stop_begin (node s)).2 :: stoppers s)).
Proof.
  intros [Ha Hs Hm Hst Hr Hp]. unfold stop_begin. set (s1 := set_stop _).
  assert (_run_forever_active s1 = _run_forever_active (node s)) as Hact by (unfold s1, _ensure_lifecycle_events; by destruct (_stop_event (node s))).
  assert (((∃ c, task s = Running c) → _stopped_event s1 = Some false) ∧ ((∀ c, task s ≠ Running c) → _stopped_event s1 = Some true)) as [Hs1 Hs2].
  { unfold s1, _ensure_lifecycle_events. split; intros H.
    - destruct (Hs H) as [Hf [x Hx]]. by rewrite Hx.
    - destruct (_stop_event (node s)) eqn:E; [|done]. apply Hm; [by eexists|done]. }
  split; cbn [node task stoppers fst snd]; rewrite ?Hact; try done.
  - intros H. split; [by apply Hs1|by eexists].
  - intros (p & Hin & Hne). split; [|by split]. apply list.elem_of_cons in Hin as [->|Hin]; [|by apply Hst; exists p].
    destruct (_run_forever_active (node s)) eqn:E; [|done]. destruct (proj1 Ha eq_refl) as [c Hc]. by rewrite Hc.
  - intros Hin. apply list.elem_of_cons in Hin as [Hin|Hin]; [by destruct (_run_forever_active (node s))|by apply Hr].
Qed.

Lemma live_resume s l1 l2 : live s → task s ≠ Scheduled → stoppers s = l1 ++ Yielded :: l2 →
  live (mkSys (stop_resume (node s)).1 (task s) (l1 ++ (stop_resume (node s)).2 :: l2)).
Proof.
  intros [Ha Hs Hm Hst Hr Hp] Ht Hl. unfold stop_resume. set (s1 := _disarm_rx _).
  assert (is_Some (_stop_event (node s))) as Hmade by (apply Hp; rewrite Hl; by destruct l1).
  split; cbn [node task stoppers fst snd]; try done.
  - intros H. split; [by apply Hs|by eexists].
  - intros _. by apply Hm.
  - intros Hin. apply elem_of_app in Hin as [Hin|Hin]; [apply Hr; rewrite Hl; apply elem_of_app; by left|].
    apply list.elem_of_cons in Hin as [Hin|Hin]; [|apply Hr; rewrite Hl; apply elem_of_app; right; by right].
    change (_run_forever_active s1) with (_run_forever_active (node s)) in Hin. destruct (_run_forever_active (node s)) eqn:E; [done|].
    destruct (task s) as [| |c] eqn:Hc; [done..|]. assert (false = true) as [=] by (apply Ha; by eexists).
Qed.

Lemma live_returned s l1 l2 : live s → stoppers s = l1 ++ Awaiting :: l2 → is_set (_stopped_event (node s)) = true →
  live (mkSys (node s) (task s) (l1 ++ Returned :: l2)).
Proof.
  intros [Ha Hs Hm Hst Hr Hp] Hl Hset. assert (Awaiting ∈ stoppers s) as Hin by (rewrite Hl; apply elem_of_app; right; by left).
  destruct Hst as (Ht & Hrx & Hse); [by exists Awaiting|]. split; cbn [node task stoppers]; try done.
  - intros _. destruct (task s) as [| |c] eqn:Hc; [done..|]. destruct Hs as [Hs _]; [by eexists|]. by rewrite Hs in Hset.
  - intros _. apply Hp. rewrite Hl. by destruct l1.
Qed.

Lemma live_cleanup s : live s → live (mkSys (cleanup (node s)) (task s) (stoppers s)).
Proof.
  intros [Ha Hs Hm Hst Hr Hp]. unfold cleanup. cbn [_stop_event _disarm_rx with_rx]. destruct (_stop_event (node s)) as [b|] eqn:E; rewrite <- ?E in *; split; cbn; try done.
  - intros H. split; [by apply Hs|by eexists].
  - intros _. apply Hm. rewrite E. by eexists.
  - intros H. destruct (Hst H) as (? & _ & _). by split.
  - intros H. destruct (Hst H) as (? & _ & Hx). by split.
Qed.

Lemma step_live s s' : life_step s s' → live s → live s'.
Proof.
  intros Hstep Hl. destruct Hstep as [s Ht Hf|s n Ht <-|s c n Ht <-|s c Ht|s n <-|s n l1 l2 Ht Hs <-|s l1 l2 Hs Hset|s].
  - destruct Hl as [Ha Hs Hm Hst Hr Hp]. split; cbn; try done.
    + rewrite Ha, Ht. split; by intros [c Hc].
    + by intros [c Hc].
    + intros Hx _. apply Hm; [done|]. by rewrite Ht.
    + intros (p & Hp' & _). by apply list.not_elem_of_nil in Hp'.
    + intros Hp'. by apply list.not_elem_of_nil in Hp'.
  - by apply live_start.
  - by apply live_turn.
  - by apply (live_finally s c).
  - by apply live_stop.
  - by apply live_resume.
  - by apply live_returned.
  - by apply live_cleanup.
Qed.

(** C24: a dispatcher that was stopped stays silent. Whatever loops and [stop]s have
    run, once a [stop] has returned and until a loop is scheduled again, no loop
    runs and a received packet gets no task; and a [stop] that waits for the loop
    can go on as soon as the loop takes its next turn. *)
Theorem stopped_is_silent s :
  rtc life_step (mkSys init Idle []) s →
  (Returned ∈ stoppers s → task s = Idle ∧ _run_forever_active (node s) = false ∧ _on_packet_received (node s) = false)
  ∧ (Awaiting ∈ stoppers s → is_set (_stopped_event (node s)) = true
       ∨ ∃ c, task s = Running c ∧ run_turn c (node s) = (run_finally (node s), None) ∧ is_set (_stopped_event (run_finally (node s))) = true).
Proof.
  intros Hrun. assert (live s) as [Ha Hs Hm Hst Hr Hp].
  { pose proof live_init as H0. induction Hrun as [|x y z Hxy _ IH]; [done|]. apply IH. by apply (step_live x y). }
  split; intros Hin.
  - pose proof (Hr Hin) as Ht. destruct Hst as (_ & Hrx & _); [by exists Returned|]. split; [done|]. split; [|done].
    destruct (_run_forever_active (node s)); [|done]. destruct (proj1 Ha eq_refl) as [c Hc]. congruence.
  - destruct Hst as (Ht & Hrx & Hse); [by exists Awaiting|]. destruct (task s) as [| |c] eqn:Hc; [|done|].
    + left. rewrite Hm; [done| |done]. apply Hp. intros Hnil. rewrite Hnil in Hin. by apply list.not_elem_of_nil in Hin.
    + right. exists c. split; [done|]. unfold run_turn. rewrite Hse by (by eexists). done.
Qed.

End life.

(** ** A start and a stop *)

Definition plain_radio : LifeRadio := {| has_set_rx_callback := true; clearing_works := false; has_health_check := true |}.

(** The loop starts between the two halves of [stop]. *)
Definition stopped_node : sys :=
  let s := (stop_begin (R := plain_radio) (init (R := plain_radio))).1 in
  let s := run_prelude (R := plain_radio) s in
  let s := (stop_resume (R := plain_radio) s).1 in
  mkSys (run_finally (R := plain_radio) s) Idle [Returned].

Lemma stopped_run : rtc (life_step (R := plain_radio)) (mkSys (init (R := plain_radio)) Idle []) stopped_node.
Proof.
  eapply rtc_l; [apply LSchedule; [done|constructor]|]. eapply rtc_l; [eapply LStop; reflexivity|].
  eapply rtc_l; [eapply LStart; reflexivity|]. eapply rtc_l; [eapply (LResume _ _ [] []); [done|reflexivity..]|].
  eapply rtc_l; [eapply LTurn; reflexivity|]. eapply rtc_l; [eapply (LStopped _ [] []); reflexivity|]. apply rtc_refl.
Qed.

Lemma stopped_is_silent_witness :
  task stopped_node = Idle ∧ _run_forever_active (node stopped_node) = false ∧ _on_packet_received (node stopped_node) = false.
Proof. apply (proj1 (stopped_is_silent (R := plain_radio) stopped_node stopped_run)). by left. Defined.
