(* ===== verification/PacketBuilder.v ===== *)
(** * Packet construction ([protocol/packet_builder.py])

    One definition per builder. The keys of an identity and its signatures come
    from a third-party library: [KeyExchange] is [Identity(pubkey)] followed by
    [calc_shared_secret(private_key)], and a [LocalIdentity] is the record of
    what its methods return. Clock readings and random bytes are arguments. *)

From S2P Require Import Prelude PyData Sha256 Utf8 PyFloat Constants PacketUtils Packet Crypto.

Import Packet.

(** [Identity(peer_public_key).calc_shared_secret(private_key)]; an invalid
    key raises. *)
Class KeyExchange := { peer_shared_secret : bytes → bytes → res bytes }.

Record LocalIdentity := mkIdentity {
  get_public_key : bytes;
  get_private_key : bytes;
  sign : bytes → bytes
}.

(** The attributes of a contact the builders read: a [ContactProxy], whose
    [out_path] is the list of the path's bytes and whose missing attributes have
    the [getattr] defaults ([out_path_len] -1, [type] 0, [sync_since] 0). *)
Record contact := mkContact {
  public_key : string;
  out_path_len : Z;
  out_path : bytes;
  ctype : Z;
  sync_since : Z
}.

(** [str] or [bytes] text. *)
Inductive text : Type := TStr (s : pystr) | TBytes (b : bytes).

(** A channel of [channels_config]; the secret is a hex string or bytes. *)
Inductive channel_secret : Type := SecretHex (s : string) | SecretBytes (b : bytes).
Record channel := mkChannel { ch_name : pystr; ch_secret : channel_secret }.

Module PacketBuilder.

(** ** Helpers *)

Definition _hash_byte (pubkey : bytes) : res Z := PacketDataUtils.hash_byte pubkey.

Definition _create_packet (header : Z) (payload : bytes) : res Packet.t :=
  PacketValidationUtils.validate_payload_size (len payload);;
  mret (with_payload_len (len payload) (with_payload payload (with_header header Packet.init))).

Definition _hash_bytes (pubkey : bytes) (local_identity : LocalIdentity) : res bytes :=
  PacketDataUtils.hash_bytes pubkey (get_public_key local_identity).

Definition _get_route_type_value (route_type : string) (has_routing_path : bool) : Z :=
  RouteTypeUtils.get_route_type_value route_type has_routing_path.

(** The state is [PacketBuilder._last_unique_timestamp]; [now] is
    [int(time.time())]. *)
Definition _get_timestamp (now : Z) : py Z Z :=
  last ← get;
  let t := if now <=? last then last + 1 else now in
  modify (fun _ => t);;
  mret t.

Definition _create_header (payload_type : Z) (route_type : string) (has_routing_path : bool) : Z :=
  let route_value := RouteTypeUtils.get_route_type_value route_type has_routing_path in
  PacketHeaderUtils.create_header payload_type route_value PAYLOAD_VER_1.

Definition _pack_timestamp_data := PacketDataUtils.pack_timestamp_data.

Definition _validate_routing_path := PacketValidationUtils.validate_routing_path.

(** Run a method of a packet under construction. *)
Definition build (m : py Packet.t unit) (p : Packet.t) : res Packet.t :=
  match m p with (p', Ok _) => Ok p' | (_, Err e) => Err e end.

(** [path_bytes] and [encoded_len] of a stored out-path, as the three request
    builders compute them. *)
Definition stored_path (out_path : bytes) (out_path_len : Z) : bytes * option Z :=
  let path_bytes := slice_to out_path MAX_PATH_SIZE in
  if PathUtils.is_valid_path_len out_path_len
     && (PathUtils.get_path_byte_len out_path_len <=? len path_bytes)
  then (path_bytes, Some out_path_len)
  else if len path_bytes =? 64 then (slice_to path_bytes 63, None)
  else (path_bytes, None).

(** ** Adverts *)

Definition _encode_advert_data (name : pystr) (lat lon : float) (feature1 feature2 flags : Z)
    : res bytes :=
  let has_loc := negb (feqb lat f_zero) || negb (feqb lon f_zero) in
  let final_flags := flags in
  let final_flags := if has_loc then Z.lor final_flags ADVERT_FLAG_HAS_LOCATION else final_flags in
  let final_flags := if negb (feature1 =? 0) then Z.lor final_flags ADVERT_FLAG_HAS_FEATURE1
                     else final_flags in
  let final_flags := if negb (feature2 =? 0) then Z.lor final_flags ADVERT_FLAG_HAS_FEATURE2
                     else final_flags in
  let final_flags := if bool_decide (name ≠ []) then Z.lor final_flags ADVERT_FLAG_HAS_NAME
                     else final_flags in
  f ← bytes_of_ints [final_flags];
  loc ← (if truthy (Z.land final_flags ADVERT_FLAG_HAS_LOCATION)
         then lat_int ← int_of_float (fmul lat (f_of_Z 1000000));
              lon_int ← int_of_float (fmul lon (f_of_Z 1000000));
              a ← pack_i lat_int; b ← pack_i lon_int; mret (a ++ b)
         else mret []);
  f1 ← (if truthy (Z.land final_flags ADVERT_FLAG_HAS_FEATURE1) then pack_H feature1 else mret []);
  f2 ← (if truthy (Z.land final_flags ADVERT_FLAG_HAS_FEATURE2) then pack_H feature2 else mret []);
  let buf := f ++ loc ++ f1 ++ f2 in
  n ← (if truthy (Z.land final_flags ADVERT_FLAG_HAS_NAME)
       then name_bytes ← encode name;
            let remaining := MAX_ADVERT_DATA_SIZE - len buf in
            mret (slice_to name_bytes remaining)
       else mret []);
  mret (buf ++ n).

(** [now] is [int(time.time())]. *)
Definition create_advert (now : Z) (local_identity : LocalIdentity) (name : pystr) (lat lon : float)
    (feature1 feature2 flags : Z) (route_type : string) : res Packet.t :=
  let timestamp := now in
  let pubkey := get_public_key local_identity in
  ts_bytes ← pack_I timestamp;
  appdata ← _encode_advert_data name lat lon feature1 feature2 flags;
  if len appdata >? MAX_ADVERT_DATA_SIZE then Err (ValueError "advert appdata too large")
  else
    let body_to_sign := pubkey ++ ts_bytes ++ appdata in
    let signature := sign local_identity body_to_sign in
    let payload := pubkey ++ ts_bytes ++ signature ++ appdata in
    let header := _create_header PAYLOAD_TYPE_ADVERT route_type false in
    _create_packet header payload.

Definition create_self_advert (now : Z) (local_identity : LocalIdentity) (name : pystr)
    (lat lon : float) (feature1 feature2 : Z) (route_type : string) : res Packet.t :=
  create_advert now local_identity name lat lon feature1 feature2 ADVERT_FLAG_IS_CHAT_NODE route_type.

Definition create_flood_advert (now : Z) (local_identity : LocalIdentity) (name : pystr)
    (lat lon : float) (feature1 feature2 flags : Z) : res Packet.t :=
  create_advert now local_identity name lat lon feature1 feature2 flags "flood".

Definition create_direct_advert (now : Z) (local_identity : LocalIdentity) (name : pystr)
    (lat lon : float) (feature1 feature2 flags : Z) : res Packet.t :=
  create_advert now local_identity name lat lon feature1 feature2 flags "direct".

(** ** ACKs *)

(** [urandom1]: the random last byte. *)
Definition calc_text_ack_hash (urandom1 : bytes) (pubkey : bytes) (timestamp flags_byte : Z)
    (t : text) (ext_attempt : Z) (randomize : bool) : res bytes :=
  text_bytes ← (match t with TStr s => encode s | TBytes b => Ok b end);
  temp ← _pack_timestamp_data timestamp
           [PacketDataUtils.PartInt (Z.land flags_byte 0xFF); PacketDataUtils.PartBytes text_bytes];
  let digest := sha256 (temp ++ pubkey) in
  let last_byte := if randomize then urandom1 else [0] in
  mret (slice_to digest 4 ++ [Z.land ext_attempt 0xFF] ++ last_byte).

Definition create_ack_from_bytes (ack_bytes : bytes) (path : bytes) (path_len_encoded : option Z)
    (route_type : string) : res Packet.t :=
  let has_path := bool_decide (path ≠ []) in
  let header := _create_header PAYLOAD_TYPE_ACK route_type has_path in
  pkt ← _create_packet header ack_bytes;
  if has_path then build (set_path path path_len_encoded) pkt else mret pkt.

Definition create_ack (urandom1 : bytes) (pubkey : bytes) (timestamp attempt : Z) (t : text)
    : res Packet.t :=
  if negb (len pubkey =? 32) then Err (ValueError "pubkey must be 32 bytes")
  else
    text_bytes ← (match t with TStr s => encode (strip_nul s) | TBytes b => Ok (strip_nul b) end);
    ack_hash ← calc_text_ack_hash urandom1 pubkey timestamp attempt (TBytes text_bytes) 0 true;
    create_ack_from_bytes ack_hash [] None "direct".

Definition create_multi_ack (ack_bytes : bytes) (remaining : Z) (path : bytes)
    (path_len_encoded : option Z) : res Packet.t :=
  let has_path := bool_decide (path ≠ []) in
  let header := _create_header PAYLOAD_TYPE_MULTIPART "direct" has_path in
  w ← bytes_of_ints [Z.lor (Z.shiftl (Z.land remaining 0x0F) 4) PAYLOAD_TYPE_ACK];
  let payload := w ++ ack_bytes in
  pkt ← _create_packet header payload;
  if has_path then build (set_path path path_len_encoded) pkt else mret pkt.

(** ** TRACE, raw data, discovery *)

Definition create_trace (tag auth_code flags : Z) (path : list Z) : res Packet.t :=
  a ← pack_I tag; b ← pack_I auth_code; c ← pack_B flags;
  p ← (if bool_decide (path ≠ []) then bytes_of_ints path else mret []);
  let payload := a ++ b ++ c ++ p in
  let pkt := Packet.init in
  let pkt := with_header (_create_header PAYLOAD_TYPE_TRACE "direct" false) pkt in
  let pkt := with_path [] (with_path_len 0 pkt) in
  mret (with_payload_len (len payload) (with_payload payload pkt)).

Definition create_raw_data (data : bytes) : res Packet.t :=
  if len data >? MAX_PACKET_PAYLOAD then Err (ValueError "Raw data length exceeds MAX_PACKET_PAYLOAD")
  else _create_packet (_create_header PAYLOAD_TYPE_RAW_CUSTOM "direct" false) data.

Definition create_discovery_request (tag filter_mask since : Z) (prefix_only : bool) : res Packet.t :=
  let flags := if prefix_only then 0x01 else 0x00 in
  t ← pack_I tag;
  s ← (if since >? 0 then pack_I since else mret []);
  let payload := [Z.lor 0x80 flags] ++ [Z.land filter_mask 0xFF] ++ t ++ s in
  let pkt := with_header (_create_header PAYLOAD_TYPE_CONTROL "direct" false) Packet.init in
  let pkt := with_path [] (with_path_len 0 pkt) in
  mret (with_payload_len (len payload) (with_payload payload pkt)).

Definition create_discovery_response (tag node_type : Z) (inbound_snr : float) (pub_key : bytes)
    (prefix_only : bool) : res Packet.t :=
  snr ← int_of_float (fmul inbound_snr (f_of_Z 4));
  let snr_byte := Z.max (-128) (Z.min 127 snr) in
  t ← pack_I tag;
  let key := if prefix_only then slice_to pub_key 8 else slice_to pub_key 32 in
  let payload := [Z.lor 0x90 (Z.land node_type 0x0F)] ++ [Z.land snr_byte 0xFF] ++ t ++ key in
  let pkt := with_header (_create_header PAYLOAD_TYPE_CONTROL "direct" false) Packet.init in
  let pkt := with_path [] (with_path_len 0 pkt) in
  mret (with_payload_len (len payload) (with_payload payload pkt)).

(** ** Encrypted packets *)

Section encrypted.
Context `{C : BlockCipher} `{K : KeyExchange}.

Definition _encrypt_payload (aes_key shared_secret plaintext : bytes) : res bytes :=
  CryptoUtils.encrypt_then_mac aes_key shared_secret plaintext.

Definition _calc_shared_secret_and_key (c : contact) (local_identity : LocalIdentity)
    : res (bytes * bytes) :=
  pubkey ← fromhex (public_key c);
  shared_secret ← peer_shared_secret pubkey (get_private_key local_identity);
  mret (shared_secret, slice_to shared_secret 16).

Definition _create_encrypted_payload (c : contact) (local_identity : LocalIdentity)
    (plaintext : bytes) : res bytes :=
  sk ← _calc_shared_secret_and_key c local_identity;
  encrypted ← _encrypt_payload sk.2 sk.1 plaintext;
  pubkey ← fromhex (public_key c);
  h ← _hash_bytes pubkey local_identity;
  mret (h ++ encrypted).

Definition create_datagram (ptype : Z) (dest_public_key : bytes) (local_identity : LocalIdentity)
    (secret plaintext : bytes) (route_type : string) : res Packet.t :=
  if negb ((ptype =? PAYLOAD_TYPE_TXT_MSG) || (ptype =? PAYLOAD_TYPE_REQ)
           || (ptype =? PAYLOAD_TYPE_RESPONSE))
  then Err (ValueError "invalid payload type")
  else
    let aes_key := slice_to secret 16 in
    cipher ← _encrypt_payload aes_key secret plaintext;
    h ← _hash_bytes dest_public_key local_identity;
    let payload := h ++ cipher in
    let header := _create_header ptype route_type false in
    pkt ← _create_packet header payload;
    mret (with_path [] (with_path_len 0 pkt)).

Definition create_anon_req (dest_public_key : bytes) (local_identity : LocalIdentity)
    (shared_secret plaintext : bytes) (route_type : string) : res Packet.t :=
  let header := _create_header PAYLOAD_TYPE_ANON_REQ route_type false in
  dest_hash ← _hash_byte dest_public_key;
  let aes_key := slice_to shared_secret 16 in
  cipher ← _encrypt_payload aes_key shared_secret plaintext;
  d ← bytes_of_ints [dest_hash];
  let payload := d ++ get_public_key local_identity ++ cipher in
  pkt ← _create_packet header payload;
  mret (with_path [] (with_path_len 0 pkt)).

(** [timestamp if timestamp is not None else _get_timestamp()] *)
Definition timestamp_or_now (now : Z) (timestamp : option Z) : py Z Z :=
  match timestamp with Some t => mret t | None => _get_timestamp now end.

Definition anon_request_packet (c : contact) (local_identity : LocalIdentity)
    (req_data : bytes) (timestamp : Z) : res Packet.t :=
  plaintext ← _pack_timestamp_data timestamp [PacketDataUtils.PartBytes req_data];
  contact_pubkey ← fromhex (public_key c);
  sk ← _calc_shared_secret_and_key c local_identity;
  cipher ← _encrypt_payload sk.2 sk.1 plaintext;
  dest_hash ← _hash_byte contact_pubkey;
  d ← bytes_of_ints [dest_hash];
  let payload := d ++ get_public_key local_identity ++ cipher in
  let direct := out_path_len c >=? 0 in
  let header := _create_header PAYLOAD_TYPE_ANON_REQ (if direct then "direct" else "flood") false in
  packet ← _create_packet header payload;
  let packet := with_path [] (with_path_len 0 packet) in
  if direct && (len (out_path c) >? 0)
  then let '(path_bytes, encoded_len) := stored_path (out_path c) (out_path_len c) in
       build (set_path path_bytes encoded_len) packet
  else mret packet.

Definition create_anon_request (now : Z) (c : contact) (local_identity : LocalIdentity)
    (req_data : bytes) (timestamp : option Z) : py Z (Packet.t * Z) :=
  t ← timestamp_or_now now timestamp;
  packet ← lift (anon_request_packet c local_identity req_data t);
  mret (packet, t).

Definition login_packet (c : contact) (local_identity : LocalIdentity) (password : pystr)
    (timestamp : Z) : res Packet.t :=
  b ← encode password;
  let password_bytes := slice_to b 15 in
  plaintext ← (if ctype c =? CONTACT_TYPE_ROOM_SERVER
               then s ← pack_I (sync_since c);
                    _pack_timestamp_data timestamp
                      [PacketDataUtils.PartBytes s; PacketDataUtils.PartBytes password_bytes]
               else _pack_timestamp_data timestamp [PacketDataUtils.PartBytes password_bytes]);
  contact_pubkey ← fromhex (public_key c);
  shared_secret ← peer_shared_secret contact_pubkey (get_private_key local_identity);
  let direct := negb (out_path_len c <? 0) in
  pkt ← create_anon_req contact_pubkey local_identity shared_secret plaintext
          (if direct then "direct" else "flood");
  if direct && (out_path_len c >? 0) && bool_decide (out_path c ≠ [])
  then let '(path_bytes, encoded_len) := stored_path (out_path c) (out_path_len c) in
       build (set_path path_bytes encoded_len) pkt
  else mret pkt.

Definition create_login_packet (now : Z) (c : contact) (local_identity : LocalIdentity)
    (password : pystr) : py Z Packet.t :=
  t ← _get_timestamp now;
  lift (login_packet c local_identity password t).

(** ** Groups *)

Definition secret_bytes_of (s : channel_secret) : res bytes :=
  match s with SecretHex h => fromhex h | SecretBytes b => Ok b end.

(** The hashed part of a channel secret. *)
Definition channel_hash_input (secret_bytes : bytes) : bytes :=
  if (32 <=? len secret_bytes) && bytes_eqb (slice secret_bytes 16 32) (zeros 16)
  then slice_to secret_bytes 16
  else if len secret_bytes >? 32 then slice_to secret_bytes 32 else secret_bytes.

(** The text of a group message, cut to [MAX_TEXT_LEN] bytes with its prefix. *)
Definition group_content (sender_name message : pystr) : res bytes :=
  prefix ← encode (sender_name ++ [58; 32]);
  text_bytes ← encode message;
  let max_text := Z.max (MAX_TEXT_LEN - len prefix) 0 in
  text_bytes ← (if len text_bytes >? max_text
                then encode (decode_ignore (slice_to text_bytes max_text))
                else mret text_bytes);
  mret (prefix ++ text_bytes).

Definition group_packet (secret_bytes : bytes) (message sender_name : pystr) (timestamp : Z)
    : res Packet.t :=
  let hash_input := channel_hash_input secret_bytes in
  channel_hash ← index (sha256 hash_input) 0;
  let secret_bytes := slice_to (secret_bytes ++ zeros 32) 32 in
  let flags := 0x00 in
  content ← group_content sender_name message;
  plaintext ← _pack_timestamp_data timestamp
                [PacketDataUtils.PartInt flags; PacketDataUtils.PartBytes content];
  ciphertext ← CryptoUtils._aes_encrypt (slice_to secret_bytes 16) plaintext;
  let mac := slice_to (CryptoUtils._hmac_sha256 secret_bytes ciphertext) 2 in
  h ← bytes_of_ints [channel_hash];
  let payload := h ++ mac ++ ciphertext in
  let header := _create_header PAYLOAD_TYPE_GRP_TXT "flood" false in
  _create_packet header payload.

Definition create_group_datagram (now : Z) (group_name message sender_name : pystr)
    (channels_config : option (list channel)) (timestamp : option Z) : py Z Packet.t :=
  match channels_config with
  | None => raise (ValueError "channels_config parameter is required")
  | Some channels =>
      match List.find (fun ch => bool_decide (ch_name ch = group_name)) channels with
      | None => raise (ValueError "Channel not in provided channels_config")
      | Some ch =>
          secret_bytes ← lift (secret_bytes_of (ch_secret ch));
          t ← timestamp_or_now now timestamp;
          lift (group_packet secret_bytes message sender_name t)
      end
  end.

Definition create_group_data_packet (ptype channel_hash : Z) (plaintext secret : bytes)
    : res Packet.t :=
  if negb ((ptype =? PAYLOAD_TYPE_GRP_TXT) || (ptype =? PAYLOAD_TYPE_GRP_DATA))
  then Err (ValueError "invalid payload type")
  else
    let aes_key := slice_to secret 16 in
    cipher ← _encrypt_payload aes_key secret plaintext;
    h ← bytes_of_ints [channel_hash];
    _create_packet (_create_header ptype "flood" false) (h ++ cipher).

(** ** Path returns *)

(** [urandom4]: four random bytes. *)
Definition path_return_inner (urandom4 : bytes) (path : list Z) (extra_type : Z) (extra : bytes)
    (path_len_encoded : option Z) : res bytes :=
  if len path + len extra + 5 >? MAX_PACKET_PAYLOAD - 2 - CIPHER_BLOCK_SIZE
  then Err (ValueError "Combined path/extra too long")
  else
    first_byte ←
      match path_len_encoded with
      | None => if len path >? 0
                then Err (ValueError "path_len_encoded is required for a non-empty path")
                else Ok 0
      | Some l =>
          if negb (PathUtils.is_valid_path_len l) then Err (ValueError "invalid path_len_encoded")
          else if negb (len path =? PathUtils.get_path_byte_len l)
               then Err (ValueError "path length does not match path_len_encoded")
               else Ok l
      end;
    f ← bytes_of_ints [first_byte];
    p ← bytes_of_ints path;
    if bool_decide (extra ≠ [])
    then e ← bytes_of_ints [extra_type]; mret (f ++ p ++ e ++ extra)
    else mret (f ++ p ++ [0xFF] ++ urandom4).

Definition create_path_return (urandom4 : bytes) (dest_hash src_hash : Z) (secret : bytes)
    (path : list Z) (extra_type : Z) (extra : bytes) (path_len_encoded : option Z) : res Packet.t :=
  inner ← path_return_inner urandom4 path extra_type extra path_len_encoded;
  let aes_key := slice_to secret 16 in
  cipher ← _encrypt_payload aes_key secret inner;
  h ← bytes_of_ints [dest_hash; src_hash];
  let payload := h ++ cipher in
  let header := _create_header PAYLOAD_TYPE_PATH "flood" false in
  _create_packet header payload.

(** ** Text messages *)

(** The type-dependent parts of a text message. *)
Definition is_cli (txt_type : Z) : bool :=
  (txt_type =? TXT_TYPE_CLI_DATA) || (txt_type =? TXT_TYPE_CLI_COMMAND).

Definition text_flags (txt_type attempt_full : Z) : Z :=
  Z.lor (Z.shiftl txt_type 2) (Z.land attempt_full 0x03).

(** The plaintext and the input of the ACK hash, both over the same timestamp,
    flags, sender prefix and text. *)
Definition text_plaintext (local_identity : LocalIdentity) (message : pystr)
    (attempt_full txt_type timestamp : Z) : res (bytes * bytes) :=
  let flags_byte := text_flags txt_type attempt_full in
  let message := str_before_nul message in
  b ← encode message;
  let text_len := len b in
  if text_len >? MAX_TEXT_LEN then Err (ValueError "text message too long")
  else if negb (is_cli txt_type) && (attempt_full >? 3) && (text_len >? MAX_TEXT_LEN - 2)
  then Err (ValueError "text message too long for extended attempt")
  else
    let signed_sender_prefix :=
      if txt_type =? TXT_TYPE_SIGNED_PLAIN then slice_to (get_public_key local_identity) 4 else [] in
    let extended := (attempt_full >? 3) && negb (is_cli txt_type) in
    tail ← (if extended then a ← bytes_of_ints [attempt_full]; mret ([0] ++ a) else mret []);
    plaintext ← _pack_timestamp_data timestamp
      [PacketDataUtils.PartInt flags_byte; PacketDataUtils.PartBytes signed_sender_prefix;
       PacketDataUtils.PartStr message; PacketDataUtils.PartBytes tail];
    crc_input ← _pack_timestamp_data timestamp
      [PacketDataUtils.PartInt flags_byte; PacketDataUtils.PartBytes signed_sender_prefix;
       PacketDataUtils.PartStr message];
    mret (plaintext, crc_input).

(** The path of a text message: [out_path] overrides the contact's. *)
Definition text_path (c : contact) (out_path_arg : option (list PacketValidationUtils.path_item))
    (pkt : Packet.t) : res (bool * Packet.t) :=
  routing_path ← _validate_routing_path
    (match out_path_arg with
     | Some l => l
     | None => map PacketValidationUtils.PInt (out_path c)
     end);
  if bool_decide (routing_path ≠ []) then
    let routing_path := if len routing_path >? MAX_PATH_SIZE then slice_to routing_path MAX_PATH_SIZE
                        else routing_path in
    let contact_path_len := out_path_len c in
    if bool_decide (out_path_arg = None) && (contact_path_len >=? 0)
       && PathUtils.is_valid_path_len contact_path_len
       && (PathUtils.get_path_byte_len contact_path_len <=? len routing_path)
    then p ← build (set_path routing_path (Some contact_path_len)) pkt; mret (true, p)
    else
      let routing_path := if len routing_path =? 64 then slice_to routing_path 63 else routing_path in
      p ← build (set_path routing_path None) pkt; mret (true, p)
  else mret (false, with_path [] (with_path_len 0 pkt)).

Definition text_packet (c : contact) (local_identity : LocalIdentity) (message : pystr)
    (attempt : Z) (message_type : string)
    (out_path_arg : option (list PacketValidationUtils.path_item)) (txt_type timestamp : Z)
    : res (Packet.t * Z) :=
  let attempt_full := Z.land attempt 0xFF in
  let txt_type := Z.land txt_type 0x3F in
  pc ← text_plaintext local_identity message attempt_full txt_type timestamp;
  payload ← _create_encrypted_payload c local_identity pc.1;
  ack_key ← (if txt_type =? TXT_TYPE_SIGNED_PLAIN then fromhex (public_key c)
             else mret (get_public_key local_identity));
  let ack_crc := from_le (slice_to (sha256 (pc.2 ++ ack_key)) 4) in
  hp ← text_path c out_path_arg Packet.init;
  let pkt := with_header (_create_header PAYLOAD_TYPE_TXT_MSG message_type hp.1) hp.2 in
  mret (with_payload_len (len payload) (with_payload payload pkt), ack_crc).

Definition create_text_message (now : Z) (c : contact) (local_identity : LocalIdentity)
    (message : pystr) (attempt : Z) (message_type : string)
    (out_path_arg : option (list PacketValidationUtils.path_item)) (txt_type : Z)
    (timestamp : option Z) : py Z (Packet.t * Z) :=
  t ← timestamp_or_now now timestamp;
  lift (text_packet c local_identity message attempt message_type out_path_arg txt_type t).

(** ** Requests *)

Definition protocol_request_packet (c : contact) (local_identity : LocalIdentity)
    (protocol_code : Z) (data : bytes) (timestamp : Z) (route_type : option string) : res Packet.t :=
  plaintext ← _pack_timestamp_data timestamp
    [PacketDataUtils.PartInt protocol_code; PacketDataUtils.PartBytes data];
  payload ← _create_encrypted_payload c local_identity plaintext;
  let route_type :=
    match route_type with
    | Some r => if String.eqb r "" then (if out_path_len c >=? 0 then "direct" else "flood") else r
    | None => if out_path_len c >=? 0 then "direct" else "flood"
    end%string in
  let header := _create_header PAYLOAD_TYPE_REQ route_type false in
  packet ← _create_packet header payload;
  if String.eqb route_type "direct" && (len (out_path c) >? 0)
  then let '(path_bytes, encoded_len) := stored_path (out_path c) (out_path_len c) in
       build (set_path path_bytes encoded_len) packet
  else mret packet.

Definition create_protocol_request (now : Z) (c : contact) (local_identity : LocalIdentity)
    (protocol_code : Z) (data : bytes) (timestamp : option Z) (route_type : option string)
    : py Z (Packet.t * Z) :=
  t ← timestamp_or_now now timestamp;
  packet ← lift (protocol_request_packet c local_identity protocol_code data t route_type);
  mret (packet, t).

(** ["logout"] *)
Definition logout_text : pystr := [108; 111; 103; 111; 117; 116].

Definition create_logout_packet (now : Z) (c : contact) (local_identity : LocalIdentity)
    : py Z (Packet.t * Z) :=
  create_text_message now c local_identity logout_text 0 "direct" None TXT_TYPE_CLI_DATA None.

Definition _compute_inverse_perm_mask (want_base want_location want_environment : bool) : Z :=
  let remove_mask := 0 in
  let remove_mask := if want_base then remove_mask else Z.lor remove_mask TELEM_PERM_BASE in
  let remove_mask := if want_location then remove_mask else Z.lor remove_mask TELEM_PERM_LOCATION in
  let remove_mask := if want_environment then remove_mask
                     else Z.lor remove_mask TELEM_PERM_ENVIRONMENT in
  Z.land remove_mask 0xFF.

Definition create_telem_request (now : Z) (c : contact) (local_identity : LocalIdentity)
    (want_base want_location want_environment : bool) (route_type : option string)
    : py Z (Packet.t * Z) :=
  let inv := _compute_inverse_perm_mask want_base want_location want_environment in
  data ← lift (bytes_of_ints [inv]);
  create_protocol_request now c local_identity REQ_TYPE_GET_TELEMETRY_DATA data None route_type.

End encrypted.
End PacketBuilder.

Import PacketBuilder.

(** ** Lemmas: headers and packets *)

Lemma create_header_val ptype route :
  0 ≤ ptype < 16 → 0 ≤ route < 4 →
  PacketHeaderUtils.create_header ptype route PAYLOAD_VER_1 = 4 * ptype + route.
Proof.
  intros Hp Hr. unfold PacketHeaderUtils.create_header, PH_ROUTE_MASK, PH_TYPE_SHIFT, PAYLOAD_VER_1.
  change (Z.shiftl 0 PH_VER_SHIFT) with 0. rewrite Z.lor_0_r, land_3, Z.mod_small, shiftl_2 by lia.
  change 4 with (2 ^ 2). rewrite lor_disjoint_add by lia. change (2 ^ 2) with 4. lia.
Qed.

Lemma route_value_range rt b : 0 ≤ RouteTypeUtils.get_route_type_value rt b < 4.
Proof.
  unfold RouteTypeUtils.get_route_type_value, RouteTypeUtils.ROUTE_MAP.
  repeat (destruct (String.eqb rt _); [by destruct b|]). by destruct b.
Qed.

Lemma create_header_fields ptype rt b :
  0 ≤ ptype < 16 →
  _create_header ptype rt b = 4 * ptype + RouteTypeUtils.get_route_type_value rt b
  ∧ is_byte (_create_header ptype rt b).
Proof.
  intros Hp. pose proof (route_value_range rt b). unfold _create_header.
  rewrite create_header_val by done. unfold is_byte. lia.
Qed.

(** A packet under construction that a builder has filled in. *)
Definition built (h : Z) (pa : bytes) (pl : Z) (body : bytes) : Packet.t :=
  with_payload_len (len body) (with_payload body
    (with_path pa (with_path_len pl (with_header h Packet.init)))).

Lemma built_type ptype rt b pa pl body :
  0 ≤ ptype < 16 →
  get_payload_type (built (_create_header ptype rt b) pa pl body) = ptype
  ∧ get_route_type (built (_create_header ptype rt b) pa pl body)
    = RouteTypeUtils.get_route_type_value rt b
  ∧ get_payload_ver (built (_create_header ptype rt b) pa pl body) = 0.
Proof.
  intros Hp. destruct (create_header_fields ptype rt b Hp) as [-> _].
  pose proof (route_value_range rt b) as Hr. revert Hr.
  generalize (RouteTypeUtils.get_route_type_value rt b). intros r Hr.
  unfold get_payload_type, get_route_type, get_payload_ver, built, PH_ROUTE_MASK, PH_TYPE_SHIFT,
    PH_TYPE_MASK, PH_VER_SHIFT, PH_VER_MASK.
  cbn [header with_payload_len with_payload with_path with_path_len with_header].
  autorewrite with bits. split_and!; zdm.
Qed.

Lemma built_wf ptype rt b pa pl body :
  0 ≤ ptype < 16 → is_byte pl → PathUtils.is_valid_path_len pl = true →
  len pa = PathUtils.get_path_byte_len pl → bytes_ok pa → bytes_ok body →
  len body ≤ MAX_PACKET_PAYLOAD →
  wire_wf (built (_create_header ptype rt b) pa pl body).
Proof.
  intros Hp Hpl Hv Hl Hpa Hb Hm. destruct (built_type ptype rt b pa pl body Hp) as (_ & _ & Hver).
  destruct (create_header_fields ptype rt b Hp) as [_ Hh]. split; try done.
  by destruct (has_transport_codes _).
Qed.

Lemma create_packet_built h body p :
  _create_packet h body = Ok p → p = built h [] 0 body ∧ len body ≤ MAX_PACKET_PAYLOAD.
Proof.
  unfold _create_packet, PacketValidationUtils.validate_payload_size. intros H. res_inv.
  bool_hyps. split; [done|lia].
Qed.

(** ** Lemmas: encrypted payloads *)

Section encrypted_lemmas.
Context `{C : BlockCipher} {L : BlockCipherLaws C}.

(** [encrypt_then_mac]: two MAC bytes and the plaintext rounded up to blocks. *)
Lemma encrypt_then_mac_inv key secret plaintext c :
  CryptoUtils.encrypt_then_mac key secret plaintext = Ok c →
  key_ok key = true ∧ len c = 2 + len plaintext + (16 - len plaintext mod 16) mod 16
  ∧ (bytes_ok plaintext → bytes_ok c).
Proof.
  unfold CryptoUtils.encrypt_then_mac. intros H. res_inv.
  assert (key_ok key = true) as Hk.
  { match goal with H : CryptoUtils._aes_encrypt _ _ = Ok _ |- _ => revert H end.
    unfold CryptoUtils._aes_encrypt. by destruct (key_ok key). }
  match goal with H : CryptoUtils._aes_encrypt _ _ = Ok ?x |- _ =>
    rewrite aes_encrypt_eq in H by done; injection H as <- end.
  split; [done|]. pose proof (pad_zeros_aligned plaintext) as Ha. split.
  - autorewrite with pylen. rewrite ecb_encrypt_aligned_len, len_pad_zeros by done.
    rewrite len_slice_to; [unfold CIPHER_MAC_SIZE; lia|].
    unfold CryptoUtils._hmac_sha256. rewrite len_hmac_sha256. done.
  - intros Hb. apply bytes_ok_app. split.
    + unfold CryptoUtils._hmac_sha256. apply bytes_ok_slice_to, bytes_ok_hmac_sha256.
    + apply ecb_encrypt_aligned_bytes; [done|]. unfold pad_zeros. apply bytes_ok_app.
      auto with pybytes.
Qed.

End encrypted_lemmas.

(** ** Instances *)

(** A key exchange: the keys xored byte by byte, private keys being public. *)
Definition xor_exchange : KeyExchange :=
  {| peer_shared_secret := fun pub priv => Ok (zip_with Z.lxor pub priv) |}.

Definition alice_key : bytes := 17 :: replicate 31 1.
Definition bob_key : bytes := 34 :: replicate 31 2.
Definition alice : LocalIdentity := mkIdentity alice_key alice_key (fun _ => zeros 64).
Definition bob : LocalIdentity := mkIdentity bob_key bob_key (fun _ => zeros 64).

(** Bob in Alice's contacts: two one-byte hops away. *)
Definition bob_contact : contact := mkContact (hex bob_key) 2 [7; 8] CONTACT_TYPE_CHAT_NODE 0.
