(* ===== verification/Messages.v ===== *)
(** * Messages end to end

    What one node builds ([protocol/packet_builder.py]) and another one makes
    of it: text messages and their ACKs, multi-ACKs, path returns with an
    embedded ACK ([node/handlers/ack.py], [node/handlers/crypto_helpers.py]),
    group texts, request tags. *)

From stdpp Require Import sorting.
From S2P Require Import Prelude PyData Sha256 Utf8 PyFloat Constants PacketUtils Packet Crypto PacketFilter Acks PacketBuilder.

Import Packet PacketBuilder.

(** ** Reading path returns *)

Module PathAck.
Section handlers.
Context `{C : BlockCipher} `{K : KeyExchange}.

(** One candidate of [iter_decrypt_by_src_hash]: the decrypted payload, or
    [None] when the contact is skipped. *)
Definition try_contact (src_hash : Z) (private_key encrypted : bytes) (pk : string) : option bytes :=
  match fromhex pk with
  | Err _ => None
  | Ok pub =>
      if negb (len pub =? PUB_KEY_SIZE)
         || negb match index pub 0 with Ok x => x =? src_hash | Err _ => false end then None
      else
        match (shared_secret ← peer_shared_secret pub private_key;
               CryptoUtils.mac_then_decrypt (slice_to shared_secret 16) shared_secret encrypted) with
        | Ok decrypted => Some decrypted
        | Err _ => None
        end
  end.

(** The first contact that decrypts. ([_try_decrypt_encrypted_ack] returns in
    its first iteration.) *)
Fixpoint iter_decrypt_by_src_hash (contacts : list string) (src_hash : Z)
    (private_key encrypted : bytes) : option bytes :=
  match contacts with
  | [] => None
  | pk :: contacts' =>
      match try_contact src_hash private_key encrypted pk with
      | Some d => Some d
      | None => iter_decrypt_by_src_hash contacts' src_hash private_key encrypted
      end
  end.

(** The CRC of an ACK embedded in the decrypted PATH layout. *)
Definition embedded_ack (decrypted : bytes) : res (option Z) :=
  match decrypted with
  | [] => Ok None
  | b :: _ =>
      if negb (PathUtils.is_valid_path_len b) then Ok None
      else
        let path_byte_len := PathUtils.get_path_byte_len b in
        let extra_start := 1 + path_byte_len in
        if len decrypted <? extra_start + 1 then Ok None
        else
          x ← index decrypted extra_start;
          let extra_type := Z.land x 0x0F in
          if negb (extra_type =? PAYLOAD_TYPE_ACK) then Ok None
          else if len decrypted <? extra_start + 5 then Ok None
          else Ok (Some (from_le (slice decrypted (extra_start + 1) (extra_start + 5))))
  end.

Definition _try_decrypt_encrypted_ack (contacts : list string) (private_key payload : bytes)
    : res (option Z) :=
  if len payload <? 2 then Ok None
  else
    src_hash ← index payload 1;
    let encrypted := slice_from payload 2 in
    match iter_decrypt_by_src_hash contacts src_hash private_key encrypted with
    | None => Ok None
    | Some decrypted => embedded_ack decrypted
    end.

Definition process_path_ack_variants (local_identity : option LocalIdentity)
    (contact_book : option (list string)) (packet : Packet.t) : res (option Z) :=
  let payload := payload packet in
  if len payload <? 1 then Ok None
  else
    match local_identity, contact_book with
    | Some id, Some contacts =>
        if len payload >=? 2 then
          d ← index payload 0;
          k ← index (get_public_key id) 0;
          if d =? k then _try_decrypt_encrypted_ack contacts (get_private_key id) payload
          else Ok None
        else Ok None
    | _, _ => Ok None
    end.

End handlers.
End PathAck.

(** ** Request tags *)

(** The tags of a sequence of requests made when the clock reads [nows]. *)
Fixpoint tags (last : Z) (nows : list Z) : list Z :=
  match nows with
  | [] => []
  | now :: nows' =>
      match _get_timestamp now last with
      | (last', Ok t) => t :: tags last' nows'
      | (_, Err _) => []
      end
  end.

Lemma get_timestamp_eq now last :
  _get_timestamp now last = (if now <=? last then last + 1 else now,
                             Ok (if now <=? last then last + 1 else now)).
Proof. done. Qed.

(** Request tags are strictly increasing whatever the clock does (two
    requests in one second, a clock that steps back), never behind the clock,
    and every request gets one. *)
Theorem tags_increasing last nows :
  length (tags last nows) = length nows
  ∧ StronglySorted Z.lt (last :: tags last nows)
  ∧ Forall2 Z.le nows (tags last nows).
Proof.
  revert last. induction nows as [|now nows IH]; intros last; [split_and!; repeat constructor|].
  cbn [tags]. rewrite get_timestamp_eq. set (t := if now <=? last then _ else _).
  destruct (IH t) as (IH1 & IH2 & IH3).
  assert (last < t ∧ now ≤ t) as [Ht1 Ht2] by (unfold t; destruct (now <=? last) eqn:E; bool_hyps; lia).
  split_and!; [cbn; by rewrite IH1| |by constructor].
  constructor; [done|]. constructor; [done|].
  apply StronglySorted_inv in IH2 as [_ IH2]. eapply list.Forall_impl; [exact IH2|]. cbn. lia.
Qed.

(** ** Text messages: the plaintext *)

(** The author prefix of a signed text. *)
Definition author_prefix (id : LocalIdentity) (txt_type : Z) : bytes :=
  if txt_type =? TXT_TYPE_SIGNED_PLAIN then slice_to (get_public_key id) 4 else [].

(** The bytes an ACK hash covers: timestamp, flags, author prefix, text. *)
Definition ack_span (id : LocalIdentity) (txt_type attempt_full timestamp : Z) (b : bytes) : bytes :=
  le_bytes 4 timestamp ++ [text_flags txt_type attempt_full] ++ author_prefix id txt_type ++ b.

Lemma pack_timestamp_inv ts parts r :
  PacketDataUtils.pack_timestamp_data ts parts = Ok r →
  0 ≤ ts < 256 ^ 4 ∧ ∃ q, PacketDataUtils.pack_parts parts = Ok q ∧ r = le_bytes 4 ts ++ q.
Proof.
  unfold PacketDataUtils.pack_timestamp_data, pack_I. intros H. res_inv.
  match goal with H : pack_uint _ _ = Ok _ |- _ => apply pack_uint_inv in H as [? ->] end. eauto.
Qed.

Ltac parts_inv :=
  repeat match goal with
  | H : PacketDataUtils.pack_parts (_ :: _) = Ok _ |- _ =>
      cbn [PacketDataUtils.pack_parts PacketDataUtils.pack_part] in H; res_inv
  | H : PacketDataUtils.pack_parts [] = Ok _ |- _ => injection H as <-
  | H : bytes_of_ints _ = Ok _ |- _ => apply bytes_of_ints_inv in H as [-> ?]
  end.

(** The tail of an extended attempt. *)
Definition attempt_tail (extended : bool) (attempt_full : Z) : bytes :=
  if extended then [0; attempt_full] else [].

Lemma len_author_prefix id tt : len (author_prefix id tt) ≤ 4.
Proof.
  unfold author_prefix. destruct (_ =? _); [by apply len_slice_to_le|]. rewrite len_nil. lia.
Qed.

Lemma text_plaintext_inv id msg att tt ts pt ci :
  text_plaintext id msg att tt ts = Ok (pt, ci) →
  ∃ b, encode (str_before_nul msg) = Ok b ∧ 0 ≤ ts < 256 ^ 4 ∧ is_byte (text_flags tt att)
  ∧ ci = ack_span id tt att ts b
  ∧ pt = ci ++ attempt_tail ((att >? 3) && negb (is_cli tt)) att
  ∧ len pt ≤ 169 ∧ (bytes_ok (get_public_key id) → bytes_ok pt).
Proof.
  unfold text_plaintext. intros H. res_inv. rename x into b.
  destruct (len b >? MAX_TEXT_LEN) eqn:E1; [done|].
  destruct (_ && (len b >? MAX_TEXT_LEN - 2)) eqn:E2; [done|]. res_inv.
  match goal with H : _pack_timestamp_data _ [_; _; _] = Ok _ |- _ => rename H into Hci end.
  match goal with H : _pack_timestamp_data _ [_; _; _; _] = Ok _ |- _ => rename H into Hpt end.
  match goal with H : (if _ then _ else _) = Ok ?tl |- _ => rename H into Ht; rename tl into tail end.
  assert (tail = attempt_tail ((att >? 3) && negb (is_cli tt)) att ∧ bytes_ok tail) as [-> Htl].
  { clear -Ht. destruct ((att >? 3) && negb (is_cli tt)); res_inv; parts_inv.
    - split; [done|]. apply (bytes_ok_app [0]). split; [apply (bytes_ok_zeros 1)|done].
    - split; [done|apply bytes_ok_nil]. }
  apply pack_timestamp_inv in Hci as (Hts & q1 & Hq1 & ->).
  apply pack_timestamp_inv in Hpt as (_ & q2 & Hq2 & ->). parts_inv.
  repeat match goal with Hb : encode ?m = Ok b, Hx : encode ?m = Ok ?x |- _ =>
    assert_fails (constr_eq x b); rewrite Hb in Hx; injection Hx as <- end.
  exists b. split; [done|]. split; [done|].
  match goal with H : bytes_ok [text_flags _ _] |- _ => apply bytes_ok_cons in H as [Hfl _] end.
  split; [done|]. fold (author_prefix id tt).
  rewrite !app_nil_r. split; [done|]. split; [unfold ack_span; by rewrite <- !app_assoc|].
  pose proof (len_author_prefix id tt) as Hlp. unfold MAX_TEXT_LEN, CIPHER_BLOCK_SIZE in *. split.
  - unfold attempt_tail. autorewrite with pylen.
    destruct (att >? 3), (is_cli tt); cbn [negb andb] in *; bool_hyps; autorewrite with pylen; lia.
  - intros Hk. rewrite !bytes_ok_app. split_and!; auto with pybytes.
    + unfold author_prefix. destruct (_ =? _); auto with pybytes.
    + by eapply bytes_ok_encode.
Qed.

(** ** Text messages: the path *)

Lemma validate_item_byte it z : PacketValidationUtils.validate_item it = Ok z → is_byte z.
Proof.
  destruct it as [s|n|x|]; cbn [PacketValidationUtils.validate_item].
  - unfold PacketValidationUtils.hex_byte. destruct s as [|a [|b s]]; try done.
    destruct (hex_value a) as [va|] eqn:Ea; [|done]. destruct (hex_value b) as [vb|] eqn:Eb; [|done].
    intros [= <-]. assert (∀ c v, hex_value c = Some v → 0 ≤ v < 16) as Hx.
    { intros c v. unfold hex_value.
      repeat match goal with |- context [if ?t then _ else _] => destruct t eqn:?; bool_hyps end;
        intros [= <-]; lia. }
    apply Hx in Ea, Eb. unfold is_byte. lia.
  - unfold PacketValidationUtils.byte_range. destruct (_ && _) eqn:E; [|done]. bool_hyps.
    intros [= <-]. unfold is_byte. lia.
  - intros H. res_inv. revert H0. unfold PacketValidationUtils.byte_range.
    destruct (_ && _) eqn:E; [|done]. bool_hyps. intros [= <-]. unfold is_byte. lia.
  - done.
Qed.

Lemma validate_items_inv l bs :
  PacketValidationUtils.validate_items l = Ok bs → len bs = len l ∧ bytes_ok bs.
Proof.
  revert bs. induction l as [|it l IH]; cbn; intros bs H; res_inv; [split; [done|apply bytes_ok_nil]|].
  edestruct IH as [Hl Hb]; [done|]. rewrite !len_cons, Hl. split; [done|].
  apply bytes_ok_cons. split; [by eapply validate_item_byte|done].
Qed.

Lemma routing_path_inv l bs :
  _validate_routing_path l = Ok bs → len bs = len l ∧ len bs ≤ 64 ∧ bytes_ok bs.
Proof.
  unfold _validate_routing_path, PacketValidationUtils.validate_routing_path, MAX_PATH_SIZE.
  destruct (len l >? 64) eqn:E; [done|]. bool_hyps. intros [Hl Hb]%validate_items_inv.
  split_and!; [done|lia|done].
Qed.

(** A hop count as a path length byte of one-byte entries. *)
Lemma small_len_valid n :
  0 ≤ n ≤ 63 → is_byte n ∧ PathUtils.is_valid_path_len n = true ∧ PathUtils.get_path_byte_len n = n.
Proof.
  intros Hn. destruct (fields_of_val 1 n) as [F1 F2]; [lia|].
  change (64 * (1 - 1) + n) with n in *. rewrite is_valid_path_len_iff, byte_len_fields, F1, F2.
  unfold is_byte, MAX_PATH_SIZE. lia.
Qed.

Lemma set_path_none pa p p' :
  build (set_path pa None) p = Ok p' →
  p' = with_path_len (len pa) (with_path pa p) ∧ len pa ≤ 63.
Proof.
  unfold build, set_path. py_run. destruct (len pa >? 63) eqn:E; [done|]. bool_hyps.
  pose proof (len_nonneg pa). rewrite encode_path_len_val by lia.
  intros [= <-]. split; [done|lia].
Qed.

(** The stored path is as long as the stored length says. *)
Definition stored_consistent (c : contact) : Prop :=
  PathUtils.is_valid_path_len (out_path_len c) = true →
  PathUtils.get_path_byte_len (out_path_len c) = len (out_path c).

Lemma valid_nonneg_byte l : 0 ≤ l → PathUtils.is_valid_path_len l = true → is_byte l.
Proof.
  intros Hl Hv. apply is_valid_path_len_iff in Hv as [Hs _].
  unfold PathUtils.get_path_hash_size, PATH_HASH_SIZE_SHIFT in Hs. rewrite shiftr_6 in Hs.
  unfold is_byte. zdm.
Qed.

Lemma text_path_inv c arg p hp :
  text_path c arg p = Ok hp → stored_consistent c →
  ∃ pa pl, hp.2 = with_path_len pl (with_path pa p) ∧ is_byte pl
    ∧ PathUtils.is_valid_path_len pl = true ∧ len pa = PathUtils.get_path_byte_len pl ∧ bytes_ok pa.
Proof.
  intros H Hc. unfold text_path in H. apply res_bind_ok in H as (rp & Hrp & H).
  apply routing_path_inv in Hrp as (Hlen & Hmax & Hok).
  destruct (bool_decide (rp ≠ [])) eqn:E; res_inv.
  2:{ exists [], 0. destruct (small_len_valid 0) as (? & ? & ?); [lia|].
      split_and!; done || apply bytes_ok_nil. }
  unfold MAX_PATH_SIZE in H. replace (len rp >? 64) with false in H by lia.
  destruct (_ && _ && _ && _) eqn:E2; res_inv.
  - apply andb_true_iff in E2 as [[[E1 E3]%andb_true_iff E4]%andb_true_iff E5].
    bool_hyps. subst arg. unfold len in Hlen at 2. rewrite length_map in Hlen. fold (len (out_path c)) in Hlen. apply Hc in E4 as E6.
    match goal with Hb : build _ _ = Ok _ |- _ => injection Hb as <- end.
    exists rp, (out_path_len c). split_and!; [done|by apply valid_nonneg_byte|done|congruence|done].
  - match goal with Hb : build (set_path ?q None) _ = Ok _ |- _ =>
      apply set_path_none in Hb as [-> Hb]; set (pa := q) in * end.
    destruct (small_len_valid (len pa)) as (H1 & H2 & H3); [pose proof (len_nonneg pa); lia|].
    exists pa, (len pa). split_and!; try done.
    unfold pa. destruct (len rp =? 64); auto with pybytes.
Qed.

(** ** Text messages: properties *)

Section text.
Context `{C : BlockCipher} {L : BlockCipherLaws C} `{K : KeyExchange}.

Lemma encrypted_payload_inv c id plaintext body :
  _create_encrypted_payload c id plaintext = Ok body →
  ∃ pub secret d s cipher,
    fromhex (public_key c) = Ok pub ∧ peer_shared_secret pub (get_private_key id) = Ok secret
    ∧ CryptoUtils.encrypt_then_mac (slice_to secret 16) secret plaintext = Ok cipher
    ∧ body = d :: s :: cipher ∧ is_byte d ∧ is_byte s
    ∧ index pub 0 = Ok d ∧ index (get_public_key id) 0 = Ok s.
Proof.
  unfold _create_encrypted_payload, _calc_shared_secret_and_key, _hash_bytes,
    PacketDataUtils.hash_bytes, PacketDataUtils.hash_byte, _encrypt_payload.
  intros H. res_inv. cbn [fst snd] in *.
  repeat match goal with
  | H1 : fromhex ?k = Ok ?a, H2 : fromhex ?k = Ok ?b |- _ =>
      assert_fails (constr_eq a b); rewrite H1 in H2; injection H2 as H2; subst
  end.
  match goal with H : bytes_of_ints _ = Ok _ |- _ =>
    apply bytes_of_ints_inv in H as [-> H]; apply bytes_ok_cons in H as [Hd H];
    apply bytes_ok_cons in H as [Hs _] end.
  repeat match goal with H : match ?l with [] => _ | _ :: _ => _ end = Ok _ |- _ =>
    destruct l eqn:?; [done|injection H as ->] end.
  eexists _, _, _, _, _. split_and!; try done.
Qed.

Lemma text_packet_inv c id msg attempt mtype arg tt ts p crc :
  text_packet c id msg attempt mtype arg tt ts = Ok (p, crc) → stored_consistent c →
  ∃ pt ci body pa pl hp,
    text_plaintext id msg (Z.land attempt 0xFF) (Z.land tt 0x3F) ts = Ok (pt, ci)
    ∧ _create_encrypted_payload c id pt = Ok body
    ∧ p = built (_create_header PAYLOAD_TYPE_TXT_MSG mtype hp) pa pl body
    ∧ is_byte pl ∧ PathUtils.is_valid_path_len pl = true
    ∧ len pa = PathUtils.get_path_byte_len pl ∧ bytes_ok pa
    ∧ ∃ key, (if Z.land tt 0x3F =? TXT_TYPE_SIGNED_PLAIN then fromhex (public_key c) = Ok key
              else key = get_public_key id)
        ∧ crc = from_le (slice_to (sha256 (ci ++ key)) 4).
Proof.
  intros H Hc. unfold text_packet in H. apply res_bind_ok in H as ([pt ci] & Hpt & H).
  apply res_bind_ok in H as (body & Hbody & H). apply res_bind_ok in H as (key & Hkey & H).
  apply res_bind_ok in H as ([h hp] & Hpath & H). res_inv.
  destruct (text_path_inv _ _ _ _ Hpath Hc) as (pa & pl & Hp & Hpl & Hv & Hl & Hpa). cbn in Hp. subst hp.
  exists pt, ci, body, pa, pl, h. split_and!; try done. exists key. split; [|done].
  destruct (_ =? TXT_TYPE_SIGNED_PLAIN); [done|]. by injection Hkey as ->.
Qed.

(** Every text message that is built can be sent: the packet is a valid
    frame of type TXT_MSG with at most 180 payload bytes, whatever the text
    (up to 160 bytes), the attempt number, the text type and the route. *)
Theorem text_message_sendable now c id msg attempt mtype arg tt ts last last' p crc :
  create_text_message now c id msg attempt mtype arg tt ts last = (last', Ok (p, crc)) →
  stored_consistent c → bytes_ok (get_public_key id) →
  wire_wf p ∧ get_payload_type p = PAYLOAD_TYPE_TXT_MSG ∧ payload_len p ≤ 180
  ∧ write_to p = Ok (frame_of p) ∧ 0 ≤ crc < 2 ^ 32.
Proof.
  intros H Hc Hk. unfold create_text_message in H. py_inv.
  match goal with H : text_packet _ _ _ _ _ _ _ ?t = Ok _ |- _ =>
    destruct (text_packet_inv _ _ _ _ _ _ _ _ _ _ H Hc)
      as (pt & ci & body & pa & pl & hp & Hpt & Hb & -> & Hpl & Hv & Hl & Hpa & key & _ & ->) end.
  apply text_plaintext_inv in Hpt as (b & _ & _ & _ & _ & _ & Hlen & Hok).
  apply encrypted_payload_inv in Hb as (pub & secret & d & s & cipher & _ & _ & He & -> & Hd & Hs & _).
  apply encrypt_then_mac_inv in He as (_ & Hclen & Hcok).
  assert (len (d :: s :: cipher) ≤ 180) as Hbl.
  { rewrite !len_cons, Hclen. pose proof (len_nonneg pt). zdm. }
  assert (wire_wf (built (_create_header PAYLOAD_TYPE_TXT_MSG mtype hp) pa pl (d :: s :: cipher))) as Hw.
  { apply built_wf; try done; [|unfold MAX_PACKET_PAYLOAD; lia].
    apply bytes_ok_cons. split; [done|]. apply bytes_ok_cons. auto. }
  split_and!; [done| |done|by apply write_to_frame|..].
  - apply built_type. unfold PAYLOAD_TYPE_TXT_MSG. lia.
  - apply from_le_bound, bytes_ok_slice_to, bytes_ok_sha256.
  - assert (len (slice_to (sha256 (ci ++ key)) 4) = 4) as H4
      by (apply len_slice_to; rewrite len_sha256; lia).
    pose proof (from_le_bound (slice_to (sha256 (ci ++ key)) 4)
      (bytes_ok_slice_to _ _ (bytes_ok_sha256 _))) as Hb. rewrite H4 in Hb. apply Hb.
Qed.

(** The receiver's view of a decrypted text: timestamp, flags, and the bytes
    up to the first NUL. *)
Definition text_fields (d : bytes) : Z * res Z * bytes :=
  (from_le (slice_to d 4), index d 4, before_nul (slice_from d 5)).

(** A text message survives encryption: who shares the secret decrypts
    the payload to the timestamp, the flags and exactly the message text up to
    its first NUL, for plain texts of any length and attempt. *)
Theorem text_message_roundtrip c id msg attempt mtype arg tt ts p crc pub secret :
  text_packet c id msg attempt mtype arg tt ts = Ok (p, crc) → stored_consistent c →
  Z.land tt 0x3F ≠ TXT_TYPE_SIGNED_PLAIN →
  fromhex (public_key c) = Ok pub → peer_shared_secret pub (get_private_key id) = Ok secret →
  ∃ d b, CryptoUtils.mac_then_decrypt (slice_to secret 16) secret (slice_from (payload p) 2) = Ok d
    ∧ text_fields d = (ts, Ok (text_flags (Z.land tt 0x3F) (Z.land attempt 0xFF)), b)
    ∧ encode (str_before_nul msg) = Ok b ∧ decode b = Ok (str_before_nul msg).
Proof.
  intros H Hc Hsig Hpub Hsec.
  destruct (text_packet_inv _ _ _ _ _ _ _ _ _ _ H Hc)
    as (pt & ci & body & pa & pl & hp & Hpt & Hb & -> & _).
  apply encrypted_payload_inv in Hb
    as (pub' & secret' & d & s & cipher & Hp' & Hs' & He & -> & _).
  rewrite Hpub in Hp'. injection Hp' as <-. rewrite Hsec in Hs'. injection Hs' as <-.
  apply text_plaintext_inv in Hpt as (b & Hb & Hts & Hfl & -> & Hpt & _).
  replace (slice_from (payload _) 2) with cipher
    by (symmetry; by apply (slice_from_app_exact [d; s] cipher 2)).
  assert (pt ≠ []) as Hne by (rewrite Hpt; unfold ack_span; by destruct (le_bytes 4 ts)).
  destruct (encrypt_then_mac_inv _ _ _ _ He) as (Hkey & _).
  destruct (mac_then_decrypt_encrypt _ _ _ _ Hkey Hne He) as [Hdec _].
  exists (pad_zeros pt), b. split; [done|]. split; [|split; [done|by apply decode_encode]].
  unfold pad_zeros. rewrite Hpt. unfold ack_span.
  unfold author_prefix. rewrite (proj2 (Z.eqb_neq _ _) Hsig). cbn [app].
  rewrite <- !app_assoc. unfold text_fields. f_equal; [f_equal|].
  - rewrite slice_to_app_exact by (by rewrite len_le_bytes). by apply from_le_le_bytes.
  - cbn [app]. rewrite (cons_middle _ (le_bytes 4 ts)), (app_assoc (le_bytes 4 ts) [_]). rewrite slice_from_app_exact
      by (rewrite len_app, len_le_bytes; done).
    apply before_nul_app_zeros; [by eapply encode_no_nul|].
    unfold attempt_tail. destruct (_ && _); [right; by eexists|].
    unfold zeros. destruct (Z.to_nat _) eqn:E; [by left|right; by eexists].
Qed.

End text.

(** ** ACKs *)

(** Wrapping ACK bytes: discrete and multi-part packets carry them whole. *)
Lemma ack_packet_payload ack path ple rt p :
  create_ack_from_bytes ack path ple rt = Ok p → payload p = ack.
Proof.
  unfold create_ack_from_bytes. intros H. apply res_bind_ok in H as (q & Hq & H).
  apply create_packet_built in Hq as [-> _]. destruct (bool_decide _); [|by injection H as <-].
  unfold build, set_path in H. destruct ple; revert H; py_run; [by intros [= <-]|].
  destruct (_ >? 63); [done|]. destruct (PathUtils.encode_path_len _ _); [|done]. by intros [= <-].
Qed.

Lemma multi_ack_payload ack n path ple p :
  create_multi_ack ack n path ple = Ok p →
  payload p = Z.lor (Z.shiftl (Z.land n 0x0F) 4) PAYLOAD_TYPE_ACK :: ack.
Proof.
  unfold create_multi_ack. intros H. apply res_bind_ok in H as (w & Hw & H).
  apply bytes_of_ints_inv in Hw as [-> _]. apply res_bind_ok in H as (q & Hq & H).
  apply create_packet_built in Hq as [-> _]. destruct (bool_decide _); [|by injection H as <-].
  unfold build, set_path in H. destruct ple; revert H; py_run; [by intros [= <-]|].
  destruct (_ >? 63); [done|]. destruct (PathUtils.encode_path_len _ _); [|done]. by intros [= <-].
Qed.

Lemma wrapper_type n : Z.land (Z.lor (Z.shiftl (Z.land n 0x0F) 4) PAYLOAD_TYPE_ACK) 0x0F = PAYLOAD_TYPE_ACK.
Proof.
  rewrite Z.land_lor_distr_l. change (Z.land PAYLOAD_TYPE_ACK 0x0F) with PAYLOAD_TYPE_ACK.
  rewrite !land_15, Z.shiftl_mul_pow2 by lia. change (2 ^ 4) with 16.
  rewrite Z.mod_mul by lia. done.
Qed.

Lemma discrete_ack_crc ack path ple rt p :
  create_ack_from_bytes ack path ple rt = Ok p → 4 ≤ len ack →
  AckHandler.process_discrete_ack p = Some (from_le (slice_to ack 4)).
Proof.
  intros Hp Hl. unfold AckHandler.process_discrete_ack. rewrite (ack_packet_payload _ _ _ _ _ Hp).
  by replace (len ack <? 4) with false by lia.
Qed.

Lemma multi_ack_crc ack n path ple p :
  create_multi_ack ack n path ple = Ok p → 4 ≤ len ack →
  MultipartAckHandler.extract_ack_crc p = Ok (Some (from_le (slice_to ack 4))).
Proof.
  intros Hp Hl. unfold MultipartAckHandler.extract_ack_crc. rewrite (multi_ack_payload _ _ _ _ _ Hp).
  rewrite len_cons. replace (1 + len ack <? 5) with false by lia.
  change (index (?x :: ack) 0) with (@Ok Z x). cbn [mbind res_bind]. rewrite wrapper_type.
  change (negb (PAYLOAD_TYPE_ACK =? PAYLOAD_TYPE_ACK)) with false. cbv iota. do 3 f_equal.
  rewrite slice_nonneg, slice_to_nonneg by lia. done.
Qed.

(** The hash a receiver answers a plain text with. *)
Lemma calc_text_ack_hash_eq r key ts flags b ext rnd :
  0 ≤ ts < 256 ^ 4 → is_byte flags →
  ∃ rest, calc_text_ack_hash r key ts flags (TBytes b) ext rnd
    = Ok (slice_to (sha256 ((le_bytes 4 ts ++ [flags] ++ b) ++ key)) 4 ++ rest).
Proof.
  intros Hts Hf. unfold calc_text_ack_hash, _pack_timestamp_data, PacketDataUtils.pack_timestamp_data, pack_I.
  cbn [mbind res_bind PacketDataUtils.pack_parts PacketDataUtils.pack_part].
  rewrite pack_uint_ok by exact Hts. rewrite (land_255 flags), (Z.mod_small flags) by exact Hf.
  rewrite bytes_of_ints_ok by (apply bytes_ok_cons; split; [done|apply bytes_ok_nil]).
  cbn [mbind res_bind mret res_ret]. rewrite app_nil_r. by eexists.
Qed.

Section ack_roundtrip.
Context `{C : BlockCipher} {L : BlockCipherLaws C} `{K : KeyExchange}.

(** The ACK a receiver computes for a plain text confirms exactly the
    CRC the sender waits for, sent as a discrete ACK along any route or as a
    multi-ACK, whatever the extended-attempt and random bytes. *)
Theorem text_ack_matches c id msg attempt mtype arg tt ts p crc r ext rnd :
  text_packet c id msg attempt mtype arg tt ts = Ok (p, crc) → stored_consistent c →
  Z.land tt 0x3F ≠ TXT_TYPE_SIGNED_PLAIN →
  ∃ b h, encode (str_before_nul msg) = Ok b
    ∧ calc_text_ack_hash r (get_public_key id) ts
        (text_flags (Z.land tt 0x3F) (Z.land attempt 0xFF)) (TBytes b) ext rnd = Ok h
    ∧ (∀ path ple rt ack, create_ack_from_bytes h path ple rt = Ok ack →
         AckHandler.process_discrete_ack ack = Some crc)
    ∧ (∀ n path ple ack, create_multi_ack h n path ple = Ok ack →
         MultipartAckHandler.extract_ack_crc ack = Ok (Some crc)).
Proof.
  intros H Hc Hsig.
  destruct (text_packet_inv _ _ _ _ _ _ _ _ _ _ H Hc)
    as (pt & ci & body & pa & pl & hp & Hpt & _ & _ & _ & _ & _ & _ & key & Hkey & ->).
  rewrite (proj2 (Z.eqb_neq _ _) Hsig) in Hkey. subst key.
  apply text_plaintext_inv in Hpt as (b & Hb & Hts & Hfl & -> & _).
  destruct (calc_text_ack_hash_eq r (get_public_key id) ts _ b ext rnd Hts Hfl) as [rest Hh].
  clear H. assert (ack_span id (Z.land tt 0x3F) (Z.land attempt 0xFF) ts b
    = le_bytes 4 ts ++ [text_flags (Z.land tt 0x3F) (Z.land attempt 0xFF)] ++ b) as ->
    by (unfold ack_span, author_prefix; by rewrite (proj2 (Z.eqb_neq _ _) Hsig)).
  set (hd := slice_to (sha256 _) 4) in *. exists b, (hd ++ rest).
  assert (len hd = 4) as H4 by (apply len_slice_to; rewrite len_sha256; lia).
  pose proof (len_nonneg rest).
  split; [exact Hb|]. split; [exact Hh|]. split; intros * Ha.
  - rewrite (discrete_ack_crc _ _ _ _ _ Ha) by (rewrite len_app; lia). by rewrite slice_to_app_exact.
  - rewrite (multi_ack_crc _ _ _ _ _ Ha) by (rewrite len_app; lia). by rewrite slice_to_app_exact.
Qed.

End ack_roundtrip.

(** ** Group texts *)

(** A group text is cut to 160 bytes by whole characters, and never in the
    sender prefix: the content is the prefix and the kept part of the message,
    and a message that fits is kept whole. *)
Lemma group_content_cut sender msg :
  str_ok sender → str_ok msg →
  ∃ prefix t k, encode (sender ++ [58; 32]) = Ok prefix
    ∧ group_content sender msg = Ok (prefix ++ t)
    ∧ encode ((sender ++ [58; 32]) ++ take k msg) = Ok (prefix ++ t)
    ∧ len (prefix ++ t) ≤ Z.max 160 (len prefix)
    ∧ (∀ b, encode msg = Ok b → len prefix + len b ≤ 160 → take k msg = msg).
Proof.
  intros Hs Hm.
  assert (str_ok (sender ++ [58; 32])) as Hsp by (apply Forall_app; split; [done|by repeat constructor]).
  apply encode_total in Hsp, Hm. destruct (encode (sender ++ [58; 32])) as [prefix|] eqn:Ep; [|done].
  destruct (encode msg) as [b|] eqn:Eb; [|done].
  unfold group_content. rewrite Ep, Eb. cbn [mbind res_bind]. unfold MAX_TEXT_LEN, CIPHER_BLOCK_SIZE.
  change (10 * 16) with 160. set (m := Z.max (160 - len prefix) 0).
  pose proof (len_nonneg prefix). pose proof (len_nonneg b).
  destruct (len b >? m) eqn:E; bool_hyps.
  - rewrite slice_to_nonneg by lia.
    destruct (decode_ignore_cut msg b (Z.to_nat m) Eb) as (k & c & Hk & Hc & Hl).
    rewrite Hk, Hc. cbn [mbind res_bind]. exists prefix, c, k. split_and!; [done|done|..].
    + by apply encode_app.
    + rewrite len_app. unfold len in *. lia.
    + intros b' [= <-] Hfit. lia.
  - exists prefix, b, (length msg). split_and!; [done|done|..].
    + rewrite take_ge by done. by apply encode_app.
    + rewrite len_app. lia.
    + intros. by apply take_ge.
Qed.

(** ** Path returns *)

Section path_return.
Context `{C : BlockCipher} {L : BlockCipherLaws C} `{K : KeyExchange}.
Import PathAck.

Lemma path_inner_inv r path extra_type extra ple inner :
  path_return_inner r path extra_type extra ple = Ok inner → extra ≠ [] →
  ∃ l, inner = l :: path ++ extra_type :: extra ∧ PathUtils.is_valid_path_len l = true
    ∧ len path = PathUtils.get_path_byte_len l ∧ is_byte extra_type.
Proof.
  intros H Hne. unfold path_return_inner in H. destruct (_ >? _) in H; [done|].
  apply res_bind_ok in H as (l & Hl & H). res_inv.
  repeat match goal with H : bytes_of_ints _ = Ok _ |- _ => apply bytes_of_ints_inv in H as [-> ?] end.
  rewrite bool_decide_true in * by done. res_inv.
  match goal with H : bytes_of_ints _ = Ok _ |- _ => apply bytes_of_ints_inv in H as [-> He] end.
  apply bytes_ok_cons in He as [He _]. exists l. split; [done|]. destruct ple as [l'|].
  - destruct (PathUtils.is_valid_path_len l') eqn:Ev; [|done]. cbn [negb] in Hl.
    destruct (_ =? _) eqn:El in Hl; [|done]. injection Hl as <-. by bool_hyps.
  - destruct (len path >? 0) eqn:El; [done|]. bool_hyps. injection Hl as <-.
    pose proof (len_nonneg path). split_and!; [done| |done].
    change (PathUtils.get_path_byte_len 0) with 0. lia.
Qed.

(** Zero padding after the extra does not hide it. *)
Lemma embedded_ack_inner l path extra pad :
  PathUtils.is_valid_path_len l = true → len path = PathUtils.get_path_byte_len l →
  4 ≤ len extra →
  embedded_ack ((l :: path ++ PAYLOAD_TYPE_ACK :: extra) ++ pad) = Ok (Some (from_le (slice_to extra 4))).
Proof.
  intros Hv Hl He. unfold embedded_ack. cbn [app]. rewrite Hv. cbn [negb].
  rewrite <- Hl. pose proof (len_nonneg path). pose proof (len_nonneg pad). rewrite <- app_assoc. cbn [app].
  set (d := l :: path ++ PAYLOAD_TYPE_ACK :: extra ++ pad).
  assert (len d = 1 + len path + 1 + len extra + len pad) as Hd
    by (unfold d; autorewrite with pylen; lia).
  replace (len d <? 1 + len path + 1) with false by lia.
  assert (index d (1 + len path) = Ok PAYLOAD_TYPE_ACK) as ->.
  { unfold d. rewrite (app_comm_cons path _ l). apply index_app_exact. by rewrite len_cons. }
  cbn [mbind res_bind]. change (negb (Z.land PAYLOAD_TYPE_ACK 15 =? PAYLOAD_TYPE_ACK)) with false. cbv iota.
  replace (len d <? 1 + len path + 5) with false by lia.
  do 3 f_equal. destruct (split_at_len extra 4) as (e4 & e' & -> & Hl4); [lia|].
  rewrite (slice_to_app_exact e4) by done. unfold d.
  replace (l :: path ++ PAYLOAD_TYPE_ACK :: (e4 ++ e') ++ pad)
    with ((l :: path ++ [PAYLOAD_TYPE_ACK]) ++ e4 ++ (e' ++ pad))
    by (cbn; by rewrite <- !app_assoc).
  apply slice_app_exact; autorewrite with pylen; lia.
Qed.

Lemma iter_decrypt_first l1 pk l2 src priv enc d :
  Forall (λ k, try_contact src priv enc k = None) l1 → try_contact src priv enc pk = Some d →
  iter_decrypt_by_src_hash (l1 ++ pk :: l2) src priv enc = Some d.
Proof.
  intros Hl Hd. induction Hl as [|k l1 Hk _ IH]; cbn; [by rewrite Hd|]. by rewrite Hk.
Qed.

(** An ACK embedded in a path return reaches its waiter: the node the
    return is addressed to, with the sender among its contacts, extracts the
    CRC of the embedded ACK, for any path and whatever other contacts share the
    sender's one-byte hash but not its key. *)
Theorem path_return_ack_roundtrip r dest src secret path extra ple p id l1 pk l2 pub :
  create_path_return r dest src secret path PAYLOAD_TYPE_ACK extra ple = Ok p → 4 ≤ len extra →
  index (get_public_key id) 0 = Ok dest →
  fromhex pk = Ok pub → len pub = PUB_KEY_SIZE → index pub 0 = Ok src →
  peer_shared_secret pub (get_private_key id) = Ok secret →
  Forall (λ k, try_contact src (get_private_key id) (slice_from (payload p) 2) k = None) l1 →
  process_path_ack_variants (Some id) (Some (l1 ++ pk :: l2)) p
  = Ok (Some (from_le (slice_to extra 4))).
Proof.
  intros Hp He Hdest Hpk Hpub Hsrc Hsec Hl1.
  assert (extra ≠ []) as Hne by (intros ->; rewrite len_nil in He; lia).
  unfold create_path_return in Hp. apply res_bind_ok in Hp as (inner & Hin & Hp).
  apply res_bind_ok in Hp as (cipher & Hc & Hp). apply res_bind_ok in Hp as (h & Hh & Hp).
  apply path_inner_inv in Hin as (l & -> & Hv & Hl & Het); [|done].
  apply bytes_of_ints_inv in Hh as [-> Hds]. apply create_packet_built in Hp as [-> _].
  destruct (encrypt_then_mac_inv _ _ _ _ Hc) as (Hkey & _).
  destruct (mac_then_decrypt_encrypt _ _ (l :: path ++ PAYLOAD_TYPE_ACK :: extra) _ Hkey
    ltac:(done) Hc) as [Hdec _].
  change (payload (built _ [] 0 ([dest; src] ++ cipher))) with (dest :: src :: cipher) in *.
  assert (slice_from (dest :: src :: cipher) 2 = cipher) as Hsl
    by (by apply (slice_from_app_exact [dest; src] cipher 2)).
  unfold process_path_ack_variants. cbv zeta.
  change (payload (built _ [] 0 ([dest; src] ++ cipher))) with (dest :: src :: cipher).
  pose proof (len_nonneg cipher). rewrite !len_cons.
  replace (1 + (1 + len cipher) <? 1) with false by lia.
  replace (1 + (1 + len cipher) >=? 2) with true by lia.
  rewrite Hdest. cbn [mbind res_bind]. change (index (dest :: _) 0) with (@Ok Z dest). cbn [mbind res_bind].
  rewrite Z.eqb_refl. unfold _try_decrypt_encrypted_ack. rewrite !len_cons.
  replace (1 + (1 + len cipher) <? 2) with false by lia.
  change (index (dest :: src :: cipher) 1) with (@Ok Z src). cbn [mbind res_bind]. cbv zeta. rewrite Hsl in *.
  rewrite (iter_decrypt_first l1 pk l2 src (get_private_key id) cipher (pad_zeros (l :: path ++ PAYLOAD_TYPE_ACK :: extra))).
  - unfold pad_zeros. by apply embedded_ack_inner.
  - done.
  - unfold try_contact. rewrite Hpk, Hpub, Hsrc, !Z.eqb_refl.
    cbn [negb orb]. rewrite Hsec. cbn [mbind res_bind]. by rewrite Hdec.
Qed.

End path_return.

(** ** Stored paths that disagree with their length *)

(** A stored path longer than its encoded length passes the guard of the
    builder and is set uncut. *)
Lemma text_path_uncut c p hp :
  text_path c None p = Ok hp → 0 ≤ out_path_len c → PathUtils.is_valid_path_len (out_path_len c) = true →
  PathUtils.get_path_byte_len (out_path_len c) < len (out_path c) →
  ∃ rp, hp.2 = with_path_len (out_path_len c) (with_path rp p) ∧ len rp = len (out_path c).
Proof.
  intros H H0 Hv Hl. unfold text_path in H. apply res_bind_ok in H as (rp & Hrp & H).
  apply routing_path_inv in Hrp as (Hlen & Hmax & Hok).
  assert (len rp = len (out_path c)) as Hrp by (rewrite Hlen; unfold len; by rewrite length_map).
  assert (0 ≤ PathUtils.get_path_byte_len (out_path_len c)) as Hb
    by (by apply byte_len_nonneg, valid_nonneg_byte).
  rewrite bool_decide_true in H by (intros ->; rewrite len_nil in Hrp; lia).
  unfold MAX_PATH_SIZE in H. replace (len rp >? 64) with false in H by lia.
  rewrite bool_decide_true, Hv in H by done.
  replace (out_path_len c >=? 0) with true in H by lia.
  replace (PathUtils.get_path_byte_len (out_path_len c) <=? len rp) with true in H by lia.
  cbn [andb] in H. res_inv. match goal with Hb : build _ _ = Ok _ |- _ => injection Hb as <- end.
  by exists rp.
Qed.

(** A text message to a contact whose stored path is longer than its
    encoded length is built but cannot be written: [write_to] rejects the
    packet, since the builder sets the path uncut with the shorter length. *)
Theorem longer_stored_path_unsendable `{C : BlockCipher} `{K : KeyExchange} c id msg attempt mtype tt ts p crc :
  text_packet c id msg attempt mtype None tt ts = Ok (p, crc) →
  0 ≤ out_path_len c → PathUtils.is_valid_path_len (out_path_len c) = true →
  PathUtils.get_path_byte_len (out_path_len c) < len (out_path c) →
  write_to p = Err (ValueError "path_len mismatch").
Proof.
  intros H H0 Hv Hl. unfold text_packet in H. apply res_bind_ok in H as ([pt ci] & _ & H).
  apply res_bind_ok in H as (body & _ & H). apply res_bind_ok in H as (key & _ & H).
  apply res_bind_ok in H as ([h hp] & Hpath & H). res_inv.
  destruct (text_path_uncut _ _ _ Hpath H0 Hv Hl) as (rp & Hp & Hrp). cbn in Hp. subst hp.
  unfold write_to, _validate_lengths, PacketValidationUtils.validate_buffer_lengths.
  change (get_path_byte_len _) with (PathUtils.get_path_byte_len (out_path_len c)).
  change (path _) with rp. rewrite Hrp.
  by replace (PathUtils.get_path_byte_len (out_path_len c) =? len (out_path c)) with false by lia.
Qed.

(** ** Instances *)

#[local] Existing Instances xor_cipher xor_cipher_laws xor_exchange.

(** "hi" to Bob, second attempt, plain text, at time 1000. *)
Definition sample_text : res (Packet.t * Z) :=
  text_packet bob_contact alice [104; 105] 1 "direct" None TXT_TYPE_PLAIN 1000.

Lemma sample_text_ok : is_ok sample_text = true.
Proof. vm_compute. reflexivity. Qed.

Lemma text_message_sendable_witness :
  match sample_text with
  | Ok (p, crc) => wire_wf p ∧ get_payload_type p = PAYLOAD_TYPE_TXT_MSG ∧ payload_len p ≤ 180
                   ∧ write_to p = Ok (frame_of p) ∧ 0 ≤ crc < 2 ^ 32
  | Err _ => False
  end.
Proof.
  pose proof sample_text_ok as Ho. destruct sample_text as [[p crc]|] eqn:E; [|discriminate Ho].
  apply (text_message_sendable 5 bob_contact alice [104; 105] 1 "direct" None TXT_TYPE_PLAIN (Some 1000) 0 0 p crc).
  - unfold create_text_message, timestamp_or_now. unfold sample_text in E.
    change (lift (text_packet bob_contact alice [104; 105] 1 "direct" None TXT_TYPE_PLAIN 1000) 0 = (0, Ok (p, crc))).
    rewrite E. reflexivity.
  - intros _. reflexivity.
  - decide_now.
Defined.

Lemma text_message_roundtrip_witness :
  match sample_text, peer_shared_secret bob_key alice_key with
  | Ok (p, crc), Ok secret =>
      ∃ d b, CryptoUtils.mac_then_decrypt (slice_to secret 16) secret (slice_from (payload p) 2) = Ok d
        ∧ text_fields d = (1000, Ok 1, b) ∧ encode [104; 105] = Ok b ∧ decode b = Ok [104; 105]
  | _, _ => False
  end.
Proof.
  pose proof sample_text_ok as Ho. destruct sample_text as [[p crc]|] eqn:E; [|discriminate Ho].
  apply (text_message_roundtrip bob_contact alice [104; 105] 1 "direct" None TXT_TYPE_PLAIN 1000 p crc bob_key).
  - exact E.
  - intros _. reflexivity.
  - discriminate.
  - vm_compute. reflexivity.
  - reflexivity.
Defined.

Lemma text_ack_matches_witness :
  match sample_text with
  | Ok (p, crc) =>
      ∃ h, (∀ ack, create_ack_from_bytes h [] None "direct" = Ok ack →
              AckHandler.process_discrete_ack ack = Some crc)
        ∧ calc_text_ack_hash [77] alice_key 1000 1 (TBytes [104; 105]) 1 true = Ok h
  | Err _ => False
  end.
Proof.
  pose proof sample_text_ok as Ho. destruct sample_text as [[p crc]|] eqn:E; [|discriminate Ho].
  destruct (text_ack_matches bob_contact alice [104; 105] 1 "direct" None TXT_TYPE_PLAIN 1000 p crc [77] 1 true)
    as (b & h & Hb & Hh & Hd & _).
  - exact E.
  - intros _. reflexivity.
  - discriminate.
  - assert (b = [104; 105]) as -> by (vm_compute in Hb; congruence).
    exists h. split; [intros ack; apply Hd|exact Hh].
Defined.

(** Bob returns the path with the ACK 1,2,3,4; Alice knows Bob. *)
Definition sample_return : res Packet.t :=
  create_path_return [] 17 34 (zip_with Z.lxor bob_key alice_key) [7; 8] PAYLOAD_TYPE_ACK
    [1; 2; 3; 4; 5; 6] (Some 2).

Lemma sample_return_ok : is_ok sample_return = true.
Proof. vm_compute. reflexivity. Qed.

Lemma path_return_ack_roundtrip_witness :
  match sample_return with
  | Ok p => PathAck.process_path_ack_variants (Some alice) (Some [hex alice_key; hex bob_key]) p
            = Ok (Some (from_le [1; 2; 3; 4]))
  | Err _ => False
  end.
Proof.
  pose proof sample_return_ok as Ho. destruct sample_return as [p|] eqn:E; [|discriminate Ho].
  apply (path_return_ack_roundtrip [] 17 34 (zip_with Z.lxor bob_key alice_key) [7; 8] [1; 2; 3; 4; 5; 6]
           (Some 2) p alice [hex alice_key] (hex bob_key) [] bob_key).
  - exact E.
  - decide_now.
  - reflexivity.
  - vm_compute. reflexivity.
  - reflexivity.
  - reflexivity.
  - reflexivity.
  - constructor; [|constructor]. vm_compute. reflexivity.
Defined.

(** Three path bytes stored with the length of two hops. *)
Lemma longer_stored_path_unsendable_witness :
  match text_packet (mkContact (hex bob_key) 2 [7; 8; 9] CONTACT_TYPE_CHAT_NODE 0) alice [104; 105] 1 "direct"
          None TXT_TYPE_PLAIN 1000 with
  | Ok (p, _) => write_to p = Err (ValueError "path_len mismatch")
  | Err _ => False
  end.
Proof.
  assert (is_ok (text_packet (mkContact (hex bob_key) 2 [7; 8; 9] CONTACT_TYPE_CHAT_NODE 0) alice [104; 105] 1
    "direct" None TXT_TYPE_PLAIN 1000) = true) as Ho by (vm_compute; reflexivity).
  destruct (text_packet _ _ _ _ _ _ _ _) as [[p crc]|] eqn:E; [|discriminate Ho].
  apply (longer_stored_path_unsendable (mkContact (hex bob_key) 2 [7; 8; 9] CONTACT_TYPE_CHAT_NODE 0) alice
           [104; 105] 1 "direct" TXT_TYPE_PLAIN 1000 p crc).
  - exact E.
  - discriminate.
  - reflexivity.
  - reflexivity.
Defined.
