(* ===== verification/Utils.v ===== *)
(** * Protocol utilities ([protocol/utils.py]): adverts, names, channel hashes *)

From stdpp Require Import pretty.
From S2P Require Import Prelude PyData Sha256 Utf8 PyFloat Constants PacketUtils Packet PacketBuilder.

Module Utils.

(** ** Lookup tables *)

Definition ROUTE_TYPES (z : Z) : option string :=
  match z with
  | 0x00 => Some "TRANSPORT_FLOOD" | 0x01 => Some "FLOOD" | 0x02 => Some "DIRECT"
  | 0x03 => Some "TRANSPORT_DIRECT" | _ => None
  end%string.

Definition PAYLOAD_TYPES (z : Z) : option string :=
  match z with
  | 0x00 => Some "REQ" | 0x01 => Some "RESPONSE" | 0x02 => Some "TXT_MSG" | 0x03 => Some "ACK"
  | 0x04 => Some "ADVERT" | 0x05 => Some "GRP_TXT" | 0x06 => Some "GRP_DATA"
  | 0x07 => Some "ANON_REQ" | 0x08 => Some "PATH" | 0x09 => Some "TRACE"
  | 0x0A => Some "MULTIPART" | 0x0B => Some "CONTROL" | 0x0F => Some "RAW_CUSTOM" | _ => None
  end%string.

Definition get_contact_type_name (contact_type : Z) : string :=
  match contact_type with
  | 0 => "Unknown" | 1 => "Chat Node" | 2 => "Repeater" | 3 => "Room Server" | 4 => "Sensor"
  | _ => "Unknown Type (" +:+ pretty contact_type +:+ ")"
  end%string.

Definition get_packet_type_name (payload_type : Z) : string :=
  default ("UNKNOWN_" +:+ pretty payload_type)%string (PAYLOAD_TYPES payload_type).

Definition get_route_type_name (route_type : Z) : string :=
  default ("UNKNOWN_" +:+ pretty route_type)%string (ROUTE_TYPES route_type).

Definition format_packet_info (header payload_length : Z) : string :=
  let payload_type := Z.land (Z.shiftr header PH_TYPE_SHIFT) PH_TYPE_MASK in
  let route_type := Z.land header PH_ROUTE_MASK in
  let type_name := get_packet_type_name payload_type in
  let route_name := get_route_type_name route_type in
  let info := ("Type: " +:+ type_name +:+ ", Route: " +:+ route_name)%string in
  if payload_length >? 0 then (info +:+ ", Size: " +:+ pretty payload_length +:+ " bytes")%string
  else info.

(** ** Adverts *)

(** The version of this module: every flag is tested as a bit mask. *)
Definition describe_advert_flags (flags : Z) : string :=
  let labels :=
    (if truthy (Z.land flags ADVERT_FLAG_IS_CHAT_NODE) then ["is chat node"] else [])
    ++ (if truthy (Z.land flags ADVERT_FLAG_IS_REPEATER) then ["is repeater"] else [])
    ++ (if truthy (Z.land flags ADVERT_FLAG_IS_ROOM_SERVER) then ["is room server"] else [])
    ++ (if truthy (Z.land flags ADVERT_FLAG_IS_SENSOR) then ["is sensor"] else [])
    ++ (if truthy (Z.land flags ADVERT_FLAG_HAS_LOCATION) then ["has location"] else [])
    ++ (if truthy (Z.land flags ADVERT_FLAG_HAS_FEATURE1) then ["has feature 1"] else [])
    ++ (if truthy (Z.land flags ADVERT_FLAG_HAS_FEATURE2) then ["has feature 2"] else [])
    ++ (if truthy (Z.land flags ADVERT_FLAG_HAS_NAME) then ["has name"] else []) in
  match labels with [] => "none" | _ => join ", " labels end%string.

Record advert := mkAdvert { pubkey : string; timestamp : Z; signature : string; appdata : bytes }.

Definition parse_advert_payload (payload : bytes) : res advert :=
  let min_len := PUB_KEY_SIZE + TIMESTAMP_SIZE + SIGNATURE_SIZE in
  if len payload <? min_len then Err (ValueError "Advert payload too short")
  else
    let pubkey := slice_to payload PUB_KEY_SIZE in
    let timestamp := from_le (slice payload PUB_KEY_SIZE (PUB_KEY_SIZE + TIMESTAMP_SIZE)) in
    let sig_start := PUB_KEY_SIZE + TIMESTAMP_SIZE in
    let signature := slice payload sig_start (sig_start + SIGNATURE_SIZE) in
    let appdata := slice_from payload (sig_start + SIGNATURE_SIZE) in
    Ok (mkAdvert (hex pubkey) timestamp (hex signature) appdata).

Definition is_self_advert (payload self_public_key : bytes) : bool :=
  if bool_decide (self_public_key = []) then false
  else (PUB_KEY_SIZE <=? len payload) && bytes_eqb (slice_to payload PUB_KEY_SIZE) self_public_key.

(** [struct.unpack("<i")], ["<H"] of a slice. *)
Definition unpack_i (b : bytes) : res Z :=
  if len b =? 4 then Ok (from_le_signed b) else Err StructError.
Definition unpack_H (b : bytes) : res Z :=
  if len b =? 2 then Ok (from_le b) else Err StructError.

(** The dictionary [decode_appdata] returns. *)
Record appdata_fields := mkFields {
  flags : Z;
  location : option (float * float);
  feature_1 : option Z;
  feature_2 : option Z;
  raw_name_bytes : option string;
  node_name : option pystr
}.

(** The name field: bytes up to the first NUL, decoded with replacement when
    they are not valid UTF-8. *)
Definition decode_name (b : bytes) : option string * option pystr :=
  let name_bytes := before_nul b in
  let '(raw, name) := match decode name_bytes with
                      | Ok s => (None, s)
                      | Err _ => (Some (hex name_bytes), decode_replace name_bytes)
                      end in
  (raw, if bool_decide (name ≠ []) then Some name else None).

Definition decode_appdata (a : bytes) : res appdata_fields :=
  match a with
  | [] => Err (ValueError "Appdata too short to contain flags")
  | flags :: _ =>
      let has_location := truthy (Z.land flags 0x10) in
      let has_f1 := truthy (Z.land flags 0x20) in
      let has_f2 := truthy (Z.land flags 0x40) in
      let required_len := 1 + (if has_location then 8 else 0) + (if has_f1 then 2 else 0)
                          + (if has_f2 then 2 else 0) in
      if len a <? required_len then Err (ValueError "Advert appdata truncated for required fields")
      else
        let offset := 1 in
        loc ← (if has_location
               then lat_raw ← unpack_i (slice a offset (offset + 4));
                    lon_raw ← unpack_i (slice a (offset + 4) (offset + 8));
                    lat ← fdiv (f_of_Z lat_raw) (f_of_Z 1000000);
                    lon ← fdiv (f_of_Z lon_raw) (f_of_Z 1000000);
                    mret (Some (lat, lon))
               else mret None);
        let offset := if has_location then offset + 8 else offset in
        f1 ← (if has_f1 then Some <$> unpack_H (slice a offset (offset + 2)) else mret None);
        let offset := if has_f1 then offset + 2 else offset in
        f2 ← (if has_f2 then Some <$> unpack_H (slice a offset (offset + 2)) else mret None);
        let offset := if has_f2 then offset + 2 else offset in
        let '(raw, name) :=
          if truthy (Z.land flags 0x80) && (len a >? offset)
          then decode_name (slice_from a offset) else (None, None) in
        mret (mkFields flags loc f1 f2 raw name)
  end.

Definition determine_contact_type_from_flags (flags : Z) : Z :=
  let node_type := Z.land flags 0x0F in
  if node_type =? ADVERT_FLAG_IS_ROOM_SERVER then 3
  else if node_type =? ADVERT_FLAG_IS_REPEATER then 2
  else if node_type =? ADVERT_FLAG_IS_CHAT_NODE then 1
  else if node_type =? ADVERT_FLAG_IS_SENSOR then 4
  else 0.

(** ** Channels *)

Definition normalize_channel_secret (secret : bytes) : bytes :=
  if len secret <? 32 then secret ++ zeros (32 - len secret) else slice_to secret 32.

Definition derive_channel_hash (secret : bytes) : res Z :=
  let secret := normalize_channel_secret secret in
  let hash_input := if bytes_eqb (slice secret 16 32) (zeros 16) then slice_to secret 16 else secret in
  index (sha256 hash_input) 0.

End Utils.

(** ** Lemmas *)

Import Utils.

Lemma from_le_signed_pack z b : pack_i z = Ok b → len b = 4 ∧ from_le_signed b = z.
Proof.
  unfold pack_i. destruct (_ && _) eqn:E; [|done]. bool_hyps. intros Hb.
  assert (b = le_bytes 4 (z mod 2 ^ 32)) as -> by congruence. clear Hb.
  split; [apply len_le_bytes|]. unfold from_le_signed. rewrite len_le_bytes, from_le_le_bytes
    by (change (256 ^ Z.of_nat 4) with (2 ^ 32); apply Z.mod_pos_bound; lia).
  rewrite bool_decide_false by done. cbn [negb andb].
  change (2 ^ (8 * Z.of_nat 4)) with (2 ^ 32). change (2 ^ 32) with 4294967296 in *.
  change (2 ^ 31) with 2147483648 in *. change (4294967296 / 2) with 2147483648.
  destruct (2147483648 <=? z mod 4294967296) eqn:E2; bool_hyps; zdm.
Qed.

Lemma unpack_i_pack z b : pack_i z = Ok b → unpack_i b = Ok z.
Proof. intros [Hl Hs]%from_le_signed_pack. unfold unpack_i. by rewrite Hl, Hs. Qed.

Lemma unpack_H_pack z b : pack_H z = Ok b → len b = 2 ∧ unpack_H b = Ok z.
Proof.
  unfold pack_H. intros [Hz ->]%pack_uint_inv. rewrite len_le_bytes. split; [done|].
  unfold unpack_H. rewrite len_le_bytes, from_le_le_bytes by done. done.
Qed.

(** The flag byte: node type and four presence bits. *)
Definition flag_byte (flags : Z) (loc f1 f2 nm : bool) : Z :=
  let f := if loc then Z.lor flags ADVERT_FLAG_HAS_LOCATION else flags in
  let f := if f1 then Z.lor f ADVERT_FLAG_HAS_FEATURE1 else f in
  let f := if f2 then Z.lor f ADVERT_FLAG_HAS_FEATURE2 else f in
  if nm then Z.lor f ADVERT_FLAG_HAS_NAME else f.

Definition flag_byte_ok (flags : Z) : bool :=
  forallb (fun '(loc, f1, f2, nm) =>
    let f := flag_byte flags loc f1 f2 nm in
    Bool.eqb (truthy (Z.land f 0x10)) loc && Bool.eqb (truthy (Z.land f 0x20)) f1
    && Bool.eqb (truthy (Z.land f 0x40)) f2 && Bool.eqb (truthy (Z.land f 0x80)) nm
    && (Z.land f 0x0F =? flags) && (0 <=? f) && (f <? 256))
    (list_prod (list_prod (list_prod [true; false] [true; false]) [true; false]) [true; false]).

Lemma flag_byte_bits flags loc f1 f2 nm :
  0 ≤ flags < 16 →
  let f := flag_byte flags loc f1 f2 nm in
  truthy (Z.land f 0x10) = loc ∧ truthy (Z.land f 0x20) = f1 ∧ truthy (Z.land f 0x40) = f2
  ∧ truthy (Z.land f 0x80) = nm ∧ Z.land f 0x0F = flags ∧ is_byte f.
Proof.
  intros Hf. assert (flag_byte_ok flags = true) as H
    by (apply (forall_below flag_byte_ok 16); [vm_compute; reflexivity|lia]).
  unfold flag_byte_ok in H. rewrite forallb_forall in H. specialize (H (loc, f1, f2, nm)).
  assert (In (loc, f1, f2, nm)
    (list_prod (list_prod (list_prod [true; false] [true; false]) [true; false]) [true; false])) as Hin
    by (destruct loc, f1, f2, nm; cbn; tauto).
  apply H in Hin. cbv beta iota zeta in Hin. bool_hyps.
  repeat match goal with Hx : Bool.eqb _ _ = true |- _ => apply Bool.eqb_prop in Hx end.
  unfold is_byte. cbv zeta. split_and!; done || lia.
Qed.

(** ** Advert payloads: properties *)

(** The appdata of an advert, field by field. *)
Definition appdata_of (F : Z) (loc f1 f2 nm : bytes) : bytes := [F] ++ loc ++ f1 ++ f2 ++ nm.

(** Decoding reads the fields the flags announce, in order. *)
Lemma decode_appdata_of F loc f1 f2 nm lat lon v1 v2 :
  (if truthy (Z.land F 0x10)
   then ∃ a b, loc = a ++ b ∧ pack_i lat = Ok a ∧ pack_i lon = Ok b else loc = []) →
  (if truthy (Z.land F 0x20) then pack_H v1 = Ok f1 else f1 = []) →
  (if truthy (Z.land F 0x40) then pack_H v2 = Ok f2 else f2 = []) →
  decode_appdata (appdata_of F loc f1 f2 nm)
  = loc' ← (if truthy (Z.land F 0x10)
            then x ← fdiv (f_of_Z lat) (f_of_Z 1000000); y ← fdiv (f_of_Z lon) (f_of_Z 1000000);
                 mret (Some (x, y)) else mret None);
    let '(raw, name) := if truthy (Z.land F 0x80) && bool_decide (nm ≠ [])
                        then decode_name nm else (None, None) in
    mret (mkFields F loc' (if truthy (Z.land F 0x20) then Some v1 else None)
            (if truthy (Z.land F 0x40) then Some v2 else None) raw name).
Proof.
  set (b1 := truthy (Z.land F 0x10)). set (b2 := truthy (Z.land F 0x20)).
  set (b3 := truthy (Z.land F 0x40)). intros Hloc H1 H2.
  assert (len loc = if b1 then 8 else 0) as Ll.
  { destruct b1; [|by subst]. destruct Hloc as (a & b & -> & [Ha _]%from_le_signed_pack &
      [Hb _]%from_le_signed_pack). rewrite len_app. lia. }
  assert (len f1 = if b2 then 2 else 0) as L1
    by (destruct b2; [by apply unpack_H_pack in H1 as [? _]|by subst]).
  assert (len f2 = if b3 then 2 else 0) as L2
    by (destruct b3; [by apply unpack_H_pack in H2 as [? _]|by subst]).
  set (a := appdata_of F loc f1 f2 nm).
  change a with (F :: loc ++ f1 ++ f2 ++ nm). unfold decode_appdata.
  change (F :: loc ++ f1 ++ f2 ++ nm) with a. fold b1 b2 b3.
  assert (len a = 1 + len loc + len f1 + len f2 + len nm) as La
    by (unfold a, appdata_of; autorewrite with pylen; lia).
  pose proof (len_nonneg nm).
  replace (len a <? _) with false by (rewrite La, Ll, L1, L2; destruct b1, b2, b3; lia).
  set (o1 := if b1 then 1 + 8 else 1). set (o2 := if b2 then o1 + 2 else o1).
  set (o3 := if b3 then o2 + 2 else o2).
  assert (o1 = 1 + len loc) as Ho1 by (unfold o1; rewrite Ll; by destruct b1).
  assert (o2 = 1 + len loc + len f1) as Ho2 by (unfold o2; rewrite L1; destruct b2; lia).
  assert (o3 = 1 + len loc + len f1 + len f2) as Ho3 by (unfold o3; rewrite L2; destruct b3; lia).
  assert (b2 = true → slice a o1 (o1 + 2) = f1) as S1.
  { intros Hb. rewrite Hb in L1. unfold a, appdata_of. rewrite (app_assoc [F]).
    apply slice_app_exact; autorewrite with pylen; lia. }
  assert (b3 = true → slice a o2 (o2 + 2) = f2) as S2.
  { intros Hb. rewrite Hb in L2. unfold a, appdata_of. rewrite (app_assoc [F]), (app_assoc ([F] ++ loc)).
    apply slice_app_exact; autorewrite with pylen; lia. }
  assert (slice_from a o3 = nm) as S3.
  { unfold a, appdata_of. rewrite (app_assoc [F]), (app_assoc ([F] ++ loc)), (app_assoc (([F] ++ loc) ++ f1)).
    apply slice_from_app_exact; autorewrite with pylen; lia. }
  assert ((if b2 then Some <$> unpack_H (slice a o1 (o1 + 2)) else mret None)
          = Ok (if b2 then Some v1 else None)) as ->.
  { destruct b2; [|done]. rewrite S1 by done. apply unpack_H_pack in H1 as [_ ->]. done. }
  assert ((if b3 then Some <$> unpack_H (slice a o2 (o2 + 2)) else mret None)
          = Ok (if b3 then Some v2 else None)) as ->.
  { destruct b3; [|done]. rewrite S2 by done. apply unpack_H_pack in H2 as [_ ->]. done. }
  assert ((len a >? o3) = bool_decide (nm ≠ [])) as ->.
  { rewrite La, Ho3. destruct nm; [rewrite len_nil; rewrite bool_decide_false by (by intros Hn; apply Hn)|
      rewrite len_cons, bool_decide_true by done; pose proof (len_nonneg nm)]; lia. }
  rewrite S3. destruct b1; [|done].
  destruct Hloc as (x & y & -> & Hx & Hy).
  pose proof (from_le_signed_pack _ _ Hx) as [Lx _]. pose proof (from_le_signed_pack _ _ Hy) as [Ly _].
  assert (slice a 1 (1 + 4) = x) as ->
    by (unfold a, appdata_of; rewrite <- (app_assoc x); apply slice_app_exact; autorewrite with pylen; lia).
  assert (slice a (1 + 4) (1 + 8) = y) as ->.
  { unfold a, appdata_of. rewrite <- (app_assoc x), (app_assoc [F] x).
    apply slice_app_exact; autorewrite with pylen; lia. }
  rewrite (unpack_i_pack _ _ Hx), (unpack_i_pack _ _ Hy). done.
Qed.

(** What an encoded advert is made of. *)
Lemma encode_advert_inv name lat lon f1 f2 flags a nb :
  PacketBuilder._encode_advert_data name lat lon f1 f2 flags = Ok a →
  0 ≤ flags < 16 → encode name = Ok nb → len nb ≤ 19 →
  let hl := negb (feqb lat f_zero) || negb (feqb lon f_zero) in
  let F := flag_byte flags hl (negb (f1 =? 0)) (negb (f2 =? 0)) (bool_decide (name ≠ [])) in
  ∃ loc b1 b2 lat_int lon_int,
    a = appdata_of F loc b1 b2 nb
    ∧ (if hl then int_of_float (fmul lat (f_of_Z 1000000)) = Ok lat_int
                  ∧ int_of_float (fmul lon (f_of_Z 1000000)) = Ok lon_int
                  ∧ ∃ x y, loc = x ++ y ∧ pack_i lat_int = Ok x ∧ pack_i lon_int = Ok y
       else loc = [])
    ∧ (if negb (f1 =? 0) then pack_H f1 = Ok b1 else b1 = [])
    ∧ (if negb (f2 =? 0) then pack_H f2 = Ok b2 else b2 = []).
Proof.
  intros H Hfl Hnb Hlen. cbv zeta. unfold PacketBuilder._encode_advert_data in H.
  set (hl := negb (feqb lat f_zero) || _) in *. set (n1 := negb (f1 =? 0)) in *.
  set (n2 := negb (f2 =? 0)) in *. set (nm := bool_decide (name ≠ [])) in *.
  change (if nm then Z.lor _ ADVERT_FLAG_HAS_NAME else _) with (flag_byte flags hl n1 n2 nm) in H.
  destruct (flag_byte_bits flags hl n1 n2 nm Hfl) as (B1 & B2 & B3 & B4 & _ & Hbyte).
  set (F := flag_byte flags hl n1 n2 nm) in *.
  change ADVERT_FLAG_HAS_LOCATION with 0x10 in H. change ADVERT_FLAG_HAS_FEATURE1 with 0x20 in H.
  change ADVERT_FLAG_HAS_FEATURE2 with 0x40 in H. change ADVERT_FLAG_HAS_NAME with 0x80 in H.
  rewrite B1, B2, B3, B4 in H.
  apply res_bind_ok in H as (fb & Hfb & H). apply bytes_of_ints_inv in Hfb as [-> _].
  apply res_bind_ok in H as (loc & Hloc & H). apply res_bind_ok in H as (b1 & Hb1 & H).
  apply res_bind_ok in H as (b2 & Hb2 & H). apply res_bind_ok in H as (n & Hn & H).
  assert (∃ lat_int lon_int, len loc ≤ 8 ∧
    (if hl then int_of_float (fmul lat (f_of_Z 1000000)) = Ok lat_int
                ∧ int_of_float (fmul lon (f_of_Z 1000000)) = Ok lon_int
                ∧ ∃ x y, loc = x ++ y ∧ pack_i lat_int = Ok x ∧ pack_i lon_int = Ok y
     else loc = [])) as (lat_int & lon_int & Ll & Hl).
  { destruct hl; [|injection Hloc as <-; exists 0, 0; split; [rewrite len_nil; lia|done]]. res_inv.
    match goal with H1 : pack_i ?p = Ok ?x, H2 : pack_i ?q = Ok ?y |- _ =>
      exists p, q; pose proof (from_le_signed_pack _ _ H1) as [? _];
      pose proof (from_le_signed_pack _ _ H2) as [? _]; split;
      [rewrite len_app; lia|split_and!; eauto] end. }
  assert ((if n1 then pack_H f1 = Ok b1 else b1 = []) ∧ len b1 ≤ 2) as [H1 L1].
  { destruct n1; [split; [done|]; apply unpack_H_pack in Hb1 as [? _]; lia|].
    injection Hb1 as <-. split; [done|rewrite len_nil; lia]. }
  assert ((if n2 then pack_H f2 = Ok b2 else b2 = []) ∧ len b2 ≤ 2) as [H2 L2].
  { destruct n2; [split; [done|]; apply unpack_H_pack in Hb2 as [? _]; lia|].
    injection Hb2 as <-. split; [done|rewrite len_nil; lia]. }
  assert (n = nb) as ->.
  { unfold nm in Hn. destruct name as [|c name]; [injection Hn as <-; by injection Hnb as <-|].
    rewrite bool_decide_true in Hn by done. rewrite Hnb in Hn. cbn [mbind res_bind] in Hn.
    injection Hn as <-. apply slice_to_ge. autorewrite with pylen. unfold MAX_ADVERT_DATA_SIZE. lia. }
  exists loc, b1, b2, lat_int, lon_int. injection H as <-. split_and!; [|done..].
  unfold appdata_of. by rewrite <- !app_assoc.
Qed.

(** The appdata of an advert survives encoding: a node name of up to 19
    bytes without NUL, both features and the node type come back unchanged,
    and the position comes back as the integer micro-degrees that were sent,
    divided by a million. *)
Theorem advert_appdata_roundtrip name lat lon f1 f2 fl a nb :
  PacketBuilder._encode_advert_data name lat lon f1 f2 fl = Ok a →
  0 ≤ fl < 16 → encode name = Ok nb → len nb ≤ 19 → 0 ∉ name →
  ∃ r, decode_appdata a = Ok r
    ∧ determine_contact_type_from_flags (flags r) = determine_contact_type_from_flags fl
    ∧ feature_1 r = (if f1 =? 0 then None else Some f1)
    ∧ feature_2 r = (if f2 =? 0 then None else Some f2)
    ∧ node_name r = (if bool_decide (name = []) then None else Some name)
    ∧ match location r with
      | None => feqb lat f_zero = true ∧ feqb lon f_zero = true
      | Some (x, y) => ∃ i j,
          int_of_float (fmul lat (f_of_Z 1000000)) = Ok i
          ∧ int_of_float (fmul lon (f_of_Z 1000000)) = Ok j
          ∧ fdiv (f_of_Z i) (f_of_Z 1000000) = Ok x ∧ fdiv (f_of_Z j) (f_of_Z 1000000) = Ok y
      end.
Proof.
  intros H Hfl Hnb Hlen Hnul.
  destruct (encode_advert_inv _ _ _ _ _ _ _ _ H Hfl Hnb Hlen)
    as (loc & b1 & b2 & lat_int & lon_int & -> & Hloc & H1 & H2).
  set (hl := negb (feqb lat f_zero) || _) in *.
  destruct (flag_byte_bits fl hl (negb (f1 =? 0)) (negb (f2 =? 0)) (bool_decide (name ≠ [])) Hfl)
    as (B1 & B2 & B3 & B4 & B5 & _).
  set (F := flag_byte _ _ _ _ _) in *.
  rewrite (decode_appdata_of F loc b1 b2 nb lat_int lon_int f1 f2)
    by (rewrite ?B1, ?B2, ?B3; try done; destruct hl; tauto).
  rewrite B1, B2, B3, B4.
  assert ((if bool_decide (name ≠ []) && bool_decide (nb ≠ []) then decode_name nb else (None, None))
    = (None, if bool_decide (name = []) then None else Some name)) as ->.
  { destruct name as [|c name]; [by injection Hnb as <-|].
    assert (nb ≠ []) as Hne.
    { intros ->. apply encode_cons_inv in Hnb as (r & _ & _ & E).
      pose proof (encode_char_length c). destruct (encode_char c); [cbn in *; lia|done]. }
    rewrite !bool_decide_true, bool_decide_false by done. cbn [andb].
    unfold decode_name. rewrite (before_nul_encode (c :: name)) by done.
    rewrite (decode_encode _ _ Hnb). by rewrite bool_decide_true. }
  assert (determine_contact_type_from_flags F = determine_contact_type_from_flags fl) as Hty.
  { unfold determine_contact_type_from_flags. rewrite B5, land_15, Z.mod_small by lia. done. }
  unfold hl in *. destruct (negb (feqb lat f_zero) || negb (feqb lon f_zero)) eqn:E.
  - destruct Hloc as (Hi & Hj & _). eexists. split; [reflexivity|]. cbn [Utils.flags feature_1 feature_2 node_name location].
    split_and!; [done|by destruct (f1 =? 0)|by destruct (f2 =? 0)|done|].
    exists lat_int, lon_int. split_and!; done.
  - apply orb_false_iff in E as [E1 E2]. apply negb_false_iff in E1, E2.
    eexists. split; [reflexivity|]. cbn [Utils.flags feature_1 feature_2 node_name location].
    split_and!; [done|by destruct (f1 =? 0)|by destruct (f2 =? 0)|done|done|done].
Qed.

(** ** Instances *)

(** A repeater named "ab" at (1.5, -2) with one feature word. *)
Lemma advert_appdata_roundtrip_witness :
  match PacketBuilder._encode_advert_data [97; 98] (f_dec 15 1) (f_of_Z (-2)) 513 0 ADVERT_FLAG_IS_REPEATER with
  | Ok a => ∃ r, decode_appdata a = Ok r ∧ feature_1 r = Some 513 ∧ feature_2 r = None
                 ∧ node_name r = Some [97; 98]
  | Err _ => False
  end.
Proof.
  destruct (PacketBuilder._encode_advert_data [97; 98] (f_dec 15 1) (f_of_Z (-2)) 513 0 ADVERT_FLAG_IS_REPEATER)
    as [a|] eqn:E; [|vm_compute in E; discriminate E].
  destruct (advert_appdata_roundtrip [97; 98] (f_dec 15 1) (f_of_Z (-2)) 513 0 ADVERT_FLAG_IS_REPEATER a [97; 98])
    as (r & H1 & _ & H2 & H3 & H4 & _).
  - exact E.
  - decide_now.
  - reflexivity.
  - decide_now.
  - decide_now.
  - exists r. split; [exact H1|]. split; [exact H2|]. split; [exact H3|exact H4].
Defined.
