(* ===== verification/GroupText.v ===== *)
(** * Group texts ([node/handlers/group_text.py])

    The receiving side of [PacketBuilder.create_group_datagram]: channels are
    found by a one-byte hash, the HMAC picks the right one, repeated packets
    are suppressed by a [PacketHashCache]. *)

From S2P Require Import Prelude PyData Sha256 Utf8 PyFloat ODict Constants PacketUtils Packet Crypto PacketFilter PacketBuilder Messages Utils.

Import Packet.

Module GroupTextHandler.

(** A channel of the database: name and secret as text. *)
Record channel := mkChannel { name : pystr; secret : string }.

(** [channel_secret.encode("utf-8")] of text that is not hexadecimal. *)
Definition raw_text (s : string) : bytes := map (fun c => Z.of_nat (nat_of_ascii c)) (String.list_ascii_of_string s).

Definition secret_bytes (s : string) : bytes :=
  match fromhex s with Ok b => b | Err _ => raw_text s end.

(** What a consumer of the event sees. *)
Record group_text := mkText {
  text : pystr;
  sender_name : pystr;
  channel_name : pystr;
  timestamp : Z;
  flags : Z;
  full_content : pystr
}.

Section handler.
Context `{C : BlockCipher} {T : Type} `{Clock T}.

Definition _derive_channel_hash (channel_secret : string) : res Z :=
  Utils.derive_channel_hash (secret_bytes channel_secret).

(** An exception in the loop makes the whole query fail. *)
Fixpoint channels_by_hash (channel_hash : Z) (channels : list channel) : res (list channel) :=
  match channels with
  | [] => Ok []
  | ch :: chs =>
      h ← _derive_channel_hash (secret ch);
      r ← channels_by_hash channel_hash chs;
      mret (if h =? channel_hash then ch :: r else r)
  end.

Definition _get_channels_by_hash (channel_db : option (list channel)) (channel_hash : Z)
    : list channel :=
  match channel_db with
  | None => []
  | Some channels => match channels_by_hash channel_hash channels with Ok l => l | Err _ => [] end
  end.

Definition _decrypt_channel_message (channel_secret : string) (mac ciphertext : bytes)
    : option bytes :=
  let b := secret_bytes channel_secret in
  let b := if len b <? 32 then b ++ zeros (32 - len b)
           else if len b >? 32 then slice_to b 32 else b in
  let expected_mac := slice_to (CryptoUtils._hmac_sha256 b ciphertext) 2 in
  if negb (bytes_eqb mac expected_mac) then None
  else match CryptoUtils._aes_decrypt (slice_to b 16) ciphertext with
       | Ok d => Some d
       | Err _ => None
       end.

(** Timestamp, flags and content. *)
Definition _parse_plaintext_message (plaintext : bytes) : option (Z * Z * pystr) :=
  if len plaintext <? 5 then None
  else
    let timestamp := from_le (slice_to plaintext 4) in
    match index plaintext 4 with
    | Err _ => None
    | Ok flags =>
        if negb (Z.shiftr flags 2 =? 0) then None
        else Some (timestamp, flags, decode_replace (before_nul (slice_from plaintext 5)))
    end.

(** [message_content.split(": ", 1)]: what is before and after the first
    ": " ([58; 32]). *)
Fixpoint split_sender (s : pystr) : option (pystr * pystr) :=
  match s with
  | [] => None
  | c :: s' =>
      match s' with
      | d :: s'' => if (c =? 58) && (d =? 32) then Some ([], s'')
                    else match split_sender s' with
                         | Some (a, b) => Some (c :: a, b)
                         | None => None
                         end
      | [] => None
      end
  end.

(** ["Unknown"] *)
Definition unknown_sender : pystr := [85; 110; 107; 110; 111; 119; 110].

Definition _extract_sender_from_message (message_content : pystr) : pystr * pystr :=
  match split_sender message_content with
  | Some p => p
  | None => (unknown_sender, message_content)
  end.

(** The first candidate whose HMAC validates. *)
Fixpoint first_decrypt (candidates : list channel) (mac ciphertext : bytes)
    : option (channel * bytes) :=
  match candidates with
  | [] => None
  | ch :: chs =>
      match _decrypt_channel_message (secret ch) mac ciphertext with
      | Some d => Some (ch, d)
      | None => first_decrypt chs mac ciphertext
      end
  end.

(** [packet.calculate_packet_hash().hex()] *)
Definition _packet_hash (packet : Packet.t) : res string :=
  h ← calculate_packet_hash packet; mret (hex h).

(** [mark_outgoing_packet]: record a group text before it is sent. *)
Definition mark_outgoing_packet (now : T) (packet : Packet.t) (c : PacketHashCache.t T)
    : res (PacketHashCache.t T) :=
  if negb (get_payload_type packet =? PAYLOAD_TYPE_GRP_TXT) then Ok c
  else h ← _packet_hash packet; mret (PacketHashCache.check_and_add now h c).1.

(** [__call__]: the message that is published, if any. *)
Definition call (now : T) (channel_db : option (list channel)) (packet : Packet.t)
    (c : PacketHashCache.t T) : PacketHashCache.t T * option group_text :=
  let payload := get_payload packet in
  if len payload <? 4 then (c, None)
  else
    match index payload 0 with
    | Err _ => (c, None)
    | Ok channel_hash =>
        let cipher_mac := slice payload 1 3 in
        let ciphertext := slice_from payload 3 in
        let candidates := _get_channels_by_hash channel_db channel_hash in
        match first_decrypt candidates cipher_mac ciphertext with
        | None => (c, None)
        | Some (channel, plaintext) =>
            match _parse_plaintext_message plaintext with
            | None => (c, None)
            | Some (timestamp, flags, content) =>
                match _packet_hash packet with
                | Err _ => (c, None)
                | Ok h =>
                    let '(c, seen) := PacketHashCache.check_and_add now h c in
                    if seen then (c, None)
                    else
                      let '(sender_name, message_body) := _extract_sender_from_message content in
                      (c, Some (mkText message_body sender_name (name channel) timestamp flags content))
                end
            end
        end
    end.

End handler.
End GroupTextHandler.

Import PacketBuilder GroupTextHandler.

(** ** Channel hashes *)

Lemma derive_channel_hash_eq secret :
  len secret = 16 ∨ 32 ≤ len secret →
  Utils.derive_channel_hash secret = index (sha256 (PacketBuilder.channel_hash_input secret)) 0.
Proof.
  intros Hl. unfold Utils.derive_channel_hash, Utils.normalize_channel_secret,
    PacketBuilder.channel_hash_input. destruct Hl as [Hl|Hl].
  - rewrite Hl. cbn [Z.ltb Z.leb Z.compare andb Z.gtb].
    change (if 16 <? 32 then secret ++ zeros (32 - 16) else slice_to secret 32) with (secret ++ zeros 16).
    rewrite <- (app_nil_r (zeros 16)) at 1.
    rewrite slice_app_exact by (rewrite ?len_zeros; lia).
    rewrite bytes_eqb_refl, slice_to_app_exact by done. done.
  - replace (len secret <? 32) with false by lia. replace (32 <=? len secret) with true by lia.
    cbn [andb].
    assert (slice (slice_to secret 32) 16 32 = slice secret 16 32) as ->.
    { rewrite slice_to_nonneg, !slice_nonneg by lia. rewrite skipn_firstn_comm. by rewrite take_take. }
    destruct (bytes_eqb (slice secret 16 32) (zeros 16)).
    + do 2 f_equal. rewrite !slice_to_nonneg by lia. by rewrite take_take.
    + destruct (len secret >? 32) eqn:E; bool_hyps; [done|]. by rewrite slice_to_ge by lia.
Qed.

(** The hash of a channel secret is always defined. *)
Lemma sha256_index_ok b : ∃ h, index (sha256 b) 0 = Ok h ∧ is_byte h.
Proof.
  pose proof (len_sha256 b) as Hl. pose proof (bytes_ok_sha256 b) as Hb.
  destruct (sha256 b) as [|x l]; [done|]. exists x. split; [done|].
  by apply bytes_ok_cons in Hb as [? _].
Qed.

Lemma derive_channel_hash_ok b : is_ok (Utils.derive_channel_hash b) = true.
Proof. unfold Utils.derive_channel_hash. by edestruct sha256_index_ok as (h & -> & _). Qed.

(** The candidates of a hash, in database order. *)
Definition has_hash (h : Z) (ch : channel) : Prop := _derive_channel_hash (secret ch) = Ok h.

Lemma channels_by_hash_split h l1 ch l2 :
  has_hash h ch →
  ∃ r1 r2, channels_by_hash h (l1 ++ ch :: l2) = Ok (r1 ++ ch :: r2)
    ∧ ∀ c, c ∈ r1 → c ∈ l1 ∧ has_hash h c.
Proof.
  intros Hch. unfold has_hash, _derive_channel_hash in *.
  assert (∀ l, ∃ r, channels_by_hash h l = Ok r) as Htot.
  { intros l. induction l as [|c l [r IH]]; [by eexists|]. cbn [channels_by_hash]. unfold _derive_channel_hash.
    pose proof (derive_channel_hash_ok (secret_bytes (secret c))) as Ho.
    destruct (Utils.derive_channel_hash (secret_bytes (secret c))); [|done]. rewrite IH. by eexists. }
  induction l1 as [|c l1 IH]; cbn [app channels_by_hash]; unfold _derive_channel_hash.
  - rewrite Hch. destruct (Htot l2) as [r ->]. cbn. rewrite Z.eqb_refl. exists [], r.
    split; [done|]. intros c Hc. by apply not_elem_of_nil in Hc.
  - destruct IH as (r1 & r2 & -> & Hr). pose proof (derive_channel_hash_ok (secret_bytes (secret c))) as Ho.
    destruct (Utils.derive_channel_hash (secret_bytes (secret c))) as [hc|] eqn:Ec; [|done].
    cbn [mbind res_bind].
    destruct (Z.eqb_spec hc h) as [->|Hne].
    + exists (c :: r1), r2. split; [done|]. intros c' [->|Hc']%elem_of_cons.
      * split; [apply elem_of_cons; by left|exact Ec].
      * destruct (Hr c' Hc'). split; [apply elem_of_cons; by right|done].
    + exists r1, r2. split; [done|]. intros c' Hc'. destruct (Hr c' Hc'). split; [apply elem_of_cons; by right|done].
Qed.

(** ** The sender prefix *)

Lemma split_sender_prefix s t : split_sender s = None → split_sender (s ++ 58 :: 32 :: t) = Some (s, t).
Proof.
  induction s as [|c s IH]; [done|]. destruct s as [|d s].
  - intros _. cbn. by destruct (c =? 58).
  - intros Hn. cbn [app]. change (split_sender (c :: d :: s ++ 58 :: 32 :: t)) with
      (if (c =? 58) && (d =? 32) then Some ([], s ++ 58 :: 32 :: t)
       else match split_sender ((d :: s) ++ 58 :: 32 :: t) with
            | Some (a, b) => Some (c :: a, b) | None => None end).
    change (split_sender (c :: d :: s)) with
      (if (c =? 58) && (d =? 32) then Some ([], s)
       else match split_sender (d :: s) with
            | Some (a, b) => Some (c :: a, b) | None => None end) in Hn.
    destruct ((c =? 58) && (d =? 32)); [done|].
    destruct (split_sender (d :: s)) as [[a b]|]; [done|]. by rewrite IH.
Qed.

(** ** Group texts end to end *)

Section roundtrip.
Context `{C : BlockCipher} {L : BlockCipherLaws C} {T : Type} `{Clock T}.

(** The packet hash of a built group text exists. *)
Lemma group_packet_hash body :
  ∃ h, _packet_hash (built (_create_header PAYLOAD_TYPE_GRP_TXT "flood" false) [] 0 body) = Ok h.
Proof.
  unfold _packet_hash, calculate_packet_hash.
  rewrite (proj1 (built_type PAYLOAD_TYPE_GRP_TXT "flood" false [] 0 body ltac:(done))).
  generalize (get_payload (built (_create_header PAYLOAD_TYPE_GRP_TXT "flood" false) [] 0 body)).
  intros b. unfold PacketHashingUtils.calculate_packet_hash.
  change (bytes_of_ints [PAYLOAD_TYPE_GRP_TXT]) with (@Ok bytes [PAYLOAD_TYPE_GRP_TXT]).
  change (PAYLOAD_TYPE_GRP_TXT =? PAYLOAD_TYPE_TRACE) with false. cbn [mbind res_bind]. by eexists.
Qed.

(** The plaintext of a group text. *)
Lemma group_packet_inv secret msg sender ts p :
  group_packet secret msg sender ts = Ok p →
  ∃ h content cipher,
    index (sha256 (channel_hash_input secret)) 0 = Ok h
    ∧ 0 ≤ ts < 256 ^ 4 ∧ group_content sender msg = Ok content
    ∧ let key := slice_to (secret ++ zeros 32) 32 in
      CryptoUtils._aes_encrypt (slice_to key 16) (le_bytes 4 ts ++ [0] ++ content) = Ok cipher
      ∧ p = built (_create_header PAYLOAD_TYPE_GRP_TXT "flood" false) [] 0
              ([h] ++ slice_to (CryptoUtils._hmac_sha256 key cipher) 2 ++ cipher).
Proof.
  unfold group_packet. intros H1. apply res_bind_ok in H1 as (h & Hh & H1).
  apply res_bind_ok in H1 as (content & Hc & H1). apply res_bind_ok in H1 as (pt & Hpt & H1).
  apply res_bind_ok in H1 as (cipher & He & H1). apply res_bind_ok in H1 as (hb & Hhb & H1).
  apply bytes_of_ints_inv in Hhb as [-> _]. apply create_packet_built in H1 as [-> _].
  apply pack_timestamp_inv in Hpt as (Hts & q & Hq & ->).
  exists h, content, cipher. split; [done|]. split; [done|]. split; [done|]. split; [|done].
  cbn [PacketDataUtils.pack_parts PacketDataUtils.pack_part] in Hq.
  change (bytes_of_ints [Z.land 0 255]) with (@Ok bytes [0]) in Hq. cbn [mbind res_bind] in Hq.
  injection Hq as <-. by rewrite app_nil_r in He.
Qed.

(** The key the builder and the handler use. *)
Lemma channel_key_eq (b : bytes) :
  slice_to (b ++ zeros 32) 32
  = if len b <? 32 then b ++ zeros (32 - len b) else if len b >? 32 then slice_to b 32 else b.
Proof.
  pose proof (len_nonneg b). destruct (len b <? 32) eqn:E1; bool_hyps.
  - replace (zeros 32) with (zeros (32 - len b) ++ zeros (len b)).
    + rewrite app_assoc. apply slice_to_app_exact. rewrite len_app, len_zeros; lia.
    + unfold zeros. rewrite <- replicate_add. f_equal. lia.
  - rewrite slice_to_nonneg by lia. unfold len in *. rewrite take_app_le by lia.
    destruct (Z.of_nat (length b) >? 32) eqn:E2; bool_hyps; [by rewrite slice_to_nonneg by lia|].
    apply take_ge. lia.
Qed.

(** The handler's decryption of what the builder encrypted. *)
Lemma decrypt_group_cipher s plaintext cipher :
  let key := slice_to (secret_bytes s ++ zeros 32) 32 in
  CryptoUtils._aes_encrypt (slice_to key 16) plaintext = Ok cipher →
  _decrypt_channel_message s (slice_to (CryptoUtils._hmac_sha256 key cipher) 2) cipher
  = Some (pad_zeros plaintext).
Proof.
  intros key He. unfold _decrypt_channel_message. rewrite <- channel_key_eq. fold key.
  rewrite bytes_eqb_refl. cbn [negb].
  assert (key_ok (slice_to key 16) = true) as Hk.
  { unfold CryptoUtils._aes_encrypt in He. by destruct (key_ok _). }
  by rewrite (aes_decrypt_encrypt _ _ _ Hk He).
Qed.

(** What the handler reads in the padded plaintext. *)
Lemma parse_group_plaintext ts text content :
  0 ≤ ts < 256 ^ 4 → encode text = Ok content → 0 ∉ text →
  _parse_plaintext_message (pad_zeros (le_bytes 4 ts ++ [0] ++ content)) = Some (ts, 0, text).
Proof.
  intros Hts Hc Hn. unfold _parse_plaintext_message, pad_zeros.
  set (z := zeros _). pose proof (len_nonneg content). pose proof (len_nonneg z).
  assert (len ((le_bytes 4 ts ++ [0] ++ content) ++ z) = 5 + len content + len z) as Hl
    by (autorewrite with pylen; lia).
  rewrite Hl. replace (_ <? 5) with false by lia. rewrite <- !app_assoc.
  rewrite slice_to_app_exact by (by rewrite len_le_bytes). rewrite from_le_le_bytes by done. cbn [app].
  rewrite index_app_exact by (by rewrite len_le_bytes).
  change (negb (Z.shiftr 0 2 =? 0)) with false. cbv iota zeta.
  rewrite (cons_middle 0 (le_bytes 4 ts)), (app_assoc (le_bytes 4 ts) [_]).
  rewrite slice_from_app_exact by (rewrite len_app, len_le_bytes; done).
  rewrite before_nul_app_zeros; [by rewrite (decode_replace_encode text)|..].
  - apply (encode_no_nul text). unfold str_before_nul. rewrite before_nul_no_nul; [done|].
    apply list.Forall_forall. by intros x Hx ->.
  - unfold z, zeros. destruct (Z.to_nat _); [by left|right; by eexists].
Qed.

Lemma first_decrypt_split r1 ch r2 mac ct d :
  (∀ c, c ∈ r1 → _decrypt_channel_message (secret c) mac ct = None) →
  _decrypt_channel_message (secret ch) mac ct = Some d →
  first_decrypt (r1 ++ ch :: r2) mac ct = Some (ch, d).
Proof.
  intros Hr Hd. induction r1 as [|c r1 IH]; cbn [app first_decrypt]; [by rewrite Hd|].
  rewrite (Hr c) by (apply elem_of_cons; by left). apply IH. intros c' Hc'. apply Hr, elem_of_cons. by right.
Qed.

(** The handler on a group packet of one of its channels. *)
Lemma call_group_packet now l1 ch l2 c msg snd ts p h :
  group_packet (secret_bytes (secret ch)) msg snd ts = Ok p →
  len (secret_bytes (secret ch)) = 16 ∨ 32 ≤ len (secret_bytes (secret ch)) →
  str_ok snd → str_ok msg → 0 ∉ snd → 0 ∉ msg → split_sender snd = None →
  (∀ c', c' ∈ l1 → _decrypt_channel_message (secret c') (slice (payload p) 1 3) (slice_from (payload p) 3) = None) →
  _packet_hash p = Ok h → (PacketHashCache.check_and_add now h c).2 = false →
  ∃ k, call now (Some (l1 ++ ch :: l2)) p c
       = ((PacketHashCache.check_and_add now h c).1,
          Some (mkText (take k msg) snd (name ch) ts 0 (snd ++ [58; 32] ++ take k msg)))
    ∧ ∀ pre b, encode (snd ++ [58; 32]) = Ok pre → encode msg = Ok b →
        len pre + len b ≤ 160 → take k msg = msg.
Proof.
  intros Hp Hlen Hs Hm Hns Hnm Hsp Hl1 Hh Hseen.
  destruct (group_packet_inv _ _ _ _ _ Hp) as (hh & content & cipher & Hhh & Hts & Hc & He & Hpp).
  destruct (group_content_cut snd msg Hs Hm) as (pre & t & k & Hpre & Hc' & Henc & _ & Hfit).
  rewrite Hc in Hc'. injection Hc' as ->. rewrite <- derive_channel_hash_eq in Hhh by done.
  pose proof (decrypt_group_cipher (secret ch) _ _ He) as Hdec. cbv zeta in He.
  set (mac := slice_to _ 2) in *.
  assert (len mac = 2) as Hmac by (apply len_slice_to; unfold CryptoUtils._hmac_sha256; by rewrite len_hmac_sha256).
  assert (payload p = [hh] ++ mac ++ cipher ∧ get_payload p = payload p) as [Hpay Hget].
  { rewrite Hpp. split; [done|]. unfold get_payload, built. apply slice_to_all. }
  rewrite Hpay in Hl1.
  rewrite (slice_app_exact [hh] mac cipher 1 3) in Hl1 by (rewrite ?Hmac; done).
  rewrite app_assoc, (slice_from_app_exact ([hh] ++ mac) cipher 3) in Hl1 by (rewrite len_app, Hmac; done).
  assert (1 ≤ len cipher) as Hcl.
  { assert (key_ok (slice_to (slice_to (secret_bytes (secret ch) ++ zeros 32) 32) 16) = true) as Hk
      by (unfold CryptoUtils._aes_encrypt in He; by destruct (key_ok _)).
    rewrite aes_encrypt_eq in He by done. match type of He with Ok ?x = Ok _ => assert (cipher = x) as -> by congruence end.
    rewrite ecb_encrypt_aligned_len, len_pad_zeros by apply pad_zeros_aligned.
    set (q := le_bytes 4 ts ++ [0] ++ pre ++ t).
    assert (5 ≤ len q) by (unfold q; autorewrite with pylen;
      pose proof (len_nonneg pre); pose proof (len_nonneg t); lia). zdm. }
  exists k. split; [|intros pre' b Hpre' Hb Hf; rewrite Hpre in Hpre'; injection Hpre' as <-; by eapply Hfit].
  unfold call. rewrite Hget, Hpay. cbv zeta.
  replace (len ([hh] ++ mac ++ cipher) <? 4) with false
    by (rewrite !len_app, Hmac; change (len [hh]) with 1; lia).
  change (index ([hh] ++ mac ++ cipher) 0) with (@Ok Z hh). cbv iota.
  rewrite (slice_app_exact [hh] mac cipher 1 3) by (rewrite ?Hmac; done).
  rewrite app_assoc, (slice_from_app_exact ([hh] ++ mac) cipher 3) by (rewrite len_app, Hmac; done).
  destruct (channels_by_hash_split hh l1 ch l2 Hhh) as (r1 & r2 & Hch & Hr1).
  unfold _get_channels_by_hash. rewrite Hch.
  rewrite (first_decrypt_split r1 ch r2 mac cipher _) by (done || intros c' Hc'; apply Hl1, Hr1, Hc').
  rewrite (parse_group_plaintext ts _ _ Hts Henc).
  2:{ intros Hx. rewrite !elem_of_app, !elem_of_cons in Hx.
      destruct Hx as [[?|[?|[?|Hx]]]|Hx]; [done..|by apply not_elem_of_nil in Hx|].
      apply Hnm. rewrite <- (take_drop k msg). apply elem_of_app. by left. }
  rewrite Hh. destruct (PacketHashCache.check_and_add now h c) as [c1 seen]. cbn in Hseen. subst seen.
  unfold _extract_sender_from_message. rewrite <- app_assoc. cbn [app]. by rewrite split_sender_prefix.
Qed.
(** A group text reaches the members of its channel: what
    [create_group_datagram] builds is published by a receiver with the same
    channel (and any other channels, as long as none before it in the database
    validates the MAC) with the sender's name, the sent timestamp and the
    message, cut only when it exceeds 160 bytes with its prefix. *)
Theorem group_text_delivered now0 last last' gname msg snd cfg sch stamp p now l1 ch l2 c h :
  create_group_datagram now0 gname msg snd (Some cfg) stamp last = (last', Ok p) →
  List.find (λ x, bool_decide (ch_name x = gname)) cfg = Some sch →
  secret_bytes_of (ch_secret sch) = Ok (secret_bytes (secret ch)) →
  len (secret_bytes (secret ch)) = 16 ∨ 32 ≤ len (secret_bytes (secret ch)) →
  str_ok snd → str_ok msg → 0 ∉ snd → 0 ∉ msg → split_sender snd = None →
  (∀ c', c' ∈ l1 → _decrypt_channel_message (secret c') (slice (payload p) 1 3) (slice_from (payload p) 3) = None) →
  _packet_hash p = Ok h → (PacketHashCache.check_and_add now h c).2 = false →
  ∃ k ts, call now (Some (l1 ++ ch :: l2)) p c
          = ((PacketHashCache.check_and_add now h c).1,
             Some (mkText (take k msg) snd (name ch) ts 0 (snd ++ [58; 32] ++ take k msg)))
    ∧ default ts stamp = ts
    ∧ ∀ pre b, encode (snd ++ [58; 32]) = Ok pre → encode msg = Ok b →
        len pre + len b ≤ 160 → take k msg = msg.
Proof.
  intros Hp Hf Hb Hlen Hs Hm Hns Hnm Hsp Hl1 Hh Hc. unfold create_group_datagram in Hp.
  rewrite Hf in Hp. apply py_bind_ok in Hp as (s1 & b & Hb' & Hp). apply lift_ok in Hb' as [-> Hb'].
  rewrite Hb in Hb'. injection Hb' as <-. apply py_bind_ok in Hp as (s2 & ts & Ht & Hp).
  apply lift_ok in Hp as [_ Hp].
  destruct (call_group_packet now l1 ch l2 c msg snd ts p h) as (k & Hcall & Hfit); try done.
  exists k, ts. split_and!; [done| |done].
  destruct stamp; [|done]. by injection Ht as _ ->.
Qed.

(** ** Echoes *)

Lemma call_seen now db p c h :
  _packet_hash p = Ok h → (PacketHashCache.check_and_add now h c).2 = true →
  (call now db p c).2 = None.
Proof.
  intros Hh Hs. unfold call. destruct (_ <? 4); [done|]. destruct (index _ 0); [|done].
  destruct (first_decrypt _ _ _) as [[ch pt]|]; [|done].
  destruct (_parse_plaintext_message pt) as [[[ts fl] ct]|]; [|done]. rewrite Hh.
  destruct (PacketHashCache.check_and_add now h c) as [c1 seen]. cbn in Hs. by subst seen.
Qed.

(** The own group text is not shown again when a repeater sends it back:
    once [mark_outgoing_packet] has recorded it, an echo that arrives while
    the entry lives publishes nothing, whatever the channel database holds. *)
Theorem own_group_echo_suppressed `{!ClockLaws T} now0 now now' p c c1 db :
  cache_wf now0 c → before now now0 = false → before now' now = false →
  get_payload_type p = PAYLOAD_TYPE_GRP_TXT →
  mark_outgoing_packet now p c = Ok c1 →
  before (PacketHashCache.ttl_seconds c) (elapsed now' now) = false →
  (call now' db p c1).2 = None.
Proof.
  intros Hw H1 H2 Hty Hm Ht. unfold mark_outgoing_packet in Hm. rewrite Hty in Hm.
  change (negb (PAYLOAD_TYPE_GRP_TXT =? PAYLOAD_TYPE_GRP_TXT)) with false in Hm. cbv iota in Hm.
  apply res_bind_ok in Hm as (h & Hh & Hm). unfold mret, res_ret in Hm.
  assert (c1 = (PacketHashCache.check_and_add now h c).1) as -> by congruence. clear Hm.
  apply (call_seen _ _ _ _ h Hh).
  pose proof (check_and_add_spec now0 now h c Hw H1) as Hc.
  pose proof (check_and_add_ttl now h c) as Hl.
  destruct (PacketHashCache.check_and_add now h c) as [c2 hit]. destruct Hc as (Hw2 & _ & Hg & _).
  cbn [fst] in *. pose proof (check_and_add_spec now now' h c2 Hw2 H2) as Hc2.
  destruct (PacketHashCache.check_and_add now' h c2) as [c3 hit']. destruct Hc2 as (_ & -> & _).
  cbn [snd]. by rewrite Hg, Hl, Ht.
Qed.

End roundtrip.

(** ** Channel hashes of other secrets *)

(** For a secret that is neither 16 nor at least 32 bytes long the builder
    hashes the secret as it is and the handler the zero-padded key: a 20-byte
    channel secret has two different channel hashes. *)
Lemma channel_hash_diverges :
  let secret := replicate 20 1 in
  index (sha256 (PacketBuilder.channel_hash_input secret)) 0 ≠ Utils.derive_channel_hash secret.
Proof. vm_compute. discriminate. Qed.

(** ** Instances *)

#[local] Existing Instances xor_cipher xor_cipher_laws.

(** Two 16-byte channels; Alice writes "yo" to the second. *)
Definition sample_secret : string := hex (replicate 16 90).
Definition channel_other : channel := mkChannel [120] (hex (replicate 16 91)).
Definition channel_general : channel := mkChannel [103] sample_secret.
Definition sample_channels : list PacketBuilder.channel :=
  [PacketBuilder.mkChannel [103] (SecretHex sample_secret)].
Definition empty_cache : PacketHashCache.t Z := PacketHashCache.mk 600 4096 [].

Definition sample_group : Z * res Packet.t :=
  create_group_datagram 5 [103] [121; 111] [65] (Some sample_channels) (Some 1000) 0.

(** The sample is built, hashed, and not readable with the other channel. *)
Lemma sample_group_facts :
  match sample_group with
  | (_, Ok p) =>
      is_ok (_packet_hash p)
      && match _decrypt_channel_message (secret channel_other) (slice (payload p) 1 3)
                 (slice_from (payload p) 3) with None => true | Some _ => false end
      && (get_payload_type p =? PAYLOAD_TYPE_GRP_TXT)
  | _ => false
  end = true.
Proof. vm_compute. reflexivity. Qed.

Lemma group_text_delivered_witness :
  match sample_group with
  | (_, Ok p) => ∃ c', call 3 (Some [channel_other; channel_general]) p empty_cache
      = (c', Some (mkText [121; 111] [65] [103] 1000 0 [65; 58; 32; 121; 111]))
  | _ => False
  end.
Proof.
  pose proof sample_group_facts as Hf. destruct sample_group as [last [p|]] eqn:E; [|discriminate Hf].
  apply andb_true_iff in Hf as [Hf _]. apply andb_true_iff in Hf as [Hh Hd].
  destruct (_packet_hash p) as [h|] eqn:Eh; [|discriminate Hh].
  destruct (group_text_delivered 5 0 last [103] [121; 111] [65] sample_channels
              (PacketBuilder.mkChannel [103] (SecretHex sample_secret)) (Some 1000) p 3
              [channel_other] channel_general [] empty_cache h) as (k & ts & H1 & H2 & H3).
  - exact E.
  - reflexivity.
  - reflexivity.
  - left. reflexivity.
  - decide_now.
  - decide_now.
  - decide_now.
  - decide_now.
  - reflexivity.
  - intros c' Hc'. apply list_elem_of_singleton in Hc' as ->.
    destruct (_decrypt_channel_message (secret channel_other) _ _); [discriminate Hd|reflexivity].
  - exact Eh.
  - reflexivity.
  - cbn [default] in H2. subst ts. rewrite (H3 [65; 58; 32] [121; 111] eq_refl eq_refl ltac:(discriminate)) in H1.
    eexists. exact H1.
Defined.

Lemma own_group_echo_suppressed_witness :
  match sample_group with
  | (_, Ok p) =>
      match mark_outgoing_packet 3 p empty_cache with
      | Ok c1 => (call 40 (Some [channel_general]) p c1).2 = None
      | Err _ => False
      end
  | _ => False
  end.
Proof.
  pose proof sample_group_facts as Hf. destruct sample_group as [last [p|]]; [|discriminate Hf].
  apply andb_true_iff in Hf as [Hf Hty]. apply andb_true_iff in Hf as [Hh _]. apply Z.eqb_eq in Hty.
  destruct (mark_outgoing_packet 3 p empty_cache) as [c1|] eqn:Em.
  - apply (own_group_echo_suppressed 0 3 40 p empty_cache c1 (Some [channel_general])).
    + split; first [reflexivity | decide_now | constructor].
    + reflexivity.
    + reflexivity.
    + exact Hty.
    + exact Em.
    + reflexivity.
  - unfold mark_outgoing_packet in Em. rewrite Hty in Em.
    destruct (_packet_hash p); [discriminate Em|discriminate Hh].
Defined.
