(* ===== verification/Kiss.v ===== *)
(** * KISS framing ([hardware/kiss_serial_wrapper.py])

    The frame encoder and the two receive decoders of the serial KISS
    interface: the byte-wise state machine and the bulk scanner of the receive
    thread. [delivered] lists what was handed to [on_frame_received], oldest
    first; serial port, threads and configuration commands are I/O. *)

From S2P Require Import Prelude PyData.

Module Kiss.

Definition KISS_FEND : Z := 0xC0.
Definition KISS_FESC : Z := 0xDB.
Definition KISS_TFEND : Z := 0xDC.
Definition KISS_TFESC : Z := 0xDD.
Definition KISS_MASK_PORT : Z := 0xF0.
Definition KISS_MASK_CMD : Z := 0x0F.
Definition KISS_CMD_DATA : Z := 0x00.
Definition MAX_FRAME_SIZE : Z := 512.
Definition TX_BUFFER_SIZE : Z := 1024.

(** The receive state; [listening]: a callback is registered. *)
Record t := mk {
  kiss_port : Z;
  listening : bool;
  rx_frame_buffer : bytes;
  in_frame : bool;
  escaped : bool;
  frame_errors : Z;
  frames_received : Z;
  bytes_received : Z;
  delivered : list bytes
}.

Definition init (port : Z) (listen : bool) : t :=
  mk (Z.land port 0x0F) listen [] false false 0 0 0 [].

Definition set_frame (buf : bytes) (inf esc : bool) (s : t) : t :=
  mk (kiss_port s) (listening s) buf inf esc (frame_errors s) (frames_received s) (bytes_received s)
    (delivered s).

(** [stats["frame_errors"] += 1] *)
Definition count_error (s : t) : t :=
  mk (kiss_port s) (listening s) (rx_frame_buffer s) (in_frame s) (escaped s) (frame_errors s + 1)
    (frames_received s) (bytes_received s) (delivered s).

(** ** Encoding *)

Definition cmd_byte (port cmd : Z) : Z :=
  Z.lor (Z.land (Z.shiftl port 4) KISS_MASK_PORT) (Z.land cmd KISS_MASK_CMD).

Fixpoint escape (data : bytes) : bytes :=
  match data with
  | [] => []
  | byte :: data' =>
      (if byte =? KISS_FEND then [KISS_FESC; KISS_TFEND]
       else if byte =? KISS_FESC then [KISS_FESC; KISS_TFESC]
       else [byte]) ++ escape data'
  end.

Definition _encode_kiss_frame (port cmd : Z) (data : bytes) : bytes :=
  [KISS_FEND; cmd_byte port cmd] ++ escape data ++ [KISS_FEND].

(** [send_frame]: the transmit queue, its overruns, and whether the frame was
    queued. *)
Definition send_frame (is_connected : bool) (port : Z) (data : bytes)
    (tx_buffer : list bytes) (buffer_overruns : Z) : list bytes * Z * bool :=
  if negb is_connected || (len data >? MAX_FRAME_SIZE) then (tx_buffer, buffer_overruns, false)
  else
    let kiss_frame := _encode_kiss_frame port KISS_CMD_DATA data in
    if len tx_buffer <? TX_BUFFER_SIZE then (tx_buffer ++ [kiss_frame], buffer_overruns, true)
    else (tx_buffer, buffer_overruns + 1, false).

(** ** Decoding *)

Definition _process_received_frame (s : t) : t :=
  match rx_frame_buffer s with
  | [] => s
  | cmd_byte :: data =>
      let port := Z.shiftr (Z.land cmd_byte KISS_MASK_PORT) 4 in
      let cmd := Z.land cmd_byte KISS_MASK_CMD in
      if negb (port =? kiss_port s) then s
      else if cmd =? KISS_CMD_DATA then
        if listening s && (len data >? 0)
        then mk (kiss_port s) (listening s) (rx_frame_buffer s) (in_frame s) (escaped s) (frame_errors s)
               (frames_received s + 1) (bytes_received s + len data) (delivered s ++ [data])
        else s
      else s
  end.

Definition _decode_kiss_byte (s : t) (byte : Z) : t :=
  if byte =? KISS_FEND then
    let s := if in_frame s && (len (rx_frame_buffer s) >? 1) then _process_received_frame s else s in
    set_frame [] true false s
  else if byte =? KISS_FESC then
    if in_frame s then set_frame (rx_frame_buffer s) (in_frame s) true s else s
  else if escaped s then
    if (byte =? KISS_TFEND) || (byte =? KISS_TFESC) then
      let decoded := if byte =? KISS_TFEND then KISS_FEND else KISS_FESC in
      if len (rx_frame_buffer s) >=? MAX_FRAME_SIZE
      then set_frame [] false false (count_error s)
      else set_frame (rx_frame_buffer s ++ [decoded]) (in_frame s) false s
    else set_frame [] false false (count_error s)
  else if in_frame s then
    if len (rx_frame_buffer s) >=? MAX_FRAME_SIZE
    then set_frame [] false (escaped s) (count_error s)
    else set_frame (rx_frame_buffer s ++ [byte]) (in_frame s) (escaped s) s
  else s.

(** [data.find(b)] on what is left of the chunk. *)
Fixpoint find_byte (b : Z) (data : bytes) : option nat :=
  match data with
  | [] => None
  | x :: data' => if x =? b then Some 0%nat else S <$> find_byte b data'
  end.

(** [nxt]: the next delimiter. *)
Definition next_delimiter (data : bytes) : option nat :=
  match find_byte KISS_FEND data, find_byte KISS_FESC data with
  | None, fesc => fesc
  | fend, None => fend
  | Some fend, Some fesc => if (fend <? fesc)%nat then Some fend else Some fesc
  end.

(** A run of plain bytes. *)
Definition add_run (run : bytes) (s : t) : t :=
  if (len run >? 0) && in_frame s then
    let space := MAX_FRAME_SIZE - len (rx_frame_buffer s) in
    if len run <=? space then set_frame (rx_frame_buffer s ++ run) (in_frame s) (escaped s) s
    else set_frame [] false (escaped s) (count_error s)
  else s.

(** The loop of [_decode_kiss] on what is left of the chunk. *)
Fixpoint decode_loop (fuel : nat) (data : bytes) (s : t) : t :=
  match fuel, data with
  | S fuel', b :: rest =>
      if escaped s then
        let s := set_frame (rx_frame_buffer s) (in_frame s) false s in
        decode_loop fuel' rest
          (if (b =? KISS_TFEND) || (b =? KISS_TFESC) then
             let decoded := if b =? KISS_TFEND then KISS_FEND else KISS_FESC in
             if len (rx_frame_buffer s) >=? MAX_FRAME_SIZE
             then set_frame [] false (escaped s) (count_error s)
             else set_frame (rx_frame_buffer s ++ [decoded]) (in_frame s) (escaped s) s
           else set_frame [] false (escaped s) (count_error s))
      else
        match next_delimiter data with
        | None => add_run data s
        | Some run_end =>
            let s := add_run (take run_end data) s in
            match drop run_end data with
            | [] => s
            | b :: rest =>
                decode_loop fuel' rest
                  (if b =? KISS_FEND then
                     let s := if in_frame s && (len (rx_frame_buffer s) >? 1)
                              then _process_received_frame s else s in
                     set_frame [] true false s
                   else if in_frame s then set_frame (rx_frame_buffer s) (in_frame s) true s else s)
            end
        end
  | _, _ => s
  end.

(** Every iteration consumes a byte: the length of the chunk is enough fuel. *)
Definition _decode_kiss (data : bytes) (s : t) : t := decode_loop (length data) data s.

End Kiss.

Import Kiss.

(** ** The bulk decoder byte by byte *)

(** What one byte does in the bulk decoder: an escape is looked at first. *)
Definition bulk_byte (s : Kiss.t) (b : Z) : Kiss.t :=
  if escaped s then
    if (b =? KISS_TFEND) || (b =? KISS_TFESC) then
      if len (rx_frame_buffer s) >=? MAX_FRAME_SIZE then set_frame [] false false (count_error s)
      else set_frame (rx_frame_buffer s ++ [if b =? KISS_TFEND then KISS_FEND else KISS_FESC])
             (in_frame s) false s
    else set_frame [] false false (count_error s)
  else _decode_kiss_byte s b.

Definition plain (b : Z) : Prop := b ≠ KISS_FEND ∧ b ≠ KISS_FESC.

Lemma set_frame_same s : set_frame (rx_frame_buffer s) (in_frame s) (escaped s) s = s.
Proof. by destruct s. Qed.

Lemma bulk_plain s b :
  escaped s = false → plain b →
  bulk_byte s b =
    if in_frame s then
      if len (rx_frame_buffer s) >=? MAX_FRAME_SIZE then set_frame [] false false (count_error s)
      else set_frame (rx_frame_buffer s ++ [b]) true false s
    else s.
Proof.
  intros He [H1 H2]. unfold bulk_byte, _decode_kiss_byte. rewrite He.
  rewrite (proj2 (Z.eqb_neq _ _) H1), (proj2 (Z.eqb_neq _ _) H2). by destruct (in_frame s).
Qed.

Lemma run_outside run s :
  escaped s = false → in_frame s = false → Forall plain run → fold_left bulk_byte run s = s.
Proof.
  intros He Hi. induction 1 as [|b run Hb _ IH]; [done|]. cbn [fold_left].
  by rewrite bulk_plain, Hi.
Qed.

(** A run of plain bytes, byte by byte. *)
Lemma run_bulk run s :
  escaped s = false → Forall plain run → fold_left bulk_byte run s = add_run run s.
Proof.
  intros He Hr. revert s He. induction Hr as [|b run Hb Hr IH]; intros s He; [done|].
  cbn [fold_left]. rewrite bulk_plain by done. unfold add_run. pose proof (len_nonneg run).
  rewrite len_cons. replace (1 + len run >? 0) with true by lia. cbn [andb].
  destruct (in_frame s) eqn:Ei; [|by apply run_outside].
  destruct (len (rx_frame_buffer s) >=? MAX_FRAME_SIZE) eqn:Ef; bool_hyps.
  - rewrite run_outside by done. replace (1 + len run <=? _) with false by lia. by rewrite He.
  - rewrite IH by done. unfold add_run. cbn [in_frame set_frame rx_frame_buffer escaped].
    rewrite len_app. change (len [b]) with 1. rewrite andb_true_r. destruct (len run >? 0) eqn:El; bool_hyps.
    + replace (1 + len run <=? _) with (len run <=? MAX_FRAME_SIZE - (len (rx_frame_buffer s) + 1)) by lia.
      rewrite He. destruct (_ <=? _); [|done]. by rewrite <- app_assoc.
    + replace (1 + len run <=? _) with true by lia. assert (run = []) as -> by (apply len_zero_iff; lia).
      by rewrite He.
Qed.

(** ** Finding delimiters *)

Lemma find_byte_spec b data :
  match find_byte b data with
  | None => Forall (λ x, x ≠ b) data
  | Some n => Forall (λ x, x ≠ b) (take n data) ∧ ∃ rest, drop n data = b :: rest
  end.
Proof.
  induction data as [|x data IH]; [constructor|]. cbn [find_byte].
  destruct (Z.eqb_spec x b) as [->|Hne]; [split; [constructor|by eexists]|].
  destruct (find_byte b data) as [n|]; cbn.
  - destruct IH as [IH1 IH2]. split; [by constructor|done].
  - by constructor.
Qed.

Lemma Forall_take_le {A} (P : A → Prop) n m (l : list A) :
  (n ≤ m)%nat → Forall P (take m l) → Forall P (take n l).
Proof.
  intros Hnm Hm. replace (take n l) with (take n (take m l)) by (rewrite take_take; f_equal; lia).
  by apply Forall_take.
Qed.

Lemma next_delimiter_spec data :
  match next_delimiter data with
  | None => Forall plain data
  | Some n => Forall plain (take n data)
              ∧ ∃ b rest, drop n data = b :: rest ∧ (b = KISS_FEND ∨ b = KISS_FESC)
  end.
Proof.
  pose proof (find_byte_spec KISS_FEND data) as H1. pose proof (find_byte_spec KISS_FESC data) as H2.
  unfold next_delimiter, plain.
  destruct (find_byte KISS_FEND data) as [n1|], (find_byte KISS_FESC data) as [n2|].
  - destruct H1 as [H1 [r1 E1]], H2 as [H2 [r2 E2]]. destruct (Nat.ltb_spec n1 n2).
    + split; [|eauto]. apply Forall_and. split; [done|]. by apply (Forall_take_le _ _ n2); [lia|].
    + split; [|eauto]. apply Forall_and. split; [|done]. by apply (Forall_take_le _ _ n1); [lia|].
  - destruct H1 as [H1 [r1 E1]]. split; [|eauto]. apply Forall_and. split; [done|]. by apply Forall_take.
  - destruct H2 as [H2 [r2 E2]]. split; [|eauto]. apply Forall_and. split; [|done]. by apply Forall_take.
  - by apply Forall_and.
Qed.

(** The bulk decoder is the fold of its byte step; its fuel is enough. *)
Lemma decode_loop_fold fuel data s :
  (length data ≤ fuel)%nat → decode_loop fuel data s = fold_left bulk_byte data s.
Proof.
  revert data s. induction fuel as [|fuel IH]; intros data s Hf; destruct data as [|b rest]; try done;
    [cbn in Hf; lia|].
  cbn [decode_loop]. destruct (escaped s) eqn:He.
  - cbn [length] in Hf. rewrite IH by lia. cbn [fold_left]. f_equal. unfold bulk_byte. rewrite He. by cbn.
  - pose proof (next_delimiter_spec (b :: rest)) as Hn.
    destruct (next_delimiter (b :: rest)) as [n|]; [|by rewrite run_bulk].
    destruct Hn as (Hp & d & rest' & Hd & Hdd).
    replace (fold_left bulk_byte (b :: rest) s)
      with (fold_left bulk_byte (take n (b :: rest) ++ drop n (b :: rest)) s) by (by rewrite take_drop).
    rewrite fold_left_app, Hd, (run_bulk (take n (b :: rest))) by done.
    assert (length rest' ≤ fuel)%nat as Hl.
    { apply (f_equal length) in Hd. rewrite length_drop in Hd. cbn [length] in *. lia. }
    rewrite IH by done. cbn [fold_left]. f_equal.
    set (s1 := add_run (take n (b :: rest)) s).
    assert (escaped s1 = false) as He1
      by (unfold s1, add_run; repeat case_match; cbn; done).
    unfold bulk_byte, _decode_kiss_byte. rewrite He1. by destruct Hdd as [->| ->].
Qed.

Lemma decode_kiss_fold data s : _decode_kiss data s = fold_left bulk_byte data s.
Proof. by apply decode_loop_fold. Qed.

(** ** The two decoders *)

(** No FESC is followed by a delimiter ([esc]: the byte before was FESC). *)
Fixpoint well_escaped (esc : bool) (data : bytes) : bool :=
  match data with
  | [] => true
  | b :: data' =>
      (if esc then negb ((b =? KISS_FEND) || (b =? KISS_FESC)) else true)
      && well_escaped (b =? KISS_FESC) data'
  end.

(** An escape is pending only after a FESC. *)
Lemma bulk_escaped s b : escaped (bulk_byte s b) = true → b = KISS_FESC.
Proof.
  unfold bulk_byte, _decode_kiss_byte. destruct (escaped s) eqn:He; repeat case_match; cbn; try done; bool_hyps;
    intros; congruence.
Qed.

Lemma bulk_byte_same s b :
  (escaped s = true → b ≠ KISS_FEND ∧ b ≠ KISS_FESC) → bulk_byte s b = _decode_kiss_byte s b.
Proof.
  intros Hs. unfold bulk_byte, _decode_kiss_byte. destruct (escaped s); [|done].
  destruct Hs as [H1 H2]; [done|].
  by rewrite (proj2 (Z.eqb_neq _ _) H1), (proj2 (Z.eqb_neq _ _) H2).
Qed.

Lemma folds_agree data s esc :
  (escaped s = true → esc = true) → well_escaped esc data = true →
  fold_left bulk_byte data s = fold_left _decode_kiss_byte data s.
Proof.
  revert s esc. induction data as [|b data IH]; intros s esc Hs Hw; [done|].
  cbn [well_escaped] in Hw. apply andb_true_iff in Hw as [Hb Hw]. cbn [fold_left].
  rewrite <- (bulk_byte_same s b).
  - apply (IH _ (b =? KISS_FESC)); [|done]. intros He%bulk_escaped. by apply Z.eqb_eq.
  - intros He. rewrite (Hs He) in Hb. bool_hyps. done.
Qed.

(** The bulk decoder does what feeding its bytes one by one to the
    byte-wise decoder does, for every state and every chunk in which no FESC is
    followed by FEND or FESC (a valid KISS stream has none). *)
Theorem kiss_bulk_equiv data s :
  well_escaped (escaped s) data = true → _decode_kiss data s = fold_left _decode_kiss_byte data s.
Proof. intros Hw. rewrite decode_kiss_fold. by apply (folds_agree _ _ (escaped s)). Qed.

(** ** Frames through the decoder *)

Definition port_ok (port : Z) : Prop := 0 ≤ port < 16 ∧ port ≠ 12.

(** The command byte of a data frame, and back. *)
Lemma cmd_byte_port port :
  0 ≤ port < 16 →
  cmd_byte port KISS_CMD_DATA = 16 * port
  ∧ Z.shiftr (Z.land (16 * port) KISS_MASK_PORT) 4 = port ∧ Z.land (16 * port) KISS_MASK_CMD = 0.
Proof.
  intros Hp.
  pose (P := fun p : Z => (cmd_byte p KISS_CMD_DATA =? 16 * p)
    && (Z.shiftr (Z.land (16 * p) KISS_MASK_PORT) 4 =? p) && (Z.land (16 * p) KISS_MASK_CMD =? 0)).
  assert (P port = true) as H by (apply (forall_below P 16); [vm_compute; reflexivity|lia]).
  unfold P in H. bool_hyps. done.
Qed.

(** A complete data frame is delivered. *)
Lemma process_data_frame s port data :
  0 ≤ port < 16 → kiss_port s = port → listening s = true → rx_frame_buffer s = 16 * port :: data →
  data ≠ [] →
  _process_received_frame s =
  mk port true (16 * port :: data) (in_frame s) (escaped s) (frame_errors s)
    (frames_received s + 1) (bytes_received s + len data) (delivered s ++ [data]).
Proof.
  intros Hp Hk Hl Hb Hne. unfold _process_received_frame. rewrite Hb, Hk, Hl.
  destruct (cmd_byte_port port Hp) as (_ & -> & ->). rewrite Z.eqb_refl.
  change (negb true) with false. cbv iota. change (0 =? KISS_CMD_DATA) with true. cbv iota.
  assert (len data ≠ 0) by (by rewrite len_zero_iff). pose proof (len_nonneg data).
  by replace (len data >? 0) with true by lia.
Qed.

(** FEND ends a frame, in either decoder. *)
Lemma fend_delivers s port data :
  0 ≤ port < 16 → kiss_port s = port → listening s = true → in_frame s = true →
  rx_frame_buffer s = 16 * port :: data → data ≠ [] →
  _decode_kiss_byte s KISS_FEND =
  mk port true [] true false (frame_errors s)
    (frames_received s + 1) (bytes_received s + len data) (delivered s ++ [data]).
Proof.
  intros Hp Hk Hl Hi Hb Hne. unfold _decode_kiss_byte. change (KISS_FEND =? KISS_FEND) with true. cbv iota.
  rewrite Hi, Hb, len_cons. assert (len data ≠ 0) by (by rewrite len_zero_iff). pose proof (len_nonneg data).
  replace (1 + len data >? 1) with true by lia. cbn [andb]. by rewrite (process_data_frame _ port data).
Qed.

(** Escaped data is collected unescaped. *)
Lemma fold_escape data s :
  escaped s = false → in_frame s = true → len (rx_frame_buffer s) + len data ≤ MAX_FRAME_SIZE →
  fold_left bulk_byte (escape data) s = set_frame (rx_frame_buffer s ++ data) true false s.
Proof.
  revert s. induction data as [|b data IH]; intros s He Hi Hl.
  { rewrite app_nil_r. rewrite <- Hi, <- He. symmetry. apply set_frame_same. }
  rewrite len_cons in Hl. pose proof (len_nonneg data). cbn [escape]. rewrite fold_left_app.
  assert (fold_left bulk_byte
            (if b =? KISS_FEND then [KISS_FESC; KISS_TFEND]
             else if b =? KISS_FESC then [KISS_FESC; KISS_TFESC] else [b]) s
          = set_frame (rx_frame_buffer s ++ [b]) true false s) as ->.
  { destruct (Z.eqb_spec b KISS_FEND) as [->|H1]; [|destruct (Z.eqb_spec b KISS_FESC) as [->|H2]].
    1,2: cbn [fold_left]; unfold bulk_byte at 2; rewrite He;
      unfold _decode_kiss_byte; change (KISS_FESC =? KISS_FEND) with false;
      change (KISS_FESC =? KISS_FESC) with true; cbv iota; rewrite Hi;
      unfold bulk_byte; cbn [escaped set_frame rx_frame_buffer in_frame];
      replace (len (rx_frame_buffer s) >=? MAX_FRAME_SIZE) with false by lia; done.
    cbn [fold_left]. rewrite bulk_plain, Hi by done.
    by replace (len (rx_frame_buffer s) >=? MAX_FRAME_SIZE) with false by lia. }
  rewrite IH; [|done|done|cbn; rewrite len_app; change (len [b]) with 1; lia].
  cbn. by rewrite <- app_assoc.
Qed.

(** Between frames: nothing pending. *)
Definition idle (port : Z) (s : Kiss.t) : Prop :=
  escaped s = false ∧ len (rx_frame_buffer s) ≤ 1 ∧ kiss_port s = port ∧ listening s = true.

Lemma fold_frame port data s :
  port_ok port → idle port s → data ≠ [] → len data < MAX_FRAME_SIZE →
  idle port (fold_left bulk_byte (_encode_kiss_frame port KISS_CMD_DATA data) s)
  ∧ delivered (fold_left bulk_byte (_encode_kiss_frame port KISS_CMD_DATA data) s) = delivered s ++ [data].
Proof.
  intros [Hp H12] (He & Hb & Hk & Hl) Hne Hd. unfold _encode_kiss_frame. destruct (cmd_byte_port port Hp) as [-> _].
  cbn [app fold_left].
  assert (bulk_byte s KISS_FEND = set_frame [] true false s) as ->.
  { unfold bulk_byte, _decode_kiss_byte. rewrite He. change (KISS_FEND =? KISS_FEND) with true. cbv iota.
    replace (len (rx_frame_buffer s) >? 1) with false by lia. by rewrite andb_false_r. }
  rewrite bulk_plain by (done || (unfold plain, KISS_FEND, KISS_FESC; lia)).
  cbn [in_frame set_frame rx_frame_buffer]. change (len [] >=? MAX_FRAME_SIZE) with false. cbv iota.
  rewrite fold_left_app, fold_escape by (done || (cbn; unfold len in *; cbn; lia)).
  cbn [fold_left]. unfold bulk_byte at 1 2. cbn [escaped set_frame].
  rewrite (fend_delivers _ port data) by done. unfold idle. cbn. by rewrite len_nil.
Qed.

Lemma fold_frames port ds s :
  port_ok port → idle port s → Forall (λ d, d ≠ [] ∧ len d < MAX_FRAME_SIZE) ds →
  delivered (fold_left bulk_byte (concat (map (_encode_kiss_frame port KISS_CMD_DATA) ds)) s)
  = delivered s ++ ds.
Proof.
  intros Hp Hs Hd. revert s Hs. induction Hd as [|d ds [Hne Hl] _ IH]; intros s Hs; [by rewrite app_nil_r|].
  cbn [map concat]. rewrite fold_left_app. destruct (fold_frame port d s Hp Hs Hne Hl) as [Hi Hdel].
  rewrite IH by done. by rewrite Hdel, <- app_assoc.
Qed.

(** Chunks are decoded as the stream they are cut from. *)
Lemma decode_chunks chunks s :
  fold_left (λ s c, _decode_kiss c s) chunks s = fold_left bulk_byte (concat chunks) s.
Proof.
  revert s. induction chunks as [|c chunks IH]; intros s; [done|].
  cbn [fold_left concat]. by rewrite IH, fold_left_app, decode_kiss_fold.
Qed.

(** Frames survive the serial line: encoded data frames, read in chunks
    cut anywhere (inside frames and escape sequences), are delivered to the
    callback exactly as they were sent, in order, for every KISS port but 12
    and payloads of 1 to 511 bytes, from any state between frames. *)
Theorem kiss_stream_roundtrip port ds chunks s :
  port_ok port → idle port s → Forall (λ d, d ≠ [] ∧ len d < MAX_FRAME_SIZE) ds →
  concat chunks = concat (map (_encode_kiss_frame port KISS_CMD_DATA) ds) →
  delivered (fold_left (λ s c, _decode_kiss c s) chunks s) = delivered s ++ ds.
Proof. intros Hp Hs Hd Hc. rewrite decode_chunks, Hc. by apply fold_frames. Qed.

(** The decoders disagree on a FESC before a FEND: the byte-wise decoder
    ends the frame and delivers what it has, the bulk decoder counts an error,
    drops the frame and waits for another FEND. *)
Theorem kiss_decoders_diverge port data s :
  0 ≤ port < 16 → kiss_port s = port → listening s = true → in_frame s = true → escaped s = false →
  rx_frame_buffer s = 16 * port :: data → data ≠ [] →
  let bytewise := fold_left _decode_kiss_byte [KISS_FESC; KISS_FEND] s in
  let bulk := _decode_kiss [KISS_FESC; KISS_FEND] s in
  (delivered bytewise = delivered s ++ [data] ∧ in_frame bytewise = true)
  ∧ (delivered bulk = delivered s ∧ in_frame bulk = false ∧ frame_errors bulk = frame_errors s + 1).
Proof.
  intros Hp Hk Hl Hi He Hb Hne. cbv zeta. rewrite decode_kiss_fold. cbn [fold_left].
  assert (_decode_kiss_byte s KISS_FESC = set_frame (rx_frame_buffer s) true true s) as Hs
    by (unfold _decode_kiss_byte; change (KISS_FESC =? KISS_FEND) with false; cbv iota; by rewrite Hi).
  assert (bulk_byte s KISS_FESC = set_frame (rx_frame_buffer s) true true s) as ->
    by (unfold bulk_byte; by rewrite He).
  rewrite Hs. split; [|done]. by rewrite (fend_delivers _ port data).
Qed.

(** ** Instances *)

Definition sample_rx : Kiss.t := Kiss.init 2 true.

(** A frame with both delimiters in it, byte by byte and in one chunk. *)
Lemma kiss_bulk_equiv_witness :
  let frame := _encode_kiss_frame 2 KISS_CMD_DATA [1; KISS_FEND; KISS_FESC; 2] in
  _decode_kiss frame sample_rx = fold_left _decode_kiss_byte frame sample_rx
  ∧ delivered (_decode_kiss frame sample_rx) = [[1; KISS_FEND; KISS_FESC; 2]].
Proof. split; [apply kiss_bulk_equiv; vm_compute; reflexivity|vm_compute; reflexivity]. Defined.

(** Two frames in three chunks, one cut inside an escape sequence. *)
Lemma kiss_stream_roundtrip_witness :
  delivered (fold_left (λ s c, _decode_kiss c s)
    [[KISS_FEND; 32; 7; KISS_FESC]; [KISS_TFEND; KISS_FEND; KISS_FEND]; [32; 8; KISS_FEND]] sample_rx)
  = [[7; KISS_FEND]; [8]].
Proof.
  apply (kiss_stream_roundtrip 2 [[7; KISS_FEND]; [8]]).
  - split; [lia|discriminate].
  - split; [reflexivity|]. split; [discriminate|]. split; reflexivity.
  - repeat constructor; discriminate.
  - reflexivity.
Defined.

Lemma kiss_decoders_diverge_witness :
  let s := _decode_kiss [KISS_FEND; 32; 65] sample_rx in
  delivered (fold_left _decode_kiss_byte [KISS_FESC; KISS_FEND] s) = [[65]]
  ∧ delivered (_decode_kiss [KISS_FESC; KISS_FEND] s) = [].
Proof.
  destruct (kiss_decoders_diverge 2 [65] (_decode_kiss [KISS_FEND; 32; 65] sample_rx))
    as [[H1 _] [H2 _]]; try reflexivity; [lia|discriminate|].
  split; [exact H1|exact H2].
Defined.
