(* ===== verification/Stores.v ===== *)
(** * The companion's stores ([companion/message_queue.py],
      [companion/path_cache.py], [companion/channel_store.py],
      [companion/stats_collector.py], with their data from
      [companion/models.py]); the contact store is in [Contacts]

    A store is the record of its attributes; a method that changes it returns
    the new store with its result. *)

From S2P Require Import Prelude PyData Utf8 PyFloat.

(** ** Data models *)
Module Models.

Record Contact := mkContact {
  public_key : bytes;
  name : pystr;
  adv_type : Z;
  flags : Z;
  out_path_len : Z;
  out_path : bytes;
  last_advert_timestamp : Z;
  lastmod : Z;
  gps_lat : float;
  gps_lon : float;
  sync_since : Z;
  last_advert_packet : option bytes
}.

Record Channel := mkChannel { ch_name : pystr; ch_secret : bytes }.

Record PacketStats := mkStats { flood_tx : Z; flood_rx : Z; direct_tx : Z; direct_rx : Z; tx_errors : Z }.

Record AdvertPath := mkAdvertPath {
  public_key_prefix : bytes;
  ap_name : pystr;
  ap_path_len : Z;
  ap_path : bytes;
  recv_timestamp : Z
}.

(** A queued message; [obj] is the identity of the Python object. *)
Record QueuedMessage := mkQueued {
  obj : nat;
  sender_key : bytes;
  txt_type : Z;
  timestamp : Z;
  text : pystr;
  is_channel : bool;
  channel_idx : Z;
  path_len : Z;
  snr : float;
  rssi : Z;
  channel_data_type : Z;
  channel_data_payload : bytes;
  sender_prefix : bytes
}.

End Models.

(** ** MessageQueue *)
Module MessageQueue.
Import Models.

Record t := mk { _queue : list QueuedMessage; _max_size : Z }.

Definition init (max_size : Z) : t := mk [] max_size.

(** [for index, queued in enumerate(q): if p(queued): del q[index]; break];
    [None]: the loop ended without a break. *)
Fixpoint del_first (p : QueuedMessage → bool) (q : list QueuedMessage) : option (list QueuedMessage) :=
  match q with
  | [] => None
  | m :: q' => if p m then Some q' else cons m <$> del_first p q'
  end.

Definition push (msg : QueuedMessage) (s : t) : t * bool :=
  if _max_size s <=? 0 then (s, false)
  else if len (_queue s) >=? _max_size s then
    match del_first is_channel (_queue s) with
    | Some q => (mk (q ++ [msg]) (_max_size s), true)
    | None => (s, false)
    end
  else (mk (_queue s ++ [msg]) (_max_size s), true).

Definition pop (s : t) : t * option QueuedMessage :=
  match _queue s with
  | [] => (s, None)
  | m :: q => (mk q (_max_size s), Some m)
  end.

Definition pop_last (s : t) : t * option QueuedMessage :=
  match last (_queue s) with
  | None => (s, None)
  | Some m => (mk (removelast (_queue s)) (_max_size s), Some m)
  end.

Definition remove (msg : QueuedMessage) (s : t) : t * bool :=
  match del_first (fun m => (obj m =? obj msg)%nat) (_queue s) with
  | Some q => (mk q (_max_size s), true)
  | None => (s, false)
  end.

Definition peek (s : t) : option QueuedMessage := head (_queue s).
Definition is_empty (s : t) : bool := len (_queue s) =? 0.
Definition is_full (s : t) : bool := len (_queue s) >=? _max_size s.
Definition count (s : t) : Z := len (_queue s).
Definition clear (s : t) : t := mk [] (_max_size s).

End MessageQueue.

(** ** PathCache *)
Module PathCache.
Import Models.

Record t := mk { _paths : list AdvertPath; _max : Z }.

Definition init (max_entries : Z) : t := mk [] max_entries.

(** The first entry of the prefix is removed. ([deque.remove] removes the
    first entry equal to it, which is that entry.) *)
Fixpoint drop_prefix (prefix : bytes) (l : list AdvertPath) : list AdvertPath :=
  match l with
  | [] => []
  | e :: l' => if bytes_eqb (public_key_prefix e) prefix then l' else e :: drop_prefix prefix l'
  end.

(** [popleft] of an empty deque raises. *)
Definition update (advert_path : AdvertPath) : py t unit :=
  modify (fun s => mk (drop_prefix (public_key_prefix advert_path) (_paths s)) (_max s));;
  s ← get;
  (if len (_paths s) >=? _max s
   then match _paths s with
        | [] => raise IndexError
        | _ :: l => modify (fun s => mk l (_max s))
        end
   else mret tt);;
  modify (fun s => mk (_paths s ++ [advert_path]) (_max s)).

Definition get_by_prefix (prefix : bytes) (s : t) : option AdvertPath :=
  List.find (fun path => bytes_eqb (slice_to (public_key_prefix path) (len prefix)) prefix) (_paths s).

Definition get_all (s : t) : list AdvertPath := _paths s.
Definition clear (s : t) : t := mk [] (_max s).

End PathCache.

(** ** ChannelStore *)
Module ChannelStore.
Import Models.

Record t := mk { _channels : list (option Channel); _max_channels : Z }.

Definition init (max_channels : Z) : t := mk (replicate (Z.to_nat max_channels) None) max_channels.

(** The dictionaries [{"name", "secret"}] of the configured channels. *)
Definition get_channels (s : t) : list (pystr * string) :=
  concat (map (fun ch => match ch with Some c => [(ch_name c, hex (ch_secret c))] | None => [] end)
            (_channels s)).

Definition get (idx : Z) (s : t) : option Channel :=
  if (0 <=? idx) && (idx <? _max_channels s) then mjoin (_channels s !! Z.to_nat idx) else None.

Definition set (idx : Z) (channel : Channel) (s : t) : t * bool :=
  if (0 <=? idx) && (idx <? _max_channels s)
  then (mk (<[Z.to_nat idx := Some channel]> (_channels s)) (_max_channels s), true)
  else (s, false).

Definition remove (idx : Z) (s : t) : t * bool :=
  if (0 <=? idx) && (idx <? _max_channels s)
     && match mjoin (_channels s !! Z.to_nat idx) with Some _ => true | None => false end
  then (mk (<[Z.to_nat idx := None]> (_channels s)) (_max_channels s), true)
  else (s, false).

Fixpoint find_from (name : pystr) (i : Z) (l : list (option Channel)) : option Z :=
  match l with
  | [] => None
  | Some ch :: l' => if bool_decide (ch_name ch = name) then Some i else find_from name (i + 1) l'
  | None :: l' => find_from name (i + 1) l'
  end.

Definition find_by_name (name : pystr) (s : t) : option Z := find_from name 0 (_channels s).

Definition get_count (s : t) : Z :=
  len (List.filter (fun ch => match ch with Some _ => true | None => false end) (_channels s)).

Definition clear (s : t) : t := init (_max_channels s).

End ChannelStore.

(** ** StatsCollector *)
Module StatsCollector.
Import Models.

Record t := mk { packets : PacketStats; _start_time : float }.

Definition init (now : float) : t := mk (mkStats 0 0 0 0 0) now.

Definition record_tx (is_flood : bool) (s : t) : t :=
  let p := packets s in
  mk (if is_flood then mkStats (flood_tx p + 1) (flood_rx p) (direct_tx p) (direct_rx p) (tx_errors p)
      else mkStats (flood_tx p) (flood_rx p) (direct_tx p + 1) (direct_rx p) (tx_errors p)) (_start_time s).

Definition record_rx (is_flood : bool) (s : t) : t :=
  let p := packets s in
  mk (if is_flood then mkStats (flood_tx p) (flood_rx p + 1) (direct_tx p) (direct_rx p) (tx_errors p)
      else mkStats (flood_tx p) (flood_rx p) (direct_tx p) (direct_rx p + 1) (tx_errors p)) (_start_time s).

Definition record_tx_error (s : t) : t :=
  let p := packets s in
  mk (mkStats (flood_tx p) (flood_rx p) (direct_tx p) (direct_rx p) (tx_errors p + 1)) (_start_time s).

Definition get_uptime_secs (now : float) (s : t) : res Z := int_of_float (fsub now (_start_time s)).

(** The summary: the counters, [total_tx], [total_rx], [uptime_secs]. *)
Definition get_totals (now : float) (s : t) : res (PacketStats * Z * Z * Z) :=
  let p := packets s in
  uptime_secs ← get_uptime_secs now s;
  mret (p, flood_tx p + direct_tx p, flood_rx p + direct_rx p, uptime_secs).

Definition reset (now : float) (s : t) : t := mk (mkStats 0 0 0 0 0) now.

End StatsCollector.

Import Models.

(** ** The message queue: direct messages are conserved *)

Definition direct (m : QueuedMessage) : Prop := is_channel m = false.

Global Instance direct_dec m : Decision (direct m).
Proof. unfold direct. apply _. Defined.

Inductive queue_op : Type :=
| QPush (m : QueuedMessage)
| QPop
| QPopLast
| QRemove (m : QueuedMessage)
| QClear.

(** A queue with the direct messages it accepted and those it handed out. *)
Record queue_history := mkHistory {
  queue : MessageQueue.t;
  accepted : list QueuedMessage;
  taken : list QueuedMessage
}.

Definition only_direct (l : list QueuedMessage) : list QueuedMessage := filter direct l.

Arguments only_direct : simpl never.

(** What left the queue: the difference of its contents. *)
Definition queue_step (h : queue_history) (op : queue_op) : queue_history :=
  let q := queue h in
  match op with
  | QPush m =>
      let '(q', ok) := MessageQueue.push m q in
      mkHistory q' (if ok then accepted h ++ only_direct [m] else accepted h) (taken h)
  | QPop =>
      let '(q', r) := MessageQueue.pop q in
      mkHistory q' (accepted h) (taken h ++ only_direct (option_list r))
  | QPopLast =>
      let '(q', r) := MessageQueue.pop_last q in
      mkHistory q' (accepted h) (taken h ++ only_direct (option_list r))
  | QRemove m =>
      let '(q', ok) := MessageQueue.remove m q in
      mkHistory q' (accepted h)
        (taken h ++ only_direct (option_list
           (if ok then List.find (fun x => (obj x =? obj m)%nat) (MessageQueue._queue q) else None)))
  | QClear => mkHistory (MessageQueue.clear q) (accepted h) (taken h ++ only_direct (MessageQueue._queue q))
  end.

Definition queue_run (max_size : Z) (ops : list queue_op) : queue_history :=
  fold_left queue_step ops (mkHistory (MessageQueue.init max_size) [] []).

Lemma only_direct_app l k : only_direct (l ++ k) = only_direct l ++ only_direct k.
Proof. apply filter_app. Qed.

(** [del_first] takes out the first match. *)
Lemma del_first_spec p q :
  match MessageQueue.del_first p q with
  | Some q' => ∃ a m b, q = a ++ m :: b ∧ q' = a ++ b ∧ p m = true ∧ List.find p q = Some m
  | None => Forall (λ m, p m = false) q
  end.
Proof.
  induction q as [|m q IH]; [constructor|]. cbn. destruct (p m) eqn:E.
  - exists [], m, q. done.
  - destruct (MessageQueue.del_first p q) as [q'|]; cbn; [|by constructor].
    destruct IH as (a & x & b & -> & -> & Hp & Hf). exists (m :: a), x, b. done.
Qed.

Lemma only_direct_channel a m b :
  is_channel m = true → only_direct (a ++ m :: b) = only_direct (a ++ b).
Proof.
  intros Hm. rewrite !only_direct_app. f_equal. unfold only_direct.
  by rewrite filter_cons_False by (unfold direct; congruence).
Qed.

(** The invariant of a run. *)
Definition queue_ok (h : queue_history) : Prop :=
  accepted h ≡ₚ taken h ++ only_direct (MessageQueue._queue (queue h))
  ∧ len (MessageQueue._queue (queue h)) ≤ Z.max 0 (MessageQueue._max_size (queue h)).

Lemma push_spec m q :
  let r := MessageQueue.push m q in
  MessageQueue._max_size r.1 = MessageQueue._max_size q
  ∧ (len (MessageQueue._queue q) ≤ Z.max 0 (MessageQueue._max_size q) →
     len (MessageQueue._queue r.1) ≤ Z.max 0 (MessageQueue._max_size q))
  ∧ only_direct (MessageQueue._queue r.1)
    = only_direct (MessageQueue._queue q) ++ (if r.2 then only_direct [m] else []).
Proof.
  destruct q as [q n]. unfold MessageQueue.push. cbn [MessageQueue._queue MessageQueue._max_size].
  destruct (n <=? 0) eqn:E0; [by rewrite app_nil_r|]. bool_hyps.
  destruct (len q >=? n) eqn:E1; bool_hyps.
  - pose proof (del_first_spec is_channel q) as Hd. destruct (MessageQueue.del_first is_channel q) as [q'|].
    + destruct Hd as (a & x & b & -> & -> & Hx & _). cbn. split_and!; [done| |].
      * autorewrite with pylen. lia.
      * by rewrite only_direct_app, only_direct_channel.
    + cbn. by rewrite app_nil_r.
  - cbn. split_and!; [done| |by rewrite only_direct_app]. rewrite len_app. change (len [m]) with 1. lia.
Qed.

Lemma queue_step_ok h op : queue_ok h → queue_ok (queue_step h op).
Proof.
  intros [Hp Hl]. destruct op as [m| | |m|]; cbn [queue_step].
  - pose proof (push_spec m (queue h)) as (Hm & Hb & Hd).
    destruct (MessageQueue.push m (queue h)) as [q' ok]. cbn [fst snd] in *. unfold queue_ok. cbn.
    rewrite Hm, Hd. split; [|by apply Hb]. destruct ok; rewrite ?app_nil_r; [|done].
    by rewrite Hp, <- app_assoc.
  - destruct (queue h) as [q n]. unfold MessageQueue.pop, queue_ok in *. cbn in *.
    destruct q as [|x q]; cbn in *.
    + split; [|done]. by rewrite app_nil_r.
    + rewrite len_cons in Hl. split; [|lia]. rewrite Hp, <- app_assoc. f_equiv.
      by rewrite <- (only_direct_app [x] q).
  - destruct (queue h) as [q n]. unfold MessageQueue.pop_last, queue_ok in *. cbn in *.
    destruct (last q) as [x|] eqn:E; cbn.
    + apply last_Some in E as [q' ->]. rewrite removelast_last, only_direct_app, len_app in *.
      change (len [x]) with 1 in Hl. split; [|lia]. rewrite Hp, <- app_assoc. f_equiv.
      apply Permutation_app_comm.
    + split; [|done]. by rewrite app_nil_r.
  - destruct (queue h) as [q n]. unfold MessageQueue.remove, queue_ok in *. cbn in *.
    pose proof (del_first_spec (fun x => (obj x =? obj m)%nat) q) as Hd.
    destruct (MessageQueue.del_first _ q) as [q'|]; cbn.
    + destruct Hd as (a & x & b & -> & -> & _ & ->). cbn. autorewrite with pylen in *. split; [|lia].
      rewrite Hp, <- app_assoc. f_equiv. rewrite <- only_direct_app. cbn [option_list app].
      unfold only_direct. apply filter_Permutation. symmetry. apply Permutation_middle.
    + split; [|done]. by rewrite app_nil_r.
  - unfold queue_ok. cbn. rewrite app_nil_r, len_nil. split; [done|lia].
Qed.

(** The offline queue never loses a direct message: whatever the order
    of arrivals and reads, the direct messages it accepted are exactly those it
    handed out and those it still holds, and it never exceeds its size. *)
Theorem direct_messages_conserved max_size ops :
  let h := queue_run max_size ops in
  accepted h ≡ₚ taken h ++ only_direct (MessageQueue._queue (queue h))
  ∧ len (MessageQueue._queue (queue h)) ≤ Z.max 0 (MessageQueue._max_size (queue h)).
Proof.
  cbv zeta. change (queue_ok (queue_run max_size ops)). unfold queue_run.
  assert (queue_ok (mkHistory (MessageQueue.init max_size) [] [])) as H0
    by (unfold queue_ok; cbn; rewrite len_nil; split; [done|lia]).
  revert H0. generalize (mkHistory (MessageQueue.init max_size) [] []).
  induction ops as [|op ops IH]; intros h Hh; [done|]. cbn [fold_left]. by apply IH, queue_step_ok.
Qed.
