(* ===== verification/Contacts.v ===== *)
(** * The contact store ([companion/contact_store.py]) and the application of
      adverts to the stores ([companion/base_contacts.py]) *)

From S2P Require Import Prelude PyData Utf8 PyFloat ODict PacketUtils PacketBuilder Stores.

(** ** ContactStore *)
Module ContactStore.
Import Models.

Definition ADV_TYPE_NONE : Z := 0.
Definition MAX_ANON_CONTACTS : Z := 8.

(** The proxy a handler or builder sees of a contact. *)
Record ContactProxy := mkProxy {
  proxy_name : pystr;
  proxy_flags : Z;
  proxy_contact : PacketBuilder.contact;
  proxy_last_advert_timestamp : Z;
  proxy_lastmod : Z;
  proxy_gps : float * float
}.

Definition proxy_of (c : Contact) : ContactProxy :=
  mkProxy (name c) (flags c)
    (PacketBuilder.mkContact (hex (public_key c)) (out_path_len c) (out_path c) (adv_type c) (sync_since c))
    (last_advert_timestamp c) (lastmod c) (gps_lat c, gps_lon c).

Record t := mk {
  _contacts : list (bytes * Contact);
  _proxies : list (bytes * ContactProxy);
  _max_contacts : Z
}.

Definition init (max_contacts : Z) : t := mk [] [] max_contacts.

(** [self._contacts[key] = contact; self._proxies[key] = ContactProxy(contact)] *)
Definition put (contact : Contact) (s : t) : t :=
  mk (dset (public_key contact) contact (_contacts s))
     (dset (public_key contact) (proxy_of contact) (_proxies s)) (_max_contacts s).

Definition is_full (s : t) : bool := len (_contacts s) >=? _max_contacts s.

(** [add] and [update] call each other; neither calls back. *)
Definition add (contact : Contact) (s : t) : t * bool :=
  if dmem (public_key contact) (_contacts s) then (put contact s, true)
  else if len (_contacts s) >=? _max_contacts s then (s, false)
  else (put contact s, true).

Definition update (contact : Contact) (s : t) : t * bool :=
  if negb (dmem (public_key contact) (_contacts s)) then add contact s else (put contact s, true).

Definition remove (key : bytes) (s : t) : t * bool :=
  if negb (dmem key (_contacts s)) then (s, false)
  else (mk (ddel key (_contacts s)) (ddel key (_proxies s)) (_max_contacts s), true).

(** A contact that may be overwritten: neither favourite nor transient. *)
Definition evictable (c : Contact) : bool :=
  (Z.land (flags c) 0x01 =? 0) && negb (adv_type c =? ADV_TYPE_NONE).

(** The scan of [add_or_overwrite]: the key found so far and its [lastmod]. *)
Definition scan_oldest (best : option bytes * Z) (e : bytes * Contact) : option bytes * Z :=
  if evictable e.2 && (lastmod e.2 <? best.2) then (Some e.1, lastmod e.2) else best.

Definition oldest_key (l : list (bytes * Contact)) : option bytes :=
  (fold_left scan_oldest l (None, 0xFFFFFFFF)).1.

Definition add_or_overwrite (contact : Contact) (s : t) : t * bool * option bytes :=
  if dmem (public_key contact) (_contacts s) then (update contact s, None)
  else if len (_contacts s) >=? _max_contacts s then
    match oldest_key (_contacts s) with
    | None => (s, false, None)
    | Some k => (put contact (remove k s).1, true, Some k)
    end
  else (put contact s, true, None).

(** [min(l, key=f)]: the first minimal element. *)
Definition min_by (l : list (bytes * Contact)) : option (bytes * Contact) :=
  match l with
  | [] => None
  | e :: l' => Some (fold_left (fun best e => if lastmod e.2 <? lastmod best.2 then e else best) l' e)
  end.

Definition transients (s : t) : list (bytes * Contact) :=
  List.filter (fun e => adv_type e.2 =? ADV_TYPE_NONE) (_contacts s).

Definition add_transient (contact : Contact) (s : t) : t * bool :=
  if dmem (public_key contact) (_contacts s) then update contact s
  else
    let s := if len (transients s) >=? MAX_ANON_CONTACTS
             then match min_by (transients s) with Some e => (remove e.1 s).1 | None => s end
             else s in
    (put contact s, true).

Definition contacts (s : t) : list ContactProxy := dvalues (_proxies s).
Definition get_by_name (n : pystr) (s : t) : option ContactProxy :=
  List.find (fun p => bool_decide (proxy_name p = n)) (contacts s).
Definition get_proxy_by_key (key : bytes) (s : t) : option ContactProxy := dget key (_proxies s).
Definition get_by_key (key : bytes) (s : t) : option Contact := dget key (_contacts s).

Definition get_by_key_prefix (prefix : bytes) (s : t) : option Contact :=
  snd <$> List.find (fun e => bytes_eqb (slice_to e.1 (len prefix)) prefix) (_contacts s).

Definition get_all (since : Z) (s : t) : list Contact :=
  if since =? 0 then dvalues (_contacts s)
  else List.filter (fun c => lastmod c >=? since) (dvalues (_contacts s)).

Definition get_count (s : t) : Z := len (_contacts s).

Definition count (s : t) : Z :=
  len (List.filter (fun c => negb (adv_type c =? ADV_TYPE_NONE)) (dvalues (_contacts s))).

Definition clear (s : t) : t := mk [] [] (_max_contacts s).

Fixpoint load_all (l : list Contact) (s : t) : t :=
  match l with
  | [] => s
  | c :: l' => if len (_contacts s) >=? _max_contacts s then s else load_all l' (put c s)
  end.

Definition load_from (l : list Contact) (s : t) : t := load_all l (clear s).

(** A value a record gives as hexadecimal text, as bytes or as a list of
    integers. *)
Inductive bytes_value : Type := AsHex (s : string) | AsBytes (b : bytes) | AsList (l : list Z).

(** A record of [load_from_dicts], with its defaults filled in. *)
Record contact_record := mkRecord {
  r_public_key : bytes_value;
  r_name : pystr;
  r_adv_type : Z;
  r_flags : Z;
  r_out_path_len : Z;
  r_out_path : bytes_value;
  r_last_advert_timestamp : Z;
  r_lastmod : Z;
  r_gps_lat : float;
  r_gps_lon : float;
  r_sync_since : Z;
  r_last_advert_packet : option bytes_value
}.

Definition key_bytes (v : bytes_value) : res bytes :=
  match v with AsHex s => fromhex s | AsBytes b => Ok b | AsList l => Ok l end.

(** A list is not hashable: it cannot be a key. *)
Definition unhashable (v : bytes_value) : bool := match v with AsList _ => true | _ => false end.

Definition path_bytes (v : bytes_value) : res bytes :=
  match v with AsHex s => fromhex s | AsBytes b => Ok b | AsList l => bytes_of_ints l end.

Definition record_packet (v : option bytes_value) : option bytes :=
  match v with
  | Some (AsHex s) => if String.eqb s "" then None else match fromhex s with Ok b => Some b | Err _ => None end
  | Some (AsBytes b) => Some b
  | _ => None
  end.

Definition contact_of_record (r : contact_record) : res Contact :=
  pub_key ← key_bytes (r_public_key r);
  path ← path_bytes (r_out_path r);
  raise_if (unhashable (r_public_key r)) TypeError;;
  mret (mkContact pub_key (r_name r) (r_adv_type r) (r_flags r)
    (if (r_out_path_len r =? -1) || (r_out_path_len r =? 255) then -1 else r_out_path_len r)
    path (r_last_advert_timestamp r) (r_lastmod r) (r_gps_lat r) (r_gps_lon r) (r_sync_since r)
    (record_packet (r_last_advert_packet r))).

Fixpoint load_records (l : list contact_record) : py t unit :=
  match l with
  | [] => mret tt
  | r :: l' =>
      s ← get;
      if len (_contacts s) >=? _max_contacts s then mret tt
      else c ← lift (contact_of_record r); modify (put c);; load_records l'
  end.

Definition load_from_dicts (l : list contact_record) : py t unit := modify clear;; load_records l.

Definition record_of_contact (c : Contact) : contact_record :=
  mkRecord (AsHex (hex (public_key c))) (name c) (adv_type c) (flags c) (out_path_len c)
    (AsHex (if bool_decide (out_path c = []) then "" else hex (out_path c)))
    (last_advert_timestamp c) (lastmod c) (gps_lat c) (gps_lon c) (sync_since c)
    (Some (AsHex match last_advert_packet c with
                 | Some b => if bool_decide (b = []) then "" else hex b
                 | None => ""
                 end)).

(** Transient entries are not exported. *)
Definition to_dicts (s : t) : list contact_record :=
  map record_of_contact
    (List.filter (fun c => negb (adv_type c =? ADV_TYPE_NONE)) (dvalues (_contacts s))).

(** [iterate] *)
Definition iterate (since : Z) (s : t) : list Contact :=
  List.filter (fun c => (since =? 0) || (lastmod c >=? since)) (dvalues (_contacts s)).

End ContactStore.

(** ** Adverts and anonymous requests applied to the stores *)
Module AdvertIngest.
Import Models.

Definition AUTOADD_OVERWRITE_OLDEST : Z := 0x01.

Definition _AUTOADD_TYPE_MAP (contact_type : Z) : Z :=
  if contact_type =? 1 then 0x02
  else if contact_type =? 2 then 0x04
  else if contact_type =? 3 then 0x08
  else if contact_type =? 4 then 0x10
  else 0.

(** The preferences the code reads. *)
Record NodePrefs := mkPrefs {
  manual_add_contacts : Z;
  autoadd_config : Z;
  autoadd_max_hops : Z
}.

Inductive push_event : Type :=
| contact_deleted (key : bytes)
| contacts_full.

(** The stores of a companion, with the callbacks it fired so far. *)
Record t := mk {
  contacts : ContactStore.t;
  path_cache : PathCache.t;
  fired : list push_event
}.

Definition should_auto_add_contact_type (p : NodePrefs) (contact_type : Z) : bool :=
  if Z.land (manual_add_contacts p) 1 =? 0 then true
  else
    let type_bit := _AUTOADD_TYPE_MAP contact_type in
    if negb (type_bit =? 0) then negb (Z.land (autoadd_config p) type_bit =? 0) else false.

Definition should_overwrite_when_full (p : NodePrefs) : bool :=
  negb (Z.land (autoadd_config p) AUTOADD_OVERWRITE_OLDEST =? 0).

(** The fields an advert does not carry are kept from the stored contact. *)
Definition merge_existing (contact existing : Contact) : Contact :=
  mkContact (public_key contact) (name contact) (adv_type contact) (flags existing)
    (out_path_len existing) (out_path existing) (last_advert_timestamp contact) (lastmod contact)
    (gps_lat contact) (gps_lon contact) (sync_since existing)
    (match last_advert_packet contact with Some b => Some b | None => last_advert_packet existing end).

Definition with_contacts (c : ContactStore.t) (s : t) : t := mk c (path_cache s) (fired s).
Definition fire (e : push_event) (s : t) : t := mk (contacts s) (path_cache s) (fired s ++ [e]).

(** The hop limit: a new contact at [autoadd_max_hops] hops or more is not added. *)
Definition too_far (p : NodePrefs) (inbound_path : bytes) (path_len_encoded : option Z) : bool :=
  (autoadd_max_hops p >? 0)
  && (match path_len_encoded with
      | Some l => PathUtils.get_path_hash_count l
      | None => len inbound_path
      end >=? autoadd_max_hops p).

(** The part of [_apply_advert_to_stores] after the path cache. *)
Definition apply_contact (p : NodePrefs) (contact : Contact) (inbound_path : bytes)
    (path_len_encoded : option Z) (s : t) : t * option Contact :=
  match ContactStore.get_by_key (public_key contact) (contacts s) with
  | Some existing =>
      let contact := merge_existing contact existing in
      (with_contacts (ContactStore.update contact (contacts s)).1 s, Some contact)
  | None =>
      if negb (should_auto_add_contact_type p (adv_type contact)) then (s, None)
      else if too_far p inbound_path path_len_encoded then (s, None)
      else if should_overwrite_when_full p && ContactStore.is_full (contacts s) then
        let '(c, ok, overwritten) := ContactStore.add_or_overwrite contact (contacts s) in
        let s := with_contacts c s in
        if ok then
          (match overwritten with
           | Some k => if bool_decide (k = []) then s else fire (contact_deleted k) s
           | None => s
           end, Some contact)
        else (fire contacts_full s, None)
      else
        let '(c, added) := ContactStore.add contact (contacts s) in
        let s := with_contacts c s in
        ((if negb added && ContactStore.is_full (contacts s) then fire contacts_full s else s),
         if added then Some contact else None)
  end.

(** [_apply_advert_to_stores]; an exception is logged and gives [None]. *)
Definition apply_advert_to_stores (p : NodePrefs) (now : Z) (contact : Contact)
    (inbound_path : bytes) (path_len_encoded : option Z) (s : t) : t * option Contact :=
  if (len (public_key contact) <? 7) || bool_decide (name contact = []) then (s, None)
  else
    let advert_path_len := match path_len_encoded with Some l => l | None => len inbound_path end in
    match PathCache.update
            (mkAdvertPath (slice_to (public_key contact) 7) (name contact) advert_path_len
               inbound_path now) (path_cache s) with
    | (pc, Err _) => (mk (contacts s) pc (fired s), None)
    | (pc, Ok _) =>
        apply_contact p contact inbound_path path_len_encoded (mk (contacts s) pc (fired s))
    end.

(** The contact an anonymous request to an unknown key creates. *)
Definition anon_contact (pub_key : bytes) (now : Z) : Contact :=
  mkContact pub_key [] ContactStore.ADV_TYPE_NONE 0 0 [] 0 now (S754_zero false) (S754_zero false) 0 None.

(** The contact lookup of [send_anon_req]; the proxy it then uses. *)
Definition anon_target (pub_key : bytes) (now : Z) (s : t) : t * option ContactStore.ContactProxy :=
  match ContactStore.get_by_key pub_key (contacts s) with
  | Some _ => (s, ContactStore.get_proxy_by_key pub_key (contacts s))
  | None =>
      let '(c, ok) := ContactStore.add_transient (anon_contact pub_key now) (contacts s) in
      (with_contacts c s, if ok then ContactStore.get_proxy_by_key pub_key c else None)
  end.

End AdvertIngest.

Import Models.

(** ** The store stays a dictionary keyed by public key, with its proxies *)

Section proxies.
Context {K A B : Type} `{EqDecision K} (f : A → B).
Implicit Types (d : list (K * A)).

Definition dmap d : list (K * B) := prod_map id f <$> d.

Lemma dget_dmap k d : dget k (dmap d) = f <$> dget k d.
Proof. induction d as [|[k' v] d IH]; cbn; [done|]. destruct (decide (k = k')); [done|apply IH]. Qed.

Lemma dset_dmap k v d : dset k (f v) (dmap d) = dmap (dset k v d).
Proof.
  induction d as [|[k' v'] d IH]; cbn; [done|]. destruct (decide (k = k')); cbn; [done|].
  f_equal. apply IH.
Qed.

Lemma ddel_dmap k d : ddel k (dmap d) = dmap (ddel k d).
Proof.
  induction d as [|[k' v'] d IH]; cbn; [done|]. destruct (decide (k = k')); cbn; [done|].
  f_equal. apply IH.
Qed.

Lemma dvalues_dmap d : dvalues (dmap d) = f <$> dvalues d.
Proof. induction d as [|[k v] d IH]; cbn; [done|]. f_equal. apply IH. Qed.

End proxies.

Lemma Forall_dset {K V} `{EqDecision K} (P : K * V → Prop) k v d :
  P (k, v) → Forall P d → Forall P (dset k v d).
Proof.
  intros Hk. induction 1 as [|[k' v'] d Hd Hds IH]; cbn; [by constructor|].
  destruct (decide (k = k')); by constructor.
Qed.

Lemma dset_dset {K V} `{EqDecision K} k (v w : V) (d : list (K * V)) :
  dset k v (dset k w d) = dset k v d.
Proof.
  induction d as [|[k' v'] d IH]; cbn; [by rewrite decide_True|].
  destruct (decide (k = k')) as [->|]; cbn; [by rewrite decide_True|]. rewrite decide_False by done. by f_equal.
Qed.

Lemma Forall_ddel {K V} `{EqDecision K} (P : K * V → Prop) k d : Forall P d → Forall P (ddel k d).
Proof. induction 1 as [|[k' v'] d Hd Hds IH]; cbn; [done|]. destruct (decide (k = k')); auto. Qed.

Record store_wf (s : ContactStore.t) : Prop := {
  wf_unique : keys_unique (ContactStore._contacts s);
  wf_proxies : ContactStore._proxies s = dmap ContactStore.proxy_of (ContactStore._contacts s);
  wf_keys : Forall (λ e, e.1 = public_key e.2) (ContactStore._contacts s)
}.

Lemma keys_of_values (d : list (bytes * Contact)) :
  Forall (λ e, e.1 = public_key e.2) d → public_key <$> dvalues d = dkeys d.
Proof. induction 1 as [|[k c] d Hk Hd IH]; cbn; [done|]. f_equal; [done|apply IH]. Qed.

Inductive store_op : Type :=
| OAdd (c : Contact)
| OAddOrOverwrite (c : Contact)
| OAddTransient (c : Contact)
| OUpdate (c : Contact)
| ORemove (k : bytes)
| OClear
| OLoad (l : list Contact)
| OLoadDicts (l : list ContactStore.contact_record).

Definition store_step (s : ContactStore.t) (op : store_op) : ContactStore.t :=
  match op with
  | OAdd c => (ContactStore.add c s).1
  | OAddOrOverwrite c => (ContactStore.add_or_overwrite c s).1.1
  | OAddTransient c => (ContactStore.add_transient c s).1
  | OUpdate c => (ContactStore.update c s).1
  | ORemove k => (ContactStore.remove k s).1
  | OClear => ContactStore.clear s
  | OLoad l => ContactStore.load_from l s
  | OLoadDicts l => (ContactStore.load_from_dicts l s).1
  end.

Definition store_run (max_contacts : Z) (ops : list store_op) : ContactStore.t :=
  fold_left store_step ops (ContactStore.init max_contacts).

Lemma put_wf c s : store_wf s → store_wf (ContactStore.put c s).
Proof.
  intros [Hu Hp Hk]. split; cbn.
  - by apply keys_unique_dset.
  - rewrite Hp. apply dset_dmap.
  - by apply Forall_dset.
Qed.

Lemma remove_wf k s : store_wf s → store_wf (ContactStore.remove k s).1.
Proof.
  intros [Hu Hp Hk]. unfold ContactStore.remove. destruct (negb _); cbn; [done|]. split; cbn.
  - by apply keys_unique_ddel.
  - rewrite Hp. apply ddel_dmap.
  - by apply Forall_ddel.
Qed.

Lemma empty_wf m : store_wf (ContactStore.mk [] [] m).
Proof. split; cbn; [apply NoDup_nil_2|done|constructor]. Qed.

Create HintDb contacts.
#[export] Hint Resolve put_wf remove_wf empty_wf : contacts.

Lemma add_wf c s : store_wf s → store_wf (ContactStore.add c s).1.
Proof. intros. unfold ContactStore.add. repeat case_match; cbn; auto with contacts. Qed.

Lemma update_wf c s : store_wf s → store_wf (ContactStore.update c s).1.
Proof. intros. unfold ContactStore.update. case_match; cbn; auto using add_wf with contacts. Qed.

#[export] Hint Resolve add_wf update_wf : contacts.

Lemma load_all_wf l s : store_wf s → store_wf (ContactStore.load_all l s).
Proof. revert s. induction l as [|c l IH]; intros s Hs; cbn; [done|]. case_match; auto with contacts. Qed.

Lemma load_records_wf l s : store_wf s → store_wf (ContactStore.load_records l s).1.
Proof.
  revert s. induction l as [|r l IH]; intros s Hs; [done|]. cbn [ContactStore.load_records].
  unfold mbind, py_bind, get. cbn. case_match; [done|]. unfold lift.
  destruct (ContactStore.contact_of_record r) as [c|e]; cbn; [|done]. apply IH. auto with contacts.
Qed.

Lemma store_step_wf s op : store_wf s → store_wf (store_step s op).
Proof.
  intros Hs. destruct op as [c|c|c|c|k| |l|l]; cbn [store_step]; auto with contacts.
  - unfold ContactStore.add_or_overwrite. repeat case_match; cbn; auto with contacts.
  - unfold ContactStore.add_transient. repeat case_match; cbn; auto with contacts.
  - apply empty_wf.
  - apply load_all_wf, empty_wf.
  - apply (load_records_wf l (ContactStore.clear s)), empty_wf.
Qed.

Lemma store_run_wf max_contacts ops : store_wf (store_run max_contacts ops).
Proof.
  unfold store_run. assert (store_wf (ContactStore.init max_contacts)) as H0 by apply empty_wf.
  revert H0. generalize (ContactStore.init max_contacts).
  induction ops as [|op ops IH]; intros s Hs; [done|]. cbn. by apply IH, store_step_wf.
Qed.

(** C40: after any sequence of operations on the contact store, every entry is
    stored once and under its own public key, and the cached proxies (what the
    handlers and the packet builder read) are those of the stored contacts:
    looking up the proxy of a key gives the view of the contact of that key. *)
Theorem contact_proxies_coherent max_contacts ops :
  let s := store_run max_contacts ops in
  NoDup (public_key <$> ContactStore.get_all 0 s)
  ∧ ContactStore.contacts s = ContactStore.proxy_of <$> ContactStore.get_all 0 s
  ∧ (∀ k c, ContactStore.get_by_key k s = Some c → public_key c = k)
  ∧ ∀ k, ContactStore.get_proxy_by_key k s = ContactStore.proxy_of <$> ContactStore.get_by_key k s.
Proof.
  cbv zeta.
  destruct (store_run_wf max_contacts ops) as [Hu Hp Hk].
  unfold ContactStore.contacts, ContactStore.get_proxy_by_key, ContactStore.get_by_key,
    ContactStore.get_all. cbn. rewrite Hp. split_and!.
  - by rewrite keys_of_values.
  - apply dvalues_dmap.
  - intros k c H%dget_Some_elem. rewrite Forall_forall in Hk. symmetry. apply (Hk _ H).
  - intros k. apply dget_dmap.
Qed.

(** ** Eviction of the oldest contact *)

Lemma scan_oldest_spec l k0 b :
  let r := fold_left ContactStore.scan_oldest l (k0, b) in
  (∀ e, e ∈ l → ContactStore.evictable e.2 = true → r.2 ≤ lastmod e.2)
  ∧ r.2 ≤ b
  ∧ (r = (k0, b) ∨ r.2 < b ∧ ∃ e, e ∈ l ∧ r = (Some e.1, lastmod e.2) ∧ ContactStore.evictable e.2 = true).
Proof.
  revert k0 b. induction l as [|e l IH]; intros k0 b; cbn.
  - split_and!; [by intros e ?%not_elem_of_nil|lia|by left].
  - unfold ContactStore.scan_oldest at 2 4 6 8 10. cbn [fst snd].
    destruct (ContactStore.evictable e.2 && (lastmod e.2 <? b)) eqn:E.
    + bool_hyps. destruct (IH (Some e.1) (lastmod e.2)) as (Hle & Hb & Hr). split_and!; [|lia|].
      * intros e' [->|He']%elem_of_cons Hev; [lia|auto].
      * right. destruct Hr as [->|[Hlt (e' & He' & Hr & Hev)]]; cbn [snd] in *.
        -- split; [done|]. exists e. split; [left|done].
        -- split; [lia|]. exists e'. split; [by right|done].
    + destruct (IH k0 b) as (Hle & Hb & Hr). split_and!; [|lia|].
      * intros e' [->|He']%elem_of_cons Hev; [|auto]. rewrite Hev in E. cbn in E. bool_hyps. lia.
      * destruct Hr as [->|[Hlt (e' & He' & Hr & Hev)]]; [by left|]. right. split; [done|].
        exists e'. split; [by right|done].
Qed.

Lemma oldest_key_spec l :
  match ContactStore.oldest_key l with
  | Some k => ∃ c, (k, c) ∈ l ∧ ContactStore.evictable c = true ∧ lastmod c < 0xFFFFFFFF
                 ∧ ∀ e, e ∈ l → ContactStore.evictable e.2 = true → lastmod c ≤ lastmod e.2
  | None => ∀ e, e ∈ l → ContactStore.evictable e.2 = true → 0xFFFFFFFF ≤ lastmod e.2
  end.
Proof.
  unfold ContactStore.oldest_key. destruct (scan_oldest_spec l None 0xFFFFFFFF) as (Hle & Hb & Hr).
  destruct (fold_left _ l _) as [k m]. cbn [fst snd] in *. destruct Hr as [[= -> ->]|[Hlt (e & He & [= -> ->] & Hev)]].
  - done.
  - exists e.2. destruct e. done.
Qed.

Lemma dget_put k c s :
  ContactStore.get_by_key k (ContactStore.put c s)
  = if decide (k = public_key c) then Some c else ContactStore.get_by_key k s.
Proof. apply dget_dset. Qed.

Lemma get_remove k k' s :
  store_wf s →
  ContactStore.get_by_key k (ContactStore.remove k' s).1
  = if decide (k = k') then None else ContactStore.get_by_key k s.
Proof.
  intros [Hu _ _]. unfold ContactStore.remove, ContactStore.get_by_key, dmem.
  destruct (dget k' _) eqn:E; cbn; [by apply dget_ddel|]. by destruct (decide (k = k')) as [->|].
Qed.

Lemma count_put c s :
  ContactStore.get_count (ContactStore.put c s)
  = ContactStore.get_count s + if dmem (public_key c) (ContactStore._contacts s) then 0 else 1.
Proof. unfold ContactStore.get_count, len. cbn. rewrite length_dset. case_match; lia. Qed.

Lemma count_remove k s :
  ContactStore.get_count (ContactStore.remove k s).1
  = ContactStore.get_count s - if dmem k (ContactStore._contacts s) then 1 else 0.
Proof.
  unfold ContactStore.get_count, ContactStore.remove, len. destruct (dmem k _) eqn:E; cbn; [|lia].
  apply length_ddel_mem in E. lia.
Qed.

Lemma max_put c s : ContactStore._max_contacts (ContactStore.put c s) = ContactStore._max_contacts s.
Proof. done. Qed.

Lemma max_remove k s :
  ContactStore._max_contacts (ContactStore.remove k s).1 = ContactStore._max_contacts s.
Proof. unfold ContactStore.remove. by case_match. Qed.

Lemma dmem_get k s :
  dmem k (ContactStore._contacts s) = match ContactStore.get_by_key k s with Some _ => true | None => false end.
Proof. done. Qed.

Lemma elem_get k c s : store_wf s → (k, c) ∈ ContactStore._contacts s ↔ ContactStore.get_by_key k s = Some c.
Proof. intros [Hu _ _]. split; [by apply elem_dget|apply dget_Some_elem]. Qed.

(** What [add_or_overwrite] does on a full store to a new contact. *)
Definition overwrite_spec (c : Contact) (s : ContactStore.t)
    (r : ContactStore.t * bool * option bytes) : Prop :=
  match r with
  | (s', true, Some k) =>
      ∃ old, ContactStore.get_by_key k s = Some old
        ∧ ContactStore.evictable old = true
        ∧ (∀ k' c', ContactStore.get_by_key k' s = Some c' →
             ContactStore.evictable c' = true → lastmod old ≤ lastmod c')
        ∧ (∀ k', ContactStore.get_by_key k' s'
                 = if decide (k' = public_key c) then Some c
                   else if decide (k' = k) then None else ContactStore.get_by_key k' s)
        ∧ ContactStore.get_count s' = ContactStore.get_count s
  | (s', false, None) =>
      s' = s ∧ ∀ k' c', ContactStore.get_by_key k' s = Some c' →
                 ContactStore.evictable c' = true → 0xFFFFFFFF ≤ lastmod c'
  | _ => False
  end.

Lemma add_or_overwrite_full c s :
  store_wf s → ContactStore.is_full s = true →
  ContactStore.get_by_key (public_key c) s = None →
  overwrite_spec c s (ContactStore.add_or_overwrite c s).
Proof.
  intros Hwf Hfull Hnew. unfold ContactStore.add_or_overwrite. rewrite dmem_get, Hnew.
  unfold ContactStore.is_full in Hfull. rewrite Hfull. cbn iota.
  pose proof (oldest_key_spec (ContactStore._contacts s)) as Ho.
  destruct (ContactStore.oldest_key _) as [k|]; cbn [overwrite_spec].
  - destruct Ho as (old & Hin & Hev & Hlt & Hmin). apply elem_get in Hin; [|done]. exists old.
    split_and!; [done|done| | |].
    + intros k' c' H%elem_get; [|done]. apply (Hmin (k', c')); done.
    + intros k'. rewrite dget_put. destruct (decide (k' = public_key c)); [done|]. by apply get_remove.
    + rewrite count_put, count_remove, !dmem_get, Hin, get_remove by done.
      destruct (decide _); [|rewrite Hnew]; lia.
  - split; [done|]. intros k' c' H%elem_get; [|done]. apply (Ho (k', c')). done.
Qed.

(** Adding a new contact to a full store with overwriting replaces the
    evictable contact (neither favourite nor transient) that was modified
    longest ago, keeps every other contact and the number of contacts, and
    fails without a change only when no contact can be evicted. *)
Theorem overwrite_evicts_oldest c s :
  store_wf s → ContactStore.is_full s = true →
  ContactStore.get_by_key (public_key c) s = None →
  overwrite_spec c s (ContactStore.add_or_overwrite c s).
Proof. apply add_or_overwrite_full. Qed.

(** ** Adverts *)
Import AdvertIngest.

(** What an advert leaves of a contact that was stored: the contact with the
    fields of the owner (flags, path, last sync), or a reported eviction. *)
Definition kept_by_advert (s s' : AdvertIngest.t) (k : bytes) (c : Contact) : Prop :=
  (∃ c', ContactStore.get_by_key k (contacts s') = Some c'
     ∧ flags c' = flags c ∧ out_path_len c' = out_path_len c ∧ out_path c' = out_path c
     ∧ sync_since c' = sync_since c)
  ∨ (ContactStore.evictable c = true ∧ ContactStore.get_by_key k (contacts s') = None
     ∧ (k ≠ [] → fired s' = fired s ++ [contact_deleted k])).

Definition within_limit (s : ContactStore.t) : Prop :=
  ContactStore.get_count s ≤ ContactStore._max_contacts s.

Definition advert_ok (s s' : AdvertIngest.t) : Prop :=
  store_wf (contacts s')
  ∧ ContactStore._max_contacts (contacts s') = ContactStore._max_contacts (contacts s)
  ∧ (within_limit (contacts s) → within_limit (contacts s'))
  ∧ ∀ k c, ContactStore.get_by_key k (contacts s) = Some c → kept_by_advert s s' k c.

Lemma kept_refl s s' k c :
  ContactStore.get_by_key k (contacts s') = Some c → kept_by_advert s s' k c.
Proof. intros H. left. exists c. done. Qed.

Lemma advert_ok_same s s' : store_wf (contacts s) → contacts s' = contacts s → advert_ok s s'.
Proof.
  intros Hwf He. unfold advert_ok. rewrite He. split_and!; [done..|].
  intros k c Hk. apply kept_refl. by rewrite He.
Qed.

(** A contact of the store is updated in place. *)
Lemma advert_ok_existing s contact existing :
  store_wf (contacts s) →
  ContactStore.get_by_key (public_key contact) (contacts s) = Some existing →
  advert_ok s (with_contacts (ContactStore.update (merge_existing contact existing) (contacts s)).1 s).
Proof.
  intros Hwf He. unfold ContactStore.update. cbn [public_key merge_existing].
  rewrite dmem_get, He. cbn [negb fst]. unfold advert_ok. cbn [with_contacts contacts].
  split_and!; [by apply put_wf|done| |].
  - unfold within_limit. rewrite count_put, max_put. cbn [public_key merge_existing].
    rewrite dmem_get, He. lia.
  - intros k c Hk. left. cbn [with_contacts contacts]. rewrite dget_put. cbn [public_key merge_existing].
    destruct (decide (k = public_key contact)) as [->|]; [|by exists c].
    exists (merge_existing contact existing). rewrite He in Hk. injection Hk as <-. done.
Qed.

(** A contact that is not in the store is added to it. *)
Lemma advert_ok_put s contact :
  store_wf (contacts s) → ContactStore.get_by_key (public_key contact) (contacts s) = None →
  ContactStore.is_full (contacts s) = false →
  advert_ok s (with_contacts (ContactStore.put contact (contacts s)) s).
Proof.
  intros Hwf Hn Hf. unfold advert_ok. cbn [with_contacts contacts]. split_and!; [by apply put_wf|done| |].
  - intros _. unfold within_limit. rewrite count_put, max_put, dmem_get, Hn.
    unfold ContactStore.is_full in Hf. unfold ContactStore.get_count. bool_hyps. lia.
  - intros k c Hk. apply kept_refl. cbn [with_contacts contacts]. rewrite dget_put.
    rewrite decide_False; [done|]. intros ->. congruence.
Qed.

Lemma add_or_overwrite_wf c s : store_wf s → store_wf (ContactStore.add_or_overwrite c s).1.1.
Proof. intros Hs. exact (store_step_wf s (OAddOrOverwrite c) Hs). Qed.

Lemma add_or_overwrite_max c s :
  ContactStore._max_contacts (ContactStore.add_or_overwrite c s).1.1 = ContactStore._max_contacts s.
Proof.
  unfold ContactStore.add_or_overwrite, ContactStore.update, ContactStore.add.
  repeat case_match; cbn; rewrite ?max_remove; done.
Qed.

Lemma advert_ok_overwrite s contact k :
  store_wf (contacts s) → ContactStore.is_full (contacts s) = true →
  ContactStore.get_by_key (public_key contact) (contacts s) = None →
  ∀ c, ContactStore.add_or_overwrite contact (contacts s) = (c, true, Some k) →
  advert_ok s (if bool_decide (k = []) then with_contacts c s
               else fire (contact_deleted k) (with_contacts c s)).
Proof.
  intros Hwf Hf Hn c Ha. pose proof (add_or_overwrite_full contact (contacts s) Hwf Hf Hn) as Hs.
  pose proof (add_or_overwrite_wf contact (contacts s) Hwf) as Hw.
  pose proof (add_or_overwrite_max contact (contacts s)) as Hm. rewrite Ha in Hs, Hw, Hm.
  destruct Hs as (old & Hold & Hev & Hmin & Hget & Hcount). cbn [fst snd] in *.
  set (s' := if bool_decide _ then _ else _). assert (contacts s' = c) as Hc by (unfold s'; by case_match).
  unfold advert_ok. rewrite Hc. split_and!; [done|done|unfold within_limit; rewrite Hm, Hcount; lia|].
  intros k' c' Hk'. destruct (decide (k' = k)) as [->|Hne].
  - right. rewrite Hold in Hk'. injection Hk' as <-. split_and!; [done| |].
    + rewrite Hc, Hget, decide_False, decide_True by (done || intros ->; congruence). done.
    + intros Hk. unfold s'. by rewrite bool_decide_eq_false_2.
  - apply kept_refl. rewrite Hc, Hget, decide_False, decide_False by (done || intros ->; congruence). done.
Qed.

Lemma apply_contact_ok p contact path pl s :
  store_wf (contacts s) → advert_ok s (apply_contact p contact path pl s).1.
Proof.
  intros Hwf. unfold apply_contact.
  destruct (ContactStore.get_by_key (public_key contact) (contacts s)) as [ex|] eqn:En;
    [by apply advert_ok_existing|].
  case_match; [by apply advert_ok_same|]. case_match; [by apply advert_ok_same|].
  destruct (should_overwrite_when_full p && _) eqn:Eo.
  - bool_hyps. pose proof (add_or_overwrite_full contact (contacts s) Hwf ltac:(done) En) as Hs.
    destruct (ContactStore.add_or_overwrite _ _) as [[c [|]] [k|]] eqn:Ea; cbn [overwrite_spec] in Hs; try done.
    + by eapply advert_ok_overwrite.
    + destruct Hs as [-> _]. by apply advert_ok_same.
  - unfold ContactStore.add. rewrite dmem_get, En.
    destruct (len _ >=? _) eqn:Ef; cbn [fst snd negb andb].
    + case_match; by apply advert_ok_same.
    + by apply advert_ok_put.
Qed.

(** Applying an advert to the stores keeps a contact store that is
    within its limit there, and loses nothing the owner set: every contact that was stored
    keeps its flags, its path and its sync time, unless it was evicted to make
    room, in which case it was not a favourite and its removal is reported. *)
Theorem advert_respects_contacts p now contact path pl s :
  store_wf (contacts s) →
  let s' := (apply_advert_to_stores p now contact path pl s).1 in
  (within_limit (contacts s) → within_limit (contacts s'))
  ∧ ∀ k c, ContactStore.get_by_key k (contacts s) = Some c → kept_by_advert s s' k c.
Proof.
  intros Hwf. cbv zeta. unfold apply_advert_to_stores.
  destruct ((len (public_key contact) <? 7) || _); [by apply (advert_ok_same s s)|].
  destruct (PathCache.update _ _) as [pc [u|e]]; cbn [fst].
  - apply (apply_contact_ok p contact path pl (mk (contacts s) pc (fired s))). done.
  - by apply (advert_ok_same s (mk (contacts s) pc (fired s))).
Qed.

(** ** Transient contacts that become real ones *)

(** The [i]-th of a run of 32-byte public keys, and its chat advert. *)
Definition nth_key (i : nat) : bytes := le_bytes 32 (Z.of_nat i).

Definition chat_advert (i : nat) : Contact :=
  mkContact (nth_key i) [65] 1 0 (-1) [] 1 1 (S754_zero false) (S754_zero false) 0 None.

(** An anonymous request to an unknown node, then the advert of that node. *)
Definition request_then_advert (p : NodePrefs) (s : AdvertIngest.t) (i : nat) : AdvertIngest.t :=
  (apply_advert_to_stores p 1 (chat_advert i) [] None (anon_target (nth_key i) 1 s).1).1.

Definition upgrade_run (p : NodePrefs) (max_contacts max_entries : Z) (n : nat) : AdvertIngest.t :=
  fold_left (request_then_advert p) (seq 0 n)
    (mk (ContactStore.init max_contacts) (PathCache.init max_entries) []).

Lemma path_cache_update_ok a pc :
  1 ≤ PathCache._max pc →
  ∃ pc', PathCache.update a pc = (pc', Ok tt) ∧ PathCache._max pc' = PathCache._max pc.
Proof.
  destruct pc as [l m]. cbn. intros Hm. unfold PathCache.update, mbind, py_bind, modify, get. cbn.
  destruct (len (PathCache.drop_prefix _ l) >=? m) eqn:E; [|by eexists].
  destruct (PathCache.drop_prefix _ l); [|by eexists]. bool_hyps. rewrite len_nil in E. lia.
Qed.

Lemma nth_key_inj i j :
  Z.of_nat i < 2 ^ 32 → Z.of_nat j < 2 ^ 32 → nth_key i = nth_key j → i = j.
Proof.
  intros Hi Hj H. assert (2 ^ 32 < 256 ^ Z.of_nat 32) by (vm_compute; reflexivity).
  apply (f_equal from_le) in H. unfold nth_key in H. rewrite !from_le_le_bytes in H by lia. lia.
Qed.

Lemma length_nth_key i : len (nth_key i) = 32.
Proof. apply len_le_bytes. Qed.

(** The contacts of the run so far: real ones, with the first keys. *)
Definition upgraded (n : nat) (m : Z) (s : AdvertIngest.t) : Prop :=
  dkeys (ContactStore._contacts (contacts s)) = nth_key <$> seq 0 n
  ∧ Forall (λ e : bytes * Contact, adv_type e.2 = 1) (ContactStore._contacts (contacts s))
  ∧ ContactStore._max_contacts (contacts s) = m
  ∧ 1 ≤ PathCache._max (path_cache s).

Lemma no_transients s :
  Forall (λ e : bytes * Contact, adv_type e.2 = 1) (ContactStore._contacts s) →
  ContactStore.transients s = [].
Proof.
  unfold ContactStore.transients. induction 1 as [|e l He Hl IH]; cbn; [done|]. by rewrite He.
Qed.

Lemma count_all_real s :
  Forall (λ e : bytes * Contact, adv_type e.2 = 1) (ContactStore._contacts s) →
  ContactStore.count s = ContactStore.get_count s.
Proof.
  unfold ContactStore.count, ContactStore.get_count, len.
  induction 1 as [|[k c] l Hc Hl IH]; cbn; [done|]. cbn in Hc. rewrite Hc. cbn. unfold dvalues in IH. lia.
Qed.

Lemma upgraded_step p n m s :
  Z.of_nat n < 2 ^ 32 → upgraded n m s → upgraded (S n) m (request_then_advert p s n).
Proof.
  intros Hn (Hk & Ht & Hm & Hp).
  assert (ContactStore.get_by_key (nth_key n) (contacts s) = None) as Hnew.
  { apply dget_None. rewrite Hk. intros (j & Hj & [_ Hlt]%elem_of_seq)%list_elem_of_fmap.
    apply nth_key_inj in Hj; lia. }
  unfold request_then_advert, anon_target. rewrite Hnew. unfold ContactStore.add_transient.
  cbn [public_key anon_contact]. rewrite dmem_get, Hnew, no_transients by done.
  change (len (@nil (bytes * Contact)) >=? ContactStore.MAX_ANON_CONTACTS) with false. cbn iota. cbn [fst].
  unfold apply_advert_to_stores. cbn [public_key chat_advert name]. rewrite length_nth_key.
  rewrite bool_decide_eq_false_2 by done. cbn [orb Z.ltb Z.compare Pos.compare Pos.compare_cont path_cache with_contacts].
  edestruct (path_cache_update_ok (mkAdvertPath (slice_to (nth_key n) 7) [65] 0 [] 1) (path_cache s) Hp)
    as (pc & Hpc & Hmax).
  change (len (@nil Z)) with 0. rewrite Hpc. unfold apply_contact.
  cbn [contacts with_contacts public_key chat_advert]. rewrite dget_put, decide_True by done.
  unfold ContactStore.update. cbn [public_key merge_existing]. rewrite dmem_get, dget_put, decide_True by done.
  cbn [negb fst with_contacts]. unfold upgraded. cbn [contacts path_cache ContactStore.put ContactStore._contacts
    ContactStore._max_contacts public_key merge_existing anon_contact fst with_contacts].
  split_and!; [| |done|by rewrite Hmax].
  - rewrite !dkeys_dset. unfold dmem at 1. rewrite dget_dset, decide_True by done.
    rewrite dmem_get, Hnew, Hk, seq_S, fmap_app. done.
  - rewrite dset_dset. by apply Forall_dset.
Qed.

(** The limit of the contact store does not hold in general: an anonymous
    request to an unknown node stores a transient contact whatever the limit,
    and the advert of that node turns it into a real one in place, so for
    every limit [max_contacts] and every [n] a run of [n] such pairs leaves [n]
    real contacts. *)
Theorem transient_upgrade_exceeds_limit p max_contacts max_entries n :
  1 ≤ max_entries → Z.of_nat n ≤ 2 ^ 32 →
  let s := contacts (upgrade_run p max_contacts max_entries n) in
  ContactStore.count s = Z.of_nat n ∧ ContactStore._max_contacts s = max_contacts.
Proof.
  intros He Hn. cbv zeta.
  assert (upgraded n max_contacts (upgrade_run p max_contacts max_entries n)) as (Hk & Ht & Hm & _).
  { unfold upgrade_run. induction n as [|n IH]; [by split_and!|].
    rewrite seq_S, fold_left_app. cbn [fold_left Nat.add]. apply upgraded_step; [lia|]. apply IH. lia. }
  split; [|done]. rewrite count_all_real by done. apply (f_equal length) in Hk. unfold dkeys in Hk.
  rewrite !length_fmap, length_seq in Hk. unfold ContactStore.get_count, len. by rewrite Hk.
Qed.

(** ** Saving and loading *)

Lemma hex_digit_value d : 0 ≤ d < 16 → is_space (hex_digit d) = false ∧ hex_value (hex_digit d) = Some d.
Proof.
  intros Hd.
  pose (P := fun d : Z => negb (is_space (hex_digit d)) && bool_decide (hex_value (hex_digit d) = Some d)).
  assert (P d = true) as H by (apply (forall_below P 16); [vm_compute; reflexivity|lia]).
  unfold P in H. bool_hyps. done.
Qed.

Lemma fromhex_hex b : bytes_ok b → fromhex (hex b) = Ok b.
Proof.
  induction 1 as [|x b Hx Hb IH]; [done|]. unfold is_byte in Hx. cbn [hex fromhex].
  destruct (hex_digit_value (x / 16)) as [-> ->]; [zdm|].
  destruct (hex_digit_value (x mod 16)) as [_ ->]; [zdm|].
  rewrite IH. cbn. do 2 f_equal. zdm.
Qed.

(** The contacts that survive being saved. *)
Definition savable (c : Contact) : Prop :=
  bytes_ok (public_key c) ∧ bytes_ok (out_path c)
  ∧ match last_advert_packet c with Some b => bytes_ok b ∧ b ≠ [] | None => True end
  ∧ out_path_len c ≠ 255.

Global Instance savable_dec c : Decision (savable c).
Proof. unfold savable. destruct (last_advert_packet c); apply _. Defined.

Definition is_real (c : Contact) : bool := negb (adv_type c =? ContactStore.ADV_TYPE_NONE).

Lemma hex_empty b : hex b = "" → b = [].
Proof. by destruct b. Qed.

Lemma record_roundtrip c :
  savable c → ContactStore.contact_of_record (ContactStore.record_of_contact c) = Ok c.
Proof.
  intros (Hk & Hp & Ha & Hl). unfold ContactStore.contact_of_record, ContactStore.record_of_contact.
  cbn [ContactStore.r_public_key ContactStore.r_out_path ContactStore.key_bytes ContactStore.path_bytes
       ContactStore.r_last_advert_packet ContactStore.r_out_path_len ContactStore.unhashable].
  rewrite fromhex_hex by done.
  assert (fromhex (if bool_decide (out_path c = []) then "" else hex (out_path c)) = Ok (out_path c)) as ->
    by (case_bool_decide as E; [by rewrite E|by apply fromhex_hex]).
  assert (ContactStore.record_packet (Some (ContactStore.AsHex match last_advert_packet c with
            | Some b => if bool_decide (b = []) then "" else hex b | None => "" end))
          = last_advert_packet c) as Hrp.
  { destruct (last_advert_packet c) as [b|]; [|done]. destruct Ha as [Hb Hne].
    rewrite bool_decide_eq_false_2 by done. cbn [ContactStore.record_packet]. rewrite fromhex_hex by done.
    destruct (String.eqb_spec (hex b) "") as [E%hex_empty|]; done. }
  rewrite Hrp. cbn. replace (_ || _) with (out_path_len c =? -1)
    by (destruct (out_path_len c =? 255) eqn:E; bool_hyps; [done|by rewrite orb_false_r]).
  destruct c as [k n t f pl path ts lm lat lon sy ap]. cbn. destruct (pl =? -1) eqn:E; bool_hyps; by subst.
Qed.

Lemma dset_new {K V} `{EqDecision K} k (v : V) (d : list (K * V)) :
  k ∉ dkeys d → dset k v d = d ++ [(k, v)].
Proof.
  induction d as [|[k' v'] d IH]; cbn; [done|]. rewrite not_elem_of_cons. intros [Hne Hd].
  rewrite decide_False by done. by rewrite IH.
Qed.

(** Loading the records of contacts with new keys appends them. *)
Lemma load_records_new l s :
  store_wf s → Forall savable l → NoDup (dkeys (ContactStore._contacts s) ++ (public_key <$> l)) →
  ContactStore.get_count s + len l ≤ ContactStore._max_contacts s →
  ∃ s', ContactStore.load_records (map ContactStore.record_of_contact l) s = (s', Ok tt)
    ∧ ContactStore._contacts s' = ContactStore._contacts s ++ ((λ c, (public_key c, c)) <$> l).
Proof.
  intros Hwf Hl. revert s Hwf. induction Hl as [|c l Hc Hl IH]; intros s Hwf Hd Hn.
  - exists s. by rewrite app_nil_r.
  - rewrite len_cons in Hn. pose proof (len_nonneg l). unfold ContactStore.get_count in *.
    cbn [map ContactStore.load_records]. unfold mbind at 1, py_bind at 1, get. cbn iota beta.
    replace (len (ContactStore._contacts s) >=? ContactStore._max_contacts s) with false
      by (symmetry; rewrite Z.geb_leb; apply Z.leb_gt; lia).
    unfold mbind, py_bind, lift, modify. rewrite record_roundtrip by done.
    rewrite fmap_cons, cons_middle, (assoc_L (++)) in Hd.
    assert (public_key c ∉ dkeys (ContactStore._contacts s)) as Hnew.
    { apply list.NoDup_app in Hd as [Hd _]. apply list.NoDup_app in Hd as (_ & Hd & _).
      intros Hin. by apply (Hd _ Hin), list_elem_of_singleton. }
    destruct (IH (ContactStore.put c s)) as (s' & Hs' & Hc').
    + by apply put_wf.
    + cbn. rewrite dset_new by done. unfold dkeys in *. by rewrite fmap_app.
    + cbn. rewrite dset_new, len_app by done. change (len [(public_key c, c)]) with 1. lia.
    + exists s'. split; [exact Hs'|]. rewrite Hc'. cbn. rewrite dset_new by done. by rewrite <- app_assoc.
Qed.

Lemma filter_values (f : Contact → bool) (d : list (bytes * Contact)) :
  List.filter f (dvalues d) = dvalues (filter (λ e, f e.2 = true) d).
Proof.
  unfold dvalues. induction d as [|[k c] d IH]; [done|]. cbn [fmap list_fmap List.filter snd].
  destruct (f c) eqn:E.
  - rewrite filter_cons_True by done. cbn. by f_equal.
  - rewrite filter_cons_False by (cbn; congruence). done.
Qed.

Lemma rekeyed (d : list (bytes * Contact)) :
  Forall (λ e, e.1 = public_key e.2) d → (λ c, (public_key c, c)) <$> dvalues d = d.
Proof. induction 1 as [|[k c] d Hk Hd IH]; cbn in *; [done|]. subst k. f_equal. apply IH. Qed.

(** Saving the contacts with [to_dicts] and loading them with
    [load_from_dicts] into a store with room for them raises nothing and gives
    back the real contacts, in their order and with every field; the transient
    ones, and whatever the loading store held, are dropped. *)
Theorem contacts_save_load s s0 :
  store_wf s → Forall (λ c, is_real c = true → savable c) (ContactStore.get_all 0 s) →
  ContactStore.count s ≤ ContactStore._max_contacts s0 →
  ∃ s', ContactStore.load_from_dicts (ContactStore.to_dicts s) s0 = (s', Ok tt)
    ∧ ContactStore.get_all 0 s' = List.filter is_real (ContactStore.get_all 0 s)
    ∧ ∀ k, ContactStore.get_by_key k s'
           = c ← ContactStore.get_by_key k s; if is_real c then Some c else None.
Proof.
  intros Hwf Hsav Hroom. unfold ContactStore.get_all in *. cbn in Hsav.
  unfold ContactStore.count in Hroom. unfold ContactStore.to_dicts. fold is_real in *.
  rewrite filter_values in *. set (d := filter _ (ContactStore._contacts s)) in *.
  assert (keys_unique d) as Hu
    by (eapply keys_unique_sublist; [apply sublist_filter|apply Hwf]).
  assert (Forall (λ e, e.1 = public_key e.2) d) as Hk
    by (destruct Hwf as [_ _ Hk]; rewrite Forall_forall in Hk |- *; intros e [_ He]%list_elem_of_filter; auto).
  destruct (load_records_new (dvalues d) (ContactStore.clear s0)) as (s' & Hs' & Hc).
  - apply empty_wf.
  - rewrite Forall_forall in Hsav |- *. intros c (e & -> & He)%list_elem_of_fmap.
    apply list_elem_of_filter in He as [Hr He]. apply Hsav; [|done]. apply list_elem_of_fmap. by exists e.
  - cbn. by rewrite keys_of_values.
  - cbn. done.
  - exists s'. cbn in Hc. rewrite rekeyed in Hc by done. split_and!.
    + exact Hs'.
    + cbn. rewrite Hc. symmetry. apply filter_values.
    + intros k. unfold ContactStore.get_by_key. rewrite Hc. unfold d. rewrite dget_filter by apply Hwf.
      destruct (dget k _) as [c|]; cbn; [|done]. by destruct (is_real c).
Qed.

(** ** Witnesses *)

(** A full store: an old chat contact, a favourite and a transient entry. *)
Definition sample_contact (i : nat) (adv_type flags lastmod : Z) : Contact :=
  mkContact (nth_key i) [65] adv_type flags 2 [1; 2] 7 lastmod (S754_zero false) (S754_zero false) 3
    (Some [17; 0; 1]).

Definition sample_ops : list store_op :=
  [OAdd (sample_contact 1 1 0 50); OAdd (sample_contact 2 1 1 10); OAddTransient (sample_contact 3 0 0 5);
   OAdd (sample_contact 4 2 0 40)].

Definition sample_store : ContactStore.t := store_run 4 sample_ops.

Definition sample_new : Contact := sample_contact 9 1 0 60.

Definition overwriting : NodePrefs := mkPrefs 0 1 0.

Lemma overwrite_evicts_oldest_witness :
  ContactStore.is_full sample_store = true
  ∧ (ContactStore.add_or_overwrite sample_new sample_store).2 = Some (nth_key 4)
  ∧ overwrite_spec sample_new sample_store (ContactStore.add_or_overwrite sample_new sample_store).
Proof.
  split_and!; [vm_compute; reflexivity..|].
  apply (overwrite_evicts_oldest sample_new sample_store (store_run_wf 4 sample_ops)); vm_compute; reflexivity.
Defined.

Lemma advert_respects_contacts_witness :
  let s := mk sample_store (PathCache.init 16) [] in
  let s' := (apply_advert_to_stores overwriting 60 sample_new [] None s).1 in
  within_limit (contacts s) ∧ fired s' = [contact_deleted (nth_key 4)]
  ∧ (within_limit (contacts s) → within_limit (contacts s'))
  ∧ ∀ k c, ContactStore.get_by_key k (contacts s) = Some c → kept_by_advert s s' k c.
Proof.
  cbv zeta. split; [vm_compute; discriminate|]. split; [vm_compute; reflexivity|].
  apply (advert_respects_contacts overwriting 60 sample_new [] None (mk sample_store (PathCache.init 16) [])
           (store_run_wf 4 sample_ops)).
Defined.

Lemma transient_upgrade_exceeds_limit_witness :
  let s := contacts (upgrade_run overwriting 1 16 3) in
  ContactStore.count s = 3 ∧ ContactStore._max_contacts s = 1.
Proof. apply (transient_upgrade_exceeds_limit overwriting 1 16 3); lia. Defined.

Lemma contacts_save_load_witness :
  ∃ s', ContactStore.load_from_dicts (ContactStore.to_dicts sample_store) (ContactStore.init 3) = (s', Ok tt)
    ∧ ContactStore.get_all 0 s' = List.filter is_real (ContactStore.get_all 0 sample_store)
    ∧ ∀ k, ContactStore.get_by_key k s'
           = c ← ContactStore.get_by_key k sample_store; if is_real c then Some c else None.
Proof.
  apply (contacts_save_load sample_store (ContactStore.init 3) (store_run_wf 4 sample_ops));
    [decide_now|vm_compute; discriminate].
Defined.
