(* ===== verification/TextHandler.v ===== *)
(** * Received text messages ([node/handlers/text.py])

    [TextMessageHandler]: who sent the message, what is published, which ACKs
    are scheduled. [log] is the sequence of the handler's outputs, oldest
    first: scheduled ACKs with their delay in milliseconds, command replies
    handed to a waiter, published messages. *)

From S2P Require Import Prelude PyData Sha256 Utf8 PyFloat ODict Constants PacketUtils Packet TransportKeys RegionMap Crypto PacketFilter Acks PacketBuilder Messages Stores Contacts.

Import Packet.

Module TextMessageHandler.

Definition TXT_ACK_DELAY_MS : Z := 200.
Definition MULTI_ACK_STAGGER_MS : Z := 300.

Definition SUPPORTED_TXT_TYPES (txt_type : Z) : bool :=
  (txt_type =? TXT_TYPE_PLAIN) || (txt_type =? TXT_TYPE_CLI_DATA)
  || (txt_type =? TXT_TYPE_SIGNED_PLAIN) || (txt_type =? TXT_TYPE_CLI_COMMAND).

(** The published message; [message_id], a hash of these fields, is left out. *)
Record message_data := mkMessage {
  contact_name : pystr;
  contact_pubkey : string;
  message_text : pystr;
  sender_prefix : bytes;
  txt_type : Z;
  timestamp : Z;
  msg_path_len : Z;
  msg_rssi : Z;
  msg_snr : float;
  packet_hash : bytes
}.

(** [packet.decrypted], set once the text is known. *)
Record decrypted_fields := mkDecrypted { d_text : pystr; d_txt_type : Z; d_sender_timestamp : Z }.

Inductive output : Type :=
| AckScheduled (pkt : Packet.t) (delay_ms : Z)
| CommandReply (callback : nat) (text : pystr)
| Published (m : message_data).

Record t := mk {
  local_identity : PacketBuilder.LocalIdentity;
  contacts : ContactStore.t;
  has_event_service : bool;
  _pending_command_responses : list (bytes * nat);
  multi_acks : Z;
  decrypted : option decrypted_fields;
  log : list output
}.

(** Callbacks are numbers, their identity. *)
Definition register_command_response (pubkey : bytes) (callback : nat) (s : t) : t :=
  mk (local_identity s) (contacts s) (has_event_service s)
    (dset pubkey callback (_pending_command_responses s)) (multi_acks s) (decrypted s) (log s).

Definition without_pending (pubkey : bytes) (s : t) : t :=
  mk (local_identity s) (contacts s) (has_event_service s)
    (ddel pubkey (_pending_command_responses s)) (multi_acks s) (decrypted s) (log s).

Definition unregister_command_response (pubkey : bytes) (callback : nat) (s : t) : t :=
  match dget pubkey (_pending_command_responses s) with
  | Some cb => if (cb =? callback)%nat then without_pending pubkey s else s
  | None => s
  end.

Definition set_multi_acks (value : Z) (s : t) : t :=
  mk (local_identity s) (contacts s) (has_event_service s) (_pending_command_responses s) value
    (decrypted s) (log s).

Definition emit (l : list output) (s : t) : t :=
  mk (local_identity s) (contacts s) (has_event_service s) (_pending_command_responses s)
    (multi_acks s) (decrypted s) (log s ++ l).

Definition with_contacts (c : ContactStore.t) (s : t) : t :=
  mk (local_identity s) c (has_event_service s) (_pending_command_responses s) (multi_acks s)
    (decrypted s) (log s).

Definition with_decrypted (d : decrypted_fields) (s : t) : t :=
  mk (local_identity s) (contacts s) (has_event_service s) (_pending_command_responses s)
    (multi_acks s) (Some d) (log s).

(** A proxy keeps its key as text. *)
Definition _contact_pubkey_bytes (c : ContactStore.ContactProxy) : res bytes :=
  fromhex (PacketBuilder.public_key (ContactStore.proxy_contact c)).

(** [_text_len]: the position of the first NUL, or the length. *)
Definition _text_len (message_body : bytes) : Z := len (before_nul message_body).

Section handler.
Context `{C : BlockCipher} `{K : PacketBuilder.KeyExchange}.

(** [should_ack_fn], and whether a command callback raises. *)
Context (should_ack : option (bytes → Z → Z → res bool)) (callback_run : nat → pystr → res unit).

(** ** ACKs *)

(** [urandom1]: the random byte of a plain ACK. [decrypted] is the plaintext,
    [message_body] its part after the header. *)
Definition _calc_ack_hash (urandom1 : bytes) (id : PacketBuilder.LocalIdentity) (txt_type : Z)
    (plaintext message_body pubkey : bytes) (timestamp_int flags : Z) : res (option bytes) :=
  let text_len := _text_len message_body in
  if txt_type =? TXT_TYPE_PLAIN then
    ext_attempt ← (if text_len + 1 <? len message_body then index message_body (text_len + 1) else Ok 0);
    Some <$> PacketBuilder.calc_text_ack_hash urandom1 pubkey timestamp_int flags
      (PacketBuilder.TBytes (slice_to message_body text_len)) ext_attempt true
  else if txt_type =? TXT_TYPE_SIGNED_PLAIN then
    let signed_span := slice_to plaintext (9 + text_len) in
    Ok (Some (slice_to (sha256 (signed_span ++ PacketBuilder.get_public_key id)) 4))
  else Ok None.

(** [apply_reply_scope(reply, request)] on a reply under construction. *)
Definition scoped_reply (request reply : Packet.t) : res Packet.t :=
  PacketBuilder.build (apply_reply_scope (Some request)) reply.

(** [urandom4]: the filler of a path return. *)
Definition _build_ack_responses (urandom4 : bytes) (id : PacketBuilder.LocalIdentity) (multi_acks : Z)
    (packet : Packet.t) (matched_contact : ContactStore.ContactProxy)
    (shared_secret pubkey ack_hash : bytes) (is_flood : bool) : res (list (Packet.t * Z)) :=
  if is_flood then
    let in_path_len := path_len packet in
    let '(path_len_encoded, incoming_path) :=
      if PathUtils.is_valid_path_len in_path_len
      then (Some in_path_len, slice_to (path packet) (PathUtils.get_path_byte_len in_path_len))
      else (None, []) in
    dest_hash ← PacketBuilder._hash_byte pubkey;
    src_hash ← PacketBuilder._hash_byte (PacketBuilder.get_public_key id);
    ack_packet ← PacketBuilder.create_path_return urandom4 dest_hash src_hash shared_secret incoming_path
                   PAYLOAD_TYPE_ACK ack_hash path_len_encoded;
    ack_packet ← scoped_reply packet ack_packet;
    mret [(ack_packet, TXT_ACK_DELAY_MS)]
  else
    let c := ContactStore.proxy_contact matched_contact in
    let out_path_len := PacketBuilder.out_path_len c in
    let has_known_path := (out_path_len >=? 0) && PathUtils.is_valid_path_len out_path_len in
    if negb has_known_path then
      ack_packet ← PacketBuilder.create_ack_from_bytes ack_hash [] None "flood";
      ack_packet ← scoped_reply packet ack_packet;
      mret [(ack_packet, TXT_ACK_DELAY_MS)]
    else
      let out_path := PacketBuilder.out_path c in
      ack_packet ← PacketBuilder.create_ack_from_bytes ack_hash out_path (Some out_path_len) "direct";
      if multi_acks <=? 0 then mret [(ack_packet, TXT_ACK_DELAY_MS)]
      else
        multi_packet ← PacketBuilder.create_multi_ack ack_hash 1 out_path (Some out_path_len);
        mret [(multi_packet, TXT_ACK_DELAY_MS); (ack_packet, TXT_ACK_DELAY_MS + MULTI_ACK_STAGGER_MS)].

Definition _ack_allowed (sender_pubkey : bytes) (txt_type sender_timestamp : Z) : bool :=
  match should_ack with
  | None => true
  | Some f => match f sender_pubkey txt_type sender_timestamp with Ok b => b | Err _ => false end
  end.

(** ** The sender *)

(** The contacts whose key starts with [src_hash]. *)
Definition candidates (src_hash : Z) (l : list ContactStore.ContactProxy) : list ContactStore.ContactProxy :=
  List.filter (fun c => match _contact_pubkey_bytes c with
                        | Ok (x :: _) => x =? src_hash
                        | _ => false
                        end) l.

(** One attempt: the shared secret and the plaintext. *)
Definition try_candidate (private_key payload : bytes) (c : ContactStore.ContactProxy)
    : option (bytes * bytes) :=
  match (pubkey_bytes ← _contact_pubkey_bytes c;
         raise_if (negb (len pubkey_bytes =? 32)) (OtherError "continue");;
         ss ← PacketBuilder.peer_shared_secret pubkey_bytes private_key;
         d ← CryptoUtils.mac_then_decrypt (slice_to ss 16) ss payload;
         mret (ss, d)) with
  | Ok r => Some r
  | Err _ => None
  end.

(** The first candidate that authenticates the payload. *)
Fixpoint match_contact (private_key payload : bytes) (l : list ContactStore.ContactProxy)
    : option (ContactStore.ContactProxy * bytes * bytes) :=
  match l with
  | [] => None
  | c :: l' =>
      match try_candidate private_key payload c with
      | Some (ss, d) => Some (c, ss, d)
      | None => match_contact private_key payload l'
      end
  end.

(** A signed text advances the contact's [sync_since]. The object behind a
    proxy is the stored contact of its key. *)
Definition advance_sync (sender_pubkey : bytes) (previous_sync timestamp_int : Z) (s : t) : t :=
  if timestamp_int >? previous_sync then
    match ContactStore.get_by_key sender_pubkey (contacts s) with
    | Some c =>
        with_contacts (ContactStore.update
          (Models.mkContact (Models.public_key c) (Models.name c) (Models.adv_type c) (Models.flags c)
             (Models.out_path_len c) (Models.out_path c) (Models.last_advert_timestamp c)
             (Models.lastmod c) (Models.gps_lat c) (Models.gps_lon c) timestamp_int
             (Models.last_advert_packet c)) (contacts s)).1 s
    | None => s
    end
  else s.

(** A waiting command takes the reply; a callback that raises does not. *)
Definition intercept (sender_pubkey : bytes) (decoded_msg : pystr) (callback : option nat) : py t bool :=
  match callback with
  | Some cb =>
      modify (without_pending sender_pubkey);;
      if is_ok (callback_run cb decoded_msg)
      then modify (emit [CommandReply cb decoded_msg]);; mret true
      else mret false
  | None => mret false
  end.

(** The message event; without a packet hash nothing is published. *)
Definition publish (packet : Packet.t) (matched_contact : ContactStore.ContactProxy)
    (decoded_msg : pystr) (sender_prefix : bytes) (txt_type timestamp_int : Z) : list output :=
  match calculate_packet_hash packet with
  | Ok hash =>
      [Published (mkMessage (ContactStore.proxy_name matched_contact)
         (PacketBuilder.public_key (ContactStore.proxy_contact matched_contact)) decoded_msg
         sender_prefix txt_type timestamp_int
         (if is_route_flood packet then path_len packet else 0xFF) (_rssi packet) (get_snr packet) hash)]
  | Err _ => []
  end.

(** What follows once the header of the plaintext is known. *)
Definition deliver (urandom1 urandom4 : bytes) (packet : Packet.t)
    (matched_contact : ContactStore.ContactProxy) (shared_secret plaintext : bytes)
    (txt_type flags : Z) (sender_prefix message_body : bytes) : py t bool :=
  sender_pubkey ← lift (_contact_pubkey_bytes matched_contact);
  let timestamp_int := from_le (slice_to plaintext 4) in
  let is_flood := is_route_flood packet in
  (if txt_type =? TXT_TYPE_SIGNED_PLAIN
   then modify (advance_sync sender_pubkey
                  (PacketBuilder.sync_since (ContactStore.proxy_contact matched_contact)) timestamp_int)
   else mret tt);;
  s ← get;
  ack_hash ← lift (_calc_ack_hash urandom1 (local_identity s) txt_type plaintext message_body
                     sender_pubkey timestamp_int flags);
  scheduled ← lift match ack_hash with
              | Some h =>
                  if _ack_allowed sender_pubkey txt_type timestamp_int
                  then _build_ack_responses urandom4 (local_identity s) (multi_acks s) packet
                         matched_contact shared_secret sender_pubkey h is_flood
                  else Ok []
              | None => Ok []
              end;
  modify (emit (map (fun a => AckScheduled a.1 a.2) scheduled));;
  let decoded_msg := decode_replace (slice_to message_body (_text_len message_body)) in
  modify (with_decrypted (mkDecrypted decoded_msg txt_type timestamp_int));;
  s ← get;
  intercepted ← intercept sender_pubkey decoded_msg
                  (if txt_type =? TXT_TYPE_CLI_DATA
                   then dget sender_pubkey (_pending_command_responses s) else None);
  if (intercepted : bool) then mret true
  else
    (if has_event_service s
     then modify (emit (publish packet matched_contact decoded_msg sender_prefix txt_type timestamp_int))
     else mret tt);;
    mret true.

(** [__call__]: the result is [HandlerResult.authenticated]. *)
Definition call (urandom1 urandom4 : bytes) (packet : Packet.t) : py t bool :=
  if len (payload packet) <? 4 then mret false
  else
    s ← get;
    src_hash ← lift (index (payload packet) 1);
    let l := candidates src_hash (ContactStore.contacts (contacts s)) in
    match match_contact (PacketBuilder.get_private_key (local_identity s))
            (slice_from (payload packet) 2) l with
    | None => mret false
    | Some (matched_contact, shared_secret, plaintext) =>
        if len plaintext <? 5 then mret true
        else
          flags ← lift (index plaintext 4);
          let txt_type := Z.land (Z.shiftr flags 2) 0x3F in
          if negb (SUPPORTED_TXT_TYPES txt_type) then mret true
          else if txt_type =? TXT_TYPE_SIGNED_PLAIN then
            if len plaintext <? 9 then mret true
            else deliver urandom1 urandom4 packet matched_contact shared_secret plaintext txt_type flags
                   (slice plaintext 5 9) (slice_from plaintext 9)
          else deliver urandom1 urandom4 packet matched_contact shared_secret plaintext txt_type flags
                 [] (slice_from plaintext 5)
    end.

End handler.
End TextMessageHandler.

Import TextMessageHandler PacketBuilder.

(** ** What the sender makes of an ACK packet *)

(** The CRC the sender of a text takes from a packet that comes back. *)
Definition received_ack `{C : BlockCipher} `{K : KeyExchange} (id : LocalIdentity) (book : list string)
    (pkt : Packet.t) : res (option Z) :=
  let ptype := get_payload_type pkt in
  if ptype =? PAYLOAD_TYPE_ACK then Ok (AckHandler.process_discrete_ack pkt)
  else if ptype =? PAYLOAD_TYPE_MULTIPART then MultipartAckHandler.extract_ack_crc pkt
  else if ptype =? PAYLOAD_TYPE_PATH then PathAck.process_path_ack_variants (Some id) (Some book) pkt
  else Ok None.

(** Region keys are 16 bytes. *)
Definition region_key_ok (q : Packet.t) : Prop := ∀ k, _recv_region_key q = Some k → len k = 16.

Lemma scoped_reply_same q r :
  region_key_ok q → ∃ r', scoped_reply q r = Ok r' ∧ payload r' = payload r
    ∧ get_payload_type r' = get_payload_type r ∧ payload_len r' = payload_len r.
Proof.
  intros Hk. unfold scoped_reply, build, apply_reply_scope.
  destruct (_recv_region_captured q) eqn:Hc; [|by exists r].
  destruct (apply_reply_scope_mirrors q r Hc Hk) as (r' & Hr & Hf). unfold apply_reply_scope in Hr.
  rewrite Hc in Hr. cbn [negb] in *. rewrite Hr. exists r'. split; [done|]. unfold reply_for in Hf.
  destruct (recorded q) as [[key|]|]; [|by subst..].
  destruct (get_route_type r =? ROUTE_TYPE_FLOOD); [|by subst].
  destruct Hf as (c & _ & ->). split; [done|]. split; [apply (scoped_type c r)|done].
Qed.

Lemma scoped_reply_keeps q r :
  region_key_ok q → ∃ r', scoped_reply q r = Ok r' ∧ payload r' = payload r
    ∧ get_payload_type r' = get_payload_type r.
Proof. intros Hk. destruct (scoped_reply_same q r Hk) as (r' & ? & ? & ? & _). by exists r'. Qed.

Lemma create_packet_ok h body : len body ≤ MAX_PACKET_PAYLOAD → _create_packet h body = Ok (built h [] 0 body).
Proof.
  intros Hl. unfold _create_packet, PacketValidationUtils.validate_payload_size.
  by replace (len body >? MAX_PACKET_PAYLOAD) with false by lia.
Qed.

Lemma header_type ptype rt b p :
  0 ≤ ptype < 16 → header p = _create_header ptype rt b → get_payload_type p = ptype.
Proof.
  intros Hp Hh. pose proof (built_type ptype rt b [] 0 [] Hp) as [<- _].
  unfold get_payload_type. by rewrite Hh.
Qed.

Lemma ack_from_bytes_ok ack path ple rt :
  len ack ≤ MAX_PACKET_PAYLOAD → path = [] ∨ is_Some ple →
  ∃ p, create_ack_from_bytes ack path ple rt = Ok p ∧ get_payload_type p = PAYLOAD_TYPE_ACK.
Proof.
  intros Hl Hp. unfold create_ack_from_bytes. rewrite create_packet_ok by done. cbn [mbind res_bind].
  case_bool_decide.
  - destruct Hp as [->|[l ->]]; [done|]. eexists. split; [done|]. by eapply header_type.
  - eexists. split; [done|]. by eapply header_type.
Qed.

Lemma multi_ack_ok ack n path l :
  len ack < MAX_PACKET_PAYLOAD →
  ∃ p, create_multi_ack ack n path (Some l) = Ok p ∧ get_payload_type p = PAYLOAD_TYPE_MULTIPART.
Proof.
  intros Hl. unfold create_multi_ack.
  assert (is_byte (Z.lor (Z.shiftl (Z.land n 15) 4) PAYLOAD_TYPE_ACK)) as Hb.
  { rewrite land_15, Z.lor_comm, Z.shiftl_mul_pow2 by lia.
    rewrite lor_disjoint_add by (unfold PAYLOAD_TYPE_ACK; lia).
    unfold is_byte, PAYLOAD_TYPE_ACK. change (2 ^ 4) with 16. zdm. }
  rewrite bytes_of_ints_ok by (apply bytes_ok_cons; split; [done|apply bytes_ok_nil]). cbn [mbind res_bind].
  rewrite create_packet_ok by (rewrite len_app; change (len [_]) with 1; lia). cbn [mbind res_bind].
  case_bool_decide; (eexists; split; [done|by eapply header_type]).
Qed.

(** What of a packet tells how it travels: its type, flood or not, its path. *)
Definition travel (p : Packet.t) : Z * bool * bytes := (get_payload_type p, is_route_flood p, Packet.path p).

Lemma built_travel ptype rt b p pa pl body :
  0 ≤ ptype < 16 → p = built (_create_header ptype rt b) pa pl body →
  travel p = (ptype, (RouteTypeUtils.get_route_type_value rt b =? ROUTE_TYPE_TRANSPORT_FLOOD)
                     || (RouteTypeUtils.get_route_type_value rt b =? ROUTE_TYPE_FLOOD), pa).
Proof. intros Hp ->. unfold travel, is_route_flood. destruct (built_type ptype rt b pa pl body Hp) as (-> & -> & _). done. Qed.

Lemma create_ack_travel ack pa ple rt p :
  create_ack_from_bytes ack pa (Some ple) rt = Ok p ∨ pa = [] ∧ create_ack_from_bytes ack pa None rt = Ok p →
  travel p = (PAYLOAD_TYPE_ACK, (RouteTypeUtils.get_route_type_value rt (bool_decide (pa ≠ [])) =? ROUTE_TYPE_TRANSPORT_FLOOD)
                     || (RouteTypeUtils.get_route_type_value rt (bool_decide (pa ≠ [])) =? ROUTE_TYPE_FLOOD), pa).
Proof.
  assert (∀ l, create_ack_from_bytes ack pa l rt = Ok p → pa = [] ∨ is_Some l → ∃ pl, p = built (_create_header PAYLOAD_TYPE_ACK rt (bool_decide (pa ≠ []))) pa pl ack) as Hb.
  { unfold create_ack_from_bytes. intros l H Hl. apply res_bind_ok in H as (p0 & H0 & H). apply create_packet_built in H0 as [-> _].
    case_bool_decide as E.
    - destruct l as [l|]; [|destruct Hl as [->|[? [=]]]; done]. injection H as <-. by exists l.
    - injection H as <-. subst pa. by exists 0. }
  intros H. assert (∃ pl, p = built (_create_header PAYLOAD_TYPE_ACK rt (bool_decide (pa ≠ []))) pa pl ack) as [pl Hp].
  { destruct H as [H|[Hpa H]]; apply Hb in H; eauto. }
  by apply (built_travel _ _ _ _ _ pl ack).
Qed.

Lemma multi_ack_travel ack n pa ple p :
  create_multi_ack ack n pa (Some ple) = Ok p → travel p = (PAYLOAD_TYPE_MULTIPART, false, pa).
Proof.
  unfold create_multi_ack. intros H. apply res_bind_ok in H as (w & _ & H). apply res_bind_ok in H as (p0 & H0 & H).
  apply create_packet_built in H0 as [-> _]. case_bool_decide as E; injection H as <-.
  - rewrite (built_travel PAYLOAD_TYPE_MULTIPART "direct" true _ pa ple (w ++ ack)); done.
  - subst pa. by rewrite (built_travel PAYLOAD_TYPE_MULTIPART "direct" false _ [] 0 (w ++ ack)).
Qed.

Lemma path_return_travel `{C : BlockCipher} r dest src secret pa extra_type extra l p :
  create_path_return r dest src secret pa extra_type extra l = Ok p → travel p = (PAYLOAD_TYPE_PATH, true, []).
Proof.
  unfold create_path_return. intros H. apply res_bind_ok in H as (inner & _ & H). apply res_bind_ok in H as (c & _ & H).
  apply res_bind_ok in H as (h & _ & H). apply create_packet_built in H as [-> _].
  by rewrite (built_travel PAYLOAD_TYPE_PATH "flood" false _ [] 0 (h ++ c)).
Qed.

(** Scoping does not change how a packet travels. *)
Lemma scoped_reply_travel q p p' : region_key_ok q → scoped_reply q p = Ok p' → travel p' = travel p.
Proof.
  intros Hk. unfold scoped_reply, build, apply_reply_scope.
  destruct (_recv_region_captured q) eqn:Hc; [|by intros [= <-]].
  destruct (apply_reply_scope_mirrors q p Hc Hk) as (r' & Hr & Hf). unfold apply_reply_scope in Hr.
  rewrite Hc in Hr. cbn [negb] in *. rewrite Hr. intros [= <-]. unfold reply_for in Hf.
  destruct (recorded q) as [[key|]|]; [|by subst..].
  destruct (get_route_type p =? ROUTE_TYPE_FLOOD) eqn:Hfl; [|by subst].
  destruct Hf as (c & _ & ->). unfold travel, is_route_flood.
  change (get_route_type (with_flood_scope_applied true (scoped c p))) with (get_route_type (scoped c p)).
  rewrite scoped_route. apply Z.eqb_eq in Hfl. rewrite Hfl. cbn. by rewrite <- (scoped_type c p).
Qed.

(** The ACKs of a text from the contact [c] that came as [q]: how each travels, and its
    delay in ms. *)
Definition ack_plan (q : Packet.t) (c : contact) (multi_acks : Z) : list (Z * bool * bytes * Z) :=
  if is_route_flood q then [(PAYLOAD_TYPE_PATH, true, [], 200)]
  else if (out_path_len c <? 0) || negb (PathUtils.is_valid_path_len (out_path_len c)) then [(PAYLOAD_TYPE_ACK, true, [], 200)]
  else if 0 <? multi_acks
  then [(PAYLOAD_TYPE_MULTIPART, false, out_path c, 200); (PAYLOAD_TYPE_ACK, false, out_path c, 500)]
  else [(PAYLOAD_TYPE_ACK, false, out_path c, 200)].

Lemma encrypt_then_mac_ok `{C : BlockCipher} key secret plaintext :
  key_ok key = true → ∃ c, CryptoUtils.encrypt_then_mac key secret plaintext = Ok c.
Proof.
  intros Hk. unfold CryptoUtils.encrypt_then_mac, CryptoUtils._aes_encrypt. rewrite Hk. cbn. by eexists.
Qed.

Lemma path_return_ok `{C : BlockCipher} {L : BlockCipherLaws C} r dest src secret path extra_type extra l :
  key_ok (slice_to secret 16) = true → is_byte dest → is_byte src → is_byte extra_type →
  PathUtils.is_valid_path_len l = true → is_byte l → len path = PathUtils.get_path_byte_len l → bytes_ok path →
  extra ≠ [] → len path + len extra ≤ 161 →
  ∃ p, create_path_return r dest src secret path extra_type extra (Some l) = Ok p
       ∧ get_payload_type p = PAYLOAD_TYPE_PATH.
Proof.
  intros Hk Hd Hs Ht Hv Hlb Hl Hp Hne He. unfold create_path_return, path_return_inner.
  apply is_valid_path_len_iff in Hv as Hv'. unfold MAX_PATH_SIZE in Hv'.
  unfold MAX_PACKET_PAYLOAD, CIPHER_BLOCK_SIZE.
  replace (len path + len extra + 5 >? 184 - 2 - 16) with false by lia. rewrite Hv, Hl, Z.eqb_refl.
  cbn [negb mbind res_bind].
  rewrite (bytes_of_ints_ok [l]) by (apply bytes_ok_cons; split; [done|apply bytes_ok_nil]).
  cbn [mbind res_bind]. rewrite (bytes_of_ints_ok path) by done. cbn [mbind res_bind].
  rewrite bool_decide_true by done.
  rewrite (bytes_of_ints_ok [extra_type]) by (apply bytes_ok_cons; split; [done|apply bytes_ok_nil]).
  cbn [mbind res_bind mret res_ret].
  destruct (encrypt_then_mac_ok (slice_to secret 16) secret ([l] ++ path ++ [extra_type] ++ extra) Hk) as [c Hc].
  unfold _encrypt_payload. rewrite Hc. cbn [mbind res_bind].
  rewrite (bytes_of_ints_ok [dest; src])
    by (apply bytes_ok_cons; split; [done|]; apply bytes_ok_cons; split; [done|apply bytes_ok_nil]).
  cbn [mbind res_bind]. apply encrypt_then_mac_inv in Hc as (_ & Hcl & _).
  assert (len ([l] ++ path ++ [extra_type] ++ extra) ≤ 163) by (autorewrite with pylen; lia).
  rewrite create_packet_ok.
  - eexists. split; [done|]. by eapply header_type.
  - rewrite len_app, Hcl. change (len [dest; src]) with 2.
    pose proof (len_nonneg ([l] ++ path ++ [extra_type] ++ extra)). unfold MAX_PACKET_PAYLOAD. zdm.
Qed.

(** ** Lemmas: the handler *)

Section handler_lemmas.
Context `{C : BlockCipher} {L : BlockCipherLaws C} `{K : KeyExchange}.
Context (should_ack : option (bytes → Z → Z → res bool)) (callback_run : nat → pystr → res unit).

(** An ACK packet, scoped or not, gives its CRC. *)
Lemma discrete_received id book h path ple rt p p' crc :
  create_ack_from_bytes h path ple rt = Ok p → payload p' = payload p →
  get_payload_type p' = PAYLOAD_TYPE_ACK → 4 ≤ len h → from_le (slice_to h 4) = crc →
  received_ack id book p' = Ok (Some crc).
Proof.
  intros Hp Hpay Ht Hl <-. unfold received_ack. rewrite Ht. cbn. f_equal.
  rewrite <- (discrete_ack_crc _ _ _ _ _ Hp Hl). unfold AckHandler.process_discrete_ack. by rewrite Hpay.
Qed.

(** The two ends of a conversation: each side's key in the other's book, and
    the secret both derive. *)
Record peers (idA idB : LocalIdentity) (pkB : string) (secret : bytes) : Prop := {
  peer_key_A : bytes_ok (get_public_key idA);
  peer_key_B : bytes_ok (get_public_key idB);
  peer_len_A : len (get_public_key idA) = 32;
  peer_len_B : len (get_public_key idB) = 32;
  peer_text_B : fromhex pkB = Ok (get_public_key idB);
  peer_secret_A : peer_shared_secret (get_public_key idB) (get_private_key idA) = Ok secret;
  peer_secret_B : peer_shared_secret (get_public_key idA) (get_private_key idB) = Ok secret;
  peer_cipher : key_ok (slice_to secret 16) = true
}.

(** No contact of the list has the key's first byte. *)
Definition other_hash (key : bytes) (book : list string) : Prop :=
  Forall (λ k, ∀ pub, fromhex k = Ok pub → head pub ≠ head key) book.

Lemma other_hash_skipped key book priv enc src :
  other_hash key book → index key 0 = Ok src →
  Forall (λ k, PathAck.try_contact src priv enc k = None) book.
Proof.
  intros Hb Hs. unfold other_hash in Hb. rewrite Forall_forall in Hb |- *. intros k Hk. specialize (Hb k Hk).
  unfold PathAck.try_contact. destruct (fromhex k) as [pub|]; [|done]. specialize (Hb pub eq_refl).
  destruct key as [|x key]; [done|]. change (index (x :: key) 0) with (@Ok Z x) in Hs. injection Hs as <-.
  destruct pub as [|y pub]; [done|]. change (index (y :: pub) 0) with (@Ok Z y).
  assert (y ≠ x) as Hne%Z.eqb_neq by (intros ->; by apply Hb). cbn iota. by rewrite Hne, orb_true_r.
Qed.

(** Every ACK scheduled for a plain text confirms its CRC to the sender. *)
Lemma acks_confirm u4 idA idB n q cA secret h crc book1 book2 pkB :
  peers idA idB pkB secret → wire_wf q → region_key_ok q → other_hash (get_public_key idB) book1 →
  len h = 6 → from_le (slice_to h 4) = crc →
  ∃ acks, _build_ack_responses u4 idB n q cA secret (get_public_key idA) h (is_route_flood q) = Ok acks
    ∧ map (λ a, (travel a.1, a.2)) acks = ack_plan q (ContactStore.proxy_contact cA) n
    ∧ Forall (λ a, received_ack idA (book1 ++ pkB :: book2) a.1 = Ok (Some crc)) acks.
Proof.
  intros HP Hw Hreg Hbook Hlh Hcrc. destruct HP as [HoA HoB HlA HlB HpkB Hsec _ Hkey].
  unfold _build_ack_responses, ack_plan. destruct (is_route_flood q).
  - rewrite (wf_path_valid q Hw).
    destruct (get_public_key idA) as [|dA pkA] eqn:EA; [done|]. destruct (get_public_key idB) as [|dB pB] eqn:EB; [done|].
    cbn [_hash_byte PacketDataUtils.hash_byte mbind res_bind].
    apply bytes_ok_cons in HoA as [HdA _]. pose proof HoB as [HdB _]%bytes_ok_cons.
    assert (slice_to (path q) (PathUtils.get_path_byte_len (path_len q)) = path q) as ->
      by (change (PathUtils.get_path_byte_len (path_len q)) with (get_path_byte_len q);
          rewrite <- (wf_path q Hw); apply slice_to_all).
    destruct (path_return_ok u4 dA dB secret (path q) PAYLOAD_TYPE_ACK h (path_len q)) as (p & Hp & Ht);
      [done|done|done|done|apply Hw|apply Hw|apply Hw|apply Hw|by intros ->| |].
    { pose proof (wf_path q Hw) as Hp. pose proof (proj1 (is_valid_path_len_iff _) (wf_path_valid q Hw)) as Hv.
      unfold MAX_PATH_SIZE, get_path_byte_len in *. lia. }
    rewrite Hp. cbn [mbind res_bind].
    destruct (scoped_reply_keeps q p Hreg) as (p' & Hp' & Hpay & Htp). rewrite Hp'. eexists. split; [done|].
    split; [cbn [map fst snd]; by rewrite (scoped_reply_travel _ _ _ Hreg Hp'), (path_return_travel _ _ _ _ _ _ _ _ _ Hp)|].
    apply Forall_singleton. unfold received_ack. cbn [fst]. rewrite Htp, Ht. cbn.
    rewrite <- Hcrc. erewrite <- (path_return_ack_roundtrip u4 dA dB secret (path q) h (Some (path_len q)) p idA
      book1 pkB book2 (dB :: pB) Hp); [|lia|by rewrite EA|done|done|done|done|by eapply other_hash_skipped].
    unfold PathAck.process_path_ack_variants. by rewrite Hpay.
  - set (pl := out_path_len (ContactStore.proxy_contact cA)). set (pa := out_path (ContactStore.proxy_contact cA)).
    assert ((pl <? 0) || negb (PathUtils.is_valid_path_len pl) = negb ((pl >=? 0) && PathUtils.is_valid_path_len pl)) as ->
      by (rewrite negb_andb, Z.geb_leb, Z.leb_antisym, negb_involutive; done).
    destruct (negb _).
    + destruct (ack_from_bytes_ok h [] None "flood") as (p & Hp & Ht); [rewrite Hlh; done|by left|].
      rewrite Hp. cbn [mbind res_bind].
      destruct (scoped_reply_keeps q p Hreg) as (p' & Hp' & Hpay & Htp). rewrite Hp'. eexists. split; [done|].
      split; [cbn [map fst snd]; by rewrite (scoped_reply_travel _ _ _ Hreg Hp'), (create_ack_travel h [] 0 "flood" p) by auto|].
      apply Forall_singleton. cbn [fst]. eapply discrete_received; [exact Hp|done|by rewrite Htp|lia|done].
    + destruct (ack_from_bytes_ok h pa (Some pl) "direct") as (p & Hp & Ht); [rewrite Hlh; done|by right|].
      rewrite Hp. cbn [mbind res_bind].
      assert (received_ack idA (book1 ++ pkB :: book2) p = Ok (Some crc)) as Hr
        by (eapply discrete_received; [exact Hp|done|done|lia|done]).
      assert (travel p = (PAYLOAD_TYPE_ACK, false, pa)) as Htr
        by (rewrite (create_ack_travel h pa pl "direct" p) by auto; by case_bool_decide).
      rewrite (Z.ltb_antisym n 0). destruct (n <=? 0).
      * eexists. split; [done|]. split; [cbn [map fst snd negb]; by rewrite Htr|]. by apply Forall_singleton.
      * destruct (multi_ack_ok h 1 pa pl) as (m & Hm & Htm); [rewrite Hlh; done|]. rewrite Hm.
        cbn [mbind res_bind]. eexists. split; [done|].
        split; [cbn [map fst snd negb]; by rewrite Htr, (multi_ack_travel _ _ _ _ _ Hm)|].
        apply Forall_cons. split; [|by apply Forall_singleton].
        unfold received_ack. cbn [fst]. rewrite Htm. cbn. rewrite <- Hcrc. eapply multi_ack_crc; [exact Hm|lia].
Qed.

(** A candidate whose key and secret fit is the match, if none before it is. *)
Lemma match_contact_first src priv enc l1 c l2 ss d :
  Forall (λ k, try_candidate priv enc k = None) l1 → try_candidate priv enc c = Some (ss, d) →
  (∃ pub, _contact_pubkey_bytes c = Ok (src :: pub)) →
  match_contact priv enc (candidates src (l1 ++ c :: l2)) = Some (c, ss, d).
Proof.
  intros Hl1 Hc (pub & Hpub). unfold candidates. rewrite List.filter_app. cbn [List.filter].
  rewrite Hpub, Z.eqb_refl. induction Hl1 as [|k l1 Hk _ IH]; cbn; [by rewrite Hc|].
  destruct (match _contact_pubkey_bytes k with Ok _ => _ | Err _ => _ end); cbn; [by rewrite Hk|done].
Qed.

Lemma slice_to_before_nul b : slice_to b (_text_len b) = before_nul b.
Proof.
  unfold _text_len. assert (∃ r, b = before_nul b ++ r) as [r Hr].
  { induction b as [|x b [r IH]]; [by exists []|]. cbn. destruct (x =? 0); [by exists (x :: b)|].
    exists r. cbn. by f_equal. }
  rewrite Hr at 1. by apply slice_to_app_exact.
Qed.

(** A plain text that decrypts is published, with its ACKs scheduled first. *)
Lemma deliver_plain u1 u4 q cA secret d flags body h acks s pubA :
  _contact_pubkey_bytes cA = Ok pubA →
  _calc_ack_hash u1 (local_identity s) TXT_TYPE_PLAIN d body pubA (from_le (slice_to d 4)) flags = Ok (Some h) →
  (if _ack_allowed should_ack pubA TXT_TYPE_PLAIN (from_le (slice_to d 4))
   then _build_ack_responses u4 (local_identity s) (multi_acks s) q cA secret pubA h (is_route_flood q)
   else Ok []) = Ok acks →
  ∃ s', deliver should_ack callback_run u1 u4 q cA secret d TXT_TYPE_PLAIN flags [] body s = (s', Ok true)
    ∧ log s' = log s ++ map (λ a, AckScheduled a.1 a.2) acks
        ++ (if has_event_service s
            then publish q cA (decode_replace (before_nul body)) [] TXT_TYPE_PLAIN (from_le (slice_to d 4))
            else []).
Proof.
  intros Hk Hh Ha. unfold deliver. rewrite slice_to_before_nul. py_run. rewrite Hk.
  change (TXT_TYPE_PLAIN =? TXT_TYPE_SIGNED_PLAIN) with false. cbn beta zeta iota.
  rewrite Hh. cbn beta zeta iota. rewrite Ha. cbn iota. change (TXT_TYPE_PLAIN =? TXT_TYPE_CLI_DATA) with false. cbn iota.
  unfold intercept. py_run. cbn [has_event_service emit with_decrypted].
  destruct (has_event_service s); eexists; (split; [done|]); cbn; by rewrite ?app_nil_r, <- ?app_assoc.
Qed.

(** The flags byte of a plain text. *)
Lemma plain_flags att : Z.land (Z.shiftr (text_flags TXT_TYPE_PLAIN att) 2) 0x3F = TXT_TYPE_PLAIN
  ∧ is_byte (text_flags TXT_TYPE_PLAIN att).
Proof.
  unfold text_flags, TXT_TYPE_PLAIN, is_byte. change (Z.shiftl 0 2) with 0. rewrite Z.lor_0_l.
  autorewrite with bits. zdm.
Qed.

Lemma sized_index (d : bytes) i x : index d i = Ok x → 0 ≤ i → i < len d.
Proof.
  intros H Hi. destruct (index_inv _ _ _ Hi H) as (l1 & l2 & -> & Hl). rewrite len_app, len_cons.
  pose proof (len_nonneg l2). lia.
Qed.

(** The payload of a text: both hashes, then at least a MAC and a block. *)
Lemma text_payload_head c id msg attempt mtype arg tt ts p crc :
  text_packet c id msg attempt mtype arg tt ts = Ok (p, crc) → stored_consistent c →
  ∃ d s cipher, payload p = d :: s :: cipher ∧ index (get_public_key id) 0 = Ok s ∧ 2 ≤ len cipher.
Proof.
  intros H Hc. destruct (text_packet_inv _ _ _ _ _ _ _ _ _ _ H Hc)
    as (pt & ci & body & pa & pl & hp & _ & Hbody & -> & _).
  apply encrypted_payload_inv in Hbody as (pub & secret & d & s & cipher & _ & _ & He & -> & _ & _ & _ & Hs).
  exists d, s, cipher. split_and!; [done|done|]. apply encrypt_then_mac_inv in He as (_ & -> & _).
  pose proof (len_nonneg pt). zdm.
Qed.

(** The reader's ACK hash of a plain text starts with the CRC. *)
Lemma plain_ack_hash id c msg attempt mtype arg tt ts p crc u1 idB d body b :
  text_packet c id msg attempt mtype arg tt ts = Ok (p, crc) → stored_consistent c →
  Z.land tt 0x3F = TXT_TYPE_PLAIN → encode (str_before_nul msg) = Ok b → before_nul body = b → len u1 = 1 →
  ∃ h, _calc_ack_hash u1 idB TXT_TYPE_PLAIN d body (get_public_key id) ts
         (text_flags TXT_TYPE_PLAIN (Z.land attempt 0xFF)) = Ok (Some h)
    ∧ len h = 6 ∧ from_le (slice_to h 4) = crc.
Proof.
  intros Ht Hc Hp Hb Hbody Hu. unfold _calc_ack_hash. rewrite slice_to_before_nul, Hbody.
  change (TXT_TYPE_PLAIN =? TXT_TYPE_PLAIN) with true. cbn iota.
  assert (∃ ext, (if _text_len body + 1 <? len body then index body (_text_len body + 1) else Ok 0) = Ok ext) as [ext ->].
  { destruct (_ <? _) eqn:E; [|by eexists]. bool_hyps. pose proof (len_nonneg (before_nul body)).
    apply index_in_range. unfold _text_len in *. lia. }
  cbn [mbind res_bind].
  destruct (text_ack_matches c id msg attempt mtype arg tt ts p crc u1 ext true Ht Hc) as (b' & h & Hb' & Hh & Hd & _);
    [by rewrite Hp|].
  rewrite Hb in Hb'. injection Hb' as <-. rewrite Hp in Hh. rewrite Hh. exists h. split; [done|].
  assert (len h = 6) as Hl.
  { revert Hh. unfold calc_text_ack_hash. intros H. res_inv. autorewrite with pylen.
    rewrite len_slice_to by (rewrite len_sha256; lia). lia. }
  split; [done|]. destruct (ack_from_bytes_ok h [] None "direct") as (a & Ha & _); [rewrite Hl; done|by left|].
  specialize (Hd _ _ _ _ Ha). rewrite (discrete_ack_crc _ _ _ _ _ Ha) in Hd by lia. congruence.
Qed.

(** C5: a text reaches its reader and its confirmation finds its way back. A
    plain text built for a node that has the sender among its contacts, as the first
    that authenticates it, is, however it was routed, consumed there and, when the node has an
    event service, published with the sender's key, the sent timestamp and the text
    up to its first NUL. Unless its owner vetoes it, the reader schedules exactly these
    ACKs: a path return for a flood after 200 ms; else a discrete ACK, flooded when no
    path to the sender is known and along the stored path otherwise, there with a multi-ACK
    300 ms before it when enabled. Each gives the sender, in whose book no contact
    before the reader shares its first key byte, exactly the CRC it waits for. *)
Theorem text_delivered_and_acked idA idB cB msg attempt mtype arg tt ts p crc secret q s l1 cA l2
    book1 book2 u1 u4 :
  text_packet cB idA msg attempt mtype arg tt ts = Ok (p, crc) → stored_consistent cB →
  Z.land tt 0x3F = TXT_TYPE_PLAIN → peers idA idB (public_key cB) secret →
  payload q = payload p → wire_wf q → get_payload_type q = PAYLOAD_TYPE_TXT_MSG → region_key_ok q →
  local_identity s = idB → ContactStore.contacts (contacts s) = l1 ++ cA :: l2 →
  _contact_pubkey_bytes cA = Ok (get_public_key idA) →
  Forall (λ k, try_candidate (get_private_key idB) (slice_from (payload q) 2) k = None) l1 →
  other_hash (get_public_key idB) book1 → len u1 = 1 →
  ∃ s' acks m, call should_ack callback_run u1 u4 q s = (s', Ok true)
    ∧ log s' = log s ++ map (λ a, AckScheduled a.1 a.2) acks
        ++ (if has_event_service s then [Published m] else [])
    ∧ message_text m = str_before_nul msg ∧ timestamp m = ts ∧ txt_type m = TXT_TYPE_PLAIN
    ∧ contact_pubkey m = public_key (ContactStore.proxy_contact cA)
    ∧ map (λ a, (travel a.1, a.2)) acks =
        (if _ack_allowed should_ack (get_public_key idA) TXT_TYPE_PLAIN ts
         then ack_plan q (ContactStore.proxy_contact cA) (multi_acks s) else [])
    ∧ Forall (λ a, received_ack idA (book1 ++ public_key cB :: book2) a.1 = Ok (Some crc)) acks.
Proof.
  intros Htext Hcons Hplain HP Hpay Hw Htype Hreg Hid Hcont HkA Hl1 Hbook Hu1.
  assert (Z.land tt 0x3F ≠ TXT_TYPE_SIGNED_PLAIN) as Hsig by (rewrite Hplain; done).
  destruct (text_message_roundtrip cB idA msg attempt mtype arg tt ts p crc _ secret Htext Hcons Hsig
    (peer_text_B _ _ _ _ HP) (peer_secret_A _ _ _ _ HP)) as (d & b & Hdec & Hf & Henc & _).
  rewrite <- Hpay in Hdec. injection Hf as Hts Hfl Hbody. rewrite Hplain in Hfl.
  destruct (plain_flags (Z.land attempt 0xFF)) as [Hty Hflb].
  pose proof (sized_index _ _ _ Hfl ltac:(lia)) as H5.
  destruct (text_payload_head _ _ _ _ _ _ _ _ _ _ Htext Hcons) as (dh & sh & cipher & Hpb & Hsh & Hcl).
  destruct (plain_ack_hash idA cB msg attempt mtype arg tt ts p crc u1 (local_identity s) d (slice_from d 5) b)
    as (h & Hh & Hlh & Hcrc); try done.
  destruct (acks_confirm u4 idA idB (multi_acks s) q cA secret h crc book1 book2 (public_key cB)) as (acks & Ha & Hplan & Hall);
    try done.
  destruct (packet_hash_ok q) as [ph Hph]; [by rewrite Htype|].
  set (allowed := _ack_allowed should_ack (get_public_key idA) TXT_TYPE_PLAIN ts).
  destruct (deliver_plain u1 u4 q cA secret d (text_flags TXT_TYPE_PLAIN (Z.land attempt 0xFF)) (slice_from d 5) h
    (if allowed then acks else []) s (get_public_key idA)) as (s' & Hs' & Hlog).
  - done.
  - by rewrite Hts.
  - rewrite Hts. fold allowed. rewrite Hid. by destruct allowed.
  - exists s', (if allowed then acks else []). unfold publish in Hlog. rewrite Hph in Hlog.
    eexists. split; [|split; [exact Hlog|]].
    + unfold call. rewrite Hpay, Hpb, !len_cons. pose proof (len_nonneg cipher).
      replace (1 + (1 + len cipher) <? 4) with false by lia. py_run.
      change (index (dh :: sh :: cipher) 1) with (@Ok Z sh). cbn beta iota. rewrite Hid, Hcont, <- Hpb, <- Hpay.
      rewrite (match_contact_first sh _ _ l1 cA l2 secret d).
      * replace (len d <? 5) with false by lia. rewrite Hfl. cbn beta zeta iota. rewrite Hty.
        change (negb (SUPPORTED_TXT_TYPES TXT_TYPE_PLAIN)) with false.
        change (TXT_TYPE_PLAIN =? TXT_TYPE_SIGNED_PLAIN) with false. cbn iota. exact Hs'.
      * done.
      * unfold try_candidate. rewrite HkA. cbn [mbind res_bind].
        rewrite (peer_len_A _ _ _ _ HP). change (raise_if _ _) with (@Ok unit Datatypes.tt). cbn [mbind res_bind].
        rewrite (peer_secret_B _ _ _ _ HP). cbn [mbind res_bind]. by rewrite Hdec.
      * rewrite HkA. pose proof (peer_len_A _ _ _ _ HP) as HlA.
        destruct (get_public_key idA) as [|x pk]; [done|]. injection Hsh as ->. by exists pk.
    + cbn. rewrite Hbody, Hts. fold allowed. split_and!; try done; [by eapply decode_replace_encode|by destruct allowed|by destruct allowed].
Qed.
End handler_lemmas.

(** ** Instance *)

#[local] Existing Instances xor_cipher xor_cipher_laws xor_exchange.

(** "hi" from Alice to Bob ... *)
Definition sent_text : Packet.t * Z :=
  match text_packet bob_contact alice [104; 105] 1 "flood" None TXT_TYPE_PLAIN 1000 with
  | Ok r => r
  | Err _ => (Packet.init, 0)
  end.

(** ... as it arrives, flooded over two repeaters ... *)
Definition heard_text : Packet.t :=
  with_header 9 (with_path [5; 6] (with_path_len 2 sent_text.1)).

(** ... at Bob, who knows Alice and a contact with the same first key byte. *)
Definition known_as (key : bytes) : Models.Contact :=
  Models.mkContact key [65] CONTACT_TYPE_CHAT_NODE 0 (-1) [] 7 50 f_zero f_zero 0 None.

Definition bob_node : t :=
  mk bob (ContactStore.put (known_as alice_key) (ContactStore.put (known_as (17 :: replicate 31 9))
           (ContactStore.init 8))) true [] 1 None [].

Lemma text_delivered_and_acked_witness :
  ∃ s' acks m, call None (λ _ _, Ok ()) [77] [] heard_text bob_node = (s', Ok true)
    ∧ log s' = map (λ a, AckScheduled a.1 a.2) acks ++ [Published m]
    ∧ message_text m = [104; 105] ∧ timestamp m = 1000 ∧ map (λ a, (travel a.1, a.2)) acks = [(PAYLOAD_TYPE_PATH, true, [], 200)]
    ∧ Forall (λ a, received_ack alice [hex alice_key; hex bob_key] a.1 = Ok (Some sent_text.2)) acks.
Proof.
  destruct (text_delivered_and_acked None (λ _ _, Ok ()) alice bob bob_contact [104; 105] 1 "flood" None
    TXT_TYPE_PLAIN 1000 sent_text.1 sent_text.2 (zip_with Z.lxor bob_key alice_key) heard_text bob_node
    [ContactStore.proxy_of (known_as (17 :: replicate 31 9))] (ContactStore.proxy_of (known_as alice_key)) []
    [hex alice_key] [] [77] []) as (s' & acks & m & H1 & H2 & H3 & H4 & _ & _ & H7 & H8).
  - vm_compute. reflexivity.
  - intros _. reflexivity.
  - reflexivity.
  - split; first [reflexivity | decide_now].
  - reflexivity.
  - split; first [reflexivity | decide_now].
  - reflexivity.
  - intros k Hk. discriminate Hk.
  - reflexivity.
  - reflexivity.
  - vm_compute. reflexivity.
  - constructor; [vm_compute; reflexivity|constructor].
  - constructor; [|constructor]. intros pub Hpub. change (Ok alice_key = Ok pub) in Hpub. injection Hpub as <-. discriminate.
  - reflexivity.
  - exists s', acks, m. split_and!; [exact H1|exact H2|exact H3|exact H4|exact H7|exact H8].
Defined.
