(* ===== verification/Telemetry.v ===== *)
(** * Telemetry: CayenneLPP records

    [CayenneLPP]: the encoder ([protocol/cayenne_lpp.py]). [LPPDecoder]: the
    decoder of telemetry responses ([_decode_cayenne_lpp] of
    [node/handlers/protocol_response.py]). A record is a channel byte, a type
    byte and a value of the type's size, most significant byte first. *)

From S2P Require Import Prelude PyData PyFloat.

(** [int.from_bytes(b, "big")], unsigned and signed *)
Definition from_be (b : bytes) : Z := from_le (reverse b).
Definition from_be_signed (b : bytes) : Z := from_le_signed (reverse b).

(** ** Encoder *)
Module CayenneLPP.

Definition LPP_TEMPERATURE : Z := 0x67.
Definition LPP_RELATIVE_HUMIDITY : Z := 0x68.
Definition LPP_BAROMETRIC_PRESSURE : Z := 0x73.
Definition LPP_VOLTAGE : Z := 0x74.
Definition LPP_CURRENT : Z := 0x75.
Definition LPP_POWER : Z := 0x80.
Definition TELEM_CHANNEL_SELF : Z := 1.

(** size, multiplier, signed *)
Definition _LPP_TYPES (lpp_type : Z) : option (Z * Z * bool) :=
  if lpp_type =? LPP_TEMPERATURE then Some (2, 10, true)
  else if lpp_type =? LPP_RELATIVE_HUMIDITY then Some (1, 2, false)
  else if lpp_type =? LPP_BAROMETRIC_PRESSURE then Some (2, 10, false)
  else if lpp_type =? LPP_VOLTAGE then Some (2, 100, false)
  else if lpp_type =? LPP_CURRENT then Some (2, 1000, true)
  else if lpp_type =? LPP_POWER then Some (2, 1, false)
  else None.

Definition _add_field (channel lpp_type : Z) (value : float) : res bytes :=
  match _LPP_TYPES lpp_type with
  | None => Err KeyError
  | Some (size, multiplier, is_signed) =>
      let sign := fltb value f_zero in
      let value := if sign then fneg value else value in
      a ← _f32 value;
      b ← _f32 (f_of_Z multiplier);
      p ← _f32 (fmul a b);
      v ← int_of_float p;
      let mask := Z.shiftl 1 (size * 8) - 1 in
      let v := if is_signed && sign then Z.land (mask - Z.land v mask + 1) mask else Z.land v mask in
      h ← bytes_of_ints [Z.land channel 0xFF; Z.land lpp_type 0xFF];
      d ← to_bytes_be (Z.to_nat size) v;
      mret (h ++ d)
  end.

Definition encode_voltage (channel : Z) (volts : float) : res bytes := _add_field channel LPP_VOLTAGE volts.
Definition encode_current (channel : Z) (amps : float) : res bytes := _add_field channel LPP_CURRENT amps.

(** The integer becomes a float when it is packed. *)
Definition encode_power (channel watts : Z) : res bytes :=
  w ← float_of_int watts; _add_field channel LPP_POWER w.

Definition encode_temperature (channel : Z) (celsius : float) : res bytes :=
  _add_field channel LPP_TEMPERATURE celsius.
Definition encode_relative_humidity (channel : Z) (percent : float) : res bytes :=
  _add_field channel LPP_RELATIVE_HUMIDITY percent.
Definition encode_barometric_pressure (channel : Z) (hpa : float) : res bytes :=
  _add_field channel LPP_BAROMETRIC_PRESSURE hpa.

End CayenneLPP.

(** ** Decoder *)
Module LPPDecoder.

(** name, size, divisor, signed *)
Definition _LPP_TYPES (type_id : Z) : option (string * Z * Z * bool) :=
  match type_id with
  | 0x00 => Some ("Digital Input"%string, 1, 1, false)
  | 0x01 => Some ("Digital Output"%string, 1, 1, false)
  | 0x02 => Some ("Analog Input"%string, 2, 100, true)
  | 0x03 => Some ("Analog Output"%string, 2, 100, true)
  | 0x64 => Some ("Generic Sensor"%string, 4, 1, false)
  | 0x65 => Some ("Illuminance"%string, 2, 1, false)
  | 0x66 => Some ("Presence"%string, 1, 1, false)
  | 0x67 => Some ("Temperature"%string, 2, 10, true)
  | 0x68 => Some ("Humidity"%string, 1, 2, false)
  | 0x71 => Some ("Accelerometer"%string, 6, 1000, true)
  | 0x73 => Some ("Barometer"%string, 2, 10, false)
  | 0x74 => Some ("Voltage"%string, 2, 100, false)
  | 0x75 => Some ("Current"%string, 2, 1000, true)
  | 0x76 => Some ("Frequency"%string, 4, 1, false)
  | 0x78 => Some ("Percentage"%string, 1, 1, false)
  | 0x79 => Some ("Altitude"%string, 2, 1, true)
  | 0x7D => Some ("Concentration"%string, 2, 1, false)
  | 0x80 => Some ("Power"%string, 2, 1, false)
  | 0x82 => Some ("Distance"%string, 4, 1000, false)
  | 0x83 => Some ("Energy"%string, 4, 1000, false)
  | 0x84 => Some ("Direction"%string, 2, 1, false)
  | 0x85 => Some ("Unix Time"%string, 4, 1, false)
  | 0x86 => Some ("Gyroscope"%string, 6, 100, true)
  | 0x87 => Some ("Colour"%string, 3, 1, false)
  | 0x88 => Some ("GPS"%string, 9, 1, true)
  | 0x8E => Some ("Switch"%string, 1, 1, false)
  | 0xF0 => Some ("Polyline"%string, 8, 1, false)
  | _ => None
  end.

Inductive lpp_value : Type :=
| VInt (v : Z)
| VFloat (v : float)
| VGps (latitude longitude altitude : float)
| VXyz (x y z : float)
| VRgb (r g b : Z)
| VHex (h : string).

Record sensor := mkSensor {
  channel : Z;
  type_name : string;
  type_id : Z;
  value : lpp_value;
  raw_value : string
}.

(** The value of a record of a known type. *)
Definition decode_value (type_id size divisor : Z) (signed : bool) (raw : bytes) : res lpp_value :=
  if type_id =? 0x88 then
    lat ← int_truediv (from_be_signed (slice raw 0 3)) 10000;
    lon ← int_truediv (from_be_signed (slice raw 3 6)) 10000;
    alt ← int_truediv (from_be_signed (slice raw 6 9)) 100;
    mret (VGps lat lon alt)
  else if (size =? 6) && ((type_id =? 0x71) || (type_id =? 0x86)) then
    x ← int_truediv (from_be_signed (slice raw 0 2)) divisor;
    y ← int_truediv (from_be_signed (slice raw 2 4)) divisor;
    z ← int_truediv (from_be_signed (slice raw 4 6)) divisor;
    mret (VXyz x y z)
  else if type_id =? 0x87 then
    r ← index raw 0; g ← index raw 1; b ← index raw 2; mret (VRgb r g b)
  else if type_id =? 0xF0 then mret (VHex (hex raw))
  else
    let val := if signed then from_be_signed raw else from_be raw in
    if negb (divisor =? 1) then VFloat <$> int_truediv val divisor else mret (VInt val).

(** The [while] loop; an iteration consumes at least three bytes. *)
Fixpoint decode_loop (fuel : nat) (data : bytes) (idx : Z) (sensors : list sensor) : res (list sensor) :=
  match fuel with
  | O => mret sensors
  | S fuel =>
      if negb (idx + 2 <=? len data) then mret sensors
      else
        channel ← index data idx;
        type_id ← index data (idx + 1);
        if channel =? 0 then mret sensors
        else
          let idx := idx + 2 in
          match _LPP_TYPES type_id with
          | None => mret sensors
          | Some (name, size, divisor, signed) =>
              if idx + size >? len data then mret sensors
              else
                let raw := slice data idx (idx + size) in
                v ← decode_value type_id size divisor signed raw;
                decode_loop fuel data (idx + size) (sensors ++ [mkSensor channel name type_id v (hex raw)])
          end
  end.

Definition _decode_cayenne_lpp (data : bytes) : res (list sensor) := decode_loop (length data) data 0 [].

End LPPDecoder.

Import CayenneLPP LPPDecoder.

(** ** Lemmas: numbers *)

Lemma land_mask k z : 0 ≤ k → Z.land z (Z.shiftl 1 k - 1) = z mod 2 ^ k.
Proof. intros Hk. rewrite <- Z.land_ones by done. by rewrite Z.ones_equiv, Z.shiftl_1_l, Z.sub_1_r. Qed.

Lemma len_reverse {A} (l : list A) : len (reverse l) = len l.
Proof. unfold len. by rewrite length_reverse. Qed.

Lemma to_bytes_be_inv n z b :
  to_bytes_be n z = Ok b → 0 ≤ z < 256 ^ Z.of_nat n ∧ len b = Z.of_nat n ∧ bytes_ok b ∧ from_be b = z.
Proof.
  unfold to_bytes_be. destruct (_ && _) eqn:E; [|done]. intros [= <-]. bool_hyps. unfold from_be.
  rewrite reverse_involutive, len_reverse, len_le_bytes, from_le_le_bytes by lia. split_and!; [lia..| |done].
  unfold bytes_ok. rewrite list.Forall_reverse. apply bytes_ok_le_bytes.
Qed.

Lemma from_be_signed_eq b :
  b ≠ [] → from_be_signed b = if 2 ^ (8 * len b - 1) <=? from_be b then from_be b - 2 ^ (8 * len b) else from_be b.
Proof.
  intros Hb. unfold from_be_signed, from_be, from_le_signed. rewrite len_reverse.
  rewrite bool_decide_false by (intros E; apply Hb; rewrite <- (reverse_involutive b), E; done). cbn [negb andb].
  assert (0 < len b) as Hl by (destruct b; [done|]; rewrite len_cons; pose proof (len_nonneg b); lia).
  replace (2 ^ (8 * len b) / 2) with (2 ^ (8 * len b - 1)); [done|].
  replace (8 * len b) with (1 + (8 * len b - 1)) at 2 by lia. rewrite Z.pow_add_r by lia. change (2 ^ 1) with 2.
  by rewrite (Z.mul_comm 2), Z.div_mul.
Qed.

(** The divisors are not zero. *)
Definition divisors : list Z := [1; 2; 10; 100; 1000; 10000].

Lemma int_truediv_ok a b : b ∈ divisors → ∃ x, int_truediv a b = Ok x.
Proof.
  intros Hb. unfold int_truediv, fdiv, divisors in *.
  repeat (apply elem_of_cons in Hb as [->|Hb]; [by eexists|]). by apply list.not_elem_of_nil in Hb.
Qed.

(** ** The decoder terminates and reads a prefix *)

(** The bytes of a record. *)
Definition record_of (s : sensor) (raw : bytes) : Prop :=
  raw_value s = hex raw ∧ channel s ≠ 0
  ∧ ∃ name size divisor signed, LPPDecoder._LPP_TYPES (type_id s) = Some (name, size, divisor, signed)
    ∧ type_name s = name ∧ len raw = size ∧ decode_value (type_id s) size divisor signed raw = Ok (value s).

Lemma lpp_types_size ty name size divisor signed :
  LPPDecoder._LPP_TYPES ty = Some (name, size, divisor, signed) → 1 ≤ size ∧ divisor ∈ divisors.
Proof.
  unfold LPPDecoder._LPP_TYPES. repeat case_match; intros [= <- <- <- <-]; try done; (split; [lia|decide_now]).
Qed.

Lemma decode_value_ok ty name size divisor signed raw :
  LPPDecoder._LPP_TYPES ty = Some (name, size, divisor, signed) → len raw = size →
  ∃ v, decode_value ty size divisor signed raw = Ok v.
Proof.
  intros Ht Hl. pose proof (lpp_types_size _ _ _ _ _ Ht) as [Hs Hd]. unfold decode_value.
  destruct (ty =? 0x88).
  { destruct (int_truediv_ok (from_be_signed (slice raw 0 3)) 10000) as [? ->]; [decide_now|].
    destruct (int_truediv_ok (from_be_signed (slice raw 3 6)) 10000) as [? ->]; [decide_now|].
    destruct (int_truediv_ok (from_be_signed (slice raw 6 9)) 100) as [? ->]; [decide_now|]. by eexists. }
  pose proof (λ a, int_truediv_ok a divisor Hd) as Hq. destruct (_ && _).
  { destruct (Hq (from_be_signed (slice raw 0 2))) as [? ->]. destruct (Hq (from_be_signed (slice raw 2 4))) as [? ->].
    destruct (Hq (from_be_signed (slice raw 4 6))) as [? ->]. by eexists. }
  destruct (ty =? 0x87) eqn:E87.
  { bool_hyps. subst ty. injection Ht as <- <- <- <-. destruct raw as [|r [|g [|b raw]]]; try done. by eexists. }
  destruct (ty =? 0xF0); [by eexists|]. destruct (negb _); [|by eexists].
  destruct (Hq (if signed then from_be_signed raw else from_be raw)) as [x ->]. by eexists.
Qed.

(** A record the decoder knows at the read position. *)
Definition record_at (rest : bytes) (s : sensor) (raw rest' : bytes) : Prop :=
  rest = (channel s :: type_id s :: raw) ++ rest' ∧ record_of s raw.

Lemma loop_step fuel pre rest s raw rest' acc :
  record_at rest s raw rest' →
  decode_loop (S fuel) (pre ++ rest) (len pre) acc
  = decode_loop fuel ((pre ++ channel s :: type_id s :: raw) ++ rest')
      (len (pre ++ channel s :: type_id s :: raw)) (acc ++ [s]).
Proof.
  intros (-> & Hraw & Hc & name & size & divisor & signed & Ht & Hname & Hl & Hv).
  rewrite app_assoc. set (data := (pre ++ _) ++ rest'). assert (len data = len pre + 2 + size + len rest') as Hd
    by (unfold data; autorewrite with pylen; lia).
  pose proof (lpp_types_size _ _ _ _ _ Ht) as [Hs _]. pose proof (len_nonneg pre). pose proof (len_nonneg rest').
  cbn [decode_loop]. rewrite (proj2 (Z.leb_le (len pre + 2) (len data))) by lia. cbn [negb].
  assert (data = pre ++ channel s :: type_id s :: raw ++ rest') as E1 by (unfold data; by rewrite <- app_assoc).
  assert (data = (pre ++ [channel s]) ++ type_id s :: raw ++ rest') as E2 by (rewrite E1; by rewrite <- app_assoc).
  assert (data = (pre ++ [channel s; type_id s]) ++ raw ++ rest') as E3 by (rewrite E1; by rewrite <- app_assoc).
  assert (index data (len pre) = Ok (channel s)) as -> by (rewrite E1; by apply index_app_exact).
  assert (index data (len pre + 1) = Ok (type_id s)) as ->
    by (rewrite E2; apply index_app_exact; by autorewrite with pylen).
  cbn [mbind res_bind]. rewrite (proj2 (Z.eqb_neq _ _) Hc), Ht.
  replace (len pre + 2 + size >? len data) with false by lia.
  assert (slice data (len pre + 2) (len pre + 2 + size) = raw) as ->
    by (rewrite E3; apply slice_app_exact; autorewrite with pylen; lia).
  rewrite Hv. cbn [mbind res_bind]. f_equal; [autorewrite with pylen; lia|].
  do 2 f_equal. destruct s; cbn in *. by subst.
Qed.

(** At a read position the loop stops whatever the fuel, or finds a record. *)
Lemma loop_cases pre rest acc :
  (∀ fuel, decode_loop fuel (pre ++ rest) (len pre) acc = Ok acc) ∨ ∃ s raw rest', record_at rest s raw rest'.
Proof.
  pose proof (len_nonneg pre). destruct rest as [|c [|ty rest]].
  1,2: left; intros [|fuel]; [done|]; cbn [decode_loop]; autorewrite with pylen;
    rewrite (proj2 (Z.leb_gt _ _)) by lia; done.
  assert (index (pre ++ c :: ty :: rest) (len pre) = Ok c) as Hc by (by apply index_app_exact).
  assert (index (pre ++ c :: ty :: rest) (len pre + 1) = Ok ty) as Hty.
  { rewrite (cons_middle c), app_assoc. apply index_app_exact. by autorewrite with pylen. }
  destruct (decide (c = 0)) as [->|Hne].
  { left. intros [|fuel]; [done|]. cbn [decode_loop]. destruct (negb _); [done|]. by rewrite Hc, Hty. }
  destruct (LPPDecoder._LPP_TYPES ty) as [[[[name size] divisor] signed]|] eqn:Ht.
  2: { left. intros [|fuel]; [done|]. cbn [decode_loop]. destruct (negb _); [done|]. rewrite Hc, Hty.
       cbn [mbind res_bind]. by rewrite (proj2 (Z.eqb_neq _ _) Hne), Ht. }
  pose proof (lpp_types_size _ _ _ _ _ Ht) as [Hs _]. destruct (decide (size ≤ len rest)) as [Hle|Hgt].
  - right. destruct (split_at_len rest size) as (raw & rest' & -> & Hraw); [lia|].
    destruct (decode_value_ok _ _ _ _ _ raw Ht Hraw) as [v Hv].
    exists (mkSensor c name ty v (hex raw)), raw, rest'. split; [done|]. split_and!; [done|done|].
    exists name, size, divisor, signed. split_and!; done.
  - left. intros [|fuel]; [done|]. cbn [decode_loop]. destruct (negb _); [done|]. rewrite Hc, Hty.
    cbn [mbind res_bind]. rewrite (proj2 (Z.eqb_neq _ _) Hne), Ht. autorewrite with pylen.
    by replace (len pre + 2 + size >? len pre + (1 + (1 + len rest))) with true by lia.
Qed.

Definition bytes_of_records (l : list (sensor * bytes)) : bytes :=
  concat (map (λ e, channel e.1 :: type_id e.1 :: e.2) l).

Lemma decode_loop_reads fuel pre rest acc :
  (length rest ≤ fuel)%nat →
  ∃ l rest', rest = bytes_of_records l ++ rest' ∧ Forall (λ e, record_of e.1 e.2) l
    ∧ ∀ extra, decode_loop (fuel + extra) (pre ++ rest) (len pre) acc = Ok (acc ++ l.*1).
Proof.
  revert pre rest acc. induction fuel as [|fuel IH]; intros pre rest acc Hf;
    (destruct (loop_cases pre rest acc) as [Hstop|(s & raw & rest' & Hrec)];
     [exists [], rest; split_and!; [done|constructor|intros; by rewrite Hstop, app_nil_r]|]).
  - destruct Hrec as [-> _]. cbn in Hf. lia.
  - pose proof (proj1 Hrec) as Hrest. pose proof (proj2 Hrec) as Hok.
    destruct (IH (pre ++ channel s :: type_id s :: raw) rest' (acc ++ [s])) as (l & r & -> & Hl & Hrun).
    { rewrite Hrest in Hf. cbn in Hf. rewrite length_app in Hf. lia. }
    exists ((s, raw) :: l), r. split_and!.
    + rewrite Hrest. cbn. by rewrite <- app_assoc.
    + by constructor.
    + intros extra. cbn [Nat.add]. rewrite (loop_step _ _ _ _ _ _ _ Hrec), Hrun. cbn. by rewrite <- app_assoc.
Qed.

(** Decoding telemetry terminates on every input and reads a prefix of it.
    The loop answers after at most one iteration per byte, whatever more it is
    given; it never raises; and the sensors are, in order, the records at the
    front of the data, each with a non-zero channel, a known type, its raw bytes
    and the value they encode. *)
Theorem lpp_decode_terminates data :
  ∃ l rest, data = bytes_of_records l ++ rest ∧ Forall (λ e, record_of e.1 e.2) l
    ∧ _decode_cayenne_lpp data = Ok l.*1
    ∧ ∀ fuel, (length data ≤ fuel)%nat → decode_loop fuel data 0 [] = Ok l.*1.
Proof.
  destruct (decode_loop_reads (length data) [] data []) as (l & rest & Hd & Hl & Hrun); [done|].
  exists l, rest. assert (∀ fuel, (length data ≤ fuel)%nat → decode_loop fuel data 0 [] = Ok l.*1) as Hall.
  { intros fuel Hf. replace fuel with (length data + (fuel - length data))%nat by lia. apply Hrun. }
  split_and!; [done|done|by apply Hall|done].
Qed.

(** ** Round trip *)

Lemma loop_zeros fuel pre n acc : decode_loop fuel (pre ++ zeros n) (len pre) acc = Ok acc.
Proof.
  destruct (loop_cases pre (zeros n) acc) as [H|(s & raw & rest & E & _ & Hc & _)]; [done|].
  exfalso. unfold zeros in E. destruct (Z.to_nat n); [done|]. by injection E.
Qed.

(** Records followed by zero padding decode to their sensors. *)
Lemma decode_records l n :
  Forall (λ e, record_of e.1 e.2) l → _decode_cayenne_lpp (bytes_of_records l ++ zeros n) = Ok l.*1.
Proof.
  intros Hl. unfold _decode_cayenne_lpp.
  cut (∀ fuel pre acc, (length l ≤ fuel)%nat →
         decode_loop fuel (pre ++ bytes_of_records l ++ zeros n) (len pre) acc = Ok (acc ++ l.*1)).
  { intros H. apply (H _ [] []). rewrite length_app. enough (length l ≤ length (bytes_of_records l))%nat by lia.
    clear. unfold bytes_of_records. induction l as [|e l IH]; cbn; [lia|]. rewrite length_app. lia. }
  induction Hl as [|[s raw] l Hs _ IH]; intros fuel pre acc Hf.
  - cbn. by rewrite loop_zeros, app_nil_r.
  - destruct fuel as [|fuel]; [cbn in Hf; lia|].
    rewrite (loop_step fuel pre _ s raw (bytes_of_records l ++ zeros n) acc).
    + rewrite IH by (cbn in Hf; lia). cbn. by rewrite <- app_assoc.
    + split; [|done]. cbn. by rewrite <- app_assoc.
Qed.

(** The number a field carries: the value times the multiplier in binary32,
    truncated. *)
Definition scaled (lpp_type : Z) (value : float) : res Z :=
  match CayenneLPP._LPP_TYPES lpp_type with
  | None => Err KeyError
  | Some (_, multiplier, is_signed) =>
      a ← _f32 (if fltb value f_zero then fneg value else value);
      b ← _f32 (f_of_Z multiplier);
      p ← _f32 (fmul a b);
      v ← int_of_float p;
      mret (if is_signed && fltb value f_zero then - v else v)
  end.

Definition fits (size : Z) (is_signed : bool) (z : Z) : Prop :=
  if is_signed then - 2 ^ (8 * size - 1) ≤ z < 2 ^ (8 * size - 1) else 0 ≤ z < 2 ^ (8 * size).

Global Instance fits_dec size sg z : Decision (fits size sg z).
Proof. destruct sg; unfold fits; apply _. Defined.

(** What a decoded sensor says of an encoded field [(channel, type, value)]. *)
Definition reads (f : Z * Z * float) (s : sensor) : Prop :=
  let '(ch, ty, v) := f in
  ∃ z name size multiplier is_signed,
    scaled ty v = Ok z ∧ LPPDecoder._LPP_TYPES ty = Some (name, size, multiplier, is_signed)
    ∧ channel s = Z.land ch 0xFF ∧ type_id s = ty ∧ type_name s = name
    ∧ match value s with
      | VInt z' => z' = z ∧ multiplier = 1
      | VFloat x => int_truediv z multiplier = Ok x
      | _ => False
      end.

(** Both tables agree on the types the encoder knows. *)
Lemma tables_agree ty size multiplier is_signed :
  CayenneLPP._LPP_TYPES ty = Some (size, multiplier, is_signed) →
  ∃ name, LPPDecoder._LPP_TYPES ty = Some (name, size, multiplier, is_signed)
    ∧ 1 ≤ size ≤ 2 ∧ 0 ≤ ty < 256 ∧ ty ≠ 0x88 ∧ ty ≠ 0x87 ∧ ty ≠ 0xF0.
Proof.
  unfold CayenneLPP._LPP_TYPES. repeat case_match; intros [= <- <- <-]; bool_hyps; subst ty; eexists;
    (split; [reflexivity|]); unfold LPP_TEMPERATURE, LPP_RELATIVE_HUMIDITY, LPP_BAROMETRIC_PRESSURE, LPP_VOLTAGE,
    LPP_CURRENT, LPP_POWER; lia.
Qed.

(** An encoded field: channel, type, and the scaled number modulo its width. *)
Lemma add_field_inv ch ty v b size multiplier is_signed :
  _add_field ch ty v = Ok b → CayenneLPP._LPP_TYPES ty = Some (size, multiplier, is_signed) →
  0 ≤ ty < 256 → 1 ≤ size →
  ∃ d z, b = Z.land ch 0xFF :: ty :: d ∧ scaled ty v = Ok z ∧ len d = size ∧ bytes_ok d
    ∧ from_be d = z mod 2 ^ (8 * size).
Proof.
  unfold _add_field, scaled. intros H Ht Hty Hs. rewrite Ht in *. cbv zeta in H.
  apply res_bind_ok in H as (a & -> & H). apply res_bind_ok in H as (m & -> & H).
  apply res_bind_ok in H as (p & Hp & H). apply res_bind_ok in H as (n & Hn & H). res_inv.
  cbn [mbind res_bind]. rewrite Hp. cbn [mbind res_bind]. rewrite Hn. cbn [mbind res_bind mret res_ret].
  match goal with H : bytes_of_ints _ = Ok _ |- _ => apply bytes_of_ints_inv in H as [-> _] end.
  match goal with H : to_bytes_be _ _ = Ok ?d |- _ => apply to_bytes_be_inv in H as (_ & Hl & Hb & Hv); exists d end.
  eexists. split_and!; [|done|lia|done|].
  - cbn. by rewrite (land_255 ty), Z.mod_small.
  - rewrite Hv. rewrite !land_mask by lia. rewrite (Z.mul_comm size 8).
    destruct (is_signed && fltb v f_zero); [|done].
    rewrite Z.shiftl_1_l.
    replace (2 ^ (8 * size) - 1 - n mod 2 ^ (8 * size) + 1) with (2 ^ (8 * size) - n mod 2 ^ (8 * size)) by lia.
    rewrite <- (Z.sub_0_l n), (Zminus_mod (2 ^ (8 * size))), (Zminus_mod 0), Z_mod_same_full, Zmod_mod. done.
Qed.

Lemma field_record ch ty v b :
  _add_field ch ty v = Ok b → Z.land ch 0xFF ≠ 0 →
  (∀ size multiplier is_signed z, CayenneLPP._LPP_TYPES ty = Some (size, multiplier, is_signed) →
     scaled ty v = Ok z → fits size is_signed z) →
  ∃ s raw, b = channel s :: type_id s :: raw ∧ record_of s raw ∧ reads (ch, ty, v) s.
Proof.
  intros Hb Hch Hfit. destruct (CayenneLPP._LPP_TYPES ty) as [[[size m] sg]|] eqn:Ht.
  2: { unfold _add_field in Hb. by rewrite Ht in Hb. }
  destruct (tables_agree _ _ _ _ Ht) as (name & Ht' & Hsz & Hty & H88 & H87 & HF0).
  destruct (add_field_inv _ _ _ _ _ _ _ Hb Ht Hty ltac:(lia)) as (d & z & -> & Hz & Hl & Hok & Hv).
  specialize (Hfit _ _ _ _ eq_refl Hz).
  assert ((if sg then from_be_signed d else from_be d) = z) as Hval.
  { unfold fits in Hfit. destruct sg.
    - rewrite from_be_signed_eq by (intros ->; rewrite len_nil in Hl; lia). rewrite Hl, Hv.
      pose proof (Z.pow_pos_nonneg 2 (8 * size - 1)). replace (2 ^ (8 * size)) with (2 * 2 ^ (8 * size - 1)) in *
        by (rewrite <- Z.pow_succ_r by lia; f_equal; lia).
      destruct (decide (0 ≤ z)).
      + rewrite Z.mod_small by lia. by rewrite (proj2 (Z.leb_gt _ _)) by lia.
      + rewrite <- (Z.mod_add z 1) by lia. rewrite Z.mod_small by lia. rewrite (proj2 (Z.leb_le _ _)) by lia. lia.
    - rewrite Hv. by apply Z.mod_small. }
  destruct (decode_value_ok _ _ _ _ _ d Ht' Hl) as [w Hw].
  exists (mkSensor (Z.land ch 0xFF) name ty w (hex d)), d. split_and!; [done|..].
  - split_and!; [done|done|]. exists name, size, m, sg. split_and!; done.
  - exists z, name, size, m, sg. split_and!; try done. cbn. revert Hw. unfold decode_value.
    rewrite (proj2 (Z.eqb_neq _ _) H88), (proj2 (Z.eqb_neq size 6)) by lia. cbn [andb].
    rewrite (proj2 (Z.eqb_neq _ _) H87), (proj2 (Z.eqb_neq _ _) HF0), Hval.
    destruct (m =? 1) eqn:Em; cbn [negb]; [intros [= <-]; by bool_hyps|].
    destruct (int_truediv z m); [|done]. by intros [= <-].
Qed.

(** Telemetry survives the air. Any sequence of encoded fields on non-zero
    channels whose scaled values fit their width, followed by the zero padding
    of a cipher block, decodes to one sensor per field, in order: its channel,
    its type, and its scaled number divided by the type's multiplier. *)
Theorem telemetry_roundtrip fields bs n :
  Forall2 (λ '(ch, ty, v) b, _add_field ch ty v = Ok b) fields bs →
  Forall (λ '(ch, ty, v), Z.land ch 0xFF ≠ 0 ∧ ∀ size multiplier is_signed z,
     CayenneLPP._LPP_TYPES ty = Some (size, multiplier, is_signed) → scaled ty v = Ok z → fits size is_signed z) fields →
  ∃ sensors, _decode_cayenne_lpp (concat bs ++ zeros n) = Ok sensors ∧ Forall2 reads fields sensors.
Proof.
  intros Henc Hfit.
  assert (∃ l, concat bs = bytes_of_records l ∧ Forall (λ e, record_of e.1 e.2) l ∧ Forall2 reads fields l.*1)
    as (l & -> & Hl & Hr).
  { induction Henc as [|[[ch ty] v] b fields bs Hb _ IH]; [exists []; by split_and!; constructor|].
    apply list.Forall_cons in Hfit as [[Hc Hf] Hfit]. destruct (IH Hfit) as (l & Hc' & Hl & Hr).
    destruct (field_record _ _ _ _ Hb Hc Hf) as (s & raw & -> & Hrec & Hread).
    exists ((s, raw) :: l). cbn. rewrite Hc'. split_and!; [done|by constructor|by constructor]. }
  exists l.*1. split; [by apply decode_records|done].
Qed.

Definition fitsb (lpp_type : Z) (value : float) : bool :=
  match CayenneLPP._LPP_TYPES lpp_type, scaled lpp_type value with
  | Some (size, _, is_signed), Ok z => bool_decide (fits size is_signed z)
  | _, _ => true
  end.

Lemma fitsb_ok ty v :
  fitsb ty v = true → ∀ size multiplier is_signed z,
  CayenneLPP._LPP_TYPES ty = Some (size, multiplier, is_signed) → scaled ty v = Ok z → fits size is_signed z.
Proof. unfold fitsb. intros H size m sg z Ht Hz. rewrite Ht, Hz in H. by apply bool_decide_eq_true in H. Qed.

(** Battery 4.2 V, -12.34 degrees, 1013.2 hPa on three channels. *)
Definition sample_fields : list (Z * Z * float) :=
  [(1, LPP_VOLTAGE, f_dec 42 1); (2, LPP_TEMPERATURE, f_dec (-1234) 2); (3, LPP_BAROMETRIC_PRESSURE, f_dec 10132 1)].

Lemma telemetry_roundtrip_witness :
  ∃ sensors, _decode_cayenne_lpp (concat [[1; 0x74; 0x01; 0xA3]; [2; 0x67; 0xFF; 0x85]; [3; 0x73; 0x27; 0x94]] ++ zeros 4)
             = Ok sensors
    ∧ Forall2 reads sample_fields sensors ∧ map type_name sensors = ["Voltage"; "Temperature"; "Barometer"]%string.
Proof.
  destruct (telemetry_roundtrip sample_fields [[1; 0x74; 0x01; 0xA3]; [2; 0x67; 0xFF; 0x85]; [3; 0x73; 0x27; 0x94]] 4)
    as (sensors & Hd & Hr).
  - repeat (constructor; [vm_compute; reflexivity|]). constructor.
  - repeat (constructor; [split; [discriminate|apply fitsb_ok; vm_compute; reflexivity]|]). constructor.
  - assert (match _decode_cayenne_lpp (concat [[1; 0x74; 0x01; 0xA3]; [2; 0x67; 0xFF; 0x85]; [3; 0x73; 0x27; 0x94]] ++ zeros 4) with
            | Ok l => map type_name l = ["Voltage"; "Temperature"; "Barometer"]%string | Err _ => False end) as Hn
      by (vm_compute; reflexivity).
    rewrite Hd in Hn. exists sensors. split; [exact Hd|]. split; [exact Hr|exact Hn].
Defined.
