(* ===== verification/ReturnPath.v ===== *)
(** * Return-path teaching ([node/handlers/return_path.py])

    [ReturnPathTeacher] collects the copies of a flood reply, keeps the best
    one of each packet, and teaches the peer the route that copy took. A teach
    runs as a task: [_teach] schedules it, [dispatch_begin] builds the packet
    and hands it to the injector once the settle window is over, [dispatch_end]
    is what follows when the injector returns or raises; other events come in
    between. Times are readings of the [Clock] interface. *)

From stdpp Require Import sorting.
From S2P Require Import Prelude PyData Sha256 Utf8 PyFloat ODict Constants PacketUtils Airtime Packet TransportKeys RegionMap Crypto PacketFilter Acks PacketBuilder Messages Stores Contacts.

Import Packet.

Module ReturnPathTeacher.

Definition _TEACHABLE_COPY_TYPES (ptype : Z) : bool :=
  (ptype =? PAYLOAD_TYPE_RESPONSE) || (ptype =? PAYLOAD_TYPE_PATH).

Definition SF_DEMOD_SNR_LIMIT_DB (sf : Z) : option float :=
  if (5 <=? sf) && (sf <=? 12) then Some (f_dec (100 - 25 * sf) 1) else None.

Definition RETURN_PATH_DEFAULT_SF : Z := 7.
Definition RETURN_PATH_ASSUMED_NOISE_FLOOR_DBM : float := f_of_Z (-108).
Definition RETURN_PATH_MIN_MARGIN_DB : float := f_of_Z 2.
Definition RETURN_PATH_RELIABLE_MARGIN_DB : float := f_of_Z 6.
Definition RETURN_PATH_COPY_TTL_S : float := f_of_Z 8.
Definition RETURN_PATH_COPY_CACHE_MAX : Z := 128.

(** The rank tuples: the tier, then hops, margin and RSSI in the tier's order. *)
Inductive rank : Type :=
| Reliable (neg_hops : Z) (margin : float) (rssi : Z)
| Marginal (margin : float) (neg_hops : Z) (rssi : Z).

(** [a <= b] on those tuples: the first elements that differ decide. *)
Definition rank_leb (a b : rank) : bool :=
  match a, b with
  | Reliable h m r, Reliable h' m' r' =>
      if negb (h =? h') then h <=? h' else if negb (feqb m m') then fleb m m' else r <=? r'
  | Marginal m h r, Marginal m' h' r' =>
      if negb (feqb m m') then fleb m m' else if negb (h =? h') then h <=? h' else r <=? r'
  | Marginal _ _ _, Reliable _ _ _ => true
  | Reliable _ _ _, Marginal _ _ _ => false
  end.

Section teacher.
Context {T : Type} `{Clock T}.

Record _FloodCopy := mkCopy {
  copy_path : bytes;
  copy_len_byte : Z;
  copy_rssi : Z;
  copy_margin : float;
  copy_rank : rank;
  copy_ts : T
}.

(** What a scheduled task carries. A correction carries the path already
    taught, a first teach the claim it replaced. *)
Inductive purpose : Type :=
| FirstTeach (previous_cooldown : option T) (hash_key : option bytes)
    (embedded_path : bytes) (embedded_len_byte : Z)
| Correction (taught_path : bytes) (taught_len_byte : Z) (hash_key : bytes).

Record task := mkTask {
  task_key : bytes;
  task_dest_hash : Z;
  task_secret : bytes;
  task_out_path : bytes;
  task_out_path_len : Z;
  task_purpose : purpose;
  task_sending : bool               (** handed to the injector *)
}.

Record t := mk {
  _local_identity : PacketBuilder.LocalIdentity;
  _contact_book : ContactStore.t;
  _cooldown_s : T;
  _copy_ttl_s : T;
  _noise_floor_dbm : float;
  _min_margin_db : float;
  _reliable_margin_db : float;
  enabled : bool;                   (** the injector is set *)
  _last_taught : list (bytes * T);
  _pending_teaches : list task;
  _recent_copies : list (bytes * _FloodCopy);
  _local_hash : option Z;
  injected : list Packet.t          (** what the injector was given *)
}.

Definition init (id : PacketBuilder.LocalIdentity) (book : ContactStore.t) (cooldown_s copy_ttl_s : T) : t :=
  mk id book cooldown_s copy_ttl_s RETURN_PATH_ASSUMED_NOISE_FLOOR_DBM RETURN_PATH_MIN_MARGIN_DB
    RETURN_PATH_RELIABLE_MARGIN_DB false [] [] [] None [].

Definition set_injector (b : bool) (s : t) : t :=
  mk (_local_identity s) (_contact_book s) (_cooldown_s s) (_copy_ttl_s s) (_noise_floor_dbm s)
    (_min_margin_db s) (_reliable_margin_db s) b (_last_taught s) (_pending_teaches s)
    (_recent_copies s) (_local_hash s) (injected s).

Definition with_taught (d : list (bytes * T)) (s : t) : t :=
  mk (_local_identity s) (_contact_book s) (_cooldown_s s) (_copy_ttl_s s) (_noise_floor_dbm s)
    (_min_margin_db s) (_reliable_margin_db s) (enabled s) d (_pending_teaches s)
    (_recent_copies s) (_local_hash s) (injected s).

Definition with_pending (l : list task) (s : t) : t :=
  mk (_local_identity s) (_contact_book s) (_cooldown_s s) (_copy_ttl_s s) (_noise_floor_dbm s)
    (_min_margin_db s) (_reliable_margin_db s) (enabled s) (_last_taught s) l
    (_recent_copies s) (_local_hash s) (injected s).

Definition with_copies (d : list (bytes * _FloodCopy)) (s : t) : t :=
  mk (_local_identity s) (_contact_book s) (_cooldown_s s) (_copy_ttl_s s) (_noise_floor_dbm s)
    (_min_margin_db s) (_reliable_margin_db s) (enabled s) (_last_taught s) (_pending_teaches s)
    d (_local_hash s) (injected s).

Definition with_local_hash (h : Z) (s : t) : t :=
  mk (_local_identity s) (_contact_book s) (_cooldown_s s) (_copy_ttl_s s) (_noise_floor_dbm s)
    (_min_margin_db s) (_reliable_margin_db s) (enabled s) (_last_taught s) (_pending_teaches s)
    (_recent_copies s) (Some h) (injected s).

Definition with_injected (l : list Packet.t) (s : t) : t :=
  mk (_local_identity s) (_contact_book s) (_cooldown_s s) (_copy_ttl_s s) (_noise_floor_dbm s)
    (_min_margin_db s) (_reliable_margin_db s) (enabled s) (_last_taught s) (_pending_teaches s)
    (_recent_copies s) (_local_hash s) l.

(** The contact book is shared with the handlers. *)
Definition with_book (b : ContactStore.t) (s : t) : t :=
  mk (_local_identity s) b (_cooldown_s s) (_copy_ttl_s s) (_noise_floor_dbm s)
    (_min_margin_db s) (_reliable_margin_db s) (enabled s) (_last_taught s) (_pending_teaches s)
    (_recent_copies s) (_local_hash s) (injected s).

Definition note_evidence_teach (now : T) (contact_pubkey : bytes) (s : t) : t :=
  with_taught (dset contact_pubkey now (_last_taught s)) s.

(** ** Copies

    [sf] is what the host's spreading-factor getter returns, if there is one. *)

Definition _demod_limit_db (sf : option (res Z)) : float :=
  let sf := match sf with Some (Ok n) => n | _ => RETURN_PATH_DEFAULT_SF end in
  match SF_DEMOD_SNR_LIMIT_DB sf with
  | Some x => x
  | None => f_dec (-75) 1
  end.

Definition _copy_margin_db (sf : option (res Z)) (rssi : Z) (snr : float) (s : t) : res float :=
  let limit := _demod_limit_db sf in
  let from_snr := fsub snr limit in
  rssi_f ← float_of_int rssi;
  let from_rssi := fsub rssi_f (fadd (_noise_floor_dbm s) limit) in
  mret (py_fmin from_snr from_rssi).

Definition _copy_rank (margin : float) (len_byte rssi : Z) (s : t) : rank :=
  let hops := PathUtils.get_path_hash_count len_byte in
  if fleb (_reliable_margin_db s) margin then Reliable (- hops) margin rssi
  else Marginal margin (- hops) rssi.

(** Front entries are the oldest-touched. *)
Fixpoint prune_copies (now ttl : T) (d : list (bytes * _FloodCopy)) : list (bytes * _FloodCopy) :=
  match d with
  | [] => []
  | (h, c) :: d' => if negb (before ttl (elapsed now (copy_ts c))) then d else prune_copies now ttl d'
  end.

Definition _prune_copies (now : T) (s : t) : t :=
  with_copies (prune_copies now (_copy_ttl_s s) (_recent_copies s)) s.

Definition touched (now : T) (c : _FloodCopy) : _FloodCopy :=
  mkCopy (copy_path c) (copy_len_byte c) (copy_rssi c) (copy_margin c) (copy_rank c) now.

Definition _record_copy (sf : option (res Z)) (now : T) (packet_hash path : bytes) (len_byte rssi : Z)
    (snr : float) : py t unit :=
  s ← get;
  margin ← lift (_copy_margin_db sf rssi snr s);
  if fltb margin (_min_margin_db s) then mret tt
  else
    modify (_prune_copies now);;
    s ← get;
    let rank := _copy_rank margin len_byte rssi s in
    let fresh := mkCopy path len_byte rssi margin rank now in
    match dget packet_hash (_recent_copies s) with
    | Some existing =>
        if rank_leb rank (copy_rank existing)
        then modify (with_copies (move_to_end packet_hash
                                    (dset packet_hash (touched now existing) (_recent_copies s))))
        else modify (with_copies (move_to_end packet_hash (dset packet_hash fresh (_recent_copies s))))
    | None =>
        let d := move_to_end packet_hash (dset packet_hash fresh (_recent_copies s)) in
        modify (with_copies (if len d >? RETURN_PATH_COPY_CACHE_MAX then pop_first d else d))
    end.

Definition _validated_inbound_path (pkt : Packet.t) (len_byte : Z) : option bytes :=
  if negb (PathUtils.is_valid_path_len len_byte) then None
  else
    let byte_len := PathUtils.get_path_byte_len len_byte in
    if len (path pkt) <? byte_len then None else Some (slice_to (path pkt) byte_len).

(** The hash is resolved once; without one every copy is recorded. *)
Definition _addressed_to_us (dest_hash : Z) : py t bool :=
  s ← get;
  match _local_hash s with
  | Some h => mret (dest_hash =? h)
  | None =>
      match index (PacketBuilder.get_public_key (_local_identity s)) 0 with
      | Ok h => modify (with_local_hash h);; mret (dest_hash =? h)
      | Err _ => mret true
      end
  end.

Definition note_flood_copy_body (sf : option (res Z)) (now : T) (pkt : Packet.t) : py t unit :=
  if negb (is_route_flood pkt) then mret tt
  else if negb (_TEACHABLE_COPY_TYPES (get_payload_type pkt)) then mret tt
  else if len (payload pkt) <? 2 then mret tt
  else
    h0 ← lift (index (payload pkt) 0);
    ours ← _addressed_to_us h0;
    if negb ours then mret tt
    else
      let len_byte := path_len pkt in
      match _validated_inbound_path pkt len_byte with
      | None => mret tt
      | Some path =>
          packet_hash ← lift (calculate_packet_hash pkt);
          _record_copy sf now packet_hash path len_byte (_rssi pkt) (float_or_zero (_snr pkt))
      end.

(** Errors are swallowed. *)
Definition note_flood_copy (sf : option (res Z)) (now : T) (pkt : Packet.t) (s : t) : t :=
  if negb (enabled s) then s else (note_flood_copy_body sf now pkt s).1.

(** ** Teaches *)

Definition _known_out_path (contact_pubkey : bytes) (s : t) : option bytes * Z :=
  match ContactStore.get_by_key contact_pubkey (_contact_book s) with
  | None => (None, -1)
  | Some contact =>
      let out_path_len := Models.out_path_len contact in
      if (out_path_len <? 0) || negb (PathUtils.is_valid_path_len out_path_len) then (None, -1)
      else
        let out_path := Models.out_path contact in
        let expected := PathUtils.get_path_byte_len out_path_len in
        if len out_path <? expected then (None, -1)
        else (Some (slice_to out_path expected), out_path_len)
  end.

Definition _cooldown_active (now : T) (key : bytes) (s : t) : bool :=
  match dget key (_last_taught s) with
  | Some last => before (elapsed now last) (_cooldown_s s)
  | None => false
  end.

Context `{C : BlockCipher} `{K : PacketBuilder.KeyExchange}.

Definition _shared_secret_for (contact_pubkey : bytes) (s : t) : option bytes :=
  match PacketBuilder.peer_shared_secret contact_pubkey (PacketBuilder.get_private_key (_local_identity s)) with
  | Ok ss => Some ss
  | Err _ => None
  end.

(** The cooldown is claimed before anything is awaited. *)
Definition _teach (now : T) (contact_pubkey : bytes) (dest_hash : Z) (embedded_path : bytes)
    (embedded_len_byte : Z) (out_path : bytes) (out_path_len : Z) (shared_secret hash_key : option bytes)
    : py t bool :=
  s ← get;
  let key := contact_pubkey in
  if _cooldown_active now key s then mret false
  else
    match (match shared_secret with Some x => Some x | None => _shared_secret_for key s end) with
    | None | Some [] => mret false
    | Some secret =>
        let previous := dget key (_last_taught s) in
        modify (with_taught (dset key now (_last_taught s)));;
        modify (fun s => with_pending (_pending_teaches s
          ++ [mkTask key dest_hash secret out_path out_path_len
                (FirstTeach previous hash_key embedded_path embedded_len_byte) false]) s);;
        mret true
    end.

Definition maybe_teach_from_flood_reply (sf : option (res Z)) (now : T) (pkt : Packet.t)
    (contact_pubkey : bytes) (src_hash : Z) (shared_secret : option bytes) : py t bool :=
  s ← get;
  if negb (enabled s) then mret false
  else if negb (is_route_flood pkt) then mret false
  else
    match _known_out_path contact_pubkey s with
    | (None, _) => mret false
    | (Some out_path, out_path_len) =>
        let in_len_byte := path_len pkt in
        match _validated_inbound_path pkt in_len_byte with
        | None => mret false
        | Some embedded_path =>
            packet_hash ← lift (calculate_packet_hash pkt);
            _record_copy sf now packet_hash embedded_path in_len_byte (_rssi pkt) (float_or_zero (_snr pkt));;
            _teach now contact_pubkey src_hash embedded_path in_len_byte out_path out_path_len
              shared_secret (Some packet_hash)
        end
    end.

Definition schedule_reteach_better_copy (contact_pubkey : bytes) (dest_hash : Z) (taught_path : bytes)
    (taught_len_byte : Z) (out_path : bytes) (out_path_len : Z) (shared_secret hash_key : bytes)
    (s : t) : t :=
  if negb (enabled s) then s
  else with_pending (_pending_teaches s
         ++ [mkTask contact_pubkey dest_hash shared_secret out_path out_path_len
               (Correction taught_path taught_len_byte hash_key) false]) s.

(** A path return, made direct. [urandom4]: its filler. *)
Definition teach_packet (urandom4 : bytes) (id : PacketBuilder.LocalIdentity) (dest_hash : Z)
    (secret embedded_path : bytes) (embedded_len_byte : Z) (out_path : bytes) (out_path_len : Z)
    : res Packet.t :=
  src_hash ← index (PacketBuilder.get_public_key id) 0;
  teach ← PacketBuilder.create_path_return urandom4 dest_hash src_hash secret embedded_path 0xFF []
            (Some embedded_len_byte);
  let teach := with_header (Z.lor (Z.land (header teach) (Z.lnot PH_ROUTE_MASK)) ROUTE_TYPE_DIRECT) teach in
  PacketBuilder.build (set_path out_path (Some out_path_len)) teach.

(** [self._recent_copies.pop(hash_key, None)] *)
Definition pop_copy (hash_key : bytes) (s : t) : t * option _FloodCopy :=
  (with_copies (ddel hash_key (_recent_copies s)) s, dget hash_key (_recent_copies s)).

(** The claim of a teach that failed is released. *)
Definition rollback (key : bytes) (previous_cooldown : option T) (s : t) : t :=
  with_taught (match previous_cooldown with
               | None => ddel key (_last_taught s)
               | Some ts => dset key ts (_last_taught s)
               end) s.

Definition failed (tk : task) (s : t) : t :=
  match task_purpose tk with
  | FirstTeach previous _ _ _ => rollback (task_key tk) previous s
  | Correction _ _ _ => s
  end.

(** The path a task teaches, once its window is over: [None] when a correction
    has nothing to correct. *)
Definition chosen_path (tk : task) (s : t) : t * option (bytes * Z) :=
  match task_purpose tk with
  | FirstTeach _ None p l => (s, Some (p, l))
  | FirstTeach _ (Some h) p l =>
      let '(s, best) := pop_copy h s in
      (s, Some (match best with Some c => (copy_path c, copy_len_byte c) | None => (p, l) end))
  | Correction p l h =>
      let '(s, best) := pop_copy h s in
      (s, match best with
          | Some c => if bytes_eqb (copy_path c) p && (copy_len_byte c =? l) then None
                      else Some (copy_path c, copy_len_byte c)
          | None => None
          end)
  end.

Definition started (tk : task) : task :=
  mkTask (task_key tk) (task_dest_hash tk) (task_secret tk) (task_out_path tk) (task_out_path_len tk)
    (task_purpose tk) true.

(** Task [i] resumes after its window and runs up to the injector. *)
Definition dispatch_begin (urandom4 : bytes) (i : nat) (s : t) : t :=
  match _pending_teaches s !! i with
  | Some tk =>
      if task_sending tk then s
      else
        let rest := delete i (_pending_teaches s) in
        match chosen_path tk s with
        | (s, None) => with_pending rest s
        | (s, Some (p, l)) =>
            match teach_packet urandom4 (_local_identity s) (task_dest_hash tk) (task_secret tk) p l
                    (task_out_path tk) (task_out_path_len tk) with
            | Ok teach => with_injected (injected s ++ [teach])
                            (with_pending (<[i := started tk]> (_pending_teaches s)) s)
            | Err _ => failed tk (with_pending rest s)
            end
        end
  | None => s
  end.

(** The injector is done with task [i]; a correction refreshes the claim. *)
Definition dispatch_end (now : T) (i : nat) (sent : bool) (s : t) : t :=
  match _pending_teaches s !! i with
  | Some tk =>
      if negb (task_sending tk) then s
      else
        let s := with_pending (delete i (_pending_teaches s)) s in
        if negb sent then failed tk s
        else match task_purpose tk with
             | FirstTeach _ _ _ _ => s
             | Correction _ _ _ => with_taught (dset (task_key tk) now (_last_taught s)) s
             end
  | None => s
  end.

End teacher.
Arguments t T : clear implicits.
Arguments _FloodCopy T : clear implicits.
Arguments task T : clear implicits.

(** [max(RETURN_PATH_COPY_TTL_S, settle_s + 2.0)] *)
Definition copy_ttl_s (settle_s : float) : float := py_fmax RETURN_PATH_COPY_TTL_S (fadd settle_s (f_of_Z 2)).

End ReturnPathTeacher.

Import ReturnPathTeacher.

(** ** The order of ranks *)

Definition rank_margin (r : rank) : float := match r with Reliable _ m _ | Marginal m _ _ => m end.
Definition rank_num (r : rank) : Prop := is_nan (rank_margin r) = false.

(** Ranks compare as the lists of their elements. *)
Definition rank_key (r : rank) : list Z :=
  match r with
  | Reliable h m q => 1 :: h :: fkey m ++ [q]
  | Marginal m h q => 0 :: fkey m ++ [h; q]
  end.

Lemma length_rank_key r : length (rank_key r) = 6%nat.
Proof. destruct r; cbn; by rewrite length_app, length_fkey. Qed.

Lemma rank_leb_key a b : rank_num a → rank_num b → rank_leb a b = true ↔ ¬ lex_lt (rank_key b) (rank_key a).
Proof.
  destruct a as [h m q|m h q], b as [h' m' q'|m' h' q']; unfold rank_num; cbn; intros Hm Hm'; [|lia..|].
  all: destruct (fcompare_key m m' Hm Hm') as (_ & Hle & Heq); rewrite lex_app by (by rewrite !length_fkey); cbn.
  all: assert (fkey m' = fkey m ↔ feqb m m' = true) as -> by (split; [intros E; apply Heq; by rewrite E|intros E; symmetry; by apply Heq]).
  all: assert (feqb m m' = true → fleb m m' = true) by (intros E; apply Hle; rewrite (proj1 Heq E); apply lex_irrefl).
  all: assert (lex_lt (fkey m') (fkey m) ↔ fleb m m' = false) as ->
    by (destruct (decide (lex_lt (fkey m') (fkey m))), (fleb m m'); split; intros; try done; exfalso;
        first [exact (proj1 Hle eq_refl ltac:(assumption)) | discriminate (proj2 Hle ltac:(assumption))]).
  all: destruct (feqb m m'), (fleb m m'), (h =? h') eqn:E2; cbn; lia.
Qed.

Lemma rank_leb_refl r : rank_num r → rank_leb r r = true.
Proof. intros H. apply rank_leb_key; [done..|]. apply lex_irrefl. Qed.

Lemma rank_leb_total a b : rank_num a → rank_num b → rank_leb a b = false → rank_leb b a = true.
Proof.
  intros Ha Hb H. apply rank_leb_key; [done..|]. intros Hl.
  assert (¬ lex_lt (rank_key b) (rank_key a)) as Hn by (intros Hr; by eapply lex_irrefl, lex_trans).
  apply (rank_leb_key a b Ha Hb) in Hn. congruence.
Qed.

Lemma rank_leb_trans a b c :
  rank_num a → rank_num b → rank_num c → rank_leb a b = true → rank_leb b c = true → rank_leb a c = true.
Proof.
  intros Ha Hb Hc. rewrite !rank_leb_key by done. intros H1 H2 Hl.
  destruct (decide (lex_lt (rank_key a) (rank_key b))) as [Hr|Hr].
  - apply H2. by eapply lex_trans.
  - apply H2. by rewrite (lex_total (rank_key b) (rank_key a)) by (done || by rewrite !length_rank_key).
Qed.

(** ** The best copy of a reply *)

Section best_copy.
Context {T : Type} `{ClockLaws T}.

(** One call of [_record_copy]. *)
Record recording := mkRec {
  rec_now : T;
  rec_hash : bytes;
  rec_path : bytes;
  rec_len : Z;
  rec_rssi : Z;
  rec_snr : float
}.

Definition record_one (sf : option (res Z)) (s : t T) (r : recording) : t T :=
  (_record_copy sf (rec_now r) (rec_hash r) (rec_path r) (rec_len r) (rec_rssi r) (rec_snr r) s).1.

Definition record_all (sf : option (res Z)) (l : list recording) (s : t T) : t T :=
  fold_left (record_one sf) l s.

(** The copy a recording stands for, if its last hop is decodable at all. *)
Definition copy_of (sf : option (res Z)) (s : t T) (r : recording) : option (_FloodCopy T) :=
  match _copy_margin_db sf (rec_rssi r) (rec_snr r) s with
  | Ok m => if fltb m (_min_margin_db s) then None
            else Some (mkCopy (rec_path r) (rec_len r) (rec_rssi r) m
                         (_copy_rank m (rec_len r) (rec_rssi r) s) (rec_now r))
  | Err _ => None
  end.

(** [copy_of] depends on the thresholds only. *)
Definition same_settings (s s' : t T) : Prop :=
  _noise_floor_dbm s = _noise_floor_dbm s' ∧ _min_margin_db s = _min_margin_db s'
  ∧ _reliable_margin_db s = _reliable_margin_db s' ∧ _copy_ttl_s s = _copy_ttl_s s'.

Lemma copy_of_settings sf s s' r : same_settings s s' → copy_of sf s r = copy_of sf s' r.
Proof. intros (H1 & H2 & H3 & _). unfold copy_of, _copy_margin_db, _copy_rank. by rewrite H1, H2, H3. Qed.

(** The table after a qualifying copy [c] of [h] arrives at [now]. *)
Definition better (now : T) (c : _FloodCopy T) (existing : option (_FloodCopy T)) : _FloodCopy T :=
  match existing with
  | Some e => if rank_leb (copy_rank c) (copy_rank e) then touched now e else c
  | None => c
  end.

Lemma record_one_none sf s r : copy_of sf s r = None → record_one sf s r = s.
Proof.
  unfold copy_of, record_one, _record_copy. intros Hc. py_run.
  destruct (_copy_margin_db _ _ _ s) as [m|]; [|done]. by destruct (fltb m _).
Qed.

Lemma record_one_some sf s r c :
  copy_of sf s r = Some c → keys_unique (prune_copies (rec_now r) (_copy_ttl_s s) (_recent_copies s)) →
  let d := prune_copies (rec_now r) (_copy_ttl_s s) (_recent_copies s) in
  let d' := ddel (rec_hash r) d ++ [(rec_hash r, better (rec_now r) c (dget (rec_hash r) d))] in
  record_one sf s r = with_copies
    (if negb (dmem (rec_hash r) d) && (len d' >? RETURN_PATH_COPY_CACHE_MAX) then pop_first d' else d') s.
Proof.
  unfold copy_of, record_one, _record_copy, dmem. intros Hc Hu. py_run.
  destruct (_copy_margin_db _ _ _ s) as [m|]; [|done]. destruct (fltb m _); [done|].
  injection Hc as <-. cbn. destruct (dget (rec_hash r) _) as [e|]; cbn.
  - destruct (rank_leb _ _); rewrite set_move_to_end by done; done.
  - rewrite set_move_to_end by done. done.
Qed.

Definition rec_num (sf : option (res Z)) (s0 : t T) (r : recording) : Prop :=
  ∀ c, copy_of sf s0 r = Some c → rank_num (copy_rank c).

(** [o] is the best-ranked copy of [h] among the recordings [l], if any. *)
Definition best_of (sf : option (res Z)) (s0 : t T) (l : list recording) (h : bytes)
    (o : option (_FloodCopy T)) : Prop :=
  match o with
  | None => ∀ r, r ∈ l → rec_hash r = h → copy_of sf s0 r = None
  | Some c =>
      (∃ r, r ∈ l ∧ rec_hash r = h ∧ copy_of sf s0 r = Some (touched (rec_now r) c))
      ∧ ∀ r c', r ∈ l → rec_hash r = h → copy_of sf s0 r = Some c' →
          rank_leb (copy_rank c') (copy_rank c) = true
  end.

Lemma copy_of_ts sf s r c : copy_of sf s r = Some c → touched (rec_now r) c = c.
Proof.
  unfold copy_of. destruct (_copy_margin_db _ _ _ _); [|done]. by destruct (fltb _ _); intros [= <-].
Qed.

Lemma elem_snoc {A} (x y : A) l : x ∈ l ++ [y] ↔ x ∈ l ∨ x = y.
Proof. rewrite elem_of_app, list_elem_of_singleton. done. Qed.

Lemma best_of_other sf s0 l r h o :
  best_of sf s0 l h o → rec_hash r ≠ h ∨ copy_of sf s0 r = None → best_of sf s0 (l ++ [r]) h o.
Proof.
  intros Hb Hr. destruct o as [c|]; cbn in *.
  - destruct Hb as [(q & Hq & Hqh & Hqc) Hmax]. split.
    + exists q. rewrite elem_snoc. by split; [left|].
    + intros q' c'. rewrite elem_snoc. intros [Hq'| ->]; [by apply Hmax|]. intros; destruct Hr; congruence.
  - intros q. rewrite elem_snoc. intros [Hq| ->]; [by apply Hb|]. by destruct Hr.
Qed.

Lemma best_of_better sf s0 l r c o :
  best_of sf s0 l (rec_hash r) o → copy_of sf s0 r = Some c → Forall (rec_num sf s0) (l ++ [r]) →
  best_of sf s0 (l ++ [r]) (rec_hash r) (Some (better (rec_now r) c o)).
Proof.
  intros Hb Hc [Hl [Hr _]%list.Forall_cons]%list.Forall_app. specialize (Hr c Hc).
  rewrite list.Forall_forall in Hl. assert (∀ (P : Prop) (q : recording), q ∈ l ++ [r] → (q ∈ l → P) → (q = r → P) → P) as Hcase
    by (intros P q Hq H1 H2; apply elem_snoc in Hq as [Hq|Hq]; tauto).
  assert (∃ q, q ∈ l ++ [r] ∧ rec_hash q = rec_hash r ∧ copy_of sf s0 q = Some (touched (rec_now q) c)) as Hself
    by (exists r; rewrite elem_snoc, (copy_of_ts _ _ _ _ Hc); split_and!; [by right|done|done]).
  destruct o as [e|]; cbn in *.
  - destruct Hb as [(q & Hq & Hqh & Hqc) Hmax]. pose proof (Hl q Hq _ Hqc) as He. cbn in He.
    destruct (rank_leb (copy_rank c) (copy_rank e)) eqn:El; split; [|..|exact Hself|]; cbn.
    + exists q. rewrite elem_snoc. by split; [left|].
    + intros q' c' Hq' Hh' Hc'. apply (Hcase _ q' Hq'); [intros; by eapply Hmax|intros ->; congruence].
    + intros q' c' Hq' Hh' Hc'. apply (Hcase _ q' Hq').
      * intros Hin. eapply rank_leb_trans; [by eapply Hl|exact He|done|by eapply Hmax|by apply rank_leb_total].
      * intros ->. assert (c' = c) as -> by congruence. by apply rank_leb_refl.
  - split; [exact Hself|]. intros q' c' Hq' Hh' Hc'. apply (Hcase _ q' Hq').
    + intros Hin. rewrite (Hb q') in Hc' by done. done.
    + intros ->. assert (c' = c) as -> by congruence. by apply rank_leb_refl.
Qed.

(** What the table knows after the recordings [l], all made between [t0] and
    [t0] plus the TTL, of hashes among [hs]. *)
Record table_of (sf : option (res Z)) (s0 : t T) (t0 : T) (hs : list bytes) (l : list recording) (s : t T) : Prop := {
  to_settings : same_settings s s0;
  to_unique : keys_unique (_recent_copies s);
  to_hashes : dkeys (_recent_copies s) ⊆ hs;
  to_recent : Forall (λ e : bytes * _FloodCopy T, before (copy_ts e.2) t0 = false) (_recent_copies s);
  to_best h : best_of sf s0 l h (dget h (_recent_copies s))
}.

(** Nothing is pruned while the window is open. *)
Lemma prune_open now t0 ttl (d : list (bytes * _FloodCopy T)) :
  Forall (λ e : bytes * _FloodCopy T, before (copy_ts e.2) t0 = false) d → before ttl (elapsed now t0) = false →
  prune_copies now ttl d = d.
Proof.
  destruct d as [|[h c] d]; [done|]. intros [Hc _]%list.Forall_cons Ht. cbn in *.
  rewrite (before_ge_trans (elapsed now (copy_ts c)) (elapsed now t0) ttl); [done| |done].
  by apply elapsed_mono_then.
Qed.

Lemma bounded_keys {V} (d : list (bytes * V)) hs : keys_unique d → dkeys d ⊆ hs → len d ≤ len hs.
Proof.
  intros Hu Hs. pose proof (submseteq_length _ _ (NoDup_submseteq (dkeys d) hs Hu Hs)) as Hl.
  unfold dkeys in Hl. rewrite length_fmap in Hl. unfold len. lia.
Qed.

(** A time stamp the copy of a recording can have. *)
Lemma better_recent now (c : _FloodCopy T) o t0 :
  before now t0 = false → touched now c = c → before (copy_ts (better now c o)) t0 = false.
Proof.
  intros Hn Hc. destruct o as [e|]; cbn; [destruct (rank_leb _ _); [done|]|]; by rewrite <- Hc.
Qed.

Lemma table_step sf s0 t0 hs l s r :
  table_of sf s0 t0 hs l s → rec_hash r ∈ hs → len hs ≤ RETURN_PATH_COPY_CACHE_MAX →
  before (rec_now r) t0 = false → before (_copy_ttl_s s0) (elapsed (rec_now r) t0) = false →
  Forall (rec_num sf s0) (l ++ [r]) → table_of sf s0 t0 hs (l ++ [r]) (record_one sf s r).
Proof.
  intros [Hset Hu Hk Hr Hb] Hh Hlen Hs Ht Hnum. destruct (copy_of sf s0 r) as [c|] eqn:Ec.
  - pose proof Ec as Ec'. rewrite <- (copy_of_settings sf s) in Ec' by done.
    assert (_copy_ttl_s s = _copy_ttl_s s0) as Httl by apply Hset.
    pose proof (record_one_some sf s r c Ec') as E. rewrite Httl, (prune_open _ t0) in E by done.
    specialize (E Hu). cbv zeta in E.
    set (b := better (rec_now r) c (dget (rec_hash r) (_recent_copies s))) in *.
    set (d' := ddel (rec_hash r) (_recent_copies s) ++ [(rec_hash r, b)]) in *.
    assert (keys_unique d') as Hu' by (by apply keys_unique_refresh).
    assert (dkeys d' ⊆ hs) as Hk'.
    { intros k Hkk. unfold d', dkeys in Hkk. rewrite fmap_app in Hkk. apply elem_of_app in Hkk as [Hkk|Hkk].
      - apply Hk. unfold dkeys. eapply list.elem_of_sublist; [exact Hkk|]. apply sublist_keys, ddel_sublist.
      - by apply list_elem_of_singleton in Hkk as ->. }
    assert ((len d' >? RETURN_PATH_COPY_CACHE_MAX) = false) as Hfit
      by (pose proof (bounded_keys d' hs Hu' Hk'); lia).
    rewrite Hfit, andb_false_r in E. rewrite E. split; cbn; [done|done|done|..].
    + apply list.Forall_app. split; [eapply sublist_Forall; [apply ddel_sublist|done]|].
      apply list.Forall_singleton. apply better_recent; [done|]. by eapply copy_of_ts.
    + intros h. unfold d'. rewrite dget_refresh by done. case_decide as Eh.
      * subst h. by apply best_of_better.
      * apply best_of_other; [done|left; congruence].
  - rewrite record_one_none by (by rewrite (copy_of_settings sf s s0)). split; try done.
    intros h. apply best_of_other; [done|by right].
Qed.

(** The teacher embeds the best copy. Over a settle window with at most 128
    packets in flight, and in whatever order the copies arrive, the copy kept
    for a packet is one that did arrive, and no copy of the packet that clears
    the demodulator limit ranks above it; nothing is kept exactly when no copy
    cleared the limit. *)
Theorem best_copy_kept sf (s0 : t T) t0 hs l h :
  _recent_copies s0 = [] → len hs ≤ RETURN_PATH_COPY_CACHE_MAX →
  Forall (λ r, rec_hash r ∈ hs ∧ before (rec_now r) t0 = false
               ∧ before (_copy_ttl_s s0) (elapsed (rec_now r) t0) = false ∧ rec_num sf s0 r) l →
  best_of sf s0 l h (dget h (_recent_copies (record_all sf l s0))).
Proof.
  intros Hempty Hlen Hl. cut (table_of sf s0 t0 hs l (record_all sf l s0)); [intros Ht; exact (to_best _ _ _ _ _ _ Ht h)|].
  induction l as [|r l IH] using rev_ind.
  - cbn. split; rewrite ?Hempty; try done; [by constructor|set_solver|].
    intros h' r Hr. by apply list.not_elem_of_nil in Hr.
  - pose proof Hl as [Hl1 [(Hr1 & Hr2 & Hr3 & _) _]%list.Forall_cons]%list.Forall_app.
    unfold record_all in *. rewrite fold_left_app. cbn. apply table_step; [by apply IH|done..|].
    eapply list.Forall_impl; [exact Hl|]. by intros ? (_ & _ & _ & ?).
Qed.
End best_copy.

(** ** Runs *)

Section runs.
Context {T : Type} `{ClockLaws T} `{C : BlockCipher} `{K : PacketBuilder.KeyExchange}.

(** What can happen to a teacher, in any order. *)
Inductive event : Type :=
| Heard (sf : option (res Z)) (now : T) (pkt : Packet.t)
| TaughtElsewhere (now : T) (key : bytes)
| Replied (sf : option (res Z)) (now : T) (pkt : Packet.t) (key : bytes) (src_hash : Z) (secret : option bytes)
| Corrects (key : bytes) (dest_hash : Z) (taught_path : bytes) (taught_len : Z) (out_path : bytes)
    (out_path_len : Z) (secret hash_key : bytes)
| Resumes (urandom4 : bytes) (i : nat)
| Injected (now : T) (i : nat) (sent : bool).

Definition step (e : event) (s : t T) : t T :=
  match e with
  | Heard sf now pkt => note_flood_copy sf now pkt s
  | TaughtElsewhere now key => note_evidence_teach now key s
  | Replied sf now pkt key src secret => (maybe_teach_from_flood_reply sf now pkt key src secret s).1
  | Corrects key d p l op ol secret h => schedule_reteach_better_copy key d p l op ol secret h s
  | Resumes r i => dispatch_begin r i s
  | Injected now i sent => dispatch_end now i sent s
  end.

Definition run (es : list event) (s : t T) : t T := fold_left (λ s e, step e s) es s.

Definition event_time (e : event) : option T :=
  match e with
  | Heard _ now _ | TaughtElsewhere now _ | Replied _ now _ _ _ _ | Injected now _ _ => Some now
  | Corrects _ _ _ _ _ _ _ _ | Resumes _ _ => None
  end.

(** A first teach of [key] fails in this step: its claim is released. *)
Definition releases (key : bytes) (e : event) (s : t T) : bool :=
  let mine tk := bytes_eqb (task_key tk) key
                 && match task_purpose tk with FirstTeach _ _ _ _ => true | Correction _ _ _ => false end in
  match e with
  | Injected _ i false => match _pending_teaches s !! i with Some tk => task_sending tk && mine tk | None => false end
  | Resumes r i =>
      match _pending_teaches s !! i with
      | Some tk =>
          negb (task_sending tk) && mine tk
          && match (chosen_path tk s).2 with
             | Some (p, l) => negb (is_ok (teach_packet r (_local_identity s) (task_dest_hash tk)
                                (task_secret tk) p l (task_out_path tk) (task_out_path_len tk)))
             | None => false
             end
      | None => false
      end
  | _ => false
  end.

Fixpoint none_released (key : bytes) (es : list event) (s : t T) : bool :=
  match es with
  | [] => true
  | e :: es' => negb (releases key e s) && none_released key es' (step e s)
  end.

(** The claim of [key] is no older than [t0]. *)
Definition claimed (key : bytes) (t0 : T) (s : t T) : Prop :=
  ∃ ts, dget key (_last_taught s) = Some ts ∧ before ts t0 = false.

Lemma claimed_set key t0 k ts (s s' : t T) :
  claimed key t0 s → before ts t0 = false → _last_taught s' = dset k ts (_last_taught s) → claimed key t0 s'.
Proof.
  intros (ts0 & Hg & Hb) Ht Hs. unfold claimed. rewrite Hs, dget_dset. case_decide; [by exists ts|by exists ts0].
Qed.

Lemma claimed_eq key t0 (s s' : t T) : claimed key t0 s → _last_taught s' = _last_taught s → claimed key t0 s'.
Proof. unfold claimed. by intros Hc ->. Qed.

(** Recording copies touches neither the claims nor the tasks. *)
Definition teaching (s : t T) := (_last_taught s, _cooldown_s s, _pending_teaches s, _local_identity s).

Lemma record_copy_teaching sf now h p l r snr : keeps (same teaching) (_record_copy sf now h p l r snr).
Proof. unfold _record_copy. keeps; done. Qed.

Lemma note_teaching sf now pkt (s : t T) : same teaching s (note_flood_copy sf now pkt s).
Proof.
  unfold note_flood_copy. destruct (negb _); [done|]. revert s.
  change (keeps (same teaching) (note_flood_copy_body sf now pkt)).
  unfold note_flood_copy_body, _addressed_to_us. keeps; try done. apply record_copy_teaching.
Qed.

Lemma teach_claims now key d p l op ol secret h (s s' : t T) b :
  _teach now key d p l op ol secret h s = (s', Ok b) →
  _cooldown_s s' = _cooldown_s s
  ∧ if b then _cooldown_active now key s = false ∧ _last_taught s' = dset key now (_last_taught s)
    else s' = s.
Proof.
  unfold _teach. py_run. destruct (_cooldown_active now key s) eqn:Ea; [by intros [= <- <-]|].
  destruct secret as [[|x secret]|]; [by intros [= <- <-]|by intros [= <- <-]|].
  destruct (_shared_secret_for key s) as [[|x ss]|]; by intros [= <- <-].
Qed.

Lemma reply_claims sf now pkt key src secret (s : t T) :
  let r := maybe_teach_from_flood_reply sf now pkt key src secret s in
  _cooldown_s r.1 = _cooldown_s s
  ∧ match r.2 with
    | Ok true => _cooldown_active now key s = false ∧ _last_taught r.1 = dset key now (_last_taught s)
    | _ => _last_taught r.1 = _last_taught s
    end.
Proof.
  unfold maybe_teach_from_flood_reply. py_run. destruct (negb (enabled s)); [done|].
  destruct (negb (is_route_flood pkt)); [done|]. destruct (_known_out_path key s) as [[op|] ol]; [|done].
  destruct (_validated_inbound_path pkt (path_len pkt)) as [p|]; [|done].
  destruct (calculate_packet_hash pkt) as [h|]; [|done].
  pose proof (record_copy_teaching sf now h p (path_len pkt) (_rssi pkt) (float_or_zero (_snr pkt)) s) as Hrec.
  destruct (_record_copy _ _ _ _ _ _ _ s) as [s1 [[]|]]; injection Hrec as H1 H2 H3 H4; [|done].
  assert (_cooldown_active now key s1 = _cooldown_active now key s) as Ha
    by (unfold _cooldown_active; by rewrite H1, H2).
  destruct (_teach _ _ _ _ _ _ _ _ _ s1) as [s2 [b|]] eqn:Et.
  - apply teach_claims in Et as [Hc Hb]. cbn. rewrite Hc. split; [done|].
    destruct b; cbn; [rewrite <- Ha, <- H1; tauto|by rewrite Hb].
  - exfalso. revert Et. unfold _teach. py_run. destruct (_cooldown_active _ _ _); [done|].
    destruct secret as [[|x secret]|]; [done|done|]. by destruct (_shared_secret_for key s1) as [[|x ss]|].
Qed.

(** A reply whose RSSI converts to a float raises no error in the teacher. *)
Lemma reply_total sf now pkt key src secret (s : t T) :
  is_ok (float_of_int (_rssi pkt)) = true → get_payload_type pkt ≠ PAYLOAD_TYPE_TRACE →
  ∃ s' b, maybe_teach_from_flood_reply sf now pkt key src secret s = (s', Ok b).
Proof.
  intros Hf Ht. unfold maybe_teach_from_flood_reply. py_run. destruct (negb (enabled s)); [by eexists _, _|].
  destruct (negb (is_route_flood pkt)); [by eexists _, _|]. destruct (_known_out_path key s) as [[op|] ol]; [|by eexists _, _].
  destruct (_validated_inbound_path pkt (path_len pkt)) as [p|]; [|by eexists _, _].
  destruct (packet_hash_ok pkt Ht) as [h ->].
  assert (∃ s1, _record_copy sf now h p (path_len pkt) (_rssi pkt) (float_or_zero (_snr pkt)) s = (s1, Ok tt)) as [s1 Hrec].
  { unfold _record_copy, _copy_margin_db. py_run. destruct (float_of_int (_rssi pkt)); [|done]. cbn.
    destruct (fltb _ _); [by eexists|]. py_run. destruct (dget _ _); [destruct (rank_leb _ _)|]; by eexists. }
  rewrite Hrec. cbn iota. unfold _teach. py_run. destruct (_cooldown_active _ _ _); [by eexists _, _|].
  destruct secret as [[|x ss]|]; [by eexists _, _..|].
  destruct (_shared_secret_for _ _) as [[|x ss]|]; by eexists _, _.
Qed.

Lemma dget_ddel_ne {V} (k k' : bytes) (d : list (bytes * V)) : k ≠ k' → dget k (ddel k' d) = dget k d.
Proof.
  intros Hk. induction d as [|[k1 v] d IH]; cbn; [done|]. destruct (decide (k' = k1)) as [->|]; cbn; [by rewrite decide_False|].
  by rewrite IH.
Qed.

(** The rollback of another contact's teach, or of a correction. *)
Lemma failed_claimed key t0 tk (s : t T) :
  claimed key t0 s →
  bytes_eqb (task_key tk) key
    && match task_purpose tk with FirstTeach _ _ _ _ => true | Correction _ _ _ => false end = false →
  claimed key t0 (failed tk s).
Proof.
  unfold failed. intros (ts & Hg & Hb) Hm. exists ts. split; [|done].
  destruct (task_purpose tk) as [prev ? ? ?|]; [|done]. rewrite andb_true_r in Hm.
  assert (key ≠ task_key tk) as Hne by (intros E; by rewrite <- E, bytes_eqb_refl in Hm).
  unfold rollback. cbn. destruct prev; [by rewrite dget_dset, decide_False|by rewrite dget_ddel_ne].
Qed.

Lemma chosen_teaching tk (s : t T) : same teaching s (chosen_path tk s).1.
Proof. unfold chosen_path. by destruct (task_purpose tk) as [? [h|] p l|p l h]. Qed.

Lemma step_cooldown e s : _cooldown_s (step e s) = _cooldown_s s.
Proof.
  destruct e as [sf now pkt|now key|sf now pkt key src secret|key d p l op ol secret h|r i|now i sent]; cbn.
  - by injection (note_teaching sf now pkt s).
  - done.
  - apply reply_claims.
  - unfold schedule_reteach_better_copy. by destruct (negb _).
  - unfold dispatch_begin, failed. destruct (_ !! i) as [tk|]; [|done]. destruct (task_sending tk); [done|].
    pose proof (chosen_teaching tk s) as Hc. destruct (chosen_path tk s) as [s1 [[p l]|]]; injection Hc; [|done].
    destruct (teach_packet _ _ _ _ _ _ _ _); [done|]. by destruct (task_purpose tk).
  - unfold dispatch_end, failed. destruct (_ !! i) as [tk|]; [|done]. destruct (negb _); [done|].
    destruct (negb sent); by destruct (task_purpose tk).
Qed.

(** A claim survives every step that does not release it. *)
Lemma step_claimed key t0 e s :
  claimed key t0 s → (∀ now, event_time e = Some now → before now t0 = false) →
  releases key e s = false → claimed key t0 (step e s).
Proof.
  intros Hcl Ht Hr.
  destruct e as [sf now pkt|now k|sf now pkt k src secret|k d p l op ol secret h|r i|now i sent];
    cbn [step event_time releases] in *.
  - apply (claimed_eq _ _ _ _ Hcl). by injection (note_teaching sf now pkt s).
  - eapply claimed_set; [done|by apply Ht|done].
  - destruct (reply_claims sf now pkt k src secret s) as [_ Hb]. cbv zeta in Hb.
    destruct ((maybe_teach_from_flood_reply sf now pkt k src secret s).2) as [[]|]; try by eapply claimed_eq.
    eapply claimed_set; [done|by apply Ht|apply Hb].
  - apply (claimed_eq _ _ _ _ Hcl). unfold schedule_reteach_better_copy. by destruct (negb _).
  - unfold dispatch_begin. destruct (_ !! i) as [tk|]; [|done]. destruct (task_sending tk); [done|].
    pose proof (chosen_teaching tk s) as Hc. destruct (chosen_path tk s) as [s1 [[p l]|]]; injection Hc as H1 H2 H3 H4;
      [|by apply (claimed_eq _ _ _ _ Hcl)].
    rewrite <- H4 in Hr. cbn [snd negb andb] in Hr. destruct (teach_packet _ _ _ _ _ _ _ _); [by apply (claimed_eq _ _ _ _ Hcl)|].
    apply failed_claimed; [by apply (claimed_eq _ _ _ _ Hcl)|]. cbn [is_ok negb] in Hr. by rewrite andb_true_r in Hr.
  - unfold dispatch_end. destruct (_ !! i) as [tk|]; [|done]. destruct (task_sending tk); [|done]. cbn [negb].
    destruct sent; cbn [negb].
    + destruct (task_purpose tk); [by apply (claimed_eq _ _ _ _ Hcl)|].
      eapply (claimed_set _ _ _ now s); [done|by apply Ht|done].
    + apply failed_claimed; [by apply (claimed_eq _ _ _ _ Hcl)|done].
Qed.

(** C38: teaches are spaced. When a teach to a contact is scheduled at [t1] and
    another at [t2], whatever happened in between (copies, replies, corrections,
    sends, teaches and failures of other contacts) and as long as no teach of
    this contact failed, at least the cooldown lies between them. *)
Theorem teaches_spaced key sf1 t1 p1 src1 ss1 es sf2 t2 p2 src2 ss2 (s : t T) :
  let e1 := Replied sf1 t1 p1 key src1 ss1 in
  let s1 := step e1 s in
  let s2 := run es s1 in
  (maybe_teach_from_flood_reply sf1 t1 p1 key src1 ss1 s).2 = Ok true →
  Forall (λ e, ∀ now, event_time e = Some now → before now t1 = false) es →
  none_released key es s1 = true →
  (maybe_teach_from_flood_reply sf2 t2 p2 key src2 ss2 s2).2 = Ok true →
  before (elapsed t2 t1) (_cooldown_s s) = false.
Proof.
  intros e1 s1 s2 Hfirst Ht Hkeep Hsecond.
  assert (claimed key t1 s1) as Hcl.
  { destruct (reply_claims sf1 t1 p1 key src1 ss1 s) as [_ Hb]. cbv zeta in Hb. rewrite Hfirst in Hb.
    exists t1. unfold s1, e1. cbn. rewrite (proj2 Hb), dget_dset, decide_True by done. split; [done|apply before_irrefl]. }
  assert (_cooldown_s s1 = _cooldown_s s) as Hcd by apply step_cooldown.
  clearbody s1. clear Hfirst e1.
  assert (claimed key t1 s2 ∧ _cooldown_s s2 = _cooldown_s s) as [(ts & Hg & Hb) Hcd2].
  { unfold s2, run. clear Hsecond s2. revert s1 Hcl Hcd Hkeep. induction Ht as [|e es He _ IH]; intros s1 Hcl Hcd Hkeep; [done|].
    cbn in Hkeep |- *. apply andb_true_iff in Hkeep as [Hr%negb_true_iff Hk]. apply IH; [|by rewrite step_cooldown|done].
    by apply step_claimed. }
  destruct (reply_claims sf2 t2 p2 key src2 ss2 s2) as [_ Hc]. cbv zeta in Hc. rewrite Hsecond in Hc.
  destruct Hc as [Hc _]. unfold _cooldown_active in Hc. rewrite Hg, Hcd2 in Hc.
  eapply before_ge_trans; [exact Hc|]. by apply elapsed_mono_then.
Qed.

(** The claim a failed teach restores may be older than one made meanwhile. *)
Lemma failure_restores_old_claim now i tk prev hk p l (s : t T) :
  _pending_teaches s !! i = Some tk → task_sending tk = true → task_purpose tk = FirstTeach (Some prev) hk p l →
  dget (task_key tk) (_last_taught (dispatch_end now i false s)) = Some prev.
Proof.
  intros Hi Hs Hp. unfold dispatch_end, failed. rewrite Hi, Hs, Hp. cbn. by rewrite dget_dset, decide_True.
Qed.
End runs.

(** ** Instances *)

Lemma rec_num_check {T} `{Clock T} sf (s : t T) r :
  match copy_of sf s r with Some c => negb (is_nan (rank_margin (copy_rank c))) | None => true end = true →
  rec_num sf s r.
Proof. unfold rec_num, rank_num. destruct (copy_of sf s r) as [c|]; [|done]. intros Hc c' [= <-]. by apply negb_true_iff. Qed.

(** Bob hears Alice's reply three times: strong over two hops, weak and then
    strong over none; the last copy is kept. *)
Definition bob_teacher : t Z :=
  set_injector true (init bob (ContactStore.put
    (Models.mkContact alice_key [65] CONTACT_TYPE_CHAT_NODE 0 1 [9] 7 50 f_zero f_zero 0 None) (ContactStore.init 8)) 5 8).

Definition copies : list (@recording Z) :=
  [mkRec 10 [1] [5; 6] 2 (-16) (f_of_Z 12); mkRec 11 [1] [] 0 (-120) (f_of_Z (-5));
   mkRec 12 [1] [] 0 (-60) (f_of_Z 10)].

Lemma best_copy_kept_witness :
  let kept := dget [1] (_recent_copies (record_all None copies bob_teacher)) in
  best_of None bob_teacher copies [1] kept ∧ copy_path <$> kept = Some [] ∧ copy_rssi <$> kept = Some (-60).
Proof.
  cbv zeta. split; [|vm_compute; split; reflexivity].
  apply (best_copy_kept None bob_teacher 10 [[1]]).
  - reflexivity.
  - decide_now.
  - repeat (constructor; [split; [left|split; [reflexivity|split; [reflexivity|]]];
      apply rec_num_check; vm_compute; reflexivity|]). constructor.
Defined.

#[local] Existing Instances xor_cipher xor_exchange.

(** A flooded response from Alice, over the repeaters 5 and 6. *)
Definition flood_reply : Packet.t :=
  with_payload [34; 17; 1; 2; 3; 4] (with_payload_len 6 (with_header 5 (with_path [5; 6] (with_path_len 2
    (with_signal (f_of_Z 10) (-60) Packet.init))))).

Lemma teaches_spaced_witness :
  let es := [Heard None 11 flood_reply; Resumes [1; 2; 3; 4] 0; Injected 14 0 true] in
  let s1 := step (Replied None 10 flood_reply alice_key 17 None) bob_teacher in
  len (injected (run es s1)) = 1
  ∧ (maybe_teach_from_flood_reply None 12 flood_reply alice_key 17 None (run es s1)).2 = Ok false
  ∧ (maybe_teach_from_flood_reply None 15 flood_reply alice_key 17 None (run es s1)).2 = Ok true
  ∧ before (elapsed 15 10) 5 = false.
Proof.
  cbv zeta. do 3 (split; [vm_compute; reflexivity|]).
  refine (teaches_spaced alice_key None 10 flood_reply 17 None _ None 15 flood_reply 17 None bob_teacher _ _ _ _).
  - vm_compute. reflexivity.
  - repeat (constructor; [intros now Hn; first [discriminate Hn|injection Hn as <-; reflexivity]|]). constructor.
  - vm_compute. reflexivity.
  - vm_compute. reflexivity.
Defined.
