(* ===== verification/Replies.v ===== *)
(** * Replies to requests

    What the request and login handlers share: the hash width of a flooded
    reply, and what a reply packet carries to its client, whether it is a
    RESPONSE or a response embedded in a path return. *)

From S2P Require Import Prelude PyData Sha256 Utf8 PyFloat ODict Constants PacketUtils Packet TransportKeys RegionMap Crypto PacketFilter Acks PacketBuilder Messages Stores Contacts TextHandler.

Import Packet PacketBuilder.

(** The width of the request's hashes, for a flooded reply. *)
Definition request_hash_size (request : Packet.t) : Z :=
  if PathUtils.is_valid_path_len (path_len request) then PathUtils.get_path_hash_size (path_len request) else 1.

Lemma set_path_payload pb el p p' : build (set_path pb el) p = Ok p' → payload p' = payload p.
Proof.
  unfold build, set_path. py_run. destruct el; [by intros [= <-]|]. destruct (len pb >? 63); [done|].
  destruct (PathUtils.encode_path_len 1 (len pb)); [|done]. by intros [= <-].
Qed.

(** ** What a reply carries *)

Section replies.
Context `{C : BlockCipher} {L : BlockCipherLaws C} `{K : KeyExchange}.

(** The plaintext of a response: the data, or the data in a path return. *)
Definition response_plaintext (ptype : Z) (data d : bytes) : Prop :=
  ptype = PAYLOAD_TYPE_RESPONSE ∧ d = data
  ∨ ptype = PAYLOAD_TYPE_PATH ∧ ∃ l p, PathUtils.is_valid_path_len l = true ∧ len p = PathUtils.get_path_byte_len l
      ∧ d = l :: p ++ PAYLOAD_TYPE_RESPONSE :: data.

(** [r] brings [data], zero-padded, from [src] to the holder of [secret]. *)
Definition carries (dest src : Z) (secret data : bytes) (r : Packet.t) : Prop :=
  ∃ cipher d n, payload r = dest :: src :: cipher ∧ 17 ≤ len cipher ∧ payload_len r = len (payload r)
    ∧ response_plaintext (get_payload_type r) data d
    ∧ CryptoUtils.mac_then_decrypt (slice_to secret 16) secret cipher = Ok (d ++ zeros n).

Lemma carries_same dest src secret data r r' :
  carries dest src secret data r → payload r' = payload r → payload_len r' = payload_len r →
  get_payload_type r' = get_payload_type r → carries dest src secret data r'.
Proof.
  intros (c & d & n & Hp & Hc & Hl & Hd & Hm) Hpay Hplen Ht. exists c, d, n.
  rewrite Hpay, Hplen, Ht. split_and!; done.
Qed.

(** A ciphertext and what it decrypts to. *)
Lemma sealed secret plaintext cipher :
  _encrypt_payload (slice_to secret 16) secret plaintext = Ok cipher → plaintext ≠ [] →
  17 ≤ len cipher ∧ ∃ n, CryptoUtils.mac_then_decrypt (slice_to secret 16) secret cipher = Ok (plaintext ++ zeros n).
Proof.
  intros Hc Hne. destruct (encrypt_then_mac_inv _ _ _ _ Hc) as (Hk & Hl & _).
  destruct (mac_then_decrypt_encrypt _ _ _ _ Hk Hne Hc) as [Hd _]. split; [|eexists; exact Hd].
  rewrite Hl. destruct plaintext as [|x b]; [done|]. rewrite len_cons. pose proof (len_nonneg b). zdm.
Qed.

Lemma path_return_carries r dest src secret path data ple p :
  create_path_return r dest src secret path PAYLOAD_TYPE_RESPONSE data ple = Ok p → data ≠ [] →
  carries dest src secret data p.
Proof.
  intros Hp Hne. unfold create_path_return in Hp. apply res_bind_ok in Hp as (inner & Hin & Hp).
  apply res_bind_ok in Hp as (cipher & Hc & Hp). apply res_bind_ok in Hp as (h & Hh & Hp).
  apply path_inner_inv in Hin as (l & -> & Hv & Hl & _); [|done].
  apply bytes_of_ints_inv in Hh as [-> _]. apply create_packet_built in Hp as [-> _].
  destruct (sealed _ _ _ Hc ltac:(done)) as (Hlen & n & Hd).
  exists cipher, (l :: path ++ PAYLOAD_TYPE_RESPONSE :: data), n. split_and!; [done|done|done| |done].
  right. split; [done|]. by exists l, path.
Qed.

Lemma datagram_carries dest_pub id secret data rt p :
  create_datagram PAYLOAD_TYPE_RESPONSE dest_pub id secret data rt = Ok p → data ≠ [] →
  ∃ dest src, index dest_pub 0 = Ok dest ∧ index (get_public_key id) 0 = Ok src
    ∧ carries dest src secret data p.
Proof.
  intros Hp Hne. unfold create_datagram in Hp. change (negb _) with false in Hp. cbn iota in Hp.
  apply res_bind_ok in Hp as (cipher & Hc & Hp). apply res_bind_ok in Hp as (h & Hh & Hp).
  apply res_bind_ok in Hp as (pkt & Hpk & Hp). injection Hp as <-.
  apply create_packet_built in Hpk as [-> _].
  unfold _hash_bytes, PacketDataUtils.hash_bytes in Hh. destruct dest_pub as [|dest dp]; [done|].
  destruct (get_public_key id) as [|src sp]; [done|]. cbn in Hh. apply bytes_of_ints_inv in Hh as [-> _].
  destruct (sealed _ _ _ Hc Hne) as (Hlen & n & Hd). exists dest, src. split_and!; [done|done|].
  exists cipher, data, n. split_and!; [done|done|done| |done]. left. split; [|done].
  by apply (header_type PAYLOAD_TYPE_RESPONSE rt false).
Qed.

(** A response in a path return: its parts, and its zero padding. *)
Lemma carried_path l p data n :
  PathUtils.is_valid_path_len l = true → len p = PathUtils.get_path_byte_len l →
  let d := (l :: p ++ PAYLOAD_TYPE_RESPONSE :: data) ++ zeros n in let k := PathUtils.get_path_byte_len l in
  index d 0 = Ok l ∧ index d (1 + k) = Ok PAYLOAD_TYPE_RESPONSE ∧ slice d 1 (1 + k) = p
  ∧ slice_from d (1 + k + 1) = data ++ zeros n ∧ len d = 1 + k + 1 + len (data ++ zeros n) ∧ 0 ≤ k.
Proof.
  intros Hv Hl d k. unfold d, k. rewrite <- Hl. cbn [app]. rewrite <- app_assoc. cbn [app]. pose proof (len_nonneg p).
  split_and!; [done| | | | |done].
  - rewrite (app_comm_cons p _ l). apply index_app_exact. by rewrite len_cons.
  - change (l :: p ++ ?x) with ([l] ++ p ++ x). apply slice_app_exact; autorewrite with pylen; lia.
  - change (l :: p ++ PAYLOAD_TYPE_RESPONSE :: data ++ zeros n) with ((l :: p) ++ [PAYLOAD_TYPE_RESPONSE] ++ data ++ zeros n).
    rewrite app_assoc. apply slice_from_app_exact. autorewrite with pylen. lia.
  - autorewrite with pylen. lia.
Qed.

(** ** Replies exist *)

Lemma empty_path_return_ok r dest src secret extra_type extra :
  key_ok (slice_to secret 16) = true → is_byte dest → is_byte src → is_byte extra_type →
  extra ≠ [] → len extra ≤ 161 →
  ∃ p, create_path_return r dest src secret [] extra_type extra None = Ok p ∧ get_payload_type p = PAYLOAD_TYPE_PATH.
Proof.
  intros Hk Hd Hs Ht Hne He.
  destruct (path_return_ok r dest src secret [] extra_type extra 0) as (p & Hp & Hty); try done; [by constructor|].
  exists p. split; [|done]. rewrite <- Hp. unfold create_path_return, path_return_inner.
  change (len (@nil Z)) with 0. reflexivity.
Qed.

Lemma datagram_ok dest_pub id secret data rt :
  key_ok (slice_to secret 16) = true → bytes_ok dest_pub → dest_pub ≠ [] → bytes_ok (get_public_key id) →
  get_public_key id ≠ [] → len data ≤ 163 →
  ∃ p, create_datagram PAYLOAD_TYPE_RESPONSE dest_pub id secret data rt = Ok p.
Proof.
  intros Hk Hd Hdn Hs Hsn Hl. unfold create_datagram. change (negb _) with false. cbn iota. unfold _encrypt_payload.
  destruct (encrypt_then_mac_ok (slice_to secret 16) secret data Hk) as [c Hc]. rewrite Hc. cbn [mbind res_bind].
  apply encrypt_then_mac_inv in Hc as (_ & Hcl & _).
  unfold _hash_bytes, PacketDataUtils.hash_bytes. destruct dest_pub as [|dest dp]; [done|].
  destruct (get_public_key id) as [|src sp]; [done|]. apply bytes_ok_cons in Hd as [Hd _]. apply bytes_ok_cons in Hs as [Hs _].
  cbn [PacketDataUtils.hash_byte mbind res_bind].
  rewrite bytes_of_ints_ok by (apply bytes_ok_cons; split; [done|]; apply bytes_ok_cons; split; [done|apply bytes_ok_nil]).
  cbn [mbind res_bind]. rewrite create_packet_ok; [by eexists|]. rewrite len_app, Hcl. change (len [dest; src]) with 2.
  pose proof (len_nonneg data). unfold MAX_PACKET_PAYLOAD. zdm.
Qed.

(** The width mirrored and the scope applied leave the content alone. *)
Lemma reply_mode_ok q p :
  wire_wf q → get_payload_type p ≠ PAYLOAD_TYPE_TRACE →
  ∃ p', build (apply_path_hash_mode (request_hash_size q - 1) true) p = Ok p' ∧ payload p' = payload p
    ∧ get_payload_type p' = get_payload_type p ∧ payload_len p' = payload_len p.
Proof.
  intros Hw Ht. unfold build, apply_path_hash_mode, request_hash_size. rewrite (wf_path_valid q Hw).
  pose proof (proj1 (is_valid_path_len_iff _) (wf_path_valid q Hw)) as [Hs _].
  pose proof (path_len_fields _ (wf_path_len q Hw)) as (_ & Hs1 & _).
  set (h := PathUtils.get_path_hash_size (path_len q)) in *.
  assert (negb ((h - 1 =? 0) || (h - 1 =? 1) || (h - 1 =? 2)) = false) as Hm by (assert (h = 1 ∨ h = 2 ∨ h = 3) as [-> | [-> | ->]] by lia; done).
  py_run. rewrite Hm, (proj2 (Z.eqb_neq _ _) Ht). cbn iota. destruct (negb (get_path_hash_count p =? 0)); [by exists p|].
  rewrite encode_path_len_val by lia. eexists. split_and!; reflexivity.
Qed.

Lemma finished_reply q p :
  wire_wf q → region_key_ok q → get_payload_type p ≠ PAYLOAD_TYPE_TRACE →
  ∃ r, (p' ← build (apply_path_hash_mode (request_hash_size q - 1) true) p;
        TextMessageHandler.scoped_reply q p') = Ok r
    ∧ payload r = payload p ∧ get_payload_type r = get_payload_type p ∧ payload_len r = payload_len p.
Proof.
  intros Hw Hk Ht. destruct (reply_mode_ok q p Hw Ht) as (p' & -> & Hp & Hty & Hl). cbn [mbind res_bind].
  destruct (scoped_reply_same q p' Hk) as (r & -> & Hp2 & Hty2 & Hl2). exists r. split_and!; congruence.
Qed.

(** ** Answers to a peer *)

(** The answer of a node to a peer: its own key's first byte and the peer's. *)
Definition answers (idA idB : PacketBuilder.LocalIdentity) (secret data : bytes) (r : Packet.t) : Prop :=
  ∃ dest src, index (PacketBuilder.get_public_key idA) 0 = Ok dest ∧ index (PacketBuilder.get_public_key idB) 0 = Ok src
    ∧ carries dest src secret data r.

Lemma key_head id : bytes_ok (PacketBuilder.get_public_key id) → len (PacketBuilder.get_public_key id) = 32 →
  ∃ x pk, PacketBuilder.get_public_key id = x :: pk ∧ is_byte x.
Proof.
  intros Hok Hl. destruct (PacketBuilder.get_public_key id) as [|x pk]; [done|]. exists x, pk.
  split; [done|]. by apply bytes_ok_cons in Hok as [? _].
Qed.

(** A path return over the route the request [q] came. *)
Lemma request_path_return u4 idA idB pkB secret data q :
  peers idA idB pkB secret → wire_wf q → data ≠ [] → len data ≤ 97 →
  ∃ dest src p, index (PacketBuilder.get_public_key idA) 0 = Ok dest ∧ index (PacketBuilder.get_public_key idB) 0 = Ok src
    ∧ PacketBuilder.create_path_return u4 dest src secret (path q) PAYLOAD_TYPE_RESPONSE data (Some (path_len q)) = Ok p
    ∧ carries dest src secret data p ∧ get_payload_type p = PAYLOAD_TYPE_PATH.
Proof.
  intros [HoA HoB HlA HlB _ _ _ Hk] Hw Hne Hl.
  destruct (key_head idA HoA HlA) as (dest & pA & HA & Hd). destruct (key_head idB HoB HlB) as (src & pB & HB & Hs).
  exists dest, src. rewrite HA, HB.
  assert (is_byte PAYLOAD_TYPE_RESPONSE) as Ht by (unfold is_byte, PAYLOAD_TYPE_RESPONSE; lia).
  destruct (path_return_ok u4 dest src secret (path q) PAYLOAD_TYPE_RESPONSE data (path_len q)) as (p & Hp & Hty);
    try done; try apply Hw.
  { pose proof (wf_path q Hw) as Hp. pose proof (proj1 (is_valid_path_len_iff _) (wf_path_valid q Hw)) as Hv.
    unfold MAX_PATH_SIZE, get_path_byte_len in *. lia. }
  exists p. split_and!; try done. by eapply path_return_carries.
Qed.

(** A response datagram. *)
Lemma response_datagram idA idB pkB secret data rt :
  peers idA idB pkB secret → data ≠ [] → len data ≤ 163 →
  ∃ p, PacketBuilder.create_datagram PAYLOAD_TYPE_RESPONSE (PacketBuilder.get_public_key idA) idB secret data rt = Ok p
    ∧ answers idA idB secret data p.
Proof.
  intros [HoA HoB HlA HlB _ _ _ Hkey] Hne Hl.
  destruct (datagram_ok (PacketBuilder.get_public_key idA) idB secret data rt) as [p Hp];
    try done; [by intros E; rewrite E in HlA|by intros E; rewrite E in HlB|].
  exists p. split; [done|]. by eapply datagram_carries in Hp as (d & x & ? & ? & ?); [exists d, x|].
Qed.

(** Path hash mode and scope. *)
Lemma finished_answers idA idB secret data q p :
  wire_wf q → region_key_ok q → answers idA idB secret data p →
  ∃ r, (p' ← PacketBuilder.build (apply_path_hash_mode (request_hash_size q - 1) true) p;
        TextMessageHandler.scoped_reply q p') = Ok r ∧ answers idA idB secret data r.
Proof.
  intros Hw Hk (dest & src & Hd & Hs & Hc).
  assert (get_payload_type p ≠ PAYLOAD_TYPE_TRACE) as Ht.
  { destruct Hc as (? & ? & ? & _ & _ & _ & [[-> _]|[-> _]] & _); done. }
  destruct (finished_reply q p Hw Hk Ht) as (r & Hr & Hp & Hty & Hl). exists r. split; [exact Hr|].
  exists dest, src. split_and!; [done|done|]. by eapply carries_same.
Qed.

(** The same, for a flood only. *)
Lemma finished_carries idA idB secret data q p :
  wire_wf q → region_key_ok q → answers idA idB secret data p →
  ∃ r, (if is_route_flood p then
          (p' ← PacketBuilder.build (apply_path_hash_mode (request_hash_size q - 1) true) p;
           TextMessageHandler.scoped_reply q p')
        else mret p) = Ok r ∧ answers idA idB secret data r.
Proof. intros Hw Hk Ha. destruct (is_route_flood p); [by apply finished_answers|by exists p]. Qed.
End replies.
