(* ===== verification/ProtocolResponse.v ===== *)
(** * Responses to requests ([node/handlers/protocol_response.py])

    [ProtocolResponseHandler]: decryption of RESPONSE and PATH packets,
    classification of what they carry (login, telemetry, statistics, text),
    correlation with the waiting request, the route a PATH teaches, and the
    reciprocal path sent back. The handler shares its contact book with its
    [ReturnPathTeacher], which is part of the state. [log] is the sequence of
    the outputs, oldest first. *)

From S2P Require Import Prelude PyData Sha256 Utf8 PyFloat ODict Constants PacketUtils Packet TransportKeys RegionMap Crypto PacketFilter Acks PacketBuilder Messages Stores Contacts Telemetry ReturnPath.

Import Packet.

Module ProtocolResponseHandler.

(** The fields of [RepeaterStats], in the order of the struct;
    [last_snr] is a quarter of the raw field. *)
Record repeater_stats := mkStats {
  batt_milli_volts : Z;
  curr_tx_queue_len : Z;
  noise_floor : Z;
  last_rssi : Z;
  n_packets_recv : Z;
  n_packets_sent : Z;
  total_air_time_secs : Z;
  total_up_time_secs : Z;
  n_sent_flood : Z;
  n_sent_direct : Z;
  n_recv_flood : Z;
  n_recv_direct : Z;
  err_events : Z;
  last_snr : float;
  n_direct_dups : Z;
  n_flood_dups : Z;
  total_rx_air_time_secs : Z;
  n_recv_errors : Z
}.

(** A parsed response; the display texts of statistics and telemetry are left
    out. *)
Inductive parsed : Type :=
| Binary (h : string)
| TelemetryResponse (reflected_timestamp : Z) (sensors : list LPPDecoder.sensor) (raw_bytes : bytes)
| StatsResponse (raw : repeater_stats) (raw_bytes : bytes)
| TextResponse (content : pystr).

(** A field of a struct at an offset. *)
Definition u16 (b : bytes) (off : Z) : Z := from_le (slice b off (off + 2)).
Definition i16 (b : bytes) (off : Z) : Z := from_le_signed (slice b off (off + 2)).
Definition u32 (b : bytes) (off : Z) : Z := from_le (slice b off (off + 4)).

(** [struct.unpack("<HHhhIIIIIIIIHhHHII", b)] *)
Definition unpack_stats (b : bytes) : repeater_stats :=
  mkStats (u16 b 0) (u16 b 2) (i16 b 4) (i16 b 6) (u32 b 8) (u32 b 12) (u32 b 16) (u32 b 20) (u32 b 24)
    (u32 b 28) (u32 b 32) (u32 b 36) (u16 b 40) (SFdiv prec64 emax64 (f_of_Z (i16 b 42)) (f_of_Z 4))
    (u16 b 44) (u16 b 46) (u32 b 48) (u32 b 52).

Definition _parse_stats_response (data : bytes) : option (repeater_stats * bytes) :=
  if len data <? 56 then None
  else
    let stats_data := slice_from data 4 in
    let stats_data := if len stats_data <? 56 then stats_data ++ zeros (56 - len stats_data) else stats_data in
    let s := unpack_stats (slice_to stats_data 56) in
    if batt_milli_volts s >? 20000 then None
    else if (last_rssi s <? -200) || (last_rssi s >? 0) then None
    else Some (s, slice_to stats_data 56).

Definition _parse_telemetry_response (data : bytes) : option (Z * list LPPDecoder.sensor * bytes) :=
  if len data <? 8 then None
  else
    let reflected_timestamp := from_le (slice_to data 4) in
    let lpp_data := slice_from data 4 in
    if len lpp_data <? 3 then None
    else
      match index lpp_data 0, index lpp_data 1 with
      | Ok c, Ok ty =>
          if negb (c =? 0x01) || negb (ty =? 0x74) then None
          else
            match LPPDecoder._decode_cayenne_lpp lpp_data with
            | Ok [] | Err _ => None
            | Ok sensors => Some (reflected_timestamp, sensors, lpp_data)
            end
      | _, _ => None
      end.

(** [isprintable]: whether Unicode calls every character of a string printable. *)
Definition _parse_protocol_response (isprintable : pystr → bool) (data : bytes) : res parsed :=
  code ← (if len data =? 13 then index data 4 else Ok 0xFF);
  if (len data =? 13) && ((code =? 0x00) || (code =? 0x01)) then mret (Binary (hex data))
  else
    let other :=
      match (if len data >=? 56 then _parse_stats_response data else None) with
      | Some (s, raw) => StatsResponse s raw
      | None =>
          match (if len data >? 4 then decode (rstrip_nul (slice_from data 4)) else Err UnicodeError) with
          | Ok text_candidate =>
              let content := strip text_candidate in
              if bool_decide (content ≠ []) && isprintable content then TextResponse content
              else Binary (hex data)
          | Err _ => Binary (hex data)
          end
      end in
    match (if len data >=? 8 then _parse_telemetry_response data else None) with
    | Some (ts, sensors, raw) => mret (TelemetryResponse ts sensors raw)
    | None => mret other
    end.

(** [path_info]: the encoded lengths and paths out and in, and the peer. *)
Definition path_info : Type := Z * bytes * Z * bytes * bytes.

Inductive output : Type :=
| WaiterCalled (callback : nat) (parsed_data : parsed)
| BinaryResponse (tag_bytes response_data : bytes) (info : option path_info)
| PathUpdated (contact_pubkey : bytes) (path_len_byte : Z) (path_bytes : bytes)
| ReciprocalInjected (pkt : Packet.t).

Section handler.
Context {T : Type} `{Clock T} `{C : BlockCipher} `{K : PacketBuilder.KeyExchange}.

(** A reciprocal path on its way to the injector. *)
Record reciprocal := mkReciprocal {
  rc_packet : Packet.t;
  rc_contact : bytes;
  rc_src_hash : Z;
  rc_taught_path : bytes;
  rc_taught_len : Z;
  rc_out_path : bytes;
  rc_out_len : Z;
  rc_secret : bytes;
  rc_hash_key : bytes;
  rc_sending : bool
}.

Record t := mk {
  return_path_teacher : ReturnPathTeacher.t T;
  _response_waiters : list ((bytes * Z) * nat);
  _binary_response_callback : bool;
  _pending_reciprocals : list reciprocal;
  log : list output
}.

Definition _local_identity (s : t) := ReturnPathTeacher._local_identity (return_path_teacher s).
Definition _contact_book (s : t) := ReturnPathTeacher._contact_book (return_path_teacher s).

Definition with_teacher (r : ReturnPathTeacher.t T) (s : t) : t :=
  mk r (_response_waiters s) (_binary_response_callback s) (_pending_reciprocals s) (log s).
Definition with_waiters (w : list ((bytes * Z) * nat)) (s : t) : t :=
  mk (return_path_teacher s) w (_binary_response_callback s) (_pending_reciprocals s) (log s).
Definition with_reciprocals (l : list reciprocal) (s : t) : t :=
  mk (return_path_teacher s) (_response_waiters s) (_binary_response_callback s) l (log s).
Definition emit (l : list output) (s : t) : t :=
  mk (return_path_teacher s) (_response_waiters s) (_binary_response_callback s) (_pending_reciprocals s)
    (log s ++ l).

(** The teacher's injector is the handler's. *)
Definition set_packet_injector (b : bool) (s : t) : t :=
  with_teacher (ReturnPathTeacher.set_injector b (return_path_teacher s)) s.

Definition set_response_callback (contact_pubkey : bytes) (request_tag : Z) (callback : nat) (s : t) : t :=
  with_waiters (dset (contact_pubkey, Z.land request_tag 0xFFFFFFFF) callback (_response_waiters s)) s.

Definition clear_response_callback (contact_pubkey : bytes) (request_tag : Z) (s : t) : t :=
  with_waiters (ddel (contact_pubkey, Z.land request_tag 0xFFFFFFFF) (_response_waiters s)) s.

Definition set_binary_response_callback (s : t) : t :=
  mk (return_path_teacher s) (_response_waiters s) true (_pending_reciprocals s) (log s).

(** Run a method of the teacher. *)
Definition on_teacher {A} (m : py (ReturnPathTeacher.t T) A) : py t A :=
  fun s => let '(r, a) := m (return_path_teacher s) in (with_teacher r s, a).

(** The contacts of the book whose key starts with the hash. *)
Definition _contacts_by_hash (contact_hash : Z) (s : t) : list ContactStore.ContactProxy :=
  List.filter (fun c =>
    match fromhex (PacketBuilder.public_key (ContactStore.proxy_contact c)) with
    | Ok (x :: _) => x =? contact_hash
    | _ => false
    end) (ContactStore.contacts (_contact_book s)).

(** One candidate of [iter_decrypt_by_src_hash], with what it yields. *)
Definition decrypt_candidate (src_hash : Z) (private_key encrypted : bytes) (c : ContactStore.ContactProxy)
    : option (bytes * bytes * bytes) :=
  match (pub ← fromhex (PacketBuilder.public_key (ContactStore.proxy_contact c));
         raise_if (negb (len pub =? PUB_KEY_SIZE)) (OtherError "continue");;
         first ← index pub 0;
         raise_if (negb (first =? src_hash)) (OtherError "continue");;
         shared_secret ← PacketBuilder.peer_shared_secret pub private_key;
         decrypted ← CryptoUtils.mac_then_decrypt (slice_to shared_secret 16) shared_secret encrypted;
         mret (pub, shared_secret, decrypted)) with
  | Ok r => Some r
  | Err _ => None
  end.

(** A decrypted PATH is skipped when its path does not parse. *)
Definition usable (is_path : bool) (decrypted : bytes) : bool :=
  negb is_path
  || match decrypted with
     | [] => false
     | b :: _ => PathUtils.is_valid_path_len b && negb (len decrypted <? 1 + PathUtils.get_path_byte_len b + 1)
     end.

(** The first contact whose decryption is usable. *)
Fixpoint first_usable (is_path : bool) (src_hash : Z) (private_key encrypted : bytes)
    (l : list ContactStore.ContactProxy) : option (bytes * bytes * bytes) :=
  match l with
  | [] => None
  | c :: l' =>
      match decrypt_candidate src_hash private_key encrypted c with
      | Some (pub, ss, d) => if usable is_path d then Some (pub, ss, d)
                             else first_usable is_path src_hash private_key encrypted l'
      | None => first_usable is_path src_hash private_key encrypted l'
      end
  end.

Definition _update_contact_path (contact_pubkey : bytes) (path_len_byte : Z) (decrypted : bytes) (s : t)
    : t * bool :=
  if negb (PathUtils.is_valid_path_len path_len_byte) then (s, false)
  else
    let path_byte_len := PathUtils.get_path_byte_len path_len_byte in
    let out_path_bytes := slice decrypted 1 (1 + path_byte_len) in
    match ContactStore.get_by_key contact_pubkey (_contact_book s) with
    | Some c =>
        let c := Models.mkContact (Models.public_key c) (Models.name c) (Models.adv_type c) (Models.flags c)
                   path_len_byte out_path_bytes (Models.last_advert_timestamp c) (Models.lastmod c)
                   (Models.gps_lat c) (Models.gps_lon c) (Models.sync_since c) (Models.last_advert_packet c) in
        (with_teacher (ReturnPathTeacher.with_book (ContactStore.update c (_contact_book s)).1
                         (return_path_teacher s)) s, true)
    | None => (s, false)
    end.

(** Errors are logged: nothing is queued. *)
Definition _send_reciprocal_path (urandom4 : bytes) (src_hash : Z) (contact_pubkey shared_secret : bytes)
    (pkt : Packet.t) (decrypted : bytes) (path_len_byte : Z) (s : t) : t :=
  if negb (ReturnPathTeacher.enabled (return_path_teacher s)) then s
  else
    let path_byte_len := PathUtils.get_path_byte_len path_len_byte in
    let out_path_bytes := slice decrypted 1 (1 + path_byte_len) in
    match (our_hash ← index (PacketBuilder.get_public_key (_local_identity s)) 0;
           hash_key ← calculate_packet_hash pkt;
           reciprocal ← PacketBuilder.create_path_return urandom4 src_hash our_hash shared_secret (path pkt)
                          0xFF [] (Some (path_len pkt));
           let reciprocal := with_header (Z.lor (Z.land (header reciprocal) (Z.lnot 0x03)) ROUTE_TYPE_DIRECT)
                               reciprocal in
           reciprocal ← PacketBuilder.build (set_path out_path_bytes (Some path_len_byte)) reciprocal;
           mret (mkReciprocal reciprocal contact_pubkey src_hash (path pkt) (path_len pkt) out_path_bytes
                   path_len_byte shared_secret hash_key false)) with
    | Ok rc => with_reciprocals (_pending_reciprocals s ++ [rc]) s
    | Err _ => s
    end.

(** Task [i] starts and hands its packet to the injector. *)
Definition reciprocal_begin (i : nat) (s : t) : t :=
  match _pending_reciprocals s !! i with
  | Some rc =>
      if rc_sending rc then s
      else emit [ReciprocalInjected (rc_packet rc)]
             (with_reciprocals (<[i := mkReciprocal (rc_packet rc) (rc_contact rc) (rc_src_hash rc)
                (rc_taught_path rc) (rc_taught_len rc) (rc_out_path rc) (rc_out_len rc) (rc_secret rc)
                (rc_hash_key rc) true]> (_pending_reciprocals s)) s)
  | None => s
  end.

(** The injector is done with it. *)
Definition reciprocal_end (now : T) (i : nat) (sent : bool) (s : t) : t :=
  match _pending_reciprocals s !! i with
  | Some rc =>
      if negb (rc_sending rc) then s
      else
        let s := with_reciprocals (delete i (_pending_reciprocals s)) s in
        if sent then
          let r := ReturnPathTeacher.note_evidence_teach now (rc_contact rc) (return_path_teacher s) in
          with_teacher (ReturnPathTeacher.schedule_reteach_better_copy (rc_contact rc) (rc_src_hash rc)
            (rc_taught_path rc) (rc_taught_len rc) (rc_out_path rc) (rc_out_len rc) (rc_secret rc)
            (rc_hash_key rc) r) s
        else s
  | None => s
  end.

Definition cancel_pending_reciprocals (s : t) : t := with_reciprocals [] s.

(** [contact_path_updated_callback], if set; may the waiter [cb] raise. *)
Context (path_updated : option (bytes → Z → bytes → res unit)) (waiter_run : nat → parsed → res unit)
  (isprintable : pystr → bool).

(** What [_decrypt_protocol_response] returns for an authenticated packet. *)
Record decrypted_response := mkDecrypted {
  d_parsed : res parsed;
  d_raw : bytes;
  d_contact : bytes;
  d_payload : option bytes
}.

(** What the packet makes of a decrypted PATH: its inner response, if any. *)
Definition path_response (decrypted : bytes) : res (option bytes) :=
  b ← index decrypted 0;
  let path_byte_len := PathUtils.get_path_byte_len b in
  let inner_offset := 1 + path_byte_len + 1 in
  x ← index decrypted (1 + path_byte_len);
  let extra_type := Z.land x 0x0F in
  mret (if (extra_type =? PAYLOAD_TYPE_RESPONSE) && (len decrypted >? inner_offset)
        then Some (slice_from decrypted inner_offset) else None).

Definition _decrypt_protocol_response (urandom4 : bytes) (sf : option (res Z)) (now : T) (pkt : Packet.t)
    (src_hash : Z) : py t (option decrypted_response) :=
  let payload := get_payload pkt in
  if len payload <? 2 + 4 then mret None
  else
    let encrypted_data := slice_from payload 2 in
    if len encrypted_data <? CIPHER_MAC_SIZE + (CIPHER_BLOCK_SIZE - 1) then mret None
    else
      let pkt_type := get_payload_type pkt in
      s ← get;
      match first_usable (pkt_type =? PAYLOAD_TYPE_PATH) src_hash
              (PacketBuilder.get_private_key (_local_identity s)) encrypted_data
              (_contacts_by_hash src_hash s) with
      | None => mret None
      | Some (contact_pubkey, shared_secret, decrypted) =>
          if pkt_type =? PAYLOAD_TYPE_PATH then
            path_len_byte ← lift (index decrypted 0);
            inner ← lift (path_response decrypted);
            let out_path_bytes := slice decrypted 1 (1 + PathUtils.get_path_byte_len path_len_byte) in
            let '(s1, updated) := _update_contact_path contact_pubkey path_len_byte decrypted s in
            modify (fun _ => s1);;
            match (if updated then path_updated else None) with
            | Some f => modify (emit [PathUpdated contact_pubkey path_len_byte out_path_bytes]);;
                        lift (f contact_pubkey path_len_byte out_path_bytes)
            | None => mret tt
            end;;
            (if is_route_flood pkt
             then modify (_send_reciprocal_path urandom4 src_hash contact_pubkey shared_secret pkt decrypted
                            path_len_byte)
             else mret tt);;
            mret (Some (mkDecrypted (_parse_protocol_response isprintable (default decrypted inner)) decrypted
                          contact_pubkey inner))
          else if pkt_type =? PAYLOAD_TYPE_RESPONSE then
            on_teacher (ReturnPathTeacher.maybe_teach_from_flood_reply sf now pkt contact_pubkey src_hash
                          (Some shared_secret));;
            mret (Some (mkDecrypted (_parse_protocol_response isprintable decrypted) decrypted contact_pubkey
                          (Some decrypted)))
          else mret (Some (mkDecrypted (_parse_protocol_response isprintable decrypted) decrypted contact_pubkey
                            None))
      end.

(** The binary callback; an error of its own is logged. *)
Definition binary_response (pkt : Packet.t) (d : decrypted_response) (payload : bytes) : py t unit :=
  let tag_bytes := slice_to payload 4 in
  let response_data := slice_from payload 4 in
  info ← lift (if get_payload_type pkt =? PAYLOAD_TYPE_PATH then
                 path_len_byte ← index (d_raw d) 0;
                 let path_byte_len := PathUtils.get_path_byte_len path_len_byte in
                 mret (if PathUtils.is_valid_path_len path_len_byte
                       then Some (path_len_byte, slice (d_raw d) 1 (1 + path_byte_len),
                                  if bool_decide (path pkt ≠ []) then path_len pkt else 0, path pkt, d_contact d)
                       else None)
               else mret None);
  code ← lift (if len response_data =? 9 then index response_data 0 else Ok 0xFF);
  if (len response_data =? 9) && ((code =? 0x00) || (code =? 0x01)) then mret tt
  else modify (emit [BinaryResponse tag_bytes response_data info]).

Definition deliver (pkt : Packet.t) (d : decrypted_response) : py t unit :=
  match d_parsed d, d_payload d with
  | Ok parsed_data, Some payload =>
      if negb (len payload >=? 4) then mret tt
      else
        s ← get;
        let key := (d_contact d, from_le (slice_to payload 4)) in
        match dget key (_response_waiters s) with
        | Some cb =>
            modify (with_waiters (ddel key (_response_waiters s)));;
            modify (emit [WaiterCalled cb parsed_data]);;
            lift (waiter_run cb parsed_data)
        | None => if _binary_response_callback s then binary_response pkt d payload else mret tt
        end
  | _, _ => mret tt
  end.

(** [__call__]: [HandlerResult.authenticated]. An error before the packet is
    decrypted leaves it unauthenticated. *)
Definition call (urandom4 : bytes) (sf : option (res Z)) (now : T) (pkt : Packet.t) (s : t) : t * bool :=
  if len (payload pkt) <? 4 then (s, false)
  else
    match (dest_hash ← index (payload pkt) 0; src_hash ← index (payload pkt) 1;
           ours ← index (PacketBuilder.get_public_key (_local_identity s)) 0;
           mret (dest_hash, src_hash, ours)) with
    | Err _ => (s, false)
    | Ok (dest_hash, src_hash, ours) =>
        if negb (dest_hash =? ours) then (s, false)
        else
          match _decrypt_protocol_response urandom4 sf now pkt src_hash s with
          | (s, Ok (Some d)) => ((deliver pkt d s).1, true)
          | (s, _) => (s, false)
          end
    end.

End handler.
Arguments t T : clear implicits.
End ProtocolResponseHandler.

Import ProtocolResponseHandler.

(** ** Lemmas: decryption *)

Section lemmas.
Context {T : Type} `{Clock T} `{C : BlockCipher} {L : BlockCipherLaws C} `{K : PacketBuilder.KeyExchange}.

(** No contact but [c] decrypts the payload. *)
Lemma first_usable_only is_path src priv enc c r (l : list ContactStore.ContactProxy) :
  decrypt_candidate src priv enc c = Some r → usable is_path r.2 = true → c ∈ l →
  (∀ c', c' ∈ l → c' = c ∨ decrypt_candidate src priv enc c' = None) →
  first_usable is_path src priv enc l = Some r.
Proof.
  intros Hc Hu Hin Ho. destruct r as [[pub ss] d]. cbn in Hu. induction l as [|c' l IH]; [by apply list.not_elem_of_nil in Hin|].
  cbn. destruct (Ho c' (base.list_elem_of_here _ _)) as [->|Hn]; [by rewrite Hc, Hu|]. rewrite Hn. apply IH.
  - apply elem_of_cons in Hin as [<-|Hin]; [congruence|done].
  - intros c'' Hc''. apply Ho. by right.
Qed.

(** A contact of the store among the candidates of its first key byte. *)
Lemma stored_candidate book key c x pk :
  store_wf book → ContactStore.get_by_key key book = Some c → key = x :: pk → bytes_ok key →
  ContactStore.proxy_of c ∈ List.filter (fun c =>
    match fromhex (PacketBuilder.public_key (ContactStore.proxy_contact c)) with
    | Ok (y :: _) => y =? x
    | _ => false
    end) (ContactStore.contacts book)
  ∧ fromhex (PacketBuilder.public_key (ContactStore.proxy_contact (ContactStore.proxy_of c))) = Ok key.
Proof.
  intros [Hu Hp Hk] Hg -> Hok. pose proof (dget_Some_elem _ _ _ Hg) as Hin.
  rewrite list.Forall_forall in Hk. pose proof (Hk _ Hin) as Hkey. cbn in Hkey.
  assert (fromhex (PacketBuilder.public_key (ContactStore.proxy_contact (ContactStore.proxy_of c))) = Ok (x :: pk)) as Hhex
    by (cbn; rewrite <- Hkey; by apply fromhex_hex).
  split; [|done]. apply base.list_elem_of_In, List.filter_In. rewrite Hhex, Z.eqb_refl. split; [|done].
  apply base.list_elem_of_In. unfold ContactStore.contacts, dvalues. rewrite Hp. unfold dmap.
  apply list_elem_of_fmap. exists (x :: pk, ContactStore.proxy_of c). split; [done|].
  apply list_elem_of_fmap. by exists (x :: pk, c).
Qed.

Lemma filter_stored book f c' :
  store_wf book → c' ∈ List.filter f (ContactStore.contacts book) →
  ∃ k c, ContactStore.get_by_key k book = Some c ∧ c' = ContactStore.proxy_of c.
Proof.
  intros [Hu Hp _] Hin. apply base.list_elem_of_In, List.filter_In in Hin as [Hin _]. apply base.list_elem_of_In in Hin.
  unfold ContactStore.contacts, dvalues in Hin. rewrite Hp in Hin. unfold dmap in Hin.
  apply list_elem_of_fmap in Hin as ([k c0] & -> & Hin). apply list_elem_of_fmap in Hin as ([k1 c] & [= -> ->] & Hin).
  exists k1, c. split; [|done]. by apply elem_dget.
Qed.

(** The peer of key [key] is the only contact that authenticates [enc]. *)
Definition only_peer (src : Z) (priv enc key : bytes) (book : ContactStore.t) : Prop :=
  ∀ k c, ContactStore.get_by_key k book = Some c → k ≠ key →
    decrypt_candidate src priv enc (ContactStore.proxy_of c) = None.

Lemma peer_decrypts is_path book key c x pk priv secret enc d :
  store_wf book → ContactStore.get_by_key key book = Some c → key = x :: pk → bytes_ok key → len key = PUB_KEY_SIZE →
  PacketBuilder.peer_shared_secret key priv = Ok secret →
  CryptoUtils.mac_then_decrypt (slice_to secret 16) secret enc = Ok d → usable is_path d = true →
  only_peer x priv enc key book →
  first_usable is_path x priv enc (List.filter (fun c =>
    match fromhex (PacketBuilder.public_key (ContactStore.proxy_contact c)) with
    | Ok (y :: _) => y =? x
    | _ => false
    end) (ContactStore.contacts book)) = Some (key, secret, d).
Proof.
  intros Hwf Hg Hkey Hok Hlen Hsec Hdec Hus Honly.
  destruct (stored_candidate book key c x pk Hwf Hg Hkey Hok) as [Hin Hhex].
  apply (first_usable_only _ _ _ _ (ContactStore.proxy_of c)); [|done|done|].
  - unfold decrypt_candidate. rewrite Hhex. cbn [mbind res_bind]. rewrite Hlen, Z.eqb_refl.
    cbn [mbind res_bind negb raise_if]. rewrite Hkey at 1. change (index (x :: pk) 0) with (@Ok Z x). cbn [mbind res_bind].
    rewrite Z.eqb_refl. cbn [negb raise_if mbind res_bind]. rewrite Hsec. cbn [mbind res_bind]. by rewrite Hdec.
  - intros c' Hc'. destruct (filter_stored book _ c' Hwf Hc') as (k & c1 & Hk & ->).
    destruct (decide (k = key)) as [->|Hne]; [left; congruence|right; by apply (Honly k c1)].
Qed.

(** ** What a taught peer learns *)

Lemma path_inner_empty r path extra_type ple inner :
  PacketBuilder.path_return_inner r path extra_type [] ple = Ok inner →
  ∃ l, inner = l :: path ++ 0xFF :: r ∧ PathUtils.is_valid_path_len l = true
    ∧ len path = PathUtils.get_path_byte_len l ∧ default 0 ple = l.
Proof.
  intros H0. unfold PacketBuilder.path_return_inner in H0. destruct (_ >? _) in H0; [done|].
  apply res_bind_ok in H0 as (l & Hl & H0). rewrite bool_decide_false in H0 by (intros []; done). res_inv.
  repeat match goal with H : bytes_of_ints _ = Ok _ |- _ => apply bytes_of_ints_inv in H as [-> ?] end.
  exists l. split; [done|]. destruct ple as [l'|].
  - destruct (PathUtils.is_valid_path_len l') eqn:Ev; [|done]. cbn [negb] in Hl.
    destruct (_ =? _) eqn:El in Hl; [|done]. injection Hl as <-. by bool_hyps.
  - destruct (len path >? 0) eqn:El; [done|]. bool_hyps. injection Hl as <-. pose proof (len_nonneg path).
    split_and!; [done| |done]. change (PathUtils.get_path_byte_len 0) with 0. lia.
Qed.

Lemma teach_packet_inv r id dest secret p l op ol pkt :
  ReturnPathTeacher.teach_packet r id dest secret p l op ol = Ok pkt →
  ∃ src cipher, index (PacketBuilder.get_public_key id) 0 = Ok src ∧ payload pkt = dest :: src :: cipher
    ∧ payload_len pkt = len (payload pkt) ∧ get_payload_type pkt = PAYLOAD_TYPE_PATH
    ∧ get_route_type pkt = ROUTE_TYPE_DIRECT ∧ path pkt = op ∧ path_len pkt = ol
    ∧ PathUtils.is_valid_path_len l = true ∧ len p = PathUtils.get_path_byte_len l ∧ 17 ≤ len cipher
    ∧ CryptoUtils.mac_then_decrypt (slice_to secret 16) secret cipher = Ok (pad_zeros (l :: p ++ 0xFF :: r)).
Proof.
  unfold ReturnPathTeacher.teach_packet. intros H0. apply res_bind_ok in H0 as (src & Hsrc & H0).
  apply res_bind_ok in H0 as (t0 & Ht & H0). injection H0 as <-. unfold PacketBuilder.create_path_return in Ht.
  apply res_bind_ok in Ht as (inner & Hin & Ht). apply res_bind_ok in Ht as (cipher & Hc & Ht).
  apply res_bind_ok in Ht as (h & Hh & Ht). apply bytes_of_ints_inv in Hh as [-> _].
  apply path_inner_empty in Hin as (l' & -> & Hv & Hl & Hdef). cbn in Hdef. subst l'.
  apply PacketBuilder.create_packet_built in Ht as [-> _].
  destruct (PacketBuilder.encrypt_then_mac_inv _ _ _ _ Hc) as (Hkey & Hlen & _).
  destruct (mac_then_decrypt_encrypt _ _ (l :: p ++ 0xFF :: r) _ Hkey ltac:(done) Hc) as [Hdec _].
  exists src, cipher. split_and!; try done.
  rewrite Hlen. autorewrite with pylen. pose proof (len_nonneg p). pose proof (len_nonneg r). zdm.
Qed.

(** A contact with another route. *)
Definition rerouted (c : Models.Contact) (l : Z) (p : bytes) : Models.Contact :=
  Models.mkContact (Models.public_key c) (Models.name c) (Models.adv_type c) (Models.flags c) l p
    (Models.last_advert_timestamp c) (Models.lastmod c) (Models.gps_lat c) (Models.gps_lon c)
    (Models.sync_since c) (Models.last_advert_packet c).

Lemma path_payload l p r n :
  PathUtils.is_valid_path_len l = true → len p = PathUtils.get_path_byte_len l →
  let d := (l :: p ++ 0xFF :: r) ++ zeros n in
  usable true d = true ∧ path_response d = Ok None ∧ slice d 1 (1 + PathUtils.get_path_byte_len l) = p
  ∧ index d 0 = Ok l.
Proof.
  intros Hv Hl d. unfold usable, d. cbn [app]. pose proof (len_nonneg p). pose proof (len_nonneg r).
  pose proof (len_nonneg (zeros n)). rewrite <- Hl. split_and!.
  - rewrite Hv. autorewrite with pylen. by rewrite (proj2 (Z.ltb_ge _ _)) by lia.
  - unfold path_response. change (index (l :: _) 0) with (@Ok Z l). cbn [mbind res_bind]. rewrite <- Hl.
    assert (index (l :: (p ++ 0xFF :: r) ++ zeros n) (1 + len p) = Ok 0xFF) as ->; [|done].
    rewrite <- app_assoc. cbn [app]. rewrite (app_comm_cons p _ l). apply index_app_exact. by rewrite len_cons.
  - change (l :: (p ++ 0xFF :: r) ++ zeros n) with ([l] ++ (p ++ 0xFF :: r) ++ zeros n). rewrite <- app_assoc.
    apply slice_app_exact; autorewrite with pylen; lia.
  - done.
Qed.

(** Storing a route for a contact of the book. *)
Lemma update_contact_path_stored key l d c (s : t T) :
  store_wf (_contact_book s) → PathUtils.is_valid_path_len l = true →
  ContactStore.get_by_key key (_contact_book s) = Some c →
  let p := slice d 1 (1 + PathUtils.get_path_byte_len l) in
  _update_contact_path key l d s
  = (with_teacher (ReturnPathTeacher.with_book (ContactStore.put (rerouted c l p) (_contact_book s))
       (return_path_teacher s)) s, true)
  ∧ ∀ k, ContactStore.get_by_key k (ContactStore.put (rerouted c l p) (_contact_book s))
         = if decide (k = key) then Some (rerouted c l p) else ContactStore.get_by_key k (_contact_book s).
Proof.
  intros [Hu Hp Hk] Hv Hg p. pose proof (dget_Some_elem _ _ _ Hg) as Hin. rewrite list.Forall_forall in Hk.
  pose proof (Hk _ Hin) as Hkey. cbn in Hkey. split.
  - unfold _update_contact_path. rewrite Hv, Hg. cbn [negb]. fold p. fold (rerouted c l p).
    unfold ContactStore.update. cbn [Models.public_key rerouted]. rewrite <- Hkey. unfold dmem.
    unfold ContactStore.get_by_key in Hg. by rewrite Hg.
  - intros k. unfold ContactStore.get_by_key, ContactStore.put. cbn. by rewrite dget_dset, <- Hkey.
Qed.

Context (path_updated : option (bytes → Z → bytes → res unit)) (waiter_run : nat → parsed → res unit)
  (isprintable : pystr → bool).

(** C36: a taught route is learned. The packet of a teach, or of a reciprocal
    path, however it was forwarded on its way, is accepted by the node it is
    addressed to: that node stores for the teacher, and for no other contact,
    exactly the path and encoded length that were taught, and answers with no
    reciprocal of its own. *)
Theorem taught_route_learned r idA dest secret p l op ol pkt u4 sf now q c (s : t T) :
  ReturnPathTeacher.teach_packet r idA dest secret p l op ol = Ok pkt →
  index (PacketBuilder.get_public_key (_local_identity s)) 0 = Ok dest →
  let key := PacketBuilder.get_public_key idA in
  payload q = payload pkt → payload_len q = payload_len pkt → get_payload_type q = get_payload_type pkt →
  get_route_type q = get_route_type pkt →
  store_wf (_contact_book s) → ContactStore.get_by_key key (_contact_book s) = Some c →
  bytes_ok key → len key = PUB_KEY_SIZE →
  PacketBuilder.peer_shared_secret key (PacketBuilder.get_private_key (_local_identity s)) = Ok secret →
  (∀ src, index key 0 = Ok src →
    only_peer src (PacketBuilder.get_private_key (_local_identity s)) (slice_from (payload q) 2) key (_contact_book s)) →
  match path_updated with Some f => f key l p = Ok tt | None => True end →
  ∃ s', call path_updated waiter_run isprintable u4 sf now q s = (s', true)
    ∧ (∀ k, ContactStore.get_by_key k (_contact_book s')
            = if decide (k = key) then Some (rerouted c l p) else ContactStore.get_by_key k (_contact_book s))
    ∧ _pending_reciprocals s' = _pending_reciprocals s.
Proof.
  intros Ht Hdest key Hpay Hplen Htype Hroute Hwf Hg Hok Hlen Hsec Honly Hcb.
  destruct (teach_packet_inv _ _ _ _ _ _ _ _ _ Ht)
    as (src & cipher & Hsrc & Hpb & Hpl & Hpt & Hrt & _ & _ & Hv & Hlp & Hcl & Hdec).
  specialize (Honly src Hsrc). rewrite Hpay, Hpb in Honly.
  assert (slice_from (dest :: src :: cipher) 2 = cipher) as Hsl by (by apply (slice_from_app_exact [dest; src])).
  rewrite Hsl in Honly. unfold pad_zeros in Hdec. set (n := (16 - _ mod 16) mod 16) in Hdec.
  destruct (path_payload l p r n Hv Hlp) as (Hus & Hpr & Hslp & Hi0).
  set (d := (l :: p ++ 0xFF :: r) ++ zeros n) in *.
  assert (∃ pk, key = src :: pk) as [pk Hkey].
  { fold key in Hsrc. clearbody key. destruct key as [|x pk]; [done|]. injection Hsrc as ->. by eexists. }
  destruct (update_contact_path_stored key l d c s Hwf Hv Hg) as [Hupd Hbook]. rewrite Hslp in Hupd, Hbook.
  unfold call. rewrite Hpay, Hpb. rewrite !len_cons. replace (1 + (1 + len cipher) <? 4) with false by lia.
  change (index (dest :: src :: cipher) 0) with (@Ok Z dest). change (index (dest :: src :: cipher) 1) with (@Ok Z src).
  rewrite Hdest. cbn [mbind res_bind mret res_ret]. rewrite Z.eqb_refl. cbn [negb].
  assert (_decrypt_protocol_response path_updated isprintable u4 sf now q src s
    = ((match path_updated with
        | Some _ => emit [PathUpdated key l p]
        | None => λ s, s
        end) (with_teacher (ReturnPathTeacher.with_book (ContactStore.put (rerouted c l p) (_contact_book s))
                (return_path_teacher s)) s),
       Ok (Some (mkDecrypted (_parse_protocol_response isprintable d) d key None)))) as ->.
  { unfold _decrypt_protocol_response, get_payload. rewrite Hplen, Hpl, Hpay, slice_to_all, Hpb, Hsl, !len_cons.
    replace (1 + (1 + len cipher) <? 2 + 4) with false by lia.
    replace (len cipher <? CIPHER_MAC_SIZE + (CIPHER_BLOCK_SIZE - 1)) with false
      by (unfold CIPHER_MAC_SIZE, CIPHER_BLOCK_SIZE; lia).
    py_run. rewrite Htype, Hpt. change (PAYLOAD_TYPE_PATH =? PAYLOAD_TYPE_PATH) with true. cbn iota.
    unfold _contacts_by_hash.
    rewrite (peer_decrypts true _ key c src pk _ secret cipher d Hwf Hg Hkey Hok Hlen Hsec Hdec Hus Honly).
    rewrite Hi0. cbn iota beta. rewrite Hpr. cbn iota beta. rewrite Hslp, Hupd.
    assert (is_route_flood q = false) as -> by (unfold is_route_flood; rewrite Hroute, Hrt; done).
    destruct path_updated as [f|]; [|done]. py_run. by rewrite Hcb. }
  cbn. eexists. split; [done|]. unfold deliver. cbn.
  destruct (_parse_protocol_response _ _), path_updated; cbn; by split.
Qed.
End lemmas.

(** ** A waiter is called at most once *)

Section waiters.
Context {T : Type} `{Clock T} `{C : BlockCipher} `{K : PacketBuilder.KeyExchange}.
Context (path_updated : option (bytes → Z → bytes → res unit)) (waiter_run : nat → parsed → res unit)
  (isprintable : pystr → bool).

(** What happens to the handler, in any order. *)
Inductive op : Type :=
| Registers (contact_pubkey : bytes) (request_tag : Z) (callback : nat)
| Clears (contact_pubkey : bytes) (request_tag : Z)
| SetsBinaryCallback
| SetsInjector (b : bool)
| Receives (urandom4 : bytes) (sf : option (res Z)) (now : T) (pkt : Packet.t)
| ReciprocalStarts (i : nat)
| ReciprocalEnds (now : T) (i : nat) (sent : bool)
| CancelsReciprocals.

Definition step (s : t T) (o : op) : t T :=
  match o with
  | Registers k tag cb => set_response_callback k tag cb s
  | Clears k tag => clear_response_callback k tag s
  | SetsBinaryCallback => set_binary_response_callback s
  | SetsInjector b => set_packet_injector b s
  | Receives u4 sf now pkt => (call path_updated waiter_run isprintable u4 sf now pkt s).1
  | ReciprocalStarts i => reciprocal_begin i s
  | ReciprocalEnds now i sent => reciprocal_end now i sent s
  | CancelsReciprocals => cancel_pending_reciprocals s
  end.

Definition run (ops : list op) (s : t T) : t T := fold_left step ops s.

Definition calls (cb : nat) (l : list output) : nat :=
  length (List.filter (fun o => match o with WaiterCalled c _ => (c =? cb)%nat | _ => false end) l).

Definition registrations (cb : nat) (ops : list op) : nat :=
  length (List.filter (fun o => match o with Registers _ _ c => (c =? cb)%nat | _ => false end) ops).

Definition waiting (cb : nat) (w : list ((bytes * Z) * nat)) : nat :=
  length (List.filter (fun e => (e.2 =? cb)%nat) w).

Lemma waiting_dset cb k c w :
  (waiting cb (dset k c w) ≤ waiting cb w + (if (c =? cb)%nat then 1 else 0))%nat.
Proof.
  unfold waiting. induction w as [|[k1 c1] w IH]; cbn; [by destruct (c =? cb)%nat|].
  destruct (decide (k = k1)); cbn; destruct (c =? cb)%nat, (c1 =? cb)%nat; cbn; lia.
Qed.

Lemma waiting_ddel_le cb k w : (waiting cb (ddel k w) ≤ waiting cb w)%nat.
Proof.
  unfold waiting. induction w as [|[k1 c1] w IH]; cbn; [done|].
  destruct (decide (k = k1)); cbn; destruct (c1 =? cb)%nat; cbn; lia.
Qed.

(** Popping the waiter [c]. *)
Lemma waiting_pop cb k c w :
  dget k w = Some c → (waiting cb (ddel k w) + (if (c =? cb)%nat then 1 else 0) = waiting cb w)%nat.
Proof.
  unfold waiting. induction w as [|[k1 c1] w IH]; cbn; [done|].
  destruct (decide (k = k1)); cbn.
  - intros [= ->]. destruct (c =? cb)%nat; cbn; lia.
  - intros Hg. specialize (IH Hg). destruct (c1 =? cb)%nat; cbn; lia.
Qed.

Lemma calls_app cb l l' : calls cb (l ++ l') = (calls cb l + calls cb l')%nat.
Proof. unfold calls. by rewrite List.filter_app, length_app. Qed.

(** What the count looks at. *)
Definition view (cb : nat) (s : t T) := (_response_waiters s, calls cb (log s)).

Lemma emit_view cb l s : calls cb l = 0%nat → same (view cb) s (emit l s).
Proof. intros Hl. unfold same, view. cbn [log emit _response_waiters]. by rewrite calls_app, Hl, Nat.add_0_r. Qed.

Lemma update_path_view cb k l d s : same (view cb) s (_update_contact_path k l d s).1.
Proof. unfold _update_contact_path. destruct (negb _); [done|]. by destruct (ContactStore.get_by_key _ _). Qed.

Lemma reciprocal_view cb u src k ss pkt d l s :
  same (view cb) s (_send_reciprocal_path u src k ss pkt d l s).
Proof.
  unfold _send_reciprocal_path. destruct (negb _); [done|]. cbv zeta.
  by match goal with |- context [match ?r with Ok _ => _ | Err _ => _ end] => destruct r end.
Qed.

Lemma decrypt_view cb u4 sf now pkt src :
  keeps (same (view cb)) (_decrypt_protocol_response path_updated isprintable u4 sf now pkt src).
Proof.
  unfold _decrypt_protocol_response. cbv zeta. destruct (_ <? _); [keeps|]. destruct (_ <? _); [keeps|].
  apply keeps_get_bind. intros s0. destruct (first_usable _ _ _ _ _) as [[[pub ss] d]|]; [|done].
  destruct (_ =? PAYLOAD_TYPE_PATH); [|destruct (_ =? PAYLOAD_TYPE_RESPONSE); [|done]].
  - pose proof (update_path_view cb pub) as Hupd.
    py_run. destruct (index d 0) as [l|]; [|done]. destruct (path_response d) as [inner|]; [|done].
    specialize (Hupd l d s0). destruct (_update_contact_path pub l d s0) as [s1 upd]. cbn in Hupd.
    destruct (if upd then path_updated else None) as [f|]; [destruct (f _ _ _) as [[]|]|];
      destruct (is_route_flood pkt); cbn [fst];
      repeat first [exact Hupd | etransitivity; [|apply reciprocal_view] | etransitivity; [|by apply emit_view]].
  - revert s0. assert (∀ A (m : py (ReturnPathTeacher.t T) A), keeps (same (view cb)) (on_teacher m)) as Ht.
    { intros A m s. unfold on_teacher. by destruct (m _). }
    intros s0. match goal with |- same _ _ (?m s0).1 => change (same (view cb) s0 (m s0).1) end.
    apply (keeps_bind _ _ _ (Ht _ _)). intros a. keeps.
Qed.

Lemma binary_view cb pkt d p : keeps (same (view cb)) (binary_response pkt d p).
Proof. unfold binary_response. keeps. intros s. by apply emit_view. Qed.

(** Calls made and waiters left never exceed the registrations. *)
Definition accounted (cb : nat) (n : nat) (s : t T) : Prop :=
  (calls cb (log s) + waiting cb (_response_waiters s) ≤ n)%nat.

Lemma accounted_same cb n s s' : same (view cb) s s' → accounted cb n s → accounted cb n s'.
Proof. intros [= H1 H2]. unfold accounted. by rewrite H1, H2. Qed.

Lemma deliver_accounted cb n pkt d s :
  accounted cb n s → accounted cb n (deliver waiter_run pkt d s).1.
Proof.
  intros Ha. unfold deliver. destruct (d_parsed d) as [pd|]; [|done]. destruct (d_payload d) as [p|]; [|done].
  destruct (negb _); [done|]. py_run. destruct (dget _ _) as [c|] eqn:Hg; cbn.
  - unfold accounted in *. cbn [log emit with_waiters _response_waiters]. rewrite calls_app. pose proof (waiting_pop cb _ _ _ Hg) as Hp.
    change (calls cb [WaiterCalled c pd]) with (length (if (c =? cb)%nat then [WaiterCalled c pd] else [])).
    destruct (c =? cb)%nat; cbn in *; lia.
  - destruct (_binary_response_callback s); [|done]. eapply accounted_same; [apply binary_view|done].
Qed.

Lemma step_accounted cb n s o :
  accounted cb n s → accounted cb (n + registrations cb [o]) (step s o).
Proof.
  intros Ha. destruct o as [k tag c|k tag| |b|u4 sf now pkt|i|now i sent|]; cbn [step registrations List.filter length];
    rewrite ?Nat.add_0_r.
  - unfold accounted in *. cbn [log _response_waiters set_response_callback with_waiters].
    pose proof (waiting_dset cb (k, Z.land tag 0xFFFFFFFF) c (_response_waiters s)).
    destruct (c =? cb)%nat; cbn [length]; lia.
  - unfold accounted in *. cbn [log _response_waiters clear_response_callback with_waiters].
    pose proof (waiting_ddel_le cb (k, Z.land tag 0xFFFFFFFF) (_response_waiters s)). lia.
  - done.
  - done.
  - unfold call. destruct (_ <? _); [done|]. match goal with |- context [match ?r with Ok _ => _ | Err _ => _ end] => destruct r as [[[dh sh] ours]|] end; [|done].
    destruct (negb _); [done|]. pose proof (decrypt_view cb u4 sf now pkt sh s) as Hd.
    destruct (_decrypt_protocol_response _ _ _ _ _ _ _ s) as [s1 [[d|]|]]; cbn in *.
    + apply deliver_accounted. by eapply accounted_same.
    + by eapply accounted_same.
    + by eapply accounted_same.
  - eapply accounted_same; [|done]. unfold reciprocal_begin. destruct (_ !! i) as [rc|]; [|done].
    destruct (rc_sending rc); [done|]. etransitivity; [|by apply emit_view]. done.
  - eapply accounted_same; [|done]. unfold reciprocal_end. destruct (_ !! i) as [rc|]; [|done].
    destruct (negb _); [done|]. by destruct sent.
  - done.
Qed.

(** One request, one answer. Whatever packets arrive, in whatever order and
    however often, a response callback is called no more often than it was
    registered: a duplicate, replayed or late response does not complete a
    request twice. *)
Theorem waiter_called_once ops cb (teacher : ReturnPathTeacher.t T) :
  (calls cb (log (run ops (mk teacher [] false [] []))) ≤ registrations cb ops)%nat.
Proof.
  cut (∀ n s, accounted cb n s → accounted cb (n + registrations cb ops) (run ops s)).
  { intros Hr. specialize (Hr 0%nat (mk teacher [] false [] []) ltac:(unfold accounted; cbn; lia)).
    unfold accounted in Hr. lia. }
  induction ops as [|o ops IH]; intros n s Ha; [by rewrite Nat.add_0_r|].
  assert (registrations cb (o :: ops) = registrations cb [o] + registrations cb ops)%nat as ->
    by (unfold registrations; cbn; by destruct (match o with Registers _ _ _ => _ | _ => _ end)).
  rewrite Nat.add_assoc. cbn. apply IH. by apply step_accounted.
Qed.
End waiters.

(** ** Login replies of RESPONSE packets

    A login reply is 13 bytes, and both [_parse_protocol_response] and the
    binary callback recognise it by its exact length; what a RESPONSE decrypts
    to is padded to whole cipher blocks. *)

Lemma login_reply_padded `{C : BlockCipher} {L : BlockCipherLaws C} secret reply cipher :
  CryptoUtils.encrypt_then_mac (slice_to secret 16) secret reply = Ok cipher → len reply = 13 →
  ∃ d, CryptoUtils.mac_then_decrypt (slice_to secret 16) secret cipher = Ok d
    ∧ len d = 16 ∧ len (slice_from d 4) ≠ 9 ∧ slice_to d 13 = reply.
Proof.
  intros Hc Hl. destruct (PacketBuilder.encrypt_then_mac_inv _ _ _ _ Hc) as (Hk & _).
  destruct (mac_then_decrypt_encrypt _ _ reply _ Hk ltac:(by intros ->) Hc) as [Hd Hp]. rewrite Hl in Hp.
  assert (len (pad_zeros reply) = 16) as Hlen by (rewrite len_pad_zeros, Hl; done).
  exists (pad_zeros reply). split_and!; [done|done| |done]. rewrite len_slice_from by lia. lia.
Qed.

(** ** Instances *)

#[local] Existing Instances xor_cipher xor_cipher_laws PacketBuilder.xor_exchange.

(** Alice teaches Bob, over 9, that she is reached over the repeaters 5 and 6. *)
Definition alice_teaches : Packet.t :=
  match ReturnPathTeacher.teach_packet [1; 2; 3; 4] PacketBuilder.alice 34
          (zip_with Z.lxor PacketBuilder.bob_key PacketBuilder.alice_key) [5; 6] 2 [9] 1 with
  | Ok p => p
  | Err _ => Packet.init
  end.

Definition known_alice : Models.Contact :=
  Models.mkContact PacketBuilder.alice_key [65] CONTACT_TYPE_CHAT_NODE 0 (-1) [] 7 50 f_zero f_zero 0 None.

Definition bob_book : ContactStore.t := ContactStore.put known_alice (ContactStore.init 8).

Definition bob_handler : t Z :=
  mk (ReturnPathTeacher.set_injector true (ReturnPathTeacher.init PacketBuilder.bob bob_book 5 8)) [] false [] [].

Lemma taught_route_learned_witness :
  ∃ s', call None (λ _ _, Ok tt) (λ _, true) [] None 100 (with_path [] (with_path_len 0 alice_teaches)) bob_handler
        = (s', true)
    ∧ ContactStore.get_by_key PacketBuilder.alice_key (_contact_book s') = Some (rerouted known_alice 2 [5; 6]).
Proof.
  destruct (taught_route_learned None (λ _ _, Ok tt) (λ _, true) [1; 2; 3; 4] PacketBuilder.alice 34
    (zip_with Z.lxor PacketBuilder.bob_key PacketBuilder.alice_key) [5; 6] 2 [9] 1 alice_teaches [] None 100
    (with_path [] (with_path_len 0 alice_teaches)) known_alice bob_handler) as (s' & Hc & Hb & _).
  - vm_compute. reflexivity.
  - reflexivity.
  - reflexivity.
  - reflexivity.
  - reflexivity.
  - reflexivity.
  - apply put_wf, empty_wf.
  - reflexivity.
  - decide_now.
  - reflexivity.
  - reflexivity.
  - intros src Hsrc k c Hk Hne. exfalso. apply Hne. revert Hk. cbn. case_decide as E; [intros _; exact E|discriminate].
  - exact I.
  - exists s'. split; [exact Hc|]. rewrite Hb. rewrite decide_True by reflexivity. reflexivity.
Defined.
