(* ===== verification/Login.v ===== *)
(** * Logging in ([node/handlers/login_server.py], [anon_request.py],
    [login_response.py])

    The server: [LoginServerHandler] decrypts a login, asks the application to
    authenticate it and answers; [AnonRequestHandler] dispatches anonymous
    requests on their sub-type and answers discovery queries under the rate of
    [AnonRateLimiter]. The client: [LoginResponseHandler] decides whether a
    response completes a pending login. Outputs are values; what the application
    supplies (authentication, stored routes, names) is a parameter. *)

From S2P Require Import Prelude PyData Sha256 Utf8 PyFloat ODict Constants PacketUtils Packet TransportKeys RegionMap Crypto PacketFilter Acks PacketBuilder Messages Stores Contacts TextHandler Telemetry ReturnPath Replies ProtocolResponse.

Import Packet.

(** [s.encode("utf-8", errors="ignore")] *)
Definition encode_ignore (s : pystr) : bytes := concat (map encode_char (List.filter is_scalar s)).

(** [b.rfind(x)] *)
Definition rfind (x : Z) (b : bytes) : Z :=
  match list_find (λ y, y = x) (reverse b) with
  | Some (i, _) => len b - 1 - Z.of_nat i
  | None => -1
  end.

(** What both server handlers do with a reply: hand it to the send callback
    with a delay in milliseconds. *)
Inductive server_output : Type :=
| Authenticates (client_pubkey : bytes) (password : pystr) (timestamp : Z) (sync_since : option Z)
| ClearsOutPath (client_pubkey : bytes)
| Sends (pkt : Packet.t) (delay_ms : Z).

(** What both server handlers check of an anonymous request of at least 34
    bytes: that it is addressed to this node and authenticates under the secret
    shared with the key it carries. The secret and the plaintext. *)
Definition opened `{C : BlockCipher} `{K : PacketBuilder.KeyExchange} (id : PacketBuilder.LocalIdentity) (p : bytes)
    : res (bytes * bytes) :=
  dest_hash ← index p 0; our_hash ← index (PacketBuilder.get_public_key id) 0;
  raise_if (negb (dest_hash =? our_hash)) (OtherError "not for us");;
  shared_secret ← PacketBuilder.peer_shared_secret (slice p 1 33) (PacketBuilder.get_private_key id);
  plaintext ← CryptoUtils.mac_then_decrypt (slice_to shared_secret 16) shared_secret (slice_from p 33);
  mret (shared_secret, plaintext).

(** ** Login server *)
Module LoginServerHandler.

Definition RESP_SERVER_LOGIN_OK : Z := 0x00.
Definition RESP_SERVER_LOGIN_FAILED : Z := 0x01.
Definition FIRMWARE_VER_LEVEL : Z := 2.

Section server.
Context `{C : BlockCipher} `{K : PacketBuilder.KeyExchange}.

(** [get_out_path] and [clear_out_path], if the application set them, and
    [authenticate]. *)
Context (get_out_path : option (bytes → res (option (bytes * Z)))) (clear_out_path : bool)
  (authenticate : bytes → bytes → pystr → Z → option Z → res (bool * Z)).

Record t := mk {
  local_identity : PacketBuilder.LocalIdentity;
  is_room_server : bool;
  send_packet_callback : bool
}.

Definition _lookup_out_path (client_pubkey : bytes) : option (bytes * Z) :=
  match get_out_path with
  | None => None
  | Some f =>
      match f client_pubkey with
      | Err _ | Ok None => None
      | Ok (Some (path_bytes, path_len_encoded)) =>
          if (path_len_encoded <? 0) || negb (PathUtils.is_valid_path_len path_len_encoded) then None
          else
            let expected := PathUtils.get_path_byte_len path_len_encoded in
            if len path_bytes <? expected then None
            else Some (slice_to path_bytes expected, path_len_encoded)
      end
  end.

(** The 13 bytes of the reply; [rnd] is [random.randint(0, 0xFFFFFFFF)]. *)
Definition reply_data (current_time rnd response_code permissions : Z) : res bytes :=
  t ← pack_I current_time;
  b ← bytes_of_ints [response_code; 0; if acl_is_admin permissions then 1 else 0; permissions];
  r ← pack_I rnd;
  mret (t ++ b ++ r ++ [FIRMWARE_VER_LEVEL]).

Definition login_reply (urandom4 : bytes) (s : t) (client_pubkey shared_secret : bytes) (is_flood : bool)
    (data : bytes) (original_packet : Packet.t) : res Packet.t :=
  response_pkt ←
    (if is_flood then
       client_hash ← index client_pubkey 0;
       server_hash ← index (PacketBuilder.get_public_key (local_identity s)) 0;
       PacketBuilder.create_path_return urandom4 client_hash server_hash shared_secret
         (if path_len original_packet >? 0
          then slice_to (path original_packet) (get_path_byte_len original_packet) else [])
         PAYLOAD_TYPE_RESPONSE data
         (if path_len original_packet >? 0 then Some (path_len original_packet) else None)
     else
       match _lookup_out_path client_pubkey with
       | Some (path_bytes, path_len_encoded) =>
           pkt ← PacketBuilder.create_datagram PAYLOAD_TYPE_RESPONSE client_pubkey (local_identity s)
                   shared_secret data "direct";
           PacketBuilder.build (set_path (slice_to path_bytes MAX_PATH_SIZE) (Some path_len_encoded)) pkt
       | None => PacketBuilder.create_datagram PAYLOAD_TYPE_RESPONSE client_pubkey (local_identity s)
                   shared_secret data "flood"
       end);
  if is_route_flood response_pkt then
    response_pkt ← PacketBuilder.build
      (apply_path_hash_mode (request_hash_size original_packet - 1) true) response_pkt;
    TextMessageHandler.scoped_reply original_packet response_pkt
  else mret response_pkt.

(** Errors are logged: nothing is sent. *)
Definition _send_login_response (urandom4 : bytes) (now rnd : Z) (s : t) (client_pubkey shared_secret : bytes)
    (is_flood : bool) (response_code permissions : Z) (original_packet : Packet.t) : list server_output :=
  if negb (send_packet_callback s) then []
  else
    match reply_data now rnd response_code permissions with
    | Err _ => []
    | Ok data =>
        (if is_flood && clear_out_path then [ClearsOutPath client_pubkey] else [])
        ++ match login_reply urandom4 s client_pubkey shared_secret is_flood data original_packet with
           | Ok pkt => [Sends pkt 300]
           | Err _ => []
           end
    end.

(** The password field, up to its first NUL. *)
Definition password_of (field : bytes) : pystr := decode_ignore (before_nul field).

(** [__call__]: the outputs and [HandlerResult.authenticated]. *)
Definition call (urandom4 : bytes) (now rnd : Z) (packet : Packet.t) (s : t) : list server_output * bool :=
  let p := payload packet in
  if len p <? 34 then ([], false)
  else
    let client_pubkey := slice p 1 33 in
    match opened (local_identity s) p with
    | Err _ => ([], false)
    | Ok (shared_secret, plaintext) =>
        if len plaintext <? 4 then ([], true)
        else
          let client_timestamp := from_le (slice_to plaintext 4) in
          let authenticated (sync_since : option Z) (password : pystr) :=
            (Authenticates client_pubkey password client_timestamp sync_since
             :: match authenticate client_pubkey shared_secret password client_timestamp sync_since with
                | Ok (true, permissions) =>
                    _send_login_response urandom4 now rnd s client_pubkey shared_secret (is_route_flood packet)
                      RESP_SERVER_LOGIN_OK permissions packet
                | _ => []
                end, true) in
          if is_room_server s then
            if len plaintext <? 8 then ([], true)
            else authenticated (Some (from_le (slice plaintext 4 8))) (password_of (slice_from plaintext 8))
          else authenticated None (password_of (slice_from plaintext 4))
    end.

End server.
End LoginServerHandler.

(** ** Anonymous requests *)
Module AnonRequestHandler.

Definition SERVER_RESPONSE_DELAY_MS : Z := 300.

(** [AnonRateLimiter], on a clock that can add a span to a reading. *)
Section limiter.
Context {T : Type} `{Clock T} (plus : T → T → T).

Record AnonRateLimiter := mkLimiter {
  _maximum : Z;
  _secs : T;
  _start_timestamp : T;
  _count : Z
}.

Definition allow (now : T) (l : AnonRateLimiter) : AnonRateLimiter * bool :=
  if before now (plus (_start_timestamp l) (_secs l)) then
    let count := _count l + 1 in
    (mkLimiter (_maximum l) (_secs l) (_start_timestamp l) count, negb (count >? _maximum l))
  else (mkLimiter (_maximum l) (_secs l) now 1, true).

Section handler.
Context `{C : BlockCipher} `{K : PacketBuilder.KeyExchange}.
Context (get_out_path : option (bytes → res (option (bytes * Z)))) (clear_out_path : bool)
  (authenticate : bytes → bytes → pystr → Z → option Z → res (bool * Z)).

(** The application's callbacks: region names, name and owner, features, clock. *)
Context (region_names_fn : res pystr) (owner_info_fn : res (pystr * pystr)) (features_fn : res Z)
  (clock_fn : res Z).

Record t := mk {
  login_handler : LoginServerHandler.t;
  anon_limiter : AnonRateLimiter
}.

Definition local_identity (s : t) := LoginServerHandler.local_identity (login_handler s).

(** The region names that fit, cut at a comma. *)
Definition region_bytes (names : pystr) : bytes :=
  let name_bytes := encode_ignore names in
  let max_names := MAX_PACKET_PAYLOAD - 24 in
  if len name_bytes >? max_names then
    let name_bytes := slice_to name_bytes max_names in
    let cut := rfind 44 name_bytes in
    if cut >? 0 then slice_to name_bytes cut else name_bytes
  else name_bytes.

(** The body of a discovery reply; [None] for a sub-type without one. *)
Definition discovery_reply (subtype : Z) (plaintext : bytes) : res (option bytes) :=
  now_clock ← clock_fn;
  c ← pack_I (Z.land now_clock 0xFFFFFFFF);
  let prefix := slice_to plaintext 4 ++ c in
  if subtype =? ANON_REQ_TYPE_REGIONS then
    names ← region_names_fn; mret (Some (prefix ++ region_bytes names))
  else if subtype =? ANON_REQ_TYPE_OWNER then
    no ← owner_info_fn; mret (Some (prefix ++ encode_ignore (no.1 ++ [10] ++ no.2)))
  else if subtype =? ANON_REQ_TYPE_BASIC then
    features ← features_fn; mret (Some (prefix ++ [Z.land features 0xFF]))
  else mret None.

(** [_send_response]: errors are logged. *)
Definition _send_response (urandom4 : bytes) (s : t) (packet : Packet.t) (client_pubkey shared_secret reply_data : bytes)
    (reply_path_len hash_size : Z) (path_bytes : bytes) : list server_output :=
  if negb (LoginServerHandler.send_packet_callback (login_handler s)) then []
  else
    match
      (response_pkt ←
         (if is_route_flood packet then
            client_hash ← index client_pubkey 0;
            server_hash ← index (PacketBuilder.get_public_key (local_identity s)) 0;
            pkt ← PacketBuilder.create_path_return urandom4 client_hash server_hash shared_secret
                    (if path_len packet >? 0 then slice_to (path packet) (get_path_byte_len packet) else [])
                    PAYLOAD_TYPE_RESPONSE reply_data
                    (if path_len packet >? 0 then Some (path_len packet) else None);
            PacketBuilder.build (apply_path_hash_mode (request_hash_size packet - 1) true) pkt
          else
            pkt ← PacketBuilder.create_datagram PAYLOAD_TYPE_RESPONSE client_pubkey (local_identity s)
                    shared_secret reply_data "direct";
            if (reply_path_len >? 0) && bool_decide (path_bytes ≠ []) then
              encoded ← PathUtils.encode_path_len hash_size reply_path_len;
              PacketBuilder.build (set_path path_bytes (Some encoded)) pkt
            else mret pkt);
       TextMessageHandler.scoped_reply packet response_pkt) with
    | Ok pkt => [Sends pkt SERVER_RESPONSE_DELAY_MS]
    | Err _ => []
    end.

Definition _handle_discovery (urandom4 : bytes) (s : t) (packet : Packet.t) (client_pubkey shared_secret : bytes)
    (subtype : Z) (plaintext : bytes) : list server_output :=
  match discovery_reply subtype plaintext with
  | Ok (Some reply) =>
      let reply_path_byte := match index plaintext 5 with Ok b => b | Err _ => 0 end in
      let reply_path_len := Z.land reply_path_byte 0x3F in
      let hash_size := Z.shiftr reply_path_byte 6 + 1 in
      let path_bytes := slice plaintext 6 (6 + reply_path_len * hash_size) in
      _send_response urandom4 s packet client_pubkey shared_secret reply reply_path_len hash_size path_bytes
  | _ => []
  end.

(** [__call__]; [time] is the limiter's clock. *)
Definition call (urandom4 : bytes) (time : T) (now rnd : Z) (packet : Packet.t) (s : t)
    : t * list server_output * bool :=
  let login := LoginServerHandler.call get_out_path clear_out_path authenticate urandom4 now rnd packet
                 (login_handler s) in
  let p := payload packet in
  if len p <? 34 then (s, [], false)
  else
    let client_pubkey := slice p 1 33 in
    match opened (local_identity s) p with
    | Err _ => (s, [], false)
    | Ok (shared_secret, plaintext) =>
        if LoginServerHandler.is_room_server (login_handler s) then (s, login.1, true)
        else
          match index plaintext 4 with
          | Err _ => (s, login.1, true)
          | Ok subtype =>
              if (subtype =? 0x00) || (subtype >=? 0x20) then (s, login.1, true)
              else if (subtype =? ANON_REQ_TYPE_REGIONS) || (subtype =? ANON_REQ_TYPE_OWNER)
                      || (subtype =? ANON_REQ_TYPE_BASIC) then
                if negb (is_route_direct packet) then (s, [], true)
                else
                  let '(limiter, ok) := allow time (anon_limiter s) in
                  let s := mk (login_handler s) limiter in
                  if negb ok then (s, [], true)
                  else (s, _handle_discovery urandom4 s packet client_pubkey shared_secret subtype plaintext, true)
              else (s, [], true)
          end
    end.

End handler.
End limiter.
Arguments AnonRateLimiter T : clear implicits.
Arguments t T : clear implicits.
End AnonRequestHandler.

(** ** Login responses at the client *)
Module LoginResponseHandler.

Definition LOGIN_ADMIN_CODE_NOT_ADMIN : Z := 0.
Definition LOGIN_ADMIN_CODE_ADMIN : Z := 1.
Definition LOGIN_ADMIN_CODE_GUEST : Z := 2.
Definition RESP_SERVER_LOGIN_OK : Z := 0x80.
Definition RESP_SERVER_LOGIN_SUCCESS_ALT : Z := 0x00.

(** The fields of a login response. *)
Record login_data := mkLogin {
  timestamp : Z;
  response_code : Z;
  keep_alive_interval : Z;
  admin_code : Z;
  permissions : Z;
  random_blob : bytes;
  firmware_ver_level : option Z
}.

Definition is_admin (d : login_data) : bool := admin_code d =? LOGIN_ADMIN_CODE_ADMIN.
Definition role (d : login_data) : Z := acl_role (permissions d).

Inductive login_output : Type :=
| ContactNoted (public_key : string) (last_login_success : Z) (is_admin : bool)
| LoginCalled (callback : nat) (success : bool) (data : login_data).

Section client.
Context {T : Type} `{Clock T} `{C : BlockCipher} `{K : PacketBuilder.KeyExchange}.

(** The protocol response handler the login handler forwards to, and whose
    contact book and teacher it shares, is part of the state. *)
Record t := mk {
  protocol : ProtocolResponseHandler.t T;
  has_protocol_handler : bool;
  _pending_logins : list (bytes * nat);
  _active_login_passwords : list (Z * pystr);
  out : list login_output
}.

Definition local_identity (s : t) := ProtocolResponseHandler._local_identity (protocol s).
Definition contacts (s : t) := ContactStore.contacts (ProtocolResponseHandler._contact_book (protocol s)).

Definition with_protocol (p : ProtocolResponseHandler.t T) (s : t) : t :=
  mk p (has_protocol_handler s) (_pending_logins s) (_active_login_passwords s) (out s).
Definition with_pending (d : list (bytes * nat)) (s : t) : t :=
  mk (protocol s) (has_protocol_handler s) d (_active_login_passwords s) (out s).
Definition with_passwords (d : list (Z * pystr)) (s : t) : t :=
  mk (protocol s) (has_protocol_handler s) (_pending_logins s) d (out s).
Definition emit (l : list login_output) (s : t) : t :=
  mk (protocol s) (has_protocol_handler s) (_pending_logins s) (_active_login_passwords s) (out s ++ l).

Definition register_login_callback (pubkey : bytes) (callback : nat) (s : t) : t :=
  with_pending (dset pubkey callback (_pending_logins s)) s.

(** Removed only by the callback that is registered. *)
Definition remove_login_callback (pubkey : bytes) (callback : nat) (s : t) : t :=
  match dget pubkey (_pending_logins s) with
  | Some cb => if (cb =? callback)%nat then with_pending (ddel pubkey (_pending_logins s)) s else s
  | None => s
  end.

Definition store_login_password (dest_hash : Z) (password : pystr) (s : t) : t :=
  with_passwords (dset dest_hash password (_active_login_passwords s)) s.
Definition clear_login_password (dest_hash : Z) (s : t) : t :=
  with_passwords (ddel dest_hash (_active_login_passwords s)) s.

Definition _has_pending_login_for_hash (lookup_hash : Z) (s : t) : bool :=
  dmem lookup_hash (_active_login_passwords s)
  || existsb (fun e => match e.1 with x :: _ => x =? lookup_hash | [] => false end) (_pending_logins s).

Definition _pubkey_bytes (contact : ContactStore.ContactProxy) : res bytes :=
  fromhex (PacketBuilder.public_key (ContactStore.proxy_contact contact)).

(** [foreign_request_probe], if set; the parameters of the protocol handler. *)
Context (probe : option (Z → bytes → res bool)) (path_updated : option (bytes → Z → bytes → res unit))
  (waiter_run : nat → ProtocolResponseHandler.parsed → res unit) (isprintable : pystr → bool).

Definition _is_foreign_request_reply (response_data : option login_data) (contact : ContactStore.ContactProxy) : bool :=
  match probe, response_data with
  | Some f, Some d =>
      match (key ← _pubkey_bytes contact; f (Z.land (timestamp d) 0xFFFFFFFF) key) with
      | Ok b => b
      | Err _ => false
      end
  | _, _ => false
  end.

Definition _forward_to_protocol_handler (urandom4 : bytes) (sf : option (res Z)) (now : T) (packet : Packet.t) (s : t)
    : t * bool :=
  if has_protocol_handler s then
    if get_payload_type packet =? PAYLOAD_TYPE_PATH then (s, false)
    else
      let '(p, r) := ProtocolResponseHandler.call path_updated waiter_run isprintable urandom4 sf now packet
                       (protocol s) in
      (with_protocol p s, r)
  else (s, false).

(** The fields of the plaintext of a response; [None] when it is too short. *)
Definition parse_login (plaintext : bytes) : res (option login_data) :=
  if len plaintext <? 12 then mret None
  else
    code ← index plaintext 4; keep_alive ← index plaintext 5; admin ← index plaintext 6;
    permissions ← index plaintext 7;
    fw ← (if len plaintext >=? 13 then Some <$> index plaintext 12 else mret None);
    mret (Some (mkLogin (from_le (slice_to plaintext 4)) code keep_alive admin permissions
                  (slice plaintext 8 12) fw)).

(** A PATH is unwrapped first: [Err] when its envelope does not parse,
    [None] when it carries no response. *)
Definition unwrap_path (plaintext : bytes) : res (option bytes) :=
  path_len_byte ← index plaintext 0;
  raise_if (negb (PathUtils.is_valid_path_len path_len_byte)) (OtherError "not a path");;
  let path_byte_len := PathUtils.get_path_byte_len path_len_byte in
  let inner_offset := 1 + path_byte_len + 1 in
  raise_if (len plaintext <? inner_offset) (OtherError "truncated");;
  x ← index plaintext (1 + path_byte_len);
  let extra_type := Z.land x 0x0F in
  mret (if negb (extra_type =? PAYLOAD_TYPE_RESPONSE) || (len plaintext <=? inner_offset) then None
        else Some (slice_from plaintext inner_offset)).

(** [_decrypt_response]: [None] when the contact does not authenticate the
    packet, else its fields, if they are complete. *)
Definition _decrypt_response (priv : bytes) (packet : Packet.t) (contact : ContactStore.ContactProxy)
    (encrypted_start : Z) : option (option login_data) :=
  match
    (contact_pubkey ← _pubkey_bytes contact;
     shared_secret ← PacketBuilder.peer_shared_secret contact_pubkey priv;
     plaintext ← CryptoUtils.mac_then_decrypt (slice_to shared_secret 16) shared_secret
                   (slice_from (payload packet) encrypted_start);
     raise_if (bool_decide (plaintext = [])) (OtherError "empty");;
     if get_payload_type packet =? PAYLOAD_TYPE_PATH then
       inner ← unwrap_path plaintext;
       match inner with Some p => parse_login p | None => mret None end
     else parse_login plaintext) with
  | Ok r => Some r
  | Err _ => None
  end.

(** The first candidate that authenticates. *)
Fixpoint first_authenticated (priv : bytes) (packet : Packet.t) (encrypted_start : Z)
    (l : list ContactStore.ContactProxy) : option (ContactStore.ContactProxy * option login_data) :=
  match l with
  | [] => None
  | c :: l' =>
      match _decrypt_response priv packet c encrypted_start with
      | Some d => Some (c, d)
      | None => first_authenticated priv packet encrypted_start l'
      end
  end.

Definition candidates (lookup_hash : Z) (l : list ContactStore.ContactProxy) : list ContactStore.ContactProxy :=
  List.filter (fun c => match _pubkey_bytes c with
                        | Ok (x :: pk) => (len (x :: pk) =? 32) && (x =? lookup_hash)
                        | _ => false
                        end) l.

Definition success_of (d : login_data) : bool :=
  (response_code d =? RESP_SERVER_LOGIN_OK) || (response_code d =? RESP_SERVER_LOGIN_SUCCESS_ALT).

(** The callback of the authenticated contact; its errors are logged. *)
Definition _process_login_response (d : login_data) (contact : ContactStore.ContactProxy) (key : bytes) (s : t) : t :=
  let s := if success_of d
           then emit [ContactNoted (PacketBuilder.public_key (ContactStore.proxy_contact contact)) (timestamp d)
                        (is_admin d)] s
           else s in
  match dget key (_pending_logins s) with
  | Some cb => emit [LoginCalled cb (success_of d) d] s
  | None => s
  end.

Definition forward (urandom4 : bytes) (sf : option (res Z)) (now : T) (packet : Packet.t) : py t bool :=
  fun s => let '(s, r) := _forward_to_protocol_handler urandom4 sf now packet s in (s, Ok r).

(** Run a method of the teacher. *)
Definition on_teacher {A} (m : py (ReturnPathTeacher.t T) A) : py t A :=
  fun s => let '(p, a) := ProtocolResponseHandler.on_teacher m (protocol s) in (with_protocol p s, a).

(** [__call__] *)
Definition call (urandom4 : bytes) (sf : option (res Z)) (now : T) (packet : Packet.t) : py t bool :=
  if len (payload packet) <? 4 then mret false
  else
    s ← get;
    let own := PacketBuilder.get_public_key (local_identity s) in
    dest_hash ← lift (index (payload packet) 0);
    src_hash ← lift (index (payload packet) 1);
    let anon := (len (payload packet) >=? 34) && bytes_eqb (slice (payload packet) 1 33) own in
    let encrypted_start := if anon then 33 else 2 in
    let lookup_hash := if anon then dest_hash else src_hash in
    our_hash ← lift (index own 0);
    if negb (dest_hash =? our_hash) then mret false
    else if negb (_has_pending_login_for_hash lookup_hash s) then forward urandom4 sf now packet
    else
      match first_authenticated (PacketBuilder.get_private_key (local_identity s)) packet encrypted_start
              (candidates lookup_hash (contacts s)) with
      | None => mret false
      | Some (matched_contact, response_data) =>
          if _is_foreign_request_reply response_data matched_contact then forward urandom4 sf now packet
          else
            key ← lift (_pubkey_bytes matched_contact);
            if negb (dmem key (_pending_logins s)) then forward urandom4 sf now packet
            else
              (if get_payload_type packet =? PAYLOAD_TYPE_RESPONSE
               then on_teacher (ReturnPathTeacher.maybe_teach_from_flood_reply sf now packet key lookup_hash None);;
                    mret tt
               else mret tt);;
              match response_data with
              | None => mret true
              | Some d =>
                  modify (_process_login_response d matched_contact key);;
                  modify (clear_login_password lookup_hash);;
                  mret true
              end
      end.

(** [AnonReqResponseHandler.__call__]: an ANON_REQ that carries our own key. *)
Definition anon_req_response (urandom4 : bytes) (sf : option (res Z)) (now : T) (packet : Packet.t) : py t unit :=
  s ← get;
  if (len (payload packet) >=? 34)
     && bytes_eqb (slice (payload packet) 1 33) (PacketBuilder.get_public_key (local_identity s))
  then _ ← call urandom4 sf now packet; mret tt
  else mret tt.

End client.
Arguments t T : clear implicits.
End LoginResponseHandler.

(** ** Lemmas: the server *)

Section server_lemmas.
Context `{C : BlockCipher} {L : BlockCipherLaws C} `{K : PacketBuilder.KeyExchange}.
Context (get_out_path : option (bytes → res (option (bytes * Z)))) (clear_out_path : bool)
  (authenticate : bytes → bytes → pystr → Z → option Z → res (bool * Z)).

(** The flood reply to [q]: a path return over the route [q] came. *)
Lemma flood_path_return u4 idA idB pkB secret data q :
  peers idA idB pkB secret → wire_wf q → data ≠ [] → len data ≤ 97 →
  ∃ dest src p, index (PacketBuilder.get_public_key idA) 0 = Ok dest ∧ index (PacketBuilder.get_public_key idB) 0 = Ok src
    ∧ PacketBuilder.create_path_return u4 dest src secret
        (if path_len q >? 0 then slice_to (path q) (get_path_byte_len q) else []) PAYLOAD_TYPE_RESPONSE data
        (if path_len q >? 0 then Some (path_len q) else None) = Ok p
    ∧ carries dest src secret data p ∧ get_payload_type p = PAYLOAD_TYPE_PATH.
Proof.
  intros HP Hw Hne Hl. destruct (path_len q >? 0).
  - assert (slice_to (path q) (get_path_byte_len q) = path q) as ->.
    { rewrite <- (wf_path q Hw). apply slice_to_all. }
    by eapply request_path_return.
  - destruct HP as [HoA HoB HlA HlB _ _ _ Hk].
    destruct (key_head idA HoA HlA) as (dest & pA & HA & Hd). destruct (key_head idB HoB HlB) as (src & pB & HB & Hs).
    exists dest, src. rewrite HA, HB.
    destruct (empty_path_return_ok u4 dest src secret PAYLOAD_TYPE_RESPONSE data) as (p & Hp & Hty);
      try done; [lia|].
    exists p. split_and!; try done. by eapply path_return_carries.
Qed.

Import LoginServerHandler.

Lemma login_reply_sent u4 idA s pkB secret data q :
  peers idA (local_identity s) pkB secret → wire_wf q → region_key_ok q →
  data ≠ [] → len data ≤ 97 →
  ∃ r, login_reply get_out_path u4 s (PacketBuilder.get_public_key idA) secret (is_route_flood q) data q = Ok r
    ∧ answers idA (local_identity s) secret data r.
Proof.
  intros HP Hw Hk Hne Hl. unfold login_reply.
  match goal with |- context [res_bind ?k ?m] => idtac | |- context [mbind _ ?m] =>
    assert (∃ p, m = Ok p ∧ answers idA (local_identity s) secret data p) as (p & -> & Ha) end.
  2: { cbn [mbind res_bind]. by apply finished_carries. }
  destruct (is_route_flood q).
  - destruct (flood_path_return u4 idA (local_identity s) pkB secret data q HP Hw Hne Hl)
      as (dest & src & p & Hd & Hs & Hp & Hc & _).
    rewrite Hd, Hs. cbn [mbind res_bind]. exists p. split; [exact Hp|by exists dest, src].
  - pose proof (λ rt, response_datagram idA (local_identity s) pkB secret data rt HP Hne ltac:(lia)) as Hdg.
    destruct (_lookup_out_path _ _) as [[pb pl]|]; [|apply Hdg].
    destruct (Hdg "direct"%string) as (p & -> & (d & x & Hd & Hx & Hc)). cbn [mbind res_bind].
    eexists. split; [reflexivity|]. exists d, x. split_and!; [done|done|]. by eapply carries_same.
Qed.

(** How the reply to the login [q] of [client_pubkey] travels: a path return that floods, or a
    response over the stored route, or one that floods. *)
Definition reply_route (client_pubkey : bytes) (q : Packet.t) : Z * bool * bytes :=
  if is_route_flood q then (PAYLOAD_TYPE_PATH, true, [])
  else
    match _lookup_out_path get_out_path client_pubkey with
    | Some (stored, _) => (PAYLOAD_TYPE_RESPONSE, false, stored)
    | None => (PAYLOAD_TYPE_RESPONSE, true, [])
    end.

Lemma stored_path_fits pk b n : _lookup_out_path get_out_path pk = Some (b, n) → slice_to b MAX_PATH_SIZE = b.
Proof.
  unfold _lookup_out_path. destruct get_out_path as [f|]; [|done]. destruct (f pk) as [[[pb pl]|]|]; [|done..].
  destruct (_ || _) eqn:Hv; [done|]. cbv zeta. destruct (len pb <? _) eqn:Hl; [done|].
  intros [= <- <-].
  apply orb_false_iff in Hv as [H0%Z.ltb_ge Hv%negb_false_iff]. apply is_valid_path_len_iff in Hv as [_ Hv].
  assert (0 ≤ PathUtils.get_path_byte_len pl).
  { apply Z.mul_nonneg_nonneg; [apply Z.land_nonneg; by right|]. pose proof (proj2 (Z.shiftr_nonneg pl PATH_HASH_SIZE_SHIFT)). lia. }
  apply slice_to_ge. rewrite len_slice_to by lia. done.
Qed.

Lemma datagram_travel dest_pub id secret data rt p :
  PacketBuilder.create_datagram PAYLOAD_TYPE_RESPONSE dest_pub id secret data rt = Ok p →
  travel p = (PAYLOAD_TYPE_RESPONSE, (RouteTypeUtils.get_route_type_value rt false =? ROUTE_TYPE_TRANSPORT_FLOOD)
                                     || (RouteTypeUtils.get_route_type_value rt false =? ROUTE_TYPE_FLOOD), []).
Proof.
  unfold PacketBuilder.create_datagram. change (negb _) with false. cbn iota. intros H.
  apply res_bind_ok in H as (c & _ & H). apply res_bind_ok in H as (h & _ & H). apply res_bind_ok in H as (p0 & H0 & H).
  apply PacketBuilder.create_packet_built in H0 as [-> _]. injection H as <-.
  by apply (built_travel PAYLOAD_TYPE_RESPONSE rt false _ [] 0 (h ++ c)).
Qed.

Lemma finished_travel q p r :
  region_key_ok q →
  (p' ← PacketBuilder.build (apply_path_hash_mode (request_hash_size q - 1) true) p; TextMessageHandler.scoped_reply q p') = Ok r →
  travel r = travel p.
Proof.
  intros Hk H. apply res_bind_ok in H as (p' & Hb & H). apply scoped_reply_travel in H; [|done]. rewrite H.
  unfold PacketBuilder.build, apply_path_hash_mode in Hb. revert Hb. py_run.
  destruct (negb _); [done|]. destruct (_ =? _); [by intros [= <-]|]. destruct (negb _); [by intros [= <-]|].
  destruct (PathUtils.encode_path_len _ _) as [l|]; [|done]. py_run. by intros [= <-].
Qed.

Lemma login_reply_travel u4 s pk secret data q r :
  region_key_ok q → login_reply get_out_path u4 s pk secret (is_route_flood q) data q = Ok r →
  travel r = reply_route pk q.
Proof.
  intros Hk H. unfold login_reply in H. apply res_bind_ok in H as (p & Hp & H).
  assert (travel r = travel p) as ->.
  { destruct (is_route_flood p); [by apply finished_travel in H|by injection H as <-]. }
  clear H. unfold reply_route. destruct (is_route_flood q).
  { apply res_bind_ok in Hp as (a & _ & Hp). apply res_bind_ok in Hp as (b & _ & Hp). by eapply path_return_travel. }
  destruct (_lookup_out_path get_out_path pk) as [[b n]|] eqn:Hs; [|by apply datagram_travel in Hp].
  rewrite (stored_path_fits pk b n Hs) in Hp. apply res_bind_ok in Hp as (d & Hd & Hp). apply datagram_travel in Hd.
  unfold PacketBuilder.build, set_path in Hp. revert Hp. py_run. intros [= <-].
  unfold travel in *. injection Hd as Ht Hf Hpa. by rewrite <- Ht, <- Hf.
Qed.
End server_lemmas.

(** ** A login *)

Section login.
Context `{C : BlockCipher} {L : BlockCipherLaws C} `{K : PacketBuilder.KeyExchange}.

Definition is_room (c : PacketBuilder.contact) : bool := PacketBuilder.ctype c =? CONTACT_TYPE_ROOM_SERVER.

(** What the client asks to be told since, of a room server. *)
Definition login_since (c : PacketBuilder.contact) : option Z :=
  if is_room c then Some (PacketBuilder.sync_since c) else None.

Lemma login_packet_inv c id password ts p :
  PacketBuilder.login_packet c id password ts = Ok p →
  ∃ pub secret dest cipher b,
    fromhex (PacketBuilder.public_key c) = Ok pub ∧ index pub 0 = Ok dest
    ∧ PacketBuilder.peer_shared_secret pub (PacketBuilder.get_private_key id) = Ok secret
    ∧ payload p = dest :: PacketBuilder.get_public_key id ++ cipher ∧ encode password = Ok b
    ∧ 0 ≤ ts < 256 ^ 4 ∧ (is_room c = true → 0 ≤ PacketBuilder.sync_since c < 256 ^ 4)
    ∧ CryptoUtils.encrypt_then_mac (slice_to secret 16) secret
        (le_bytes 4 ts ++ (if is_room c then le_bytes 4 (PacketBuilder.sync_since c) else []) ++ slice_to b 15)
      = Ok cipher.
Proof.
  unfold PacketBuilder.login_packet. intros H. apply res_bind_ok in H as (b & Hb & H).
  apply res_bind_ok in H as (pt & Hpt & H). apply res_bind_ok in H as (pub & Hpub & H).
  apply res_bind_ok in H as (secret & Hsec & H). apply res_bind_ok in H as (pkt & Hpkt & H).
  assert (payload p = payload pkt) as ->.
  { destruct (_ && _) in H; [|by injection H as <-].
    destruct (PacketBuilder.stored_path _ _) as [pb el]. by eapply set_path_payload. }
  unfold PacketBuilder.create_anon_req in Hpkt. apply res_bind_ok in Hpkt as (dest & Hdest & Hpkt).
  apply res_bind_ok in Hpkt as (cipher & Hc & Hpkt). apply res_bind_ok in Hpkt as (d & Hd & Hpkt).
  apply bytes_of_ints_inv in Hd as [-> _]. apply res_bind_ok in Hpkt as (pk & Hpk & Hpkt).
  apply PacketBuilder.create_packet_built in Hpk as [-> _]. injection Hpkt as <-.
  assert (0 ≤ ts < 256 ^ 4) as Hts.
  { destruct (_ =? CONTACT_TYPE_ROOM_SERVER) in Hpt; [apply res_bind_ok in Hpt as (s & _ & Hpt)|];
      by apply pack_timestamp_inv in Hpt as [? _]. }
  exists pub, secret, dest, cipher, b. split; [done|]. split.
  { unfold PacketBuilder._hash_byte, PacketDataUtils.hash_byte in Hdest. destruct pub; [done|]. by injection Hdest as ->. }
  do 4 (split; [done|]). split.
  - intros Er. unfold is_room in Er. rewrite Er in Hpt. apply res_bind_ok in Hpt as (s & Hs & _).
    by apply pack_uint_inv in Hs as [? _].
  - unfold PacketBuilder._encrypt_payload in Hc. rewrite <- Hc. f_equal. unfold is_room.
    destruct (_ =? CONTACT_TYPE_ROOM_SERVER).
    + apply res_bind_ok in Hpt as (s & Hs & Hpt). apply pack_uint_inv in Hs as [_ ->].
      apply pack_timestamp_inv in Hpt as (_ & q & Hq & ->). parts_inv. by rewrite app_nil_r.
    + apply pack_timestamp_inv in Hpt as (_ & q & Hq & ->). parts_inv. by rewrite app_nil_r.
Qed.
Context (get_out_path : option (bytes → res (option (bytes * Z)))) (clear_out_path : bool)
  (authenticate : bytes → bytes → pystr → Z → option Z → res (bool * Z)).

(** The reply to an accepted login. *)
Definition accepted_reply (now rnd permissions : Z) : bytes :=
  le_bytes 4 now ++ [LoginServerHandler.RESP_SERVER_LOGIN_OK; 0; if acl_is_admin permissions then 1 else 0; permissions]
  ++ le_bytes 4 rnd ++ [LoginServerHandler.FIRMWARE_VER_LEVEL].

Lemma reply_data_ok now rnd permissions :
  0 ≤ now < 256 ^ 4 → 0 ≤ rnd < 256 ^ 4 → is_byte permissions →
  LoginServerHandler.reply_data now rnd LoginServerHandler.RESP_SERVER_LOGIN_OK permissions
  = Ok (accepted_reply now rnd permissions).
Proof.
  intros Hn Hr Hp. unfold LoginServerHandler.reply_data, pack_I. rewrite !pack_uint_ok by done. cbn [mbind res_bind].
  assert (is_byte 0 ∧ is_byte (if acl_is_admin permissions then 1 else 0)) as [H0 H1]
    by (unfold is_byte; destruct (acl_is_admin _); lia).
  rewrite bytes_of_ints_ok; [done|]. do 4 (apply bytes_ok_cons; split; [done|]). apply bytes_ok_nil.
Qed.

Lemma password_decoded password b n :
  encode password = Ok b → 0 ∉ password → LoginServerHandler.password_of (b ++ zeros n) = password.
Proof.
  intros Hb H0. unfold LoginServerHandler.password_of. rewrite before_nul_app_zeros.
  - by apply decode_ignore_encode.
  - by eapply nul_free_encode.
  - unfold zeros. destruct (Z.to_nat n); [by left|right; by eexists].
Qed.

(** The server opens a login: whose it is and what it says. *)
Lemma login_opened c idA idB password b ts p secret q :
  PacketBuilder.login_packet c idA password ts = Ok p → encode password = Ok b → len b ≤ 15 →
  peers idA idB (PacketBuilder.public_key c) secret → payload q = payload p →
  0 ≤ ts < 256 ^ 4 ∧ (is_room c = true → 0 ≤ PacketBuilder.sync_since c < 256 ^ 4)
  ∧ (len (payload q) <? 34) = false ∧ slice (payload q) 1 33 = PacketBuilder.get_public_key idA
  ∧ ∃ n, opened idB (payload q)
         = Ok (secret, le_bytes 4 ts ++ (if is_room c then le_bytes 4 (PacketBuilder.sync_since c) else []) ++ b ++ zeros n).
Proof.
  intros Hp Hb Hbl HP Hpay. set (keyA := PacketBuilder.get_public_key idA).
  destruct (login_packet_inv _ _ _ _ _ Hp) as (pub & sec & dest & cipher & b' & Hpub & Hdest & Hsec & Hpp & Hb' & Hts & Hsync & Hc).
  rewrite Hb in Hb'. injection Hb' as <-. rewrite (slice_to_ge b) in Hc by lia.
  destruct HP as [HoA HoB HlA HlB HpkB HsA HsB Hkey]. rewrite HpkB in Hpub. injection Hpub as <-.
  rewrite HsA in Hsec. injection Hsec as <-. fold keyA in Hpp, HlA, HsB. rewrite Hpay, Hpp.
  destruct (sealed secret _ cipher Hc) as (Hcl & n & Hdec).
  { intros E%(f_equal len). autorewrite with pylen in E. pose proof (len_nonneg b).
    pose proof (len_nonneg (if is_room c then le_bytes 4 (PacketBuilder.sync_since c) else [])). lia. }
  assert (slice (dest :: keyA ++ cipher) 1 33 = keyA) as Hsl
    by (apply (slice_app_exact [dest] keyA cipher); cbn [len length]; autorewrite with pylen; lia).
  assert (slice_from (dest :: keyA ++ cipher) 33 = cipher) as Hsf
    by (rewrite app_comm_cons; apply slice_from_app_exact; rewrite len_cons; lia).
  do 2 (split; [done|]). split; [rewrite len_cons, len_app; lia|]. split; [done|]. exists n.
  unfold opened. rewrite Hsl, Hsf. change (index (dest :: keyA ++ cipher) 0) with (@Ok Z dest). cbn [mbind res_bind].
  rewrite Hdest. cbn [mbind res_bind]. rewrite Z.eqb_refl. cbn [negb raise_if mbind res_bind]. rewrite HsB.
  cbn [mbind res_bind]. rewrite Hdec. cbn [mbind res_bind mret res_ret]. by rewrite <- !app_assoc.
Qed.

(** The login handler puts a login to the application. *)
Lemma login_authenticates c idA password b ts p secret q u4 now rnd s :
  PacketBuilder.login_packet c idA password ts = Ok p → encode password = Ok b → len b ≤ 15 → 0 ∉ password →
  let idB := LoginServerHandler.local_identity s in let keyA := PacketBuilder.get_public_key idA in
  peers idA idB (PacketBuilder.public_key c) secret → payload q = payload p →
  LoginServerHandler.is_room_server s = is_room c →
  LoginServerHandler.call get_out_path clear_out_path authenticate u4 now rnd q s
  = (Authenticates keyA password ts (login_since c)
     :: match authenticate keyA secret password ts (login_since c) with
        | Ok (true, permissions) =>
            LoginServerHandler._send_login_response get_out_path clear_out_path u4 now rnd s keyA secret (is_route_flood q)
              LoginServerHandler.RESP_SERVER_LOGIN_OK permissions q
        | _ => []
        end, true).
Proof.
  intros Hp Hb Hbl H0 idB keyA HP Hpay Hroom.
  destruct (login_opened c idA idB password b ts p secret q Hp Hb Hbl HP Hpay) as (Hts & Hsync & H34 & Hkey & n & Hopen).
  fold keyA in Hkey. unfold LoginServerHandler.call. rewrite H34, Hkey. fold idB. rewrite Hopen.
  set (mid := if is_room c then le_bytes 4 (PacketBuilder.sync_since c) else []) in *.
  assert (len (le_bytes 4 ts ++ mid ++ b ++ zeros n) = 4 + len mid + len b + len (zeros n)) as Hl
    by (autorewrite with pylen; lia).
  pose proof (len_nonneg b). pose proof (len_nonneg (zeros n)). pose proof (len_nonneg mid).
  replace (len (le_bytes 4 ts ++ mid ++ b ++ zeros n) <? 4) with false by lia.
  rewrite slice_to_app_exact by (by rewrite len_le_bytes). rewrite from_le_le_bytes by done. rewrite Hroom.
  assert (∀ d m pre, d = pre ++ b ++ zeros n → len pre = m → 0 ≤ m →
    LoginServerHandler.password_of (slice_from d m) = password) as Hpw.
  { intros d m pre -> <- _. rewrite slice_from_app_exact by done. by apply password_decoded. }
  unfold mid, login_since in *. destruct (is_room c) eqn:Er.
  - replace (len _ <? 8) with false by (rewrite len_le_bytes in Hl; lia).
    rewrite (Hpw _ 8 (le_bytes 4 ts ++ le_bytes 4 (PacketBuilder.sync_since c))) by (by rewrite <- ?app_assoc).
    rewrite slice_app_exact by done. by rewrite from_le_le_bytes by (by apply Hsync).
  - by rewrite (Hpw _ 4 (le_bytes 4 ts)) by done.
Qed.

(** The answer to an accepted login. *)
Lemma accepted_answered c idA secret q u4 now rnd permissions s :
  let idB := LoginServerHandler.local_identity s in let keyA := PacketBuilder.get_public_key idA in
  peers idA idB (PacketBuilder.public_key c) secret → wire_wf q → region_key_ok q →
  LoginServerHandler.send_packet_callback s = true →
  is_byte permissions → 0 ≤ now < 256 ^ 4 → 0 ≤ rnd < 256 ^ 4 →
  ∃ r, LoginServerHandler._send_login_response get_out_path clear_out_path u4 now rnd s keyA secret (is_route_flood q)
         LoginServerHandler.RESP_SERVER_LOGIN_OK permissions q
       = (if is_route_flood q && clear_out_path then [ClearsOutPath keyA] else []) ++ [Sends r 300]
    ∧ travel r = reply_route get_out_path keyA q
    ∧ answers idA idB secret (accepted_reply now rnd permissions) r.
Proof.
  intros idB keyA HP Hw Hreg Hcb Hpb Hnow Hrnd.
  destruct (login_reply_sent get_out_path u4 idA s (PacketBuilder.public_key c) secret
    (accepted_reply now rnd permissions) q HP Hw Hreg) as (r & Hr & Ha); [done|done|]. fold keyA in Hr.
  exists r. split; [|split; [by eapply login_reply_travel|done]].
  unfold LoginServerHandler._send_login_response. rewrite Hcb. cbn [negb]. rewrite reply_data_ok by done. by rewrite Hr.
Qed.
End login.

(** ** Lemmas: the client *)

Section client_lemmas.
Context `{C : BlockCipher} {L : BlockCipherLaws C} `{K : PacketBuilder.KeyExchange}.
Import LoginResponseHandler.

(** The fields the client reads from an accepted login's reply. *)
Definition accepted_login (now rnd permissions : Z) : login_data :=
  mkLogin now LoginServerHandler.RESP_SERVER_LOGIN_OK 0 (if acl_is_admin permissions then 1 else 0) permissions
    (le_bytes 4 rnd) (Some LoginServerHandler.FIRMWARE_VER_LEVEL).

Lemma parse_accepted now rnd permissions n :
  0 ≤ now < 256 ^ 4 →
  parse_login (accepted_reply now rnd permissions ++ zeros n) = Ok (Some (accepted_login now rnd permissions)).
Proof.
  intros Hn. unfold parse_login, accepted_reply, accepted_login. rewrite <- !app_assoc.
  set (code := LoginServerHandler.RESP_SERVER_LOGIN_OK). set (adm := if acl_is_admin permissions then 1 else 0).
  set (fw := [LoginServerHandler.FIRMWARE_VER_LEVEL]).
  assert (len (le_bytes 4 now ++ [code; 0; adm; permissions] ++ le_bytes 4 rnd ++ fw ++ zeros n) = 13 + len (zeros n)) as Hl
    by (autorewrite with pylen; change (len fw) with 1; change (len [code; 0; adm; permissions]) with 4; lia).
  pose proof (len_nonneg (zeros n)). rewrite Hl. replace (13 + len (zeros n) <? 12) with false by lia.
  replace (13 + len (zeros n) >=? 13) with true by lia.
  rewrite slice_to_app_exact by (by rewrite len_le_bytes). rewrite from_le_le_bytes by done.
  assert (slice (le_bytes 4 now ++ [code; 0; adm; permissions] ++ le_bytes 4 rnd ++ fw ++ zeros n) 8 12 = le_bytes 4 rnd)
    as -> by (rewrite (app_assoc (le_bytes 4 now)); by apply slice_app_exact).
  done.
Qed.

(** What the client decrypts from the server's answer. *)
Lemma answer_decrypts idA idB secret now rnd permissions r cB :
  answers idA idB secret (accepted_reply now rnd permissions) r → 0 ≤ now < 256 ^ 4 →
  _pubkey_bytes cB = Ok (PacketBuilder.get_public_key idB) →
  PacketBuilder.peer_shared_secret (PacketBuilder.get_public_key idB) (PacketBuilder.get_private_key idA) = Ok secret →
  _decrypt_response (PacketBuilder.get_private_key idA) r cB 2 = Some (Some (accepted_login now rnd permissions)).
Proof.
  intros (dest & src & _ & _ & cipher & d & n & Hpay & _ & _ & Hd & Hdec) Hn HkB Hsec.
  unfold _decrypt_response. rewrite HkB. cbn [mbind res_bind]. rewrite Hsec. cbn [mbind res_bind]. rewrite Hpay.
  change (slice_from (dest :: src :: cipher) 2) with (slice_from ([dest; src] ++ cipher) 2).
  rewrite slice_from_app_exact by done. rewrite Hdec. cbn [mbind res_bind].
  destruct Hd as [[Hty ->] | [Hty (l & p & Hv & Hl & ->)]]; rewrite Hty.
  - rewrite bool_decide_false by done. cbn [raise_if mbind res_bind].
    change (PAYLOAD_TYPE_RESPONSE =? PAYLOAD_TYPE_PATH) with false. cbn iota. by rewrite parse_accepted.
  - rewrite bool_decide_false by done. cbn [raise_if mbind res_bind].
    change (PAYLOAD_TYPE_PATH =? PAYLOAD_TYPE_PATH) with true. cbn iota.
    destruct (carried_path l p (accepted_reply now rnd permissions) n Hv Hl) as (H0 & H1 & _ & Hs & Hlen & Hk).
    unfold unwrap_path. rewrite H0. cbn [mbind res_bind]. rewrite Hv. cbn [negb raise_if mbind res_bind].
    pose proof (len_nonneg (zeros n)) as Hz. rewrite (len_app (accepted_reply _ _ _)) in Hlen.
    change (len (accepted_reply now rnd permissions)) with 13 in Hlen.
    replace (len _ <? _) with false by lia. cbn [raise_if mbind res_bind]. rewrite H1. cbn [mbind res_bind].
    change (negb (Z.land PAYLOAD_TYPE_RESPONSE 0x0F =? PAYLOAD_TYPE_RESPONSE)) with false.
    replace (len _ <=? _) with false by lia. cbn [orb mret res_ret mbind res_bind]. rewrite Hs. by rewrite parse_accepted.
Qed.

Context {T : Type} `{Clock T}.
Context (probe : option (Z → bytes → res bool)) (path_updated : option (bytes → Z → bytes → res unit))
  (waiter_run : nat → ProtocolResponseHandler.parsed → res unit) (isprintable : pystr → bool).

(** The first contact with the hash that authenticates the packet. *)
Lemma first_authenticated_match priv r n x pk l1 c l2 d :
  Forall (λ k, _decrypt_response priv r k n = None) l1 → _decrypt_response priv r c n = Some d →
  _pubkey_bytes c = Ok (x :: pk) → len (x :: pk) = 32 →
  first_authenticated priv r n (candidates x (l1 ++ c :: l2)) = Some (c, d).
Proof.
  intros Hl1 Hc Hk Hl. unfold candidates. rewrite List.filter_app. cbn [List.filter].
  rewrite Hk, Hl, !Z.eqb_refl. cbn [andb]. induction Hl1 as [|k l1 Hk1 _ IH]; cbn; [by rewrite Hc|].
  destruct (match _pubkey_bytes k with Ok _ => _ | Err _ => _ end); cbn; [by rewrite Hk1|done].
Qed.

Lemma pending_for_hash x pk cb s :
  dget (x :: pk) (_pending_logins s) = Some cb → _has_pending_login_for_hash (T := T) x s = true.
Proof.
  intros Hg%dget_Some_elem. unfold _has_pending_login_for_hash. apply orb_true_iff. right.
  apply existsb_exists. exists (x :: pk, cb). split; [by apply base.list_elem_of_In|]. cbn. apply Z.eqb_refl.
Qed.

(** The client's side: a pending login is completed by its server's answer. *)
Lemma answer_completes idA idB secret now rnd permissions u4 sf at_ r s l1 cB l2 cb :
  answers idA idB secret (accepted_reply now rnd permissions) r → 0 ≤ now < 256 ^ 4 →
  len (PacketBuilder.get_public_key idB) = 32 →
  PacketBuilder.peer_shared_secret (PacketBuilder.get_public_key idB) (PacketBuilder.get_private_key idA) = Ok secret →
  local_identity s = idA → contacts s = l1 ++ cB :: l2 → _pubkey_bytes cB = Ok (PacketBuilder.get_public_key idB) →
  Forall (λ k, _decrypt_response (PacketBuilder.get_private_key idA) r k 2 = None) l1 →
  dget (PacketBuilder.get_public_key idB) (_pending_logins s) = Some cb →
  slice (payload r) 1 33 ≠ PacketBuilder.get_public_key idA → is_ok (float_of_int (_rssi r)) = true →
  _is_foreign_request_reply probe (Some (accepted_login now rnd permissions)) cB = false →
  ∃ s', call probe path_updated waiter_run isprintable u4 sf at_ r s = (s', Ok true)
    ∧ out s' = out s ++ [ContactNoted (PacketBuilder.public_key (ContactStore.proxy_contact cB)) now
                           (acl_is_admin permissions);
                         LoginCalled cb true (accepted_login now rnd permissions)].
Proof.
  intros Ha Hn HlB Hsec Hid Hcont HkB Hl1 Hpend Hanon Hf Hprobe.
  pose proof (answer_decrypts _ _ _ _ _ _ _ cB Ha Hn HkB Hsec) as Hdec.
  destruct Ha as (dest & src & Hd & Hs & cipher & d & n & Hpay & Hcl & _ & Hty & _).
  destruct (PacketBuilder.get_public_key idB) as [|x pk] eqn:EB; [done|]. change (index (x :: pk) 0) with (@Ok Z x) in Hs.
  injection Hs as ->.
  assert ((len (payload r) <? 4) = false ∧ index (payload r) 0 = Ok dest ∧ index (payload r) 1 = Ok src) as (H4 & H0 & H1)
    by (rewrite Hpay, !len_cons; split_and!; [lia|done|done]).
  assert ((len (payload r) >=? 34) && bytes_eqb (slice (payload r) 1 33) (PacketBuilder.get_public_key idA) = false) as Ean
    by (apply andb_false_iff; right; apply not_true_iff_false; by rewrite bytes_eqb_true).
  unfold call. rewrite H4. py_run. rewrite H0, H1. cbn iota beta. rewrite Hid, Ean. cbn iota. rewrite Hd. cbn iota.
  rewrite Z.eqb_refl. cbn [negb]. rewrite (pending_for_hash src pk cb s Hpend), Hcont. cbn [negb].
  rewrite (first_authenticated_match _ r 2 src pk l1 cB l2 _ Hl1 Hdec HkB HlB), Hprobe, HkB.
  cbn iota beta. unfold dmem. rewrite Hpend. cbn [negb].
  assert (∃ t', (if get_payload_type r =? PAYLOAD_TYPE_RESPONSE
            then on_teacher (ReturnPathTeacher.maybe_teach_from_flood_reply sf at_ r (src :: pk) src None);; mret tt
            else mret tt) s = (with_protocol t' s, Ok tt)) as [t' Ht].
  { destruct (get_payload_type r =? PAYLOAD_TYPE_RESPONSE) eqn:Et; [|by exists (protocol s); destruct s].
    apply Z.eqb_eq in Et. unfold on_teacher, ProtocolResponseHandler.on_teacher. py_run.
    destruct (reply_total sf at_ r (src :: pk) src None (ProtocolResponseHandler.return_path_teacher (protocol s)) Hf)
      as (t1 & b & ->); [by rewrite Et|]. by eexists. }
  match goal with |- context [let (_, _) := ?m s in _] => change (m s) with
    ((if get_payload_type r =? PAYLOAD_TYPE_RESPONSE
            then on_teacher (ReturnPathTeacher.maybe_teach_from_flood_reply sf at_ r (src :: pk) src None);; mret tt
            else mret tt) s) end.
  rewrite Ht. cbn iota beta. eexists. split; [reflexivity|]. unfold _process_login_response. cbn.
  rewrite Hpend. cbn. rewrite <- app_assoc. unfold is_admin, accepted_login. cbn. by destruct (acl_is_admin permissions).
Qed.
End client_lemmas.

(** ** Logging in *)

Section logging_in.
Context `{C : BlockCipher} {L : BlockCipherLaws C} `{K : PacketBuilder.KeyExchange}.
Context {T : Type} `{Clock T} (plus : T → T → T).
Context (get_out_path : option (bytes → res (option (bytes * Z)))) (clear_out_path : bool)
  (authenticate : bytes → bytes → pystr → Z → option Z → res (bool * Z)).
Context (region_names_fn : res pystr) (owner_info_fn : res (pystr * pystr)) (features_fn : res Z) (clock_fn : res Z).
Context (probe : option (Z → bytes → res bool)) (path_updated : option (bytes → Z → bytes → res unit))
  (waiter_run : nat → ProtocolResponseHandler.parsed → res unit) (isprintable : pystr → bool).

(** Passwords a node that is no room server tells from a discovery request. *)
Definition told_apart (c : PacketBuilder.contact) (b : bytes) : Prop :=
  is_room c = true ∨ Forall (λ x, 0x20 ≤ x) (take 1 b).

(** The anonymous-request handler hands a login to the login handler. *)
Lemma anon_forwards_login c idA password b ts p secret q u4 time now rnd s :
  PacketBuilder.login_packet c idA password ts = Ok p → encode password = Ok b → len b ≤ 15 → told_apart c b →
  peers idA (AnonRequestHandler.local_identity s) (PacketBuilder.public_key c) secret → payload q = payload p →
  LoginServerHandler.is_room_server (AnonRequestHandler.login_handler s) = is_room c →
  AnonRequestHandler.call plus get_out_path clear_out_path authenticate region_names_fn owner_info_fn features_fn
    clock_fn u4 time now rnd q s
  = (s, (LoginServerHandler.call get_out_path clear_out_path authenticate u4 now rnd q
           (AnonRequestHandler.login_handler s)).1, true).
Proof.
  intros Hp Hb Hbl Hta HP Hpay Hroom.
  destruct (login_opened c idA _ password b ts p secret q Hp Hb Hbl HP Hpay) as (_ & _ & H34 & _ & n & Hopen).
  unfold AnonRequestHandler.call. rewrite H34, Hopen, Hroom. destruct Hta as [-> | Hx]; [done|].
  destruct (is_room c); [done|]. cbn [app].
  assert (index (le_bytes 4 ts ++ b ++ zeros n) 4 = index (le_bytes 4 ts ++ b ++ zeros n) (0 + len (le_bytes 4 ts))) as ->
    by (by rewrite len_le_bytes).
  destruct b as [|x b].
  - cbn [app]. unfold zeros. destruct (Z.to_nat n) as [|k].
    + rewrite app_nil_r. by rewrite len_le_bytes.
    + cbn [replicate]. by rewrite (index_app_exact (le_bytes 4 ts)).
  - cbn in Hx. apply list.Forall_cons in Hx as [Hx _]. cbn [app]. rewrite (index_app_exact (le_bytes 4 ts)) by lia.
    by replace (x >=? 0x20) with true by lia; rewrite orb_true_r.
Qed.

(** C7: a login completes. A login with a password of at most 15 bytes and no
    NUL, however it was routed, is put to the application of the node it names
    with the client's key, that password and timestamp (and the room's sync
    point). Unless the application accepts it, nothing is sent. If it accepts,
    exactly one reply leaves, 300 ms later: a path return that floods when the
    login flooded (the stored route is then cleared first), else a response over
    the route the application has stored for the client, or flooding when it has
    no usable one. That reply, however it was forwarded on its way back,
    completes the client's pending login with success, the granted permissions
    and the matching admin flag. This holds when the node is a room server
    exactly if the client's contact says so; when the password of a node that is
    no room server does not begin with a byte below 0x20 (such a login is taken
    for a discovery request); when the node has a send callback, the application
    grants one byte of permissions and the clock and the random number fit 32
    bits; and, at the client, when the contact it decrypts with is found before
    another that authenticates, its pending login is registered, the reply is
    neither its own anonymous request echoed back nor the answer to another
    pending request, and its signal strength is a number. *)
Theorem login_completes c idA password b ts p secret q u4 time now rnd s :
  PacketBuilder.login_packet c idA password ts = Ok p → encode password = Ok b → len b ≤ 15 → 0 ∉ password →
  told_apart c b →
  let idB := AnonRequestHandler.local_identity s in
  let keyA := PacketBuilder.get_public_key idA in let keyB := PacketBuilder.get_public_key idB in
  peers idA idB (PacketBuilder.public_key c) secret →
  payload q = payload p → wire_wf q → region_key_ok q →
  LoginServerHandler.is_room_server (AnonRequestHandler.login_handler s) = is_room c →
  LoginServerHandler.send_packet_callback (AnonRequestHandler.login_handler s) = true →
  0 ≤ now < 256 ^ 4 → 0 ≤ rnd < 256 ^ 4 →
  (∀ permissions, authenticate keyA secret password ts (login_since c) = Ok (true, permissions) → is_byte permissions) →
  ∃ sent,
    AnonRequestHandler.call plus get_out_path clear_out_path authenticate region_names_fn owner_info_fn features_fn
      clock_fn u4 time now rnd q s
    = (s, Authenticates keyA password ts (login_since c) :: sent, true)
    ∧ match authenticate keyA secret password ts (login_since c) with
      | Ok (true, permissions) =>
          ∃ r,
            sent = (if is_route_flood q && clear_out_path then [ClearsOutPath keyA] else []) ++ [Sends r 300]
            ∧ travel r = reply_route get_out_path keyA q
            ∧ ∀ r' u sf at_ cl l1 cB l2 cb,
                payload r' = payload r → payload_len r' = payload_len r → get_payload_type r' = get_payload_type r →
                is_ok (float_of_int (_rssi r')) = true → slice (payload r') 1 33 ≠ keyA →
                LoginResponseHandler.local_identity cl = idA → LoginResponseHandler.contacts cl = l1 ++ cB :: l2 →
                LoginResponseHandler._pubkey_bytes cB = Ok keyB →
                Forall (λ k, LoginResponseHandler._decrypt_response (PacketBuilder.get_private_key idA) r' k 2 = None) l1 →
                dget keyB (LoginResponseHandler._pending_logins cl) = Some cb →
                LoginResponseHandler._is_foreign_request_reply probe (Some (accepted_login now rnd permissions)) cB = false →
                ∃ cl',
                  LoginResponseHandler.call (T := T) probe path_updated waiter_run isprintable u sf at_ r' cl = (cl', Ok true)
                  ∧ LoginResponseHandler.out cl' = LoginResponseHandler.out cl
                      ++ [LoginResponseHandler.ContactNoted (PacketBuilder.public_key (ContactStore.proxy_contact cB)) now
                            (acl_is_admin permissions);
                          LoginResponseHandler.LoginCalled cb true (accepted_login now rnd permissions)]
      | _ => sent = []
      end.
Proof.
  intros Hp Hb Hbl H0 Hta idB keyA keyB HP Hpay Hw Hreg Hroom Hcb Hnow Hrnd Hpb.
  rewrite (anon_forwards_login c idA password b ts p secret) by done.
  rewrite (login_authenticates get_out_path clear_out_path authenticate c idA password b ts p secret) by done.
  eexists. split; [reflexivity|]. fold keyA.
  destruct (authenticate keyA secret password ts (login_since c)) as [[[|] permissions]|]; [|done..].
  destruct (accepted_answered get_out_path clear_out_path c idA secret q u4 now rnd permissions
    (AnonRequestHandler.login_handler s)) as (r & Hr & Htr & Ha); try done; [by apply Hpb|].
  exists r. split; [exact Hr|]. split; [exact Htr|].
  intros r' u sf at_ cl l1 cB l2 cb Hpay' Hplen' Hty' Hf Hanon Hid Hcont HkB Hl1 Hpend Hprobe.
  apply (answer_completes probe path_updated waiter_run isprintable idA idB secret now rnd permissions
    u sf at_ r' cl l1 cB l2 cb); try done.
  - destruct Ha as (dest & src & Hd & Hs & Hc). exists dest, src. split_and!; [done|done|]. by eapply carries_same.
  - apply HP.
  - apply HP.
Qed.
End logging_in.

(** ** The rate of discovery replies *)

Section rate.
Import AnonRequestHandler.

(** The readings at which a reply is allowed. *)
Fixpoint allowed_at (times : list Z) (l : AnonRateLimiter Z) : list Z :=
  match times with
  | [] => []
  | t :: times' => let '(l', ok) := allow Z.add t l in (if ok then [t] else []) ++ allowed_at times' l'
  end.

Definition limit (times : list Z) (l : AnonRateLimiter Z) : AnonRateLimiter Z :=
  fold_left (fun l t => (allow Z.add t l).1) times l.

(** A new limiter. *)
Definition new_limiter (maximum secs : Z) : AnonRateLimiter Z := mkLimiter maximum secs 0 0.

Lemma limit_keeps times l :
  0 ≤ _count l → let l' := limit times l in _maximum l' = _maximum l ∧ _secs l' = _secs l ∧ 0 ≤ _count l'.
Proof.
  revert l. induction times as [|t times IH]; intros l Hc; [done|]. cbn [limit fold_left].
  assert (0 ≤ _count (allow Z.add t l).1 ∧ _maximum (allow Z.add t l).1 = _maximum l ∧ _secs (allow Z.add t l).1 = _secs l)
    as (Hc' & <- & <-) by (unfold allow; destruct (before _ _); cbn; lia).
  by apply IH.
Qed.

(** Within the window in force. *)
Lemma allowed_in_window times l :
  Forall (λ t, t < _start_timestamp l + _secs l) times →
  len (allowed_at times l) ≤ Z.max 0 (_maximum l - _count l).
Proof.
  revert l. induction times as [|t times IH]; intros l Ht; [cbn [allowed_at]; rewrite len_nil; lia|].
  apply list.Forall_cons in Ht as [Ht Hts]. cbn [allowed_at allow]. unfold allow.
  change (before t (_start_timestamp l + _secs l)) with (t <? _start_timestamp l + _secs l).
  rewrite (proj2 (Z.ltb_lt _ _) Ht). specialize (IH (mkLimiter (_maximum l) (_secs l) (_start_timestamp l) (_count l + 1)) Hts).
  cbn [_maximum _count] in IH. rewrite len_app. destruct (_ >? _) eqn:E; bool_hyps; cbn [negb]; rewrite ?len_cons, ?len_nil; lia.
Qed.

(** Whatever discovery requests came before, and whatever the order of
    their readings, at most twice the maximum are answered within any span as
    long as the window: at most one window can begin in it. *)
Theorem discovery_rate_bounded maximum secs earlier times t0 :
  Forall (λ t, t0 ≤ t < t0 + secs) times →
  len (allowed_at times (limit earlier (new_limiter maximum secs))) ≤ 2 * Z.max 1 maximum.
Proof.
  intros Ht. destruct (limit_keeps earlier (new_limiter maximum secs)) as (Hm & Hs & Hc); [done|].
  set (l := limit _ _) in *. clearbody l. cbn in Hm, Hs. revert Ht. subst maximum secs.
  assert (∀ l, 0 ≤ _count l → Forall (λ t, t0 ≤ t < t0 + _secs l) times →
    len (allowed_at times l) ≤ Z.max 0 (_maximum l - _count l) + Z.max 1 (_maximum l)) as Hr.
  { clear. induction times as [|t times IH]; intros l Hc Ht; [cbn [allowed_at]; rewrite len_nil; lia|]. apply list.Forall_cons in Ht as [Ht Hts].
    cbn [allowed_at]. unfold allow.
    change (before t (_start_timestamp l + _secs l)) with (t <? _start_timestamp l + _secs l).
    destruct (t <? _start_timestamp l + _secs l).
    - specialize (IH (mkLimiter (_maximum l) (_secs l) (_start_timestamp l) (_count l + 1))).
      cbn [_maximum _count _secs] in IH. specialize (IH ltac:(lia) Hts).
      rewrite len_app. destruct (_ >? _) eqn:E; bool_hyps; cbn [negb]; rewrite ?len_cons, ?len_nil; lia.
    - pose proof (allowed_in_window times (mkLimiter (_maximum l) (_secs l) t 1)) as Hw. cbn [_start_timestamp _secs _maximum _count] in Hw.
      rewrite len_app. change (len [t]) with 1. enough (len (allowed_at times (mkLimiter (_maximum l) (_secs l) t 1)) ≤ Z.max 0 (_maximum l - 1)) by lia.
      apply Hw. eapply Forall_impl; [exact Hts|]. cbn. lia. }
  intros Ht. specialize (Hr l Hc Ht). lia.
Qed.

(** The bound is reached when a window ends within the span. *)
Definition busy : list Z := [170; 171; 172; 173; 174; 180; 181; 182; 183; 349].

Lemma discovery_rate_bounded_witness :
  len (allowed_at busy (limit [] (new_limiter 4 180))) ≤ 2 * Z.max 1 4
  ∧ allowed_at busy (limit [] (new_limiter 4 180)) = [170; 171; 172; 173; 180; 181; 182; 183].
Proof.
  split; [|reflexivity]. apply (discovery_rate_bounded 4 180 [] busy 170). decide_now.
Defined.
End rate.

(** ** Instance *)

#[local] Existing Instances xor_cipher xor_cipher_laws PacketBuilder.xor_exchange.

Import PacketBuilder.

(** Alice logs in to Bob with "hi", *)
Definition sent_login : Packet.t :=
  match login_packet bob_contact alice [104; 105] 1000 with Ok p => p | Err _ => Packet.init end.

(** flooding over two repeaters. *)
Definition heard_login : Packet.t := with_header 29 (with_path [5; 6] (with_path_len 2 sent_login)).

Definition bob_server : AnonRequestHandler.t Z :=
  AnonRequestHandler.mk (LoginServerHandler.mk bob false true) (new_limiter 4 180).

Definition admit_all (client_pubkey secret : bytes) (password : pystr) (timestamp : Z) (sync_since : option Z)
    : res (bool * Z) := Ok (true, 3).

(** Alice waits for Bob's answer. *)
Definition alice_book : ContactStore.t :=
  ContactStore.put (Models.mkContact bob_key [66] CONTACT_TYPE_CHAT_NODE 0 (-1) [] 7 50 f_zero f_zero 0 None)
    (ContactStore.init 8).

Definition alice_client : LoginResponseHandler.t Z :=
  LoginResponseHandler.register_login_callback bob_key 7
    (LoginResponseHandler.mk (ProtocolResponseHandler.mk (ReturnPathTeacher.init alice alice_book 5 8) [] false [] [])
       true [] [] []).

(** What Bob sends. *)
Definition bob_answer : Packet.t :=
  match (AnonRequestHandler.call Z.add None false admit_all (Ok []) (Ok ([], [])) (Ok 0) (Ok 0) [] 0 2000 9 heard_login
           bob_server).1.2 with
  | [_; Sends r _] => r
  | _ => Packet.init
  end.

Lemma login_completes_witness :
  ∃ cl', LoginResponseHandler.call None None (λ _ _, Ok tt) (λ _, true) [] None 50 bob_answer alice_client = (cl', Ok true)
    ∧ LoginResponseHandler.out cl'
      = [LoginResponseHandler.ContactNoted (hex bob_key) 2000 true;
         LoginResponseHandler.LoginCalled 7 true (accepted_login 2000 9 3)].
Proof.
  destruct (login_completes Z.add None false admit_all (Ok []) (Ok ([], [])) (Ok 0) (Ok 0) None None (λ _ _, Ok tt) (λ _, true)
    bob_contact alice [104; 105] [104; 105] 1000 sent_login (zip_with Z.lxor bob_key alice_key) heard_login [] 0 2000 9
    bob_server) as (sent & Hr & Hs).
  - vm_compute. reflexivity.
  - reflexivity.
  - decide_now.
  - decide_now.
  - right. repeat constructor; lia.
  - split; first [reflexivity | decide_now].
  - reflexivity.
  - split; first [reflexivity | decide_now].
  - intros k Hk. discriminate Hk.
  - reflexivity.
  - reflexivity.
  - decide_now.
  - decide_now.
  - intros permissions [= <-]. decide_now.
  - destruct Hs as (r & -> & _ & Hcl).
    assert (r = bob_answer) as -> by (unfold bob_answer; rewrite Hr; reflexivity).
    destruct (Hcl bob_answer [] None 50 alice_client [] (ContactStore.proxy_of
      (Models.mkContact bob_key [66] CONTACT_TYPE_CHAT_NODE 0 (-1) [] 7 50 f_zero f_zero 0 None)) [] 7%nat) as (cl' & H1 & H2).
    + reflexivity.
    + reflexivity.
    + reflexivity.
    + reflexivity.
    + assert (bytes_eqb (slice (payload bob_answer) 1 33) alice_key = false) as Hb by (vm_compute; reflexivity).
      intros E. rewrite E in Hb. discriminate Hb.
    + reflexivity.
    + reflexivity.
    + reflexivity.
    + constructor.
    + reflexivity.
    + reflexivity.
    + exists cl'. split; [exact H1|exact H2].
Defined.
