(* ===== verification/ProtocolRequest.v ===== *)
(** * Requests of authenticated clients ([node/handlers/protocol_request.py])

    [ProtocolRequestHandler]: which client sent a REQ, the replay check against
    the client's watermark, the application's request handlers, and the
    RESPONSE or path return that answers. Clients are objects of the
    application, shared with it and mutated: [clients] is the store, and
    references into it are numbers. [log] is the sequence of what the handler
    does to them, oldest first. *)

From S2P Require Import Prelude PyData Sha256 Utf8 PyFloat ODict Constants PacketUtils Packet TransportKeys RegionMap Crypto PacketFilter Acks PacketBuilder Messages Stores Contacts TextHandler Telemetry ReturnPath Replies ProtocolResponse.

Import Packet.

Module ProtocolRequestHandler.

Definition REQ_TYPE_GET_STATUS : Z := 0x01.
Definition REQ_TYPE_KEEP_ALIVE : Z := 0x02.
Definition REQ_TYPE_GET_ACCESS_LIST : Z := 0x05.
Definition REQ_TYPE_GET_NEIGHBOURS : Z := 0x06.
Definition REQ_TYPE_GET_OWNER_INFO : Z := 0x07.

(** A public key as hexadecimal text or as bytes. *)
Inductive key_value : Type := KeyHex (s : string) | KeyBytes (b : bytes).

Definition key_bytes (k : key_value) : res bytes :=
  match k with KeyHex s => fromhex s | KeyBytes b => Ok b end.

(** A client object: [None] is a missing attribute; a [shared_secret] that is
    [None] or empty is [Some []], a timestamp that is no number is [None].
    [assignable]: its attributes can be set. *)
Record client := mkClient {
  id_key : option bytes;
  public_key : option key_value;
  shared_secret : option bytes;
  out_path_len : option Z;
  out_path : option bytes;
  last_timestamp : option Z;
  last_activity : option Z;
  assignable : bool
}.

Inductive output : Type :=
| HandlerCalled (client : nat) (timestamp req_type : Z) (req_data : bytes)
| WatermarkSet (client : nat) (last_timestamp : Z).

Record HandlerResult := mkResult {
  authenticated : bool;
  response : option Packet.t
}.

Section handler.
Context `{C : BlockCipher} `{K : PacketBuilder.KeyExchange}.

(** Whether [Identity] accepts a public key. *)
Context (identity_ok : bytes → bool).

(** The application's callbacks, if set: the clients of a hash ([None]s left
    out), the client of a hash, and the handlers of the request types. *)
Context (get_clients_fn : option (Z → list nat)) (get_client_fn : option (Z → option nat))
  (request_handlers : Z → option (client → Z → bytes → res (option bytes))).

Record t := mk {
  local_identity : PacketBuilder.LocalIdentity;
  contacts : option (list nat);
  clients : list client;
  log : list output
}.

Definition with_clients (l : list client) (s : t) : t := mk (local_identity s) (contacts s) l (log s).
Definition emit (o : list output) (s : t) : t := mk (local_identity s) (contacts s) (clients s) (log s ++ o).

(** The contacts whose key starts with the hash. *)
Fixpoint matching_contacts (src_hash : Z) (l : list nat) (s : t) : res (list nat) :=
  match l with
  | [] => mret []
  | i :: l' =>
      match clients s !! i with
      | Some (mkClient _ (Some k) _ _ _ _ _ _) =>
          pk ← key_bytes k; first ← index pk 0;
          rest ← matching_contacts src_hash l' s;
          mret (if first =? src_hash then i :: rest else rest)
      | _ => matching_contacts src_hash l' s
      end
  end.

Definition _get_clients (src_hash : Z) (s : t) : res (list nat) :=
  match get_clients_fn, get_client_fn with
  | Some f, _ => mret (f src_hash)
  | None, Some f => mret (match f src_hash with Some i => [i] | None => [] end)
  | None, None => match contacts s with Some l => matching_contacts src_hash l s | None => mret [] end
  end.

Definition _get_shared_secret (c : client) (s : t) : res (option bytes) :=
  match shared_secret c, public_key c with
  | Some ss, _ => mret (Some ss)
  | None, Some k =>
      pk ← key_bytes k;
      Some <$> PacketBuilder.peer_shared_secret pk (PacketBuilder.get_private_key (local_identity s))
  | None, None => mret None
  end.

(** The first candidate that authenticates, with its secret and the
    plaintext. An error of [_get_shared_secret] ends the search. *)
Fixpoint first_client (encrypted_data : bytes) (l : list nat) (s : t) : res (option (nat * bytes * bytes)) :=
  match l with
  | [] => mret None
  | i :: l' =>
      match clients s !! i with
      | None => first_client encrypted_data l' s
      | Some c =>
          candidate_secret ← _get_shared_secret c s;
          match candidate_secret with
          | None | Some [] => first_client encrypted_data l' s
          | Some secret =>
              match CryptoUtils.mac_then_decrypt (slice_to secret 16) secret encrypted_data with
              | Ok plaintext => mret (Some (i, secret, plaintext))
              | Err _ => first_client encrypted_data l' s
              end
          end
      end
  end.

Definition _get_last_req_ts (c : client) : Z := default 0 (last_timestamp c).

Definition watermarked (now ts : Z) (c : client) : client :=
  mkClient (id_key c) (public_key c) (shared_secret c) (out_path_len c) (out_path c)
    (Some (Z.max (_get_last_req_ts c) ts)) (match last_activity c with Some _ => Some now | None => None end)
    (assignable c).

Definition _advance_client_watermark (now : Z) (i : nat) (timestamp : Z) (s : t) : t :=
  match clients s !! i with
  | Some c =>
      if assignable c
      then emit [WatermarkSet i (Z.max (_get_last_req_ts c) timestamp)]
             (with_clients (<[i := watermarked now timestamp c]> (clients s)) s)
      else s
  | None => s
  end.

(** The handler of the type, else the built-in keep-alive. *)
Definition _handle_request (c : client) (timestamp req_type : Z) (req_data : bytes) : res (option bytes) :=
  response ← pack_I timestamp;
  payload ← match request_handlers req_type with
            | Some handler => handler c timestamp req_data
            | None => mret None
            end;
  match payload with
  | Some payload => mret (Some (response ++ payload))
  | None => if req_type =? REQ_TYPE_KEEP_ALIVE then mret (Some response) else mret None
  end.

(** The key of the client's identity. *)
Definition client_key (c : client) : res bytes :=
  match id_key c, public_key c with
  | Some k, _ => mret k
  | None, Some k =>
      pk ← key_bytes k; raise_if (negb (identity_ok pk)) (ValueError "public key");; mret pk
  | None, None => Err (OtherError "AttributeError")
  end.

Definition direct_route (c : client) : option (bytes * Z) :=
  match out_path_len c, out_path c with
  | Some l, Some p => if (l >=? 0) && PathUtils.is_valid_path_len l then Some (slice_to p MAX_PATH_SIZE, l) else None
  | _, _ => None
  end.

(** [_build_response]; errors are logged: [None]. *)
Definition _build_response (urandom4 : bytes) (original_packet : Packet.t) (c : client)
    (response_data shared_secret : bytes) (s : t) : option Packet.t :=
  match
    (client_pubkey ← client_key c;
     client_hash ← index client_pubkey 0;
     our_hash ← index (PacketBuilder.get_public_key (local_identity s)) 0;
     let finish (p : Packet.t) :=
       p ← PacketBuilder.build (apply_path_hash_mode (request_hash_size original_packet - 1) true) p;
       TextMessageHandler.scoped_reply original_packet p in
     if is_route_flood original_packet then
       let path_len_byte := path_len original_packet in
       let valid := PathUtils.is_valid_path_len path_len_byte in
       let path_byte_len := if valid then PathUtils.get_path_byte_len path_len_byte else 0 in
       reply_packet ← PacketBuilder.create_path_return urandom4 client_hash our_hash shared_secret
         (if negb (path_byte_len =? 0) then slice_to (path original_packet) path_byte_len else [])
         PAYLOAD_TYPE_RESPONSE response_data (if valid then Some path_len_byte else None);
       finish reply_packet
     else
       match direct_route c with
       | Some (path_bytes, path_len_encoded) =>
           reply_packet ← PacketBuilder.create_datagram PAYLOAD_TYPE_RESPONSE client_pubkey (local_identity s)
                            shared_secret response_data "direct";
           PacketBuilder.build (set_path path_bytes (Some path_len_encoded)) reply_packet
       | None =>
           reply_packet ← PacketBuilder.create_datagram PAYLOAD_TYPE_RESPONSE client_pubkey (local_identity s)
                            shared_secret response_data "flood";
           finish reply_packet
       end) with
  | Ok p => Some p
  | Err _ => None
  end.

(** Whom the packet authenticates, if it is addressed to us; an error leaves
    the packet for forwarding. *)
Definition identify (packet : Packet.t) (s : t) : option (nat * bytes * bytes) :=
  let p := payload packet in
  if len p <? 2 then None
  else
    match (dest_hash ← index p 0; src_hash ← index p 1;
           our_hash ← index (PacketBuilder.get_public_key (local_identity s)) 0;
           if negb (dest_hash =? our_hash) then mret None
           else
             l ← _get_clients src_hash s;
             first_client (slice_from p 2) l s) with
    | Ok r => r
    | Err _ => None
    end.

(** [__call__]; [now] is [int(time.time())]. *)
Definition call (urandom4 : bytes) (now : Z) (packet : Packet.t) (s : t) : t * HandlerResult :=
  match identify packet s with
  | None => (s, mkResult false None)
  | Some (i, secret, plaintext) =>
      match clients s !! i, index plaintext 4 with
      | Some c, Ok req_type =>
          let timestamp := from_le (slice_to plaintext 4) in
          let req_data := slice_from plaintext 5 in
          if timestamp <=? _get_last_req_ts c then (s, mkResult true None)
          else
            let s := emit (match request_handlers req_type with
                           | Some _ => [HandlerCalled i timestamp req_type req_data]
                           | None => []
                           end) s in
            match _handle_request c timestamp req_type req_data with
            | Ok (Some response_data) =>
                let s := _advance_client_watermark now i timestamp s in
                (s, mkResult true
                      match clients s !! i with
                      | Some c => _build_response urandom4 packet c response_data secret s
                      | None => None
                      end)
            | _ => (s, mkResult true None)
            end
      | _, _ => (s, mkResult true None)
      end
  end.

End handler.
End ProtocolRequestHandler.

Import ProtocolRequestHandler.

(** ** Lemmas: the requester *)

Section requester.
Context `{C : BlockCipher} {L : BlockCipherLaws C} `{K : PacketBuilder.KeyExchange} {T : Type} `{Clock T}.
Context (path_updated : option (bytes → Z → bytes → res unit))
  (waiter_run : nat → ProtocolResponseHandler.parsed → res unit) (isprintable : pystr → bool).

Import ProtocolResponseHandler.

Lemma parse_total data : ∃ pd, _parse_protocol_response isprintable data = Ok pd.
Proof.
  unfold _parse_protocol_response.
  assert (∃ code, (if len data =? 13 then index data 4 else Ok 0xFF) = Ok code) as [code ->].
  { destruct (len data =? 13) eqn:E; [|by eexists]. bool_hyps. apply index_in_range. lia. }
  cbn [mbind res_bind]. destruct (_ && _); [by eexists|]. cbv zeta.
  destruct (if len data >=? 8 then _ else _) as [[[ts sensors] raw]|]; [by eexists|].
  destruct (if len data >=? 56 then _ else _) as [[st raw]|]; [by eexists|].
  destruct (if len data >? 4 then _ else _) as [s|]; [|by eexists]. destruct (_ && _); by eexists.
Qed.

(** A waiting request: whom it was sent to, and that only this contact
    authenticates what comes back. *)
Record awaits (s : t T) (r : Packet.t) (idA idB : PacketBuilder.LocalIdentity) (secret : bytes) (tag : Z) (cb : nat)
    : Prop := {
  aw_id : _local_identity s = idA;
  aw_wf : store_wf (_contact_book s);
  aw_known : is_Some (ContactStore.get_by_key (PacketBuilder.get_public_key idB) (_contact_book s));
  aw_only : ∀ src, index (PacketBuilder.get_public_key idB) 0 = Ok src →
    only_peer src (PacketBuilder.get_private_key idA) (slice_from (payload r) 2) (PacketBuilder.get_public_key idB)
      (_contact_book s);
  aw_waiter : dget (PacketBuilder.get_public_key idB, tag) (_response_waiters s) = Some cb
}.

(** What an answer decrypts to at the requester. *)
Lemma answer_decrypted idA idB pkB secret data r s tag cb u4 sf now :
  peers idA idB pkB secret → answers idA idB secret data r → data ≠ [] → awaits s r idA idB secret tag cb →
  is_ok (float_of_int (_rssi r)) = true →
  match path_updated with Some f => ∀ k l p, f k l p = Ok tt | None => True end →
  ∃ src n pd raw s1, index (PacketBuilder.get_public_key idB) 0 = Ok src
    ∧ _parse_protocol_response isprintable (data ++ zeros n) = Ok pd
    ∧ _decrypt_protocol_response path_updated isprintable u4 sf now r src s
      = (s1, Ok (Some (mkDecrypted (Ok pd) raw (PacketBuilder.get_public_key idB) (Some (data ++ zeros n))))).
Proof.
  intros HP (dest & src & Hd & Hs & cipher & d & n & Hpay & Hcl & Hpl & Hty & Hdec) Hne [Hid Hwf [c Hg] Honly Hw] Hf Hcb.
  destruct HP as [HoA HoB HlA HlB _ HsA _ _]. destruct (parse_total (data ++ zeros n)) as [pd Hpd].
  exists src, n, pd. specialize (Honly src Hs).
  assert (slice_from (payload r) 2 = cipher) as Hsl by (rewrite Hpay; by apply (slice_from_app_exact [dest; src])).
  rewrite Hsl in Honly. assert (∃ pk, PacketBuilder.get_public_key idB = src :: pk) as [pk Hkey].
  { destruct (PacketBuilder.get_public_key idB) as [|x pk]; [done|]. injection Hs as ->. by eexists. }
  assert (∀ b, usable b (d ++ zeros n) = true →
    first_usable b src (PacketBuilder.get_private_key (_local_identity s)) cipher (_contacts_by_hash src s)
    = Some (PacketBuilder.get_public_key idB, secret, d ++ zeros n)) as Hfirst.
  { intros b Hus. unfold _contacts_by_hash. rewrite Hid.
    by apply (peer_decrypts b _ _ c src pk _ secret cipher (d ++ zeros n) Hwf Hg Hkey HoB HlB HsA Hdec Hus Honly). }
  unfold _decrypt_protocol_response, get_payload. rewrite Hpl, slice_to_all, Hsl, Hpay, !len_cons.
  replace (1 + (1 + len cipher) <? 2 + 4) with false by lia.
  replace (len cipher <? CIPHER_MAC_SIZE + (CIPHER_BLOCK_SIZE - 1)) with false
    by (unfold CIPHER_MAC_SIZE, CIPHER_BLOCK_SIZE; lia).
  py_run. destruct Hty as [[Hty ->] | [Hty (l & p & Hv & Hl & ->)]]; rewrite Hty.
  - change (PAYLOAD_TYPE_RESPONSE =? PAYLOAD_TYPE_PATH) with false.
    change (PAYLOAD_TYPE_RESPONSE =? PAYLOAD_TYPE_RESPONSE) with true. rewrite (Hfirst false eq_refl). cbn iota.
    unfold on_teacher. destruct (reply_total sf now r (PacketBuilder.get_public_key idB) src (Some secret)
      (return_path_teacher s) Hf) as (t1 & b & ->); [by rewrite Hty|].
    eexists _, _. split_and!; [done|done|]. cbn. by rewrite Hpd.
  - change (PAYLOAD_TYPE_PATH =? PAYLOAD_TYPE_PATH) with true.
    destruct (carried_path l p data n Hv Hl) as (H0 & H1 & Hp & Hin & Hlen & Hk).
    assert (0 < len data) by (destruct data; [done|]; rewrite len_cons; pose proof (len_nonneg data); lia).
    pose proof (len_nonneg (zeros n)). rewrite (len_app data) in Hlen.
    assert (usable true ((l :: p ++ PAYLOAD_TYPE_RESPONSE :: data) ++ zeros n) = true) as Hus.
    { unfold usable. cbn [app] in *. rewrite Hv. replace (len _ <? _) with false by lia. done. }
    rewrite (Hfirst true Hus). cbn iota. rewrite H0. cbn iota beta.
    assert (path_response ((l :: p ++ PAYLOAD_TYPE_RESPONSE :: data) ++ zeros n) = Ok (Some (data ++ zeros n))) as ->.
    { unfold path_response. rewrite H0. cbn [mbind res_bind]. rewrite H1. cbn [mbind res_bind].
      change (Z.land PAYLOAD_TYPE_RESPONSE 0x0F =? PAYLOAD_TYPE_RESPONSE) with true.
      replace (len _ >? _) with true by lia. by rewrite Hin. }
    cbn iota beta. destruct (_update_contact_path _ _ _ s) as [s1 upd].
    destruct (if upd then path_updated else None) as [f|] eqn:Ef; cbn iota beta.
    + assert (∀ k l p, f k l p = Ok tt) as Hok by (destruct upd; [|done]; rewrite Ef in Hcb; exact Hcb).
      rewrite Hok. cbn iota. destruct (is_route_flood r); eexists _, _; (split_and!; [done|done|cbn; by rewrite Hpd]).
    + destruct (is_route_flood r); eexists _, _; (split_and!; [done|done|cbn; by rewrite Hpd]).
Qed.

(** The answer to a request calls its waiter, once, and removes it. *)
Lemma answer_delivered idA idB pkB secret tag body r s cb u4 sf now :
  peers idA idB pkB secret → answers idA idB secret (le_bytes 4 tag ++ body) r → 0 ≤ tag < 256 ^ 4 →
  awaits s r idA idB secret tag cb → is_ok (float_of_int (_rssi r)) = true →
  match path_updated with Some f => ∀ k l p, f k l p = Ok tt | None => True end →
  ∃ s' n pd l, call path_updated waiter_run isprintable u4 sf now r s = (s', true)
    ∧ _parse_protocol_response isprintable (le_bytes 4 tag ++ body ++ zeros n) = Ok pd
    ∧ log s' = l ++ [WaiterCalled cb pd] ∧ calls cb l = calls cb (log s)
    ∧ _response_waiters s' = ddel (PacketBuilder.get_public_key idB, tag) (_response_waiters s).
Proof.
  intros HP Ha Ht Haw Hf Hcb.
  destruct (answer_decrypted idA idB pkB secret _ r s tag cb u4 sf now HP Ha ltac:(done) Haw Hf Hcb)
    as (src & n & pd & raw & s1 & Hs & Hpd & Hdec).
  pose proof (decrypt_view path_updated isprintable cb u4 sf now r src s) as Hview. rewrite Hdec in Hview.
  injection Hview as Hwait Hcalls. cbn in Hwait, Hcalls.
  destruct Ha as (dest & src' & Hd & Hs' & cipher & d & n' & Hpay & Hcl & _).
  rewrite Hs in Hs'. injection Hs' as <-. destruct Haw as [Hid _ _ _ Hw]. rewrite <- app_assoc in Hpd.
  unfold call. rewrite Hpay, !len_cons. replace (1 + (1 + len cipher) <? 4) with false by lia.
  change (index (dest :: src :: cipher) 0) with (@Ok Z dest). change (index (dest :: src :: cipher) 1) with (@Ok Z src).
  rewrite Hid, Hd. cbn [mbind res_bind mret res_ret]. rewrite Z.eqb_refl. cbn [negb]. rewrite Hdec. cbn iota beta.
  exists (deliver waiter_run r (mkDecrypted (Ok pd) raw (PacketBuilder.get_public_key idB)
    (Some ((le_bytes 4 tag ++ body) ++ zeros n))) s1).1, n, pd, (log s1).
  split; [done|]. split; [done|]. unfold deliver. cbn [d_parsed d_payload d_contact]. rewrite <- !app_assoc.
  assert (negb (len (le_bytes 4 tag ++ body ++ zeros n) >=? 4) = false) as ->.
  { rewrite len_app, len_le_bytes. pose proof (len_nonneg (body ++ zeros n)). apply negb_false_iff, Z.geb_le. lia. }
  py_run. rewrite slice_to_app_exact by (by rewrite len_le_bytes). rewrite from_le_le_bytes by done.
  rewrite Hwait, Hw. cbn. by split.
Qed.
End requester.

(** ** Lemmas: the server *)

Section server_lemmas.
Context `{C : BlockCipher} {L : BlockCipherLaws C} `{K : PacketBuilder.KeyExchange}.
Context (identity_ok : bytes → bool) (get_clients_fn : option (Z → list nat)) (get_client_fn : option (Z → option nat))
  (request_handlers : Z → option (client → Z → bytes → res (option bytes))).

(** A candidate the search passes over. *)
Definition passed_over (enc : bytes) (s : t) (i : nat) : Prop := first_client enc [i] s = Ok None.

Lemma first_client_found enc s l1 i l2 c secret pt :
  Forall (passed_over enc s) l1 → clients s !! i = Some c → _get_shared_secret c s = Ok (Some secret) → secret ≠ [] →
  CryptoUtils.mac_then_decrypt (slice_to secret 16) secret enc = Ok pt →
  first_client enc (l1 ++ i :: l2) s = Ok (Some (i, secret, pt)).
Proof.
  intros Hl1 Hc Hss Hne Hd. induction Hl1 as [|j l1 Hj _ IH]; cbn.
  - rewrite Hc, Hss. cbn [mbind res_bind]. destruct secret; [done|]. by rewrite Hd.
  - unfold passed_over in Hj. cbn in Hj. destruct (clients s !! j) as [cj|]; [|done].
    destruct (_get_shared_secret cj s) as [[[|x ss]|]|]; cbn [mbind res_bind] in *; try done.
    by destruct (CryptoUtils.mac_then_decrypt _ _ enc).
Qed.

Lemma request_packet_inv c id code data ts rt p :
  PacketBuilder.protocol_request_packet c id code data ts rt = Ok p →
  ∃ pub secret dest src cipher,
    fromhex (PacketBuilder.public_key c) = Ok pub
    ∧ PacketBuilder.peer_shared_secret pub (PacketBuilder.get_private_key id) = Ok secret
    ∧ index pub 0 = Ok dest ∧ index (PacketBuilder.get_public_key id) 0 = Ok src ∧ payload p = dest :: src :: cipher
    ∧ 0 ≤ ts < 256 ^ 4
    ∧ CryptoUtils.encrypt_then_mac (slice_to secret 16) secret (le_bytes 4 ts ++ [code] ++ data) = Ok cipher.
Proof.
  unfold PacketBuilder.protocol_request_packet. intros H. apply res_bind_ok in H as (pt & Hpt & H).
  apply res_bind_ok in H as (body & Hb & H). apply res_bind_ok in H as (pkt & Hpkt & H).
  apply PacketBuilder.create_packet_built in Hpkt as [-> _].
  apply encrypted_payload_inv in Hb as (pub & secret & d & s & cipher & Hpub & Hsec & Hc & -> & _ & _ & Hd & Hs).
  apply pack_timestamp_inv in Hpt as (Hts & q & Hq & ->). parts_inv. rewrite app_nil_r in Hc.
  exists pub, secret, d, s, cipher. do 4 (split; [done|]). split; [|split; [done|exact Hc]].
  destruct (_ && _) in H; [|by injection H as <-]. destruct (PacketBuilder.stored_path _ _) as [pb el].
  by apply set_path_payload in H.
Qed.

(** The response to a client that answers go to. *)
Lemma response_built u4 idA s pkB c secret data q :
  peers idA (local_identity s) pkB secret → wire_wf q → region_key_ok q →
  client_key identity_ok c = Ok (PacketBuilder.get_public_key idA) → data ≠ [] → len data ≤ 97 →
  ∃ r, _build_response identity_ok u4 q c data secret s = Some r ∧ answers idA (local_identity s) secret data r.
Proof.
  intros HP Hw Hk Hck Hne Hl. unfold _build_response. rewrite Hck. cbn [mbind res_bind].
  destruct (request_path_return u4 idA (local_identity s) pkB secret data q HP Hw Hne Hl)
    as (dest & src & p & Hd & Hs & Hp & Hc & Hty).
  rewrite Hd, Hs. cbn [mbind res_bind].
  destruct (is_route_flood q).
  - rewrite (wf_path_valid q Hw).
    assert ((if negb (PathUtils.get_path_byte_len (path_len q) =? 0)
             then slice_to (path q) (PathUtils.get_path_byte_len (path_len q)) else []) = path q) as ->.
    { change (PathUtils.get_path_byte_len (path_len q)) with (get_path_byte_len q). rewrite <- (wf_path q Hw).
      destruct (len (path q) =? 0) eqn:E; cbn [negb]; [|apply slice_to_all].
      apply Z.eqb_eq, len_zero_iff in E. by rewrite E. }
    rewrite Hp. cbn [mbind res_bind].
    destruct (finished_answers idA (local_identity s) secret data q p Hw Hk) as (r & Hr & Ha); [by exists dest, src|].
    cbv zeta. rewrite Hr. by exists r.
  - destruct (direct_route c) as [[pb pl]|].
    + destruct (response_datagram idA (local_identity s) pkB secret data "direct" HP Hne ltac:(lia)) as (p1 & -> & Ha).
      cbn [mbind res_bind]. eexists. split; [reflexivity|]. destruct Ha as (d & x & Hd1 & Hx & Hc1).
      exists d, x. split_and!; [done|done|]. by eapply carries_same.
    + destruct (response_datagram idA (local_identity s) pkB secret data "flood" HP Hne ltac:(lia)) as (p1 & -> & Ha).
      cbn [mbind res_bind]. destruct (finished_answers idA (local_identity s) secret data q p1 Hw Hk Ha) as (r & Hr & Hra).
      cbv zeta. rewrite Hr. by exists r.
Qed.

(** The server's clients: [i] is the requester, whom the search finds. *)
Record knows (s : t) (q : Packet.t) (idA : PacketBuilder.LocalIdentity) (secret : bytes) (i : nat) (c : client)
    (l1 l2 : list nat) : Prop := {
  kn_client : clients s !! i = Some c;
  kn_key : client_key identity_ok c = Ok (PacketBuilder.get_public_key idA);
  kn_secret : _get_shared_secret c s = Ok (Some secret);
  kn_set : secret ≠ [];
  kn_found : ∀ src, index (PacketBuilder.get_public_key idA) 0 = Ok src →
    _get_clients get_clients_fn get_client_fn src s = Ok (l1 ++ i :: l2);
  kn_first : Forall (passed_over (slice_from (payload q) 2) s) l1
}.

(** Whom a request identifies, and what it says. *)
Lemma request_identified cB idA code data ts rt p secret q s i c l1 l2 :
  PacketBuilder.protocol_request_packet cB idA code data ts rt = Ok p →
  peers idA (local_identity s) (PacketBuilder.public_key cB) secret → payload q = payload p →
  knows s q idA secret i c l1 l2 →
  0 ≤ ts < 256 ^ 4 ∧ ∃ n, identify get_clients_fn get_client_fn q s
    = Some (i, secret, le_bytes 4 ts ++ [code] ++ data ++ zeros n).
Proof.
  intros Hp HP Hpay [Hc _ Hss Hset Hfound Hl1].
  destruct (request_packet_inv _ _ _ _ _ _ _ Hp) as (pub & sec & dest & src & cipher & Hpub & Hsec & Hd & Hs & Hpp & Hts & Henc).
  destruct HP as [HoA HoB HlA HlB HpkB HsA HsB Hkey]. rewrite HpkB in Hpub. injection Hpub as <-.
  rewrite HsA in Hsec. injection Hsec as <-.
  destruct (sealed secret _ cipher Henc ltac:(done)) as (Hcl & n & Hdec). split; [done|]. exists n.
  unfold identify. rewrite Hpay, Hpp in *. rewrite !len_cons. replace (1 + (1 + len cipher) <? 2) with false by lia.
  change (index (dest :: src :: cipher) 0) with (@Ok Z dest). change (index (dest :: src :: cipher) 1) with (@Ok Z src).
  assert (slice_from (dest :: src :: cipher) 2 = cipher) as Hsl by (by apply (slice_from_app_exact [dest; src])).
  rewrite Hsl in *. rewrite Hd. cbn [mbind res_bind]. rewrite Z.eqb_refl. cbn [negb]. rewrite (Hfound src Hs). cbn [mbind res_bind].
  rewrite (first_client_found cipher s l1 i l2 c secret ((le_bytes 4 ts ++ [code] ++ data) ++ zeros n) Hl1 Hc Hss);
    [by rewrite <- !app_assoc|done|done].
Qed.

(** The server's side of a request its handler answers. *)
Lemma request_handled cB idA code data ts rt p secret q s i c l1 l2 h body u4 now :
  PacketBuilder.protocol_request_packet cB idA code data ts rt = Ok p →
  peers idA (local_identity s) (PacketBuilder.public_key cB) secret → payload q = payload p → wire_wf q → region_key_ok q →
  knows s q idA secret i c l1 l2 → _get_last_req_ts c < ts →
  request_handlers code = Some h → (∀ n, h c ts (data ++ zeros n) = Ok (Some body)) → len body ≤ 93 →
  ∃ s' r n, call identity_ok get_clients_fn get_client_fn request_handlers u4 now q s = (s', mkResult true (Some r))
    ∧ answers idA (local_identity s) secret (le_bytes 4 ts ++ body) r
    ∧ log s' = log s ++ HandlerCalled i ts code (data ++ zeros n)
                :: (if assignable c then [WatermarkSet i ts] else []).
Proof.
  intros Hp HP Hpay Hw Hreg Hk Hlast Hh Hbody Hlen.
  destruct (request_identified _ _ _ _ _ _ _ _ _ _ _ _ _ _ Hp HP Hpay Hk) as (Hts & n & Hid).
  destruct Hk as [Hc Hck _ _ _ _].
  assert (∀ c' s', local_identity s' = local_identity s → client_key identity_ok c' = client_key identity_ok c →
    ∃ r, _build_response identity_ok u4 q c' (le_bytes 4 ts ++ body) secret s' = Some r
      ∧ answers idA (local_identity s) secret (le_bytes 4 ts ++ body) r) as Hbuild.
  { intros c' s' Hids Hck'. rewrite <- Hids in HP |- *.
    apply (response_built u4 idA s' (PacketBuilder.public_key cB)); try done; [by rewrite Hck'|].
    rewrite len_app, len_le_bytes. lia. }
  unfold call. rewrite Hid, Hc.
  assert (index (le_bytes 4 ts ++ [code] ++ data ++ zeros n) 4 = Ok code) as ->
    by (apply (index_app_exact (le_bytes 4 ts)); by rewrite len_le_bytes).
  rewrite slice_to_app_exact by (by rewrite len_le_bytes). rewrite from_le_le_bytes by done.
  assert (slice_from (le_bytes 4 ts ++ [code] ++ data ++ zeros n) 5 = data ++ zeros n) as ->
    by (rewrite (app_assoc (le_bytes 4 ts)); by apply slice_from_app_exact).
  replace (ts <=? _) with false by lia. rewrite Hh. unfold _handle_request. rewrite Hh, Hbody.
  unfold pack_I. rewrite pack_uint_ok by done. cbn [mbind res_bind mret res_ret].
  unfold _advance_client_watermark. cbn [clients emit]. rewrite Hc. destruct (assignable c).
  - cbn [clients emit with_clients]. rewrite list_lookup_insert_eq by (by eapply lookup_lt_Some).
    match goal with |- context [_build_response _ _ _ ?c' _ _ ?s'] => destruct (Hbuild c' s') as (r & Hr & Ha) end; [done|done|].
    rewrite Hr. eexists _, r, n. split; [reflexivity|]. split; [done|]. cbn. rewrite <- app_assoc. cbn.
    by replace (Z.max _ ts) with ts by lia.
  - cbn [clients emit]. rewrite Hc.
    match goal with |- context [_build_response _ _ _ ?c' _ _ ?s'] => destruct (Hbuild c' s') as (r & Hr & Ha) end; [done|done|].
    rewrite Hr. eexists _, r, n. split; [reflexivity|]. by split.
Qed.
End server_lemmas.

(** ** Replays *)

Section replays.
Context `{C : BlockCipher} `{K : PacketBuilder.KeyExchange}.
Context (identity_ok : bytes → bool) (get_clients_fn : option (Z → list nat)) (get_client_fn : option (Z → option nat))
  (request_handlers : Z → option (client → Z → bytes → res (option bytes))).

Local Abbreviation call := (call identity_ok get_clients_fn get_client_fn request_handlers).

(** The same client with a watermark no lower. *)
Record ages (c c' : client) : Prop := {
  ag_key : public_key c' = public_key c;
  ag_secret : shared_secret c' = shared_secret c;
  ag_assignable : assignable c' = assignable c;
  ag_watermark : _get_last_req_ts c ≤ _get_last_req_ts c'
}.

#[local] Instance ages_preorder : PreOrder ages.
Proof.
  split; [by split|]. intros c1 c2 c3 [? ? ? ?] [? ? ? ?]. split; [congruence..|lia].
Qed.

Record evolves (s s' : t) : Prop := {
  ev_identity : local_identity s' = local_identity s;
  ev_contacts : contacts s' = contacts s;
  ev_clients : Forall2 ages (clients s) (clients s')
}.

#[local] Instance evolves_preorder : PreOrder evolves.
Proof.
  split; [by split|]. intros s1 s2 s3 [? ? ?] [? ? ?]. split; [congruence..|]. by etransitivity.
Qed.

Lemma evolves_lookup s s' i :
  evolves s s' →
  match clients s !! i, clients s' !! i with
  | Some c, Some c' => ages c c'
  | None, None => True
  | _, _ => False
  end.
Proof.
  intros [_ _ Hc]. pose proof (Forall2_length _ _ _ Hc) as Hl.
  destruct (clients s !! i) as [c|] eqn:E, (clients s' !! i) as [c'|] eqn:E'; [|..|done].
  - by eapply Forall2_lookup_lr.
  - apply lookup_lt_Some in E. apply lookup_ge_None in E'. lia.
  - apply lookup_lt_Some in E'. apply lookup_ge_None in E. lia.
Qed.

(** Who sent a packet does not depend on the watermarks. *)
Lemma matching_evolves src l s s' : evolves s s' → matching_contacts src l s' = matching_contacts src l s.
Proof.
  intros He. induction l as [|i l IH]; cbn; [done|]. pose proof (evolves_lookup s s' i He) as Hi. rewrite IH.
  destruct (clients s !! i) as [[? pk ? ? ? ? ? ?]|], (clients s' !! i) as [[? pk' ? ? ? ? ? ?]|]; [|done..].
  destruct Hi as [Hk _ _ _]. cbn in Hk. by subst pk'.
Qed.

Lemma first_client_evolves enc l s s' : evolves s s' → first_client enc l s' = first_client enc l s.
Proof.
  intros He. induction l as [|i l IH]; cbn; [done|]. pose proof (evolves_lookup s s' i He) as Hi. rewrite IH.
  destruct (clients s !! i) as [c|], (clients s' !! i) as [c'|]; [|done..].
  assert (_get_shared_secret c' s' = _get_shared_secret c s) as ->; [|done].
  destruct Hi as [Hk Hs _ _], He as [Hid _ _]. unfold _get_shared_secret. by rewrite Hk, Hs, Hid.
Qed.

Lemma identify_evolves q q' s s' :
  evolves s s' → payload q' = payload q →
  identify get_clients_fn get_client_fn q' s' = identify get_clients_fn get_client_fn q s.
Proof.
  intros He Hp. unfold identify, _get_clients. rewrite Hp, (ev_identity _ _ He), (ev_contacts _ _ He).
  destruct (_ <? 2); [done|]. destruct (index (payload q) 0); [|done]. destruct (index (payload q) 1) as [src|]; [|done].
  cbn [mbind res_bind]. destruct (index _ 0); [|done]. cbn [mbind res_bind]. destruct (negb _); [done|].
  assert (∀ l, first_client (slice_from (payload q) 2) l s' = first_client (slice_from (payload q) 2) l s) as Hf
    by (intros l; by apply first_client_evolves).
  destruct get_clients_fn; cbn [mbind res_bind mret res_ret]; [by rewrite Hf|].
  destruct get_client_fn; cbn [mbind res_bind mret res_ret]; [by rewrite Hf|].
  destruct (contacts s); [|by cbn]. rewrite (matching_evolves src _ s s' He).
  destruct (matching_contacts _ _ _); [|done]. cbn [mbind res_bind]. by rewrite Hf.
Qed.

Lemma advance_evolves now i ts s : evolves s (_advance_client_watermark now i ts s).
Proof.
  unfold _advance_client_watermark. destruct (clients s !! i) as [c|] eqn:Hc; [|done].
  destruct (assignable c); [|done]. split; [done..|]. cbn [clients emit with_clients].
  rewrite <- (list_insert_id (clients s) i c Hc) at 1. apply Forall2_insert; [done|]. split; [done..|].
  unfold watermarked, _get_last_req_ts. cbn. lia.
Qed.

Lemma call_evolves u4 now q s : evolves s (call u4 now q s).1.
Proof.
  unfold ProtocolRequestHandler.call. destruct (identify _ _ _ _) as [[[i ss] pt]|]; [|done].
  destruct (clients s !! i) as [c|]; [|done]. destruct (index pt 4) as [ty|]; [|done]. cbv zeta.
  destruct (_ <=? _); [done|]. destruct (_handle_request _ _ _ _ _) as [[d|]|]; [|done..].
  etransitivity; [|apply advance_evolves]. done.
Qed.

(** A run of packets, each with the entropy and the time of its handling. *)
Definition run (l : list (bytes * Z * Packet.t)) (s : t) : t :=
  fold_left (fun s x => (call x.1.1 x.1.2 x.2 s).1) l s.

Lemma run_evolves l s : evolves s (run l s).
Proof.
  revert s. induction l as [|x l IH]; intros s; [done|]. cbn. etransitivity; [apply call_evolves|apply IH].
Qed.

(** C14: an answered request is never served again. Once a request of a client
    has been answered, the same payload, by whatever route it comes back and
    whatever requests were handled in between, is consumed without an answer,
    without calling a request handler and without changing the state. *)
Theorem replay_ignored u4 now q s s1 r l u4' now' q' :
  Forall (λ c, assignable c = true) (clients s) →
  call u4 now q s = (s1, r) → response r ≠ None → payload q' = payload q →
  call u4' now' q' (run l s1) = (run l s1, mkResult true None).
Proof.
  intros Hassign Hcall Hr Hpay. set (s2 := run l s1).
  assert (evolves s s1) as He1 by (pose proof (call_evolves u4 now q s) as He; by rewrite Hcall in He).
  assert (evolves s1 s2) as He2 by apply run_evolves. clearbody s2.
  unfold ProtocolRequestHandler.call in Hcall |- *.
  rewrite (identify_evolves q q' s s2) by (done || by etransitivity).
  destruct (identify _ _ q s) as [[[i ss] pt]|]; [|injection Hcall as _ <-; done].
  destruct (clients s !! i) as [c|] eqn:Hc; [|injection Hcall as _ <-; done].
  destruct (index pt 4) as [ty|]; [|injection Hcall as _ <-; done]. cbv zeta in Hcall |- *.
  set (ts := from_le (slice_to pt 4)) in *. destruct (ts <=? _get_last_req_ts c); [injection Hcall as _ <-; done|].
  assert (ts ≤ match clients s1 !! i with Some c1 => _get_last_req_ts c1 | None => ts end) as Hts.
  { destruct (_handle_request _ _ _ _ _) as [[d|]|]; injection Hcall as <- <-; [|done..].
    unfold _advance_client_watermark. cbn [clients emit]. rewrite Hc.
    assert (assignable c = true) as -> by (rewrite list.Forall_forall in Hassign; eapply Hassign, list_elem_of_lookup_2; exact Hc).
    cbn [clients emit with_clients]. rewrite list_lookup_insert_eq by (by eapply lookup_lt_Some).
    unfold watermarked, _get_last_req_ts. cbn. lia. }
  pose proof (evolves_lookup s s1 i He1) as H1. rewrite Hc in H1. destruct (clients s1 !! i) as [c1|] eqn:Hc1; [|done].
  pose proof (evolves_lookup s1 s2 i He2) as H2. rewrite Hc1 in H2. destruct (clients s2 !! i) as [c2|]; [|done].
  pose proof (ag_watermark _ _ H2). by replace (ts <=? _get_last_req_ts c2) with true by lia.
Qed.
End replays.

(** ** A request and its answer *)

Section answered.
Context `{C : BlockCipher} {L : BlockCipherLaws C} `{K : PacketBuilder.KeyExchange} {T : Type} `{Clock T}.
Context (identity_ok : bytes → bool) (get_clients_fn : option (Z → list nat)) (get_client_fn : option (Z → option nat))
  (request_handlers : Z → option (client → Z → bytes → res (option bytes))).
Context (path_updated : option (bytes → Z → bytes → res unit))
  (waiter_run : nat → ProtocolResponseHandler.parsed → res unit) (isprintable : pystr → bool).

(** C6: a request is answered. A request built for a node that finds the sender
    among its clients (no client tried before it authenticates the packet), newer
    than the client's last one and however it was routed, reaches the node's
    handler of that type with its data (and the zero padding of the cipher). If
    the handler returns a body of at most 93 bytes, which is what is sure to fit
    one packet beside the longest path (a reply that does not fit is dropped), it
    is sent back; and however it is forwarded, the requester parses exactly the
    tag and that body, calls the waiter registered for the tag and forgets it.
    That is so when the requester has the node in its book, no other contact of
    the book with that first key byte authenticates the reply, the reply's signal
    strength is a number and the application's callback for a changed path, if
    one is set, does not raise (it runs before the waiter, which an exception
    there would leave uncalled). *)
Theorem request_answered cB idA code data ts rt p secret q u4 now s i c l1 l2 h body :
  PacketBuilder.protocol_request_packet cB idA code data ts rt = Ok p →
  let idB := local_identity s in
  peers idA idB (PacketBuilder.public_key cB) secret → payload q = payload p → wire_wf q → region_key_ok q →
  knows identity_ok get_clients_fn get_client_fn s q idA secret i c l1 l2 → _get_last_req_ts c < ts →
  request_handlers code = Some h → (∀ n, h c ts (data ++ zeros n) = Ok (Some body)) → len body ≤ 93 →
  match path_updated with Some f => ∀ k l p, f k l p = Ok tt | None => True end →
  ∃ s' r n,
    call identity_ok get_clients_fn get_client_fn request_handlers u4 now q s = (s', mkResult true (Some r))
    ∧ log s' = log s ++ HandlerCalled i ts code (data ++ zeros n) :: (if assignable c then [WatermarkSet i ts] else [])
    ∧ ∀ r' u sf at_ (w : ProtocolResponseHandler.t T) cb,
        payload r' = payload r → payload_len r' = payload_len r → get_payload_type r' = get_payload_type r →
        is_ok (float_of_int (_rssi r')) = true → awaits w r' idA idB secret ts cb →
        ∃ w' m pd log',
          ProtocolResponseHandler.call path_updated waiter_run isprintable u sf at_ r' w = (w', true)
          ∧ ProtocolResponseHandler._parse_protocol_response isprintable (le_bytes 4 ts ++ body ++ zeros m) = Ok pd
          ∧ ProtocolResponseHandler.log w' = log' ++ [ProtocolResponseHandler.WaiterCalled cb pd]
          ∧ calls cb log' = calls cb (ProtocolResponseHandler.log w)
          ∧ ProtocolResponseHandler._response_waiters w'
            = ddel (PacketBuilder.get_public_key idB, ts) (ProtocolResponseHandler._response_waiters w).
Proof.
  intros Hp idB HP Hpay Hw Hreg Hk Hlast Hh Hbody Hlen Hcb.
  destruct (request_handled identity_ok get_clients_fn get_client_fn request_handlers cB idA code data ts rt p secret q s i c
    l1 l2 h body u4 now) as (s' & r & n & Hcall & Ha & Hlog); try done.
  exists s', r, n. split; [exact Hcall|]. split; [exact Hlog|].
  intros r' u sf at_ w cb Hpr Hplr Htr Hf Haw.
  destruct (request_identified identity_ok get_clients_fn get_client_fn cB idA code data ts rt p secret q s i c l1 l2) as [Hts _];
    try done.
  apply (answer_delivered path_updated waiter_run isprintable idA idB (PacketBuilder.public_key cB) secret ts body r' w cb u sf at_);
    try done.
  destruct Ha as (dest & src & Hd & Hs & Hc). exists dest, src. split_and!; [done|done|]. by eapply carries_same.
Qed.
End answered.

(** ** Instances *)

#[local] Existing Instances xor_cipher xor_cipher_laws PacketBuilder.xor_exchange.

Import PacketBuilder.

(** Alice asks Bob for his telemetry, *)
Definition sent_request : Packet.t :=
  match protocol_request_packet bob_contact alice REQ_TYPE_GET_TELEMETRY_DATA [0] 1000 None with
  | Ok p => p
  | Err _ => Packet.init
  end.

(** flooding over two repeaters; *)
Definition heard_request : Packet.t := with_header 1 (with_path [5; 6] (with_path_len 2 sent_request)).

(** Bob's clients are Alice and one with the same first key byte, *)
Definition client_of (key secret : bytes) (last : Z) : client :=
  mkClient None (Some (KeyBytes key)) (Some secret) (Some (-1)) (Some []) (Some last) None true.

Definition bob_requests : ProtocolRequestHandler.t :=
  mk bob None [client_of (17 :: replicate 31 9) (replicate 32 9) 0;
               client_of alice_key (zip_with Z.lxor bob_key alice_key) 999] [].

(** and his battery is at 4.0 volts. *)
Definition bob_handlers (req_type : Z) : option (client → Z → bytes → res (option bytes)) :=
  if req_type =? REQ_TYPE_GET_TELEMETRY_DATA then Some (λ _ _ _, Ok (Some [0x01; 0x74; 0x01; 0x90])) else None.

(** Alice waits for the answer to the tag 1000. *)
Definition known_bob : Models.Contact :=
  Models.mkContact bob_key [66] CONTACT_TYPE_CHAT_NODE 0 (-1) [] 7 50 f_zero f_zero 0 None.

Definition alice_waits : ProtocolResponseHandler.t Z :=
  ProtocolResponseHandler.set_response_callback bob_key 1000 7
    (ProtocolResponseHandler.mk
       (ReturnPathTeacher.init alice (ContactStore.put known_bob (ContactStore.init 8)) 5 8) [] false [] []).

Definition bob_call := call (λ _, true) (Some (λ _, [0%nat; 1%nat])) None bob_handlers.

(** What Bob sends back. *)
Definition bob_response : Packet.t := default Packet.init (response (bob_call [] 0 heard_request bob_requests).2).

Lemma request_answered_witness :
  ∃ w' pd log', ProtocolResponseHandler.call None (λ _ _, Ok tt) (λ _, true) [] None 50 bob_response alice_waits = (w', true)
    ∧ ProtocolResponseHandler.log w' = log' ++ [ProtocolResponseHandler.WaiterCalled 7 pd]
    ∧ ProtocolResponseHandler._response_waiters w' = [].
Proof.
  destruct (request_answered (T := Z) (λ _, true) (Some (λ _, [0%nat; 1%nat])) None bob_handlers None (λ _ _, Ok tt) (λ _, true)
    bob_contact alice REQ_TYPE_GET_TELEMETRY_DATA [0] 1000 None sent_request (zip_with Z.lxor bob_key alice_key) heard_request
    [] 0 bob_requests 1%nat (client_of alice_key (zip_with Z.lxor bob_key alice_key) 999) [0%nat] []
    (λ _ _ _, Ok (Some [0x01; 0x74; 0x01; 0x90])) [0x01; 0x74; 0x01; 0x90]) as (s' & r & n & Hcall & _ & Hw).
  - vm_compute. reflexivity.
  - split; first [reflexivity | decide_now].
  - reflexivity.
  - split; first [reflexivity | decide_now].
  - intros k Hk. discriminate Hk.
  - split.
    + reflexivity.
    + reflexivity.
    + reflexivity.
    + discriminate.
    + intros src _. reflexivity.
    + constructor; [vm_compute; reflexivity|constructor].
  - reflexivity.
  - reflexivity.
  - intros m. reflexivity.
  - decide_now.
  - exact I.
  - assert (r = bob_response) as -> by (unfold bob_response, bob_call; rewrite Hcall; reflexivity).
    destruct (Hw bob_response [] None 50 alice_waits 7%nat) as (w' & m & pd & log' & H1 & _ & H3 & _ & H5).
    + reflexivity.
    + reflexivity.
    + reflexivity.
    + reflexivity.
    + split.
      * reflexivity.
      * apply put_wf, empty_wf.
      * exists known_bob. reflexivity.
      * intros src Hsrc k c Hk Hne. exfalso. apply Hne. revert Hk. cbn. case_decide as E; [intros _; exact E|discriminate].
      * reflexivity.
    + exists w', pd, log'. split; [exact H1|]. split; [exact H3|]. rewrite H5. reflexivity.
Defined.

(** The same request again, now direct, after another flooded copy. *)
Lemma replay_ignored_witness :
  let s1 := (bob_call [] 0 heard_request bob_requests).1 in
  let s2 := run (λ _, true) (Some (λ _, [0%nat; 1%nat])) None bob_handlers [([], 5, heard_request)] s1 in
  bob_call [] 9 sent_request s2 = (s2, mkResult true None)
  ∧ is_Some (response (bob_call [] 0 heard_request bob_requests).2).
Proof.
  assert (is_ok (match response (bob_call [] 0 heard_request bob_requests).2 with Some _ => Ok tt | None => Err UnicodeError end)
          = true) as Hok by (vm_compute; reflexivity).
  split.
  - apply (replay_ignored (λ _, true) (Some (λ _, [0%nat; 1%nat])) None bob_handlers [] 0 heard_request bob_requests _
      (bob_call [] 0 heard_request bob_requests).2).
    + repeat constructor.
    + apply surjective_pairing.
    + intros E. rewrite E in Hok. discriminate Hok.
    + reflexivity.
  - destruct (response _); [by eexists|discriminate Hok].
Defined.
