(* ===== verification/NodeHandlers.v ===== *)
(** * Control, trace and path handlers ([node/handlers/control.py], [trace.py],
    [path.py], [hardware/signal_utils.py])

    [ControlHandler] parses discovery requests and responses, [TraceHandler]
    parses traces and tells when one has reached its end, [PathHandler] runs the
    handlers a PATH may concern. Callbacks are numbers; a call is an entry of
    [log] (oldest first), and may raise. *)

From S2P Require Import Prelude PyData Sha256 Utf8 PyFloat ODict Constants PacketUtils Packet TransportKeys RegionMap Crypto PacketFilter Forward Acks PacketBuilder Messages Stores Contacts TextHandler Telemetry ReturnPath Replies ProtocolResponse Login.

Import Packet.

(** [hardware/signal_utils.py]; a missing register is [None]. *)
Definition snr_register_to_db (raw_value : option Z) (bits : Z) : res float :=
  match raw_value with
  | None => Ok f_zero
  | Some raw =>
      if (bits <=? 0) || (bits >? 32) then Err (ValueError "bits must be between 1 and 32")
      else
        let max_value := Z.shiftl 1 bits in
        let value := Z.land raw (max_value - 1) in
        let sign_bit := Z.shiftl 1 (bits - 1) in
        let value := if value >=? sign_bit then value - max_value else value in
        fdiv (f_of_Z value) (f_of_Z 4)
  end.

(** ** Control packets *)
Module ControlHandler.

Definition CTL_TYPE_NODE_DISCOVER_REQ : Z := 0x80.
Definition CTL_TYPE_NODE_DISCOVER_RESP : Z := 0x90.

Inductive control_data : Type :=
| DiscoveryRequest (tag filter since : Z) (prefix_only : bool) (snr : float) (rssi : Z) (timestamp : float)
| DiscoveryResponse (tag node_type : Z) (inbound_snr response_snr : float) (rssi : Z) (pub_key : bytes)
    (timestamp : float).

Record t := mk {
  _response_callbacks : list (Z * nat);
  _request_callbacks : list (Z * nat);
  log : list (nat * control_data)
}.

Definition with_response_callbacks (d : list (Z * nat)) (s : t) : t := mk d (_request_callbacks s) (log s).
Definition with_request_callbacks (d : list (Z * nat)) (s : t) : t := mk (_response_callbacks s) d (log s).
Definition called (cb : nat) (d : control_data) (s : t) : t :=
  mk (_response_callbacks s) (_request_callbacks s) (log s ++ [(cb, d)]).

Definition set_response_callback (tag : Z) (callback : nat) (s : t) : t :=
  with_response_callbacks (dset tag callback (_response_callbacks s)) s.
Definition clear_response_callback (tag : Z) (s : t) : t :=
  with_response_callbacks (ddel tag (_response_callbacks s)) s.
Definition set_request_callback (callback : nat) (s : t) : t :=
  with_request_callbacks (dset 0 callback (_request_callbacks s)) s.
Definition clear_request_callback (s : t) : t :=
  with_request_callbacks (ddel 0 (_request_callbacks s)) s.

Section handler.
Context (callback_run : nat → control_data → res unit).

(** The callback, if any, then the data; an error gives no data. *)
Definition report (cb : option nat) (d : control_data) : py t (option control_data) :=
  match cb with
  | Some cb => modify (called cb d);; lift (callback_run cb d);; mret (Some d)
  | None => mret (Some d)
  end.

Definition _handle_discovery_request (now : float) (pkt : Packet.t) : py t (option control_data) :=
  let p := payload pkt in
  if len p <? 6 then mret None
  else
    flags_byte ← lift (index p 0);
    filter_byte ← lift (index p 1);
    let tag := from_le (slice p 2 6) in
    let since := if len p >=? 10 then from_le (slice p 6 10) else 0 in
    s ← get;
    report (dget 0 (_request_callbacks s))
      (DiscoveryRequest tag filter_byte since (negb (Z.land flags_byte 0x01 =? 0)) (_snr pkt) (_rssi pkt) now).

Definition _handle_discovery_response (now : float) (pkt : Packet.t) : py t (option control_data) :=
  let p := payload pkt in
  if len p <? 6 then mret None
  else
    type_byte ← lift (index p 0);
    snr_byte ← lift (index p 1);
    inbound_snr ← lift (snr_register_to_db (Some snr_byte) 8);
    let tag := from_le (slice p 2 6) in
    s ← get;
    report (dget tag (_response_callbacks s))
      (DiscoveryResponse tag (Z.land type_byte 0x0F) inbound_snr (_snr pkt) (_rssi pkt) (slice_from p 6) now).

(** Errors are logged: no data. *)
Definition guarded (m : py t (option control_data)) (s : t) : t * option control_data :=
  match m s with
  | (s, Ok d) => (s, d)
  | (s, Err _) => (s, None)
  end.

(** [__call__] *)
Definition call (now : float) (pkt : Packet.t) (s : t) : t * option control_data :=
  match payload pkt with
  | [] => (s, None)
  | b :: _ =>
      if negb (is_route_direct pkt) then (s, None)
      else if Z.land b 0x80 =? 0 then (s, None)
      else if negb (get_path_hash_count pkt =? 0) then (s, None)
      else
        let control_type := Z.land b 0xF0 in
        if control_type =? CTL_TYPE_NODE_DISCOVER_REQ then guarded (_handle_discovery_request now pkt) s
        else if control_type =? CTL_TYPE_NODE_DISCOVER_RESP then guarded (_handle_discovery_response now pkt) s
        else (s, None)
  end.

End handler.
End ControlHandler.

(** ** Traces *)
Module TraceHandler.

(** The fields of a trace; the hexadecimal copy of the payload and the number
    of hops are left out. *)
Record trace := mkTrace {
  tag : Z;
  auth_code : Z;
  flags : Z;
  trace_path_bytes : bytes;
  path_hash_width : Z;
  trace_hops : list bytes;
  trace_path : list Z;
  trace_path_remainder : Z
}.

(** [None] is a payload that does not parse; the signal is the packet's. *)
Definition parsed : Type := option trace * float * Z.

(** The range loop: whole hops of [width] bytes. *)
Fixpoint hops_fuel (fuel : nat) (width : Z) (b : bytes) : list bytes :=
  match fuel with
  | O => []
  | S fuel => if len b <? width then [] else slice_to b width :: hops_fuel fuel width (slice_from b width)
  end.

Definition split_hops (width : Z) (b : bytes) : list bytes := hops_fuel (length b) width b.

Definition _parse_trace_payload (p : bytes) : option trace :=
  if len p <? 9 then None
  else
    match index p 8 with
    | Err _ => None
    | Ok fl =>
        let path_bytes := slice_from p 9 in
        let width := PathUtils.trace_payload_hash_width fl in
        let hops := split_hops width path_bytes in
        Some (mkTrace (from_le (slice_to p 4)) (from_le (slice p 4 8)) fl path_bytes width hops
                (map (λ h, match h with x :: _ => x | [] => 0 end) hops) (len path_bytes mod width))
    end.

Inductive output : Type :=
| CallbackCalled (callback : nat) (d : parsed)
| TraceComplete (d : parsed).

Record t := mk {
  _response_callbacks : list (Z * nat);
  log : list output
}.

Definition emit (o : output) (s : t) : t := mk (_response_callbacks s) (log s ++ [o]).

Definition set_response_callback (contact_hash : Z) (callback : nat) (s : t) : t :=
  mk (dset contact_hash callback (_response_callbacks s)) (log s).
Definition clear_response_callback (contact_hash : Z) (s : t) : t :=
  mk (ddel contact_hash (_response_callbacks s)) (log s).

Definition _is_trace_complete (pkt : Packet.t) (trace_bytes : bytes) (hash_width : Z) : bool :=
  if bool_decide (trace_bytes = []) || (hash_width <=? 0) then false
  else len (path pkt) * hash_width >=? len trace_bytes.

(** The key of the callback: the last byte of the last hop, unless it is 0. *)
Definition src_hash (d : option trace) : option Z :=
  match d with
  | None => None
  | Some d => match last (trace_hops d) with
              | Some h => match last h with Some 0 => None | x => x end
              | None => None
              end
  end.

Section handler.
(** [on_trace_complete], if set: whether it raises does not matter. The
    callbacks of the protocol response handler, if it has any. *)
Context (callback_run : nat → parsed → res unit) (on_trace_complete : bool) (forwarded : list nat).

Definition run_callback (cb : nat) (d : parsed) : py t unit :=
  modify (emit (CallbackCalled cb d));; lift (callback_run cb d).

Fixpoint run_callbacks (l : list nat) (d : parsed) : py t unit :=
  match l with
  | [] => mret tt
  | cb :: l' => run_callback cb d;; run_callbacks l' d
  end.

Definition handle (pkt : Packet.t) : py t parsed :=
  let tr := _parse_trace_payload (payload pkt) in
  let d : parsed := (tr, _snr pkt, _rssi pkt) in
  s ← get;
  match (match src_hash tr with Some h => dget h (_response_callbacks s) | None => None end) with
  | Some cb => run_callback cb d
  | None => mret tt
  end;;
  run_callbacks forwarded d;;
  (if on_trace_complete
      && match tr with
         | Some x => _is_trace_complete pkt (trace_path_bytes x) (path_hash_width x)
         | None => false
         end
   then modify (emit (TraceComplete d)) else mret tt);;
  mret d.

(** [__call__]; errors are logged. *)
Definition call (pkt : Packet.t) (s : t) : t * option parsed :=
  match handle pkt s with
  | (s, Ok d) => (s, Some d)
  | (s, Err _) => (s, None)
  end.

End handler.
End TraceHandler.

(** ** Path packets *)
Module PathHandler.
Section handler.
Context {T : Type} `{Clock T} `{C : BlockCipher} `{K : PacketBuilder.KeyExchange}.

(** The login handler's state holds the protocol response handler and the
    contact book all of them share. *)
Record t := mk {
  login : LoginResponseHandler.t T;
  acks : Acks.t T;
  has_protocol_handler : bool;
  has_login_handler : bool;
  has_ack_handler : bool
}.

Definition protocol (s : t) := LoginResponseHandler.protocol (login s).
Definition with_login (l : LoginResponseHandler.t T) (s : t) : t :=
  mk l (acks s) (has_protocol_handler s) (has_login_handler s) (has_ack_handler s).
Definition with_acks (a : Acks.t T) (s : t) : t :=
  mk (login s) a (has_protocol_handler s) (has_login_handler s) (has_ack_handler s).

Definition set_ack_handler (ack_handler : bool) (s : t) : t :=
  mk (login s) (acks s) (has_protocol_handler s) (has_login_handler s) ack_handler.

Context (probe : option (Z → bytes → res bool)) (path_updated : option (bytes → Z → bytes → res unit))
  (waiter_run : nat → ProtocolResponseHandler.parsed → res unit) (isprintable : pystr → bool)
  (ack_listener : option (Z → bool)).

Definition protocol_step (urandom4 : bytes) (sf : option (res Z)) (now : T) (pkt : Packet.t) : py t bool :=
  fun s =>
    let '(p, r) := ProtocolResponseHandler.call path_updated waiter_run isprintable urandom4 sf now pkt (protocol s) in
    (with_login (LoginResponseHandler.with_protocol p (login s)) s, Ok r).

Definition login_step (urandom4 : bytes) (sf : option (res Z)) (now : T) (pkt : Packet.t) : py t bool :=
  fun s =>
    let '(l, r) := LoginResponseHandler.call probe path_updated waiter_run isprintable urandom4 sf now pkt (login s) in
    (with_login l s, r).

(** The identity of the ACK handler and the keys of its contact book. *)
Definition ack_step (now : T) (pkt : Packet.t) : py t bool :=
  s ← get;
  crc ← lift (PathAck.process_path_ack_variants (Some (LoginResponseHandler.local_identity (login s)))
                (Some (map (λ c, PacketBuilder.public_key (ContactStore.proxy_contact c))
                         (LoginResponseHandler.contacts (login s)))) pkt);
  match crc with
  | Some crc => modify (fun s => with_acks (Acks._register_ack_received now ack_listener crc (acks s)).1 s);; mret true
  | None => mret false
  end.

(** One handler, when it is set; an error ends the run with what was
    authenticated before it. *)
Definition sub (set : bool) (m : py t bool) (s : t) (authenticated : bool) : t * bool * bool :=
  if set then
    match m s with
    | (s, Ok b) => (s, authenticated || b, true)
    | (s, Err _) => (s, authenticated, false)
    end
  else (s, authenticated, true).

(** [__call__]: [HandlerResult.authenticated]. *)
Definition call (urandom4 : bytes) (sf : option (res Z)) (now : T) (pkt : Packet.t) (s : t) : t * bool :=
  let '(s, a, go) := sub (has_protocol_handler s) (protocol_step urandom4 sf now pkt) s false in
  if (go : bool) then
    let '(s, a, go) := sub (has_login_handler s) (login_step urandom4 sf now pkt) s a in
    if (go : bool) then
      let '(s, a, _) := sub (has_ack_handler s) (ack_step now pkt) s a in (s, a)
    else (s, a)
  else (s, a).

End handler.
Arguments t T : clear implicits.
End PathHandler.

(** ** A trace on its way *)

Section travel.
Import TraceHandler.

(** One node: its key and how well it hears the frame. *)
Definition trace_hop (x : bytes * float * Z) (frame : bytes) : res (option bytes) :=
  let '(pkt, r) := read_from frame Packet.init in
  _ ← r;
  fwd ← _build_client_repeat_forward (Some x.1.1) (with_signal x.1.2 x.2 pkt);
  match fwd with
  | Some f => w ← write_to f; mret (Some w)
  | None => mret None
  end.

Fixpoint trace_run (l : list (bytes * float * Z)) (frame : bytes) : res (option bytes) :=
  match l with
  | [] => Ok (Some frame)
  | x :: l' =>
      r ← trace_hop x frame;
      match r with Some f => trace_run l' f | None => mret None end
  end.

Lemma trace_run_snoc l x frame :
  trace_run (l ++ [x]) frame
  = (r ← trace_run l frame; match r with Some f => trace_hop x f | None => mret None end).
Proof.
  revert frame. induction l as [|y l IH]; intros frame; cbn [app trace_run].
  - cbn [mbind res_bind]. destruct (trace_hop x frame) as [[f|]|]; done.
  - destruct (trace_hop y frame) as [[f|]|]; [|done..]. cbn [mbind res_bind]. apply IH.
Qed.

Lemma width_val fl : PathUtils.trace_payload_hash_width fl = 2 ^ Z.land fl 0x03 ∧ 0 ≤ Z.land fl 0x03 < 4.
Proof.
  assert (0 ≤ Z.land fl 0x03 < 4) as Hb by (rewrite land_3; apply Z.mod_pos_bound; lia).
  split; [|done]. unfold PathUtils.trace_payload_hash_width. by rewrite Z.shiftl_1_l.
Qed.

(** The node whose turn it is forwards. *)
Lemma trace_forward_next p key fl snr :
  wire_wf p → path_len p < 63 → 9 ≤ payload_len p → index (payload p) 8 = Ok fl →
  let w := PathUtils.trace_payload_hash_width fl in
  path_len p * w < payload_len p - 9 →
  slice (payload p) (9 + path_len p * w) (9 + path_len p * w + w) = slice_to key w →
  int_of_float (fmul (get_snr p) (f_of_Z 4)) = Ok snr →
  _build_trace_forward p key
  = Ok (Some (with_path_len (path_len p + 1) (with_path (path p ++ [Z.land snr 0xFF]) (_copy_packet_for_forward p)))).
Proof.
  intros Hw Hlt H9 Hfl w Ho Hs Hsnr. unfold _build_trace_forward, MAX_PATH_SIZE.
  pose proof (wf_path_len p Hw) as [H0 _]. destruct (width_val fl) as [Hwv Hb].
  replace (path_len p >=? 64) with false by lia. replace (payload_len p <? 9) with false by lia. rewrite Hfl.
  cbn [mbind res_bind]. rewrite Z.shiftl_mul_pow2, <- Hwv by lia. fold w.
  replace (path_len p * w >=? payload_len p - 9) with false by lia.
  assert (Z.shiftl 1 (Z.land fl 3) = w) as -> by (unfold w; done). rewrite Hs, bytes_eqb_refl. cbn [negb].
  rewrite Hsnr. cbn [mbind res_bind]. change (path (_copy_packet_for_forward p)) with (path p).
  change (path_len (_copy_packet_for_forward p)) with (path_len p).
  rewrite <- (small_path_len p Hw ltac:(lia)), set_index_append. done.
Qed.

(** The frame after [k] hops. *)
Record tracing (p : Packet.t) (k : Z) (pa : bytes) (f : Packet.t) : Prop := {
  tg_wf : wire_wf f;
  tg_header : header f = header p;
  tg_payload : payload f = payload p;
  tg_path : path f = pa;
  tg_len : path_len f = k
}.

Lemma copied q :
  header (_copy_packet_for_forward q) = header q ∧ payload (_copy_packet_for_forward q) = slice_to (payload q) (payload_len q)
  ∧ path_len (_copy_packet_for_forward q) = path_len q ∧ path (_copy_packet_for_forward q) = path q.
Proof. split_and!; reflexivity. Qed.

Lemma heard f sn rssi :
  wire_wf f → wire_eq (with_signal sn rssi (received f Packet.init)) f
              ∧ get_snr (with_signal sn rssi (received f Packet.init)) = sn.
Proof.
  intros Hw. split; [|done]. transitivity (received f Packet.init); [by split|by apply received_wire_eq].
Qed.

Lemma trace_hop_eq key sn rssi f :
  wire_wf f →
  trace_hop (key, sn, rssi) (frame_of f) =
  match _build_client_repeat_forward (Some key) (with_signal sn rssi (received f Packet.init)) with
  | Ok (Some f) => w ← write_to f; mret (Some w)
  | Ok None => Ok None
  | Err e => Err e
  end.
Proof.
  intros Hw. unfold trace_hop. pose proof (read_frame f Hw) as Hr.
  destruct (read_from (frame_of f) Packet.init) as [pkt r]. injection Hr as -> ->. cbn [fst snd].
  generalize (_build_client_repeat_forward (Some key) (with_signal sn rssi (received f Packet.init))).
  by intros [[f0|]|e].
Qed.

Lemma trace_hop_next p k pa f key sn rssi fl snr :
  tracing p k pa f → get_payload_type p = PAYLOAD_TYPE_TRACE → is_route_direct p = true → k < 63 →
  9 ≤ len (payload p) → index (payload p) 8 = Ok fl →
  let w := PathUtils.trace_payload_hash_width fl in
  k * w < len (payload p) - 9 →
  slice (payload p) (9 + k * w) (9 + k * w + w) = slice_to key w →
  int_of_float (fmul sn (f_of_Z 4)) = Ok snr →
  ∃ f', trace_hop (key, sn, rssi) (frame_of f) = Ok (Some (frame_of f')) ∧ tracing p (k + 1) (pa ++ [snr mod 256]) f'.
Proof.
  intros [Hw Hh Hpl Hpa Hk] Hty Hdir Hlt H9 Hfl w Ho Hs Hsnr. rewrite trace_hop_eq by done.
  destruct (heard f sn rssi Hw) as [He Hsn]. revert He Hsn.
  generalize (with_signal sn rssi (received f Packet.init)). intros q He <-.
  assert (wire_wf q) as Hwq by (by rewrite He). unfold _build_client_repeat_forward.
  rewrite (direct_wire_eq _ _ He), (type_wire_eq _ _ He).
  assert (is_route_direct f = true ∧ get_payload_type f = PAYLOAD_TYPE_TRACE) as [-> ->]
    by (revert Hty Hdir; unfold is_route_direct, get_payload_type, get_route_type; by rewrite Hh).
  cbn [andb]. rewrite Z.eqb_refl.
  assert (header q = header p ∧ payload q = payload p ∧ path_len q = k ∧ path q = pa) as (E0 & E1 & E3 & E4)
    by (destruct He; split_and!; congruence).
  pose proof (wf_payload_len q Hwq) as E2. rewrite E1 in E2.
  assert (_build_trace_forward q key = Ok (Some (with_path_len (path_len q + 1)
            (with_path (path q ++ [Z.land snr 0xFF]) (_copy_packet_for_forward q))))) as Hfwd
    by (apply (trace_forward_next q key fl snr); rewrite ?E1, ?E2, ?E3; done).
  destruct (trace_forward_correct q key _ Hwq ltac:(by rewrite E3) Hfwd) as (Hwf' & Hl' & Hp' & _).
  rewrite Hfwd. cbn [mbind res_bind]. rewrite write_to_frame by done. eexists. split; [reflexivity|].
  destruct (copied q) as (C0 & _). split.
  - exact Hwf'.
  - etransitivity; [|exact E0]. exact C0.
  - by rewrite Hp'.
  - rewrite <- E4, <- land_255. reflexivity.
  - by rewrite Hl', E3.
Qed.

(** Hops of one width, split again. *)
Lemma split_hops_concat w (l : list bytes) fuel :
  0 < w → Forall (λ h, len h = w) l → (length (concat l) ≤ fuel)%nat → hops_fuel fuel w (concat l) = l.
Proof.
  intros Hw Hl. revert fuel. induction Hl as [|h l Hh _ IH]; intros fuel Hf; cbn [concat] in *.
  - destruct fuel; [done|]. cbn [hops_fuel]. rewrite len_nil. by replace (0 <? w) with true by lia.
  - destruct fuel as [|fuel]; [rewrite length_app in Hf; unfold len in Hh; lia|]. cbn [hops_fuel].
    rewrite len_app, Hh. pose proof (len_nonneg (concat l)). replace (w + len (concat l) <? w) with false by lia.
    rewrite slice_to_app_exact, slice_from_app_exact by done. f_equal. apply IH.
    rewrite length_app in Hf. unfold len in Hh. lia.
Qed.

Lemma concat_len w (l : list bytes) : Forall (λ h, len h = w) l → len (concat l) = len l * w.
Proof. induction 1 as [|h l Hh _ IH]; [done|]. cbn [concat]. rewrite len_app, len_cons, Hh, IH. lia. Qed.

(** The hop at a position. *)
Lemma concat_slice w (l : list bytes) k h :
  0 ≤ w → Forall (λ h, len h = w) l → l !! k = Some h → slice (concat l) (Z.of_nat k * w) (Z.of_nat k * w + w) = h.
Proof.
  intros Hw Hl Hk. rewrite <- (take_drop_middle l k h Hk), concat_app. cbn [concat].
  rewrite <- (take_drop_middle l k h Hk) in Hl. apply list.Forall_app in Hl as [Hl1 Hl2].
  apply list.Forall_cons in Hl2 as [Hh _]. pose proof (concat_len w _ Hl1) as Hc.
  assert (len (take k l) = Z.of_nat k) as Ht.
  { unfold len. rewrite length_take. apply lookup_lt_Some in Hk. lia. }
  rewrite Ht in Hc. apply slice_app_exact; lia.
Qed.

(** The trace a builder makes over the nodes [keys]. *)
Definition trace_over (tag auth_code flags : Z) (keys : list bytes) : res Packet.t :=
  PacketBuilder.create_trace tag auth_code flags (hops (PathUtils.trace_payload_hash_width flags) keys).

Lemma create_trace_inv tag auth fl pa p :
  PacketBuilder.create_trace tag auth fl pa = Ok p →
  0 ≤ tag < 256 ^ 4 ∧ 0 ≤ auth < 256 ^ 4 ∧ is_byte fl ∧ bytes_ok pa
  ∧ payload p = le_bytes 4 tag ++ le_bytes 4 auth ++ [fl] ++ pa
  ∧ path p = [] ∧ path_len p = 0 ∧ payload_len p = len (payload p)
  ∧ header p = PacketBuilder._create_header PAYLOAD_TYPE_TRACE "direct" false ∧ transport_codes p = (0, 0).
Proof.
  unfold PacketBuilder.create_trace. intros H. apply res_bind_ok in H as (a & Ha & H). apply res_bind_ok in H as (b & Hb & H).
  apply res_bind_ok in H as (c & Hc & H). apply res_bind_ok in H as (q & Hq & H). injection H as <-.
  apply pack_uint_inv in Ha as [Ht ->]. apply pack_uint_inv in Hb as [Hau ->]. apply pack_uint_inv in Hc as [Hf ->].
  assert (bytes_ok pa ∧ q = pa) as [Hok ->].
  { destruct (bool_decide (pa ≠ [])) eqn:E; [by apply bytes_of_ints_inv in Hq as [-> ?]|].
    apply bool_decide_eq_false in E. injection Hq as <-. destruct pa; [split; [apply bytes_ok_nil|done]|by exfalso; apply E]. }
  split; [done|]. split; [done|]. split; [exact Hf|]. split_and!; try done.
  cbn [payload with_payload_len with_payload]. f_equal. f_equal. f_equal.
  unfold le_bytes. cbn. f_equal. apply Z.mod_small. exact Hf.
Qed.

(** Where the hops of a trace are in its payload. *)
Lemma trace_payload_parts tag auth fl (pa : bytes) :
  let pl := le_bytes 4 tag ++ le_bytes 4 auth ++ [fl] ++ pa in
  len pl = 9 + len pa ∧ index pl 8 = Ok fl ∧ slice_to pl 4 = le_bytes 4 tag ∧ slice pl 4 8 = le_bytes 4 auth
  ∧ slice_from pl 9 = pa ∧ ∀ a b, 0 ≤ a ≤ b → slice pl (9 + a) (9 + b) = slice pa a b.
Proof.
  intros pl. assert (len (le_bytes 4 tag ++ le_bytes 4 auth ++ [fl]) = 9) as H9 by (by autorewrite with pylen).
  assert (pl = (le_bytes 4 tag ++ le_bytes 4 auth ++ [fl]) ++ pa) as E by (unfold pl; by rewrite <- !app_assoc).
  split_and!.
  - rewrite E, len_app. lia.
  - unfold pl. rewrite app_assoc. by apply index_app_exact.
  - unfold pl. by apply slice_to_app_exact.
  - unfold pl. by apply slice_app_exact.
  - rewrite E. by apply slice_from_app_exact.
  - intros a b Hab. rewrite E. rewrite !slice_nonneg by lia.
    replace (Z.to_nat (9 + a)) with (length (le_bytes 4 tag ++ le_bytes 4 auth ++ [fl]) + Z.to_nat a)%nat
      by (unfold len in H9; lia).
    rewrite <- drop_drop, drop_app_length. f_equal. lia.
Qed.

(** C16: a trace visits the nodes of its path in order. Each of them forwards it
    with the reception SNR (quarter dB, two's complement) appended; every node
    on the way reads the tag, the code and
    the hops it was built with, and it is reported complete exactly when all
    nodes were visited. *)
Theorem trace_travels tag auth fl (nodes : list (bytes * float * Z)) snrs p k :
  let w := PathUtils.trace_payload_hash_width fl in let keys := map (λ x, x.1.1) nodes in
  trace_over tag auth fl keys = Ok p → nodes ≠ [] → (length nodes ≤ 63)%nat → len (payload p) ≤ MAX_PACKET_PAYLOAD →
  Forall (λ key, w ≤ len key) keys →
  Forall2 (λ x snr, int_of_float (fmul x.1.2 (f_of_Z 4)) = Ok snr) nodes snrs → (k ≤ length nodes)%nat →
  ∃ f tr, trace_run (take k nodes) (frame_of p) = Ok (Some (frame_of f)) ∧ wire_wf f
    ∧ path f = map (λ snr, snr mod 256) (take k snrs)
    ∧ _parse_trace_payload (payload f) = Some tr ∧ TraceHandler.tag tr = tag ∧ auth_code tr = auth ∧ flags tr = fl
    ∧ trace_hops tr = map (λ key, slice_to key w) keys ∧ trace_path_remainder tr = 0
    ∧ _is_trace_complete f (trace_path_bytes tr) (path_hash_width tr) = bool_decide (k = length nodes).
Proof.
  intros w keys Hp Hne H63 Hmax Hkeys Hsnrs Hk.
  destruct (create_trace_inv _ _ _ _ _ Hp) as (Ht & Ha & Hf & Hok & Hpl & Hpa & Hlen & Hpll & Hh & Hcodes).
  fold w in Hpl, Hok. set (hs := map (λ key, slice_to key w) keys) in *. change (hops w keys) with (concat hs) in Hpl, Hok.
  destruct (width_val fl) as [Hwv Hb]. fold w in Hwv.
  assert (0 < w) as Hw0 by (rewrite Hwv; apply Z.pow_pos_nonneg; lia).
  assert (Forall (λ h, len h = w) hs) as Hhs.
  { unfold hs. apply Forall_map. eapply Forall_impl; [exact Hkeys|]. intros key Hl. change (w ≤ len key) in Hl. change (len (slice_to key w) = w). apply len_slice_to. lia. }
  destruct (trace_payload_parts tag auth fl (concat hs)) as (L9 & I8 & S4 & S8 & S9 & Sab). rewrite <- Hpl in *.
  pose proof (concat_len w hs Hhs) as Hcl. assert (len hs = Z.of_nat (length nodes)) as Hn
    by (unfold hs, keys, len; by rewrite !length_map). rewrite Hn in Hcl. rewrite Hcl in L9.
  assert (∀ j, (j ≤ length nodes)%nat → ∃ f, trace_run (take j nodes) (frame_of p) = Ok (Some (frame_of f))
    ∧ tracing p (Z.of_nat j) (map (λ snr, snr mod 256) (take j snrs)) f) as Hrun.
  { induction j as [|j IH]; intros Hj.
    - exists p. split; [done|]. split; [|done|done|by rewrite Hpa|by rewrite Hlen].
      split; rewrite ?Hlen; try done.
      + rewrite Hh. decide_now.
      + unfold get_payload_ver. rewrite Hh. done.
      + rewrite Hcodes. unfold has_transport_codes, get_route_type. by rewrite Hh.
      + rewrite Hpa. unfold get_path_byte_len. by rewrite Hlen.
      + rewrite Hpa. apply bytes_ok_nil.
      + by rewrite Hpll.
      + rewrite Hpl. do 2 (apply bytes_ok_app; split; [apply bytes_ok_le_bytes|]).
        apply bytes_ok_app. split; [|done]. apply bytes_ok_cons. split; [done|apply bytes_ok_nil].
    - destruct (IH ltac:(lia)) as (f & Hr & Htr). destruct (lookup_lt_is_Some_2 nodes j ltac:(lia)) as [[[key sn] rssi] Hx].
      destruct (Forall2_lookup_l _ _ _ _ _ Hsnrs Hx) as (snr & Hs & Hsn). cbn in Hsn.
      rewrite (take_S_r _ _ _ Hx), (take_S_r _ _ _ Hs), map_app, trace_run_snoc, Hr. cbn [mbind res_bind map].
      replace (Z.of_nat (S j)) with (Z.of_nat j + 1) by lia.
      apply (trace_hop_next p (Z.of_nat j) _ f key sn rssi fl snr Htr); try done.
      + unfold get_payload_type. by rewrite Hh.
      + unfold is_route_direct, get_route_type. by rewrite Hh.
      + lia.
      + lia.
      + fold w. nia.
      + fold w. replace (9 + Z.of_nat j * w + w) with (9 + (Z.of_nat j * w + w)) by lia. rewrite Sab by nia.
        apply concat_slice; [lia|done|]. unfold hs, keys. rewrite !list_lookup_fmap, Hx. done. }
  destruct (Hrun k Hk) as (f & Hr & [Hwf Hhf Hplf Hpaf Hlf]).
  exists f, (mkTrace tag auth fl (concat hs) w hs (map (λ h, match h with x :: _ => x | [] => 0 end) hs) 0).
  split; [done|]. split; [done|]. split; [done|]. split; [|split_and!; try done].
  - unfold _parse_trace_payload. rewrite Hplf, L9. replace (9 + _ <? 9) with false by nia. rewrite I8, S4, S8, S9.
    fold w. unfold split_hops. rewrite split_hops_concat by done. rewrite !from_le_le_bytes by done.
    rewrite Hcl, Z_mod_mult. done.
  - cbn [trace_path_bytes path_hash_width]. unfold _is_trace_complete.
    assert (0 < Z.of_nat (length nodes) * w) as Hpos by (destruct nodes; [done|]; cbn [length]; nia).
    rewrite bool_decide_false by (intros E; rewrite E, len_nil in Hcl; lia).
    replace (w <=? 0) with false by lia. cbn [orb]. rewrite Hpaf, Hcl.
    assert (len (map (λ snr, snr mod 256) (take k snrs)) = Z.of_nat k) as ->.
    { unfold len. rewrite length_map, length_take. pose proof (Forall2_length _ _ _ Hsnrs). lia. }
    case_bool_decide as E; [rewrite E; lia|]. nia.
Qed.
End travel.

(** ** Discovery *)

Section discovery.
Import ControlHandler.
Context (callback_run : nat → control_data → res unit).

Lemma response_type_bits m :
  0 ≤ m < 16 → (Z.land (Z.lor 0x90 m) 0x80 =? 0) = false ∧ Z.land (Z.lor 0x90 m) 0xF0 = 0x90 ∧ Z.land (Z.lor 0x90 m) 0x0F = m.
Proof.
  intros Hm. assert (m = 0 ∨ m = 1 ∨ m = 2 ∨ m = 3 ∨ m = 4 ∨ m = 5 ∨ m = 6 ∨ m = 7 ∨ m = 8 ∨ m = 9 ∨ m = 10 ∨ m = 11
    ∨ m = 12 ∨ m = 13 ∨ m = 14 ∨ m = 15) as Hc by lia. destruct_or! Hc; subst m; done.
Qed.

(** The SNR byte of a response is a two's-complement number. *)
Lemma snr_byte_value z :
  -128 ≤ z ≤ 127 → snr_register_to_db (Some (Z.land z 0xFF)) 8 = fdiv (f_of_Z z) (f_of_Z 4).
Proof.
  intros Hz. unfold snr_register_to_db. change ((8 <=? 0) || (8 >? 32)) with false. cbn iota.
  change (Z.shiftl 1 8 - 1) with 0xFF. change (Z.shiftl 1 8) with 256. change (Z.shiftl 1 (8 - 1)) with 128.
  rewrite !land_255, Zmod_mod. cbv zeta.
  assert ((if z mod 256 >=? 128 then z mod 256 - 256 else z mod 256) = z) as ->; [|done].
  destruct (z mod 256 >=? 128) eqn:E; bool_hyps; zdm.
Qed.

(** What a callback of [cb] leaves. *)
Definition reported (cb : option nat) (d : control_data) (s : t) : t :=
  match cb with Some cb => called cb d s | None => s end.

Lemma report_ok cb d s :
  (∀ c e, callback_run c e = Ok tt) → report callback_run cb d s = (reported cb d s, Ok (Some d)).
Proof. intros Hr. unfold report. destruct cb as [c|]; [|done]. py_run. by rewrite Hr. Qed.

(** The fields of a discovery payload: two bytes, the tag, the rest. *)
Lemma discovery_fields a b tag k :
  0 ≤ tag < 256 ^ 4 → let pl := a :: b :: le_bytes 4 tag ++ k in
  len pl = 6 + len k ∧ index pl 0 = Ok a ∧ index pl 1 = Ok b ∧ from_le (slice pl 2 6) = tag ∧ slice_from pl 6 = k
  ∧ slice pl 6 (6 + len k) = k.
Proof.
  intros Ht pl. assert (pl = ([a; b] ++ le_bytes 4 tag) ++ k) as E by done.
  pose proof (len_nonneg k). split_and!; try done.
  - rewrite E, !len_app, len_le_bytes. done.
  - change pl with ([a; b] ++ le_bytes 4 tag ++ k). rewrite (slice_app_exact [a; b]) by done. by apply from_le_le_bytes.
  - rewrite E. by apply slice_from_app_exact.
  - rewrite E. rewrite <- (app_nil_r k) at 1. apply slice_app_exact; rewrite len_app, len_le_bytes; done.
Qed.

(** A request arrives with what it was built from. *)
Lemma request_arrives tag mask since prefix p q now s :
  PacketBuilder.create_discovery_request tag mask since prefix = Ok p →
  payload q = payload p → is_route_direct q = true → get_path_hash_count q = 0 →
  (∀ c e, callback_run c e = Ok tt) →
  let req := DiscoveryRequest tag (mask mod 256) (Z.max 0 since) prefix (_snr q) (_rssi q) now in
  call callback_run now q s = (reported (dget 0 (_request_callbacks s)) req s, Some req).
Proof.
  intros Hp Hpay Hdir Hcnt Hrun req. unfold PacketBuilder.create_discovery_request in Hp.
  apply res_bind_ok in Hp as (t & Ht & Hp). apply res_bind_ok in Hp as (sb & Hsb & Hp). injection Hp as <-.
  apply pack_uint_inv in Ht as [Htag ->]. cbn [payload with_payload_len with_payload] in Hpay. rewrite land_255 in Hpay.
  set (b0 := Z.lor 0x80 (if prefix then 0x01 else 0x00)) in *.
  assert ((Z.land b0 0x80 =? 0) = false ∧ Z.land b0 0xF0 = 0x80 ∧ negb (Z.land b0 0x01 =? 0) = prefix) as (B1 & B2 & B3)
    by (unfold b0; by destruct prefix). clearbody b0.
  destruct (discovery_fields b0 (mask mod 256) tag sb Htag) as (F1 & F2 & F3 & F4 & _ & F6). rewrite <- Hpay in F1, F2, F3, F4, F6.
  assert ((if len (payload q) >=? 10 then from_le (slice (payload q) 6 10) else 0) = Z.max 0 since) as Hs.
  { rewrite F1. destruct (since >? 0) eqn:Es; bool_hyps.
    - apply pack_uint_inv in Hsb as [Hsince ->]. rewrite len_le_bytes in *. change (6 + Z.of_nat 4) with 10 in *. cbn iota.
      rewrite F6, from_le_le_bytes by done. change (10 >=? 10) with true. cbn iota. lia.
    - injection Hsb as <-. match goal with |- context [6 + ?x >=? 10] => change (6 + x >=? 10) with false end. cbn iota. lia. }
  unfold call. destruct (payload q) as [|b l] eqn:El; [done|]. injection F2 as ->. rewrite Hdir, Hcnt, B1, B2. rewrite <- El in *.
  cbn [negb]. change (0 =? 0) with true. change (0x80 =? CTL_TYPE_NODE_DISCOVER_REQ) with true. cbn iota.
  pose proof (len_nonneg sb). unfold guarded, _handle_discovery_request.
  replace (len (payload q) <? 6) with false by lia. rewrite El in *. change (index (b0 :: l) 0) with (@Ok Z b0). py_run. rewrite F3. py_run.
  rewrite B3, F4, Hs, report_ok by done. done.
Qed.

(** A response arrives with what it was built from. *)
Lemma response_arrives tag node_type snr z key prefix p q now s :
  PacketBuilder.create_discovery_response tag node_type snr key prefix = Ok p →
  int_of_float (fmul snr (f_of_Z 4)) = Ok z →
  payload q = payload p → is_route_direct q = true → get_path_hash_count q = 0 →
  (∀ c e, callback_run c e = Ok tt) →
  ∃ inbound, fdiv (f_of_Z (Z.max (-128) (Z.min 127 z))) (f_of_Z 4) = Ok inbound
  ∧ let resp := DiscoveryResponse tag (node_type mod 16) inbound (_snr q) (_rssi q)
                  (slice_to key (if prefix then 8 else 32)) now in
    call callback_run now q s = (reported (dget tag (_response_callbacks s)) resp s, Some resp).
Proof.
  intros Hp Hz Hpay Hdir Hcnt Hrun. unfold PacketBuilder.create_discovery_response in Hp. rewrite Hz in Hp. cbn [mbind res_bind] in Hp.
  apply res_bind_ok in Hp as (t & Ht & Hp). injection Hp as <-. apply pack_uint_inv in Ht as [Htag ->].
  cbn [payload with_payload_len with_payload] in Hpay. change (Z.land node_type 0x0F) with (Z.land node_type 15) in Hpay. rewrite land_15 in Hpay.
  set (m := node_type mod 16) in *. destruct (response_type_bits m) as (B1 & B2 & B3); [by apply Z.mod_pos_bound|].
  set (v := Z.max (-128) (Z.min 127 z)) in *. pose proof (snr_byte_value v ltac:(unfold v; lia)) as Hv.
  replace (if prefix then slice_to key 8 else slice_to key 32) with (slice_to key (if prefix then 8 else 32)) in Hpay by (by destruct prefix).
  set (k := slice_to key _) in *. set (b0 := Z.lor 0x90 m) in *. set (sb := Z.land v 0xFF) in *.
  destruct (discovery_fields b0 sb tag k Htag) as (F1 & F2 & F3 & F4 & F5 & _). rewrite <- Hpay in F1, F2, F3, F4, F5. clearbody b0 sb k m v.
  assert (∃ inbound, fdiv (f_of_Z v) (f_of_Z 4) = Ok inbound) as [inbound Hi] by (unfold fdiv; eexists; reflexivity).
  exists inbound. split; [done|]. rewrite Hi in Hv.
  unfold call. destruct (payload q) as [|b l] eqn:El; [done|]. injection F2 as ->. rewrite Hdir, Hcnt, B1, B2. rewrite <- El in *.
  cbn [negb]. change (0 =? 0) with true. change (0x90 =? CTL_TYPE_NODE_DISCOVER_REQ) with false.
  change (0x90 =? CTL_TYPE_NODE_DISCOVER_RESP) with true. cbn iota.
  pose proof (len_nonneg k). unfold guarded, _handle_discovery_response.
  replace (len (payload q) <? 6) with false by lia. rewrite El in *. change (index (b0 :: l) 0) with (@Ok Z b0). py_run. rewrite F3. py_run.
  rewrite Hv. py_run. rewrite B3, F4, F5, report_ok by done. done.
Qed.

(** Discovery finds the node. A discovery request arrives with its tag,
    filter, time and prefix flag; the response a node builds for that tag
    arrives with its node type, its key (or the first eight bytes of it) and
    the SNR at which it heard the request, clamped to what a byte of quarter
    decibels holds, and calls the callback registered for the tag and no
    other. *)
Theorem discovery_roundtrip tag mask since prefix p node_type snr z key reply now q s now' q' s' :
  PacketBuilder.create_discovery_request tag mask since prefix = Ok p →
  payload q = payload p → is_route_direct q = true → get_path_hash_count q = 0 →
  PacketBuilder.create_discovery_response tag node_type snr key prefix = Ok reply →
  int_of_float (fmul snr (f_of_Z 4)) = Ok z →
  payload q' = payload reply → is_route_direct q' = true → get_path_hash_count q' = 0 →
  (∀ c e, callback_run c e = Ok tt) →
  let req := DiscoveryRequest tag (mask mod 256) (Z.max 0 since) prefix (_snr q) (_rssi q) now in
  call callback_run now q s = (reported (dget 0 (_request_callbacks s)) req s, Some req)
  ∧ ∃ inbound, fdiv (f_of_Z (Z.max (-128) (Z.min 127 z))) (f_of_Z 4) = Ok inbound
    ∧ let resp := DiscoveryResponse tag (node_type mod 16) inbound (_snr q') (_rssi q')
                    (slice_to key (if prefix then 8 else 32)) now' in
      call callback_run now' q' s' = (reported (dget tag (_response_callbacks s')) resp s', Some resp).
Proof.
  intros Hp Hpay Hdir Hcnt Hr Hz Hpay' Hdir' Hcnt' Hrun. split.
  - by apply (request_arrives tag mask since prefix p).
  - by apply (response_arrives tag node_type snr z key prefix reply).
Qed.
End discovery.

(** *** Concrete runs *)

(** Two nodes with two-byte hashes; the second hears the frame at -7 dB. *)
Definition demo_nodes : list (bytes * float * Z) :=
  [(repeat 0x11 32, f_of_Z 12, -60); (0x21 :: repeat 0x22 31, f_of_Z (-7), -95)].
Definition demo_trace : Packet.t :=
  match trace_over 0xCAFE 0x1234 1 (map (λ x, x.1.1) demo_nodes) with Ok p => p | Err _ => init end.

Lemma trace_travels_witness :
  ∃ f tr, trace_run demo_nodes (frame_of demo_trace) = Ok (Some (frame_of f)) ∧ path f = [48; 228]
    ∧ TraceHandler._parse_trace_payload (payload f) = Some tr ∧ TraceHandler.trace_hops tr = [[0x11; 0x11]; [0x21; 0x22]]
    ∧ TraceHandler._is_trace_complete f (TraceHandler.trace_path_bytes tr) (TraceHandler.path_hash_width tr) = true.
Proof.
  destruct (trace_travels 0xCAFE 0x1234 1 demo_nodes [48; -28] demo_trace 2) as (f & tr & H1 & _ & H2 & H3 & _ & _ & _ & H4 & _ & H5).
  - reflexivity.
  - intros E. discriminate E.
  - decide_now.
  - decide_now.
  - decide_now.
  - repeat constructor.
  - decide_now.
  - exists f, tr. split; [exact H1|]. split; [exact H2|]. split; [exact H3|]. split; [exact H4|exact H5].
Defined.

Definition demo_request : Packet.t :=
  match PacketBuilder.create_discovery_request 0x01020304 0x104 1700000000 true with Ok p => p | Err _ => init end.
Definition demo_response : Packet.t :=
  match PacketBuilder.create_discovery_response 0x01020304 0x12 (f_of_Z (-40)) (repeat 0x33 32) true with
  | Ok p => p | Err _ => init end.
Definition demo_control : ControlHandler.t := ControlHandler.mk [(0x01020304, 7%nat)] [(0, 9%nat)] [].

Lemma discovery_roundtrip_witness :
  let req := ControlHandler.DiscoveryRequest 0x01020304 4 1700000000 true f_zero 0 f_zero in
  let resp := ControlHandler.DiscoveryResponse 0x01020304 2 (f_of_Z (-32)) f_zero 0 (repeat 0x33 8) f_zero in
  (ControlHandler.call (λ _ _, Ok tt) f_zero demo_request demo_control).2 = Some req
  ∧ ControlHandler.log (ControlHandler.call (λ _ _, Ok tt) f_zero demo_request demo_control).1 = [(9%nat, req)]
  ∧ ControlHandler.log (ControlHandler.call (λ _ _, Ok tt) f_zero demo_response demo_control).1 = [(7%nat, resp)].
Proof.
  assert (fdiv (f_of_Z (Z.max (-128) (Z.min 127 (-160)))) (f_of_Z 4) = Ok (f_of_Z (-32))) as Hin by (vm_compute; reflexivity).
  destruct (discovery_roundtrip (λ _ _, Ok tt) 0x01020304 0x104 1700000000 true demo_request 0x12 (f_of_Z (-40)) (-160)
              (repeat 0x33 32) demo_response f_zero demo_request demo_control f_zero demo_response demo_control)
    as (H1 & inbound & Hi & H2); try reflexivity.
  rewrite Hin in Hi. injection Hi as <-. rewrite H1, H2. split; [reflexivity|]. split; reflexivity.
Defined.
