(* ===== verification/FrameCodes.v ===== *)
(** * Codes of the companion frame protocol ([companion/constants.py]), and
      positions as its frames carry them *)

From S2P Require Import Prelude PyFloat.

Definition CMD_APP_START : Z := 1.
Definition CMD_SEND_TXT_MSG : Z := 2.
Definition CMD_SEND_CHANNEL_TXT_MSG : Z := 3.
Definition CMD_GET_CONTACTS : Z := 4.
Definition CMD_GET_DEVICE_TIME : Z := 5.
Definition CMD_SET_DEVICE_TIME : Z := 6.
Definition CMD_SEND_SELF_ADVERT : Z := 7.
Definition CMD_SET_ADVERT_NAME : Z := 8.
Definition CMD_ADD_UPDATE_CONTACT : Z := 9.
Definition CMD_SYNC_NEXT_MESSAGE : Z := 10.
Definition CMD_SET_RADIO_PARAMS : Z := 11.
Definition CMD_SET_RADIO_TX_POWER : Z := 12.
Definition CMD_RESET_PATH : Z := 13.
Definition CMD_SET_ADVERT_LATLON : Z := 14.
Definition CMD_REMOVE_CONTACT : Z := 15.
Definition CMD_SHARE_CONTACT : Z := 16.
Definition CMD_EXPORT_CONTACT : Z := 17.
Definition CMD_IMPORT_CONTACT : Z := 18.
Definition CMD_REBOOT : Z := 19.
Definition CMD_GET_BATT_AND_STORAGE : Z := 20.
Definition CMD_SET_TUNING_PARAMS : Z := 21.
Definition CMD_DEVICE_QUERY : Z := 22.
Definition CMD_EXPORT_PRIVATE_KEY : Z := 23.
Definition CMD_IMPORT_PRIVATE_KEY : Z := 24.
Definition CMD_SEND_RAW_DATA : Z := 25.
Definition CMD_SEND_LOGIN : Z := 26.
Definition CMD_SEND_STATUS_REQ : Z := 27.
Definition CMD_HAS_CONNECTION : Z := 28.
Definition CMD_LOGOUT : Z := 29.
Definition CMD_GET_CONTACT_BY_KEY : Z := 30.
Definition CMD_GET_CHANNEL : Z := 31.
Definition CMD_SET_CHANNEL : Z := 32.
Definition CMD_SIGN_START : Z := 33.
Definition CMD_SIGN_DATA : Z := 34.
Definition CMD_SIGN_FINISH : Z := 35.
Definition CMD_SEND_TRACE_PATH : Z := 36.
Definition CMD_SET_DEVICE_PIN : Z := 37.
Definition CMD_SET_OTHER_PARAMS : Z := 38.
Definition CMD_SEND_TELEMETRY_REQ : Z := 39.
Definition CMD_GET_CUSTOM_VARS : Z := 40.
Definition CMD_SET_CUSTOM_VAR : Z := 41.
Definition CMD_GET_ADVERT_PATH : Z := 42.
Definition CMD_GET_TUNING_PARAMS : Z := 43.
Definition CMD_SEND_BINARY_REQ : Z := 50.
Definition CMD_FACTORY_RESET : Z := 51.
Definition CMD_SEND_PATH_DISCOVERY_REQ : Z := 52.
Definition CMD_SET_FLOOD_SCOPE : Z := 54.
Definition CMD_SEND_CONTROL_DATA : Z := 55.
Definition CMD_GET_STATS : Z := 56.
Definition CMD_SEND_ANON_REQ : Z := 57.
Definition CMD_SET_AUTOADD_CONFIG : Z := 58.
Definition CMD_GET_AUTOADD_CONFIG : Z := 59.
Definition CMD_GET_ALLOWED_REPEAT_FREQ : Z := 60.
Definition CMD_SET_PATH_HASH_MODE : Z := 61.
Definition CMD_SEND_CHANNEL_DATA : Z := 62.
Definition CMD_SET_DEFAULT_FLOOD_SCOPE : Z := 63.
Definition CMD_GET_DEFAULT_FLOOD_SCOPE : Z := 64.
Definition CMD_SEND_RAW_PACKET : Z := 65.
Definition RESP_CODE_OK : Z := 0.
Definition RESP_CODE_ERR : Z := 1.
Definition RESP_CODE_CONTACTS_START : Z := 2.
Definition RESP_CODE_CONTACT : Z := 3.
Definition RESP_CODE_END_OF_CONTACTS : Z := 4.
Definition RESP_CODE_SELF_INFO : Z := 5.
Definition RESP_CODE_SENT : Z := 6.
Definition RESP_CODE_CONTACT_MSG_RECV : Z := 7.
Definition RESP_CODE_CHANNEL_MSG_RECV : Z := 8.
Definition RESP_CODE_CURR_TIME : Z := 9.
Definition RESP_CODE_NO_MORE_MESSAGES : Z := 10.
Definition RESP_CODE_EXPORT_CONTACT : Z := 11.
Definition RESP_CODE_BATT_AND_STORAGE : Z := 12.
Definition RESP_CODE_DEVICE_INFO : Z := 13.
Definition RESP_CODE_PRIVATE_KEY : Z := 14.
Definition RESP_CODE_DISABLED : Z := 15.
Definition RESP_CODE_CONTACT_MSG_RECV_V3 : Z := 16.
Definition RESP_CODE_CHANNEL_MSG_RECV_V3 : Z := 17.
Definition RESP_CODE_CHANNEL_INFO : Z := 18.
Definition RESP_CODE_SIGN_START : Z := 19.
Definition RESP_CODE_SIGNATURE : Z := 20.
Definition RESP_CODE_CUSTOM_VARS : Z := 21.
Definition RESP_CODE_ADVERT_PATH : Z := 22.
Definition RESP_CODE_TUNING_PARAMS : Z := 23.
Definition RESP_CODE_STATS : Z := 24.
Definition RESP_CODE_AUTOADD_CONFIG : Z := 25.
Definition RESP_CODE_ALLOWED_REPEAT_FREQ : Z := 26.
Definition RESP_CODE_CHANNEL_DATA_RECV : Z := 27.
Definition RESP_CODE_DEFAULT_FLOOD_SCOPE : Z := 28.
Definition PUSH_CODE_ADVERT : Z := 0x80.
Definition PUSH_CODE_PATH_UPDATED : Z := 0x81.
Definition PUSH_CODE_SEND_CONFIRMED : Z := 0x82.
Definition PUSH_CODE_MSG_WAITING : Z := 0x83.
Definition PUSH_CODE_RAW_DATA : Z := 0x84.
Definition PUSH_CODE_LOGIN_SUCCESS : Z := 0x85.
Definition PUSH_CODE_LOGIN_FAIL : Z := 0x86.
Definition PUSH_CODE_STATUS_RESPONSE : Z := 0x87.
Definition PUSH_CODE_LOG_RX_DATA : Z := 0x88.
Definition PUSH_CODE_TRACE_DATA : Z := 0x89.
Definition PUSH_CODE_NEW_ADVERT : Z := 0x8A.
Definition PUSH_CODE_TELEMETRY_RESPONSE : Z := 0x8B.
Definition PUSH_CODE_BINARY_RESPONSE : Z := 0x8C.
Definition PUSH_CODE_PATH_DISCOVERY_RESPONSE : Z := 0x8D.
Definition PUSH_CODE_CONTROL_DATA : Z := 0x8E.
Definition PUSH_CODE_CONTACT_DELETED : Z := 0x8F.
Definition PUSH_CODE_CONTACTS_FULL : Z := 0x90.
Definition ERR_CODE_UNSUPPORTED_CMD : Z := 1.
Definition ERR_CODE_NOT_FOUND : Z := 2.
Definition ERR_CODE_TABLE_FULL : Z := 3.
Definition ERR_CODE_BAD_STATE : Z := 4.
Definition ERR_CODE_FILE_IO_ERROR : Z := 5.
Definition ERR_CODE_ILLEGAL_ARG : Z := 6.
Definition FRAME_OUTBOUND_PREFIX : Z := 0x3E.
Definition FRAME_INBOUND_PREFIX : Z := 0x3C.
Definition TXT_MSG_TIMEOUT_HINT_MS : Z := 5000.
Definition BINARY_REQ_TIMEOUT_HINT_MS : Z := 10000.
Definition LOGIN_TIMEOUT_HINT_MS : Z := 10000.
Definition STATUS_TIMEOUT_HINT_MS : Z := 15000.
Definition TELEMETRY_TIMEOUT_HINT_MS : Z := 15000.
Definition FIRMWARE_VER_CODE : Z := 13.
Definition MAX_FRAME_SIZE : Z := 176.
Definition OUT_PATH_UNKNOWN : Z := 0xFF.
Definition CONTACT_NAME_SIZE : Z := 32.
Definition CHANNEL_NAME_SIZE : Z := 32.
Definition STATS_TYPE_CORE : Z := 0.
Definition STATS_TYPE_RADIO : Z := 1.
Definition STATS_TYPE_PACKETS : Z := 2.
Definition ADV_TYPE_CHAT : Z := 1.

(** The longest payload is the whole frame size: the three-byte prefix comes on
    top. *)
Definition MAX_PAYLOAD_SIZE : Z := MAX_FRAME_SIZE.
Definition MAX_CHANNEL_DATA_LENGTH : Z := MAX_FRAME_SIZE - 9.

(** ** Positions in frames *)

(** [int(x * 1e6)] *)
Definition microdegrees (x : float) : res Z := int_of_float (fmul x (f_of_Z 1000000)).
(** [n / 1e6] *)
Definition degrees (n : Z) : float := SFdiv prec64 emax64 (f_of_Z n) (f_of_Z 1000000).
