(* ===== verification/BinaryParsing.v ===== *)
(** * Parsers of binary responses ([companion/binary_parsing.py])

    The data of a binary response, without its tag, parsed by the type of the
    request it answers; the 73-byte contact record. [LppFrame.from_bytes] of
    the optional package [cayennelpp] is a parameter. *)

From S2P Require Import Prelude PyData Utf8 PyFloat Constants PacketUtils FrameCodes Contacts Login.

(** [BinaryReqType] and the bits of the features byte ([companion/constants.py]). *)
Definition BINARY_STATUS : Z := 0x01.
Definition BINARY_KEEP_ALIVE : Z := 0x02.
Definition BINARY_TELEMETRY : Z := 0x03.
Definition BINARY_MMA : Z := 0x04.
Definition BINARY_ACL : Z := 0x05.
Definition BINARY_NEIGHBOURS : Z := 0x06.
Definition BINARY_OWNER_INFO : Z := 0x07.
Definition ANON_BASIC_FEAT_BRIDGE_MASK : Z := 0x03.
Definition ANON_BASIC_FEAT_DISABLED : Z := 0x80.

(** ** The 73-byte contact record *)

Definition EXPORTED_CONTACT_SIZE : Z := 73.

(** [struct] pads or cuts a ["32s"] field. *)
Definition pack_32s (b : bytes) : bytes := ljust (slice_to b 32) 32.

Definition encode_exported_contact (pub_key : bytes) (adv_type : Z) (name : pystr) (gps_lat gps_lon : float) : res bytes :=
  nb ← encode name;
  let name_field := ljust (slice_to nb CONTACT_NAME_SIZE) CONTACT_NAME_SIZE in
  lat ← microdegrees gps_lat;
  lon ← microdegrees gps_lon;
  ty ← pack_B adv_type;
  lat ← pack_i lat;
  lon ← pack_i lon;
  mret (pack_32s pub_key ++ ty ++ pack_32s name_field ++ lat ++ lon).

Record exported_contact := mkExported {
  ex_public_key : bytes;
  ex_adv_type : Z;
  ex_name : pystr;
  ex_name_raw : bytes;
  ex_gps_lat : float;
  ex_gps_lon : float;
  ex_lat_microdeg : Z;
  ex_lon_microdeg : Z
}.

Definition decode_exported_contact (data : bytes) : option exported_contact :=
  if len data <? EXPORTED_CONTACT_SIZE then None
  else
    let adv_type := from_le (slice data 32 33) in
    let name_raw := before_nul (slice data 33 65) in
    let lat := from_le_signed (slice data 65 69) in
    let lon := from_le_signed (slice data 69 73) in
    Some (mkExported (slice data 0 32) adv_type (decode_replace name_raw) name_raw (degrees lat) (degrees lon) lat lon).

(** ** Parsed responses *)

Record status := mkStatus {
  pubkey_pre : string;
  bat : Z;
  tx_queue_len : Z;
  noise_floor : Z;
  last_rssi : Z;
  nb_recv : Z;
  nb_sent : Z;
  airtime : Z;
  uptime : Z;
  sent_flood : Z;
  sent_direct : Z;
  recv_flood : Z;
  recv_direct : Z;
  full_evts : Z;
  last_snr : float;
  direct_dups : Z;
  flood_dups : Z;
  rx_airtime : Z
}.

Record acl_entry := mkAcl { acl_key : string; perm : Z }.
Record neighbour := mkNeighbour { nb_pubkey : string; secs_ago : Z; nb_snr : float }.

(** [context] of a request. *)
Record request_context := mkContext { anon_sub_type : option Z; pubkey_prefix_length : option Z }.
Definition no_context : request_context := mkContext None None.

Section parsing.
(** A value of an LPP field, and [cayennelpp.LppFrame.from_bytes]: channel,
    type and value of each field; an error also when the package is missing. *)
Context {V : Type} (lpp_from_bytes : bytes → res (list (Z * Z * V))).

Inductive parsed : Type :=
| RawResponse (raw_hex : string) (request_type : Z)
| RawAnon (raw_hex : string) (sub_type : Z)
| RawOnly (raw_hex : string)
| Status (st : status)
| TelemetryData (raw_hex : string) (lpp : option (list (Z * Z * V)))
| Mma (raw_hex : string) (mma : option (list (Z * Z * V)))
| Acl (acl : list acl_entry)
| Neighbours (neighbours_count results_count : Z) (neighbours : list neighbour)
| OwnerInfo (tag : Z) (version node_name owner_info raw_text : pystr)
| RegionList (clock : Z) (regions : list pystr)
| AnonOwner (clock : Z) (node_name owner_info : pystr)
| AnonBasic (clock features : Z) (is_bridge : bool) (bridge_type : Z) (is_disabled : bool).

(** [int.from_bytes(data[i:j], "little")], also signed. *)
Definition u_at (data : bytes) (i j : Z) : Z := from_le (slice data i j).
Definition s_at (data : bytes) (i j : Z) : Z := from_le_signed (slice data i j).
(** [n / 4] *)
Definition quarter (n : Z) : float := SFdiv prec64 emax64 (f_of_Z n) (f_of_Z 4).

Definition _parse_status (data : bytes) (pubkey_prefix : option string) : status :=
  let own := bool_decide (pubkey_prefix = None) && (len data >=? 8) in
  let offset := if own then 8 else 0 in
  mkStatus (if own then hex (slice data 2 8) else default ""%string pubkey_prefix)
    (u_at data offset (offset + 2)) (u_at data (offset + 2) (offset + 4))
    (s_at data (offset + 4) (offset + 6)) (s_at data (offset + 6) (offset + 8))
    (u_at data (offset + 8) (offset + 12)) (u_at data (offset + 12) (offset + 16))
    (u_at data (offset + 16) (offset + 20)) (u_at data (offset + 20) (offset + 24))
    (u_at data (offset + 24) (offset + 28)) (u_at data (offset + 28) (offset + 32))
    (u_at data (offset + 32) (offset + 36)) (u_at data (offset + 36) (offset + 40))
    (u_at data (offset + 40) (offset + 42)) (quarter (s_at data (offset + 42) (offset + 44)))
    (u_at data (offset + 44) (offset + 46)) (u_at data (offset + 46) (offset + 48))
    (u_at data (offset + 48) (offset + 52)).

Definition _parse_telemetry (data : bytes) : parsed :=
  TelemetryData (hex data) (match lpp_from_bytes data with Ok l => Some l | Err _ => None end).

Definition _parse_mma (data : bytes) : parsed :=
  Mma (hex data) (match lpp_from_bytes data with Ok l => Some l | Err _ => None end).

(** [text.split(sep, maxsplit)] for one character; [None]: no limit. *)
Fixpoint split_on (sep : Z) (maxsplit : option nat) (s : pystr) : list pystr :=
  match maxsplit with
  | Some O => [s]
  | _ =>
      match s with
      | [] => [[]]
      | c :: s' =>
          if c =? sep then [] :: split_on sep (option_map Nat.pred maxsplit) s'
          else match split_on sep maxsplit s' with
               | part :: rest => (c :: part) :: rest
               | [] => [[c]]
               end
      end
  end.

(** [parts[i] if len(parts) > i else ""] *)
Definition part (parts : list pystr) (i : nat) : pystr := default [] (parts !! i).

Definition _parse_owner_info (data : bytes) : parsed :=
  let text := strip (decode_replace (slice_from data 4)) in
  let parts := split_on 10 (Some 2%nat) text in
  OwnerInfo (from_le (slice_to data 4)) (part parts 0) (part parts 1) (part parts 2) text.

Definition reply_clock (data : bytes) : Z := if len data >=? 4 then from_le (slice_to data 4) else 0.

Definition _parse_regions (data : bytes) : parsed :=
  let raw := before_nul (slice_from data 4) in
  let text := decode_replace raw in
  RegionList (reply_clock data) (List.filter (fun r => negb (bool_decide (r = []))) (split_on 44 None text)).

Definition _parse_anon_owner (data : bytes) : parsed :=
  let text := decode_replace (before_nul (slice_from data 4)) in
  let parts := split_on 10 (Some 1%nat) text in
  AnonOwner (reply_clock data) (part parts 0) (part parts 1).

Definition _parse_anon_basic (data : bytes) : parsed :=
  let features := if len data >=? 5 then match index data 4 with Ok f => f | Err _ => 0 end else 0 in
  let bridge_type := Z.land features ANON_BASIC_FEAT_BRIDGE_MASK in
  AnonBasic (reply_clock data) features (negb (bridge_type =? 0)) bridge_type
    (negb (Z.land features ANON_BASIC_FEAT_DISABLED =? 0)).

(** The [while] loop; [fuel] is the length of the buffer. *)
Fixpoint acl_loop (fuel : nat) (i : Z) (buf : bytes) : list acl_entry :=
  match fuel with
  | O => []
  | S fuel =>
      if i + 7 <=? len buf then
        let key := hex (slice buf i (i + 6)) in
        let perm := match index buf (i + 6) with Ok p => p | Err _ => 0 end in
        let rest := acl_loop fuel (i + 7) buf in
        if String.eqb key "000000000000" then rest else mkAcl key perm :: rest
      else []
  end.

Definition _parse_acl (buf : bytes) : parsed := Acl (acl_loop (length buf) 0 buf).

(** [for _ in range(results_count)]; [n] iterations are left. *)
Fixpoint neighbours_loop (n : nat) (pk_plen i : Z) (data : bytes) : list neighbour :=
  match n with
  | O => []
  | S n =>
      if i + pk_plen + 4 + 1 >? len data then []
      else
        let pubkey := hex (slice data i (i + pk_plen)) in
        let i := i + pk_plen in
        let secs_ago := s_at data i (i + 4) in
        let i := i + 4 in
        let snr := quarter (s_at data i (i + 1)) in
        let i := i + 1 in
        mkNeighbour pubkey secs_ago snr :: neighbours_loop n pk_plen i data
  end.

Definition _parse_neighbours (data : bytes) (context : request_context) : parsed :=
  if len data <? 4 then RawOnly (hex data)
  else
    let pk_plen := default 6 (pubkey_prefix_length context) in
    let neighbours_count := s_at data 0 2 in
    let results_count := s_at data 2 4 in
    Neighbours neighbours_count results_count (neighbours_loop (Z.to_nat results_count) pk_plen 4 data).

Definition parse_binary_response (request_type : Z) (data : bytes) (pubkey_prefix : string) (context : request_context) : parsed :=
  match anon_sub_type context with
  | Some sub_type =>
      if sub_type =? ANON_REQ_TYPE_REGIONS then _parse_regions data
      else if sub_type =? ANON_REQ_TYPE_OWNER then _parse_anon_owner data
      else if sub_type =? ANON_REQ_TYPE_BASIC then _parse_anon_basic data
      else RawAnon (hex data) sub_type
  | None =>
      if (request_type =? BINARY_STATUS) && (len data >=? 52) then
        Status (_parse_status data (if String.eqb pubkey_prefix "" then None else Some pubkey_prefix))
      else if (request_type =? BINARY_TELEMETRY) && (len data >=? 0) then _parse_telemetry data
      else if (request_type =? BINARY_MMA) && (len data >=? 4) then _parse_mma (slice_from data 4)
      else if request_type =? BINARY_ACL then _parse_acl data
      else if request_type =? BINARY_NEIGHBOURS then _parse_neighbours data context
      else if (request_type =? BINARY_OWNER_INFO) && (len data >=? 4) then _parse_owner_info data
      else RawResponse (hex data) request_type
  end.

End parsing.
Arguments parsed V : clear implicits.
Arguments RawResponse {V} _ _.
Arguments RawAnon {V} _ _.
Arguments RawOnly {V} _.
Arguments Status {V} _.
Arguments TelemetryData {V} _ _.
Arguments Mma {V} _ _.
Arguments Acl {V} _.
Arguments Neighbours {V} _ _ _.
Arguments OwnerInfo {V} _ _ _ _ _.
Arguments RegionList {V} _ _.
Arguments AnonOwner {V} _ _ _.
Arguments AnonBasic {V} _ _ _ _ _.

(** ** Splitting and joining text *)

(** [sep.join(l)] *)
Fixpoint joined (sep : Z) (l : list (list Z)) : list Z :=
  match l with
  | [] => []
  | [s] => s
  | s :: l' => s ++ sep :: joined sep l'
  end.

Lemma joined_cons sep s l : l ≠ [] → joined sep (s :: l) = s ++ sep :: joined sep l.
Proof. by destruct l. Qed.

Lemma split_on_free sep s : sep ∉ s → split_on sep None s = [s].
Proof.
  induction s as [|c s IH]; intros Hn; [done|]. apply not_elem_of_cons in Hn as [Hc Hn]. cbn.
  rewrite IH by done. by destruct (Z.eqb_spec c sep); subst.
Qed.

Lemma split_on_sep sep s t : sep ∉ s → split_on sep None (s ++ sep :: t) = s :: split_on sep None t.
Proof.
  induction s as [|c s IH]; intros Hn; cbn; [by rewrite Z.eqb_refl|].
  apply not_elem_of_cons in Hn as [Hc Hn]. destruct (Z.eqb_spec c sep); [by subst|]. by rewrite IH.
Qed.

Lemma split_joined sep l : l ≠ [] → Forall (λ s, sep ∉ s) l → split_on sep None (joined sep l) = l.
Proof.
  intros Hne Hl. induction Hl as [|s l Hs Hl IH]; [done|]. destruct l as [|s' l]; [by apply split_on_free|].
  rewrite joined_cons, split_on_sep by done. by rewrite IH.
Qed.

(** What stands before a separator of joined parts is some of the parts. *)
Lemma joined_prefix sep l P R :
  Forall (λ s, sep ∉ s) l → joined sep l = P ++ sep :: R → ∃ k, (0 < k < length l)%nat ∧ P = joined sep (take k l).
Proof.
  intros Hl. revert P. induction Hl as [|s l Hs Hl IH]; intros P HP; [by destruct P|].
  destruct l as [|s' l]; [exfalso; apply Hs; cbn in HP; rewrite HP; set_solver|].
  rewrite joined_cons in HP by done. set (m := s' :: l) in *.
  apply app_eq_inv in HP as [(k & Es & Ek)|(k & Ep & Ek)].
  - destruct k as [|c k]; [|exfalso; injection Ek as <- _; apply Hs; rewrite Es; set_solver].
    rewrite app_nil_r in Es. subst. exists 1%nat. split; [cbn; lia|done].
  - destruct k as [|c k]; [rewrite app_nil_r in Ep; subst; exists 1%nat; split; [cbn; lia|done]|].
    injection Ek as <- Ek. destruct (IH k) as (n & Hn & ->); [done|].
    exists (S n). split; [cbn in *; lia|]. rewrite Ep. cbn [take]. rewrite joined_cons; [done|]. destruct n; [lia|done].
Qed.

Lemma joined_le sep l s : s ∈ l → (length s ≤ length (joined sep l))%nat.
Proof.
  induction 1 as [s l|s s' l Hs IH].
  - destruct l; [done|]. rewrite joined_cons, length_app by done. lia.
  - rewrite joined_cons by (by destruct Hs). rewrite length_app. cbn. lia.
Qed.

Lemma joined_free x sep l : x ≠ sep → Forall (λ s, x ∉ s) l → x ∉ joined sep l.
Proof.
  intros Hne Hl. induction Hl as [|s l Hs Hl IH]; [set_solver|]. destruct l as [|s' l]; [done|].
  rewrite joined_cons by done. apply not_elem_of_app. split; [done|]. by apply not_elem_of_cons.
Qed.

Lemma encode_joined l bs : Forall2 (λ s b, encode s = Ok b) l bs → encode (joined 44 l) = Ok (joined 44 bs).
Proof.
  induction 1 as [|s b l bs Hs Hl IH]; [done|]. destruct Hl as [|s' b' l bs Hs' Hl]; [done|].
  rewrite !joined_cons by done. apply encode_app; [done|]. cbn [encode]. change (is_scalar 44) with true. by rewrite IH.
Qed.

Lemma encode_char_free x c : 0 ≤ x < 128 → c ≠ x → is_scalar c = true → x ∉ encode_char c.
Proof.
  intros Hx Hc Hs He. unfold encode_char, is_scalar in *. bool_hyps.
  repeat case_match; bool_hyps; set_unfold; destruct_or?; try lia; try done; zdm.
Qed.

Lemma encode_free x s b : 0 ≤ x < 128 → x ∉ s → encode s = Ok b → x ∉ b.
Proof.
  intros Hx. revert b. induction s as [|c s IH]; intros b Hn Hb; [injection Hb as <-; set_solver|].
  apply encode_cons_inv in Hb as (r & Hc & Hr & ->). apply not_elem_of_cons in Hn as [Hn1 Hn].
  apply not_elem_of_app. split; [by apply encode_char_free|by apply IH].
Qed.

Lemma encode_ignore_ok s b : encode s = Ok b → encode_ignore s = b.
Proof.
  revert b. induction s as [|c s IH]; intros b Hb; [by injection Hb as <-|].
  apply encode_cons_inv in Hb as (r & Hc & Hr & ->). unfold encode_ignore in *. cbn. rewrite Hc. cbn. by rewrite (IH _ Hr).
Qed.

(** ** The regions a repeater answers with *)

(** Names the list can carry; [max_names] of [region_bytes] is 160. *)
Definition region_name_ok (r : pystr) : Prop :=
  r ≠ [] ∧ (44 ∉ r) ∧ (0 ∉ r) ∧ ∃ b, encode r = Ok b ∧ len b < 160.

Lemma region_names_encoded l : Forall region_name_ok l →
  ∃ bs, Forall2 (λ s b, encode s = Ok b) l bs ∧ Forall (λ b, (44 ∉ b) ∧ len b < 160) bs.
Proof.
  induction 1 as [|s l (Hne & Hc & H0 & b & Hb & Hl) _ (bs & IH1 & IH2)]; [by exists []|].
  exists (b :: bs). split; constructor; try done. split; [|done]. by apply (encode_free 44 s).
Qed.

Lemma rfind_last x P R : x ∉ R → rfind x (P ++ x :: R) = len P.
Proof.
  intros Hn. unfold rfind. rewrite reverse_app, reverse_cons, <- app_assoc.
  assert (list_find (λ y, y = x) (reverse R ++ [x] ++ reverse P) = Some (length R, x)) as ->.
  { apply list_find_Some. split_and!; [rewrite lookup_app_r; rewrite length_reverse; [by rewrite Nat.sub_diag|lia]|done|].
    intros j y Hj Hlt ->. rewrite lookup_app_l in Hj by (rewrite length_reverse; lia).
    apply Hn, elem_of_reverse. by eapply list_elem_of_lookup_2. }
  rewrite len_app, len_cons. unfold len. lia.
Qed.

(** What is sent is the encoding of some of the names, of all if they fit. *)
Lemma region_bytes_names l : Forall region_name_ok l →
  ∃ k b, encode (joined 44 l) = Ok b ∧ encode (joined 44 (take k l)) = Ok (AnonRequestHandler.region_bytes (joined 44 l))
    ∧ (len b ≤ 160 → (length l ≤ k)%nat) ∧ (0 < k)%nat.
Proof.
  intros Hl. destruct (region_names_encoded l Hl) as (bs & Hbs & Hfree).
  pose proof (encode_joined l bs Hbs) as He. unfold AnonRequestHandler.region_bytes. rewrite (encode_ignore_ok _ _ He).
  change (MAX_PACKET_PAYLOAD - 24) with 160. destruct (Z.gtb_spec (len (joined 44 bs)) 160) as [Hgt|Hle].
  - destruct Hbs as [|s b l bs Hs Hbs]; [done|].
    apply Forall_cons in Hfree as Hb'. destruct Hb' as [[_ Hb] _].
    destruct Hbs as [|s' b' l bs Hs' Hbs]; [cbn in *; lia|].
    set (J := joined 44 (b :: b' :: bs)) in *. pose proof (slice_to_from J 160 ltac:(lia)) as HJ.
    assert (44 ∈ slice_to J 160) as (P & R & E & HR)%list_elem_of_split_r.
    { unfold J. rewrite joined_cons, slice_to_nonneg by (done || lia). apply list_elem_of_lookup. exists (length b).
      unfold len in Hb. rewrite lookup_take_lt, lookup_app_r by lia. by rewrite Nat.sub_diag. }
    rewrite E in *. rewrite rfind_last by done. rewrite <- app_assoc in HJ.
    destruct (joined_prefix 44 (b :: b' :: bs) P (R ++ slice_from J 160)) as (k & Hk & HP).
    { eapply Forall_impl; [exact Hfree|]. by intros ? []. } { done. }
    assert (0 < len P).
    { rewrite HP. destruct k as [|k]; [lia|]. cbn [take]. pose proof (joined_le 44 (b :: take k (b' :: bs)) b (list_elem_of_here _ _)).
      apply list.Forall_cons in Hl as [(Hne & _) _]. destruct s as [|c s]; [done|].
      apply encode_cons_inv in Hs as (r & Hc & Hr & ->). rewrite length_app in *. pose proof (encode_char_length c). unfold len. lia. }
    replace (len P >? 0) with true by lia. rewrite slice_to_app_exact by done.
    exists k, J. split_and!; [done| |lia|lia]. rewrite HP. apply encode_joined.
    apply Forall2_take. by repeat constructor.
  - exists (S (length l)), (joined 44 bs). rewrite take_ge by lia. split_and!; [done|done|lia|lia].
Qed.

(** The regions that a repeater names in its answer to a discovery request are
    read by the client, in order: all of them when the names fit the packet,
    else some first ones, uncut. [data] is what the answer decrypts to, padded
    to the cipher's blocks, after the four bytes of the tag. *)
Theorem regions_reported {V} (lpp : bytes → res (list (Z * Z * V))) l owner features clock plaintext reply n rt prefix :
  Forall region_name_ok l → 4 ≤ len plaintext →
  AnonRequestHandler.discovery_reply (Ok (joined 44 l)) owner features (Ok clock) ANON_REQ_TYPE_REGIONS plaintext = Ok (Some reply) →
  ∃ k, parse_binary_response lpp rt (slice_from (reply ++ zeros n) 4) prefix (mkContext (Some ANON_REQ_TYPE_REGIONS) None)
       = RegionList (clock mod 2 ^ 32) (take k l)
     ∧ (l ≠ [] → (0 < k)%nat)
     ∧ (len (encode_ignore (joined 44 l)) ≤ 160 → (length l ≤ k)%nat).
Proof.
  intros Hl Hp Hr. unfold AnonRequestHandler.discovery_reply in Hr. cbn [mbind res_bind] in Hr.
  change 0xFFFFFFFF with (Z.ones 32) in Hr. rewrite Z.land_ones in Hr by lia.
  unfold pack_I in Hr. rewrite pack_uint_ok in Hr by zdm.
  set (c := le_bytes 4 (clock mod 2 ^ 32)) in *. injection Hr as <-.
  destruct (region_bytes_names l Hl) as (k & b & Hb & Hk & Hall & Hpos). exists k.
  set (names := AnonRequestHandler.region_bytes _) in *. split; [|split; [done|by rewrite (encode_ignore_ok _ _ Hb)]].
  rewrite <- !app_assoc, slice_from_app_exact by (rewrite len_slice_to; lia).
  unfold parse_binary_response. cbn [anon_sub_type]. change (ANON_REQ_TYPE_REGIONS =? ANON_REQ_TYPE_REGIONS) with true. cbn iota.
  unfold _parse_regions, reply_clock. assert (len c = 4) as Hc by apply len_le_bytes.
  rewrite !len_app, Hc, slice_to_app_exact, slice_from_app_exact by done.
  pose proof (len_nonneg names). pose proof (len_nonneg (zeros n)).
  replace (4 + (len names + len (zeros n)) >=? 4) with true by lia. unfold c at 1. rewrite from_le_le_bytes by zdm.
  assert (Forall region_name_ok (take k l)) as Ht by by apply Forall_take.
  rewrite (before_nul_app_zeros names) by (first [eapply nul_free_encode; [|exact Hk]; apply joined_free; [done|]; eapply Forall_impl; [exact Ht|]; by intros ? (_ & _ & ? & _) | apply zeros_start]).
  rewrite (decode_replace_encode _ _ Hk). f_equal. destruct (take k l) as [|r t] eqn:E; [done|].
  rewrite split_joined by (done || (eapply Forall_impl; [exact Ht|]; by intros ? (_ & ? & _))).
  clear -Ht. induction Ht as [|r' t' [Hr _] _ IH]; [done|]. cbn. rewrite bool_decide_false by done. cbn. by f_equal.
Qed.

(** ** Lists of fixed-size entries *)

Lemma acl_key_zero key : bytes_ok key → (hex key = "000000000000"%string ↔ key = zeros 6).
Proof.
  intros Hk. split; [|by intros ->]. intros E. apply (f_equal fromhex) in E. rewrite fromhex_hex in E by done.
  by vm_compute in E; injection E as ->.
Qed.

Definition acl_bytes (e : bytes * Z) : bytes := e.1 ++ [e.2].

Lemma acl_loop_read l : ∀ done fuel rest,
  Forall (λ e, len e.1 = 6 ∧ bytes_ok e.1) l → len rest < 7 → (length l ≤ fuel)%nat →
  acl_loop fuel (len done) (done ++ concat (map acl_bytes l) ++ rest)
  = map (λ e, mkAcl (hex e.1) e.2) (List.filter (λ e, negb (bytes_eqb e.1 (zeros 6))) l).
Proof.
  induction l as [|[key p] l IH]; intros dn fuel rest Hl Hr Hf; cbn [map concat app List.filter].
  - destruct fuel as [|fuel]; [done|]. cbn. rewrite len_app. by replace (len dn + 7 <=? len dn + len rest) with false by lia.
  - apply list.Forall_cons in Hl as [[Hk Hok] Hl]. destruct fuel as [|fuel]; [cbn in *; lia|]. cbn [fst snd] in *.
    unfold acl_bytes at 1. cbn [fst snd acl_loop]. set (tl := concat (map acl_bytes l)) in *.
    pose proof (len_nonneg tl). pose proof (len_nonneg rest).
    replace (len dn + 7 <=? _) with true by (rewrite !len_app, Hk; change (len [p]) with 1; lia).
    rewrite <- !app_assoc, (slice_app_exact dn key) by lia.
    rewrite (app_assoc dn key). change ([p] ++ tl ++ rest) with (p :: tl ++ rest). rewrite (index_app_exact (dn ++ key)) by (rewrite len_app; lia).
    replace (len dn + 7) with (len (dn ++ key ++ [p])) by (rewrite !len_app, Hk; done).
    replace ((dn ++ key) ++ p :: tl ++ rest) with ((dn ++ key ++ [p]) ++ tl ++ rest) by (rewrite <- !app_assoc; done).
    rewrite IH by (done || cbn in *; lia).
    destruct (String.eqb_spec (hex key) "000000000000") as [E|E].
    + apply acl_key_zero in E as ->; done.
    + unfold bytes_eqb. rewrite bool_decide_false; [done|]. intros Hz. by apply E, acl_key_zero.
Qed.

(** Every whole entry of an access list is reported, but those without a key. *)
Lemma acl_parsed {V} l rest :
  Forall (λ e, len e.1 = 6 ∧ bytes_ok e.1) l → len rest < 7 →
  @_parse_acl V (concat (map acl_bytes l) ++ rest)
  = Acl (map (λ e, mkAcl (hex e.1) e.2) (List.filter (λ e, negb (bytes_eqb e.1 (zeros 6))) l)).
Proof.
  intros Hl Hr. unfold _parse_acl. f_equal. apply (acl_loop_read l []); [done|done|].
  rewrite length_app. induction l as [|[k p] l IH]; cbn; [lia|].
  apply list.Forall_cons in Hl as [_ Hl]. specialize (IH Hl). rewrite !length_app. cbn. lia.
Qed.

(** A neighbour: key prefix, seconds, SNR in quarter decibels. *)
Definition neighbour_bytes (e : bytes * bytes * bytes) : bytes := e.1.1 ++ e.1.2 ++ e.2.
Definition neighbour_read (e : bytes * bytes * bytes) : neighbour :=
  mkNeighbour (hex e.1.1) (from_le_signed e.1.2) (quarter (from_le_signed e.2)).

Lemma neighbours_loop_read plen l : ∀ n done rest,
  Forall (λ e, len e.1.1 = plen ∧ len e.1.2 = 4 ∧ len e.2 = 1) l → 0 ≤ plen → len rest < plen + 5 →
  neighbours_loop n plen (len done) (done ++ concat (map neighbour_bytes l) ++ rest) = take n (map neighbour_read l).
Proof.
  induction l as [|[[key secs] snr] l IH]; intros n dn rest Hl Hp Hr; cbn [map concat app].
  - destruct n as [|n]; [done|]. cbn [neighbours_loop take]. rewrite len_app.
    by replace (_ >? _) with true by lia.
  - apply list.Forall_cons in Hl as [(Hk & Hs & Hq) Hl]. cbn [fst snd] in *. destruct n as [|n]; [done|].
    unfold neighbour_bytes at 1. cbn [fst snd neighbours_loop take]. set (tl := concat (map neighbour_bytes l)) in *.
    pose proof (len_nonneg tl). pose proof (len_nonneg rest).
    replace (_ >? _) with false by (rewrite !len_app; lia).
    rewrite <- !app_assoc. unfold s_at. rewrite (slice_app_exact dn key) by lia.
    rewrite (app_assoc dn key), (slice_app_exact (dn ++ key) secs) by (rewrite len_app; lia).
    rewrite (app_assoc (dn ++ key) secs), (slice_app_exact ((dn ++ key) ++ secs) snr) by (rewrite !len_app; lia).
    replace (len dn + plen + 4 + 1) with (len (((dn ++ key) ++ secs) ++ snr)) by (rewrite !len_app; lia).
    rewrite (app_assoc ((dn ++ key) ++ secs) snr), IH by done. done.
Qed.

(** Of a neighbour table the first [results_count] entries are reported. *)
Lemma neighbours_parsed {V} nc rc l rest plen ctx :
  - 2 ^ 15 ≤ nc < 2 ^ 15 → 0 ≤ rc < 2 ^ 15 → 0 ≤ plen → default 6 (pubkey_prefix_length ctx) = plen →
  Forall (λ e, len e.1.1 = plen ∧ len e.1.2 = 4 ∧ len e.2 = 1) l → len rest < plen + 5 →
  @_parse_neighbours V (le_bytes 2 (nc mod 2 ^ 16) ++ le_bytes 2 rc ++ concat (map neighbour_bytes l) ++ rest) ctx
  = Neighbours nc rc (take (Z.to_nat rc) (map neighbour_read l)).
Proof.
  intros Hn Hc Hp Hd Hl Hr. unfold _parse_neighbours. rewrite Hd.
  set (body := concat _ ++ rest) in *. pose proof (len_nonneg body).
  assert (∀ z, len (le_bytes 2 z) = 2) as H2 by (intros; apply len_le_bytes).
  replace (_ <? 4) with false by (rewrite !len_app, !H2; lia). unfold s_at.
  set (A := le_bytes 2 (nc mod 2 ^ 16)) in *. set (B := le_bytes 2 rc) in *.
  assert (len A = 2) as HA by apply H2. assert (len B = 2) as HB' by apply H2.
  replace (slice (A ++ B ++ body) 0 2) with A by (symmetry; apply (slice_app_exact []); [done|by rewrite HA]).
  rewrite (slice_app_exact A B) by (rewrite HA; rewrite ?HB'; done).
  assert (∀ z, - 2 ^ 15 ≤ z < 2 ^ 15 → from_le_signed (le_bytes 2 (z mod 2 ^ 16)) = z) as Hsig.
  { intros z Hz. unfold from_le_signed. rewrite from_le_le_bytes, H2 by zdm. change (2 ^ (8 * 2)) with (2 ^ 16).
    change (2 ^ 16 / 2) with (2 ^ 15). rewrite bool_decide_false by done. cbn [negb andb].
    destruct (2 ^ 15 <=? z mod 2 ^ 16) eqn:E; bool_hyps; zdm. }
  assert (from_le_signed B = rc) as HB by (unfold B; rewrite <- (Z.mod_small rc (2 ^ 16)) at 1 by lia; by apply Hsig; lia).
  unfold A at 1. rewrite HB, Hsig by lia. f_equal. replace 4 with (len (A ++ B)) by (by rewrite len_app, HA, HB').
  unfold body. rewrite app_assoc. by apply neighbours_loop_read.
Qed.

(** ** The contact record, round trip *)

(** The positions come back in microdegrees. *)
Lemma exported_contact_roundtrip pk ty name nb lat lon zlat zlon :
  len pk = 32 → is_byte ty → encode name = Ok nb → len nb ≤ 32 → 0 ∉ name →
  microdegrees lat = Ok zlat → - 2 ^ 31 ≤ zlat < 2 ^ 31 → microdegrees lon = Ok zlon → - 2 ^ 31 ≤ zlon < 2 ^ 31 →
  ∃ d, encode_exported_contact pk ty name lat lon = Ok d ∧ len d = 73
    ∧ decode_exported_contact d = Some (mkExported pk ty name nb (degrees zlat) (degrees zlon) zlat zlon).
Proof.
  intros Hk Ht Hn Hl H0 Hlat Blat Hlon Blon.
  destruct (pack_i_ok zlat Blat) as (blat & Plat & Llat & Vlat). destruct (pack_i_ok zlon Blon) as (blon & Plon & Llon & Vlon).
  pose proof (len_nonneg nb). unfold is_byte in Ht.
  assert (∀ b, len b = 32 → pack_32s b = b) as H32.
  { intros b Hb. unfold pack_32s, ljust. rewrite slice_to_ge by lia. rewrite Hb. apply app_nil_r. }
  unfold encode_exported_contact. rewrite Hn, Hlat, Hlon. unfold pack_B. rewrite pack_uint_ok by lia.
  cbn [mbind res_bind]. rewrite Plat, Plon.
  cbn [mbind res_bind mret res_ret]. unfold CONTACT_NAME_SIZE. set (nf := ljust (slice_to nb 32) 32).
  assert (nf = nb ++ zeros (32 - len nb)) as Enf by (unfold nf, ljust; rewrite slice_to_ge by lia; done).
  assert (len nf = 32) as Lnf by (rewrite Enf, len_app, len_zeros; lia).
  rewrite !H32 by done. assert (len (le_bytes 1 ty) = 1) as Lt by apply len_le_bytes.
  eexists. split; [done|]. split; [rewrite !len_app; lia|].
  unfold decode_exported_contact, EXPORTED_CONTACT_SIZE. rewrite !len_app, Hk, Lt, Lnf, Llat, Llon. cbn [Z.add Z.ltb]. cbn iota.
  set (t := le_bytes 1 ty) in *. set (d := pk ++ _).
  assert (slice d 0 32 = pk) as -> by (apply (slice_app_exact []); [done|by rewrite Hk]).
  assert (slice d 32 33 = t) as -> by (apply (slice_app_exact pk); lia).
  assert (slice d 33 65 = nf) as -> by (unfold d; rewrite (app_assoc pk t); apply slice_app_exact; rewrite len_app; lia).
  assert (slice d 65 69 = blat) as ->
    by (unfold d; rewrite (app_assoc pk t), (app_assoc (pk ++ t) nf); apply slice_app_exact; rewrite !len_app; lia).
  assert (slice d 69 73 = blon) as ->.
  { unfold d. rewrite (app_assoc pk t), (app_assoc (pk ++ t) nf), (app_assoc ((pk ++ t) ++ nf) blat), <- (app_nil_r blon) at 1.
    apply slice_app_exact; rewrite !len_app; lia. }
  rewrite Vlat, Vlon. unfold t. rewrite from_le_le_bytes by lia. rewrite Enf.
  rewrite (before_nul_app_zeros nb) by (first [by eapply nul_free_encode|apply zeros_start]).
  by rewrite (decode_replace_encode _ _ Hn).
Qed.

(** ** Examples *)

Definition no_lpp (b : bytes) : res (list (Z * Z * unit)) := Err (OtherError "ImportError").

(** [_parse_owner_info] skips four bytes as a tag. *)
Example owner_text_cut :
  parse_binary_response no_lpp BINARY_OWNER_INFO ([118; 49; 46; 50; 10] ++ [78; 10] ++ [79]) "" no_context
  = OwnerInfo 0x322e3176 [78] [79] [] [78; 10; 79].
Proof. vm_compute. reflexivity. Qed.

Definition demo_regions : list pystr := [[42]; [69; 85]].

Lemma regions_reported_witness :
  Forall region_name_ok demo_regions ∧ 4 ≤ len [1; 2; 3; 4; 1; 0]
  ∧ AnonRequestHandler.discovery_reply (Ok (joined 44 demo_regions)) (Ok ([], [])) (Ok 0) (Ok 1700000000) ANON_REQ_TYPE_REGIONS
      [1; 2; 3; 4; 1; 0] = Ok (Some [1; 2; 3; 4; 0; 241; 83; 101; 42; 44; 69; 85])
  ∧ ∃ k, parse_binary_response no_lpp 7 (slice_from ([1; 2; 3; 4; 0; 241; 83; 101; 42; 44; 69; 85] ++ zeros 4) 4) ""
           (mkContext (Some ANON_REQ_TYPE_REGIONS) None)
         = RegionList (1700000000 mod 2 ^ 32) (take k demo_regions)
       ∧ (demo_regions ≠ [] → (0 < k)%nat)
       ∧ (len (encode_ignore (joined 44 demo_regions)) ≤ 160 → (length demo_regions ≤ k)%nat).
Proof.
  assert (Forall region_name_ok demo_regions) as Hl.
  { repeat constructor; try (decide_now); eexists; split; (reflexivity || decide_now). }
  split; [exact Hl|]. split; [by vm_compute|]. split; [vm_compute; reflexivity|].
  apply (regions_reported no_lpp _ (Ok ([], [])) (Ok 0) 1700000000 [1; 2; 3; 4; 1; 0]); [exact Hl|by vm_compute|vm_compute; reflexivity].
Defined.
