(* ===== verification/AdvertHandler.v ===== *)
(** * Received adverts ([node/handlers/advert.py])

    An advert is parsed, its signature checked, its application data decoded,
    and what it says of a node published. The signature scheme comes from a
    third-party library: [verify] is [Identity(pubkey).verify(message,
    signature)], an error when the key is refused. *)

From S2P Require Import Prelude PyData Utf8 PyFloat Constants PacketUtils Packet PacketBuilder Contacts Utils.

Class SignatureScheme := { verify : bytes → bytes → bytes → res bool }.

(** A signature of an identity verifies under its public key. *)
Class SignatureLaws `{SignatureScheme} (id : PacketBuilder.LocalIdentity) : Prop :=
  verify_sign : ∀ m, verify (PacketBuilder.get_public_key id) m (PacketBuilder.sign id m) = Ok true.

Module AdvertHandler.

(** The published [event_data] ([NODE_DISCOVERED]). *)
Record advert_data := mkAdvertData {
  public_key : string;
  name : pystr;
  contact_type : Z;
  flags : Z;
  lat : float;
  lon : float;
  advert_timestamp : Z;
  timestamp : Z;
  snr : float;
  rssi : Z;
  inbound_path : bytes;
  path_len_encoded : Z;
  raw_advert_packet : option bytes
}.

Section handler.
Context `{S : SignatureScheme}.

Definition _verify_advert_signature (pubkey timestamp appdata signature : bytes) : bool :=
  if negb (len pubkey =? PUB_KEY_SIZE) then false
  else if negb (len signature =? SIGNATURE_SIZE) then false
  else match verify pubkey (pubkey ++ timestamp ++ appdata) signature with Ok b => b | Err _ => false end.

(** [decoded.get(key) or 0.0] *)
Definition coordinate (x : option float) : float :=
  match x with Some v => float_or_zero v | None => f_zero end.

(** [__call__]: what is published, if anything. [self_key] is the key of the
    local identity; [now] and [now'] are two readings of [int(time.time())]. *)
Definition call (self_key : bytes) (now now' : Z) (packet : Packet.t) : option advert_data :=
  let payload := Packet.get_payload packet in
  if bool_decide (payload = []) then None
  else
    match
      (parsed ← Utils.parse_advert_payload payload;
       pubkey_bytes ← fromhex (Utils.pubkey parsed);
       timestamp_bytes ← pack_I (Utils.timestamp parsed);
       signature_bytes ← fromhex (Utils.signature parsed);
       let appdata := if len (Utils.appdata parsed) >? MAX_ADVERT_DATA_SIZE
                      then slice_to (Utils.appdata parsed) MAX_ADVERT_DATA_SIZE else Utils.appdata parsed in
       if Utils.is_self_advert payload self_key then mret None
       else if negb (_verify_advert_signature pubkey_bytes timestamp_bytes appdata signature_bytes) then mret None
       else
         decoded ← Utils.decode_appdata appdata;
         match Utils.node_name decoded with
         | Some ((_ :: _) as name) =>
             let advert_timestamp := if Utils.timestamp parsed >? now then now else Utils.timestamp parsed in
             let path_len := Packet.path_len packet in
             let path_byte_len := PathUtils.get_path_byte_len path_len in
             mret (Some (mkAdvertData (Utils.pubkey parsed) name
               (Utils.determine_contact_type_from_flags (Utils.flags decoded)) (Utils.flags decoded)
               (coordinate (fst <$> Utils.location decoded)) (coordinate (snd <$> Utils.location decoded))
               advert_timestamp now' (Packet._snr packet) (Packet._rssi packet)
               (if path_byte_len >? 0 then slice_to (Packet.path packet) path_byte_len else []) path_len
               (match Packet.write_to packet with Ok b => Some b | Err _ => None end)))
         | _ => mret None
         end)
    with
    | Ok r => r
    | Err _ => None
    end.

End handler.
End AdvertHandler.
