(* ===== verification/CompanionSession.v ===== *)
(** * What a companion keeps between calls ([companion/companion_base.py],
      [_SeenCache] of [companion/base_support.py])

    The tables of requests that wait for an answer, of packets seen, and of
    callbacks registered with the handlers of a node. A callback is a number;
    [wakes] tells which of the [asyncio.Event]s behind them are set, and with
    what. What the companion did is kept as two lists: the packets it handed to
    its transport and the push events it fired. Clock readings and random bits
    come from the environment, which numbers them by [reads]. *)

From stdpp Require Import gmap.
From S2P Require Import Prelude PyData Utf8 PyFloat ODict Constants PacketUtils Packet PacketFilter PacketBuilder GroupText Stores Contacts TextHandler ReturnPath ProtocolResponse Login BinaryParsing AdvertHandler.

(** ** Duplicate events ([companion/base_support.py])

    Expired entries are evicted only when a new key is recorded. *)
Module SeenCache.
Section cache.
Context {T : Type} `{Clock T}.

Record t := mk { _entries : list (bytes * T); _ttl : T; _max_size : Z }.

Definition with_entries (d : list (bytes * T)) (s : t) : t := mk d (_ttl s) (_max_size s).

Definition check_and_add (now : T) (key : bytes) (s : t) : t * bool :=
  if dmem key (_entries s) then (s, true)
  else
    let expired := List.filter (fun e => before (_ttl s) (elapsed now e.2)) (_entries s) in
    let d := ddel_all (dkeys expired) (_entries s) in
    let d := dset key now d in
    (with_entries (if len d >? _max_size s then pop_first d else d) s, false).

End cache.
Arguments t T : clear implicits.
End SeenCache.

(** ** What handlers publish

    Nothing in the repository publishes [NEW_CONTACT] and [TELEMETRY_UPDATED],
    and [CONTACT_UPDATED] is ignored. *)
Record channel_message := mkChannelMessage {
  cm_text : GroupTextHandler.group_text;
  cm_path_len : Z;
  cm_rssi : Z;
  cm_snr : float;
  cm_packet_hash : bytes
}.

Inductive mesh_event : Type :=
| NewMessage (m : TextMessageHandler.message_data)
| NewChannelMessage (m : channel_message)
| NodeHeard (d : AdvertHandler.advert_data).

(** ** Session state *)
Module Session.
Import Models.

(** A packet handed to [_send_packet], with [wait_for_ack] and [expected_crc]. *)
Record sent := mkSent { sent_packet : Packet.t; wait_for_ack : bool; expected_crc : option Z }.

(** An entry of [_pending_binary_requests]. *)
Record binary_request := mkRequest {
  request_type : Z;
  pubkey_prefix : string;
  expires_at : float;
  req_context : request_context
}.

(** [_PendingFrameLogin]; the key is that of the table, the event is set when
    the callback has a wake. [fl_task]: [None] before the waiting task exists,
    then whether it is done. *)
Record frame_login := mkFrameLogin {
  fl_dest_hash : Z;
  fl_contact_name : pystr;
  fl_callback : nat;
  fl_expires_at : float;
  fl_task : option bool
}.

(** A request on its way: what [_finish_started_request] closes over. The
    packet of an attempt is built from [rt_proxy] by [rt_kind]; [rt_tags] are the
    tags its callback is registered under. *)
Inductive request_kind : Type :=
| ProtocolRequest (protocol_code : Z) (data : bytes)
| LoginRequest (password : pystr).

Record request_task := mkRequestTask {
  rt_kind : request_kind;
  rt_key : bytes;
  rt_proxy : PacketBuilder.contact;
  rt_name : pystr;
  rt_callback : nat;
  rt_tags : list Z;
  rt_deadline : option float;
  rt_first_timeout : float
}.

(** A background task that waits for an answer; a frame login waits for its
    session, found by key and callback. *)
Inductive task : Type :=
| RequestTask (r : request_task)
| FrameLoginTask (target_key : bytes) (callback : nat) (contact_name : pystr).

(** What a callback was called with. *)
Inductive wake : Type :=
| Answered (p : ProtocolResponseHandler.parsed)
| LoggedIn (success : bool) (data : LoginResponseHandler.login_data)
| CommandReplied (message_text : pystr).

(** The push events ([PUSH_CALLBACK_KEYS]) with the arguments of their
    callbacks; packet hashes are the bytes whose hexadecimal text the code
    passes on. *)
Inductive event : Type :=
| MessageEvent (m : QueuedMessage) (packet_hash : bytes) (queued : bool)
| ChannelMessageEvent (channel_name sender_name : pystr) (m : QueuedMessage) (packet_hash : bytes) (queued : bool)
| ChannelDataEvent (m : QueuedMessage) (packet_hash : bytes) (queued : bool)
| AdvertReceived (c : Contact)
| NodeDiscovered (c : Contact)
| ContactPathUpdated (c : Contact)
| SendConfirmed (crc trip_ms : Z)
| RawDataReceived (payload : bytes) (snr : float) (rssi : Z)
| BinaryResponse (tag_bytes response_data : bytes) (request_type : option Z)
| PathDiscoveryResponse (tag_bytes contact_pubkey : bytes) (out_len_byte : Z) (out_path : bytes) (in_len_byte : Z) (in_path : bytes)
| ContactDeleted (key : bytes)
| ContactsFull.

(** [_response_waiters] and [_pending_reciprocals] belong to the protocol
    response handler, [_pending_logins] and [_active_login_passwords] to the
    login response handler, [_pending_command_responses] to the text handler.
    [delayed]: the packets of handlers that wait for their delay, in
    milliseconds. [published]: the events whose task has not run yet. *)
Record t := mk {
  reads : nat;
  _last_unique_timestamp : Z;
  outbox : list sent;
  events : list event;
  _pending_binary_requests : list (string * binary_request);
  _pending_discovery_tags : gset Z;
  _pending_ack_crcs : list (Z * float);
  _login_connections : list (bytes * float);
  _pending_frame_logins : list (bytes * frame_login);
  _seen_txt : SeenCache.t float;
  _seen_grp_txt : SeenCache.t float;
  _seen_group_packets : PacketHashCache.t float;
  _response_waiters : list ((bytes * Z) * nat);
  _pending_logins : list (bytes * nat);
  _active_login_passwords : list (Z * pystr);
  _pending_command_responses : list (bytes * nat);
  wakes : list (nat * wake);
  next_callback : nat;
  teacher : ReturnPathTeacher.t float;
  _pending_reciprocals : list ProtocolResponseHandler.reciprocal;
  delayed : list (Packet.t * Z);
  published : list mesh_event
}.

Definition with_reads (v : nat) (s : t) : t :=
  mk v (_last_unique_timestamp s) (outbox s) (events s) (_pending_binary_requests s)
    (_pending_discovery_tags s) (_pending_ack_crcs s) (_login_connections s) (_pending_frame_logins s)
    (_seen_txt s) (_seen_grp_txt s) (_seen_group_packets s) (_response_waiters s) (_pending_logins s)
    (_active_login_passwords s) (_pending_command_responses s) (wakes s) (next_callback s) (teacher s)
    (_pending_reciprocals s) (delayed s) (published s).
Definition with_last_unique_timestamp (v : Z) (s : t) : t :=
  mk (reads s) v (outbox s) (events s) (_pending_binary_requests s) (_pending_discovery_tags s)
    (_pending_ack_crcs s) (_login_connections s) (_pending_frame_logins s) (_seen_txt s)
    (_seen_grp_txt s) (_seen_group_packets s) (_response_waiters s) (_pending_logins s)
    (_active_login_passwords s) (_pending_command_responses s) (wakes s) (next_callback s) (teacher s)
    (_pending_reciprocals s) (delayed s) (published s).
Definition with_outbox (v : list sent) (s : t) : t :=
  mk (reads s) (_last_unique_timestamp s) v (events s) (_pending_binary_requests s)
    (_pending_discovery_tags s) (_pending_ack_crcs s) (_login_connections s) (_pending_frame_logins s)
    (_seen_txt s) (_seen_grp_txt s) (_seen_group_packets s) (_response_waiters s) (_pending_logins s)
    (_active_login_passwords s) (_pending_command_responses s) (wakes s) (next_callback s) (teacher s)
    (_pending_reciprocals s) (delayed s) (published s).
Definition with_events (v : list event) (s : t) : t :=
  mk (reads s) (_last_unique_timestamp s) (outbox s) v (_pending_binary_requests s)
    (_pending_discovery_tags s) (_pending_ack_crcs s) (_login_connections s) (_pending_frame_logins s)
    (_seen_txt s) (_seen_grp_txt s) (_seen_group_packets s) (_response_waiters s) (_pending_logins s)
    (_active_login_passwords s) (_pending_command_responses s) (wakes s) (next_callback s) (teacher s)
    (_pending_reciprocals s) (delayed s) (published s).
Definition with_pending_binary_requests (v : list (string * binary_request)) (s : t) : t :=
  mk (reads s) (_last_unique_timestamp s) (outbox s) (events s) v (_pending_discovery_tags s)
    (_pending_ack_crcs s) (_login_connections s) (_pending_frame_logins s) (_seen_txt s)
    (_seen_grp_txt s) (_seen_group_packets s) (_response_waiters s) (_pending_logins s)
    (_active_login_passwords s) (_pending_command_responses s) (wakes s) (next_callback s) (teacher s)
    (_pending_reciprocals s) (delayed s) (published s).
Definition with_pending_discovery_tags (v : gset Z) (s : t) : t :=
  mk (reads s) (_last_unique_timestamp s) (outbox s) (events s) (_pending_binary_requests s) v
    (_pending_ack_crcs s) (_login_connections s) (_pending_frame_logins s) (_seen_txt s)
    (_seen_grp_txt s) (_seen_group_packets s) (_response_waiters s) (_pending_logins s)
    (_active_login_passwords s) (_pending_command_responses s) (wakes s) (next_callback s) (teacher s)
    (_pending_reciprocals s) (delayed s) (published s).
Definition with_pending_ack_crcs (v : list (Z * float)) (s : t) : t :=
  mk (reads s) (_last_unique_timestamp s) (outbox s) (events s) (_pending_binary_requests s)
    (_pending_discovery_tags s) v (_login_connections s) (_pending_frame_logins s) (_seen_txt s)
    (_seen_grp_txt s) (_seen_group_packets s) (_response_waiters s) (_pending_logins s)
    (_active_login_passwords s) (_pending_command_responses s) (wakes s) (next_callback s) (teacher s)
    (_pending_reciprocals s) (delayed s) (published s).
Definition with_login_connections (v : list (bytes * float)) (s : t) : t :=
  mk (reads s) (_last_unique_timestamp s) (outbox s) (events s) (_pending_binary_requests s)
    (_pending_discovery_tags s) (_pending_ack_crcs s) v (_pending_frame_logins s) (_seen_txt s)
    (_seen_grp_txt s) (_seen_group_packets s) (_response_waiters s) (_pending_logins s)
    (_active_login_passwords s) (_pending_command_responses s) (wakes s) (next_callback s) (teacher s)
    (_pending_reciprocals s) (delayed s) (published s).
Definition with_pending_frame_logins (v : list (bytes * frame_login)) (s : t) : t :=
  mk (reads s) (_last_unique_timestamp s) (outbox s) (events s) (_pending_binary_requests s)
    (_pending_discovery_tags s) (_pending_ack_crcs s) (_login_connections s) v (_seen_txt s)
    (_seen_grp_txt s) (_seen_group_packets s) (_response_waiters s) (_pending_logins s)
    (_active_login_passwords s) (_pending_command_responses s) (wakes s) (next_callback s) (teacher s)
    (_pending_reciprocals s) (delayed s) (published s).
Definition with_seen_txt (v : SeenCache.t float) (s : t) : t :=
  mk (reads s) (_last_unique_timestamp s) (outbox s) (events s) (_pending_binary_requests s)
    (_pending_discovery_tags s) (_pending_ack_crcs s) (_login_connections s) (_pending_frame_logins s) v
    (_seen_grp_txt s) (_seen_group_packets s) (_response_waiters s) (_pending_logins s)
    (_active_login_passwords s) (_pending_command_responses s) (wakes s) (next_callback s) (teacher s)
    (_pending_reciprocals s) (delayed s) (published s).
Definition with_seen_grp_txt (v : SeenCache.t float) (s : t) : t :=
  mk (reads s) (_last_unique_timestamp s) (outbox s) (events s) (_pending_binary_requests s)
    (_pending_discovery_tags s) (_pending_ack_crcs s) (_login_connections s) (_pending_frame_logins s)
    (_seen_txt s) v (_seen_group_packets s) (_response_waiters s) (_pending_logins s)
    (_active_login_passwords s) (_pending_command_responses s) (wakes s) (next_callback s) (teacher s)
    (_pending_reciprocals s) (delayed s) (published s).
Definition with_seen_group_packets (v : PacketHashCache.t float) (s : t) : t :=
  mk (reads s) (_last_unique_timestamp s) (outbox s) (events s) (_pending_binary_requests s)
    (_pending_discovery_tags s) (_pending_ack_crcs s) (_login_connections s) (_pending_frame_logins s)
    (_seen_txt s) (_seen_grp_txt s) v (_response_waiters s) (_pending_logins s)
    (_active_login_passwords s) (_pending_command_responses s) (wakes s) (next_callback s) (teacher s)
    (_pending_reciprocals s) (delayed s) (published s).
Definition with_response_waiters (v : list ((bytes * Z) * nat)) (s : t) : t :=
  mk (reads s) (_last_unique_timestamp s) (outbox s) (events s) (_pending_binary_requests s)
    (_pending_discovery_tags s) (_pending_ack_crcs s) (_login_connections s) (_pending_frame_logins s)
    (_seen_txt s) (_seen_grp_txt s) (_seen_group_packets s) v (_pending_logins s)
    (_active_login_passwords s) (_pending_command_responses s) (wakes s) (next_callback s) (teacher s)
    (_pending_reciprocals s) (delayed s) (published s).
Definition with_pending_logins (v : list (bytes * nat)) (s : t) : t :=
  mk (reads s) (_last_unique_timestamp s) (outbox s) (events s) (_pending_binary_requests s)
    (_pending_discovery_tags s) (_pending_ack_crcs s) (_login_connections s) (_pending_frame_logins s)
    (_seen_txt s) (_seen_grp_txt s) (_seen_group_packets s) (_response_waiters s) v
    (_active_login_passwords s) (_pending_command_responses s) (wakes s) (next_callback s) (teacher s)
    (_pending_reciprocals s) (delayed s) (published s).
Definition with_active_login_passwords (v : list (Z * pystr)) (s : t) : t :=
  mk (reads s) (_last_unique_timestamp s) (outbox s) (events s) (_pending_binary_requests s)
    (_pending_discovery_tags s) (_pending_ack_crcs s) (_login_connections s) (_pending_frame_logins s)
    (_seen_txt s) (_seen_grp_txt s) (_seen_group_packets s) (_response_waiters s) (_pending_logins s) v
    (_pending_command_responses s) (wakes s) (next_callback s) (teacher s) (_pending_reciprocals s)
    (delayed s) (published s).
Definition with_pending_command_responses (v : list (bytes * nat)) (s : t) : t :=
  mk (reads s) (_last_unique_timestamp s) (outbox s) (events s) (_pending_binary_requests s)
    (_pending_discovery_tags s) (_pending_ack_crcs s) (_login_connections s) (_pending_frame_logins s)
    (_seen_txt s) (_seen_grp_txt s) (_seen_group_packets s) (_response_waiters s) (_pending_logins s)
    (_active_login_passwords s) v (wakes s) (next_callback s) (teacher s) (_pending_reciprocals s)
    (delayed s) (published s).
Definition with_wakes (v : list (nat * wake)) (s : t) : t :=
  mk (reads s) (_last_unique_timestamp s) (outbox s) (events s) (_pending_binary_requests s)
    (_pending_discovery_tags s) (_pending_ack_crcs s) (_login_connections s) (_pending_frame_logins s)
    (_seen_txt s) (_seen_grp_txt s) (_seen_group_packets s) (_response_waiters s) (_pending_logins s)
    (_active_login_passwords s) (_pending_command_responses s) v (next_callback s) (teacher s)
    (_pending_reciprocals s) (delayed s) (published s).
Definition with_next_callback (v : nat) (s : t) : t :=
  mk (reads s) (_last_unique_timestamp s) (outbox s) (events s) (_pending_binary_requests s)
    (_pending_discovery_tags s) (_pending_ack_crcs s) (_login_connections s) (_pending_frame_logins s)
    (_seen_txt s) (_seen_grp_txt s) (_seen_group_packets s) (_response_waiters s) (_pending_logins s)
    (_active_login_passwords s) (_pending_command_responses s) (wakes s) v (teacher s)
    (_pending_reciprocals s) (delayed s) (published s).
Definition with_teacher (v : ReturnPathTeacher.t float) (s : t) : t :=
  mk (reads s) (_last_unique_timestamp s) (outbox s) (events s) (_pending_binary_requests s)
    (_pending_discovery_tags s) (_pending_ack_crcs s) (_login_connections s) (_pending_frame_logins s)
    (_seen_txt s) (_seen_grp_txt s) (_seen_group_packets s) (_response_waiters s) (_pending_logins s)
    (_active_login_passwords s) (_pending_command_responses s) (wakes s) (next_callback s) v
    (_pending_reciprocals s) (delayed s) (published s).
Definition with_pending_reciprocals (v : list ProtocolResponseHandler.reciprocal) (s : t) : t :=
  mk (reads s) (_last_unique_timestamp s) (outbox s) (events s) (_pending_binary_requests s)
    (_pending_discovery_tags s) (_pending_ack_crcs s) (_login_connections s) (_pending_frame_logins s)
    (_seen_txt s) (_seen_grp_txt s) (_seen_group_packets s) (_response_waiters s) (_pending_logins s)
    (_active_login_passwords s) (_pending_command_responses s) (wakes s) (next_callback s) (teacher s) v
    (delayed s) (published s).
Definition with_delayed (v : list (Packet.t * Z)) (s : t) : t :=
  mk (reads s) (_last_unique_timestamp s) (outbox s) (events s) (_pending_binary_requests s)
    (_pending_discovery_tags s) (_pending_ack_crcs s) (_login_connections s) (_pending_frame_logins s)
    (_seen_txt s) (_seen_grp_txt s) (_seen_group_packets s) (_response_waiters s) (_pending_logins s)
    (_active_login_passwords s) (_pending_command_responses s) (wakes s) (next_callback s) (teacher s)
    (_pending_reciprocals s) v (published s).
Definition with_published (v : list mesh_event) (s : t) : t :=
  mk (reads s) (_last_unique_timestamp s) (outbox s) (events s) (_pending_binary_requests s)
    (_pending_discovery_tags s) (_pending_ack_crcs s) (_login_connections s) (_pending_frame_logins s)
    (_seen_txt s) (_seen_grp_txt s) (_seen_group_packets s) (_response_waiters s) (_pending_logins s)
    (_active_login_passwords s) (_pending_command_responses s) (wakes s) (next_callback s) (teacher s)
    (_pending_reciprocals s) (delayed s) v.

(** The session of a companion that begins. The teacher keeps the identity its
    handlers were made with; its contact book is the companion's own, and is
    filled in when a handler runs. *)
Definition init (id : PacketBuilder.LocalIdentity) : t :=
  mk 0 0 [] [] [] ∅ [] [] [] (SeenCache.mk [] (f_of_Z 300) 1000) (SeenCache.mk [] (f_of_Z 60) 4096)
    (PacketHashCache.mk (f_of_Z 600) 4096 []) [] [] [] [] [] 0
    (ReturnPathTeacher.set_injector true
       (ReturnPathTeacher.init id (ContactStore.init 0) (f_of_Z 5) ReturnPathTeacher.RETURN_PATH_COPY_TTL_S)) [] [] [].

Definition fire (e : event) (s : t) : t := with_events (events s ++ [e]) s.
Definition record_sent (x : sent) (s : t) : t := with_outbox (outbox s ++ [x]) s.

(** A fresh callback, or object. *)
Definition fresh (s : t) : t * nat := (with_next_callback (S (next_callback s)) s, next_callback s).

(** The event behind a callback is set; the last call counts. *)
Definition set_wake (cb : nat) (w : wake) (s : t) : t := with_wakes (dset cb w (wakes s)) s.
Definition woken (cb : nat) (s : t) : option wake := dget cb (wakes s).

(** *** The tables of the handlers *)

Definition set_response_callback (contact_pubkey : bytes) (request_tag : Z) (callback : nat) (s : t) : t :=
  with_response_waiters (dset (contact_pubkey, Z.land request_tag 0xFFFFFFFF) callback (_response_waiters s)) s.
Definition clear_response_callback (contact_pubkey : bytes) (request_tag : Z) (s : t) : t :=
  with_response_waiters (ddel (contact_pubkey, Z.land request_tag 0xFFFFFFFF) (_response_waiters s)) s.

Definition register_login_callback (pubkey : bytes) (callback : nat) (s : t) : t :=
  with_pending_logins (dset pubkey callback (_pending_logins s)) s.
Definition remove_login_callback (pubkey : bytes) (callback : nat) (s : t) : t :=
  match dget pubkey (_pending_logins s) with
  | Some cb => if (cb =? callback)%nat then with_pending_logins (ddel pubkey (_pending_logins s)) s else s
  | None => s
  end.
Definition store_login_password (dest_hash : Z) (password : pystr) (s : t) : t :=
  with_active_login_passwords (dset dest_hash password (_active_login_passwords s)) s.
Definition clear_login_password (dest_hash : Z) (s : t) : t :=
  with_active_login_passwords (ddel dest_hash (_active_login_passwords s)) s.

Definition register_command_response (pubkey : bytes) (callback : nat) (s : t) : t :=
  with_pending_command_responses (dset pubkey callback (_pending_command_responses s)) s.
Definition unregister_command_response (pubkey : bytes) (callback : nat) (s : t) : t :=
  match dget pubkey (_pending_command_responses s) with
  | Some cb => if (cb =? callback)%nat then with_pending_command_responses (ddel pubkey (_pending_command_responses s)) s else s
  | None => s
  end.

End Session.
