(* ===== verification/CompanionConfig.v ===== *)
(** * Configuration of a companion ([companion/base_config.py], the contact
      and channel operations of [companion/base_contacts.py])

    A companion keeps preferences, the stores of [Stores] and [Contacts], a
    clock offset, a signing session, its flood scope and custom variables.
    [_save_prefs] is a hook of subclasses and does nothing here; the radio
    configuration is the two values read from it. *)

From S2P Require Import Prelude PyData Utf8 PyFloat ODict Constants PacketUtils Packet TransportKeys PacketBuilder PacketFilter Stores Contacts CompanionSession.

Definition MAX_SIGN_DATA_SIZE : Z := 8192.
Definition NODE_NAME_MAX_BYTES : Z := 31.
Definition ZERO_FLOOD_SCOPE_KEY : bytes := zeros 16.

(** ** Preferences ([companion/models.py]) *)
Module Prefs.

Record NodePrefs := mk {
  node_name : pystr;
  adv_type : Z;
  tx_power_dbm : Z;
  frequency_hz : Z;
  bandwidth_hz : Z;
  spreading_factor : Z;
  coding_rate : Z;
  latitude : float;
  longitude : float;
  advert_loc_policy : Z;
  multi_acks : Z;
  telemetry_mode_base : Z;
  telemetry_mode_location : Z;
  telemetry_mode_environment : Z;
  manual_add_contacts : Z;
  autoadd_config : Z;
  autoadd_max_hops : Z;
  rx_delay_base : float;
  airtime_factor : float;
  client_repeat : Z;
  path_hash_mode : Z;
  default_scope_name : pystr;
  default_scope_key : bytes
}.

Definition set_node_name (v : pystr) (p : NodePrefs) : NodePrefs :=
  mk v (adv_type p) (tx_power_dbm p) (frequency_hz p) (bandwidth_hz p) (spreading_factor p) (coding_rate p)
    (latitude p) (longitude p) (advert_loc_policy p) (multi_acks p) (telemetry_mode_base p)
    (telemetry_mode_location p) (telemetry_mode_environment p) (manual_add_contacts p) (autoadd_config p)
    (autoadd_max_hops p) (rx_delay_base p) (airtime_factor p) (client_repeat p) (path_hash_mode p)
    (default_scope_name p) (default_scope_key p).
Definition set_tx_power_dbm (v : Z) (p : NodePrefs) : NodePrefs :=
  mk (node_name p) (adv_type p) v (frequency_hz p) (bandwidth_hz p) (spreading_factor p) (coding_rate p)
    (latitude p) (longitude p) (advert_loc_policy p) (multi_acks p) (telemetry_mode_base p)
    (telemetry_mode_location p) (telemetry_mode_environment p) (manual_add_contacts p) (autoadd_config p)
    (autoadd_max_hops p) (rx_delay_base p) (airtime_factor p) (client_repeat p) (path_hash_mode p)
    (default_scope_name p) (default_scope_key p).
Definition set_frequency_hz (v : Z) (p : NodePrefs) : NodePrefs :=
  mk (node_name p) (adv_type p) (tx_power_dbm p) v (bandwidth_hz p) (spreading_factor p) (coding_rate p)
    (latitude p) (longitude p) (advert_loc_policy p) (multi_acks p) (telemetry_mode_base p)
    (telemetry_mode_location p) (telemetry_mode_environment p) (manual_add_contacts p) (autoadd_config p)
    (autoadd_max_hops p) (rx_delay_base p) (airtime_factor p) (client_repeat p) (path_hash_mode p)
    (default_scope_name p) (default_scope_key p).
Definition set_bandwidth_hz (v : Z) (p : NodePrefs) : NodePrefs :=
  mk (node_name p) (adv_type p) (tx_power_dbm p) (frequency_hz p) v (spreading_factor p) (coding_rate p)
    (latitude p) (longitude p) (advert_loc_policy p) (multi_acks p) (telemetry_mode_base p)
    (telemetry_mode_location p) (telemetry_mode_environment p) (manual_add_contacts p) (autoadd_config p)
    (autoadd_max_hops p) (rx_delay_base p) (airtime_factor p) (client_repeat p) (path_hash_mode p)
    (default_scope_name p) (default_scope_key p).
Definition set_spreading_factor (v : Z) (p : NodePrefs) : NodePrefs :=
  mk (node_name p) (adv_type p) (tx_power_dbm p) (frequency_hz p) (bandwidth_hz p) v (coding_rate p)
    (latitude p) (longitude p) (advert_loc_policy p) (multi_acks p) (telemetry_mode_base p)
    (telemetry_mode_location p) (telemetry_mode_environment p) (manual_add_contacts p) (autoadd_config p)
    (autoadd_max_hops p) (rx_delay_base p) (airtime_factor p) (client_repeat p) (path_hash_mode p)
    (default_scope_name p) (default_scope_key p).
Definition set_coding_rate (v : Z) (p : NodePrefs) : NodePrefs :=
  mk (node_name p) (adv_type p) (tx_power_dbm p) (frequency_hz p) (bandwidth_hz p) (spreading_factor p) v
    (latitude p) (longitude p) (advert_loc_policy p) (multi_acks p) (telemetry_mode_base p)
    (telemetry_mode_location p) (telemetry_mode_environment p) (manual_add_contacts p) (autoadd_config p)
    (autoadd_max_hops p) (rx_delay_base p) (airtime_factor p) (client_repeat p) (path_hash_mode p)
    (default_scope_name p) (default_scope_key p).
Definition set_latitude (v : float) (p : NodePrefs) : NodePrefs :=
  mk (node_name p) (adv_type p) (tx_power_dbm p) (frequency_hz p) (bandwidth_hz p) (spreading_factor p)
    (coding_rate p) v (longitude p) (advert_loc_policy p) (multi_acks p) (telemetry_mode_base p)
    (telemetry_mode_location p) (telemetry_mode_environment p) (manual_add_contacts p) (autoadd_config p)
    (autoadd_max_hops p) (rx_delay_base p) (airtime_factor p) (client_repeat p) (path_hash_mode p)
    (default_scope_name p) (default_scope_key p).
Definition set_longitude (v : float) (p : NodePrefs) : NodePrefs :=
  mk (node_name p) (adv_type p) (tx_power_dbm p) (frequency_hz p) (bandwidth_hz p) (spreading_factor p)
    (coding_rate p) (latitude p) v (advert_loc_policy p) (multi_acks p) (telemetry_mode_base p)
    (telemetry_mode_location p) (telemetry_mode_environment p) (manual_add_contacts p) (autoadd_config p)
    (autoadd_max_hops p) (rx_delay_base p) (airtime_factor p) (client_repeat p) (path_hash_mode p)
    (default_scope_name p) (default_scope_key p).
Definition set_advert_loc_policy (v : Z) (p : NodePrefs) : NodePrefs :=
  mk (node_name p) (adv_type p) (tx_power_dbm p) (frequency_hz p) (bandwidth_hz p) (spreading_factor p)
    (coding_rate p) (latitude p) (longitude p) v (multi_acks p) (telemetry_mode_base p)
    (telemetry_mode_location p) (telemetry_mode_environment p) (manual_add_contacts p) (autoadd_config p)
    (autoadd_max_hops p) (rx_delay_base p) (airtime_factor p) (client_repeat p) (path_hash_mode p)
    (default_scope_name p) (default_scope_key p).
Definition set_multi_acks (v : Z) (p : NodePrefs) : NodePrefs :=
  mk (node_name p) (adv_type p) (tx_power_dbm p) (frequency_hz p) (bandwidth_hz p) (spreading_factor p)
    (coding_rate p) (latitude p) (longitude p) (advert_loc_policy p) v (telemetry_mode_base p)
    (telemetry_mode_location p) (telemetry_mode_environment p) (manual_add_contacts p) (autoadd_config p)
    (autoadd_max_hops p) (rx_delay_base p) (airtime_factor p) (client_repeat p) (path_hash_mode p)
    (default_scope_name p) (default_scope_key p).
Definition set_telemetry_mode_base (v : Z) (p : NodePrefs) : NodePrefs :=
  mk (node_name p) (adv_type p) (tx_power_dbm p) (frequency_hz p) (bandwidth_hz p) (spreading_factor p)
    (coding_rate p) (latitude p) (longitude p) (advert_loc_policy p) (multi_acks p) v
    (telemetry_mode_location p) (telemetry_mode_environment p) (manual_add_contacts p) (autoadd_config p)
    (autoadd_max_hops p) (rx_delay_base p) (airtime_factor p) (client_repeat p) (path_hash_mode p)
    (default_scope_name p) (default_scope_key p).
Definition set_telemetry_mode_location (v : Z) (p : NodePrefs) : NodePrefs :=
  mk (node_name p) (adv_type p) (tx_power_dbm p) (frequency_hz p) (bandwidth_hz p) (spreading_factor p)
    (coding_rate p) (latitude p) (longitude p) (advert_loc_policy p) (multi_acks p) (telemetry_mode_base p)
    v (telemetry_mode_environment p) (manual_add_contacts p) (autoadd_config p) (autoadd_max_hops p)
    (rx_delay_base p) (airtime_factor p) (client_repeat p) (path_hash_mode p) (default_scope_name p)
    (default_scope_key p).
Definition set_telemetry_mode_environment (v : Z) (p : NodePrefs) : NodePrefs :=
  mk (node_name p) (adv_type p) (tx_power_dbm p) (frequency_hz p) (bandwidth_hz p) (spreading_factor p)
    (coding_rate p) (latitude p) (longitude p) (advert_loc_policy p) (multi_acks p) (telemetry_mode_base p)
    (telemetry_mode_location p) v (manual_add_contacts p) (autoadd_config p) (autoadd_max_hops p)
    (rx_delay_base p) (airtime_factor p) (client_repeat p) (path_hash_mode p) (default_scope_name p)
    (default_scope_key p).
Definition set_manual_add_contacts (v : Z) (p : NodePrefs) : NodePrefs :=
  mk (node_name p) (adv_type p) (tx_power_dbm p) (frequency_hz p) (bandwidth_hz p) (spreading_factor p)
    (coding_rate p) (latitude p) (longitude p) (advert_loc_policy p) (multi_acks p) (telemetry_mode_base p)
    (telemetry_mode_location p) (telemetry_mode_environment p) v (autoadd_config p) (autoadd_max_hops p)
    (rx_delay_base p) (airtime_factor p) (client_repeat p) (path_hash_mode p) (default_scope_name p)
    (default_scope_key p).
Definition set_autoadd_config (v : Z) (p : NodePrefs) : NodePrefs :=
  mk (node_name p) (adv_type p) (tx_power_dbm p) (frequency_hz p) (bandwidth_hz p) (spreading_factor p)
    (coding_rate p) (latitude p) (longitude p) (advert_loc_policy p) (multi_acks p) (telemetry_mode_base p)
    (telemetry_mode_location p) (telemetry_mode_environment p) (manual_add_contacts p) v
    (autoadd_max_hops p) (rx_delay_base p) (airtime_factor p) (client_repeat p) (path_hash_mode p)
    (default_scope_name p) (default_scope_key p).
Definition set_autoadd_max_hops (v : Z) (p : NodePrefs) : NodePrefs :=
  mk (node_name p) (adv_type p) (tx_power_dbm p) (frequency_hz p) (bandwidth_hz p) (spreading_factor p)
    (coding_rate p) (latitude p) (longitude p) (advert_loc_policy p) (multi_acks p) (telemetry_mode_base p)
    (telemetry_mode_location p) (telemetry_mode_environment p) (manual_add_contacts p) (autoadd_config p) v
    (rx_delay_base p) (airtime_factor p) (client_repeat p) (path_hash_mode p) (default_scope_name p)
    (default_scope_key p).
Definition set_rx_delay_base (v : float) (p : NodePrefs) : NodePrefs :=
  mk (node_name p) (adv_type p) (tx_power_dbm p) (frequency_hz p) (bandwidth_hz p) (spreading_factor p)
    (coding_rate p) (latitude p) (longitude p) (advert_loc_policy p) (multi_acks p) (telemetry_mode_base p)
    (telemetry_mode_location p) (telemetry_mode_environment p) (manual_add_contacts p) (autoadd_config p)
    (autoadd_max_hops p) v (airtime_factor p) (client_repeat p) (path_hash_mode p) (default_scope_name p)
    (default_scope_key p).
Definition set_airtime_factor (v : float) (p : NodePrefs) : NodePrefs :=
  mk (node_name p) (adv_type p) (tx_power_dbm p) (frequency_hz p) (bandwidth_hz p) (spreading_factor p)
    (coding_rate p) (latitude p) (longitude p) (advert_loc_policy p) (multi_acks p) (telemetry_mode_base p)
    (telemetry_mode_location p) (telemetry_mode_environment p) (manual_add_contacts p) (autoadd_config p)
    (autoadd_max_hops p) (rx_delay_base p) v (client_repeat p) (path_hash_mode p) (default_scope_name p)
    (default_scope_key p).
Definition set_client_repeat (v : Z) (p : NodePrefs) : NodePrefs :=
  mk (node_name p) (adv_type p) (tx_power_dbm p) (frequency_hz p) (bandwidth_hz p) (spreading_factor p)
    (coding_rate p) (latitude p) (longitude p) (advert_loc_policy p) (multi_acks p) (telemetry_mode_base p)
    (telemetry_mode_location p) (telemetry_mode_environment p) (manual_add_contacts p) (autoadd_config p)
    (autoadd_max_hops p) (rx_delay_base p) (airtime_factor p) v (path_hash_mode p) (default_scope_name p)
    (default_scope_key p).
Definition set_path_hash_mode (v : Z) (p : NodePrefs) : NodePrefs :=
  mk (node_name p) (adv_type p) (tx_power_dbm p) (frequency_hz p) (bandwidth_hz p) (spreading_factor p)
    (coding_rate p) (latitude p) (longitude p) (advert_loc_policy p) (multi_acks p) (telemetry_mode_base p)
    (telemetry_mode_location p) (telemetry_mode_environment p) (manual_add_contacts p) (autoadd_config p)
    (autoadd_max_hops p) (rx_delay_base p) (airtime_factor p) (client_repeat p) v (default_scope_name p)
    (default_scope_key p).
Definition set_default_scope_name (v : pystr) (p : NodePrefs) : NodePrefs :=
  mk (node_name p) (adv_type p) (tx_power_dbm p) (frequency_hz p) (bandwidth_hz p) (spreading_factor p)
    (coding_rate p) (latitude p) (longitude p) (advert_loc_policy p) (multi_acks p) (telemetry_mode_base p)
    (telemetry_mode_location p) (telemetry_mode_environment p) (manual_add_contacts p) (autoadd_config p)
    (autoadd_max_hops p) (rx_delay_base p) (airtime_factor p) (client_repeat p) (path_hash_mode p) v
    (default_scope_key p).
Definition set_default_scope_key (v : bytes) (p : NodePrefs) : NodePrefs :=
  mk (node_name p) (adv_type p) (tx_power_dbm p) (frequency_hz p) (bandwidth_hz p) (spreading_factor p)
    (coding_rate p) (latitude p) (longitude p) (advert_loc_policy p) (multi_acks p) (telemetry_mode_base p)
    (telemetry_mode_location p) (telemetry_mode_environment p) (manual_add_contacts p) (autoadd_config p)
    (autoadd_max_hops p) (rx_delay_base p) (airtime_factor p) (client_repeat p) (path_hash_mode p)
    (default_scope_name p) v.

(** The defaults of the dataclass. *)
Definition init : NodePrefs :=
  mk [112; 121; 77; 67] 1 20 915000000 250000 10 5 f_zero f_zero 0 0 0 0 0 0 0 0 f_zero f_one 0 0 [] [].

End Prefs.

Definition adv_type_to_flags (adv_type : Z) : Z :=
  if adv_type =? 1 then ADVERT_FLAG_IS_CHAT_NODE
  else if adv_type =? 2 then ADVERT_FLAG_IS_REPEATER
  else if adv_type =? 3 then ADVERT_FLAG_IS_ROOM_SERVER
  else if adv_type =? 4 then ADVERT_FLAG_IS_SENSOR
  else ADVERT_FLAG_IS_CHAT_NODE.

(** ** The companion *)
Module Companion.
Import Prefs.

(** [allowed_repeat_freq_ranges] and [max_tx_power_dbm] are what
    [_radio_config] gives, or the defaults. *)
Record t := mk {
  prefs : NodePrefs;
  identity : PacketBuilder.LocalIdentity;
  stores : AdvertIngest.t;
  channels : ChannelStore.t;
  message_queue : MessageQueue.t;
  stats : StatsCollector.t;
  _time_offset : float;
  _sign_buffer : option bytes;
  _flood_transport_key : option bytes;
  _flood_unscoped : bool;
  _custom_vars : list (pystr * pystr);
  _allowed_repeat_freq_ranges : list (Z * Z);
  _max_tx_power_dbm : Z;
  session : Session.t
}.

Definition contacts (s : t) : ContactStore.t := AdvertIngest.contacts (stores s).
Definition path_cache (s : t) : PathCache.t := AdvertIngest.path_cache (stores s).

Definition with_prefs (p : NodePrefs) (s : t) : t :=
  mk p (identity s) (stores s) (channels s) (message_queue s) (stats s) (_time_offset s) (_sign_buffer s)
    (_flood_transport_key s) (_flood_unscoped s) (_custom_vars s) (_allowed_repeat_freq_ranges s) (_max_tx_power_dbm s) (session s).
Definition with_contacts (c : ContactStore.t) (s : t) : t :=
  mk (prefs s) (identity s) (AdvertIngest.with_contacts c (stores s)) (channels s) (message_queue s) (stats s)
    (_time_offset s) (_sign_buffer s) (_flood_transport_key s) (_flood_unscoped s) (_custom_vars s)
    (_allowed_repeat_freq_ranges s) (_max_tx_power_dbm s) (session s).
Definition with_channels (c : ChannelStore.t) (s : t) : t :=
  mk (prefs s) (identity s) (stores s) c (message_queue s) (stats s) (_time_offset s) (_sign_buffer s)
    (_flood_transport_key s) (_flood_unscoped s) (_custom_vars s) (_allowed_repeat_freq_ranges s) (_max_tx_power_dbm s) (session s).
Definition with_message_queue (q : MessageQueue.t) (s : t) : t :=
  mk (prefs s) (identity s) (stores s) (channels s) q (stats s) (_time_offset s) (_sign_buffer s)
    (_flood_transport_key s) (_flood_unscoped s) (_custom_vars s) (_allowed_repeat_freq_ranges s) (_max_tx_power_dbm s) (session s).
Definition with_time_offset (o : float) (s : t) : t :=
  mk (prefs s) (identity s) (stores s) (channels s) (message_queue s) (stats s) o (_sign_buffer s)
    (_flood_transport_key s) (_flood_unscoped s) (_custom_vars s) (_allowed_repeat_freq_ranges s) (_max_tx_power_dbm s) (session s).
Definition with_sign_buffer (b : option bytes) (s : t) : t :=
  mk (prefs s) (identity s) (stores s) (channels s) (message_queue s) (stats s) (_time_offset s) b
    (_flood_transport_key s) (_flood_unscoped s) (_custom_vars s) (_allowed_repeat_freq_ranges s) (_max_tx_power_dbm s) (session s).
Definition with_flood (key : option bytes) (unscoped : bool) (s : t) : t :=
  mk (prefs s) (identity s) (stores s) (channels s) (message_queue s) (stats s) (_time_offset s) (_sign_buffer s)
    key unscoped (_custom_vars s) (_allowed_repeat_freq_ranges s) (_max_tx_power_dbm s) (session s).
Definition with_custom_vars (d : list (pystr * pystr)) (s : t) : t :=
  mk (prefs s) (identity s) (stores s) (channels s) (message_queue s) (stats s) (_time_offset s) (_sign_buffer s)
    (_flood_transport_key s) (_flood_unscoped s) d (_allowed_repeat_freq_ranges s) (_max_tx_power_dbm s) (session s).

Definition with_session (v : Session.t) (s : t) : t :=
  mk (prefs s) (identity s) (stores s) (channels s) (message_queue s) (stats s) (_time_offset s) (_sign_buffer s)
    (_flood_transport_key s) (_flood_unscoped s) (_custom_vars s) (_allowed_repeat_freq_ranges s) (_max_tx_power_dbm s) v.
Definition with_stores (v : AdvertIngest.t) (s : t) : t :=
  mk (prefs s) (identity s) v (channels s) (message_queue s) (stats s) (_time_offset s) (_sign_buffer s)
    (_flood_transport_key s) (_flood_unscoped s) (_custom_vars s) (_allowed_repeat_freq_ranges s) (_max_tx_power_dbm s) (session s).
Definition with_stats (v : StatsCollector.t) (s : t) : t :=
  mk (prefs s) (identity s) (stores s) (channels s) (message_queue s) v (_time_offset s) (_sign_buffer s)
    (_flood_transport_key s) (_flood_unscoped s) (_custom_vars s) (_allowed_repeat_freq_ranges s) (_max_tx_power_dbm s) (session s).

(** A change of the session. *)
Definition on_session (f : Session.t → Session.t) (s : t) : t := with_session (f (session s)) s.

(** [self.prefs.x = v; self._save_prefs()] *)
Definition update_prefs (f : NodePrefs → NodePrefs) : py t unit := modify (fun s => with_prefs (f (prefs s)) s).

(** *** Device configuration *)

Definition set_advert_name (name : pystr) : py t unit :=
  b ← lift (encode name);
  update_prefs (set_node_name (decode_ignore (slice_to b NODE_NAME_MAX_BYTES))).

Definition in_range (lo x hi : float) : bool := fleb lo x && fleb x hi.

Definition set_advert_latlon (lat lon : float) : py t unit :=
  if negb (in_range (f_of_Z (-90)) lat (f_of_Z 90)) then raise (ValueError "Latitude out of range")
  else if negb (in_range (f_of_Z (-180)) lon (f_of_Z 180)) then raise (ValueError "Longitude out of range")
  else update_prefs (fun p => set_longitude lon (set_latitude lat p)).

Definition set_radio_params (freq_hz bw_hz sf cr : Z) : py t bool :=
  if negb ((5 <=? sf) && (sf <=? 12)) then raise (ValueError "Spreading factor out of range")
  else if negb ((5 <=? cr) && (cr <=? 8)) then raise (ValueError "Coding rate out of range")
  else
    update_prefs (fun p => set_coding_rate cr (set_spreading_factor sf (set_bandwidth_hz bw_hz (set_frequency_hz freq_hz p))));;
    mret true.

Definition set_tx_power (power_dbm : Z) : py t bool := update_prefs (set_tx_power_dbm power_dbm);; mret true.

Definition supports_radio_params_mutation : bool := true.
Definition supports_tx_power_mutation : bool := true.
Definition supports_client_repeat : bool := true.

Definition get_allowed_repeat_freqs (s : t) : list (Z * Z) := _allowed_repeat_freq_ranges s.
Definition get_max_tx_power_dbm (s : t) : Z := _max_tx_power_dbm s.

Definition set_client_repeat (value : Z) : py t unit := update_prefs (Prefs.set_client_repeat (Z.land value 0xFF)).

Definition set_tuning_params (rx_delay airtime_factor : float) : py t unit :=
  update_prefs (fun p => set_airtime_factor airtime_factor (set_rx_delay_base rx_delay p)).
Definition get_tuning_params (s : t) : float * float := (rx_delay_base (prefs s), airtime_factor (prefs s)).

(** The tuple of [get_radio_params], in the order of its keys. *)
Definition get_radio_params (s : t) : Z * Z * Z * Z * Z * float * float :=
  let p := prefs s in
  (frequency_hz p, bandwidth_hz p, spreading_factor p, coding_rate p, tx_power_dbm p, rx_delay_base p, airtime_factor p).

(** [now] is [time.time()]. *)
Definition get_time (now : float) (s : t) : res Z := int_of_float (fadd now (_time_offset s)).

(** The clock is read twice. *)
Definition set_time (now now' : float) (secs : Z) : py t bool :=
  s ← get;
  current ← lift (get_time now s);
  if secs <? current then mret false
  else
    x ← lift (float_of_int secs);
    modify (with_time_offset (fsub x now'));;
    mret true.

Definition set_other_params (manual_add telemetry_modes loc_policy acks : Z) : py t unit :=
  update_prefs (fun p =>
    set_multi_acks acks
      (set_advert_loc_policy loc_policy
        (set_telemetry_mode_environment (Z.land (Z.shiftr telemetry_modes 4) 0x03)
          (set_telemetry_mode_location (Z.land (Z.shiftr telemetry_modes 2) 0x03)
            (set_telemetry_mode_base (Z.land telemetry_modes 0x03)
              (set_manual_add_contacts manual_add p)))))).

Definition set_path_hash_mode (mode : Z) : py t unit := update_prefs (Prefs.set_path_hash_mode mode).

Definition get_self_info (s : t) : NodePrefs := prefs s.
Definition get_public_key (s : t) : bytes := PacketBuilder.get_public_key (identity s).

(** *** Signing sessions *)

Definition sign_start (s : t) : t * Z := (with_sign_buffer (Some []) s, MAX_SIGN_DATA_SIZE).

Definition is_signing (s : t) : bool := match _sign_buffer s with Some _ => true | None => false end.

Definition sign_data (data : bytes) (s : t) : t * bool :=
  match _sign_buffer s with
  | None => (s, false)
  | Some b => if len b + len data >? MAX_SIGN_DATA_SIZE then (s, false) else (with_sign_buffer (Some (b ++ data)) s, true)
  end.

Definition sign_finish (s : t) : t * option bytes :=
  match _sign_buffer s with
  | None => (s, None)
  | Some b => (with_sign_buffer None s, Some (PacketBuilder.sign (identity s) b))
  end.

(** *** Flood scope *)

Definition set_flood_scope (transport_key : option bytes) (s : t) : t :=
  with_flood
    (match transport_key with
     | Some k => if len k >=? 16
                 then let key := slice_to k 16 in if bytes_eqb key ZERO_FLOOD_SCOPE_KEY then None else Some key
                 else None
     | None => None
     end) false s.

Definition set_flood_unscoped (s : t) : t := with_flood (_flood_transport_key s) true s.

Definition clear_default_scope (p : NodePrefs) : NodePrefs := set_default_scope_key [] (set_default_scope_name [] p).

Definition set_default_flood_scope (scope_name : option pystr) (transport_key : option bytes) : py t bool :=
  match scope_name, transport_key with
  | Some ((_ :: _) as name), Some key =>
      if len key <? 16 then update_prefs clear_default_scope;; mret true
      else
        let normalized := strip (slice_to name 30) in
        if bool_decide (normalized = []) then mret false
        else
          update_prefs (fun p => set_default_scope_key (slice_to key 16) (set_default_scope_name normalized p));;
          mret true
  | _, _ => update_prefs clear_default_scope;; mret true
  end.

Definition get_default_flood_scope (s : t) : option (pystr * bytes) :=
  let name := strip (default_scope_name (prefs s)) in
  if bool_decide (name = []) then None
  else Some (name, ljust (slice_to (default_scope_key (prefs s)) 16) 16).

Definition set_flood_region (region_name : option pystr) : py t unit :=
  match region_name with
  | Some ((_ :: _) as name) =>
      key ← lift (get_auto_key_for (if starts_with 35 name then name else 35 :: name));
      modify (with_flood (Some key) false)
  | _ => modify (with_flood None false)
  end.

Definition _default_scope_key (s : t) : option bytes :=
  match get_default_flood_scope s with
  | None => None
  | Some (_, key) => if bytes_eqb key ZERO_FLOOD_SCOPE_KEY then None else Some key
  end.

Definition _resolve_flood_transport_key (s : t) : option bytes :=
  match _flood_transport_key s with Some k => Some k | None => _default_scope_key s end.

Definition _scope_packet (key : bytes) : py Packet.t unit := scope_packet key.

Definition _apply_flood_scope (s : t) : py Packet.t unit :=
  pkt ← get;
  if Packet._flood_scope_applied pkt then mret tt
  else if negb (Packet.get_route_type pkt =? ROUTE_TYPE_FLOOD) then mret tt
  else
    modify (Packet.with_flood_scope_applied true);;
    if _flood_unscoped s then mret tt
    else match _resolve_flood_transport_key s with None => mret tt | Some key => _scope_packet key end.

Definition _apply_default_flood_scope (s : t) : py Packet.t unit :=
  pkt ← get;
  if negb (Packet.get_route_type pkt =? ROUTE_TYPE_FLOOD) then mret tt
  else
    modify (Packet.with_flood_scope_applied true);;
    match _default_scope_key s with None => mret tt | Some key => _scope_packet key end.

Definition _apply_path_hash_mode (s : t) : py Packet.t unit := Packet.apply_path_hash_mode (path_hash_mode (prefs s)) true.

(** *** Custom variables *)

Definition get_custom_vars (s : t) : list (pystr * pystr) := _custom_vars s.
Definition set_custom_var (name value : pystr) (s : t) : t * bool := (with_custom_vars (dset name value (_custom_vars s)) s, true).

(** *** Contacts and channels *)

Definition get_contacts (since : Z) (s : t) : list Models.Contact :=
  List.filter (fun c => negb (Models.adv_type c =? ContactStore.ADV_TYPE_NONE)) (ContactStore.get_all since (contacts s)).
Definition get_contact_count (s : t) : Z := ContactStore.count (contacts s).
Definition get_contact_by_key (pub_key : bytes) (s : t) : option Models.Contact := ContactStore.get_by_key pub_key (contacts s).
Definition get_contact_by_name (name : pystr) (s : t) : res (option Models.Contact) :=
  match ContactStore.get_by_name name (contacts s) with
  | Some proxy =>
      key ← fromhex (PacketBuilder.public_key (ContactStore.proxy_contact proxy));
      mret (ContactStore.get_by_key key (contacts s))
  | None => mret None
  end.

(** [now] is [int(time.time())]. *)
Definition with_lastmod (now : Z) (c : Models.Contact) : Models.Contact :=
  Models.mkContact (Models.public_key c) (Models.name c) (Models.adv_type c) (Models.flags c) (Models.out_path_len c)
    (Models.out_path c) (Models.last_advert_timestamp c) now (Models.gps_lat c) (Models.gps_lon c) (Models.sync_since c)
    (Models.last_advert_packet c).

Definition add_update_contact (now : Z) (contact : Models.Contact) (s : t) : t * bool :=
  let contact := if Models.lastmod contact =? 0 then with_lastmod now contact else contact in
  let '(c, ok) := ContactStore.add contact (contacts s) in (with_contacts c s, ok).

Definition remove_contact (pub_key : bytes) (s : t) : t * bool :=
  let '(c, ok) := ContactStore.remove pub_key (contacts s) in (with_contacts c s, ok).

Definition forget_path (c : Models.Contact) : Models.Contact :=
  Models.mkContact (Models.public_key c) (Models.name c) (Models.adv_type c) (Models.flags c) (-1) []
    (Models.last_advert_timestamp c) (Models.lastmod c) (Models.gps_lat c) (Models.gps_lon c) (Models.sync_since c)
    (Models.last_advert_packet c).

Definition reset_path (pub_key : bytes) (s : t) : t * bool :=
  match ContactStore.get_by_key pub_key (contacts s) with
  | None => (s, false)
  | Some contact => (with_contacts (ContactStore.update (forget_path contact) (contacts s)).1 s, true)
  end.

Definition get_advert_path (pub_key_prefix : bytes) (s : t) : option Models.AdvertPath :=
  PathCache.get_by_prefix pub_key_prefix (path_cache s).

(** The signed advert of a stored contact, or a fresh one of this node. *)
Definition export_contact (now : Z) (pub_key : option bytes) (s : t) : res (option bytes) :=
  match pub_key with
  | None =>
      let p := prefs s in
      let flags := Z.lor (adv_type_to_flags (Prefs.adv_type p)) ADVERT_FLAG_HAS_NAME in
      let share := advert_loc_policy p =? 1 in
      packet ← PacketBuilder.create_advert now (identity s) (node_name p)
                 (if share then latitude p else f_zero) (if share then longitude p else f_zero)
                 0 0 (if share then Z.lor flags ADVERT_FLAG_HAS_LOCATION else flags) "flood";
      b ← Packet.write_to packet;
      mret (Some b)
  | Some key =>
      mret (match ContactStore.get_by_key key (contacts s) with
            | Some c => match Models.last_advert_packet c with Some ((_ :: _) as b) => Some b | _ => None end
            | None => None
            end)
  end.

(** Whether the packet is accepted, with the packet that is handled later as
    if it had been received; [None]: refused. *)
Definition import_contact (packet_data : bytes) : option Packet.t :=
  match Packet.read_from packet_data Packet.init with
  | (packet, Ok true) =>
      if negb (Packet.get_payload_type packet =? PAYLOAD_TYPE_ADVERT) then None
      else Some (Packet.with_header (Z.lor (Packet.header packet) ROUTE_TYPE_FLOOD) packet)
  | _ => None
  end.

Definition get_channel (idx : Z) (s : t) : option Models.Channel := ChannelStore.get idx (channels s).

Definition set_channel (idx : Z) (name : pystr) (secret : bytes) (s : t) : t * bool :=
  let secret := if len secret <? 32 then secret ++ zeros (32 - len secret)
                else if len secret >? 32 then slice_to secret 32 else secret in
  let '(c, ok) := ChannelStore.set idx (Models.mkChannel (slice_to name 32) secret) (channels s) in
  (with_channels c s, ok).

Definition remove_channel (idx : Z) (s : t) : t * bool :=
  let '(c, ok) := ChannelStore.remove idx (channels s) in (with_channels c s, ok).

Definition sync_next_message (s : t) : t * option Models.QueuedMessage :=
  let '(q, m) := MessageQueue.pop (message_queue s) in (with_message_queue q s, m).

Definition get_autoadd_config (s : t) : Z := autoadd_config (prefs s).
Definition get_autoadd_max_hops (s : t) : Z := autoadd_max_hops (prefs s).

Definition set_autoadd_config (config : Z) (max_hops : option Z) : py t unit :=
  update_prefs (fun p =>
    let p := Prefs.set_autoadd_config config p in
    match max_hops with Some h => set_autoadd_max_hops (Z.min h 64) p | None => p end).

(** The preferences [_apply_advert_to_stores] reads. *)
Definition ingest_prefs (p : NodePrefs) : AdvertIngest.NodePrefs :=
  AdvertIngest.mkPrefs (manual_add_contacts p) (autoadd_config p) (autoadd_max_hops p).

(** *** Statistics *)

Inductive stats_data : Type :=
| CoreStats (uptime_secs queue_len contacts_count channels_count : Z)
| RadioStats (frequency_hz bandwidth_hz spreading_factor coding_rate tx_power_dbm : Z)
| PacketTotals (totals : Models.PacketStats * Z * Z * Z).

Definition get_stats (now : float) (stats_type : Z) (s : t) : res stats_data :=
  if stats_type =? 0 then
    uptime ← StatsCollector.get_uptime_secs now (stats s);
    mret (CoreStats uptime (MessageQueue.count (message_queue s)) (ContactStore.get_count (contacts s))
            (ChannelStore.get_count (channels s)))
  else if stats_type =? 1 then
    let p := prefs s in
    mret (RadioStats (frequency_hz p) (bandwidth_hz p) (spreading_factor p) (coding_rate p) (tx_power_dbm p))
  else (totals ← StatsCollector.get_totals now (stats s); mret (PacketTotals totals)).

End Companion.

(** ** The interface to the sending half of the companion *)

Record SentResult := mkSentResult {
  success : bool;
  is_flood : bool;
  expected_ack : option Z;
  timeout_ms : option Z;
  error : option string
}.

(** What [_start_*_request] returns: started, or the error it names. *)
Inductive started : Type :=
| Started (sent : SentResult) (waiting : Session.task) (session_owner : bool)
| NotStarted (error : option string).

Class CompanionSends := {
  send_text_message : bytes → pystr → Z → Z → option Z → py Companion.t SentResult;
  send_channel_message : Z → pystr → Z → py Companion.t bool;
  send_channel_data : Z → Z → bytes → option bytes → Z → py Companion.t bool;
  send_binary_req : bytes → bytes → py Companion.t SentResult;
  send_anon_req : bytes → bytes → py Companion.t SentResult;
  send_control_data : bytes → py Companion.t bool;
  send_path_discovery_req : bytes → py Companion.t SentResult;
  send_trace_path_raw : Z → Z → Z → bytes → py Companion.t SentResult;
  send_raw_data_direct : bytes → bytes → Z → py Companion.t SentResult;
  send_raw_packet : Z → bytes → py Companion.t SentResult;
  start_frame_login_request : bytes → pystr → py Companion.t started;
  start_status_request : bytes → py Companion.t started;
  start_telemetry_request : bytes → py Companion.t started;
  has_login_connection : bytes → py Companion.t bool;
  clear_login_connection : bytes → Companion.t → Companion.t;
  send_logout : bytes → py Companion.t unit;
  advertise : bool → py Companion.t bool;
  share_contact : bytes → py Companion.t bool
}.
