(* ===== verification/CompanionSend.v ===== *)
(** * What a companion sends ([companion/base_send.py], the request tables of
      [companion/base_callbacks.py], [_send_packet] of
      [companion/companion_bridge.py])

    A send looks up the contact, builds a packet, applies the flood scope and
    the path hash mode, and hands it to the transport. Whatever raises on the
    way is logged and reported in the result. Where the code awaits, other
    tasks run: what they do to the companion is part of the environment, in
    [packet_injector] for the transport and in [meanwhile] for the wait for an
    answer. A contact's proxy is taken by value: the attempts after the first
    mask its path, and nothing else of it changes. *)

From stdpp Require Import gmap.
From S2P Require Import Prelude PyData Sha256 Utf8 PyFloat ODict Constants PacketUtils Airtime Packet RegionMap Crypto PacketFilter PacketBuilder Stores Contacts ProtocolResponse Login FrameCodes BinaryParsing CompanionSession CompanionConfig.

Definition PROTOCOL_CODE_RAW_DATA : Z := 0x00.
Definition PROTOCOL_CODE_BINARY_REQ : Z := 0x02.
Definition PROTOCOL_CODE_ANON_REQ : Z := 0x07.
Definition DEFAULT_RESPONSE_TIMEOUT_MS : Z := 10000.
Definition MAX_PENDING_ACK_CRCS : Z := 64.
Definition MAX_GROUP_DATA_LENGTH : Z := MAX_PACKET_PAYLOAD - CIPHER_BLOCK_SIZE - 3.
Definition FRAME_LOGIN_PENDING_TTL_S : float := f_of_Z 120.

(** Clocks, random bits, the transport, the other tasks, whether the node has
    the handlers a request needs, and what the host decides: who may log in, the
    regions it knows, the spreading factor of its radio, which characters are
    printable. *)
Class Environment := {
  wall : nat → float;
  monotonic : nat → float;
  random_bits : nat → Z;
  packet_injector : Packet.t → bool → option Z → py Companion.t bool;
  meanwhile : float → Companion.t → Companion.t;
  protocol_handler : bool;
  login_handler : bool;
  text_handler : bool;
  os_urandom : Z → nat → bytes;
  authenticate : bytes → bytes → pystr → Z → option Z → res (bool * Z);
  host_regions : option RegionMap;
  radio_sf : option (res Z);
  isprintable : pystr → bool
}.

Module Sends.
Import Session Companion.

Section send.
Context `{E : Environment} `{C : BlockCipher} `{K : PacketBuilder.KeyExchange}.

(** ** Clocks, builders, transport *)

Definition reading {A} (f : nat → A) : py t A :=
  s ← get;
  modify (on_session (fun v => with_reads (S (reads v)) v));;
  mret (f (reads (session s))).

Definition time_time : py t float := reading wall.
Definition time_monotonic : py t float := reading monotonic.
(** [int(time.time())] *)
Definition unix_time : py t Z := now ← time_time; lift (int_of_float now).

(** [os.urandom(n)] *)
Definition urandom (n : Z) : py t bytes := reading (os_urandom n).

(** A builder that may take a timestamp. *)
Definition building {A} (m : Z → py Z A) : py t A :=
  now ← unix_time;
  ((fun s => let '(last, r) := m now (_last_unique_timestamp (session s)) in
             (on_session (with_last_unique_timestamp last) s, r)) : py t A).

(** A method on a packet under construction. *)
Definition on_packet (m : t → py Packet.t unit) (pkt : Packet.t) : py t Packet.t :=
  s ← get; lift (PacketBuilder.build (m s) pkt).

(** [_apply_flood_scope] and [_apply_path_hash_mode], as every request does. *)
Definition scoped (pkt : Packet.t) : py t Packet.t :=
  pkt ← on_packet _apply_flood_scope pkt;
  on_packet _apply_path_hash_mode pkt.

Definition _send_packet (pkt : Packet.t) (wait : bool) (crc : option Z) : py t bool :=
  modify (on_session (record_sent (mkSent pkt wait crc)));;
  packet_injector pkt wait crc.

(** [if success: self.stats.record_tx(...) else: self.stats.record_tx_error()] *)
Definition record (success is_flood : bool) (s : t) : t :=
  with_stats (if success then StatsCollector.record_tx is_flood (stats s) else StatsCollector.record_tx_error (stats s)) s.

Definition sent_error (error : option string) : SentResult := mkSentResult false false None None error.

(** The contact and its proxy. *)
Definition contact_and_proxy (pub_key : bytes) (s : t) : option (Models.Contact * PacketBuilder.contact) :=
  match ContactStore.get_by_key pub_key (contacts s), ContactStore.get_proxy_by_key pub_key (contacts s) with
  | Some c, Some p => Some (c, ContactStore.proxy_contact p)
  | _, _ => None
  end.

(** [PacketBuilder.create_protocol_request] and its neighbours on a proxy. *)
Definition protocol_request (proxy : PacketBuilder.contact) (code : Z) (data : bytes) (route_type : option string)
    : py t (Packet.t * Z) :=
  s ← get;
  building (fun now => PacketBuilder.create_protocol_request now proxy (identity s) code data None route_type).

(** [now + seconds] *)
Definition response_timeout_s (pkt : Packet.t) (proxy : PacketBuilder.contact) (s : t) : float :=
  let p := prefs s in
  match Timing.response_timeout_ms (Packet.get_raw_length pkt) (Packet.is_route_flood pkt)
          (PacketBuilder.out_path_len proxy) (Prefs.spreading_factor p) (Prefs.bandwidth_hz p) (Prefs.coding_rate p) 8 with
  | Ok ms => SFdiv prec64 emax64 (f_of_Z ms) (f_of_Z 1000)
  | Err _ => f_of_Z 5
  end.
Definition _response_timeout_s (pkt : Packet.t) (proxy : PacketBuilder.contact) : py t float :=
  s ← get; mret (response_timeout_s pkt proxy s).

(** [int(timeout_s * 1000)] *)
Definition to_ms (seconds : float) : res Z := int_of_float (fmul seconds (f_of_Z 1000)).

(** ** Adverts *)

Definition advertise (flood : bool) : py t bool :=
  s ← get;
  let p := prefs s in
  let flags := Z.lor (adv_type_to_flags (Prefs.adv_type p)) ADVERT_FLAG_HAS_NAME in
  let share := Prefs.advert_loc_policy p =? 1 in
  now ← unix_time;
  pkt ← lift (PacketBuilder.create_advert now (identity s) (Prefs.node_name p)
                (if share then Prefs.latitude p else f_zero) (if share then Prefs.longitude p else f_zero)
                0 0 (if share then Z.lor flags ADVERT_FLAG_HAS_LOCATION else flags) (if flood then "flood" else "direct"));
  pkt ← on_packet _apply_default_flood_scope pkt;
  pkt ← on_packet _apply_path_hash_mode pkt;
  success ← _send_packet pkt false None;
  modify (record success flood);;
  mret success.

(** The header and path of [Mesh::sendZeroHop]. *)
Definition zero_hop (pkt : Packet.t) : Packet.t :=
  let pkt := Packet.with_header (Z.lor (Z.land (Packet.header pkt) (Z.lnot PH_ROUTE_MASK)) ROUTE_TYPE_DIRECT) pkt in
  Packet.with_path [] (Packet.with_path_len 0 (Packet.with_transport_codes (0, 0) pkt)).

Definition share_contact (pub_key : bytes) : py t bool :=
  s ← get;
  match ContactStore.get_by_key pub_key (contacts s) with
  | None => mret false
  | Some contact =>
      match Models.last_advert_packet contact with
      | Some ((_ :: _) as blob) =>
          py_try
            (let '(pkt, r) := Packet.read_from blob Packet.init in
             ok ← lift r;
             if negb ok then mret false
             else if negb (Packet.get_payload_type pkt =? PAYLOAD_TYPE_ADVERT) then mret false
             else if (len (Packet.payload pkt) >=? PUB_KEY_SIZE)
                     && negb (bytes_eqb (slice_to (Packet.payload pkt) PUB_KEY_SIZE) pub_key) then mret false
             else _send_packet (zero_hop pkt) false None)
            (mret false)
      | _ => mret false
      end
  end.

(** ** Traces *)

Definition send_trace_path_raw (tag auth_code flags : Z) (path_bytes : bytes) : py t SentResult :=
  py_try
    (pkt ← lift (PacketBuilder.create_trace tag auth_code flags path_bytes);
     pkt ← scoped pkt;
     success ← _send_packet pkt false None;
     if negb success then mret (sent_error (Some "send_failed"%string))
     else
       let hash_width := PathUtils.trace_payload_hash_width flags in
       let hop_count := if negb (hash_width =? 0) then len path_bytes / hash_width else 0 in
       s ← get;
       let p := prefs s in
       airtime_ms ← lift (Timing.estimate_airtime_ms (Packet.get_raw_length pkt) (Prefs.spreading_factor p)
                            (Prefs.bandwidth_hz p) (Prefs.coding_rate p) 8 None);
       est_timeout_ms ← lift (Timing.calc_direct_timeout_ms_for_hops airtime_ms hop_count);
       mret (mkSentResult true false (Some tag) (Some est_timeout_ms) None))
    (mret (sent_error (Some "send_failed"%string))).

Definition send_trace_path (pub_key : bytes) (tag auth_code flags : Z) : py t bool :=
  s ← get;
  match ContactStore.get_by_key pub_key (contacts s) with
  | None => mret false
  | Some contact =>
      path ← (if bool_decide (Models.out_path contact = []) then
                first ← lift (index (Models.public_key contact) 0); mret [first]
              else mret (Models.out_path contact));
      py_try
        (pkt ← lift (PacketBuilder.create_trace tag auth_code flags path);
         pkt ← on_packet _apply_path_hash_mode pkt;
         _send_packet pkt false None)
        (mret false)
  end.

(** ** Requests whose answer is a binary response *)

Definition cleanup_expired_binary_requests : py t unit :=
  now ← time_time;
  modify (on_session (fun v =>
    with_pending_binary_requests
      (List.filter (fun e => negb (fltb (expires_at e.2) now)) (_pending_binary_requests v)) v)).

Definition register_binary_request (tag_hex : string) (rtype : Z) (timeout_seconds : float) (prefix : string)
    (context : request_context) : py t unit :=
  now ← time_time;
  modify (on_session (fun v =>
    with_pending_binary_requests
      (dset tag_hex (mkRequest rtype prefix (fadd now timeout_seconds) context) (_pending_binary_requests v)) v)).

Definition forget_binary_request (tag_hex : string) : py t unit :=
  modify (on_session (fun v => with_pending_binary_requests (ddel tag_hex (_pending_binary_requests v)) v)).

Definition send_binary_req (pub_key data : bytes) (timeout_seconds : float) : py t SentResult :=
  s ← get;
  match contact_and_proxy pub_key s with
  | None => mret (sent_error (Some "not_found"%string))
  | Some (contact, proxy) =>
      let request_type := match data with b :: _ => b | [] => 0 end in
      let failed := mret (sent_error (Some "send_failed"%string)) in
      cleanup_expired_binary_requests;;
      py_try
        ('(pkt, timestamp) ← protocol_request proxy request_type (slice_from data 1) None;
         tag_bytes ← lift (to_bytes_le 4 timestamp);
         let tag_hex := hex tag_bytes in
         py_try
           (register_binary_request tag_hex request_type timeout_seconds (hex (slice_to pub_key 6)) no_context;;
            pkt ← scoped pkt;
            success ← _send_packet pkt false None;
            if negb success then forget_binary_request tag_hex;; failed
            else mret (mkSentResult true (Models.out_path_len contact <? 0) (Some timestamp)
                         (Some DEFAULT_RESPONSE_TIMEOUT_MS) None))
           (forget_binary_request tag_hex;; failed))
        failed
  end.

(** An unknown key becomes a transient contact first; its [lastmod] is read
    from the clock only then. *)
Definition send_anon_req (pub_key data : bytes) (timeout_seconds : float) : py t SentResult :=
  s ← get;
  let failed := mret (sent_error None) in
  now ← (match ContactStore.get_by_key pub_key (contacts s) with Some _ => mret 0 | None => unix_time end);
  s ← get;
  let contact := default (AdvertIngest.anon_contact pub_key now) (ContactStore.get_by_key pub_key (contacts s)) in
  let '(st, target) := AdvertIngest.anon_target pub_key now (stores s) in
  modify (with_stores st);;
  match target with
  | None => failed
  | Some p =>
      let proxy := ContactStore.proxy_contact p in
      let anon_sub_type := match data with b :: _ => Some b | [] => None end in
      cleanup_expired_binary_requests;;
      py_try
        (s ← get;
         '(pkt, timestamp) ← building (fun now => PacketBuilder.create_anon_request now proxy (identity s) data None);
         tag_bytes ← lift (to_bytes_le 4 timestamp);
         let tag_hex := hex tag_bytes in
         sent ← py_try
           (pkt ← scoped pkt;
            timeout_s ← _response_timeout_s pkt proxy;
            register_binary_request tag_hex PROTOCOL_CODE_ANON_REQ
              (py_fmax timeout_seconds (fmul timeout_s (f_of_Z Timing.DEFAULT_MAX_ATTEMPTS)))
              (hex (slice_to pub_key 6)) (mkContext anon_sub_type None);;
            success ← _send_packet pkt false None;
            if negb success then forget_binary_request tag_hex;; mret None else mret (Some timeout_s))
           (forget_binary_request tag_hex;; mret None);
         mret (option_map (pair timestamp) sent))
        (mret None)
      ≫= λ sent,
      match sent with
      | Some (timestamp, timeout_s) =>
          ms ← lift (to_ms timeout_s);
          mret (mkSentResult true (Models.out_path_len contact <? 0) (Some timestamp) (Some ms) None)
      | None => failed
      end
  end.

Definition send_path_discovery_req (pub_key : bytes) : py t SentResult :=
  s ← get;
  match contact_and_proxy pub_key s with
  | None => mret (sent_error (Some "not_found"%string))
  | Some (_, proxy) =>
      let inv_perm := Z.land 0xFF (Z.lnot TELEM_PERM_BASE) in
      bits ← reading random_bits;
      r ← lift (to_bytes_le 4 bits);
      py_try
        ('(pkt, tag_int) ← protocol_request proxy REQ_TYPE_GET_TELEMETRY_DATA ([inv_perm; 0; 0; 0] ++ r) (Some "flood"%string);
         pkt ← scoped pkt;
         success ← _send_packet pkt false None;
         (if (success : bool)
          then modify (on_session (fun v => with_pending_discovery_tags ({[tag_int]} ∪ _pending_discovery_tags v) v))
          else mret tt);;
         mret (mkSentResult success true (Some tag_int) (Some DEFAULT_RESPONSE_TIMEOUT_MS)
                 (if success then None else Some "send_failed"%string)))
        (mret (sent_error (Some "send_failed"%string)))
  end.

Definition send_path_discovery (pub_key : bytes) : py t bool :=
  result ← send_path_discovery_req pub_key; mret (success result).

(** ** Text messages *)

(** The oldest entries give way. *)
Fixpoint evict_oldest (fuel : nat) (d : list (Z * float)) : list (Z * float) :=
  match fuel with
  | O => d
  | S fuel => if len d >? MAX_PENDING_ACK_CRCS then evict_oldest fuel (pop_first d) else d
  end.

Definition track_ack (ack_crc : Z) (now : float) (d : list (Z * float)) : list (Z * float) :=
  let d := dset ack_crc now (ddel ack_crc d) in evict_oldest (length d) d.

Definition _track_pending_ack (ack_crc : Z) : py t unit :=
  modify (on_session (fun v => with_pending_ack_crcs (ddel ack_crc (_pending_ack_crcs v)) v));;
  now ← time_monotonic;
  modify (on_session (fun v => with_pending_ack_crcs (track_ack ack_crc now (_pending_ack_crcs v)) v)).

(** Whether the CRC was pending. *)
Definition _try_confirm_send (crc : Z) : py t bool :=
  s ← get;
  match dget crc (_pending_ack_crcs (session s)) with
  | None => mret false
  | Some sent_at =>
      modify (on_session (fun v => with_pending_ack_crcs (ddel crc (_pending_ack_crcs v)) v));;
      now ← time_monotonic;
      ms ← lift (py_round (fmul (fsub now sent_at) (f_of_Z 1000)));
      modify (on_session (fire (SendConfirmed crc (Z.max 0 ms))));;
      mret true
  end.

Definition is_cli_type (txt_type : Z) : bool := (txt_type =? TXT_TYPE_CLI_DATA) || (txt_type =? TXT_TYPE_CLI_COMMAND).

Definition send_text_message (pub_key : bytes) (text : pystr) (txt_type attempt : Z) (wait : bool) (timestamp : option Z)
    : py t SentResult :=
  s ← get;
  match contact_and_proxy pub_key s with
  | None => mret (sent_error None)
  | Some (_, proxy) =>
      py_try
        (let is_flood := PacketBuilder.out_path_len proxy <? 0 in
         '(pkt, ack_crc) ← building (fun now =>
            PacketBuilder.create_text_message now proxy (identity s) text attempt (if is_flood then "flood" else "direct")
              None txt_type timestamp);
         pkt ← scoped pkt;
         let is_cli := is_cli_type txt_type in
         let reported_ack := if is_cli then 0 else ack_crc in
         (if is_cli then mret tt else _track_pending_ack ack_crc);;
         let waits := wait && negb is_cli in
         success ← _send_packet pkt waits (if waits then Some ack_crc else None);
         modify (record success is_flood);;
         mret (mkSentResult success is_flood (Some reported_ack)
                 (if waits then None else Some DEFAULT_RESPONSE_TIMEOUT_MS) None))
        (modify (record false false);; mret (sent_error None))
  end.

(** ** Channels *)

(** [_check_and_track_group_packet] of [companion_base.py] *)
Definition _check_and_track_group_packet (pkt : Packet.t) : py t bool :=
  h ← lift (Packet.calculate_packet_hash pkt);
  now ← time_monotonic;
  s ← get;
  let '(c, hit) := PacketHashCache.check_and_add now (hex h) (_seen_group_packets (session s)) in
  modify (on_session (with_seen_group_packets c));;
  mret hit.

Definition send_channel_message (channel_idx : Z) (text : pystr) (timestamp : option Z) : py t bool :=
  s ← get;
  match ChannelStore.get channel_idx (channels s) with
  | None => mret false
  | Some channel =>
      py_try
        (pkt ← building (fun now =>
           PacketBuilder.create_group_datagram now (Models.ch_name channel) text (Prefs.node_name (prefs s))
             (Some (map (fun c => PacketBuilder.mkChannel c.1 (PacketBuilder.SecretHex c.2)) (ChannelStore.get_channels (channels s))))
             timestamp);
         pkt ← scoped pkt;
         _check_and_track_group_packet pkt;;
         success ← _send_packet pkt false None;
         modify (record success true);;
         mret success)
        (modify (record false false);; mret false)
  end.

(** The 32 bytes of a channel secret, and the byte of its hash. *)
Definition channel_secret_32 (secret : bytes) : bytes :=
  if len secret <? 32 then secret ++ zeros (32 - len secret) else slice_to secret 32.
Definition channel_hash_of (secret_bytes : bytes) : res Z :=
  let hash_input := if (len secret_bytes >=? 32) && bytes_eqb (slice secret_bytes 16 32) (zeros 16)
                    then slice_to secret_bytes 16 else secret_bytes in
  index (sha256 hash_input) 0.

(** [path_len_encoded]: [None] and [0xFF] flood. *)
Definition send_channel_data (channel_idx data_type : Z) (payload : bytes) (path : option bytes)
    (path_len_encoded : option Z) : py t bool :=
  s ← get;
  match ChannelStore.get channel_idx (channels s) with
  | None => mret false
  | Some channel =>
      if (data_type <=? 0) || (data_type >? 0xFFFF) then mret false
      else if len payload >? MAX_GROUP_DATA_LENGTH then mret false
      else
        py_try
          (let secret_bytes := channel_secret_32 (Models.ch_secret channel) in
           channel_hash ← lift (channel_hash_of secret_bytes);
           h ← lift (pack_H (Z.land data_type 0xFFFF));
           n ← lift (pack_B (len payload));
           pkt ← lift (PacketBuilder.create_group_data_packet PAYLOAD_TYPE_GRP_DATA channel_hash (h ++ n ++ payload) secret_bytes);
           let is_flood := match path_len_encoded with None => true | Some l => l =? 0xFF end in
           pkt ← (if is_flood then on_packet _apply_flood_scope pkt
                  else lift (PacketBuilder.build (Packet.set_path (default [] path) path_len_encoded)
                         (Packet.with_header (Z.lor (Z.land (Packet.header pkt) (Z.lnot PH_ROUTE_MASK)) ROUTE_TYPE_DIRECT) pkt)));
           pkt ← on_packet _apply_path_hash_mode pkt;
           _check_and_track_group_packet pkt;;
           success ← _send_packet pkt false None;
           modify (record success is_flood);;
           mret success)
          (modify (record false false);; mret false)
  end.

(** ** Raw packets *)

Definition send_raw_data (dest_key data : bytes) : py t SentResult :=
  s ← get;
  match contact_and_proxy dest_key s with
  | None => mret (sent_error None)
  | Some (_, proxy) =>
      py_try
        ('(pkt, _) ← protocol_request proxy PROTOCOL_CODE_RAW_DATA data None;
         pkt ← on_packet _apply_path_hash_mode pkt;
         success ← _send_packet pkt false None;
         mret (mkSentResult success false None None None))
        (mret (sent_error None))
  end.

Definition send_raw_data_direct (path payload : bytes) (path_len_encoded : option Z) : py t SentResult :=
  if len payload <? 4 then mret (sent_error None)
  else if len path >? MAX_PATH_SIZE then mret (sent_error None)
  else if len payload >? MAX_PACKET_PAYLOAD then mret (sent_error None)
  else
    py_try
      (pkt ← lift (PacketBuilder.create_raw_data payload);
       pkt ← lift (PacketBuilder.build (Packet.set_path path path_len_encoded) pkt);
       success ← _send_packet pkt false None;
       modify (record success false);;
       mret (mkSentResult success false None None None))
      (mret (sent_error None)).

(** [None]: the bytes are not a packet. *)
Definition parse_raw (packet_bytes : bytes) : option Packet.t :=
  match Packet.read_from packet_bytes Packet.init with
  | (pkt, Ok true) => Some pkt
  | _ => None
  end.

Definition send_raw_packet (priority : Z) (packet_bytes : bytes) : py t SentResult :=
  match parse_raw packet_bytes with
  | None => mret (sent_error (Some "illegal_arg"%string))
  | Some pkt =>
      py_try
        (success ← _send_packet pkt false None;
         modify (record success false);;
         mret (if (success : bool) then mkSentResult true false None None None else sent_error (Some "send_failed"%string)))
        (modify (record false false);; mret (sent_error (Some "send_failed"%string)))
  end.

Definition control_packet (data : bytes) : Packet.t :=
  let pkt := Packet.with_header (PacketBuilder._create_header PAYLOAD_TYPE_CONTROL "direct" false) Packet.init in
  let pkt := Packet.with_path [] (Packet.with_path_len 0 pkt) in
  Packet.with_payload_len (len data) (Packet.with_payload data pkt).

Definition send_control_data (data : option bytes) : py t bool :=
  py_try
    (match data with
     | Some ((b :: _) as data) =>
         if (len data <=? MAX_PACKET_PAYLOAD) && negb (Z.land b 0x80 =? 0) then
           pkt ← on_packet _apply_path_hash_mode (control_packet data);
           _send_packet pkt false None
         else mret false
     | Some [] => mret false
     | None =>
         tag ← reading random_bits;
         pkt ← lift (PacketBuilder.create_discovery_request tag 0x04 0 false);
         pkt ← on_packet _apply_path_hash_mode pkt;
         _send_packet pkt false None
     end)
    (mret false).

(** ** Requests that are repeated until their answer comes *)

(** The packet of an attempt, with the tag its answer will carry. *)
Definition build_packet (kind : request_kind) (proxy : PacketBuilder.contact) : py t (Packet.t * option Z) :=
  match kind with
  | ProtocolRequest code data =>
      '(pkt, timestamp) ← protocol_request proxy code data None; mret (pkt, Some timestamp)
  | LoginRequest password =>
      s ← get;
      pkt ← building (fun now => PacketBuilder.create_login_packet now proxy (identity s) password);
      mret (pkt, None)
  end.

Definition _take_built_packet (kind : request_kind) (proxy : PacketBuilder.contact) : py t (Packet.t * option Z) :=
  '(pkt, tag) ← build_packet kind proxy;
  if Packet._flood_scope_applied pkt || Packet._path_hash_mode_applied pkt
  then raise (ValueError "request builder returned a packet that already carries send-time decisions")
  else mret (pkt, tag).

(** The proxy with its path masked. *)
Definition masked (proxy : PacketBuilder.contact) : PacketBuilder.contact :=
  PacketBuilder.mkContact (PacketBuilder.public_key proxy) (-1) (PacketBuilder.out_path proxy)
    (PacketBuilder.ctype proxy) (PacketBuilder.sync_since proxy).

Definition _build_retry_packet (kind : request_kind) (proxy : PacketBuilder.contact) : py t (Packet.t * option Z) :=
  if PacketBuilder.out_path_len proxy <? 0 then _take_built_packet kind proxy
  else _take_built_packet kind (masked proxy).

Definition with_tags (tags : list Z) (r : request_task) : request_task :=
  mkRequestTask (rt_kind r) (rt_key r) (rt_proxy r) (rt_name r) (rt_callback r) tags (rt_deadline r) (rt_first_timeout r).

(** [response_tag_registered] *)
Definition register_tag (tag : option Z) (r : request_task) : py t request_task :=
  match tag with
  | None => mret r
  | Some tag =>
      modify (on_session (set_response_callback (rt_key r) tag (rt_callback r)));;
      mret (with_tags (if bool_decide (tag ∈ rt_tags r) then rt_tags r else rt_tags r ++ [tag]) r)
  end.

Definition clear_response_tags (r : request_task) (v : Session.t) : Session.t :=
  fold_left (fun v tag => clear_response_callback (rt_key r) tag v) (rt_tags r) v.

(** [dest_hash] of a proxy. *)
Definition dest_hash (proxy : PacketBuilder.contact) : res Z :=
  key ← fromhex (PacketBuilder.public_key proxy); index key 0.

(** [cleanup]: [_clear_response_tags] or [_cleanup_login]. *)
Definition cleanup (r : request_task) (v : Session.t) : Session.t :=
  match rt_kind r with
  | ProtocolRequest _ _ => clear_response_tags r v
  | LoginRequest _ =>
      let v := remove_login_callback (rt_key r) (rt_callback r) v in
      match dest_hash (rt_proxy r) with Ok h => clear_login_password h v | Err _ => v end
  end.

(** [min(timeout_s, deadline - time.monotonic())]; [None]: the time is up. *)
Definition remaining_timeout (deadline : option float) (timeout_s : float) : py t (option float) :=
  match deadline with
  | None => mret (Some timeout_s)
  | Some deadline =>
      now ← time_monotonic;
      let remaining := fsub deadline now in
      mret (if fleb remaining f_zero then None else Some (py_fmin timeout_s remaining))
  end.

(** [wait_for_response]: what the callback was called with; [None]: timeout. *)
Definition wait_for_response (cb : nat) (timeout_s : float) : py t (option wake) :=
  modify (meanwhile timeout_s);;
  s ← get;
  mret (woken cb (session s)).

(** How a started request ends. *)
Inductive outcome : Type :=
| Answer (w : wake)
| TimedOut
| SendFailed
| RequestError.

(** The attempts after the first; [n] are left. The request is returned with
    the tags it registered. *)
Fixpoint retries (n : nat) (r : request_task) : py t (request_task * outcome) :=
  match n with
  | O => mret (r, TimedOut)
  | S n =>
      py_try
        ('(pkt, tag) ← _build_retry_packet (rt_kind r) (rt_proxy r); mret (Some (pkt, tag)))
        (mret None)
      ≫= λ (built : option (Packet.t * option Z)),
      match built with
      | None => mret (r, RequestError)
      | Some (pkt, tag) =>
          r ← register_tag tag r;
          py_try
            (pkt ← scoped pkt;
             timeout_s ← _response_timeout_s pkt (rt_proxy r);
             timeout ← remaining_timeout (rt_deadline r) timeout_s;
             match timeout with
             | None => mret (Some (r, TimedOut))
             | Some timeout_s =>
                 ok ← _send_packet pkt false None;
                 if negb ok then mret (Some (r, SendFailed))
                 else
                   w ← wait_for_response (rt_callback r) timeout_s;
                   mret (option_map (fun w => (r, Answer w)) w)
             end)
            (mret (Some (r, RequestError)))
          ≫= λ (ended : option (request_task * outcome)),
          match ended with
          | Some e => mret e
          | None => retries n r
          end
      end
  end.

(** [_finish_started_request]: wait, retry, clean up. *)
Definition _finish_started_request (r : request_task) : py t (request_task * outcome) :=
  w ← wait_for_response (rt_callback r) (rt_first_timeout r);
  '(r, o) ← (match w with
             | Some w => mret (r, Answer w)
             | None => retries (Z.to_nat (Timing.DEFAULT_MAX_ATTEMPTS - 1)) r
             end);
  modify (on_session (cleanup r));;
  mret (r, o).

(** [_start_request]: the first packet; what it returns, and the task. *)
Definition _start_request (r : request_task) (total_timeout_s : option float) (sent_tag : option Z) : py t started :=
  deadline ← (match total_timeout_s with
              | Some total => now ← time_monotonic; mret (Some (fadd now total))
              | None => mret None
              end);
  built ← py_try (b ← _take_built_packet (rt_kind r) (rt_proxy r); mret (Some b)) (mret None);
  let failed (r : request_task) := modify (on_session (cleanup r));; mret (NotStarted (Some "send_failed"%string)) in
  match (built : option (Packet.t * option Z)) with
  | None => failed r
  | Some (pkt, tag) =>
      r ← register_tag tag r;
      py_try
        (pkt ← scoped pkt;
         estimated ← _response_timeout_s pkt (rt_proxy r);
         wait ← (match deadline with
                 | None => mret estimated
                 | Some d =>
                     now ← time_monotonic;
                     let remaining := fsub d now in
                     mret (if fltb f_zero remaining then py_fmin estimated remaining else estimated)
                 end);
         ok ← _send_packet pkt false None;
         if negb ok then failed r
         else
           ms ← lift (to_ms estimated);
           mret (Started (mkSentResult true (Packet.is_route_flood pkt)
                            (match sent_tag with Some x => Some x | None => tag end) (Some ms) None)
                   (RequestTask (mkRequestTask (rt_kind r) (rt_key r) (rt_proxy r) (rt_name r) (rt_callback r) (rt_tags r)
                                   deadline wait))
                   true))
        (failed r)
  end.

(** A fresh callback. *)
Definition new_callback : py t nat :=
  s ← get;
  let '(v, cb) := fresh (session s) in
  modify (with_session v);;
  mret cb.

(** ** Status and telemetry *)

Definition _start_protocol_request (pub_key : bytes) (protocol_code : Z) (data : bytes) (timeout : float) : py t started :=
  s ← get;
  match contact_and_proxy pub_key s with
  | None => mret (NotStarted (Some "not_found"%string))
  | Some (contact, proxy) =>
      if negb protocol_handler then mret (NotStarted (Some "bad_state"%string))
      else
        cb ← new_callback;
        _start_request (mkRequestTask (ProtocolRequest protocol_code data) pub_key proxy (Models.name contact) cb [] None f_zero)
          (Some timeout) None
  end.

Definition _start_status_request (pub_key : bytes) (timeout : float) : py t started :=
  _start_protocol_request pub_key REQ_TYPE_GET_STATUS [] timeout.

Definition _start_telemetry_request (pub_key : bytes) (want_base want_location want_environment : bool) (timeout : float)
    : py t started :=
  _start_protocol_request pub_key REQ_TYPE_GET_TELEMETRY_DATA
    [PacketBuilder._compute_inverse_perm_mask want_base want_location want_environment] timeout.

(** [_format_status_result] and [_format_telemetry_result], without display
    texts: what the waiter got. *)
Record request_result := mkResult {
  rr_success : bool;
  rr_name : pystr;
  rr_parsed : option ProtocolResponseHandler.parsed
}.

Definition format_result (x : request_task * outcome) : request_result :=
  match x.2 with
  | Answer (Answered p) => mkResult true (rt_name x.1) (Some p)
  | _ => mkResult false (rt_name x.1) None
  end.

(** [raw_bytes] of a parsed response. *)
Definition raw_bytes_of (p : ProtocolResponseHandler.parsed) : bytes :=
  match p with
  | ProtocolResponseHandler.TelemetryResponse _ _ raw => raw
  | ProtocolResponseHandler.StatsResponse _ raw => raw
  | _ => []
  end.

(** [frame_bytes] of a telemetry result. *)
Definition frame_bytes (pub_key : bytes) (x : request_result) : option bytes :=
  let raw := match rr_parsed x with Some p => raw_bytes_of p | None => [] end in
  if negb (bool_decide (raw = [])) && (len pub_key >=? 6)
  then Some ([PUSH_CODE_TELEMETRY_RESPONSE; 0] ++ slice_to pub_key 6 ++ raw) else None.

(** Start a request and wait for it to end. *)
Definition await_request (start : py t started) : py t (option request_result) :=
  r ← start;
  match r with
  | Started _ (RequestTask r) _ => x ← _finish_started_request r; mret (Some (format_result x))
  | _ => mret None
  end.

Definition send_status_request (pub_key : bytes) (timeout : float) : py t (option request_result) :=
  await_request (_start_status_request pub_key timeout).

Definition send_telemetry_request (pub_key : bytes) (want_base want_location want_environment : bool) (timeout : float)
    : py t (option request_result) :=
  await_request (_start_telemetry_request pub_key want_base want_location want_environment timeout).

(** ** Requests awaited at once *)

(** [_request_with_retries] without a total timeout; an exception ends it with
    [RequestError], and the tags registered so far are returned. [first]: the
    attempt is the first. *)
Fixpoint _request_with_retries (n : nat) (first : bool) (r : request_task) : py t (request_task * outcome) :=
  match n with
  | O => mret (r, TimedOut)
  | S n =>
      py_try
        (b ← (if first then _take_built_packet (rt_kind r) (rt_proxy r) else _build_retry_packet (rt_kind r) (rt_proxy r));
         mret (Some b))
        (mret None)
      ≫= λ (built : option (Packet.t * option Z)),
      match built with
      | None => mret (r, RequestError)
      | Some (pkt, tag) =>
          r ← register_tag tag r;
          py_try
            (pkt ← scoped pkt;
             timeout_s ← _response_timeout_s pkt (rt_proxy r);
             _send_packet pkt false None;;
             w ← wait_for_response (rt_callback r) timeout_s;
             mret (option_map (fun w => (r, Answer w)) w))
            (mret (Some (r, RequestError)))
          ≫= λ (ended : option (request_task * outcome)),
          match ended with
          | Some e => mret e
          | None => _request_with_retries n false r
          end
      end
  end.

(** [None]: the contact or the handler is missing. *)
Definition _send_protocol_request (pub_key : bytes) (protocol_code : Z) (data : bytes) : py t (option (request_task * outcome)) :=
  s ← get;
  match contact_and_proxy pub_key s with
  | None => mret None
  | Some (contact, proxy) =>
      if negb protocol_handler then mret None
      else
        cb ← new_callback;
        '(r, o) ← _request_with_retries (Z.to_nat Timing.DEFAULT_MAX_ATTEMPTS) true
                    (mkRequestTask (ProtocolRequest protocol_code data) pub_key proxy (Models.name contact) cb [] None f_zero);
        modify (on_session (clear_response_tags r));;
        mret (Some (r, o))
  end.

Definition send_binary_request (pub_key data : bytes) := _send_protocol_request pub_key PROTOCOL_CODE_BINARY_REQ data.
Definition send_anon_request (pub_key data : bytes) := _send_protocol_request pub_key PROTOCOL_CODE_ANON_REQ data.

(** ** Logins *)

(** [note_login_connection]: a zero interval records nothing. *)
Definition note_login_connection (pub_key : bytes) (keep_alive_interval : Z) : py t unit :=
  let keep_alive_secs := keep_alive_interval * 16 in
  if keep_alive_secs <=? 0 then mret tt
  else
    now ← time_monotonic;
    let expiry := fadd now (fmul (f_of_Z keep_alive_secs) (f_dec 25 1)) in
    modify (on_session (fun v => with_login_connections (dset pub_key expiry (_login_connections v)) v)).

(** An expired entry is dropped when it is looked up. *)
Definition has_login_connection (pub_key : bytes) : py t bool :=
  s ← get;
  match dget pub_key (_login_connections (session s)) with
  | None => mret false
  | Some expiry =>
      now ← time_monotonic;
      if fleb expiry now
      then modify (on_session (fun v => with_login_connections (ddel pub_key (_login_connections v)) v));; mret false
      else mret true
  end.

Definition clear_login_connection (pub_key : bytes) : t → t :=
  on_session (fun v => with_login_connections (ddel pub_key (_login_connections v)) v).

(** The result of a login; the flat dictionary is the data and the name. *)
Inductive login_result : Type :=
| LoginTimeout
| LoginDone (success : bool) (name : pystr) (data : LoginResponseHandler.login_data).

Definition _build_login_result (pub_key : bytes) (name : pystr) (success : bool) (data : LoginResponseHandler.login_data)
    : py t login_result :=
  (if success then note_login_connection pub_key (LoginResponseHandler.keep_alive_interval data) else mret tt);;
  mret (LoginDone success name data).

(** The first four bytes of a key, as the tag the client is told. *)
Definition key_tag (key : bytes) : Z := from_le (slice_to key 4).

Definition _start_login_request (pub_key : bytes) (password : pystr) : py t started :=
  s ← get;
  match contact_and_proxy pub_key s with
  | None => mret (NotStarted (Some "not_found"%string))
  | Some (contact, proxy) =>
      if negb login_handler then mret (NotStarted (Some "bad_state"%string))
      else
        h ← lift (dest_hash proxy);
        modify (on_session (store_login_password h password));;
        cb ← new_callback;
        target_key ← lift (fromhex (PacketBuilder.public_key proxy));
        modify (on_session (register_login_callback target_key cb));;
        _start_request (mkRequestTask (LoginRequest password) target_key proxy (Models.name contact) cb [] None f_zero)
          None (Some (key_tag target_key))
  end.

(** [_format_login_result] *)
Definition format_login_result (pub_key : bytes) (name : pystr) (cb : nat) : py t login_result :=
  s ← get;
  match woken cb (session s) with
  | Some (LoggedIn success data) => _build_login_result pub_key name success data
  | _ => mret LoginTimeout
  end.

(** [None]: the login was not sent. *)
Definition send_login (pub_key : bytes) (password : pystr) : py t (option login_result) :=
  r ← _start_login_request pub_key password;
  match r with
  | Started _ (RequestTask r) _ =>
      _finish_started_request r;;
      x ← format_login_result pub_key (rt_name r) (rt_callback r);
      mret (Some x)
  | _ => mret None
  end.

(** ** Login sessions of frame-server clients *)

Definition forget_frame_login (target_key : bytes) (v : Session.t) : Session.t :=
  with_pending_frame_logins (ddel target_key (_pending_frame_logins v)) v.

(** The session of the key, if it is the one of this callback. *)
Definition own_session (target_key : bytes) (cb : nat) (v : Session.t) : option frame_login :=
  match dget target_key (_pending_frame_logins v) with
  | Some fl => if (fl_callback fl =? cb)%nat then Some fl else None
  | None => None
  end.

(** Detach a session: its entry, its callback, its password. *)
Definition end_session (target_key : bytes) (cb : nat) (v : Session.t) : Session.t :=
  match own_session target_key cb v with
  | Some fl => clear_login_password (fl_dest_hash fl) (remove_login_callback target_key cb (forget_frame_login target_key v))
  | None => v
  end.

(** A session that has its answer gives way to a new one. A task that is done
    has removed its entry, so no entry has such a task. *)
Definition drop_answered_session (target_key : bytes) (v : Session.t) : Session.t :=
  match dget target_key (_pending_frame_logins v) with
  | Some fl =>
      match woken (fl_callback fl) v with
      | Some _ => remove_login_callback target_key (fl_callback fl) (forget_frame_login target_key v)
      | None => v
      end
  | None => v
  end.

(** The pending session of the key, or a new one; the flag tells which. *)
Definition take_session (target_key : bytes) (proxy : PacketBuilder.contact) (name : pystr) : py t (frame_login * bool) :=
  modify (on_session (drop_answered_session target_key));;
  s ← get;
  match dget target_key (_pending_frame_logins (session s)) with
  | Some fl => mret (fl, false)
  | None =>
      h ← lift (dest_hash proxy);
      cb ← new_callback;
      now ← time_monotonic;
      let fl := mkFrameLogin h name cb (fadd now FRAME_LOGIN_PENDING_TTL_S) None in
      modify (on_session (fun v => register_login_callback target_key cb
                (with_pending_frame_logins (dset target_key fl (_pending_frame_logins v)) v)));;
      mret (fl, true)
  end.

(** After a transmission the session lives on, with a task that waits. *)
Definition refresh_session (target_key : bytes) (cb : nat) (expires : float) (v : Session.t) : Session.t :=
  match own_session target_key cb v with
  | Some fl => with_pending_frame_logins
      (dset target_key (mkFrameLogin (fl_dest_hash fl) (fl_contact_name fl) cb expires (Some false)) (_pending_frame_logins v)) v
  | None => v
  end.

Definition _start_frame_login_request (pub_key : bytes) (password : pystr) : py t started :=
  s ← get;
  match contact_and_proxy pub_key s with
  | None => mret (NotStarted (Some "not_found"%string))
  | Some (contact, proxy) =>
      if negb login_handler then mret (NotStarted (Some "bad_state"%string))
      else
        target_key ← lift (fromhex (PacketBuilder.public_key proxy));
        '(fl, session_owner) ← take_session target_key proxy (Models.name contact);
        h ← lift (dest_hash proxy);
        modify (on_session (store_login_password h password));;
        s ← get;
        pkt ← building (fun now => PacketBuilder.create_login_packet now proxy (identity s) password);
        pkt ← scoped pkt;
        timeout_s ← _response_timeout_s pkt proxy;
        ok ← _send_packet pkt false None;
        if negb ok then
          (if (session_owner : bool) then modify (on_session (end_session target_key (fl_callback fl))) else mret tt);;
          mret (NotStarted (Some "send_failed"%string))
        else
          now ← time_monotonic;
          modify (on_session (refresh_session target_key (fl_callback fl) (fadd now FRAME_LOGIN_PENDING_TTL_S)));;
          ms ← lift (to_ms timeout_s);
          mret (Started (mkSentResult true (Packet.is_route_flood pkt) (Some (key_tag target_key)) (Some ms) None)
                  (FrameLoginTask target_key (fl_callback fl) (fl_contact_name fl)) session_owner)
  end.

(** The loop of [_wait_for_frame_login]; [None]: still waiting after [fuel]
    rounds (each retry of the client prolongs the wait). A session that was
    cleared meanwhile ends without an answer. *)
Fixpoint wait_for_frame_login (fuel : nat) (target_key : bytes) (cb : nat) : py t (option bool) :=
  match fuel with
  | O => mret None
  | S fuel =>
      s ← get;
      match woken cb (session s) with
      | Some _ => mret (Some true)
      | None =>
          match own_session target_key cb (session s) with
          | None => mret (Some false)
          | Some fl =>
              now ← time_monotonic;
              let remaining := fsub (fl_expires_at fl) now in
              if fleb remaining f_zero then mret (Some false)
              else modify (meanwhile remaining);; wait_for_frame_login fuel target_key cb
          end
      end
  end.

Definition finish_frame_login (fuel : nat) (target_key : bytes) (cb : nat) (name : pystr) : py t (option login_result) :=
  w ← wait_for_frame_login fuel target_key cb;
  match w with
  | None => mret None
  | Some _ =>
      result ← format_login_result target_key name cb;
      modify (on_session (end_session target_key cb));;
      mret (Some result)
  end.

(** The sessions are detached; their tasks are cancelled. *)
Definition _clear_pending_frame_logins (v : Session.t) : Session.t :=
  let sessions := _pending_frame_logins v in
  let v := with_pending_frame_logins [] v in
  if negb login_handler then v
  else fold_left (fun v e => clear_login_password (fl_dest_hash e.2) (remove_login_callback e.1 (fl_callback e.2) v)) sessions v.

(** ** Logout and commands *)

(** The stored contact is passed where the builder wants a proxy: its
    [public_key] is not text, and [bytes.fromhex] raises. *)
Definition send_logout (pub_key : bytes) : py t bool :=
  s ← get;
  match ContactStore.get_by_key pub_key (contacts s) with
  | None => mret false
  | Some contact =>
      py_try
        (building (fun now => PacketBuilder._get_timestamp now;; raise TypeError : py Z unit);;
         mret true)
        (mret false)
  end.

(** Whether a reply came, and its text; [None]: nothing was sent. *)
Definition send_repeater_command (pub_key : bytes) (command : pystr) (parameters : option pystr) (txt_type : Z)
    : py t (option (option pystr)) :=
  if negb (is_cli_type txt_type) then mret None
  else
    s ← get;
    match contact_and_proxy pub_key s with
    | None => mret None
    | Some (contact, proxy) =>
        if negb text_handler then mret None
        else
          let full_command := match parameters with Some ((_ :: _) as p) => command ++ [32] ++ p | _ => command end in
          cb ← new_callback;
          target_key ← lift (fromhex (PacketBuilder.public_key proxy));
          modify (on_session (register_command_response target_key cb));;
          reply ← py_try
            ('(pkt, _) ← building (fun now =>
               PacketBuilder.create_text_message now proxy (identity s) full_command 1
                 (if PacketBuilder.out_path_len proxy <? 0 then "flood" else "direct") None txt_type None);
             pkt ← scoped pkt;
             _send_packet pkt false None;;
             w ← wait_for_response cb (f_of_Z 15);
             mret (Some (match w with Some (CommandReplied text) => Some text | _ => None end)))
            (mret None);
          modify (on_session (unregister_command_response target_key cb));;
          mret reply
    end.

(** ** The interface of the frame server *)

#[export] Instance companion_sends : CompanionSends := {|
  CompanionConfig.send_text_message key text txt_type attempt timestamp := send_text_message key text txt_type attempt false timestamp;
  CompanionConfig.send_channel_message idx text timestamp := send_channel_message idx text (Some timestamp);
  CompanionConfig.send_channel_data idx data_type payload path path_len := send_channel_data idx data_type payload path (Some path_len);
  CompanionConfig.send_binary_req key data := send_binary_req key data (f_of_Z 15);
  CompanionConfig.send_anon_req key data := send_anon_req key data (f_of_Z 15);
  CompanionConfig.send_control_data data := send_control_data (Some data);
  CompanionConfig.send_path_discovery_req := send_path_discovery_req;
  CompanionConfig.send_trace_path_raw := send_trace_path_raw;
  CompanionConfig.send_raw_data_direct path payload path_len := send_raw_data_direct path payload (Some path_len);
  CompanionConfig.send_raw_packet := send_raw_packet;
  start_frame_login_request := _start_frame_login_request;
  start_status_request key := _start_status_request key (f_of_Z 15);
  start_telemetry_request key := _start_telemetry_request key true true true (f_of_Z 10);
  CompanionConfig.has_login_connection := has_login_connection;
  CompanionConfig.clear_login_connection := clear_login_connection;
  CompanionConfig.send_logout key := send_logout key;; mret tt;
  CompanionConfig.advertise := advertise;
  CompanionConfig.share_contact := share_contact
|}.

End send.
End Sends.
