(* ===== verification/CompanionRequests.v ===== *)
(** * What the requests of a companion leave behind

    Properties of [CompanionSend]: a request that has ended waits for nothing,
    and what it repeats is flooded. The other tasks are arbitrary but for what a
    hypothesis says of them. *)

From stdpp Require Import gmap.
From S2P Require Import Prelude PyData Utf8 PyFloat ODict Constants PacketUtils Airtime Packet TransportKeys Crypto PacketFilter PacketBuilder Stores Contacts ProtocolResponse Login FrameCodes BinaryParsing CompanionSession CompanionConfig CompanionSend.

Import Session Companion Sends.

(** ** Packets on their way out *)

(** Scope and path hash mode change neither payload nor type, and keep floods
    floods. *)
Definition same_load (p p' : Packet.t) : Prop :=
  Packet.payload p' = Packet.payload p ∧ Packet.payload_len p' = Packet.payload_len p
  ∧ Packet.get_payload_type p' = Packet.get_payload_type p ∧ Packet.is_route_flood p' = Packet.is_route_flood p.

#[global] Instance same_load_preorder : PreOrder same_load.
Proof. split; unfold same_load; [done|]. intros p q r (? & ? & ? & ?) (? & ? & ? & ?). by split_and!; etransitivity. Qed.

Lemma scope_packet_load key p :
  Packet.get_route_type p = ROUTE_TYPE_FLOOD → same_load p (scope_packet key p).1.
Proof.
  intros Hr. destruct (calc_transport_code key p) as [c|e] eqn:Hc.
  - rewrite (scope_packet_eq key p c Hc). cbn [fst]. split_and!; [done|done|apply scoped_type|].
    unfold Packet.is_route_flood. by rewrite Hr, scoped_route.
  - unfold scope_packet. py_run. by rewrite Hc.
Qed.

Lemma _apply_flood_scope_load s : keeps same_load (_apply_flood_scope s).
Proof.
  unfold _apply_flood_scope. apply keeps_get_bind. intros p.
  destruct (Packet._flood_scope_applied p); [by apply keeps_ret, _|].
  destruct (Packet.get_route_type p =? ROUTE_TYPE_FLOOD) eqn:Hr; cbn [negb]; [|by apply keeps_ret, _].
  apply Z.eqb_eq in Hr. unfold modify. cbn. destruct (_flood_unscoped s); [done|].
  destruct (_resolve_flood_transport_key s) as [key|]; [|done].
  etransitivity; [|apply scope_packet_load; done]. done.
Qed.

Lemma apply_path_hash_mode_load m b : keeps same_load (Packet.apply_path_hash_mode m b).
Proof.
  unfold Packet.apply_path_hash_mode. keeps; done.
Qed.

Section sends.
Context `{E : Environment} `{C : BlockCipher} `{K : PacketBuilder.KeyExchange}.

Lemma on_packet_load (m : t → py Packet.t unit) pkt s s' pkt' :
  (∀ s, keeps same_load (m s)) → on_packet m pkt s = (s', Ok pkt') → s' = s ∧ same_load pkt pkt'.
Proof.
  intros Hm H. unfold on_packet in H. py_inv. split; [done|]. unfold PacketBuilder.build in *.
  specialize (Hm s pkt). destruct (m s pkt) as [p [u|e]]; [|done]. simplify_eq. exact Hm.
Qed.

Lemma scoped_load pkt s s' pkt' : Sends.scoped pkt s = (s', Ok pkt') → s' = s ∧ same_load pkt pkt'.
Proof.
  intros H. unfold Sends.scoped in H. py_inv.
  apply on_packet_load in H; [|apply _apply_flood_scope_load]. apply on_packet_load in H0; [|intros; apply apply_path_hash_mode_load].
  destruct H as [-> H], H0 as [-> H0]. split; [done|by etransitivity].
Qed.

(** ** What the steps of a request keep *)

Section steps.
Context (R : t → t → Prop) `{!PreOrder R}.
Context (Hread : ∀ n s, R s (on_session (with_reads n) s)) (Hlast : ∀ n s, R s (on_session (with_last_unique_timestamp n) s)).

Lemma keeps_reading {A} (f : nat → A) : keeps R (reading f).
Proof. unfold reading. keeps. intros s. apply Hread. Qed.

Lemma keeps_time_monotonic : keeps R time_monotonic.
Proof. apply keeps_reading. Qed.

Lemma keeps_unix_time : keeps R unix_time.
Proof. unfold unix_time, time_time. keeps. apply keeps_reading. Qed.

Lemma keeps_building {A} (m : Z → py Z A) : keeps R (building m).
Proof.
  unfold building. apply keeps_bind; [apply _|apply keeps_unix_time|]. intros now s.
  destruct (m now (_last_unique_timestamp (session s))) as [l r]. apply Hlast.
Qed.

Lemma keeps_on_packet (m : t → py Packet.t unit) pkt : keeps R (on_packet m pkt).
Proof. unfold on_packet. keeps. Qed.

Lemma keeps_scoped pkt : keeps R (Sends.scoped pkt).
Proof. unfold Sends.scoped. keeps; apply keeps_on_packet. Qed.

Lemma keeps_response_timeout pkt proxy : keeps R (_response_timeout_s pkt proxy).
Proof. unfold _response_timeout_s. keeps. Qed.

Lemma keeps_build_packet kind proxy : keeps R (build_packet kind proxy).
Proof.
  destruct kind; cbn; unfold protocol_request; keeps; apply keeps_building.
Qed.

Lemma keeps_take kind proxy : keeps R (_take_built_packet kind proxy).
Proof. unfold _take_built_packet. keeps. apply keeps_build_packet. Qed.

Lemma keeps_retry kind proxy : keeps R (_build_retry_packet kind proxy).
Proof. unfold _build_retry_packet. keeps; apply keeps_take. Qed.

Lemma keeps_remaining deadline timeout_s : keeps R (remaining_timeout deadline timeout_s).
Proof. unfold remaining_timeout. keeps. apply keeps_time_monotonic. Qed.

Context (Hmean : ∀ d s, R s (meanwhile d s)).

Lemma keeps_wait cb d : keeps R (wait_for_response cb d).
Proof. unfold wait_for_response. keeps. intros s. apply Hmean. Qed.

End steps.

(** ** A request that has ended waits for nothing *)

Section released.
Variable cb : nat.

(** The table stays a dictionary, and no callback [cb] is registered on the way. *)
Definition no_new (s s' : t) : Prop :=
  (keys_unique (_response_waiters (session s)) → keys_unique (_response_waiters (session s')))
  ∧ ∀ k, (k, cb) ∈ _response_waiters (session s') → (k, cb) ∈ _response_waiters (session s).

#[local] Instance no_new_preorder : PreOrder no_new.
Proof. split; unfold no_new; [done|]. intros s1 s2 s3 [? H1] [? H2]. split; auto. Qed.

(** The other tasks do not have the callback. *)
Context (Hinj : ∀ pkt w c, keeps no_new (packet_injector pkt w c)) (Hmean : ∀ d s, no_new s (meanwhile d s)).

(** Where [cb] is registered. *)
Definition owned (r : request_task) (s : t) : Prop :=
  keys_unique (_response_waiters (session s))
  ∧ Forall (λ e, e.2 = cb → ∃ tag, tag ∈ rt_tags r ∧ e.1 = (rt_key r, Z.land tag 0xFFFFFFFF)) (_response_waiters (session s)).

(** The same request, with more tags. *)
Definition extends (r r' : request_task) : Prop := ∃ tags, r' = with_tags tags r ∧ rt_tags r ⊆ tags.

Lemma extends_refl r : extends r r.
Proof. exists (rt_tags r). by destruct r. Qed.

Lemma extends_trans r1 r2 r3 : extends r1 r2 → extends r2 r3 → extends r1 r3.
Proof. intros (l1 & -> & H1) (l2 & -> & H2). exists l2. split; [done|]. cbn in H2. by etransitivity. Qed.

Lemma owned_step r s s' : owned r s → no_new s s' → owned r s'.
Proof.
  intros [Hu Ho] [Hu' Hn]. split; [auto|]. rewrite Forall_forall in *. intros [k cb'] He Hcb. cbn in Hcb. subst cb'.
  by apply (Ho (k, cb)); [apply Hn|].
Qed.

Lemma register_tag_owned tag r s :
  owned r s → ∃ s' r', register_tag tag r s = (s', Ok r') ∧ owned r' s' ∧ extends r r'.
Proof.
  intros [Hu Ho]. destruct tag as [tag|]; cbn; [|exists s, r; split; [done|]; split; [done|apply extends_refl]].
  eexists _, _. split; [reflexivity|].
  set (tags := if bool_decide (tag ∈ rt_tags r) then rt_tags r else rt_tags r ++ [tag]).
  assert (tag ∈ tags ∧ rt_tags r ⊆ tags) as [Hin Hsub].
  { unfold tags. case_bool_decide; [done|]. split; [apply elem_of_app; right; constructor|].
    intros x Hx. apply elem_of_app. by left. }
  split; [|by exists tags]. split; cbn; [by apply keys_unique_dset|].
  apply Forall_dset; [intros _; by exists tag|]. eapply Forall_impl; [exact Ho|]. intros e He Hcb.
  destruct (He Hcb) as (tag' & Ht & Hk). exists tag'. split; [by apply Hsub|done].
Qed.

Lemma clear_tags_sublist key tags v :
  sublist (_response_waiters (fold_left (λ v tag, clear_response_callback key tag v) tags v)) (_response_waiters v).
Proof.
  revert v. induction tags as [|tag tags IH]; intros v; cbn [fold_left]; [done|].
  etransitivity; [apply IH|apply ddel_sublist].
Qed.

Lemma clear_tags_dget key tags v :
  keys_unique (_response_waiters v) →
  let v' := fold_left (λ v tag, clear_response_callback key tag v) tags v in
  sublist (_response_waiters v') (_response_waiters v)
  ∧ ∀ tag, tag ∈ tags → (key, Z.land tag 0xFFFFFFFF) ∉ dkeys (_response_waiters v').
Proof.
  revert v. induction tags as [|tag tags IH]; intros v Hu; cbn [fold_left].
  - split; [done|]. intros tag Ht. by apply list.not_elem_of_nil in Ht.
  - destruct (IH (clear_response_callback key tag v)) as [Hs Hd]; [by apply keys_unique_ddel|].
    split; [etransitivity; [exact Hs|apply ddel_sublist]|].
    intros tag' [->|Ht]%elem_of_cons; [|by apply Hd].
    intros Hin. apply sublist_keys in Hs.
    assert (dget (key, Z.land tag 0xFFFFFFFF) (_response_waiters (clear_response_callback key tag v)) = None) as Hn.
    { cbn. rewrite dget_ddel by done. by rewrite decide_True. }
    apply dget_None in Hn. apply Hn. eapply list.elem_of_sublist; [|exact Hs]. done.
Qed.

Lemma cleared r s :
  owned r s → ∀ k, (k, cb) ∉ _response_waiters (session (on_session (clear_response_tags r) s)).
Proof.
  intros [Hu Ho] k Hk. destruct (clear_tags_dget (rt_key r) (rt_tags r) (session s) Hu) as [Hs Hd].
  assert ((k, cb) ∈ _response_waiters (session s)) as Hk' by (eapply list.elem_of_sublist; [exact Hk|exact Hs]).
  rewrite Forall_forall in Ho. destruct (Ho _ Hk' eq_refl) as (tag & Ht & Hkey). cbn in Hkey. subst k.
  apply (Hd tag Ht). by apply (elem_keys _ cb).
Qed.

(** Steps that register nothing. *)
Ltac quiet :=
  first [ apply keeps_scoped | apply keeps_retry | apply keeps_take | apply keeps_response_timeout
        | apply keeps_remaining | apply keeps_time_monotonic | apply keeps_wait | apply Hinj ];
  try apply _; try (intros; split; [done|done]); try apply Hmean.

Lemma keeps_send pkt w c : keeps no_new (_send_packet pkt w c).
Proof. unfold _send_packet. keeps; [intros s; split; done|apply Hinj]. Qed.

Lemma retries_owned n r s :
  owned r s → ∃ s' r' o, retries n r s = (s', Ok (r', o)) ∧ owned r' s' ∧ extends r r'.
Proof.
  revert r s. induction n as [|n IH]; intros r s Ho; cbn [retries].
  { exists s, r, TimedOut. split; [done|]. split; [done|apply extends_refl]. }
  unfold mbind at 1, py_bind at 1.
  match goal with |- context [py_try ?m (mret ?a) s] =>
    destruct (py_try_total no_new m a s) as (s1 & built & -> & Hn & _) end.
  { keeps. quiet. }
  apply (owned_step r) in Hn; [|done]. destruct built as [[pkt tag]|].
  2: { exists s1, r, RequestError. split; [done|]. split; [done|apply extends_refl]. }
  destruct (register_tag_owned tag r s1 Hn) as (s2 & r2 & Hreg & Ho2 & He2).
  unfold mbind at 1, py_bind at 1. rewrite Hreg. unfold mbind at 1, py_bind at 1.
  match goal with |- context [py_try ?m (mret ?a) s2] =>
    destruct (py_try_total no_new m a s2) as (s3 & ended & -> & Hn3 & Hend) end.
  { keeps; try quiet. apply keeps_send. }
  apply (owned_step r2) in Hn3; [|done].
  destruct ended as [[r' o]|].
  - assert (r' = r2) as ->.
    { destruct Hend as [Hm|He']; [|by simplify_eq]. py_inv. destruct x4; py_inv; simplify_eq; try done.
      match goal with H : Some _ = option_map _ ?w |- _ => destruct w; cbn in H end; by simplify_eq. }
    exists s3, r2, o. done.
  - destruct (IH r2 s3 Hn3) as (s' & r' & o & -> & Ho' & He'). exists s', r', o.
    split; [done|]. split; [done|by eapply extends_trans].
Qed.

Lemma finish_owned r s code data :
  rt_kind r = ProtocolRequest code data → owned r s →
  ∃ s' r' o, _finish_started_request r s = (s', Ok (r', o)) ∧ extends r r'
    ∧ ∀ k, (k, cb) ∉ _response_waiters (session s').
Proof.
  intros Hk Ho. unfold _finish_started_request. set (s1 := meanwhile (rt_first_timeout r) s).
  rewrite (py_bind_run _ _ s s1 (woken (rt_callback r) (session s1))) by done.
  assert (owned r s1) as Ho1 by (eapply owned_step; [exact Ho|apply Hmean]).
  assert (∃ s2 r' o, (match woken (rt_callback r) (session s1) with
             | Some w => mret (r, Answer w)
             | None => retries (Z.to_nat (Timing.DEFAULT_MAX_ATTEMPTS - 1)) r
             end) s1 = (s2, Ok (r', o)) ∧ owned r' s2 ∧ extends r r') as (s2 & r' & o & Hr & Ho2 & He).
  { destruct (woken _ _) as [w|]; [|by apply retries_owned]. exists s1, r, (Answer w). split; [done|]. split; [done|apply extends_refl]. }
  rewrite (py_bind_run _ _ s1 s2 (r', o) Hr). eexists _, r', o. split; [reflexivity|]. split; [done|].
  destruct He as (tags & -> & _). unfold cleanup. cbn [rt_kind with_tags]. rewrite Hk. by apply cleared.
Qed.

(** How a start ends: with a task that owns the callback, or without it. *)
Definition started_ok (r : request_task) (x : started) (s : t) : Prop :=
  match x with
  | Started _ (RequestTask r') _ => owned r' s ∧ rt_kind r' = rt_kind r
  | Started _ (FrameLoginTask _ _ _) _ => False
  | NotStarted _ => ∀ k, (k, cb) ∉ _response_waiters (session s)
  end.

Lemma cleanup_quiet r s : no_new s (on_session (cleanup r) s).
Proof.
  assert (sublist (_response_waiters (session (on_session (cleanup r) s))) (_response_waiters (session s))) as Hs.
  { unfold cleanup. cbn. destruct (rt_kind r) as [code data|password]; [apply clear_tags_sublist|].
    assert (∀ v, _response_waiters (remove_login_callback (rt_key r) (rt_callback r) v) = _response_waiters v) as Hr.
    { intros v. unfold remove_login_callback. by repeat case_match. }
    destruct (dest_hash (rt_proxy r)); cbn; by rewrite Hr. }
  split; [by apply keys_unique_sublist|]. intros k Hk. by eapply list.elem_of_sublist.
Qed.

Lemma start_failed r r0 s code data :
  rt_kind r0 = ProtocolRequest code data → extends r0 r → owned r s →
  ∃ s', (modify (on_session (cleanup r));; mret (NotStarted (Some "send_failed"%string))) s = (s', Ok (NotStarted (Some "send_failed"%string)))
    ∧ started_ok r0 (NotStarted (Some "send_failed"%string)) s'.
Proof.
  intros Hk (tags & -> & _) Ho. eexists. split; [reflexivity|]. unfold cleanup. cbn [rt_kind with_tags]. rewrite Hk.
  intros k. by apply cleared.
Qed.

Lemma start_owned r s total sent_tag code data :
  rt_kind r = ProtocolRequest code data → owned r s →
  ∃ s' x, _start_request r total sent_tag s = (s', Ok x) ∧ started_ok r x s'.
Proof.
  intros Hk Ho. unfold _start_request.
  assert (∃ s1 d, (match total with
              | Some total => now ← time_monotonic; mret (Some (fadd now total))
              | None => mret None
              end : py t (option float)) s = (s1, Ok d) ∧ no_new s s1) as (s1 & d & Hd & Hn1).
  { destruct total; eexists _, _; (split; [reflexivity|]); split; done. }
  rewrite (py_bind_run _ _ s s1 d Hd). apply (owned_step r) in Hn1; [|done].
  unfold mbind at 1, py_bind at 1.
  match goal with |- context [py_try ?m (mret ?a) s1] =>
    destruct (py_try_total no_new m a s1) as (s2 & built & -> & Hn & _) end.
  { keeps. quiet. }
  apply (owned_step r) in Hn; [|done]. destruct built as [[pkt tag]|].
  2: { destruct (start_failed r r s2 code data Hk (extends_refl r) Hn) as (s' & -> & H). eauto. }
  destruct (register_tag_owned tag r s2 Hn) as (s3 & r3 & Hreg & Ho3 & He3).
  rewrite (py_bind_run _ _ s2 s3 r3 Hreg).
  match goal with |- context [py_try ?m ?h s3] =>
    destruct (py_try_else no_new m h s3) as [(s4 & x & Hm & Hn4 & ->)|(s4 & Hn4 & ->)] end.
  - keeps; try quiet; [apply keeps_send|intros s'; apply cleanup_quiet].
  - exists s4, x. split; [done|].
    destruct He3 as (tags & -> & _). py_inv.
    all: repeat match goal with
      | H : Sends.scoped _ _ = _ |- _ => apply (run_keeps no_new) in H; [|quiet]
      | H : _response_timeout_s _ _ _ = _ |- _ => apply (run_keeps no_new) in H; [|quiet]
      | H : _send_packet _ _ _ _ = _ |- _ => apply (run_keeps no_new) in H; [|apply keeps_send]
      | H : match ?o with Some _ => _ | None => _ end _ = _ |- _ => apply (run_keeps no_new) in H; [|keeps; quiet]
      end.
    all: assert (owned (with_tags tags r) x6) as Ho6 by (exact (owned_step _ _ _ Ho3 (transitivity H (transitivity H0 (transitivity H1 H2))))).
    + cbn. intros k. unfold cleanup. cbn [rt_kind with_tags]. rewrite Hk. by apply cleared.
    + done.
  - apply (owned_step r3) in Hn4; [|done]. destruct (start_failed r3 r s4 code data Hk He3 Hn4) as (s' & -> & H). eauto.
Qed.

End released.

(** C13: a request that has ended waits for nothing. However a status,
    telemetry or other protocol request goes (no contact, no handler, a build or
    a transmission that fails, an answer to any of the attempts, a time-out),
    and whatever the other tasks do meanwhile, it returns without raising, and
    its callback is registered with the response handler under no tag. *)
Theorem request_released key code data timeout s :
  let cb := next_callback (session s) in
  (∀ pkt w c, keeps (no_new cb) (packet_injector pkt w c)) → (∀ d s, no_new cb s (meanwhile d s)) →
  keys_unique (_response_waiters (session s)) → (∀ k, (k, cb) ∉ _response_waiters (session s)) →
  ∃ s' x, await_request (_start_protocol_request key code data timeout) s = (s', Ok x)
    ∧ ∀ k, (k, cb) ∉ _response_waiters (session s').
Proof.
  intros cb Hinj Hmean Hu Hn.
  assert (∃ s1 x, _start_protocol_request key code data timeout s = (s1, Ok x)
    ∧ match x with
      | Started _ (RequestTask r) _ => owned cb r s1 ∧ rt_kind r = ProtocolRequest code data
      | Started _ (FrameLoginTask _ _ _) _ => False
      | NotStarted _ => ∀ k, (k, cb) ∉ _response_waiters (session s1)
      end) as (s1 & x & Hs & Hx).
  { unfold _start_protocol_request. rewrite (py_bind_run get _ s s s) by done. destruct (contact_and_proxy key s) as [[c proxy]|]; [|by eexists _, _].
    destruct (negb protocol_handler); [by eexists _, _|].
    rewrite (py_bind_run _ _ s (on_session (with_next_callback (S cb)) s) cb) by done.
    match goal with |- context [_start_request ?r ?a ?b ?s1] =>
      destruct (start_owned cb Hinj r s1 a b code data) as (s' & x & Hx & Ho); [done| |] end.
    - split; [done|]. apply Forall_forall. intros [k cb'] He Hc. cbn in Hc. subst cb'. by destruct (Hn k).
    - exists s', x. by split. }
  unfold await_request. rewrite (py_bind_run _ _ s s1 x Hs). destruct x as [sent [r|] owner|]; [|done|by eexists _, _].
  destruct Hx as [Ho Hk]. destruct (finish_owned cb Hinj Hmean r s1 code data Hk Ho) as (s' & r' & o & Hf & _ & Hr).
  rewrite (py_bind_run _ _ s1 s' (r', o) Hf). by eexists _, _.
Qed.

(** ** What is repeated is flooded *)

Lemma request_type_flood ptype b body :
  0 ≤ ptype < 16 → Packet.is_route_flood (built (PacketBuilder._create_header ptype "flood" b) [] 0 body) = true.
Proof.
  intros Hp. destruct (built_type ptype "flood" b [] 0 body Hp) as (_ & Hr & _).
  unfold Packet.is_route_flood. rewrite Hr. by destruct b.
Qed.

Lemma building_ok {A} (m : Z → py Z A) s s' a :
  building m s = (s', Ok a) → ∃ now last last', m now last = (last', Ok a).
Proof.
  unfold building, mbind, py_bind. destruct (unix_time s) as [s1 [now|]]; [|done].
  destruct (m now _) as [last [b|]] eqn:E'; [|done]. intros H. simplify_eq. eauto.
Qed.

Lemma protocol_request_flood c id code data ts p :
  PacketBuilder.out_path_len c < 0 → PacketBuilder.protocol_request_packet c id code data ts None = Ok p →
  Packet.is_route_flood p = true.
Proof.
  intros Hc H. unfold PacketBuilder.protocol_request_packet in H. replace (PacketBuilder.out_path_len c >=? 0) with false in H by lia.
  cbn in H. res_inv. apply create_packet_built in H1 as [-> _]. by apply request_type_flood.
Qed.

Lemma login_flood c id password ts p :
  PacketBuilder.out_path_len c < 0 → PacketBuilder.login_packet c id password ts = Ok p → Packet.is_route_flood p = true.
Proof.
  intros Hc H. unfold PacketBuilder.login_packet in H. replace (PacketBuilder.out_path_len c <? 0) with true in H by lia.
  cbn [negb andb] in H. res_inv.
  match goal with H : PacketBuilder.create_anon_req _ _ _ _ _ = _ |- _ => unfold PacketBuilder.create_anon_req in H; res_inv end.
  match goal with H : PacketBuilder._create_packet _ _ = _ |- _ => apply create_packet_built in H as [-> _] end.
  by apply request_type_flood.
Qed.

Lemma build_flood kind proxy s s' pkt tag :
  PacketBuilder.out_path_len proxy < 0 → build_packet kind proxy s = (s', Ok (pkt, tag)) → Packet.is_route_flood pkt = true.
Proof.
  intros Hp H. destruct kind as [code data|password]; cbn in H; unfold protocol_request in H; py_inv.
  all: match goal with H : building _ _ = _ |- _ => apply building_ok in H as (now & last & last' & Hb) end.
  - destruct x0 as [p ts]. py_inv. simplify_eq. unfold PacketBuilder.create_protocol_request in Hb. py_inv. simplify_eq.
    by eapply protocol_request_flood.
  - simplify_eq. unfold PacketBuilder.create_login_packet in Hb. py_inv. by eapply login_flood.
Qed.

Lemma retry_flood kind proxy s s' pkt tag :
  _build_retry_packet kind proxy s = (s', Ok (pkt, tag)) → Packet.is_route_flood pkt = true.
Proof.
  unfold _build_retry_packet. intros H.
  assert (∃ c, PacketBuilder.out_path_len c < 0 ∧ _take_built_packet kind c s = (s', Ok (pkt, tag))) as (c & Hc & Ht).
  { destruct (PacketBuilder.out_path_len proxy <? 0) eqn:Hp; [exists proxy|exists (masked proxy)]; (split; [cbn; lia|done]). }
  clear H. unfold _take_built_packet in Ht. py_inv. destruct x0 as [p tg]. py_inv. simplify_eq. by eapply build_flood.
Qed.

(** What a request sends, and what it leaves alone. *)
Definition sends (n : nat) (s s' : t) : Prop :=
  ∃ l, outbox (session s') = outbox (session s) ++ l ∧ (length l ≤ n)%nat
    ∧ Forall (λ x, Packet.is_route_flood (sent_packet x) = true) l ∧ stores s' = stores s.

Lemma sends_trans n m s1 s2 s3 : sends n s1 s2 → sends m s2 s3 → sends (n + m) s1 s3.
Proof.
  intros (l & H1 & Hl & Hf & Hc) (l' & H1' & Hl' & Hf' & Hc'). exists (l ++ l').
  rewrite H1', H1, <- app_assoc, length_app. split_and!; [done|lia|by apply Forall_app|congruence].
Qed.

Lemma sends_le n m s s' : (n ≤ m)%nat → sends n s s' → sends m s s'.
Proof. intros Hle (l & H1 & Hl & Hf & Hc). exists l. split_and!; [done|lia|done|done]. Qed.

#[local] Instance sends_nothing : PreOrder (sends 0).
Proof.
  split; [|intros s1 s2 s3; apply (sends_trans 0 0)]. intros s. exists []. split_and!; [by rewrite app_nil_r|done|constructor|done].
Qed.

Section quiet_tasks.
(** The other tasks send nothing and leave the stores alone. *)
Context (Hinj : ∀ pkt w c, keeps (sends 0) (packet_injector pkt w c)) (Hmean : ∀ d s, sends 0 s (meanwhile d s)).

Lemma silent s s' : outbox (session s') = outbox (session s) → stores s' = stores s → sends 0 s s'.
Proof. intros H1 H2. exists []. rewrite app_nil_r. split_and!; [done|done|constructor|done]. Qed.

Ltac silent :=
  first [ apply keeps_scoped | apply keeps_retry | apply keeps_take | apply keeps_response_timeout
        | apply keeps_remaining | apply keeps_time_monotonic | apply keeps_wait ];
  try apply _; try (intros; by apply silent); try apply Hmean.

Lemma send_flood pkt w c : Packet.is_route_flood pkt = true → keeps (sends 1) (_send_packet pkt w c).
Proof.
  intros Hp s. unfold _send_packet.
  rewrite (py_bind_run _ _ s (on_session (record_sent (mkSent pkt w c)) s) tt) by done.
  apply (sends_trans 1 0 _ (on_session (record_sent (mkSent pkt w c)) s)); [|apply Hinj].
  exists [mkSent pkt w c]. split_and!; [done|done|by repeat constructor|done].
Qed.

Lemma sends_bind n m {A B} (c : py t A) (k : A → py t B) s :
  sends n s (c s).1 → (∀ a s', c s = (s', Ok a) → sends m s' (k a s').1) → sends (n + m) s ((c ≫= k) s).1.
Proof.
  intros Hc Hk. unfold mbind, py_bind. destruct (c s) as [s' [a|e]]; cbn in Hc.
  - by eapply sends_trans; [exact Hc|apply Hk].
  - cbn. eapply sends_le; [|exact Hc]. lia.
Qed.

Lemma sends_try n {A} (m h : py t A) s : sends n s (m s).1 → keeps (sends 0) h → sends n s (py_try m h s).1.
Proof.
  intros Hm Hh. unfold py_try. destruct (m s) as [s' [a|e]]; cbn in Hm; [done|].
  rewrite <- (Nat.add_0_r n). eapply sends_trans; [exact Hm|apply Hh].
Qed.

Lemma register_tag_silent tag r : keeps (sends 0) (register_tag tag r).
Proof. unfold register_tag. destruct tag; keeps. intros s. by apply silent. Qed.

Lemma retries_sends n r s : sends n s (retries n r s).1.
Proof.
  revert r s. induction n as [|n IH]; intros r s; cbn [retries]; [apply (silent s s); done|].
  apply (sends_bind 0 (S n)).
  { apply sends_try; [|by apply keeps_ret, _]. apply (keeps_bind (sends 0)); [|intros [pkt tag]; by apply keeps_ret, _]. silent. }
  intros built s1 Hb. destruct built as [[pkt tag]|]; [|apply (sends_le 0); [lia|by apply silent]].
  assert (Packet.is_route_flood pkt = true) as Hf.
  { apply py_try_ok in Hb as [Hb|(sx & e & _ & Hb)]; py_inv; [|done]. destruct x0 as [p tg]. py_inv. simplify_eq.
    by eapply retry_flood. }
  apply (sends_bind 0 (S n)); [apply register_tag_silent|]. intros r2 s2 _.
  apply (sends_bind 1 n).
  { apply sends_try; [|by apply keeps_ret, _].
    apply (sends_bind 0 1); [silent|]. intros pkt' s3 Hs. apply scoped_load in Hs as [-> (_ & _ & _ & Hl)].
    apply (sends_bind 0 1); [silent|]. intros timeout_s s4 _.
    apply (sends_bind 0 1); [silent|]. intros [timeout|] s5 _; [|apply (sends_le 0); [lia|by apply silent]].
    apply (sends_bind 1 0); [apply send_flood; by rewrite Hl|]. intros ok s6 _.
    destruct (negb ok); [by apply silent|]. apply (sends_bind 0 0); [silent|]. intros w s7 _. by apply silent. }
  intros [e|] s3 _; [apply (sends_le 0); [lia|by apply silent]|apply IH].
Qed.

End quiet_tasks.

(** What is repeated is flooded. While a started request waits for its
    answer, it sends at most two more packets, each of them a flood whatever
    route the contact has, and the stored contacts, their routes among them,
    stay as they are. *)
Theorem retries_flood r s :
  (∀ pkt w c, keeps (sends 0) (packet_injector pkt w c)) → (∀ d s, sends 0 s (meanwhile d s)) →
  ∃ l, outbox (session (_finish_started_request r s).1) = outbox (session s) ++ l ∧ (length l ≤ 2)%nat
    ∧ Forall (λ x, Packet.is_route_flood (sent_packet x) = true) l ∧ stores (_finish_started_request r s).1 = stores s.
Proof.
  intros Hinj Hmean. change (sends 2 s (_finish_started_request r s).1). unfold _finish_started_request.
  apply (sends_bind 0 2); [by apply keeps_wait; [apply _|]|]. intros w s1 _.
  apply (sends_bind 2 0).
  { destruct w as [w|]; [apply (sends_le 0); [lia|by apply silent]|by apply retries_sends]. }
  intros [r' o] s2 _. apply (sends_bind 0 0); [|intros; by apply silent].
  apply silent; [|done]. cbn. unfold cleanup. destruct (rt_kind r').
  - unfold clear_response_tags. generalize (session s2). induction (rt_tags r') as [|tag tags IH]; intros v; [done|]. cbn [fold_left]. by rewrite IH.
  - assert (∀ k cb v, outbox (remove_login_callback k cb v) = outbox v) as Hr.
    { intros k cb v. unfold remove_login_callback. by repeat case_match. }
    destruct (dest_hash _); cbn; by rewrite Hr.
Qed.

End sends.

(** ** Instances *)

#[local] Existing Instances xor_cipher xor_exchange.

(** A transport that takes every packet, nobody else at work, and no time that passes. *)
Definition calm : Environment := {|
  wall _ := f_of_Z 1700000000;
  monotonic _ := f_of_Z 100;
  random_bits _ := 42;
  packet_injector _ _ _ := mret true;
  meanwhile _ s := s;
  protocol_handler := true;
  login_handler := true;
  text_handler := true;
  os_urandom n _ := zeros n;
  authenticate _ _ _ _ _ := Ok (false, 0);
  host_regions := None;
  radio_sf := None;
  isprintable _ := true
|}.

#[local] Existing Instance calm.

(** Alice's companion; Bob is two hops away. *)
Definition near_bob : Models.Contact :=
  Models.mkContact bob_key [66] CONTACT_TYPE_CHAT_NODE 0 2 [5; 6] 7 50 f_zero f_zero 0 None.

Definition idle (id : PacketBuilder.LocalIdentity) (l : list Models.Contact) : Companion.t :=
  Companion.mk Prefs.init id (AdvertIngest.mk (ContactStore.load_from l (ContactStore.init 10)) (PathCache.init 4) [])
    (ChannelStore.init 4) (MessageQueue.mk [] 8) (StatsCollector.init f_zero) f_zero None None false [] [] 22 (Session.init id).

Definition alice_companion : Companion.t := idle alice [near_bob].

Lemma calm_sends n (s : t) : sends n s s.
Proof. exists []. rewrite app_nil_r. split_and!; [done|apply Nat.le_0_l|constructor|done]. Qed.

Lemma calm_no_new cb : (∀ pkt w c, keeps (no_new cb) (packet_injector pkt w c)) ∧ ∀ d s, no_new cb s (meanwhile d s).
Proof. split; intros; [intros s|]; by split. Qed.

(** Bob does not answer. *)
Lemma request_released_witness :
  (∃ s' x, await_request (_start_protocol_request bob_key 1 [] (f_of_Z 15)) alice_companion = (s', Ok x)
    ∧ ∀ k, (k, 0%nat) ∉ _response_waiters (session s'))
  ∧ length (outbox (session (await_request (_start_protocol_request bob_key 1 [] (f_of_Z 15)) alice_companion).1)) = 3%nat.
Proof.
  split; [|vm_compute; reflexivity].
  apply (request_released bob_key 1 [] (f_of_Z 15) alice_companion); [apply calm_no_new|apply calm_no_new|constructor|].
  intros k Hk. inversion Hk.
Defined.

(** A request to Bob on its way. *)
Definition bob_request : request_task :=
  mkRequestTask (ProtocolRequest 1 []) bob_key (PacketBuilder.mkContact (hex bob_key) 2 [5; 6] CONTACT_TYPE_CHAT_NODE 0)
    [66] 0 [1700000000] None (f_of_Z 2).

Lemma retries_flood_witness :
  ∃ l, outbox (session (_finish_started_request bob_request alice_companion).1) = [] ++ l ∧ (length l ≤ 2)%nat
    ∧ Forall (λ x, Packet.is_route_flood (sent_packet x) = true) l
    ∧ stores (_finish_started_request bob_request alice_companion).1 = stores alice_companion.
Proof.
  apply (retries_flood bob_request alice_companion); intros; [intros s|]; apply calm_sends.
Defined.
