(* ===== verification/CompanionEvents.v ===== *)
(** * What a companion does with what it receives ([companion/base_events.py],
      the response routing of [companion/base_callbacks.py], the ACK and raw
      handlers and [process_received_packet] of [companion/companion_bridge.py])

    Messages are deduplicated by packet hash, queued and announced; adverts are
    applied to the stores; responses are matched with the requests of
    [CompanionSend]. The callbacks of subscribers are the entries of [events]. *)

From stdpp Require Import gmap.
From S2P Require Import Prelude PyData Utf8 PyFloat ODict Constants PacketUtils Packet Crypto PacketFilter PacketBuilder Messages Utils GroupText Stores Contacts TextHandler ProtocolResponse FrameCodes BinaryParsing CompanionSession CompanionConfig CompanionSend AdvertHandler.

Module Events.
Import Session Companion Sends.

Section events.
Context `{E : Environment} `{C : BlockCipher} `{K : PacketBuilder.KeyExchange}.

Definition _fire_callbacks (e : event) : py t unit := modify (on_session (fire e)).

(** ** Duplicates *)

Definition seen_txt (key : bytes) : py t bool :=
  now ← time_time;
  s ← get;
  let '(c, hit) := SeenCache.check_and_add now key (_seen_txt (session s)) in
  modify (on_session (with_seen_txt c));;
  mret hit.

Definition seen_grp_txt (key : bytes) : py t bool :=
  now ← time_time;
  s ← get;
  let '(c, hit) := SeenCache.check_and_add now key (_seen_grp_txt (session s)) in
  modify (on_session (with_seen_grp_txt c));;
  mret hit.

(** [pkt_hash and cache.check_and_add(pkt_hash)] *)
Definition duplicate (check : bytes → py t bool) (hash : bytes) : py t bool :=
  if bool_decide (hash = []) then mret false else check hash.

(** [self.message_queue.push(msg)] of a new object. *)
Definition push_message (msg : nat → Models.QueuedMessage) : py t (Models.QueuedMessage * bool) :=
  obj ← new_callback;
  s ← get;
  let '(q, ok) := MessageQueue.push (msg obj) (message_queue s) in
  modify (with_message_queue q);;
  mret (msg obj, ok).

(** ** Direct messages *)

Definition _handle_new_message (m : TextMessageHandler.message_data) : py t unit :=
  let pkt_hash := TextMessageHandler.packet_hash m in
  dup ← duplicate seen_txt pkt_hash;
  if (dup : bool) then mret tt
  else
    sender_key ← lift (fromhex (TextMessageHandler.contact_pubkey m));
    let message_text := rstrip_nul (TextMessageHandler.message_text m) in
    unix_time;;
    '(msg, was_queued) ← push_message (fun obj =>
       Models.mkQueued obj sender_key (TextMessageHandler.txt_type m) (TextMessageHandler.timestamp m) message_text false 0
         (TextMessageHandler.msg_path_len m) (TextMessageHandler.msg_snr m) (TextMessageHandler.msg_rssi m) 0 []
         (TextMessageHandler.sender_prefix m));
    _fire_callbacks (MessageEvent msg pkt_hash was_queued).

(** ** Channel messages *)

Definition _handle_new_channel_message (m : channel_message) : py t unit :=
  let pkt_hash := cm_packet_hash m in
  dup ← duplicate seen_grp_txt pkt_hash;
  if (dup : bool) then mret tt
  else
    s ← get;
    let g := cm_text m in
    let channel_idx := default 0 (ChannelStore.find_by_name (GroupTextHandler.channel_name g) (channels s)) in
    let display_text := rstrip_nul (GroupTextHandler.full_content g) in
    unix_time;;
    '(msg, was_queued) ← push_message (fun obj =>
       Models.mkQueued obj [] 0 (GroupTextHandler.timestamp g) display_text true channel_idx
         (cm_path_len m) (cm_snr m) (cm_rssi m) 0 [] []);
    _fire_callbacks (ChannelMessageEvent (GroupTextHandler.channel_name g) (GroupTextHandler.sender_name g) msg pkt_hash was_queued).

(** ** Channel data *)

(** The channels whose hash the packet names, in the order of their slots; an
    error in a hash ends the query. *)
Fixpoint candidates_from (n : nat) (idx channel_hash : Z) (s : ChannelStore.t) : res (list (Z * Models.Channel)) :=
  match n with
  | O => mret []
  | S n =>
      match ChannelStore.get idx s with
      | None => candidates_from n (idx + 1) channel_hash s
      | Some ch =>
          h ← Utils.derive_channel_hash (Models.ch_secret ch);
          rest ← candidates_from n (idx + 1) channel_hash s;
          mret (if h =? channel_hash then (idx, ch) :: rest else rest)
      end
  end.
Definition _get_channel_candidates_by_hash (channel_hash : Z) (s : ChannelStore.t) : res (list (Z * Models.Channel)) :=
  candidates_from (Z.to_nat (ChannelStore._max_channels s)) 0 channel_hash s.

(** The first channel whose secret authenticates the packet. *)
Fixpoint first_plaintext (l : list (Z * Models.Channel)) (encrypted : bytes) : option (Z * bytes) :=
  match l with
  | [] => None
  | (idx, ch) :: l' =>
      let secret := Utils.normalize_channel_secret (Models.ch_secret ch) in
      match CryptoUtils.mac_then_decrypt (slice_to secret 16) secret encrypted with
      | Ok plaintext => Some (idx, plaintext)
      | Err _ => first_plaintext l' encrypted
      end
  end.

(** The type and the blob of a decrypted datagram. *)
Definition parse_group_data (plaintext : bytes) : option (Z * bytes) :=
  if len plaintext <? 3 then None
  else
    let data_type := from_le (slice_to plaintext 2) in
    let data_len := match index plaintext 2 with Ok n => n | Err _ => 0 end in
    if (data_type =? 0) || (len plaintext <? 3 + data_len) then None
    else Some (data_type, slice plaintext 3 (3 + data_len)).

(** The length byte the queue keeps of a route: that of a flood, or [0xFF]. *)
Definition route_byte (packet : Packet.t) : Z :=
  if Packet.is_route_flood packet then Packet.path_len packet else 0xFF.

Definition _handle_group_data_packet (packet : Packet.t) : py t unit :=
  let payload := Packet.get_payload packet in
  if len payload <? 4 then mret tt
  else
    packet_hash ← lift (Packet.calculate_packet_hash packet);
    channel_hash ← lift (index payload 0);
    s ← get;
    l ← lift (_get_channel_candidates_by_hash channel_hash (channels s));
    match first_plaintext l (slice payload 1 3 ++ slice_from payload 3) with
    | None => mret tt
    | Some (selected_idx, plaintext) =>
        match parse_group_data plaintext with
        | None => mret tt
        | Some (data_type, blob) =>
            seen ← _check_and_track_group_packet packet;
            if (seen : bool) then mret tt
            else
              '(msg, was_queued) ← push_message (fun obj =>
                 Models.mkQueued obj [] 0 0 [] true selected_idx (route_byte packet) (Packet.get_snr packet)
                   (Packet._rssi packet) data_type blob []);
              _fire_callbacks (ChannelDataEvent msg packet_hash was_queued)
        end
    end.

(** ** Adverts *)

(** [Contact.from_dict] of a heard advert, with the flags cleared and the
    packet it came in. *)
Definition heard_contact (now : Z) (d : AdvertHandler.advert_data) : res Models.Contact :=
  key ← fromhex (AdvertHandler.public_key d);
  mret (Models.mkContact (ljust (slice_to key 32) 32) (AdvertHandler.name d) (AdvertHandler.contact_type d) 0 (-1) []
          (Z.min (AdvertHandler.advert_timestamp d) now) (AdvertHandler.timestamp d) (AdvertHandler.lat d)
          (AdvertHandler.lon d) 0
          (match AdvertHandler.raw_advert_packet d with Some ((_ :: _) as b) => Some b | _ => None end)).

(** The events of the stores, as push events. *)
Definition store_event (e : AdvertIngest.push_event) : event :=
  match e with
  | AdvertIngest.contact_deleted key => ContactDeleted key
  | AdvertIngest.contacts_full => ContactsFull
  end.

Definition _apply_advert_to_stores (contact : Models.Contact) (inbound_path : bytes) (path_len_encoded : option Z)
    : py t (option Models.Contact) :=
  now ← unix_time;
  s ← get;
  let '(st, applied) := AdvertIngest.apply_advert_to_stores (ingest_prefs (prefs s)) now contact inbound_path
                          path_len_encoded (AdvertIngest.mk (contacts s) (path_cache s) []) in
  modify (with_stores (AdvertIngest.mk (AdvertIngest.contacts st) (AdvertIngest.path_cache st) []));;
  modify (on_session (fun v => fold_left (fun v e => fire (store_event e) v) (AdvertIngest.fired st) v));;
  mret applied.

(** A known contact does not take an advert that is not newer. *)
Definition replayed (contact : Models.Contact) (s : t) : bool :=
  match ContactStore.get_by_key (Models.public_key contact) (contacts s) with
  | Some existing => Models.last_advert_timestamp contact <=? Models.last_advert_timestamp existing
  | None => false
  end.

Definition _handle_node_discovered (d : AdvertHandler.advert_data) : py t unit :=
  now ← unix_time;
  contact ← lift (heard_contact now d);
  s ← get;
  if bytes_eqb (Models.public_key contact) (get_public_key s) then mret tt
  else if negb (len (Models.public_key contact) >=? 7) || bool_decide (Models.name contact = []) then mret tt
  else if replayed contact s then mret tt
  else
    applied ← _apply_advert_to_stores contact (AdvertHandler.inbound_path d) (Some (AdvertHandler.path_len_encoded d));
    match (applied : option Models.Contact) with
    | Some c => _fire_callbacks (AdvertReceived c);; _fire_callbacks (NodeDiscovered c)
    | None => _fire_callbacks (NodeDiscovered contact)
    end.

(** Errors are logged. *)
Definition _handle_mesh_event (e : mesh_event) : py t unit :=
  py_try
    (match e with
     | NewMessage m => _handle_new_message m
     | NewChannelMessage m => _handle_new_channel_message m
     | NodeHeard d => _handle_node_discovered d
     end)
    (mret tt).

(** [publish_sync] makes a task of the event; the oldest task runs first. *)
Definition publish_sync (e : mesh_event) : py t unit :=
  modify (on_session (fun v => with_published (published v ++ [e]) v)).

Definition run_published : py t unit :=
  s ← get;
  match published (session s) with
  | [] => mret tt
  | e :: l => modify (on_session (with_published l));; _handle_mesh_event e
  end.

(** ** Responses ([base_callbacks.py]) *)

(** Whether a request waits for the tag. The entries that have expired do not
    count. *)
Definition pending_request_tag (now : float) (tag : Z) (contact_pubkey : bytes) (s : t) : bool :=
  let tag := Z.land tag 0xFFFFFFFF in
  match dget (hex (le_bytes 4 tag)) (_pending_binary_requests (session s)) with
  | Some info => negb (fltb (expires_at info) now)
  | None => false
  end
  || dmem (contact_pubkey, tag) (_response_waiters (session s)).

Definition has_pending_request_tag (tag : Z) (contact_pubkey : bytes) : py t bool :=
  cleanup_expired_binary_requests;;
  s ← get;
  let tag := Z.land tag 0xFFFFFFFF in
  mret (dmem (hex (le_bytes 4 tag)) (_pending_binary_requests (session s))
        || dmem (contact_pubkey, tag) (_response_waiters (session s))).

Definition _try_handle_path_discovery (tag_bytes : bytes) (info : ProtocolResponseHandler.path_info) : py t bool :=
  let '(out_len_byte, out_path, in_len_byte, in_path, contact_pubkey) := info in
  let tag_int := from_le tag_bytes in
  s ← get;
  if negb (bool_decide (tag_int ∈ _pending_discovery_tags (session s))) then mret false
  else
    modify (on_session (fun v => with_pending_discovery_tags (_pending_discovery_tags v ∖ {[tag_int]}) v));;
    _fire_callbacks (PathDiscoveryResponse tag_bytes contact_pubkey out_len_byte out_path in_len_byte in_path);;
    mret true.

(** [lpp_from_bytes] decodes telemetry records; what the response parses to is
    returned. *)
Definition _on_binary_response {V} (lpp_from_bytes : bytes → res (list (Z * Z * V))) (tag_bytes response_data : bytes)
    (path_info : option ProtocolResponseHandler.path_info) : py t (option (BinaryParsing.parsed V)) :=
  discovered ← (match path_info with
                | Some info => _try_handle_path_discovery tag_bytes info
                | None => mret false
                end);
  if (discovered : bool) then mret None
  else
    cleanup_expired_binary_requests;;
    let tag_hex := hex tag_bytes in
    s ← get;
    let entry := dget tag_hex (_pending_binary_requests (session s)) in
    forget_binary_request tag_hex;;
    match entry with
    | None => _fire_callbacks (BinaryResponse tag_bytes response_data None);; mret None
    | Some info =>
        let parsed := parse_binary_response lpp_from_bytes (request_type info) response_data (pubkey_prefix info)
                        (req_context info) in
        _fire_callbacks (BinaryResponse tag_bytes response_data (Some (request_type info)));;
        mret (Some parsed)
    end.

Definition _on_contact_path_updated (pub : bytes) (path_len : Z) (path_bytes : bytes) : py t unit :=
  s ← get;
  match get_contact_by_key pub s with
  | None => mret tt
  | Some c =>
      let c := Models.mkContact (Models.public_key c) (Models.name c) (Models.adv_type c) (Models.flags c) path_len path_bytes
                 (Models.last_advert_timestamp c) (Models.lastmod c) (Models.gps_lat c) (Models.gps_lon c)
                 (Models.sync_since c) (Models.last_advert_packet c) in
      modify (with_contacts (ContactStore.update c (contacts s)).1);;
      _fire_callbacks (ContactPathUpdated c)
  end.

End events.
End Events.
