(* ===== verification/CompanionBridge.v ===== *)
(** * The receiving half of a bridge companion
      ([companion/companion_bridge.py], [node/handlers/registry.py],
      [node/handlers/path.py])

    [process_received_packet] hands a packet to the handler of its type. The
    handlers keep their own state; here it is the part of the session that is
    theirs, put in front of a handler before it runs and taken back after, and
    what the handler did is then acted on in order: waiters are woken, binary
    responses matched, paths announced, packets scheduled, messages published.
    Readings of clocks and random bytes are made whether or not the handler gets
    to them. *)

From stdpp Require Import gmap.
From S2P Require Import Prelude PyData Utf8 PyFloat ODict Constants PacketUtils Packet RegionMap Crypto PacketFilter PacketBuilder Messages Utils GroupText Stores Contacts TextHandler ReturnPath ProtocolResponse Login FrameCodes BinaryParsing AdvertHandler CompanionSession CompanionConfig CompanionSend CompanionEvents.

Module Bridge.
Import Session Companion Sends Events.

Section bridge.
Context `{E : Environment} `{C : BlockCipher} `{K : PacketBuilder.KeyExchange} `{S : SignatureScheme}.
Context {V : Type} (lpp_from_bytes : bytes → res (list (Z * Z * V))).

(** The identity the handlers were made with. *)
Definition handler_identity (s : t) : PacketBuilder.LocalIdentity := ReturnPathTeacher._local_identity (teacher (session s)).

(** ** Outputs *)

Fixpoint each {A} (f : A → py t unit) (l : list A) : py t unit :=
  match l with [] => mret tt | a :: l => f a;; each f l end.

(** A callback whose event is set. *)
Definition set_event (cb : nat) (w : wake) : py t unit := modify (on_session (set_wake cb w)).

Definition protocol_output (o : ProtocolResponseHandler.output) : py t unit :=
  match o with
  | ProtocolResponseHandler.WaiterCalled cb p => set_event cb (Answered p)
  | ProtocolResponseHandler.BinaryResponse tag_bytes response_data info =>
      _on_binary_response lpp_from_bytes tag_bytes response_data info;; mret tt
  | ProtocolResponseHandler.PathUpdated key path_len path_bytes => _on_contact_path_updated key path_len path_bytes
  | ProtocolResponseHandler.ReciprocalInjected pkt => _send_packet pkt false None;; mret tt
  end.

(** The attributes a login sets on a contact's proxy are not kept. *)
Definition login_output (o : LoginResponseHandler.login_output) : py t unit :=
  match o with
  | LoginResponseHandler.ContactNoted _ _ _ => mret tt
  | LoginResponseHandler.LoginCalled cb success data => set_event cb (LoggedIn success data)
  end.

Definition schedule (pkt : Packet.t) (delay_ms : Z) : py t unit :=
  modify (on_session (fun v => with_delayed (delayed v ++ [(pkt, delay_ms)]) v)).

Definition text_output (o : TextMessageHandler.output) : py t unit :=
  match o with
  | TextMessageHandler.AckScheduled pkt delay_ms => schedule pkt delay_ms
  | TextMessageHandler.CommandReply cb text => set_event cb (CommandReplied text)
  | TextMessageHandler.Published m => publish_sync (NewMessage m)
  end.

Definition server_output (o : Login.server_output) : py t unit :=
  match o with
  | Authenticates _ _ _ _ => mret tt
  | ClearsOutPath key => modify (fun s => (reset_path key s).1)
  | Sends pkt delay_ms => schedule pkt delay_ms
  end.

(** ** The state of the handlers *)

Definition protocol_view (s : t) : ProtocolResponseHandler.t float :=
  let v := session s in
  ProtocolResponseHandler.mk (ReturnPathTeacher.with_book (contacts s) (teacher v)) (_response_waiters v) true
    (_pending_reciprocals v) [].
Definition login_view (s : t) : LoginResponseHandler.t float :=
  let v := session s in
  LoginResponseHandler.mk (protocol_view s) true (_pending_logins v) (_active_login_passwords v) [].
Definition text_view (s : t) : TextMessageHandler.t :=
  TextMessageHandler.mk (handler_identity s) (contacts s) true (_pending_command_responses (session s))
    (Prefs.multi_acks (prefs s)) None [].

Definition with_protocol_view (p : ProtocolResponseHandler.t float) (s : t) : t :=
  on_session (fun v => with_teacher (ProtocolResponseHandler.return_path_teacher p)
      (with_response_waiters (ProtocolResponseHandler._response_waiters p)
        (with_pending_reciprocals (ProtocolResponseHandler._pending_reciprocals p) v)))
    (with_contacts (ProtocolResponseHandler._contact_book p) s).
Definition with_login_view (l : LoginResponseHandler.t float) (s : t) : t :=
  on_session (fun v => with_pending_logins (LoginResponseHandler._pending_logins l)
      (with_active_login_passwords (LoginResponseHandler._active_login_passwords l) v))
    (with_protocol_view (LoginResponseHandler.protocol l) s).
Definition with_text_view (h : TextMessageHandler.t) (s : t) : t :=
  on_session (with_pending_command_responses (TextMessageHandler._pending_command_responses h))
    (with_contacts (TextMessageHandler.contacts h) s).

(** ** Handlers: whether the packet is authenticated *)

(** The callbacks of the companion do not raise. *)
Definition path_updated : option (bytes → Z → bytes → res unit) := Some (fun _ _ _ => Ok tt).
Definition waiter_run (cb : nat) (p : ProtocolResponseHandler.parsed) : res unit := Ok tt.

Definition protocol_handle (packet : Packet.t) : py t bool :=
  u ← urandom 4;
  now ← time_monotonic;
  s ← get;
  let '(p, r) := ProtocolResponseHandler.call path_updated waiter_run isprintable u radio_sf now packet (protocol_view s) in
  modify (with_protocol_view p);;
  each protocol_output (ProtocolResponseHandler.log p);;
  mret r.

(** The sweep of expired requests the probe makes is left to the next look-up. *)
Definition login_handle (packet : Packet.t) : py t bool :=
  u ← urandom 4;
  now ← time_monotonic;
  wall_now ← time_time;
  s ← get;
  let probe tag key := Ok (pending_request_tag wall_now tag key s) in
  let '(l, r) := LoginResponseHandler.call (Some probe) path_updated waiter_run isprintable u radio_sf now packet
                   (login_view s) in
  modify (with_login_view l);;
  each protocol_output (ProtocolResponseHandler.log (LoginResponseHandler.protocol l));;
  each login_output (LoginResponseHandler.out l);;
  lift r.

(** *** ACKs *)

Definition ack_handle (packet : Packet.t) : py t unit :=
  if len (Packet.payload packet) <? 4 then mret tt
  else _try_confirm_send (from_le (slice_to (Packet.payload packet) 4));; mret tt.

(** The CRC of the first decryption whose path parses: the extra type is
    compared as a whole byte. *)
Fixpoint path_ack (l : list bytes) : option Z :=
  match l with
  | [] => None
  | d :: l =>
      match index d 0 with
      | Err _ => path_ack l
      | Ok path_len_byte =>
          let path_byte_len := PathUtils.get_path_byte_len path_len_byte in
          let extra_start := 1 + path_byte_len in
          if (len d <? 2) || negb (PathUtils.is_valid_path_len path_len_byte) || (extra_start >? len d) then path_ack l
          else if (len d >=? extra_start + 1 + 4)
                  && match index d extra_start with Ok x => x =? PAYLOAD_TYPE_ACK | Err _ => false end
          then Some (from_le (slice d (extra_start + 1) (extra_start + 5)))
          else None
      end
  end.

Definition process_path_ack_variants (packet : Packet.t) (s : t) : res (option Z) :=
  let payload := Packet.payload packet in
  if len payload <? 2 + 6 then Ok None
  else
    dest_hash ← index payload 0;
    src_hash ← index payload 1;
    our_hash ← index (get_public_key s) 0;
    if negb (dest_hash =? our_hash) then mret None
    else mret (path_ack (omap (fun c => snd <$> ProtocolResponseHandler.decrypt_candidate src_hash
                                  (PacketBuilder.get_private_key (identity s)) (slice_from payload 2) c)
                              (ContactStore.contacts (contacts s)))).

(** [PathHandler.__call__]: responses, then logins, then ACKs; an error ends
    the run with what was authenticated before it. *)
Definition path_handle (packet : Packet.t) : py t bool :=
  a ← protocol_handle packet;
  py_try
    (b ← login_handle packet;
     mret (Some b))
    (mret None)
  ≫= λ (b : option bool),
  match b with
  | None => mret a
  | Some b =>
      py_try
        (s ← get;
         crc ← lift (process_path_ack_variants packet s);
         match crc with
         | Some crc => _try_confirm_send crc;; mret true
         | None => mret (a || b)
         end)
        (mret (a || b))
  end.

(** *** Messages and adverts *)

Definition text_handle (packet : Packet.t) : py t bool :=
  u1 ← urandom 1;
  u4 ← urandom 4;
  s ← get;
  let '(h, r) := TextMessageHandler.call None (fun _ _ => Ok tt) u1 u4 packet (text_view s) in
  modify (with_text_view h);;
  each text_output (TextMessageHandler.log h);;
  lift r.

(** The message is handled before the handler returns. *)
Definition group_text_handle (packet : Packet.t) : py t unit :=
  now ← time_monotonic;
  s ← get;
  let db := map (fun c => GroupTextHandler.mkChannel c.1 c.2) (ChannelStore.get_channels (channels s)) in
  let '(c, m) := GroupTextHandler.call now (Some db) packet (_seen_group_packets (session s)) in
  modify (on_session (with_seen_group_packets c));;
  match m with
  | None => mret tt
  | Some g =>
      hash ← lift (Packet.calculate_packet_hash packet);
      let path_len := if Packet.is_route_flood packet
                      then if Packet.path_len packet =? 0 then len (Packet.path packet) else Packet.path_len packet
                      else 0xFF in
      _handle_mesh_event (NewChannelMessage (mkChannelMessage g path_len (Packet._rssi packet) (Packet._snr packet) hash))
  end.

Definition advert_handle (packet : Packet.t) : py t unit :=
  now ← unix_time;
  now' ← unix_time;
  s ← get;
  match AdvertHandler.call (PacketBuilder.get_public_key (handler_identity s)) now now' packet with
  | Some d => publish_sync (NodeHeard d)
  | None => mret tt
  end.

Definition raw_handle (packet : Packet.t) : py t unit :=
  _fire_callbacks (RawDataReceived (Packet.payload packet) (Packet.get_snr packet) (Packet._rssi packet)).

(** *** Logins of others *)

Definition _get_login_out_path (s : t) (client_pubkey : bytes) : res (option (bytes * Z)) :=
  Ok (match ContactStore.get_by_key client_pubkey (contacts s) with
      | Some c => if Models.out_path_len c <? 0 then None else Some (Models.out_path c, Models.out_path_len c)
      | None => None
      end).

Definition login_server_handle (packet : Packet.t) : py t bool :=
  u ← urandom 4;
  now ← unix_time;
  rnd ← reading random_bits;
  s ← get;
  let '(l, r) := LoginServerHandler.call (Some (_get_login_out_path s)) true authenticate u now (Z.land rnd 0xFFFFFFFF) packet
                   (LoginServerHandler.mk (handler_identity s) false true) in
  each server_output l;;
  mret r.

(** ** Reception *)

(** The handler of a payload type: its result, when it gives one. *)
Definition handle_type (ptype : Z) (packet : Packet.t) : py t bool :=
  let unclaimed (m : py t unit) : py t bool := m;; mret false in
  if ptype =? PAYLOAD_TYPE_ACK then unclaimed (ack_handle packet)
  else if ptype =? PAYLOAD_TYPE_TXT_MSG then text_handle packet
  else if ptype =? PAYLOAD_TYPE_ADVERT then unclaimed (advert_handle packet)
  else if ptype =? PAYLOAD_TYPE_PATH then path_handle packet
  else if ptype =? PAYLOAD_TYPE_ANON_REQ then login_server_handle packet
  else if ptype =? PAYLOAD_TYPE_GRP_TXT then unclaimed (group_text_handle packet)
  else if ptype =? PAYLOAD_TYPE_RESPONSE then login_handle packet
  else if ptype =? PAYLOAD_TYPE_RAW_CUSTOM then unclaimed (raw_handle packet)
  else if ptype =? PAYLOAD_TYPE_GRP_DATA then unclaimed (_handle_group_data_packet packet)
  else mret false.

Definition process_received_packet (packet : Packet.t) : py t bool :=
  modify (fun s => with_stats (StatsCollector.record_rx (Packet.is_route_flood packet) (stats s)) s);;
  let '(packet, r) := capture_recv_region host_regions packet in
  lift r;;
  py_try (handle_type (Packet.get_payload_type packet) packet) (mret false).

(** A copy of a flood reply, before duplicates are dropped. *)
Definition note_flood_copy (packet : Packet.t) : py t unit :=
  now ← time_monotonic;
  modify (fun s => with_protocol_view
    (ProtocolResponseHandler.with_teacher
       (ReturnPathTeacher.note_flood_copy radio_sf now packet (ProtocolResponseHandler.return_path_teacher (protocol_view s)))
       (protocol_view s)) s).

(** ** Background tasks *)

(** The delay of packet [i] is over. *)
Definition send_delayed (i : nat) : py t unit :=
  s ← get;
  match delayed (session s) !! i with
  | None => mret tt
  | Some (pkt, _) =>
      modify (on_session (fun v => with_delayed (delete i (delayed v)) v));;
      py_try (_send_packet pkt false None;; mret tt) (mret tt)
  end.

(** Reciprocal [i] is sent; it ends when the transport is done with it. *)
Definition send_reciprocal (i : nat) : py t unit :=
  s ← get;
  match _pending_reciprocals (session s) !! i with
  | None => mret tt
  | Some rc =>
      modify (fun s => with_protocol_view
        (ProtocolResponseHandler.reciprocal_begin i (protocol_view s)) s);;
      sent ← py_try (_send_packet (ProtocolResponseHandler.rc_packet rc) false None) (mret false);
      now ← time_monotonic;
      modify (fun s => with_protocol_view (ProtocolResponseHandler.reciprocal_end now i sent (protocol_view s)) s)
  end.

(** [stop] *)
Definition stop (s : t) : t :=
  on_session (fun v => with_pending_reciprocals [] (_clear_pending_frame_logins v)) s.

End bridge.
End Bridge.
