(* ===== verification/CompanionDelivery.v ===== *)
(** * What a companion makes of what it receives

    Properties of [CompanionBridge] with [CompanionSend]: confirmations, texts
    that arrive more than once, channel datagrams, adverts. *)

From stdpp Require Import gmap.
From S2P Require Import Prelude PyData Sha256 Utf8 PyFloat ODict Constants PacketUtils Packet TransportKeys RegionMap Crypto PacketFilter PacketBuilder Messages Utils GroupText Stores Contacts TextHandler ProtocolResponse Login FrameCodes BinaryParsing AdvertHandler CompanionSession CompanionConfig CompanionSend CompanionRequests CompanionEvents CompanionBridge.

Import Session Companion Sends Events Bridge.

(** ** The table of expected ACKs *)

(** The oldest entries give way, the newest stays. *)
Lemma evict_oldest_spec fuel d (e : Z * float) :
  (length (d ++ [e]) ≤ fuel + 64)%nat →
  ∃ d', sublist d' d ∧ evict_oldest fuel (d ++ [e]) = d' ++ [e] ∧ len (d' ++ [e]) ≤ MAX_PENDING_ACK_CRCS.
Proof.
  revert d. induction fuel as [|fuel IH]; intros d Hf; cbn [evict_oldest].
  - exists d. split_and!; [done|done|]. unfold len, MAX_PENDING_ACK_CRCS. lia.
  - destruct (len (d ++ [e]) >? MAX_PENDING_ACK_CRCS) eqn:Hl; bool_hyps; [|by exists d].
    destruct d as [|x d]; [by unfold len, MAX_PENDING_ACK_CRCS in Hl|]. cbn [app pop_first tail].
    destruct (IH d) as (d' & Hs & He & Hb); [rewrite length_app in *; cbn in *; lia|].
    exists d'. split_and!; [by apply sublist_cons|done|done].
Qed.

Lemma track_ack_spec crc now d :
  keys_unique d →
  let d' := track_ack crc now d in
  dget crc d' = Some now ∧ keys_unique d' ∧ len d' ≤ MAX_PENDING_ACK_CRCS.
Proof.
  intros Hu d'. unfold d', track_ack. rewrite dset_fresh.
  2: { unfold dmem. rewrite dget_ddel by done. by rewrite decide_True. }
  set (d0 := ddel crc d). destruct (evict_oldest_spec (length (d0 ++ [(crc, now)])) d0 (crc, now)) as (d1 & Hs & -> & Hb); [lia|].
  assert (keys_unique (d1 ++ [(crc, now)])) as Hk.
  { apply (keys_unique_sublist _ (d0 ++ [(crc, now)])); [by apply sublist_app|]. by apply keys_unique_refresh. }
  split_and!; [|done|done]. apply elem_dget; [done|]. apply elem_of_app. right. by constructor.
Qed.

Section delivery.
Context `{E : Environment} `{C : BlockCipher} `{K : PacketBuilder.KeyExchange} `{S : SignatureScheme}.
Context {V : Type} (lpp : bytes → res (list (Z * Z * V))).

(** The CRCs whose ACK is expected. *)
Definition acks (s : t) : list (Z * float) := _pending_ack_crcs (session s).

Lemma text_crc_range c id msg attempt mtype arg tt ts p crc :
  PacketBuilder.text_packet c id msg attempt mtype arg tt ts = Ok (p, crc) → 0 ≤ crc < 2 ^ 32.
Proof.
  intros H. unfold PacketBuilder.text_packet in H. res_inv. simplify_eq.
  match goal with |- 0 ≤ from_le (slice_to (sha256 ?b) 4) < _ =>
    pose proof (from_le_bound (slice_to (sha256 b) 4) (bytes_ok_slice_to _ _ (bytes_ok_sha256 _))) as Hb;
    assert (len (slice_to (sha256 b) 4) = 4) as H4 by (apply len_slice_to; rewrite len_sha256; lia) end.
  rewrite H4 in Hb. exact Hb.
Qed.

Lemma _track_pending_ack_spec crc s :
  keys_unique (acks s) →
  ∃ s' n, _track_pending_ack crc s = (s', Ok tt) ∧ dget crc (acks s') = Some (monotonic n)
    ∧ keys_unique (acks s') ∧ len (acks s') ≤ MAX_PENDING_ACK_CRCS.
Proof.
  intros Hu. eexists _, (reads (session s)). split; [reflexivity|].
  apply (track_ack_spec crc (monotonic (reads (session s))) (ddel crc (acks s))). by apply keys_unique_ddel.
Qed.

(** A text without CLI is expected to be confirmed when it is handed to the transport. *)
Lemma sent_text key text txt_type attempt wait ts s s' r crc :
  keys_unique (acks s) → is_cli_type txt_type = false →
  send_text_message key text txt_type attempt wait ts s = (s', Ok r) → expected_ack r = Some crc →
  0 ≤ crc < 2 ^ 32 ∧ ∃ n pkt handed taken,
    dget crc (acks handed) = Some (monotonic n) ∧ keys_unique (acks handed) ∧ len (acks handed) ≤ MAX_PENDING_ACK_CRCS
    ∧ packet_injector pkt wait (if wait then Some crc else None) handed = (taken, Ok (success r)) ∧ acks s' = acks taken.
Proof.
  intros Hu Hcli H Hexp. unfold send_text_message in H. rewrite Hcli in H. py_inv.
  destruct (contact_and_proxy key s) as [[c proxy]|]; py_inv; [|done].
  match goal with H : py_try _ _ _ = _ |- _ => apply py_try_ok in H as [H|(s1 & e & _ & H)] end; py_inv; [|done].
  destruct x0 as [pkt crc0]. py_inv. injection Hexp as <-.
  pose proof (run_keeps (same acks) _ _ _ _ H (keeps_building (same acks) ltac:(done) ltac:(done) _)) as Ha.
  apply building_ok in H as (now & last & last' & Hb). unfold PacketBuilder.create_text_message in Hb. py_inv.
  match goal with H : PacketBuilder.text_packet _ _ _ _ _ _ _ _ = _ |- _ => apply text_crc_range in H as Hr end.
  apply scoped_load in H0 as [-> _]. unfold same in Ha.
  match goal with H : _track_pending_ack crc0 ?sx = _ |- _ =>
    destruct (_track_pending_ack_spec crc0 sx) as (s2 & n & Ht & Hd & Hk & Hl); [by rewrite Ha|]; rewrite Ht in H; simplify_eq end.
  split; [done|]. rewrite andb_true_r in *. unfold _send_packet in H2. py_inv.
  eexists n, _, _, _. split_and!; [..|eassumption|]; [done..|]. by destruct x5.
Qed.

(** *** The ACK *)

Lemma capture_marks m p : ∃ c k u, capture_recv_region m p = (Packet.with_recv_region c k u p, Ok tt).
Proof.
  unfold capture_recv_region. destruct m as [m|]; py_run.
  - repeat case_match; try (by eexists _, _, _). exists (Packet._recv_region_captured p), (Packet._recv_region_key p), (Packet._recv_region_unscoped p).
    by destruct p.
  - exists (Packet._recv_region_captured p), (Packet._recv_region_key p), (Packet._recv_region_unscoped p). by destruct p.
Qed.

(** What reception does before the handler runs. *)
Definition counted (p : Packet.t) (s : t) : t :=
  with_stats (StatsCollector.record_rx (Packet.is_route_flood p) (stats s)) s.

Lemma process_runs p s :
  ∃ p', Packet.payload p' = Packet.payload p ∧ Packet.get_payload_type p' = Packet.get_payload_type p
    ∧ (∃ c k u, p' = Packet.with_recv_region c k u p)
    ∧ process_received_packet lpp p s = py_try (handle_type lpp (Packet.get_payload_type p) p') (mret false) (counted p s).
Proof.
  destruct (capture_marks host_regions p) as (c & k & u & Hc). exists (Packet.with_recv_region c k u p).
  split_and!; [done|done|by exists c, k, u|]. unfold process_received_packet. by rewrite Hc.
Qed.

Lemma ack_received crc p s :
  Packet.get_payload_type p = PAYLOAD_TYPE_ACK → (∃ rest, Packet.payload p = le_bytes 4 crc ++ rest) → 0 ≤ crc < 2 ^ 32 →
  process_received_packet lpp p s = py_try (_try_confirm_send crc;; mret false) (mret false) (counted p s).
Proof.
  intros Ht (rest & Hp) Hr. destruct (process_runs p s) as (p' & Hp' & _ & _ & ->).
  rewrite Ht. unfold handle_type. change (PAYLOAD_TYPE_ACK =? PAYLOAD_TYPE_ACK) with true. cbn iota.
  unfold ack_handle. rewrite Hp', Hp, len_app, len_le_bytes. pose proof (len_nonneg rest).
  rewrite (proj2 (Z.ltb_ge (Z.of_nat 4 + len rest) 4)) by lia.
  rewrite slice_to_app_exact by (by rewrite len_le_bytes). rewrite from_le_le_bytes by done.
  unfold py_try, mbind, py_bind. by destruct (_try_confirm_send crc (counted p s)) as [? [|]].
Qed.

(** An ACK packet for [crc], of four bytes or more. *)
Definition ack_of (crc : Z) (p : Packet.t) : Prop :=
  Packet.get_payload_type p = PAYLOAD_TYPE_ACK ∧ ∃ rest, Packet.payload p = le_bytes 4 crc ++ rest.

Lemma unexpected_ack crc p s :
  ack_of crc p → 0 ≤ crc < 2 ^ 32 → dget crc (acks s) = None →
  process_received_packet lpp p s = (counted p s, Ok false).
Proof.
  intros [Ht Hp] Hr Hn. rewrite (ack_received crc) by done. unfold py_try, _try_confirm_send.
  cbn [mbind py_bind get]. unfold acks in Hn. cbn in Hn. unfold mbind, py_bind, get. cbn. by rewrite Hn.
Qed.

Lemma confirm_expected crc n s :
  (∀ n m, is_ok (py_round (fmul (fsub (monotonic n) (monotonic m)) (f_of_Z 1000))) = true) →
  dget crc (acks s) = Some (monotonic n) →
  ∃ s' ms, _try_confirm_send crc s = (s', Ok true) ∧ 0 ≤ ms
    ∧ events (session s') = events (session s) ++ [SendConfirmed crc ms] ∧ acks s' = ddel crc (acks s).
Proof.
  intros Hclock Hn. unfold _try_confirm_send. rewrite (py_bind_run get _ s s s) by done.
  unfold acks in Hn. rewrite Hn. do 2 erewrite py_bind_run by reflexivity.
  specialize (Hclock (reads (session s)) n). cbn in Hclock |- *. destruct (py_round _) as [ms|]; [|done].
  eexists _, (Z.max 0 ms). split; [reflexivity|]. split; [lia|]. done.
Qed.

Lemma expected_ack_confirms crc n p s :
  (∀ n m, is_ok (py_round (fmul (fsub (monotonic n) (monotonic m)) (f_of_Z 1000))) = true) →
  ack_of crc p → 0 ≤ crc < 2 ^ 32 → dget crc (acks s) = Some (monotonic n) →
  ∃ s' ms, process_received_packet lpp p s = (s', Ok false) ∧ 0 ≤ ms
    ∧ events (session s') = events (session s) ++ [SendConfirmed crc ms] ∧ acks s' = ddel crc (acks s).
Proof.
  intros Hclock [Ht Hp] Hr Hn. rewrite (ack_received crc) by done.
  destruct (confirm_expected crc n (counted p s) Hclock Hn) as (s' & ms & Hc & H).
  exists s', ms. split; [|exact H]. unfold py_try. by rewrite (py_bind_run _ _ _ _ _ Hc).
Qed.

(** C9: a text that was sent is confirmed once. Unless it is a command, a text
    whose send reports a CRC, waiting for the ACK or not and whether or not the
    transport took it, is expected to be confirmed before the transport sees it:
    the state in which it is handed over has the CRC in its table, a dictionary of
    at most 64 entries whatever was sent before, and after the transport returns
    nothing but the transport has touched the table. Whatever happens from there,
    as long as the entry is there, the first ACK with that CRC, whatever follows
    the CRC in its payload, is announced with it and removes the entry, and any
    further ACK with it changes nothing but the statistics. (The clock's readings
    must be floats whose difference in milliseconds rounds to an integer.) *)
Theorem send_confirmed_once key text txt_type attempt wait ts s s1 r crc :
  (∀ n m, is_ok (py_round (fmul (fsub (monotonic n) (monotonic m)) (f_of_Z 1000))) = true) →
  keys_unique (acks s) → is_cli_type txt_type = false →
  send_text_message key text txt_type attempt wait ts s = (s1, Ok r) → expected_ack r = Some crc →
  ∃ sent_at pkt handed taken,
    dget crc (acks handed) = Some sent_at ∧ keys_unique (acks handed) ∧ len (acks handed) ≤ 64
    ∧ packet_injector pkt wait (if wait then Some crc else None) handed = (taken, Ok (success r)) ∧ acks s1 = acks taken
    ∧ ∀ s2 p p', dget crc (acks s2) = Some sent_at → keys_unique (acks s2) → ack_of crc p → ack_of crc p' →
      ∃ s3 ms, process_received_packet lpp p s2 = (s3, Ok false) ∧ 0 ≤ ms
        ∧ events (session s3) = events (session s2) ++ [SendConfirmed crc ms]
        ∧ process_received_packet lpp p' s3 = (counted p' s3, Ok false).
Proof.
  intros Hclock Hu Hcli H Hexp.
  destruct (sent_text key text txt_type attempt wait ts s s1 r crc Hu Hcli H Hexp)
    as (Hr & n & pkt & handed & taken & Hd & Hk & Hl & Hin & Ht).
  exists (monotonic n), pkt, handed, taken. split_and!; [done..|].
  intros s2 p p' Hd2 Hu2 Hp Hp'. destruct (expected_ack_confirms crc n p s2) as (s3 & ms & H3 & Hms & Hev & Ha); try done.
  exists s3, ms. split_and!; try done. apply (unexpected_ack crc); [done|done|]. rewrite Ha, dget_ddel by done. by rewrite decide_True.
Qed.

End delivery.

(** ** Texts that arrive more than once *)

Section texts.
Context `{E : Environment}.

(** The messages without those whose hash came before. *)
Fixpoint first_copies (seen : list bytes) (l : list TextMessageHandler.message_data) : list TextMessageHandler.message_data :=
  match l with
  | [] => []
  | m :: l =>
      let h := TextMessageHandler.packet_hash m in
      if negb (bool_decide (h = [])) && bool_decide (h ∈ seen) then first_copies seen l
      else m :: first_copies (h :: seen) l
  end.

(** Sender, text, time and hash of a message and of its event. *)
Definition delivery (m : TextMessageHandler.message_data) : option (bytes * pystr * Z * bytes) :=
  match fromhex (TextMessageHandler.contact_pubkey m) with
  | Ok key => Some (key, rstrip_nul (TextMessageHandler.message_text m), TextMessageHandler.timestamp m,
                    TextMessageHandler.packet_hash m)
  | Err _ => None
  end.
Definition delivered (e : event) : option (bytes * pystr * Z * bytes) :=
  match e with
  | MessageEvent m h _ => Some (Models.sender_key m, Models.text m, Models.timestamp m, h)
  | _ => None
  end.

(** A cache none of whose entries can expire, with room for [n] more. *)
Definition roomy (n : nat) (c : SeenCache.t float) : Prop :=
  Forall (λ e, ∃ k, e.2 = wall k) (SeenCache._entries c) ∧ SeenCache._ttl c = f_of_Z 300
  ∧ len (SeenCache._entries c) + Z.of_nat n ≤ SeenCache._max_size c.

Lemma cache_hit n c k key :
  (∀ i j, fltb (f_of_Z 300) (fsub (wall i) (wall j)) = false) → roomy (Datatypes.S n) c →
  let '(c', hit) := SeenCache.check_and_add (wall k) key c in
  roomy n c' ∧ hit = bool_decide (key ∈ dkeys (SeenCache._entries c))
  ∧ ∀ h, h ∈ dkeys (SeenCache._entries c') ↔ h = key ∨ h ∈ dkeys (SeenCache._entries c).
Proof.
  intros Hw (Hage & Httl & Hroom). unfold SeenCache.check_and_add.
  destruct (dmem key (SeenCache._entries c)) eqn:Hk.
  - apply dmem_true in Hk. split_and!; [split_and!; [done|done|lia]|by rewrite bool_decide_eq_true_2|].
    intros h. split; [by right|]. by intros [->|].
  - assert (List.filter (λ e, before (SeenCache._ttl c) (elapsed (wall k) e.2)) (SeenCache._entries c) = []) as ->.
    { clear Hroom Hk. induction Hage as [|e l [j Hj] Hl IH]; [done|]. cbn [List.filter]. rewrite Hj, Httl.
      change (before (f_of_Z 300) (elapsed (wall k) (wall j))) with (fltb (f_of_Z 300) (fsub (wall k) (wall j))).
      rewrite Hw. by rewrite Httl in IH. }
    change (ddel_all (dkeys []) (SeenCache._entries c)) with (SeenCache._entries c). rewrite dset_fresh by done.
    rewrite len_app. change (len [(key, wall k)]) with 1.
    destruct (len (SeenCache._entries c) + 1 >? SeenCache._max_size c) eqn:Hm; bool_hyps; [lia|].
    assert (key ∉ dkeys (SeenCache._entries c)) as Hn by (intros Hin; apply dmem_true in Hin; congruence).
    split_and!; [split_and!|by rewrite bool_decide_eq_false_2|]; cbn.
    + apply Forall_app. split; [done|]. constructor; [by exists k|constructor].
    + done.
    + rewrite len_app. change (len [(key, wall k)]) with 1. lia.
    + intros h. unfold dkeys. rewrite fmap_app, elem_of_app. cbn. rewrite list_elem_of_singleton. tauto.
Qed.

Definition seen (s : t) : list bytes := dkeys (SeenCache._entries (_seen_txt (session s))).

Lemma duplicate_txt n h s :
  (∀ i j, fltb (f_of_Z 300) (fsub (wall i) (wall j)) = false) → roomy (Datatypes.S n) (_seen_txt (session s)) →
  ∃ s', duplicate seen_txt h s = (s', Ok (negb (bool_decide (h = [])) && bool_decide (h ∈ seen s)))
    ∧ roomy n (_seen_txt (session s')) ∧ events (session s') = events (session s)
    ∧ ∀ h', h' ∈ seen s' ↔ (h' = h ∧ h ≠ []) ∨ h' ∈ seen s.
Proof.
  intros Hw Hr. unfold duplicate. case_bool_decide as Hh; cbn [negb andb].
  - exists s. split; [done|]. destruct Hr as (? & ? & ?). split_and!; [split_and!; [done|done|lia]|done|]. tauto.
  - pose proof (cache_hit n _ (reads (session s)) h Hw Hr) as Hc. unfold seen_txt.
    erewrite py_bind_run by reflexivity. cbn. unfold mbind, py_bind, get. cbn.
    destruct (SeenCache.check_and_add _ h _) as [c' hit] eqn:Hcc. destruct Hc as (Hr' & -> & Hk).
    eexists. split; [reflexivity|]. split_and!; [done|done|]. intros h'. unfold seen. cbn. rewrite Hk. tauto.
Qed.

(** A message is pushed as a new object. *)
Lemma push_message_spec msg s :
  let obj := next_callback (session s) in
  let '(q, ok) := MessageQueue.push (msg obj) (message_queue s) in
  push_message msg s = (with_message_queue q (on_session (with_next_callback (Datatypes.S obj)) s), Ok (msg obj, ok)).
Proof.
  intros obj. unfold push_message. rewrite (py_bind_run new_callback _ s (on_session (with_next_callback (Datatypes.S obj)) s) obj) by done.
  unfold mbind, py_bind, get. cbn. by destruct (MessageQueue.push _ _).
Qed.

(** What the handling of one text does. *)
Lemma new_message_step n m s :
  (∀ i j, fltb (f_of_Z 300) (fsub (wall i) (wall j)) = false) → (∀ i, is_ok (int_of_float (wall i)) = true) →
  roomy (Datatypes.S n) (_seen_txt (session s)) → is_ok (fromhex (TextMessageHandler.contact_pubkey m)) = true →
  let h := TextMessageHandler.packet_hash m in
  ∃ s', _handle_mesh_event (NewMessage m) s = (s', Ok tt) ∧ roomy n (_seen_txt (session s'))
  ∧ (∀ h', h' ∈ seen s' ↔ (h' = h ∧ h ≠ []) ∨ h' ∈ seen s)
  ∧ omap delivered (events (session s')) = omap delivered (events (session s))
      ++ (if negb (bool_decide (h = [])) && bool_decide (h ∈ seen s) then [] else option_list (delivery m)).
Proof.
  intros Hw Hi Hr Hkey h. destruct (duplicate_txt n h s Hw Hr) as (s1 & Hd & Hr1 & He1 & Hk1).
  unfold _handle_mesh_event, py_try, _handle_new_message. rewrite (py_bind_run _ _ _ _ _ Hd).
  unfold delivery. destruct (fromhex (TextMessageHandler.contact_pubkey m)) as [key|]; [|done].
  destruct (negb (bool_decide (h = [])) && bool_decide (h ∈ seen s)).
  { exists s1. split_and!; [done..|]. by rewrite He1, app_nil_r. }
  rewrite (py_bind_run _ _ s1 s1 key) by done.
  specialize (Hi (reads (session s1))). destruct (int_of_float (wall (reads (session s1)))) as [now|] eqn:Hnow; [|done].
  rewrite (py_bind_run unix_time _ s1 (on_session (with_reads (Datatypes.S (reads (session s1)))) s1) now).
  2: { unfold unix_time, time_time, reading. py_run. cbn. by rewrite Hnow. }
  match goal with |- context [push_message ?f] => pose proof (push_message_spec f (on_session (with_reads (Datatypes.S (reads (session s1)))) s1)) as Hp end.
  cbn zeta in Hp. destruct (MessageQueue.push _ _) as [q ok] in Hp. rewrite (py_bind_run _ _ _ _ _ Hp).
  eexists. split; [reflexivity|]. split; [done|]. split; [done|]. cbn. rewrite omap_app, He1. done.
Qed.

(** C8: texts are delivered once. Of the texts heard within five minutes, at
    most 1000, each is announced once, in the order of first arrival: a copy with
    the packet hash of one that came before is passed over, and nothing else is. *)
Theorem texts_delivered_once l s :
  (∀ i j, fltb (f_of_Z 300) (fsub (wall i) (wall j)) = false) → (∀ i, is_ok (int_of_float (wall i)) = true) →
  _seen_txt (session s) = SeenCache.mk [] (f_of_Z 300) 1000 → (length l ≤ 1000)%nat →
  Forall (λ m, is_ok (fromhex (TextMessageHandler.contact_pubkey m)) = true) l →
  ∃ s', each (λ m, _handle_mesh_event (NewMessage m)) l s = (s', Ok tt)
    ∧ omap delivered (events (session s')) = omap delivered (events (session s)) ++ omap delivery (first_copies [] l).
Proof.
  intros Hw Hi Hs Hl Hok.
  assert (∀ ks s, (∀ h, h ≠ [] → h ∈ seen s ↔ h ∈ ks) → roomy (length l) (_seen_txt (session s)) →
    ∃ s', each (λ m, _handle_mesh_event (NewMessage m)) l s = (s', Ok tt)
    ∧ omap delivered (events (session s')) = omap delivered (events (session s)) ++ omap delivery (first_copies ks l)) as Hg.
  { clear s Hs Hl. induction Hok as [|m l Hm Hok IH]; intros ks s Hks Hr; cbn [each first_copies].
    { exists s. split; [done|]. by rewrite app_nil_r. }
    destruct (new_message_step (length l) m s Hw Hi Hr Hm) as (s1 & Hrun1 & Hr1 & Hk1 & He1). rewrite (py_bind_run _ _ _ _ _ Hrun1).
    set (h := TextMessageHandler.packet_hash m) in *.
    assert (negb (bool_decide (h = [])) && bool_decide (h ∈ seen s) = negb (bool_decide (h = [])) && bool_decide (h ∈ ks)) as Hb.
    { case_bool_decide; [done|]. cbn. apply bool_decide_ext. by apply Hks. }
    rewrite Hb in He1. destruct (negb (bool_decide (h = [])) && bool_decide (h ∈ ks)) eqn:Hdup.
    - bool_hyps. destruct (IH ks s1) as (s' & Hrun & He2); [|done|].
      + intros h' Hh'. rewrite Hk1, <- Hks by done. split; [|tauto]. intros [[-> _]|]; [|done]. by apply Hks.
      + exists s'. split; [done|]. by rewrite He2, He1, app_nil_r.
    - destruct (IH (h :: ks) s1) as (s' & Hrun & He2); [|done|].
      + intros h' Hh'. rewrite Hk1, elem_of_cons, <- Hks by done. split; [tauto|]. intros [->|]; tauto.
      + exists s'. split; [done|]. rewrite He2, He1, <- app_assoc. f_equal. cbn. by destruct (delivery m). }
  apply (Hg [] s).
  - intros h _. unfold seen. by rewrite Hs.
  - rewrite Hs. split_and!; [constructor|done|]. cbn. unfold len. cbn. lia.
Qed.

End texts.

(** ** Instances *)

#[local] Existing Instances xor_cipher xor_exchange calm.
#[local] Instance trusting : SignatureScheme := {| verify _ _ _ := Ok true |}.

(** Alice writes "hi" to Bob. *)
Definition hi : pystr := [104; 105].
Definition alice_texts : Companion.t * res SentResult := send_text_message bob_key hi TXT_TYPE_PLAIN 0 false (Some 1000) alice_companion.
Definition text_result : SentResult := match alice_texts.2 with Ok r => r | Err _ => sent_error None end.
Definition text_crc : Z := default 0 (expected_ack text_result).

(** Bob's ACK, with two bytes more. *)
Definition bob_ack : Packet.t :=
  built (PacketBuilder._create_header PAYLOAD_TYPE_ACK "direct" false) [] 0 (le_bytes 4 text_crc ++ [0; 77]).

Lemma alice_texts_ok : alice_texts = (alice_texts.1, Ok text_result).
Proof.
  assert (is_ok alice_texts.2 = true) as H by (vm_compute; reflexivity). unfold text_result.
  destruct alice_texts as [s [r|e]]; [reflexivity|discriminate H].
Qed.

Lemma send_confirmed_once_witness :
  ∃ s3 ms, process_received_packet no_lpp bob_ack alice_texts.1 = (s3, Ok false)
    ∧ events (session s3) = events (session alice_texts.1) ++ [SendConfirmed text_crc ms]
    ∧ process_received_packet no_lpp bob_ack s3 = (counted bob_ack s3, Ok false).
Proof.
  destruct (send_confirmed_once no_lpp bob_key hi TXT_TYPE_PLAIN 0 false (Some 1000) alice_companion alice_texts.1 text_result text_crc)
    as (at_ & pkt & handed & taken & Hd & Hk & _ & Hin & Ht & H).
  - reflexivity.
  - constructor.
  - reflexivity.
  - exact alice_texts_ok.
  - vm_compute. reflexivity.
  - assert (ack_of text_crc bob_ack) as Ha by (split; [vm_compute; reflexivity|eexists; reflexivity]).
    apply (f_equal fst) in Hin. change (handed = taken) in Hin. subst taken. rewrite <- Ht in Hd, Hk.
    destruct (H alice_texts.1 bob_ack bob_ack Hd Hk Ha Ha) as (s3 & ms & H1 & _ & H2 & H3).
    exists s3, ms. split; [exact H1|]. split; [exact H2|exact H3].
Defined.

(** Three texts of Alice; the third is a copy of the first. *)
Definition text_heard (text : pystr) (hash : bytes) : TextMessageHandler.message_data :=
  TextMessageHandler.mkMessage [65] (hex alice_key) text [] TXT_TYPE_PLAIN 1000 0xFF 0 f_zero hash.
Definition three_texts : list TextMessageHandler.message_data := [text_heard [97] [1]; text_heard [98] [2]; text_heard [97] [1]].

Lemma texts_delivered_once_witness :
  ∃ s', each (λ m, _handle_mesh_event (NewMessage m)) three_texts alice_companion = (s', Ok tt)
    ∧ omap delivered (events (session s')) = [(alice_key, [97], 1000, [1]); (alice_key, [98], 1000, [2])].
Proof.
  destruct (texts_delivered_once three_texts alice_companion) as (s' & H1 & H2).
  - reflexivity.
  - intros i. vm_compute. reflexivity.
  - reflexivity.
  - apply Nat.leb_le. vm_compute. reflexivity.
  - repeat constructor.
  - exists s'. split; [exact H1|]. rewrite H2. vm_compute. reflexivity.
Defined.
