(* ===== verification/CompanionChannels.v ===== *)
(** * Datagrams on a channel

    What [send_channel_data] puts on the air is what [_handle_group_data_packet]
    of another member queues, and the sender does not hear itself. *)

From stdpp Require Import gmap.
From S2P Require Import Prelude PyData Sha256 Utf8 PyFloat ODict Constants PacketUtils Packet TransportKeys RegionMap Crypto PacketFilter PacketBuilder Messages Utils GroupText Stores Contacts ProtocolResponse Login FrameCodes BinaryParsing AdvertHandler CompanionSession CompanionConfig CompanionSend CompanionRequests CompanionEvents CompanionBridge CompanionDelivery.

Import Session Companion Sends Events Bridge.

(** ** Channel secrets *)

Lemma channel_secret_normal secret : channel_secret_32 secret = Utils.normalize_channel_secret secret.
Proof. done. Qed.

Lemma len_normal secret : len (Utils.normalize_channel_secret secret) = 32.
Proof.
  unfold Utils.normalize_channel_secret. pose proof (len_nonneg secret). destruct (len secret <? 32) eqn:Hl; bool_hyps.
  - rewrite len_app, len_zeros; lia.
  - by apply len_slice_to; lia.
Qed.

(** The sender's hash of a channel is the receiver's. *)
Lemma channel_hash_agrees secret : channel_hash_of (channel_secret_32 secret) = Utils.derive_channel_hash secret.
Proof.
  unfold channel_hash_of, Utils.derive_channel_hash. rewrite channel_secret_normal, len_normal. done.
Qed.

(** ** Candidates *)

Section channels.
Context `{E : Environment} `{C : BlockCipher} {L : BlockCipherLaws C} `{K : PacketBuilder.KeyExchange} `{S : SignatureScheme}.
Context {V : Type} (lpp : bytes → res (list (Z * Z * V))).

(** A channel that does not authenticate a packet. *)
Definition foreign (encrypted : bytes) (ch : Models.Channel) : Prop :=
  let secret := Utils.normalize_channel_secret (Models.ch_secret ch) in
  is_ok (CryptoUtils.mac_then_decrypt (slice_to secret 16) secret encrypted) = false.

Lemma candidates_found n i j h s ch encrypted plaintext :
  i ≤ j < i + Z.of_nat n → ChannelStore.get j s = Some ch → Utils.derive_channel_hash (Models.ch_secret ch) = Ok h →
  (let secret := Utils.normalize_channel_secret (Models.ch_secret ch) in
   CryptoUtils.mac_then_decrypt (slice_to secret 16) secret encrypted = Ok plaintext) →
  (∀ k c, i ≤ k < j → ChannelStore.get k s = Some c → foreign encrypted c) →
  ∃ l, candidates_from n i h s = Ok l ∧ first_plaintext l encrypted = Some (j, plaintext).
Proof.
  intros Hj Hg Hh Hd Hf. revert i Hj Hf. induction n as [|n IH]; intros i Hj Hf; [lia|]. cbn [candidates_from].
  destruct (decide (i = j)) as [->|Hne].
  - rewrite Hg, Hh. cbn [mbind res_bind].
    assert (∀ m k, ∃ l, candidates_from m k h s = Ok l) as Hok.
    { clear. intros m. induction m as [|m IH]; intros k; cbn [candidates_from]; [by eexists|].
      destruct (IH (k + 1)) as [l Hl]. destruct (ChannelStore.get k s) as [c|]; [|by exists l].
      pose proof (derive_channel_hash_ok (Models.ch_secret c)) as Hc.
      destruct (Utils.derive_channel_hash (Models.ch_secret c)); [|done]. cbn [mbind res_bind]. rewrite Hl. by eexists. }
    destruct (Hok n (j + 1)) as [l Hl]. rewrite Hl. cbn [mbind res_bind]. rewrite Z.eqb_refl.
    eexists. split; [reflexivity|]. cbn [first_plaintext]. cbv zeta in Hd. by rewrite Hd.
  - destruct (IH (i + 1)) as (l & Hl & Hp); [lia|intros k c Hk; apply Hf; lia|].
    destruct (ChannelStore.get i s) as [c|] eqn:Hi; [|by exists l].
    pose proof (derive_channel_hash_ok (Models.ch_secret c)) as Hc.
    destruct (Utils.derive_channel_hash (Models.ch_secret c)) as [h'|]; [|done]. cbn [mbind res_bind]. rewrite Hl. cbn [mbind res_bind].
    eexists. split; [reflexivity|]. destruct (h' =? h); [|done]. cbn [first_plaintext].
    specialize (Hf i c ltac:(lia) Hi). unfold foreign in Hf. cbv zeta in Hf. by destruct (CryptoUtils.mac_then_decrypt _ _ _).
Qed.

(** ** The datagram *)

Definition datagram (data_type : Z) (blob : bytes) : bytes := le_bytes 2 data_type ++ [len blob] ++ blob.

Lemma parse_datagram data_type blob n :
  0 < data_type < 65536 → len blob < 256 →
  parse_group_data (datagram data_type blob ++ zeros n) = Some (data_type, blob).
Proof.
  intros Ht Hb. unfold parse_group_data, datagram. pose proof (len_nonneg blob). pose proof (len_nonneg (zeros n)).
  rewrite <- !app_assoc. rewrite !len_app, len_le_bytes. change (len [len blob]) with 1.
  destruct (Z.ltb_spec (Z.of_nat 2 + (1 + (len blob + len (zeros n)))) 3); [lia|].
  rewrite slice_to_app_exact by (by rewrite len_le_bytes). rewrite from_le_le_bytes by (change (256 ^ Z.of_nat 2) with 65536; lia).
  cbn [app]. rewrite index_app_exact by (by rewrite len_le_bytes).
  replace (data_type =? 0) with false by lia. cbn [orb].
  destruct (Z.ltb_spec (Z.of_nat 2 + (1 + (len blob + len (zeros n)))) (3 + len blob)); [lia|].
  do 2 f_equal. rewrite (cons_middle (len blob) (le_bytes 2 data_type)), (app_assoc (le_bytes 2 data_type) [_]).
  apply slice_app_exact; rewrite ?len_app, ?len_le_bytes; done.
Qed.

(** ** Sending *)

(** A packet that was forwarded, or rerouted: same payload and type. *)
Definition carried (p q : Packet.t) : Prop :=
  Packet.payload q = Packet.payload p ∧ Packet.payload_len q = Packet.payload_len p
  ∧ Packet.get_payload_type q = Packet.get_payload_type p.

Lemma same_load_carried p q : same_load p q → carried p q.
Proof. intros (? & ? & ? & _). done. Qed.

Lemma carried_trans p q r : carried p q → carried q r → carried p r.
Proof. intros (? & ? & ?) (? & ? & ?). by split_and!; etransitivity. Qed.

Lemma direct_header_type p :
  Packet.get_payload_type (Packet.with_header (Z.lor (Z.land (Packet.header p) (Z.lnot PH_ROUTE_MASK)) ROUTE_TYPE_DIRECT) p)
  = Packet.get_payload_type p.
Proof.
  pose proof (land_lnot3 (Packet.header p)) as H. rewrite Z.lor_0_r in H.
  unfold Packet.get_payload_type, PH_ROUTE_MASK, PH_TYPE_SHIFT, PH_TYPE_MASK, ROUTE_TYPE_DIRECT. cbn [Packet.header Packet.with_header].
  rewrite H, Z.lor_comm.
  pose proof (lor_disjoint_add 2 (Packet.header p / 4) 2 ltac:(lia) ltac:(lia)) as Hl. change (2 ^ 2) with 4 in Hl.
  rewrite (Z.mul_comm 4), Hl. autorewrite with bits. zdm.
Qed.

Lemma set_path_carried path ple p q : PacketBuilder.build (Packet.set_path path ple) p = Ok q → carried p q.
Proof.
  unfold PacketBuilder.build, Packet.set_path. py_run. destruct ple as [l|].
  - intros H. simplify_eq. done.
  - destruct (_ >? 63); [done|]. destruct (PathUtils.encode_path_len 1 (len path)); [|done]. intros H. simplify_eq. done.
Qed.

Lemma hash_carried p q :
  carried p q → Packet.get_payload_type p ≠ PAYLOAD_TYPE_TRACE → Packet.calculate_packet_hash q = Packet.calculate_packet_hash p.
Proof.
  intros (Hp & Hl & Ht) Hn. unfold Packet.calculate_packet_hash, Packet.get_payload. rewrite Hp, Hl, Ht.
  unfold PacketHashingUtils.calculate_packet_hash. by rewrite (proj2 (Z.eqb_neq _ _) Hn).
Qed.

(** What the transport has been given, and the group packets seen. *)
Definition on_air (s : t) : list sent * PacketHashCache.t float := (outbox (session s), _seen_group_packets (session s)).

Lemma data_packet data_type blob h x y secret p :
  0 < data_type < 65536 → len blob < 256 → pack_H (Z.land data_type 0xFFFF) = Ok x → pack_B (len blob) = Ok y →
  PacketBuilder.create_group_data_packet PAYLOAD_TYPE_GRP_DATA h (x ++ y ++ blob) secret = Ok p →
  ∃ cipher, CryptoUtils.encrypt_then_mac (slice_to secret 16) secret (datagram data_type blob) = Ok cipher
    ∧ Packet.payload p = h :: cipher ∧ Packet.payload_len p = len (h :: cipher) ∧ Packet.get_payload_type p = PAYLOAD_TYPE_GRP_DATA.
Proof.
  intros Hd Hb Hx Hy H. pose proof (len_nonneg blob). unfold pack_H, pack_B in *.
  change 0xFFFF with (Z.ones 16) in Hx. rewrite Z.land_ones, Z.mod_small in Hx by (change (2 ^ 16) with 65536; lia).
  rewrite pack_uint_ok in Hx by (change (256 ^ Z.of_nat 2) with 65536; lia). rewrite pack_uint_ok in Hy by (change (256 ^ Z.of_nat 1) with 256; lia).
  injection Hx as <-. injection Hy as <-. unfold PacketBuilder.create_group_data_packet in H. cbn [orb negb Z.eqb] in H.
  change (negb _) with false in H. cbn iota in H. res_inv.
  match goal with H : PacketBuilder._encrypt_payload _ _ _ = Ok ?c |- _ => exists c end.
  match goal with H : PacketBuilder._create_packet _ _ = _ |- _ => apply create_packet_built in H as [-> _] end.
  match goal with H : bytes_of_ints _ = _ |- _ => apply bytes_of_ints_inv in H as [-> _] end.
  split_and!; [|done|done|by apply built_type].
  assert (le_bytes 1 (len blob) = [len blob]) as He; [|unfold datagram; by rewrite <- He].
  cbn. f_equal. rewrite Z.mod_small; lia.
Qed.

(** The packet is recorded before it is handed over. *)
Lemma put_on_air pkt s s1 s2 hit :
  (∀ pkt w c, keeps (same on_air) (packet_injector pkt w c)) → Packet.get_payload_type pkt ≠ PAYLOAD_TYPE_TRACE →
  _check_and_track_group_packet pkt s = (s1, Ok hit) → _send_packet pkt false None s1 = (s2, Ok true) →
  ∃ hash n, Packet.calculate_packet_hash pkt = Ok hash ∧ outbox (session s2) = outbox (session s) ++ [mkSent pkt false None]
    ∧ _seen_group_packets (session s2) = (PacketHashCache.check_and_add (monotonic n) (hex hash) (_seen_group_packets (session s))).1.
Proof.
  intros Hinj Ht H1 H2. destruct (packet_hash_ok pkt Ht) as [hash Hh]. exists hash, (reads (session s)). split; [done|].
  unfold _check_and_track_group_packet in H1. rewrite Hh in H1. unfold time_monotonic, reading in H1. py_inv.
  unfold _send_packet in H2. py_inv.
  match goal with H : packet_injector _ _ _ _ = _ |- _ => apply (run_keeps (same on_air)) in H; [|apply Hinj]; unfold same, on_air in H; cbn in H; injection H as -> -> end.
  simplify_eq. cbn [outbox with_outbox session on_session].
  match goal with H : context [_seen_group_packets (session (on_session ?f s))] |- _ =>
    change (_seen_group_packets (session (on_session f s))) with (_seen_group_packets (session s)) in H end.
  destruct (PacketHashCache.check_and_add _ _ _) as [c hit'] eqn:Hc. py_inv. by split.
Qed.

Lemma sent_data idx data_type blob path ple s s' :
  (∀ pkt w c, keeps (same on_air) (packet_injector pkt w c)) →
  send_channel_data idx data_type blob path ple s = (s', Ok true) →
  ∃ ch pkt h cipher hash n,
    ChannelStore.get idx (channels s) = Some ch ∧ 0 < data_type < 65536 ∧ len blob < 256
    ∧ outbox (session s') = outbox (session s) ++ [mkSent pkt false None]
    ∧ Packet.payload pkt = h :: cipher ∧ Packet.payload_len pkt = len (h :: cipher)
    ∧ Packet.get_payload_type pkt = PAYLOAD_TYPE_GRP_DATA
    ∧ Utils.derive_channel_hash (Models.ch_secret ch) = Ok h
    ∧ (let secret := Utils.normalize_channel_secret (Models.ch_secret ch) in
       CryptoUtils.encrypt_then_mac (slice_to secret 16) secret (datagram data_type blob) = Ok cipher)
    ∧ Packet.calculate_packet_hash pkt = Ok hash
    ∧ _seen_group_packets (session s') = (PacketHashCache.check_and_add (monotonic n) (hex hash) (_seen_group_packets (session s))).1.
Proof.
  intros Hinj H. unfold send_channel_data in H. rewrite (py_bind_run get _ s s s) in H by done.
  destruct (ChannelStore.get idx (channels s)) as [ch|] eqn:Hch; [|py_inv; done].
  destruct ((data_type <=? 0) || (data_type >? 0xFFFF)) eqn:Hdt; [py_inv; done|].
  destruct (len blob >? MAX_GROUP_DATA_LENGTH) eqn:Hlb; [py_inv; done|]. unfold MAX_GROUP_DATA_LENGTH, MAX_PACKET_PAYLOAD, CIPHER_BLOCK_SIZE in Hlb. bool_hyps.
  apply py_try_ok in H as [H|(s1 & e & _ & H)]; [|py_inv; done].
  rewrite channel_hash_agrees in H.
  assert (∃ h x y p q s1 s2 hit, Utils.derive_channel_hash (Models.ch_secret ch) = Ok h
    ∧ pack_H (Z.land data_type 0xFFFF) = Ok x ∧ pack_B (len blob) = Ok y
    ∧ PacketBuilder.create_group_data_packet PAYLOAD_TYPE_GRP_DATA h (x ++ y ++ blob) (channel_secret_32 (Models.ch_secret ch)) = Ok p
    ∧ carried p q ∧ _check_and_track_group_packet q s = (s1, Ok hit) ∧ _send_packet q false None s1 = (s2, Ok true)
    ∧ session s' = session s2) as (h & x & y & p & q & s1 & s2 & hit & Hh & Hx & Hy & Hp & Hc & Ht & Hs & He).
  { py_inv; repeat match goal with H : on_packet _ _ _ = _ |- _ =>
      apply on_packet_load in H as [-> ?]; [|first [apply _apply_flood_scope_load | intros; apply apply_path_hash_mode_load]] end;
    eexists _, _, _, _, _, _, _, _;
      (split; [eassumption|]; split; [eassumption|]; split; [eassumption|]; split; [eassumption|]; split; [|split; [eassumption|]; split; [eassumption|done]]).
    - eapply carried_trans; by apply same_load_carried.
    - match goal with H : PacketBuilder.build _ _ = _ |- _ => apply set_path_carried in H end.
      eapply carried_trans; [|by apply same_load_carried]. eapply carried_trans; [|eassumption].
      split_and!; [done|done|apply direct_header_type]. }
  destruct (data_packet data_type blob h x y _ p ltac:(lia) ltac:(lia) Hx Hy Hp) as (cipher & Hci & Hpay & Hlen & Hty).
  destruct Hc as (Hc1 & Hc2 & Hc3).
  destruct (put_on_air q s s1 s2 hit) as (hash & n & Hhash & Hout & Hseen); [done|by rewrite Hc3, Hty|done|done|].
  exists ch, q, h, cipher, hash, n. rewrite He, Hc1, Hc2, Hc3. split_and!; try done; lia.
Qed.

(** ** Reception *)

Lemma data_bytes (h : Z) (cipher : bytes) : slice (h :: cipher) 1 3 ++ slice_from (h :: cipher) 3 = cipher.
Proof.
  rewrite slice_nonneg, slice_from_nonneg by lia. apply (take_drop 2 cipher).
Qed.

(** What a datagram that authenticates comes to. *)
Lemma data_handled h cipher plaintext j ch data_type blob p s :
  Packet.payload p = h :: cipher → Packet.payload_len p = len (h :: cipher) → 3 ≤ len cipher →
  ChannelStore.get j (channels s) = Some ch → Utils.derive_channel_hash (Models.ch_secret ch) = Ok h →
  (let secret := Utils.normalize_channel_secret (Models.ch_secret ch) in
   CryptoUtils.mac_then_decrypt (slice_to secret 16) secret cipher = Ok plaintext) →
  (∀ k c, 0 ≤ k < j → ChannelStore.get k (channels s) = Some c → foreign cipher c) →
  parse_group_data plaintext = Some (data_type, blob) → Packet.get_payload_type p ≠ PAYLOAD_TYPE_TRACE →
  ∃ hash, Packet.calculate_packet_hash p = Ok hash
    ∧ _handle_group_data_packet p s
      = (seen ← _check_and_track_group_packet p;
         if (seen : bool) then mret tt
         else
           '(msg, was_queued) ← push_message (fun obj =>
              Models.mkQueued obj [] 0 0 [] true j (route_byte p) (Packet.get_snr p) (Packet._rssi p) data_type blob []);
           _fire_callbacks (ChannelDataEvent msg hash was_queued)) s.
Proof.
  intros Hp Hl H3 Hg Hh Hd Hf Hparse Ht. destruct (packet_hash_ok p Ht) as [hash Hhash]. exists hash. split; [done|].
  unfold _handle_group_data_packet. assert (Packet.get_payload p = h :: cipher) as ->.
  { unfold Packet.get_payload. by rewrite Hp, Hl, slice_to_all. }
  rewrite len_cons. destruct (Z.ltb_spec (1 + len cipher) 4); [lia|]. rewrite Hhash.
  rewrite (py_bind_run _ _ s s hash) by done. rewrite (py_bind_run _ _ s s h) by done. rewrite (py_bind_run _ _ s s s) by done.
  assert (0 ≤ j < ChannelStore._max_channels (channels s)) as Hj.
  { unfold ChannelStore.get in Hg. destruct ((0 <=? j) && (j <? ChannelStore._max_channels (channels s))) eqn:Hb; [|done]. bool_hyps. lia. }
  destruct (candidates_found (Z.to_nat (ChannelStore._max_channels (channels s))) 0 j h (channels s) ch cipher plaintext)
    as (l & Hl' & Hfirst); [lia|done|done|done|done|].
  unfold _get_channel_candidates_by_hash. rewrite Hl'. rewrite (py_bind_run _ _ s s l) by done.
  by rewrite data_bytes, Hfirst, Hparse.
Qed.

(** Two copies of a packet in the cache of a companion. *)
Lemma cache_has_newest now now' (h : string) (c : PacketHashCache.t float) :
  keys_unique (PacketHashCache._entries c) → 1 ≤ PacketHashCache.max_entries c →
  before (PacketHashCache.ttl_seconds c) (elapsed now' now) = false →
  (PacketHashCache.check_and_add now' h (PacketHashCache.check_and_add now h c).1).2 = true.
Proof.
  intros Hu Hm Ht. unfold PacketHashCache.check_and_add at 2, PacketHashCache._evict_expired.
  cbn [PacketHashCache._entries PacketHashCache.ttl_seconds PacketHashCache.max_entries fst].
  set (d := PacketHashCache.evict now _ _).
  assert (keys_unique d) as Hd by (eapply keys_unique_sublist; [apply evict_sublist|done]).
  rewrite set_move_to_end by done.
  assert (∃ d', keys_unique (d' ++ [(h, now)])
    ∧ (if len (ddel h d ++ [(h, now)]) >? PacketHashCache.max_entries c then pop_first (ddel h d ++ [(h, now)]) else ddel h d ++ [(h, now)])
      = d' ++ [(h, now)]) as (d' & Hu' & ->).
  { pose proof (keys_unique_refresh h now d Hd) as Hr. destruct (_ >? _) eqn:Hl; [|by exists (ddel h d)]. bool_hyps.
    destruct (ddel h d) as [|e d0]; [change (len ([] ++ [(h, now)])) with 1 in Hl; lia|]. exists d0. split; [|done].
    by apply (keys_unique_tail _) in Hr. }
  unfold PacketHashCache.check_and_add, PacketHashCache._evict_expired.
  cbn [PacketHashCache._entries PacketHashCache.ttl_seconds PacketHashCache.max_entries snd].
  assert (∃ d0, sublist d0 d' ∧ PacketHashCache.evict now' (PacketHashCache.ttl_seconds c) (d' ++ [(h, now)]) = d0 ++ [(h, now)]) as (d0 & Hs & ->).
  { clear Hu'. induction d' as [|[h1 t1] d' IH]; cbn [app PacketHashCache.evict].
    - rewrite Ht. by exists [].
    - destruct (negb _); [by exists ((h1, t1) :: d')|]. destruct IH as (d0 & Hs & He). exists d0. split; [by apply sublist_cons|done]. }
  unfold dmem. erewrite elem_dget; [done| |apply elem_of_app; right; by constructor].
  eapply keys_unique_sublist; [|exact Hu']. by apply sublist_app.
Qed.

(** The cache is asked about the hash of a packet. *)
Lemma track_run p hash s :
  Packet.calculate_packet_hash p = Ok hash →
  let r := PacketHashCache.check_and_add (monotonic (reads (session s))) (hex hash) (_seen_group_packets (session s)) in
  ∃ s', _check_and_track_group_packet p s = (s', Ok r.2) ∧ events (session s') = events (session s)
    ∧ message_queue s' = message_queue s.
Proof.
  intros Hh r. unfold _check_and_track_group_packet. rewrite Hh. rewrite (py_bind_run _ _ s s hash) by done.
  erewrite py_bind_run by reflexivity. unfold mbind at 1, py_bind at 1, get. 
  match goal with |- context [_seen_group_packets (session (on_session ?f s))] =>
    change (_seen_group_packets (session (on_session f s))) with (_seen_group_packets (session s)) end.
  unfold r. destruct (PacketHashCache.check_and_add _ _ _) as [c hit]. eexists. split; [reflexivity|]. done.
Qed.

(** The common part of a datagram's reception. *)
Lemma data_received ch pkt h cipher data_type blob q s j chB :
  Packet.payload pkt = h :: cipher → Packet.payload_len pkt = len (h :: cipher) →
  Packet.get_payload_type pkt = PAYLOAD_TYPE_GRP_DATA → Utils.derive_channel_hash (Models.ch_secret ch) = Ok h →
  (let secret := Utils.normalize_channel_secret (Models.ch_secret ch) in
   CryptoUtils.encrypt_then_mac (slice_to secret 16) secret (datagram data_type blob) = Ok cipher) →
  0 < data_type < 65536 → len blob < 256 → carried pkt q →
  ChannelStore.get j (channels s) = Some chB → Models.ch_secret chB = Models.ch_secret ch →
  (∀ k c, 0 ≤ k < j → ChannelStore.get k (channels s) = Some c → foreign (slice_from (Packet.payload q) 1) c) →
  ∃ q' hash, route_byte q' = route_byte q ∧ Packet.calculate_packet_hash q' = Ok hash ∧ Packet.calculate_packet_hash q = Ok hash
    ∧ process_received_packet lpp q s = py_try
      ((seen ← _check_and_track_group_packet q';
         if (seen : bool) then mret tt
         else
           '(msg, was_queued) ← push_message (fun obj =>
              Models.mkQueued obj [] 0 0 [] true j (route_byte q') (Packet.get_snr q') (Packet._rssi q') data_type blob []);
           _fire_callbacks (ChannelDataEvent msg hash was_queued));; mret false) (mret false) (counted q s).
Proof.
  intros Hp Hl Hty Hh He Hd Hb (Hq1 & Hq2 & Hq3) Hg Hsec Hf. destruct (process_runs lpp q s) as (q' & Hp' & Ht' & (c & k & u & ->) & ->).
  rewrite Hty in Hq3. rewrite Hq3 in *. rewrite Hq1, Hp in Hf.
  rewrite slice_from_nonneg in Hf by lia. change (drop (Z.to_nat 1) (h :: cipher)) with cipher in Hf.
  assert (len (datagram data_type blob) = 3 + len blob) as Hdl.
  { unfold datagram. rewrite !len_app, len_le_bytes. change (len [len blob]) with 1. lia. }
  pose proof (len_nonneg blob). cbv zeta in He. destruct (encrypt_then_mac_inv _ _ _ _ He) as (Hkey & Hcl & _).
  destruct (mac_then_decrypt_encrypt _ _ _ _ Hkey ltac:(intros Hn; rewrite Hn in Hdl; change (len []) with 0 in Hdl; lia) He) as [Hdec _].
  set (q' := Packet.with_recv_region c k u q).
  destruct (data_handled h cipher (pad_zeros (datagram data_type blob)) j chB data_type blob q' (counted q s))
    as (hash & Hhash & Hrun).
  - by rewrite <- Hp, <- Hq1.
  - by rewrite <- Hl, <- Hq2.
  - rewrite Hcl, Hdl. zdm.
  - done.
  - by rewrite Hsec.
  - by rewrite Hsec.
  - done.
  - by apply parse_datagram.
  - unfold q'. change (Packet.get_payload_type (Packet.with_recv_region c k u q)) with (Packet.get_payload_type q). by rewrite Hq3.
  - exists q', hash. split; [done|]. split; [done|]. split; [done|].
    change (handle_type lpp PAYLOAD_TYPE_GRP_DATA q') with (_handle_group_data_packet q';; mret false).
    unfold py_try. by rewrite (py_bind_ext _ _ _ _ Hrun).
Qed.

(** C12: a datagram reaches the members of its channel. What
    [send_channel_data] handed to the transport, however it is forwarded, is
    queued and announced once by a companion that has the channel in any of its
    slots (with none before it that authenticates the packet) and has not seen the
    packet, with its data type, its bytes and the slot, and the route it came by. *)
Theorem channel_data_delivered idx data_type blob path ple s s1 :
  (∀ pkt w c, keeps (same on_air) (packet_injector pkt w c)) →
  send_channel_data idx data_type blob path ple s = (s1, Ok true) →
  ∃ ch pkt, ChannelStore.get idx (channels s) = Some ch ∧ outbox (session s1) = outbox (session s) ++ [mkSent pkt false None]
    ∧ ∀ q r j chB, carried pkt q → ChannelStore.get j (channels r) = Some chB → Models.ch_secret chB = Models.ch_secret ch →
      (∀ k c, 0 ≤ k < j → ChannelStore.get k (channels r) = Some c → foreign (slice_from (Packet.payload q) 1) c) →
      (∀ n hash, Packet.calculate_packet_hash q = Ok hash →
         (PacketHashCache.check_and_add (monotonic n) (hex hash) (_seen_group_packets (session r))).2 = false) →
      ∃ r' m hash queued, process_received_packet lpp q r = (r', Ok false)
        ∧ events (session r') = events (session r) ++ [ChannelDataEvent m hash queued]
        ∧ message_queue r' = (MessageQueue.push m (message_queue r)).1
        ∧ Models.channel_idx m = j ∧ Models.channel_data_type m = data_type ∧ Models.channel_data_payload m = blob
        ∧ Models.path_len m = route_byte q.
Proof.
  intros Hinj H. destruct (sent_data idx data_type blob path ple s s1 Hinj H)
    as (ch & pkt & h & cipher & hash0 & n0 & Hch & Hd & Hb & Ho & Hp & Hl & Hty & Hh & He & _).
  exists ch, pkt. split; [done|]. split; [done|]. intros q r j chB Hq Hg Hsec Hf Hnew.
  destruct (data_received ch pkt h cipher data_type blob q r j chB) as (q' & hash & Hrb & Hhash & Hhq & ->); try done.
  destruct (track_run q' hash (counted q r) Hhash) as (s2 & Ht & Hev & Hmq). rewrite (Hnew _ hash) in Ht by done.
  match goal with |- context [push_message ?f] => pose proof (push_message_spec f s2) as Hpush end. cbn zeta in Hpush.
  destruct (MessageQueue.push _ _) as [qu ok] eqn:Hqu in Hpush.
  unfold py_try. erewrite py_bind_run; [|rewrite (py_bind_run _ _ _ _ _ Ht), (py_bind_run _ _ _ _ _ Hpush); reflexivity].
  eexists _, _, hash, ok. split; [reflexivity|]. split; [cbn; by rewrite Hev|]. rewrite Hmq in Hqu.
  split; [exact (eq_sym (f_equal fst Hqu))|by split_and!].
Qed.

(** A datagram seen before comes to nothing. *)
Lemma seen_data p s s' :
  _check_and_track_group_packet p s = (s', Ok true) →
  (_handle_group_data_packet p s).1 = s ∨ (_handle_group_data_packet p s).1 = s'.
Proof.
  intros Ht. unfold _handle_group_data_packet. destruct (_ <? 4); [by left|].
  unfold mbind, py_bind, lift, get.
  destruct (Packet.calculate_packet_hash p) as [hash|]; [|by left]. destruct (index _ 0) as [h|]; [|by left].
  destruct (_get_channel_candidates_by_hash _ _) as [l|]; [|by left]. destruct (first_plaintext _ _) as [[j pt]|]; [|by left].
  destruct (parse_group_data pt) as [[ty blob]|]; [|by left]. rewrite Ht. by right.
Qed.

(** A companion does not hear its own datagrams. Once [send_channel_data] has
    handed a datagram to the transport, whatever copy of it comes back within the
    life of a cache entry, and whatever channels the companion has then, nothing
    is queued and nothing announced. *)
Theorem own_data_not_heard idx data_type blob path ple s s1 :
  (∀ pkt w c, keeps (same on_air) (packet_injector pkt w c)) →
  keys_unique (PacketHashCache._entries (_seen_group_packets (session s))) →
  1 ≤ PacketHashCache.max_entries (_seen_group_packets (session s)) →
  (∀ i j, before (PacketHashCache.ttl_seconds (_seen_group_packets (session s))) (elapsed (monotonic i) (monotonic j)) = false) →
  send_channel_data idx data_type blob path ple s = (s1, Ok true) →
  ∃ pkt, outbox (session s1) = outbox (session s) ++ [mkSent pkt false None]
    ∧ ∀ q r, carried pkt q → _seen_group_packets (session r) = _seen_group_packets (session s1) →
      ∃ r', process_received_packet lpp q r = (r', Ok false) ∧ events (session r') = events (session r)
        ∧ message_queue r' = message_queue r.
Proof.
  intros Hinj Hu Hm Hc H. destruct (sent_data idx data_type blob path ple s s1 Hinj H)
    as (ch & pkt & h & cipher & hash0 & n0 & Hch & Hd & Hb & Ho & Hp & Hl & Hty & Hh & He & Hhash & Hseen).
  exists pkt. split; [done|]. intros q r Hq Hr.
  assert (Packet.calculate_packet_hash q = Ok hash0) as Hhq by (rewrite (hash_carried pkt) by (by rewrite ?Hty); done).
  destruct Hq as (Hq1 & Hq2 & Hq3). destruct (process_runs lpp q r) as (q' & Hp' & Ht' & (c & k & u & ->) & ->).
  rewrite Hq3, Hty. set (q' := Packet.with_recv_region c k u q).
  change (handle_type lpp PAYLOAD_TYPE_GRP_DATA q') with (_handle_group_data_packet q';; mret false).
  assert (∃ r1, _check_and_track_group_packet q' (counted q r) = (r1, Ok true) ∧ events (session r1) = events (session r)
    ∧ message_queue r1 = message_queue r) as (r1 & Ht & He1 & Hm1).
  { destruct (track_run q' hash0 (counted q r) Hhq) as (r1 & Ht & He1 & Hm1). exists r1. split; [|done]. rewrite Ht.
    change (_seen_group_packets (session (counted q r))) with (_seen_group_packets (session r)). rewrite Hr, Hseen.
    by rewrite cache_has_newest. }
  unfold py_try, mbind, py_bind. pose proof (seen_data q' (counted q r) r1 Ht) as Hs.
  destruct (_handle_group_data_packet q' (counted q r)) as [r2 [u2|e2]]; cbn in Hs |- *; eexists; (split; [reflexivity|]);
    destruct Hs as [->| ->]; done.
Qed.

End channels.

(** ** Instances *)

#[local] Existing Instances xor_cipher xor_cipher_laws xor_exchange calm.
#[local] Instance trusting : SignatureScheme := {| verify _ _ _ := Ok true |}.

Definition channel_x : Models.Channel := Models.mkChannel [120] (replicate 16 90).
Definition channel_y : Models.Channel := Models.mkChannel [121] (replicate 16 91).

Definition in_channels (l : list (option Models.Channel)) (s : Companion.t) : Companion.t :=
  with_channels (ChannelStore.mk l (len l)) s.

(** Alice has the channel in her first slot, Bob in his third. *)
Definition alice_in_x : Companion.t := in_channels [Some channel_x; None] alice_companion.
Definition bob_in_x : Companion.t := in_channels [Some channel_y; None; Some channel_x] (idle bob []).

Definition blob3 : bytes := [1; 2; 3].

Definition alice_sends : Companion.t * res bool := send_channel_data 0 7 blob3 None None alice_in_x.
Definition on_the_air : Packet.t := match outbox (session alice_sends.1) with x :: _ => sent_packet x | [] => Packet.init end.

(** The datagram after two hops. *)
Definition heard_data : Packet.t := Packet.with_path [5; 6] (Packet.with_path_len 2 on_the_air).

Lemma alice_sends_ok : alice_sends = (alice_sends.1, Ok true).
Proof. assert (alice_sends.2 = Ok true) as H by (vm_compute; reflexivity). rewrite <- H. apply surjective_pairing. Qed.

Lemma calm_air : ∀ pkt w c, keeps (same on_air) (packet_injector pkt w c).
Proof. done. Qed.

Lemma channel_data_delivered_witness :
  ∃ r' m hash queued, process_received_packet no_lpp heard_data bob_in_x = (r', Ok false)
    ∧ events (session r') = [ChannelDataEvent m hash queued] ∧ Models.channel_idx m = 2
    ∧ Models.channel_data_type m = 7 ∧ Models.channel_data_payload m = blob3 ∧ Models.path_len m = 2.
Proof.
  destruct (channel_data_delivered no_lpp 0 7 blob3 None None alice_in_x alice_sends.1 calm_air alice_sends_ok)
    as (ch & pkt & Hch & Ho & Hd).
  assert (pkt = on_the_air) as -> by (unfold on_the_air; rewrite Ho; reflexivity).
  injection Hch as <-.
  destruct (Hd heard_data bob_in_x 2 channel_x) as (r' & m & hash & queued & H1 & H2 & _ & H3 & H4 & H5 & H6); try reflexivity.
  - split_and!; vm_compute; reflexivity.
  - intros k c Hk Hc. assert (k = 0 ∨ k = 1) as [->| ->] by lia; [|discriminate Hc].
    injection Hc as <-. vm_compute. reflexivity.
  - exists r', m, hash, queued. split_and!; [exact H1|exact H2|exact H3|exact H4|exact H5|]. rewrite H6. vm_compute. reflexivity.
Defined.

Lemma own_data_not_heard_witness :
  ∃ r', process_received_packet no_lpp heard_data alice_sends.1 = (r', Ok false) ∧ events (session r') = events (session alice_sends.1).
Proof.
  destruct (own_data_not_heard no_lpp 0 7 blob3 None None alice_in_x alice_sends.1 calm_air) as (pkt & Ho & Hd).
  - constructor.
  - discriminate.
  - reflexivity.
  - exact alice_sends_ok.
  - assert (pkt = on_the_air) as -> by (unfold on_the_air; rewrite Ho; reflexivity).
    destruct (Hd heard_data alice_sends.1) as (r' & H1 & H2 & _); [split_and!; vm_compute; reflexivity|reflexivity|].
    exists r'. split; [exact H1|exact H2].
Defined.
