(* ===== verification/CompanionAdverts.v ===== *)
(** * Adverts heard, kept and passed on

    What [AdvertHandler] publishes was signed by the node it names; a companion
    that keeps the contact can share it, and another node accepts what is shared. *)

From stdpp Require Import gmap.
From S2P Require Import Prelude PyData Sha256 Utf8 PyFloat ODict Constants PacketUtils Packet TransportKeys RegionMap Crypto PacketFilter PacketBuilder Messages Utils GroupText Stores Contacts ProtocolResponse Login FrameCodes BinaryParsing AdvertHandler CompanionSession CompanionConfig CompanionSend CompanionRequests CompanionEvents CompanionBridge CompanionDelivery.

Import Session Companion Sends Events Bridge.

(** ** The handler *)

Section handler.
Context `{S : SignatureScheme}.

(** What an advert says of its node. *)
Definition content (d : AdvertHandler.advert_data) : string * pystr * Z * Z * float * float * Z :=
  (AdvertHandler.public_key d, AdvertHandler.name d, AdvertHandler.contact_type d, AdvertHandler.flags d, AdvertHandler.lat d,
   AdvertHandler.lon d, AdvertHandler.advert_timestamp d).

(** It depends on the payload only. *)
Lemma call_content self_key now n1 n2 p q :
  Packet.get_payload q = Packet.get_payload p →
  content <$> AdvertHandler.call self_key now n2 q = content <$> AdvertHandler.call self_key now n1 p.
Proof.
  intros Hp. unfold AdvertHandler.call. rewrite Hp. cbv zeta. destruct (bool_decide _); [done|].
  destruct (Utils.parse_advert_payload _) as [a|]; [|done]. cbn [mbind res_bind].
  destruct (fromhex (Utils.pubkey a)) as [key|]; [|done]. cbn [mbind res_bind].
  destruct (pack_I (Utils.timestamp a)) as [ts|]; [|done]. cbn [mbind res_bind].
  destruct (fromhex (Utils.signature a)) as [sig|]; [|done]. cbn [mbind res_bind].
  destruct (Utils.is_self_advert _ _); [done|]. destruct (negb _); [done|].
  destruct (Utils.decode_appdata _) as [f|]; [|done]. cbn [mbind res_bind]. by destruct (Utils.node_name f) as [[|c n]|].
Qed.

(** What is published, piece by piece. *)
Lemma call_inv self_key now now' p d :
  AdvertHandler.call self_key now now' p = Some d →
  ∃ a key ts sig, Utils.parse_advert_payload (Packet.get_payload p) = Ok a
    ∧ fromhex (Utils.pubkey a) = Ok key ∧ pack_I (Utils.timestamp a) = Ok ts ∧ fromhex (Utils.signature a) = Ok sig
    ∧ Utils.is_self_advert (Packet.get_payload p) self_key = false
    ∧ AdvertHandler._verify_advert_signature key ts (slice_to (Utils.appdata a) MAX_ADVERT_DATA_SIZE) sig = true
    ∧ AdvertHandler.public_key d = Utils.pubkey a ∧ AdvertHandler.name d ≠ []
    ∧ AdvertHandler.advert_timestamp d = Z.min (Utils.timestamp a) now
    ∧ AdvertHandler.path_len_encoded d = Packet.path_len p ∧ AdvertHandler.timestamp d = now'
    ∧ AdvertHandler.raw_advert_packet d = match Packet.write_to p with Ok b => Some b | Err _ => None end.
Proof.
  intros H. unfold AdvertHandler.call in H. cbv zeta in H. destruct (bool_decide _); [done|].
  destruct (Utils.parse_advert_payload _) as [a|] eqn:Ha; [|done]. cbn [mbind res_bind] in H.
  destruct (fromhex (Utils.pubkey a)) as [key|] eqn:Hk; [|done]. cbn [mbind res_bind] in H.
  destruct (pack_I (Utils.timestamp a)) as [ts|] eqn:Ht; [|done]. cbn [mbind res_bind] in H.
  destruct (fromhex (Utils.signature a)) as [sig|] eqn:Hs; [|done]. cbn [mbind res_bind] in H.
  assert ((if len (Utils.appdata a) >? MAX_ADVERT_DATA_SIZE then slice_to (Utils.appdata a) MAX_ADVERT_DATA_SIZE else Utils.appdata a)
    = slice_to (Utils.appdata a) MAX_ADVERT_DATA_SIZE) as Happ.
  { destruct (_ >? _) eqn:Hl; [done|]. bool_hyps. by rewrite slice_to_ge. }
  rewrite Happ in H. exists a, key, ts, sig.
  destruct (Utils.is_self_advert _ _) eqn:Hself; [done|].
  destruct (AdvertHandler._verify_advert_signature _ _ _ _) eqn:Hv; cbn [negb] in H; [|done].
  destruct (Utils.decode_appdata _) as [f|]; [|done]. cbn [mbind res_bind] in H.
  destruct (Utils.node_name f) as [[|c n]|]; [done| |done]. unfold mret, res_ret in H. injection H as <-.
  split_and!; try done. cbn. destruct (Utils.timestamp a >? now) eqn:Hl; bool_hyps; lia.
Qed.

(** The payload of an advert in pieces. *)
Lemma parse_pieces payload a :
  Utils.parse_advert_payload payload = Ok a → 
  ∃ key ts sig app, payload = key ++ ts ++ sig ++ app ∧ len key = 32 ∧ len ts = 4 ∧ len sig = 64
    ∧ a = Utils.mkAdvert (hex key) (from_le ts) (hex sig) app.
Proof.
  unfold Utils.parse_advert_payload. unfold PUB_KEY_SIZE, TIMESTAMP_SIZE, SIGNATURE_SIZE.
  destruct (_ <? _) eqn:Hl; intros H; simplify_eq. bool_hyps.
  destruct (split_at_len payload 32) as (key & r1 & -> & Hk); [lia|]. rewrite len_app in Hl.
  destruct (split_at_len r1 4) as (ts & r2 & -> & Ht); [lia|]. rewrite len_app in Hl.
  destruct (split_at_len r2 64) as (sig & app & -> & Hs); [lia|].
  exists key, ts, sig, app. split_and!; try done. f_equal.
  - by rewrite slice_to_app_exact.
  - rewrite (slice_app_exact key ts); [done|lia|lia].
  - rewrite (app_assoc key ts), (slice_app_exact (key ++ ts) sig); [done| |]; rewrite len_app; lia.
  - rewrite (app_assoc key ts), (app_assoc (key ++ ts)). apply slice_from_app_exact. rewrite !len_app. lia.
Qed.

Lemma advert_facts self_key now now' p d :
  bytes_ok (Packet.get_payload p) → self_key ≠ [] →
  AdvertHandler.call self_key now now' p = Some d →
  let key := slice_to (Packet.get_payload p) PUB_KEY_SIZE in
  bytes_ok key ∧ len key = 32 ∧ AdvertHandler.public_key d = hex key ∧ key ≠ self_key ∧ AdvertHandler.name d ≠ []
  ∧ AdvertHandler.raw_advert_packet d = match Packet.write_to p with Ok b => Some b | Err _ => None end.
Proof.
  intros Hb Hne H key. apply call_inv in H as (a & key0 & ts0 & sig0 & Ha & _ & _ & _ & Hself & _ & Hp & Hn & _ & _ & _ & Hr).
  assert (key = slice_to (Packet.get_payload p) PUB_KEY_SIZE) as Hkey by done. clearbody key.
  apply parse_pieces in Ha as (k & ts & sig & app & Hpay & Hk32 & Ht4 & Hs64 & ->).
  rewrite Hpay, slice_to_app_exact in Hkey by done. subst key. split; [|split; [done|split; [done|split; [|done]]]].
  - rewrite Hpay in Hb. by apply Forall_app in Hb as [? _].
  - intros ->. unfold Utils.is_self_advert in Hself. rewrite bool_decide_eq_false_2 in Hself by done.
    rewrite Hpay, slice_to_app_exact, bytes_eqb_refl, len_app in Hself by done.
    rewrite andb_true_r in Hself. bool_hyps. pose proof (len_nonneg (ts ++ sig ++ app)). unfold PUB_KEY_SIZE in *. lia.
Qed.

(** C11: what an advert is published to say was signed by the node it names.
    The payload is a key, a time, a signature and application data; the
    signature of the key, the time and the first 32 bytes of the data verified;
    the key published is the hexadecimal text of that key, it is not our own,
    the name is not empty and the time is the advert's, or the present when it
    lies in the future. *)
Theorem adverts_are_signed self_key now now' p d :
  bytes_ok (Packet.get_payload p) → self_key ≠ [] →
  AdvertHandler.call self_key now now' p = Some d →
  ∃ key ts sig app rest, Packet.get_payload p = key ++ ts ++ sig ++ app ++ rest
    ∧ len key = 32 ∧ len ts = 4 ∧ len sig = 64 ∧ (rest = [] ∨ len app = 32)
    ∧ verify key (key ++ ts ++ app) sig = Ok true
    ∧ AdvertHandler.public_key d = hex key ∧ key ≠ self_key ∧ AdvertHandler.name d ≠ []
    ∧ AdvertHandler.advert_timestamp d = Z.min (from_le ts) now.
Proof.
  intros Hb Hne H. pose proof (advert_facts _ _ _ _ _ Hb Hne H) as (_ & _ & _ & Hnk & _ & _).
  apply call_inv in H as (a & key0 & ts0 & sig0 & Ha & Hk & Ht & Hs & Hself & Hv & Hp & Hn & Hat & _).
  apply parse_pieces in Ha as (key & ts & sig & app & Hpay & Hk32 & Ht4 & Hs64 & ->).
  cbn in Hk, Ht, Hs, Hv, Hp, Hat. pose proof Hb as Hb'. rewrite Hpay in Hb. apply Forall_app in Hb as [Hbk Hb].
  apply Forall_app in Hb as [Hbt Hb]. apply Forall_app in Hb as [Hbs Hb].
  rewrite fromhex_hex in Hk by done. rewrite fromhex_hex in Hs by done. injection Hk as <-. injection Hs as <-.
  assert (ts0 = ts) as -> .
  { apply pack_uint_inv in Ht as [_ ->]. rewrite <- (le_bytes_from_le ts) at 2 by done. f_equal. unfold len in Ht4. lia. }
  exists key, ts, sig, (slice_to app MAX_ADVERT_DATA_SIZE), (slice_from app MAX_ADVERT_DATA_SIZE).
  split_and!; try done.
  - by rewrite slice_to_from.
  - destruct (decide (len app ≤ MAX_ADVERT_DATA_SIZE)) as [Hl|Hl].
    + left. rewrite slice_from_nonneg by done. apply drop_ge. unfold MAX_ADVERT_DATA_SIZE, len in *. lia.
    + right. rewrite len_slice_to; unfold MAX_ADVERT_DATA_SIZE in *; lia.
  - unfold AdvertHandler._verify_advert_signature in Hv. repeat case_match; try done. by subst.
  - by rewrite Hpay, slice_to_app_exact in Hnk.
Qed.

End handler.

(** ** A companion that hears an advert *)

Section companion.
Context `{E : Environment} `{C : BlockCipher} `{K : PacketBuilder.KeyExchange} `{S : SignatureScheme}.

(** What reception of an advert leaves alone. *)
Record undisturbed (s s' : t) : Prop := {
  same_identity : identity s' = identity s;
  same_contacts : contacts s' = contacts s;
  same_path_cache : path_cache s' = path_cache s;
  same_prefs : prefs s' = prefs s;
  same_events : events (session s') = events (session s)
}.

(** There is room for an unknown node [d] tells of. *)
Record welcome (key : bytes) (d : AdvertHandler.advert_data) (s : t) : Prop := {
  unknown : ContactStore.get_by_key key (contacts s) = None;
  not_full : ContactStore.is_full (contacts s) = false;
  added : AdvertIngest.should_auto_add_contact_type (ingest_prefs (prefs s)) (AdvertHandler.contact_type d) = true;
  near : AdvertIngest.too_far (ingest_prefs (prefs s)) (AdvertHandler.inbound_path d) (Some (AdvertHandler.path_len_encoded d)) = false;
  cached : 1 ≤ PathCache._max (path_cache s)
}.

Definition clock_runs : Prop := ∀ n, ∃ z, int_of_float (wall n) = Ok z.

Lemma unix_time_runs s :
  clock_runs → ∃ z s', unix_time s = (s', Ok z) ∧ undisturbed s s' ∧ published (session s') = published (session s).
Proof.
  intros Hc. destruct (Hc (reads (session s))) as [z Hz]. eexists z, _. split.
  - unfold unix_time. erewrite py_bind_run by reflexivity. rewrite Hz. reflexivity.
  - split; [constructor; reflexivity|reflexivity].
Qed.

Lemma store_new key d c s :
  welcome key d s → Models.public_key c = key → len key = 32 → Models.adv_type c = AdvertHandler.contact_type d → Models.name c ≠ [] →
  clock_runs →
  ∃ s', _apply_advert_to_stores c (AdvertHandler.inbound_path d) (Some (AdvertHandler.path_len_encoded d)) s = (s', Ok (Some c))
    ∧ ContactStore.get_by_key key (contacts s') = Some c ∧ events (session s') = events (session s).
Proof.
  intros [Hu Hf Ha Hn Hp] <- Hk Ht Hnm Hc. unfold _apply_advert_to_stores.
  destruct (unix_time_runs s Hc) as (now & s1 & Hr & [_ H2 H3 H4 H5] & _). rewrite (py_bind_run _ _ _ _ _ Hr).
  erewrite py_bind_run by reflexivity. unfold AdvertIngest.apply_advert_to_stores. rewrite H2, H3, H4, Hk.
  change (32 <? 7) with false. rewrite bool_decide_eq_false_2 by done. cbn [orb AdvertIngest.path_cache].
  match goal with |- context [PathCache.update ?a _] => destruct (path_cache_update_ok a (path_cache s) Hp) as (pc & -> & _) end.
  unfold AdvertIngest.apply_contact. cbn [AdvertIngest.contacts AdvertIngest.fired]. rewrite Hu, Ht, Ha, Hn, Hf, andb_false_r. cbn [negb].
  unfold ContactStore.add, dmem. unfold ContactStore.get_by_key in Hu. rewrite Hu. unfold ContactStore.is_full in Hf. rewrite Hf.
  cbn [negb andb]. eexists. split; [reflexivity|]. cbn. rewrite dget_dset. by rewrite decide_True.
Qed.

Lemma heard_new now d c key s :
  heard_contact now d = Ok c → AdvertHandler.public_key d = hex key → bytes_ok key → len key = 32 →
  Models.public_key c = key ∧ Models.name c = AdvertHandler.name d ∧ Models.adv_type c = AdvertHandler.contact_type d
  ∧ (∀ b, b ≠ [] → AdvertHandler.raw_advert_packet d = Some b → Models.last_advert_packet c = Some b)
  ∧ (ContactStore.get_by_key key (contacts s) = None → replayed c s = false).
Proof.
  unfold heard_contact. intros H Hk Hb Hl. rewrite Hk, fromhex_hex in H by done. cbn [mbind res_bind] in H. injection H as <-.
  assert (ljust (slice_to key 32) 32 = key) as Hj.
  { rewrite slice_to_ge by lia. unfold ljust. rewrite Hl. apply app_nil_r. }
  cbn. rewrite Hj. split_and!; try done.
  - intros b Hne ->. by destruct b.
  - unfold replayed. cbn -[ljust slice_to]. by intros ->.
Qed.

(** A node is met: the contact is stored with the packet it came in. *)
Lemma node_discovered key d b s :
  clock_runs → welcome key d s → AdvertHandler.public_key d = hex key → bytes_ok key → len key = 32 →
  AdvertHandler.name d ≠ [] → key ≠ get_public_key s → AdvertHandler.raw_advert_packet d = Some b → b ≠ [] →
  ∃ s' c, _handle_node_discovered d s = (s', Ok tt) ∧ ContactStore.get_by_key key (contacts s') = Some c
    ∧ Models.name c = AdvertHandler.name d ∧ Models.last_advert_packet c = Some b
    ∧ events (session s') = events (session s) ++ [AdvertReceived c; NodeDiscovered c].
Proof.
  intros Hc Hw Hk Hb Hl Hn Hself Hraw Hbne. unfold _handle_node_discovered.
  destruct (unix_time_runs s Hc) as (now & s1 & Hr & Hs & _). rewrite (py_bind_run _ _ _ _ _ Hr).
  destruct (heard_contact now d) as [c|e] eqn:Hh.
  2: { unfold heard_contact in Hh. by rewrite Hk, fromhex_hex in Hh. }
  erewrite py_bind_run by reflexivity. erewrite py_bind_run by reflexivity.
  destruct (heard_new now d c key s1 Hh Hk Hb Hl) as (Hck & Hcn & Hct & Hcr & Hrep). destruct Hs as [H1 H2 H3 H4 H5].
  rewrite Hrep by (rewrite H2; apply Hw). rewrite Hck, Hcn.
  replace (bytes_eqb key (get_public_key s1)) with false.
  2: { symmetry. apply not_true_is_false. rewrite bytes_eqb_true. unfold get_public_key. by rewrite H1. }
  rewrite Hl. change (32 >=? 7) with true. rewrite bool_decide_eq_false_2 by done. cbn [negb orb].
  assert (welcome key d s1) as Hw1 by (destruct Hw; constructor; by rewrite ?H2, ?H3, ?H4).
  destruct (store_new key d c s1 Hw1 Hck Hl Hct ltac:(by rewrite Hcn) Hc) as (s2 & Ha & Hg & He).
  rewrite (py_bind_run _ _ _ _ _ Ha). eexists _, c. split; [reflexivity|]. cbn. split_and!; try done.
  - by apply Hcr.
  - rewrite He, H5. by rewrite <- app_assoc.
Qed.

Lemma call_marked self_key now now' c k u p :
  AdvertHandler.call self_key now now' (Packet.with_recv_region c k u p) = AdvertHandler.call self_key now now' p.
Proof. by destruct p. Qed.

Lemma advert_published {V} (lpp : bytes → res (list (Z * Z * V))) p d now now' s :
  Packet.get_payload_type p = PAYLOAD_TYPE_ADVERT →
  int_of_float (wall (reads (session s))) = Ok now → int_of_float (wall (Datatypes.S (reads (session s)))) = Ok now' →
  AdvertHandler.call (PacketBuilder.get_public_key (handler_identity s)) now now' p = Some d →
  ∃ s', process_received_packet lpp p s = (s', Ok false) ∧ undisturbed s s'
    ∧ published (session s') = published (session s) ++ [NodeHeard d].
Proof.
  intros Ht Hn Hn' Hc. destruct (process_runs lpp p s) as (p' & _ & _ & (c & k & u & ->) & Hp). rewrite Hp, Ht.
  unfold handle_type. change (PAYLOAD_TYPE_ADVERT =? PAYLOAD_TYPE_ACK) with false.
  change (PAYLOAD_TYPE_ADVERT =? PAYLOAD_TYPE_TXT_MSG) with false. change (PAYLOAD_TYPE_ADVERT =? PAYLOAD_TYPE_ADVERT) with true.
  cbn iota. unfold py_try, advert_handle, unix_time. eexists. split; [|split].
  - erewrite py_bind_run; [reflexivity|]. erewrite py_bind_run.
    2: { erewrite py_bind_run by reflexivity. cbn [counted]. change (reads (session (counted p s))) with (reads (session s)). rewrite Hn. reflexivity. }
    erewrite py_bind_run.
    2: { erewrite py_bind_run by reflexivity. change (reads (session _)) with (Datatypes.S (reads (session s))). rewrite Hn'. reflexivity. }
    erewrite py_bind_run by reflexivity. rewrite call_marked.
    change (handler_identity _) with (handler_identity s). rewrite Hc. reflexivity.
  - constructor; reflexivity.
  - reflexivity.
Qed.

(** The packet kept with a contact is sent again, to the neighbours only. *)
Lemma contact_shared q key c s :
  wire_wf q → Packet.get_payload_type q = PAYLOAD_TYPE_ADVERT → slice_to (Packet.payload q) PUB_KEY_SIZE = key →
  ContactStore.get_by_key key (contacts s) = Some c → Models.last_advert_packet c = Some (frame_of q) →
  share_contact key s = py_try (_send_packet (zero_hop (received q Packet.init)) false None) (mret false) s.
Proof.
  intros Hq Ht Hk Hg Hl. unfold share_contact. erewrite py_bind_run by reflexivity. rewrite Hg, Hl. cbn iota.
  change (frame_of q) with (Packet.header q :: frame_codes q ++ [Packet.path_len q] ++ Packet.path q ++ Packet.payload q) at 1.
  cbn iota. change (Packet.header q :: frame_codes q ++ [Packet.path_len q] ++ Packet.path q ++ Packet.payload q) with (frame_of q).
  rewrite read_from_frame by done. unfold py_try. erewrite (py_bind_run (lift _)) by reflexivity. cbn [negb].
  change (Packet.get_payload_type (received q Packet.init)) with (Packet.get_payload_type q). rewrite Ht.
  change (negb (_ =? _)) with false. cbn iota. change (Packet.payload (received q Packet.init)) with (Packet.payload q).
  rewrite Hk, bytes_eqb_refl, andb_false_r. done.
Qed.

(** The header that is sent again is a direct route's, of the same type and version. *)
Definition direct_header (h : Z) : Z := Z.lor (Z.land h (Z.lnot PH_ROUTE_MASK)) ROUTE_TYPE_DIRECT.

Lemma direct_header_ok h :
  is_byte h →
  is_byte (direct_header h) ∧ Z.land (direct_header h) PH_ROUTE_MASK = ROUTE_TYPE_DIRECT
  ∧ Z.shiftr (direct_header h) PH_TYPE_SHIFT = Z.shiftr h PH_TYPE_SHIFT
  ∧ Z.shiftr (direct_header h) PH_VER_SHIFT = Z.shiftr h PH_VER_SHIFT.
Proof.
  intros Hh. byte_cases h Hh (fun h => let d := direct_header h in (0 <=? d) && (d <? 256) && (Z.land d PH_ROUTE_MASK =? ROUTE_TYPE_DIRECT)
    && (Z.shiftr d PH_TYPE_SHIFT =? Z.shiftr h PH_TYPE_SHIFT) && (Z.shiftr d PH_VER_SHIFT =? Z.shiftr h PH_VER_SHIFT)).
  cbv zeta beta in Hb. unfold is_byte. bool_hyps. split_and!; lia.
Qed.

Lemma zero_hop_header q : Packet.header (zero_hop q) = direct_header (Packet.header q).
Proof. by destruct q. Qed.

Lemma zero_hop_wf q : wire_wf q → wire_wf (zero_hop (received q Packet.init)).
Proof.
  intros [Hh Hv Hc Hl Hlv Hp Hpb Hn Hm Hb]. destruct (direct_header_ok _ Hh) as (H1 & H2 & H3 & H4).
  assert (Packet.has_transport_codes (zero_hop (received q Packet.init)) = false) as Hcodes.
  { unfold Packet.has_transport_codes, Packet.get_route_type. rewrite zero_hop_header.
    change (Packet.header (received q _)) with (Packet.header q). by rewrite H2. }
  constructor; rewrite ?Hcodes; try done.
  - unfold Packet.get_payload_ver in *. rewrite zero_hop_header.
    change (Packet.header (received q _)) with (Packet.header q). by rewrite H4.
  - by constructor.
  - change (len (Packet.payload q) ≤ MAX_PACKET_PAYLOAD). lia.
Qed.

(** C10: an advert travels from node to node. A well-formed advert that is
    received is published and, when the node is unknown, wanted, near and there
    is room for it, stored with its packet, and both events fire. Sharing that
    contact hands to the transport one packet: direct, with an empty path and
    the same payload. It is well formed, so its frame is read back, and every
    node that handles it finds what the first one found. *)
Theorem advert_passed_on {V} (lpp : bytes → res (list (Z * Z * V))) q key now now' d s :
  clock_runs → wire_wf q → Packet.get_payload_type q = PAYLOAD_TYPE_ADVERT →
  int_of_float (wall (reads (session s))) = Ok now → int_of_float (wall (Datatypes.S (reads (session s)))) = Ok now' →
  AdvertHandler.call (get_public_key s) now now' q = Some d →
  get_public_key s ≠ [] → PacketBuilder.get_public_key (handler_identity s) = get_public_key s →
  published (session s) = [] → key = slice_to (Packet.payload q) PUB_KEY_SIZE → welcome key d s →
  ∃ s1 s2 c z, process_received_packet lpp q s = (s1, Ok false) ∧ run_published s1 = (s2, Ok tt)
    ∧ ContactStore.get_by_key key (contacts s2) = Some c ∧ Models.name c = AdvertHandler.name d
    ∧ events (session s2) = events (session s) ++ [AdvertReceived c; NodeDiscovered c]
    ∧ share_contact key s2 = py_try (_send_packet z false None) (mret false) s2
    ∧ Packet.is_route_direct z = true ∧ Packet.path z = [] ∧ Packet.payload z = Packet.payload q
    ∧ Packet.write_to z = Ok (frame_of z)
    ∧ ∀ p0 self_key t t', ∃ p, Packet.read_from (frame_of z) p0 = (p, Ok true)
        ∧ content <$> AdvertHandler.call self_key t t' p = content <$> AdvertHandler.call self_key t t' q.
Proof.
  intros Hc Hq Ht Hn Hn' Hcall Hne Hid Hpub -> Hw.
  assert (Packet.get_payload q = Packet.payload q) as Hpay.
  { unfold Packet.get_payload. by rewrite (wf_payload_len _ Hq), slice_to_all. }
  destruct (advert_facts _ _ _ _ _ (eq_ind_r bytes_ok (wf_payload_bytes _ Hq) Hpay) Hne Hcall) as (Hk & Hlk & Hpk & Hnself & Hnm & Hraw).
  rewrite Hpay in Hk, Hlk, Hpk, Hnself. rewrite write_to_frame in Hraw by done.
  rewrite <- Hid in Hcall. destruct (advert_published lpp q d now now' s Ht Hn Hn' Hcall) as (s1 & Hr & [H1 H2 H3 H4 H5] & Hp).
  rewrite Hpub in Hp.
  set (s1' := on_session (with_published []) s1).
  assert (welcome (slice_to (Packet.payload q) PUB_KEY_SIZE) d s1') as Hw1.
  { destruct Hw. constructor; change (contacts s1') with (contacts s1); change (path_cache s1') with (path_cache s1);
      change (prefs s1') with (prefs s1); by rewrite ?H2, ?H3, ?H4. }
  destruct (node_discovered _ d (frame_of q) s1' Hc Hw1 Hpk Hk Hlk Hnm) as (s2 & c & Hd & Hg & Hcn & Hcl & He); try done.
  { unfold get_public_key. change (identity s1') with (identity s1). by rewrite H1. }
  exists s1, s2, c, (zero_hop (received q Packet.init)). pose proof (zero_hop_wf q Hq) as Hz.
  split; [exact Hr|]. split.
  { unfold run_published. erewrite py_bind_run by reflexivity. rewrite Hp. cbn [app]. erewrite py_bind_run by reflexivity.
    unfold _handle_mesh_event, py_try. fold s1'. by rewrite Hd. }
  split; [exact Hg|]. split; [exact Hcn|]. split; [rewrite He; change (events (session s1')) with (events (session s1)); by rewrite H5|].
  split; [by apply (contact_shared q _ c)|].
  split; [|split; [done|split; [done|split; [by apply write_to_frame|]]]].
  { unfold Packet.is_route_direct, Packet.get_route_type. rewrite zero_hop_header. change (Packet.header (received q _)) with (Packet.header q).
    destruct (direct_header_ok _ (wf_header _ Hq)) as (_ & -> & _). done. }
  intros p0 k t t'. eexists. split; [by apply read_from_frame|]. apply call_content. rewrite Hpay. unfold Packet.get_payload.
  apply slice_to_all.
Qed.

End companion.

(** ** Witnesses *)

#[local] Existing Instances xor_cipher xor_exchange calm.

(** A scheme whose signatures depend on the key and the message. *)
Definition digest (key m : bytes) : bytes := sha256 (key ++ m) ++ sha256 (m ++ key).
#[local] Instance digests : SignatureScheme := {| verify key m sig := Ok (bytes_eqb sig (digest key m)) |}.

Definition carol_key : bytes := 51 :: replicate 31 3.
Definition carol : PacketBuilder.LocalIdentity := PacketBuilder.mkIdentity carol_key carol_key (digest carol_key).

(** Carol's flood advert, heard through one node. *)
Definition carol_advert : Packet.t :=
  match PacketBuilder.create_flood_advert 1699999999 carol [67; 97; 121] f_zero f_zero 0 0 1 with
  | Ok p => Packet.with_path [9] (Packet.with_path_len 1 p)
  | Err _ => Packet.init
  end.

Definition carol_data : AdvertHandler.advert_data :=
  AdvertHandler.mkAdvertData (hex carol_key) [67; 97; 121] 1 129 f_zero f_zero 1699999999 1700000000 f_zero 0 [9] 1
    (Some (frame_of carol_advert)).

Lemma carol_heard : AdvertHandler.call bob_key 1700000000 1700000000 carol_advert = Some carol_data.
Proof. vm_compute. reflexivity. Qed.

Lemma carol_advert_wf : wire_wf carol_advert.
Proof. constructor; decide_now. Qed.

Lemma adverts_are_signed_witness :
  ∃ key ts sig app rest, Packet.get_payload carol_advert = key ++ ts ++ sig ++ app ++ rest
    ∧ verify key (key ++ ts ++ app) sig = Ok true ∧ hex key = hex carol_key.
Proof.
  destruct (adverts_are_signed bob_key 1700000000 1700000000 carol_advert carol_data)
    as (key & ts & sig & app & rest & H1 & _ & _ & _ & _ & H2 & H3 & _).
  - exact (bytes_ok_slice_to _ _ (wf_payload_bytes _ carol_advert_wf)).
  - discriminate.
  - exact carol_heard.
  - exists key, ts, sig, app, rest. split; [exact H1|]. split; [exact H2|]. rewrite <- H3. reflexivity.
Defined.

Lemma advert_passed_on_witness :
  ∃ s1 s2 c z, process_received_packet no_lpp carol_advert (idle bob []) = (s1, Ok false) ∧ run_published s1 = (s2, Ok tt)
    ∧ ContactStore.get_by_key carol_key (contacts s2) = Some c ∧ Models.name c = [67; 97; 121]
    ∧ share_contact carol_key s2 = py_try (_send_packet z false None) (mret false) s2
    ∧ Packet.payload z = Packet.payload carol_advert.
Proof.
  destruct (advert_passed_on no_lpp carol_advert carol_key 1700000000 1700000000 carol_data (idle bob []))
    as (s1 & s2 & c & z & H1 & H2 & H3 & H4 & _ & H5 & _ & _ & H6 & _).
  - intros n. eexists. reflexivity.
  - exact carol_advert_wf.
  - vm_compute. reflexivity.
  - reflexivity.
  - reflexivity.
  - exact carol_heard.
  - discriminate.
  - reflexivity.
  - reflexivity.
  - vm_compute. reflexivity.
  - constructor; [reflexivity|reflexivity|vm_compute; reflexivity|vm_compute; reflexivity|vm_compute; discriminate].
  - exists s1, s2, c, z. split; [exact H1|]. split; [exact H2|]. split; [exact H3|]. split; [rewrite H4; reflexivity|]. split; [exact H5|exact H6].
Defined.
