(* ===== verification/RfFabric.v ===== *)
(** * Several radios as one ([rf_fabric/])

    [RFFabric] keeps radios under ids, binds a callback to each while it is armed,
    stamps what they receive with their id, and chooses the one that transmits;
    [FabricRadio] shows a fabric to the dispatcher as a single radio. Radios are
    objects, numbered; what they do is the class [RadioObjects]. The log records
    the calls. *)

From stdpp Require Import gmap.
From S2P Require Import Prelude PyData Utf8 PyFloat ODict.

Module RfFabric.

(** [RadioReception] *)
Record RadioReception : Type := mkReception { data : bytes; rssi : option Z; snr : option float; radio_id : option pystr }.

(** [RFIngress], never empty. *)
Definition RFIngress : Type := list RadioReception.

Definition make_ingress (receptions : list RadioReception) : res RFIngress :=
  if len receptions <? 1 then Err (ValueError "RFIngress requires at least one RadioReception") else Ok receptions.

Definition from_reception (r : RadioReception) : res RFIngress := make_ingress [r].

(** The arguments a receive callback is called with. *)
Inductive arguments : Type :=
| Metrics (data : bytes) (rssi : option Z) (snr : option float)
| Plain (data : bytes).

Definition packet (a : arguments) : bytes := match a with Metrics data _ _ | Plain data => data end.

(** A metadata dictionary: [{"ok": True}], or another. *)
Inductive tx_info : Type :=
| JustOk
| Info (n : nat).

(** What a send returns: metadata with the radio id, if it has one, a flag, or
    anything else. *)
Inductive tx_result : Type :=
| TxDict (info : tx_info) (id : option pystr)
| TxTrue
| TxFalse
| TxNone
| TxOther (info : nat).

Inductive call : Type :=
| Ingress (cb : nat) (receptions : RFIngress)
| Called (cb : nat) (a : arguments)
| Transmitted (radio : nat) (data : bytes).

(** The legacy callback of the fabric: a function, or the adapter. *)
Inductive legacy : Type :=
| Function (cb : nat)
| Adapter.

(** [bound]: the id in the handler a radio holds. [rx_callback] is the one of the
    adapter. *)
Record t : Type := mkFabric {
  _radios : list (pystr * nat);
  _default_radio_id : option pystr;
  _ingress_callback : option nat;
  _legacy_rx_callback : option legacy;
  _tx_selector : option (bytes → res (option pystr));
  _armed : bool;
  _last_rssi : Z;
  _last_snr : float;
  _last_rx_radio_id : option pystr;
  rx_callback : option nat;
  bound : gmap nat pystr;
  log : list call;
  reads : nat
}.

Definition with_radios (radios : list (pystr * nat)) (default : option pystr) (s : t) : t :=
  mkFabric radios default (_ingress_callback s) (_legacy_rx_callback s) (_tx_selector s) (_armed s) (_last_rssi s) (_last_snr s) (_last_rx_radio_id s) (rx_callback s) (bound s) (log s) (reads s).
Definition with_ingress (cb : option nat) (s : t) : t :=
  mkFabric (_radios s) (_default_radio_id s) cb (_legacy_rx_callback s) (_tx_selector s) (_armed s) (_last_rssi s) (_last_snr s) (_last_rx_radio_id s) (rx_callback s) (bound s) (log s) (reads s).
Definition with_legacy (cb : option legacy) (s : t) : t :=
  mkFabric (_radios s) (_default_radio_id s) (_ingress_callback s) cb (_tx_selector s) (_armed s) (_last_rssi s) (_last_snr s) (_last_rx_radio_id s) (rx_callback s) (bound s) (log s) (reads s).
Definition with_selector (f : option (bytes → res (option pystr))) (s : t) : t :=
  mkFabric (_radios s) (_default_radio_id s) (_ingress_callback s) (_legacy_rx_callback s) f (_armed s) (_last_rssi s) (_last_snr s) (_last_rx_radio_id s) (rx_callback s) (bound s) (log s) (reads s).
Definition with_armed (b : bool) (s : t) : t :=
  mkFabric (_radios s) (_default_radio_id s) (_ingress_callback s) (_legacy_rx_callback s) (_tx_selector s) b (_last_rssi s) (_last_snr s) (_last_rx_radio_id s) (rx_callback s) (bound s) (log s) (reads s).
Definition with_last (rssi : Z) (snr : float) (id : option pystr) (s : t) : t :=
  mkFabric (_radios s) (_default_radio_id s) (_ingress_callback s) (_legacy_rx_callback s) (_tx_selector s) (_armed s) rssi snr id (rx_callback s) (bound s) (log s) (reads s).
Definition with_rx_callback (cb : option nat) (s : t) : t :=
  mkFabric (_radios s) (_default_radio_id s) (_ingress_callback s) (_legacy_rx_callback s) (_tx_selector s) (_armed s) (_last_rssi s) (_last_snr s) (_last_rx_radio_id s) cb (bound s) (log s) (reads s).
Definition with_bound (m : gmap nat pystr) (s : t) : t :=
  mkFabric (_radios s) (_default_radio_id s) (_ingress_callback s) (_legacy_rx_callback s) (_tx_selector s) (_armed s) (_last_rssi s) (_last_snr s) (_last_rx_radio_id s) (rx_callback s) m (log s) (reads s).
Definition with_log (l : list call) (s : t) : t :=
  mkFabric (_radios s) (_default_radio_id s) (_ingress_callback s) (_legacy_rx_callback s) (_tx_selector s) (_armed s) (_last_rssi s) (_last_snr s) (_last_rx_radio_id s) (rx_callback s) (bound s) l (reads s).
Definition with_reads (n : nat) (s : t) : t :=
  mkFabric (_radios s) (_default_radio_id s) (_ingress_callback s) (_legacy_rx_callback s) (_tx_selector s) (_armed s) (_last_rssi s) (_last_snr s) (_last_rx_radio_id s) (rx_callback s) (bound s) (log s) n.

Definition note (c : call) (s : t) : t := with_log (log s ++ [c]) s.

(** [RFFabric.__init__] *)
Definition new_fabric : t := mkFabric [] None None None None false 0 f_zero None None ∅ [] 0.

(** What the radios and the callbacks do: which methods a radio has, and what a
    method or a callback returns, by radio and reading. A method that a radio
    does not have is [None]. *)
Class RadioObjects := {
  set_rx_callback : nat → option (bool → res unit);
  radio_rssi : nat → option (nat → res Z);
  radio_snr : nat → option (nat → res float);
  radio_send : nat → option (bytes → nat → res tx_result);
  radio_begin : nat → option (nat → res (option bool));
  callback : nat → arguments → nat → res unit;
  ingress : nat → RFIngress → nat → res unit
}.

Section fabric.
Context `{O : RadioObjects}.

Definition reading {A} (f : nat → A) : py t A :=
  s ← get;
  modify (with_reads (S (reads s)));;
  mret (f (reads s)).

(** ** The registry *)

Definition default_radio_id (s : t) : option pystr :=
  let first := match _radios s with [] => None | (rid, _) :: _ => Some rid end in
  match _default_radio_id s with
  | Some rid => if negb (bool_decide (rid = [])) && dmem rid (_radios s) then Some rid else first
  | None => first
  end.

(** [radio] *)
Definition default_radio (s : t) : option nat :=
  match default_radio_id s with Some rid => dget rid (_radios s) | None => None end.

Definition get_radio (rid : pystr) (s : t) : res nat :=
  match dget rid (_radios s) with Some r => Ok r | None => Err KeyError end.

(** [radio.set_rx_callback(self._make_rx_handler(radio_id))] *)
Definition _bind_one (rid : pystr) (radio : nat) : py t unit :=
  match set_rx_callback radio with
  | None => mret tt
  | Some set =>
      lift (set true);;
      modify (fun s => with_bound (<[radio := rid]> (bound s)) s)
  end.

(** An error of the radio is caught. *)
Definition _unbind_one (radio : nat) (s : t) : t :=
  match set_rx_callback radio with
  | None => s
  | Some set => match set false with Ok _ => with_bound (delete radio (bound s)) s | Err _ => s end
  end.

Definition register_radio (radio : nat) (rid : pystr) : py t unit :=
  s ← get;
  lift (raise_if (bool_decide (rid = [])) (ValueError "radio_id must be a non-empty string"));;
  lift (raise_if (dmem rid (_radios s)) (OtherError "radio_id is already registered"));;
  lift (raise_if (bool_decide (radio ∈ dvalues (_radios s))) (OtherError "Radio object already registered"));;
  modify (with_radios (dset rid radio (_radios s)) (match _default_radio_id s with None => Some rid | d => d end));;
  if _armed s then _bind_one rid radio else mret tt.

Definition unregister_radio (rid : option pystr) (s : t) : t :=
  match rid with
  | None => with_radios [] None (fold_left (fun s r => _unbind_one r s) (dvalues (_radios s)) s)
  | Some rid =>
      match dget rid (_radios s) with
      | None => s
      | Some radio =>
          let radios := ddel rid (_radios s) in
          let default := if bool_decide (_default_radio_id s = Some rid)
                         then match radios with [] => None | (first, _) :: _ => Some first end
                         else _default_radio_id s in
          with_radios radios default (_unbind_one radio s)
      end
  end.

Definition set_default_radio (rid : pystr) : py t unit :=
  s ← get;
  lift (raise_if (negb (dmem rid (_radios s))) KeyError);;
  modify (with_radios (_radios s) (Some rid)).

Definition set_tx_selector (f : option (bytes → res (option pystr))) (s : t) : t := with_selector f s.
Definition set_ingress_callback (cb : option nat) (s : t) : t := with_ingress cb s.
Definition set_legacy_rx_callback (cb : option legacy) (s : t) : t := with_legacy cb s.

(** ** Arming *)

Fixpoint bind_all (radios : list (pystr * nat)) : py t unit :=
  match radios with
  | [] => mret tt
  | (rid, radio) :: radios => _bind_one rid radio;; bind_all radios
  end.

Definition arm : py t unit :=
  modify (with_armed true);;
  s ← get;
  bind_all (_radios s).

Definition disarm (s : t) : t := fold_left (fun s r => _unbind_one r s) (dvalues (_radios s)) (with_armed false s).

(** ** Receiving *)

Definition invoke (cb : nat) (a : arguments) : py t unit :=
  modify (note (Called cb a));;
  r ← reading (callback cb a);
  lift r.

(** [try: m except TypeError: h] *)
Definition try_type {S A} (m h : py S A) : py S A := fun s =>
  match m s with (s', Err TypeError) => h s' | r => r end.

(** [FabricRadio._on_fabric_rx] *)
Definition _on_fabric_rx (a : arguments) : py t unit :=
  s ← get;
  match rx_callback s with
  | None => mret tt
  | Some cb =>
      let full := match a with Plain data => Metrics data None None | _ => a end in
      try_type (invoke cb full) (invoke cb (Plain (packet a)))
  end.

Definition call_legacy (l : legacy) (a : arguments) : py t unit :=
  match l with Function cb => invoke cb a | Adapter => _on_fabric_rx a end.

(** What a metric becomes: the value of the callback, or what the radio says. *)
Definition latest {A} (given : option A) (method : nat → option (nat → res A)) (rid : pystr) (old : A) : py t A :=
  s ← get;
  match given with
  | Some x => mret x
  | None =>
      match dget rid (_radios s) with
      | Some radio =>
          match method radio with
          | Some f => r ← reading f; mret (match r with Ok x => x | Err _ => old end)
          | None => mret old
          end
      | None => mret old
      end
  end.

Definition _on_radio_rx (rid : pystr) (data : bytes) (rssi : option Z) (snr : option float) : py t unit :=
  let reception := mkReception data rssi snr (Some rid) in
  event ← lift (from_reception reception);
  s ← get;
  last_rssi ← latest rssi radio_rssi rid (_last_rssi s);
  modify (fun s => with_last last_rssi (_last_snr s) (_last_rx_radio_id s) s);;
  last_snr ← latest snr radio_snr rid (_last_snr s);
  modify (with_last last_rssi last_snr (Some rid));;
  s ← get;
  (match _ingress_callback s with
   | Some cb =>
       modify (note (Ingress cb event));;
       py_try (r ← reading (ingress cb event); lift r) (mret tt)
   | None => mret tt
   end : py t unit);;
  s ← get;
  match _legacy_rx_callback s with
  | Some l => py_try (try_type (call_legacy l (Metrics data rssi snr)) (call_legacy l (Plain data))) (mret tt)
  | None => mret tt
  end.

(** A radio calls the callback it holds. *)
Definition radio_receives (radio : nat) (data : bytes) (rssi : option Z) (snr : option float) : py t unit :=
  s ← get;
  match bound s !! radio with
  | Some rid => _on_radio_rx rid data rssi snr
  | None => mret tt
  end.

(** ** Sending *)

Definition resolve_tx_radio_id (data : bytes) (rid : option pystr) (s : t) : res pystr :=
  match rid with
  | Some rid => if dmem rid (_radios s) then Ok rid else Err KeyError
  | None =>
      selected ← (match _tx_selector s with Some select => select data | None => Ok None end);
      match selected with
      | Some rid => if dmem rid (_radios s) then Ok rid else Err KeyError
      | None =>
          match default_radio_id s with
          | Some rid => Ok rid
          | None => Err (OtherError "RFFabric has no registered radio")
          end
      end
  end.

(** The id of the radio in the result. *)
Definition stamp (rid : pystr) (r : tx_result) : tx_result :=
  match r with
  | TxDict info None => TxDict info (Some rid)
  | TxTrue => TxDict JustOk (Some rid)
  | r => r
  end.

Definition send (data : bytes) (rid : option pystr) : py t tx_result :=
  s ← get;
  rid ← lift (resolve_tx_radio_id data rid s);
  radio ← lift (get_radio rid s);
  match radio_send radio with
  | None => raise (OtherError "Radio does not support send()")
  | Some f =>
      modify (note (Transmitted radio data));;
      r ← reading (f data);
      r ← lift r;
      mret (stamp rid r)
  end.

(** ** Metrics of the last packet *)

(** The radio of the last reception, the default radio, the last known value. *)
Definition last_metric {A} (method : nat → option (nat → res A)) (known : t → A) : py t A :=
  s ← get;
  let ask radio (or : py t A) :=
    match radio with
    | Some radio =>
        match method radio with
        | Some f => r ← reading f; (match r with Ok x => mret x | Err _ => or end : py t A)
        | None => or
        end
    | None => or
    end in
  ask (match _last_rx_radio_id s with Some rid => dget rid (_radios s) | None => None end)
    (ask (default_radio s) (mret (known s))).

Definition get_last_rssi : py t Z := last_metric radio_rssi _last_rssi.
Definition get_last_snr : py t float := last_metric radio_snr _last_snr.

(** ** The adapter *)

(** A radio with or without an id. *)
Definition _normalize_spec (spec : nat * option pystr) (fallback_id : pystr) : nat * pystr := (spec.1, default fallback_id spec.2).

(** The radios given to [FabricRadio.__init__]: those of the fabric are skipped. *)
Fixpoint register_specs (fallback_id : pystr) (specs : list (nat * option pystr)) : py t unit :=
  match specs with
  | [] => mret tt
  | spec :: specs =>
      let '(radio, rid) := _normalize_spec spec fallback_id in
      s ← get;
      (if bool_decide (radio ∈ dvalues (_radios s)) then mret tt
       else
         lift (raise_if (dmem rid (_radios s)) (ValueError "Fabric already has a different radio registered"));;
         register_radio radio rid);;
      register_specs fallback_id specs
  end.

(** [FabricRadio.__init__] on a fabric *)
Definition new_adapter (radio : option nat) (rid : pystr) (radios : list (nat * option pystr)) (default_radio_id : option pystr) : py t unit :=
  modify (with_rx_callback None);;
  register_specs rid (match radio with Some r => (r, Some rid) :: radios | None => radios end);;
  match default_radio_id with Some rid => set_default_radio rid | None => mret tt end;;
  modify (set_legacy_rx_callback (Some Adapter));;
  arm.

(** [FabricRadio.begin] *)
Fixpoint begin_all (radios : list nat) : py t (list (option bool)) :=
  match radios with
  | [] => mret []
  | radio :: radios =>
      r ← (match radio_begin radio with
           | Some f => r ← reading f; r ← lift r; mret [r]
           | None => mret []
           end : py t (list (option bool)));
      l ← begin_all radios;
      mret (r ++ l)
  end.

Definition begin : py t bool :=
  s ← get;
  results ← begin_all (dvalues (_radios s));
  mret (forallb (fun r => match r with None => true | Some b => b end) results).

End fabric.

End RfFabric.

Import RfFabric.

(** ** The registry and the bindings *)

Section fabric.
Context `{O : RadioObjects}.

(** Ids are distinct and not empty, an object has one id, the default is
    registered. *)
Definition registry_ok (s : t) : Prop :=
  keys_unique (_radios s) ∧ NoDup (dvalues (_radios s)) ∧ ([] ∉ dkeys (_radios s))
  ∧ match _default_radio_id s with Some rid => rid ∈ dkeys (_radios s) | None => _radios s = [] end.

(** A radio holds a handler of the fabric exactly while the fabric is armed and
    has the radio, and the handler has its id. *)
Definition bindings_ok (s : t) : Prop :=
  ∀ radio rid, bound s !! radio = Some rid ↔ _armed s = true ∧ (rid, radio) ∈ _radios s ∧ set_rx_callback radio ≠ None.

Definition coherent (s : t) : Prop := registry_ok s ∧ bindings_ok s.

(** The same registry, bindings and arming. *)
Definition same_radios (s s' : t) : Prop :=
  _radios s' = _radios s ∧ _default_radio_id s' = _default_radio_id s ∧ _armed s' = _armed s ∧ bound s' = bound s.

#[local] Instance same_radios_preorder : PreOrder same_radios.
Proof. split; unfold same_radios; [done|]. intros s1 s2 s3 (? & ? & ? & ?) (? & ? & ? & ?). split_and!; congruence. Qed.

Lemma same_radios_coherent s s' : same_radios s s' → coherent s → coherent s'.
Proof. intros (H1 & H2 & H3 & H4). unfold coherent, registry_ok, bindings_ok. by rewrite H1, H2, H3, H4. Qed.

Lemma fabric_keeps_reading {A} (f : nat → A) : keeps same_radios (reading f).
Proof. intros s. done. Qed.

Ltac quiet := first [apply fabric_keeps_reading|intros s; done].

Lemma keeps_invoke cb a : keeps same_radios (invoke cb a).
Proof. unfold invoke. keeps; quiet. Qed.

Lemma keeps_try_type {A} (m h : py t A) : keeps same_radios m → keeps same_radios h → keeps same_radios (try_type m h).
Proof.
  intros Hm Hh s. unfold try_type. specialize (Hm s). destruct (m s) as [s1 [a|e]]; [done|]. destruct e; try done.
  etransitivity; [exact Hm|apply Hh].
Qed.

Lemma keeps_legacy l a : keeps same_radios (call_legacy l a).
Proof.
  destruct l; cbn [call_legacy]; [apply keeps_invoke|]. unfold _on_fabric_rx. keeps. apply keeps_try_type; apply keeps_invoke.
Qed.

Lemma keeps_latest {A} given (method : nat → option (nat → res A)) rid old : keeps same_radios (latest given method rid old).
Proof. unfold latest. keeps; quiet. Qed.

Lemma keeps_rx rid data rssi snr : keeps same_radios (_on_radio_rx rid data rssi snr).
Proof.
  unfold _on_radio_rx. keeps; try first [apply keeps_latest|quiet].
  - apply keeps_try; [apply _| |]; keeps; quiet.
  - apply keeps_try; [apply _| |]; keeps. apply keeps_try_type; apply keeps_legacy.
Qed.

Lemma fabric_keeps_send data rid : keeps same_radios (send data rid).
Proof. unfold send. keeps; quiet. Qed.

(** The radios raise nothing when their callback is set. *)
Context (Hset : ∀ radio set b, set_rx_callback radio = Some set → set b = Ok tt).

Lemma bind_one_run rid radio s :
  _bind_one rid radio s = (match set_rx_callback radio with Some _ => with_bound (<[radio := rid]> (bound s)) s | None => s end, Ok tt).
Proof. unfold _bind_one. destruct (set_rx_callback radio) as [set|] eqn:E; [|done]. by rewrite (Hset radio set true E). Qed.

Lemma unbind_one_eq radio s :
  _unbind_one radio s = match set_rx_callback radio with Some _ => with_bound (delete radio (bound s)) s | None => s end.
Proof. unfold _unbind_one. destruct (set_rx_callback radio) as [set|] eqn:E; [|done]. by rewrite (Hset radio set false E). Qed.

Lemma register_coherent radio rid s : coherent s → coherent (register_radio radio rid s).1.
Proof.
  intros Hs. pose proof Hs as [(Hu & Hv & He & Hd) Hb]. unfold register_radio. rewrite py_bind_run with (s' := s) (a := s) by done.
  destruct (decide (rid = [])) as [->|Hrid]; [exact Hs|]. rewrite (bool_decide_eq_false_2 _ Hrid). rewrite py_bind_run with (s' := s) (a := tt) by done.
  destruct (dmem rid (_radios s)) eqn:Hm; [exact Hs|]. rewrite py_bind_run with (s' := s) (a := tt) by done.
  destruct (decide (radio ∈ dvalues (_radios s))) as [Hr|Hr]; [by rewrite bool_decide_eq_true_2|]. rewrite (bool_decide_eq_false_2 _ Hr). rewrite py_bind_run with (s' := s) (a := tt) by done.
  assert (rid ∉ dkeys (_radios s)) as Hn by (intros Hin; apply dmem_true in Hin; congruence).
  rewrite dset_fresh by done. set (s1 := with_radios (_radios s ++ [(rid, radio)]) (match _default_radio_id s with None => Some rid | d => d end) s).
  rewrite py_bind_run with (s' := s1) (a := tt) by done.
  assert (∀ s2, _radios s2 = _radios s1 → _default_radio_id s2 = _default_radio_id s1 → registry_ok s2) as Hreg.
  { intros s2 Hq1 Hq2. unfold registry_ok, keys_unique, dkeys, dvalues in *. rewrite Hq1, Hq2. unfold s1. cbn. rewrite !fmap_app. cbn. split_and!.
    - apply NoDup_app. split_and!; [done|intros x Hx ->%list_elem_of_singleton; done|apply list.NoDup_singleton].
    - apply NoDup_app. split_and!; [done|intros x Hx ->%list_elem_of_singleton; done|apply list.NoDup_singleton].
    - rewrite elem_of_app, list_elem_of_singleton. by intros [?|?].
    - destruct (_default_radio_id s); apply elem_of_app; [by left|]. right. by apply list_elem_of_singleton. }
  assert (∀ r, bound s !! r = Some rid → False) as Hnb by (intros r (_ & Hin & _)%Hb; by apply elem_keys in Hin).
  assert (bound s !! radio = None) as Hnr.
  { destruct (bound s !! radio) as [x|] eqn:Ex; [|done]. apply Hb in Ex as (_ & Hin & _). exfalso. apply Hr. by apply list_elem_of_fmap_2 with (f := snd) in Hin. }
  change (_armed s1) with (_armed s). destruct (_armed s) eqn:Ha.
  - rewrite bind_one_run. cbn [fst]. destruct (set_rx_callback radio) as [set|] eqn:Es; (split; [by apply Hreg|]); intros r x; unfold s1; cbn.
    + rewrite lookup_insert, elem_of_app, list_elem_of_singleton. case_decide as Hc.
      * subst r. split; [intros [= <-]; split_and!; [done|by right|by rewrite Es]|]. intros (_ & [Hin|[= ->]] & _); [|done].
        exfalso. apply Hr. by apply list_elem_of_fmap_2 with (f := snd) in Hin.
      * rewrite (Hb r x), Ha. split; [intros (? & ? & ?); by split_and!; [|left|]|]. intros (? & [?|[= _ ->]] & ?); [by split_and!|done].
    + rewrite (Hb r x), Ha, elem_of_app, list_elem_of_singleton. split; [intros (? & ? & ?); by split_and!; [|left|]|].
      intros (? & [?|[= -> ->]] & ?); [by split_and!|done].
  - split; [by apply Hreg|]. intros r x. unfold s1. cbn. rewrite (Hb r x), Ha. by split; intros (? & _).
Qed.

Lemma unbind_all rs s :
  let s' := fold_left (λ s r, _unbind_one r s) rs s in
  s' = with_bound (bound s') s
  ∧ ∀ r, bound s' !! r = if decide (r ∈ rs ∧ set_rx_callback r ≠ None) then None else bound s !! r.
Proof.
  revert s. induction rs as [|r0 rs IH]; intros s; cbn [fold_left].
  { split; [by destruct s|]. intros r. rewrite decide_False; [done|]. intros [Hin _]. by apply list.not_elem_of_nil in Hin. }
  destruct (IH (_unbind_one r0 s)) as [H1 H2]. set (s' := fold_left _ rs _) in *.
  assert (_unbind_one r0 s = with_bound (bound (_unbind_one r0 s)) s) as H0 by (rewrite unbind_one_eq; destruct s; by destruct (set_rx_callback r0)).
  split; [rewrite H1, H0; by destruct s|]. intros r. rewrite H2. destruct (decide (r ∈ rs ∧ _)) as [[Hin Hc]|Hn].
  { rewrite decide_True; [done|]. split; [by right|done]. }
  rewrite unbind_one_eq. destruct (decide (r = r0)) as [->|Hne].
  - destruct (set_rx_callback r0) as [set|] eqn:Es.
    + cbn. rewrite lookup_delete_eq. rewrite decide_True; [done|]. split; [by left|done].
    + rewrite decide_False; [done|]. by intros [_ []].
  - rewrite decide_False; [|intros [[?|?]%elem_of_cons ?]; [done|by apply Hn]].
    destruct (set_rx_callback r0); [cbn; by rewrite lookup_delete_ne|done].
Qed.

(** Unbinding every radio leaves no handler. *)
Lemma unbound_all s : bindings_ok s → bound (fold_left (λ s r, _unbind_one r s) (dvalues (_radios s)) s) = ∅.
Proof.
  intros Hb. apply map_eq. intros r. rewrite lookup_empty. destruct (unbind_all (dvalues (_radios s)) s) as [_ ->].
  destruct (decide _) as [|Hn]; [done|]. destruct (bound s !! r) as [x|] eqn:E; [|done]. exfalso. apply Hn.
  apply Hb in E as (_ & Hin & Hc). split; [|done]. by apply list_elem_of_fmap_2 with (f := snd) in Hin.
Qed.

Lemma values_inj (d : list (pystr * nat)) k k' v : NoDup (dvalues d) → (k, v) ∈ d → (k', v) ∈ d → k = k'.
Proof.
  induction d as [|[k0 v0] d IH]; intros Hv H1 H2; [by apply list.not_elem_of_nil in H1|]. apply NoDup_cons in Hv as [Hn Hv].
  assert (∀ k, (k, v0) ∉ d) as Hnot by (intros x Hx; apply Hn; by apply list_elem_of_fmap_2 with (f := snd) in Hx).
  apply elem_of_cons in H1, H2. destruct H1 as [H1|H1], H2 as [H2|H2]; simplify_eq; [done|by apply Hnot in H2|by apply Hnot in H1|by apply IH].
Qed.

Lemma unregister_coherent rid s : coherent s → coherent (unregister_radio rid s).
Proof.
  intros [(Hu & Hv & He & Hd) Hb]. destruct rid as [rid|]; cbn [unregister_radio].
  2: { split.
    - unfold registry_ok, keys_unique, dkeys, dvalues. cbn. split_and!; [apply NoDup_nil_2..|apply list.not_elem_of_nil|done].
    - intros r x. change (bound (with_radios [] None ?f)) with (bound f). rewrite unbound_all by done. rewrite lookup_empty. split; [done|].
      intros (_ & Hin & _). by apply list.not_elem_of_nil in Hin. }
  destruct (dget rid (_radios s)) as [radio|] eqn:Hg; [|split; [by split_and!|exact Hb]].
  pose proof (dget_Some_elem _ _ _ Hg) as Hin. set (radios := ddel rid (_radios s)).
  assert (∀ k v, (k, v) ∈ radios ↔ (k, v) ∈ _radios s ∧ k ≠ rid) as Hr.
  { intros k v. unfold radios. rewrite ddel_filter by done. rewrite list_elem_of_filter. cbn. tauto. }
  assert (sublist radios (_radios s)) as Hsub by apply ddel_sublist.
  assert (∀ x, bound (_unbind_one radio s) !! x = if decide (x = radio) then None else bound s !! x) as Hbound.
  { intros x. rewrite unbind_one_eq. case_decide as Hx.
    - subst x. destruct (set_rx_callback radio) eqn:Es; [cbn; apply lookup_delete_eq|].
      destruct (bound s !! radio) as [y|] eqn:Ey; [|done]. apply Hb in Ey as (_ & _ & ?). done.
    - destruct (set_rx_callback radio); [cbn; by rewrite lookup_delete_ne|done]. }
  assert (_armed (_unbind_one radio s) = _armed s) as Harm by (rewrite unbind_one_eq; by destruct (set_rx_callback radio)).
  split.
  - unfold registry_ok. cbn [_radios _default_radio_id with_radios]. split_and!.
    + by eapply keys_unique_sublist.
    + eapply sublist_NoDup; [exact Hv|]. by apply fmap_sublist.
    + intros H. apply He. eapply list.elem_of_sublist; [exact H|]. by apply fmap_sublist.
    + case_bool_decide as Hdef.
      * destruct radios as [|[first v] d]; [done|]. left.
      * destruct (_default_radio_id s) as [d|] eqn:E; [|by rewrite Hd in Hin; apply list.not_elem_of_nil in Hin].
        apply list_elem_of_fmap in Hd as ([k v] & Heq & Hkv). cbn in Heq. subst d. apply (elem_keys k v). apply Hr. split; [done|]. by intros ->.
  - intros r x. change (bound (with_radios ?a ?b ?f)) with (bound f). change (_armed (with_radios ?a ?b ?f)) with (_armed f).
    change (_radios (with_radios ?a ?b ?f)) with a. rewrite Hbound, Harm. case_decide as Hx.
    + subst r. split; [done|]. intros (_ & [Hx Hne]%Hr & _). exfalso. apply Hne.
      by apply (values_inj (_radios s) x rid radio).
    + rewrite (Hb r x), Hr. split; [intros (? & Hin' & ?); split_and!; [done|done| |done]|by intros (? & [? ?] & ?)].
      intros ->. apply Hx. eapply elem_dget in Hin'; [|done]. congruence.
Qed.

Lemma set_default_coherent rid s : coherent s → coherent (set_default_radio rid s).1.
Proof.
  intros Hs. unfold set_default_radio. rewrite py_bind_run with (s' := s) (a := s) by done.
  destruct (dmem rid (_radios s)) eqn:Hm; [|exact Hs]. destruct Hs as [(Hu & Hv & He & Hd) Hb].
  split; [|exact Hb]. unfold registry_ok. cbn. split_and!; [done..|]. by apply dmem_true.
Qed.

Lemma bind_all_run l s :
  NoDup (dvalues l) →
  ∃ m, bind_all l s = (with_bound m s, Ok tt)
    ∧ ∀ r x, m !! r = Some x ↔ (if decide (r ∈ dvalues l ∧ set_rx_callback r ≠ None) then (x, r) ∈ l else bound s !! r = Some x).
Proof.
  revert s. induction l as [|[rid radio] l IH]; intros s Hv; cbn [bind_all].
  { exists (bound s). split; [by destruct s|]. intros r x. rewrite decide_False; [done|]. intros [Hin _]. by apply list.not_elem_of_nil in Hin. }
  apply NoDup_cons in Hv as [Hn Hv]. rewrite py_bind_run with (1 := bind_one_run rid radio s).
  set (s1 := match set_rx_callback radio with Some _ => _ | None => s end). destruct (IH s1 Hv) as (m & Hm & Hspec). exists m. split.
  { rewrite Hm. unfold s1. by destruct (set_rx_callback radio), s. }
  intros r x. rewrite Hspec. assert (∀ y, (y, radio) ∉ l) as Hnot by (intros y Hy; apply Hn; by apply list_elem_of_fmap_2 with (f := snd) in Hy).
  destruct (decide (r ∈ dvalues l ∧ _)) as [[Hin Hc]|Hc].
  - rewrite decide_True by (by split; [right|]). rewrite elem_of_cons. split; [by right|]. by intros [[= -> ->]|?].
  - destruct (decide (r = radio)) as [->|Hne].
    + unfold s1. destruct (set_rx_callback radio) as [set|] eqn:Es.
      * rewrite decide_True by (by split; [left|]). cbn. rewrite lookup_insert_eq, elem_of_cons. split; [intros [= ->]; by left|]. intros [[= ->]|Hl]; [done|by apply Hnot in Hl].
      * rewrite decide_False by (by intros [_ []]). done.
    + rewrite decide_False by (intros [[?|?]%elem_of_cons ?]; [done|by apply Hc]). unfold s1.
      destruct (set_rx_callback radio); [cbn; by rewrite lookup_insert_ne|done].
Qed.

Lemma arm_coherent s : coherent s → coherent (arm s).1.
Proof.
  intros [Hr Hb]. unfold arm. rewrite py_bind_run with (s' := with_armed true s) (a := tt) by done.
  rewrite py_bind_run with (s' := with_armed true s) (a := with_armed true s) by done. change (_radios (with_armed true s)) with (_radios s).
  destruct (bind_all_run (_radios s) (with_armed true s)) as (m & -> & Hm); [apply Hr|]. split; [exact Hr|]. intros r x. cbn. rewrite Hm. cbn.
  destruct (decide _) as [[Hin Hc]|Hc]; [split; [intros Hx; by split_and!|by intros (_ & ? & _)]|]. rewrite (Hb r x). split; [by intros (_ & ? & ?)|].
  intros (_ & Hin & Hs). exfalso. apply Hc. split; [|done]. by apply list_elem_of_fmap_2 with (f := snd) in Hin.
Qed.

Lemma disarm_coherent s : coherent s → coherent (disarm s).
Proof.
  intros [Hr Hb]. unfold disarm. assert (bound (fold_left (λ s r, _unbind_one r s) (dvalues (_radios s)) (with_armed false s)) = ∅) as Hbd.
  { apply map_eq. intros r. rewrite lookup_empty. destruct (unbind_all (dvalues (_radios s)) (with_armed false s)) as [_ ->].
    destruct (decide _) as [|Hn]; [done|]. destruct (bound (with_armed false s) !! r) as [x|] eqn:E; [|done]. exfalso. apply Hn.
    apply Hb in E as (_ & Hin & Hc). split; [|done]. by apply list_elem_of_fmap_2 with (f := snd) in Hin. }
  destruct (unbind_all (dvalues (_radios s)) (with_armed false s)) as [He _]. rewrite He. split; [exact Hr|].
  intros r x. cbn. change (bound (with_bound ?m _)) with m. rewrite Hbd, lookup_empty. by split; [|intros [? _]].
Qed.

Lemma keeps_register_specs rid specs : keeps (upholds coherent) (register_specs rid specs).
Proof.
  induction specs as [|[radio i] specs IH]; cbn [register_specs]; [keeps|]. cbn. apply keeps_get_bind. intros s Hs.
  refine (keeps_bind (upholds coherent) _ _ _ _ s Hs); [|intros _; exact IH].
  keeps. intros s1 H1. by apply register_coherent.
Qed.

Lemma keeps_new_adapter radio rid radios d : keeps (upholds coherent) (new_adapter radio rid radios d).
Proof.
  unfold new_adapter. keeps; try apply keeps_register_specs; intros s Hs; first [by apply set_default_coherent|by apply arm_coherent|exact Hs].
Qed.

(** ** Runs of a fabric *)

Inductive fabric_step : t → t → Prop :=
| step_register radio rid s : fabric_step s (register_radio radio rid s).1
| step_unregister rid s : fabric_step s (unregister_radio rid s)
| step_default rid s : fabric_step s (set_default_radio rid s).1
| step_selector f s : fabric_step s (set_tx_selector f s)
| step_ingress cb s : fabric_step s (set_ingress_callback cb s)
| step_legacy cb s : fabric_step s (set_legacy_rx_callback cb s)
| step_callback cb s : fabric_step s (with_rx_callback cb s)
| step_arm s : fabric_step s (arm s).1
| step_disarm s : fabric_step s (disarm s)
| step_receive radio b r q s : fabric_step s (radio_receives radio b r q s).1
| step_tx b rid s : fabric_step s (send b rid s).1
| step_adapter radio rid radios d s : fabric_step s (new_adapter radio rid radios d s).1.

Lemma step_coherent s s' : fabric_step s s' → coherent s → coherent s'.
Proof.
  intros H Hs. destruct H; try exact Hs.
  - by apply register_coherent.
  - by apply unregister_coherent.
  - by apply set_default_coherent.
  - by apply arm_coherent.
  - by apply disarm_coherent.
  - eapply same_radios_coherent; [|exact Hs]. unfold radio_receives. revert s Hs.
    assert (keeps same_radios (radio_receives radio b r q)) as Hk by (unfold radio_receives; keeps; apply keeps_rx). intros s _. apply Hk.
  - eapply same_radios_coherent; [apply fabric_keeps_send|exact Hs].
  - by apply keeps_new_adapter.
Qed.

Lemma fabric_reachable s : rtc fabric_step new_fabric s → coherent s.
Proof.
  intros H. assert (coherent new_fabric) as H0.
  { split; [|intros r x; cbn; rewrite lookup_empty; by split; [|intros [? _]]].
    unfold registry_ok, keys_unique, dkeys, dvalues. cbn. split_and!; [apply NoDup_nil_2..|apply list.not_elem_of_nil|done]. }
  revert H0. generalize new_fabric, H. clear H. intros s0 H. induction H as [s|s1 s2 s3 H _ IH]; [done|]. intros H1. by apply IH, (step_coherent s1).
Qed.

(** C29: the registry and the callbacks of a fabric stay coherent. In every state
    it can reach, ids are distinct and not empty, no radio has two ids, the
    default radio is a registered one, and a radio holds a handler of the fabric
    exactly while the fabric is armed and has it, with its own id. (Setting a
    radio's callback does not raise.) *)
Theorem fabric_coherent s :
  rtc fabric_step new_fabric s → coherent s ∧ default_radio_id s = _default_radio_id s.
Proof.
  intros Hs%fabric_reachable.
  split; [done|]. destruct Hs as [(Hu & Hv & He & Hd) _]. unfold default_radio_id. destruct (_default_radio_id s) as [rid|]; [|by rewrite Hd].
  rewrite bool_decide_eq_false_2 by (by intros ->). by rewrite (proj2 (dmem_true rid (_radios s)) Hd).
Qed.

(** ** Receptions and transmissions *)

Lemma latest_run {A} given (method : nat → option (nat → res A)) rid old s :
  ∃ n x, latest given method rid old s = (with_reads n s, Ok x).
Proof.
  assert (s = with_reads (reads s) s) as Hs by (by destruct s).
  unfold latest. rewrite py_bind_run with (s' := s) (a := s) by done. destruct given as [x|]; [exists (reads s), x; by rewrite <- Hs|].
  destruct (dget rid (_radios s)) as [radio|]; [|exists (reads s), old; by rewrite <- Hs].
  destruct (method radio) as [f|]; [|exists (reads s), old; by rewrite <- Hs]. by eexists _, _.
Qed.

Lemma invoke_run cb a s : invoke cb a s = (with_reads (S (reads s)) (note (Called cb a) s), callback cb a (reads s)).
Proof. done. Qed.

(** A callback is called once, unless it raises a [TypeError]. *)
Lemma legacy_once cb a b s :
  rx_callback s = Some cb → (∀ a n, callback cb a n ≠ Err TypeError) → (∃ d r q, a = Metrics d r q) →
  ∃ s', py_try (try_type (call_legacy Adapter a) b) (mret tt) s = (s', Ok tt) ∧ log s' = log s ++ [Called cb a] ∧ _last_rx_radio_id s' = _last_rx_radio_id s.
Proof.
  intros Hcb Hty (d & r & q & ->). cbn [call_legacy]. unfold _on_fabric_rx, py_try, try_type. rewrite py_bind_run with (s' := s) (a := s) by done. rewrite Hcb.
  rewrite invoke_run. specialize (Hty (Metrics d r q) (reads s)).
  destruct (callback cb (Metrics d r q) (reads s)) as [[]|[]]; try done; eexists; by split_and!.
Qed.

(** C30: what a radio receives reaches the dispatcher under the radio's name, and
    once, if its callback does not raise a TypeError (which the adapter takes for a
    callback of the older kind and answers by calling it again, up to four times:
    [type_error_repeats]). In every reachable state of a fabric with an adapter
    and an observer, when a registered radio of an armed fabric receives a packet,
    the observer gets one event with the data, metrics and id of this radio, then
    such a callback of the dispatcher is called exactly once with the same data,
    whatever else it raises; a radio that was removed, or one of a disarmed fabric,
    delivers nothing. *)
Theorem reception_delivered_once s radio i cb b r q :
  rtc fabric_step new_fabric s →
  _ingress_callback s = Some i → _legacy_rx_callback s = Some Adapter → rx_callback s = Some cb →
  (∀ a n, callback cb a n ≠ Err TypeError) →
  ∃ s', radio_receives radio b r q s = (s', Ok tt)
    ∧ (∀ rid, (rid, radio) ∈ _radios s → _armed s = true → set_rx_callback radio ≠ None →
        log s' = log s ++ [Ingress i [mkReception b r q (Some rid)]; Called cb (Metrics b r q)] ∧ _last_rx_radio_id s' = Some rid)
    ∧ (_armed s = false ∨ radio ∉ dvalues (_radios s) → s' = s).
Proof.
  intros Hreach Hi Hl Hcb Hty. assert (coherent s) as [(_ & Hv & _) Hb] by (by apply fabric_reachable).
  unfold radio_receives. rewrite py_bind_run with (s' := s) (a := s) by done. destruct (bound s !! radio) as [rid|] eqn:Hbound.
  2: { exists s. split_and!; [done| |done]. intros rid Hin Ha Hs. exfalso. assert (bound s !! radio = Some rid) by (by apply Hb). congruence. }
  apply Hb in Hbound as (Ha & Hin & Hs). unfold _on_radio_rx. rewrite (py_bind_run _ _ s s [mkReception b r q (Some rid)]) by done.
  rewrite (py_bind_run _ _ s s s) by done. destruct (latest_run r radio_rssi rid (_last_rssi s) s) as (n1 & x1 & H1). rewrite (py_bind_run _ _ _ _ _ H1).
  set (s1 := with_last x1 (_last_snr (with_reads n1 s)) (_last_rx_radio_id (with_reads n1 s)) (with_reads n1 s)). rewrite (py_bind_run _ _ _ s1 tt) by done.
  destruct (latest_run q radio_snr rid (_last_snr s) s1) as (n2 & x2 & H2). rewrite (py_bind_run _ _ _ _ _ H2).
  set (s2 := with_last x1 x2 (Some rid) (with_reads n2 s1)). rewrite (py_bind_run _ _ _ s2 tt) by done. rewrite (py_bind_run _ _ s2 s2 s2) by done.
  change (_ingress_callback s2) with (_ingress_callback s). rewrite Hi. set (event := [_]).
  set (s3 := with_reads (S (reads s2)) (note (Ingress i event) s2)).
  assert ((modify (note (Ingress i event));; py_try (r ← reading (ingress i event); lift r) (mret tt)) s2 = (s3, Ok tt)) as H3.
  { rewrite (py_bind_run _ _ s2 (note (Ingress i event) s2) tt) by done. unfold py_try.
    change ((r ← reading (ingress i event); lift r) (note (Ingress i event) s2)) with (s3, ingress i event (reads s2)).
    by destruct (ingress i event (reads s2)) as [[]|]. }
  rewrite (py_bind_run _ _ _ _ _ H3), (py_bind_run _ _ s3 s3 s3) by done. change (_legacy_rx_callback s3) with (_legacy_rx_callback s). rewrite Hl.
  destruct (legacy_once cb (Metrics b r q) (call_legacy Adapter (Plain b)) s3) as (s' & Hrun & Hlog & Hlast); [done|done|by eexists _, _, _|].
  exists s'. split_and!; [exact Hrun| |].
  - intros rid' Hin' _ _. assert (rid' = rid) as -> by (by apply (values_inj (_radios s) rid' rid radio)). split; [|by rewrite Hlast].
    rewrite Hlog. unfold s3, s2, s1. cbn. by rewrite <- app_assoc.
  - intros [Ha'|Hn]; [congruence|]. exfalso. apply Hn. by apply list_elem_of_fmap_2 with (f := snd) in Hin.
Qed.

(** A packet is transmitted by one radio, and the result says which. A send
    that returns has transmitted the data on exactly one registered radio: the one
    asked for, else the selector's choice, else the default; metadata names a
    radio, this one unless the radio itself put an id in, and success is always
    reported as metadata. *)
Theorem transmitted_by_one b rid s s' r :
  send b rid s = (s', Ok r) →
  ∃ id radio f raw, dget id (_radios s) = Some radio ∧ radio_send radio = Some f ∧ f b (reads s) = Ok raw
    ∧ log s' = log s ++ [Transmitted radio b]
    ∧ match rid, _tx_selector s with
      | Some x, _ => id = x
      | None, Some select => select b = Ok (Some id) ∨ select b = Ok None ∧ default_radio_id s = Some id
      | None, None => default_radio_id s = Some id
      end
    ∧ r = stamp id raw ∧ r ≠ TxTrue ∧ ∀ info o, r = TxDict info o → o = Some id ∨ raw = TxDict info o ∧ o ≠ None.
Proof.
  unfold send. intros H. rewrite py_bind_run with (s' := s) (a := s) in H by done.
  apply py_bind_ok in H as (? & id & Hid & H). apply lift_ok in Hid as [-> Hid]. apply py_bind_ok in H as (? & radio & Hr & H). apply lift_ok in Hr as [-> Hr].
  unfold get_radio in Hr. destruct (dget id (_radios s)) as [radio'|] eqn:Hg; [|done]. injection Hr as ->.
  destruct (radio_send radio) as [f|] eqn:Hf; [|done]. apply py_bind_ok in H as (s1 & u & H1 & H). apply modify_ok in H1 as ->.
  apply py_bind_ok in H as (s2 & raw & H2 & H). injection H2 as <- <-. apply py_bind_ok in H as (s3 & raw & H3 & H). apply lift_ok in H3 as [-> H3]. injection H as <- <-.
  exists id, radio, f, raw. split_and!; [done..| |done| |].
  - unfold resolve_tx_radio_id in Hid. destruct rid as [x|]; [destruct (dmem x _); by simplify_eq|].
    destruct (_tx_selector s) as [select|]; cbn in Hid.
    + destruct (select b) as [[x|]|] eqn:Es; cbn in Hid; [destruct (dmem x _); simplify_eq; by left| |done].
      destruct (default_radio_id s); [|done]. simplify_eq. by right.
    + destruct (default_radio_id s); [|done]. by simplify_eq.
  - destruct raw as [? []| | | |]; done.
  - intros info o. destruct raw as [? []| | | |]; cbn; intros [= <- <-]; [by right|by left|by left].
Qed.

End fabric.

(** ** Two radios *)

Definition two_radios (cb : arguments → res unit) : RadioObjects := {|
  set_rx_callback r := Some (fun _ => Ok tt);
  radio_rssi _ := None;
  radio_snr _ := None;
  radio_send r := Some (fun _ _ => Ok (if Nat.eqb r 0 then TxTrue else TxDict (Info 7) None));
  radio_begin _ := None;
  callback _ a _ := cb a;
  ingress _ _ _ := Ok tt
|}.

Definition calm : RadioObjects := two_radios (fun _ => Ok tt).

(** An adapter over the radios 0 and 1, with callback 5 and observer 4. *)
Definition demo (O : RadioObjects) : t :=
  with_rx_callback (Some 5%nat) (set_ingress_callback (Some 4%nat) ((new_adapter (O := O) (Some 0%nat) [97] [(1%nat, Some [98])] None new_fabric).1)).

Lemma demo_reachable O : rtc (fabric_step (O := O)) new_fabric (demo O).
Proof.
  apply (rtc_l _ _ _ _ (step_adapter (Some 0%nat) [97] [(1%nat, Some [98])] None new_fabric)).
  eapply (rtc_l _ _ _ _ (step_ingress (Some 4%nat) _)). apply rtc_once. apply (step_callback (Some 5%nat)).
Qed.

Lemma calm_set radio set b : set_rx_callback (RadioObjects := calm) radio = Some set → set b = Ok tt.
Proof. by intros [= <-]. Qed.

Lemma fabric_coherent_witness :
  coherent (O := calm) (demo calm) ∧ default_radio_id (demo calm) = Some [97].
Proof. exact (fabric_coherent (O := calm) calm_set (demo calm) (demo_reachable calm)). Defined.

Lemma reception_delivered_once_witness : ∃ s',
  radio_receives (O := calm) 1 [1; 2] (Some (-90)) None (demo calm) = (s', Ok tt)
  ∧ log s' = [Ingress 4 [mkReception [1; 2] (Some (-90)) None (Some [98])]; Called 5 (Metrics [1; 2] (Some (-90)) None)].
Proof.
  destruct (reception_delivered_once (O := calm) calm_set (demo calm) 1 4 5 [1; 2] (Some (-90)) None (demo_reachable calm) eq_refl eq_refl eq_refl ltac:(done))
    as (s' & Hrun & Hin & _). exists s'. split; [exact Hrun|].
  refine (proj1 (Hin [98] _ eq_refl _)); [|done]. right. left.
Defined.

Lemma transmitted_by_one_witness :
  ∃ id radio, dget id (_radios (demo calm)) = Some radio
    ∧ log (send (O := calm) [3] None (demo calm)).1 = log (demo calm) ++ [Transmitted radio [3]].
Proof.
  destruct (transmitted_by_one (O := calm) [3] None (demo calm) (send (O := calm) [3] None (demo calm)).1 (TxDict JustOk (Some [97])) ltac:(vm_compute; reflexivity)) as (id & radio & f & raw & H1 & _ & _ & H2 & _).
  exists id, radio. split; [exact H1|exact H2].
Defined.

(** A callback that raises [TypeError] on every call is called four times for one
    packet. *)
Example type_error_repeats :
  log (radio_receives (O := two_radios (fun _ => Err TypeError)) 0 [1] None None (demo (two_radios (fun _ => Err TypeError)))).1
  = [Ingress 4 [mkReception [1] None None (Some [97])]; Called 5 (Metrics [1] None None); Called 5 (Plain [1]);
     Called 5 (Metrics [1] None None); Called 5 (Plain [1])].
Proof. vm_compute. reflexivity. Qed.
