(* ===== verification/KissModem.v ===== *)
(** * The KISS modem of MeshCore ([hardware/kiss_modem_wrapper.py])

    A radio behind a serial line: packets and commands are KISS frames. Callers
    block on events that the receive thread sets; a transmit thread writes the
    queued frames; a failure of the line starts a thread that reconnects. Senders
    are serialised by the in-flight lock, commands by the command lock, writes by
    the write lock, so a caller that waits meets only the work of these threads:
    [during] is what they do in a slice of a wait. *)

From S2P Require Import Prelude PyData Utf8 PyFloat Airtime Kiss.

Module KissModem.

(** ** Protocol constants *)

Definition KISS_FEND : Z := 0xC0.
Definition KISS_FESC : Z := 0xDB.
Definition KISS_TFEND : Z := 0xDC.
Definition KISS_TFESC : Z := 0xDD.
Definition CMD_DATA : Z := 0x00.
Definition KISS_CMD_TXDELAY : Z := 0x01.
Definition KISS_CMD_PERSISTENCE : Z := 0x02.
Definition KISS_CMD_SLOTTIME : Z := 0x03.
Definition KISS_CMD_TXTAIL : Z := 0x04.
Definition KISS_CMD_FULLDUPLEX : Z := 0x05.
Definition KISS_CMD_SETHARDWARE : Z := 0x06.
Definition HW_CMD_GET_IDENTITY : Z := 0x01.
Definition HW_CMD_GET_RANDOM : Z := 0x02.
Definition HW_CMD_VERIFY_SIGNATURE : Z := 0x03.
Definition HW_CMD_SIGN_DATA : Z := 0x04.
Definition HW_CMD_ENCRYPT_DATA : Z := 0x05.
Definition HW_CMD_DECRYPT_DATA : Z := 0x06.
Definition HW_CMD_KEY_EXCHANGE : Z := 0x07.
Definition HW_CMD_HASH : Z := 0x08.
Definition HW_CMD_SET_RADIO : Z := 0x09.
Definition HW_CMD_SET_TX_POWER : Z := 0x0A.
Definition HW_CMD_GET_RADIO : Z := 0x0B.
Definition HW_CMD_GET_TX_POWER : Z := 0x0C.
Definition HW_CMD_GET_CURRENT_RSSI : Z := 0x0D.
Definition HW_CMD_IS_CHANNEL_BUSY : Z := 0x0E.
Definition HW_CMD_GET_AIRTIME : Z := 0x0F.
Definition HW_CMD_GET_NOISE_FLOOR : Z := 0x10.
Definition HW_CMD_GET_VERSION : Z := 0x11.
Definition HW_CMD_GET_STATS : Z := 0x12.
Definition HW_CMD_GET_BATTERY : Z := 0x13.
Definition HW_CMD_GET_MCU_TEMP : Z := 0x14.
Definition HW_CMD_GET_SENSORS : Z := 0x15.
Definition HW_CMD_GET_DEVICE_NAME : Z := 0x16.
Definition HW_CMD_PING : Z := 0x17.
Definition HW_CMD_REBOOT : Z := 0x18.
Definition HW_CMD_SET_SIGNAL_REPORT : Z := 0x19.
Definition HW_CMD_GET_SIGNAL_REPORT : Z := 0x1A.
Definition HW_RESP_IDENTITY : Z := 0x81.
Definition HW_RESP_RANDOM : Z := 0x82.
Definition HW_RESP_VERIFY : Z := 0x83.
Definition HW_RESP_SIGNATURE : Z := 0x84.
Definition HW_RESP_ENCRYPTED : Z := 0x85.
Definition HW_RESP_DECRYPTED : Z := 0x86.
Definition HW_RESP_SHARED_SECRET : Z := 0x87.
Definition HW_RESP_HASH : Z := 0x88.
Definition HW_RESP_RADIO : Z := 0x8B.
Definition HW_RESP_TX_POWER : Z := 0x8C.
Definition HW_RESP_CURRENT_RSSI : Z := 0x8D.
Definition HW_RESP_CHANNEL_BUSY : Z := 0x8E.
Definition HW_RESP_AIRTIME : Z := 0x8F.
Definition HW_RESP_NOISE_FLOOR : Z := 0x90.
Definition HW_RESP_VERSION : Z := 0x91.
Definition HW_RESP_STATS : Z := 0x92.
Definition HW_RESP_BATTERY : Z := 0x93.
Definition HW_RESP_MCU_TEMP : Z := 0x94.
Definition HW_RESP_SENSORS : Z := 0x95.
Definition HW_RESP_DEVICE_NAME : Z := 0x96.
Definition HW_RESP_PONG : Z := 0x97.
Definition HW_RESP_OK : Z := 0xF0.
Definition HW_RESP_ERROR : Z := 0xF1.
Definition HW_RESP_TX_DONE : Z := 0xF8.
Definition HW_RESP_RX_META : Z := 0xF9.
Definition HW_RESP_SIGNAL_REPORT : Z := 0x9A.
Definition HW_ERR_TX_BUSY : Z := 0x07.
Definition MAX_FRAME_SIZE : Z := 512.
Definition KISS_MAX_PACKET_SIZE : Z := 255.
Definition MAX_PENDING_RX_FRAMES : Z := 64.
Definition TX_BUFFER_SIZE : Z := 1024.
Definition RESPONSE_TIMEOUT : float := f_of_Z 5.
Definition RX_META_WAIT_SECONDS : float := f_dec 25 2.
Definition TX_DONE_TIMEOUT_MARGIN_S : float := f_of_Z 1.

Definition _SETHW_ALLOW_OK_FOR : list Z :=
  [HW_CMD_SET_RADIO; HW_CMD_SET_TX_POWER; HW_CMD_SET_SIGNAL_REPORT; HW_CMD_REBOOT].

Definition _SETHW_EXTRA_ACCEPT_RESP (sub_cmd : Z) : option Z :=
  if sub_cmd =? HW_CMD_SET_SIGNAL_REPORT then Some HW_RESP_SIGNAL_REPORT else None.

(** ** Framing

    A decoder turns bytes into frames and errors. *)

Record decoder : Type := mkDecoder { rx_frame_buffer : bytes; in_frame : bool; escaped : bool }.

Inductive event : Type :=
| Frame (f : bytes)
| FrameError.

Definition _encode_kiss_frame (cmd : Z) (data : bytes) : bytes := [KISS_FEND; cmd] ++ Kiss.escape data ++ [KISS_FEND].

Definition end_frame (d : decoder) : decoder * list event :=
  (mkDecoder [] true false, if in_frame d && (len (rx_frame_buffer d) >? 0) then [Frame (rx_frame_buffer d)] else []).

(** A byte after FESC. *)
Definition escaped_byte (d : decoder) (byte : Z) : decoder * list event :=
  if byte =? KISS_TFEND then (mkDecoder (rx_frame_buffer d ++ [KISS_FEND]) (in_frame d) false, [])
  else if byte =? KISS_TFESC then (mkDecoder (rx_frame_buffer d ++ [KISS_FESC]) (in_frame d) false, [])
  else (mkDecoder [] false false, [FrameError]).

Definition _decode_kiss_byte (d : decoder) (byte : Z) : decoder * list event :=
  if byte =? KISS_FEND then end_frame d
  else if byte =? KISS_FESC then (if in_frame d then mkDecoder (rx_frame_buffer d) true true else d, [])
  else if escaped d then escaped_byte d byte
  else if in_frame d then
    if len (rx_frame_buffer d) >=? MAX_FRAME_SIZE then (mkDecoder [] false (escaped d), [FrameError])
    else (mkDecoder (rx_frame_buffer d ++ [byte]) true (escaped d), [])
  else (d, []).

(** A run of plain bytes. *)
Definition add_run (run : bytes) (d : decoder) : decoder * list event :=
  if (len run >? 0) && in_frame d then
    let space := MAX_FRAME_SIZE - len (rx_frame_buffer d) in
    if len run <=? space then (mkDecoder (rx_frame_buffer d ++ run) true (escaped d), [])
    else (mkDecoder [] false (escaped d), [FrameError])
  else (d, []).

(** [_decode_kiss] on what is left of the chunk. *)
Fixpoint decode_loop (fuel : nat) (data : bytes) (d : decoder) (out : list event) : decoder * list event :=
  match fuel, data with
  | S fuel, b :: rest =>
      if escaped d then
        let '(d, l) := escaped_byte (mkDecoder (rx_frame_buffer d) (in_frame d) false) b in
        decode_loop fuel rest d (out ++ l)
      else
        match Kiss.next_delimiter data with
        | None => let '(d, l) := add_run data d in (d, out ++ l)
        | Some run_end =>
            let '(d, l) := add_run (take run_end data) d in
            match drop run_end data with
            | [] => (d, out ++ l)
            | b :: rest =>
                if b =? KISS_FEND then let '(d, l') := end_frame d in decode_loop fuel rest d (out ++ l ++ l')
                else decode_loop fuel rest (if in_frame d then mkDecoder (rx_frame_buffer d) true true else d) (out ++ l)
            end
        end
  | _, _ => (d, out)
  end.

(** Each turn takes a byte: the length of the chunk is enough fuel. *)
Definition _decode_kiss (data : bytes) (d : decoder) : decoder * list event := decode_loop (length data) data d [].

(** ** State *)

Record Stats : Type := mkStats {
  frames_sent : Z; frames_received : Z; bytes_sent : Z; bytes_received : Z; frame_errors : Z;
  buffer_overruns : Z; rx_packets : Z; tx_packets : Z; errors : Z; tx_busy : Z;
  last_rssi : Z; last_snr : float; noise_floor : option Z
}.

(** [radio_config]: the keys that may be missing. *)
Record Config : Type := mkConfig {
  cfg_frequency : option Z; cfg_bandwidth : option Z; cfg_spreading_factor : option Z; cfg_coding_rate : option Z;
  cfg_preamble_length : option Z; cfg_power : option Z; cfg_tx_power : option Z; cfg_measured_airtime_ms : option float;
  cfg_tx_delay_ms : option Z; cfg_kiss_persistence : option Z; cfg_kiss_slottime_ms : option Z;
  cfg_kiss_txtail_ms : option Z; cfg_kiss_full_duplex : option bool
}.

(** The settings that were applied, with the modem's version and key. *)
Record Radio : Type := mkRadio {
  frequency : Z; bandwidth : Z; spreading_factor : Z; coding_rate : Z; tx_power : Z; is_configured : bool;
  modem_version : option Z; modem_identity : option bytes; _modem_identity_ref : option bytes
}.

(** The waiter of the command in flight and the responses nobody waited for. *)
Record Responses : Type := mkResponses {
  _response_event : bool;
  _pending_response : option (Z * bytes);
  _expected_response_subcmds : option (list Z);
  _active_request_subcmd : option Z;
  _response_queue : list (Z * bytes)
}.

(** Why a transmission is not confirmed. *)
Inductive verdict : Type :=
| ShuttingDown
| LinkDown
| NotWritten
| LinkLost
| TxBusy
| NoTxDone (seconds : float)
| StatusZero
| Aborted.

Record Transmit : Type := mkTransmit {
  _tx_done_event : bool;
  _tx_done_result : option bool;
  _tx_busy_seen : bool;
  _tx_last_verdict : option verdict
}.

(** [serial_open]: the port is open. [closing_deferred]: see [_mark_serial_failure]. *)
Record Line : Type := mkLine {
  is_connected : bool;
  _degraded : bool;
  _degraded_reason : option string;
  _reconnecting : bool;
  stop_event : bool;
  _shutting_down : bool;
  serial_open : bool
}.

(** What was handed to the callback, and with which metrics. *)
Record delivery : Type := mkDelivery { d_payload : bytes; d_rssi : Z; d_snr : float }.

(** [listening]: a callback is registered. [loop_closed]: the event loop it is
    scheduled on has been closed. [wire]: the bytes the port has taken. [heard]: the
    SetHardware frames of the modem. *)
Record t : Type := mk {
  config : Config;
  auto_configure : bool;
  lbt_enabled : bool;
  connect_retries : nat;
  startup_retry_budget_sec : float;
  radio : Radio;
  line : Line;
  rx : decoder;
  stats : Stats;
  pending_rx : list (bytes * float);
  responses : Responses;
  transmit : Transmit;
  tx_buffer : list bytes;
  listening : bool;
  loop_closed : bool;
  delivered : list delivery;
  wire : bytes;
  heard : list (Z * bytes);
  reads : nat
}.

Definition with_radio (v : Radio) (s : t) : t :=
  mk (config s) (auto_configure s) (lbt_enabled s) (connect_retries s) (startup_retry_budget_sec s) v (line s) (rx s) (stats s) (pending_rx s) (responses s) (transmit s) (tx_buffer s) (listening s) (loop_closed s) (delivered s) (wire s) (heard s) (reads s).
Definition with_line (v : Line) (s : t) : t :=
  mk (config s) (auto_configure s) (lbt_enabled s) (connect_retries s) (startup_retry_budget_sec s) (radio s) v (rx s) (stats s) (pending_rx s) (responses s) (transmit s) (tx_buffer s) (listening s) (loop_closed s) (delivered s) (wire s) (heard s) (reads s).
Definition with_rx (v : decoder) (s : t) : t :=
  mk (config s) (auto_configure s) (lbt_enabled s) (connect_retries s) (startup_retry_budget_sec s) (radio s) (line s) v (stats s) (pending_rx s) (responses s) (transmit s) (tx_buffer s) (listening s) (loop_closed s) (delivered s) (wire s) (heard s) (reads s).
Definition with_stats (v : Stats) (s : t) : t :=
  mk (config s) (auto_configure s) (lbt_enabled s) (connect_retries s) (startup_retry_budget_sec s) (radio s) (line s) (rx s) v (pending_rx s) (responses s) (transmit s) (tx_buffer s) (listening s) (loop_closed s) (delivered s) (wire s) (heard s) (reads s).
Definition with_pending_rx (v : list (bytes * float)) (s : t) : t :=
  mk (config s) (auto_configure s) (lbt_enabled s) (connect_retries s) (startup_retry_budget_sec s) (radio s) (line s) (rx s) (stats s) v (responses s) (transmit s) (tx_buffer s) (listening s) (loop_closed s) (delivered s) (wire s) (heard s) (reads s).
Definition with_responses (v : Responses) (s : t) : t :=
  mk (config s) (auto_configure s) (lbt_enabled s) (connect_retries s) (startup_retry_budget_sec s) (radio s) (line s) (rx s) (stats s) (pending_rx s) v (transmit s) (tx_buffer s) (listening s) (loop_closed s) (delivered s) (wire s) (heard s) (reads s).
Definition with_transmit (v : Transmit) (s : t) : t :=
  mk (config s) (auto_configure s) (lbt_enabled s) (connect_retries s) (startup_retry_budget_sec s) (radio s) (line s) (rx s) (stats s) (pending_rx s) (responses s) v (tx_buffer s) (listening s) (loop_closed s) (delivered s) (wire s) (heard s) (reads s).
Definition with_tx_buffer (v : list bytes) (s : t) : t :=
  mk (config s) (auto_configure s) (lbt_enabled s) (connect_retries s) (startup_retry_budget_sec s) (radio s) (line s) (rx s) (stats s) (pending_rx s) (responses s) (transmit s) v (listening s) (loop_closed s) (delivered s) (wire s) (heard s) (reads s).
Definition with_delivered (v : list delivery) (s : t) : t :=
  mk (config s) (auto_configure s) (lbt_enabled s) (connect_retries s) (startup_retry_budget_sec s) (radio s) (line s) (rx s) (stats s) (pending_rx s) (responses s) (transmit s) (tx_buffer s) (listening s) (loop_closed s) v (wire s) (heard s) (reads s).
Definition with_wire (v : bytes) (s : t) : t :=
  mk (config s) (auto_configure s) (lbt_enabled s) (connect_retries s) (startup_retry_budget_sec s) (radio s) (line s) (rx s) (stats s) (pending_rx s) (responses s) (transmit s) (tx_buffer s) (listening s) (loop_closed s) (delivered s) v (heard s) (reads s).
Definition with_heard (v : list (Z * bytes)) (s : t) : t :=
  mk (config s) (auto_configure s) (lbt_enabled s) (connect_retries s) (startup_retry_budget_sec s) (radio s) (line s) (rx s) (stats s) (pending_rx s) (responses s) (transmit s) (tx_buffer s) (listening s) (loop_closed s) (delivered s) (wire s) v (reads s).
Definition with_reads (v : nat) (s : t) : t :=
  mk (config s) (auto_configure s) (lbt_enabled s) (connect_retries s) (startup_retry_budget_sec s) (radio s) (line s) (rx s) (stats s) (pending_rx s) (responses s) (transmit s) (tx_buffer s) (listening s) (loop_closed s) (delivered s) (wire s) (heard s) v.

(** [set_rx_callback]: whether a callback is registered. *)
Definition set_rx_callback (callback : bool) (s : t) : t :=
  mk (config s) (auto_configure s) (lbt_enabled s) (connect_retries s) (startup_retry_budget_sec s) (radio s) (line s) (rx s) (stats s) (pending_rx s) (responses s) (transmit s) (tx_buffer s) callback (loop_closed s) (delivered s) (wire s) (heard s) (reads s).

Definition set_lbt_enabled (enabled : bool) (s : t) : t :=
  mk (config s) (auto_configure s) enabled (connect_retries s) (startup_retry_budget_sec s) (radio s) (line s) (rx s) (stats s) (pending_rx s) (responses s) (transmit s) (tx_buffer s) (listening s) (loop_closed s) (delivered s) (wire s) (heard s) (reads s).

(** ** The environment *)

(** What another thread does: the receive thread decodes a chunk or flushes old
    frames, the transmit thread takes a frame, the line fails, [cleanup] is
    called, the reconnect thread has reconnected. *)
Inductive activity : Type :=
| Received (chunk : bytes)
| Flush
| TxTurn
| Failure (reason : string)
| CleanUp
| Reconnected.

(** By reading: the clock, what the other threads do in a slice of a wait, how many
    bytes a write takes ([None]: it raises), whether flushing works, the connection
    lock is free, opening works, the receive thread lives; random choices; the
    other ports with the identity of this one. *)
Class KissEnv := {
  monotonic : nat → float;
  during : nat → list activity;
  serial_write : nat → option Z;
  flush_works : nat → bool;
  lock_free : nat → bool;
  open_works : nat → bool;
  rx_alive : nat → bool;
  choice : nat → nat;
  alternates : nat → nat
}.

Section driver.
Context `{E : KissEnv}.

Definition reading {A} (f : nat → A) : py t A :=
  s ← get;
  modify (with_reads (S (reads s)));;
  mret (f (reads s)).

Definition time_monotonic : py t float := reading monotonic.

(** [try: m finally: f] *)
Definition try_finally {A} (m : py t A) (f : t → t) : py t A := fun s =>
  match m s with (s', r) => (f s', r) end.

(** ** The line *)

Definition set_connected (b : bool) (l : Line) : Line :=
  mkLine b (_degraded l) (_degraded_reason l) (_reconnecting l) (stop_event l) (_shutting_down l) (serial_open l).
Definition set_open (b : bool) (l : Line) : Line :=
  mkLine (is_connected l) (_degraded l) (_degraded_reason l) (_reconnecting l) (stop_event l) (_shutting_down l) b.
Definition set_degraded (b : bool) (r : option string) (l : Line) : Line :=
  mkLine (is_connected l) b r (_reconnecting l) (stop_event l) (_shutting_down l) (serial_open l).
Definition set_reconnecting (b : bool) (l : Line) : Line :=
  mkLine (is_connected l) (_degraded l) (_degraded_reason l) b (stop_event l) (_shutting_down l) (serial_open l).
Definition set_stopping (stop shutting : bool) (l : Line) : Line :=
  mkLine (is_connected l) (_degraded l) (_degraded_reason l) (_reconnecting l) stop shutting (serial_open l).

Definition on_line (f : Line → Line) (s : t) : t := with_line (f (line s)) s.

(** [_tx_done_event.set()] *)
Definition wake_sender (s : t) : t :=
  let x := transmit s in with_transmit (mkTransmit true (_tx_done_result x) (_tx_busy_seen x) (_tx_last_verdict x)) s.

Definition _start_reconnect_worker (s : t) : t :=
  if stop_event (line s) || _reconnecting (line s) then s else on_line (set_reconnecting true) s.

Definition _mark_serial_failure (reason : string) : py t unit :=
  s ← get;
  if stop_event (line s) then mret tt
  else
    modify (on_line (fun l => set_connected false (set_degraded true (Some reason) l)));;
    free ← reading lock_free;
    (if free : bool then modify (on_line (set_open false)) else mret tt);;
    modify wake_sender;;
    modify _start_reconnect_worker.

(** What is left of a frame is written again until the port has taken all of it;
    each write takes a byte at least. *)
Fixpoint write_rest (fuel : nat) (rest : bytes) : py t bool :=
  match rest with
  | [] => mret true
  | _ :: _ =>
      match fuel with
      | O => mret true
      | S fuel =>
          n ← reading serial_write;
          match n with
          | None => _mark_serial_failure "Serial write failed";; mret false
          | Some n =>
              if n <=? 0 then _mark_serial_failure "Serial write returned";; mret false
              else
                modify (fun s => with_wire (wire s ++ take (Z.to_nat n) rest) s);;
                write_rest fuel (drop (Z.to_nat n) rest)
          end
      end
  end.

Definition _write_frame (frame : bytes) : py t bool :=
  s ← get;
  if negb (serial_open (line s)) then _mark_serial_failure "Serial connection closed during write";; mret false
  else
    ok ← write_rest (length frame) frame;
    if negb ok then mret false
    else
      flushed ← reading flush_works;
      if (flushed : bool) then mret true else _mark_serial_failure "Serial flush failed";; mret false.

(** ** The receive thread *)

Definition count_frame_error (s : t) : t :=
  let x := stats s in
  with_stats (mkStats (frames_sent x) (frames_received x) (bytes_sent x) (bytes_received x) (frame_errors x + 1)
    (buffer_overruns x) (rx_packets x) (tx_packets x) (errors x) (tx_busy x) (last_rssi x) (last_snr x) (noise_floor x)) s.

Definition count_received (n : Z) (s : t) : t :=
  let x := stats s in
  with_stats (mkStats (frames_sent x) (frames_received x + 1) (bytes_sent x) (bytes_received x + n) (frame_errors x)
    (buffer_overruns x) (rx_packets x) (tx_packets x) (errors x) (tx_busy x) (last_rssi x) (last_snr x) (noise_floor x)) s.

Definition count_sent (n : Z) (s : t) : t :=
  let x := stats s in
  with_stats (mkStats (frames_sent x + 1) (frames_received x) (bytes_sent x + n) (bytes_received x) (frame_errors x)
    (buffer_overruns x) (rx_packets x) (tx_packets x) (errors x) (tx_busy x) (last_rssi x) (last_snr x) (noise_floor x)) s.

Definition count_overrun (s : t) : t :=
  let x := stats s in
  with_stats (mkStats (frames_sent x) (frames_received x) (bytes_sent x) (bytes_received x) (frame_errors x)
    (buffer_overruns x + 1) (rx_packets x) (tx_packets x) (errors x) (tx_busy x) (last_rssi x) (last_snr x) (noise_floor x)) s.

Definition count_rx_packet (s : t) : t :=
  let x := stats s in
  with_stats (mkStats (frames_sent x) (frames_received x) (bytes_sent x) (bytes_received x) (frame_errors x)
    (buffer_overruns x) (rx_packets x + 1) (tx_packets x) (errors x) (tx_busy x) (last_rssi x) (last_snr x) (noise_floor x)) s.

Definition count_tx_packet (s : t) : t :=
  let x := stats s in
  with_stats (mkStats (frames_sent x) (frames_received x) (bytes_sent x) (bytes_received x) (frame_errors x)
    (buffer_overruns x) (rx_packets x) (tx_packets x + 1) (errors x) (tx_busy x) (last_rssi x) (last_snr x) (noise_floor x)) s.

Definition count_modem_error (busy : bool) (s : t) : t :=
  let x := stats s in
  with_stats (mkStats (frames_sent x) (frames_received x) (bytes_sent x) (bytes_received x) (frame_errors x)
    (buffer_overruns x) (rx_packets x) (tx_packets x) (errors x + 1) (tx_busy x + (if busy then 1 else 0))
    (last_rssi x) (last_snr x) (noise_floor x)) s.

Definition set_signal (rssi : Z) (snr : float) (s : t) : t :=
  let x := stats s in
  with_stats (mkStats (frames_sent x) (frames_received x) (bytes_sent x) (bytes_received x) (frame_errors x)
    (buffer_overruns x) (rx_packets x) (tx_packets x) (errors x) (tx_busy x) rssi snr (noise_floor x)) s.

Definition set_noise_floor (v : Z) (s : t) : t :=
  let x := stats s in
  with_stats (mkStats (frames_sent x) (frames_received x) (bytes_sent x) (bytes_received x) (frame_errors x)
    (buffer_overruns x) (rx_packets x) (tx_packets x) (errors x) (tx_busy x) (last_rssi x) (last_snr x) (Some v)) s.

Definition signed_byte (b : Z) : Z := if b >? 127 then b - 256 else b.

(** [snr_raw / 4.0] *)
Definition quarter (n : Z) : float := SFdiv prec64 emax64 (f_of_Z n) (f_of_Z 4).

(** [_dispatch_rx_callback]; a closed event loop loses the packet. *)
Definition _dispatch_rx_callback (data : bytes) (rssi : Z) (snr : float) (s : t) : t :=
  if negb (listening s) || loop_closed s then s
  else with_delivered (delivered s ++ [mkDelivery data rssi snr]) s.

(** A response goes to the waiter that expects it, or to the queue of at most 32. *)
Definition respond (sub_cmd : Z) (payload : bytes) (s : t) : t :=
  let r := responses s in
  match _expected_response_subcmds r with
  | Some expected =>
      if bool_decide (sub_cmd ∈ expected)
      then with_responses (mkResponses true (Some (sub_cmd, payload)) (_expected_response_subcmds r) (_active_request_subcmd r) (_response_queue r)) s
      else with_responses (mkResponses (_response_event r) (_pending_response r) (_expected_response_subcmds r) (_active_request_subcmd r)
             (if len (_response_queue r) =? 32 then drop 1 (_response_queue r) ++ [(sub_cmd, payload)] else _response_queue r ++ [(sub_cmd, payload)])) s
  | None =>
      with_responses (mkResponses (_response_event r) (_pending_response r) (_expected_response_subcmds r) (_active_request_subcmd r)
        (if len (_response_queue r) =? 32 then drop 1 (_response_queue r) ++ [(sub_cmd, payload)] else _response_queue r ++ [(sub_cmd, payload)])) s
  end.

(** A Data frame waits for its metrics. *)
Definition data_received (payload : bytes) (s : t) : t :=
  if len (pending_rx s) >=? MAX_PENDING_RX_FRAMES then count_frame_error s
  else
    let deadline := fadd (monotonic (reads s)) RX_META_WAIT_SECONDS in
    with_pending_rx (pending_rx s ++ [(payload, deadline)]) (with_reads (S (reads s)) s).

Definition meta_received (payload : bytes) (s : t) : t :=
  let '(rssi, snr, s) :=
    match payload with
    | snr_raw :: rssi_raw :: _ =>
        let snr := quarter (signed_byte snr_raw) in
        let rssi := signed_byte rssi_raw in
        (rssi, snr, count_rx_packet (set_signal rssi snr s))
    | _ => (-999, f_of_Z (-999), s)
    end in
  match pending_rx s with
  | (packet_data, _) :: rest =>
      let s := with_pending_rx rest s in
      if listening s then _dispatch_rx_callback packet_data rssi snr s else s
  | [] => s
  end.

Definition tx_done_received (payload : bytes) (s : t) : t :=
  match payload with
  | status :: _ =>
      let x := transmit s in
      wake_sender (count_tx_packet (with_transmit (mkTransmit (_tx_done_event x) (Some (status =? 1)) (_tx_busy_seen x) (_tx_last_verdict x)) s))
  | [] => wake_sender s
  end.

Definition error_received (payload : bytes) (s : t) : t :=
  match payload with
  | code :: _ =>
      if code =? HW_ERR_TX_BUSY then
        let s := count_modem_error true s in
        let x := transmit s in
        with_transmit (mkTransmit (_tx_done_event x) (_tx_done_result x) true (_tx_last_verdict x)) s
      else respond HW_RESP_ERROR payload (count_modem_error false s)
  | [] => respond HW_RESP_ERROR payload s
  end.

Definition _process_received_frame (frame : bytes) (s : t) : t :=
  match frame with
  | [] => s
  | type_byte :: body =>
      let port := Z.land (Z.shiftr type_byte 4) 0x0F in
      let cmd := Z.land type_byte 0x0F in
      if negb (port =? 0) then s
      else
        let s := count_received (len body) s in
        if cmd =? CMD_DATA then data_received body s
        else if cmd =? KISS_CMD_SETHARDWARE then
          match body with
          | [] => s
          | sub_cmd :: payload =>
              let s := with_heard (heard s ++ [(sub_cmd, payload)]) s in
              if sub_cmd =? HW_RESP_RX_META then meta_received payload s
              else if sub_cmd =? HW_RESP_TX_DONE then tx_done_received payload s
              else if sub_cmd =? HW_RESP_ERROR then error_received payload s
              else respond sub_cmd payload s
          end
        else s
  end.

Definition handle (e : event) (s : t) : t :=
  match e with Frame f => _process_received_frame f s | FrameError => count_frame_error s end.

(** A chunk that the receive thread has read. *)
Definition receive (chunk : bytes) (s : t) : t :=
  let '(d, events) := _decode_kiss chunk (rx s) in
  with_rx d (fold_left (fun s e => handle e s) events s).

(** [_flush_expired_rx_frames], with the frames that were queued for fuel. *)
Fixpoint flush_expired (fuel : nat) (now : float) (s : t) : t :=
  match fuel, pending_rx s with
  | S fuel, (payload, deadline) :: rest =>
      if fltb now deadline then s
      else
        let s := count_rx_packet (with_pending_rx rest s) in
        flush_expired fuel now (if listening s then _dispatch_rx_callback payload (-999) (f_of_Z (-999)) s else s)
  | _, _ => s
  end.

Definition _flush_expired_rx_frames (s : t) : t :=
  flush_expired (length (pending_rx s)) (monotonic (reads s)) (with_reads (S (reads s)) s).

Definition _clear_pending_rx (s : t) : t := with_pending_rx [] s.

(** A turn of [_tx_worker]. *)
Definition tx_turn : py t unit :=
  s ← get;
  match tx_buffer s with
  | [] => mret tt
  | frame :: rest =>
      modify (with_tx_buffer rest);;
      if serial_open (line s) then
        ok ← _write_frame frame;
        if (ok : bool) then modify (count_sent (len frame)) else mret tt
      else _mark_serial_failure "Serial connection not open in TX worker"
  end.

Definition disconnect (s : t) : t :=
  _clear_pending_rx (on_line (fun l => mkLine false false None false true (_shutting_down l) false) s).

Definition cleanup (s : t) : t :=
  let s := on_line (fun l => set_stopping (stop_event l) true l) s in
  let r := responses s in
  let s := with_responses (mkResponses true (_pending_response r) (_expected_response_subcmds r) (_active_request_subcmd r) (_response_queue r)) s in
  disconnect (wake_sender s).

(** A link that the reconnect thread has brought back. *)
Definition reconnected (s : t) : t :=
  on_line (fun l => mkLine true false None false (stop_event l) (_shutting_down l) true) (_clear_pending_rx s).

(** The condition of the loops of the workers. *)
Definition worker_runs (l : Line) : bool := negb (stop_event l) && serial_open l.

Definition act (a : activity) (s : t) : t :=
  match a with
  | Received chunk => if worker_runs (line s) then receive chunk s else s
  | Flush => if worker_runs (line s) then _flush_expired_rx_frames s else s
  | TxTurn => if worker_runs (line s) then (tx_turn s).1 else s
  | Failure reason => (_mark_serial_failure reason s).1
  | CleanUp => cleanup s
  | Reconnected => if stop_event (line s) then s else reconnected s
  end.

(** A slice of a wait. *)
Definition pass_time : py t unit :=
  l ← reading during;
  modify (fun s => fold_left (fun s a => act a s) l s).

(** ** Transmitting *)

Definition send_frame (data : bytes) : py t bool :=
  s ← get;
  if negb (is_connected (line s)) then mret false
  else if (len data <? 2) || (len data >? KISS_MAX_PACKET_SIZE) then mret false
  else if len (tx_buffer s) <? TX_BUFFER_SIZE then
    modify (with_tx_buffer (tx_buffer s ++ [_encode_kiss_frame CMD_DATA data]));; mret true
  else modify count_overrun;; mret false.

(** A result with its reason: [None] for a confirmed transmission. *)
Definition outcome : Type := bool * option verdict.

Definition _verdict (v : verdict) : py t outcome :=
  modify (fun s => let x := transmit s in with_transmit (mkTransmit (_tx_done_event x) (_tx_done_result x) (_tx_busy_seen x) (Some v)) s);;
  mret (false, Some v).

Definition _resolve_tx_done : py t outcome :=
  s ← get;
  match _tx_done_result (transmit s) with
  | Some true => mret (true, None)
  | Some false => _verdict StatusZero
  | None => _verdict Aborted
  end.

(** The wait for TX_DONE; [None]: the fuel is used up. *)
Fixpoint await_tx_done (fuel : nat) (deadline effective_timeout : float) : py t (option outcome) :=
  s ← get;
  if _shutting_down (line s) then v ← _verdict ShuttingDown; mret (Some v)
  else
    match fuel with
    | O => mret None
    | S fuel =>
        now ← time_monotonic;
        if fleb (fsub deadline now) f_zero then
          s ← get;
          v ← _verdict (if _tx_busy_seen (transmit s) then TxBusy else NoTxDone effective_timeout);
          mret (Some v)
        else
          pass_time;;
          s ← get;
          if _tx_done_event (transmit s) then v ← _resolve_tx_done; mret (Some v)
          else if _degraded (line s) || stop_event (line s) then v ← _verdict LinkLost; mret (Some v)
          else await_tx_done fuel deadline effective_timeout
    end.

(** The settings that [PacketTimingUtils] reads. *)
Definition airtime_config (c : Config) : radio_config :=
  mkRadioConfig (cfg_measured_airtime_ms c) (default 10 (cfg_spreading_factor c)) (default 250000 (cfg_bandwidth c))
    (default 5 (cfg_coding_rate c)) (default 8 (cfg_preamble_length c)).

Definition estimated_airtime_s (data : bytes) (c : Config) : float :=
  match estimate_airtime_ms (len data) (Some (airtime_config c)) with
  | Ok ms => SFdiv prec64 emax64 ms (f_of_Z 1000)
  | Err _ => f_zero
  end.

(** [me]: the caller is the reconnect thread. *)
Definition _send_frame_and_wait_verdict (fuel : nat) (me : bool) (data : bytes) (timeout : float) : py t (option outcome) :=
  s ← get;
  if _shutting_down (line s) then v ← _verdict ShuttingDown; mret (Some v)
  else if (_reconnecting (line s) || _degraded (line s)) && negb me then v ← _verdict LinkDown; mret (Some v)
  else
    let effective_timeout := py_fmax timeout (fadd (estimated_airtime_s data (config s)) TX_DONE_TIMEOUT_MARGIN_S) in
    pass_time;;
    modify (with_transmit (mkTransmit false None false None));;
    queued ← send_frame data;
    if negb queued then v ← _verdict NotWritten; mret (Some v)
    else
      now ← time_monotonic;
      await_tx_done fuel (fadd now effective_timeout) effective_timeout.

Definition send_frame_and_wait (fuel : nat) (me : bool) (data : bytes) (timeout : float) : py t (option outcome) :=
  _send_frame_and_wait_verdict fuel me data timeout.

(** ** Commands *)

Definition acceptable (sub_cmd : Z) : list Z :=
  [Z.lor sub_cmd 0x80; HW_RESP_ERROR]
  ++ (if bool_decide (sub_cmd ∈ _SETHW_ALLOW_OK_FOR) then [HW_RESP_OK] else [])
  ++ match _SETHW_EXTRA_ACCEPT_RESP sub_cmd with Some r => [r] | None => [] end.

(** The first queued response that is acceptable, and the others in their order. *)
Fixpoint take_matching (ok : list Z) (q : list (Z * bytes)) : option (Z * bytes) * list (Z * bytes) :=
  match q with
  | [] => (None, [])
  | r :: q =>
      if bool_decide (r.1 ∈ ok) then (Some r, q)
      else let '(m, rest) := take_matching ok q in (m, r :: rest)
  end.

Definition with_queue (q : list (Z * bytes)) (s : t) : t :=
  let r := responses s in
  with_responses (mkResponses (_response_event r) (_pending_response r) (_expected_response_subcmds r) (_active_request_subcmd r) q) s.

Definition expect (sub_cmd : Z) (s : t) : t :=
  with_responses (mkResponses false None (Some (acceptable sub_cmd)) (Some sub_cmd) (_response_queue (responses s))) s.

(** The [finally] of [_send_command]. *)
Definition expect_nothing (s : t) : t :=
  let r := responses s in with_responses (mkResponses (_response_event r) (_pending_response r) None None (_response_queue r)) s.

(** The wait for a response; the outer [None]: the fuel is used up. *)
Fixpoint await_response (fuel : nat) (deadline : float) : py t (option (option (Z * bytes))) :=
  s ← get;
  if _shutting_down (line s) then mret (Some None)
  else
    match fuel with
    | O => mret None
    | S fuel =>
        now ← time_monotonic;
        if fleb (fsub deadline now) f_zero then mret (Some None)
        else
          pass_time;;
          s ← get;
          if _response_event (responses s) then mret (Some (_pending_response (responses s)))
          else await_response fuel deadline
    end.

Definition _send_command (fuel : nat) (me : bool) (sub_cmd : Z) (data : bytes) (timeout : float) : py t (option (option (Z * bytes))) :=
  s ← get;
  if _shutting_down (line s) then mret (Some None)
  else if (_reconnecting (line s) || _degraded (line s)) && negb me then mret (Some None)
  else
    pass_time;;
    s ← get;
    match take_matching (acceptable sub_cmd) (_response_queue (responses s)) with
    | (Some matched, rest) => modify (with_queue rest);; mret (Some (Some matched))
    | (None, _) =>
        modify (expect sub_cmd);;
        try_finally
          (written ← _write_frame (_encode_kiss_frame KISS_CMD_SETHARDWARE (sub_cmd :: data));
           if negb written then mret (Some None)
           else now ← time_monotonic; await_response fuel (fadd now timeout))
          expect_nothing
    end.

(** ** Queries and settings

    The result of a command whose response has the code [resp]; [None] also where
    the fuel is used up, which [_send_command] tells apart. *)
Definition request (fuel : nat) (me : bool) (sub_cmd : Z) (data : bytes) (timeout : float) (resp : Z) : py t (option bytes) :=
  r ← _send_command fuel me sub_cmd data timeout;
  mret (match r with
        | Some (Some (code, payload)) => if code =? resp then Some payload else None
        | _ => None
        end).

(** [timeout if timeout is not None else RESPONSE_TIMEOUT] *)
Definition within (timeout : option float) : float := default RESPONSE_TIMEOUT timeout.

(** A payload of at least [n] bytes, read with [f]. *)
Definition at_least {A} (n : Z) (f : bytes → A) (p : option bytes) : option A :=
  match p with Some b => if len b >=? n then Some (f b) else None | None => None end.

Definition exactly (n : Z) (p : option bytes) : option bytes :=
  match p with Some b => if len b =? n then Some b else None | None => None end.

Definition byte0 (b : bytes) : Z := nth 0 b 0.

Record RadioReport : Type := mkReport { rr_frequency : Z; rr_bandwidth : Z; rr_spreading_factor : Z; rr_coding_rate : Z }.

Section operations.
Variable fuel : nat.
Variable me : bool.

Definition set_signal_report (enabled : bool) : py t bool :=
  r ← _send_command fuel me HW_CMD_SET_SIGNAL_REPORT [if enabled then 1 else 0] RESPONSE_TIMEOUT;
  mret (match r with
        | Some (Some (code, _)) => (code =? HW_RESP_SIGNAL_REPORT) || (code =? HW_RESP_OK)
        | _ => false
        end).

Definition get_signal_report : py t (option bool) :=
  p ← request fuel me HW_CMD_GET_SIGNAL_REPORT [] RESPONSE_TIMEOUT HW_RESP_SIGNAL_REPORT;
  mret (at_least 1 (fun b => negb (byte0 b =? 0)) p).

Definition get_radio_config (timeout : option float) : py t (option RadioReport) :=
  p ← request fuel me HW_CMD_GET_RADIO [] (within timeout) HW_RESP_RADIO;
  mret (at_least 10 (fun b => mkReport (from_le (slice b 0 4)) (from_le (slice b 4 8)) (nth 8 b 0) (nth 9 b 0)) p).

(** A setter: any response but an error. *)
Definition accepted (r : option (option (Z * bytes))) : bool :=
  match r with Some (Some (code, _)) => negb (code =? HW_RESP_ERROR) | _ => false end.

Definition set_radio (f : Radio → Radio) : py t unit := modify (fun s => with_radio (f (radio s)) s).

Definition with_power (power : Z) (r : Radio) : Radio :=
  mkRadio (frequency r) (bandwidth r) (spreading_factor r) (coding_rate r) power (is_configured r) (modem_version r) (modem_identity r) (_modem_identity_ref r).

Definition set_tx_power (power : Z) : py t bool :=
  s ← get;
  if negb (is_connected (line s)) then mret false
  else
    py_try
      (data ← lift (bytes_of_ints [power]);
       r ← _send_command fuel me HW_CMD_SET_TX_POWER data RESPONSE_TIMEOUT;
       if negb (accepted r) then mret false else set_radio (with_power power);; mret true)
      (mret false).

Definition get_tx_power (timeout : option float) : py t (option Z) :=
  p ← request fuel me HW_CMD_GET_TX_POWER [] (within timeout) HW_RESP_TX_POWER;
  mret (at_least 1 byte0 p).

Definition get_current_rssi (timeout : option float) : py t Z :=
  p ← request fuel me HW_CMD_GET_CURRENT_RSSI [] (within timeout) HW_RESP_CURRENT_RSSI;
  mret (default (-999) (at_least 1 (fun b => signed_byte (byte0 b)) p)).

Definition is_channel_busy (timeout : option float) : py t bool :=
  p ← request fuel me HW_CMD_IS_CHANNEL_BUSY [] (within timeout) HW_RESP_CHANNEL_BUSY;
  mret (default false (at_least 1 (fun b => byte0 b =? 1) p)).

Definition get_airtime (packet_length : Z) (timeout : option float) : py t (option Z) :=
  data ← lift (bytes_of_ints [packet_length]);
  p ← request fuel me HW_CMD_GET_AIRTIME data (within timeout) HW_RESP_AIRTIME;
  mret (at_least 4 (fun b => from_le (slice b 0 4)) p).

Definition get_noise_floor (timeout : option float) : py t (option Z) :=
  p ← request fuel me HW_CMD_GET_NOISE_FLOOR [] (within timeout) HW_RESP_NOISE_FLOOR;
  match at_least 2 (fun b => from_le_signed (slice b 0 2)) p with
  | Some noise => modify (set_noise_floor noise);; mret (Some noise)
  | None => mret None
  end.

(** Received, transmitted, errors. *)
Definition get_modem_stats (timeout : option float) : py t (option (Z * Z * Z)) :=
  p ← request fuel me HW_CMD_GET_STATS [] (within timeout) HW_RESP_STATS;
  mret (at_least 12 (fun b => (from_le (slice b 0 4), from_le (slice b 4 8), from_le (slice b 8 12))) p).

Definition get_battery (timeout : option float) : py t (option Z) :=
  p ← request fuel me HW_CMD_GET_BATTERY [] (within timeout) HW_RESP_BATTERY;
  mret (at_least 2 (fun b => from_le (slice b 0 2)) p).

Definition ping : py t bool :=
  p ← request fuel me HW_CMD_PING [] RESPONSE_TIMEOUT HW_RESP_PONG;
  mret (match p with Some _ => true | None => false end).

Definition get_sensors (permissions : Z) : py t (option bytes) :=
  data ← lift (bytes_of_ints [permissions]);
  request fuel me HW_CMD_GET_SENSORS data RESPONSE_TIMEOUT HW_RESP_SENSORS.

Definition get_mcu_temp : py t (option float) :=
  p ← request fuel me HW_CMD_GET_MCU_TEMP [] RESPONSE_TIMEOUT HW_RESP_MCU_TEMP;
  mret (at_least 2 (fun b => SFdiv prec64 emax64 (f_of_Z (from_le_signed (slice b 0 2))) (f_of_Z 10)) p).

Definition get_device_name : py t (option pystr) :=
  p ← request fuel me HW_CMD_GET_DEVICE_NAME [] RESPONSE_TIMEOUT HW_RESP_DEVICE_NAME;
  mret (match p with
        | Some b => match decode b with Ok name => Some name | Err _ => None end
        | None => None
        end).

Definition reboot : py t unit := _send_command fuel me HW_CMD_REBOOT [] (f_of_Z 1);; mret tt.

Definition set_identity (v : option bytes) (r : Radio) : Radio :=
  mkRadio (frequency r) (bandwidth r) (spreading_factor r) (coding_rate r) (tx_power r) (is_configured r) (modem_version r) v (_modem_identity_ref r).
Definition set_version (v : option Z) (r : Radio) : Radio :=
  mkRadio (frequency r) (bandwidth r) (spreading_factor r) (coding_rate r) (tx_power r) (is_configured r) v (modem_identity r) (_modem_identity_ref r).
Definition set_identity_ref (v : option bytes) (r : Radio) : Radio :=
  mkRadio (frequency r) (bandwidth r) (spreading_factor r) (coding_rate r) (tx_power r) (is_configured r) (modem_version r) (modem_identity r) v.

Definition get_identity : py t (option bytes) :=
  p ← request fuel me HW_CMD_GET_IDENTITY [] RESPONSE_TIMEOUT HW_RESP_IDENTITY;
  match exactly 32 p with
  | Some key => set_radio (set_identity (Some key));; mret (Some key)
  | None => mret None
  end.

Definition get_random (length : Z) : py t (option bytes) :=
  if (length <? 1) || (length >? 64) then mret None
  else request fuel me HW_CMD_GET_RANDOM [length] RESPONSE_TIMEOUT HW_RESP_RANDOM.

Definition sign_data (data : bytes) : py t (option bytes) :=
  p ← request fuel me HW_CMD_SIGN_DATA data RESPONSE_TIMEOUT HW_RESP_SIGNATURE;
  mret (exactly 64 p).

Definition verify_signature (pubkey signature data : bytes) : py t (option bool) :=
  if negb (len pubkey =? 32) || negb (len signature =? 64) then mret None
  else
    p ← request fuel me HW_CMD_VERIFY_SIGNATURE (pubkey ++ signature ++ data) RESPONSE_TIMEOUT HW_RESP_VERIFY;
    mret (at_least 1 (fun b => byte0 b =? 1) p).

Definition encrypt_data (key plaintext : bytes) : py t (option (bytes * bytes)) :=
  if negb (len key =? 32) then mret None
  else
    p ← request fuel me HW_CMD_ENCRYPT_DATA (key ++ plaintext) RESPONSE_TIMEOUT HW_RESP_ENCRYPTED;
    mret (at_least 2 (fun b => (slice b 0 2, slice_from b 2)) p).

Definition decrypt_data (key mac ciphertext : bytes) : py t (option bytes) :=
  if negb (len key =? 32) || negb (len mac =? 2) then mret None
  else request fuel me HW_CMD_DECRYPT_DATA (key ++ mac ++ ciphertext) RESPONSE_TIMEOUT HW_RESP_DECRYPTED.

Definition key_exchange (remote_pubkey : bytes) : py t (option bytes) :=
  if negb (len remote_pubkey =? 32) then mret None
  else
    p ← request fuel me HW_CMD_KEY_EXCHANGE remote_pubkey RESPONSE_TIMEOUT HW_RESP_SHARED_SECRET;
    mret (exactly 32 p).

Definition hash_data (data : bytes) : py t (option bytes) :=
  p ← request fuel me HW_CMD_HASH data RESPONSE_TIMEOUT HW_RESP_HASH;
  mret (exactly 32 p).

(** *** KISS settings *)

Definition kiss_setting (cmd value : Z) : py t bool := _write_frame (_encode_kiss_frame cmd [value]).

Definition _set_kiss_tx_delay (delay_ms : Z) : py t unit :=
  kiss_setting KISS_CMD_TXDELAY (Z.max 1 (Z.min 255 (delay_ms / 10)));; mret tt.

Definition set_kiss_persistence (value : Z) : py t bool := kiss_setting KISS_CMD_PERSISTENCE (Z.max 0 (Z.min 255 value)).

Definition set_kiss_slottime (slottime_ms : Z) : py t bool :=
  kiss_setting KISS_CMD_SLOTTIME (Z.max 0 (Z.min 255 (slottime_ms / 10))).

Definition set_kiss_txtail (txtail_ms : Z) : py t bool :=
  kiss_setting KISS_CMD_TXTAIL (Z.max 0 (Z.min 255 (txtail_ms / 10))).

Definition set_kiss_full_duplex (full_duplex : bool) : py t bool :=
  kiss_setting KISS_CMD_FULLDUPLEX (if full_duplex then 1 else 0).

(** *** Configuration *)

(** [int(869.618 * 1000000)] *)
Definition DEFAULT_FREQUENCY : Z :=
  match int_of_float (fmul (f_dec 869618 3) (f_of_Z 1000000)) with Ok z => z | Err _ => 0 end.

Definition power_of (c : Config) : Z := default (default 22 (cfg_tx_power c)) (cfg_power c).

Definition applied (freq bw sf cr power : Z) (r : Radio) : Radio :=
  mkRadio freq bw sf cr power true (modem_version r) (modem_identity r) (_modem_identity_ref r).

Definition configure_radio (freq bw sf cr : option Z) : py t bool :=
  s ← get;
  if negb (serial_open (line s)) then mret false
  else
    py_try
      (let c := config s in
       let frequency_hz := default (default DEFAULT_FREQUENCY (cfg_frequency c)) freq in
       let bandwidth_hz := default (default 62500 (cfg_bandwidth c)) bw in
       let sf := default (default 8 (cfg_spreading_factor c)) sf in
       let cr := default (default 8 (cfg_coding_rate c)) cr in
       let power := power_of c in
       radio_data ← lift (a ← pack_I frequency_hz; b ← pack_I bandwidth_hz; c ← pack_B sf; d ← pack_B cr; mret (a ++ b ++ c ++ d));
       r ← _send_command fuel me HW_CMD_SET_RADIO radio_data RESPONSE_TIMEOUT;
       if negb (accepted r) then mret false
       else
         power_data ← lift (bytes_of_ints [power]);
         r ← _send_command fuel me HW_CMD_SET_TX_POWER power_data RESPONSE_TIMEOUT;
         if negb (accepted r) then mret false
         else set_radio (applied frequency_hz bandwidth_hz sf cr power);; mret true)
      (mret false).

Definition _query_modem_info : py t unit :=
  py_try
    (p ← request fuel me HW_CMD_GET_VERSION [] RESPONSE_TIMEOUT HW_RESP_VERSION;
     (match at_least 1 byte0 p with Some v => set_radio (set_version (Some v)) | None => mret tt end);;
     p ← request fuel me HW_CMD_GET_IDENTITY [] RESPONSE_TIMEOUT HW_RESP_IDENTITY;
     (match exactly 32 p with Some key => set_radio (set_identity (Some key)) | None => mret tt end);;
     get_device_name;;
     mret tt)
    (mret tt).

(** The attempts of [_wait_for_modem_ready] and [_configure_radio_with_retries]. *)
Fixpoint attempts (n : nat) (deadline : float) (m : py t bool) : py t bool :=
  match n with
  | O => mret false
  | S n =>
      s ← get;
      if _shutting_down (line s) then mret false
      else
        ok ← m;
        if (ok : bool) then mret true
        else
          now ← time_monotonic;
          if fleb (fsub deadline now) f_zero then mret false
          else pass_time;; attempts n deadline m
  end.

Definition ping_once : py t bool :=
  p ← request fuel me HW_CMD_PING [] (f_of_Z 1) HW_RESP_PONG;
  mret (match p with Some _ => true | None => false end).

(** The resynchronisation writes a FEND; its failure is ignored. *)
Definition _wait_for_modem_ready : py t bool :=
  s ← get;
  if negb (serial_open (line s)) then mret false
  else
    pass_time;;
    n ← reading serial_write;
    (match n with Some _ => modify (fun s => with_wire (wire s ++ [KISS_FEND]) s) | None => mret tt end);;
    now ← time_monotonic;
    s ← get;
    attempts (connect_retries s) (fadd now (startup_retry_budget_sec s)) ping_once.

Definition _configure_radio_with_retries : py t bool :=
  now ← time_monotonic;
  s ← get;
  attempts (connect_retries s) (fadd now (startup_retry_budget_sec s)) (configure_radio None None None None).

(** [has_config]: the configuration is not empty. *)
Definition has_config (c : Config) : bool :=
  match c with mkConfig None None None None None None None None None None None None None => false | _ => true end.

Definition if_given {A} (o : option A) (f : A → py t bool) : py t unit :=
  match o with Some v => f v;; mret tt | None => mret tt end.

Definition _run_post_connect_handshake : py t bool :=
  pass_time;;
  s ← get;
  let c := config s in
  ok ← (if auto_configure s && has_config c then _configure_radio_with_retries else mret true);
  if negb ok then mret false
  else
    _query_modem_info;;
    _set_kiss_tx_delay (default 50 (cfg_tx_delay_ms c));;
    if_given (cfg_kiss_persistence c) set_kiss_persistence;;
    if_given (cfg_kiss_slottime_ms c) set_kiss_slottime;;
    if_given (cfg_kiss_txtail_ms c) set_kiss_txtail;;
    if_given (cfg_kiss_full_duplex c) set_kiss_full_duplex;;
    mret true.

Definition _open_serial_and_start_threads : py t bool :=
  modify (on_line (fun l => set_stopping (stop_event l) false l));;
  modify _clear_pending_rx;;
  opened ← reading open_works;
  if negb opened then modify (on_line (fun l => set_connected false (set_degraded (_degraded l) (Some "cannot open") l)));; mret false
  else
    modify (on_line (fun l => set_connected false (set_open true l)));;
    ready ← _wait_for_modem_ready;
    if negb ready then mret false
    else reading rx_alive.

Definition _remember_modem_identity (r : Radio) : Radio :=
  match modem_identity r with Some key => set_identity_ref (Some key) r | None => r end.

Definition _modem_identity_matches (r : Radio) : bool :=
  match _modem_identity_ref r, modem_identity r with
  | Some expected, Some actual => bytes_eqb actual expected
  | _, _ => true
  end.

Definition connect : py t bool :=
  modify (on_line (fun l => set_connected false (set_stopping false (_shutting_down l) l)));;
  opened ← _open_serial_and_start_threads;
  if negb opened then mret false
  else
    ok ← _run_post_connect_handshake;
    if negb ok then modify (on_line (fun l => set_connected false (set_open false l)));; mret false
    else
      modify (on_line (fun l => mkLine true false None false (stop_event l) (_shutting_down l) (serial_open l)));;
      set_radio _remember_modem_identity;;
      mret true.

Definition begin : py t unit :=
  success ← connect;
  if negb success then raise (OtherError "Failed to initialize KISS modem") else mret tt.

(** The ports of an attempt to reconnect: the configured one first, then the others
    with its identity, which must belong to the same modem. *)
Fixpoint try_ports (n : nat) (first : bool) : py t bool :=
  modify (on_line (set_open false));;
  opened ← _open_serial_and_start_threads;
  done ← (if negb opened then mret false
          else
            ok ← _run_post_connect_handshake;
            s ← get;
            if negb ok || (negb first && negb (_modem_identity_matches (radio s)))
            then modify (on_line (fun l => set_connected false (set_open false l)));; mret false
            else
              modify (on_line (fun l => mkLine true false None (_reconnecting l) (stop_event l) (_shutting_down l) (serial_open l)));;
              set_radio _remember_modem_identity;;
              mret true);
  if (done : bool) then mret true
  else match n with O => mret false | S n => try_ports n false end.

(** The attempts of [_reconnect_loop]; [most] bounds their number, if it is not 0.
    [None]: the fuel is used up. *)
Fixpoint _reconnect_loop (turns : nat) (count most : Z) : py t (option bool) :=
  s ← get;
  if stop_event (line s) then mret (Some false)
  else if (most >? 0) && (count + 1 >? most) then mret (Some false)
  else
    match turns with
    | O => mret None
    | S turns =>
        (if count + 1 >? 1 then pass_time else mret tt);;
        s ← get;
        if stop_event (line s) then mret (Some false)
        else
          modify (on_line (set_connected false));;
          n ← reading alternates;
          ok ← try_ports n true;
          if (ok : bool) then mret (Some true) else _reconnect_loop turns (count + 1) most
    end.

(** [_reconnect_worker] releases its gate however the loop ends. *)
Definition _reconnect_worker (turns : nat) (most : Z) : py t (option bool) :=
  try_finally (_reconnect_loop turns 0 most) (on_line (set_reconnecting false)).

Definition check_radio_health : py t bool :=
  s ← get;
  if negb (is_connected (line s)) then mret false
  else
    py_try
      (healthy ← ping;
       (if (healthy : bool) then mret tt else _mark_serial_failure "Health check ping failed");;
       mret healthy)
      (_mark_serial_failure "Health check exception";; mret false).

(** *** Sending *)

Definition LBT_RETRY_DELAYS_MS : list Z := [120; 240; 360].
Definition LBT_MAX_WAIT_MS : Z := 4000.

(** The delays are whole milliseconds, so their sum in binary64 is exact.
    [None]: the fuel is used up. *)
Fixpoint lbt_wait (turns : nat) (total_wait_ms : Z) (delays : list Z) : py t (option (list Z)) :=
  if total_wait_ms >=? LBT_MAX_WAIT_MS then mret (Some delays)
  else
    match turns with
    | O => mret None
    | S turns =>
        busy ← py_try (b ← is_channel_busy None; mret (Some b)) (mret None);
        match busy with
        | Some true =>
            k ← reading choice;
            let retry_delay_ms := nth (k mod 3) LBT_RETRY_DELAYS_MS 120 in
            let backoff_ms := Z.min retry_delay_ms (LBT_MAX_WAIT_MS - total_wait_ms) in
            pass_time;;
            lbt_wait turns (total_wait_ms + backoff_ms) (delays ++ [backoff_ms])
        | _ => mret (Some delays)
        end
    end.

(** 34 turns of at least 120 ms, the last but cut short, pass 4 s. *)
Definition _prepare_for_tx_lbt : py t (option (list Z)) := lbt_wait 34 0 [].

Record SendReport : Type := mkSent { airtime_ms : Z; lbt_attempts : Z; lbt_backoff_delays_ms : list Z; lbt_channel_busy : bool }.

(** [None]: the fuel is used up. *)
Definition send (data : bytes) : py t (option SendReport) :=
  s ← get;
  delays ← (if lbt_enabled s then _prepare_for_tx_lbt else mret (Some []));
  match delays with
  | None => mret None
  | Some delays =>
      r ← send_frame_and_wait fuel me data RESPONSE_TIMEOUT;
      match r with
      | None => mret None
      | Some (false, _) => raise (OtherError "Failed to send frame via KISS modem")
      | Some (true, _) =>
          airtime ← get_airtime (len data) (Some (f_of_Z 1));
          s ← get;
          ms ← (match airtime with
                | Some a => mret a
                | None => lift (x ← estimate_airtime_ms (len data) (Some (airtime_config (config s))); int_of_float x)
                end);
          mret (Some (mkSent ms (len delays) delays (bool_decide (delays ≠ []))))
      end
  end.

End operations.

End driver.
End KissModem.
