(* ===== verification/KissModemLink.v ===== *)
(** * The KISS modem: properties

    The decoder on a stream, packets and their metrics in order, what confirms a
    transmission, what answers a command, and that waits end. *)

From S2P Require Import Prelude PyData PyFloat Kiss KissModem.

Import KissModem.

(** ** The decoder byte by byte *)

Definition bulk_byte (d : decoder) (b : Z) : decoder * list event :=
  if escaped d then escaped_byte (mkDecoder (rx_frame_buffer d) (in_frame d) false) b else _decode_kiss_byte d b.

(** The steps of a decoder over some bytes. *)
Fixpoint feed (step : decoder → Z → decoder * list event) (data : bytes) (d : decoder) : decoder * list event :=
  match data with
  | [] => (d, [])
  | b :: data => let '(d, l) := step d b in let '(d, l') := feed step data d in (d, l ++ l')
  end.

Lemma feed_app step a b d :
  feed step (a ++ b) d = let '(d1, l1) := feed step a d in let '(d2, l2) := feed step b d1 in (d2, l1 ++ l2).
Proof.
  revert d. induction a as [|x a IH]; intros d; cbn [app feed]; [by destruct (feed step b d)|].
  destruct (step d x) as [d1 l1]. rewrite IH. destruct (feed step a d1) as [d2 l2]. destruct (feed step b d2) as [d3 l3].
  by rewrite app_assoc.
Qed.

Lemma modem_bulk_plain d b :
  escaped d = false → Kiss.plain b →
  bulk_byte d b =
    if in_frame d then
      if len (rx_frame_buffer d) >=? MAX_FRAME_SIZE then (mkDecoder [] false false, [FrameError])
      else (mkDecoder (rx_frame_buffer d ++ [b]) true false, [])
    else (d, []).
Proof.
  intros He [H1 H2]. unfold bulk_byte, _decode_kiss_byte. rewrite He.
  change (b ≠ KISS_FEND) in H1. change (b ≠ KISS_FESC) in H2.
  rewrite (proj2 (Z.eqb_neq _ _) H1), (proj2 (Z.eqb_neq _ _) H2). by destruct (in_frame d).
Qed.

Lemma feed_outside run d :
  escaped d = false → in_frame d = false → Forall Kiss.plain run → feed bulk_byte run d = (d, []).
Proof.
  intros He Hi. induction 1 as [|b run Hb _ IH]; [done|]. cbn [feed]. by rewrite modem_bulk_plain, Hi, IH.
Qed.

Lemma feed_run run d : escaped d = false → Forall Kiss.plain run → feed bulk_byte run d = add_run run d.
Proof.
  intros He Hr. revert d He. induction Hr as [|b run Hb Hr IH]; intros d He; [done|].
  cbn [feed]. rewrite modem_bulk_plain by done. unfold add_run. pose proof (len_nonneg run). rewrite len_cons.
  replace (1 + len run >? 0) with true by lia. cbn [andb]. destruct (in_frame d) eqn:Ei; [|by rewrite feed_outside].
  destruct (len (rx_frame_buffer d) >=? MAX_FRAME_SIZE) eqn:Ef; bool_hyps.
  - rewrite feed_outside by done. replace (1 + len run <=? _) with false by lia. by rewrite He.
  - rewrite IH by done. unfold add_run. cbn [in_frame rx_frame_buffer escaped]. rewrite len_app. change (len [b]) with 1. rewrite andb_true_r.
    destruct (len run >? 0) eqn:El; bool_hyps.
    + replace (1 + len run <=? _) with (len run <=? MAX_FRAME_SIZE - (len (rx_frame_buffer d) + 1)) by lia.
      rewrite He. destruct (_ <=? _); [|done]. by rewrite <- app_assoc.
    + replace (1 + len run <=? _) with true by lia. assert (run = []) as -> by (apply len_zero_iff; lia). by rewrite He.
Qed.

Lemma add_run_escaped run d d' l : escaped d = false → add_run run d = (d', l) → escaped d' = false.
Proof. intros He. unfold add_run. repeat case_match; intros [= <- <-]; cbn; done. Qed.

(** The bulk decoder is the fold of its byte step; its fuel is enough. *)
Lemma decode_loop_feed fuel data d out :
  (length data ≤ fuel)%nat → decode_loop fuel data d out = let '(d', l) := feed bulk_byte data d in (d', out ++ l).
Proof.
  revert data d out. induction fuel as [|fuel IH]; intros data d out Hf; destruct data as [|b rest]; [cbn; by rewrite app_nil_r|cbn in Hf; lia|cbn; by rewrite app_nil_r|].
  cbn [decode_loop]. destruct (escaped d) eqn:He.
  - cbn [length] in Hf. cbn [feed]. unfold bulk_byte at 1. rewrite He. destruct (escaped_byte _ b) as [d1 l1]. rewrite IH by lia.
    destruct (feed bulk_byte rest d1) as [d2 l2]. by rewrite app_assoc.
  - pose proof (Kiss.next_delimiter_spec (b :: rest)) as Hn. destruct (Kiss.next_delimiter (b :: rest)) as [n|].
    2: { rewrite feed_run by done. by destruct (add_run _ d). }
    destruct Hn as (Hp & x & rest' & Hd & Hx). 
    replace (feed bulk_byte (b :: rest) d) with (feed bulk_byte (take n (b :: rest) ++ drop n (b :: rest)) d) by (by rewrite take_drop).
    rewrite feed_app, (feed_run (take n (b :: rest))) by done.
    destruct (add_run (take n (b :: rest)) d) as [d1 l1] eqn:Hrun. pose proof (add_run_escaped _ _ _ _ He Hrun) as He1. rewrite Hd.
    assert (length rest' ≤ fuel)%nat as Hl by (apply (f_equal length) in Hd; rewrite length_drop in Hd; cbn [length] in *; lia).
    cbn [feed]. unfold bulk_byte at 1. rewrite He1. unfold _decode_kiss_byte.
    destruct Hx as [->| ->]; [change (Kiss.KISS_FEND =? KISS_FEND) with true|change (Kiss.KISS_FESC =? KISS_FEND) with false; change (Kiss.KISS_FESC =? KISS_FESC) with true]; cbv iota.
    + destruct (end_frame d1) as [d2 l2]. rewrite IH by done. destruct (feed bulk_byte rest' d2) as [d3 l3]. by rewrite <- !app_assoc.
    + rewrite IH by done. destruct (feed bulk_byte rest' _) as [d3 l3]. by rewrite <- !app_assoc.
Qed.

Lemma decode_feed data d : _decode_kiss data d = feed bulk_byte data d.
Proof. unfold _decode_kiss. rewrite decode_loop_feed by done. by destruct (feed bulk_byte data d). Qed.

(** The decoders agree on the streams in which no FESC is followed by a delimiter. *)
Lemma modem_bulk_escaped d b : escaped (bulk_byte d b).1 = true → b = KISS_FESC.
Proof.
  unfold bulk_byte, _decode_kiss_byte, escaped_byte, end_frame. destruct (escaped d) eqn:He; repeat case_match; cbn; try done; bool_hyps; intros; congruence.
Qed.

Lemma bulk_decoder_equiv data d esc :
  (escaped d = true → esc = true) → Kiss.well_escaped esc data = true → feed bulk_byte data d = feed _decode_kiss_byte data d.
Proof.
  revert d esc. induction data as [|b data IH]; intros d esc Hs Hw; [done|]. cbn [Kiss.well_escaped] in Hw. apply andb_true_iff in Hw as [Hb Hw].
  assert (bulk_byte d b = _decode_kiss_byte d b) as Hsame.
  { unfold bulk_byte, _decode_kiss_byte. destruct (escaped d) eqn:He; [|done]. rewrite (Hs eq_refl) in Hb. apply negb_true_iff, orb_false_iff in Hb as [H1 H2].
    change (Kiss.KISS_FEND) with KISS_FEND in H1. change (Kiss.KISS_FESC) with KISS_FESC in H2. rewrite H1, H2. done. }
  cbn [feed]. rewrite <- Hsame. destruct (bulk_byte d b) as [d1 l1] eqn:Hd1. rewrite (IH d1 (b =? KISS_FESC)); [done| |exact Hw].
  intros He. apply Z.eqb_eq. apply (modem_bulk_escaped d). by rewrite Hd1.
Qed.

(** FESC before FEND: the byte-wise decoder ends the frame, the bulk decoder drops
    it. *)
Example decoders_diverge :
  let data := _encode_kiss_frame CMD_DATA [1; 2] in
  let cut := removelast data ++ [KISS_FESC; KISS_FEND] in
  let d := mkDecoder [] false false in
  (feed _decode_kiss_byte cut d).2 = [Frame [0; 1; 2]] ∧ (_decode_kiss cut d).2 = [FrameError].
Proof. vm_compute. by split. Qed.

(** ** Frames *)

Lemma feed_escape data d :
  escaped d = false → in_frame d = true → len (rx_frame_buffer d) + len data ≤ MAX_FRAME_SIZE →
  feed bulk_byte (Kiss.escape data) d = (mkDecoder (rx_frame_buffer d ++ data) true false, []).
Proof.
  revert d. induction data as [|b data IH]; intros d He Hi Hl.
  { destruct d as [buf inf esc]. cbn in *. subst. by rewrite app_nil_r. }
  rewrite len_cons in Hl. pose proof (len_nonneg data). cbn [Kiss.escape]. rewrite feed_app.
  assert (bulk_byte d Kiss.KISS_FESC = (mkDecoder (rx_frame_buffer d) true true, [])) as Hesc.
  { unfold bulk_byte, _decode_kiss_byte. rewrite He. change (Kiss.KISS_FESC =? KISS_FEND) with false.
    change (Kiss.KISS_FESC =? KISS_FESC) with true. cbv iota. by rewrite Hi. }
  assert (feed bulk_byte (if b =? Kiss.KISS_FEND then [Kiss.KISS_FESC; Kiss.KISS_TFEND]
             else if b =? Kiss.KISS_FESC then [Kiss.KISS_FESC; Kiss.KISS_TFESC] else [b]) d
          = (mkDecoder (rx_frame_buffer d ++ [b]) true false, [])) as ->.
  { destruct (Z.eqb_spec b Kiss.KISS_FEND) as [->|H1]; [|destruct (Z.eqb_spec b Kiss.KISS_FESC) as [->|H2]].
    1,2: cbn [feed]; rewrite Hesc; done.
    cbn [feed]. rewrite modem_bulk_plain, Hi by done. by replace (len (rx_frame_buffer d) >=? MAX_FRAME_SIZE) with false by lia. }
  rewrite IH; [|done|done|cbn; rewrite len_app; change (len [b]) with 1; lia]. cbn. by rewrite <- app_assoc.
Qed.

(** Between frames. *)
Definition between (d : decoder) : Prop := escaped d = false ∧ rx_frame_buffer d = [].

Lemma feed_frame cmd data d :
  between d → Kiss.plain cmd → len data < MAX_FRAME_SIZE →
  feed bulk_byte (_encode_kiss_frame cmd data) d = (mkDecoder [] true false, [Frame (cmd :: data)]).
Proof.
  intros [He Hb] Hc Hl. unfold _encode_kiss_frame. cbn [app feed].
  assert (bulk_byte d KISS_FEND = (mkDecoder [] true false, [])) as ->.
  { unfold bulk_byte, _decode_kiss_byte, end_frame. rewrite He. change (KISS_FEND =? KISS_FEND) with true. cbv iota. rewrite Hb. by rewrite andb_false_r. }
  rewrite modem_bulk_plain by done. cbn [in_frame rx_frame_buffer]. change (len [] >=? MAX_FRAME_SIZE) with false. cbv iota. rewrite feed_app.
  rewrite feed_escape; [|done|done|cbn; unfold len in *; cbn; lia]. cbn [feed]. unfold bulk_byte. cbn [escaped].
  unfold _decode_kiss_byte, end_frame. change (KISS_FEND =? KISS_FEND) with true. cbv iota. cbn [in_frame rx_frame_buffer app].
  pose proof (len_nonneg data). rewrite len_cons. by replace (1 + len data >? 0) with true by lia.
Qed.

(** ** What the modem says *)

(** A packet that was received on the air, or a report. *)
Inductive message : Type :=
| Packet (p : bytes)
| Report (sub_cmd : Z) (payload : bytes).

Definition frame_of (m : message) : bytes :=
  match m with Packet p => CMD_DATA :: p | Report c p => KISS_CMD_SETHARDWARE :: c :: p end.

Definition said (m : message) : bytes :=
  match m with Packet p => _encode_kiss_frame CMD_DATA p | Report c p => _encode_kiss_frame KISS_CMD_SETHARDWARE (c :: p) end.

Definition packets (l : list message) : list bytes :=
  omap (fun m => match m with Packet p => Some p | Report _ _ => None end) l.

Definition short (m : message) : Prop := len (frame_of m) ≤ MAX_FRAME_SIZE.

Lemma feed_stream l d :
  between d → Forall short l → (feed bulk_byte (concat (map said l)) d).2 = map (Frame ∘ frame_of) l.
Proof.
  intros Hd Hl. revert d Hd. induction Hl as [|m l Hm _ IH]; intros d Hd; [done|]. cbn [map concat]. rewrite feed_app.
  assert (feed bulk_byte (said m) d = (mkDecoder [] true false, [Frame (frame_of m)])) as ->.
  { unfold short in Hm. destruct m as [p|c p]; cbn [frame_of] in Hm; rewrite len_cons in Hm; (apply feed_frame; [done|by split|lia]). }
  specialize (IH (mkDecoder [] true false)). destruct (feed bulk_byte (concat (map said l)) _) as [d2 l2]. cbn [snd] in *. by rewrite IH.
Qed.

Section link.
Context `{E : KissEnv}.

(** ** Packets in order *)

(** What was delivered, what waits for its metrics, and the errors counted. *)
Definition view (s : t) : list bytes * list bytes * Z :=
  (map d_payload (delivered s), map fst (pending_rx s), frame_errors (stats s)).

(** The queue of the packets as the messages come: a packet waits, or is counted as
    an error if 64 wait; its metrics release the first; so may the time. *)
Inductive queue : list message → list bytes * list bytes * Z → list bytes * list bytes * Z → Prop :=
| q_done v : queue [] v v
| q_waits p l out waiting n v :
    len waiting < 64 → queue l (out, waiting ++ [p], n) v → queue (Packet p :: l) (out, waiting, n) v
| q_refused p l out waiting n v :
    64 ≤ len waiting → queue l (out, waiting, n + 1) v → queue (Packet p :: l) (out, waiting, n) v
| q_metrics m p l out waiting n v :
    queue l (out ++ [p], waiting, n) v → queue (Report HW_RESP_RX_META m :: l) (out, p :: waiting, n) v
| q_no_packet m l out n v : queue l (out, [], n) v → queue (Report HW_RESP_RX_META m :: l) (out, [], n) v
| q_other c m l v v' : c ≠ HW_RESP_RX_META → queue l v v' → queue (Report c m :: l) v v'
| q_late p l out waiting n v : queue l (out ++ [p], waiting, n) v → queue l (out, p :: waiting, n) v.

Lemma queue_trans l l' v1 v2 v3 : queue l v1 v2 → queue l' v2 v3 → queue (l ++ l') v1 v3.
Proof. intros H H'. induction H; cbn [app]; [done|econstructor; by auto..]. Qed.

Lemma queue_order l out waiting n out' waiting' n' :
  queue l (out, waiting, n) (out', waiting', n') →
  ∃ kept, sublist kept (packets l) ∧ out' ++ waiting' = out ++ waiting ++ kept ∧ n' - n = len (packets l) - len kept.
Proof.
  remember (out, waiting, n) as v eqn:Hv. remember (out', waiting', n') as v' eqn:Hv'. intros H. revert out waiting n Hv out' waiting' n' Hv'.
  induction H; intros o w k Hv o' w' k' Hv'; simplify_eq.
  - exists []. rewrite app_nil_r. split_and!; [done|done|cbn; lia].
  - destruct (IHqueue _ _ _ eq_refl _ _ _ eq_refl) as (kept & Hs & He & Hn). exists (p :: kept).
    split_and!; [by constructor|by rewrite He, <- app_assoc|]. change (packets (Packet p :: l)) with (p :: packets l). rewrite !len_cons. lia.
  - destruct (IHqueue _ _ _ eq_refl _ _ _ eq_refl) as (kept & Hs & He & Hn). exists kept.
    split_and!; [by constructor|done|]. change (packets (Packet p :: l)) with (p :: packets l). rewrite !len_cons. lia.
  - destruct (IHqueue _ _ _ eq_refl _ _ _ eq_refl) as (kept & Hs & He & Hn). exists kept. split_and!; [done|by rewrite He, <- app_assoc|done].
  - by apply IHqueue.
  - by apply IHqueue.
  - destruct (IHqueue _ _ _ eq_refl _ _ _ eq_refl) as (kept & Hs & He & Hn). exists kept. split_and!; [done|by rewrite He, <- app_assoc|done].
Qed.

(** The messages [l] were heard, and nothing of the line changed. *)
Definition moves (l : list message) (s s' : t) : Prop :=
  listening s' = listening s ∧ loop_closed s' = loop_closed s ∧ line s' = line s ∧ queue l (view s) (view s').

Lemma moves_refl s : moves [] s s.
Proof. split_and!; [done..|constructor]. Qed.

Lemma moves_trans l l' s s' s'' : moves l s s' → moves l' s' s'' → moves (l ++ l') s s''.
Proof. intros (H1 & H2 & H3 & H) (H1' & H2' & H3' & H'). split_and!; [congruence..|]. by eapply queue_trans. Qed.

(** A step that leaves packets alone. *)
Lemma moves_same s s' :
  listening s' = listening s → loop_closed s' = loop_closed s → line s' = line s → delivered s' = delivered s → pending_rx s' = pending_rx s →
  frame_errors (stats s') = frame_errors (stats s) → moves [] s s'.
Proof. intros H1 H2 H3 H4 H5 H6. split_and!; [done..|]. unfold view. rewrite H4, H5, H6. constructor. Qed.

Lemma respond_moves c p s : moves [] s (respond c p s).
Proof. unfold respond. destruct (_expected_response_subcmds _) as [l|]; [destruct (bool_decide _)|]; by apply moves_same. Qed.

Lemma data_moves p s : moves [Packet p] s (data_received p s).
Proof.
  unfold data_received. assert (len (map fst (pending_rx s)) = len (pending_rx s)) as Hl by (unfold len; by rewrite length_map).
  destruct (_ >=? _) eqn:Hf; bool_hyps; unfold MAX_PENDING_RX_FRAMES in Hf; (split_and!; [done..|]).
  - apply q_refused; [lia|constructor].
  - apply q_waits; [lia|]. unfold view. cbn. rewrite map_app. constructor.
Qed.

(** The head of the queue is delivered. *)
Lemma delivered_view p x rest rssi snr s :
  listening s = true → loop_closed s = false → pending_rx s = (p, x) :: rest →
  let s' := _dispatch_rx_callback p rssi snr (with_pending_rx rest s) in
  listening s' = listening s ∧ loop_closed s' = loop_closed s ∧ line s' = line s
  ∧ view s = (map d_payload (delivered s), p :: map fst rest, frame_errors (stats s))
  ∧ view s' = (map d_payload (delivered s) ++ [p], map fst rest, frame_errors (stats s)).
Proof.
  intros Hl Hc Hp. unfold _dispatch_rx_callback. cbn [listening loop_closed with_pending_rx]. rewrite Hl, Hc. cbn [negb orb].
  unfold view. cbn. rewrite Hp, map_app. split_and!; done.
Qed.

Lemma meta_moves p s : listening s = true → loop_closed s = false → moves [Report HW_RESP_RX_META p] s (meta_received p s).
Proof.
  intros Hl Hc. unfold meta_received.
  assert (∀ rssi snr s1, moves [] s s1 → pending_rx s1 = pending_rx s →
    moves [Report HW_RESP_RX_META p] s match pending_rx s1 with (d, _) :: rest => let s2 := with_pending_rx rest s1 in if listening s2 then _dispatch_rx_callback d rssi snr s2 else s2 | [] => s1 end) as H.
  { intros rssi snr s1 Hs1 Hp. change [Report HW_RESP_RX_META p] with ([] ++ [Report HW_RESP_RX_META p]).
    pose proof Hs1 as (H1 & H2 & _). eapply moves_trans; [exact Hs1|]. rewrite Hl in H1. rewrite Hc in H2. clear Hs1 Hp.
    destruct (pending_rx s1) as [|[d x] rest] eqn:Hq.
    - split_and!; [done..|]. unfold view. rewrite Hq. apply q_no_packet. constructor.
    - cbv zeta. cbn [listening with_pending_rx]. rewrite H1.
      destruct (delivered_view d x rest rssi snr s1 H1 H2 Hq) as (? & ? & ? & Hv & Hv'). split_and!; [done..|].
      rewrite Hv, Hv'. apply q_metrics. constructor. }
  destruct p as [|a [|b p]]; (apply H; [|done]); [apply moves_refl..|by apply moves_same].
Qed.

Lemma frame_moves m s : listening s = true → loop_closed s = false → moves [m] s (handle (Frame (frame_of m)) s).
Proof.
  intros Hl Hc. destruct m as [p|c p]; cbn [handle frame_of].
  - change (_process_received_frame (CMD_DATA :: p) s) with (data_received p (count_received (len p) s)).
    change [Packet p] with ([] ++ [Packet p]). eapply moves_trans; [by apply (moves_same s (count_received (len p) s))|apply data_moves].
  - set (s1 := with_heard (heard s ++ [(c, p)]) (count_received (len (c :: p)) s)).
    change (_process_received_frame (KISS_CMD_SETHARDWARE :: c :: p) s) with
      (if c =? HW_RESP_RX_META then meta_received p s1 else if c =? HW_RESP_TX_DONE then tx_done_received p s1
       else if c =? HW_RESP_ERROR then error_received p s1 else respond c p s1).
    change [Report c p] with ([] ++ [Report c p]). eapply moves_trans; [by apply (moves_same s s1)|].
    destruct (Z.eqb_spec c HW_RESP_RX_META) as [->|Hm]; [by apply meta_moves|].
    assert (∀ s2, moves [] s1 s2 → moves [Report c p] s1 s2) as Hq.
    { intros s2 (H1 & H2 & H3 & H4). split_and!; [done..|]. by apply q_other. }
    apply Hq. destruct (c =? HW_RESP_TX_DONE); [destruct p; by apply moves_same|].
    destruct (c =? HW_RESP_ERROR); [|apply respond_moves]. unfold error_received. destruct p as [|b p]; [apply respond_moves|].
    destruct (b =? HW_ERR_TX_BUSY); [by apply moves_same|]. change (@nil message) with (@nil message ++ []).
    eapply moves_trans; [by apply (moves_same s1 (count_modem_error false s1))|apply respond_moves].
Qed.

Lemma frames_moves l s :
  listening s = true → loop_closed s = false → moves l s (fold_left (λ s e, handle e s) (map (Frame ∘ frame_of) l) s).
Proof.
  revert s. induction l as [|m l IH]; intros s Hl Hc; [apply moves_refl|]. cbn [map fold_left]. pose proof (frame_moves m s Hl Hc) as Hm.
  change (m :: l) with ([m] ++ l). eapply moves_trans; [exact Hm|]. destruct Hm as (H1 & H2 & _). apply IH; cbn [compose]; congruence.
Qed.

Lemma flush_moves fuel now s : listening s = true → loop_closed s = false → moves [] s (flush_expired fuel now s).
Proof.
  revert s. induction fuel as [|fuel IH]; intros s Hl Hc; [apply moves_refl|]. cbn [flush_expired]. destruct (pending_rx s) as [|[p x] rest] eqn:Hp; [apply moves_refl|].
  destruct (fltb now x); [apply moves_refl|]. cbv zeta. cbn [listening count_rx_packet with_stats with_pending_rx]. rewrite Hl.
  destruct (delivered_view p x rest (-999) (f_of_Z (-999)) s Hl Hc Hp) as (? & ? & ? & Hv & Hv').
  set (s1 := _dispatch_rx_callback p (-999) (f_of_Z (-999)) (with_pending_rx rest s)) in *.
  assert (moves [] s s1) as Hm by (split_and!; [done..|]; rewrite Hv, Hv'; apply q_late; constructor).
  change (@nil message) with (@nil message ++ []). eapply moves_trans; [exact Hm|].
  change (@nil message) with (@nil message ++ []). eapply moves_trans; [apply (moves_same _ (_dispatch_rx_callback p (-999) (f_of_Z (-999)) (count_rx_packet (with_pending_rx rest s))))|];
    try (unfold s1, _dispatch_rx_callback; cbn; rewrite Hl, Hc; done).
  apply IH; unfold _dispatch_rx_callback; cbn; by rewrite Hl, Hc.
Qed.

(** Chunks and flushes, with the bytes that are received. *)
Definition reads_only (a : activity) : Prop := match a with Received _ | Flush => True | _ => False end.

Definition received (acts : list activity) : bytes :=
  concat (map (fun a => match a with Received c => c | _ => [] end) acts).

Definition run_all (acts : list activity) (s : t) : t := fold_left (λ s a, act a s) acts s.

Lemma flush_rx fuel now s : rx (flush_expired fuel now s) = rx s.
Proof.
  revert s. induction fuel as [|fuel IH]; intros s; [done|]. cbn [flush_expired]. destruct (pending_rx s) as [|[p x] rest]; [done|].
  destruct (fltb now x); [done|]. cbv zeta. rewrite IH. unfold _dispatch_rx_callback. by repeat case_match.
Qed.

(** What is received is what the frames of the stream say, in turns. *)
Lemma acts_moves acts l s :
  listening s = true → loop_closed s = false → worker_runs (line s) = true → Forall reads_only acts →
  (feed bulk_byte (received acts) (rx s)).2 = map (Frame ∘ frame_of) l → moves l s (run_all acts s).
Proof.
  intros Hl Hc Ho Ha. revert l s Hl Hc Ho. induction Ha as [|a acts Ha _ IH]; intros l s Hl Hc Ho He.
  { destruct l as [|m l]; [apply moves_refl|done]. }
  cbn [run_all fold_left]. destruct a as [c| | | | |]; try done; cbn [act].
  - rewrite Ho. unfold received in He. cbn [map concat] in He. rewrite feed_app in He. unfold receive. rewrite decode_feed.
    destruct (feed bulk_byte c (rx s)) as [d1 e1]. fold (received acts) in He.
    destruct (feed bulk_byte (received acts) d1) as [d2 e2] eqn:H2. cbn [snd] in He. symmetry in He. apply map_eq_app in He as (l1 & l2 & -> & <- & <-).
    set (s1 := fold_left _ _ s). pose proof (frames_moves l1 s Hl Hc : moves l1 s s1) as H1.
    assert (moves l1 s (with_rx d1 s1)) as H1' by exact H1.
    eapply moves_trans; [exact H1'|]. destruct H1 as (Ha1 & Ha2 & Ha3 & _).
    apply (IH l2 (with_rx d1 s1)); cbn; [congruence|congruence|by rewrite Ha3|by rewrite H2].
  - rewrite Ho. unfold _flush_expired_rx_frames. set (s1 := with_reads (S (reads s)) s). set (s2 := flush_expired _ _ s1).
    assert (moves [] s s2) as H2.
    { change (@nil message) with (@nil message ++ []). eapply moves_trans; [by apply (moves_same s s1)|by apply flush_moves]. }
    change l with ([] ++ l). eapply moves_trans; [exact H2|]. destruct H2 as (Ha1 & Ha2 & Ha3 & _).
    apply IH; [congruence|congruence|by rewrite Ha3|]. unfold s2. rewrite flush_rx. exact He.
Qed.

(** C22: the packets of the modem come in order, none twice, and none is lost but
    those that find 64 packets waiting. Whatever packets and reports the modem
    says, in well-formed frames of at most 512 bytes, however its bytes are cut
    into chunks and whenever packets without metrics are flushed, the receive
    thread of a listening driver is this queue: a packet that finds fewer than 64
    waiting waits at the end, one that finds 64 is dropped and counted as an error;
    the report of metrics delivers the first that waits, any other report delivers
    and drops nothing, and a packet whose metrics are late is delivered without
    them in its turn. So what was delivered and what waits are the packets received
    in their order but for those dropped, each of which is one error. *)
Theorem modem_packets_ordered acts l s :
  listening s = true → loop_closed s = false → worker_runs (line s) = true → between (rx s) →
  Forall reads_only acts → Forall short l → received acts = concat (map said l) →
  let s' := run_all acts s in
  queue l (view s) (view s')
  ∧ ∃ kept, sublist kept (packets l)
    ∧ map d_payload (delivered s') ++ map fst (pending_rx s') = map d_payload (delivered s) ++ map fst (pending_rx s) ++ kept
    ∧ frame_errors (stats s') - frame_errors (stats s) = len (packets l) - len kept.
Proof.
  intros Hl Hc Ho Hd Ha Hs Hr s'. destruct (acts_moves acts l s Hl Hc Ho Ha) as (_ & _ & _ & Hq).
  { rewrite Hr. by apply feed_stream. }
  split; [exact Hq|]. by eapply queue_order.
Qed.

(** ** What other threads may do to a caller *)

(** More is heard and written; a response or a TX_DONE that appears was heard. *)
Definition later (s s' : t) : Prop :=
  (reads s ≤ reads s')%nat ∧
  ∃ l w, heard s' = heard s ++ l ∧ wire s' = wire s ++ w
    ∧ _expected_response_subcmds (responses s') = _expected_response_subcmds (responses s)
    ∧ (∀ r, r ∈ _response_queue (responses s') → r ∈ _response_queue (responses s) ∨ r ∈ l)
    ∧ (∀ r, _pending_response (responses s') = Some r →
         _pending_response (responses s) = Some r ∨ r ∈ l ∧ ∃ ok, _expected_response_subcmds (responses s) = Some ok ∧ r.1 ∈ ok)
    ∧ (∀ b, _tx_done_result (transmit s') = Some b →
         _tx_done_result (transmit s) = Some b ∨ ∃ c p, (HW_RESP_TX_DONE, c :: p) ∈ l ∧ b = (c =? 1)).

Ltac nothing_new := split_and!; [done..|by intros; left|by intros; left|by intros; left].

#[local] Instance later_preorder : PreOrder later.
Proof.
  split.
  - intros s. split; [done|]. exists [], []. rewrite !app_nil_r. nothing_new.
  - intros x y z (Hn & l & w & Hh & Hw & He & Hq & Hp & Ht) (Hn' & l' & w' & Hh' & Hw' & He' & Hq' & Hp' & Ht').
    split; [lia|]. exists (l ++ l'), (w ++ w').
    split_and!; [by rewrite Hh', Hh, app_assoc|by rewrite Hw', Hw, app_assoc|congruence| | |].
    + intros r Hr. rewrite elem_of_app. apply Hq' in Hr as [Hr|Hr]; [apply Hq in Hr|]; tauto.
    + intros r Hr. rewrite elem_of_app. apply Hp' in Hr as [Hr|[Hr Hok]]; [apply Hp in Hr; tauto|]. rewrite He in Hok. tauto.
    + intros b Hb. apply Ht' in Hb as [Hb|(c & p & Hc & ->)].
      * apply Ht in Hb as [Hb|(c & p & Hc & ->)]; [by left|right]. exists c, p. split; [apply elem_of_app; by left|done].
      * right. exists c, p. split; [apply elem_of_app; by right|done].
Qed.

(** A step that does none of this. *)
Lemma later_same s s' :
  heard s' = heard s → wire s' = wire s → responses s' = responses s → _tx_done_result (transmit s') = _tx_done_result (transmit s) →
  (reads s ≤ reads s')%nat → later s s'.
Proof. intros H1 H2 H3 H4 H5. split; [done|]. exists [], []. rewrite H1, H2, H3, H4, !app_nil_r. nothing_new. Qed.

Ltac same := apply later_same; [done..|first [apply Nat.le_refl|cbn; lia]].

Lemma keeps_later_reading {A} (f : nat → A) : keeps later (reading f).
Proof. unfold reading. apply keeps_get_bind. intros s. change (later s (with_reads (S (reads s)) s)). same. Qed.

Lemma later_wake s : later s (wake_sender s).
Proof. same. Qed.

Lemma keeps_failure reason : keeps later (_mark_serial_failure reason).
Proof.
  unfold _mark_serial_failure. keeps; try apply keeps_later_reading; intros s'; try same.
  unfold _start_reconnect_worker. destruct (_ || _); same.
Qed.

Lemma keeps_write_rest fuel rest : keeps later (write_rest fuel rest).
Proof.
  revert rest. induction fuel as [|fuel IH]; intros rest; destruct rest as [|b rest]; cbn [write_rest]; keeps;
    try apply keeps_later_reading; try apply keeps_failure; try apply IH.
  intros s. split; [done|]. eexists [], _. rewrite app_nil_r. cbn. nothing_new.
Qed.

Lemma keeps_modem_write frame : keeps later (_write_frame frame).
Proof. unfold _write_frame. keeps; try apply keeps_write_rest; try apply keeps_failure; apply keeps_later_reading. Qed.

(** [s1] has heard a frame that [s] has not. *)
Definition hears (c : Z) (p : bytes) (s s1 : t) : Prop :=
  heard s1 = heard s ++ [(c, p)] ∧ wire s1 = wire s ∧ responses s1 = responses s
  ∧ _tx_done_result (transmit s1) = _tx_done_result (transmit s) ∧ reads s1 = reads s.

Lemma hears_later c p s s1 : hears c p s s1 → later s s1.
Proof.
  intros (H1 & H2 & H3 & H4 & H5). split; [by rewrite H5|]. exists [(c, p)], []. rewrite H1, H2, H3, H4, app_nil_r. nothing_new.
Qed.

Lemma queued_or_heard (r x : Z * bytes) q : r ∈ (if len q =? 32 then drop 1 q ++ [x] else q ++ [x]) → r ∈ q ∨ r ∈ [x].
Proof.
  destruct (_ =? 32); rewrite elem_of_app; intros [H|H]; [|by right|by left|by right].
  left. rewrite <- (take_drop 1 q), elem_of_app. by right.
Qed.

(** A response that is heard reaches the waiter only if it is expected. *)
Lemma respond_later c p s s1 : hears c p s s1 → later s (respond c p s1).
Proof.
  intros (H1 & H2 & H3 & H4 & H5). unfold respond. rewrite H3.
  destruct (_expected_response_subcmds (responses s)) as [ok|] eqn:He; [destruct (bool_decide (c ∈ ok)) eqn:Hc; [apply bool_decide_eq_true in Hc|]|];
    (split; [cbn; by rewrite H5|]); exists [(c, p)], []; rewrite app_nil_r;
    cbn [heard wire transmit responses with_responses _expected_response_subcmds _pending_response _response_queue]; rewrite ?H1, ?H2, ?H4, ?He;
    (split_and!; [done|done|done|intros r Hr; first [by left|by apply queued_or_heard]| |by intros; left]); [|by intros; left..].
  intros r [= <-]. right. split; [by left|]. by exists ok.
Qed.

Lemma tx_done_later p s s1 : hears HW_RESP_TX_DONE p s s1 → later s (tx_done_received p s1).
Proof.
  intros H. pose proof H as (H1 & H2 & H3 & H4 & H5). destruct p as [|c p].
  { etransitivity; [by apply (hears_later HW_RESP_TX_DONE [] s s1)|apply later_wake]. }
  split; [cbn; by rewrite H5|]. exists [(HW_RESP_TX_DONE, c :: p)], []. cbn. rewrite H1, H2, H3, app_nil_r.
  split_and!; [done..|by intros; left|by intros; left|].
  intros b [= <-]. right. exists c, p. split; [by left|done].
Qed.

Lemma meta_later p s : later s (meta_received p s).
Proof.
  unfold meta_received. assert (∀ rssi snr s1, later s s1 →
    later s match pending_rx s1 with (d, _) :: rest => let s2 := with_pending_rx rest s1 in if listening s2 then _dispatch_rx_callback d rssi snr s2 else s2 | [] => s1 end) as H.
  { intros rssi snr s1 Hs1. destruct (pending_rx s1) as [|[d x] rest]; [done|]. cbv zeta. etransitivity; [exact Hs1|].
    unfold _dispatch_rx_callback. repeat case_match; same. }
  destruct p as [|a [|b p]]; apply H; [reflexivity..|same].
Qed.

Lemma error_later p s s1 : hears HW_RESP_ERROR p s s1 → later s (error_received p s1).
Proof.
  intros Hh. unfold error_received. destruct p as [|b p]; [by apply respond_later|]. destruct (b =? HW_ERR_TX_BUSY).
  - etransitivity; [by apply (hears_later _ _ _ _ Hh)|same].
  - by apply respond_later.
Qed.

Lemma frame_later f s : later s (_process_received_frame f s).
Proof.
  unfold _process_received_frame. destruct f as [|type_byte body]; [reflexivity|]. cbv zeta. destruct (negb _); [reflexivity|].
  destruct (_ =? CMD_DATA).
  { unfold data_received. destruct (_ >=? _); same. }
  destruct (_ =? KISS_CMD_SETHARDWARE); [|same]. destruct body as [|c p]; [same|].
  set (s1 := with_heard _ _). assert (hears c p s s1) as Hh by done.
  destruct (c =? HW_RESP_RX_META); [etransitivity; [by apply (hears_later c p s s1)|apply meta_later]|].
  destruct (Z.eqb_spec c HW_RESP_TX_DONE) as [->|]; [by apply tx_done_later|].
  destruct (Z.eqb_spec c HW_RESP_ERROR) as [->|]; [by apply error_later|by apply respond_later].
Qed.

Lemma events_later events s : later s (fold_left (fun s e => handle e s) events s).
Proof.
  revert s. induction events as [|e events IH]; intros s; [reflexivity|]. cbn [fold_left]. etransitivity; [|apply IH].
  destruct e; [apply frame_later|same].
Qed.

Lemma receive_later chunk s : later s (receive chunk s).
Proof.
  unfold receive. destruct (_decode_kiss chunk (rx s)) as [d events].
  etransitivity; [apply (events_later events)|same].
Qed.

Lemma flush_later fuel now s : later s (flush_expired fuel now s).
Proof.
  revert s. induction fuel as [|fuel IH]; intros s; [reflexivity|]. cbn [flush_expired]. destruct (pending_rx s) as [|[p x] rest]; [reflexivity|].
  destruct (fltb now x); [reflexivity|]. cbv zeta. etransitivity; [|apply IH]. unfold _dispatch_rx_callback. repeat case_match; same.
Qed.

Lemma keeps_tx_turn : keeps later tx_turn.
Proof.
  unfold tx_turn. keeps; try apply keeps_modem_write; try apply keeps_failure; intros s'; same.
Qed.

Lemma act_later a s : later s (act a s).
Proof.
  destruct a as [c| | |r| |]; cbn [act].
  - destruct (worker_runs _); [apply receive_later|reflexivity].
  - destruct (worker_runs _); [|reflexivity]. unfold _flush_expired_rx_frames. etransitivity; [|apply flush_later]. same.
  - destruct (worker_runs _); [apply keeps_tx_turn|reflexivity].
  - apply keeps_failure.
  - split; [done|]. exists [], []. rewrite !app_nil_r. nothing_new.
  - destruct (stop_event _); [reflexivity|same].
Qed.

Lemma keeps_pass_time : keeps later pass_time.
Proof.
  unfold pass_time. keeps; [apply keeps_later_reading|]. intros s. generalize dependent s. induction a as [|x l IH]; intros s; [reflexivity|].
  cbn [fold_left]. etransitivity; [apply act_later|apply IH].
Qed.

(** ** Writing a frame *)



(** Writing does not raise. *)
Definition never_raises {A} (m : py t A) : Prop := ∀ s, ∃ a, (m s).2 = Ok a.

Lemma total_bind {A B} (m : py t A) (k : A → py t B) : never_raises m → (∀ a, never_raises (k a)) → never_raises (m ≫= k).
Proof.
  intros Hm Hk s. destruct (Hm s) as [a Ha]. unfold mbind, py_bind. destruct (m s) as [s1 r]. cbn in Ha. subst r. apply Hk.
Qed.

Lemma total_ret {A} (a : A) : never_raises (mret a).
Proof. by eexists. Qed.

Lemma total_get : never_raises get.
Proof. by eexists. Qed.

Lemma total_modify f : never_raises (modify f).
Proof. by eexists. Qed.

Lemma total_reading {A} (f : nat → A) : never_raises (reading f).
Proof. by eexists. Qed.

Ltac total := repeat first
  [ apply total_ret | apply total_get | apply total_modify | apply total_reading
  | apply total_bind; [|intros ?] | match goal with |- never_raises (match ?x with _ => _ end) => destruct x end ].




Lemma total_pass_time : never_raises pass_time.
Proof. unfold pass_time. total. Qed.

Lemma total_verdict v : never_raises (_verdict v).
Proof. unfold _verdict. total. Qed.

Lemma total_send_frame data : never_raises (send_frame data).
Proof. unfold send_frame. total. Qed.

Lemma total_run {A} (m : py t A) s : never_raises m → ∃ s' a, m s = (s', Ok a).
Proof. intros H. destruct (H s) as [a Ha]. destruct (m s) as [s' r]. cbn in Ha. subst. eauto. Qed.

(** ** Waits *)

Lemma keeps_verdict v : keeps later (_verdict v).
Proof. unfold _verdict. keeps. intros s. same. Qed.

Lemma keeps_send_frame data : keeps later (send_frame data).
Proof. unfold send_frame. apply keeps_get_bind. intros s. repeat case_match; same. Qed.

Lemma keeps_resolve : keeps later _resolve_tx_done.
Proof. unfold _resolve_tx_done. keeps; apply keeps_verdict. Qed.

Lemma keeps_await_tx_done fuel deadline wait : keeps later (await_tx_done fuel deadline wait).
Proof.
  induction fuel as [|fuel IH]; cbn [await_tx_done]; keeps;
    try apply keeps_verdict; try apply keeps_later_reading; try apply keeps_resolve; try apply keeps_pass_time; apply IH.
Qed.


(** A verdict is a refusal with its reason. *)
Lemma verdict_refuses v s s' r : (v ← _verdict v; mret (Some v)) s = (s', Ok (Some r)) → r = (false, Some v).
Proof. by intros [= <- <-]. Qed.

Lemma await_tx_done_result fuel deadline wait s s' b v :
  await_tx_done fuel deadline wait s = (s', Ok (Some (b, v))) →
  (b = true ∧ v = None ∧ _tx_done_result (transmit s') = Some true) ∨ (b = false ∧ v ≠ None).
Proof.
  revert s. induction fuel as [|fuel IH]; intros s H; cbn [await_tx_done] in H; rewrite (py_bind_run get _ s s s eq_refl) in H;
    (destruct (_shutting_down _); [apply verdict_refuses in H; injection H as -> ->; by right|]); [discriminate H|].
  rewrite (py_bind_run time_monotonic _ s (with_reads (S (reads s)) s) (monotonic (reads s)) eq_refl) in H.
  destruct (fleb _ _).
  { rewrite (py_bind_run get _ _ _ _ eq_refl) in H. apply verdict_refuses in H. injection H as -> ->. by right. }
  apply py_bind_ok in H as (s2 & [] & _ & H). rewrite (py_bind_run get _ s2 s2 s2 eq_refl) in H.
  destruct (_tx_done_event _).
  - unfold _resolve_tx_done in H. apply py_bind_ok in H as (s3 & o & Ho & H). injection H as <- ->.
    rewrite (py_bind_run get _ s2 s2 s2 eq_refl) in Ho. destruct (_tx_done_result (transmit s2)) as [[]|] eqn:Hr; injection Ho as <- <- <-; auto.
  - destruct (_ || _); [apply verdict_refuses in H; injection H as -> ->; by right|by apply (IH s2)].
Qed.



Lemma total_resolve : never_raises _resolve_tx_done.
Proof. unfold _resolve_tx_done. total; apply total_verdict. Qed.

Lemma total_await_tx_done fuel deadline wait : never_raises (await_tx_done fuel deadline wait).
Proof.
  induction fuel as [|fuel IH]; cbn [await_tx_done]; total; first [apply total_verdict|apply total_pass_time|apply total_resolve|apply IH].
Qed.

(** Any [K] readings of the clock pass [timeout]. *)
Definition clock_passes (K : nat) (timeout : float) : Prop :=
  ∀ i n, (i + K ≤ n)%nat → fleb (fsub (fadd (monotonic i) timeout) (monotonic n)) f_zero = true.


Lemma await_tx_done_ends fuel deadline wait N s :
  (∀ n, (N ≤ n)%nat → fleb (fsub deadline (monotonic n)) f_zero = true) → (N - reads s < fuel)%nat →
  ∃ s' r, await_tx_done fuel deadline wait s = (s', Ok (Some r)).
Proof.
  intros HN. revert s. induction fuel as [|fuel IH]; intros s Hf; [lia|]. cbn [await_tx_done]. rewrite (py_bind_run get _ s s s eq_refl).
  destruct (_shutting_down _); [by eexists _, _|].
  rewrite (py_bind_run time_monotonic _ s (with_reads (S (reads s)) s) (monotonic (reads s)) eq_refl).
  destruct (fleb _ _) eqn:Hd; [by eexists _, _|].
  assert (reads s < N)%nat as Hlt by (apply Nat.nle_gt; intros Hle; rewrite HN in Hd by lia; discriminate Hd).
  destruct (total_run pass_time (with_reads (S (reads s)) s) total_pass_time) as (s2 & [] & H2). rewrite (py_bind_run _ _ _ _ _ H2).
  pose proof (run_keeps later _ _ _ _ H2 keeps_pass_time) as [Hr _]. cbn in Hr. rewrite (py_bind_run get _ s2 s2 s2 eq_refl).
  destruct (_tx_done_event _).
  { unfold _resolve_tx_done. destruct (_tx_done_result (transmit s2)) as [[]|] eqn:Ht; eexists _, _;
      (erewrite py_bind_run; [|rewrite (py_bind_run get _ s2 s2 s2 eq_refl), Ht; reflexivity]); reflexivity. }
  destruct (_ || _); [by eexists _, _|]. apply IH. lia.
Qed.



Definition cleared (s : t) : t := with_transmit (mkTransmit false None false None) s.

Lemma cleared_later s : later s (cleared s).
Proof. split; [done|]. exists [], []. rewrite !app_nil_r. split_and!; [done..|by intros; left|by intros; left|done]. Qed.

(** A frame that [send_frame] takes is the last of the queue. *)
Lemma send_frame_queues data s s' :
  send_frame data s = (s', Ok true) →
  2 ≤ len data ≤ KISS_MAX_PACKET_SIZE ∧ s' = with_tx_buffer (tx_buffer s ++ [_encode_kiss_frame CMD_DATA data]) s.
Proof.
  unfold send_frame. intros H. rewrite (py_bind_run get _ s s s eq_refl) in H. destruct (negb _); [discriminate H|].
  destruct ((len data <? 2) || _) eqn:Hl; [discriminate H|]. apply orb_false_iff in Hl as [Hl1 Hl2]. destruct (_ <? TX_BUFFER_SIZE); [|discriminate H].
  injection H as <-. split; [lia|done].
Qed.

(** C20: what confirms a transmission. [_send_frame_and_wait_verdict] gives either a
    confirmation without a reason or a refusal with one. It confirms only a packet
    of 2 to 255 bytes, whose frame it put at the end of the transmit queue with the
    result of earlier transmissions cleared, and only on a TX_DONE with status 1
    that was heard after that, whatever other threads do and the modem says
    meanwhile. If [K] readings of the clock pass the timeout, [K + 1] turns of the
    wait are enough for a result. *)
Theorem transmission_confirmed fuel me data timeout s :
  ∃ s' r, _send_frame_and_wait_verdict fuel me data timeout s = (s', Ok r)
    ∧ (∀ K, clock_passes K (py_fmax timeout (fadd (estimated_airtime_s data (config s)) TX_DONE_TIMEOUT_MARGIN_S)) → (K < fuel)%nat → r ≠ None)
    ∧ (∀ b v, r = Some (b, v) →
         (b = true ↔ v = None)
         ∧ (b = true → 2 ≤ len data ≤ KISS_MAX_PACKET_SIZE
              ∧ ∃ s1 q l p, later s s1 ∧ _tx_done_result (transmit s1) = None ∧ tx_buffer s1 = q ++ [_encode_kiss_frame CMD_DATA data]
                  ∧ later s1 s' ∧ heard s' = heard s1 ++ l ∧ (HW_RESP_TX_DONE, 1 :: p) ∈ l)).
Proof.
  unfold _send_frame_and_wait_verdict. rewrite (py_bind_run get _ s s s eq_refl).
  destruct (_shutting_down _); [eexists _, _; split; [reflexivity|]; split; [done|]; by intros b v [= <- <-]|].
  destruct (_ && _); [eexists _, _; split; [reflexivity|]; split; [done|]; by intros b v [= <- <-]|]. cbv zeta.
  set (wait := py_fmax _ _).
  destruct (total_run pass_time s total_pass_time) as (s0 & [] & H0). rewrite (py_bind_run _ _ _ _ _ H0).
  pose proof (run_keeps later _ _ _ _ H0 keeps_pass_time) as L0.
  rewrite (py_bind_run (modify _) _ s0 (cleared s0) tt eq_refl).
  destruct (total_run _ (cleared s0) (total_send_frame data)) as (s1 & b & H1). rewrite (py_bind_run _ _ _ _ _ H1).
  destruct b; cbn [negb]; [|eexists _, _; split; [reflexivity|]; split; [done|]; by intros b v [= <- <-]].
  apply send_frame_queues in H1 as (Hlen & ->). set (s1 := with_tx_buffer _ (cleared s0)).
  rewrite (py_bind_run time_monotonic _ s1 (with_reads (S (reads s1)) s1) (monotonic (reads s1)) eq_refl). set (s2 := with_reads _ s1).
  assert (later s s1) as L1.
  { etransitivity; [exact L0|]. etransitivity; [apply cleared_later|same]. }
  assert (later s1 s2) as L2 by same.
  destruct (total_run _ s2 (total_await_tx_done fuel (fadd (monotonic (reads s1)) wait) wait)) as (s3 & r & H3).
  exists s3, r. split; [exact H3|]. split.
  - intros K HK Hf. destruct (await_tx_done_ends fuel (fadd (monotonic (reads s1)) wait) wait (reads s1 + K) s2) as (s5 & r5 & H5);
      [intros n ?; apply HK; lia|cbn; lia|]. rewrite H3 in H5. injection H5 as _ ->. done.
  - intros b v ->. pose proof (await_tx_done_result _ _ _ _ _ _ _ H3) as Hr.
    pose proof (run_keeps later _ _ _ _ H3 (keeps_await_tx_done _ _ _)) as L3.
    destruct Hr as [(-> & -> & Hr)|(-> & Hv)]; [|split; [by split|done]]. split; [done|]. intros _. split; [exact Hlen|].
    pose proof L3 as (_ & l & w & Hh & _ & _ & _ & _ & Ht). destruct (Ht _ Hr) as [Hnot|(c & p & Hc & He)]; [discriminate Hnot|].
    symmetry in He. apply Z.eqb_eq in He as ->. exists s1, (tx_buffer s0), l, p.
    split; [exact L1|]. split; [done|]. split; [done|]. split; [by etransitivity|]. by split.
Qed.

End link.

(** ** Examples *)

(** What the other threads do in the first slices of waits; the clock stands for
    fifty readings, then it is late. *)
Definition near_modem (slices : list (list activity)) : KissEnv := {|
  monotonic n := if (n <? 50)%nat then f_zero else f_of_Z (10 ^ 18);
  during n := nth n slices [];
  serial_write _ := Some 4;
  flush_works _ := true;
  lock_free _ := true;
  open_works _ := true;
  rx_alive _ := true;
  choice _ := 0%nat;
  alternates _ := 0%nat
|}.

Definition hear (m : message) : activity := Received (said m).

Definition idle (queue : list (Z * bytes)) : t :=
  mk (mkConfig None None None None None None None None None None None None None) false true 3 (f_of_Z 8)
    (mkRadio 869618000 62500 8 8 22 false None None None) (mkLine true false None false false false true)
    (mkDecoder [] false false) (mkStats 0 0 0 0 0 0 0 0 0 0 (-99) f_zero None) []
    (mkResponses false None None None queue) (mkTransmit false None false None) [] true false [] [] [] 0.

Lemma near_clock slices timeout :
  fleb (fsub (fadd f_zero timeout) (f_of_Z (10 ^ 18))) f_zero = true →
  fleb (fsub (fadd (f_of_Z (10 ^ 18)) timeout) (f_of_Z (10 ^ 18))) f_zero = true →
  clock_passes (E := near_modem slices) 50 timeout.
Proof.
  intros H1 H2 i n Hn. unfold monotonic, near_modem. rewrite (proj2 (Nat.ltb_ge n 50)) by lia. by destruct (i <? 50)%nat.
Qed.

(** Three packets, one with metrics, in two chunks, and a flush of what is late. *)
Definition traffic : list message := [Packet [1; 2]; Packet [0xC0; 0xDB]; Report HW_RESP_RX_META [236; 200]; Packet [5; 6]].

Definition chunks : list activity := [Received (take 7 (concat (map said traffic))); Received (drop 7 (concat (map said traffic))); Flush].

Example traffic_delivered :
  map (fun d => (d_payload d, d_rssi d)) (delivered (run_all (E := near_modem []) chunks (idle []))) = [([1; 2], -56)]
  ∧ map fst (pending_rx (run_all (E := near_modem []) chunks (idle []))) = [[0xC0; 0xDB]; [5; 6]].
Proof. vm_compute. by split. Qed.

Lemma modem_packets_ordered_witness :
  let s' := run_all (E := near_modem []) chunks (idle []) in
  queue traffic ([], [], 0) ([[1; 2]], [[0xC0; 0xDB]; [5; 6]], 0)
  ∧ ∃ kept, sublist kept (packets traffic)
    ∧ map d_payload (delivered s') ++ map fst (pending_rx s') = kept
    ∧ frame_errors (stats s') = len (packets traffic) - len kept.
Proof.
  assert (view (run_all (E := near_modem []) chunks (idle [])) = ([[1; 2]], [[0xC0; 0xDB]; [5; 6]], 0)) as Hv by (vm_compute; reflexivity).
  destruct (modem_packets_ordered (E := near_modem []) chunks traffic (idle [])) as (Hq & kept & H1 & H2 & H3); try reflexivity.
  - by split.
  - by repeat constructor.
  - repeat constructor; decide_now.
  - rewrite Hv in Hq. split; [exact Hq|]. exists kept. split; [exact H1|]. split; [exact H2|]. rewrite <- H3. symmetry. apply Z.sub_0_r.
Defined.

(** With 64 packets waiting the next one is dropped. *)
Example full_queue_drops :
  let many := map (fun n => Packet [Z.of_nat n]) (seq 0 66) in
  let s' := run_all (E := near_modem []) (map hear many) (idle []) in
  map fst (pending_rx s') = packets (take 64 many) ∧ frame_errors (stats s') = 2.
Proof. vm_compute. by split. Qed.

(** A ping is answered in the second slice of its wait. *)
Definition ponging : KissEnv := near_modem [[]; []; []; []; []; []; []; []; []; [hear (Report HW_RESP_PONG [])]].

Example pinged : (_send_command (E := ponging) 51 false HW_CMD_PING [] RESPONSE_TIMEOUT (idle [])).2 = Ok (Some (Some (HW_RESP_PONG, []))).
Proof. vm_compute. done. Qed.


(** An error that comes after its command has timed out answers the next command,
    which is not sent. *)
Example late_error_answers :
  let s := receive (E := ponging) (said (Report HW_RESP_ERROR [3])) (idle []) in
  let r := _send_command (E := ponging) 51 false HW_CMD_SET_TX_POWER [20] RESPONSE_TIMEOUT s in
  r.2 = Ok (Some (Some (HW_RESP_ERROR, [3]))) ∧ wire r.1 = [].
Proof. vm_compute. by split. Qed.

(** A packet is queued, written and confirmed. *)
Definition sending : KissEnv := near_modem [[]; []; []; [TxTurn]; []; []; []; []; []; []; []; []; [hear (Report HW_RESP_TX_DONE [1])]].

Example confirmed :
  let r := _send_frame_and_wait_verdict (E := sending) 51 false [1; 2; 3] RESPONSE_TIMEOUT (idle []) in
  r.2 = Ok (Some (true, None)) ∧ wire r.1 = _encode_kiss_frame CMD_DATA [1; 2; 3].
Proof. vm_compute. by split. Qed.

(** A TX_DONE that comes after its packet has timed out confirms the next packet,
    which is still in the queue. *)
Example late_tx_done_confirms :
  let r := _send_frame_and_wait_verdict (E := near_modem [[]; []; []; [hear (Report HW_RESP_TX_DONE [1])]]) 51 false [1; 2; 3] RESPONSE_TIMEOUT (idle []) in
  r.2 = Ok (Some (true, None)) ∧ wire r.1 = [] ∧ len (tx_buffer r.1) = 1.
Proof. vm_compute. by split_and!. Qed.

Lemma transmission_confirmed_witness :
  ∃ s' r, _send_frame_and_wait_verdict (E := sending) 51 false [1; 2; 3] RESPONSE_TIMEOUT (idle []) = (s', Ok r) ∧ r ≠ None.
Proof.
  destruct (transmission_confirmed (E := sending) 51 false [1; 2; 3] RESPONSE_TIMEOUT (idle [])) as (s' & r & H1 & H2 & _).
  exists s', r. split; [exact H1|]. apply (H2 50%nat); [|lia]. apply near_clock; vm_compute; reflexivity.
Defined.
