(* ===== verification/Sx1262.v ===== *)
(** * The SX1262 driver ([hardware/sx1262_wrapper.py])

    A LoRa chip behind SPI and GPIO lines, driven from one event loop: an interrupt
    handler, a background task that reads received packets, and the callers of
    [send] and [perform_cad]. Between two awaits a task runs alone; what the others
    do during an await is a list of activities ([during]). The methods of the
    register library (SX126x.py) are the commands of a log and readings of the
    environment; a call that raises has no effect. *)

From S2P Require Import Prelude PyData PyFloat Airtime.

Module Sx1262.

(** ** Interrupt flags (SX126x.py) *)

Definition IRQ_TX_DONE : Z := 0x0001.
Definition IRQ_RX_DONE : Z := 0x0002.
Definition IRQ_PREAMBLE_DETECTED : Z := 0x0004.
Definition IRQ_SYNC_WORD_VALID : Z := 0x0008.
Definition IRQ_HEADER_VALID : Z := 0x0010.
Definition IRQ_HEADER_ERR : Z := 0x0020.
Definition IRQ_CRC_ERR : Z := 0x0040.
Definition IRQ_CAD_DONE : Z := 0x0080.
Definition IRQ_CAD_DETECTED : Z := 0x0100.
Definition IRQ_TIMEOUT : Z := 0x0200.
Definition IRQ_NONE : Z := 0x0000.

(** [a | b | ...] *)
Definition flags (l : list Z) : Z := foldr Z.lor 0 l.

(** [irq & mask] as a condition. *)
Definition has (irq mask : Z) : bool := negb (Z.land irq mask =? 0).

Definition _get_rx_irq_mask : Z :=
  flags [IRQ_RX_DONE; IRQ_CRC_ERR; IRQ_TIMEOUT; IRQ_PREAMBLE_DETECTED; IRQ_SYNC_WORD_VALID; IRQ_HEADER_VALID; IRQ_HEADER_ERR].

Definition _get_tx_irq_mask : Z := flags [IRQ_TX_DONE; IRQ_TIMEOUT].

Definition rx_packet_irq_mask : Z := flags [IRQ_RX_DONE; IRQ_CRC_ERR; IRQ_HEADER_ERR].
Definition terminal_interrupts : Z := flags [IRQ_RX_DONE; IRQ_CRC_ERR; IRQ_TIMEOUT; IRQ_HEADER_ERR].
Definition reception_markers : Z := flags [IRQ_PREAMBLE_DETECTED; IRQ_SYNC_WORD_VALID; IRQ_HEADER_VALID].
Definition cad_mask : Z := flags [IRQ_CAD_DONE; IRQ_CAD_DETECTED].

Definition RADIO_TIMING_DELAY : float := f_dec 1 2.
Definition REG_RX_SENSITIVITY : Z := 0x08B5.
Definition REG_RX_SENSITIVITY_BIT0 : Z := 0x01.
Definition NUM_NOISE_FLOOR_SAMPLES : Z := 20.
Definition NOISE_FLOOR_UPDATE_INTERVAL : float := f_of_Z 5.

(** ** What the driver does *)

(** Calls of the register library and of the GPIO manager. *)
Inductive command : Type :=
| Reset
| SetStandby
| SetPacketType
| SetDio3TcxoCtrl (voltage : Z)
| SetRegulatorMode
| Calibrate
| CalibrateImage (lo hi : Z)
| SetDio2RfSwitch (enable : bool)
| FixResistanceAntenna
| SetRfFrequency (steps : Z)
| SetFrequency (hz : Z)
| SetBufferBaseAddress
| SetTxPower (dbm : Z)
| SetLoRaModulation (sf bw cr : Z) (ldro : bool)
| SetPacketParamsLoRa (preamble length : Z)
| ClearIrqStatus (mask : Z)
| SetDioIrqParams (mask : Z)
| SetRxGain
| WriteRegister (address value : Z)
| SetCadParams (symbols peak min : Z)
| SetCad
| RequestRx
| SetTx (timeout : Z)
| WriteBuffer (data : bytes)
| Sleep
| End
| SetPinHigh (pin : Z)
| SetPinLow (pin : Z)
| BlinkLed (pin : Z).

(** [Seen]: the interrupt handler or a poll has read this interrupt status.
    [HandlerFailed]: an exception in the interrupt handler. *)
Inductive entry : Type :=
| Did (c : command)
| Seen (irq : Z)
| HandlerFailed
| Callback (packet : bytes).

(** ** State *)

Record Settings : Type := mkSettings {
  frequency : Z; tx_power : Z; spreading_factor : Z; bandwidth : Z; coding_rate : Z; preamble_length : Z
}.

(** The wiring; [-1] is a pin that is not used. *)
Record Pins : Type := mkPins {
  irq_pin_number : Z; txen_pin : Z; rxen_pin : Z; txled_pin : Z; rxled_pin : Z; cs_pin : Z; en_pins : list Z;
  use_dio3_tcxo : bool; dio3_tcxo_voltage : float; use_dio2_rf : bool
}.

Record Cad : Type := mkCad { _custom_cad_peak : option Z; _custom_cad_min : option Z; _custom_cad_symbol_num : option Z }.

Record Lbt : Type := mkLbt { lbt_max_wait_seconds : float; lbt_retry_interval_ms : Z }.

Record Irqs : Type := mkIrqs {
  _pending_rx_irq_status : Z; _last_irq_status : Z; _last_cad_detected : bool; _last_cad_irq_status : Z;
  _rx_activity_at : float; _rx_header_at : float
}.

Record Events : Type := mkEvents { _tx_done_event : bool; _rx_done_event : bool; _cad_event : bool }.

Record Noise : Type := mkNoise {
  _noise_floor : float; _noise_floor_samples : list float; _last_packet_activity : float;
  _is_receiving_packet : bool; _last_sample_check : float
}.

Record Metrics : Type := mkMetrics { last_rssi : Z; last_snr : float; last_signal_rssi : Z; crc_error_count : Z }.

(** The background task: not started, waiting for [_rx_done_event], or asleep after
    it has restored reception, holding the receive lock and a packet. *)
Inductive RxTask : Type :=
| NoTask
| Waiting
| Restoring (packet : option bytes).

(** [_tx_lock]: the lock is held. [rx_callback]: a callback is registered. *)
Record t : Type := mk {
  settings : Settings;
  pins : Pins;
  cad : Cad;
  lbt : Lbt;
  irqs : Irqs;
  events : Events;
  noise : Noise;
  metrics : Metrics;
  _initialized : bool;
  _interrupt_setup : bool;
  _tx_lock : bool;
  _tx_buffer_busy : bool;
  rx_callback : bool;
  rx_task : RxTask;
  log : list entry;
  reads : nat
}.

Definition with_settings (v : Settings) (s : t) : t :=
  mk v (pins s) (cad s) (lbt s) (irqs s) (events s) (noise s) (metrics s) (_initialized s) (_interrupt_setup s) (_tx_lock s) (_tx_buffer_busy s) (rx_callback s) (rx_task s) (log s) (reads s).
Definition with_pins (v : Pins) (s : t) : t :=
  mk (settings s) v (cad s) (lbt s) (irqs s) (events s) (noise s) (metrics s) (_initialized s) (_interrupt_setup s) (_tx_lock s) (_tx_buffer_busy s) (rx_callback s) (rx_task s) (log s) (reads s).
Definition with_cad (v : Cad) (s : t) : t :=
  mk (settings s) (pins s) v (lbt s) (irqs s) (events s) (noise s) (metrics s) (_initialized s) (_interrupt_setup s) (_tx_lock s) (_tx_buffer_busy s) (rx_callback s) (rx_task s) (log s) (reads s).
Definition with_irqs (v : Irqs) (s : t) : t :=
  mk (settings s) (pins s) (cad s) (lbt s) v (events s) (noise s) (metrics s) (_initialized s) (_interrupt_setup s) (_tx_lock s) (_tx_buffer_busy s) (rx_callback s) (rx_task s) (log s) (reads s).
Definition with_events (v : Events) (s : t) : t :=
  mk (settings s) (pins s) (cad s) (lbt s) (irqs s) v (noise s) (metrics s) (_initialized s) (_interrupt_setup s) (_tx_lock s) (_tx_buffer_busy s) (rx_callback s) (rx_task s) (log s) (reads s).
Definition with_noise (v : Noise) (s : t) : t :=
  mk (settings s) (pins s) (cad s) (lbt s) (irqs s) (events s) v (metrics s) (_initialized s) (_interrupt_setup s) (_tx_lock s) (_tx_buffer_busy s) (rx_callback s) (rx_task s) (log s) (reads s).
Definition with_metrics (v : Metrics) (s : t) : t :=
  mk (settings s) (pins s) (cad s) (lbt s) (irqs s) (events s) (noise s) v (_initialized s) (_interrupt_setup s) (_tx_lock s) (_tx_buffer_busy s) (rx_callback s) (rx_task s) (log s) (reads s).
Definition with_initialized (v : bool) (s : t) : t :=
  mk (settings s) (pins s) (cad s) (lbt s) (irqs s) (events s) (noise s) (metrics s) v (_interrupt_setup s) (_tx_lock s) (_tx_buffer_busy s) (rx_callback s) (rx_task s) (log s) (reads s).
Definition with_interrupt_setup (v : bool) (s : t) : t :=
  mk (settings s) (pins s) (cad s) (lbt s) (irqs s) (events s) (noise s) (metrics s) (_initialized s) v (_tx_lock s) (_tx_buffer_busy s) (rx_callback s) (rx_task s) (log s) (reads s).
Definition with_tx_lock (v : bool) (s : t) : t :=
  mk (settings s) (pins s) (cad s) (lbt s) (irqs s) (events s) (noise s) (metrics s) (_initialized s) (_interrupt_setup s) v (_tx_buffer_busy s) (rx_callback s) (rx_task s) (log s) (reads s).
Definition with_tx_buffer_busy (v : bool) (s : t) : t :=
  mk (settings s) (pins s) (cad s) (lbt s) (irqs s) (events s) (noise s) (metrics s) (_initialized s) (_interrupt_setup s) (_tx_lock s) v (rx_callback s) (rx_task s) (log s) (reads s).
Definition with_callback (v : bool) (s : t) : t :=
  mk (settings s) (pins s) (cad s) (lbt s) (irqs s) (events s) (noise s) (metrics s) (_initialized s) (_interrupt_setup s) (_tx_lock s) (_tx_buffer_busy s) v (rx_task s) (log s) (reads s).
Definition with_rx_task (v : RxTask) (s : t) : t :=
  mk (settings s) (pins s) (cad s) (lbt s) (irqs s) (events s) (noise s) (metrics s) (_initialized s) (_interrupt_setup s) (_tx_lock s) (_tx_buffer_busy s) (rx_callback s) v (log s) (reads s).
Definition with_log (v : list entry) (s : t) : t :=
  mk (settings s) (pins s) (cad s) (lbt s) (irqs s) (events s) (noise s) (metrics s) (_initialized s) (_interrupt_setup s) (_tx_lock s) (_tx_buffer_busy s) (rx_callback s) (rx_task s) v (reads s).
Definition with_reads (v : nat) (s : t) : t :=
  mk (settings s) (pins s) (cad s) (lbt s) (irqs s) (events s) (noise s) (metrics s) (_initialized s) (_interrupt_setup s) (_tx_lock s) (_tx_buffer_busy s) (rx_callback s) (rx_task s) (log s) v.

(** ** The environment *)

(** What other tasks do in an await: the interrupt handler runs, the background task
    goes on or samples the noise floor, a setting is changed, a stage of the clean-up
    of a CAD whose wait for the transmit lock has timed out. *)
Inductive activity : Type :=
| Interrupt
| RxTurn
| RxResume
| RxIdle
| ChangeFrequency (hz : Z)
| ChangePower (dbm : Z)
| ChangeSpreading (sf : Z)
| ChangeBandwidth (bw : Z)
| LateCad (stage : nat).

(** By reading: the clocks, the other tasks, whether a call of the library raises,
    what its readings give, the jitter of a backoff, the level of the interrupt pin,
    whether a pin can be set up, an event loop runs, the transmit lock is released
    in time. *)
Class Chip := {
  monotonic : nat → float;
  wall : nat → float;
  during : nat → list activity;
  raises : nat → bool;
  irq_status : nat → Z;
  busy_pin : nat → bool;
  rx_buffer_status : nat → Z * Z;
  rx_buffer : nat → bytes;
  signal_metrics : nat → float * float * float;
  device_errors : nat → Z;
  rssi_inst : nat → option Z;
  register : nat → option Z;
  jitter : nat → float;
  irq_pin : nat → bool;
  pin_works : nat → bool;
  loop_runs : nat → bool;
  lock_released : nat → bool
}.

Section driver.
Context `{C : Chip}.

Definition reading {A} (f : nat → A) : py t A :=
  s ← get;
  modify (with_reads (S (reads s)));;
  mret (f (reads s)).

Definition time_monotonic : py t float := reading monotonic.
Definition time_time : py t float := reading wall.

Definition note (e : entry) : py t unit := modify (fun s => with_log (log s ++ [e]) s).

(** A call of the library. *)
Definition lora (c : command) : py t unit :=
  fails ← reading raises;
  if (fails : bool) then raise (OtherError "SPI") else note (Did c).

(** A reading of the library. *)
Definition query {A} (f : nat → A) : py t A :=
  fails ← reading raises;
  if (fails : bool) then raise (OtherError "SPI") else reading f.

(** The GPIO manager catches its errors. *)
Definition gpio (c : command) : py t unit := note (Did c).

(** [try: m finally: f], where [f] does not raise. *)
Definition finally {A} (m : py t A) (f : py t unit) : py t A := fun s =>
  match m s with (s1, r) => ((f s1).1, r) end.

(** ** Updates *)

Definition set_pending (v : Z) (s : t) : t :=
  let i := irqs s in
  with_irqs (mkIrqs v (_last_irq_status i) (_last_cad_detected i) (_last_cad_irq_status i) (_rx_activity_at i) (_rx_header_at i)) s.
Definition set_last_irq (v : Z) (s : t) : t :=
  let i := irqs s in
  with_irqs (mkIrqs (_pending_rx_irq_status i) v (_last_cad_detected i) (_last_cad_irq_status i) (_rx_activity_at i) (_rx_header_at i)) s.
Definition set_cad_result (detected : bool) (irq : Z) (s : t) : t :=
  let i := irqs s in
  with_irqs (mkIrqs (_pending_rx_irq_status i) (_last_irq_status i) detected irq (_rx_activity_at i) (_rx_header_at i)) s.
Definition set_markers (activity header : float) (s : t) : t :=
  let i := irqs s in
  with_irqs (mkIrqs (_pending_rx_irq_status i) (_last_irq_status i) (_last_cad_detected i) (_last_cad_irq_status i) activity header) s.

Definition set_tx_done (b : bool) (s : t) : t := with_events (mkEvents b (_rx_done_event (events s)) (_cad_event (events s))) s.
Definition set_rx_done (b : bool) (s : t) : t := with_events (mkEvents (_tx_done_event (events s)) b (_cad_event (events s))) s.
Definition set_cad_event (b : bool) (s : t) : t := with_events (mkEvents (_tx_done_event (events s)) (_rx_done_event (events s)) b) s.

Definition set_receiving (b : bool) (s : t) : t :=
  let n := noise s in
  with_noise (mkNoise (_noise_floor n) (_noise_floor_samples n) (_last_packet_activity n) b (_last_sample_check n)) s.
Definition set_packet_activity (now : float) (s : t) : t :=
  let n := noise s in
  with_noise (mkNoise (_noise_floor n) (_noise_floor_samples n) now (_is_receiving_packet n) (_last_sample_check n)) s.
Definition set_sample_check (now : float) (s : t) : t :=
  let n := noise s in
  with_noise (mkNoise (_noise_floor n) (_noise_floor_samples n) (_last_packet_activity n) (_is_receiving_packet n) now) s.

(** The floor and its samples start afresh. *)
Definition reset_noise_floor (s : t) : t :=
  let n := noise s in
  with_noise (mkNoise (f_of_Z (-120)) [] (_last_packet_activity n) (_is_receiving_packet n) (_last_sample_check n)) s.

(** The samples are halves of integers, so their sum in binary64 is exact. *)
Definition add_sample (rssi : float) (s : t) : py t unit :=
  let n := noise s in
  let samples := _noise_floor_samples n ++ [rssi] in
  let samples := if len samples >? NUM_NOISE_FLOOR_SAMPLES then drop 1 samples else samples in
  floor ← lift (fdiv (fold_left fadd samples f_zero) (f_of_Z (len samples)));
  modify (with_noise (mkNoise floor samples (_last_packet_activity n) (_is_receiving_packet n) (_last_sample_check n))).

Definition count_crc_error (s : t) : t :=
  let m := metrics s in with_metrics (mkMetrics (last_rssi m) (last_snr m) (last_signal_rssi m) (crc_error_count m + 1)) s.
Definition set_signal (rssi : Z) (snr : float) (signal : Z) (s : t) : t :=
  with_metrics (mkMetrics rssi snr signal (crc_error_count (metrics s))) s.

(** ** The interrupt handler *)

(** What the markers of a reception in progress become. *)
Definition mark_reception (irq : Z) (now : float) (s : t) : t :=
  let i := irqs s in
  if has irq IRQ_HEADER_VALID then
    set_markers (if fleb (_rx_header_at i) f_zero then now else _rx_activity_at i) now s
  else if fleb (_rx_activity_at i) f_zero then set_markers now (_rx_header_at i) s
  else s.

Definition wake_rx (s : t) : t := if _tx_buffer_busy s then s else set_rx_done true s.

Definition handle_status (irq : Z) : py t unit :=
  (if has irq rx_packet_irq_mask
   then modify (fun s => set_pending (Z.lor (_pending_rx_irq_status (irqs s)) (Z.land irq rx_packet_irq_mask)) s) else mret tt);;
  (if negb (irq =? 0) then lora (ClearIrqStatus 0xFFFF);; modify (set_last_irq irq) else mret tt);;
  (if has irq IRQ_TX_DONE then modify (set_tx_done true) else mret tt);;
  (if has irq cad_mask then modify (fun s => set_cad_event true (set_cad_result (has irq IRQ_CAD_DETECTED) irq s)) else mret tt);;
  if has irq _get_rx_irq_mask then
    (if has irq reception_markers then now ← time_monotonic; modify (mark_reception irq now) else mret tt);;
    if has irq terminal_interrupts then modify (fun s => wake_rx (set_markers f_zero f_zero s)) else mret tt
  else mret tt.

Definition _handle_interrupt : py t unit :=
  s ← get;
  if negb (_initialized s) then mret tt
  else
    py_try
      (irq ← query irq_status;
       note (Seen irq);;
       handle_status irq)
      (note HandlerFailed;; modify (fun s => wake_rx (set_tx_done true s))).

(** ** The background task *)

(** A packet that was read goes to the callback; what it raises is caught. *)
Definition deliver (packet : option bytes) : py t unit :=
  match packet with
  | Some p => modify (fun s => if rx_callback s then with_log (log s ++ [Callback p]) s else s)
  | None => mret tt
  end.

Definition readBuffer (status : Z * Z) : py t bytes := query rx_buffer.

(** The numbers of a packet with a CRC error are read for the log. *)
Definition diagnose : py t unit :=
  py_try
    (query signal_metrics;;
     status ← query rx_buffer_status;
     query device_errors;;
     if (status.1 >? 0) && (status.1 <? 256) then py_try (readBuffer status;; mret tt) (mret tt) else mret tt)
    (mret tt).

(** The packet of an RX_DONE with its metrics. *)
Definition read_packet : py t (option bytes) :=
  status ← query rx_buffer_status;
  m ← query signal_metrics;
  let '(packet_rssi_dbm, snr_db, signal_rssi_dbm) := m in
  rssi ← lift (int_of_float packet_rssi_dbm);
  signal ← lift (int_of_float signal_rssi_dbm);
  modify (set_signal rssi snr_db signal);;
  s ← get;
  gpio (BlinkLed (rxled_pin (pins s)));;
  if status.1 >? 0 then p ← readBuffer status; mret (Some p) else mret None.

Definition finish_rx (packet : option bytes) : py t unit :=
  deliver packet;;
  modify (fun s => with_rx_task Waiting (set_receiving false s)).

(** From [_rx_done_event] to the sleep after reception is restored, or to the end. *)
Definition rx_turn : py t unit :=
  modify (set_rx_done false);;
  modify (set_receiving true);;
  now ← time_time;
  modify (set_packet_activity now);;
  py_try
    (s ← get;
     let irqStat := _last_irq_status (irqs s) in
     modify (fun s => set_pending (Z.ldiff (_pending_rx_irq_status (irqs s)) (Z.land irqStat rx_packet_irq_mask)) s);;
     packet ← (if has irqStat IRQ_CRC_ERR then modify count_crc_error;; diagnose;; mret None
               else if has irqStat IRQ_RX_DONE then read_packet
               else mret None);
     s ← get;
     if _tx_lock s then finish_rx packet
     else
       restored ← py_try (lora RequestRx;; lora (ClearIrqStatus 0xFFFF);; mret true) (mret false);
       if (restored : bool) then modify (with_rx_task (Restoring packet)) else finish_rx packet)
    (modify (set_receiving false)).

Definition _sample_noise_floor : py t unit :=
  s ← get;
  if negb (_initialized s) then mret tt
  else
    now ← time_time;
    let n := noise s in
    if fltb (fsub now (_last_sample_check n)) NOISE_FLOOR_UPDATE_INTERVAL then mret tt
    else if _tx_lock s then mret tt
    else if _is_receiving_packet n then mret tt
    else if negb (_pending_rx_irq_status (irqs s) =? 0) then mret tt
    else
      irq ← query irq_status;
      if has irq (flags [IRQ_PREAMBLE_DETECTED; IRQ_HEADER_VALID; IRQ_RX_DONE; IRQ_CRC_ERR; IRQ_HEADER_ERR]) then mret tt
      else if fltb (fsub now (_last_packet_activity n)) (f_dec 5 1) then mret tt
      else
        modify (set_sample_check now);;
        py_try
          (raw ← query rssi_inst;
           match raw with
           | None => mret tt
           | Some raw =>
               half ← lift (fdiv (f_of_Z raw) (f_of_Z 2));
               let rssi := fneg half in
               if negb (fleb (f_dec (-1275) 1) rssi && fltb rssi f_zero) then mret tt
               else s ← get; add_sample rssi s
           end)
          (mret tt).

(** [None]: no sample, or a transmission. *)
Definition get_noise_floor (s : t) : option float :=
  if negb (_initialized s) || _tx_lock s then None
  else if bool_decide (_noise_floor_samples (noise s) = []) then None
  else Some (_noise_floor (noise s)).

(** ** Settings *)

(** The attribute changes before the call that may fail. *)
Definition _safe_radio_operation (change : Settings → Settings) (c : Settings → command) : py t bool :=
  s ← get;
  if negb (_initialized s) then mret false
  else
    py_try
      (modify (fun s => with_settings (change (settings s)) s);;
       s ← get;
       lora (c (settings s));;
       mret true)
      (mret false).

Definition set_frequency (hz : Z) : py t bool :=
  _safe_radio_operation (fun c => mkSettings hz (tx_power c) (spreading_factor c) (bandwidth c) (coding_rate c) (preamble_length c))
    (fun _ => SetFrequency hz).

Definition set_tx_power (power : Z) : py t bool :=
  _safe_radio_operation (fun c => mkSettings (frequency c) power (spreading_factor c) (bandwidth c) (coding_rate c) (preamble_length c))
    (fun _ => SetTxPower power).

(** [ldro] has the default of [setLoRaModulation]. *)
Definition set_spreading_factor (sf : Z) : py t bool :=
  _safe_radio_operation (fun c => mkSettings (frequency c) (tx_power c) sf (bandwidth c) (coding_rate c) (preamble_length c))
    (fun c => SetLoRaModulation sf (bandwidth c) (coding_rate c) false).

Definition set_bandwidth (bw : Z) : py t bool :=
  _safe_radio_operation (fun c => mkSettings (frequency c) (tx_power c) (spreading_factor c) bw (coding_rate c) (preamble_length c))
    (fun c => SetLoRaModulation (spreading_factor c) bw (coding_rate c) false).

Definition set_custom_cad_thresholds (peak min_val : Z) : py t unit :=
  if negb ((0 <=? peak) && (peak <=? 255)) || negb ((0 <=? min_val) && (min_val <=? 255))
  then raise (ValueError "CAD thresholds must be between 0 and 255")
  else modify (fun s => with_cad (mkCad (Some peak) (Some min_val) (_custom_cad_symbol_num (cad s))) s).

Definition clear_custom_cad_thresholds (s : t) : t := with_cad (mkCad None None (_custom_cad_symbol_num (cad s))) s.

Definition set_custom_cad_symbol_num (n : Z) : py t unit :=
  if negb (bool_decide (n ∈ [1; 2; 4; 8; 16])) then raise (ValueError "cad_symbol_num must be one of: 1, 2, 4, 8, 16")
  else modify (fun s => with_cad (mkCad (_custom_cad_peak (cad s)) (_custom_cad_min (cad s)) (Some n)) s).

Definition _get_thresholds_for_current_settings (s : t) : Z * Z :=
  match _custom_cad_peak (cad s), _custom_cad_min (cad s) with
  | Some peak, Some min_val => (peak, min_val)
  | _, _ =>
      let sf := spreading_factor (settings s) in
      if sf =? 9 then (24, 10) else if sf =? 10 then (25, 10) else if sf =? 11 then (26, 10) else if sf =? 12 then (30, 10)
      else (22, 10)
  end.

Definition _resolve_cad_symbol_constant (n : Z) : res Z :=
  if n =? 1 then Ok 0 else if n =? 2 then Ok 1 else if n =? 4 then Ok 2 else if n =? 8 then Ok 3 else if n =? 16 then Ok 4
  else Err (ValueError "cad_symbol_num must be one of: 1, 2, 4, 8, 16").

(** [sf >= 11 and bw <= 125000] *)
Definition ldro_rule (sf bw : Z) : bool := (11 <=? sf) && (bw <=? 125000).

(** ** Channel activity detection: the clean-up *)

Definition _control_tx_rx_pins (tx_mode : bool) : py t unit :=
  s ← get;
  let p := pins s in
  (if txen_pin p =? -1 then mret tt else gpio (if tx_mode then SetPinHigh (txen_pin p) else SetPinLow (txen_pin p)));;
  (if rxen_pin p =? -1 then mret tt else gpio (if tx_mode then SetPinLow (rxen_pin p) else SetPinHigh (rxen_pin p))).

(** The stages of the [finally] of [perform_cad] between its sleeps. [acquired]: the
    transmit lock was taken for the scan. *)
Definition cad_stage (acquired : bool) (stage : nat) : py t unit :=
  match stage with
  | 0%nat => lora (ClearIrqStatus 0xFFFF);; lora SetStandby
  | 1%nat => lora (SetDioIrqParams IRQ_NONE)
  | 2%nat => lora (ClearIrqStatus 0xFFFF);; lora (SetDioIrqParams _get_rx_irq_mask)
  | 3%nat => s ← get; if acquired || negb (_tx_lock s) then lora RequestRx else mret tt
  | _ => lora (ClearIrqStatus 0xFFFF);; if acquired then _control_tx_rx_pins false;; modify reset_noise_floor else mret tt
  end.

(** ** Awaits *)

Definition act (a : activity) (s : t) : t :=
  match a with
  | Interrupt => (_handle_interrupt s).1
  | RxTurn => match rx_task s with
              | Waiting => if negb (_initialized s) then with_rx_task NoTask s
                           else if _interrupt_setup s && _rx_done_event (events s) then (rx_turn s).1 else s
              | _ => s
              end
  | RxResume => match rx_task s with Restoring packet => (finish_rx packet s).1 | _ => s end
  | RxIdle => match rx_task s with Waiting => if _interrupt_setup s then (_sample_noise_floor s).1 else s | _ => s end
  | ChangeFrequency hz => (set_frequency hz s).1
  | ChangePower dbm => (set_tx_power dbm s).1
  | ChangeSpreading sf => (set_spreading_factor sf s).1
  | ChangeBandwidth bw => (set_bandwidth bw s).1
  | LateCad stage => (cad_stage false stage s).1
  end.

(** [await asyncio.sleep(...)] *)
Definition pass_time : py t unit :=
  l ← reading during;
  modify (fun s => fold_left (fun s a => act a s) l s).

(** [await asyncio.wait_for(event.wait(), timeout)] with a positive timeout; [false]:
    the time is up. *)
Definition wait_event (event : Events → bool) : py t bool :=
  s ← get;
  if event (events s) then mret true
  else pass_time;; s ← get; mret (event (events s)).

(** The same with any timeout: one that is not positive is up before the event is
    looked at. *)
Definition wait_event_for (timeout : float) (event : Events → bool) : py t bool :=
  if fleb timeout f_zero then pass_time;; mret false else wait_event event.

(** [async with self._rx_lock]: only the background task holds it in a sleep. *)
Definition acquire_rx_lock : py t unit :=
  s ← get;
  match rx_task s with
  | Restoring _ => pass_time;; s ← get; (match rx_task s with Restoring packet => finish_rx packet | _ => mret tt end)
  | _ => mret tt
  end.

(** ** Reading a latched packet before the buffer is used again *)

Definition drained (irq : Z) : py t (option bytes) :=
  if has irq IRQ_CRC_ERR then modify count_crc_error;; mret None
  else if has irq IRQ_RX_DONE then
    status ← query rx_buffer_status;
    if status.1 >? 0 then p ← readBuffer status; mret (Some p) else mret None
  else mret None.

Definition _drain_pending_rx_irq_before_buffer_reuse : py t unit :=
  s ← get;
  if _pending_rx_irq_status (irqs s) =? 0 then mret tt
  else
    acquire_rx_lock;;
    s ← get;
    let pending_irq := _pending_rx_irq_status (irqs s) in
    if pending_irq =? 0 then mret tt
    else
      packet ← finally (drained pending_irq) (modify (set_pending 0));
      deliver packet.

(** ** Timing *)

Definition _calculate_tx_timeout (c : Settings) (packet_length : Z) : res (Z * Z) :=
  air_time_ms ← lora_airtime packet_length (spreading_factor c) (f_of_Z (bandwidth c)) (Airtime.coding_rate_denominator (coding_rate c)) (preamble_length c);
  ms ← ceil_of_float air_time_ms;
  let timeout_ms := ms + 1000 in
  mret (timeout_ms, timeout_ms * 64).

(** [max(0.5, (final_timeout_ms - 1000) * 1.5 / 1000.0)] *)
Definition _max_reception_seconds (c : Settings) : res float :=
  timing ← _calculate_tx_timeout c 255;
  x ← fdiv (fmul (f_of_Z (timing.1 - 1000)) (f_dec 15 1)) (f_of_Z 1000);
  mret (py_fmax (f_dec 5 1) x).

Definition _max_preamble_seconds (c : Settings) : res float :=
  preamble_only_ms ← lora_airtime 0 (spreading_factor c) (f_of_Z (bandwidth c)) (coding_rate c) (preamble_length c);
  x ← fdiv (fmul preamble_only_ms (f_dec 15 1)) (f_of_Z 1000);
  mret (py_fmax (f_dec 5 2) x).

Definition is_receiving_packet : py t bool :=
  s ← get;
  let started := _rx_activity_at (irqs s) in
  if fleb started f_zero then mret false
  else
    bound ← lift (if fltb f_zero (_rx_header_at (irqs s)) then _max_reception_seconds (settings s) else _max_preamble_seconds (settings s));
    now ← time_monotonic;
    if fltb bound (fsub now started) then modify (set_markers f_zero f_zero);; mret false
    else mret true.

(** ** Channel activity detection *)

(** [detected] is what a scan for a transmission returns; the rest is reported when
    the thresholds are calibrated. *)
Record CadReport : Type := mkReport { detected : bool; cad_done : bool; det_peak_used : Z; det_min_used : Z; cad_symbols : Z }.

(** Waiting for the interrupt pin to go low. *)
Fixpoint settle_irq_pin (n : nat) : py t unit :=
  match n with
  | O => mret tt
  | S n =>
      high ← reading irq_pin;
      if (high : bool) then lora (ClearIrqStatus 0xFFFF);; pass_time;; settle_irq_pin n else mret tt
  end.

(** [irq = getIrqStatus()], cleared if it is not 0. *)
Definition clear_pending_irq : py t Z :=
  irq ← query irq_status;
  (if irq =? 0 then mret tt else lora (ClearIrqStatus irq));;
  mret irq.

(** The scan itself. *)
Definition cad_scan (det_peak det_min cad_symbol_num symbols : Z) : py t CadReport :=
  _drain_pending_rx_irq_before_buffer_reuse;;
  lora SetStandby;;
  pass_time;;
  existing ← clear_pending_irq;
  (if existing =? 0 then mret tt else pass_time);;
  settle_irq_pin 3;;
  modify (set_cad_event false);;
  lora (SetDioIrqParams cad_mask);;
  pass_time;;
  s ← get;
  let c := settings s in
  lora (SetLoRaModulation (spreading_factor c) (bandwidth c) (coding_rate c) (ldro_rule (spreading_factor c) (bandwidth c)));;
  lora (SetCadParams symbols det_peak det_min);;
  reading irq_pin;;
  pass_time;;
  lora SetCad;;
  pass_time;;
  done ← wait_event _cad_event;
  if (done : bool) then
    modify (set_cad_event false);;
    s ← get;
    clear_pending_irq;;
    mret (mkReport (_last_cad_detected (irqs s)) (has (_last_cad_irq_status (irqs s)) IRQ_CAD_DONE) det_peak det_min cad_symbol_num)
  else
    clear_pending_irq;;
    mret (mkReport false false det_peak det_min cad_symbol_num).

(** The [finally] of [perform_cad], with its sleeps. *)
Definition cad_cleanup (acquired : bool) : py t unit :=
  finally
    (py_try
       (cad_stage acquired 0;; pass_time;;
        cad_stage acquired 1;; pass_time;;
        cad_stage acquired 2;; pass_time;;
        s ← get;
        (if acquired || negb (_tx_lock s) then cad_stage acquired 3;; pass_time else mret tt);;
        cad_stage acquired 4)
       (mret tt))
    (if acquired then modify (with_tx_lock false) else mret tt).

(** The transmit lock, if it is obtained in time. *)
Definition acquire_tx_lock_in_time : py t bool :=
  pass_time;;
  s ← get;
  released ← (if _tx_lock s then reading lock_released else mret true);
  if (released : bool) then modify (with_tx_lock true);; mret true else mret false.

Definition perform_cad (det_peak det_min cad_symbol_num : option Z) (respect_tx_lock : bool) : py t CadReport :=
  s ← get;
  if negb (_initialized s) then raise (OtherError "Radio not initialized")
  else
    let '(peak, min_val) := match det_peak, det_min with
                            | Some p, Some m => (p, m)
                            | _, _ => _get_thresholds_for_current_settings s
                            end in
    if negb ((0 <=? peak) && (peak <=? 255) && ((0 <=? min_val) && (min_val <=? 255)))
    then raise (ValueError "CAD thresholds must be between 0 and 255")
    else
      let n := match cad_symbol_num with
               | Some n => n
               | None => match _custom_cad_symbol_num (cad s) with Some n => if n =? 0 then 2 else n | None => 2 end
               end in
      let failed := mkReport false false peak min_val n in
      match _resolve_cad_symbol_constant n with
      | Err _ => cad_cleanup false;; mret failed
      | Ok symbols =>
          if respect_tx_lock then
            acquired ← acquire_tx_lock_in_time;
            if negb acquired then cad_cleanup false;; mret failed
            else finally (py_try (cad_scan peak min_val n symbols) (mret failed)) (cad_cleanup true)
          else finally (py_try (cad_scan peak min_val n symbols) (mret failed)) (cad_cleanup false)
      end.

(** ** Transmission *)

(** Failures are caught. *)
Definition _restore_rx_mode : py t unit :=
  py_try
    (_control_tx_rx_pins false;;
     lora SetStandby;;
     pass_time;;
     lora (ClearIrqStatus 0xFFFF);;
     lora (SetDioIrqParams _get_rx_irq_mask);;
     lora RequestRx;;
     pass_time)
    (mret tt).

(** A check of the channel: whether it is busy, and whether it was scanned. *)
Definition check_channel : py t (bool * bool) :=
  receiving ← is_receiving_packet;
  if (receiving : bool) then mret (true, false)
  else r ← perform_cad None None None false; mret (detected r, true).

(** [max(10.0, min(delay_ms, remaining_ms))] *)
Definition backoff_ms (interval : Z) (jitter now deadline : float) : float :=
  let delay_ms := fmul (f_of_Z interval) jitter in
  let remaining_ms := fmul (fsub deadline now) (f_of_Z 1000) in
  py_fmax (f_of_Z 10) (py_fmin delay_ms remaining_ms).

(** The loop of listen before talk with the delays so far; [None]: the turns are used
    up. *)
Fixpoint listen_before_talk (turns : nat) (deadline : float) (delays : list Z) : py t (option (list Z)) :=
  match turns with
  | O => mret None
  | S turns =>
      checked ← py_try (r ← check_channel; mret (Some r)) (mret None);
      match checked with
      | None | Some (false, _) => mret (Some delays)
      | Some (true, scanned) =>
          now ← time_monotonic;
          if fleb deadline now then mret (Some delays)
          else
            j ← reading jitter;
            now ← time_monotonic;
            s ← get;
            let delay_ms := backoff_ms (lbt_retry_interval_ms (lbt s)) j now deadline in
            rounded ← lift (py_round delay_ms);
            (if (scanned : bool) then _restore_rx_mode else mret tt);;
            pass_time;;
            listen_before_talk turns deadline (delays ++ [rounded])
      end
  end.

(** [while busyCheck() and n < limit: sleep] *)
Fixpoint wait_while_busy (n : nat) : py t unit :=
  busy ← query busy_pin;
  match n with
  | O => mret tt
  | S n => if (busy : bool) then pass_time;; wait_while_busy n else mret tt
  end.

(** The chip is put on standby and is ready, or not. *)
Definition stage_transmission : py t bool :=
  modify (set_markers f_zero f_zero);;
  time_monotonic;;
  lora SetStandby;;
  pass_time;;
  busy ← query busy_pin;
  (if (busy : bool) then wait_while_busy 20 else mret tt);;
  _control_tx_rx_pins true;;
  busy ← query busy_pin;
  stuck ← (if (busy : bool) then wait_while_busy 100;; query busy_pin else mret false);
  if (stuck : bool) then mret false
  else
    modify (set_tx_done false);;
    modify (set_rx_done false);;
    _drain_pending_rx_irq_before_buffer_reuse;;
    mret true.

(** Ready and the delays; [None]: the turns are used up. *)
Definition _prepare_radio_for_tx (turns : nat) : py t (option (bool * list Z)) :=
  now ← time_monotonic;
  s ← get;
  time_monotonic;;
  delays ← listen_before_talk turns (fadd now (lbt_max_wait_seconds (lbt s))) [];
  match delays with
  | None => mret None
  | Some delays => ready ← stage_transmission; mret (Some (ready, delays))
  end.

Definition _prepare_packet_transmission (data : bytes) : py t unit :=
  lora (WriteBuffer data);;
  s ← get;
  lora (SetPacketParamsLoRa (preamble_length (settings s)) (len data)).

Definition tx_mask : Z := Z.lor (Z.lor _get_tx_irq_mask IRQ_CAD_DONE) IRQ_CAD_DETECTED.

Definition _setup_tx_interrupts : py t unit :=
  lora (SetDioIrqParams tx_mask);;
  clear_pending_irq;;
  mret tt.

(** [0xFFFF] is a glitch of the bus. *)
Fixpoint initial_status (n : nat) : py t Z :=
  match n with
  | O => mret 0xFFFF
  | S n =>
      irq ← query irq_status;
      if negb (irq =? 0xFFFF) then mret irq else pass_time;; initial_status n
  end.

Definition _execute_transmission (driver_timeout : Z) : py t bool :=
  lora (SetTx driver_timeout);;
  wait_while_busy 50;;
  busy ← query busy_pin;
  if (busy : bool) then mret false
  else
    status ← initial_status 3;
    if status =? 0xFFFF then mret true
    else if has status IRQ_TIMEOUT then lora (ClearIrqStatus status);; mret false
    else (if status =? 0 then mret tt else lora (ClearIrqStatus status));; mret true.

Definition _handle_transmission_timeout : py t unit :=
  irq ← query irq_status;
  lora (ClearIrqStatus irq).

(** A poll of the interrupt status: whether it decides. *)
Definition poll_transmission : py t (option bool) :=
  status ← py_try (irq ← query irq_status; mret (Some irq)) (mret None);
  match status with
  | None => mret None
  | Some irq =>
      note (Seen irq);;
      if irq =? 0xFFFF then mret None
      else if has irq IRQ_TX_DONE then mret (Some true)
      else if has irq IRQ_TIMEOUT then py_try (lora (ClearIrqStatus irq)) (mret tt);; mret (Some false)
      else mret None
  end.

(** [None]: the turns are used up. *)
Fixpoint wait_for_done (turns : nat) (timeout_seconds start_time next_poll : float) : py t (option bool) :=
  match turns with
  | O => mret None
  | S turns =>
      now ← time_time;
      let remaining := fsub timeout_seconds (fsub now start_time) in
      if fleb remaining f_zero then _handle_transmission_timeout;; mret (Some false)
      else
        now ← time_time;
        done ← wait_event_for (py_fmin remaining (py_fmax f_zero (fsub next_poll now))) _tx_done_event;
        if (done : bool) then mret (Some true)
        else
          now ← time_time;
          if fleb next_poll now then
            polled ← poll_transmission;
            match polled with
            | Some r => mret (Some r)
            | None => wait_for_done turns timeout_seconds start_time (fadd now (f_dec 5 2))
            end
          else wait_for_done turns timeout_seconds start_time next_poll
  end.

Definition _wait_for_transmission_complete (turns : nat) (timeout_seconds : float) : py t (option bool) :=
  start_time ← time_time;
  wait_for_done turns timeout_seconds start_time start_time.

Definition _finalize_transmission : py t unit :=
  irq ← query irq_status;
  lora (ClearIrqStatus irq);;
  _control_tx_rx_pins false.

Record SendReport : Type := mkSent { airtime_ms : Z; lbt_attempts : Z; lbt_backoff_delays_ms : list Z; lbt_channel_busy : bool }.

(** The body of [send], under the transmit lock; [None]: the turns are used up. *)
Definition transmit (lbt_turns tx_turns : nat) (data : bytes) : py t (option SendReport) :=
  s ← get;
  timing ← lift (_calculate_tx_timeout (settings s) (len data));
  let '(final_timeout_ms, driver_timeout) := timing in
  x ← lift (fdiv (f_of_Z final_timeout_ms) (f_of_Z 1000));
  let timeout_seconds := fadd x (f_dec 5 1) in
  prepared ← _prepare_radio_for_tx lbt_turns;
  match prepared with
  | None => mret None
  | Some (false, _) => raise (OtherError "Radio not ready for TX")
  | Some (true, delays) =>
      modify (with_tx_buffer_busy true);;
      _prepare_packet_transmission data;;
      _setup_tx_interrupts;;
      pass_time;;
      s ← get;
      lora (SetTxPower (tx_power (settings s)));;
      started ← _execute_transmission driver_timeout;
      if negb started then raise (OtherError "Radio failed to start TX")
      else
        tx_ok ← _wait_for_transmission_complete tx_turns timeout_seconds;
        match tx_ok with
        | None => mret None
        | Some false => raise (OtherError "TX completion timeout")
        | Some true =>
            modify (with_tx_buffer_busy false);;
            _finalize_transmission;;
            s ← get;
            gpio (BlinkLed (txled_pin (pins s)));;
            mret (Some (mkSent (final_timeout_ms - 1000) (len delays) delays (bool_decide (delays ≠ []))))
        end
  end.

(** [async with self._tx_lock]; the lock is free when it is obtained. *)
Definition send (lbt_turns tx_turns : nat) (data : bytes) : py t (option SendReport) :=
  s ← get;
  if negb (_initialized s) then raise (OtherError "Radio not initialized")
  else
    pass_time;;
    modify (with_tx_lock true);;
    finally (finally (transmit lbt_turns tx_turns data) _restore_rx_mode) (modify (with_tx_lock false)).

(** ** Reconfiguration *)

(** [wait_for_lock]: the turns in which the transmit lock is looked at. *)
Fixpoint wait_tx_lock (turns : nat) (deadline : float) : py t (option bool) :=
  s ← get;
  if negb (_tx_lock s) then mret (Some true)
  else
    match turns with
    | O => mret None
    | S turns =>
        now ← time_monotonic;
        if fltb deadline now then mret (Some false)
        else
          released ← reading lock_released;
          (if (released : bool) then modify (with_tx_lock false) else mret tt);;
          wait_tx_lock turns deadline
    end.

(** [None]: the turns are used up. *)
Definition configure_radio (turns : nat) (frequency_ bandwidth_ sf_ cr_ : option Z) : py t (option bool) :=
  s ← get;
  if negb (_initialized s) then mret (Some false)
  else
    let c := settings s in
    let freq := default (frequency c) frequency_ in
    let bw := default (bandwidth c) bandwidth_ in
    let sf := default (spreading_factor c) sf_ in
    let cr := default (coding_rate c) cr_ in
    now ← time_monotonic;
    free ← wait_tx_lock turns (fadd now (f_of_Z 10));
    match free with
    | None => mret None
    | Some false => mret (Some false)
    | Some true =>
        py_try
          (lora (ClearIrqStatus 0xFFFF);;
           lora SetStandby;;
           lora (SetFrequency freq);;
           lora (SetLoRaModulation sf bw cr (ldro_rule sf bw));;
           modify (fun s => let c := settings s in
             reset_noise_floor (with_settings (mkSettings freq (tx_power c) sf bw cr (preamble_length c)) s));;
           lora (ClearIrqStatus 0xFFFF);;
           lora (SetDioIrqParams _get_rx_irq_mask);;
           lora RequestRx;;
           lora (ClearIrqStatus 0xFFFF);;
           _control_tx_rx_pins false;;
           mret (Some true))
          (mret (Some false))
    end.

(** ** Start and end *)

(** Pins without repetitions and without [-1]. *)
Definition _normalize_en_pins (en_pin : Z) (en_pins : option (list Z)) : list Z :=
  let normalized := match en_pins with
                    | Some (_ :: _ as l) => l
                    | _ => if en_pin =? -1 then [] else [en_pin]
                    end in
  fold_left (fun l pin => if (pin =? -1) || bool_decide (pin ∈ l) then l else l ++ [pin]) normalized [].

Definition _apply_rx_sensitivity_fix : py t unit :=
  value ← query register;
  match value with
  | None => mret tt
  | Some v => lora (WriteRegister REG_RX_SENSITIVITY (Z.lor v REG_RX_SENSITIVITY_BIT0))
  end.

Definition DIO3_OUTPUTS : list (float * Z) :=
  [(f_dec 16 1, 0); (f_dec 17 1, 1); (f_dec 18 1, 2); (f_dec 22 1, 3); (f_dec 24 1, 4); (f_dec 27 1, 5); (f_of_Z 3, 6); (f_dec 33 1, 7)].

Definition fabs (x : float) : float := if fltb x f_zero then fneg x else x.

(** The first of the nearest voltages; an exact one is at distance 0. *)
Definition voltage_constant (v : float) : Z :=
  (fold_left (fun best o => if fltb (fabs (fsub o.1 v)) (fabs (fsub best.1 v)) then o else best) DIO3_OUTPUTS (f_dec 16 1, 0)).2.

Definition image_band (hz : Z) : Z * Z :=
  if hz <? 446000000 then (0x6B, 0x6F)
  else if hz <? 734000000 then (0x75, 0x81)
  else if hz <? 828000000 then (0xC1, 0xC5)
  else if hz <? 877000000 then (0xD7, 0xDB)
  else (0xE1, 0xE9).

(** [int(self.frequency * 33554432 / 32000000)] *)
Definition rf_steps (hz : Z) : res Z := x ← int_truediv (hz * 33554432) 32000000; int_of_float x.

(** [(2**sf) / (bw / 1000) > 16.0] *)
Definition ldro_at_start (sf bw : Z) : res bool :=
  khz ← int_truediv bw 1000;
  symbol_duration_ms ← fdiv (f_of_Z (2 ^ sf)) khz;
  mret (fltb (f_of_Z 16) symbol_duration_ms).

(** Output pins; a pin that cannot be set up is only reported. *)
Definition setup_output (pin : Z) : py t bool :=
  if pin =? -1 then mret false else reading pin_works.

(** The enable pins that can be used: not the chip select. *)
Fixpoint setup_en_pins (l : list Z) : py t (list Z * bool) :=
  match l with
  | [] => mret ([], true)
  | pin :: l =>
      s ← get;
      if pin =? -1 then setup_en_pins l
      else if negb (cs_pin (pins s) =? -1) && (pin =? cs_pin (pins s)) then
        rest ← setup_en_pins l; mret (rest.1, false)
      else
        works ← reading pin_works;
        rest ← setup_en_pins l;
        mret (pin :: rest.1, works && rest.2)
  end.

Definition set_en_pins (l : list Z) (s : t) : t :=
  let p := pins s in
  with_pins (mkPins (irq_pin_number p) (txen_pin p) (rxen_pin p) (txled_pin p) (rxled_pin p) (cs_pin p) l
    (use_dio3_tcxo p) (dio3_tcxo_voltage p) (use_dio2_rf p)) s.

(** [_basic_radio_setup(use_busy_check=True)] *)
Definition _basic_radio_setup : py t bool :=
  lora Reset;;
  lora SetStandby;;
  busy ← query busy_pin;
  if (busy : bool) then mret false else lora SetPacketType;; mret true.

(** The chip, from standby to reception. *)
Definition set_up_chip : py t unit :=
  s ← get;
  let p := pins s in
  let c := settings s in
  (if use_dio3_tcxo p then lora (SetDio3TcxoCtrl (voltage_constant (dio3_tcxo_voltage p))) else mret tt);;
  lora SetRegulatorMode;;
  lora Calibrate;;
  lora (CalibrateImage (image_band (frequency c)).1 (image_band (frequency c)).2);;
  lora (SetDio2RfSwitch (use_dio2_rf p));;
  lora FixResistanceAntenna;;
  steps ← lift (rf_steps (frequency c));
  lora (SetRfFrequency steps);;
  lora SetBufferBaseAddress;;
  lora (SetTxPower (tx_power c));;
  ldro ← lift (ldro_at_start (spreading_factor c) (bandwidth c));
  lora (SetLoRaModulation (spreading_factor c) (bandwidth c) (coding_rate c) ldro);;
  lora (SetPacketParamsLoRa (preamble_length c) 64);;
  lora (ClearIrqStatus 0xFFFF);;
  lora (SetDioIrqParams _get_rx_irq_mask);;
  lora SetRxGain;;
  _apply_rx_sensitivity_fix;;
  (match _custom_cad_peak (cad s), _custom_cad_min (cad s) with
   | Some peak, Some min_val => py_try (lora (SetCadParams 1 peak min_val)) (mret tt)
   | _, _ => mret tt
   end);;
  lora RequestRx.

(** The background task is started if it is not there and a loop runs. *)
Definition start_rx_task : py t bool :=
  s ← get;
  match rx_task s with
  | NoTask =>
      running ← reading loop_runs;
      if (running : bool) then modify (with_rx_task Waiting);; mret true else mret false
  | _ => mret true
  end.

Definition begin : py t bool :=
  s ← get;
  if _initialized s then mret true
  else
    py_try
      (works ← reading pin_works;
       if negb works then raise (OtherError "Could not setup IRQ pin")
       else
         modify (with_interrupt_setup true);;
         s ← get;
         let p := pins s in
         setup_output (txen_pin p);;
         setup_output (rxen_pin p);;
         _control_tx_rx_pins false;;
         setup_output (txled_pin p);;
         setup_output (rxled_pin p);;
         usable ← setup_en_pins (en_pins p);
         modify (set_en_pins usable.1);;
         ready ← _basic_radio_setup;
         if negb ready then mret false
         else
           set_up_chip;;
           modify (with_initialized true);;
           start_rx_task;;
           mret true)
      (modify (with_initialized false);; raise (OtherError "Failed to initialize SX1262 radio")).

Definition set_rx_callback (callback : bool) : py t unit :=
  modify (with_callback callback);;
  s ← get;
  if _interrupt_setup s && _initialized s then start_rx_task;; mret tt else mret tt.

(** [false] also when a dead task was started again. *)
Definition check_radio_health : py t bool :=
  s ← get;
  if negb (_initialized s) then mret false
  else match rx_task s with
       | NoTask => start_rx_task;; mret false
       | _ => mret true
       end.

Definition sleep : py t unit :=
  s ← get;
  if _initialized s then py_try (lora Sleep) (mret tt) else mret tt.

(** The release of the pins is left to the GPIO manager. *)
Definition cleanup : py t unit :=
  modify (with_interrupt_setup false);;
  modify (with_rx_task NoTask);;
  py_try (lora End) (mret tt);;
  modify (with_initialized false).

End driver.
End Sx1262.
