(* ===== verification/Sx1262Send.v ===== *)
(** * The SX1262 driver: properties

    What confirms a transmission, in which order the chip is driven, that a send
    ends and restores reception, and what a failed one leaves behind. *)

From S2P Require Import Prelude PyData PyFloat Airtime Sx1262.

Import Sx1262.

(** ** What a task may do while others wait *)

Definition other (e : entry) : Prop := match e with Did (WriteBuffer _) => False | _ => True end.

(** A TX_DONE was seen, or the interrupt handler has failed. *)
Definition confirms (l : list entry) : Prop :=
  HandlerFailed ∈ l ∨ ∃ irq, Seen irq ∈ l ∧ has irq IRQ_TX_DONE = true.

Lemma confirms_app l l' : confirms (l ++ l') ↔ confirms l ∨ confirms l'.
Proof.
  unfold confirms. setoid_rewrite elem_of_app. split.
  - intros [[H|H]|(irq & [H|H] & Hi)]; eauto.
  - intros [[H|(irq & H & Hi)]|[H|(irq & H & Hi)]]; eauto.
Qed.

(** The log grows without a write to the buffer; the completion event is set only
    where [P] holds or the log confirms it, the reception event not while the
    buffer is busy. *)
Definition moves (P : Prop) (s s' : t) : Prop :=
  (reads s ≤ reads s')%nat ∧ _tx_buffer_busy s' = _tx_buffer_busy s ∧ _tx_lock s' = _tx_lock s ∧ _initialized s' = _initialized s
  ∧ (_tx_buffer_busy s = true → _rx_done_event (events s') = true → _rx_done_event (events s) = true)
  ∧ ∃ l, log s' = log s ++ l ∧ Forall other l
      ∧ (_tx_done_event (events s') = true → _tx_done_event (events s) = true ∨ P ∨ confirms l).

#[local] Instance moves_preorder P : PreOrder (moves P).
Proof.
  split.
  - intros s. split_and!; [done..|tauto|]. exists []. rewrite app_nil_r. split_and!; [done|done|tauto].
  - intros x y z (H1 & H2 & H3 & H4 & H5 & l & H6 & H7 & H8) (G1 & G2 & G3 & G4 & G5 & l' & G6 & G7 & G8).
    split_and!; [lia|congruence|congruence|congruence| |].
    + intros Hb Hr. apply H5; [done|]. apply G5; [congruence|done].
    + exists (l ++ l'). split_and!; [by rewrite G6, H6, app_assoc|by apply Forall_app|]. rewrite confirms_app. tauto.
Qed.

Definition onward : t → t → Prop := moves False.

(** A step that leaves all this alone. *)
Lemma moves_keeps P s s' :
  (reads s ≤ reads s')%nat → _tx_buffer_busy s' = _tx_buffer_busy s → _tx_lock s' = _tx_lock s → _initialized s' = _initialized s →
  (_tx_buffer_busy s = true → _rx_done_event (events s') = true → _rx_done_event (events s) = true) →
  log s' = log s → (_tx_done_event (events s') = true → _tx_done_event (events s) = true ∨ P) → moves P s s'.
Proof.
  intros H1 H2 H3 H4 H5 H6 H7. split_and!; [done..|]. exists []. rewrite app_nil_r. split_and!; [done|done|tauto].
Qed.

Lemma moves_note P e s : other e → moves P s (with_log (log s ++ [e]) s).
Proof. intros He. split_and!; [done..|tauto|]. exists [e]. split_and!; [done|by repeat constructor|tauto]. Qed.

Ltac settle := cbn; first [tauto|intuition discriminate].
Ltac same := apply moves_keeps; [first [apply Nat.le_refl|cbn; lia]|done|done|done|settle|done|settle].

Section sends.
Context `{C : Chip}.

Section moving.
Variable P : Prop.

Lemma keeps_chip_reading {A} (f : nat → A) : keeps (moves P) (reading f).
Proof. unfold reading. apply keeps_get_bind. intros s. change (moves P s (with_reads (S (reads s)) s)). same. Qed.

Lemma keeps_note e : other e → keeps (moves P) (note e).
Proof. intros He s. by apply moves_note. Qed.

Definition harmless (c : command) : Prop := match c with WriteBuffer _ => False | _ => True end.

Lemma keeps_lora c : harmless c → keeps (moves P) (lora c).
Proof. intros Hc. unfold lora. keeps; [apply keeps_chip_reading|]. intros s. by apply moves_note. Qed.

Lemma keeps_query {A} (f : nat → A) : keeps (moves P) (query f).
Proof. unfold query. keeps; apply keeps_chip_reading. Qed.

Lemma keeps_gpio c : harmless c → keeps (moves P) (gpio c).
Proof. intros Hc. by apply keeps_note. Qed.

Lemma keeps_chip_finally {A} (m : py t A) f : keeps (moves P) m → keeps (moves P) f → keeps (moves P) (finally m f).
Proof.
  intros Hm Hf s. specialize (Hm s). unfold finally. destruct (m s) as [s1 r]. cbn in *. etransitivity; [exact Hm|apply Hf].
Qed.
End moving.

Ltac chip := repeat first
  [ progress keeps
  | apply keeps_chip_reading | apply keeps_query
  | apply keeps_lora; exact I | apply keeps_gpio; exact I | apply keeps_note; exact I
  | apply keeps_try; [apply _|..] | apply keeps_chip_finally ].

Lemma keeps_handle_status irq : keeps (moves (has irq IRQ_TX_DONE = true)) (handle_status irq).
Proof.
  unfold handle_status, time_monotonic. destruct (has irq IRQ_TX_DONE) eqn:Hi.
  - chip; intros s; first [same|unfold mark_reception; repeat case_match; same|unfold wake_rx; destruct (_tx_buffer_busy _) eqn:Hb; (apply moves_keeps; [done..|cbn in *; congruence|done|cbn; tauto])].
  - chip; intros s; first [same|unfold mark_reception; repeat case_match; same|unfold wake_rx; destruct (_tx_buffer_busy _) eqn:Hb; (apply moves_keeps; [done..|cbn in *; congruence|done|cbn; tauto])].
Qed.

Lemma wake_moves P s : P → moves P s (wake_rx (set_tx_done true s)).
Proof. intros HP. unfold wake_rx. destruct (_tx_buffer_busy _) eqn:Hb; (apply moves_keeps; [done..|cbn in *; congruence|done|cbn; tauto]). Qed.

(** The log of a step that had a permission tells it. *)
Lemma confirmed_step P e s s' :
  other e → (P → confirms [e]) → moves P (with_log (log s ++ [e]) s) s' → onward s s'.
Proof.
  intros He HP (H1 & H2 & H3 & H4 & H5 & l & H6 & H7 & H8). split_and!; [done..|]. exists (e :: l).
  split_and!; [by rewrite H6; cbn; rewrite <- app_assoc|by constructor|].
  intros Hd. change (e :: l) with ([e] ++ l). rewrite confirms_app. apply H8 in Hd. cbn in Hd. tauto.
Qed.

Lemma keeps_interrupt : keeps onward _handle_interrupt.
Proof.
  unfold _handle_interrupt. apply keeps_get_bind. intros s. destruct (negb _); [reflexivity|]. cbv beta.
  unfold py_try, mbind, py_bind. pose proof (keeps_query False irq_status s) as Hq. destruct (query irq_status s) as [s1 [irq|e]]; cbn in Hq.
  - cbn. pose proof (keeps_handle_status irq (with_log (log s1 ++ [Seen irq]) s1)) as Hs.
    destruct (handle_status irq (with_log (log s1 ++ [Seen irq]) s1)) as [s2 [u|e]]; cbn in Hs.
    + etransitivity; [exact Hq|]. apply (confirmed_step _ (Seen irq) s1 s2 I) in Hs; [done|]. intros Hi. right. exists irq. split; [by left|done].
    + etransitivity; [exact Hq|]. assert (onward s1 s2) as H2.
      { apply (confirmed_step _ (Seen irq) s1 s2 I) in Hs; [done|]. intros Hi. right. exists irq. split; [by left|done]. }
      etransitivity; [exact H2|]. apply (confirmed_step True HandlerFailed s2); [done|by intros _; left; left|by apply wake_moves].
  - etransitivity; [exact Hq|]. apply (confirmed_step True HandlerFailed s1); [done|by intros _; left; left|by apply wake_moves].
Qed.

Lemma keeps_deliver p : keeps onward (deliver p).
Proof. unfold deliver, onward. destruct p; chip. intros s. destruct (rx_callback s); [by apply moves_note|reflexivity]. Qed.

Lemma keeps_diagnose : keeps onward diagnose.
Proof. unfold diagnose, readBuffer, onward. chip. Qed.

Lemma keeps_read_packet : keeps onward read_packet.
Proof. unfold read_packet, readBuffer, onward. chip. intros ?; same. Qed.

Lemma keeps_finish p : keeps onward (finish_rx p).
Proof. unfold finish_rx. keeps; [apply keeps_deliver|]. intros s. same. Qed.

Lemma keeps_rx_turn : keeps onward rx_turn.
Proof.
  unfold rx_turn, time_time, onward. chip; try apply keeps_diagnose; try apply keeps_read_packet; try apply keeps_finish; intros ?; same.
Qed.

Lemma keeps_add_sample x s0 : keeps onward (add_sample x s0).
Proof. unfold add_sample, onward. keeps. intros s. same. Qed.

Lemma keeps_sample : keeps onward _sample_noise_floor.
Proof. unfold _sample_noise_floor, time_time, onward. chip; try apply keeps_add_sample; intros ?; same. Qed.

Lemma keeps_operation change c : (∀ x, harmless (c x)) → keeps onward (_safe_radio_operation change c).
Proof. intros Hc. unfold _safe_radio_operation, onward. chip; first [by apply keeps_lora|intros ?; same]. Qed.

Lemma keeps_pins b : keeps onward (_control_tx_rx_pins b).
Proof. unfold _control_tx_rx_pins, onward. destruct b; chip. Qed.

Lemma keeps_cad_stage acquired n : keeps onward (cad_stage acquired n).
Proof. unfold cad_stage, onward. chip; try apply keeps_pins; intros ?; same. Qed.

Lemma act_onward a s : onward s (act a s).
Proof.
  destruct a; cbn [act].
  - apply keeps_interrupt.
  - destruct (rx_task s); [reflexivity| |reflexivity]. destruct (negb _); [same|]. destruct (_ && _); [apply keeps_rx_turn|reflexivity].
  - destruct (rx_task s); [reflexivity..|apply keeps_finish].
  - destruct (rx_task s); [reflexivity| |reflexivity]. destruct (_interrupt_setup s); [apply keeps_sample|reflexivity].
  - by apply keeps_operation.
  - by apply keeps_operation.
  - by apply keeps_operation.
  - by apply keeps_operation.
  - apply keeps_cad_stage.
Qed.

(** What other tasks do in some waits. *)
Definition run_all (acts : list activity) (s : t) : t := fold_left (fun s a => act a s) acts s.

Lemma run_onward acts s : onward s (run_all acts s).
Proof.
  revert s. induction acts as [|a acts IH]; intros s; [reflexivity|]. cbn. etransitivity; [apply act_onward|apply IH].
Qed.

Lemma keeps_pass : keeps onward pass_time.
Proof. unfold pass_time. keeps; [apply keeps_chip_reading|]. intros s. apply run_onward. Qed.

Lemma keeps_wait_event f : keeps onward (wait_event f).
Proof. unfold wait_event, onward. chip. apply keeps_pass. Qed.

Lemma keeps_wait_event_for x f : keeps onward (wait_event_for x f).
Proof. unfold wait_event_for, onward. chip; [apply keeps_pass|apply keeps_wait_event]. Qed.

Lemma keeps_acquire_rx : keeps onward acquire_rx_lock.
Proof. unfold acquire_rx_lock, onward. chip; [apply keeps_pass|apply keeps_finish]. Qed.

Lemma keeps_drained irq : keeps onward (drained irq).
Proof. unfold drained, readBuffer, onward. chip; intros ?; same. Qed.

Lemma keeps_drain : keeps onward _drain_pending_rx_irq_before_buffer_reuse.
Proof.
  unfold _drain_pending_rx_irq_before_buffer_reuse, onward. chip; try apply keeps_acquire_rx; try apply keeps_drained; try apply keeps_deliver; intros ?; same.
Qed.

Lemma keeps_is_receiving : keeps onward is_receiving_packet.
Proof. unfold is_receiving_packet, time_monotonic, onward. chip; intros ?; same. Qed.

Lemma keeps_clear_pending : keeps onward clear_pending_irq.
Proof. unfold clear_pending_irq, onward. chip. Qed.

Lemma keeps_settle n : keeps onward (settle_irq_pin n).
Proof. unfold onward. induction n as [|n IH]; cbn [settle_irq_pin]; chip; [apply keeps_pass|apply IH]. Qed.

Lemma keeps_cad_scan a b c d : keeps onward (cad_scan a b c d).
Proof.
  unfold cad_scan, onward. chip; try apply keeps_drain; try apply keeps_pass; try apply keeps_clear_pending; try apply keeps_settle; try apply keeps_wait_event;
    intros ?; same.
Qed.

Lemma keeps_cad_cleanup : keeps onward (cad_cleanup false).
Proof. unfold cad_cleanup, onward. chip; first [apply keeps_cad_stage|apply keeps_pass]. Qed.

(** A scan under the lock of the sender. *)
Lemma keeps_cad p m n : keeps onward (perform_cad p m n false).
Proof.
  unfold perform_cad, onward. apply keeps_get_bind. intros s. destruct (negb _); [reflexivity|]. 
  assert (∀ pk mn, keeps (moves False) (if negb ((0 <=? pk) && (pk <=? 255) && ((0 <=? mn) && (mn <=? 255)))
    then raise (ValueError "CAD thresholds must be between 0 and 255")
    else let n := match n with Some n => n | None => match _custom_cad_symbol_num (cad s) with Some n => if n =? 0 then 2 else n | None => 2 end end in
      let failed := mkReport false false pk mn n in
      match _resolve_cad_symbol_constant n with
      | Err _ => cad_cleanup false;; mret failed
      | Ok symbols => finally (py_try (cad_scan pk mn n symbols) (mret failed)) (cad_cleanup false)
      end)) as H.
  { intros pk mn. cbv zeta. destruct (negb _); [chip|]. destruct (_resolve_cad_symbol_constant _).
    - apply keeps_chip_finally; [apply keeps_try; [apply _|apply keeps_cad_scan|chip]|apply keeps_cad_cleanup].
    - apply keeps_bind; [apply _|apply keeps_cad_cleanup|intros ?; chip]. }
  destruct p, m; try destruct (_get_thresholds_for_current_settings s); apply H.
Qed.

Lemma keeps_restore : keeps onward _restore_rx_mode.
Proof. unfold _restore_rx_mode, onward. chip; first [apply keeps_pins|apply keeps_pass]. Qed.

Lemma keeps_check : keeps onward check_channel.
Proof.
  unfold check_channel. keeps; [apply keeps_is_receiving|apply keeps_cad].
Qed.

Lemma keeps_lbt_loop turns deadline delays : keeps onward (listen_before_talk turns deadline delays).
Proof.
  revert delays. induction turns as [|turns IH]; intros delays; cbn [listen_before_talk]; [by keeps|].
  apply keeps_bind; [apply _| |intros checked].
  { apply keeps_try; [apply _| |by keeps]. keeps. apply keeps_check. }
  unfold time_monotonic, onward. keeps; try apply keeps_chip_reading; first [apply keeps_restore|apply keeps_pass|apply IH].
Qed.

Lemma keeps_busy n : keeps onward (wait_while_busy n).
Proof. unfold onward. induction n as [|n IH]; cbn [wait_while_busy]; chip; [apply keeps_pass|apply IH]. Qed.

Lemma keeps_setup : keeps onward _setup_tx_interrupts.
Proof. unfold _setup_tx_interrupts, onward. chip; apply keeps_clear_pending. Qed.

Lemma keeps_initial n : keeps onward (initial_status n).
Proof. unfold onward. induction n as [|n IH]; cbn [initial_status]; chip; [apply keeps_pass|apply IH]. Qed.

Lemma keeps_timeout : keeps onward _handle_transmission_timeout.
Proof. unfold _handle_transmission_timeout, onward. chip. Qed.

Lemma keeps_poll : keeps onward poll_transmission.
Proof. unfold poll_transmission, onward. chip. Qed.

Lemma keeps_wait_done turns timeout start next : keeps onward (wait_for_done turns timeout start next).
Proof.
  unfold onward. revert next. induction turns as [|turns IH]; intros next; cbn [wait_for_done]; [by keeps|].
  unfold time_time. keeps; try apply keeps_chip_reading; first [apply keeps_timeout|apply keeps_wait_event_for|apply keeps_poll|apply IH].
Qed.

Lemma keeps_finalize : keeps onward _finalize_transmission.
Proof. unfold _finalize_transmission, onward. chip. apply keeps_pins. Qed.

Lemma keeps_stage : keeps onward stage_transmission.
Proof.
  unfold stage_transmission, time_monotonic, onward. keeps; try apply keeps_chip_reading; try (apply keeps_lora; exact I); try apply keeps_query;
    try apply keeps_pass; try apply keeps_busy; try apply keeps_pins; try apply keeps_drain; intros ?; same.
Qed.

(** ** Single calls *)

(** A call that worked is in the log and changes nothing else. *)
Lemma lora_ok c s s' u : lora c s = (s', Ok u) → s' = with_log (log s ++ [Did c]) (with_reads (S (reads s)) s).
Proof.
  unfold lora. rewrite (py_bind_run (reading raises) _ s (with_reads (S (reads s)) s) (raises (reads s)) eq_refl).
  destruct (raises (reads s)); intros H; [discriminate H|by injection H as <-].
Qed.

Lemma gpio_run c s : gpio c s = (with_log (log s ++ [Did c]) s, Ok tt).
Proof. done. Qed.

(** ** The latch of received packets *)

Lemma drain_empties s s' u : _drain_pending_rx_irq_before_buffer_reuse s = (s', Ok u) → _pending_rx_irq_status (irqs s') = 0.
Proof.
  unfold _drain_pending_rx_irq_before_buffer_reuse. rewrite (py_bind_run get _ s s s eq_refl). destruct (Z.eqb_spec (_pending_rx_irq_status (irqs s)) 0) as [H0|_].
  { by intros [= <- _]. }
  intros H. apply py_bind_ok in H as (s1 & [] & _ & H). rewrite (py_bind_run get _ s1 s1 s1 eq_refl) in H.
  destruct (Z.eqb_spec (_pending_rx_irq_status (irqs s1)) 0) as [H0|_]; [by injection H as <- _|].
  apply py_bind_ok in H as (s2 & packet & Hd & H). unfold finally in Hd. destruct (drained _ s1) as [s3 r]. injection Hd as <- ->.
  unfold deliver in H. destruct packet as [p|]; [|by injection H as <- _]. injection H as <- _. cbn. by destruct (rx_callback s3).
Qed.

(** ** What confirms *)

(** The log between two states, with what set the completion event. *)
Definition hears (s s' : t) (l : list entry) : Prop :=
  log s' = log s ++ l ∧ (_tx_done_event (events s') = true → _tx_done_event (events s) = true ∨ confirms l).

Lemma onward_hears s s' : onward s s' → ∃ l, hears s s' l ∧ Forall other l.
Proof. intros (_ & _ & _ & _ & _ & l & H & Ho & Hd). exists l. split; [|done]. split; [done|tauto]. Qed.

Lemma hears_trans s s1 s2 l l' : hears s s1 l → hears s1 s2 l' → hears s s2 (l ++ l').
Proof. intros [H1 H2] [G1 G2]. split; [by rewrite G1, H1, app_assoc|]. rewrite confirms_app. tauto. Qed.

Lemma poll_confirmed s s' :
  poll_transmission s = (s', Ok (Some true)) → ∃ l, log s' = log s ++ l ∧ Forall other l ∧ confirms l.
Proof.
  unfold poll_transmission. intros H. apply py_bind_ok in H as (s1 & status & Hq & H). destruct status as [irq|]; [|discriminate H].
  assert (keeps onward (py_try (irq ← query irq_status; mret (Some irq)) (mret None))) as Hk by (unfold onward; chip).
  apply (run_keeps onward) in Hq; [|exact Hk]. apply onward_hears in Hq as (l & [Hl _] & Ho).
  rewrite (py_bind_run (note (Seen irq)) _ s1 (with_log (log s1 ++ [Seen irq]) s1) tt eq_refl) in H.
  destruct (irq =? 0xFFFF); [discriminate H|]. destruct (has irq IRQ_TX_DONE) eqn:Hi.
  - injection H as <-. exists (l ++ [Seen irq]). cbn [log with_log]. rewrite Hl, app_assoc. split; [done|].
    split; [apply Forall_app; split; [done|by repeat constructor]|]. right. exists irq. split; [apply elem_of_app; right; by left|done].
  - destruct (has irq IRQ_TIMEOUT); [|discriminate H]. by apply py_bind_ok in H as (s7 & [] & _ & H).
Qed.

(** The wait ends well only if the completion event is set or a poll has seen it. *)
Lemma wait_done_confirmed turns timeout start next s s' :
  wait_for_done turns timeout start next s = (s', Ok (Some true)) →
  ∃ l, log s' = log s ++ l ∧ Forall other l ∧ (_tx_done_event (events s) = true ∨ confirms l).
Proof.
  revert next s. induction turns as [|turns IH]; intros next s H; cbn [wait_for_done] in H; [discriminate H|].
  rewrite (py_bind_run time_time _ s (with_reads (S (reads s)) s) (wall (reads s)) eq_refl) in H. set (s1 := with_reads _ s) in H.
  destruct (fleb _ f_zero); [apply py_bind_ok in H as (s2 & [] & _ & H); discriminate H|].
  rewrite (py_bind_run time_time _ s1 (with_reads (S (reads s1)) s1) (wall (reads s1)) eq_refl) in H. set (s2 := with_reads _ s1) in H.
  apply py_bind_ok in H as (s3 & done & Hw & H). pose proof (run_keeps onward _ _ _ _ Hw (keeps_wait_event_for _ _)) as L3.
  assert (onward s s3) as L by (etransitivity; [|exact L3]; etransitivity; [|by same]; same).
  apply onward_hears in L as (l & [Hl Hc] & Hf).
  destruct done.
  { injection H as <-. exists l. split; [done|]. split; [done|]. apply Hc.
    unfold wait_event_for in Hw. destruct (fleb _ f_zero); [by apply py_bind_ok in Hw as (s4 & [] & _ & Hw)|]. unfold wait_event in Hw. rewrite (py_bind_run get _ s2 s2 s2 eq_refl) in Hw. destruct (_tx_done_event (events s2)) eqn:He; [by injection Hw as <-|].
    apply py_bind_ok in Hw as (s4 & [] & _ & Hw). rewrite (py_bind_run get _ s4 s4 s4 eq_refl) in Hw. by injection Hw as <- ->. }
  rewrite (py_bind_run time_time _ s3 (with_reads (S (reads s3)) s3) (wall (reads s3)) eq_refl) in H. set (s4 := with_reads _ s3) in H.
  assert (∀ l', Forall other l' → (_tx_done_event (events s3) = true ∨ confirms l') → ∀ x, log x = log s3 ++ l' →
    ∃ l0, log x = log s ++ l0 ∧ Forall other l0 ∧ (_tx_done_event (events s) = true ∨ confirms l0)) as Hjoin.
  { intros l' Ho Hor x Hx. exists (l ++ l'). split; [by rewrite Hx, Hl, app_assoc|]. split; [by apply Forall_app|]. rewrite confirms_app. tauto. }
  destruct (fleb next _).
  2: { apply IH in H as (l' & Hl' & Ho & Hor). by apply (Hjoin l'). }
  apply py_bind_ok in H as (s5 & polled & Hp & H). destruct polled as [r|].
  - injection H as <- ->. apply poll_confirmed in Hp as (l6 & H6 & Ho6 & Hc6). by apply (Hjoin l6); [|right|].
  - apply (run_keeps onward) in Hp; [|apply keeps_poll]. apply onward_hears in Hp as (l5 & [Hl5 Hc5] & Hf5).
    apply IH in H as (l' & Hl' & Ho & Hor). apply (Hjoin (l5 ++ l')); [by apply Forall_app| |by rewrite Hl', Hl5, app_assoc].
    rewrite confirms_app. cbn in Hc5. tauto.
Qed.

(** ** A send that succeeds *)

(** Ready: the completion event was cleared, the latch is empty. *)
Lemma stage_ready s s' :
  stage_transmission s = (s', Ok true) →
  _pending_rx_irq_status (irqs s') = 0 ∧ ∃ s0, onward s s0 ∧ _tx_done_event (events s0) = false ∧ onward s0 s'.
Proof.
  unfold stage_transmission. intros H.
  assert (∀ A B (m : py t A) (k : A → py t B) s r, (m ≫= k) s = (s', Ok r) → keeps onward m → ∃ s1 a, onward s s1 ∧ k a s1 = (s', Ok r)) as step.
  { intros A B m k s1 r Hm Hk. apply py_bind_ok in Hm as (s2 & a & Ha & Hm). exists s2, a. split; [by apply (run_keeps onward) in Ha|done]. }
  rewrite (py_bind_run (modify _) _ s (set_markers f_zero f_zero s) tt eq_refl) in H.
  apply step in H as (s1 & ? & L1 & H); [|apply keeps_chip_reading]. apply step in H as (s2 & [] & L2 & H); [|by apply keeps_lora].
  apply step in H as (s3 & [] & L3 & H); [|apply keeps_pass]. apply step in H as (s4 & busy & L4 & H); [|apply keeps_query].
  apply step in H as (s5 & [] & L5 & H); [|destruct busy; [apply keeps_busy|apply keeps_ret; apply _]].
  apply step in H as (s6 & [] & L6 & H); [|apply keeps_pins]. apply step in H as (s7 & busy' & L7 & H); [|apply keeps_query].
  apply step in H as (s8 & stuck & L8 & H).
  2: { destruct busy'; [apply keeps_bind; [apply _|apply keeps_busy|intros _; apply keeps_query]|apply keeps_ret; apply _]. }
  destruct stuck; [discriminate H|].
  rewrite (py_bind_run (modify _) _ s8 (set_tx_done false s8) tt eq_refl) in H.
  rewrite (py_bind_run (modify _) _ _ (set_rx_done false (set_tx_done false s8)) tt eq_refl) in H.
  apply py_bind_ok in H as (s9 & [] & Hd & H). injection H as <-.
  split; [by apply drain_empties in Hd|]. exists (set_rx_done false (set_tx_done false s8)).
  split; [|split; [done|by apply (run_keeps onward) in Hd; [|apply keeps_drain]]].
  transitivity s8; [|same]. etransitivity; [|exact L8]. etransitivity; [|exact L7]. etransitivity; [|exact L6]. etransitivity; [|exact L5].
  etransitivity; [|exact L4]. etransitivity; [|exact L3]. etransitivity; [|exact L2]. etransitivity; [|exact L1]. same.
Qed.

Lemma prepare_ready turns s s' delays :
  _prepare_radio_for_tx turns s = (s', Ok (Some (true, delays))) →
  _pending_rx_irq_status (irqs s') = 0 ∧ ∃ s0, onward s s0 ∧ _tx_done_event (events s0) = false ∧ onward s0 s'.
Proof.
  unfold _prepare_radio_for_tx. intros H. apply py_bind_ok in H as (s1 & now & H1 & H). rewrite (py_bind_run get _ s1 s1 s1 eq_refl) in H.
  apply py_bind_ok in H as (s2 & ? & H2 & H). apply py_bind_ok in H as (s3 & [ds|] & H3 & H); [|discriminate H].
  apply py_bind_ok in H as (s4 & ready & H4 & H). injection H as <- -> <-.
  apply stage_ready in H4 as (Hp & s0 & L0 & Hd & L4). split; [done|]. exists s0. split; [|done].
  apply (run_keeps onward) in H1; [|apply keeps_chip_reading]. apply (run_keeps onward) in H2; [|apply keeps_chip_reading].
  apply (run_keeps onward) in H3; [|apply keeps_lbt_loop]. etransitivity; [exact H1|]. etransitivity; [exact H2|]. by etransitivity.
Qed.

(** What the driver tells the chip to send [data]. *)
Definition frame_commands (preamble : Z) (data : bytes) : list entry :=
  [Did (WriteBuffer data); Did (SetPacketParamsLoRa preamble (len data)); Did (SetDioIrqParams tx_mask)].

(** The transmission has started: the command is in the log. *)
Lemma execute_started timeout s s' :
  _execute_transmission timeout s = (s', Ok true) →
  ∃ s1, onward s s1 ∧ log s1 = log s ++ [Did (SetTx timeout)] ∧ onward s1 s'.
Proof.
  unfold _execute_transmission. intros H. apply py_bind_ok in H as (s1 & [] & H1 & H). exists s1.
  split; [by apply (run_keeps onward) in H1; [|apply keeps_lora]|]. split; [by apply lora_ok in H1 as ->|].
  apply (run_keeps onward) in H; [done|]. unfold onward. chip; first [apply keeps_busy|apply keeps_initial].
Qed.

Lemma timeout_units c n ms units : _calculate_tx_timeout c n = Ok (ms, units) → units = 64 * ms.
Proof. unfold _calculate_tx_timeout. intros H. apply res_bind_ok in H as (x & _ & H). apply res_bind_ok in H as (y & _ & H). injection H as <- <-. lia. Qed.

Lemma setup_logged s s' u :
  _setup_tx_interrupts s = (s', Ok u) → ∃ l, hears s s' (Did (SetDioIrqParams tx_mask) :: l) ∧ Forall other l.
Proof.
  unfold _setup_tx_interrupts. intros H. apply py_bind_ok in H as (s1 & [] & H1 & H). apply lora_ok in H1 as ->.
  apply (run_keeps onward) in H; [|unfold onward; chip; apply keeps_clear_pending]. apply onward_hears in H as (l & [Hl Hc] & Ho).
  exists l. split; [|done]. split; [by rewrite Hl; cbn; rewrite <- app_assoc|]. intros Hd. apply Hc in Hd. change (?x :: l) with ([x] ++ l). rewrite confirms_app. cbn in Hd. tauto.
Qed.

(** The interrupts of a transmission, its power, the transmission and its end, from
    a state where the buffer is written. *)
Lemma transmission_confirmed_from s power units tx_turns timeout s' :
  (∃ s1 s2 s3, pass_time s = (s1, Ok tt) ∧ lora (SetTxPower power) s1 = (s2, Ok tt) ∧ _execute_transmission units s2 = (s3, Ok true)
     ∧ _wait_for_transmission_complete tx_turns timeout s3 = (s', Ok (Some true))) →
  ∃ lb lc, log s' = log s ++ lb ++ [Did (SetTxPower power); Did (SetTx units)] ++ lc ∧ Forall other (lb ++ lc)
    ∧ (_tx_done_event (events s) = true ∨ confirms (lb ++ lc)).
Proof.
  intros (s1 & s2 & s3 & H1 & H2 & H3 & H4). apply (run_keeps onward) in H1; [|apply keeps_pass]. apply onward_hears in H1 as (lb & [Hb Cb] & Ob).
  apply lora_ok in H2 as ->. apply execute_started in H3 as (s4 & L4 & Hl4 & L5).
  pose proof L4 as (_ & _ & _ & _ & _ & l4 & Hl4' & _ & C4).
  apply onward_hears in L5 as (l5 & [H5 C5] & O5). unfold _wait_for_transmission_complete in H4.
  rewrite (py_bind_run time_time _ s3 (with_reads (S (reads s3)) s3) (wall (reads s3)) eq_refl) in H4.
  apply wait_done_confirmed in H4 as (l6 & H6 & O6 & C6). exists lb, (l5 ++ l6).
  split; [|split].
  - change (log (with_reads (S (reads s3)) s3)) with (log s3) in H6. rewrite H6, H5, Hl4. cbn. rewrite Hb, <- !app_assoc. done.
  - rewrite !Forall_app in *. tauto.
  - rewrite !confirms_app. change (events (with_reads (S (reads s3)) s3)) with (events s3) in C6.
    assert (l4 = [Did (SetTx units)]) as -> by (rewrite Hl4 in Hl4'; cbn in Hl4'; by apply app_inv_head in Hl4').
    assert (¬ confirms [Did (SetTx units)]) as Hn.
    { intros [Hin|(irq & Hin & _)]; apply list_elem_of_singleton in Hin; discriminate Hin. }
    cbn in C4. tauto.
Qed.

Lemma transmitted lbt_turns tx_turns data s s' r :
  transmit lbt_turns tx_turns data s = (s', Ok (Some r)) →
  ∃ s0 s1 la lb lc ld preamble power,
    onward s s0 ∧ _tx_done_event (events s0) = false
    ∧ log s1 = log s0 ++ la ∧ _pending_rx_irq_status (irqs s1) = 0
    ∧ log s' = log s1 ++ frame_commands preamble data ++ lb ++ [Did (SetTxPower power); Did (SetTx (64 * (airtime_ms r + 1000)))] ++ lc ++ ld
    ∧ Forall other (la ++ lb ++ lc ++ ld) ∧ confirms (la ++ lb ++ lc) ∧ _tx_buffer_busy s' = false.
Proof.
  unfold transmit. intros H. rewrite (py_bind_run get _ s s s eq_refl) in H.
  apply py_bind_ok in H as (sa & [ms units] & Ht & H). apply lift_ok in Ht as [-> Ht]. apply timeout_units in Ht as ->.
  apply py_bind_ok in H as (sb & x & Hx & H). apply lift_ok in Hx as [-> _].
  apply py_bind_ok in H as (s1 & prepared & Hp & H). destruct prepared as [[[] delays]|]; [|discriminate H|discriminate H].
  apply prepare_ready in Hp as (Hlatch & s0 & L0 & Hd & L1). apply onward_hears in L1 as (la & [Ha Ca] & Oa).
  rewrite (py_bind_run (modify _) _ s1 (with_tx_buffer_busy true s1) tt eq_refl) in H.
  unfold _prepare_packet_transmission in H. apply py_bind_ok in H as (s3 & [] & Hw & H).
  apply py_bind_ok in Hw as (s2 & [] & Hw & Hp). apply lora_ok in Hw as ->. rewrite (py_bind_run get _ _ _ _ eq_refl) in Hp. apply lora_ok in Hp as ->.
  apply py_bind_ok in H as (s4 & [] & Hs & H). apply setup_logged in Hs as (l4 & [H4 C4] & O4).
  apply py_bind_ok in H as (s5 & [] & Hpass & H). rewrite (py_bind_run get _ s5 s5 s5 eq_refl) in H.
  apply py_bind_ok in H as (s6 & [] & Hpow & H). apply py_bind_ok in H as (s7 & [] & Hex & H); [|discriminate H]. cbn [negb] in H.
  apply py_bind_ok in H as (s8 & [[]|] & Hwait & H); [|discriminate H|discriminate H].
  destruct (transmission_confirmed_from s4 (tx_power (settings s5)) (64 * ms) tx_turns (fadd x (f_dec 5 1)) s8) as (lb & lc & H8 & O8 & C8).
  { by exists s5, s6, s7. }
  rewrite (py_bind_run (modify _) _ s8 (with_tx_buffer_busy false s8) tt eq_refl) in H.
  apply py_bind_ok in H as (s9 & [] & Hfin & H). apply (run_keeps onward) in Hfin; [|apply keeps_finalize].
  pose proof Hfin as (_ & Hbusy & _). apply onward_hears in Hfin as (ld & [H9 _] & O9).
  rewrite (py_bind_run get _ s9 s9 s9 eq_refl), (py_bind_run (gpio _) _ s9 _ tt eq_refl) in H. injection H as <- <-.
  exists s0, s1, la, (l4 ++ lb), lc, (ld ++ [Did (BlinkLed (txled_pin (pins s9)))]), (preamble_length (settings s1)), (tx_power (settings s5)).
  split; [done|]. split; [done|]. split; [done|]. split; [done|]. cbn [airtime_ms]. replace (64 * (ms - 1000 + 1000)) with (64 * ms) by lia.
  cbn [log with_log with_reads with_tx_buffer_busy] in *. split; [|split; [|split; [|exact Hbusy]]].
  - rewrite H9, H8, H4. unfold frame_commands. cbn [app]. rewrite <- !app_assoc. done.
  - rewrite !Forall_app in *. repeat split; try tauto. by repeat constructor.
  - assert (¬ confirms [Did (SetDioIrqParams tx_mask)]) as Hn.
    { intros [Hin|(irq & Hin & _)]; apply list_elem_of_singleton in Hin; discriminate Hin. }
    change (Did (SetDioIrqParams tx_mask) :: l4) with ([Did (SetDioIrqParams tx_mask)] ++ l4) in C4.
    rewrite !confirms_app in *. cbn [events with_log with_reads with_tx_buffer_busy] in *. rewrite Hd in Ca. intuition congruence.
Qed.

(** C25: what a successful send means. The transmission was confirmed: with the
    completion event cleared first, a TX_DONE was seen by the interrupt handler or
    a poll (or the handler has failed, which counts as one) before the send went on
    to finalize. The chip was told, in this order and in one piece but for what
    other tasks did in the awaits: the data, a packet length that is theirs, the
    interrupts of a transmission, the power, and the transmission with a timeout of
    the airtime and a second. When the buffer was written no received packet was
    left in it unread. After the send the lock is free and reception is heard. *)
Theorem send_confirmed_by_chip lbt_turns tx_turns data s s' r :
  send lbt_turns tx_turns data s = (s', Ok (Some r)) →
  ∃ s0 s1 l0 la lb lc ld preamble power,
    log s0 = log s ++ l0 ∧ _tx_done_event (events s0) = false
    ∧ log s1 = log s0 ++ la ∧ _pending_rx_irq_status (irqs s1) = 0
    ∧ log s' = log s1 ++ frame_commands preamble data ++ lb ++ [Did (SetTxPower power); Did (SetTx (64 * (airtime_ms r + 1000)))] ++ lc ++ ld
    ∧ Forall other (l0 ++ la ++ lb ++ lc ++ ld) ∧ confirms (la ++ lb ++ lc)
    ∧ _tx_buffer_busy s' = false ∧ _tx_lock s' = false.
Proof.
  unfold send. intros H. rewrite (py_bind_run get _ s s s eq_refl) in H. destruct (negb _); [discriminate H|].
  apply py_bind_ok in H as (s2 & [] & H2 & H). apply (run_keeps onward) in H2; [|apply keeps_pass].
  rewrite (py_bind_run (modify _) _ s2 (with_tx_lock true s2) tt eq_refl) in H. unfold finally in H.
  destruct (transmit lbt_turns tx_turns data (with_tx_lock true s2)) as [s3 r3] eqn:Ht. injection H as <- ->.
  apply transmitted in Ht as (s0 & s1 & la & lb & lc & ld & preamble & power & L0 & Hd & Ha & Hlatch & Hlog & Ho & Hc & Hbusy).
  apply onward_hears in L0 as (l0 & [Hl0 _] & O0). apply onward_hears in H2 as (l2 & [Hl2 _] & O2).
  pose proof (keeps_restore s3) as Lr. pose proof Lr as (_ & Hb & _). apply onward_hears in Lr as (lr & [Hlr _] & Or).
  set (s4 := (_restore_rx_mode s3).1) in *.
  exists s0, s1, (l2 ++ l0), la, lb, lc, (ld ++ lr), preamble, power. cbn [log with_tx_lock modify fst].
  change (log (with_tx_lock true s2)) with (log s2) in Hl0.
  split; [by rewrite Hl0, Hl2, app_assoc|]. split; [done|]. split; [done|]. split; [done|].
  split; [rewrite Hlr, Hlog; unfold frame_commands; repeat progress (cbn [app]; rewrite <- ?app_assoc); done|].
  split; [rewrite !Forall_app in *; tauto|]. split; [done|]. split; [cbn; congruence|done].
Qed.

Lemma keeps_prepare turns : keeps onward (_prepare_radio_for_tx turns).
Proof.
  unfold _prepare_radio_for_tx, time_monotonic, onward. keeps; try apply keeps_chip_reading; [apply keeps_lbt_loop|apply keeps_stage].
Qed.

Lemma keeps_execute units : keeps onward (_execute_transmission units).
Proof. unfold _execute_transmission, onward. chip; first [apply keeps_busy|apply keeps_initial]. Qed.

Lemma keeps_wait_for_done turns timeout : keeps onward (_wait_for_transmission_complete turns timeout).
Proof. unfold _wait_for_transmission_complete, time_time, onward. keeps; [apply keeps_chip_reading|apply keeps_wait_done]. Qed.

(** ** A send ends *)

Lemma listen_ends turns deadline delays N s s' :
  (∀ n, (N ≤ n)%nat → fleb deadline (monotonic n) = true) → (N - reads s < turns)%nat →
  listen_before_talk turns deadline delays s ≠ (s', Ok None).
Proof.
  intros HN. revert delays s. induction turns as [|turns IH]; intros delays s Hf H; [lia|]. cbn [listen_before_talk] in H.
  apply py_bind_ok in H as (s1 & checked & Hc & H).
  assert (onward s s1) as (Hr1 & _).
  { apply (run_keeps onward) in Hc; [done|]. apply keeps_try; [apply _| |by keeps]. keeps. apply keeps_check. }
  destruct checked as [[[] scanned]|]; [|discriminate H|discriminate H].
  rewrite (py_bind_run time_monotonic _ s1 (with_reads (S (reads s1)) s1) (monotonic (reads s1)) eq_refl) in H.
  destruct (fleb _ _) eqn:Hd; [discriminate H|].
  assert (reads s1 < N)%nat as Hlt by (apply Nat.nle_gt; intros Hle; rewrite HN in Hd by lia; discriminate Hd).
  apply py_bind_ok in H as (s2 & j & H2 & H). apply py_bind_ok in H as (s3 & now & H3 & H). rewrite (py_bind_run get _ s3 s3 s3 eq_refl) in H.
  apply py_bind_ok in H as (s4 & rounded & H4 & H). apply lift_ok in H4 as [-> _].
  apply py_bind_ok in H as (s5 & [] & H5 & H). apply py_bind_ok in H as (s6 & [] & H6 & H).
  injection H2 as <- _. injection H3 as <- _.
  apply (run_keeps onward) in H5 as (Hr5 & _); [|destruct scanned; [apply keeps_restore|apply keeps_ret; apply _]].
  apply (run_keeps onward) in H6 as (Hr6 & _); [|apply keeps_pass]. cbn in Hr5. apply IH in H; [done|lia].
Qed.

Lemma wait_done_ends turns timeout start next N s s' :
  (∀ n, (N ≤ n)%nat → fleb (fsub timeout (fsub (wall n) start)) f_zero = true) → (N - reads s < turns)%nat →
  wait_for_done turns timeout start next s ≠ (s', Ok None).
Proof.
  intros HN. revert next s. induction turns as [|turns IH]; intros next s Hf H; [lia|]. cbn [wait_for_done] in H.
  rewrite (py_bind_run time_time _ s (with_reads (S (reads s)) s) (wall (reads s)) eq_refl) in H. set (s1 := with_reads _ s) in H.
  destruct (fleb _ f_zero) eqn:Hd; [by apply py_bind_ok in H as (s2 & [] & _ & H)|].
  assert (reads s < N)%nat as Hlt by (apply Nat.nle_gt; intros Hle; rewrite HN in Hd by lia; discriminate Hd).
  rewrite (py_bind_run time_time _ s1 (with_reads (S (reads s1)) s1) (wall (reads s1)) eq_refl) in H. set (s2 := with_reads _ s1) in H.
  apply py_bind_ok in H as (s3 & done & Hw & H). apply (run_keeps onward) in Hw as (Hr3 & _); [|apply keeps_wait_event_for]. cbn in Hr3.
  destruct done; [discriminate H|].
  rewrite (py_bind_run time_time _ s3 (with_reads (S (reads s3)) s3) (wall (reads s3)) eq_refl) in H. set (s4 := with_reads _ s3) in H.
  destruct (fleb next _).
  - apply py_bind_ok in H as (s5 & polled & Hp & H). apply (run_keeps onward) in Hp as (Hr5 & _); [|apply keeps_poll]. cbn in Hr5.
    destruct polled; [discriminate H|]. apply IH in H; [done|lia].
  - apply IH in H; [done|cbn; lia].
Qed.

(** From every reading up to [M], [K] readings of a clock pass the budget of
    listening, or the timeout of a transmission that is begun in [s]. *)
Definition budget_passes (K M : nat) (s : t) : Prop :=
  ∀ i n, (i ≤ M)%nat → (i + K ≤ n)%nat → fleb (fadd (monotonic i) (lbt_max_wait_seconds (lbt s))) (monotonic n) = true.

Definition timeout_passes (K M : nat) (data : bytes) (s : t) : Prop :=
  ∀ ms units x i n, _calculate_tx_timeout (settings s) (len data) = Ok (ms, units) → fdiv (f_of_Z ms) (f_of_Z 1000) = Ok x →
    (i ≤ M)%nat → (i + K ≤ n)%nat → fleb (fsub (fadd x (f_dec 5 1)) (fsub (wall n) (wall i))) f_zero = true.

Lemma transmission_ends K lbt_turns tx_turns data s s' :
  budget_passes K (reads s') s → timeout_passes K (reads s') data s → (K < lbt_turns)%nat → (K < tx_turns)%nat →
  transmit lbt_turns tx_turns data s ≠ (s', Ok None).
Proof.
  intros Hb Ht Hl Hx. unfold transmit. intros H. rewrite (py_bind_run get _ s s s eq_refl) in H.
  apply py_bind_ok in H as (sa & [ms units] & H1 & H). apply lift_ok in H1 as [-> H1].
  apply py_bind_ok in H as (sb & x & H2 & H). apply lift_ok in H2 as [-> H2].
  apply py_bind_ok in H as (s1 & prepared & Hp & H). destruct prepared as [[[] delays]|]; [|discriminate H|].
  - do 3 (let s0 := fresh "s" in apply py_bind_ok in H as (s0 & [] & _ & H)). apply py_bind_ok in H as (s5 & [] & _ & H).
    rewrite (py_bind_run get _ s5 s5 s5 eq_refl) in H. apply py_bind_ok in H as (s6 & [] & _ & H).
    apply py_bind_ok in H as (s7 & [] & _ & H); [|discriminate H]. cbn [negb] in H.
    apply py_bind_ok in H as (s8 & r & Hw & H). destruct r as [[]|]; [|discriminate H|].
    { do 2 (let s0 := fresh "s" in apply py_bind_ok in H as (s0 & [] & _ & H)).
      apply py_bind_ok in H as (? & ? & _ & H). by apply py_bind_ok in H as (? & [] & _ & H). }
    injection H as <-. pose proof (run_keeps onward _ _ _ _ Hw (keeps_wait_for_done _ _)) as [Hr _].
    unfold _wait_for_transmission_complete in Hw. rewrite (py_bind_run time_time _ s7 (with_reads (S (reads s7)) s7) (wall (reads s7)) eq_refl) in Hw.
    apply (wait_done_ends _ _ _ _ (reads s7 + K)) in Hw; [done| |cbn; lia]. intros n Hn. by apply (Ht ms units x).
  - injection H as <-. pose proof (run_keeps onward _ _ _ _ Hp (keeps_prepare _)) as [Hr _].
    unfold _prepare_radio_for_tx in Hp. rewrite (py_bind_run time_monotonic _ s (with_reads (S (reads s)) s) (monotonic (reads s)) eq_refl) in Hp.
    rewrite (py_bind_run get _ _ _ _ eq_refl) in Hp. apply py_bind_ok in Hp as (s2 & ? & H3 & Hp). injection H3 as <- _.
    apply py_bind_ok in Hp as (s3 & [ds|] & H4 & Hp); [by apply py_bind_ok in Hp as (s4 & ready & _ & Hp)|].
    apply (listen_ends _ _ _ (reads s + K)) in H4; [done| |cbn; lia]. intros n Hn. by apply Hb.
Qed.

(** ** Reception afterwards *)

Lemma lora_works c s : (∀ n, raises n = false) → lora c s = (with_log (log s ++ [Did c]) (with_reads (S (reads s)) s), Ok tt).
Proof. intros Hw. unfold lora. rewrite (py_bind_run (reading raises) _ s (with_reads (S (reads s)) s) (raises (reads s)) eq_refl), Hw. done. Qed.

(** The commands that start reception. *)
Definition reception_commands : list entry := [Did (ClearIrqStatus 0xFFFF); Did (SetDioIrqParams _get_rx_irq_mask); Did RequestRx].

Lemma pins_run b s : ∃ s', _control_tx_rx_pins b s = (s', Ok tt).
Proof. unfold _control_tx_rx_pins. rewrite (py_bind_run get _ s s s eq_refl). destruct (txen_pin _ =? -1), (rxen_pin _ =? -1); by eexists. Qed.

Lemma pass_run s : ∃ s', pass_time s = (s', Ok tt).
Proof. by eexists. Qed.

Lemma restore_receives s :
  (∀ n, raises n = false) → ∃ s1 s2, onward s s1 ∧ log s2 = log s1 ++ reception_commands ∧ _restore_rx_mode s = pass_time s2.
Proof.
  intros Hw. destruct (pins_run false s) as [s1 H1]. pose proof (lora_works SetStandby s1 Hw) as H2.
  destruct (pass_run (with_log (log s1 ++ [Did SetStandby]) (with_reads (S (reads s1)) s1))) as [s2 H3].
  exists s2. eexists. split; [|split].
  - apply (run_keeps onward) in H1; [|apply keeps_pins]. apply (run_keeps onward) in H2; [|by apply keeps_lora]. apply (run_keeps onward) in H3; [|apply keeps_pass].
    etransitivity; [exact H1|]. by etransitivity.
  - shelve.
  - unfold _restore_rx_mode, py_try. rewrite (py_bind_run _ _ _ _ _ H1), (py_bind_run _ _ _ _ _ H2), (py_bind_run _ _ _ _ _ H3).
    rewrite (py_bind_run _ _ _ _ _ (lora_works (ClearIrqStatus 0xFFFF) s2 Hw)). set (s3 := with_log _ _).
    rewrite (py_bind_run _ _ _ _ _ (lora_works (SetDioIrqParams _get_rx_irq_mask) s3 Hw)). set (s4 := with_log _ (with_reads (S (reads s3)) s3)).
    rewrite (py_bind_run _ _ _ _ _ (lora_works RequestRx s4 Hw)). destruct (pass_run (with_log (log s4 ++ [Did RequestRx]) (with_reads (S (reads s4)) s4))) as [s5 H5].
    rewrite H5. symmetry. exact H5.
  Unshelve. cbn. by rewrite <- !app_assoc.
Qed.

(** The log of the whole send. *)
Definition longer (s s' : t) : Prop := ∃ l, log s' = log s ++ l.

#[local] Instance longer_preorder : PreOrder longer.
Proof.
  split; [intros s; exists []; by rewrite app_nil_r|]. intros x y z [l H] [l' H']. exists (l ++ l'). by rewrite H', H, app_assoc.
Qed.

Lemma keeps_longer {A} (m : py t A) : keeps onward m → keeps longer m.
Proof. intros Hm s. destruct (Hm s) as (_ & _ & _ & _ & _ & l & Hl & _). by exists l. Qed.

Lemma lora_longer c : keeps longer (lora c).
Proof.
  intros s. unfold lora. rewrite (py_bind_run (reading raises) _ s (with_reads (S (reads s)) s) (raises (reads s)) eq_refl).
  destruct (raises (reads s)); [exists []; by rewrite app_nil_r|by eexists].
Qed.

Lemma keeps_packet data : keeps longer (_prepare_packet_transmission data).
Proof. unfold _prepare_packet_transmission. keeps; apply lora_longer. Qed.

Lemma transmit_longer lbt_turns tx_turns data : keeps longer (transmit lbt_turns tx_turns data).
Proof.
  unfold transmit. keeps;
    first [apply keeps_packet | apply lora_longer | apply keeps_longer, keeps_prepare | apply keeps_longer, keeps_setup | apply keeps_longer, keeps_pass
      | apply keeps_longer, keeps_execute | apply keeps_longer, keeps_wait_for_done | apply keeps_longer, keeps_finalize
      | (apply keeps_longer; by apply keeps_gpio) | (intros ?; exists []; by rewrite app_nil_r)].
Qed.

(** What a send that got as far as transmitting did at its end, if the library's calls
    work: it told the chip to receive, slept, and freed the lock. *)
Definition ends_receiving (s s' : t) : Prop :=
  ∃ s1 s2, (∃ l, log s1 = log s ++ l) ∧ log s2 = log s1 ++ reception_commands ∧ s' = with_tx_lock false (pass_time s2).1.

Lemma send_restores lbt_turns tx_turns data s :
  _initialized s = true →
  ∃ s0 s3 r, pass_time s = (s0, Ok tt) ∧ transmit lbt_turns tx_turns data (with_tx_lock true s0) = (s3, r)
    ∧ send lbt_turns tx_turns data s = (with_tx_lock false (_restore_rx_mode s3).1, r)
    ∧ ((∀ n, raises n = false) → ends_receiving s (with_tx_lock false (_restore_rx_mode s3).1)).
Proof.
  intros Hi. unfold send. rewrite (py_bind_run get _ s s s eq_refl), Hi. cbn [negb].
  destruct (pass_run s) as [s0 H0]. rewrite (py_bind_run _ _ _ _ _ H0).
  rewrite (py_bind_run (modify _) _ s0 (with_tx_lock true s0) tt eq_refl). unfold finally.
  destruct (transmit lbt_turns tx_turns data (with_tx_lock true s0)) as [s3 r] eqn:Hs.
  exists s0, s3, r. split_and!; [done..|]. intros Hw. destruct (restore_receives s3 Hw) as (s1 & s2 & L1 & H2 & ->).
  exists s1, s2. split_and!; [|exact H2|done]. assert (longer s s1) as Hs1; [|exact Hs1].
  transitivity s0; [by apply (run_keeps longer) in H0; [|apply keeps_longer, keeps_pass]|].
  transitivity s3; [|by destruct L1 as (_ & _ & _ & _ & _ & l & Hl1 & _); exists l].
  apply (run_keeps longer) in Hs; [exact Hs|apply transmit_longer].
Qed.

(** C26: a send of an initialized driver ends, and reception is started at its end. If from every
    reading during the send ([M] bounds them) [K] readings of the clocks pass the
    budget of listening and the timeout of the transmission, more than [K] turns are
    enough for a result, be it a report or an exception, whether or not calls of the
    library raise; and the transmit lock is free again. If moreover no call of the
    library raises during the send, the last thing it tells the chip, before the
    sleep in which other tasks run, is to clear the interrupts, to enable those of
    reception and to receive. *)
Theorem send_ends_receiving K M lbt_turns tx_turns data s :
  _initialized s = true → (reads (send lbt_turns tx_turns data s).1 ≤ M)%nat →
  budget_passes K M (pass_time s).1 → timeout_passes K M data (pass_time s).1 → (K < lbt_turns)%nat → (K < tx_turns)%nat →
  ∃ s' r, send lbt_turns tx_turns data s = (s', r) ∧ r ≠ Ok None ∧ _tx_lock s' = false
    ∧ ((∀ n, raises n = false) → ends_receiving s s').
Proof.
  intros Hi HM Hb Ht Hl Hx. destruct (send_restores lbt_turns tx_turns data s Hi) as (s0 & s3 & r & H0 & Hs & Hsend & Hrec).
  rewrite Hsend in HM |- *. rewrite H0 in Hb, Ht. cbn [fst reads with_tx_lock] in HM, Hb, Ht. pose proof (keeps_restore s3) as [Hr3 _].
  eexists _, r. split_and!; [done| |done|done].
  intros ->. apply (transmission_ends K) in Hs; [done| | |done|done].
  - intros i n Hi' Hn. apply Hb; [lia|done].
  - intros ms units x i n H1 H3 Hi' Hn. apply (Ht ms units x); [done|done|lia|done].
Qed.

Lemma py_bind_err {A B} (m : py t A) (k : A → py t B) s s' e :
  (m ≫= k) s = (s', Err e) → m s = (s', Err e) ∨ ∃ s1 a, m s = (s1, Ok a) ∧ k a s1 = (s', Err e).
Proof. unfold mbind, py_bind. destruct (m s) as [s1 [a|x]]; intros H; [right; eauto|left; congruence]. Qed.

Lemma query_works {A} (f : nat → A) s : (∀ n, raises n = false) → ∃ s' a, query f s = (s', Ok a).
Proof. intros Hw. unfold query. rewrite (py_bind_run (reading raises) _ s (with_reads (S (reads s)) s) (raises (reads s)) eq_refl), Hw. by eexists _, _. Qed.

Lemma finalize_works s : (∀ n, raises n = false) → ∃ s', _finalize_transmission s = (s', Ok tt).
Proof.
  intros Hw. unfold _finalize_transmission. destruct (query_works irq_status s Hw) as (s1 & irq & H1).
  rewrite (py_bind_run _ _ _ _ _ H1), (py_bind_run _ _ _ _ _ (lora_works (ClearIrqStatus irq) s1 Hw)). apply pins_run.
Qed.

(** A transmission that fails has not written the buffer, or leaves it busy. *)
Lemma failed_busy lbt_turns tx_turns data s s' e :
  (∀ n, raises n = false) → transmit lbt_turns tx_turns data s = (s', Err e) →
  (∃ l, log s' = log s ++ l ∧ Forall other l) ∨ _tx_buffer_busy s' = true.
Proof.
  intros Hw H. unfold transmit in H. rewrite (py_bind_run get _ s s s eq_refl) in H.
  assert (∃ l, log s = log s ++ l ∧ Forall other l) as Hsame by (exists []; by rewrite app_nil_r).
  apply py_bind_err in H as [H|(sa & [ms units] & H1 & H)]; [injection H as <- _; by left|]. apply lift_ok in H1 as [-> _].
  apply py_bind_err in H as [H|(sb & x & H1 & H)]; [injection H as <- _; by left|]. apply lift_ok in H1 as [-> _].
  assert (∀ s1, onward s s1 → ∃ l, log s1 = log s ++ l ∧ Forall other l) as Hon.
  { intros s1 (_ & _ & _ & _ & _ & l & Hl & Ho & _). by exists l. }
  apply py_bind_err in H as [H|(s1 & prepared & Hp & H)]; [apply (run_keeps onward) in H; [left; by apply Hon|apply keeps_prepare]|].
  apply (run_keeps onward) in Hp; [|apply keeps_prepare].
  destruct prepared as [[[] delays]|]; [|injection H as <- _; left; by apply Hon|discriminate H].
  rewrite (py_bind_run (modify _) _ s1 (with_tx_buffer_busy true s1) tt eq_refl) in H.
  assert (∀ A B (m : py t A) (k : A → py t B) s, _tx_buffer_busy s = true → (m ≫= k) s = (s', Err e) → keeps (same _tx_buffer_busy) m →
    _tx_buffer_busy s' = true ∨ ∃ s1 a, _tx_buffer_busy s1 = true ∧ k a s1 = (s', Err e)) as step.
  { intros A B m k s2 Hs2 H2 Hk. apply py_bind_err in H2 as [H2|(s3 & a & H2 & H3)]; apply (run_keeps (same _tx_buffer_busy)) in H2; try done; unfold same in H2;
      [left; congruence|right; exists s3, a; split; [congruence|done]]. }
  assert (∀ A (m : py t A), keeps onward m → keeps (same _tx_buffer_busy) m) as Hbusy by (intros A m Hm s2; apply Hm).
  assert (∀ c, keeps (same _tx_buffer_busy) (lora c)) as Hlora.
  { intros c s2. rewrite (lora_works c s2 Hw). done. }
  right. apply step in H as [H|(s3 & [] & B3 & H)]; [done| |done|unfold _prepare_packet_transmission; keeps; apply Hlora].
  apply step in H as [H|(s4 & [] & B4 & H)]; [done| |done|apply Hbusy, keeps_setup].
  apply step in H as [H|(s5 & [] & B5 & H)]; [done| |done|apply Hbusy, keeps_pass].
  rewrite (py_bind_run get _ s5 s5 s5 eq_refl) in H.
  apply step in H as [H|(s6 & [] & B6 & H)]; [done| |done|apply Hlora].
  apply step in H as [H|(s7 & started & B7 & H)]; [done| |done|apply Hbusy, keeps_execute].
  destruct started; [cbn [negb] in H|injection H as <- _; done].
  apply step in H as [H|(s8 & ok & B8 & H)]; [done| |done|apply Hbusy, keeps_wait_for_done].
  destruct ok as [[]|]; [|injection H as <- _; done|discriminate H].
  rewrite (py_bind_run (modify _) _ s8 (with_tx_buffer_busy false s8) tt eq_refl) in H.
  destruct (finalize_works (with_tx_buffer_busy false s8) Hw) as [s9 H9]. rewrite (py_bind_run _ _ _ _ _ H9) in H.
  rewrite (py_bind_run get _ s9 s9 s9 eq_refl), (py_bind_run (gpio _) _ s9 _ tt eq_refl) in H. discriminate H.
Qed.

(** C27: a send that fails after it has written the buffer leaves the driver deaf.
    If no call of the library raises, so that the send has failed at a busy or
    a missing TX_DONE, the chip is told to receive again and the lock is released;
    but the buffer stays marked as busy, and from then on, whatever the chip
    reports and the other tasks do short of another send or scan, the event that
    the background task waits for is never set again: at most a reception it was
    told of before is still read. *)
Theorem failed_send_deafens lbt_turns tx_turns data s s' e l d :
  (∀ n, raises n = false) → send lbt_turns tx_turns data s = (s', Err e) → log s' = log s ++ l → Did (WriteBuffer d) ∈ l →
  _tx_buffer_busy s' = true ∧ _tx_lock s' = false ∧ ends_receiving s s'
  ∧ ∀ acts acts', _rx_done_event (events (run_all (acts ++ acts') s')) = true → _rx_done_event (events (run_all acts s')) = true.
Proof.
  intros Hw H Hl Hd. destruct (_initialized s) eqn:Hi.
  2: { unfold send in H. rewrite (py_bind_run get _ s s s eq_refl), Hi in H. injection H as <- _.
    rewrite <- (app_nil_r (log s)) in Hl at 1. apply app_inv_head in Hl. subst l. by apply not_elem_of_nil in Hd. }
  destruct (send_restores lbt_turns tx_turns data s Hi) as (s0 & s3 & r & H0 & Ht & Hsend & Hrec).
  rewrite Hsend in H. injection H as <- ->. pose proof (keeps_restore s3) as Lr. set (s4 := (_restore_rx_mode s3).1) in *.
  assert (_tx_buffer_busy s4 = true) as Hb.
  { apply failed_busy in Ht as [(l3 & Hl3 & Ho3)|Ht]; [|destruct Lr as (_ & Hr & _); congruence|done].
    apply (run_keeps onward) in H0; [|apply keeps_pass]. apply onward_hears in H0 as (l0 & [Hl0 _] & Ho0). apply onward_hears in Lr as (lr & [Hlr _] & Hor).
    cbn [log with_tx_lock] in *. rewrite Hlr, Hl3, Hl0, <- !app_assoc in Hl. apply app_inv_head in Hl. subst l.
    assert (Forall other (l0 ++ l3 ++ lr)) as Ho by (rewrite !Forall_app; done). by apply (proj1 (Forall_forall _ _) Ho) in Hd. }
  split_and!; [done|done|by apply Hrec|]. intros acts acts'. unfold run_all at 1. rewrite fold_left_app.
  destruct (run_onward acts (with_tx_lock false s4)) as (_ & Hb' & _). cbn [_tx_buffer_busy with_tx_lock] in Hb'.
  destruct (run_onward acts' (run_all acts (with_tx_lock false s4))) as (_ & _ & _ & _ & H5 & _). apply H5. congruence.
Qed.

End sends.

(** ** Examples *)

(** A chip with given interrupt statuses and activities of other tasks; the clocks
    stand for 200 readings, then it is late. *)
Definition calm (irq : nat → Z) (slices : nat → list activity) : Chip := {|
  monotonic n := if (n <? 200)%nat then f_zero else f_of_Z (10 ^ 18);
  wall n := if (n <? 200)%nat then f_zero else f_of_Z (10 ^ 18);
  during := slices;
  raises _ := false;
  irq_status := irq;
  busy_pin _ := false;
  rx_buffer_status _ := (3, 0x80);
  rx_buffer _ := [7; 8; 9];
  signal_metrics _ := (f_of_Z (-90), f_of_Z 5, f_of_Z (-91));
  device_errors _ := 0;
  rssi_inst _ := Some 200;
  register _ := Some 0;
  jitter _ := f_one;
  irq_pin _ := false;
  pin_works _ := true;
  loop_runs _ := true;
  lock_released _ := true
|}.

Definition receiving : t :=
  mk (mkSettings 868000000 22 7 125000 5 12) (mkPins 16 6 (-1) (-1) (-1) (-1) [] false (f_dec 18 1) false) (mkCad None None None)
    (mkLbt (f_of_Z 4) 200) (mkIrqs 0 0 false 0 f_zero f_zero) (mkEvents false false false)
    (mkNoise (f_of_Z (-120)) [] f_zero false f_zero) (mkMetrics (-99) f_zero (-99) 0) true true false false true Waiting [] 0.

(** The interrupt of a completed transmission in every await. *)
Definition sound : Chip := calm (fun _ => IRQ_TX_DONE) (fun _ => [Interrupt]).

(** Nothing is heard of the transmission; later a packet is received. *)
Definition lost : Chip := calm (fun n => if (n <? 210)%nat then 0 else IRQ_RX_DONE) (fun _ => []).

Definition report : SendReport := mkSent 36 0 [] false.

Example sent : (send (C := sound) 201 201 [1; 2; 3] receiving).2 = Ok (Some report).
Proof. vm_compute. done. Qed.

Lemma send_confirmed_by_chip_witness :
  ∃ s0 s1 l0 la lb lc ld preamble power,
    let s' := (send (C := sound) 201 201 [1; 2; 3] receiving).1 in
    log s0 = log receiving ++ l0 ∧ _tx_done_event (events s0) = false
    ∧ log s1 = log s0 ++ la ∧ _pending_rx_irq_status (irqs s1) = 0
    ∧ log s' = log s1 ++ frame_commands preamble [1; 2; 3] ++ lb ++ [Did (SetTxPower power); Did (SetTx (64 * (airtime_ms report + 1000)))] ++ lc ++ ld
    ∧ Forall other (l0 ++ la ++ lb ++ lc ++ ld) ∧ confirms (la ++ lb ++ lc)
    ∧ _tx_buffer_busy s' = false ∧ _tx_lock s' = false.
Proof.
  apply (send_confirmed_by_chip (C := sound) 201 201 [1; 2; 3] receiving _ report). vm_compute. reflexivity.
Defined.

(** The clocks before the reading 200 and after it. *)
Lemma calm_early irq slices n : (n < 200)%nat → monotonic (Chip := calm irq slices) n = f_zero ∧ wall (Chip := calm irq slices) n = f_zero.
Proof. intros Hn. unfold monotonic, wall, calm. rewrite (proj2 (Nat.ltb_lt n 200)) by done. by split. Qed.

Lemma calm_late irq slices n :
  (200 ≤ n)%nat → monotonic (Chip := calm irq slices) n = f_of_Z (10 ^ 18) ∧ wall (Chip := calm irq slices) n = f_of_Z (10 ^ 18).
Proof. intros Hn. unfold monotonic, wall, calm. rewrite (proj2 (Nat.ltb_ge n 200)) by done. by split. Qed.

Lemma send_ends_receiving_witness :
  ∃ s' r, send (C := sound) 201 201 [1; 2; 3] receiving = (s', r) ∧ r ≠ Ok None ∧ _tx_lock s' = false
    ∧ ((∀ n, raises (Chip := sound) n = false) → ends_receiving (C := sound) receiving s').
Proof.
  apply (send_ends_receiving (C := sound) 200 115 201 201 [1; 2; 3] receiving); try reflexivity.
  - intros i n Hi Hn. destruct (calm_early (fun _ => IRQ_TX_DONE) (fun _ => [Interrupt]) i) as [Hm _]; [lia|].
    destruct (calm_late (fun _ => IRQ_TX_DONE) (fun _ => [Interrupt]) n) as [Hm' _]; [lia|].
    unfold sound. rewrite Hm, Hm'. vm_compute. reflexivity.
  - intros ms units x i n Ht Hx Hi Hn. destruct (calm_early (fun _ => IRQ_TX_DONE) (fun _ => [Interrupt]) i) as [_ Hm]; [lia|].
    destruct (calm_late (fun _ => IRQ_TX_DONE) (fun _ => [Interrupt]) n) as [_ Hm']; [lia|].
    unfold sound. rewrite Hm, Hm'. vm_compute in Ht. injection Ht as <- _. vm_compute in Hx. injection Hx as <-. vm_compute. reflexivity.
  - lia.
  - lia.
Defined.

(** A received packet reaches the callback, but not after a send that has failed. *)
Definition reception : list activity := [Interrupt; RxTurn; RxResume; Interrupt; RxTurn; RxResume].

Definition failed : t := (send (C := lost) 201 201 [1; 2; 3] receiving).1.

Example heard_before : Callback [7; 8; 9] ∈ log (run_all (C := lost) reception (with_reads 210 receiving)).
Proof. vm_compute. repeat (apply list_elem_of_here || apply list_elem_of_further). Qed.

Example deaf_after : drop (length (log failed)) (log (run_all (C := lost) reception failed)) =
  [Seen IRQ_RX_DONE; Did (ClearIrqStatus 0xFFFF); Seen IRQ_RX_DONE; Did (ClearIrqStatus 0xFFFF)].
Proof. vm_compute. done. Qed.

Lemma failed_send_deafens_witness :
  _tx_buffer_busy failed = true ∧ _tx_lock failed = false ∧ ends_receiving (C := lost) receiving failed
  ∧ ∀ acts acts', _rx_done_event (events (run_all (C := lost) (acts ++ acts') failed)) = true →
      _rx_done_event (events (run_all (C := lost) acts failed)) = true.
Proof.
  apply (failed_send_deafens (C := lost) 201 201 [1; 2; 3] receiving failed (OtherError "TX completion timeout") (log failed) [1; 2; 3]).
  - intros n. reflexivity.
  - vm_compute. reflexivity.
  - vm_compute. reflexivity.
  - vm_compute. repeat (apply list_elem_of_here || apply list_elem_of_further).
Defined.

(** The two rules for low data rates differ: at SF10 and 62.5 kHz a symbol takes more
    than 16 ms, and the first scan of the channel switches the optimisation off. *)
Example ldro_differs : ldro_at_start 10 62500 = Ok true ∧ ldro_rule 10 62500 = false ∧ ldro_at_start 12 250000 = Ok true ∧ ldro_rule 12 250000 = false.
Proof. vm_compute. by split_and!. Qed.

(** The clean-up of a scan whose wait for the lock has timed out puts the chip on
    standby in the middle of a transmission. *)
Example late_cad_aborts :
  let s := with_tx_lock true (with_tx_buffer_busy true receiving) in
  log (run_all (C := sound) [LateCad 0; LateCad 1; LateCad 2; LateCad 3; LateCad 4] s) =
  [Did (ClearIrqStatus 0xFFFF); Did SetStandby; Did (SetDioIrqParams IRQ_NONE); Did (ClearIrqStatus 0xFFFF);
   Did (SetDioIrqParams _get_rx_irq_mask); Did (ClearIrqStatus 0xFFFF)].
Proof. vm_compute. done. Qed.

Definition callbacks (l : list entry) : list bytes :=
  omap (λ e, match e with Callback d => Some d | _ => None end) l.

(** A packet that is drained before a scan is read again by the background task. *)
Example drained_twice :
  let s := (_handle_interrupt (C := lost) (with_reads 210 receiving)).1 in
  let s := (_drain_pending_rx_irq_before_buffer_reuse (C := lost) s).1 in
  callbacks (log (run_all (C := lost) [RxTurn; RxResume] s)) = [[7; 8; 9]; [7; 8; 9]].
Proof. vm_compute. done. Qed.
