(* ===== verification/ModemProtocol.v ===== *)
(** * The modem protocol ([hardware/protocol_constants.py])

    Frames between the host and an openHop modem, over USB or TCP: the checksum,
    the frame builder and the parser of the receive thread ([_rx_worker] of
    usb_radio.py and tcp_radio.py, which share it). *)

From S2P Require Import Prelude PyData PyFloat.

Module ModemProtocol.

Definition PROTO_SYNC : Z := 0xAA.
Definition MAX_LORA_PAYLOAD : Z := 255.

Definition CMD_TX_REQUEST : Z := 0x01.
Definition CMD_SET_CONFIG : Z := 0x10.
Definition CMD_STATUS_REQ : Z := 0x20.
Definition CMD_NOISE_REQ : Z := 0x22.
Definition CMD_CAD_REQUEST : Z := 0x30.
Definition CMD_RX_START : Z := 0x31.
Definition CMD_SET_CAD_PARAMS : Z := 0x34.
Definition CMD_SET_WIFI : Z := 0x41.
Definition CMD_AUTH : Z := 0x50.
Definition CMD_WIFI_RESET : Z := 0x60.
Definition CMD_GET_WIFI : Z := 0x61.
Definition CMD_GET_VERSION : Z := 0x70.
Definition CMD_PING : Z := 0xFF.
Definition CMD_TX_DONE : Z := 0x02.
Definition CMD_TX_FAIL : Z := 0x03.
Definition CMD_RX_PACKET : Z := 0x04.
Definition CMD_CONFIG_RESP : Z := 0x12.
Definition CMD_STATUS_RESP : Z := 0x21.
Definition CMD_NOISE_RESP : Z := 0x23.
Definition CMD_CAD_RESP : Z := 0x32.
Definition CMD_RX_STARTED : Z := 0x33.
Definition CMD_CAD_PARAMS_RESP : Z := 0x35.
Definition CMD_AUTH_OK : Z := 0x51.
Definition CMD_WIFI_STATUS : Z := 0x62.
Definition CMD_VERSION_RESP : Z := 0x71.
Definition CMD_ERROR : Z := 0xFE.
Definition CMD_PONG : Z := 0xFF.
Definition ERR_UNAUTHORIZED : Z := 0x09.
Definition ERR_CHANNEL_BUSY : Z := 0x0E.

(** [CAD_SYMBOL_CODES] *)
Definition CAD_SYMBOL_CODES : list (Z * Z) := [(1, 0); (2, 1); (4, 2); (8, 3); (16, 4)].

Definition build_cad_params_payload (cad_symbol_num peak min_val : Z) : res bytes :=
  match List.find (fun e => e.1 =? cad_symbol_num) CAD_SYMBOL_CODES with
  | None => Err (ValueError "cad_symbol_num must be one of: 1, 2, 4, 8, 16")
  | Some (_, symbol_code) => Ok [symbol_code; Z.land peak 0xFF; Z.land min_val 0xFF; 0]
  end.

(** ** Frames *)

(** One step of the inner loop. *)
Definition crc_step (crc : Z) : Z :=
  Z.land (if negb (Z.land crc 0x8000 =? 0) then Z.lxor (Z.shiftl crc 1) 0x1021 else Z.shiftl crc 1) 0xFFFF.

Definition crc16_ccitt (data : bytes) : Z :=
  fold_left (fun crc byte => Nat.iter 8 crc_step (Z.lxor crc (Z.shiftl byte 8))) data 0xFFFF.

Definition build_frame (cmd : Z) (payload : bytes) : res bytes :=
  let length := len payload in
  if length >? 0xFFFF then Err (ValueError "payload length exceeds 16-bit LEN field")
  else
    c ← pack_B cmd;
    l ← pack_H length;
    let hdr := c ++ l in
    crc ← pack_H (crc16_ccitt (hdr ++ payload));
    mret ([PROTO_SYNC] ++ hdr ++ payload ++ crc).

(** [RADIO_CONFIG_FMT] *)
Definition radio_config (frequency bandwidth spreading_factor coding_rate tx_power sync_word preamble_length : Z) : res bytes :=
  f ← pack_I frequency; b ← pack_I bandwidth; sf ← pack_B spreading_factor; cr ← pack_B coding_rate;
  p ← pack_int 1 tx_power; w ← pack_H sync_word; n ← pack_B preamble_length;
  mret (f ++ b ++ sf ++ cr ++ p ++ w ++ n).

(** ** The parser of the receive thread *)

(** What is left of the buffer from the first SYNC byte on. *)
Fixpoint from_sync (buf : bytes) : bytes :=
  match buf with
  | [] => []
  | x :: buf' => if x =? PROTO_SYNC then buf else from_sync buf'
  end.

(** A turn of the loop ends it, or takes bytes off the buffer, with a frame or
    without: a length that no frame has drops the SYNC byte, a wrong checksum
    the whole frame. *)
Inductive turn_result : Type :=
| Break (buf : bytes)
| Turn (frame : option (Z * bytes)) (buf : bytes).

Definition turn (buf : bytes) : turn_result :=
  if len buf <? 6 then Break buf
  else
    let buf := from_sync buf in
    if bool_decide (buf = []) then Break []
    else if len buf <? 4 then Break buf
    else
      let cmd := nth 1 buf 0 in
      let length := Z.lor (nth 2 buf 0) (Z.shiftl (nth 3 buf 0) 8) in
      if length >? MAX_LORA_PAYLOAD + 32 then Turn None (slice_from buf 1)
      else
        let frame_size := 1 + 1 + 2 + length + 2 in
        if len buf <? frame_size then Break buf
        else
          let hdr := slice buf 1 4 in
          let payload := slice buf 4 (4 + length) in
          let crc_recv := Z.lor (nth (Z.to_nat (4 + length)) buf 0) (Z.shiftl (nth (Z.to_nat (5 + length)) buf 0) 8) in
          let crc_comp := crc16_ccitt (hdr ++ payload) in
          Turn (if negb (crc_recv =? crc_comp) then None else Some (cmd, payload)) (slice_from buf frame_size).

(** The frames that are complete, and the rest of the buffer. *)
Fixpoint parse (fuel : nat) (buf : bytes) : list (Z * bytes) * bytes :=
  match fuel with
  | O => ([], buf)
  | S fuel =>
      match turn buf with
      | Break buf => ([], buf)
      | Turn frame buf => let '(frames, rest) := parse fuel buf in (option_list frame ++ frames, rest)
      end
  end.

(** A chunk is read. *)
Definition receive (buf chunk : bytes) : list (Z * bytes) * bytes :=
  let buf := buf ++ chunk in parse (length buf) buf.

(** The chunks of a connection, from an empty buffer. *)
Fixpoint receive_all (buf : bytes) (chunks : list bytes) : list (Z * bytes) * bytes :=
  match chunks with
  | [] => ([], buf)
  | chunk :: chunks =>
      let '(frames, buf) := receive buf chunk in
      let '(frames', buf) := receive_all buf chunks in
      (frames ++ frames', buf)
  end.

End ModemProtocol.

Import ModemProtocol.

Example crc_check : crc16_ccitt [49; 50; 51; 52; 53; 54; 55; 56; 57] = 0x29B1.
Proof. reflexivity. Qed.

Example pong : build_frame CMD_PING [] = Ok [170; 255; 0; 0; 255; 3]
  ∧ receive_all [] [[1; 170; 255]; [0; 0]; [255]; [3; 170]] = ([(CMD_PONG, [])], [170]).
Proof. vm_compute. repeat split. Qed.

(** ** The parser does not depend on the chunks *)

Lemma from_sync_suffix buf : ∃ noise, buf = noise ++ from_sync buf ∧ PROTO_SYNC ∉ noise.
Proof.
  induction buf as [|x buf (noise & IH & Hn)]; [by exists []; split; [|apply list.not_elem_of_nil]|]. cbn. destruct (Z.eqb_spec x PROTO_SYNC).
  - exists []. split; [done|apply list.not_elem_of_nil].
  - exists (x :: noise). cbn. rewrite <- IH. split; [done|]. by apply not_elem_of_cons.
Qed.

Lemma from_sync_len buf : (length (from_sync buf) ≤ length buf)%nat.
Proof. destruct (from_sync_suffix buf) as (noise & H & _). rewrite H at 2. rewrite length_app. lia. Qed.

Lemma from_sync_noise noise buf : PROTO_SYNC ∉ noise → from_sync (noise ++ buf) = from_sync buf.
Proof.
  induction noise as [|x noise IH]; [done|]. intros H. apply not_elem_of_cons in H as [Hx H]. cbn.
  destruct (Z.eqb_spec x PROTO_SYNC); [by subst|by apply IH].
Qed.

Lemma from_sync_app buf c : from_sync buf ≠ [] → from_sync (buf ++ c) = from_sync buf ++ c.
Proof. induction buf as [|x buf IH]; [done|]. cbn. by destruct (x =? PROTO_SYNC). Qed.

Lemma from_sync_idem buf : from_sync (from_sync buf) = from_sync buf.
Proof. induction buf as [|x buf IH]; [done|]. cbn. destruct (x =? PROTO_SYNC) eqn:E; [|done]. cbn. by rewrite E. Qed.

Lemma from_sync_none buf : from_sync buf = [] → PROTO_SYNC ∉ buf.
Proof. intros H. destruct (from_sync_suffix buf) as (noise & Hb & Hn). by rewrite H, app_nil_r in Hb; subst. Qed.

(** The length field of a buffer that starts with a SYNC byte. *)
Definition len_field (buf : bytes) : Z := Z.lor (nth 2 buf 0) (Z.shiftl (nth 3 buf 0) 8).

Lemma nth_byte i buf : bytes_ok buf → 0 ≤ nth i buf 0 < 256.
Proof.
  intros H. destruct (decide (i < length buf)%nat) as [Hi|Hi].
  - apply (proj1 (list.Forall_forall _ _) H (nth i buf 0)). apply list_elem_of_In, nth_In. lia.
  - rewrite nth_overflow by lia. lia.
Qed.

Lemma len_field_nonneg buf : bytes_ok buf → 0 ≤ len_field buf.
Proof.
  intros H. unfold len_field. apply Z.lor_nonneg. split; [by apply nth_byte|]. apply Z.shiftl_nonneg. by apply nth_byte.
Qed.

Lemma bytes_ok_from_sync buf : bytes_ok buf → bytes_ok (from_sync buf).
Proof. intros H. destruct (from_sync_suffix buf) as (noise & Hb & _). rewrite Hb in H. by apply Forall_app in H as [_ H]. Qed.

(** The cases of a turn. *)
Lemma turn_cases buf :
  bytes_ok buf → let s := from_sync buf in
  match turn buf with
  | Break r => r = buf ∨ r = s
  | Turn f r => s ≠ [] ∧ 6 ≤ len buf ∧ 4 ≤ len s ∧ ∃ n, 1 ≤ n ≤ len s ∧ r = slice_from s n
  end.
Proof.
  intros Hb s. unfold turn. fold s. destruct (len buf <? 6) eqn:H6; [by left|]. case_bool_decide as Hs; [by right|].
  destruct (len s <? 4) eqn:H4; [by right|]. cbv zeta. fold (len_field s). bool_hyps.
  pose proof (len_field_nonneg s (bytes_ok_from_sync _ Hb)).
  destruct (len_field s >? MAX_LORA_PAYLOAD + 32) eqn:Hl.
  { split_and!; [done|lia|lia|]. exists 1. split; [lia|done]. }
  destruct (len s <? _) eqn:Hf; [by right|]. bool_hyps. split_and!; [done|lia|lia|]. eexists. split; [|reflexivity]. lia.
Qed.

Lemma turn_shorter buf f r : bytes_ok buf → turn buf = Turn f r → (length r < length buf)%nat ∧ bytes_ok r.
Proof.
  intros Hb Ht. pose proof (turn_cases buf Hb) as H. rewrite Ht in H. destruct H as (Hs & _ & _ & n & Hn & ->).
  pose proof (from_sync_len buf). split; [|by apply bytes_ok_slice_from, bytes_ok_from_sync].
  pose proof (len_slice_from (from_sync buf) n ltac:(lia)) as Hl. unfold len in *. lia.
Qed.

Lemma parse_fuel n m buf : bytes_ok buf → (length buf ≤ n)%nat → (length buf ≤ m)%nat → parse n buf = parse m buf.
Proof.
  revert m buf. induction n as [|n IH]; intros m buf Hb Hn Hm.
  { destruct buf; [|cbn in Hn; lia]. by destruct m. }
  destruct m as [|m]; [by destruct buf; [|cbn in Hm; lia]|]. cbn [parse]. destruct (turn buf) as [r|f r] eqn:Ht; [done|].
  apply turn_shorter in Ht as [Hl Hr]; [|done]. by rewrite (IH m) by (try done; lia).
Qed.

Definition parsed (buf : bytes) : list (Z * bytes) * bytes := parse (length buf) buf.

Lemma parsed_eq buf :
  bytes_ok buf →
  parsed buf = match turn buf with
               | Break r => ([], r)
               | Turn f r => (option_list f ++ (parsed r).1, (parsed r).2)
               end.
Proof.
  intros Hb. unfold parsed. rewrite (parse_fuel _ (S (length buf)) buf) by (done || lia). cbn [parse].
  destruct (turn buf) as [r|f r] eqn:Ht; [done|]. apply turn_shorter in Ht as [Hl Hr]; [|done].
  rewrite (parse_fuel _ (length r) r) by (done || lia). by destruct (parse (length r) r).
Qed.

(** A buffer without six bytes from its first SYNC on has no frame. *)
Lemma short_silent buf : bytes_ok buf → len (from_sync buf) < 6 → (parsed buf).1 = [].
Proof.
  intros Hb. remember (length buf) as n eqn:Hn. revert buf Hb Hn. induction n as [n IH] using lt_wf_ind. intros buf Hb -> Hs.
  rewrite parsed_eq by done. destruct (turn buf) as [r|f r] eqn:Ht; [done|]. destruct (turn_shorter _ _ _ Hb Ht) as [Hl Hr].
  unfold turn in Ht. destruct (_ <? 6); [done|]. case_bool_decide; [done|]. destruct (_ <? 4) eqn:H4; [done|]. cbv zeta in Ht.
  fold (len_field (from_sync buf)) in Ht. pose proof (len_field_nonneg _ (bytes_ok_from_sync _ Hb)).
  destruct (_ >? MAX_LORA_PAYLOAD + 32) eqn:Hg.
  - injection Ht as <- <-. cbn [option_list app fst]. apply (IH (length (slice_from (from_sync buf) 1))); [lia|done|done|].
    pose proof (from_sync_len (slice_from (from_sync buf) 1)). bool_hyps.
    pose proof (len_slice_from (from_sync buf) 1 ltac:(lia)). unfold len in *. lia.
  - destruct (_ <? 1 + 1 + 2 + len_field _ + 2) eqn:Hf; [done|]. bool_hyps. lia.
Qed.

(** The bytes before a SYNC do not matter. *)
Lemma turn_synced buf : 6 ≤ len (from_sync buf) → turn buf = turn (from_sync buf).
Proof.
  intros H. pose proof (from_sync_len buf). unfold turn. rewrite from_sync_idem.
  rewrite (proj2 (Z.ltb_ge (len buf) 6)) by (unfold len in *; lia). by rewrite (proj2 (Z.ltb_ge (len (from_sync buf)) 6)).
Qed.

Lemma parsed_synced buf : bytes_ok buf → (parsed buf).1 = (parsed (from_sync buf)).1.
Proof.
  intros Hb. pose proof (bytes_ok_from_sync _ Hb) as Hs. destruct (decide (6 ≤ len (from_sync buf))) as [H|H].
  - rewrite (parsed_eq buf), (parsed_eq (from_sync buf)) by done. by rewrite (turn_synced buf).
  - rewrite !short_silent by (rewrite ?from_sync_idem; (done || lia)). done.
Qed.

Lemma slice_app_l {A} (l k : list A) i j : 0 ≤ i ≤ j → j ≤ len l → slice (l ++ k) i j = slice l i j.
Proof.
  intros Hi Hj. rewrite !slice_nonneg by lia. unfold len in Hj. rewrite drop_app_le by lia. apply take_app_le. rewrite length_drop. lia.
Qed.

Lemma slice_from_app_l {A} (l k : list A) i : 0 ≤ i ≤ len l → slice_from (l ++ k) i = slice_from l i ++ k.
Proof. intros Hi. rewrite !slice_from_nonneg by lia. apply drop_app_le. unfold len in Hi. lia. Qed.

(** More bytes do not change a turn that took bytes. *)
Lemma turn_app buf f r c : bytes_ok buf → turn buf = Turn f r → turn (buf ++ c) = Turn f (r ++ c).
Proof.
  intros Hb Ht. pose proof (turn_cases buf Hb) as Hc. rewrite Ht in Hc. destruct Hc as (Hs & H6 & H4 & _).
  pose proof (len_field_nonneg _ (bytes_ok_from_sync _ Hb)) as Hlf. pose proof (len_nonneg c).
  unfold turn in *. rewrite from_sync_app by done. set (s := from_sync buf) in *.
  rewrite (proj2 (Z.ltb_ge (len buf) 6)) in Ht by lia. rewrite (proj2 (Z.ltb_ge (len (buf ++ c)) 6)) by (rewrite len_app; lia).
  rewrite bool_decide_eq_false_2 in Ht by done. rewrite bool_decide_eq_false_2 by (intros [? _]%app_nil; done).
  rewrite (proj2 (Z.ltb_ge (len s) 4)) in Ht by lia. rewrite (proj2 (Z.ltb_ge (len (s ++ c)) 4)) by (rewrite len_app; lia).
  cbv zeta in *. rewrite !(app_nth1 s c) by (unfold len in H4; lia). fold (len_field s) in *.
  destruct (len_field s >? _) eqn:Hg.
  { injection Ht as <- <-. by rewrite slice_from_app_l by lia. }
  destruct (len s <? 1 + 1 + 2 + len_field s + 2) eqn:Hf; [done|]. bool_hyps. rewrite (proj2 (Z.ltb_ge (len (s ++ c)) _)) by (rewrite len_app; lia).
  injection Ht as <- <-. rewrite !slice_app_l, slice_from_app_l by lia. rewrite !(app_nth1 s c) by (unfold len in *; lia). done.
Qed.

(** What is left over is taken up again when more bytes come. *)
Lemma parsed_app buf c :
  bytes_ok buf → bytes_ok c → (parsed (buf ++ c)).1 = (parsed buf).1 ++ (parsed ((parsed buf).2 ++ c)).1 ∧ bytes_ok (parsed buf).2.
Proof.
  intros Hb Hcb. remember (length buf) as n eqn:Hn. revert buf Hb Hn. induction n as [n IH] using lt_wf_ind. intros buf Hb ->.
  rewrite (parsed_eq buf) by done. destruct (turn buf) as [r|f r] eqn:Ht.
  - pose proof (turn_cases buf Hb) as Hc. rewrite Ht in Hc. cbn [fst snd app].
    assert (from_sync (r ++ c) = from_sync (buf ++ c) ∧ bytes_ok r) as [Hr Hrb].
    { destruct Hc as [->| ->]; [done|]. split; [|by apply bytes_ok_from_sync]. destruct (decide (from_sync buf = [])) as [H|H].
      - rewrite H. symmetry. apply from_sync_noise. by apply from_sync_none.
      - rewrite !from_sync_app by (rewrite ?from_sync_idem; done). by rewrite from_sync_idem. }
    split; [|done]. rewrite (parsed_synced (buf ++ c)), (parsed_synced (r ++ c)) by (apply bytes_ok_app; done). by rewrite Hr.
  - destruct (turn_shorter _ _ _ Hb Ht) as [Hl Hr]. destruct (IH (length r) Hl r Hr) as [He Hrb]; [done|]. cbn [fst snd]. split; [|done].
    rewrite (parsed_eq (buf ++ c)) by (apply bytes_ok_app; done). rewrite (turn_app _ _ _ _ Hb Ht). cbn [fst]. by rewrite He, app_assoc.
Qed.

Lemma parsed_rest buf : bytes_ok buf → (parsed (parsed buf).2).1 = [].
Proof.
  intros Hb. destruct (parsed_app buf [] Hb) as [H _]; [by constructor|]. rewrite !app_nil_r in H.
  apply (app_inv_head (parsed buf).1). by rewrite <- H, app_nil_r.
Qed.

(** However a stream is cut, the frames are those of the whole. *)
Lemma receive_all_parsed buf chunks :
  bytes_ok buf → (parsed buf).1 = [] → Forall bytes_ok chunks →
  (receive_all buf chunks).1 = (parsed (buf ++ concat chunks)).1.
Proof.
  intros Hb Hq Hc. revert buf Hb Hq. induction Hc as [|c chunks Hc Hcs IH]; intros buf Hb Hq; cbn [receive_all concat].
  { by rewrite app_nil_r. }
  unfold receive. cbv zeta. change (parse (length (buf ++ c)) (buf ++ c)) with (parsed (buf ++ c)).
  assert (bytes_ok (concat chunks)) as Hall by (by apply Forall_concat).
  assert (bytes_ok (buf ++ c)) as Hbc by (by apply bytes_ok_app).
  destruct (parsed_app (buf ++ c) (concat chunks) Hbc Hall) as [He Hr]. rewrite app_assoc, He.
  pose proof (parsed_rest (buf ++ c) Hbc) as Hq'. destruct (parsed (buf ++ c)) as [fs r]. cbn [fst snd] in *.
  rewrite <- (IH r Hr Hq'). by destruct (receive_all r chunks).
Qed.

(** ** Frames in a stream *)

Lemma crc_step_range crc : 0 ≤ crc_step crc < 2 ^ 16.
Proof. unfold crc_step. change 0xFFFF with (Z.ones 16). rewrite Z.land_ones by lia. apply Z.mod_pos_bound. lia. Qed.

Lemma crc16_range data : 0 ≤ crc16_ccitt data < 2 ^ 16.
Proof.
  unfold crc16_ccitt. assert (0 ≤ 0xFFFF < 2 ^ 16) as H by lia. revert H. generalize 0xFFFF as crc.
  induction data as [|x data IH]; intros crc H; [done|]. cbn [fold_left]. apply IH, crc_step_range.
Qed.

Lemma build_frame_inv cmd payload w :
  build_frame cmd payload = Ok w →
  ∃ l0 l1 c0 c1, w = [PROTO_SYNC; cmd; l0; l1] ++ payload ++ [c0; c1] ∧ is_byte cmd ∧ is_byte l0 ∧ is_byte l1 ∧ is_byte c0 ∧ is_byte c1
    ∧ Z.lor l0 (Z.shiftl l1 8) = len payload ∧ Z.lor c0 (Z.shiftl c1 8) = crc16_ccitt ([cmd; l0; l1] ++ payload).
Proof.
  unfold build_frame. destruct (_ >? _) eqn:Hl; [done|]. bool_hyps. intros H. res_inv.
  repeat match goal with H : pack_B _ = Ok _ |- _ => apply pack_uint_inv in H as [? ->] | H : pack_H _ = Ok _ |- _ => apply pack_uint_inv in H as [? ->] end.
  cbn [le_bytes app] in *. assert (∀ v, 0 ≤ v < 2 ^ 16 → Z.lor (v mod 256) (Z.shiftl (v / 256 mod 256) 8) = v ∧ is_byte (v mod 256) ∧ is_byte (v / 256 mod 256)) as Hv.
  { intros v Hv. rewrite Z.shiftl_mul_pow2 by lia. rewrite (lor_disjoint_add _ _ 8) by (try lia; apply Z.mod_pos_bound; lia).
    unfold is_byte. zdm. }
  pose proof (crc16_range (cmd mod 256 :: len payload mod 256 :: len payload / 256 mod 256 :: payload)) as Hc.
  rewrite (Z.mod_small cmd) in * by (change (256 ^ Z.of_nat 1) with 256 in *; lia).
  destruct (Hv _ Hc) as (Hc1 & Hc2 & Hc3). destruct (Hv (len payload)) as (Hl1 & Hl2 & Hl3); [pose proof (len_nonneg payload); lia|].
  simplify_eq. eexists _, _, _, _. split; [reflexivity|]. by split_and!.
Qed.

Lemma frame_turn noise cmd payload w rest :
  PROTO_SYNC ∉ noise → len payload ≤ MAX_LORA_PAYLOAD + 32 → build_frame cmd payload = Ok w →
  turn (noise ++ w ++ rest) = Turn (Some (cmd, payload)) rest.
Proof.
  intros Hn Hl Hw. apply build_frame_inv in Hw as (l0 & l1 & c0 & c1 & -> & _ & _ & _ & _ & _ & Hlen & Hcrc).
  pose proof (len_nonneg payload) as H0. pose proof (len_nonneg noise). pose proof (len_nonneg rest).
  unfold turn. rewrite from_sync_noise by done. rewrite <- app_assoc, <- app_assoc.
  rewrite (proj2 (Z.ltb_ge (len (noise ++ _)) 6)) by (rewrite !len_app; change (len [PROTO_SYNC; cmd; l0; l1]) with 4; change (len [c0; c1]) with 2; lia).
  change (from_sync ([PROTO_SYNC; cmd; l0; l1] ++ payload ++ [c0; c1] ++ rest)) with ([PROTO_SYNC; cmd; l0; l1] ++ payload ++ [c0; c1] ++ rest).
  set (s := [PROTO_SYNC; cmd; l0; l1] ++ payload ++ [c0; c1] ++ rest).
  assert (len s = 4 + len payload + 2 + len rest) as Hs.
  { unfold s. rewrite !len_app. change (len [PROTO_SYNC; cmd; l0; l1]) with 4. change (len [c0; c1]) with 2. lia. }
  rewrite bool_decide_eq_false_2 by done. rewrite (proj2 (Z.ltb_ge (len s) 4)) by lia. cbv zeta.
  change (nth 1 s 0) with cmd. change (nth 2 s 0) with l0. change (nth 3 s 0) with l1. rewrite Hlen.
  rewrite Z.gtb_ltb, (proj2 (Z.ltb_ge _ (len payload))) by done. rewrite (proj2 (Z.ltb_ge (len s) _)) by lia.
  assert (slice s 1 4 = [cmd; l0; l1]) as ->.
  { unfold s. change ([PROTO_SYNC; cmd; l0; l1] ++ ?r) with ([PROTO_SYNC] ++ [cmd; l0; l1] ++ r). by apply slice_app_exact. }
  assert (slice s 4 (4 + len payload) = payload) as -> by (by apply slice_app_exact).
  assert (nth (Z.to_nat (4 + len payload)) s 0 = c0) as ->.
  { unfold s. rewrite app_nth2, app_nth2; cbn [length]; unfold len; [|lia|lia]. by replace (_ - 4 - length payload)%nat with 0%nat by lia. }
  assert (nth (Z.to_nat (5 + len payload)) s 0 = c1) as ->.
  { unfold s. rewrite app_nth2, app_nth2; cbn [length]; unfold len; [|lia|lia]. by replace (_ - 4 - length payload)%nat with 1%nat by lia. }
  rewrite Hcrc, Z.eqb_refl. cbn [negb]. f_equal. unfold s. rewrite (app_assoc payload), app_assoc. apply slice_from_app_exact.
  rewrite !len_app. change (len [PROTO_SYNC; cmd; l0; l1]) with 4. change (len [c0; c1]) with 2. lia.
Qed.

(** Frames, each after some noise. *)
Fixpoint emitted (l : list (bytes * (Z * bytes))) : res bytes :=
  match l with
  | [] => Ok []
  | (noise, (cmd, payload)) :: l =>
      w ← build_frame cmd payload;
      r ← emitted l;
      mret (noise ++ w ++ r)
  end.

Definition readable (e : bytes * (Z * bytes)) : Prop :=
  bytes_ok e.1 ∧ (PROTO_SYNC ∉ e.1) ∧ bytes_ok (e.2.2) ∧ len (e.2.2) ≤ MAX_LORA_PAYLOAD + 32.

Lemma bytes_ok_frame cmd payload w : build_frame cmd payload = Ok w → bytes_ok payload → bytes_ok w.
Proof.
  intros Hw Hp. apply build_frame_inv in Hw as (l0 & l1 & c0 & c1 & -> & ? & ? & ? & ? & ? & _).
  apply bytes_ok_app. split; [|apply bytes_ok_app; split; [done|]]; repeat (apply bytes_ok_cons; split; [done|]); apply bytes_ok_nil.
Qed.

Lemma emitted_parsed l stream tail :
  Forall readable l → emitted l = Ok stream → bytes_ok tail → PROTO_SYNC ∉ tail →
  (parsed (stream ++ tail)).1 = map snd l ∧ bytes_ok stream.
Proof.
  intros Hl. revert stream. induction Hl as [|[noise [cmd payload]] l (Hn & Hns & Hp & Hlen) Hl IH]; intros stream Hs Ht Hts; cbn [emitted] in Hs.
  { injection Hs as <-. split; [|apply bytes_ok_nil]. apply short_silent; [done|]. cbn [app].
    pose proof (from_sync_noise tail [] Hts) as H. rewrite app_nil_r in H. rewrite H. by vm_compute. }
  destruct (build_frame cmd payload) as [w|] eqn:Hw; [|done]. destruct (emitted l) as [r|] eqn:Hr; [|done].
  cbn [mbind res_bind] in Hs. injection Hs as <-. destruct (IH r eq_refl Ht Hts) as [He Hrb].
  assert (bytes_ok (noise ++ w ++ r)) as Hb.
  { apply bytes_ok_app. split; [done|]. apply bytes_ok_app. split; [by apply (bytes_ok_frame cmd payload)|done]. }
  split; [|done]. rewrite parsed_eq by (by apply bytes_ok_app). rewrite <- !app_assoc.
  rewrite (frame_turn noise cmd payload w (r ++ tail)) by done. cbn. by rewrite He.
Qed.

(** The chunks that carry frames, with any bytes but SYNC between them, give
    exactly these frames, in order. *)
Lemma stream_received l stream tail chunks :
  Forall readable l → emitted l = Ok stream → bytes_ok tail → PROTO_SYNC ∉ tail →
  Forall bytes_ok chunks → concat chunks = stream ++ tail →
  (receive_all [] chunks).1 = map snd l.
Proof.
  intros Hl He Ht Hts Hc Hcat. rewrite receive_all_parsed by (done || apply bytes_ok_nil). cbn [app]. rewrite Hcat. by apply emitted_parsed.
Qed.

(** A stray SYNC byte can hide the frames after it: with a PONG its bytes read as
    a length of 255, and when those bytes have come the checksum is wrong and all
    of them are dropped. *)
Example stray_sync :
  receive_all [] ([[170]; [170; 255; 0; 0; 255; 3]] ++ replicate 43 [170; 255; 0; 0; 255; 3]) = ([], [0; 0; 255; 3]).
Proof. vm_compute. reflexivity. Qed.
