(* ===== verification/ModemRadio.v ===== *)
(** * The drivers of an openHop modem ([hardware/usb_radio.py], [tcp_radio.py])

    Both drivers speak [ModemProtocol] with the modem: a receive thread parses
    what the link delivers and dispatches the frames, and coroutines send
    commands and wait for the response. They share their code up to the link
    itself, which is the interface [Link] with the instances [usb] and [tcp].

    The receive thread runs at the awaits of a coroutine: [traffic] is what the
    link delivers there. Commands of other tasks are serialised by the command
    lock, and run where it is taken, or while the driver sleeps: [meanwhile].
    When the link is lost the thread itself reopens it, with a handshake whose
    frames [ModemSync] models; here each of them is an event of the link, and
    any frame may be one. The log [log] records what the tasks wrote, what the
    thread wrote to restore the link, and what was heard and delivered. *)

From stdpp Require Import gmap.
From S2P Require Import Prelude PyData Utf8 PyFloat ODict ModemProtocol.

(** ** State *)

Module ModemRadio.
Import ModemProtocol.

Record Settings : Type := mkSettings {
  frequency : Z;
  bandwidth : Z;
  spreading_factor : Z;
  coding_rate : Z;
  tx_power : Z;
  sync_word : Z;
  preamble_length : Z
}.

Record Metrics : Type := mkMetrics {
  last_rssi : Z;
  last_snr : float;
  last_signal_rssi : Z;
  _noise_floor : float;
  _tx_count : Z;
  _rx_count : Z;
  _crc_errors : Z;
  crc_error_count : Z
}.

(** The detection parameters of the host: peak, minimum, symbols. *)
Record Cad : Type := mkCad {
  _custom_cad_peak : option Z;
  _custom_cad_min : option Z;
  _custom_cad_symbol_num : option Z
}.

#[export] Instance Cad_eq_dec : EqDecision Cad.
Proof. solve_decision. Defined.

(** Host, port and token of the TCP driver. *)
Record Endpoint : Type := mkEndpoint { host : pystr; port : Z; token : pystr }.

#[export] Instance Endpoint_eq_dec : EqDecision Endpoint.
Proof. solve_decision. Defined.

Inductive entry : Type :=
| Wrote (frame : bytes)
| Restoring (frame : bytes)
| Heard (cmd : Z) (payload : bytes)
| Delivered (packet : bytes).

(** A command that was scheduled on the event loop. *)
Record command : Type := mkCommand { c_cmd : Z; c_payload : bytes; c_expect : Z; c_timeout : float }.

(** [linked]: the serial port is open and connected, or the socket exists.
    [_event_loop]: the loop, if one is known, and whether it is running.
    [rx_callback]: whether one is registered. Events are numbers; those in
    [fired] are set, or about to be by a callback on the loop. *)
Record t : Type := mkRadio {
  settings : Settings;
  metrics : Metrics;
  cad : Cad;
  endpoint : Endpoint;
  lbt_enabled : bool;
  lbt_max_wait_seconds : float;
  lbt_retry_interval_ms : Z;
  _last_modem_error : option Z;
  _initialized : bool;
  linked : bool;
  _event_loop : option bool;
  rx_callback : bool;
  buf : bytes;
  _response_events : list (Z * nat);
  _response_data : gmap Z (option bytes);
  next_event : nat;
  fired : list nat;
  scheduled : list command;
  log : list entry;
  reads : nat
}.

Definition with_settings (v : Settings) (s : t) : t :=
  mkRadio v (metrics s) (cad s) (endpoint s) (lbt_enabled s) (lbt_max_wait_seconds s) (lbt_retry_interval_ms s) (_last_modem_error s) (_initialized s) (linked s) (_event_loop s) (rx_callback s) (buf s) (_response_events s) (_response_data s) (next_event s) (fired s) (scheduled s) (log s) (reads s).
Definition with_metrics (v : Metrics) (s : t) : t :=
  mkRadio (settings s) v (cad s) (endpoint s) (lbt_enabled s) (lbt_max_wait_seconds s) (lbt_retry_interval_ms s) (_last_modem_error s) (_initialized s) (linked s) (_event_loop s) (rx_callback s) (buf s) (_response_events s) (_response_data s) (next_event s) (fired s) (scheduled s) (log s) (reads s).
Definition with_cad (v : Cad) (s : t) : t :=
  mkRadio (settings s) (metrics s) v (endpoint s) (lbt_enabled s) (lbt_max_wait_seconds s) (lbt_retry_interval_ms s) (_last_modem_error s) (_initialized s) (linked s) (_event_loop s) (rx_callback s) (buf s) (_response_events s) (_response_data s) (next_event s) (fired s) (scheduled s) (log s) (reads s).
Definition with_endpoint (v : Endpoint) (s : t) : t :=
  mkRadio (settings s) (metrics s) (cad s) v (lbt_enabled s) (lbt_max_wait_seconds s) (lbt_retry_interval_ms s) (_last_modem_error s) (_initialized s) (linked s) (_event_loop s) (rx_callback s) (buf s) (_response_events s) (_response_data s) (next_event s) (fired s) (scheduled s) (log s) (reads s).
Definition with_error (v : option Z) (s : t) : t :=
  mkRadio (settings s) (metrics s) (cad s) (endpoint s) (lbt_enabled s) (lbt_max_wait_seconds s) (lbt_retry_interval_ms s) v (_initialized s) (linked s) (_event_loop s) (rx_callback s) (buf s) (_response_events s) (_response_data s) (next_event s) (fired s) (scheduled s) (log s) (reads s).
Definition with_initialized (v : bool) (s : t) : t :=
  mkRadio (settings s) (metrics s) (cad s) (endpoint s) (lbt_enabled s) (lbt_max_wait_seconds s) (lbt_retry_interval_ms s) (_last_modem_error s) v (linked s) (_event_loop s) (rx_callback s) (buf s) (_response_events s) (_response_data s) (next_event s) (fired s) (scheduled s) (log s) (reads s).
Definition with_linked (v : bool) (s : t) : t :=
  mkRadio (settings s) (metrics s) (cad s) (endpoint s) (lbt_enabled s) (lbt_max_wait_seconds s) (lbt_retry_interval_ms s) (_last_modem_error s) (_initialized s) v (_event_loop s) (rx_callback s) (buf s) (_response_events s) (_response_data s) (next_event s) (fired s) (scheduled s) (log s) (reads s).
Definition with_loop (v : option bool) (s : t) : t :=
  mkRadio (settings s) (metrics s) (cad s) (endpoint s) (lbt_enabled s) (lbt_max_wait_seconds s) (lbt_retry_interval_ms s) (_last_modem_error s) (_initialized s) (linked s) v (rx_callback s) (buf s) (_response_events s) (_response_data s) (next_event s) (fired s) (scheduled s) (log s) (reads s).
Definition with_buf (v : bytes) (s : t) : t :=
  mkRadio (settings s) (metrics s) (cad s) (endpoint s) (lbt_enabled s) (lbt_max_wait_seconds s) (lbt_retry_interval_ms s) (_last_modem_error s) (_initialized s) (linked s) (_event_loop s) (rx_callback s) v (_response_events s) (_response_data s) (next_event s) (fired s) (scheduled s) (log s) (reads s).
Definition with_responses (events : list (Z * nat)) (data : gmap Z (option bytes)) (s : t) : t :=
  mkRadio (settings s) (metrics s) (cad s) (endpoint s) (lbt_enabled s) (lbt_max_wait_seconds s) (lbt_retry_interval_ms s) (_last_modem_error s) (_initialized s) (linked s) (_event_loop s) (rx_callback s) (buf s) events data (next_event s) (fired s) (scheduled s) (log s) (reads s).
Definition with_next_event (n : nat) (s : t) : t :=
  mkRadio (settings s) (metrics s) (cad s) (endpoint s) (lbt_enabled s) (lbt_max_wait_seconds s) (lbt_retry_interval_ms s) (_last_modem_error s) (_initialized s) (linked s) (_event_loop s) (rx_callback s) (buf s) (_response_events s) (_response_data s) n (fired s) (scheduled s) (log s) (reads s).
Definition with_fired (l : list nat) (s : t) : t :=
  mkRadio (settings s) (metrics s) (cad s) (endpoint s) (lbt_enabled s) (lbt_max_wait_seconds s) (lbt_retry_interval_ms s) (_last_modem_error s) (_initialized s) (linked s) (_event_loop s) (rx_callback s) (buf s) (_response_events s) (_response_data s) (next_event s) l (scheduled s) (log s) (reads s).
Definition with_scheduled (l : list command) (s : t) : t :=
  mkRadio (settings s) (metrics s) (cad s) (endpoint s) (lbt_enabled s) (lbt_max_wait_seconds s) (lbt_retry_interval_ms s) (_last_modem_error s) (_initialized s) (linked s) (_event_loop s) (rx_callback s) (buf s) (_response_events s) (_response_data s) (next_event s) (fired s) l (log s) (reads s).
Definition with_log (l : list entry) (s : t) : t :=
  mkRadio (settings s) (metrics s) (cad s) (endpoint s) (lbt_enabled s) (lbt_max_wait_seconds s) (lbt_retry_interval_ms s) (_last_modem_error s) (_initialized s) (linked s) (_event_loop s) (rx_callback s) (buf s) (_response_events s) (_response_data s) (next_event s) (fired s) (scheduled s) l (reads s).
Definition with_reads (n : nat) (s : t) : t :=
  mkRadio (settings s) (metrics s) (cad s) (endpoint s) (lbt_enabled s) (lbt_max_wait_seconds s) (lbt_retry_interval_ms s) (_last_modem_error s) (_initialized s) (linked s) (_event_loop s) (rx_callback s) (buf s) (_response_events s) (_response_data s) (next_event s) (fired s) (scheduled s) (log s) n.

Definition note (e : entry) (s : t) : t := with_log (log s ++ [e]) s.

(** [__init__] of both drivers: [lbt_max_wait_seconds] is at least half a second,
    the retry interval 20 ms. *)
Definition new_driver (settings : Settings) (e : Endpoint) (lbt_enabled : bool) (max_wait : float) (retry_interval : Z) : t :=
  mkRadio settings (mkMetrics (-99) f_zero (-99) (f_of_Z (-99)) 0 0 0 0) (mkCad None None None) e
    lbt_enabled (py_fmax (f_dec 5 1) max_wait) (Z.max 20 retry_interval) None false false None false [] [] ∅ 0 [] [] [] 0.

(** ** The receive thread *)

(** [Handshake]: the thread writes a frame to restore the link: authentication,
    ping, configuration or detection parameters, in any number of attempts. *)
Inductive heard : Type :=
| Chunk (b : bytes)
| Lost
| Handshake (frame : bytes)
| Restored.

(** What the driver meets: clocks, jitter, whether a write succeeds, what the
    link delivers during an await (its timeout, if it has one), the other
    tasks, and whether the result of a command came in time for the caller
    that waits for it in another thread. *)
Class Modem := {
  monotonic : nat → float;
  uniform : nat → float;
  link_write : nat → res unit;
  traffic : option float → nat → list heard;
  meanwhile : nat → t → t;
  in_time : nat → bool
}.

(** What the two drivers do differently: a packet without a running loop, a
    write that fails, settings changed while the driver runs. *)
Class Link := {
  callback_without_loop : bool;
  write_error_raises : exn → bool;
  live_config : bool
}.

Definition is_os_error (e : exn) : bool := match e with OtherError _ => true | _ => false end.

#[export] Instance usb : Link := {| callback_without_loop := false; write_error_raises _ := true; live_config := false |}.
#[export] Instance tcp : Link := {| callback_without_loop := true; write_error_raises e := negb (is_os_error e); live_config := true |}.

(** [n / 10.0] *)
Definition tenth (n : Z) : float := SFdiv prec64 emax64 (f_of_Z n) (f_of_Z 10).

(** [call_soon_threadsafe(evt.set)]: it is run where there is a loop that runs. *)
Definition fire (evt : nat) (s : t) : t :=
  if bool_decide (_event_loop s = Some true) then with_fired (evt :: fired s) s else s.

(** A response for one command. *)
Definition answer (cmd : Z) (data : option bytes) (evt : nat) (s : t) : t :=
  fire evt (with_responses (_response_events s) (<[cmd := data]> (_response_data s)) s).

Section driver.
Context `{M : Modem} `{L : Link}.

Definition _dispatch_frame (cmd : Z) (payload : bytes) (s : t) : t :=
  let s := note (Heard cmd payload) s in
  if cmd =? CMD_RX_PACKET then
    if len payload <? 6 then s
    else
      let rssi := from_le_signed (slice payload 0 2) in
      let snr_x10 := from_le_signed (slice payload 2 4) in
      let signal_rssi := from_le_signed (slice payload 4 6) in
      let lora_data := slice_from payload 6 in
      let m := metrics s in
      let s := with_metrics (mkMetrics rssi (tenth snr_x10) signal_rssi (_noise_floor m) (_tx_count m) (_rx_count m + 1) (_crc_errors m) (crc_error_count m)) s in
      if rx_callback s then
        if bool_decide (_event_loop s = Some true) || callback_without_loop then note (Delivered lora_data) s else s
      else s
  else if cmd =? CMD_ERROR then
    let err_code := match payload with [] => 0xFF | b :: _ => b end in
    fold_left (fun s e => answer e.1 None e.2 s) (_response_events s) (with_error (Some err_code) s)
  else if cmd =? CMD_TX_FAIL then
    match dget CMD_TX_DONE (_response_events s) with
    | Some evt => answer CMD_TX_DONE None evt s
    | None => s
    end
  else
    match dget cmd (_response_events s) with
    | Some evt => answer cmd (Some payload) evt s
    | None => s
    end.

(** One turn of [_rx_worker]. A lost link is reopened by the thread itself. *)
Definition rx_step (h : heard) (s : t) : t :=
  match h with
  | Chunk b =>
      let '(frames, rest) := receive (buf s) b in
      fold_left (fun s f => _dispatch_frame f.1 f.2 s) frames (with_buf rest s)
  | Lost => with_linked false (with_buf [] s)
  | Handshake frame => note (Restoring frame) s
  | Restored => with_linked true (with_buf [] s)
  end.

(** ** Awaits *)

Definition reading {A} (f : nat → A) : py t A :=
  s ← get;
  modify (with_reads (S (reads s)));;
  mret (f (reads s)).

Definition time_monotonic : py t float := reading monotonic.

(** The receive thread during an await. *)
Definition listen (timeout : option float) : py t unit :=
  l ← reading (traffic timeout);
  modify (fun s => fold_left (fun s h => rx_step h s) l s).

(** An await where other tasks may run their commands. *)
Definition give_way (timeout : option float) : py t unit :=
  listen timeout;;
  f ← reading meanwhile;
  modify f.

(** [await asyncio.wait_for(evt.wait(), timeout)]; [false]: the time is up. *)
Definition wait_for (evt : nat) (timeout : float) : py t bool :=
  listen (Some timeout);;
  s ← get;
  mret (bool_decide (evt ∈ fired s)).

(** [try: m finally: f] *)
Definition try_finally {A} (m : py t A) (f : t → t) : py t A := fun s =>
  match m s with (s', r) => (f s', r) end.

(** The write of a frame; [false]: the error is caught. *)
Definition write (frame : bytes) : py t bool :=
  r ← reading link_write;
  match r with
  | Ok _ => modify (note (Wrote frame));; mret true
  | Err e => if write_error_raises e then raise e else mret false
  end.

(** ** Commands *)

Definition new_event : py t nat :=
  s ← get;
  modify (with_next_event (S (next_event s)));;
  mret (next_event s).

Definition register (expect_cmd : Z) (evt : nat) (s : t) : t :=
  with_responses (dset expect_cmd evt (_response_events s)) (delete expect_cmd (_response_data s)) s.

Definition unregister (expect_cmd : Z) (s : t) : t :=
  with_responses (ddel expect_cmd (_response_events s)) (delete expect_cmd (_response_data s)) s.

(** [self._event_loop = asyncio.get_running_loop()], if it is not known. *)
Definition capture_loop (s : t) : t :=
  match _event_loop s with None => with_loop (Some true) s | Some _ => s end.

Definition _send_command (cmd : Z) (payload : bytes) (expect_cmd : Z) (timeout : float) : py t (option bytes) :=
  give_way None;;
  s ← get;
  if negb (linked s) then mret None
  else
    modify capture_loop;;
    evt ← new_event;
    modify (register expect_cmd evt);;
    try_finally
      (frame ← lift (build_frame cmd payload);
       sent ← write frame;
       if negb sent then mret None
       else
         woken ← wait_for evt timeout;
         if negb woken then mret None
         else s ← get; mret (default None (_response_data s !! expect_cmd)))
      (unregister expect_cmd).

Definition _perform_cad (timeout : float) : py t bool :=
  resp ← _send_command CMD_CAD_REQUEST [] CMD_CAD_RESP timeout;
  match resp with
  | Some (b :: _) => mret (negb (b =? 0))
  | _ => mret false
  end.

(** ** Sending *)

(** What is known about the channel: the outcome of listening, the checks and
    refusals, the delays in milliseconds. *)
Record lbt : Type := mkLbt { outcome : string; cad_checks : Z; modem_refusals : Z; delays : list Z }.

Definition retry_delay (interval : Z) (jitter now deadline : float) : float :=
  let delay_ms := fmul (f_of_Z interval) jitter in
  let remaining_ms := fmul (fsub deadline now) (f_of_Z 1000) in
  py_fmax f_zero (py_fmin delay_ms remaining_ms).

Definition _lbt_retry_delay_ms (deadline : float) : py t float :=
  s ← get;
  jitter ← reading uniform;
  now ← time_monotonic;
  mret (retry_delay (lbt_retry_interval_ms s) jitter now deadline).

(** The delay before the next attempt, as it is recorded and slept. *)
Definition back_off (deadline : float) (ds : list Z) : py t (list Z) :=
  delay_ms ← _lbt_retry_delay_ms deadline;
  d ← lift (py_round delay_ms);
  give_way (Some (SFdiv prec64 emax64 delay_ms (f_of_Z 1000)));;
  mret (ds ++ [d]).

(** Listen before talk; [None]: the fuel is used up. *)
Fixpoint listen_before_talk (fuel : nat) (deadline : float) (checks : Z) (ds : list Z) : py t (option lbt) :=
  match fuel with
  | O => mret None
  | S fuel =>
      now ← time_monotonic;
      let remaining := fsub deadline now in
      if fleb remaining f_zero then mret (Some (mkLbt "forced" checks 0 ds))
      else
        busy ← py_try (b ← _perform_cad (py_fmin f_one remaining); mret (Some b)) (mret None);
        match busy with
        | None => mret (Some (mkLbt "exception" (checks + 1) 0 ds))
        | Some false => mret (Some (mkLbt "clear" (checks + 1) 0 ds))
        | Some true =>
            now ← time_monotonic;
            if fleb deadline now then mret (Some (mkLbt "forced" (checks + 1) 0 ds))
            else
              ds ← back_off deadline ds;
              listen_before_talk fuel deadline (checks + 1) ds
        end
  end.

(** The transmission, repeated while the modem refuses it. *)
Fixpoint transmit (fuel : nat) (data : bytes) (deadline : float) (l : lbt) : py t (option (option bytes * lbt)) :=
  match fuel with
  | O => mret None
  | S fuel =>
      modify (with_error None);;
      resp ← _send_command CMD_TX_REQUEST data CMD_TX_DONE (f_of_Z 10);
      match resp with
      | Some resp => mret (Some (Some resp, l))
      | None =>
          s ← get;
          if bool_decide (_last_modem_error s = Some ERR_CHANNEL_BUSY) then
            now ← time_monotonic;
            if fltb now deadline then
              ds ← back_off deadline (delays l);
              transmit fuel data deadline (mkLbt (outcome l) (cad_checks l) (modem_refusals l + 1) ds)
            else mret (Some (None, mkLbt "refused" (cad_checks l) (modem_refusals l + 1) (delays l)))
          else mret (Some (None, l))
      end
  end.

Record report : Type := mkReport {
  airtime_ms : float;
  lbt_attempts : Z;
  lbt_backoff_delays_ms : list Z;
  lbt_channel_busy : bool
}.

(** [Failed] is the [None] of the code; [Hung]: the fuel is used up. *)
Inductive sent : Type :=
| Hung
| Failed
| Sent (r : report).

Definition tx_counted (s : t) : t :=
  let m := metrics s in
  with_metrics (mkMetrics (last_rssi m) (last_snr m) (last_signal_rssi m) (_noise_floor m) (_tx_count m + 1) (_rx_count m) (_crc_errors m) (crc_error_count m)) s.

Definition airtime (resp : bytes) : float :=
  let airtime_us := if len resp >=? 4 then from_le (slice_to resp 4) else 0 in
  SFdiv prec64 emax64 (f_of_Z airtime_us) (f_of_Z 1000).

Definition restore_rx : py t (option bytes) := _send_command CMD_RX_START [] CMD_RX_STARTED (f_of_Z 2).

Definition send (fuel : nat) (data : bytes) : py t sent :=
  s ← get;
  if negb (_initialized s) then mret Failed
  else
    give_way None;;
    s ← get;
    now ← time_monotonic;
    let deadline := fadd now (lbt_max_wait_seconds s) in
    l ← (if lbt_enabled s then listen_before_talk fuel deadline 0 [] else mret (Some (mkLbt "off" 0 0 [])));
    match l with
    | None => mret Hung
    | Some l =>
        py_try
          (r ← transmit fuel data deadline l;
           match r with
           | None => mret Hung
           | Some (Some resp, l) =>
               modify tx_counted;;
               restore_rx;;
               mret (Sent (mkReport (airtime resp) (len (delays l)) (delays l) (len (delays l) >? 0)))
           | Some (None, _) => restore_rx;; mret Failed
           end)
          (mret Failed)
    end.

(** ** Queries *)

Record ModemStatus : Type := mkModemStatus {
  uptime_sec : Z;
  rx_count : Z;
  tx_count : Z;
  crc_errors : Z;
  status_rssi : Z;
  status_snr : float;
  noise_floor : float;
  temp_c : Z;
  radio_state : string
}.

Definition STATUS_RESP_SIZE : Z := 24.

(** [STATUS_RESP_FMT] *)
Definition modem_status (resp : bytes) : ModemStatus :=
  let u i := from_le (slice resp i (i + 4)) in
  let h i := from_le_signed (slice resp i (i + 2)) in
  mkModemStatus (u 0) (u 4) (u 8) (u 12) (h 16) (tenth (h 18)) (tenth (h 20)) (from_le_signed (slice resp 22 23))
    (nth (Z.to_nat (Z.min (from_le (slice resp 23 24)) 2)) ["idle/rx"; "tx"; "error"] "").

Definition set_crc_errors (n : Z) (s : t) : t :=
  let m := metrics s in
  with_metrics (mkMetrics (last_rssi m) (last_snr m) (last_signal_rssi m) (_noise_floor m) (_tx_count m) (_rx_count m) n n) s.

Definition set_noise_floor (x : float) (s : t) : t :=
  let m := metrics s in
  with_metrics (mkMetrics (last_rssi m) (last_snr m) (last_signal_rssi m) x (_tx_count m) (_rx_count m) (_crc_errors m) (crc_error_count m)) s.

Definition get_modem_status : py t (option ModemStatus) :=
  resp ← _send_command CMD_STATUS_REQ [] CMD_STATUS_RESP (f_of_Z 2);
  match resp with
  | Some resp =>
      if len resp >=? STATUS_RESP_SIZE then
        let status := modem_status (slice_to resp STATUS_RESP_SIZE) in
        modify (set_crc_errors (crc_errors status));;
        mret (Some status)
      else mret None
  | None => mret None
  end.

Definition refresh_noise_floor : py t (option float) :=
  resp ← _send_command CMD_NOISE_REQ [] CMD_NOISE_RESP (f_of_Z 2);
  match resp with
  | Some resp =>
      if len resp >=? 2 then
        let x := tenth (from_le_signed (slice_to resp 2)) in
        modify (set_noise_floor x);;
        mret (Some x)
      else mret None
  | None => mret None
  end.

Definition _refresh_background_metrics : py t unit :=
  py_try (refresh_noise_floor;; mret tt) (mret tt);;
  py_try (get_modem_status;; mret tt) (mret tt).

(** [sending]: whether the TX lock is taken. *)
Definition get_noise_floor (sending : bool) (s : t) : option float :=
  if negb (_initialized s) then None
  else if sending then None
  else Some (_noise_floor (metrics s)).

(** ** Channel activity detection *)

(** [self._custom_cad_symbol_num or 2] *)
Definition symbol_num (c : Cad) : Z :=
  match _custom_cad_symbol_num c with Some n => if n =? 0 then 2 else n | None => 2 end.

Definition perform_cad (det_peak det_min : option Z) (timeout : float) (cad_symbol_num : option Z) : py t bool :=
  s ← get;
  let n := default (symbol_num (cad s)) cad_symbol_num in
  (match det_peak, det_min with
   | Some new_peak, Some new_min =>
       if bool_decide (cad s = mkCad (Some new_peak) (Some new_min) (Some n)) then mret tt
       else
         payload ← lift (build_cad_params_payload n new_peak new_min);
         _send_command CMD_SET_CAD_PARAMS payload CMD_CAD_PARAMS_RESP (f_of_Z 2);;
         modify (with_cad (mkCad (Some new_peak) (Some new_min) (Some n)))
   | _, _ => mret tt
   end : py t unit);;
  _perform_cad (py_fmax timeout (f_dec 6 1)).

(** ** Settings *)

(** A command from any thread: on the loop it is scheduled, from another thread
    its end is awaited. *)
Definition _run_async_safe (on_loop : bool) (c : command) : py t bool :=
  if on_loop then modify (fun s => with_scheduled (scheduled s ++ [c]) s);; mret true
  else
    py_try
      (resp ← _send_command (c_cmd c) (c_payload c) (c_expect c) (c_timeout c);
       ok ← reading in_time;
       mret (ok && match resp with Some _ => true | None => false end))
      (mret false).

(** Whether there is a running driver to push settings to. *)
Definition live (s : t) : bool := _initialized s && bool_decide (_event_loop s = Some true).

Definition _push_cad_config_live (on_loop : bool) : py t bool :=
  s ← get;
  match _custom_cad_peak (cad s), _custom_cad_min (cad s) with
  | Some peak, Some min_val =>
      if negb (live s) then mret true
      else
        payload ← lift (build_cad_params_payload (symbol_num (cad s)) peak min_val);
        _run_async_safe on_loop (mkCommand CMD_SET_CAD_PARAMS payload CMD_CAD_PARAMS_RESP (f_of_Z 3))
  | _, _ => mret true
  end.

Definition set_custom_cad_thresholds (on_loop : bool) (peak min_val : Z) : py t bool :=
  lift (raise_if (negb ((0 <=? peak) && (peak <=? 255)) || negb ((0 <=? min_val) && (min_val <=? 255)))
    (ValueError "CAD thresholds must be between 0 and 255"));;
  modify (fun s => with_cad (mkCad (Some peak) (Some min_val) (_custom_cad_symbol_num (cad s))) s);;
  _push_cad_config_live on_loop.

Definition set_custom_cad_symbol_num (on_loop : bool) (cad_symbol_num : Z) : py t bool :=
  lift (build_cad_params_payload cad_symbol_num 0 0);;
  modify (fun s => with_cad (mkCad (_custom_cad_peak (cad s)) (_custom_cad_min (cad s)) (Some cad_symbol_num)) s);;
  _push_cad_config_live on_loop.

Definition clear_custom_cad_thresholds (s : t) : t := with_cad (mkCad None None (_custom_cad_symbol_num (cad s))) s.

Definition config_payload (v : Settings) : res bytes :=
  radio_config (frequency v) (bandwidth v) (spreading_factor v) (coding_rate v) (tx_power v) (sync_word v) (preamble_length v).

Definition _push_config_live (on_loop : bool) : py t bool :=
  s ← get;
  if negb (live s) then mret true
  else
    payload ← lift (config_payload (settings s));
    _run_async_safe on_loop (mkCommand CMD_SET_CONFIG payload CMD_CONFIG_RESP (f_of_Z 5)).

(** A setting is changed; the TCP driver pushes it to the modem. *)
Definition set_setting (on_loop : bool) (f : Settings → Settings) : py t bool :=
  modify (fun s => with_settings (f (settings s)) s);;
  if live_config then _push_config_live on_loop else mret true.

Definition set_frequency (on_loop : bool) (x : Z) : py t bool :=
  set_setting on_loop (fun v => mkSettings x (bandwidth v) (spreading_factor v) (coding_rate v) (tx_power v) (sync_word v) (preamble_length v)).
Definition set_bandwidth (on_loop : bool) (x : Z) : py t bool :=
  set_setting on_loop (fun v => mkSettings (frequency v) x (spreading_factor v) (coding_rate v) (tx_power v) (sync_word v) (preamble_length v)).
Definition set_spreading_factor (on_loop : bool) (x : Z) : py t bool :=
  set_setting on_loop (fun v => mkSettings (frequency v) (bandwidth v) x (coding_rate v) (tx_power v) (sync_word v) (preamble_length v)).
Definition set_coding_rate (on_loop : bool) (x : Z) : py t bool :=
  set_setting on_loop (fun v => mkSettings (frequency v) (bandwidth v) (spreading_factor v) x (tx_power v) (sync_word v) (preamble_length v)).
Definition set_tx_power (on_loop : bool) (x : Z) : py t bool :=
  set_setting on_loop (fun v => mkSettings (frequency v) (bandwidth v) (spreading_factor v) (coding_rate v) x (sync_word v) (preamble_length v)).
Definition set_sync_word (on_loop : bool) (x : Z) : py t bool :=
  set_setting on_loop (fun v => mkSettings (frequency v) (bandwidth v) (spreading_factor v) (coding_rate v) (tx_power v) x (preamble_length v)).
Definition set_preamble_length (on_loop : bool) (x : Z) : py t bool :=
  set_setting on_loop (fun v => mkSettings (frequency v) (bandwidth v) (spreading_factor v) (coding_rate v) (tx_power v) (sync_word v) x).

(** A new address of the modem; the receive thread connects to it. *)
Definition set_tcp_target (host' : option pystr) (port' : option Z) (token' : option pystr) (s : t) : t * bool :=
  let e := endpoint s in
  let h := default (host e) host' in
  let p := match port' with Some p => if negb (p =? port e) && (1 <=? p) && (p <=? 65535) then p else port e | None => port e end in
  let k := default (token e) token' in
  if bool_decide (mkEndpoint h p k = e) then (s, false)
  else (with_linked false (with_endpoint (mkEndpoint h p k) s), true).

(** ** Wi-Fi *)

Definition WIFI_MODE_OFFLINE : Z := 0.
Definition WIFI_MODE_STA_CONNECTING : Z := 1.
Definition WIFI_MODE_STA_CONNECTED : Z := 2.
Definition WIFI_MODE_AP_CONFIG : Z := 3.

(** The dotted address is kept as its four numbers. *)
Record WifiStatus : Type := mkWifiStatus {
  wifi_mode : Z;
  mode_name : string;
  ip : list Z;
  wifi_port : Z;
  ssid : pystr;
  hostname : pystr;
  mdns : pystr
}.

Definition mode_names (mode : Z) : string :=
  if mode =? WIFI_MODE_OFFLINE then "offline"
  else if mode =? WIFI_MODE_STA_CONNECTING then "connecting"
  else if mode =? WIFI_MODE_STA_CONNECTED then "sta"
  else if mode =? WIFI_MODE_AP_CONFIG then "ap"
  else "unknown".

(** [".local"] *)
Definition dot_local : pystr := [46; 108; 111; 99; 97; 108].

Definition wifi_fields (payload : bytes) : res WifiStatus :=
  mode ← index payload 0;
  a ← index payload 1; b ← index payload 2; c ← index payload 3; d ← index payload 4;
  p0 ← index payload 5; p1 ← index payload 6;
  slen ← index payload 7;
  let ssid := decode_replace (slice payload 8 (8 + slen)) in
  hlen ← index payload (8 + slen);
  let host := decode_replace (slice payload (9 + slen) (9 + slen + hlen)) in
  mret (mkWifiStatus mode (mode_names mode) [a; b; c; d] (Z.lor p0 (Z.shiftl p1 8)) ssid host
    (if bool_decide (host = []) then [] else host ++ dot_local)).

Definition _parse_wifi_status (payload : bytes) : option WifiStatus :=
  match wifi_fields payload with Ok st => Some st | Err _ => None end.

Definition wifi_command (cmd : Z) (payload : bytes) (timeout : float) : py t (option WifiStatus) :=
  resp ← _send_command cmd payload CMD_WIFI_STATUS timeout;
  match resp with Some resp => mret (_parse_wifi_status resp) | None => mret None end.

Definition set_wifi_credentials (ssid password : pystr) (tcp_port : Z) (tcp_token : pystr) : py t (option WifiStatus) :=
  ssid_b ← lift (encode ssid);
  pass_b ← lift (encode password);
  tok_b ← lift (encode tcp_token);
  lift (raise_if ((len ssid_b =? 0) || (len ssid_b >? 32)) (ValueError "SSID must be 1..32 bytes"));;
  lift (raise_if (len pass_b >? 64) (ValueError "password must be <=64 bytes"));;
  lift (raise_if (len tok_b >? 64) (ValueError "token must be <=64 bytes"));;
  lift (raise_if (negb ((1 <=? tcp_port) && (tcp_port <=? 65535))) (ValueError "tcp_port out of range"));;
  port_b ← lift (pack_H tcp_port);
  wifi_command CMD_SET_WIFI ([len ssid_b] ++ ssid_b ++ [len pass_b] ++ pass_b ++ port_b ++ [len tok_b] ++ tok_b) (f_of_Z 3).

Definition get_wifi_status : py t (option WifiStatus) := wifi_command CMD_GET_WIFI [] (f_of_Z 2).

(** [resp.decode("ascii", errors="replace")] *)
Definition decode_ascii (b : bytes) : pystr := map (fun x => if x <? 128 then x else 0xFFFD) b.

Definition get_version : py t (option pystr) :=
  resp ← _send_command CMD_GET_VERSION [] CMD_VERSION_RESP (f_of_Z 2);
  mret (option_map decode_ascii resp).

Definition wifi_reset : py t bool :=
  resp ← _send_command CMD_WIFI_RESET [] CMD_WIFI_RESET (f_of_Z 2);
  mret (match resp with Some _ => true | None => false end).

End driver.

(** The TCP driver: the operations of tcp_radio.py, where they are those above
    over [tcp]. *)
Module Tcp.
Section tcp.
Context `{M : Modem}.

Definition _dispatch_frame : Z → bytes → t → t := ModemRadio._dispatch_frame (L := tcp).
Definition rx_step : heard → t → t := ModemRadio.rx_step (L := tcp).
Definition _send_command : Z → bytes → Z → float → py t (option bytes) := ModemRadio._send_command (L := tcp).
Definition _perform_cad : float → py t bool := ModemRadio._perform_cad (L := tcp).
Definition send : nat → bytes → py t sent := ModemRadio.send (L := tcp).
Definition get_modem_status : py t (option ModemStatus) := ModemRadio.get_modem_status (L := tcp).
Definition refresh_noise_floor : py t (option float) := ModemRadio.refresh_noise_floor (L := tcp).
Definition _refresh_background_metrics : py t unit := ModemRadio._refresh_background_metrics (L := tcp).
Definition perform_cad : option Z → option Z → float → option Z → py t bool := ModemRadio.perform_cad (L := tcp).
Definition _run_async_safe : bool → command → py t bool := ModemRadio._run_async_safe (L := tcp).
Definition _push_cad_config_live : bool → py t bool := ModemRadio._push_cad_config_live (L := tcp).
Definition set_custom_cad_thresholds : bool → Z → Z → py t bool := ModemRadio.set_custom_cad_thresholds (L := tcp).
Definition set_custom_cad_symbol_num : bool → Z → py t bool := ModemRadio.set_custom_cad_symbol_num (L := tcp).

End tcp.
End Tcp.

End ModemRadio.
