(* ===== verification/ModemCommands.v ===== *)
(** * Commands and transmissions of the modem drivers

    Properties of [ModemRadio], for both drivers and whatever the receive thread
    and the other tasks do: what [send] reports is what the modem said after this
    frame was written, [send] ends when the clock has passed the budget, commands leave
    nothing behind, and received packets are delivered however the link cuts
    them. *)

From stdpp Require Import gmap.
From S2P Require Import Prelude PyData Utf8 PyFloat ODict Airtime ModemProtocol ModemRadio.

Import ModemProtocol ModemRadio.

(** ** What a step of the receive thread changes *)

(** Entries of the receive thread. *)
Definition incoming (e : entry) : bool := match e with Wrote _ => false | _ => true end.

Section driver.
Context `{M : Modem} `{L : Link}.

(** The part of the state the receive thread does not touch. *)
Definition sending_state (s : t) :=
  (settings s, cad s, lbt_enabled s, lbt_max_wait_seconds s, lbt_retry_interval_ms s, _initialized s, _event_loop s, rx_callback s,
   _response_events s, next_event s, scheduled s, reads s).

Lemma fire_same {B} (f : t → B) evt s : (∀ l s, f (with_fired l s) = f s) → f (fire evt s) = f s.
Proof. intros H. unfold fire. by case_bool_decide. Qed.

(** All waiting commands are answered with an error. *)
Lemma answer_all es s :
  let s' := fold_left (λ s e, answer e.1 None e.2 s) es s in
  sending_state s' = sending_state s ∧ log s' = log s ∧ buf s' = buf s ∧ metrics s' = metrics s
  ∧ ∀ k, _response_data s' !! k = if decide (k ∈ dkeys es) then Some None else _response_data s !! k.
Proof.
  revert s. induction es as [|[k evt] es IH]; intros s; cbn [fold_left].
  { split_and!; try done. }
  destruct (IH (answer k None evt s)) as (H1 & H2 & H3 & H4 & H5). split_and!.
  - etransitivity; [exact H1|]. unfold answer, fire. by case_bool_decide.
  - etransitivity; [exact H2|]. unfold answer, fire. by case_bool_decide.
  - etransitivity; [exact H3|]. unfold answer, fire. by case_bool_decide.
  - etransitivity; [exact H4|]. unfold answer, fire. by case_bool_decide.
  - intros k'. cbn. rewrite H5. assert (_response_data (answer k None evt s) = <[k := None]> (_response_data s)) as ->.
    { unfold answer, fire. by case_bool_decide. }
    rewrite lookup_insert. change (dkeys ((k, evt) :: es)) with (k :: dkeys es).
    destruct (decide (k' ∈ dkeys es)) as [Hi|Hi]; [rewrite decide_True by (by apply elem_of_cons; right); done|].
    destruct (decide (k = k')) as [->|Hn]; [rewrite decide_True by constructor; done|].
    rewrite decide_False by (by intros [?|?]%elem_of_cons). done.
Qed.

(** What a frame does. *)
Lemma dispatch_spec cmd payload s :
  let s' := _dispatch_frame cmd payload s in
  sending_state s' = sending_state s ∧ buf s' = buf s
  ∧ (∃ l, log s' = log s ++ Heard cmd payload :: l ∧ Forall (λ e, ∃ p, e = Delivered p) l)
  ∧ ∀ k, _response_data s' !! k = _response_data s !! k
      ∨ k ∈ dkeys (_response_events s) ∧ (_response_data s' !! k = Some None ∨ cmd = k ∧ _response_data s' !! k = Some (Some payload)).
Proof.
  unfold _dispatch_frame. set (s1 := note _ s).
  assert (∀ k r evt, dget k (_response_events s) = Some evt →
    let s' := answer k r evt s1 in sending_state s' = sending_state s ∧ buf s' = buf s ∧ log s' = log s1
    ∧ ∀ k', _response_data s' !! k' = if decide (k' = k) then Some r else _response_data s !! k') as Hans.
  { intros k r evt Hk. cbn. unfold answer, fire. case_bool_decide; split_and!; try done; intros k'; cbn; rewrite lookup_insert; repeat case_decide; congruence. }
  assert (∀ k evt, dget k (_response_events s) = Some evt → k ∈ dkeys (_response_events s)) as Hin.
  { intros k evt Hk. apply dget_Some_elem in Hk. by eapply elem_keys. }
  destruct (cmd =? CMD_RX_PACKET).
  { assert (∀ s2, sending_state s2 = sending_state s → buf s2 = buf s → log s2 = log s1 → _response_data s2 = _response_data s →
      sending_state s2 = sending_state s ∧ buf s2 = buf s
      ∧ (∃ l, log s2 = log s ++ Heard cmd payload :: l ∧ Forall (λ e, ∃ p, e = Delivered p) l)
      ∧ ∀ k, _response_data s2 !! k = _response_data s !! k
          ∨ k ∈ dkeys (_response_events s) ∧ (_response_data s2 !! k = Some None ∨ cmd = k ∧ _response_data s2 !! k = Some (Some payload))) as Hq.
    { intros s2 H1 H2 H3 H4. split_and!; [done..|by exists []; rewrite H3|]. intros k. left. by rewrite H4. }
    destruct (len payload <? 6); [by apply Hq|]. cbv zeta. destruct (rx_callback _); [|by apply Hq].
    destruct (_ || _); [|by apply Hq]. split_and!; [done..| |by left].
    eexists [_]. split; [cbn; by rewrite <- app_assoc|]. repeat constructor. by eexists. }
  destruct (cmd =? CMD_ERROR).
  { destruct (answer_all (_response_events s1) (with_error (Some match payload with [] => 255 | b :: _ => b end) s1)) as (H1 & H2 & H3 & _ & H5).
    split_and!; [exact H1|exact H3|by exists []; rewrite H2|]. intros k. cbn. rewrite H5. case_decide; [right|by left]. split; [done|by left]. }
  destruct (cmd =? CMD_TX_FAIL).
  - destruct (dget CMD_TX_DONE (_response_events s1)) as [evt|] eqn:He.
    + destruct (Hans CMD_TX_DONE None evt He) as (H1 & H2 & H3 & H4). split_and!; [exact H1|exact H2|by exists []; rewrite H3|].
      intros k. cbn. rewrite H4. case_decide as Hk; [subst; right|by left]. split; [by eapply Hin|by left].
    + split_and!; [done..|by exists []|by left].
  - destruct (dget cmd (_response_events s1)) as [evt|] eqn:He.
    + destruct (Hans cmd (Some payload) evt He) as (H1 & H2 & H3 & H4). split_and!; [exact H1|exact H2|by exists []; rewrite H3|].
      intros k. cbn. rewrite H4. case_decide as Hk; [subst; right|by left]. split; [by eapply Hin|by right].
    + split_and!; [done..|by exists []|by left].
Qed.

(** What the receive thread may do while it runs. *)
Definition hearing (s s' : t) : Prop :=
  sending_state s' = sending_state s
  ∧ ∃ l, log s' = log s ++ l ∧ Forall (λ e, incoming e = true) l
    ∧ ∀ k, _response_data s' !! k = _response_data s !! k
        ∨ k ∈ dkeys (_response_events s)
          ∧ (_response_data s' !! k = Some None ∨ ∃ r, Heard k r ∈ l ∧ _response_data s' !! k = Some (Some r)).

#[local] Instance hearing_preorder : PreOrder hearing.
Proof.
  split.
  - intros s. split; [done|]. exists []. rewrite app_nil_r. split_and!; [done|constructor|by left].
  - intros s1 s2 s3 [He1 (l1 & Hl1 & Hi1 & Hd1)] [He2 (l2 & Hl2 & Hi2 & Hd2)].
    assert (_response_events s2 = _response_events s1) as Hev by (by injection He1).
    split; [congruence|]. exists (l1 ++ l2). split_and!; [by rewrite Hl2, Hl1, app_assoc|by apply Forall_app|].
    intros k. destruct (Hd2 k) as [->|(Hk & Hd)].
    + destruct (Hd1 k) as [|(Hk & [Hd|(r & Hr & Hd)])]; [by left|right; split; [done|by left]|].
      right. split; [done|]. right. exists r. split; [|done]. apply elem_of_app. by left.
    + right. rewrite Hev in Hk. split; [done|]. destruct Hd as [Hd|(r & Hr & Hd)]; [by left|].
      right. exists r. split; [|done]. apply elem_of_app. by right.
Qed.

Lemma dispatch_hearing cmd payload s : hearing s (_dispatch_frame cmd payload s).
Proof.
  destruct (dispatch_spec cmd payload s) as (H1 & _ & (l & Hl & Hd) & Hk). split; [done|]. exists (Heard cmd payload :: l). split_and!; [done| |].
  - constructor; [done|]. eapply Forall_impl; [exact Hd|]. by intros e [p ->].
  - intros k. destruct (Hk k) as [?|(? & [?|[<- ?]])]; [by left|right; split; [done|by left]|].
    right. split; [done|]. right. exists payload. split; [constructor|done].
Qed.

Lemma fold_hearing {X} (f : X → t → t) l s : (∀ x s, hearing s (f x s)) → hearing s (fold_left (λ s x, f x s) l s).
Proof. intros H. revert s. induction l as [|x l IH]; intros s; [reflexivity|]. cbn. etransitivity; [apply H|apply IH]. Qed.

Lemma rx_step_hearing h s : hearing s (rx_step h s).
Proof.
  assert (∀ s', sending_state s' = sending_state s → log s' = log s → _response_data s' = _response_data s → hearing s s') as Hq.
  { intros s' Hss Hlog Hdata. split; [done|]. exists []. rewrite app_nil_r, Hdata. split_and!; [done|constructor|by left]. }
  destruct h as [b| |frame|]; [|by apply Hq| |by apply Hq].
  2: { split; [done|]. exists [Restoring frame]. split_and!; [done|by repeat constructor|by left]. }
  cbn. destruct (receive (buf s) b) as [frames rest].
  etransitivity; [|apply (fold_hearing (λ f, _dispatch_frame f.1 f.2)); intros [c d] s'; apply dispatch_hearing]. by apply Hq.
Qed.

(** ** Commands *)

(** Time goes on, the log grows, the budget stays. *)
Definition onward (s s' : t) : Prop :=
  (reads s ≤ reads s')%nat ∧ (∃ l, log s' = log s ++ l)
  ∧ lbt_retry_interval_ms s' = lbt_retry_interval_ms s ∧ lbt_max_wait_seconds s' = lbt_max_wait_seconds s.

#[local] Instance onward_preorder : PreOrder onward.
Proof.
  split.
  - intros s. split_and!; [done|by exists []; rewrite app_nil_r|done..].
  - intros s1 s2 s3 (? & (l1 & Hl1) & ? & ?) (? & (l2 & Hl2) & ? & ?). split_and!; [lia| |congruence..].
    exists (l1 ++ l2). by rewrite Hl2, Hl1, app_assoc.
Qed.

Lemma hearing_onward s s' : hearing s s' → onward s s'.
Proof. intros [H (l & Hl & _)]. injection H. intros. split_and!; [lia|by exists l|done..]. Qed.

Context (Hmean : ∀ n s, onward s (meanwhile n s)).

Lemma driver_reading_run {A} (f : nat → A) s : reading f s = (with_reads (S (reads s)) s, Ok (f (reads s))).
Proof. done. Qed.

Lemma monotonic_run s : time_monotonic s = (with_reads (S (reads s)) s, Ok (monotonic (reads s))).
Proof. done. Qed.

Lemma driver_ticked s : onward s (with_reads (S (reads s)) s).
Proof. split_and!; [cbn; lia|by exists []; cbn; rewrite app_nil_r|done..]. Qed.

Lemma driver_keeps_reading {A} (f : nat → A) : keeps onward (reading f).
Proof. intros s. apply driver_ticked. Qed.

Lemma keeps_listen d : keeps onward (listen d).
Proof.
  unfold listen. keeps; [apply driver_keeps_reading|]. intros s. apply hearing_onward, (fold_hearing rx_step), rx_step_hearing.
Qed.

Lemma keeps_give_way d : keeps onward (give_way d).
Proof.
  intros s. unfold give_way. destruct (listen d s) as [s1 r] eqn:E. pose proof (run_keeps _ _ _ _ _ E (keeps_listen d)) as H1.
  unfold mbind at 1, py_bind at 1. rewrite E. destruct r as [[]|]; [|done]. etransitivity; [exact H1|]. cbn.
  etransitivity; [|apply Hmean]. apply driver_ticked.
Qed.

Lemma give_way_ok d s : ∃ s', give_way d s = (s', Ok tt).
Proof. by eexists. Qed.

Lemma keeps_finally {A} (m : py t A) f : keeps onward m → (∀ s, onward s (f s)) → keeps onward (try_finally m f).
Proof. intros Hm Hf s. unfold try_finally. specialize (Hm s). destruct (m s). cbn in *. etransitivity; [exact Hm|apply Hf]. Qed.

Lemma quiet_onward s s' : reads s' = reads s → log s' = log s → lbt_retry_interval_ms s' = lbt_retry_interval_ms s →
  lbt_max_wait_seconds s' = lbt_max_wait_seconds s → onward s s'.
Proof. intros H1 H2 H3 H4. split_and!; [lia|by exists []; rewrite app_nil_r|done..]. Qed.

Lemma keeps_command cmd payload expect timeout : keeps onward (_send_command cmd payload expect timeout).
Proof.
  unfold _send_command, new_event, write, wait_for. keeps;
    first [ apply keeps_give_way | apply keeps_finally; [keeps|] | idtac ];
    try first [ apply driver_keeps_reading | apply keeps_listen | intros s; by apply quiet_onward ].
  - intros s. unfold capture_loop. destruct (_event_loop s); by apply quiet_onward.
  - intros s. split_and!; [done|by eexists|done..].
Qed.

(** Waiting is hearing. *)
Lemma wait_hearing evt d s : ∃ s' b, wait_for evt d s = (s', Ok b) ∧ hearing (with_reads (S (reads s)) s) s'.
Proof. eexists _, _. split; [reflexivity|]. apply (fold_hearing rx_step), rx_step_hearing. Qed.

Lemma write_cases frame s :
  let s1 := with_reads (S (reads s)) s in
  write frame s = (note (Wrote frame) s1, Ok true) ∨ ∃ e, write frame s = (s1, if write_error_raises e then Err e else Ok false).
Proof.
  unfold write. rewrite (py_bind_run _ _ _ _ _ (driver_reading_run _ _)). destruct (link_write (reads s)) as [|e]; [by left|right].
  exists e. by destruct (write_error_raises e).
Qed.

(** A response was heard after the frame of its command was written, and
    nothing else was written before. *)
Lemma command_confirmed cmd payload expect timeout s s' resp :
  _send_command cmd payload expect timeout s = (s', Ok (Some resp)) →
  ∃ frame before mid after, build_frame cmd payload = Ok frame
    ∧ log s' = log s ++ before ++ Wrote frame :: mid ++ Heard expect resp :: after
    ∧ Forall (λ e, incoming e = true) (mid ++ after).
Proof.
  unfold _send_command. intros H. apply py_bind_ok in H as (s1 & [] & Hw & H).
  pose proof (run_keeps _ _ _ _ _ Hw (keeps_give_way None)) as (_ & (before & Hbefore) & _). rewrite py_bind_run with (s' := s1) (a := s1) in H by done.
  destruct (linked s1); [|done]. cbn [negb] in H.
  assert (∃ s2 evt, log s2 = log s1 ∧ try_finally (frame ← lift (build_frame cmd payload);
      sent ← write frame;
      if negb sent then mret None
      else
        woken ← wait_for evt timeout;
        if negb woken then mret None
        else s ← get; mret (default None (_response_data s !! expect))) (unregister expect) (register expect evt s2) = (s', Ok (Some resp))) as (s2 & evt & Hlog & Hm).
  { eexists _, _. split; [|exact H]. cbn. unfold capture_loop. by destruct (_event_loop s1). }
  clear H. set (s3 := register expect evt s2) in *. assert (log s3 = log s1) as Hlog3 by done. assert (_response_data s3 !! expect = None) as Hnone.
  { apply lookup_delete_eq. }
  clearbody s3. unfold try_finally in Hm. match type of Hm with (let '(_, _) := ?m in _) = _ => destruct m as [s4 r] eqn:Hrun end.
  injection Hm as <- ->. change (log (unregister expect s4)) with (log s4).
  apply py_bind_ok in Hrun as (? & frame & Hf & Hrun). apply lift_ok in Hf as [-> Hf]. apply py_bind_ok in Hrun as (s5 & sent & Hs & Hrun).
  destruct (write_cases frame s3) as [Hwr|[e Hwr]]; rewrite Hwr in Hs; [|by destruct (write_error_raises e); simplify_eq].
  injection Hs as <- <-. cbn [negb] in Hrun. set (s6 := note _ _) in Hrun.
  destruct (wait_hearing evt timeout s6) as (s7 & b & Hwait & _ & l & Hl & Hin & Hdata). rewrite (py_bind_run _ _ _ _ _ Hwait) in Hrun.
  destruct b; [|done]. cbn [negb] in Hrun. rewrite py_bind_run with (s' := s7) (a := s7) in Hrun by done. injection Hrun as <- Hr.
  destruct (Hdata expect) as [Hd|(_ & [Hd|(r & Hr' & Hd)])]; rewrite Hd in Hr; [|done|].
  - change (_response_data (with_reads (S (reads s6)) s6)) with (_response_data s3) in Hr. by rewrite Hnone in Hr.
  - cbn in Hr. injection Hr as ->. apply list_elem_of_split in Hr' as (mid & after & ->).
    exists frame, before, mid, after. split_and!; [done| |].
    + rewrite Hl. change (log (with_reads (S (reads s6)) s6)) with (log s3 ++ [Wrote frame]). rewrite Hlog3, Hbefore. by rewrite <- !app_assoc.
    + apply Forall_app in Hin as [? Hin]. apply Forall_cons in Hin as [_ ?]. by apply Forall_app.
Qed.

(** ** Transmissions *)

Lemma keeps_perform timeout : keeps onward (_perform_cad timeout).
Proof. unfold _perform_cad. keeps. apply keeps_command. Qed.

Lemma keeps_back_off deadline ds : keeps onward (back_off deadline ds).
Proof.
  unfold back_off, _lbt_retry_delay_ms, time_monotonic. keeps; first [apply driver_keeps_reading|apply keeps_give_way].
Qed.

Lemma keeps_lbt fuel deadline checks ds : keeps onward (listen_before_talk fuel deadline checks ds).
Proof.
  revert checks ds. induction fuel as [|fuel IH]; intros checks ds; cbn [listen_before_talk]; [keeps|]. unfold time_monotonic.
  apply keeps_bind; [apply _|apply driver_keeps_reading|]. intros now. cbv zeta. keeps; first [apply driver_keeps_reading|apply keeps_back_off|apply IH|idtac].
  apply keeps_try; [apply _| |]; keeps. apply keeps_perform.
Qed.

Lemma keeps_transmit fuel data deadline l : keeps onward (transmit fuel data deadline l).
Proof.
  revert l. induction fuel as [|fuel IH]; intros l; cbn [transmit]; [keeps|]. unfold time_monotonic. keeps;
    first [apply driver_keeps_reading|apply keeps_command|apply keeps_back_off|apply IH|intros s; by apply quiet_onward].
Qed.

(** What confirms the transmission of [data] with the response [resp]. *)
Definition confirmed (data resp : bytes) (s s' : t) : Prop :=
  ∃ frame before mid after, build_frame CMD_TX_REQUEST data = Ok frame
    ∧ log s' = log s ++ before ++ Wrote frame :: mid ++ Heard CMD_TX_DONE resp :: after
    ∧ Forall (λ e, incoming e = true) mid.

Lemma confirmed_onward data resp s1 s2 s3 s4 : onward s1 s2 → confirmed data resp s2 s3 → onward s3 s4 → confirmed data resp s1 s4.
Proof.
  intros (_ & (l & Hl) & _) (frame & before & mid & after & Hf & Hlog & Hmid) (_ & (l' & Hl') & _).
  exists frame, (l ++ before), mid, (after ++ l'). split_and!; [done| |done]. rewrite Hl', Hlog, Hl. repeat (cbn; rewrite <- ?app_assoc). done.
Qed.

Lemma transmit_confirmed fuel data deadline l s s' resp l' :
  transmit fuel data deadline l s = (s', Ok (Some (Some resp, l'))) → confirmed data resp s s'.
Proof.
  revert l s. induction fuel as [|fuel IH]; intros l s H; cbn [transmit] in H; [done|].
  apply py_bind_ok in H as (s1 & u & H1 & H). apply modify_ok in H1 as ->. apply py_bind_ok in H as (s2 & r & Hc & H).
  assert (onward s (with_error None s)) as Ho by (by apply quiet_onward).
  destruct r as [r|].
  - injection H as <- <- <-. eapply confirmed_onward; [exact Ho| |reflexivity].
    apply command_confirmed in Hc as (frame & before & mid & after & Hf & Hl & Hi). apply Forall_app in Hi as [Hi _]. by exists frame, before, mid, after.
  - pose proof (run_keeps _ _ _ _ _ Hc (keeps_command _ _ _ _)) as Ho2. rewrite py_bind_run with (s' := s2) (a := s2) in H by done.
    destruct (bool_decide _); [|done]. apply py_bind_ok in H as (s3 & now & Hn & H). unfold time_monotonic in Hn.
    pose proof (run_keeps _ _ _ _ _ Hn (driver_keeps_reading _)) as Ho3. destruct (fltb now deadline); [|done].
    apply py_bind_ok in H as (s4 & ds & Hb & H). pose proof (run_keeps _ _ _ _ _ Hb (keeps_back_off _ _)) as Ho4.
    apply IH in H. eapply confirmed_onward; [|exact H|reflexivity]. do 3 (etransitivity; [eassumption|]). done.
Qed.

(** *** They end *)

Lemma fltb_inf x : is_ok (py_round x) = true → fltb (S754_infinity false) x = false.
Proof. by destruct x as [|[]| |[]]. Qed.

Lemma retry_delay_finite interval jitter now deadline :
  is_ok (py_round (fmul (f_of_Z interval) jitter)) = true → is_ok (py_round (retry_delay interval jitter now deadline)) = true.
Proof.
  unfold retry_delay. cbv zeta. generalize (fmul (f_of_Z interval) jitter) as a, (fmul (fsub deadline now) (f_of_Z 1000)) as b. intros a b Ha.
  unfold py_fmax, py_fmin. destruct (fltb b a) eqn:Hb.
  - destruct b as [|[]| |[]]; try done. by rewrite fltb_inf in Hb.
  - by destruct (fltb f_zero a).
Qed.

(** From the reading [N] on the budget is used up. *)
Section budget.
Context (deadline : float) (N : nat) (Hclock : ∀ n, (N ≤ n)%nat → fleb deadline (monotonic n) = true).

Definition finite_delays (s : t) : Prop :=
  ∀ n, is_ok (py_round (fmul (f_of_Z (lbt_retry_interval_ms s)) (uniform n))) = true.

Lemma finite_onward s s' : onward s s' → finite_delays s → finite_delays s'.
Proof. intros (_ & _ & H & _). unfold finite_delays. by rewrite H. Qed.

Lemma back_off_run ds s : finite_delays s → ∃ s' ds', back_off deadline ds s = (s', Ok ds') ∧ onward s s' ∧ (reads s < reads s')%nat.
Proof.
  intros Hf. unfold back_off, _lbt_retry_delay_ms, time_monotonic.
  set (s2 := with_reads (S (S (reads s))) s). set (delay := retry_delay (lbt_retry_interval_ms s) (uniform (reads s)) (monotonic (S (reads s))) deadline).
  assert (∀ B (k : float → py t B), ((s ← get; jitter ← reading uniform; now ← reading monotonic;
    mret (retry_delay (lbt_retry_interval_ms s) jitter now deadline)) ≫= k) s = k delay s2) as Hd by done.
  rewrite Hd. cbv beta. assert (is_ok (py_round delay) = true) as Hr by (apply retry_delay_finite, Hf). clearbody delay.
  destruct (py_round delay) as [ms|]; [|done]. rewrite (py_bind_run _ _ s2 s2 ms) by done.
  assert (onward s s2) as Ho by (unfold s2; split_and!; [cbn; lia|by exists []; cbn; rewrite app_nil_r|done..]).
  set (d := Some (SFdiv _ _ _ _)). pose proof (keeps_give_way d s2) as Hg. destruct (give_way_ok d s2) as (s3 & H3). rewrite (py_bind_run _ _ _ _ _ H3). rewrite H3 in Hg.
  cbn [fst] in Hg. eexists _, _. split; [reflexivity|]. split; [by etransitivity|]. destruct Hg as (Hg & _). unfold s2 in Hg. cbn in Hg. lia.
Qed.

Lemma lbt_ends fuel checks ds s :
  finite_delays s → (N - reads s < fuel)%nat →
  ∃ s' l, listen_before_talk fuel deadline checks ds s = (s', Ok (Some l)) ∧ onward s s'.
Proof.
  revert checks ds s. induction fuel as [|fuel IH]; intros checks ds s Hf Hfuel; [lia|]. cbn [listen_before_talk].
  rewrite (py_bind_run _ _ _ _ _ (monotonic_run _)). set (s1 := with_reads _ s). pose proof (driver_ticked s : onward s s1) as H1. cbv zeta.
  destruct (fleb _ f_zero); [eexists _, _; by split|].
  match goal with |- context [py_try ?m (mret ?a)] => destruct (py_try_total onward m a s1) as (s2 & busy & Hb & H2 & _) end; [keeps; apply keeps_perform|].
  rewrite (py_bind_run _ _ _ _ _ Hb). assert (onward s s2) as H12 by (by etransitivity).
  destruct busy as [[]|]; [|eexists _, _; by split..]. rewrite (py_bind_run _ _ _ _ _ (monotonic_run _)).
  set (s3 := with_reads _ s2). pose proof (driver_ticked s2 : onward s2 s3) as H3. assert (onward s s3) as H13 by (by etransitivity).
  destruct (fleb deadline (monotonic (reads s2))) eqn:Ht; [eexists _, _; by split|].
  destruct (back_off_run ds s3) as (s4 & ds' & Hbo & H4 & Hlt); [by eapply finite_onward|]. rewrite (py_bind_run _ _ _ _ _ Hbo).
  destruct (decide (N ≤ reads s2)%nat) as [Hn|Hn]; [by rewrite Hclock in Ht|].
  assert (onward s s4) as H14 by (by etransitivity). destruct (IH (checks + 1) ds' s4) as (s' & l & Hl & Ho).
  - by eapply finite_onward.
  - destruct H12 as (? & _). cbn in Hlt. lia.
  - exists s', l. split; [exact Hl|]. by etransitivity.
Qed.

Lemma transmit_ends fuel data l s :
  finite_delays s → (N - reads s < fuel)%nat →
  ∃ s' r, transmit fuel data deadline l s = (s', r) ∧ r ≠ Ok None.
Proof.
  revert l s. induction fuel as [|fuel IH]; intros l s Hf Hfuel; [lia|]. cbn [transmit].
  rewrite (py_bind_run _ _ s (with_error None s) tt) by done. assert (onward s (with_error None s)) as H1 by (by apply quiet_onward).
  destruct (_send_command CMD_TX_REQUEST data CMD_TX_DONE (f_of_Z 10) (with_error None s)) as [s2 r] eqn:Hc.
  pose proof (run_keeps _ _ _ _ _ Hc (keeps_command _ _ _ _)) as H2. assert (onward s s2) as H12 by (by etransitivity).
  destruct r as [r|e]; [|unfold mbind, py_bind; rewrite Hc; eexists _, _; by split]. rewrite (py_bind_run _ _ _ _ _ Hc).
  destruct r as [r|]; [eexists _, _; by split|]. rewrite (py_bind_run _ _ s2 s2 s2) by done.
  destruct (bool_decide _); [|eexists _, _; by split]. rewrite (py_bind_run _ _ _ _ _ (monotonic_run _)).
  set (s3 := with_reads _ s2). assert (onward s s3) as H13 by (etransitivity; [exact H12|apply driver_ticked]).
  destruct (fltb (monotonic (reads s2)) deadline) eqn:Ht; [|eexists _, _; by split].
  destruct (back_off_run (delays l) s3) as (s4 & ds' & Hbo & H4 & Hlt); [by eapply finite_onward|]. rewrite (py_bind_run _ _ _ _ _ Hbo).
  destruct (decide (N ≤ reads s2)%nat) as [Hn|Hn]; [by rewrite (fleb_not_flt _ _ (Hclock _ Hn)) in Ht|].
  assert (onward s s4) as H14 by (by etransitivity). apply IH; [by eapply finite_onward|].
  destruct H12 as (? & _). cbn in Hlt. lia.
Qed.

End budget.

(** C17: what [send] reports is what the modem said after this transmission.
    Whatever the receive thread hears and the other tasks do, a report means that
    the frame of [data] was written and that a TX_DONE was heard after it, before
    any task wrote another frame (the receive thread may have reopened the link
    and written its handshake in between); the airtime is the one of that
    TX_DONE, and the attempts are the recorded delays. So a TX_DONE heard before
    the frame was written, an ERROR, a TX_FAIL or a refusal is never taken for a
    confirmation. The answers carry no number: a TX_DONE that comes late, for an
    earlier transmission the driver gave up, does confirm this one. *)
Theorem send_confirmed fuel data s s' r :
  send fuel data s = (s', Ok (Sent r)) →
  ∃ resp, confirmed data resp s s' ∧ airtime_ms r = airtime resp ∧ lbt_attempts r = len (lbt_backoff_delays_ms r).
Proof.
  unfold send. intros H. rewrite py_bind_run with (s' := s) (a := s) in H by done. destruct (_initialized s); [|done]. cbn [negb] in H.
  apply py_bind_ok in H as (s1 & [] & H1 & H). pose proof (run_keeps _ _ _ _ _ H1 (keeps_give_way None)) as Ho1.
  rewrite py_bind_run with (s' := s1) (a := s1) in H by done. rewrite (py_bind_run _ _ _ _ _ (monotonic_run _)) in H. cbv zeta in H.
  pose proof (driver_ticked s1) as Ho2. apply py_bind_ok in H as (s3 & l & Hl & H).
  assert (onward (with_reads (S (reads s1)) s1) s3) as Ho3.
  { destruct (lbt_enabled s1); [exact (run_keeps _ _ _ _ _ Hl (keeps_lbt _ _ _ _))|]. by injection Hl as <- _. }
  destruct l as [l|]; [|done]. apply py_try_ok in H as [H|(? & ? & _ & ?)]; [|done].
  apply py_bind_ok in H as (s4 & r' & Ht & H). destruct r' as [[[resp|] l']|]; [|by py_inv|done].
  apply py_bind_ok in H as (s5 & u & Hc & H). apply modify_ok in Hc as ->. apply py_bind_ok in H as (s6 & x & Hr & H).
  injection H as <- <-. exists resp. split_and!; [|done..].
  eapply confirmed_onward; [|by eapply transmit_confirmed|]; [by do 2 (etransitivity; [eassumption|])|].
  etransitivity; [|exact (run_keeps _ _ _ _ _ Hr (keeps_command _ _ _ _))]. by apply quiet_onward.
Qed.

(** The deadline [send] sets, once it has the TX lock. *)
Definition deadline_of (s : t) : float := fadd (monotonic (reads (give_way None s).1)) (lbt_max_wait_seconds s).

(** A transmission ends. If the clock is past the deadline from its reading [N]
    on and the jitter is finite, [send] returns within [N + 1] turns of its
    loops, raising nothing, whatever the modem answers: it may report the
    channel busy for ever. *)
Theorem send_ends data s N fuel :
  finite_delays s → (∀ n, (N ≤ n)%nat → fleb (deadline_of s) (monotonic n) = true) → (N < fuel)%nat →
  ∃ s' r, send fuel data s = (s', Ok r) ∧ r ≠ Hung.
Proof.
  intros Hf HN Hfuel. destruct (give_way_ok None s) as (s1 & H1). pose proof (run_keeps _ _ _ _ _ H1 (keeps_give_way None)) as Ho1.
  unfold deadline_of in HN. rewrite H1 in HN. cbn [fst] in HN. unfold send.
  rewrite py_bind_run with (s' := s) (a := s) by done. destruct (_initialized s); [|eexists _, _; by split]. cbn [negb].
  rewrite (py_bind_run _ _ _ _ _ H1), py_bind_run with (s' := s1) (a := s1) by done. rewrite (py_bind_run _ _ _ _ _ (monotonic_run _)). cbv zeta.
  assert (lbt_max_wait_seconds s1 = lbt_max_wait_seconds s) as -> by apply Ho1. set (deadline := fadd _ _). set (s2 := with_reads _ s1).
  assert (onward s s2) as Ho2 by (etransitivity; [exact Ho1|apply driver_ticked]).
  assert (∃ s3 l, (if lbt_enabled s1 then listen_before_talk fuel deadline 0 [] else mret (Some (mkLbt "off" 0 0 []))) s2 = (s3, Ok (Some l)) ∧ onward s2 s3)
    as (s3 & l & Hl & Ho3).
  { destruct (lbt_enabled s1); [|eexists _, _; by split]. apply (lbt_ends deadline N HN); [by eapply finite_onward|lia]. }
  rewrite (py_bind_run _ _ _ _ _ Hl). destruct (transmit_ends deadline N HN fuel data l s3) as (s4 & r & Ht & Hr);
    [eapply finite_onward; [exact (transitivity Ho2 Ho3)|done]|lia|].
  unfold py_try. unfold mbind at 1, py_bind at 1. rewrite Ht. destruct r as [[[[resp|] l']|]|e]; [| |done|eexists _, _; by split].
  - rewrite (py_bind_run _ _ _ (tx_counted s4) tt) by done. unfold mbind, py_bind. destruct (restore_rx _) as [s5 [x|e]]; eexists _, _; by split.
  - unfold mbind, py_bind. destruct (restore_rx _) as [s5 [x|e]]; eexists _, _; by split.
Qed.

(** ** Between commands *)

(** Nothing is waited for, and nothing is kept for a later command. *)
Definition idle (s : t) : Prop := _response_events s = [] ∧ _response_data s = ∅.

(** At most the command [e] is waited for. *)
Definition waiting (e : Z) (s : t) : Prop :=
  (∀ k, k ∈ dkeys (_response_events s) → k = e) ∧ keys_unique (_response_events s) ∧ ∀ k, k ≠ e → _response_data s !! k = None.

Lemma hearing_idle s s' : hearing s s' → idle s → idle s'.
Proof.
  intros (Hs & l & _ & _ & Hd) [He Hr]. unfold idle. split; [by injection Hs; intros; congruence|].
  apply map_eq. intros k. destruct (Hd k) as [->|(Hk & _)]; [by rewrite Hr|]. rewrite He in Hk. by apply list.not_elem_of_nil in Hk.
Qed.

Lemma hearing_waiting e s s' : hearing s s' → waiting e s → waiting e s'.
Proof.
  intros (Hs & l & _ & _ & Hd) (Hk & Hu & Hr). assert (_response_events s' = _response_events s) as He by (by injection Hs).
  unfold waiting. rewrite He. split_and!; [done..|]. intros k Hne. destruct (Hd k) as [->|(Hin & _)]; [by apply Hr|]. by apply Hk in Hin.
Qed.

Lemma unregister_idle e s : waiting e s → idle (unregister e s).
Proof.
  intros (Hk & Hu & Hr). split; cbn.
  - destruct (_response_events s) as [|[k v] d]; [done|]. assert (k = e) as -> by (apply Hk; constructor). cbn. rewrite decide_True by done.
    destruct d as [|[k' v'] d]; [done|]. exfalso. assert (k' = e) as -> by (apply Hk; right; left).
    apply NoDup_cons in Hu as [Hu _]. apply Hu. left.
  - apply map_eq. intros k. rewrite lookup_empty. destruct (decide (k = e)) as [->|Hne]; [apply lookup_delete_eq|].
    rewrite lookup_delete_ne by done. by apply Hr.
Qed.

Lemma register_waiting e evt s : idle s → waiting e (register e evt s).
Proof.
  intros [He Hr]. unfold waiting, register. cbn. rewrite He, Hr. split_and!.
  - intros k Hk. cbn in Hk. by apply list_elem_of_singleton in Hk.
  - apply list.NoDup_singleton.
  - intros k Hne. by rewrite lookup_delete_ne.
Qed.

Section idle.
Context (Hidle : ∀ n s, idle s → idle (meanwhile n s)).

Lemma reading_upholds {A} (I : t → Prop) (f : nat → A) : (∀ n s, I s → I (with_reads n s)) → keeps (upholds I) (reading f).
Proof. intros H s Hs. by apply H. Qed.

Lemma listen_idle d : keeps (upholds idle) (listen d).
Proof. intros s Hs. apply (hearing_idle (with_reads (S (reads s)) s)); [|done]. apply (fold_hearing rx_step), rx_step_hearing. Qed.

Lemma give_way_idle d : keeps (upholds idle) (give_way d).
Proof.
  intros s Hs. unfold give_way. pose proof (listen_idle d s Hs) as H1. destruct (listen d s) as [s1 r] eqn:E.
  unfold mbind at 1, py_bind at 1. rewrite E. destruct r as [[]|]; [|done]. cbn. by apply Hidle.
Qed.

Lemma finally_idle {A} e (m : py t A) s :
  keeps (upholds (waiting e)) m → waiting e s → idle (try_finally m (unregister e) s).1.
Proof. intros Hm Hw. unfold try_finally. specialize (Hm s Hw). destruct (m s) as [s' r]. by apply unregister_idle. Qed.

Lemma command_idle cmd payload expect timeout : keeps (upholds idle) (_send_command cmd payload expect timeout).
Proof.
  unfold _send_command. apply keeps_bind; [apply _|apply give_way_idle|]. intros _. apply keeps_get_bind. intros s Hs.
  destruct (linked s); [|done]. cbn [negb]. rewrite py_bind_run with (s' := capture_loop s) (a := tt) by done.
  assert (idle (capture_loop s)) as Hc by (unfold capture_loop; by destruct (_event_loop s)). clear Hs. generalize dependent (capture_loop s). clear s. intros s Hs.
  rewrite (py_bind_run _ _ _ (with_next_event (S (next_event s)) s) (next_event s)) by done.
  rewrite (py_bind_run _ _ _ (register expect (next_event s) (with_next_event (S (next_event s)) s)) tt) by done.
  apply finally_idle; [|by apply register_waiting].
  unfold write, wait_for. keeps; try (by apply reading_upholds); try (intros ? Hq; exact Hq).
  intros s0 H0. apply (hearing_waiting _ (with_reads (S (reads s0)) s0)); [|done]. apply (fold_hearing rx_step), rx_step_hearing.
Qed.

Lemma perform_idle timeout : keeps (upholds idle) (_perform_cad timeout).
Proof. unfold _perform_cad. keeps. apply command_idle. Qed.

Lemma back_off_idle deadline ds : keeps (upholds idle) (back_off deadline ds).
Proof. unfold back_off, _lbt_retry_delay_ms, time_monotonic. keeps; first [by apply reading_upholds|apply give_way_idle]. Qed.

Lemma lbt_idle fuel deadline checks ds : keeps (upholds idle) (listen_before_talk fuel deadline checks ds).
Proof.
  revert checks ds. induction fuel as [|fuel IH]; intros checks ds; cbn [listen_before_talk]; [keeps|]. unfold time_monotonic.
  keeps; first [by apply reading_upholds|apply back_off_idle|apply IH|idtac].
  apply keeps_try; [apply _| |]; keeps. apply perform_idle.
Qed.

Lemma transmit_idle fuel data deadline l : keeps (upholds idle) (transmit fuel data deadline l).
Proof.
  revert l. induction fuel as [|fuel IH]; intros l; cbn [transmit]; [keeps|]. unfold time_monotonic.
  keeps; first [by apply reading_upholds|apply command_idle|apply back_off_idle|apply IH|intros ? Hq; exact Hq].
Qed.

Lemma send_idle fuel data : keeps (upholds idle) (send fuel data).
Proof.
  unfold send, time_monotonic, restore_rx.
  keeps; first [by apply reading_upholds|apply give_way_idle|apply lbt_idle|idtac].
  apply keeps_try; [apply _| |]; keeps; first [apply transmit_idle|apply command_idle|intros ? Hq; exact Hq].
Qed.

Lemma async_idle on_loop c : keeps (upholds idle) (_run_async_safe on_loop c).
Proof.
  unfold _run_async_safe. keeps; [intros ? Hq; exact Hq|]. apply keeps_try; [apply _| |]; keeps; first [apply command_idle|by apply reading_upholds].
Qed.

(** What can happen to a driver: its link, and every operation. *)
Inductive driver_step : t → t → Prop :=
| step_link h s : driver_step s (rx_step h s)
| step_send fuel data s : driver_step s (send fuel data s).1
| step_perform_cad peak min timeout n s : driver_step s (perform_cad peak min timeout n s).1
| step_metrics s : driver_step s (_refresh_background_metrics s).1
| step_thresholds on_loop peak min s : driver_step s (set_custom_cad_thresholds on_loop peak min s).1
| step_symbols on_loop n s : driver_step s (set_custom_cad_symbol_num on_loop n s).1
| step_clear s : driver_step s (clear_custom_cad_thresholds s)
| step_setting on_loop f s : driver_step s (set_setting on_loop f s).1
| step_target h p k s : driver_step s (set_tcp_target h p k s).1
| step_wifi name password p k s : driver_step s (set_wifi_credentials name password p k s).1
| step_wifi_status s : driver_step s (get_wifi_status s).1
| step_version s : driver_step s (get_version s).1
| step_wifi_reset s : driver_step s (wifi_reset s).1.

Lemma push_cad_idle on_loop : keeps (upholds idle) (_push_cad_config_live on_loop).
Proof. unfold _push_cad_config_live. keeps; apply async_idle. Qed.

Lemma metrics_idle : keeps (upholds idle) _refresh_background_metrics.
Proof.
  unfold _refresh_background_metrics, refresh_noise_floor, get_modem_status. keeps; (apply keeps_try; [apply _| |]); keeps;
    first [apply command_idle|intros ? Hq; exact Hq].
Qed.

Lemma step_idle s s' : driver_step s s' → idle s → idle s'.
Proof.
  intros H. destruct H.
  - apply hearing_idle, rx_step_hearing.
  - apply send_idle.
  - revert s. change (keeps (upholds idle) (perform_cad peak min timeout n)). unfold perform_cad. keeps; first [apply command_idle|apply perform_idle|intros ? Hq; exact Hq].
  - apply metrics_idle.
  - revert s. change (keeps (upholds idle) (set_custom_cad_thresholds on_loop peak min)). unfold set_custom_cad_thresholds.
    keeps; first [apply push_cad_idle|intros ? Hq; exact Hq].
  - revert s. change (keeps (upholds idle) (set_custom_cad_symbol_num on_loop n)). unfold set_custom_cad_symbol_num.
    keeps; first [apply push_cad_idle|intros ? Hq; exact Hq].
  - done.
  - revert s. change (keeps (upholds idle) (set_setting on_loop f)). unfold set_setting, _push_config_live.
    keeps; first [apply async_idle|intros ? Hq; exact Hq].
  - unfold set_tcp_target. by case_bool_decide.
  - revert s. change (keeps (upholds idle) (set_wifi_credentials name password p k)). unfold set_wifi_credentials, wifi_command. keeps; apply command_idle.
  - revert s. change (keeps (upholds idle) get_wifi_status). unfold get_wifi_status, wifi_command. keeps; apply command_idle.
  - revert s. change (keeps (upholds idle) get_version). unfold get_version. keeps; apply command_idle.
  - revert s. change (keeps (upholds idle) wifi_reset). unfold wifi_reset. keeps; apply command_idle.
Qed.

(** C28: commands leave nothing behind. Whatever operations and receptions a
    driver has gone through, between commands no event is registered and no
    response is stored; a response that comes late is dropped. *)
Theorem commands_leave_nothing s s' :
  idle s → rtc driver_step s s' →
  idle s' ∧ ∀ cmd payload, cmd ≠ CMD_RX_PACKET → cmd ≠ CMD_ERROR → _dispatch_frame cmd payload s' = note (Heard cmd payload) s'.
Proof.
  intros Hs Hsteps. assert (idle s') as Hs'.
  { induction Hsteps as [s|s1 s2 s3 H _ IH]; [done|]. apply IH. by apply (step_idle s1). }
  split; [done|]. intros cmd payload H1 H2. destruct Hs' as [He _]. unfold _dispatch_frame. cbv zeta.
  rewrite (proj2 (Z.eqb_neq _ _) H1), (proj2 (Z.eqb_neq _ _) H2).
  change (_response_events (note (Heard cmd payload) s')) with (_response_events s'). rewrite He. by destruct (cmd =? CMD_TX_FAIL).
Qed.

End idle.

(** ** Received packets *)

Definition packets (s : t) : list bytes := omap (fun e => match e with Delivered p => Some p | _ => None end) (log s).

(** The packet in a frame. *)
Definition lora (f : Z * bytes) : option bytes :=
  if (f.1 =? CMD_RX_PACKET) && (6 <=? len (f.2)) then Some (slice_from (f.2) 6) else None.

(** A driver with a callback on a running loop. *)
Definition attached (s : t) : Prop := rx_callback s = true ∧ _event_loop s = Some true.

(** [n] packets more, these. *)
Definition delivers (l : list bytes) (s s' : t) : Prop :=
  packets s' = packets s ++ l ∧ _rx_count (metrics s') = _rx_count (metrics s) + len l ∧ attached s'.

Lemma delivers_trans l1 l2 s1 s2 s3 : delivers l1 s1 s2 → delivers l2 s2 s3 → delivers (l1 ++ l2) s1 s3.
Proof. intros (H1 & H2 & _) (H3 & H4 & H5). split_and!; [by rewrite H3, H1, app_assoc|rewrite len_app; lia|done]. Qed.

Lemma delivers_quiet s s' :
  attached s → sending_state s' = sending_state s → (∃ e, log s' = log s ++ e ∧ Forall (λ x, ∃ c p, x = Heard c p) e) →
  metrics s' = metrics s → delivers [] s s'.
Proof.
  intros [Ha Hb] Hs (e & Hl & He) Hm. unfold delivers, packets. rewrite Hl, Hm, omap_app. split_and!.
  - f_equal. clear Hl. induction He as [|x e (c & p & ->) _ IH]; [done|]. exact IH.
  - change (len []) with 0. lia.
  - injection Hs. intros. split; congruence.
Qed.

Lemma dispatch_delivers f s : attached s → delivers (option_list (lora f)) s (_dispatch_frame f.1 f.2 s).
Proof.
  intros Ha. destruct f as [cmd payload]. unfold lora. cbn [fst snd]. destruct (cmd =? CMD_RX_PACKET) eqn:Hc; cbn [andb].
  - unfold _dispatch_frame. rewrite Hc. cbv zeta. destruct (len payload <? 6) eqn:Hl; bool_hyps.
    + rewrite (proj2 (Z.leb_gt 6 (len payload)) Hl). cbn [option_list]. apply delivers_quiet; [done..| |done]. eexists [_]. split; [done|]. repeat constructor. by eexists _, _.
    + rewrite (proj2 (Z.leb_le 6 (len payload)) Hl). destruct Ha as [Ha Hb].
      match goal with |- context [if rx_callback ?x then _ else _] => change (rx_callback x) with (rx_callback s); change (_event_loop x) with (_event_loop s) end.
      rewrite Ha, Hb. rewrite bool_decide_eq_true_2 by done. cbn [orb]. unfold delivers, packets. cbn. rewrite !omap_app. cbn. rewrite app_nil_r. by split_and!.
  - apply delivers_quiet; [done|by apply dispatch_spec| |].
    + unfold _dispatch_frame. rewrite Hc. exists [Heard cmd payload]. split; [|repeat constructor; by eexists _, _]. cbv zeta.
      destruct (cmd =? CMD_ERROR); [etransitivity; [apply answer_all|done]|].
      repeat match goal with |- context [dget ?k ?d] => destruct (dget k d) | |- context [if ?b then _ else _] => destruct b end;
        try done; unfold answer, fire; by case_bool_decide.
    + unfold _dispatch_frame. rewrite Hc. cbv zeta. destruct (cmd =? CMD_ERROR); [etransitivity; [apply answer_all|done]|].
      repeat match goal with |- context [dget ?k ?d] => destruct (dget k d) | |- context [if ?b then _ else _] => destruct b end;
        try done; unfold answer, fire; by case_bool_decide.
Qed.

Lemma frames_delivered fs s : attached s → delivers (omap lora fs) s (fold_left (λ s f, _dispatch_frame f.1 f.2 s) fs s).
Proof.
  revert s. induction fs as [|f fs IH]; intros s Ha; cbn [fold_left]; [apply delivers_quiet; [done..| |done]; exists []; by rewrite app_nil_r|].
  pose proof (dispatch_delivers f s Ha) as H. replace (omap lora (f :: fs)) with (option_list (lora f) ++ omap lora fs) by (cbn; by destruct (lora f)).
  eapply delivers_trans; [exact H|]. apply IH, H.
Qed.

Lemma chunks_delivered chunks s :
  attached s → delivers (omap lora (receive_all (buf s) chunks).1) s (fold_left (λ s c, rx_step (Chunk c) s) chunks s).
Proof.
  revert s. induction chunks as [|c chunks IH]; intros s Ha; cbn [fold_left receive_all].
  { apply delivers_quiet; [done..| |done]. exists []. by rewrite app_nil_r. }
  cbn [rx_step]. destruct (receive (buf s) c) as [fs rest]. pose proof (frames_delivered fs (with_buf rest s) Ha) as H.
  set (s1 := fold_left _ fs _) in *. assert (buf s1 = rest) as Hb.
  { unfold s1. generalize (with_buf rest s) (eq_refl : buf (with_buf rest s) = rest). clear. induction fs as [|f fs IH]; intros s Hs; [done|].
    cbn. apply IH. etransitivity; [apply dispatch_spec|done]. }
  pose proof (IH s1 (proj2 (proj2 H))) as H2. rewrite Hb in H2. destruct (receive_all rest chunks) as [fs' r']. cbn [fst] in *. rewrite omap_app.
  by eapply delivers_trans.
Qed.

(** C18: received packets are delivered however the link cuts them. A driver with a
    callback hands it exactly the packets of the frames its modem sent, in
    order and complete, whatever other frames are between them, whatever bytes
    but SYNC the line adds, and wherever the chunks end; and counts them. *)
Theorem packets_delivered l stream tail chunks s :
  Forall readable l → emitted l = Ok stream → bytes_ok tail → PROTO_SYNC ∉ tail →
  Forall bytes_ok chunks → concat chunks = stream ++ tail → buf s = [] → attached s →
  delivers (omap lora (map snd l)) s (fold_left (λ s c, rx_step (Chunk c) s) chunks s).
Proof.
  intros Hl He Ht Hts Hc Hcat Hb Ha. rewrite <- (stream_received l stream tail chunks Hl He Ht Hts Hc Hcat), <- Hb. by apply chunks_delivered.
Qed.

End driver.

(** ** A modem *)

Lemma onward_refl s : onward s s.
Proof. apply onward_preorder. Qed.

(** It confirms a transmission, and acknowledges the return to reception. *)
Definition frame_of (cmd : Z) (payload : bytes) : bytes :=
  match build_frame cmd payload with Ok f => f | Err _ => [] end.

#[local] Instance prompt_modem : Modem := {|
  monotonic n := f_of_Z (Z.of_nat n);
  uniform _ := f_one;
  link_write _ := Ok tt;
  traffic d n :=
    match d with
    | None => []
    | Some _ =>
        if Nat.eqb n 6 then [Chunk (frame_of CMD_RX_PACKET [0; 0; 0; 0; 0; 0; 9]); Chunk (frame_of CMD_TX_DONE [64; 226; 1; 0])]
        else [Chunk (frame_of CMD_RX_STARTED [])]
    end;
  meanwhile _ s := s;
  in_time _ := true
|}.

(** It always refuses, for twenty seconds in 640 readings of the clock. *)
Definition busy_modem : Modem := {|
  monotonic n := SFdiv prec64 emax64 (f_of_Z (Z.of_nat (Nat.min n 640))) (f_of_Z 32);
  uniform _ := f_one;
  link_write _ := Ok tt;
  traffic d n := match d with None => [] | Some _ => [Chunk (frame_of CMD_ERROR [ERR_CHANNEL_BUSY])] end;
  meanwhile _ s := s;
  in_time _ := true
|}.

Definition new_radio (listen_first : bool) : t :=
  mkRadio (mkSettings 869618000 62500 8 8 22 0x12 16) (mkMetrics (-99) f_zero (-99) (f_of_Z (-99)) 0 0 0 0) (mkCad None None None)
    (mkEndpoint [] 5055 []) listen_first (f_of_Z 4) 200 None true true None true [] [] ∅ 0 [] [] [] 0.

Example sends : ∃ s', send 1 [1; 2; 3] (new_radio false) = (s', Ok (Sent (mkReport (SFdiv prec64 emax64 (f_of_Z 123456) (f_of_Z 1000)) 0 [] false)))
  ∧ packets s' = [[9]].
Proof. eexists. split; vm_compute; reflexivity. Qed.

(** The budget ends the attempts. *)
Example refused : (send (M := busy_modem) 20 [1; 2; 3] (new_radio true)).2 = Ok Failed
  ∧ (send (M := busy_modem) 8 [1; 2; 3] (new_radio true)).2 = Ok Hung.
Proof. vm_compute. split; reflexivity. Qed.

Lemma send_confirmed_witness : ∃ s' r,
  send 1 [1; 2; 3] (new_radio false) = (s', Ok (Sent r))
  ∧ ∃ resp, confirmed [1; 2; 3] resp (new_radio false) s' ∧ airtime_ms r = airtime resp ∧ lbt_attempts r = len (lbt_backoff_delays_ms r).
Proof.
  eexists _, _. split; [vm_compute; reflexivity|]. apply (send_confirmed (M := prompt_modem) (fun _ s => onward_refl s) 1). vm_compute. reflexivity.
Defined.

Lemma send_ends_witness : ∃ s' r, send (M := busy_modem) 641 [1; 2; 3] (new_radio true) = (s', Ok r) ∧ r ≠ Hung.
Proof.
  refine (send_ends (M := busy_modem) (fun _ s => onward_refl s) [1; 2; 3] (new_radio true) 640 641 _ _ _).
  - intros n. vm_compute. reflexivity.
  - intros n Hn. unfold monotonic, busy_modem. rewrite Nat.min_r by exact Hn. vm_compute. reflexivity.
  - lia.
Defined.

Lemma commands_leave_nothing_witness :
  let s' := (send 1 [1; 2; 3] (new_radio false)).1 in
  idle s' ∧ ∀ cmd payload, cmd ≠ CMD_RX_PACKET → cmd ≠ CMD_ERROR → _dispatch_frame cmd payload s' = note (Heard cmd payload) s'.
Proof.
  refine (commands_leave_nothing (M := prompt_modem) (fun _ _ H => H) (new_radio false) _ _ _); [by split|]. apply rtc_once. apply step_send.
Defined.

Lemma packets_delivered_witness :
  let s := with_loop (Some true) (new_radio false) in
  delivers [[7]] s (fold_left (λ s c, rx_step (Chunk c) s) [[1; 170; 4; 7]; [0; 0; 0; 0; 0; 0; 0; 7; 64]; [141; 170; 255; 0; 0; 255; 3]] s).
Proof.
  refine (packets_delivered [([1], (CMD_RX_PACKET, [0; 0; 0; 0; 0; 0; 7])); ([], (CMD_PONG, []))] [1; 170; 4; 7; 0; 0; 0; 0; 0; 0; 0; 7; 64; 141; 170; 255; 0; 0; 255; 3] [] _ _ _ _ _ _ _ _ _ _).
  - repeat constructor; decide_now.
  - vm_compute. reflexivity.
  - constructor.
  - apply list.not_elem_of_nil.
  - repeat constructor; decide_now.
  - reflexivity.
  - reflexivity.
  - by split.
Defined.
