(* ===== verification/ModemSync.v ===== *)
(** * Connecting to a modem (the blocking halves of usb_radio.py and tcp_radio.py)

    Before the receive thread runs, and while it reopens a lost link, both drivers
    talk to the modem with blocking reads: they push the radio configuration and
    the cached detection parameters and wait for the answers; the TCP driver
    authenticates and pings first. [Usb] and [Tcp] hold the operations of the two
    drivers, over one state. *)

From stdpp Require Import gmap.
From S2P Require Import Prelude PyData Utf8 PyFloat ODict ModemProtocol ModemRadio.

Module ModemSync.
Import ModemProtocol ModemRadio.

(** The driver, the bytes that are still to come from the modem, the frames
    written to it, and the number of readings made. *)
Record t : Type := mkSync { radio : ModemRadio.t; input : bytes; out : list bytes; ticks : nat }.

Definition with_radio (r : ModemRadio.t) (s : t) : t := mkSync r (input s) (out s) (ticks s).
Definition with_input (b : bytes) (s : t) : t := mkSync (radio s) b (out s) (ticks s).
Definition with_out (l : list bytes) (s : t) : t := mkSync (radio s) (input s) l (ticks s).
Definition with_ticks (n : nat) (s : t) : t := mkSync (radio s) (input s) (out s) n.

(** How a socket read ends. *)
Inductive received : Type :=
| Data (n : nat)
| Closed
| TimedOut
| Broken.

(** What the link does, by reading: the wall clock, how many bytes a serial read
    finds before its timeout, how a socket read ends, whether opening and writing
    succeed, and whether the driver is stopped, now or within some seconds. *)
Class LinkIO := {
  wall : nat → float;
  ready : nat → nat;
  recv : nat → received;
  open_link : nat → res unit;
  write_link : nat → res unit;
  stop_requested : option Z → nat → bool
}.

Section sync.
Context `{I : LinkIO}.

Definition reading {A} (f : nat → A) : py t A :=
  s ← get;
  modify (with_ticks (S (ticks s)));;
  mret (f (ticks s)).

Definition time_time : py t float := reading wall.

Definition send_frame (frame : bytes) : py t unit :=
  r ← reading write_link;
  lift r;;
  modify (fun s => with_out (out s ++ [frame]) s).

(** The first [n] bytes. *)
Definition consume (n : nat) : py t bytes :=
  s ← get;
  modify (with_input (drop n (input s)));;
  mret (take n (input s)).

(** The payload of a configuration, from the settings of the driver. *)
Definition set_config_frame (r : ModemRadio.t) : res bytes :=
  payload ← config_payload (settings r);
  build_frame CMD_SET_CONFIG payload.

(** The cached detection parameters, if there are any. *)
Definition cad_payload (r : ModemRadio.t) : option (res bytes) :=
  match _custom_cad_peak (cad r), _custom_cad_min (cad r) with
  | Some peak, Some min_val => Some (build_cad_params_payload (symbol_num (cad r)) peak min_val)
  | _, _ => None
  end.

End sync.

(** ** The USB driver *)

Module Usb.
Section usb.
Context `{I : LinkIO}.

(** [serial.read(n)] *)
Definition serial_read (n : Z) : py t bytes :=
  k ← reading ready;
  consume (Nat.min (Z.to_nat n) k).

(** One turn of [_read_frame_sync] after its deadline check: a frame, if one was
    read and wanted. *)
Definition read_one (expect_cmd : option Z) : py t (option (Z * bytes)) :=
  b ← serial_read 1;
  match b with
  | [] => mret None
  | x :: _ =>
      if negb (x =? PROTO_SYNC) then mret None
      else
        hdr ← serial_read 3;
        if len hdr <? 3 then mret None
        else
          let cmd := nth 0 hdr 0 in
          let length := from_le (slice hdr 1 3) in
          if length >? MAX_LORA_PAYLOAD + 16 then mret None
          else
            payload ← (if length >? 0 then serial_read length else mret []);
            if len payload <? length then mret None
            else
              crc_bytes ← serial_read 2;
              if len crc_bytes <? 2 then mret None
              else if negb (from_le crc_bytes =? crc16_ccitt (hdr ++ payload)) then mret None
              else
                match expect_cmd with
                | Some expect =>
                    if negb (cmd =? expect) && negb (cmd =? CMD_ERROR) then mret None else mret (Some (cmd, payload))
                | None => mret (Some (cmd, payload))
                end
  end.

(** [None]: the fuel is used up. *)
Fixpoint read_until (fuel : nat) (deadline : float) (expect_cmd : option Z) : py t (option (option (Z * bytes))) :=
  match fuel with
  | O => mret None
  | S fuel =>
      now ← time_time;
      if negb (fltb now deadline) then mret (Some None)
      else
        r ← read_one expect_cmd;
        match r with
        | Some frame => mret (Some (Some frame))
        | None => read_until fuel deadline expect_cmd
        end
  end.

Definition _read_frame_sync (fuel : nat) (timeout : float) (expect_cmd : option Z) : py t (option (option (Z * bytes))) :=
  now ← time_time;
  read_until fuel (fadd now timeout) expect_cmd.

(** What was answered to [expect]: [None] where the fuel is used up. *)
Definition acknowledged (expect : Z) (r : option (option (Z * bytes))) : option bool :=
  match r with
  | None => None
  | Some (Some (cmd, _)) => Some (cmd =? expect)
  | Some None => Some false
  end.

Definition _ping_sync (fuel : nat) (timeout : float) : py t (option bool) :=
  frame ← lift (build_frame CMD_PING []);
  send_frame frame;;
  r ← _read_frame_sync fuel timeout (Some CMD_PONG);
  mret (acknowledged CMD_PONG r).

Definition _write_cad_frame_sync (fuel : nat) (payload : bytes) : py t (option bool) :=
  frame ← lift (build_frame CMD_SET_CAD_PARAMS payload);
  send_frame frame;;
  r ← _read_frame_sync fuel (f_of_Z 3) (Some CMD_CAD_PARAMS_RESP);
  mret (acknowledged CMD_CAD_PARAMS_RESP r).

Definition _apply_cad_config_sync (fuel : nat) : py t (option bool) :=
  s ← get;
  match cad_payload (radio s) with
  | None => mret (Some true)
  | Some payload => payload ← lift payload; _write_cad_frame_sync fuel payload
  end.

Definition _apply_config_sync (fuel : nat) : py t (option bool) :=
  s ← get;
  frame ← lift (set_config_frame (radio s));
  send_frame frame;;
  r ← _read_frame_sync fuel (f_of_Z 10) (Some CMD_CONFIG_RESP);
  match acknowledged CMD_CONFIG_RESP r with
  | Some true =>
      r ← _apply_cad_config_sync fuel;
      mret (option_map (fun _ => true) r)
  | r => mret r
  end.

(** [begin]: the port is opened, its input buffer dropped, the radio configured. *)
Definition begin (fuel : nat) (buffered : nat) : py t (option bool) :=
  s ← get;
  if _initialized (radio s) then mret (Some true)
  else
    py_try
      (r ← reading open_link;
       lift r;;
       modify (fun s => with_input (drop buffered (input s)) s);;
       ok ← _apply_config_sync fuel;
       match ok with
       | Some true =>
           modify (fun s => with_radio (with_initialized true (with_linked true (radio s))) s);;
           mret (Some true)
       | r => modify (fun s => with_radio (with_linked false (radio s)) s);; mret r
       end)
      (modify (fun s => with_radio (with_linked false (radio s)) s);; mret (Some false)).

End usb.
End Usb.

(** ** The TCP driver *)

Module Tcp.
Section tcp.
Context `{I : LinkIO}.

(** [socket.recv(n)]; nothing at all is the end of the stream. *)
Definition sock_recv (n : Z) : py t bytes :=
  r ← reading recv;
  s ← get;
  match r with
  | Data k => if bool_decide (input s = []) then raise (OtherError "timeout") else consume (Nat.min (Z.to_nat n) (S k))
  | Closed => mret []
  | TimedOut => raise (OtherError "timeout")
  | Broken => raise (OtherError "OSError")
  end.

(** Exactly [n] bytes, in pieces; [None]: the stream ends. Each piece has a byte,
    so [n] pieces are enough. *)
Fixpoint recv_exact (fuel : nat) (n : Z) (acc : bytes) : py t (option bytes) :=
  if len acc >=? n then mret (Some acc)
  else
    match fuel with
    | O => mret (Some acc)
    | S fuel =>
        chunk ← sock_recv (n - len acc);
        match chunk with
        | [] => mret None
        | _ => recv_exact fuel n (acc ++ chunk)
        end
    end.

(** The search for a SYNC byte; a turn takes a byte, so the bytes to come are
    enough turns. *)
Fixpoint find_sync (fuel : nat) (deadline : float) : py t bool :=
  match fuel with
  | O => mret false
  | S fuel =>
      now ← time_time;
      if negb (fltb now deadline) then mret false
      else
        b ← sock_recv 1;
        match b with
        | [] => mret false
        | x :: _ => if x =? PROTO_SYNC then mret true else find_sync fuel deadline
        end
  end.

Definition exact (n : Z) : py t (option bytes) := recv_exact (Z.to_nat n) n [].

(** The frame after a SYNC byte. *)
Definition read_rest : py t (option (Z * bytes)) :=
  hdr ← exact 3;
  match hdr with
  | None => mret None
  | Some hdr =>
      let cmd := nth 0 hdr 0 in
      let length := from_le (slice hdr 1 3) in
      payload ← exact length;
      match payload with
      | None => mret None
      | Some payload =>
          crc_bytes ← exact 2;
          match crc_bytes with
          | None => mret None
          | Some crc_bytes =>
              if negb (from_le crc_bytes =? crc16_ccitt (hdr ++ payload)) then mret None else mret (Some (cmd, payload))
          end
      end
  end.

Definition _read_frame_sync (timeout : float) : py t (option (Z * bytes)) :=
  py_try
    (now ← time_time;
     s ← get;
     found ← find_sync (S (length (input s))) (fadd now timeout);
     if (found : bool) then read_rest else mret None)
    (mret None).

(** Frames are read until one decides, or the time is up. [None]: the fuel is used
    up. *)
Fixpoint await_reply (fuel : nat) (deadline : float) (judge : Z * bytes → option bool) : py t (option bool) :=
  match fuel with
  | O => mret None
  | S fuel =>
      now ← time_time;
      if negb (fltb now deadline) then mret (Some false)
      else
        now ← time_time;
        resp ← _read_frame_sync (py_fmax (f_dec 1 1) (fsub deadline now));
        match resp ≫= judge with
        | Some b => mret (Some b)
        | None => await_reply fuel deadline judge
        end
  end.

(** A frame is sent, and the reply judged. *)
Definition exchange (fuel : nat) (frame : res bytes) (timeout : float) (judge : Z * bytes → option bool) : py t (option bool) :=
  frame ← lift frame;
  send_frame frame;;
  now ← time_time;
  await_reply fuel (fadd now timeout) judge.

(** The answer [ok], or an error. *)
Definition answered (ok : Z) (f : Z * bytes) : option bool :=
  if f.1 =? ok then Some true else if f.1 =? CMD_ERROR then Some false else None.

Definition auth_reply (f : Z * bytes) : option bool :=
  if f.1 =? CMD_AUTH_OK then Some true
  else if f.1 =? CMD_ERROR then
    let err := match f.2 with [] => 0xFF | b :: _ => b end in
    if err =? ERR_UNAUTHORIZED then Some false else None
  else None.

Definition pong_reply (f : Z * bytes) : option bool := if f.1 =? CMD_PONG then Some true else None.

Definition _auth_sync (fuel : nat) : py t (option bool) :=
  s ← get;
  exchange fuel (k ← encode (token (endpoint (radio s))); build_frame CMD_AUTH k) (f_of_Z 3) auth_reply.

Definition _ping_sync (fuel : nat) : py t (option bool) := exchange fuel (build_frame CMD_PING []) (f_of_Z 3) pong_reply.

Definition _write_cad_frame_sync (fuel : nat) (payload : bytes) : py t (option bool) :=
  exchange fuel (build_frame CMD_SET_CAD_PARAMS payload) (f_of_Z 3) (answered CMD_CAD_PARAMS_RESP).

Definition _apply_cad_config_sync (fuel : nat) : py t (option bool) :=
  s ← get;
  match cad_payload (radio s) with
  | None => mret (Some true)
  | Some payload => payload ← lift payload; _write_cad_frame_sync fuel payload
  end.

Definition _apply_config_sync (fuel : nat) : py t (option bool) :=
  s ← get;
  r ← exchange fuel (set_config_frame (radio s)) (f_of_Z 3) (answered CMD_CONFIG_RESP);
  match r with
  | Some true =>
      r ← _apply_cad_config_sync fuel;
      mret (option_map (fun _ => true) r)
  | r => mret r
  end.

Definition set_link (b : bool) (s : t) : t := with_radio (with_linked b (radio s)) s.

(** A step of the handshake: on a failure the socket is closed. *)
Definition step (m next : py t (option bool)) : py t (option bool) :=
  r ← m;
  match r with
  | Some true => next
  | Some false => modify (set_link false);; mret (Some false)
  | None => mret None
  end.

(** Authenticate, ping, configure. *)
Definition handshake (fuel : nat) : py t (option bool) :=
  s ← get;
  let ready := step (_ping_sync fuel) (step (_apply_config_sync fuel) (mret (Some true))) in
  if bool_decide (token (endpoint (radio s)) = []) then ready else step (_auth_sync fuel) ready.

(** [None]: the fuel is used up. *)
Definition _reopen_socket (fuel : nat) : py t (option bool) :=
  py_try
    (r ← reading open_link;
     lift r;;
     modify (set_link true);;
     handshake fuel)
    (modify (set_link false);; mret (Some false)).

(** [begin] connects with the statements of [_reopen_socket]; without a modem the
    driver starts all the same, and its receive thread will connect. *)
Definition begin (fuel : nat) : py t (option bool) :=
  s ← get;
  if _initialized (radio s) then mret (Some true)
  else
    r ← _reopen_socket fuel;
    match r with
    | None => mret None
    | Some _ => modify (fun s => with_radio (with_initialized true (radio s)) s);; mret (Some true)
    end.

Definition BACKOFF : list Z := [1; 2; 5; 10; 30].

(** Attempts after growing delays, then every 30 seconds, until one succeeds or
    the driver is stopped. *)
Fixpoint retry (fuel : nat) (waits : list Z) : py t (option bool) :=
  match waits with
  | [] => mret None
  | seconds :: waits =>
      stop ← reading (stop_requested None);
      if (stop : bool) then mret (Some false)
      else
        stop ← reading (stop_requested (Some seconds));
        if (stop : bool) then mret (Some false)
        else
          r ← _reopen_socket fuel;
          match r with
          | Some false => retry fuel waits
          | r => mret r
          end
  end.

Definition _reconnect_with_backoff (fuel turns : nat) : py t (option bool) := retry fuel (BACKOFF ++ replicate turns 30).

End tcp.
End Tcp.

End ModemSync.

Import ModemProtocol ModemSync.

(** ** What is read *)

(** After the bytes [b], from some of which a frame was read, [b'] are left. *)
Definition after (f : Z * bytes) (b b' : bytes) : Prop := ∃ pre w, b = pre ++ w ++ b' ∧ build_frame f.1 f.2 = Ok w.

Definition leaves (b b' : bytes) : Prop := ∃ pre, b = pre ++ b'.

#[export] Instance leaves_preorder : PreOrder leaves.
Proof. split; [by exists []|]. intros a b c [p ->] [q ->]. exists (p ++ q). by rewrite app_assoc. Qed.

Lemma leaves_after f a b c : leaves a b → after f b c → after f a c.
Proof. intros [p ->] (q & w & -> & Hw). exists (p ++ q), w. by rewrite <- app_assoc. Qed.

Lemma after_leaves f a b c : after f a b → leaves b c → after f a c ∨ leaves a c.
Proof. intros (q & w & -> & Hw) [p ->]. right. exists (q ++ w ++ p). by rewrite <- !app_assoc. Qed.

Lemma after_is_leaves f a b : after f a b → leaves a b.
Proof. intros (q & w & -> & _). exists (q ++ w). by rewrite <- app_assoc. Qed.

Lemma bytes_ok_2 a b : is_byte a → is_byte b → bytes_ok [a; b].
Proof. intros Ha Hb. apply bytes_ok_cons. split; [done|]. apply bytes_ok_cons. split; [done|apply bytes_ok_nil]. Qed.

(** Bytes that check are those of a frame. *)
Lemma frame_of_bytes cmd l0 l1 payload c0 c1 :
  is_byte cmd → is_byte l0 → is_byte l1 → is_byte c0 → is_byte c1 →
  len payload = from_le [l0; l1] → from_le [c0; c1] = crc16_ccitt ([cmd; l0; l1] ++ payload) →
  build_frame cmd payload = Ok ([PROTO_SYNC; cmd; l0; l1] ++ payload ++ [c0; c1]).
Proof.
  intros Hc H0 H1 Hc0 Hc1 Hl Hcrc. assert (∀ a b, is_byte a → is_byte b → pack_H (from_le [a; b]) = Ok [a; b]) as Hpack.
  { intros a b Ha Hb. pose proof (bytes_ok_2 a b Ha Hb) as Hab. pose proof (from_le_bound _ Hab). unfold pack_H. rewrite pack_uint_ok.
    - f_equal. exact (le_bytes_from_le _ Hab).
    - change (256 ^ Z.of_nat 2) with (256 ^ len [a; b]). done. }
  unfold build_frame. pose proof (Hpack l0 l1 H0 H1) as Hlen. rewrite <- Hl in Hlen.
  assert (len payload ≤ 0xFFFF) as Hle.
  { rewrite Hl. pose proof (bytes_ok_2 l0 l1 H0 H1) as Hab. pose proof (from_le_bound _ Hab) as Hb. change (256 ^ len [l0; l1]) with 65536 in Hb. lia. }
  rewrite Z.gtb_ltb, (proj2 (Z.ltb_ge _ _) Hle). unfold pack_B. rewrite pack_uint_ok by (unfold is_byte in Hc; cbn; lia).
  cbn [mbind res_bind]. rewrite Hlen. cbn [mbind res_bind].
  change (le_bytes 1 cmd ++ [l0; l1]) with [cmd mod 256; l0; l1]. rewrite (Z.mod_small cmd) by (unfold is_byte in Hc; lia).
  rewrite <- Hcrc, Hpack by done. reflexivity.
Qed.

Section sync.
Context `{I : LinkIO}.

(** A reader takes bytes from the front, and changes nothing else. *)
Definition reading_on (s s' : t) : Prop := leaves (input s) (input s') ∧ radio s' = radio s ∧ out s' = out s ∧ (ticks s ≤ ticks s')%nat.

#[local] Instance reading_on_preorder : PreOrder reading_on.
Proof.
  split; [intros s; split_and!; [reflexivity|done..]|]. intros a b c (H1 & H2 & H3 & H4) (H5 & H6 & H7 & H8).
  split_and!; [by etransitivity|congruence..|lia].
Qed.

Lemma sync_reading_run {A} (f : nat → A) s : reading f s = (with_ticks (S (ticks s)) s, Ok (f (ticks s))).
Proof. done. Qed.

Lemma sync_ticked s : reading_on s (with_ticks (S (ticks s)) s).
Proof. split_and!; [reflexivity|done|done|cbn; lia]. Qed.

Lemma sync_keeps_reading {A} (f : nat → A) : keeps reading_on (reading f).
Proof. intros s. apply sync_ticked. Qed.

Lemma time_run s : time_time s = (with_ticks (S (ticks s)) s, Ok (wall (ticks s))).
Proof. done. Qed.

Lemma consume_run n s : consume n s = (with_input (drop n (input s)) s, Ok (take n (input s))).
Proof. done. Qed.

Lemma keeps_consume n : keeps reading_on (consume n).
Proof. intros s. rewrite consume_run. split_and!; [exists (take n (input s)); cbn; by rewrite take_drop|done..]. Qed.

(** *** Serial reads *)

Lemma serial_read_spec n s :
  ∃ s' b, Usb.serial_read n s = (s', Ok b) ∧ input s = b ++ input s' ∧ len b ≤ Z.max 0 n ∧ reading_on s s'.
Proof.
  unfold Usb.serial_read. rewrite (py_bind_run _ _ _ _ _ (sync_reading_run _ _)). rewrite consume_run. eexists _, _. split; [reflexivity|].
  split; [cbn; by rewrite take_drop|]. split; [unfold len; rewrite length_take; lia|].
  etransitivity; [apply sync_ticked|apply keeps_consume].
Qed.

(** A list of a known small length. *)
Lemma len_3 {A} (l : list A) : len l = 3 → ∃ a b c, l = [a; b; c].
Proof. destruct l as [|a [|b [|c [|]]]]; unfold len; cbn; try lia. intros _. by exists a, b, c. Qed.

Lemma len_2 {A} (l : list A) : len l = 2 → ∃ a b, l = [a; b].
Proof. destruct l as [|a [|b [|]]]; unfold len; cbn; try lia. intros _. by exists a, b. Qed.

(** What is left of a frame after its pieces were read. *)
Lemma pieces_after x hdr payload crc rest :
  bytes_ok (hdr ++ payload ++ crc) → x = PROTO_SYNC → len hdr = 3 → len crc = 2 → len payload = from_le (slice hdr 1 3) →
  from_le crc = crc16_ccitt (hdr ++ payload) →
  after (nth 0 hdr 0, payload) (x :: hdr ++ payload ++ crc ++ rest) rest.
Proof.
  intros Hb -> Hh Hc Hl Hcrc. apply len_3 in Hh as (cmd & l0 & l1 & ->). apply len_2 in Hc as (c0 & c1 & ->).
  apply bytes_ok_app in Hb as [Hb1 Hb2]. apply bytes_ok_app in Hb2 as [_ Hb2].
  repeat (apply bytes_ok_cons in Hb1 as [? Hb1]). repeat (apply bytes_ok_cons in Hb2 as [? Hb2]).
  exists [], ([PROTO_SYNC; cmd; l0; l1] ++ payload ++ [c0; c1]). split.
  - cbn. by rewrite <- app_assoc.
  - cbn [fst snd nth]. by apply frame_of_bytes.
Qed.

Lemma read_one_spec expect s :
  bytes_ok (input s) →
  ∃ s' r, Usb.read_one expect s = (s', Ok r) ∧ reading_on s s'
    ∧ match r with
      | Some f => after f (input s) (input s') ∧ match expect with Some e => f.1 = e ∨ f.1 = CMD_ERROR | None => True end
      | None => True
      end.
Proof.
  intros Hb. unfold Usb.read_one. destruct (serial_read_spec 1 s) as (s1 & b & Hr1 & Hi1 & Hl1 & Ho1). rewrite (py_bind_run _ _ _ _ _ Hr1).
  destruct b as [|x b]; [by eexists _, _|]. destruct (x =? PROTO_SYNC) eqn:Hx; cbn [negb]; [|by eexists _, _]. apply Z.eqb_eq in Hx.
  assert (b = []) as -> by (destruct b; [done|unfold len in Hl1; cbn in Hl1; lia]).
  destruct (serial_read_spec 3 s1) as (s2 & hdr & Hr2 & Hi2 & Hl2 & Ho2). rewrite (py_bind_run _ _ _ _ _ Hr2).
  assert (reading_on s s2) as H12 by (by etransitivity). destruct (len hdr <? 3) eqn:Hh; [by eexists _, _|]. cbv zeta.
  destruct (from_le (slice hdr 1 3) >? _) eqn:Hg; [by eexists _, _|]. set (n := from_le (slice hdr 1 3)) in *.
  assert (∃ s3 payload, (if n >? 0 then Usb.serial_read n else mret []) s2 = (s3, Ok payload) ∧ input s2 = payload ++ input s3 ∧ len payload ≤ Z.max 0 n ∧ reading_on s2 s3)
    as (s3 & payload & Hr3 & Hi3 & Hl3 & Ho3).
  { destruct (n >? 0); [apply serial_read_spec|]. exists s2, []. split_and!; [done|done|unfold len; cbn; lia|reflexivity]. }
  rewrite (py_bind_run _ _ _ _ _ Hr3). assert (reading_on s s3) as H13 by (by etransitivity). destruct (len payload <? n) eqn:Hp; [by eexists _, _|].
  destruct (serial_read_spec 2 s3) as (s4 & crc & Hr4 & Hi4 & Hl4 & Ho4). rewrite (py_bind_run _ _ _ _ _ Hr4).
  assert (reading_on s s4) as H14 by (by etransitivity). destruct (len crc <? 2) eqn:Hc; [by eexists _, _|].
  destruct (from_le crc =? _) eqn:Hcrc; cbn [negb]; [|by eexists _, _]. bool_hyps.
  assert (after (nth 0 hdr 0, payload) (input s) (input s4)) as Haft.
  { assert (input s = x :: hdr ++ payload ++ crc ++ input s4) as Hin by (by rewrite Hi1, Hi2, Hi3, Hi4). rewrite Hin in Hb |- *.
    apply pieces_after; try done; try lia.
    - apply bytes_ok_cons in Hb as [_ Hb]. rewrite !app_assoc in Hb. apply bytes_ok_app in Hb as [Hb _]. by rewrite <- app_assoc in Hb.
    - fold n. assert (0 ≤ n); [|lia]. assert (bytes_ok hdr) as Hhb by (apply bytes_ok_cons in Hb as [_ Hb]; by apply bytes_ok_app in Hb as [? _]).
      pose proof (from_le_bound _ (bytes_ok_slice hdr 1 3 Hhb)). unfold n. lia. }
  destruct expect as [e|]; [|by eexists _, _]. destruct (nth 0 hdr 0 =? e) eqn:He; cbn [negb andb].
  - apply Z.eqb_eq in He. eexists _, _. split; [reflexivity|]. split; [done|]. split; [done|by left].
  - destruct (nth 0 hdr 0 =? CMD_ERROR) eqn:Hce; cbn [negb]; [|by eexists _, _].
    apply Z.eqb_eq in Hce. eexists _, _. split; [reflexivity|]. split; [done|]. split; [done|by right].
Qed.

Lemma bytes_ok_reading s s' : reading_on s s' → bytes_ok (input s) → bytes_ok (input s').
Proof. intros ((pre & ->) & _) Hb. by apply bytes_ok_app in Hb as [_ Hb]. Qed.

Lemma read_until_spec fuel deadline expect s s' r :
  bytes_ok (input s) → Usb.read_until fuel deadline expect s = (s', r) →
  reading_on s s' ∧ ∃ x, r = Ok x ∧ match x with
    | Some (Some f) => after f (input s) (input s') ∧ match expect with Some e => f.1 = e ∨ f.1 = CMD_ERROR | None => True end
    | _ => True
    end.
Proof.
  revert s. induction fuel as [|fuel IH]; intros s Hb H; cbn [Usb.read_until] in H.
  { injection H as <- <-. split; [reflexivity|by eexists]. }
  rewrite (py_bind_run _ _ _ _ _ (time_run _)) in H. set (s1 := with_ticks _ s) in H.
  pose proof (sync_ticked s : reading_on s s1) as H1.
  destruct (fltb _ deadline); cbn [negb] in H; [|injection H as <- <-; split; [done|by eexists]].
  destruct (read_one_spec expect s1) as (s2 & o & Ho & H2 & Hf); [done|]. rewrite (py_bind_run _ _ _ _ _ Ho) in H. assert (reading_on s s2) as H12 by (by etransitivity).
  destruct o as [f|]; [injection H as <- <-; split; [done|by eexists]|]. destruct (IH s2) as (H3 & x & -> & Hx); [by eapply bytes_ok_reading|done|].
  split; [by etransitivity|]. exists x. split; [done|]. destruct x as [[f|]|]; [|done..]. destruct Hx as [Hx1 Hx2]. split; [|done].
  eapply leaves_after; [apply H12|exact Hx1].
Qed.

(** *** Socket reads *)

Lemma keeps_sock_recv n : keeps reading_on (Tcp.sock_recv n).
Proof. unfold Tcp.sock_recv. keeps; first [apply sync_keeps_reading|apply keeps_consume]. Qed.

Lemma sock_recv_run n s :
  Tcp.sock_recv n s = (let s1 := with_ticks (S (ticks s)) s in
    match recv (ticks s) with
    | Data k => if bool_decide (input s = []) then (s1, Err (OtherError "timeout")) else consume (Nat.min (Z.to_nat n) (S k)) s1
    | Closed => (s1, Ok [])
    | TimedOut => (s1, Err (OtherError "timeout"))
    | Broken => (s1, Err (OtherError "OSError"))
    end).
Proof.
  unfold Tcp.sock_recv. rewrite (py_bind_run _ _ _ _ _ (sync_reading_run _ _)). cbv zeta. set (s1 := with_ticks _ s).
  rewrite (py_bind_run _ _ s1 s1 s1) by done. change (input s1) with (input s). destruct (recv (ticks s)); try done. by destruct (bool_decide _).
Qed.

Lemma sock_recv_spec n s s' b : 0 < n → Tcp.sock_recv n s = (s', Ok b) → input s = b ++ input s' ∧ len b ≤ n ∧ reading_on s s'.
Proof.
  intros Hn H. pose proof (run_keeps _ _ _ _ _ H (keeps_sock_recv n)) as Hr. rewrite sock_recv_run in H. cbv zeta in H.
  destruct (recv (ticks s)) as [k| | |]; [|injection H as <- <-; split_and!; [done|unfold len; cbn; lia|apply Hr..]|done..].
  destruct (bool_decide _); [done|]. rewrite consume_run in H. injection H as <- <-. split; [cbn; by rewrite take_drop|].
  split; [|done]. unfold len. rewrite length_take. lia.
Qed.

Lemma keeps_recv_exact fuel n acc : keeps reading_on (Tcp.recv_exact fuel n acc).
Proof.
  revert acc. induction fuel as [|fuel IH]; intros acc; cbn [Tcp.recv_exact]; keeps; first [apply keeps_sock_recv|apply IH].
Qed.

Lemma recv_exact_spec fuel n acc s s' b :
  len acc ≤ n → n - len acc ≤ Z.of_nat fuel → Tcp.recv_exact fuel n acc s = (s', Ok (Some b)) →
  ∃ c, b = acc ++ c ∧ input s = c ++ input s' ∧ len b = n.
Proof.
  revert acc s. induction fuel as [|fuel IH]; intros acc s Hle Hf H; cbn [Tcp.recv_exact] in H.
  - assert (s' = s ∧ b = acc) as [-> ->] by (destruct (len acc >=? n); by injection H). exists []. rewrite app_nil_r. split_and!; [done|done|lia].
  - destruct (len acc >=? n) eqn:Hge; bool_hyps.
    + injection H as <- <-. exists []. rewrite app_nil_r. split_and!; [done|done|lia].
    + apply py_bind_ok in H as (s1 & chunk & Hc & H). apply sock_recv_spec in Hc as (Hi & Hl & _); [|lia]. destruct chunk as [|x chunk]; [done|].
      apply IH in H as (c & -> & Hi' & Hn); [|rewrite len_app; lia|rewrite len_app, len_cons; pose proof (len_nonneg chunk); lia].
      exists ((x :: chunk) ++ c). split_and!; [by rewrite app_assoc|by rewrite Hi, Hi', app_assoc|done].
Qed.

Lemma exact_spec n s s' b : 0 ≤ n → Tcp.exact n s = (s', Ok (Some b)) → input s = b ++ input s' ∧ len b = n.
Proof.
  intros Hn H. apply recv_exact_spec in H as (c & -> & Hi & Hl); [done|unfold len; cbn; lia|]. rewrite Z2Nat.id by done. unfold len. cbn. lia.
Qed.

Lemma keeps_find_sync fuel deadline : keeps reading_on (Tcp.find_sync fuel deadline).
Proof.
  induction fuel as [|fuel IH]; cbn [Tcp.find_sync]; unfold time_time; keeps; first [apply sync_keeps_reading|apply keeps_sock_recv|apply IH].
Qed.

Lemma find_sync_spec fuel deadline s s' :
  Tcp.find_sync fuel deadline s = (s', Ok true) → ∃ pre, input s = pre ++ PROTO_SYNC :: input s'.
Proof.
  revert s. induction fuel as [|fuel IH]; intros s H; cbn [Tcp.find_sync] in H; [done|]. rewrite (py_bind_run _ _ _ _ _ (time_run _)) in H.
  destruct (fltb _ deadline); [|done]. cbn [negb] in H. apply py_bind_ok in H as (s1 & b & Hb & H).
  apply sock_recv_spec in Hb as (Hi & Hl & _); [|lia]. change (input (with_ticks _ s)) with (input s) in Hi.
  destruct b as [|x b]; [done|]. assert (b = []) as -> by (destruct b; [done|]; rewrite !len_cons in Hl; pose proof (len_nonneg b); lia).
  destruct (Z.eqb_spec x PROTO_SYNC) as [->|Hx].
  - injection H as <-. exists []. exact Hi.
  - apply IH in H as (pre & Hp). exists (x :: pre). by rewrite Hi, Hp.
Qed.

(** A turn of the search takes a byte: the bytes to come are enough turns. *)
Lemma find_sync_fuel n m deadline s :
  (length (input s) < n)%nat → (length (input s) < m)%nat → Tcp.find_sync n deadline s = Tcp.find_sync m deadline s.
Proof.
  revert m s. induction n as [|n IH]; intros m s Hn Hm; [lia|]. destruct m as [|m]; [lia|]. cbn [Tcp.find_sync].
  rewrite !(py_bind_run _ _ _ _ _ (time_run _)). destruct (fltb _ deadline); [|done]. cbn [negb]. unfold mbind, py_bind.
  destruct (Tcp.sock_recv 1 _) as [s1 [b|e]] eqn:Hb; [|done]. apply sock_recv_spec in Hb as (Hi & _ & _); [|lia]. cbn in Hi.
  destruct b as [|x b]; [done|]. destruct (x =? PROTO_SYNC); [done|]. rewrite Hi in Hn, Hm. rewrite length_app in Hn, Hm. cbn in Hn, Hm. apply IH; lia.
Qed.

Lemma keeps_read_rest : keeps reading_on Tcp.read_rest.
Proof. unfold Tcp.read_rest. keeps; apply keeps_recv_exact. Qed.

Lemma read_rest_spec s s' f :
  bytes_ok (input s) → Tcp.read_rest s = (s', Ok (Some f)) → after f (PROTO_SYNC :: input s) (input s').
Proof.
  intros Hb H. unfold Tcp.read_rest in H. apply py_bind_ok in H as (s1 & hdr & H1 & H). destruct hdr as [hdr|]; [|done].
  apply exact_spec in H1 as (Hi1 & Hl1); [|lia]. cbv zeta in H. assert (bytes_ok hdr) as Hhb by (rewrite Hi1 in Hb; by apply bytes_ok_app in Hb as [? _]).
  pose proof (from_le_bound _ (bytes_ok_slice hdr 1 3 Hhb)) as Hn. set (n := from_le (slice hdr 1 3)) in *.
  apply py_bind_ok in H as (s2 & payload & H2 & H). destruct payload as [payload|]; [|done]. apply exact_spec in H2 as (Hi2 & Hl2); [|lia].
  apply py_bind_ok in H as (s3 & crc & H3 & H). destruct crc as [crc|]; [|done]. apply exact_spec in H3 as (Hi3 & Hl3); [|lia].
  destruct (from_le crc =? _) eqn:Hcrc; cbn [negb] in H; [|done]. apply Z.eqb_eq in Hcrc. injection H as <- <-.
  rewrite Hi1, Hi2, Hi3 in Hb |- *. apply pieces_after; try done. rewrite !app_assoc in Hb. apply bytes_ok_app in Hb as [Hb _]. by rewrite <- app_assoc in Hb.
Qed.

Lemma keeps_read_frame timeout : keeps reading_on (Tcp._read_frame_sync timeout).
Proof.
  unfold Tcp._read_frame_sync, time_time. apply keeps_try; [apply _| |]; keeps; first [apply sync_keeps_reading|apply keeps_find_sync|apply keeps_read_rest].
Qed.

(** The TCP reader never raises, and returns only whole frames. *)
Lemma read_frame_spec timeout s :
  bytes_ok (input s) → ∃ s' r, Tcp._read_frame_sync timeout s = (s', Ok r) ∧ reading_on s s'
    ∧ match r with Some f => after f (input s) (input s') | None => True end.
Proof.
  intros Hb. pose proof (keeps_read_frame timeout s) as Hk. destruct (Tcp._read_frame_sync timeout s) as [s' r] eqn:H. cbn [fst] in Hk.
  unfold Tcp._read_frame_sync, py_try in H. match type of H with context [match ?m with _ => _ end] => destruct m as [s1 [o|e]] eqn:Hm end;
    [|injection H as <- <-; by eexists _, _]. injection H as <- <-. exists s1, o. split_and!; [done|apply Hk..|]. destruct o as [f|]; [|done].
  rewrite (py_bind_run _ _ _ _ _ (time_run _)) in Hm.
  rewrite py_bind_run with (s' := with_ticks (S (ticks s)) s) (a := with_ticks (S (ticks s)) s) in Hm by done.
  apply py_bind_ok in Hm as (s2 & found & Hf & Hm). destruct found; [|done].
  pose proof (run_keeps _ _ _ _ _ Hf (keeps_find_sync _ _)) as Hr. apply find_sync_spec in Hf as (pre & Hp). cbn in Hp.
  apply read_rest_spec in Hm; [|apply (bytes_ok_reading _ _ Hr); done]. rewrite Hp. eapply leaves_after; [|exact Hm]. by exists pre.
Qed.

(** ** Exchanges *)

(** Frames are written, bytes are read, the driver is as it was. *)
Definition talks (s s' : t) : Prop :=
  leaves (input s) (input s') ∧ radio s' = radio s ∧ (∃ l, out s' = out s ++ l) ∧ (ticks s ≤ ticks s')%nat.

#[local] Instance talks_preorder : PreOrder talks.
Proof.
  split; [intros s; split_and!; [reflexivity|done|by exists []; rewrite app_nil_r|done]|].
  intros a b c (H1 & H2 & (l & H3) & H4) (H5 & H6 & (l' & H7) & H8).
  split; [by etransitivity|]. split; [congruence|]. split; [exists (l ++ l'); by rewrite H7, H3, app_assoc|lia].
Qed.

Lemma reading_talks s s' : reading_on s s' → talks s s'.
Proof. intros (H1 & H2 & H3 & H4). split; [done|]. split; [done|]. split; [exists []; by rewrite app_nil_r|done]. Qed.

Lemma bytes_ok_leaves a b : leaves a b → bytes_ok a → bytes_ok b.
Proof. intros [p ->] H. by apply bytes_ok_app in H as [_ H]. Qed.

Lemma send_frame_cases w s :
  let s1 := with_ticks (S (ticks s)) s in
  send_frame w s = (with_out (out s ++ [w]) s1, Ok tt) ∨ ∃ e, send_frame w s = (s1, Err e).
Proof.
  cbv zeta. unfold send_frame. rewrite (py_bind_run _ _ _ _ _ (sync_reading_run _ _)). destruct (write_link (ticks s)) as [[]|e]; [by left|right; by exists e].
Qed.

Lemma await_reply_spec fuel deadline judge s :
  bytes_ok (input s) →
  ∃ s' x, Tcp.await_reply fuel deadline judge s = (s', Ok x) ∧ reading_on s s'
    ∧ (x = Some true → ∃ f, judge f = Some true ∧ after f (input s) (input s'))
    ∧ ∀ N, (∀ n, (N ≤ n)%nat → fltb (wall n) deadline = false) → (N - ticks s < fuel)%nat → x ≠ None.
Proof.
  revert s. induction fuel as [|fuel IH]; intros s Hb; cbn [Tcp.await_reply].
  { exists s, None. split; [done|]. split; [reflexivity|]. split; [done|]. intros N _ Hf. lia. }
  rewrite (py_bind_run _ _ _ _ _ (time_run _)). set (s1 := with_ticks _ s). pose proof (sync_ticked s : reading_on s s1) as H1.
  destruct (fltb (wall (ticks s)) deadline) eqn:Ht; cbn [negb]; [|exists s1, (Some false); by split; [|split; [|split]]].
  rewrite (py_bind_run _ _ _ _ _ (time_run _)). set (s2 := with_ticks _ s1). assert (reading_on s s2) as H2 by (etransitivity; [exact H1|apply sync_ticked]).
  destruct (read_frame_spec (py_fmax (f_dec 1 1) (fsub deadline (wall (ticks s1)))) s2) as (s3 & r & Hr & H3 & Hf); [done|]. rewrite (py_bind_run _ _ _ _ _ Hr).
  assert (reading_on s s3) as H13 by (by etransitivity). destruct (r ≫= judge) as [b|] eqn:Hj.
  - exists s3, (Some b). split; [done|]. split; [done|]. split; [|done]. intros [= ->]. destruct r as [f|]; [|done]. by exists f.
  - destruct (IH s3) as (s' & x & Hx & H4 & Hok & Hend); [by eapply bytes_ok_reading|]. exists s', x. split; [exact Hx|]. split; [by etransitivity|]. split.
    + intros Hxt. destruct (Hok Hxt) as (f & Hjf & Haf). exists f. split; [done|]. eapply leaves_after; [apply H13|exact Haf].
    + intros N HN Hfuel. apply (Hend N HN). destruct H13 as (_ & _ & _ & Hle). destruct (decide (N ≤ ticks s)%nat) as [Hn|Hn]; [by rewrite (HN _ Hn) in Ht|].
      destruct H3 as (_ & _ & _ & H3). unfold s2, s1 in H3. cbn in H3. lia.
Qed.

(** From any reading, three seconds pass in [K] readings. *)
Definition clock_runs (K : nat) : Prop := ∀ i n, (i + K ≤ n)%nat → fltb (wall n) (fadd (wall i) (f_of_Z 3)) = false.

Lemma exchange_spec fuel frame judge s s' r :
  bytes_ok (input s) → Tcp.exchange fuel frame (f_of_Z 3) judge s = (s', r) →
  talks s s'
  ∧ (r = Ok (Some true) → ∃ w f l, frame = Ok w ∧ out s' = out s ++ w :: l ∧ judge f = Some true ∧ after f (input s) (input s'))
  ∧ ∀ K, clock_runs K → (K < fuel)%nat → r ≠ Ok None.
Proof.
  intros Hb H. unfold Tcp.exchange in H. destruct frame as [w|e]; [|injection H as <- <-; by split; [|split]].
  rewrite py_bind_run with (s' := s) (a := w) in H by done. destruct (send_frame_cases w s) as [Hs|[e Hs]].
  2: { unfold mbind, py_bind in H. rewrite Hs in H. injection H as <- <-. split; [apply reading_talks, sync_ticked|by split]. }
  rewrite (py_bind_run _ _ _ _ _ Hs), (py_bind_run _ _ _ _ _ (time_run _)) in H. set (s1 := with_ticks _ (with_out _ _)) in H.
  assert (talks s s1) as H1.
  { split; [reflexivity|]. split; [done|]. split; [by exists [w]|unfold s1; cbn; lia]. }
  destruct (await_reply_spec fuel (fadd (wall (ticks (with_out (out s ++ [w]) (with_ticks (S (ticks s)) s)))) (f_of_Z 3)) judge s1) as (s2 & x & Hx & H2 & Hok & Hend); [done|].
  rewrite Hx in H. injection H as <- <-. split; [etransitivity; [exact H1|by apply reading_talks]|]. split.
  - intros [= ->]. destruct (Hok eq_refl) as (f & Hj & Hf). exists w, f, []. split_and!; [done| |done|exact Hf]. by destruct H2 as (_ & _ & -> & _).
  - intros K HK Hfuel [= ->]. refine (Hend (S (ticks s) + K)%nat _ _ eq_refl); [intros n Hn; by apply HK|]. unfold s1. cbn. lia.
Qed.

Lemma after_ok f judge ok a b : judge f = Some true → (∀ g, judge g = Some true → g.1 = ok) → after f a b → ∃ p, after (ok, p) a b.
Proof. intros Hj Hg (pre & w & Ha & Hw). exists f.2, pre, w. split; [done|]. by rewrite <- (Hg f Hj). Qed.

Lemma answered_ok ok f : Tcp.answered ok f = Some true → f.1 = ok.
Proof. unfold Tcp.answered. destruct (Z.eqb_spec f.1 ok); [done|]. by destruct (_ =? _). Qed.

Lemma auth_ok f : Tcp.auth_reply f = Some true → f.1 = CMD_AUTH_OK.
Proof. unfold Tcp.auth_reply. destruct (Z.eqb_spec f.1 CMD_AUTH_OK); [done|]. destruct (_ =? CMD_ERROR); [|done]. cbv zeta. by destruct (_ =? _). Qed.

Lemma pong_ok f : Tcp.pong_reply f = Some true → f.1 = CMD_PONG.
Proof. unfold Tcp.pong_reply. by destruct (Z.eqb_spec f.1 CMD_PONG). Qed.

Lemma cad_config_spec fuel s s' r :
  bytes_ok (input s) → Tcp._apply_cad_config_sync fuel s = (s', r) → talks s s' ∧ ∀ K, clock_runs K → (K < fuel)%nat → r ≠ Ok None.
Proof.
  intros Hb H. unfold Tcp._apply_cad_config_sync in H. rewrite py_bind_run with (s' := s) (a := s) in H by done.
  destruct (cad_payload (radio s)) as [[payload|e]|]; [|injection H as <- <-; by split..].
  rewrite py_bind_run with (s' := s) (a := payload) in H by done. unfold Tcp._write_cad_frame_sync in H. by apply exchange_spec in H as (? & _ & ?).
Qed.

Lemma config_spec fuel s s' r :
  bytes_ok (input s) → Tcp._apply_config_sync fuel s = (s', r) →
  talks s s'
  ∧ (r = Ok (Some true) → ∃ w b p, set_config_frame (radio s) = Ok w ∧ w ∈ out s' ∧ after (CMD_CONFIG_RESP, p) (input s) b ∧ leaves b (input s'))
  ∧ ∀ K, clock_runs K → (K < fuel)%nat → r ≠ Ok None.
Proof.
  intros Hb H. unfold Tcp._apply_config_sync in H. rewrite py_bind_run with (s' := s) (a := s) in H by done.
  unfold mbind, py_bind in H. destruct (Tcp.exchange fuel _ _ _ s) as [s1 r1] eqn:Hx. apply exchange_spec in Hx as (H1 & Hok & Hend); [|done].
  destruct r1 as [[[]|]|e]; [| injection H as <- <-; by split_and!..|by injection H as <- <-; split_and!|by injection H as <- <-; split_and!].
  destruct (Tcp._apply_cad_config_sync fuel s1) as [s2 r2] eqn:Hc. apply cad_config_spec in Hc as (H2 & Hend2); [|eapply bytes_ok_leaves; [apply H1|done]].
  assert (talks s s2) as H12 by (by etransitivity). destruct (Hok eq_refl) as (w & f & l & Hw & Hout & Hj & Hf).
  assert (∃ b p, after (CMD_CONFIG_RESP, p) (input s) b ∧ leaves b (input s2)) as (b & p & Hbp & Hl).
  { destruct (after_ok f _ _ _ _ Hj (answered_ok CMD_CONFIG_RESP) Hf) as (p & Hp). exists (input s1), p. split; [done|apply H2]. }
  assert (w ∈ out s2) as Hin.
  { destruct H2 as (_ & _ & (l' & ->) & _). rewrite Hout. apply elem_of_app. left. apply elem_of_app. right. left. }
  destruct r2 as [[x|]|e]; injection H as <- <-; (split; [done|]; split; [by intros; exists w, b, p|]); [done| |done].
  intros K HK Hfuel _. by apply (Hend2 K HK Hfuel).
Qed.

(** ** Connecting *)

(** What connecting has exchanged: the token was accepted, the ping answered, the
    configuration acknowledged, in this order. *)
Definition acknowledged_by (r : ModemRadio.t) (s s' : t) : Prop :=
  ∃ w b1 b2 b3, set_config_frame r = Ok w ∧ w ∈ out s'
    ∧ (ModemRadio.token (ModemRadio.endpoint r) = [] ∧ b1 = input s ∨ ∃ p, after (CMD_AUTH_OK, p) (input s) b1)
    ∧ (∃ p, after (CMD_PONG, p) b1 b2) ∧ (∃ p, after (CMD_CONFIG_RESP, p) b2 b3) ∧ leaves b3 (input s').

(** A result of the handshake: linked exactly if it succeeded. *)
Definition settled (r0 : ModemRadio.t) (r : res (option bool)) (s' : t) : Prop :=
  match r with
  | Ok (Some b) => radio s' = ModemRadio.with_linked b r0
  | _ => ∃ b, radio s' = ModemRadio.with_linked b r0
  end.

Lemma step_cases m next s s1 r1 :
  m s = (s1, r1) →
  Tcp.step m next s = match r1 with
                  | Ok (Some true) => next s1
                  | Ok (Some false) => (Tcp.set_link false s1, Ok (Some false))
                  | _ => (s1, r1)
                  end.
Proof. intros H. unfold Tcp.step, mbind, py_bind. rewrite H. by destruct r1 as [[[]|]|]. Qed.

Lemma handshake_spec fuel s s' r :
  bytes_ok (input s) → ModemRadio.linked (radio s) = true → Tcp.handshake fuel s = (s', r) →
  settled (radio s) r s' ∧ (r = Ok (Some true) → acknowledged_by (radio s) s s') ∧ ∀ K, clock_runs K → (K < fuel)%nat → r ≠ Ok None.
Proof.
  intros Hb Hlinked H. unfold Tcp.handshake in H. rewrite py_bind_run with (s' := s) (a := s) in H by done. cbv zeta in H.
  set (ready := Tcp.step (Tcp._ping_sync fuel) _) in H.
  assert (∀ v, ModemRadio.linked v = true → v = ModemRadio.with_linked true v) as Hself by (by intros [] ?; cbn in *; subst).
  assert (∀ s1 s1' r1, bytes_ok (input s1) → radio s1 = radio s → ready s1 = (s1', r1) →
    settled (radio s) r1 s1'
    ∧ (r1 = Ok (Some true) → ∃ w b2 b3, set_config_frame (radio s) = Ok w ∧ w ∈ out s1' ∧ (∃ p, after (CMD_PONG, p) (input s1) b2)
         ∧ (∃ p, after (CMD_CONFIG_RESP, p) b2 b3) ∧ leaves b3 (input s1'))
    ∧ ∀ K, clock_runs K → (K < fuel)%nat → r1 ≠ Ok None) as Hready.
  { intros s1 s1' r1 Hb1 Hr1 H1. unfold ready in H1. destruct (Tcp._ping_sync fuel s1) as [s2 r2] eqn:Hp. rewrite (step_cases _ _ _ _ _ Hp) in H1.
    unfold Tcp._ping_sync in Hp. apply exchange_spec in Hp as ((Hl2 & Hr2 & _) & Hok2 & Hend2); [|done]. rewrite Hr1 in Hr2.
    assert (∃ b, radio s2 = ModemRadio.with_linked b (radio s)) as Hsame by (exists true; rewrite Hr2; by apply Hself).
    destruct r2 as [[[]|]|e]; [| injection H1 as <- <-|by injection H1 as <- <-; split_and!|by injection H1 as <- <-; split_and!].
    2: { split; [cbn; by rewrite Hr2|by split]. }
    destruct (Tcp._apply_config_sync fuel s2) as [s3 r3] eqn:Hc. rewrite (step_cases _ _ _ _ _ Hc) in H1.
    apply config_spec in Hc as ((Hl3 & Hr3 & _) & Hok3 & Hend3); [|by eapply bytes_ok_leaves]. rewrite Hr2 in Hr3.
    assert (∃ b, radio s3 = ModemRadio.with_linked b (radio s)) as Hsame3 by (exists true; rewrite Hr3; by apply Hself).
    destruct r3 as [[[]|]|e]; injection H1 as <- <-; [| | |by split_and!].
    - split; [cbn; rewrite Hr3; by apply Hself|]. split; [|done]. intros _. destruct (Hok2 eq_refl) as (w2 & f2 & l2 & _ & _ & Hj2 & Hf2).
      destruct (Hok3 eq_refl) as (w & b & p & Hw & Hin & Haf & Hlv). exists w, (input s2), b. rewrite Hr2 in Hw.
      split; [done|]. split; [done|]. split; [by eapply after_ok; [exact Hj2|apply pong_ok|]|]. split; [by exists p|done].
    - split; [cbn; by rewrite Hr3|by split].
    - split; [done|]. split; [done|exact Hend3]. }
  destruct (bool_decide _) eqn:Htok.
  - apply bool_decide_eq_true in Htok. destruct (Hready s s' r Hb eq_refl H) as (H1 & H2 & H3). split; [done|]. split; [|done].
    intros Hr. destruct (H2 Hr) as (w & b2 & b3 & Hw & Hin & Hpong & Hconf & Hl). exists w, (input s), b2, b3.
    refine (conj Hw (conj Hin (conj _ (conj Hpong (conj Hconf Hl))))). left. by split.
  - destruct (Tcp._auth_sync fuel s) as [s1 r1] eqn:Ha. rewrite (step_cases _ _ _ _ _ Ha) in H. unfold Tcp._auth_sync in Ha.
    rewrite py_bind_run with (s' := s) (a := s) in Ha by done. apply exchange_spec in Ha as ((Hl1 & Hr1 & _) & Hok1 & Hend1); [|done].
    assert (∃ b, radio s1 = ModemRadio.with_linked b (radio s)) as Hsame by (exists true; rewrite Hr1; by apply Hself).
    destruct r1 as [[[]|]|e]; [| injection H as <- <-|by injection H as <- <-; split_and!|by injection H as <- <-; split_and!].
    2: { split; [cbn; by rewrite Hr1|by split]. }
    destruct (Hready s1 s' r) as (H1 & H2 & H3); [by eapply bytes_ok_leaves|done|done|]. split; [done|]. split; [|done].
    intros Hr. destruct (H2 Hr) as (w & b2 & b3 & Hw & Hin & Hpong & Hconf & Hl). destruct (Hok1 eq_refl) as (w1 & f1 & l1 & _ & _ & Hj1 & Hf1).
    exists w, (input s1), b2, b3. refine (conj Hw (conj Hin (conj _ (conj Hpong (conj Hconf Hl))))). right.
    eapply after_ok; [exact Hj1|apply auth_ok|exact Hf1].
Qed.

Lemma reopen_spec fuel s :
  bytes_ok (input s) →
  ∃ s' o, Tcp._reopen_socket fuel s = (s', Ok o)
    ∧ (∃ b, radio s' = ModemRadio.with_linked b (radio s) ∧ (o = Some false → b = false))
    ∧ (o = Some true → acknowledged_by (radio s) s s')
    ∧ ∀ K, clock_runs K → (K < fuel)%nat → o ≠ None.
Proof.
  intros Hb. unfold Tcp._reopen_socket, py_try. rewrite (py_bind_run _ _ _ _ _ (sync_reading_run _ _)). set (s1 := with_ticks _ s).
  destruct (open_link (ticks s)) as [[]|e].
  2: { eexists _, _. split; [reflexivity|]. split; [by exists false|by split]. }
  rewrite py_bind_run with (s' := s1) (a := tt) by done. rewrite py_bind_run with (s' := Tcp.set_link true s1) (a := tt) by done.
  set (s2 := Tcp.set_link true s1). destruct (Tcp.handshake fuel s2) as [s3 r] eqn:Hm.
  apply handshake_spec in Hm as (Hset & Hack & Hend); [|done|done]. destruct r as [o|e].
  - exists s3, o. split; [done|]. split; [|split].
    + destruct o as [b|]; cbn in Hset; [exists b|destruct Hset as (b & Hset); exists b]; rewrite Hset; (split; [by destruct (radio s)|]); [by intros [= ->]|done].
    + intros ->. destruct (Hack eq_refl) as (w & b1 & b2 & b3 & H). by exists w, b1, b2, b3.
    + intros K HK Hf ->. by apply (Hend K).
  - exists (Tcp.set_link false s3), (Some false). split; [done|]. split; [|by split]. exists false. split; [|done]. destruct Hset as (b & Hset).
    cbn. by rewrite Hset.
Qed.

(** C19: the TCP driver is linked to its modem only after a complete handshake.
    [begin] returns [True] within [K + 1] turns of its loops when three seconds
    pass in [K] readings of the clock, whatever the modem sends and however the
    socket fails; the driver is then initialised, and if it is linked, the modem
    has accepted the token (if there is one), answered the ping and acknowledged
    the configuration that was written, in this order, with whole frames. *)
Theorem tcp_begin_handshake fuel K s :
  bytes_ok (input s) → ModemRadio._initialized (radio s) = false → clock_runs K → (K < fuel)%nat →
  ∃ s', Tcp.begin fuel s = (s', Ok (Some true))
    ∧ ModemRadio._initialized (radio s') = true ∧ ModemRadio.settings (radio s') = ModemRadio.settings (radio s)
    ∧ (ModemRadio.linked (radio s') = true → acknowledged_by (radio s) s s').
Proof.
  intros Hb Hinit HK Hfuel. unfold Tcp.begin. rewrite py_bind_run with (s' := s) (a := s) by done. rewrite Hinit.
  destruct (reopen_spec fuel s Hb) as (s1 & o & Ho & (b & Hrad & Hfalse) & Hack & Hend). rewrite (py_bind_run _ _ _ _ _ Ho).
  destruct o as [b'|]; [|by specialize (Hend K HK Hfuel)]. eexists. split; [reflexivity|]. cbn. rewrite Hrad. split_and!; [done|done|].
  intros Hl. cbn in Hl. subst b. destruct b'; [|by discriminate (Hfalse eq_refl)]. destruct (Hack eq_refl) as (w & b1 & b2 & b3 & H). by exists w, b1, b2, b3.
Qed.

End sync.

(** ** A connection *)

(** The modem answers at once; the clock stands for fifty readings, then it is
    late. *)
#[local] Instance near_modem : LinkIO := {|
  wall n := if (n <? 50)%nat then f_zero else S754_infinity false;
  ready _ := 1%nat;
  recv _ := Data 9;
  open_link _ := Ok tt;
  write_link _ := Ok tt;
  stop_requested _ _ := false
|}.

(** The answers to the ping and to the configuration, after some noise. *)
Definition answers : bytes :=
  [1; 2] ++ match build_frame CMD_PONG [], build_frame CMD_CONFIG_RESP [] with Ok a, Ok b => a ++ b | _, _ => [] end.

Definition fresh : t :=
  mkSync (ModemRadio.new_driver (ModemRadio.mkSettings 869618000 62500 8 8 22 0x12 16) (ModemRadio.mkEndpoint [] 5055 []) true (f_of_Z 4) 200) answers [] 0.

Example connects : let r := Tcp.begin 51 fresh in
  r.2 = Ok (Some true) ∧ ModemRadio.linked (radio r.1) = true ∧ input r.1 = [] ∧ len (out r.1) = 2.
Proof. vm_compute. by split_and!. Qed.

(** A modem that says nothing more: the driver starts without a link. *)
Example alone : let r := Tcp.begin 51 (with_input [] fresh) in r.2 = Ok (Some true) ∧ ModemRadio.linked (radio r.1) = false.
Proof. vm_compute. by split_and!. Qed.

Lemma tcp_begin_handshake_witness :
  ∃ s', Tcp.begin 51 fresh = (s', Ok (Some true))
    ∧ ModemRadio._initialized (radio s') = true ∧ ModemRadio.settings (radio s') = ModemRadio.settings (radio fresh)
    ∧ (ModemRadio.linked (radio s') = true → acknowledged_by (radio fresh) fresh s').
Proof.
  apply (tcp_begin_handshake 51 50 fresh).
  - vm_compute. repeat constructor; decide_now.
  - reflexivity.
  - intros i n Hn. unfold wall, near_modem. rewrite (proj2 (Nat.ltb_ge n 50)) by lia.
    destruct (i <? 50)%nat; vm_compute; reflexivity.
  - lia.
Defined.
