(* ===== verification/FrameServer.v ===== *)
(** * The companion frame server ([companion/frame_server])

    One TCP client talks to a companion in frames: [<] or [>], a two-byte
    length, a payload. [Server] holds the queue of outbound frames and what the
    server remembers of its client; [Frames] encodes contacts; the command
    modules parse a payload, call the companion and write the response; [Push]
    writes what the client did not ask for. [handle_cmd] dispatches.

    A command that sends over the radio calls the companion through the class
    [CompanionSends]: a call changes the companion and returns a result or
    raises. Tasks a command leaves behind (a login waiting for its answer) are
    entries of [background], and what such a task writes is a function of its
    result. The persistence hooks are the no-ops of the base class. *)

From stdpp Require Import gmap.
From S2P Require Import Prelude PyData Utf8 PyFloat ODict Constants PacketUtils Packet Crypto PacketFilter PacketBuilder Stores Contacts Telemetry NodeHandlers CompanionSession CompanionConfig FrameCodes.

Definition ascii_text (b : bytes) : res string :=
  if forallb (fun c => (0 <=? c) && (c <? 128)) b
  then Ok (String.string_of_list_ascii (map (fun c => ascii_of_nat (Z.to_nat c)) b)) else Err UnicodeError.

(** [max(-128, min(127, int(round(snr * 4))))] *)
Definition quarter_db (snr : float) : res Z :=
  z ← py_round (fmul snr (f_of_Z 4)); mret (Z.max (-128) (Z.min 127 z)).

(** ** Contact frames ([frames.py]) *)
Module Frames.
Import Models.

Definition _encode_contact_fields (contact : Contact) : res bytes :=
  let pubkey_b := ljust (slice_to (public_key contact) PUB_KEY_SIZE) PUB_KEY_SIZE in
  let op := ljust (slice_to (out_path contact) MAX_PATH_SIZE) MAX_PATH_SIZE in
  let nb := ljust (slice_to (encode_replace (name contact)) CONTACT_NAME_SIZE) CONTACT_NAME_SIZE in
  let opl_byte := if out_path_len contact <? 0 then OUT_PATH_UNKNOWN else Z.min (out_path_len contact) 255 in
  head ← bytes_of_ints [adv_type contact; flags contact; opl_byte];
  last_advert ← pack_I (last_advert_timestamp contact);
  lat ← microdegrees (gps_lat contact);
  lat ← pack_i lat;
  lon ← microdegrees (gps_lon contact);
  lon ← pack_i lon;
  modified ← pack_I (lastmod contact);
  mret (pubkey_b ++ head ++ op ++ nb ++ last_advert ++ lat ++ lon ++ modified).

(** The short frame, and the full one when the contact has a name. *)
Definition _build_advert_push_frames (contact : Contact) : res (bytes * option bytes) :=
  let pubkey_b := ljust (slice_to (public_key contact) PUB_KEY_SIZE) PUB_KEY_SIZE in
  let short := [PUSH_CODE_ADVERT] ++ pubkey_b in
  if bool_decide (name contact = []) then mret (short, None)
  else
    fields ← _encode_contact_fields contact;
    mret (short, Some ([PUSH_CODE_NEW_ADVERT] ++ fields)).

End Frames.

(** ** State and output *)
Module Server.

Inductive task : Type :=
| LoopbackAdvert (p : Packet.t)
| LoginResult (pubkey : bytes) (waiting : Session.task)
| StatusResult (pubkey : bytes) (waiting : Session.task)
| TelemetryResult (pubkey : bytes) (waiting : Session.task).

Record t := mk {
  bridge : Companion.t;
  _write_queue : option (list (option bytes));
  _app_target_ver : Z;
  _companion_discovery_tags : gset Z;
  _companion_binary_tags : gset Z;
  _control_handler : option ControlHandler.t;
  _build_date_bytes : bytes;
  _model_bytes : bytes;
  _version_bytes : bytes;
  background : list task
}.

Definition with_bridge (b : Companion.t) (s : t) : t :=
  mk b (_write_queue s) (_app_target_ver s) (_companion_discovery_tags s) (_companion_binary_tags s) (_control_handler s)
    (_build_date_bytes s) (_model_bytes s) (_version_bytes s) (background s).
Definition with_write_queue (q : option (list (option bytes))) (s : t) : t :=
  mk (bridge s) q (_app_target_ver s) (_companion_discovery_tags s) (_companion_binary_tags s) (_control_handler s)
    (_build_date_bytes s) (_model_bytes s) (_version_bytes s) (background s).
Definition with_app_target_ver (v : Z) (s : t) : t :=
  mk (bridge s) (_write_queue s) v (_companion_discovery_tags s) (_companion_binary_tags s) (_control_handler s)
    (_build_date_bytes s) (_model_bytes s) (_version_bytes s) (background s).
Definition with_discovery (tags : gset Z) (handler : option ControlHandler.t) (s : t) : t :=
  mk (bridge s) (_write_queue s) (_app_target_ver s) tags (_companion_binary_tags s) handler
    (_build_date_bytes s) (_model_bytes s) (_version_bytes s) (background s).
Definition with_binary_tags (tags : gset Z) (s : t) : t :=
  mk (bridge s) (_write_queue s) (_app_target_ver s) (_companion_discovery_tags s) tags (_control_handler s)
    (_build_date_bytes s) (_model_bytes s) (_version_bytes s) (background s).
Definition spawn (x : task) (s : t) : t :=
  mk (bridge s) (_write_queue s) (_app_target_ver s) (_companion_discovery_tags s) (_companion_binary_tags s)
    (_control_handler s) (_build_date_bytes s) (_model_bytes s) (_version_bytes s) (background s ++ [x]).

(** [(text + b"\x00")[:n].ljust(n, b"\x00")] *)
Definition info_field (n : Z) (b : bytes) : bytes := ljust (slice_to (b ++ [0]) n) n.

(** [__init__]; the texts are encoded by the caller. *)
Definition init (bridge : Companion.t) (build_date model version : bytes) (control_handler : option ControlHandler.t) : t :=
  mk bridge None 0 ∅ ∅ control_handler
    (info_field 12 build_date) (info_field 40 model) (info_field 20 version) [].

(** A call to the companion. *)
Definition on_bridge {A} (m : py Companion.t A) : py t A :=
  fun s => let '(b, r) := m (bridge s) in (with_bridge b s, r).
Definition on_bridge_ {A} (f : Companion.t → Companion.t * A) : py t A :=
  fun s => let '(b, a) := f (bridge s) in (with_bridge b s, Ok a).

Definition _WRITE_QUEUE_MAXSIZE : Z := 2048.

(** [bytes([FRAME_OUTBOUND_PREFIX]) + struct.pack("<H", len(data)) + data]; the
    length is at most [MAX_PAYLOAD_SIZE]. *)
Definition outbound (data : bytes) : bytes := [FRAME_OUTBOUND_PREFIX] ++ le_bytes 2 (len data) ++ data.

Definition _enqueue_frame (data : bytes) (s : t) : t :=
  match _write_queue s with
  | None => s
  | Some q =>
      if len data >? MAX_PAYLOAD_SIZE then s
      else if len q >=? _WRITE_QUEUE_MAXSIZE then s
      else with_write_queue (Some (q ++ [Some (outbound data)])) s
  end.

Definition _write_frame (data : bytes) : py t unit := modify (_enqueue_frame data).
Definition _write_ok : py t unit := _write_frame [RESP_CODE_OK].
Definition _write_err (err_code : Z) : py t unit := b ← lift (bytes_of_ints [RESP_CODE_ERR; err_code]); _write_frame b.

Definition _write_sent_response (flood : bool) (tag timeout : Z) : py t unit :=
  a ← lift (pack_I tag);
  b ← lift (pack_I timeout);
  _write_frame ([RESP_CODE_SENT; if flood then 1 else 0] ++ a ++ b).

Definition _write_sent_result (result : SentResult) (default_timeout_ms : Z) (own_binary_tag : bool) : py t unit :=
  let tag := default 0 (expected_ack result) in
  let timeout := default default_timeout_ms (timeout_ms result) in
  (match expected_ack result with
   | Some _ => if own_binary_tag then modify (fun s => with_binary_tags ({[tag]} ∪ _companion_binary_tags s) s) else mret tt
   | None => mret tt
   end);;
  _write_sent_response (is_flood result) tag timeout.

End Server.
Import Server.

Definition outcome (ok : bool) (err_code : Z) : py Server.t unit := if ok then _write_ok else _write_err err_code.

(** [data[i:i+4]] as an unsigned integer *)
Definition u32_at (data : bytes) (i : Z) : Z := from_le (slice data i (i + 4)).
Definition i32_at (data : bytes) (i : Z) : Z := from_le_signed (slice data i (i + 4)).

(** ** Channel commands ([commands_channels.py]) *)
Module ChannelCommands.

Definition _channel_info_frame (idx : Z) (ch : option Models.Channel) : res bytes :=
  let '(name, secret) :=
    match ch with
    | None => (zeros CHANNEL_NAME_SIZE, zeros 16)
    | Some ch =>
        (ljust (slice_to (encode_replace (Models.ch_name ch)) CHANNEL_NAME_SIZE) CHANNEL_NAME_SIZE,
         ljust (if bool_decide (Models.ch_secret ch = []) then zeros 16 else slice_to (Models.ch_secret ch) 16) 16)
    end in
  head ← bytes_of_ints [RESP_CODE_CHANNEL_INFO; idx];
  mret (head ++ name ++ secret).

Definition write_channel (idx : Z) : py Server.t unit :=
  s ← get;
  frame ← lift (_channel_info_frame idx (Companion.get_channel idx (bridge s)));
  _write_frame frame.

Fixpoint write_channels (idx : Z) (n : nat) : py Server.t unit :=
  match n with
  | O => mret tt
  | S n => write_channel idx;; write_channels (idx + 1) n
  end.

Definition _cmd_get_channel (data : bytes) : py Server.t unit :=
  s ← get;
  let max_channels_val := ChannelStore._max_channels (Companion.channels (bridge s)) in
  match data with
  | [] =>
      write_channels 0 (Z.to_nat max_channels_val);;
      if max_channels_val =? 0 then (frame ← lift (_channel_info_frame 0 None); _write_frame frame) else mret tt
  | channel_idx :: _ =>
      if (channel_idx <? 0) || (channel_idx >=? max_channels_val) then _write_err ERR_CODE_NOT_FOUND
      else write_channel channel_idx
  end.

(** The secret of a SET_CHANNEL payload: hexadecimal, 32 or 16 bytes. *)
Definition channel_secret_of (data : bytes) : option bytes :=
  if len data >=? 97 then
    match (t ← ascii_text (slice data 33 97); fromhex t) with Ok b => Some b | Err _ => None end
  else if len data >=? 65 then Some (slice data 33 65)
  else if len data >=? 49 then Some (slice data 33 49)
  else None.

Definition _cmd_set_channel (data : bytes) : py Server.t unit :=
  if len data <? 2 + CHANNEL_NAME_SIZE then _write_err ERR_CODE_ILLEGAL_ARG
  else
    channel_idx ← lift (index data 0);
    let name := strip (decode_replace (before_nul (slice data 1 (1 + CHANNEL_NAME_SIZE)))) in
    match channel_secret_of data with
    | None => _write_err ERR_CODE_ILLEGAL_ARG
    | Some secret =>
        ok ← on_bridge_ (Companion.set_channel channel_idx name secret);
        outcome ok ERR_CODE_NOT_FOUND
    end.

End ChannelCommands.

(** ** Contact commands ([commands_contacts.py]) *)
Module ContactCommands.
Import Frames.
Section commands.
Context `{CS : CompanionSends}.

Definition _write_contact_frame (c : Models.Contact) : py Server.t unit :=
  fields ← lift (_encode_contact_fields c);
  _write_frame ([RESP_CODE_CONTACT] ++ fields).

Fixpoint write_contacts (l : list Models.Contact) : py Server.t unit :=
  match l with
  | [] => mret tt
  | c :: l' => _write_contact_frame c;; write_contacts l'
  end.

Definition most_recent (l : list Models.Contact) : Z :=
  match map Models.lastmod l with [] => 0 | x :: l' => fold_left Z.max l' x end.

Definition _cmd_get_contacts (data : bytes) : py Server.t unit :=
  let since := if len data >=? 4 then from_le (slice_to data 4) else 0 in
  s ← get;
  let contacts := Companion.get_contacts since (bridge s) in
  total ← lift (pack_I (Companion.get_contact_count (bridge s)));
  _write_frame ([RESP_CODE_CONTACTS_START] ++ total);;
  write_contacts contacts;;
  recent ← lift (pack_I (most_recent contacts));
  _write_frame ([RESP_CODE_END_OF_CONTACTS] ++ recent).

Definition _cmd_get_contact_by_key (data : bytes) : py Server.t unit :=
  if len data <? PUB_KEY_SIZE then _write_err ERR_CODE_ILLEGAL_ARG
  else
    s ← get;
    match Companion.get_contact_by_key (slice_to data PUB_KEY_SIZE) (bridge s) with
    | None => _write_err ERR_CODE_NOT_FOUND
    | Some contact => _write_contact_frame contact
    end.

(** The contact an ADD_UPDATE_CONTACT payload describes; [now] is
    [int(time.time())]. *)
Definition contact_of_frame (now : Z) (data : bytes) : res Models.Contact :=
  let pubkey := slice data 0 PUB_KEY_SIZE in
  adv_type ← index data 32;
  flags ← index data 33;
  opl ← index data 34;
  let out_path_len := if opl =? OUT_PATH_UNKNOWN then -1 else opl in
  let out_path_end := 35 + MAX_PATH_SIZE in
  let path_field := slice data 35 (Z.min (len data) out_path_end) in
  let path_byte_len := if out_path_len >=? 0 then PathUtils.get_path_byte_len out_path_len else 0 in
  let out_path := slice_to path_field path_byte_len in
  let name_start := 35 + MAX_PATH_SIZE in
  let name_end := name_start + CONTACT_NAME_SIZE in
  let name_raw := if len data >=? name_end then slice data name_start name_end
                  else if len data >? name_start then ljust (slice data name_start (len data)) CONTACT_NAME_SIZE
                  else zeros CONTACT_NAME_SIZE in
  let name := decode_replace (before_nul name_raw) in
  let last_advert := if len data >=? name_end + 4 then u32_at data name_end else 0 in
  let located := len data >=? name_end + 4 + 8 in
  let gps_lat := if located then degrees (i32_at data (name_end + 4)) else f_zero in
  let gps_lon := if located then degrees (i32_at data (name_end + 8)) else f_zero in
  let lastmod := if len data >=? name_end + 4 + 12 then u32_at data (name_end + 12) else now in
  mret (Models.mkContact pubkey name adv_type flags out_path_len out_path last_advert lastmod gps_lat gps_lon 0 None).

(** [now] is [time.time()]. *)
Definition _cmd_add_update_contact (now : float) (data : bytes) : py Server.t unit :=
  if len data <? 36 then _write_err ERR_CODE_ILLEGAL_ARG
  else
    t ← lift (int_of_float now);
    contact ← lift (contact_of_frame t data);
    ok ← on_bridge_ (Companion.add_update_contact t contact);
    outcome ok ERR_CODE_TABLE_FULL.

Definition _cmd_remove_contact (data : bytes) : py Server.t unit :=
  if len data <? 32 then _write_err ERR_CODE_ILLEGAL_ARG
  else
    ok ← on_bridge_ (Companion.remove_contact (slice_to data 32));
    outcome ok ERR_CODE_NOT_FOUND.

Definition _cmd_reset_path (data : bytes) : py Server.t unit :=
  if len data <? 32 then _write_err ERR_CODE_ILLEGAL_ARG
  else
    ok ← on_bridge_ (Companion.reset_path (slice_to data 32));
    outcome ok ERR_CODE_NOT_FOUND.

Definition _cmd_get_advert_path (data : bytes) : py Server.t unit :=
  if len data <? 1 + PUB_KEY_SIZE then _write_err ERR_CODE_ILLEGAL_ARG
  else
    let prefix := slice_to (slice data 1 (1 + PUB_KEY_SIZE)) 7 in
    s ← get;
    match Companion.get_advert_path prefix (bridge s) with
    | None => _write_err ERR_CODE_NOT_FOUND
    | Some found =>
        let path_byte_len := PathUtils.get_path_byte_len (Models.ap_path_len found) in
        recv_ts ← lift (pack_I (Models.recv_timestamp found));
        l ← lift (bytes_of_ints [Models.ap_path_len found]);
        _write_frame ([RESP_CODE_ADVERT_PATH] ++ recv_ts ++ l ++ slice_to (Models.ap_path found) path_byte_len)
    end.

Definition _cmd_import_contact (data : bytes) : py Server.t unit :=
  match Companion.import_contact data with
  | Some packet => modify (spawn (LoopbackAdvert packet));; _write_ok
  | None => _write_err ERR_CODE_ILLEGAL_ARG
  end.

Definition _cmd_share_contact (data : bytes) : py Server.t unit :=
  if len data <? PUB_KEY_SIZE then _write_err ERR_CODE_ILLEGAL_ARG
  else
    let pubkey := slice_to data PUB_KEY_SIZE in
    s ← get;
    match Companion.get_contact_by_key pubkey (bridge s) with
    | None => _write_err ERR_CODE_NOT_FOUND
    | Some _ => ok ← on_bridge (share_contact pubkey); outcome ok ERR_CODE_TABLE_FULL
    end.

Definition _cmd_export_contact (now : float) (data : bytes) : py Server.t unit :=
  let pubkey := if len data >=? PUB_KEY_SIZE then Some (slice_to data PUB_KEY_SIZE) else None in
  t ← lift (int_of_float now);
  s ← get;
  raw ← lift (Companion.export_contact t pubkey (bridge s));
  match raw with
  | None => _write_err ERR_CODE_NOT_FOUND
  | Some raw => _write_frame ([RESP_CODE_EXPORT_CONTACT] ++ raw)
  end.

End commands.
End ContactCommands.

(** ** Messaging commands ([commands_messaging.py]) *)
Module MessagingCommands.
Section commands.
Context `{CS : CompanionSends}.

Definition _encode_lpp_voltage (channel millivolts : Z) : res bytes :=
  v ← fdiv (f_of_Z millivolts) (f_of_Z 1000); CayenneLPP.encode_voltage channel v.

Definition _write_request_start_error (error : option string) : py Server.t unit :=
  _write_err (match error with
              | Some e => if String.eqb e "not_found" then ERR_CODE_NOT_FOUND
                          else if String.eqb e "send_failed" then ERR_CODE_TABLE_FULL else ERR_CODE_BAD_STATE
              | None => ERR_CODE_BAD_STATE
              end).

Definition not_found (result : SentResult) : bool :=
  match error result with Some e => String.eqb e "not_found" | None => false end.

(** An exception of a call is answered with an error frame. *)
Definition guarded {A} (m : py Server.t A) (k : A → py Server.t unit) : py Server.t unit :=
  fun s => match m s with
           | (s, Ok a) => k a s
           | (s, Err _) => _write_err ERR_CODE_ILLEGAL_ARG s
           end.

Definition _cmd_send_txt_msg (data : bytes) : py Server.t unit :=
  if len data <? 13 then _write_err ERR_CODE_UNSUPPORTED_CMD
  else
    txt_type ← lift (index data 0);
    attempt ← lift (index data 1);
    let host_timestamp := u32_at data 2 in
    let is_cli := (txt_type =? TXT_TYPE_CLI_DATA) || (txt_type =? TXT_TYPE_CLI_COMMAND) in
    let use_timestamp := if is_cli || (host_timestamp =? 0) then None else Some host_timestamp in
    let pubkey_prefix := slice data 6 12 in
    let text := rstrip_nul (decode_replace (slice_from data 12)) in
    s ← get;
    match ContactStore.get_by_key_prefix pubkey_prefix (Companion.contacts (bridge s)) with
    | None => _write_err ERR_CODE_NOT_FOUND
    | Some contact =>
        if negb ((txt_type =? TXT_TYPE_PLAIN) || (txt_type =? TXT_TYPE_CLI_DATA) || (txt_type =? TXT_TYPE_CLI_COMMAND))
        then _write_err ERR_CODE_UNSUPPORTED_CMD
        else
          result ← on_bridge (send_text_message (Models.public_key contact) text txt_type attempt use_timestamp);
          if success result then _write_sent_result result TXT_MSG_TIMEOUT_HINT_MS false
          else _write_err ERR_CODE_TABLE_FULL
    end.

Definition _cmd_send_channel_txt_msg (data : bytes) : py Server.t unit :=
  if len data <? 6 then _write_err ERR_CODE_ILLEGAL_ARG
  else
    txt_type ← lift (index data 0);
    channel_idx ← lift (index data 1);
    let msg_timestamp := u32_at data 2 in
    let text := rstrip_nul (decode_replace (slice_from data 6)) in
    if negb (txt_type =? 0) then _write_err ERR_CODE_UNSUPPORTED_CMD
    else
      s ← get;
      match Companion.get_channel channel_idx (bridge s) with
      | None => _write_err ERR_CODE_NOT_FOUND
      | Some _ => ok ← on_bridge (send_channel_message channel_idx text msg_timestamp); outcome ok ERR_CODE_NOT_FOUND
      end.

(** The path of a SEND_CHANNEL_DATA payload and where it ends: [None] when it
    is invalid. *)
Definition channel_data_path (data : bytes) (path_len : Z) : option (bytes * Z) :=
  if path_len =? OUT_PATH_UNKNOWN then Some ([], 2)
  else if negb (PathUtils.is_valid_path_len path_len) then None
  else
    let path_byte_len := PathUtils.get_path_byte_len path_len in
    if len data <? 2 + path_byte_len + 2 then None
    else Some (slice data 2 (2 + path_byte_len), 2 + path_byte_len).

Definition _cmd_send_channel_data (data : bytes) : py Server.t unit :=
  if len data <? 4 then _write_err ERR_CODE_ILLEGAL_ARG
  else
    channel_idx ← lift (index data 0);
    path_len ← lift (index data 1);
    s ← get;
    match Companion.get_channel channel_idx (bridge s) with
    | None => _write_err ERR_CODE_NOT_FOUND
    | Some _ =>
        match channel_data_path data path_len with
        | None => _write_err ERR_CODE_ILLEGAL_ARG
        | Some (path, offset) =>
            if len data <? offset + 2 then _write_err ERR_CODE_ILLEGAL_ARG
            else
              let data_type := from_le (slice data offset (offset + 2)) in
              let payload := slice_from data (offset + 2) in
              if (data_type =? 0) || (len payload >? MAX_PACKET_PAYLOAD - CIPHER_BLOCK_SIZE - 3)
              then _write_err ERR_CODE_ILLEGAL_ARG
              else
                ok ← on_bridge (send_channel_data channel_idx data_type payload
                                  (if path_len =? OUT_PATH_UNKNOWN then None else Some path) path_len);
                outcome ok ERR_CODE_TABLE_FULL
        end
    end.

Definition _cmd_send_binary_req (data : bytes) : py Server.t unit :=
  if len data <? PUB_KEY_SIZE + 1 then _write_err ERR_CODE_ILLEGAL_ARG
  else
    guarded (on_bridge (send_binary_req (slice_to data PUB_KEY_SIZE) (slice_from data PUB_KEY_SIZE))) (fun result =>
      if negb (success result) then _write_err (if not_found result then ERR_CODE_NOT_FOUND else ERR_CODE_TABLE_FULL)
      else _write_sent_result result BINARY_REQ_TIMEOUT_HINT_MS true).

Definition _cmd_send_anon_req (data : bytes) : py Server.t unit :=
  if len data <? PUB_KEY_SIZE + 1 then _write_err ERR_CODE_ILLEGAL_ARG
  else
    guarded (on_bridge (send_anon_req (slice_to data PUB_KEY_SIZE) (slice_from data PUB_KEY_SIZE))) (fun result =>
      if negb (success result) then _write_err ERR_CODE_TABLE_FULL
      else _write_sent_result result BINARY_REQ_TIMEOUT_HINT_MS true).

(** The callback that ignores its data. *)
Definition noop_callback : nat := 0%nat.

Definition _cmd_send_control_data (data : bytes) : py Server.t unit :=
  match data with
  | [] => _write_err ERR_CODE_UNSUPPORTED_CMD
  | b :: _ =>
      if Z.land b 0x80 =? 0 then _write_err ERR_CODE_UNSUPPORTED_CMD
      else
        s ← get;
        (match _control_handler s with
         | Some h =>
             if (len data >=? 6) && (Z.land b 0xF0 =? 0x80) then
               let tag := u32_at data 2 in
               modify (with_discovery ({[tag]} ∪ _companion_discovery_tags s)
                         (Some (ControlHandler.set_response_callback tag noop_callback h)))
             else mret tt
         | None => mret tt
         end);;
        guarded (on_bridge (send_control_data data)) (fun ok => outcome ok ERR_CODE_TABLE_FULL)
  end.

Definition _cmd_send_path_discovery_req (data : bytes) : py Server.t unit :=
  if len data <? 1 + PUB_KEY_SIZE then _write_err ERR_CODE_ILLEGAL_ARG
  else
    guarded (on_bridge (send_path_discovery_req (slice data 1 (1 + PUB_KEY_SIZE)))) (fun result =>
      if negb (success result) then _write_err (if not_found result then ERR_CODE_NOT_FOUND else ERR_CODE_TABLE_FULL)
      else _write_sent_result result BINARY_REQ_TIMEOUT_HINT_MS false).

(** A missing timeout cannot be packed. *)
Definition _cmd_send_trace_path (data : bytes) : py Server.t unit :=
  if len data <? 10 then _write_err ERR_CODE_ILLEGAL_ARG
  else
    let tag := u32_at data 0 in
    let auth_code := u32_at data 4 in
    flags ← lift (index data 8);
    let path_bytes := slice_from data 9 in
    let hash_width := PathUtils.trace_payload_hash_width flags in
    if (len path_bytes / hash_width >? MAX_PATH_SIZE) || negb (len path_bytes mod hash_width =? 0)
    then _write_err ERR_CODE_ILLEGAL_ARG
    else
      guarded (on_bridge (send_trace_path_raw tag auth_code flags path_bytes)) (fun result =>
        if negb (success result) then _write_err ERR_CODE_TABLE_FULL
        else match timeout_ms result with
             | Some t => _write_sent_response (is_flood result) tag t
             | None => raise StructError
             end).

(** The path byte of a message frame. *)
Definition path_len_byte (m : Models.QueuedMessage) : Z := if Models.path_len m <? 256 then Models.path_len m else 0xFF.

Definition _build_message_frame (msg : Models.QueuedMessage) (app_target_ver : Z) : res bytes :=
  snr ← quarter_db (Models.snr msg);
  let snr_byte := if snr <? 0 then snr + 256 else snr in
  if Models.is_channel msg then
    if negb (Models.channel_data_type msg =? 0) then
      let payload := slice_to (Models.channel_data_payload msg) MAX_CHANNEL_DATA_LENGTH in
      head ← bytes_of_ints [RESP_CODE_CHANNEL_DATA_RECV; Z.land snr_byte 0xFF; 0; 0; Models.channel_idx msg; path_len_byte msg];
      ty ← pack_H (Z.land (Models.channel_data_type msg) 0xFFFF);
      mret (head ++ ty ++ [len payload] ++ payload)
    else
      let text_bytes := encode_replace (rstrip_nul (Models.text msg)) in
      head ← (if app_target_ver >=? 3
              then bytes_of_ints [RESP_CODE_CHANNEL_MSG_RECV_V3; Z.land snr_byte 0xFF; 0; 0; Models.channel_idx msg;
                                  path_len_byte msg; 0]
              else bytes_of_ints [RESP_CODE_CHANNEL_MSG_RECV; Models.channel_idx msg; path_len_byte msg; 0]);
      ts ← pack_I (Models.timestamp msg);
      mret (head ++ ts ++ text_bytes)
  else
    let key := Models.sender_key msg in
    let prefix := if len key >=? 6 then slice_to key 6 else ljust key 6 in
    let text_bytes := encode_replace (Models.text msg) in
    let extra := if Models.txt_type msg =? TXT_TYPE_SIGNED_PLAIN then ljust (slice_to (Models.sender_prefix msg) 4) 4 else [] in
    route ← bytes_of_ints [path_len_byte msg; Models.txt_type msg];
    ts ← pack_I (Models.timestamp msg);
    let head := if app_target_ver >=? 3 then [RESP_CODE_CONTACT_MSG_RECV_V3; Z.land snr_byte 0xFF; 0; 0]
                else [RESP_CODE_CONTACT_MSG_RECV] in
    mret (head ++ prefix ++ route ++ ts ++ extra ++ text_bytes).

Definition _cmd_sync_next_message (data : bytes) : py Server.t unit :=
  msg ← on_bridge_ Companion.sync_next_message;
  match msg with
  | None => _write_frame [RESP_CODE_NO_MORE_MESSAGES]
  | Some msg =>
      s ← get;
      frame ← lift (_build_message_frame msg (_app_target_ver s));
      _write_frame frame
  end.

Definition _cmd_send_login (data : bytes) : py Server.t unit :=
  if len data <? PUB_KEY_SIZE then _write_err ERR_CODE_ILLEGAL_ARG
  else
    let pubkey := slice_to data PUB_KEY_SIZE in
    let password := rstrip_nul (decode_replace (slice_from data PUB_KEY_SIZE)) in
    r ← on_bridge (start_frame_login_request pubkey password);
    match r with
    | NotStarted e => _write_request_start_error e
    | Started sent waiting session_owner =>
        _write_sent_result sent LOGIN_TIMEOUT_HINT_MS false;;
        if (session_owner : bool) then modify (spawn (LoginResult pubkey waiting)) else mret tt
    end.

(** What a login ends with. *)
Inductive login_outcome : Type :=
| LoginTimeout
| LoginSuccess (admin_code : option Z) (is_admin : bool) (tag acl_permissions : Z) (firmware_ver_level : option Z)
| LoginFailure.

Definition clamp_byte (z : Z) : Z := Z.min 255 (Z.max 0 z).

(** [_write_login_result] *)
Definition write_login_result (pubkey : bytes) (result : login_outcome) : py Server.t unit :=
  match result with
  | LoginTimeout => mret tt
  | LoginSuccess admin_code is_admin tag acl_permissions firmware_ver_level =>
      let admin := default (if is_admin then 1 else 0) admin_code in
      t ← lift (pack_I tag);
      acl ← lift (bytes_of_ints [acl_permissions]);
      _write_frame ([PUSH_CODE_LOGIN_SUCCESS; clamp_byte admin] ++ slice_to pubkey 6 ++ t ++ acl
                      ++ [clamp_byte (default FIRMWARE_VER_CODE firmware_ver_level)])
  | LoginFailure => _write_frame ([PUSH_CODE_LOGIN_FAIL; 0] ++ slice_to pubkey 6)
  end.

(** [_write_status_result] and [_write_telemetry_result]: the raw bytes of a
    successful response. *)
Definition write_raw_result (code : Z) (pubkey : bytes) (raw : option bytes) : py Server.t unit :=
  match raw with
  | Some ((_ :: _) as raw_bytes) => _write_frame ([code; 0] ++ slice_to pubkey 6 ++ raw_bytes)
  | _ => mret tt
  end.

Definition _cmd_send_status_req (data : bytes) : py Server.t unit :=
  if len data <? PUB_KEY_SIZE then _write_err ERR_CODE_ILLEGAL_ARG
  else
    let pubkey := slice data 0 PUB_KEY_SIZE in
    r ← on_bridge (start_status_request pubkey);
    match r with
    | NotStarted e => _write_request_start_error e
    | Started sent waiting _ => _write_sent_result sent STATUS_TIMEOUT_HINT_MS false;; modify (spawn (StatusResult pubkey waiting))
    end.

(** [_get_batt_and_storage] gives zeros and [_get_self_telemetry_lpp] nothing. *)
Definition _push_self_telemetry : py Server.t unit :=
  lpp ← lift (_encode_lpp_voltage CayenneLPP.TELEM_CHANNEL_SELF 0);
  s ← get;
  _write_frame ([PUSH_CODE_TELEMETRY_RESPONSE; 0] ++ slice_to (Companion.get_public_key (bridge s)) 6 ++ lpp).

Definition _cmd_send_telemetry_req (data : bytes) : py Server.t unit :=
  if len data =? 3 then _push_self_telemetry
  else if len data <? 3 + PUB_KEY_SIZE then _write_err ERR_CODE_UNSUPPORTED_CMD
  else
    let pubkey := slice data 3 (3 + PUB_KEY_SIZE) in
    r ← on_bridge (start_telemetry_request pubkey);
    match r with
    | NotStarted e => _write_request_start_error e
    | Started sent waiting _ =>
        _write_sent_result sent TELEMETRY_TIMEOUT_HINT_MS false;; modify (spawn (TelemetryResult pubkey waiting))
    end.

Definition _cmd_has_connection (data : bytes) : py Server.t unit :=
  if len data <? PUB_KEY_SIZE then _write_err ERR_CODE_UNSUPPORTED_CMD
  else
    connected ← on_bridge (has_login_connection (slice_to data PUB_KEY_SIZE));
    if (connected : bool) then _write_ok else _write_err ERR_CODE_NOT_FOUND.

Definition _cmd_logout (data : bytes) : py Server.t unit :=
  if len data <? PUB_KEY_SIZE then _write_err ERR_CODE_ILLEGAL_ARG
  else
    let pubkey := slice_to data PUB_KEY_SIZE in
    modify (fun s => with_bridge (clear_login_connection pubkey (bridge s)) s);;
    on_bridge (send_logout pubkey);;
    _write_ok.

Definition _cmd_send_raw_data (data : bytes) : py Server.t unit :=
  if len data <? 5 then _write_err ERR_CODE_UNSUPPORTED_CMD
  else
    path_len ← lift (index data 0);
    if negb (PathUtils.is_valid_path_len path_len) then _write_err ERR_CODE_UNSUPPORTED_CMD
    else
      let path_byte_len := PathUtils.get_path_byte_len path_len in
      if 1 + path_byte_len + 4 >? len data then _write_err ERR_CODE_ILLEGAL_ARG
      else
        result ← on_bridge (send_raw_data_direct (slice data 1 (1 + path_byte_len)) (slice_from data (1 + path_byte_len)) path_len);
        outcome (success result) ERR_CODE_TABLE_FULL.

Definition _cmd_send_raw_packet (data : bytes) : py Server.t unit :=
  if len data <? 3 then _write_err ERR_CODE_ILLEGAL_ARG
  else
    priority ← lift (index data 0);
    guarded (on_bridge (send_raw_packet priority (slice_from data 1))) (fun result =>
      if success result then _write_ok
      else if match error result with Some e => String.eqb e "illegal_arg" | None => false end
      then _write_err ERR_CODE_ILLEGAL_ARG
      else _write_err ERR_CODE_TABLE_FULL).

End commands.
End MessagingCommands.

(** ** Device commands ([commands_device.py]) *)
Module DeviceCommands.
Import Prefs.

(** A number of a statistics dictionary. *)
Inductive num : Type := NInt (z : Z) | NFloat (x : float).

Definition num_int (v : num) : res Z := match v with NInt z => Ok z | NFloat x => int_of_float x end.

Section commands.
(** [stats_getter], if set; [hashlib.sha512] and the signing key of the
    identity. *)
Context `{CS : CompanionSends} (stats_getter : option (Z → res (list (string * num)))) (sha512 : bytes → bytes)
  (signing_key : bytes).

Definition _max_tx_power_byte (s : Server.t) : Z :=
  Z.land (Z.max (-9) (Z.min 127 (Companion.get_max_tx_power_dbm (bridge s)))) 0xFF.

Definition telemetry_byte (p : NodePrefs) : Z :=
  Z.lor (Z.lor (Z.land (telemetry_mode_base p) 0x03) (Z.shiftl (Z.land (telemetry_mode_location p) 0x03) 2))
    (Z.shiftl (Z.land (telemetry_mode_environment p) 0x03) 4).

Definition _cmd_app_start (data : bytes) : py Server.t unit :=
  if len data <? 7 then _write_err ERR_CODE_ILLEGAL_ARG
  else
    s ← get;
    let prefs := Companion.get_self_info (bridge s) in
    let name := encode_replace (node_name prefs) in
    lat ← lift (microdegrees (latitude prefs));
    lon ← lift (microdegrees (longitude prefs));
    lat ← lift (pack_i lat);
    lon ← lift (pack_i lon);
    policy ← lift (bytes_of_ints [multi_acks prefs; advert_loc_policy prefs]);
    manual ← lift (bytes_of_ints [manual_add_contacts prefs]);
    freq ← lift (pack_I (frequency_hz prefs / 1000));
    bw ← lift (pack_I (bandwidth_hz prefs));
    radio ← lift (bytes_of_ints [spreading_factor prefs; coding_rate prefs]);
    _write_frame ([RESP_CODE_SELF_INFO; ADV_TYPE_CHAT; Z.land (tx_power_dbm prefs) 0xFF; _max_tx_power_byte s]
                    ++ Companion.get_public_key (bridge s) ++ lat ++ lon ++ policy ++ [telemetry_byte prefs]
                    ++ manual ++ freq ++ bw ++ radio ++ name).

Definition _cmd_device_query (data : bytes) : py Server.t unit :=
  (match data with v :: _ => modify (with_app_target_ver v) | [] => mret tt end);;
  s ← get;
  let prefs := Companion.get_self_info (bridge s) in
  head ← lift (bytes_of_ints [RESP_CODE_DEVICE_INFO; FIRMWARE_VER_CODE;
                              Z.min (ContactStore._max_contacts (Companion.contacts (bridge s)) / 2) 255;
                              Z.min (ChannelStore._max_channels (Companion.channels (bridge s))) 255]);
  _write_frame (head ++ le_bytes 4 0 ++ _build_date_bytes s ++ _model_bytes s ++ _version_bytes s
                  ++ [Z.land (client_repeat prefs) 0xFF; Z.land (path_hash_mode prefs) 0xFF]).

Definition _cmd_send_self_advert (data : bytes) : py Server.t unit :=
  let flood := match data with b :: _ => b =? 1 | [] => false end in
  ok ← on_bridge (advertise flood);
  outcome ok ERR_CODE_TABLE_FULL.

Definition _cmd_set_advert_name (data : bytes) : py Server.t unit :=
  if len data <? 1 then _write_err ERR_CODE_UNSUPPORTED_CMD
  else
    on_bridge (Companion.set_advert_name (rstrip_nul (decode_replace data)));;
    _write_ok.

Definition _cmd_set_advert_latlon (data : bytes) : py Server.t unit :=
  if len data <? 8 then _write_err ERR_CODE_ILLEGAL_ARG
  else
    on_bridge (Companion.set_advert_latlon (degrees (i32_at data 0)) (degrees (i32_at data 4)));;
    _write_ok.

Definition _cmd_get_batt_and_storage (data : bytes) : py Server.t unit :=
  a ← lift (pack_H 0);
  b ← lift (pack_I 0);
  _write_frame ([RESP_CODE_BATT_AND_STORAGE] ++ a ++ b ++ b).

(** The dictionaries [Companion.get_stats] returns. *)
Definition stats_dict (d : Companion.stats_data) : list (string * num) :=
  match d with
  | Companion.CoreStats uptime queue contacts channels =>
      [("uptime_secs", NInt uptime); ("queue_len", NInt queue); ("contacts_count", NInt contacts);
       ("channels_count", NInt channels)]
  | Companion.RadioStats f b sf cr p =>
      [("frequency_hz", NInt f); ("bandwidth_hz", NInt b); ("spreading_factor", NInt sf); ("coding_rate", NInt cr);
       ("tx_power_dbm", NInt p)]
  | Companion.PacketTotals (p, tx, rx, uptime) =>
      [("flood_tx", NInt (Models.flood_tx p)); ("flood_rx", NInt (Models.flood_rx p));
       ("direct_tx", NInt (Models.direct_tx p)); ("direct_rx", NInt (Models.direct_rx p));
       ("tx_errors", NInt (Models.tx_errors p)); ("total_tx", NInt tx); ("total_rx", NInt rx);
       ("uptime_secs", NInt uptime)]
  end.

(** [int(stats.get(key, 0))] *)
Definition stat (key : string) (d : list (string * num)) : res Z := num_int (default (NInt 0) (dget key d)).

(** [int(round((stats.get("last_snr") or 0) * 4))] *)
Definition last_snr_scaled (d : list (string * num)) : res Z :=
  match dget "last_snr"%string d with
  | Some (NFloat x) => if f_truthy x then py_round (fmul x (f_of_Z 4)) else Ok 0
  | Some (NInt z) => Ok (z * 4)
  | None => Ok 0
  end.

Fixpoint pack_stats (keys : list string) (d : list (string * num)) : res bytes :=
  match keys with
  | [] => mret []
  | k :: keys' => v ← stat k d; a ← pack_I v; b ← pack_stats keys' d; mret (a ++ b)
  end.

(** The fields of a statistics frame. *)
Definition stats_fields (stats_type : Z) (d : list (string * num)) : res bytes :=
  if stats_type =? STATS_TYPE_CORE then
    battery_mv ← stat "battery_mv" d;
    uptime_secs ← stat "uptime_secs" d;
    errors ← stat "errors" d;
    queue_len ← stat "queue_len" d;
    a ← pack_H battery_mv; b ← pack_I uptime_secs; c ← pack_H errors; e ← pack_B (MessagingCommands.clamp_byte queue_len);
    mret (a ++ b ++ c ++ e)
  else if stats_type =? STATS_TYPE_RADIO then
    noise_floor ← stat "noise_floor" d;
    last_rssi ← stat "last_rssi" d;
    snr ← last_snr_scaled d;
    tx_air_secs ← stat "tx_air_secs" d;
    rx_air_secs ← stat "rx_air_secs" d;
    a ← pack_int 2 noise_floor;
    b ← pack_int 1 (Z.max (-128) (Z.min 127 last_rssi));
    c ← pack_int 1 (Z.max (-128) (Z.min 127 snr));
    e ← pack_I tx_air_secs; f ← pack_I rx_air_secs;
    mret (a ++ b ++ c ++ e ++ f)
  else pack_stats ["recv"; "sent"; "flood_tx"; "direct_tx"; "flood_rx"; "direct_rx"; "recv_errors"] d.

Definition _cmd_get_stats (now : float) (data : bytes) : py Server.t unit :=
  match data with
  | [] => _write_err ERR_CODE_UNSUPPORTED_CMD
  | stats_type :: _ =>
      if negb ((stats_type =? STATS_TYPE_CORE) || (stats_type =? STATS_TYPE_RADIO) || (stats_type =? STATS_TYPE_PACKETS))
      then _write_err ERR_CODE_ILLEGAL_ARG
      else
        given ← lift (match stats_getter with Some f => f stats_type | None => mret [] end);
        s ← get;
        d ← lift (match given with
                  | [] => x ← Companion.get_stats now stats_type (bridge s); mret (stats_dict x)
                  | _ => mret given
                  end);
        fields ← lift (stats_fields stats_type d);
        _write_frame ([RESP_CODE_STATS; stats_type] ++ fields)
  end.

Definition _cmd_set_flood_scope (data : bytes) : py Server.t unit :=
  match data with
  | [] => _write_err ERR_CODE_UNSUPPORTED_CMD
  | mode :: _ =>
      if mode =? 1 then modify (fun s => with_bridge (Companion.set_flood_unscoped (bridge s)) s);; _write_ok
      else if mode =? 0 then
        let key := if len data >=? 17 then Some (slice data 1 17) else None in
        modify (fun s => with_bridge (Companion.set_flood_scope key (bridge s)) s);;
        _write_ok
      else _write_err ERR_CODE_UNSUPPORTED_CMD
  end.

Definition _cmd_set_default_flood_scope (data : bytes) : py Server.t unit :=
  if len data <? 31 + 16 then on_bridge (Companion.set_default_flood_scope None None);; _write_ok
  else
    let key := slice data 31 (31 + 16) in
    let scope_name := strip (decode_replace (before_nul (slice_to data 31))) in
    if bool_decide (scope_name = []) || (len scope_name >=? 31) then _write_err ERR_CODE_ILLEGAL_ARG
    else
      ok ← on_bridge (Companion.set_default_flood_scope (Some scope_name) (Some key));
      outcome ok ERR_CODE_ILLEGAL_ARG.

Definition _cmd_get_default_flood_scope (data : bytes) : py Server.t unit :=
  s ← get;
  match Companion.get_default_flood_scope (bridge s) with
  | None => _write_frame [RESP_CODE_DEFAULT_FLOOD_SCOPE]
  | Some (name, key) =>
      _write_frame ([RESP_CODE_DEFAULT_FLOOD_SCOPE] ++ ljust (slice_to (encode_replace name) 30) 31
                      ++ ljust (slice_to key 16) 16)
  end.

Definition _cmd_get_device_time (now : float) (data : bytes) : py Server.t unit :=
  s ← get;
  t ← lift (Companion.get_time now (bridge s));
  b ← lift (pack_I t);
  _write_frame ([RESP_CODE_CURR_TIME] ++ b).

Definition _cmd_set_device_time (now now' : float) (data : bytes) : py Server.t unit :=
  if len data <? 4 then _write_err ERR_CODE_ILLEGAL_ARG
  else
    ok ← on_bridge (Companion.set_time now now' (from_le (slice_to data 4)));
    outcome ok ERR_CODE_ILLEGAL_ARG.

Definition _repeat_freq_allowed (freq_khz : Z) (s : Server.t) : bool :=
  existsb (fun r => (r.1 <=? freq_khz) && (freq_khz <=? r.2)) (Companion.get_allowed_repeat_freqs (bridge s)).

Definition between (lo x hi : Z) : bool := (lo <=? x) && (x <=? hi).

(** The companion supports the mutations it is asked about. *)
Definition _cmd_set_radio_params (data : bytes) : py Server.t unit :=
  if len data <? 10 then _write_err ERR_CODE_ILLEGAL_ARG
  else
    let freq_khz := u32_at data 0 in
    let bw := u32_at data 4 in
    sf ← lift (index data 8);
    cr ← lift (index data 9);
    repeat ← lift (if len data >? 10 then index data 10 else mret 0);
    s ← get;
    if negb (between 150000 freq_khz 2500000) then _write_err ERR_CODE_ILLEGAL_ARG
    else if negb (between 7000 bw 500000) then _write_err ERR_CODE_ILLEGAL_ARG
    else if negb (between 5 sf 12) || negb (between 5 cr 8) then _write_err ERR_CODE_ILLEGAL_ARG
    else if negb (repeat =? 0) && negb (_repeat_freq_allowed freq_khz s) then _write_err ERR_CODE_ILLEGAL_ARG
    else if negb Companion.supports_radio_params_mutation then _write_ok
    else
      ok ← on_bridge (Companion.set_radio_params (freq_khz * 1000) bw sf cr);
      if negb ok then _write_err ERR_CODE_BAD_STATE
      else
        (if Companion.supports_client_repeat then on_bridge (Companion.set_client_repeat repeat) else mret tt);;
        _write_ok.

Definition _cmd_set_tx_power (data : bytes) : py Server.t unit :=
  if len data <? 1 then _write_err ERR_CODE_ILLEGAL_ARG
  else
    let power := from_le_signed (slice data 0 1) in
    s ← get;
    if (power <? -9) || (power >? Companion.get_max_tx_power_dbm (bridge s)) then _write_err ERR_CODE_ILLEGAL_ARG
    else if negb Companion.supports_tx_power_mutation then _write_ok
    else
      ok ← on_bridge (Companion.set_tx_power power);
      outcome ok ERR_CODE_BAD_STATE.

(** [CryptoUtils.x25519_clamp_scalar], [ed25519_expand_seed_to_meshcore_64] *)
Definition x25519_clamp_scalar (scalar : bytes) : bytes :=
  imap (fun i b => if (i =? 0)%nat then Z.land b 248
                   else if (i =? 31)%nat then Z.lor (Z.land b 63) 64 else b) scalar.

Definition ed25519_expand_seed_to_meshcore_64 (seed : bytes) : bytes :=
  let h := sha512 seed in x25519_clamp_scalar (slice_to h 32) ++ slice h 32 64.

Definition _cmd_export_private_key (data : bytes) : py Server.t unit :=
  let key_bytes := if len signing_key =? 32 then ed25519_expand_seed_to_meshcore_64 signing_key
                   else if len signing_key <? 64 then ljust signing_key 64 else slice_to signing_key 64 in
  _write_frame ([RESP_CODE_PRIVATE_KEY] ++ key_bytes).

Definition _cmd_import_private_key (data : bytes) : py Server.t unit :=
  if len data <? 64 then _write_err ERR_CODE_UNSUPPORTED_CMD else _write_frame [RESP_CODE_DISABLED].

Definition _cmd_sign_start (data : bytes) : py Server.t unit :=
  max_size ← on_bridge_ Companion.sign_start;
  b ← lift (pack_I max_size);
  _write_frame ([RESP_CODE_SIGN_START; 0] ++ b).

Definition _cmd_sign_data (data : bytes) : py Server.t unit :=
  if bool_decide (data = []) then _write_err ERR_CODE_UNSUPPORTED_CMD
  else
    s ← get;
    if negb (Companion.is_signing (bridge s)) then _write_err ERR_CODE_BAD_STATE
    else
      ok ← on_bridge_ (Companion.sign_data data);
      outcome ok ERR_CODE_TABLE_FULL.

Definition _cmd_sign_finish (data : bytes) : py Server.t unit :=
  signature ← on_bridge_ Companion.sign_finish;
  match signature with
  | Some sig => if len sig =? SIGNATURE_SIZE then _write_frame ([RESP_CODE_SIGNATURE] ++ sig) else _write_err ERR_CODE_BAD_STATE
  | None => _write_err ERR_CODE_BAD_STATE
  end.

(** [ms / 1000.0] and [int(x * 1000)] *)
Definition seconds (ms : Z) : float := SFdiv prec64 emax64 (f_of_Z ms) (f_of_Z 1000).
Definition milliseconds (x : float) : res Z := int_of_float (fmul x (f_of_Z 1000)).

Definition _cmd_set_tuning_params (data : bytes) : py Server.t unit :=
  if len data <? 8 then _write_err ERR_CODE_ILLEGAL_ARG
  else
    on_bridge (Companion.set_tuning_params (seconds (u32_at data 0)) (seconds (u32_at data 4)));;
    _write_ok.

Definition _cmd_get_tuning_params (data : bytes) : py Server.t unit :=
  s ← get;
  let '(rx_delay_base, airtime_factor) := Companion.get_tuning_params (bridge s) in
  rx ← lift (milliseconds rx_delay_base);
  af ← lift (milliseconds airtime_factor);
  a ← lift (pack_I rx);
  b ← lift (pack_I af);
  _write_frame ([RESP_CODE_TUNING_PARAMS] ++ a ++ b).

(** The entries, while less than 140 bytes are written. *)
Fixpoint custom_vars_bytes (first : bool) (vars : list (pystr * pystr)) (out : bytes) : bytes :=
  match vars with
  | [] => out
  | (name, value) :: vars' =>
      if len out >=? 140 then out
      else custom_vars_bytes false vars' (out ++ (if first then [] else [44]) ++ encode_replace (name ++ [58] ++ value))
  end.

Definition _cmd_get_custom_vars (data : bytes) : py Server.t unit :=
  s ← get;
  _write_frame ([RESP_CODE_CUSTOM_VARS] ++ custom_vars_bytes true (Companion.get_custom_vars (bridge s)) []).

(** [text.find(":")], and the text around it *)
Fixpoint split_colon (text : pystr) : option (pystr * pystr) :=
  match text with
  | [] => None
  | c :: text' => if c =? 58 then Some ([], text')
                  else match split_colon text' with Some (a, b) => Some (c :: a, b) | None => None end
  end.

Definition _cmd_set_custom_var (data : bytes) : py Server.t unit :=
  if len data <? 3 then _write_err ERR_CODE_ILLEGAL_ARG
  else
    match split_colon (decode_replace (before_nul data)) with
    | Some ((_ :: _) as name, value) =>
        ok ← on_bridge_ (Companion.set_custom_var name value);
        outcome ok ERR_CODE_ILLEGAL_ARG
    | _ => _write_err ERR_CODE_ILLEGAL_ARG
    end.

Definition _cmd_set_autoadd_config (data : bytes) : py Server.t unit :=
  match data with
  | [] => _write_err ERR_CODE_ILLEGAL_ARG
  | config :: rest => on_bridge (Companion.set_autoadd_config config (head rest));; _write_ok
  end.

Definition _cmd_get_autoadd_config (data : bytes) : py Server.t unit :=
  s ← get;
  _write_frame [RESP_CODE_AUTOADD_CONFIG; Z.land (Companion.get_autoadd_config (bridge s)) 0xFF;
                Z.land (Companion.get_autoadd_max_hops (bridge s)) 0xFF].

Definition _cmd_set_other_params (data : bytes) : py Server.t unit :=
  if len data <? 1 then _write_err ERR_CODE_ILLEGAL_ARG
  else
    s ← get;
    let prefs := Companion.get_self_info (bridge s) in
    manual_add ← lift (index data 0);
    telemetry_modes ← lift (if len data >=? 2 then index data 1 else mret (telemetry_byte prefs));
    policy ← lift (if len data >=? 3 then index data 2 else mret (advert_loc_policy prefs));
    acks ← lift (if len data >=? 4 then index data 3 else mret (multi_acks prefs));
    on_bridge (Companion.set_other_params manual_add telemetry_modes policy acks);;
    _write_ok.

Definition _cmd_set_path_hash_mode (data : bytes) : py Server.t unit :=
  match data with
  | 0 :: mode :: _ =>
      if mode >=? 3 then _write_err ERR_CODE_ILLEGAL_ARG
      else on_bridge (Companion.set_path_hash_mode mode);; _write_ok
  | _ => _write_err ERR_CODE_ILLEGAL_ARG
  end.

Fixpoint pack_ranges (l : list (Z * Z)) : res bytes :=
  match l with
  | [] => mret []
  | (lower, upper) :: l' => a ← pack_I lower; b ← pack_I upper; r ← pack_ranges l'; mret (a ++ b ++ r)
  end.

Definition _cmd_get_allowed_repeat_freq (data : bytes) : py Server.t unit :=
  s ← get;
  ranges ← lift (pack_ranges (Companion.get_allowed_repeat_freqs (bridge s)));
  _write_frame ([RESP_CODE_ALLOWED_REPEAT_FREQ] ++ ranges).

End commands.
End DeviceCommands.

(** ** Pushes ([push.py]) *)
Module Push.
Import Frames.

(** The three message events write the same frame. *)
Definition _on_message_event : py Server.t unit := modify (_enqueue_frame [PUSH_CODE_MSG_WAITING]).

Definition _on_send_confirmed (crc trip_ms : Z) : py Server.t unit :=
  c ← lift (pack_I crc);
  t ← lift (pack_I (Z.land trip_ms 0xFFFFFFFF));
  modify (_enqueue_frame ([PUSH_CODE_SEND_CONFIRMED] ++ c ++ t)).

Definition _push_advert_frames (contact : Models.Contact) (is_new : bool) : py Server.t unit :=
  if len (Models.public_key contact) <? PUB_KEY_SIZE then mret tt
  else
    frames ← lift (_build_advert_push_frames contact);
    if is_new then match frames.2 with Some full => modify (_enqueue_frame full) | None => mret tt end
    else modify (_enqueue_frame frames.1).

(** An exception is logged. *)
Definition _on_node_discovered (contact : Models.Contact) (s : Server.t) : Server.t :=
  if bool_decide (Models.name contact = []) then s
  else
    let is_new := match Companion.get_contact_by_key (Models.public_key contact) (bridge s) with Some _ => false | None => true end in
    (_push_advert_frames contact is_new s).1.

Definition _on_contact_path_updated (contact : Models.Contact) (s : Server.t) : Server.t :=
  let key := Models.public_key contact in
  if len key <? PUB_KEY_SIZE then s
  else match Companion.get_contact_by_key key (bridge s) with
       | None => s
       | Some _ => _enqueue_frame ([PUSH_CODE_PATH_UPDATED] ++ slice_to key PUB_KEY_SIZE) s
       end.

(** A response goes to the server that asked, the answer about regions to
    every one. *)
Definition _on_binary_response (tag_bytes response_data : bytes) (regions : bool) (s : Server.t) : Server.t :=
  if len tag_bytes <? 4 then s
  else
    let tag := from_le (slice_to tag_bytes 4) in
    let frame := [PUSH_CODE_BINARY_RESPONSE; 0] ++ tag_bytes ++ response_data in
    if decide (tag ∈ _companion_binary_tags s)
    then _enqueue_frame frame (with_binary_tags (_companion_binary_tags s ∖ {[tag]}) s)
    else if regions then _enqueue_frame frame s
    else s.

Definition _on_path_discovery_response (contact_pubkey : bytes) (out_len : Z) (out_path : bytes) (in_len : Z)
    (in_path : bytes) : py Server.t unit :=
  if negb (PathUtils.is_valid_path_len out_len && PathUtils.is_valid_path_len in_len) then mret tt
  else
    o ← lift (bytes_of_ints [out_len]);
    i ← lift (bytes_of_ints [in_len]);
    modify (_enqueue_frame ([PUSH_CODE_PATH_DISCOVERY_RESPONSE; 0] ++ slice_to contact_pubkey 6 ++ o ++ out_path ++ i ++ in_path)).

Definition _on_contact_deleted (pub_key : bytes) (s : Server.t) : Server.t :=
  if len pub_key >=? PUB_KEY_SIZE then _enqueue_frame ([PUSH_CODE_CONTACT_DELETED] ++ slice_to pub_key PUB_KEY_SIZE) s else s.

Definition _on_contacts_full : py Server.t unit := modify (_enqueue_frame [PUSH_CODE_CONTACTS_FULL]).

(** A signed byte as the code writes it. *)
Definition signed_byte (z : Z) : Z := z mod 256.
Definition clamp_signed (z : Z) : Z := Z.max (-128) (Z.min 127 z).

Definition _on_raw_data_received (payload_bytes : bytes) (snr : float) (rssi : Z) : py Server.t unit :=
  q ← lift (quarter_db snr);
  let payload_len := Z.min (len payload_bytes) (MAX_PAYLOAD_SIZE - 4) in
  modify (_enqueue_frame ([PUSH_CODE_RAW_DATA; signed_byte q; signed_byte (clamp_signed rssi); OUT_PATH_UNKNOWN]
                            ++ slice_to payload_bytes payload_len)).

Definition push_trace_data (path_len flags tag auth_code : Z) (path_hashes path_snrs : bytes) (final_snr_byte : Z)
    : py Server.t unit :=
  s ← get;
  match _write_queue s with
  | None => mret tt
  | Some _ =>
      let hash_width := PathUtils.trace_payload_hash_width flags in
      if negb (len path_snrs =? path_len / hash_width) then mret tt
      else
        head ← lift (bytes_of_ints [PUSH_CODE_TRACE_DATA; 0; path_len; flags]);
        t ← lift (pack_I (Z.land tag 0xFFFFFFFF));
        a ← lift (pack_I (Z.land auth_code 0xFFFFFFFF));
        modify (_enqueue_frame (head ++ t ++ a ++ path_hashes ++ path_snrs ++ [Z.land final_snr_byte 0xFF]))
  end.

Definition push_rx_raw (snr : float) (rssi : Z) (raw : bytes) : py Server.t unit :=
  s ← get;
  match _write_queue s with
  | None => mret tt
  | Some _ =>
      q ← lift (quarter_db snr);
      modify (_enqueue_frame ([PUSH_CODE_LOG_RX_DATA; signed_byte q; signed_byte (clamp_signed rssi)]
                                ++ slice_to raw (Z.min (len raw) (MAX_PAYLOAD_SIZE - 3))))
  end.

(** A discovery response clears the callback this server registered. *)
Definition push_control_data (snr : float) (rssi path_len : Z) (payload : bytes) : py Server.t unit :=
  s ← get;
  match _write_queue s with
  | None => mret tt
  | Some _ =>
      (match _control_handler s, payload with
       | Some h, b :: _ =>
           let tag := u32_at payload 2 in
           if (len payload >=? 6) && (Z.land b 0xF0 =? 0x90) && bool_decide (tag ∈ _companion_discovery_tags s) then
             modify (with_discovery (_companion_discovery_tags s ∖ {[tag]}) (Some (ControlHandler.clear_response_callback tag h)))
           else mret tt
       | _, _ => mret tt
       end);;
      q ← lift (quarter_db snr);
      modify (_enqueue_frame ([PUSH_CODE_CONTROL_DATA; signed_byte q; signed_byte (clamp_signed rssi);
                               MessagingCommands.clamp_byte path_len] ++ slice_to payload (MAX_PAYLOAD_SIZE - 4)))
  end.

End Push.

(** ** Dispatch ([server.py]) and the client's stream ([transport.py]) *)
Module Dispatch.
Import ChannelCommands ContactCommands MessagingCommands DeviceCommands.
Section dispatch.
Context `{CS : CompanionSends} (stats_getter : option (Z → res (list (string * num)))) (sha512 : bytes → bytes)
  (signing_key : bytes).

(** The table of [__init__]; the clock is read up to twice. *)
Definition _cmd_handlers (now now' : float) (cmd : Z) : option (bytes → py Server.t unit) :=
  if cmd =? CMD_APP_START then Some _cmd_app_start
  else if cmd =? CMD_DEVICE_QUERY then Some _cmd_device_query
  else if cmd =? CMD_GET_CONTACTS then Some _cmd_get_contacts
  else if cmd =? CMD_GET_CONTACT_BY_KEY then Some _cmd_get_contact_by_key
  else if cmd =? CMD_SEND_TXT_MSG then Some _cmd_send_txt_msg
  else if cmd =? CMD_SEND_CHANNEL_TXT_MSG then Some _cmd_send_channel_txt_msg
  else if cmd =? CMD_SEND_CHANNEL_DATA then Some _cmd_send_channel_data
  else if cmd =? CMD_SYNC_NEXT_MESSAGE then Some _cmd_sync_next_message
  else if cmd =? CMD_SEND_LOGIN then Some _cmd_send_login
  else if cmd =? CMD_SEND_STATUS_REQ then Some _cmd_send_status_req
  else if cmd =? CMD_SEND_TELEMETRY_REQ then Some _cmd_send_telemetry_req
  else if cmd =? CMD_SEND_SELF_ADVERT then Some _cmd_send_self_advert
  else if cmd =? CMD_SET_ADVERT_NAME then Some _cmd_set_advert_name
  else if cmd =? CMD_SET_ADVERT_LATLON then Some _cmd_set_advert_latlon
  else if cmd =? CMD_ADD_UPDATE_CONTACT then Some (_cmd_add_update_contact now)
  else if cmd =? CMD_REMOVE_CONTACT then Some _cmd_remove_contact
  else if cmd =? CMD_RESET_PATH then Some _cmd_reset_path
  else if cmd =? CMD_GET_BATT_AND_STORAGE then Some _cmd_get_batt_and_storage
  else if cmd =? CMD_GET_STATS then Some (_cmd_get_stats stats_getter now)
  else if cmd =? CMD_GET_ADVERT_PATH then Some _cmd_get_advert_path
  else if cmd =? CMD_IMPORT_CONTACT then Some _cmd_import_contact
  else if cmd =? CMD_GET_CHANNEL then Some _cmd_get_channel
  else if cmd =? CMD_SET_CHANNEL then Some _cmd_set_channel
  else if cmd =? CMD_SEND_BINARY_REQ then Some _cmd_send_binary_req
  else if cmd =? CMD_SEND_ANON_REQ then Some _cmd_send_anon_req
  else if cmd =? CMD_SEND_PATH_DISCOVERY_REQ then Some _cmd_send_path_discovery_req
  else if cmd =? CMD_SEND_CONTROL_DATA then Some _cmd_send_control_data
  else if cmd =? CMD_SEND_TRACE_PATH then Some _cmd_send_trace_path
  else if cmd =? CMD_SET_FLOOD_SCOPE then Some _cmd_set_flood_scope
  else if cmd =? CMD_SET_DEFAULT_FLOOD_SCOPE then Some _cmd_set_default_flood_scope
  else if cmd =? CMD_GET_DEFAULT_FLOOD_SCOPE then Some _cmd_get_default_flood_scope
  else if cmd =? CMD_GET_DEVICE_TIME then Some (_cmd_get_device_time now)
  else if cmd =? CMD_SET_DEVICE_TIME then Some (_cmd_set_device_time now now')
  else if cmd =? CMD_SET_RADIO_PARAMS then Some _cmd_set_radio_params
  else if cmd =? CMD_SET_RADIO_TX_POWER then Some _cmd_set_tx_power
  else if cmd =? CMD_SHARE_CONTACT then Some _cmd_share_contact
  else if cmd =? CMD_EXPORT_CONTACT then Some (_cmd_export_contact now)
  else if cmd =? CMD_EXPORT_PRIVATE_KEY then Some (_cmd_export_private_key sha512 signing_key)
  else if cmd =? CMD_IMPORT_PRIVATE_KEY then Some _cmd_import_private_key
  else if cmd =? CMD_SIGN_START then Some _cmd_sign_start
  else if cmd =? CMD_SIGN_DATA then Some _cmd_sign_data
  else if cmd =? CMD_SIGN_FINISH then Some _cmd_sign_finish
  else if cmd =? CMD_SET_TUNING_PARAMS then Some _cmd_set_tuning_params
  else if cmd =? CMD_GET_TUNING_PARAMS then Some _cmd_get_tuning_params
  else if cmd =? CMD_HAS_CONNECTION then Some _cmd_has_connection
  else if cmd =? CMD_LOGOUT then Some _cmd_logout
  else if cmd =? CMD_GET_CUSTOM_VARS then Some _cmd_get_custom_vars
  else if cmd =? CMD_SET_CUSTOM_VAR then Some _cmd_set_custom_var
  else if cmd =? CMD_SET_AUTOADD_CONFIG then Some _cmd_set_autoadd_config
  else if cmd =? CMD_GET_AUTOADD_CONFIG then Some _cmd_get_autoadd_config
  else if cmd =? CMD_SET_OTHER_PARAMS then Some _cmd_set_other_params
  else if cmd =? CMD_SEND_RAW_DATA then Some _cmd_send_raw_data
  else if cmd =? CMD_SEND_RAW_PACKET then Some _cmd_send_raw_packet
  else if cmd =? CMD_SET_PATH_HASH_MODE then Some _cmd_set_path_hash_mode
  else if cmd =? CMD_GET_ALLOWED_REPEAT_FREQ then Some _cmd_get_allowed_repeat_freq
  else None.

Definition _handle_cmd (now now' : float) (payload : bytes) (s : Server.t) : Server.t :=
  match payload with
  | [] => (_write_err ERR_CODE_ILLEGAL_ARG s).1
  | cmd :: data =>
      match _cmd_handlers now now' cmd with
      | None => (_write_err ERR_CODE_UNSUPPORTED_CMD s).1
      | Some handler =>
          match handler data s with
          | (s, Ok _) => s
          | (s, Err _) => (_write_err ERR_CODE_ILLEGAL_ARG s).1
          end
      end
  end.

(** Why the read loop ends. The stream ends with [EndOfStream], or with
    silence ([IdleTimeout]), which matters only between frames. *)
Inductive stream_end : Type := EndOfStream | IdleTimeout.
Inductive disconnect : Type := idle_timeout | empty_read | frame_too_long | incomplete_read | writer_failed.

(** [_read_client_frames] on the bytes the client sends. [clock n] is the clock
    at the [n]th command, [writer_done n] whether the writer task has ended
    after it. Waiting inside a frame for bytes that never come does not end
    ([None]) unless the stream does. *)
Fixpoint _read_client_frames (fuel n : nat) (clock : nat → float * float) (writer_done : nat → bool) (stop : stream_end)
    (input : bytes) (s : Server.t) : Server.t * option disconnect :=
  match fuel with
  | O => (s, None)
  | S fuel =>
      let cut := match stop with EndOfStream => Some incomplete_read | IdleTimeout => None end in
      match input with
      | [] => (s, Some (match stop with EndOfStream => empty_read | IdleTimeout => idle_timeout end))
      | prefix :: rest =>
          if negb (prefix =? FRAME_INBOUND_PREFIX) then _read_client_frames fuel n clock writer_done stop rest s
          else if len rest <? 2 then (s, cut)
          else
            let frame_len := from_le (slice_to rest 2) in
            if frame_len >? MAX_FRAME_SIZE then (s, Some frame_too_long)
            else if len rest <? 2 + frame_len then (s, cut)
            else
              let payload := slice rest 2 (2 + frame_len) in
              let s := _handle_cmd (clock n).1 (clock n).2 payload s in
              if writer_done n then (s, Some writer_failed)
              else _read_client_frames fuel (S n) clock writer_done stop (slice_from rest (2 + frame_len)) s
      end
  end.

Definition read_client_frames (clock : nat → float * float) (writer_done : nat → bool) (stop : stream_end)
    (input : bytes) (s : Server.t) : Server.t * option disconnect :=
  _read_client_frames (S (length input)) 0 clock writer_done stop input s.

End dispatch.
End Dispatch.
