(* ===== verification/FrameStream.v ===== *)
(** * The client's stream and the server's queue: theorems on [FrameServer]

    Commands are handled exactly as they were framed, whatever the noise
    between frames; what a command or a push writes is a sequence of whole
    frames of at most [MAX_PAYLOAD_SIZE] bytes in a bounded queue; and commands
    with an answer of bounded size are answered. *)

From stdpp Require Import gmap.
From S2P Require Import Prelude PyData Utf8 PyFloat ODict Constants PacketUtils Packet Crypto PacketFilter PacketBuilder Stores Contacts Telemetry NodeHandlers CompanionSession CompanionConfig FrameCodes FrameServer.

Import Server Dispatch.

(** ** From bytes to commands *)

Section stream.
Context `{CS : CompanionSends} (stats_getter : option (Z → res (list (string * DeviceCommands.num))))
  (sha512 : bytes → bytes) (signing_key : bytes) (clock : nat → float * float).

Inductive stream_item : Type := Noise (b : bytes) | Command (payload : bytes).

(** How a client frames a command. *)
Definition inbound (payload : bytes) : bytes := [FRAME_INBOUND_PREFIX] ++ le_bytes 2 (len payload) ++ payload.

Definition item_bytes (i : stream_item) : bytes := match i with Noise b => b | Command p => inbound p end.

Definition item_ok (i : stream_item) : Prop :=
  match i with
  | Noise b => Forall (λ x, x ≠ FRAME_INBOUND_PREFIX) b
  | Command p => len p ≤ MAX_FRAME_SIZE
  end.

Definition payload_of (i : stream_item) : list bytes := match i with Noise _ => [] | Command p => [p] end.
Definition stream_bytes (l : list stream_item) : bytes := concat (map item_bytes l).
Definition commands (l : list stream_item) : list bytes := concat (map payload_of l).

(** The commands one after the other. *)
Fixpoint run_commands (n : nat) (l : list bytes) (s : Server.t) : Server.t :=
  match l with
  | [] => s
  | p :: l' => run_commands (S n) l' (_handle_cmd stats_getter sha512 signing_key (clock n).1 (clock n).2 p s)
  end.

Local Abbreviation reader := (_read_client_frames stats_getter sha512 signing_key).
Local Abbreviation alive := (λ _ : nat, false).

Lemma read_noise fuel n stop b rest s :
  Forall (λ x, x ≠ FRAME_INBOUND_PREFIX) b →
  reader (length b + fuel) n clock alive stop (b ++ rest) s = reader fuel n clock alive stop rest s.
Proof.
  induction 1 as [|x b Hx _ IH]; [done|]. cbn [length Nat.add app _read_client_frames].
  replace (x =? FRAME_INBOUND_PREFIX) with false by lia. exact IH.
Qed.

Lemma read_command fuel n stop p rest s :
  len p ≤ MAX_FRAME_SIZE →
  reader (S fuel) n clock alive stop (inbound p ++ rest) s
  = reader fuel (S n) clock alive stop rest (_handle_cmd stats_getter sha512 signing_key (clock n).1 (clock n).2 p s).
Proof.
  intros Hp. unfold MAX_FRAME_SIZE in Hp. pose proof (len_nonneg p). pose proof (len_nonneg rest).
  set (tl := le_bytes 2 (len p) ++ p ++ rest).
  assert (inbound p ++ rest = FRAME_INBOUND_PREFIX :: tl) as -> by (unfold inbound, tl; cbn [app]; by rewrite <- app_assoc).
  assert (len tl = 2 + len p + len rest) as Hl by (unfold tl; rewrite !len_app, len_le_bytes; lia).
  assert (slice_to tl 2 = le_bytes 2 (len p)) as H2 by (by apply slice_to_app_exact).
  assert (slice tl 2 (2 + len p) = p) as Hs by (by apply slice_app_exact).
  assert (slice_from tl (2 + len p) = rest) as Hr
    by (unfold tl; rewrite app_assoc; apply slice_from_app_exact; by rewrite len_app, len_le_bytes).
  cbn [_read_client_frames]. rewrite Z.eqb_refl. cbn [negb]. rewrite H2, from_le_2 by lia.
  replace (len tl <? 2) with false by lia. unfold MAX_FRAME_SIZE. replace (len p >? 176) with false by lia.
  replace (len tl <? 2 + len p) with false by lia. by rewrite Hs, Hr.
Qed.

Lemma read_items l : ∀ fuel n stop rest s,
  Forall item_ok l → (length (stream_bytes l ++ rest) < fuel)%nat →
  ∃ fuel', (length rest < fuel')%nat ∧
    reader fuel n clock alive stop (stream_bytes l ++ rest) s
    = reader fuel' (n + length (commands l)) clock alive stop rest (run_commands n (commands l) s).
Proof.
  induction l as [|i l IH]; intros fuel n stop rest s Hl Hf.
  - exists fuel. split; [done|]. cbn. by rewrite Nat.add_0_r.
  - apply list.Forall_cons in Hl as [Hi Hl]. unfold stream_bytes, commands in *. cbn [map concat] in *.
    rewrite <- app_assoc in Hf |- *. destruct i as [b|p]; cbn [item_ok item_bytes payload_of app] in *.
    + rewrite length_app in Hf. replace fuel with (length b + (fuel - length b))%nat by lia.
      rewrite read_noise by done. apply IH; [done|lia].
    + destruct fuel as [|fuel]; [lia|]. rewrite read_command by done.
      destruct (IH fuel (S n) stop rest
        (_handle_cmd stats_getter sha512 signing_key (clock n).1 (clock n).2 p s)) as (fuel' & H1 & H2); [done| |].
      { rewrite length_app in Hf. unfold inbound in Hf. cbn [length app] in Hf. lia. }
      exists fuel'. split; [done|]. rewrite H2. cbn [run_commands length]. f_equal. lia.
Qed.

(** C32: commands are handled as the client framed them. Frames of at most 176
    bytes with any bytes but [<] between them are handled in order, each whole
    and once, and the loop ends when the stream does; a frame the stream cuts
    off is not handled. (The writer task stays alive; if it ends, so does the
    loop.) *)
Theorem client_stream_dispatched l p k stop s :
  Forall item_ok l →
  read_client_frames stats_getter sha512 signing_key clock alive stop (stream_bytes l) s
  = (run_commands 0 (commands l) s, Some (match stop with EndOfStream => empty_read | IdleTimeout => idle_timeout end))
  ∧ (len p ≤ MAX_FRAME_SIZE → (0 < k < length (inbound p))%nat →
     read_client_frames stats_getter sha512 signing_key clock alive EndOfStream (stream_bytes l ++ take k (inbound p)) s
     = (run_commands 0 (commands l) s, Some incomplete_read)).
Proof.
  intros Hl. unfold read_client_frames. split.
  - destruct (read_items l (S (length (stream_bytes l))) 0 stop [] s Hl) as (fuel' & H1 & H2); [rewrite app_nil_r; lia|].
    rewrite app_nil_r in H2. rewrite H2. destruct fuel' as [|fuel']; [cbn in H1; lia|]. done.
  - intros Hp Hk. destruct (read_items l (S (length (stream_bytes l ++ take k (inbound p)))) 0 EndOfStream
      (take k (inbound p)) s Hl) as (fuel' & H1 & H2); [lia|]. rewrite H2. clear H2.
    destruct fuel' as [|fuel']; [lia|]. destruct k as [|k]; [lia|].
    unfold MAX_FRAME_SIZE in Hp. pose proof (len_nonneg p). unfold inbound in *. cbn [take app length] in *.
    rewrite length_app, length_le_bytes in Hk. cbn [_read_client_frames]. rewrite Z.eqb_refl. cbn [negb].
    set (tl := take k (le_bytes 2 (len p) ++ p)).
    assert (len tl = Z.of_nat k) as Hl' by (unfold tl, len; rewrite length_take, length_app, length_le_bytes; lia).
    destruct (len tl <? 2) eqn:E2; [done|]. bool_hyps.
    assert (slice_to tl 2 = le_bytes 2 (len p)) as ->.
    { rewrite slice_to_nonneg by lia. unfold tl. rewrite take_take. replace (Z.to_nat 2 `min` k)%nat with 2%nat by lia.
      by rewrite take_app_length' by (by rewrite length_le_bytes). }
    rewrite from_le_2 by lia. unfold MAX_FRAME_SIZE. replace (len p >? 176) with false by lia.
    unfold len in Hk |- *. fold (len tl) (len p). rewrite Hl'. replace (Z.of_nat k <? 2 + len p) with true; [done|].
    symmetry. apply Z.ltb_lt. unfold len. lia.
Qed.
End stream.

(** ** What the server writes *)

(** The queue grows by whole frames that fit, and not beyond its bound. *)
Definition appends (s s' : Server.t) : Prop :=
  match _write_queue s, _write_queue s' with
  | Some q, Some q' =>
      ∃ ds, q' = q ++ map (λ d, Some (outbound d)) ds ∧ Forall (λ d, len d ≤ MAX_PAYLOAD_SIZE) ds
            ∧ len q' ≤ Z.max (len q) _WRITE_QUEUE_MAXSIZE
  | None, None => True
  | _, _ => False
  end.

Global Instance appends_preorder : PreOrder appends.
Proof.
  split.
  - intros s. unfold appends. destruct (_write_queue s) as [q|]; [|done]. exists []. rewrite app_nil_r. split_and!; [done..|lia].
  - intros s1 s2 s3. unfold appends. destruct (_write_queue s1) as [q1|], (_write_queue s2) as [q2|], (_write_queue s3) as [q3|];
      try done. intros (d1 & -> & H1 & L1) (d2 & -> & H2 & L2). exists (d1 ++ d2).
    rewrite map_app, app_assoc. split_and!; [done|by apply Forall_app|lia].
Qed.

Lemma appends_same s s' : _write_queue s' = _write_queue s → appends s s'.
Proof. intros E. unfold appends. rewrite E. destruct (_write_queue s) as [q|]; [|done]. exists []. rewrite app_nil_r. split_and!; [done..|lia]. Qed.

Lemma enqueue_appends d s : appends s (_enqueue_frame d s).
Proof.
  unfold _enqueue_frame. destruct (_write_queue s) as [q|] eqn:E; [|reflexivity].
  destruct (len d >? MAX_PAYLOAD_SIZE) eqn:E1; [reflexivity|].
  destruct (len q >=? _WRITE_QUEUE_MAXSIZE) eqn:E2; [reflexivity|]. bool_hyps.
  unfold appends. rewrite E. cbn [_write_queue with_write_queue]. exists [d]. split_and!; [done|by constructor|].
  rewrite len_app. change (len [Some (outbound d)]) with 1. lia.
Qed.

Lemma keeps_write_frame d : keeps appends (_write_frame d).
Proof. apply keeps_modify. intros s. apply enqueue_appends. Qed.

Lemma keeps_on_bridge {A} (m : py Companion.t A) : keeps appends (on_bridge m).
Proof. intros s. unfold on_bridge. destruct (m (bridge s)) as [b r]. by apply appends_same. Qed.

Lemma keeps_on_bridge_ {A} (f : Companion.t → Companion.t * A) : keeps appends (on_bridge_ f).
Proof. intros s. unfold on_bridge_. destruct (f (bridge s)) as [b r]. by apply appends_same. Qed.

Lemma keeps_guarded {A} (m : py Server.t A) k :
  keeps appends m → (∀ a, keeps appends (k a)) → keeps appends (MessagingCommands.guarded m k).
Proof.
  intros Hm Hk s. unfold MessagingCommands.guarded. pose proof (Hm s) as H1. destruct (m s) as [s1 [a|e]]; cbn [fst] in H1.
  - etransitivity; [exact H1|apply Hk].
  - etransitivity; [exact H1|]. apply enqueue_appends.
Qed.

Ltac head_of t := match t with ?f _ => head_of f | _ => constr:(t) end.
Ltac unfold_head := lazymatch goal with |- _ _ ?m => let h := head_of m in unfold h | |- _ ?m => let h := head_of m in unfold h end.

(** [keeps appends] of a command, along its structure. *)
Ltac appending :=
  repeat first
    [ progress keeps
    | apply keeps_write_frame | apply keeps_on_bridge | apply keeps_on_bridge_
    | apply keeps_guarded; [|intros ?]
    | match goal with |- appends ?s _ => first [apply enqueue_appends | by apply appends_same] end
    | progress unfold _write_err, _write_ok, _write_sent_response, _write_sent_result, outcome,
        ChannelCommands.write_channel, ContactCommands._write_contact_frame, MessagingCommands._write_request_start_error,
        MessagingCommands._push_self_telemetry
    | match goal with |- ∀ _, _ => intros ? end ].

Lemma keeps_write_channels idx n : keeps appends (ChannelCommands.write_channels idx n).
Proof.
  revert idx. induction n as [|n IH]; intros idx; cbn [ChannelCommands.write_channels]; [appending|].
  apply keeps_bind; [apply _| |intros _; apply IH]. unfold ChannelCommands.write_channel. appending.
Qed.

Lemma keeps_write_contacts l : keeps appends (ContactCommands.write_contacts l).
Proof.
  induction l as [|c l IH]; cbn [ContactCommands.write_contacts]; [appending|].
  apply keeps_bind; [apply _| |intros _; apply IH]. unfold ContactCommands._write_contact_frame. appending.
Qed.

Section output.
Context `{CS : CompanionSends} (stats_getter : option (Z → res (list (string * DeviceCommands.num))))
  (sha512 : bytes → bytes) (signing_key : bytes).

Lemma handlers_append now now' cmd h :
  _cmd_handlers stats_getter sha512 signing_key now now' cmd = Some h → ∀ data, keeps appends (h data).
Proof.
  intros Hh data. unfold _cmd_handlers in Hh.
  repeat match type of Hh with
  | (if ?b then _ else _) = Some _ => destruct b; [injection Hh as <-|]
  | None = Some _ => discriminate Hh
  end.
  all: unfold_head; appending; first [apply keeps_write_contacts | apply keeps_write_channels].
Qed.

(** What a command leaves. *)
Lemma handle_cmd_appends now now' payload s :
  appends s (_handle_cmd stats_getter sha512 signing_key now now' payload s).
Proof.
  unfold _handle_cmd. destruct payload as [|cmd data]; [apply enqueue_appends|].
  destruct (_cmd_handlers _ _ _ _ _ cmd) as [h|] eqn:Hh; [|apply enqueue_appends].
  pose proof (handlers_append _ _ _ _ Hh data s) as H. destruct (h data s) as [s' [u|e]]; [done|].
  etransitivity; [exact H|apply enqueue_appends].
Qed.

(** Everything that makes the server write. *)
Inductive server_event : Type :=
| Cmd (now now' : float) (payload : bytes)
| MessageWaiting
| SendConfirmed (crc trip_ms : Z)
| NodeDiscovered (c : Models.Contact)
| PathUpdated (c : Models.Contact)
| BinaryResponse (tag data : bytes) (regions : bool)
| PathDiscovery (key : bytes) (out_len : Z) (out_path : bytes) (in_len : Z) (in_path : bytes)
| ContactDeleted (key : bytes)
| ContactsFull
| RawData (payload : bytes) (snr : float) (rssi : Z)
| TraceData (path_len flags tag auth_code : Z) (hashes snrs : bytes) (final : Z)
| RxRaw (snr : float) (rssi : Z) (raw : bytes)
| ControlData (snr : float) (rssi path_len : Z) (payload : bytes)
| LoginDone (key : bytes) (r : MessagingCommands.login_outcome)
| RawResult (code : Z) (key : bytes) (raw : option bytes).

Definition server_step (s : Server.t) (e : server_event) : Server.t :=
  match e with
  | Cmd now now' payload => _handle_cmd stats_getter sha512 signing_key now now' payload s
  | MessageWaiting => (Push._on_message_event s).1
  | SendConfirmed crc trip_ms => (Push._on_send_confirmed crc trip_ms s).1
  | NodeDiscovered c => Push._on_node_discovered c s
  | PathUpdated c => Push._on_contact_path_updated c s
  | BinaryResponse tag data regions => Push._on_binary_response tag data regions s
  | PathDiscovery key ol op il ip => (Push._on_path_discovery_response key ol op il ip s).1
  | ContactDeleted key => Push._on_contact_deleted key s
  | ContactsFull => (Push._on_contacts_full s).1
  | RawData payload snr rssi => (Push._on_raw_data_received payload snr rssi s).1
  | TraceData pl fl tag auth hashes snrs final => (Push.push_trace_data pl fl tag auth hashes snrs final s).1
  | RxRaw snr rssi raw => (Push.push_rx_raw snr rssi raw s).1
  | ControlData snr rssi pl payload => (Push.push_control_data snr rssi pl payload s).1
  | LoginDone key r => (MessagingCommands.write_login_result key r s).1
  | RawResult code key raw => (MessagingCommands.write_raw_result code key raw s).1
  end.

Lemma keeps_run {A} (m : py Server.t A) s : keeps appends m → appends s (m s).1.
Proof. intros H. apply H. Qed.

Lemma server_step_appends s e : appends s (server_step s e).
Proof.
  destruct e; cbn [server_step]; [apply handle_cmd_appends|..];
    first [ apply keeps_run; unfold_head; appending | unfold_head ].
  - case_bool_decide; [reflexivity|]. apply keeps_run. unfold Push._push_advert_frames. appending.
  - destruct (_ <? _); [reflexivity|]. destruct (Companion.get_contact_by_key _ _); [apply enqueue_appends|reflexivity].
  - destruct (_ <? _); [reflexivity|]. case_decide; [|destruct regions; [apply enqueue_appends|reflexivity]].
    etransitivity; [|apply enqueue_appends]. by apply appends_same.
  - destruct (_ >=? _); [apply enqueue_appends|reflexivity].
Qed.

(** How a client takes the stream apart. *)
Fixpoint client_parse (fuel : nat) (b : bytes) : option (list bytes) :=
  match fuel, b with
  | O, _ => None
  | _, [] => Some []
  | S fuel, x :: rest =>
      if negb (x =? FRAME_OUTBOUND_PREFIX) || (len rest <? 2) then None
      else
        let n := from_le (slice_to rest 2) in
        if len rest <? 2 + n then None
        else cons (slice rest 2 (2 + n)) <$> client_parse fuel (slice_from rest (2 + n))
  end.

Lemma client_parse_frames ds fuel :
  Forall (λ d, len d ≤ MAX_PAYLOAD_SIZE) ds → (length ds < fuel)%nat →
  client_parse fuel (concat (map outbound ds)) = Some ds.
Proof.
  intros Hds. revert fuel. induction Hds as [|d ds Hd _ IH]; intros fuel Hf; cbn [length] in Hf.
  - destruct fuel; [lia|]. done.
  - destruct fuel as [|fuel]; [lia|]. cbn [map concat]. set (rest := concat (map outbound ds)) in *.
    unfold MAX_PAYLOAD_SIZE, MAX_FRAME_SIZE in Hd. pose proof (len_nonneg d). pose proof (len_nonneg rest).
    set (tl := le_bytes 2 (len d) ++ d ++ rest).
    assert (outbound d ++ rest = FRAME_OUTBOUND_PREFIX :: tl) as -> by (unfold outbound, tl; cbn [app]; by rewrite <- app_assoc).
    assert (len tl = 2 + len d + len rest) as Hl by (unfold tl; rewrite !len_app, len_le_bytes; lia).
    assert (slice_to tl 2 = le_bytes 2 (len d)) as H2 by (by apply slice_to_app_exact).
    assert (slice tl 2 (2 + len d) = d) as Hs by (by apply slice_app_exact).
    assert (slice_from tl (2 + len d) = rest) as Hr
      by (unfold tl; rewrite app_assoc; apply slice_from_app_exact; by rewrite len_app, len_le_bytes).
    cbn [client_parse]. rewrite Z.eqb_refl. cbn [negb orb]. replace (len tl <? 2) with false by lia.
    rewrite H2, from_le_2 by lia. replace (len tl <? 2 + len d) with false by lia.
    rewrite Hs, Hr, IH by lia. done.
Qed.

(** C35: what the server sends can be taken apart again. Whatever commands arrive
    and whatever is pushed in between, the queue of a connected server holds
    at most 2048 frames, each whole and of at most 176 bytes of payload, what
    is queued is never changed, and the client reads back exactly the payloads
    that were queued. *)
Theorem server_output_framed es s :
  _write_queue s = Some [] →
  ∃ ds, let q := map outbound ds in
    _write_queue (fold_left server_step es s) = Some (map Some q)
    ∧ Forall (λ d, len d ≤ MAX_PAYLOAD_SIZE) ds ∧ len q ≤ _WRITE_QUEUE_MAXSIZE
    ∧ client_parse (S (length q)) (concat q) = Some ds
    ∧ ∀ e, ∃ more, _write_queue (server_step (fold_left server_step es s) e) = Some (map Some q ++ map (Some ∘ outbound) more).
Proof.
  intros Hq. assert (appends s (fold_left server_step es s)) as H.
  { clear Hq. revert s. induction es as [|e es IH]; intros s; cbn [fold_left]; [reflexivity|].
    etransitivity; [apply server_step_appends|apply IH]. }
  set (s' := fold_left server_step es s) in *. clearbody s'. unfold appends in H. rewrite Hq in H.
  destruct (_write_queue s') as [q'|] eqn:Eq; [|done]. destruct H as (ds & -> & Hds & Hl). cbn [app] in *.
  exists ds. cbv zeta. rewrite <- list_fmap_compose. split_and!.
  - done.
  - done.
  - unfold len in *. cbn [length] in Hl. rewrite length_fmap in Hl. rewrite length_fmap. unfold _WRITE_QUEUE_MAXSIZE in *. lia.
  - apply client_parse_frames; [done|]. rewrite length_map. lia.
  - intros e. pose proof (server_step_appends s' e) as H. unfold appends in H. rewrite Eq in H.
    destruct (_write_queue (server_step s' e)) as [q''|]; [|done]. destruct H as (more & -> & _). by exists more.
Qed.
End output.

(** ** Every command is answered *)

(** Ended without an exception, [m] has written a frame if there was room. *)
Definition answering {A} (m : py Server.t A) : Prop :=
  keeps appends m
  ∧ ∀ s q, _write_queue s = Some q → len q < _WRITE_QUEUE_MAXSIZE → is_ok (m s).2 = true →
           ∃ q', _write_queue (m s).1 = Some q' ∧ len q < len q'.

Lemma appends_grows s s' q :
  appends s s' → _write_queue s = Some q → ∃ q', _write_queue s' = Some q' ∧ len q ≤ len q'.
Proof.
  unfold appends. intros H E. rewrite E in H. destruct (_write_queue s') as [q'|]; [|done].
  destruct H as (ds & -> & _). eexists. split; [done|]. rewrite len_app. pose proof (len_nonneg (map (λ d, Some (outbound d)) ds)). lia.
Qed.

Lemma enqueue_grows d s q :
  _write_queue s = Some q → len q < _WRITE_QUEUE_MAXSIZE → len d ≤ MAX_PAYLOAD_SIZE →
  ∃ q', _write_queue (_enqueue_frame d s) = Some q' ∧ len q < len q'.
Proof.
  intros E Hq Hd. unfold _enqueue_frame. rewrite E. replace (len d >? MAX_PAYLOAD_SIZE) with false by lia.
  replace (len q >=? _WRITE_QUEUE_MAXSIZE) with false by lia. eexists. split; [done|]. rewrite len_app, len_cons, len_nil. lia.
Qed.

Lemma answering_write d : len d ≤ MAX_PAYLOAD_SIZE → answering (_write_frame d).
Proof. intros Hd. split; [apply keeps_write_frame|]. intros s q E Hq _. by apply enqueue_grows. Qed.

Lemma answering_raise {A} e : answering (raise e : py Server.t A).
Proof. split; [apply keeps_raise; apply _|]. done. Qed.

Lemma answering_bind {A B} (m : py Server.t A) (k : A → py Server.t B) :
  keeps appends m → (∀ a, answering (k a)) → answering (m ≫= k).
Proof.
  intros Hm Hk. split; [apply keeps_bind; [apply _|done|intros a; apply (Hk a)]|]. intros s q E Hq.
  unfold mbind, py_bind. destruct (appends_grows _ _ q (Hm s) E) as (q1 & E1 & L1).
  destruct (m s) as [s1 [a|e]]; [|done]. cbn [fst] in E1. intros Hok. destruct (Hk a) as [K1 K2].
  destruct (decide (len q1 < _WRITE_QUEUE_MAXSIZE)) as [Hr|Hr].
  - destruct (K2 s1 q1 E1 Hr Hok) as (q2 & E2 & L2). exists q2. split; [done|lia].
  - destruct (appends_grows _ _ q1 (K1 s1) E1) as (q2 & E2 & L2). exists q2. split; [done|lia].
Qed.

Lemma answering_then {A B} (m : py Server.t A) (k : A → py Server.t B) :
  answering m → (∀ a, keeps appends (k a)) → answering (m ≫= k).
Proof.
  intros [Hm Ha] Hk. split; [apply keeps_bind; [apply _|done|done]|]. intros s q E Hq.
  unfold mbind, py_bind. specialize (Ha s q E Hq). destruct (m s) as [s1 [a|e]]; [|done]. cbn [fst snd] in Ha. intros _.
  destruct Ha as (q1 & E1 & L1); [done|]. destruct (appends_grows _ _ q1 (Hk a s1) E1) as (q2 & E2 & L2). exists q2. split; [done|lia].
Qed.

(** The value of a computation that does not touch the state. *)
Lemma answering_lift {A B} (r : res A) (k : A → py Server.t B) :
  (∀ a, r = Ok a → answering (k a)) → answering (lift r ≫= k).
Proof.
  intros Hk. destruct r as [a|e]; [|apply answering_raise]. exact (Hk a eq_refl).
Qed.

Lemma answering_guarded {A} (m : py Server.t A) k :
  keeps appends m → (∀ a, answering (k a)) → answering (MessagingCommands.guarded m k).
Proof.
  intros Hm Hk. split; [apply keeps_guarded; [done|intros a; apply (Hk a)]|]. intros s q E Hq. unfold MessagingCommands.guarded.
  destruct (appends_grows _ _ q (Hm s) E) as (q1 & E1 & L1). destruct (m s) as [s1 [a|e]]; cbn [fst] in E1.
  - intros Hok. destruct (Hk a) as [K1 K2]. destruct (decide (len q1 < _WRITE_QUEUE_MAXSIZE)) as [Hr|Hr].
    + destruct (K2 s1 q1 E1 Hr Hok) as (q2 & E2 & L2). exists q2. split; [done|lia].
    + destruct (appends_grows _ _ q1 (K1 s1) E1) as (q2 & E2 & L2). exists q2. split; [done|lia].
  - intros _. destruct (decide (len q1 < _WRITE_QUEUE_MAXSIZE)) as [Hr|Hr].
    + destruct (enqueue_grows [RESP_CODE_ERR; ERR_CODE_ILLEGAL_ARG] s1 q1 E1 Hr) as (q2 & E2 & L2); [by vm_compute|].
      exists q2. split; [exact E2|lia].
    + destruct (appends_grows _ _ q1 (enqueue_appends [RESP_CODE_ERR; ERR_CODE_ILLEGAL_ARG] s1) E1) as (q2 & E2 & L2).
      exists q2. split; [exact E2|lia].
Qed.

Lemma answering_err code : answering (_write_err code).
Proof.
  apply answering_lift. intros b Hb. apply bytes_of_ints_inv in Hb as [-> _]. apply answering_write. by vm_compute.
Qed.

Lemma answering_ok : answering _write_ok.
Proof. apply answering_write. by vm_compute. Qed.

Lemma answering_outcome ok code : answering (outcome ok code).
Proof. destruct ok; [apply answering_ok|apply answering_err]. Qed.


Lemma answering_sent_response flood tag timeout : answering (_write_sent_response flood tag timeout).
Proof.
  apply answering_lift. intros a Ha. apply answering_lift. intros b Hb. apply answering_write.
  rewrite !len_app, (len_pack _ _ _ Ha), (len_pack _ _ _ Hb). by vm_compute.
Qed.

Lemma answering_sent_result r d own : answering (_write_sent_result r d own).
Proof.
  unfold _write_sent_result. cbv zeta. apply answering_bind; [appending|]. intros _. apply answering_sent_response.
Qed.

Lemma contact_fields_len c b : Frames._encode_contact_fields c = Ok b → len b = 147.
Proof.
  unfold Frames._encode_contact_fields. intros H. res_inv.
  repeat match goal with
  | H : pack_I _ = Ok _ |- _ => apply len_pack in H
  | H : pack_i _ = Ok _ |- _ => apply len_pack_i in H
  | H : bytes_of_ints _ = Ok _ |- _ => apply len_ints in H
  end.
  rewrite !len_app, !len_ljust by done. rewrite H, H0, H2, H4, H5. reflexivity.
Qed.

(** The size of a frame of packed fields. *)
Ltac frame_size :=
  repeat match goal with
  | H : pack_I _ = Ok ?b |- context [len ?b] => rewrite (len_pack _ _ _ H)
  | H : pack_H _ = Ok ?b |- context [len ?b] => rewrite (len_pack _ _ _ H)
  | H : pack_B _ = Ok ?b |- context [len ?b] => rewrite (len_pack _ _ _ H)
  | H : pack_i _ = Ok ?b |- context [len ?b] => rewrite (len_pack_i _ _ H)
  | H : pack_int _ _ = Ok ?b |- context [len ?b] => rewrite (len_pack_int _ _ _ H)
  | H : bytes_of_ints _ = Ok ?b |- context [len ?b] => rewrite (len_ints _ _ H)
  | H : Frames._encode_contact_fields _ = Ok ?b |- context [len ?b] => rewrite (contact_fields_len _ _ H)
  | |- context [len (ljust (slice_to ?b ?n) ?n)] => rewrite (len_ljust b n) by done
  | |- context [len (_ ++ _)] => rewrite len_app
  end.

(** [answering] of a command, along its structure. *)
Ltac answer :=
  repeat lazymatch goal with
  | |- answering (_write_err _) => apply answering_err
  | |- answering _write_ok => apply answering_ok
  | |- answering (outcome _ _) => apply answering_outcome
  | |- answering (_write_sent_response _ _ _) => apply answering_sent_response
  | |- answering (_write_sent_result _ _ _) => apply answering_sent_result
  | |- answering (raise _) => apply answering_raise
  | |- answering (MessagingCommands._write_request_start_error _) => apply answering_err
  | |- answering (_write_frame _) => apply answering_write; frame_size; by vm_compute
  | |- answering (lift _ ≫= _) => apply answering_lift; intros ? ?
  | |- answering (_write_sent_result _ _ _ ≫= _) => apply answering_then; [apply answering_sent_result|intros ?; appending]
  | |- answering (MessagingCommands.guarded _ _) => apply answering_guarded; [appending|intros ?]
  | |- answering (_ ≫= _) => apply answering_bind; [appending; apply keeps_write_contacts|intros ?]
  | |- answering (let _ := _ in _) => cbv zeta
  | |- answering (if ?b then _ else _) => destruct b
  | |- answering (match ?x with _ => _ end) => destruct x
  end.

(** The commands whose answer has no fixed size: a name, a message, a contact's
    advert, the custom variables, the frequencies, a path. *)
Definition variable_answer (cmd : Z) : bool :=
  existsb (Z.eqb cmd)
    [CMD_APP_START; CMD_SYNC_NEXT_MESSAGE; CMD_EXPORT_CONTACT; CMD_GET_CUSTOM_VARS;
     CMD_GET_ALLOWED_REPEAT_FREQ; CMD_GET_ADVERT_PATH].

Section answers.
Context `{CS : CompanionSends} (stats_getter : option (Z → res (list (string * DeviceCommands.num))))
  (sha512 : bytes → bytes) (signing_key : bytes).

Lemma channel_info_len idx ch b : ChannelCommands._channel_info_frame idx ch = Ok b → len b = 50.
Proof.
  unfold ChannelCommands._channel_info_frame. intros Hb. destruct ch as [c|]; res_inv; frame_size; [|by vm_compute].
  case_bool_decide; frame_size; by vm_compute.
Qed.

Lemma answering_write_channel idx : answering (ChannelCommands.write_channel idx).
Proof.
  unfold ChannelCommands.write_channel. apply answering_bind; [appending|intros s]. apply answering_lift. intros b Hb.
  apply channel_info_len in Hb. apply answering_write. by rewrite Hb.
Qed.

Lemma answering_write_contact c : answering (ContactCommands._write_contact_frame c).
Proof. unfold ContactCommands._write_contact_frame. answer. Qed.

(** A table of negative size would list nothing. *)
Lemma get_channel_answers data s q :
  0 ≤ ChannelStore._max_channels (Companion.channels (bridge s)) →
  _write_queue s = Some q → len q < _WRITE_QUEUE_MAXSIZE → is_ok (ChannelCommands._cmd_get_channel data s).2 = true →
  ∃ q', _write_queue (ChannelCommands._cmd_get_channel data s).1 = Some q' ∧ len q < len q'.
Proof.
  intros Hn E Hq. unfold ChannelCommands._cmd_get_channel. set (n := ChannelStore._max_channels _) in *.
  match goal with |- is_ok ((get ≫= ?k) s).2 = true → _ => enough (answering (k s)) as [_ Hm] by exact (Hm s q E Hq) end.
  clear Hq E.
  destruct data as [|idx rest]; [|destruct (_ || _); [apply answering_err|apply answering_write_channel]].
  destruct (n =? 0) eqn:En.
  - apply answering_bind; [appending; apply keeps_write_channels|intros _]. fold n. rewrite En. apply answering_lift. intros b Hb.
    apply channel_info_len in Hb. apply answering_write. by rewrite Hb.
  - bool_hyps. destruct (Z.to_nat n) as [|k] eqn:Ek; [lia|].
    apply answering_then; [|intros ?; appending]. fold n. rewrite Ek. cbn [ChannelCommands.write_channels].
    apply answering_then; [apply answering_write_channel|intros _; apply keeps_write_channels].
Qed.

Lemma len_stats keys d b : DeviceCommands.pack_stats keys d = Ok b → len b = 4 * len keys.
Proof.
  revert b. induction keys as [|k keys IH]; intros b Hb; cbn [DeviceCommands.pack_stats] in Hb; res_inv; [done|].
  rewrite len_app, len_cons, (len_pack _ _ _ H0), (IH _ H1). lia.
Qed.

Lemma len_stats_fields ty d b : DeviceCommands.stats_fields ty d = Ok b → len b ≤ 28.
Proof.
  unfold DeviceCommands.stats_fields. intros Hb. destruct (_ =? _); [res_inv; frame_size; lia|].
  destruct (_ =? _); [res_inv; frame_size; lia|]. apply len_stats in Hb. rewrite Hb. by vm_compute.
Qed.

Lemma answering_get_stats now data : answering (DeviceCommands._cmd_get_stats stats_getter now data).
Proof.
  unfold DeviceCommands._cmd_get_stats. destruct data as [|ty rest]; [apply answering_err|].
  destruct (negb _); [apply answering_err|]. apply answering_lift. intros g _.
  apply answering_bind; [appending|intros s]. apply answering_lift. intros d _. apply answering_lift. intros b Hb.
  apply answering_write. apply len_stats_fields in Hb. rewrite len_app. change (len [RESP_CODE_STATS; ty]) with 2.
  unfold MAX_PAYLOAD_SIZE, MAX_FRAME_SIZE. lia.
Qed.

Lemma answering_telemetry data : answering (MessagingCommands._cmd_send_telemetry_req data).
Proof.
  unfold MessagingCommands._cmd_send_telemetry_req. destruct (len data =? 3); [|answer].
  unfold MessagingCommands._push_self_telemetry. apply answering_lift. intros lpp Hl.
  apply answering_bind; [appending|intros s]. apply answering_write. vm_compute in Hl. injection Hl as <-.
  rewrite !len_app. pose proof (len_slice_to_le (Companion.get_public_key (bridge s)) 6 ltac:(lia)).
  unfold MAX_PAYLOAD_SIZE, MAX_FRAME_SIZE. rewrite !len_cons, !len_nil. lia.
Qed.

Lemma answering_default_scope data : answering (DeviceCommands._cmd_get_default_flood_scope data).
Proof.
  unfold DeviceCommands._cmd_get_default_flood_scope. apply answering_bind; [appending|intros s].
  destruct (Companion.get_default_flood_scope (bridge s)) as [[name key]|]; [|apply answering_write; by vm_compute].
  apply answering_write. frame_size. unfold ljust. rewrite len_app.
  pose proof (len_slice_to_le (encode_replace name) 30 ltac:(lia)). rewrite len_zeros by lia.
  unfold MAX_PAYLOAD_SIZE, MAX_FRAME_SIZE. change (len [RESP_CODE_DEFAULT_FLOOD_SCOPE]) with 1. lia.
Qed.

Lemma answering_sign_finish data : answering (DeviceCommands._cmd_sign_finish data).
Proof.
  unfold DeviceCommands._cmd_sign_finish. apply answering_bind; [appending|intros sig].
  destruct sig as [sig|]; [|apply answering_err]. destruct (len sig =? SIGNATURE_SIZE) eqn:E; [|apply answering_err].
  bool_hyps. apply answering_write. rewrite len_app, E. by vm_compute.
Qed.

(** The descriptions of the device have the sizes the constructor gives them. *)
Definition described (s : Server.t) : Prop :=
  len (_build_date_bytes s) = 12 ∧ len (_model_bytes s) = 40 ∧ len (_version_bytes s) = 20.

Lemma init_described b build_date model version c : described (Server.init b build_date model version c).
Proof. unfold described, Server.init, info_field. cbn. by rewrite !len_ljust. Qed.

Lemma device_query_answers data s q :
  described s → _write_queue s = Some q → len q < _WRITE_QUEUE_MAXSIZE →
  is_ok (DeviceCommands._cmd_device_query data s).2 = true →
  ∃ q', _write_queue (DeviceCommands._cmd_device_query data s).1 = Some q' ∧ len q < len q'.
Proof.
  intros Hd E Hq. unfold DeviceCommands._cmd_device_query.
  set (s1 := match data with v :: _ => with_app_target_ver v s | [] => s end).
  assert (described s1 ∧ _write_queue s1 = Some q) as [Hd1 E1] by (unfold s1; by destruct data).
  rewrite (py_bind_run _ _ s s1 tt) by (unfold s1; by destruct data).
  match goal with |- is_ok ((get ≫= ?k) s1).2 = true → _ => enough (answering (k s1)) as [_ Hm] by exact (Hm s1 q E1 Hq) end.
  cbv zeta. apply answering_lift. intros head Hh. apply answering_write. destruct Hd1 as (H1 & H2 & H3).
  rewrite !len_app, H1, H2, H3, (len_ints _ _ Hh). by vm_compute.
Qed.

Lemma answering_private_key data : answering (DeviceCommands._cmd_export_private_key sha512 signing_key data).
Proof.
  unfold DeviceCommands._cmd_export_private_key. cbv zeta. apply answering_write. rewrite len_app. change (len [RESP_CODE_PRIVATE_KEY]) with 1.
  unfold MAX_PAYLOAD_SIZE, MAX_FRAME_SIZE. match goal with |- 1 + len ?x ≤ _ => assert (len x ≤ 64); [|lia] end.
  destruct (len signing_key =? 32).
  - unfold DeviceCommands.ed25519_expand_seed_to_meshcore_64, DeviceCommands.x25519_clamp_scalar. cbv zeta. rewrite len_app.
    pose proof (len_slice_to_le (sha512 signing_key) 32 ltac:(lia)) as H1. unfold len at 1. rewrite length_imap.
    change (Z.of_nat (length (slice_to (sha512 signing_key) 32))) with (len (slice_to (sha512 signing_key) 32)).
    rewrite slice_nonneg by lia. unfold len at 2. rewrite length_take. lia.
  - destruct (len signing_key <? 64) eqn:E; bool_hyps; [|apply len_slice_to_le; lia].
    unfold ljust. rewrite len_app, len_zeros by lia. lia.
Qed.

Lemma handlers_answer now now' cmd h :
  _cmd_handlers stats_getter sha512 signing_key now now' cmd = Some h → variable_answer cmd = false →
  cmd ≠ CMD_GET_CHANNEL → cmd ≠ CMD_DEVICE_QUERY → ∀ data, answering (h data).
Proof.
  intros Hh Hv Hc Hc2 data. unfold _cmd_handlers in Hh.
  repeat match type of Hh with
  | (if ?b then _ else _) = Some _ =>
      let E := fresh in destruct b eqn:E;
      [injection Hh as <-; apply Z.eqb_eq in E; rewrite E in Hv, Hc, Hc2; clear E; try discriminate Hv; try done; clear Hv Hc Hc2|clear E]
  | None = Some _ => discriminate Hh
  end.
  all: lazymatch goal with
       | |- answering (DeviceCommands._cmd_get_stats _ _ _) => apply answering_get_stats
       | |- answering (MessagingCommands._cmd_send_telemetry_req _) => apply answering_telemetry
       | |- answering (DeviceCommands._cmd_get_default_flood_scope _) => apply answering_default_scope
       | |- answering (DeviceCommands._cmd_sign_finish _) => apply answering_sign_finish
       | |- answering (DeviceCommands._cmd_export_private_key _ _ _) => apply answering_private_key
       | |- _ => unfold_head; answer; try apply answering_write_contact
       end.
Qed.

(** C31: every command is answered. Whatever payload a client sends, known
    command or not, complete or not, and whatever the radio does, the server
    answers with at least one whole frame when its queue has room. Left out are
    only the six commands whose answer has no fixed size: the greeting with the
    node's name, the next message, a contact's advert, the custom variables, the
    repeat frequencies and an advert's path ([variable_answer]). The server is one
    made by its constructor, which gives its descriptions their sizes, and the
    channel table's size is not negative. *)
Theorem every_command_answered now now' payload s q :
  _write_queue s = Some q → len q < _WRITE_QUEUE_MAXSIZE → described s →
  0 ≤ ChannelStore._max_channels (Companion.channels (bridge s)) →
  variable_answer (match payload with cmd :: _ => cmd | [] => 0 end) = false →
  ∃ d more, _write_queue (_handle_cmd stats_getter sha512 signing_key now now' payload s)
            = Some (q ++ map (Some ∘ outbound) (d :: more))
    ∧ Forall (λ d, len d ≤ MAX_PAYLOAD_SIZE) (d :: more).
Proof.
  intros E Hq Hdesc Hn Hv.
  assert (∃ q', _write_queue (_handle_cmd stats_getter sha512 signing_key now now' payload s) = Some q' ∧ len q < len q')
    as (q' & E' & Hl).
  - assert (∀ c s1 q1, _write_queue s1 = Some q1 → len q ≤ len q1 → c = ERR_CODE_ILLEGAL_ARG ∨ c = ERR_CODE_UNSUPPORTED_CMD →
      ∃ q2, _write_queue (_write_err c s1).1 = Some q2 ∧ len q < len q2) as Herr.
    { intros c s1 q1 E1 L1 Hc. assert (_write_err c s1 = _write_frame [RESP_CODE_ERR; c] s1) as -> by (by destruct Hc as [-> | ->]).
      destruct (decide (len q1 < _WRITE_QUEUE_MAXSIZE)) as [Hr|Hr].
      - destruct (enqueue_grows [RESP_CODE_ERR; c] s1 q1 E1 Hr) as (q2 & E2 & L2); [by vm_compute|]. exists q2. split; [exact E2|lia].
      - destruct (appends_grows _ _ q1 (enqueue_appends [RESP_CODE_ERR; c] s1) E1) as (q2 & E2 & L2). exists q2. split; [exact E2|lia]. }
    unfold _handle_cmd. destruct payload as [|cmd data]; [by apply (Herr _ s q); auto|].
    destruct (_cmd_handlers _ _ _ now now' cmd) as [h|] eqn:Hh; [|by apply (Herr _ s q); auto].
    destruct (appends_grows _ _ q (handlers_append _ _ _ _ _ _ _ Hh data s) E) as (q1 & E1 & L1).
    assert (is_ok (h data s).2 = true → ∃ q', _write_queue (h data s).1 = Some q' ∧ len q < len q') as Hok.
    { destruct (decide (cmd = CMD_GET_CHANNEL)) as [->|Hc].
      - injection Hh as <-. by apply get_channel_answers.
      - destruct (decide (cmd = CMD_DEVICE_QUERY)) as [->|Hc2]; [injection Hh as <-; by apply device_query_answers|].
        destruct (handlers_answer _ _ _ _ Hh Hv Hc Hc2 data) as [_ Ha]. by apply Ha. }
    destruct (h data s) as [s1 [u|e]]; cbn [fst snd] in *; [by apply Hok|]. by apply (Herr _ s1 q1); auto.
  - pose proof (handle_cmd_appends stats_getter sha512 signing_key now now' payload s) as H. unfold appends in H.
    rewrite E, E' in H. destruct H as (ds & -> & Hds & _). destruct ds as [|d more].
    + rewrite app_nil_r in Hl. lia.
    + exists d, more. split; [done|exact Hds].
Qed.
End answers.

(** ** Concrete runs *)

(** A companion whose radio is off: what it sends fails. *)
Definition failed : SentResult := mkSentResult false false None None (Some "send_failed"%string).

Definition radio_off : CompanionSends := {|
  send_text_message _ _ _ _ _ := mret failed;
  send_channel_message _ _ _ := mret false;
  send_channel_data _ _ _ _ _ := mret false;
  send_binary_req _ _ := mret failed;
  send_anon_req _ _ := mret failed;
  send_control_data _ := mret false;
  send_path_discovery_req _ := mret failed;
  send_trace_path_raw _ _ _ _ := mret failed;
  send_raw_data_direct _ _ _ := mret failed;
  send_raw_packet _ _ := mret failed;
  start_frame_login_request _ _ := mret (NotStarted (Some "send_failed"%string));
  start_status_request _ := mret (NotStarted (Some "send_failed"%string));
  start_telemetry_request _ := mret (NotStarted (Some "send_failed"%string));
  has_login_connection _ := mret false;
  clear_login_connection _ c := c;
  send_logout _ := mret tt;
  advertise _ := mret false;
  share_contact _ := mret false
|}.

Definition demo_companion (cs : list Models.Contact) (ms : list Models.QueuedMessage) : Companion.t :=
  let id := PacketBuilder.mkIdentity (repeat 7 32) (repeat 8 32) (λ _, repeat 9 64) in
  Companion.mk Prefs.init id
    (AdvertIngest.mk (ContactStore.mk (map (λ c, (Models.public_key c, c)) cs) [] 10) (PathCache.init 4) [])
    (ChannelStore.init 2) (MessageQueue.mk ms 8) (StatsCollector.init f_zero) f_zero None None false [] [] 22 (Session.init id).

Definition demo_server (cs : list Models.Contact) (ms : list Models.QueuedMessage) (version : Z) : Server.t :=
  with_app_target_ver version
    (with_write_queue (Some []) (Server.init (demo_companion cs ms) [49] [50] [51] None)).

Definition demo_clock (n : nat) : float * float := (f_of_Z 1700000000, f_of_Z 1700000001).

Lemma client_stream_dispatched_witness :
  (@read_client_frames radio_off None (λ b, b) [] demo_clock (λ _, false) EndOfStream
     ([10; 13] ++ inbound [CMD_SIGN_START] ++ inbound [CMD_SIGN_DATA; 1; 2] ++ take 3 (inbound [CMD_SIGN_FINISH]))
     (demo_server [] [] 3)).2 = Some incomplete_read
  ∧ Companion._sign_buffer (bridge (@run_commands radio_off None (λ b, b) [] demo_clock 0
      [[CMD_SIGN_START]; [CMD_SIGN_DATA; 1; 2]] (demo_server [] [] 3))) = Some [1; 2].
Proof.
  destruct (@client_stream_dispatched radio_off None (λ b, b) [] demo_clock
    [Noise [10; 13]; Command [CMD_SIGN_START]; Command [CMD_SIGN_DATA; 1; 2]] [CMD_SIGN_FINISH] 3 EndOfStream
    (demo_server [] [] 3)) as [_ H].
  - constructor; [|constructor; [|constructor; [|constructor]]]; [|decide_now..].
    constructor; [decide_now|]. constructor; [decide_now|constructor].
  - split; [|reflexivity].
    assert (([10; 13] ++ inbound [CMD_SIGN_START] ++ inbound [CMD_SIGN_DATA; 1; 2] ++ take 3 (inbound [CMD_SIGN_FINISH]))
      = stream_bytes [Noise [10; 13]; Command [CMD_SIGN_START]; Command [CMD_SIGN_DATA; 1; 2]]
        ++ take 3 (inbound [CMD_SIGN_FINISH])) as -> by reflexivity.
    rewrite H; [reflexivity|decide_now|]. split; [apply Nat.lt_0_succ|apply Nat.lt_succ_diag_r].
Defined.

Definition demo_events : list server_event :=
  [MessageWaiting; Cmd f_one f_one [CMD_GET_BATT_AND_STORAGE]; Cmd f_one f_one [250]; ContactDeleted (repeat 5 32)].

Lemma server_output_framed_witness :
  ∃ ds, _write_queue (fold_left (@server_step radio_off None (λ b, b) []) demo_events (demo_server [] [] 3))
        = Some (map Some (map outbound ds))
    ∧ client_parse (S (length (map outbound ds))) (concat (map outbound ds)) = Some ds ∧ length ds = 4%nat.
Proof.
  destruct (@server_output_framed radio_off None (λ b, b) [] demo_events (demo_server [] [] 3) eq_refl)
    as (ds & H1 & _ & _ & H2 & _).
  exists ds. split; [exact H1|]. split; [exact H2|].
  assert (option_map (@length _) (_write_queue (fold_left (@server_step radio_off None (λ b, b) []) demo_events
    (demo_server [] [] 3))) = Some 4%nat) as E by reflexivity.
  rewrite H1 in E. cbn [option_map] in E. rewrite !length_map in E. injection E as E. exact E.
Defined.

Lemma every_command_answered_witness :
  ∃ d more, _write_queue (@_handle_cmd radio_off None (λ b, b) [] f_one f_one [CMD_DEVICE_QUERY; 3] (demo_server [] [] 3))
            = Some (map (Some ∘ outbound) (d :: more)) ∧ Forall (λ d, len d ≤ MAX_PAYLOAD_SIZE) (d :: more).
Proof.
  exact (@every_command_answered radio_off None (λ b, b) [] f_one f_one [CMD_DEVICE_QUERY; 3] (demo_server [] [] 3) []
    eq_refl eq_refl (init_described _ _ _ _ _) ltac:(discriminate) eq_refl).
Defined.
