(* ===== verification/FrameContacts.v ===== *)
(** * Contacts and messages in frames: theorems on [FrameServer]

    A client that reads the contacts and writes them back restores them; a
    queued message arrives in its frame; what the frames lose. *)

From stdpp Require Import gmap.
From S2P Require Import Prelude PyData Utf8 PyFloat ODict Constants PacketUtils Packet Crypto PacketFilter PacketBuilder Stores Contacts Telemetry NodeHandlers CompanionConfig FrameCodes FrameServer FrameStream.

Import Server Dispatch Models.

(** ** Fields of fixed width *)

Lemma encode_replace_ok s b : encode s = Ok b → encode_replace s = b.
Proof.
  revert b. induction s as [|c s IH]; intros b Hb; [by injection Hb as <-|].
  apply encode_cons_inv in Hb as (r & Hc & Hr & ->). unfold encode_replace in *. cbn [map concat]. by rewrite Hc, (IH _ Hr).
Qed.

(** A field, padded with NULs. *)
Lemma padded_field b n : len b ≤ n → ljust (slice_to b n) n = b ++ zeros (n - len b).
Proof. intros Hb. rewrite slice_to_ge by done. done. Qed.

(** ** One contact *)

(** A contact as the frame can hold it; [lat] and [lon] are its position in
    microdegrees. *)
Record framable (c : Contact) (lat lon : Z) : Prop := {
  fr_key : len (public_key c) = 32;
  fr_type : is_byte (adv_type c);
  fr_flags : is_byte (flags c);
  fr_route : out_path_len c = -1
             ∨ (0 ≤ out_path_len c < 255 ∧ PathUtils.get_path_byte_len (out_path_len c) = len (out_path c) ∧ len (out_path c) ≤ 64);
  fr_name : ∃ nb, encode (name c) = Ok nb ∧ len nb ≤ 32 ∧ 0 ∉ name c;
  fr_advert : 0 ≤ last_advert_timestamp c < 256 ^ 4;
  fr_lastmod : 0 ≤ lastmod c < 256 ^ 4;
  fr_lat : microdegrees (gps_lat c) = Ok lat ∧ - 2 ^ 31 ≤ lat < 2 ^ 31;
  fr_lon : microdegrees (gps_lon c) = Ok lon ∧ - 2 ^ 31 ≤ lon < 2 ^ 31
}.

(** What comes back in a frame; a path without a length does not. *)
Definition restored (lat lon : Z) (c : Contact) : Contact :=
  mkContact (public_key c) (name c) (adv_type c) (flags c) (out_path_len c) (if out_path_len c =? -1 then [] else out_path c)
    (last_advert_timestamp c) (lastmod c) (degrees lat) (degrees lon) 0 None.

(** The layout of a contact body. *)
Lemma contact_layout (k h op nb la lat lon lm : bytes) :
  len k = 32 → len h = 3 → len op = 64 → len nb = 32 → len la = 4 → len lat = 4 → len lon = 4 → len lm = 4 →
  let d := k ++ h ++ op ++ nb ++ la ++ lat ++ lon ++ lm in
  len d = 147 ∧ slice d 0 32 = k ∧ slice d 32 35 = h ∧ slice d 35 99 = op ∧ slice d 99 131 = nb ∧ slice d 131 135 = la
  ∧ slice d 135 139 = lat ∧ slice d 139 143 = lon ∧ slice d 143 147 = lm.
Proof.
  intros H1 H2 H3 H4 H5 H6 H7 H8 d. split_and!.
  - unfold d. rewrite !len_app. lia.
  - apply (slice_app_exact []); [done|by rewrite H1].
  - apply (slice_app_exact k); lia.
  - unfold d. rewrite (app_assoc k). apply slice_app_exact; rewrite ?len_app; lia.
  - unfold d. rewrite (app_assoc k), (app_assoc (k ++ h)). apply slice_app_exact; rewrite ?len_app; lia.
  - unfold d. rewrite (app_assoc k), (app_assoc (k ++ h)), (app_assoc ((k ++ h) ++ op)). apply slice_app_exact; rewrite ?len_app; lia.
  - unfold d. rewrite (app_assoc k), (app_assoc (k ++ h)), (app_assoc ((k ++ h) ++ op)), (app_assoc (((k ++ h) ++ op) ++ nb)).
    apply slice_app_exact; rewrite ?len_app; lia.
  - unfold d. rewrite (app_assoc k), (app_assoc (k ++ h)), (app_assoc ((k ++ h) ++ op)), (app_assoc (((k ++ h) ++ op) ++ nb)),
      (app_assoc ((((k ++ h) ++ op) ++ nb) ++ la)). apply slice_app_exact; rewrite ?len_app; lia.
  - unfold d. rewrite (app_assoc k), (app_assoc (k ++ h)), (app_assoc ((k ++ h) ++ op)), (app_assoc (((k ++ h) ++ op) ++ nb)),
      (app_assoc ((((k ++ h) ++ op) ++ nb) ++ la)), (app_assoc (((((k ++ h) ++ op) ++ nb) ++ la) ++ lat)).
    rewrite <- (app_nil_r lm) at 1. apply slice_app_exact; rewrite ?len_app; lia.
Qed.

Lemma index_head h0 h1 h2 (k rest : bytes) :
  len k = 32 → let d := k ++ [h0; h1; h2] ++ rest in index d 32 = Ok h0 ∧ index d 33 = Ok h1 ∧ index d 34 = Ok h2.
Proof.
  intros Hk d. unfold d. cbn [app]. split_and!; [by apply index_app_exact|..].
  - change (k ++ h0 :: h1 :: h2 :: rest) with (k ++ [h0] ++ h1 :: h2 :: rest). rewrite app_assoc.
    apply index_app_exact. rewrite len_app, Hk. done.
  - change (k ++ h0 :: h1 :: h2 :: rest) with (k ++ [h0; h1] ++ h2 :: rest). rewrite app_assoc.
    apply index_app_exact. rewrite len_app, Hk. done.
Qed.

(** A framable contact comes back from its frame. *)
Lemma contact_frame_restored c lat lon now :
  framable c lat lon →
  ∃ d, Frames._encode_contact_fields c = Ok d ∧ len d = 147
    ∧ ContactCommands.contact_of_frame now d = Ok (restored lat lon c).
Proof.
  intros [Hk Ht Hf Hr (nb & Hn & Hnl & H0) Ha Hm [Hlat Blat] [Hlon Blon]].
  destruct (pack_i_ok lat Blat) as (blat & Plat & Llat & Vlat). destruct (pack_i_ok lon Blon) as (blon & Plon & Llon & Vlon).
  set (opl := if out_path_len c <? 0 then OUT_PATH_UNKNOWN else Z.min (out_path_len c) 255).
  assert (is_byte opl ∧ (if opl =? OUT_PATH_UNKNOWN then -1 else opl) = out_path_len c) as [Ho Hoe].
  { unfold opl, is_byte, OUT_PATH_UNKNOWN. destruct Hr as [->|[Hr _]]; [done|].
    replace (out_path_len c <? 0) with false by lia. replace (Z.min (out_path_len c) 255) with (out_path_len c) by lia.
    replace (out_path_len c =? 255) with false by lia. lia. }
  set (k := public_key c) in *. set (op := ljust (slice_to (out_path c) 64) 64). set (nf := nb ++ zeros (32 - len nb)).
  pose proof (len_nonneg (out_path c)). pose proof (len_nonneg nb).
  destruct (contact_layout k [adv_type c; flags c; opl] op nf (le_bytes 4 (last_advert_timestamp c)) blat blon
    (le_bytes 4 (lastmod c))) as (L & S0 & _ & S1 & S2 & S3 & S4 & S5 & S6); try done.
  { by apply len_ljust. } { unfold nf. rewrite len_app, len_zeros; lia. }
  destruct (index_head (adv_type c) (flags c) opl k
    (op ++ nf ++ le_bytes 4 (last_advert_timestamp c) ++ blat ++ blon ++ le_bytes 4 (lastmod c)) Hk) as (I0 & I1 & I2).
  cbv zeta in *. set (d := k ++ _) in *.
  exists d. split; [|split; [exact L|]].
  - unfold Frames._encode_contact_fields. fold opl. rewrite bytes_of_ints_ok by (rewrite !bytes_ok_cons; auto using bytes_ok_nil).
    rewrite Hlat, Hlon. cbn [mbind res_bind]. rewrite Plat, Plon. unfold pack_I. rewrite !pack_uint_ok by done. cbn [mbind res_bind].
    rewrite (encode_replace_ok _ _ Hn). fold k. unfold PUB_KEY_SIZE, MAX_PATH_SIZE, CONTACT_NAME_SIZE.
    fold op. rewrite !padded_field by lia. replace (32 - len k) with 0 by lia. change (zeros 0) with (@nil Z). rewrite app_nil_r. done.
  - unfold ContactCommands.contact_of_frame. rewrite I0, I1, I2. cbn [mbind res_bind]. rewrite Hoe.
    unfold PUB_KEY_SIZE, MAX_PATH_SIZE, CONTACT_NAME_SIZE. rewrite L. cbv zeta.
    change (35 + 64) with 99. change (99 + 32) with 131. change (Z.min 147 99) with 99. change (131 + 4) with 135.
    change (135 + 8) with 143. change (135 + 12) with 147. change (131 + 8) with 139. change (131 + 12) with 143.
    change (147 >=? 131) with true. change (147 >=? 135) with true. change (147 >=? 143) with true. change (147 >=? 147) with true.
    cbn iota. unfold u32_at, i32_at. change (131 + 4) with 135. change (135 + 4) with 139. change (139 + 4) with 143.
    change (143 + 4) with 147. rewrite S0, S1, S2, S3, S4, S5, S6, Vlat, Vlon, !from_le_le_bytes by done.
    unfold nf. rewrite (before_nul_app_zeros nb) by (first [by eapply nul_free_encode | apply zeros_start]).
    rewrite (decode_replace_encode _ _ Hn). unfold restored. do 2 f_equal.
    destruct Hr as [E1|(E1 & E2 & E3)].
    + rewrite E1. change (slice_to op 0 = []). by rewrite slice_to_nonneg.
    + replace (out_path_len c >=? 0) with true by lia. replace (out_path_len c =? -1) with false by lia. rewrite E2. unfold op.
      rewrite padded_field by done. by rewrite slice_to_app_exact.
Qed.

(** ** All contacts *)

Definition micro (x : float) : Z := match microdegrees x with Ok z => z | Err _ => 0 end.
Definition frames_ok (c : Contact) : Prop := framable c (micro (gps_lat c)) (micro (gps_lon c)).
Definition read_back (c : Contact) : Contact := restored (micro (gps_lat c)) (micro (gps_lon c)) c.

(** In the store that is written at the time [t], which stamps a contact without a
    time of its last change. *)
Definition comes_back (t : Z) (c : Contact) : Contact :=
  if lastmod c =? 0 then Companion.with_lastmod t (read_back c) else read_back c.

Lemma write_frame_exact d s q :
  _write_queue s = Some q → len q < _WRITE_QUEUE_MAXSIZE → len d ≤ MAX_PAYLOAD_SIZE →
  _write_frame d s = (with_write_queue (Some (q ++ [Some (outbound d)])) s, Ok tt).
Proof.
  intros E Hq Hd. unfold _write_frame, modify, _enqueue_frame. rewrite E.
  replace (len d >? MAX_PAYLOAD_SIZE) with false by lia. by replace (len q >=? _WRITE_QUEUE_MAXSIZE) with false by lia.
Qed.

Lemma write_contacts_exact l s q :
  _write_queue s = Some q → Forall frames_ok l → len q + len l ≤ _WRITE_QUEUE_MAXSIZE →
  ∃ ds, Forall2 (λ c d, Frames._encode_contact_fields c = Ok d) l ds
    ∧ ContactCommands.write_contacts l s
      = (with_write_queue (Some (q ++ map (λ d, Some (outbound (RESP_CODE_CONTACT :: d))) ds)) s, Ok tt).
Proof.
  revert s q. induction l as [|c l IH]; intros s q E Hl Hq; cbn [ContactCommands.write_contacts].
  - exists []. split; [done|]. cbn [map]. rewrite app_nil_r, <- E. by destruct s.
  - apply list.Forall_cons in Hl as [Hc Hl]. rewrite len_cons in Hq. pose proof (len_nonneg l).
    destruct (contact_frame_restored c _ _ 0 Hc) as (d & Hd & Hdl & _).
    destruct (IH (with_write_queue (Some (q ++ [Some (outbound (RESP_CODE_CONTACT :: d))])) s)
      (q ++ [Some (outbound (RESP_CODE_CONTACT :: d))])) as (ds & H1 & H2); [done..|by rewrite len_app, len_cons, len_nil; lia|].
    exists (d :: ds). split; [by constructor|]. unfold ContactCommands._write_contact_frame. unfold mbind, py_bind at 1 2, lift.
    rewrite Hd. cbn [app]. rewrite (write_frame_exact _ s q) by (done || lia || (rewrite len_cons, Hdl; by vm_compute)).
    rewrite H2. cbn [map]. by rewrite <- app_assoc.
Qed.

(** Writing a contact to a store that does not have it. *)
Lemma restore_step `{CS : CompanionSends} stats_getter sha512 signing_key now now' t d c r :
  int_of_float now = Ok t → len d = 147 → ContactCommands.contact_of_frame t d = Ok c →
  let store := Companion.contacts (bridge r) in
  dmem (public_key c) (ContactStore._contacts store) = false →
  len (ContactStore._contacts store) < ContactStore._max_contacts store →
  let r' := _handle_cmd stats_getter sha512 signing_key now now' (CMD_ADD_UPDATE_CONTACT :: d) r in
  let store' := Companion.contacts (bridge r') in
  ContactStore._contacts store'
  = ContactStore._contacts store ++ [(public_key c, if lastmod c =? 0 then Companion.with_lastmod t c else c)]
  ∧ ContactStore._max_contacts store' = ContactStore._max_contacts store.
Proof.
  intros Ht Hd Hc store Hf Hroom r' store'. subst r' store'. unfold _handle_cmd.
  change (_cmd_handlers stats_getter sha512 signing_key now now' CMD_ADD_UPDATE_CONTACT)
    with (Some (ContactCommands._cmd_add_update_contact now)). cbn iota.
  unfold ContactCommands._cmd_add_update_contact. rewrite Hd. change (147 <? 36) with false. cbn iota.
  unfold mbind, py_bind, lift. rewrite Ht, Hc. unfold on_bridge_, Companion.add_update_contact.
  set (c' := if lastmod c =? 0 then _ else c). assert (public_key c' = public_key c) as Hk by (unfold c'; by destruct (lastmod c =? 0)).
  fold store. unfold ContactStore.add. rewrite Hk, Hf.
  replace (len (ContactStore._contacts store) >=? ContactStore._max_contacts store) with false by lia.
  set (s1 := with_bridge _ r). assert (Companion.contacts (bridge s1) = ContactStore.put c' store) as E1 by done.
  assert (∀ s2, bridge s2 = bridge s1 →
    ContactStore._contacts (Companion.contacts (bridge s2)) = ContactStore._contacts store ++ [(public_key c, c')]
    ∧ ContactStore._max_contacts (Companion.contacts (bridge s2)) = ContactStore._max_contacts store) as H.
  { intros s2 ->. rewrite E1. unfold ContactStore.put. cbn [ContactStore._contacts ContactStore._max_contacts].
    by rewrite Hk, dset_fresh. }
  unfold outcome, _write_ok, _write_frame, modify. cbn [fst snd]. apply H. unfold _enqueue_frame.
  destruct (_write_queue s1); [|done]. destruct (_ >? _); [done|]. by destruct (_ >=? _).
Qed.

Section dump.
Context `{CS : CompanionSends} (stats_getter : option (Z → res (list (string * DeviceCommands.num))))
  (sha512 : bytes → bytes) (signing_key : bytes) (now now' : float).
Local Abbreviation handle := (_handle_cmd stats_getter sha512 signing_key now now').

Lemma restore_all t l ds r :
  int_of_float now = Ok t → Forall frames_ok l → NoDup (map public_key l) →
  Forall2 (λ c d, Frames._encode_contact_fields c = Ok d) l ds →
  let store := Companion.contacts (bridge r) in
  (∀ c, c ∈ l → dmem (public_key c) (ContactStore._contacts store) = false) →
  len (ContactStore._contacts store) + len l ≤ ContactStore._max_contacts store →
  ContactStore._contacts (Companion.contacts (bridge (fold_left (λ r d, handle (CMD_ADD_UPDATE_CONTACT :: d) r) ds r)))
  = ContactStore._contacts store ++ map (λ c, (public_key c, comes_back t c)) l.
Proof.
  intros Ht Hl Hnd H2. revert r Hl Hnd. induction H2 as [|c d l ds Hd _ IH]; intros r Hl Hnd store Hfresh Hroom.
  - cbn [fold_left map]. by rewrite app_nil_r.
  - apply list.Forall_cons in Hl as [Hc Hl]. cbn [map] in Hnd. apply list.NoDup_cons in Hnd as [Hn Hnd].
    destruct (contact_frame_restored c _ _ t Hc) as (d' & Hd' & Hdl & Hcf). rewrite Hd in Hd'. injection Hd' as <-.
    rewrite len_cons in Hroom. pose proof (len_nonneg l).
    destruct (restore_step stats_getter sha512 signing_key now now' t d (read_back c) r) as [E1 E2]; try done;
      [by apply (Hfresh c); left|by fold store; lia|].
    cbn [fold_left]. fold store in E1, E2. set (r1 := handle _ r) in *. rewrite IH; [|done..| |].
    + cbn [map]. rewrite E1, <- app_assoc. done.
    + intros c' Hc'. rewrite E1. unfold dmem. rewrite dget_app. pose proof (Hfresh c' ltac:(by right)) as Hf. unfold dmem in Hf.
      fold store in Hf. destruct (dget (public_key c') (ContactStore._contacts store)); [done|]. cbn [dget].
      rewrite decide_False; [done|]. intros E. apply Hn. change (public_key (read_back c)) with (public_key c) in E.
      rewrite <- E. by apply list_elem_of_fmap_2.
    + rewrite E1, E2, len_app, len_cons, len_nil. lia.
Qed.

Lemma most_recent_range l : Forall frames_ok l → 0 ≤ ContactCommands.most_recent l < 256 ^ 4.
Proof.
  intros Hl. unfold ContactCommands.most_recent. destruct l as [|c l]; [done|]. cbn [map].
  apply list.Forall_cons in Hl as [Hc Hl]. apply fr_lastmod in Hc. revert Hc. generalize (lastmod c) as m.
  induction Hl as [|c' l Hc' _ IH]; intros m Hm; cbn [map fold_left]; [done|]. apply IH. apply fr_lastmod in Hc'. lia.
Qed.

(** C33: a client can back up the contacts and restore them. Reading them gives a
    start frame with their number, one frame each in order, and an end frame
    with the latest change; writing the bodies of those frames to a node that has
    none of them and has room adds the same contacts in the same order, routes and
    flooded contacts alike, behind those it has. Positions come back as the frames
    rounded them; the sync point and the stored advert, which the frames do not
    carry, do not come back, nor does a path stored without a length; and a contact
    without a time of its last change gets the time of the restoration. The
    contacts must be such that a frame can hold them: a key of 32 bytes and a name
    of at most 32 bytes in UTF-8 without NUL (a longer one is cut, which 32
    characters outside ASCII are), a type and flags of a byte, a route whose length
    is -1 or that of its path, times of 32 bits, a position on the globe; keys
    differ, and all frames fit the queue of the connection. *)
Theorem contacts_dump_restores t cs s r :
  Companion.get_contacts 0 (bridge s) = cs → Forall frames_ok cs → NoDup (map public_key cs) →
  len cs + 2 ≤ _WRITE_QUEUE_MAXSIZE → _write_queue s = Some [] →
  let store := Companion.contacts (bridge r) in
  (∀ c, c ∈ cs → dmem (public_key c) (ContactStore._contacts store) = false) →
  len (ContactStore._contacts store) + len cs ≤ ContactStore._max_contacts store → int_of_float now = Ok t →
  ∃ ds, _write_queue (handle [CMD_GET_CONTACTS] s)
        = Some (map (Some ∘ outbound) ((RESP_CODE_CONTACTS_START :: le_bytes 4 (len cs))
                                        :: map (cons RESP_CODE_CONTACT) ds
                                        ++ [RESP_CODE_END_OF_CONTACTS :: le_bytes 4 (ContactCommands.most_recent cs)]))
    ∧ ContactStore.get_all 0 (Companion.contacts (bridge (fold_left (λ r d, handle (CMD_ADD_UPDATE_CONTACT :: d) r) ds r)))
      = ContactStore.get_all 0 store ++ map (comes_back t) cs.
Proof.
  intros Hcs Hok Hnd Hq E store Hfresh Hroom Ht. pose proof (len_nonneg cs). unfold _WRITE_QUEUE_MAXSIZE in Hq.
  set (s1 := with_write_queue (Some [Some (outbound (RESP_CODE_CONTACTS_START :: le_bytes 4 (len cs)))]) s).
  destruct (write_contacts_exact cs s1 _ eq_refl Hok) as (ds & H2 & Hw); [by rewrite len_cons, len_nil; unfold _WRITE_QUEUE_MAXSIZE; lia|].
  exists ds. split.
  - unfold _handle_cmd. change (_cmd_handlers stats_getter sha512 signing_key now now' CMD_GET_CONTACTS)
      with (Some ContactCommands._cmd_get_contacts). cbn iota.
    unfold ContactCommands._cmd_get_contacts. change (len [] >=? 4) with false. cbn iota zeta.
    assert (Companion.get_contact_count (bridge s) = len cs) as Hcount.
    { rewrite <- Hcs. done. }
    unfold mbind, py_bind, get, lift. cbv beta iota. rewrite Hcount, Hcs. unfold pack_I. rewrite !pack_uint_ok by (apply most_recent_range || lia; done).
    cbn [app]. rewrite (write_frame_exact _ s []) by done. cbn [app]. fold s1. rewrite Hw.
    set (q1 := [_] ++ map _ ds). rewrite (write_frame_exact _ _ q1); [|reflexivity|..].
    + unfold q1. cbn [fst snd _write_queue with_write_queue map app]. do 2 f_equal. rewrite !map_app, map_map. done.
    + unfold q1. rewrite len_app. unfold len. rewrite length_map. pose proof (Forall2_length _ _ _ H2). unfold len in *. cbn [length].
      unfold _WRITE_QUEUE_MAXSIZE. lia.
    + by vm_compute.
  - unfold ContactStore.get_all. change (0 =? 0) with true. cbn iota. rewrite (restore_all t cs ds r); try done.
    unfold dvalues. by rewrite map_app, map_map.
Qed.
End dump.

(** ** Concrete run *)

(** A contact two hops away, with its position. *)
Definition demo_contact : Contact :=
  mkContact (repeat 1 32) [65; 233] 1 2 2 [10; 11] 1700000000 1700000100 (degrees 51500000) (degrees (-120000)) 0 None.
Definition demo_source : Server.t := demo_server [demo_contact] [] 3.

Lemma demo_framable : frames_ok demo_contact.
Proof.
  split; [decide_now..| | |decide_now|decide_now|split; [reflexivity|decide_now]|split; [reflexivity|decide_now]].
  - right. split; [decide_now|]. split; [reflexivity|decide_now].
  - exists [65; 195; 169]. split; [reflexivity|]. split; [decide_now|]. decide_now.
Qed.

Lemma contacts_dump_restores_witness :
  ∃ d, _write_queue (@_handle_cmd radio_off None (λ b, b) [] f_one f_one [CMD_GET_CONTACTS] demo_source)
       = Some (map (Some ∘ outbound) ([RESP_CODE_CONTACTS_START; 1; 0; 0; 0] :: [RESP_CODE_CONTACT :: d]
                                       ++ [RESP_CODE_END_OF_CONTACTS :: le_bytes 4 1700000100]))
    ∧ ContactStore.get_all 0 (Companion.contacts (bridge
        (@_handle_cmd radio_off None (λ b, b) [] f_one f_one (CMD_ADD_UPDATE_CONTACT :: d) (demo_server [] [] 3))))
      = [comes_back 1 demo_contact].
Proof.
  destruct (@contacts_dump_restores radio_off None (λ b, b) [] f_one f_one 1 [demo_contact] demo_source (demo_server [] [] 3))
    as (ds & H1 & H2).
  - reflexivity.
  - constructor; [exact demo_framable|constructor].
  - decide_now.
  - decide_now.
  - reflexivity.
  - intros c _. reflexivity.
  - decide_now.
  - reflexivity.
  - assert (option_map (@length _) (_write_queue (@_handle_cmd radio_off None (λ b, b) [] f_one f_one [CMD_GET_CONTACTS]
      demo_source)) = Some 3%nat) as E by reflexivity.
    rewrite H1 in E. cbn [option_map map length] in E. rewrite length_map, length_app, length_map in E.
    destruct ds as [|d [|d' ds]]; [discriminate E| |cbn in E; injection E as E; rewrite Nat.add_1_r in E; discriminate E].
    exists d. split; [exact H1|exact H2].
Defined.

(** A position moves by a microdegree when it is read and written back. *)
Example position_drifts : micro (degrees 249) = 248.
Proof. reflexivity. Qed.
