(* ===== verification/FrameMessages.v ===== *)
(** * Messages in frames: theorems on [FrameServer]

    The client takes the queued messages one by one, each as it was received;
    a message too long for a frame is taken from the queue and lost. *)

From stdpp Require Import gmap.
From S2P Require Import Prelude PyData Utf8 PyFloat ODict Constants PacketUtils Packet Crypto PacketFilter PacketBuilder Stores Contacts Telemetry NodeHandlers CompanionConfig FrameCodes FrameServer FrameStream FrameContacts.

Import Server Dispatch Models MessagingCommands.

(** ** What a client reads *)

Inductive client_message : Type :=
| ClientText (snr : option Z) (sender : bytes) (path_byte txt_type timestamp : Z) (author : bytes) (text : pystr)
| ClientChannelText (snr : option Z) (channel_idx path_byte timestamp : Z) (text : pystr)
| ClientChannelData (snr channel_idx path_byte data_type : Z) (payload : bytes).

Definition signed (b : Z) : Z := if b >=? 128 then b - 256 else b.

(** The body of a direct message, after the header. *)
Definition read_direct (snr : option Z) (b : bytes) : option client_message :=
  match slice b 6 8 with
  | [path_byte; ty] =>
      let rest := slice_from b 12 in
      let '(author, t) := if ty =? TXT_TYPE_SIGNED_PLAIN then (slice_to rest 4, slice_from rest 4) else ([], rest) in
      Some (ClientText snr (slice_to b 6) path_byte ty (from_le (slice b 8 12)) author (decode_replace t))
  | _ => None
  end.

Definition read_channel (snr : option Z) (b : bytes) : option client_message :=
  match slice_to b 3 with
  | [idx; path_byte; _] => Some (ClientChannelText snr idx path_byte (from_le (slice b 3 7)) (decode_replace (slice_from b 7)))
  | _ => None
  end.

Definition read_data (snr : Z) (b : bytes) : option client_message :=
  match slice_to b 2, slice b 4 5 with
  | [idx; path_byte], [n] =>
      let payload := slice_from b 5 in
      if len payload =? n then Some (ClientChannelData snr idx path_byte (from_le (slice b 2 4)) payload) else None
  | _, _ => None
  end.

Definition client_read (frame : bytes) : option client_message :=
  match frame with
  | code :: b =>
      if code =? RESP_CODE_CONTACT_MSG_RECV then read_direct None b
      else if code =? RESP_CODE_CHANNEL_MSG_RECV then read_channel None b
      else
        match slice_to b 3 with
        | [snr; _; _] =>
            let b := slice_from b 3 in
            if code =? RESP_CODE_CONTACT_MSG_RECV_V3 then read_direct (Some (signed snr)) b
            else if code =? RESP_CODE_CHANNEL_MSG_RECV_V3 then read_channel (Some (signed snr)) b
            else if code =? RESP_CODE_CHANNEL_DATA_RECV then read_data (signed snr) b
            else None
        | _ => None
        end
  | [] => None
  end.

Lemma client_read_snr code sb b :
  client_read ([code; sb; 0; 0] ++ b)
  = if code =? RESP_CODE_CONTACT_MSG_RECV then read_direct None ([sb; 0; 0] ++ b)
    else if code =? RESP_CODE_CHANNEL_MSG_RECV then read_channel None ([sb; 0; 0] ++ b)
    else if code =? RESP_CODE_CONTACT_MSG_RECV_V3 then read_direct (Some (signed sb)) b
    else if code =? RESP_CODE_CHANNEL_MSG_RECV_V3 then read_channel (Some (signed sb)) b
    else if code =? RESP_CODE_CHANNEL_DATA_RECV then read_data (signed sb) b
    else None.
Proof.
  change ([code; sb; 0; 0] ++ b) with (code :: [sb; 0; 0] ++ b). unfold client_read.
  by rewrite (slice_to_app_exact [sb; 0; 0]), (slice_from_app_exact [sb; 0; 0]).
Qed.

Lemma read_data_body snr i p ty (d : bytes) :
  0 ≤ ty < 256 ^ 2 → read_data snr ([i; p] ++ le_bytes 2 ty ++ [len d] ++ d) = Some (ClientChannelData snr i p ty d).
Proof.
  intros Hty. unfold read_data. set (b := _ ++ _).
  assert (slice_to b 2 = [i; p]) as -> by (by apply slice_to_app_exact).
  assert (slice b 4 5 = [len d]) as -> by (by apply (slice_app_exact ([i; p] ++ le_bytes 2 ty) [len d] d)).
  assert (slice_from b 5 = d) as -> by (by apply (slice_from_app_exact ([i; p] ++ le_bytes 2 ty ++ [len d]) d)).
  assert (slice b 2 4 = le_bytes 2 ty) as -> by (by apply (slice_app_exact [i; p])).
  by rewrite Z.eqb_refl, from_le_le_bytes.
Qed.

(** ** Messages a frame can carry *)

(** The text as it is sent. *)
Definition sent_text (m : QueuedMessage) : pystr := if is_channel m then rstrip_nul (text m) else text m.

(** What the frames of each kind of message ask of it: a channel message has no
    sender's key, and only a signed post has an author. *)
Record message_ok (m : QueuedMessage) (z : Z) (b : bytes) : Prop := {
  mo_snr : quarter_db (snr m) = Ok z;
  mo_channel : is_byte (channel_idx m);
  mo_path : 0 ≤ Models.path_len m;
  mo_type : is_byte (txt_type m);
  mo_ts : 0 ≤ timestamp m < 256 ^ 4;
  mo_text : encode (sent_text m) = Ok b;
  mo_sender : is_channel m = false → 6 ≤ len (sender_key m);
  mo_author : is_channel m = false → txt_type m = TXT_TYPE_SIGNED_PLAIN → len (sender_prefix m) = 4;
  mo_data_type : 0 ≤ channel_data_type m < 256 ^ 2;
  mo_payload : len (channel_data_payload m) ≤ MAX_CHANNEL_DATA_LENGTH
}.

(** What the client reads of it; [v] is the protocol version it asked for. *)
Definition as_read (v z : Z) (m : QueuedMessage) : client_message :=
  let q := if v >=? 3 then Some z else None in
  if is_channel m then
    if channel_data_type m =? 0 then ClientChannelText q (channel_idx m) (path_len_byte m) (timestamp m) (sent_text m)
    else ClientChannelData z (channel_idx m) (path_len_byte m) (channel_data_type m) (channel_data_payload m)
  else ClientText q (slice_to (sender_key m) 6) (path_len_byte m) (txt_type m) (timestamp m)
         (if txt_type m =? TXT_TYPE_SIGNED_PLAIN then sender_prefix m else []) (sent_text m).

Lemma quarter_db_range x z : quarter_db x = Ok z → -128 ≤ z ≤ 127.
Proof. unfold quarter_db. intros H. res_inv. lia. Qed.

(** The SNR byte. *)
Lemma snr_byte z :
  -128 ≤ z ≤ 127 → is_byte (Z.land (if z <? 0 then z + 256 else z) 0xFF)
                   ∧ signed (Z.land (if z <? 0 then z + 256 else z) 0xFF) = z.
Proof.
  intros Hz. change 0xFF with 255. rewrite land_255. unfold is_byte, signed.
  destruct (z <? 0) eqn:E; bool_hyps; [destruct ((z + 256) mod 256 >=? 128) eqn:E1 | destruct (z mod 256 >=? 128) eqn:E1];
    bool_hyps; zdm.
Qed.

Lemma path_byte_ok m : 0 ≤ Models.path_len m → is_byte (path_len_byte m).
Proof. unfold path_len_byte, is_byte. destruct (_ <? _) eqn:E; bool_hyps; lia. Qed.

Lemma read_direct_body snr k p ty ts (e t : bytes) s :
  len k = 6 → 0 ≤ ts < 256 ^ 4 → encode s = Ok t → len e = (if ty =? TXT_TYPE_SIGNED_PLAIN then 4 else 0) →
  read_direct snr (k ++ [p; ty] ++ le_bytes 4 ts ++ e ++ t) = Some (ClientText snr k p ty ts e s).
Proof.
  intros Hk Hts Ht He. unfold read_direct. set (b := k ++ _).
  assert (slice b 6 8 = [p; ty]) as -> by (apply slice_app_exact; by rewrite Hk).
  assert (slice_to b 6 = k) as -> by (by apply slice_to_app_exact).
  assert (slice b 8 12 = le_bytes 4 ts) as ->.
  { unfold b. rewrite (app_assoc k). apply slice_app_exact; by rewrite len_app, Hk. }
  assert (slice_from b 12 = e ++ t) as ->.
  { unfold b. rewrite (app_assoc k), (app_assoc (k ++ _)). apply slice_from_app_exact. by rewrite !len_app, Hk. }
  rewrite from_le_le_bytes by done. destruct (ty =? TXT_TYPE_SIGNED_PLAIN).
  - rewrite slice_to_app_exact, slice_from_app_exact by done. by rewrite (decode_replace_encode _ _ Ht).
  - apply len_zero_iff in He as ->. cbn [app]. by rewrite (decode_replace_encode _ _ Ht).
Qed.

Lemma read_channel_body snr i p x ts (t : bytes) s :
  0 ≤ ts < 256 ^ 4 → encode s = Ok t →
  read_channel snr ([i; p; x] ++ le_bytes 4 ts ++ t) = Some (ClientChannelText snr i p ts s).
Proof.
  intros Hts Ht. unfold read_channel. set (b := _ ++ _).
  assert (slice_to b 3 = [i; p; x]) as -> by (by apply slice_to_app_exact).
  assert (slice b 3 7 = le_bytes 4 ts) as -> by (by apply slice_app_exact).
  assert (slice_from b 7 = t) as -> by (unfold b; rewrite app_assoc; by apply slice_from_app_exact).
  by rewrite from_le_le_bytes, (decode_replace_encode _ _ Ht).
Qed.

(** The size of the frame. *)
Definition frame_len (v : Z) (m : QueuedMessage) (b : bytes) : Z :=
  if is_channel m then
    if channel_data_type m =? 0 then (if v >=? 3 then 11 else 8) + len b else 9 + len (channel_data_payload m)
  else (if v >=? 3 then 16 else 13) + (if txt_type m =? TXT_TYPE_SIGNED_PLAIN then 4 else 0) + len b.

Ltac byte_list := rewrite ?bytes_ok_cons; repeat (split; [first [assumption|done]|]); apply bytes_ok_nil.

Lemma message_frame v m z b :
  message_ok m z b →
  ∃ d, _build_message_frame m v = Ok d ∧ len d = frame_len v m b ∧ client_read d = Some (as_read v z m).
Proof.
  intros [Hs Hc Hp Hty Hts Htx Hk Ha Hd Hpl]. pose proof (quarter_db_range _ _ Hs) as Hz.
  destruct (snr_byte z Hz) as [Sb Sv]. pose proof (path_byte_ok m Hp) as Pb.
  unfold _build_message_frame, frame_len, as_read, sent_text in *. rewrite Hs. cbn [mbind res_bind].
  set (sb := Z.land _ 0xFF) in *. clearbody sb. set (pb := path_len_byte m) in *. clearbody pb.
  destruct (is_channel m).
  - destruct (channel_data_type m =? 0) eqn:E; cbn [negb].
    + rewrite (encode_replace_ok _ _ Htx). unfold pack_I. rewrite pack_uint_ok by done.
      destruct (v >=? 3) eqn:Ev; (rewrite bytes_of_ints_ok by byte_list);
        cbn [mbind res_bind]; eexists; (split; [reflexivity|]); (split; [rewrite !len_app, len_le_bytes, !len_cons, len_nil; lia|]).
      * change (client_read _) with
          (client_read ([RESP_CODE_CHANNEL_MSG_RECV_V3; sb; 0; 0] ++ [channel_idx m; pb; 0] ++ le_bytes 4 (timestamp m) ++ b)).
        by rewrite client_read_snr, (read_channel_body _ _ _ _ _ _ _ Hts Htx), Sv.
      * change (client_read _) with (read_channel None ([channel_idx m; pb; 0] ++ le_bytes 4 (timestamp m) ++ b)).
        by rewrite (read_channel_body _ _ _ _ _ _ _ Hts Htx).
    + set (p := channel_data_payload m) in *. rewrite (slice_to_ge p) by done.
      rewrite bytes_of_ints_ok by byte_list.
      change 0xFFFF with (Z.ones 16). rewrite Z.land_ones by done.
      unfold pack_H. rewrite pack_uint_ok by zdm. cbn [mbind res_bind]. eexists. split; [reflexivity|].
      split; [rewrite !len_app, len_le_bytes, !len_cons, len_nil; lia|].
      rewrite (Z.mod_small (channel_data_type m)) by done.
      change (client_read _) with
        (client_read ([RESP_CODE_CHANNEL_DATA_RECV; sb; 0; 0]
                        ++ [channel_idx m; pb] ++ le_bytes 2 (channel_data_type m) ++ [len p] ++ p)).
      by rewrite client_read_snr, read_data_body, Sv.
  - specialize (Hk eq_refl). specialize (Ha eq_refl).
    assert (len (slice_to (sender_key m) 6) = 6) as Hk6 by (by apply len_slice_to).
    replace (len (sender_key m) >=? 6) with true by lia. set (k := slice_to (sender_key m) 6) in *. clearbody k.
    rewrite (encode_replace_ok _ _ Htx), bytes_of_ints_ok by byte_list.
    unfold pack_I. rewrite pack_uint_ok by done. cbn [mbind res_bind].
    set (e := if txt_type m =? TXT_TYPE_SIGNED_PLAIN then ljust (slice_to (sender_prefix m) 4) 4 else []).
    assert (e = (if txt_type m =? TXT_TYPE_SIGNED_PLAIN then sender_prefix m else [])) as He.
    { unfold e. destruct (Z.eqb_spec (txt_type m) TXT_TYPE_SIGNED_PLAIN) as [Ht|]; [|done].
      rewrite padded_field by (rewrite Ha; done || lia). rewrite Ha by done. apply app_nil_r. }
    assert (len e = (if txt_type m =? TXT_TYPE_SIGNED_PLAIN then 4 else 0)) as Hel.
    { rewrite He. destruct (Z.eqb_spec (txt_type m) TXT_TYPE_SIGNED_PLAIN) as [Ht|]; [by apply Ha|done]. }
    rewrite <- He. clearbody e. eexists. split; [reflexivity|].
    split; [destruct (v >=? 3); rewrite !len_app, len_le_bytes, Hel, Hk6, !len_cons, !len_nil; lia|].
    destruct (v >=? 3).
    + change (client_read _) with
        (client_read ([RESP_CODE_CONTACT_MSG_RECV_V3; sb; 0; 0] ++ k ++ [pb; txt_type m] ++ le_bytes 4 (timestamp m) ++ e ++ b)).
      by rewrite client_read_snr, (read_direct_body _ _ _ _ _ _ _ _ Hk6 Hts Htx Hel), Sv.
    + change (client_read _) with (read_direct None (k ++ [pb; txt_type m] ++ le_bytes 4 (timestamp m) ++ e ++ b)).
      by rewrite (read_direct_body _ _ _ _ _ _ _ _ Hk6 Hts Htx Hel).
Qed.

(** ** Synchronisation *)

Definition quarter (m : QueuedMessage) : Z := match quarter_db (snr m) with Ok z => z | Err _ => 0 end.

(** A message whose frame is not too long. *)
Definition deliverable (v : Z) (m : QueuedMessage) : Prop :=
  ∃ b, message_ok m (quarter m) b ∧ frame_len v m b ≤ MAX_PAYLOAD_SIZE.

Section sync.
Context `{CS : CompanionSends} (stats_getter : option (Z → res (list (string * DeviceCommands.num))))
  (sha512 : bytes → bytes) (signing_key : bytes) (now now' : float).
Local Abbreviation handle := (_handle_cmd stats_getter sha512 signing_key now now').

Definition queued (s : Server.t) : list QueuedMessage := MessageQueue._queue (Companion.message_queue (bridge s)).

(** The server after the first message was taken. *)
Definition popped (ms : list QueuedMessage) (s : Server.t) : Server.t :=
  with_bridge (Companion.with_message_queue
    (MessageQueue.mk ms (MessageQueue._max_size (Companion.message_queue (bridge s)))) (bridge s)) s.

Lemma sync_first s m ms d :
  queued s = m :: ms → _build_message_frame m (_app_target_ver s) = Ok d →
  handle [CMD_SYNC_NEXT_MESSAGE] s = _enqueue_frame d (popped ms s).
Proof.
  intros Hq Hd. unfold _handle_cmd. change (_cmd_handlers stats_getter sha512 signing_key now now' CMD_SYNC_NEXT_MESSAGE)
    with (Some _cmd_sync_next_message). cbn iota.
  unfold _cmd_sync_next_message, on_bridge_, Companion.sync_next_message, MessageQueue.pop. unfold queued in Hq.
  unfold mbind, py_bind. rewrite Hq. cbn iota beta. fold (popped ms s).
  unfold get. cbn iota beta. change (_app_target_ver (popped ms s)) with (_app_target_ver s).
  unfold lift. rewrite Hd. done.
Qed.

Lemma sync_none s q :
  queued s = [] → _write_queue s = Some q → len q < _WRITE_QUEUE_MAXSIZE →
  _write_queue (handle [CMD_SYNC_NEXT_MESSAGE] s) = Some (q ++ [Some (outbound [RESP_CODE_NO_MORE_MESSAGES])])
  ∧ queued (handle [CMD_SYNC_NEXT_MESSAGE] s) = [].
Proof.
  intros Hq E Hl. unfold _handle_cmd. change (_cmd_handlers stats_getter sha512 signing_key now now' CMD_SYNC_NEXT_MESSAGE)
    with (Some _cmd_sync_next_message). cbn iota.
  unfold _cmd_sync_next_message, on_bridge_, Companion.sync_next_message, MessageQueue.pop. unfold queued in *.
  unfold mbind, py_bind. rewrite Hq. cbn iota beta. rewrite (write_frame_exact _ _ q) by (done || by vm_compute).
  split; [done|exact Hq].
Qed.

(** C34: a client that asks for messages until there are none left reads all of
    them, in the order they were queued, and leaves the queue empty: direct texts,
    with the first six bytes of the sender's key and, for a signed post, the
    author's prefix; channel texts, with the index of the channel; and channel data,
    with their type and payload; each with its route and its time (channel data have
    none), and with its signal where the frame carries it (to clients of version 3,
    and for data always). The messages are [deliverable]: their frame is not too
    long, a direct text has a sender's key of at least six bytes and a signed post
    an author of four, and type, channel and time fit their fields; and the
    connection's queue has room for all. *)
Theorem messages_synced s q :
  let ms := queued s in
  Forall (deliverable (_app_target_ver s)) ms → _write_queue s = Some q → len q + len ms < _WRITE_QUEUE_MAXSIZE →
  let s' := Nat.iter (S (length ms)) (handle [CMD_SYNC_NEXT_MESSAGE]) s in
  ∃ ds, Forall2 (λ m d, client_read d = Some (as_read (_app_target_ver s) (quarter m) m)) ms ds
    ∧ _write_queue s' = Some (q ++ map (Some ∘ outbound) (ds ++ [[RESP_CODE_NO_MORE_MESSAGES]]))
    ∧ queued s' = [].
Proof.
  intros ms. assert (∃ l, l = ms) as [l Hl] by by eexists. subst ms. revert s q Hl.
  induction l as [|m l IH]; intros s q Hl Hok E Hq s'; unfold s'; clear s'; rewrite <- Hl in *; cbn [length].
  - exists []. split; [done|]. cbn [Nat.iter app map]. apply sync_none; [done..|]. rewrite len_nil in Hq. lia.
  - apply list.Forall_cons in Hok as [(b & Hm & Hlen) Hok]. rewrite len_cons in Hq. pose proof (len_nonneg l).
    destruct (message_frame (_app_target_ver s) m _ b Hm) as (d & Hd & Hdl & Hr). rewrite <- Hdl in Hlen.
    rewrite Nat.iter_succ_r, (sync_first s m l d) by done.
    assert (_enqueue_frame d (popped l s) = with_write_queue (Some (q ++ [Some (outbound d)])) (popped l s)) as ->.
    { pose proof (write_frame_exact d (popped l s) q E ltac:(lia) Hlen) as Hw. by injection Hw. }
    set (s1 := with_write_queue _ _).
    destruct (IH s1 (q ++ [Some (outbound d)])) as (ds & H1 & H2 & H3); [done|exact Hok|done| |].
    { rewrite len_app, len_cons, len_nil. change (queued s1) with l. lia. }
    exists (d :: ds). split; [by constructor|]. change (queued s1) with l in *. split; [|exact H3].
    rewrite H2. cbn [map app]. by rewrite <- app_assoc.
Qed.

(** A message too long for a frame is lost. It is taken from the queue, the
    frame is dropped, and the client gets no answer to its request. *)
Theorem long_message_lost s m ms b :
  queued s = m :: ms → message_ok m (quarter m) b → frame_len (_app_target_ver s) m b > MAX_PAYLOAD_SIZE →
  let s' := handle [CMD_SYNC_NEXT_MESSAGE] s in
  _write_queue s' = _write_queue s ∧ queued s' = ms.
Proof.
  intros Hq Hm Hlen. destruct (message_frame (_app_target_ver s) m _ b Hm) as (d & Hd & Hdl & _).
  cbv zeta. rewrite (sync_first s m ms d) by done. unfold _enqueue_frame. change (_write_queue (popped ms s)) with (_write_queue s).
  rewrite Hdl. replace (frame_len _ m b >? MAX_PAYLOAD_SIZE) with true by lia. destruct (_write_queue s) eqn:E; done.
Qed.
End sync.

(** ** Concrete runs *)

Definition demo_text (n : nat) : QueuedMessage :=
  mkQueued 0 (repeat 1 32) 0 1700000000 (repeat 97 n) false 0 2 (f_of_Z (-7)) (-90) 0 [] [].

(** A post of a room server, a text and data of a channel. *)
Definition demo_post : QueuedMessage :=
  mkQueued 0 (repeat 1 32) TXT_TYPE_SIGNED_PLAIN 1700000001 [104; 105] false 0 0xFF (f_of_Z 5) (-90) 0 [] [9; 8; 7; 6].
Definition demo_channel : QueuedMessage :=
  mkQueued 0 [] 0 1700000002 [65; 58; 32; 98] true 3 2 (f_of_Z 5) (-90) 0 [] [].
Definition demo_data : QueuedMessage := mkQueued 0 [] 0 0 [] true 4 1 (f_of_Z 5) (-90) 513 [1; 2; 3] [].

Definition demo_queue : list QueuedMessage := [demo_text 3; demo_post; demo_channel; demo_data].

Lemma messages_synced_witness :
  ∃ ds, map client_read ds =
      [Some (ClientText (Some (-28)) (repeat 1 6) 2 0 1700000000 [] [97; 97; 97]);
       Some (ClientText (Some 20) (repeat 1 6) 0xFF TXT_TYPE_SIGNED_PLAIN 1700000001 [9; 8; 7; 6] [104; 105]);
       Some (ClientChannelText (Some 20) 3 2 1700000002 [65; 58; 32; 98]);
       Some (ClientChannelData 20 4 1 513 [1; 2; 3])]
    ∧ _write_queue (Nat.iter 5 (@_handle_cmd radio_off None (λ b, b) [] f_one f_one [CMD_SYNC_NEXT_MESSAGE])
        (demo_server [] demo_queue 3)) = Some (map (Some ∘ outbound) (ds ++ [[RESP_CODE_NO_MORE_MESSAGES]])).
Proof.
  destruct (@messages_synced radio_off None (λ b, b) [] f_one f_one (demo_server [] demo_queue 3) []) as (ds & H1 & H2 & _).
  - change (queued _) with demo_queue. repeat apply list.Forall_cons_2; [..|apply list.Forall_nil_2].
    + exists [97; 97; 97]. split; [|decide_now]. split; try first [decide_now|reflexivity]; intros; first [discriminate|decide_now].
    + exists [104; 105]. split; [|decide_now]. split; try first [decide_now|reflexivity]; intros; decide_now.
    + exists [65; 58; 32; 98]. split; [|decide_now]. split; try first [decide_now|reflexivity]; intros; discriminate.
    + exists []. split; [|decide_now]. split; try first [decide_now|reflexivity]; intros; discriminate.
  - reflexivity.
  - decide_now.
  - exists ds. split; [|exact H2]. change (queued _) with demo_queue in H1.
    repeat match goal with H : Forall2 _ _ _ |- _ => inversion H; clear H; subst end. cbn [map].
    repeat match goal with H : client_read _ = _ |- _ => rewrite H; clear H end. reflexivity.
Defined.

Lemma long_message_lost_witness :
  let s' := @_handle_cmd radio_off None (λ b, b) [] f_one f_one [CMD_SYNC_NEXT_MESSAGE] (demo_server [] [demo_text 161; demo_text 3] 3) in
  _write_queue s' = Some [] ∧ queued s' = [demo_text 3].
Proof.
  apply (@long_message_lost radio_off None (λ b, b) [] f_one f_one (demo_server [] [demo_text 161; demo_text 3] 3)
    (demo_text 161) [demo_text 3] (repeat 97 161)).
  - reflexivity.
  - split; try first [decide_now|reflexivity]; intros; first [discriminate|decide_now].
  - reflexivity.
Defined.
