(* ===== verification/FrameSessions.v ===== *)
(** * The clients of the frame server ([companion/frame_server/transport.py])

    The server talks to one client at a time: a new connection evicts the old
    one. Per connection two tasks run, the one of [_handle_client] and its writer,
    and what one does between two awaits the other cannot interrupt; [step]
    performs such a piece. The fields [_client_writer], [_write_queue] and
    [_writer_task] name the connection whose object they hold. What commands and
    pushes write comes from [FrameServer] and is an event here. *)

From stdpp Require Import functions.
From S2P Require Import Prelude PyData Constants FrameCodes FrameServer.

Module FrameSessions.

(** ** State *)

(** Where the task of [_handle_client] is: in [_evict_existing_client], waiting for
    the old writer task or for the old stream to close, in the read loop, in
    [_cleanup_client], waiting for its own writer task, or at its end. *)
Inductive handler : Type :=
| NotConnected
| AwaitWriter (old task : nat)
| AwaitClosed (old : nat)
| Reading
| AwaitOwn
| Gone.

(** Where [_writer_loop] is: not begun, in the [get] of a queue, in [drain], or at
    its end. *)
Inductive writer : Type :=
| NoWriter
| Created
| Getting (queue : nat)
| Draining
| Done.

Inductive item : Type := FromQueue (frame : bytes) | Heartbeat (frame : bytes).

(** A connection with the objects made for it. [cancelled]: its writer task is to be
    cancelled at its await. [None] in the queue is the sentinel. [accepted] and
    [written] are histories: of the frames put in the queue, of the stream. *)
Record conn : Type := mkConn {
  phase : handler;
  task : writer;
  cancelled : bool;
  queue : list (option bytes);
  accepted : list bytes;
  written : list item;
  closed : bool
}.

(** Where [stop] is. *)
Inductive stopping : Type :=
| Serving
| StopWriter (task : nat)
| StopClient
| Stopped.

Record t : Type := mk {
  _client_writer : option nat;
  _write_queue : option nat;
  _writer_task : option nat;
  stopper : stopping;
  conns : nat → conn
}.

Definition absent : conn := mkConn NotConnected NoWriter false [] [] [] false.
Definition init : t := mk None None None Serving (fun _ => absent).

Definition with_client (v : option nat) (s : t) : t := mk v (_write_queue s) (_writer_task s) (stopper s) (conns s).
Definition with_queue (v : option nat) (s : t) : t := mk (_client_writer s) v (_writer_task s) (stopper s) (conns s).
Definition with_task (v : option nat) (s : t) : t := mk (_client_writer s) (_write_queue s) v (stopper s) (conns s).
Definition with_stopper (v : stopping) (s : t) : t := mk (_client_writer s) (_write_queue s) (_writer_task s) v (conns s).
Definition on_conn (c : nat) (f : conn → conn) (s : t) : t :=
  mk (_client_writer s) (_write_queue s) (_writer_task s) (stopper s) (<[c := f (conns s c)]> (conns s)).

Definition set_phase (p : handler) (k : conn) : conn := mkConn p (task k) (cancelled k) (queue k) (accepted k) (written k) (closed k).
Definition set_task (w : writer) (k : conn) : conn := mkConn (phase k) w (cancelled k) (queue k) (accepted k) (written k) (closed k).
Definition set_cancelled (k : conn) : conn := mkConn (phase k) (task k) true (queue k) (accepted k) (written k) (closed k).
Definition set_entries (q : list (option bytes)) (k : conn) : conn := mkConn (phase k) (task k) (cancelled k) q (accepted k) (written k) (closed k).
Definition accept (frame : bytes) (k : conn) : conn :=
  mkConn (phase k) (task k) (cancelled k) (queue k ++ [Some frame]) (accepted k ++ [frame]) (written k) (closed k).
Definition write (i : item) (k : conn) : conn := mkConn (phase k) (task k) (cancelled k) (queue k) (accepted k) (written k ++ [i]) (closed k).
Definition close (k : conn) : conn := mkConn (phase k) (task k) (cancelled k) (queue k) (accepted k) (written k) true.

Definition is_done (w : writer) : bool := match w with Done => true | _ => false end.

(** ** The queue *)

Definition _enqueue_frame (data : bytes) (s : t) : t :=
  match _write_queue s with
  | None => s
  | Some q =>
      if len data >? MAX_PAYLOAD_SIZE then s
      else if len (queue (conns s q)) >=? Server._WRITE_QUEUE_MAXSIZE then s
      else on_conn q (accept (Server.outbound data)) s
  end.

(** [put_nowait(None)]; a full queue gets no sentinel. *)
Definition put_sentinel (q : nat) (s : t) : t :=
  if len (queue (conns s q)) >=? Server._WRITE_QUEUE_MAXSIZE then s
  else on_conn q (fun k => set_entries (queue k ++ [None]) k) s.

(** [task.cancel()] *)
Definition cancel (k : nat) (s : t) : t := if is_done (task (conns s k)) then s else on_conn k set_cancelled s.

(** ** The writer task *)

(** The [finally] of [_writer_loop]. *)
Definition finish_writer (c : nat) (s : t) : t := on_conn c (fun k => set_task Done (close k)) s.

(** From the top of the loop to the [get]; without a queue that raises. *)
Definition next_get (c : nat) (s : t) : t :=
  match _write_queue s with
  | None => finish_writer c s
  | Some q => on_conn c (set_task (Getting q)) s
  end.

Definition write_and_drain (c : nat) (i : item) (s : t) : t := on_conn c (fun k => set_task Draining (write i k)) s.

(** Why the writer task goes on: it begins, the queue has an entry, the heartbeat is
    due, the stream is drained, or that raises, or the task is cancelled. *)
Inductive wake : Type :=
| Begun
| Entry
| HeartbeatDue (now : Z)
| Drained
| DrainFails
| Cancelled.

(** [_writer_loop] from one await to the next; a task that is cancelled before it has
    begun does not run at all. *)
Definition _writer_loop (c : nat) (w : wake) (s : t) : option t :=
  let k := conns s c in
  match task k, w with
  | Created, Begun => Some (if cancelled k then on_conn c (set_task Done) s else next_get c s)
  | Getting q, Entry =>
      if cancelled k then None
      else match queue (conns s q) with
           | [] => None
           | x :: rest =>
               let s := on_conn q (set_entries rest) s in
               Some (match x with Some frame => write_and_drain c (FromQueue frame) s | None => finish_writer c s end)
           end
  | Getting _, HeartbeatDue now =>
      if cancelled k then None
      else Some (match pack_I now with
                 | Ok b => write_and_drain c (Heartbeat (Server.outbound ([RESP_CODE_CURR_TIME] ++ b))) s
                 | Err _ => finish_writer c s
                 end)
  | Draining, Drained => if cancelled k then None else Some (next_get c s)
  | Draining, DrainFails => Some (finish_writer c s)
  | Getting _, Cancelled | Draining, Cancelled => if cancelled k then Some (finish_writer c s) else None
  | _, _ => None
  end.

(** ** The task of a connection *)

(** [_handle_client] from the eviction to its read loop. *)
Definition install (c : nat) (s : t) : t :=
  with_client (Some c) (with_queue (Some c) (with_task (Some c)
    (on_conn c (fun k => mkConn Reading Created false [] (accepted k) (written k) (closed k)) s))).

(** [_handle_client] until its first await. *)
Definition _handle_client (c : nat) (s : t) : t :=
  match _client_writer s with
  | None => install c s
  | Some old =>
      match _writer_task s with
      | Some k => on_conn c (set_phase (AwaitWriter old k)) (cancel k s)
      | None => on_conn c (set_phase (AwaitClosed old)) (on_conn old close s)
      end
  end.

(** The end of [_cleanup_client]. *)
Definition release (c : nat) (s : t) : t :=
  let s := if bool_decide (_write_queue s = Some c) then with_queue None s else s in
  let s := if bool_decide (_client_writer s = Some c) then with_client None s else s in
  on_conn c (set_phase Gone) s.

(** [_cleanup_client] until its await, or to its end. *)
Definition _cleanup_client (c : nat) (s : t) : t :=
  let s := if bool_decide (_write_queue s = Some c) then put_sentinel c s else s in
  if bool_decide (_writer_task s = Some c) then on_conn c (set_phase AwaitOwn) (cancel c s) else release c s.

(** A connection goes on after the await it is in. *)
Definition resume (c : nat) (s : t) : option t :=
  match phase (conns s c) with
  | AwaitWriter old k =>
      if is_done (task (conns s k)) then
        let s := if bool_decide (_writer_task s = Some k) then with_task None s else s in
        Some (on_conn c (set_phase (AwaitClosed old)) (on_conn old close s))
      else None
  | AwaitClosed _ => Some (install c s)
  | AwaitOwn => if is_done (task (conns s c)) then Some (release c (with_task None s)) else None
  | _ => None
  end.

(** ** Stopping the server *)

Definition drop_client (s : t) : t :=
  let s := with_queue None s in
  match _client_writer s with
  | Some c => with_stopper StopClient (on_conn c close s)
  | None => with_stopper Stopped s
  end.

Definition stop (s : t) : t :=
  let s := match _write_queue s with Some q => put_sentinel q s | None => s end in
  match _writer_task s with
  | Some k => with_stopper (StopWriter k) (cancel k s)
  | None => drop_client s
  end.

Definition resume_stop (s : t) : option t :=
  match stopper s with
  | StopWriter k => if is_done (task (conns s k)) then Some (drop_client (with_task None s)) else None
  | StopClient => Some (with_stopper Stopped (with_client None s))
  | _ => None
  end.

(** ** Steps *)

(** [ReadEnds]: the read loop returns or raises. [CommandDone]: a command was
    handled, after which the read loop looks at the writer task. *)
Inductive event : Type :=
| Connect (c : nat)
| Resume (c : nat)
| ReadEnds (c : nat)
| CommandDone (c : nat)
| Enqueue (data : bytes)
| WriterRuns (c : nat) (w : wake)
| Stop
| ResumeStop.

(** [None]: not possible now. The listening socket is closed at the end of [stop]. *)
Definition step (e : event) (s : t) : option t :=
  match e with
  | Connect c =>
      match phase (conns s c), stopper s with
      | NotConnected, Stopped => None
      | NotConnected, _ => Some (_handle_client c s)
      | _, _ => None
      end
  | Resume c => resume c s
  | ReadEnds c => match phase (conns s c) with Reading => Some (_cleanup_client c s) | _ => None end
  | CommandDone c =>
      match phase (conns s c) with
      | Reading => Some (if is_done (task (conns s c)) then _cleanup_client c s else s)
      | _ => None
      end
  | Enqueue data => Some (_enqueue_frame data s)
  | WriterRuns c w => _writer_loop c w s
  | Stop => match stopper s with Serving => Some (stop s) | _ => None end
  | ResumeStop => resume_stop s
  end.

Fixpoint run (l : list event) (s : t) : option t :=
  match l with
  | [] => Some s
  | e :: l => s' ← step e s; run l s'
  end.

End FrameSessions.
