(* ===== verification/FrameClients.v ===== *)
(** * The clients of the frame server: theorems on [FrameSessions]

    In runs where a client connects only when no other connection is being set up or
    torn down, there is one client and it gets exactly the frames meant for it;
    otherwise two clients can share the frames of one queue. *)

From stdpp Require Import functions.
From S2P Require Import Prelude PyData Constants FrameCodes FrameServer FrameSessions.

Import FrameSessions.

(** ** Orderly runs *)

(** Neither an eviction nor a clean-up is under way. *)
Definition settled (p : handler) : bool := match p with NotConnected | Reading | Gone => true | _ => false end.

Definition orderly (e : event) (s : t) : Prop :=
  match e with
  | Connect _ => ∀ d, settled (phase (conns s d)) = true
  | ReadEnds c | CommandDone c => ∀ d k, phase (conns s d) ≠ AwaitWriter c k
  | Stop | ResumeStop => False
  | _ => True
  end.

Fixpoint orderly_run (l : list event) (s : t) : Prop :=
  match l with
  | [] => True
  | e :: l => orderly e s ∧ match step e s with Some s' => orderly_run l s' | None => True end
  end.

(** ** The invariant *)

Definition alive (w : writer) : Prop := match w with NoWriter | Done => False | _ => True end.

(** Evicting: not installed yet. *)
Definition evicting (p : handler) : Prop := match p with AwaitWriter _ _ | AwaitClosed _ => True | _ => False end.

Definition fresh (p : handler) : Prop := match p with NotConnected | AwaitWriter _ _ | AwaitClosed _ => True | _ => False end.

(** The frames of the queue in a stream. *)
Definition frames_of (l : list item) : list bytes := omap (λ i, match i with FromQueue f => Some f | _ => None end) l.

(** What was written and what is still in the queue is what was put there. *)
Definition flows (k : conn) : Prop := frames_of (written k) ++ omap id (queue k) = accepted k.

Record Inv (s : t) : Prop := mkInv {
  inv_queue : _write_queue s = _client_writer s;
  inv_task : ∀ w, _writer_task s = Some w → _client_writer s = Some w;
  inv_alive : ∀ w, alive (task (conns s w)) → _writer_task s = Some w;
  inv_get : ∀ w q, task (conns s w) = Getting q → q = w;
  inv_wait : ∀ d old k, phase (conns s d) = AwaitWriter old k → k = old ∧ _client_writer s = Some old ∧ phase (conns s old) = Reading;
  inv_closed : ∀ d old, phase (conns s d) = AwaitClosed old →
    closed (conns s old) = true ∧ _writer_task s = None ∧ (_client_writer s = Some old ∨ _client_writer s = None);
  inv_own : ∀ c, phase (conns s c) = AwaitOwn → _writer_task s = Some c;
  inv_one : ∀ d d', evicting (phase (conns s d)) → evicting (phase (conns s d')) → d = d';
  inv_current : ∀ c, _client_writer s = Some c → phase (conns s c) = Reading ∨ phase (conns s c) = AwaitOwn;
  inv_read : ∀ c, phase (conns s c) = Reading → closed (conns s c) = false → _client_writer s = Some c;
  inv_fresh : ∀ c, fresh (phase (conns s c)) → task (conns s c) = NoWriter ∧ accepted (conns s c) = [] ∧ written (conns s c) = [];
  inv_flows : ∀ c, flows (conns s c)
}.

Lemma inv_init : Inv init.
Proof. split; cbn; try done; naive_solver. Qed.

Lemma conns_on c f s d : conns (on_conn c f s) d = if decide (d = c) then f (conns s c) else conns s d.
Proof. cbn. case_decide; [subst; apply fn_lookup_insert|by apply fn_lookup_insert_ne]. Qed.

(** ** Changes of one connection *)

(** A change that leaves the handler where it is and makes no writer. *)
Record small (c : nat) (k k' : conn) : Prop := mkSmall {
  small_phase : phase k' = phase k;
  small_closed : closed k = true → closed k' = true;
  small_alive : alive (task k') → alive (task k);
  small_get : ∀ q, task k' = Getting q → q = c ∨ task k = Getting q;
  small_none : task k = NoWriter → task k' = NoWriter ∧ written k' = written k;
  small_accepted : fresh (phase k) → accepted k' = accepted k;
  small_flows : flows k → flows k'
}.

Lemma inv_small c s s' :
  _client_writer s' = _client_writer s → _write_queue s' = _write_queue s → _writer_task s' = _writer_task s →
  (∀ d, d ≠ c → conns s' d = conns s d) → small c (conns s c) (conns s' c) → Inv s → Inv s'.
Proof.
  intros Hc Hq Ht Hd [S1 S2 S3 S4 S5 S6 S7] [].
  assert (∀ d, phase (conns s' d) = phase (conns s d)) as Hp by (intros d; destruct (decide (d = c)) as [->|]; [done|by rewrite Hd]).
  split; rewrite ?Hc, ?Hq, ?Ht; try done.
  - intros w Hw. destruct (decide (w = c)) as [->|]; [auto|]. rewrite Hd in Hw by done. auto.
  - intros w q Hw. destruct (decide (w = c)) as [->|]; [apply S4 in Hw as [->|Hw]; eauto|]. rewrite Hd in Hw by done. eauto.
  - intros d old k. rewrite !Hp. eauto.
  - intros d old. rewrite Hp. intros H. destruct (inv_closed0 _ _ H) as (H1 & H2 & H3). split; [|done].
    destruct (decide (old = c)) as [->|]; [auto|by rewrite Hd].
  - intros d. rewrite Hp. auto.
  - intros d d'. rewrite !Hp. auto.
  - intros d. rewrite Hp. auto.
  - intros d. rewrite Hp. intros H Ho. apply inv_read0; [done|]. destruct (decide (d = c)) as [->|]; [|by rewrite <- Hd].
    destruct (closed (conns s c)); [by rewrite S2 in Ho|done].
  - intros d. rewrite Hp. intros H. destruct (inv_fresh0 d H) as (H1 & H2 & H3). destruct (decide (d = c)) as [->|]; [|by rewrite Hd].
    destruct (S5 H1) as [-> ->]. by rewrite S6.
  - intros d. destruct (decide (d = c)) as [->|]; [auto|by rewrite Hd].
Qed.

Lemma inv_on c f s : small c (conns s c) (f (conns s c)) → Inv s → Inv (on_conn c f s).
Proof.
  intros Hs. apply (inv_small c); try done; [|by rewrite conns_on, decide_True].
  intros d Hd. by rewrite conns_on, decide_False.
Qed.

Lemma small_same c k : small c k k.
Proof. split; auto. Qed.

Lemma inv_cancel k s : Inv s → Inv (cancel k s).
Proof. intros Hi. unfold cancel. destruct (is_done _); [done|]. apply inv_on; [|done]. by split; auto. Qed.

Lemma inv_close c s : Inv s → Inv (on_conn c close s).
Proof. apply inv_on. by split; auto. Qed.

Lemma inv_finish c s : alive (task (conns s c)) → Inv s → Inv (finish_writer c s).
Proof. intros Ha. apply inv_on. split; cbn; try done. intros Hn. by rewrite Hn in Ha. Qed.

Lemma inv_sentinel c s : Inv s → Inv (put_sentinel c s).
Proof.
  intros Hi. unfold put_sentinel. destruct (_ >=? _); [done|]. apply inv_on; [|done]. split; cbn; auto.
  unfold flows. cbn. rewrite omap_app. cbn. by rewrite app_nil_r.
Qed.

Lemma inv_enqueue data s : Inv s → Inv (_enqueue_frame data s).
Proof.
  intros Hi. unfold _enqueue_frame. destruct (_write_queue s) as [q|] eqn:Hq; [|done]. destruct (_ >? _); [done|]. destruct (_ >=? _); [done|].
  apply inv_on; [|done]. rewrite (inv_queue s Hi) in Hq. apply (inv_current s Hi) in Hq.
  split; cbn; auto; [intros Hf; destruct Hq as [Hq|Hq]; by rewrite Hq in Hf|].
  unfold flows. cbn. rewrite omap_app. cbn. intros <-. by rewrite app_assoc.
Qed.

(** A writer takes frames from the queue of its own connection. *)
Lemma own_queue w q s : Inv s → alive (task (conns s w)) → _write_queue s = Some q → q = w.
Proof. intros Hi Ha Hq. apply (inv_alive s Hi), (inv_task s Hi) in Ha. rewrite (inv_queue s Hi) in Hq. congruence. Qed.

Lemma inv_next_get c s : alive (task (conns s c)) → Inv s → Inv (next_get c s).
Proof.
  intros Ha Hi. unfold next_get. destruct (_write_queue s) as [q|] eqn:Hq; [|by apply inv_finish]. apply (own_queue c) in Hq as ->; [|done|done].
  apply inv_on; [|done]. split; cbn; auto; [|by intros Hn; rewrite Hn in Ha]. intros q [= <-]. by left.
Qed.

Lemma inv_heartbeat c b s : alive (task (conns s c)) → Inv s → Inv (write_and_drain c (Heartbeat b) s).
Proof.
  intros Ha. apply inv_on. split; cbn; auto; [done|by intros Hn; rewrite Hn in Ha|].
  unfold flows, frames_of. cbn. rewrite omap_app. cbn. by rewrite app_nil_r.
Qed.

Lemma inv_entry c x rest s :
  alive (task (conns s c)) → queue (conns s c) = x :: rest → Inv s →
  Inv (match x with Some frame => write_and_drain c (FromQueue frame) (on_conn c (set_entries rest) s)
                  | None => finish_writer c (on_conn c (set_entries rest) s) end).
Proof.
  intros Ha Hx.
  destruct x as [frame|]; unfold write_and_drain, finish_writer; (apply (inv_small c); [done|done|done|intros d Hd; by rewrite !conns_on, !decide_False|rewrite !conns_on, !decide_True by done]);
    (split; cbn; auto; try done; [by intros Hn; rewrite Hn in Ha|]);
    unfold flows, frames_of; cbn; rewrite Hx; cbn; [|done].
  rewrite omap_app. cbn. by rewrite <- app_assoc.
Qed.

Lemma inv_writer c w s s' : _writer_loop c w s = Some s' → Inv s → Inv s'.
Proof.
  unfold _writer_loop. intros H Hi. destruct (task (conns s c)) as [| |q| |] eqn:Ht, w; try discriminate H;
    assert (alive (task (conns s c))) as Ha by (by rewrite Ht).
  - injection H as <-. destruct (cancelled _); [|by apply inv_next_get]. apply inv_on; [|done]. split; cbn; try done. intros Hn. by rewrite Hn in Ht.
  - destruct (cancelled _); [discriminate H|]. pose proof (inv_get s Hi _ _ Ht) as ->. destruct (queue _) as [|x rest] eqn:Hx; [discriminate H|].
    injection H as <-. by apply inv_entry.
  - destruct (cancelled _); [discriminate H|]. injection H as <-. destruct (pack_I now); [by apply inv_heartbeat|by apply inv_finish].
  - destruct (cancelled _); [|discriminate H]. injection H as <-. by apply inv_finish.
  - destruct (cancelled _); [discriminate H|]. injection H as <-. by apply inv_next_get.
  - injection H as <-. by apply inv_finish.
  - destruct (cancelled _); [|discriminate H]. injection H as <-. by apply inv_finish.
Qed.

(** ** Changes of the handlers *)

Lemma not_alive s w : Inv s → _writer_task s = None → ¬ alive (task (conns s w)).
Proof. intros Hi Hn Ha. apply (inv_alive s Hi) in Ha. congruence. Qed.

Lemma inv_install c s :
  Inv s → _writer_task s = None → fresh (phase (conns s c)) →
  (∀ d, d ≠ c → ¬ evicting (phase (conns s d))) → (∀ d, phase (conns s d) = Reading → closed (conns s d) = true) → Inv (install c s).
Proof.
  intros Hi Hn Hf Hone Hread. pose proof (λ w, not_alive s w Hi Hn) as Hdead. destruct (inv_fresh s Hi c Hf) as (_ & Hac & Hwr).
  split; cbn [_client_writer _write_queue _writer_task install with_client with_queue with_task]; try done;
    change (conns (install c s)) with (conns (on_conn c (fun k => mkConn Reading Created false [] (accepted k) (written k) (closed k)) s)).
  - intros w. rewrite conns_on. case_decide as E; [by subst|]. intros Ha. by apply Hdead in Ha.
  - intros w q. rewrite conns_on. case_decide as E; [done|]. apply (inv_get s Hi).
  - intros d old k. rewrite conns_on. case_decide as E; [done|]. intros H. destruct (Hone d E). by rewrite H.
  - intros d old. rewrite conns_on. case_decide as E; [done|]. intros H. destruct (Hone d E). by rewrite H.
  - intros d. rewrite conns_on. case_decide as E; [done|]. intros H. apply (inv_own s Hi) in H. congruence.
  - intros d d'. rewrite !conns_on. do 2 case_decide; try done. apply (inv_one s Hi).
  - intros d [= <-]. rewrite conns_on, decide_True by done. by left.
  - intros d. rewrite conns_on. case_decide as E; [by subst|]. intros H Ho. by rewrite Hread in Ho.
  - intros d. rewrite conns_on. case_decide as E; [done|]. apply (inv_fresh s Hi).
  - intros d. rewrite conns_on. case_decide as E; [unfold flows; cbn; by rewrite Hac, Hwr|]. apply (inv_flows s Hi).
Qed.

(** The clean-up of a connection that is not being evicted. *)
Lemma inv_release c s v :
  Inv s → ¬ fresh (phase (conns s c)) → (∀ d k, phase (conns s d) ≠ AwaitWriter c k) →
  (v = _writer_task s ∧ _writer_task s ≠ Some c ∨ v = None ∧ _writer_task s = Some c ∧ ¬ alive (task (conns s c))) →
  Inv (release c (with_task v s)).
Proof.
  intros Hi Hf Hw Hv.
  assert (v ≠ Some c) as Hvc by (destruct Hv as [[-> ?]|[-> _]]; done).
  assert (∀ w, v = Some w → _writer_task s = Some w) as Hv1 by (intros w ->; destruct Hv as [[-> _]|[? _]]; done).
  assert (∀ w, w ≠ c → _writer_task s = Some w → v = Some w) as Hv2.
  { intros w Hne H. destruct Hv as [[-> _]|(_ & H' & _)]; [done|congruence]. }
  assert (¬ alive (task (conns s c))) as Hd.
  { intros Ha. destruct Hv as [[_ Hv]|(_ & _ & Hv)]; [by apply Hv, (inv_alive s Hi)|done]. }
  set (s' := release c (with_task v s)).
  assert (_client_writer s' = if bool_decide (_client_writer s = Some c) then None else _client_writer s) as Ec.
  { unfold s', release. cbn. by repeat case_bool_decide. }
  assert (_write_queue s' = if bool_decide (_write_queue s = Some c) then None else _write_queue s) as Eq.
  { unfold s', release. cbn. by repeat case_bool_decide. }
  assert (_writer_task s' = v) as Et by (unfold s', release; cbn; by repeat case_bool_decide).
  assert (∀ d, conns s' d = if decide (d = c) then set_phase Gone (conns s c) else conns s d) as En.
  { intros d. unfold s', release. rewrite conns_on. cbn. by repeat case_bool_decide. }
  clearbody s'. split; rewrite ?Ec, ?Eq, ?Et, ?(inv_queue s Hi); clear Ec Eq.
  - done.
  - intros w H. pose proof (inv_task s Hi w (Hv1 w H)) as H'. rewrite bool_decide_false by congruence. done.
  - intros w. rewrite En. case_decide as E; [subst; done|]. intros Ha. by apply Hv2, (inv_alive s Hi).
  - intros w q. rewrite En. case_decide as E; [subst; cbn|]; apply (inv_get s Hi).
  - intros d old k. rewrite !En. case_decide as E; [done|]. intros H. destruct (inv_wait s Hi _ _ _ H) as (-> & H1 & H2).
    assert (old ≠ c) as Hne by (intros ->; by apply (Hw d c)). rewrite bool_decide_false by congruence. by rewrite decide_False.
  - intros d old. rewrite !En. case_decide as E; [done|]. intros H. destruct (inv_closed s Hi _ _ H) as (H1 & H2 & H3).
    split; [by destruct (decide (old = c)) as [->|]|]. split; [destruct Hv as [[-> _]|[-> _]]; done|]. case_bool_decide; tauto.
  - intros d. rewrite En. case_decide as E; [done|]. intros H. by apply Hv2, (inv_own s Hi).
  - intros d d'. rewrite !En. do 2 case_decide; cbn; try done. apply (inv_one s Hi).
  - intros d. case_bool_decide as E; [done|]. intros H. rewrite En, decide_False by congruence. by apply (inv_current s Hi).
  - intros d. rewrite En. case_decide as E; [done|]. intros H Ho. apply (inv_read s Hi d H) in Ho. rewrite bool_decide_false; congruence.
  - intros d. rewrite En. case_decide as E; [done|]. apply (inv_fresh s Hi).
  - intros d. rewrite En. case_decide as E; [|apply (inv_flows s Hi)]. apply (inv_flows s Hi c).
Qed.

Lemma cancel_phase k s d : phase (conns (cancel k s) d) = phase (conns s d).
Proof. unfold cancel. destruct (is_done _); [done|]. rewrite conns_on. by case_decide; subst. Qed.

Lemma cancel_client k s : _client_writer (cancel k s) = _client_writer s.
Proof. unfold cancel. by destruct (is_done _). Qed.

Lemma with_own_task s : with_task (_writer_task s) s = s.
Proof. by destruct s. Qed.

(** From the end of the read loop. *)
Lemma inv_cleanup c s :
  Inv s → phase (conns s c) = Reading → (∀ d k, phase (conns s d) ≠ AwaitWriter c k) → Inv (_cleanup_client c s).
Proof.
  intros Hi Hr Hw. unfold _cleanup_client.
  set (s1 := if bool_decide _ then _ else s).
  assert (Inv s1 ∧ (∀ d, phase (conns s1 d) = phase (conns s d)) ∧ _writer_task s1 = _writer_task s) as (Hi1 & Hp & Et).
  { unfold s1. case_bool_decide; [|done]. split; [by apply inv_sentinel|]. unfold put_sentinel. destruct (_ >=? _); [done|].
    split; [|done]. intros d. rewrite conns_on. by case_decide; subst. }
  clearbody s1. cbv zeta. rewrite <- Hp in Hr. setoid_rewrite <- Hp in Hw. clear Hp Et Hi s. rename s1 into s, Hi1 into Hi.
  case_bool_decide as E.
  - apply (inv_cancel c) in Hi as Hi'. pose proof (cancel_phase c s) as Hp.
    assert (_writer_task (cancel c s) = Some c) as E' by (unfold cancel; by destruct (is_done _)).
    rewrite <- Hp in Hr. setoid_rewrite <- Hp in Hw. clear Hp E Hi. revert Hi' Hr Hw E'. generalize (cancel c s). clear s. intros s Hi Hr Hw Ht.
    pose proof (inv_task s Hi _ Ht) as Hc.
    split; cbn [_client_writer _write_queue _writer_task on_conn]; try apply Hi; intros d; rewrite ?conns_on.
    + case_decide as E; [subst; apply (inv_alive s Hi)|apply (inv_alive s Hi)].
    + intros q. case_decide as E; [subst; apply (inv_get s Hi)|apply (inv_get s Hi)].
    + intros old k. case_decide as E; [done|]. intros H. destruct (inv_wait s Hi _ _ _ H) as (-> & H1 & H2). rewrite conns_on.
      assert (old ≠ c) by (intros ->; by apply (Hw d c)). by rewrite decide_False.
    + intros old. case_decide as E; [done|]. intros H. destruct (inv_closed s Hi _ _ H) as (_ & H2 & _). congruence.
    + case_decide as E; [by subst|]. apply (inv_own s Hi).
    + intros d'. rewrite conns_on. do 2 case_decide; cbn; try done. apply (inv_one s Hi).
    + case_decide as E; [by right|]. apply (inv_current s Hi).
    + case_decide as E; [done|]. apply (inv_read s Hi).
    + case_decide as E; [done|]. apply (inv_fresh s Hi).
    + case_decide as E; [apply (inv_flows s Hi c)|apply (inv_flows s Hi)].
  - replace (release c s) with (release c (with_task (_writer_task s) s)) by (by rewrite with_own_task).
    apply inv_release; [done|rewrite Hr; tauto|done|by left].
Qed.

(** A connection begins or goes on to evict [old]. *)
Lemma inv_evict c p s :
  Inv s → fresh (phase (conns s c)) → (∀ d, d ≠ c → ¬ evicting (phase (conns s d))) →
  (∃ old, p = AwaitWriter old old ∧ _client_writer s = Some old ∧ phase (conns s old) = Reading
    ∨ p = AwaitClosed old ∧ closed (conns s old) = true ∧ _writer_task s = None ∧ (_client_writer s = Some old ∨ _client_writer s = None)) →
  Inv (on_conn c (set_phase p) s).
Proof.
  intros Hi Hf Hone (old & Hp).
  assert (∀ x, _client_writer s = Some x → x ≠ c) as Hne by (intros x Hx ->; destruct (inv_current s Hi _ Hx) as [H|H]; by rewrite H in Hf).
  split; cbn [_client_writer _write_queue _writer_task on_conn]; try apply Hi; intros d; rewrite ?conns_on.
  - case_decide as E; [subst|]; apply (inv_alive s Hi).
  - intros q. case_decide as E; [subst|]; apply (inv_get s Hi).
  - intros o k. case_decide as E; cbn [phase set_phase].
    + intros ->. destruct Hp as [([= -> ->] & H1 & H2)|[[=] _]]. rewrite conns_on, decide_False by auto. done.
    + intros H. destruct (Hone d E). by rewrite H.
  - intros o. case_decide as E; cbn [phase set_phase].
    + intros ->. destruct Hp as [[[=] _]|([= ->] & H1 & H2)]. rewrite conns_on. by case_decide; subst.
    + intros H. destruct (Hone d E). by rewrite H.
  - case_decide as E; [intros H; cbn in H; subst p; by destruct Hp as [[[=] _]|[[=] _]]|]. apply (inv_own s Hi).
  - intros d'. rewrite conns_on. destruct (decide (d = c)) as [->|E], (decide (d' = c)) as [->|E'];
      [done|intros _ H; by destruct (Hone d' E')|intros H; by destruct (Hone d E)|apply (inv_one s Hi)].
  - intros H. rewrite decide_False by auto. by apply (inv_current s Hi).
  - case_decide as E; [intros H; cbn in H; subst p; by destruct Hp as [[[=] _]|[[=] _]]|]. apply (inv_read s Hi).
  - case_decide as E; [intros _; by apply (inv_fresh s Hi)|]. apply (inv_fresh s Hi).
  - case_decide as E; [apply (inv_flows s Hi c)|apply (inv_flows s Hi)].
Qed.

(** The reference to a writer task that has ended is dropped. *)
Lemma inv_no_task s :
  Inv s → (∀ w, ¬ alive (task (conns s w))) → (∀ d, phase (conns s d) ≠ AwaitOwn) → Inv (with_task None s).
Proof.
  intros Hi Ha Ho. split; cbn [_client_writer _write_queue _writer_task conns with_task]; try apply Hi; try done.
  - intros w H. by apply Ha in H.
  - intros d old H. destruct (inv_closed s Hi _ _ H) as (H1 & _ & H3). done.
  - intros d H. by apply Ho in H.
Qed.

(** ** Every step *)

Lemma inv_resume c s s' : resume c s = Some s' → Inv s → Inv s'.
Proof.
  unfold resume. intros H Hi. destruct (phase (conns s c)) as [|old k|old| | |] eqn:Hp; try discriminate H.
  - destruct (is_done _) eqn:Hd; [|discriminate H]. injection H as <-. destruct (inv_wait s Hi _ _ _ Hp) as (-> & Hc & Hr).
    assert (∀ d, d ≠ c → ¬ evicting (phase (conns s d))) as Hone by (intros d Hne He; apply Hne, (inv_one s Hi); [done|by rewrite Hp]).
    assert (Inv (with_task None s)) as Hi'.
    { apply inv_no_task; [done| |].
      - intros w Ha. pose proof (inv_task s Hi _ (inv_alive s Hi _ Ha)) as Hw. assert (w = old) as -> by congruence. by destruct (task (conns s old)).
      - intros d Ho. pose proof (inv_task s Hi _ (inv_own s Hi _ Ho)) as Hw. assert (d = old) as -> by congruence. congruence. }
    assert ((if bool_decide (_writer_task s = Some old) then with_task None s else s) = with_task None s) as ->.
    { case_bool_decide as E; [done|]. destruct (_writer_task s) as [w|] eqn:Hw; [apply (inv_task s Hi) in Hw; congruence|].
      rewrite <- (with_own_task s) at 1. by rewrite Hw. }
    apply inv_evict; [by apply inv_close| | |].
    + rewrite conns_on. case_decide; subst; cbn; by rewrite Hp.
    + intros d Hne. rewrite conns_on. case_decide; subst; by apply Hone.
    + exists old. right. rewrite conns_on, decide_True by done. cbn. auto.
  - injection H as <-. destruct (inv_closed s Hi _ _ Hp) as (Hcl & Hw & Hc). apply inv_install; [done|done|by rewrite Hp| |].
    + intros d Hne He. apply Hne, (inv_one s Hi); [done|by rewrite Hp].
    + intros d Hr. destruct (closed (conns s d)) eqn:Hk; [done|]. pose proof (inv_read s Hi _ Hr Hk). destruct Hc; congruence.
  - destruct (is_done _) eqn:Hd; [|discriminate H]. injection H as <-. apply inv_release; [done|rewrite Hp; tauto| |].
    + intros d k H. destruct (inv_wait s Hi _ _ _ H) as (_ & _ & Hr). congruence.
    + right. split; [done|]. split; [by apply (inv_own s Hi)|]. intros Ha; by destruct (task (conns s c)).
Qed.

Lemma inv_step e s s' : orderly e s → step e s = Some s' → Inv s → Inv s'.
Proof.
  destruct e as [c|c|c|c|data|c w| |]; cbn [orderly step]; intros Ho H Hi; try done.
  - destruct (phase (conns s c)) eqn:Hp; try discriminate H. assert (s' = _handle_client c s) as -> by (destruct (stopper s); congruence). clear H.
    assert (∀ d, ¬ evicting (phase (conns s d))) as He by (intros d Hd; specialize (Ho d); destruct (phase (conns s d)); done).
    assert (∀ d, phase (conns s d) = Reading → closed (conns s d) = false → _client_writer s = Some d) as Hr by apply (inv_read s Hi).
    unfold _handle_client. destruct (_client_writer s) as [old|] eqn:Hc.
    + destruct (inv_current s Hi _ Hc) as [Hread|Hown]; [|specialize (Ho old); by rewrite Hown in Ho].
      assert (old ≠ c) as Hne by (intros ->; congruence).
      destruct (_writer_task s) as [k|] eqn:Hw.
      * assert (k = old) as -> by (apply (inv_task s Hi) in Hw; congruence).
        assert (∀ d, phase (conns (cancel old s) d) = phase (conns s d)) as Hph by apply cancel_phase.
        apply inv_evict; [by apply inv_cancel|by rewrite Hph, Hp|intros d _; by rewrite Hph|]. exists old. left. rewrite Hph.
        split; [done|]. split; [|done]. by rewrite cancel_client.
      * apply inv_evict; [by apply inv_close|by rewrite conns_on; case_decide; subst; cbn; rewrite ?Hp|intros d _; rewrite conns_on; case_decide; subst; apply He|].
        exists old. right. rewrite conns_on, decide_True by done. auto.
    + apply inv_install; try done; [|by rewrite Hp|].
      * destruct (_writer_task s) as [w|] eqn:Hw; [|done]. apply (inv_task s Hi) in Hw. congruence.
      * intros d Hd. destruct (closed (conns s d)) eqn:Hk; [done|]. by apply Hr in Hk.
  - by apply (inv_resume c s).
  - destruct (phase (conns s c)) eqn:Hp; try discriminate H. injection H as <-. by apply inv_cleanup.
  - destruct (phase (conns s c)) eqn:Hp; try discriminate H. injection H as <-. destruct (is_done _); [by apply inv_cleanup|done].
  - injection H as <-. by apply inv_enqueue.
  - by apply inv_writer in H.
Qed.

Lemma inv_run l s s' : orderly_run l s → run l s = Some s' → Inv s → Inv s'.
Proof.
  revert s. induction l as [|e l IH]; intros s; cbn; [by intros _ [= <-]|]. intros [Ho Hl] H Hi.
  destruct (step e s) as [s1|] eqn:He; [|discriminate H]. eapply IH; [done|done|by eapply inv_step].
Qed.

(** ** The queue of [FrameServer] *)

(** What the commands and pushes of [FrameServer] do to the queue of the current
    client is what [_enqueue_frame] does here. *)
Lemma enqueue_refines data q s (sv : Server.t) :
  _write_queue s = Some q → Server._write_queue sv = Some (queue (conns s q)) →
  Server._write_queue (Server._enqueue_frame data sv) = Some (queue (conns (_enqueue_frame data s) q)).
Proof.
  intros Hq Hs. unfold Server._enqueue_frame, _enqueue_frame. rewrite Hq, Hs. destruct (_ >? _); [by rewrite Hs|].
  destruct (_ >=? _); [by rewrite Hs|]. by rewrite conns_on, decide_True.
Qed.

(** ** One client at a time *)

(** A client gets the frames that are meant for it. In a run in which no client
    connects while another is being set up or torn down, no connection ends while its
    writer is being cancelled for another, and the server is not stopped: what
    was put in the queue of a connection is what was written to its
    stream (heartbeats aside), in order, followed by what the queue still holds, so no
    other connection has taken any of it; and of the connections that are served with
    an open stream there is only the current one, whose queue commands and pushes
    write to. *)
Theorem clients_isolated l s :
  orderly_run l init → run l init = Some s →
  (∀ c, accepted (conns s c) = frames_of (written (conns s c)) ++ omap id (queue (conns s c)))
  ∧ ∀ c, phase (conns s c) = Reading → closed (conns s c) = false → _client_writer s = Some c ∧ _write_queue s = Some c.
Proof.
  intros Ho H. pose proof (inv_run _ _ _ Ho H inv_init) as Hi. split.
  - intros c. symmetry. apply (inv_flows s Hi).
  - intros c Hr Hc. rewrite (inv_queue s Hi). split; by apply (inv_read s Hi).
Qed.

(** ** Examples *)

Definition frame (x : Z) : bytes := Server.outbound [x].

(** A client is served, then another evicts it. *)
Definition replaced : list event :=
  [Connect 0; WriterRuns 0 Begun; Enqueue [5]; WriterRuns 0 Entry; WriterRuns 0 Drained; WriterRuns 0 (HeartbeatDue 1000);
   WriterRuns 0 Drained; Enqueue [6]; CommandDone 0; Connect 1; WriterRuns 0 Cancelled; Resume 1; ReadEnds 0; Resume 1;
   WriterRuns 1 Begun; Enqueue [7]; WriterRuns 1 Entry; WriterRuns 1 Drained; Enqueue [8]].

Definition after (l : list event) : t := default init (run l init).

(** Orderly runs of the connections below [n] can be computed. *)
Definition evicts (c : nat) (p : handler) : bool := match p with AwaitWriter old _ => Nat.eqb old c | _ => false end.

Definition check (n : nat) (e : event) (s : t) : bool :=
  let all f := forallb (λ d, f (phase (conns s d))) (seq 0 n) in
  match e with
  | Connect c => (c <? n)%nat && all settled
  | ReadEnds c | CommandDone c => (c <? n)%nat && all (λ p, negb (evicts c p))
  | Resume c => (c <? n)%nat
  | Stop | ResumeStop => false
  | _ => true
  end.

Fixpoint check_run (n : nat) (l : list event) (s : t) : bool :=
  match l with
  | [] => true
  | e :: l => check n e s && match step e s with Some s' => check_run n l s' | None => true end
  end.

Definition unknown (n : nat) (s : t) : Prop := ∀ d, (n ≤ d)%nat → phase (conns s d) = NotConnected.

Lemma unknown_on n c f s : (∀ k, phase (f k) = phase k) ∨ (c < n)%nat → unknown n s → unknown n (on_conn c f s).
Proof. intros Hf Hu d Hd. rewrite conns_on. case_decide; [subst|by apply Hu]. destruct Hf as [Hf|Hf]; [rewrite Hf; by apply Hu|lia]. Qed.

Lemma unknown_step n e s s' : check n e s = true → step e s = Some s' → unknown n s → unknown n s'.
Proof.
  intros Hc H Hu.
  assert (∀ c s, unknown n s → unknown n (cancel c s)) as Hcancel by (intros c s1 H1; unfold cancel; destruct (is_done _); [done|by apply unknown_on; [left|]]).
  assert (∀ c s, (c < n)%nat → unknown n s → unknown n (release c s)) as Hrelease.
  { intros c s1 H1 H2. unfold release. apply unknown_on; [by right|]. by repeat case_bool_decide. }
  assert (∀ c s, (c < n)%nat → unknown n s → unknown n (install c s)) as Hinstall by (intros c s1 H1 H2; apply unknown_on; [by right|done]).
  assert (∀ c, (c < n)%nat → unknown n (_cleanup_client c s)) as Hcleanup.
  { intros c H1. unfold _cleanup_client. assert (unknown n (if bool_decide (_write_queue s = Some c) then put_sentinel c s else s)) as H2.
    { case_bool_decide; [|done]. unfold put_sentinel. destruct (_ >=? _); [done|]. by apply unknown_on; [left|]. }
    revert H2. cbv zeta. generalize (if bool_decide (_write_queue s = Some c) then put_sentinel c s else s). intros s1 H2.
    case_bool_decide; [apply unknown_on; [by right|by apply Hcancel]|by apply Hrelease]. }
  assert (∀ c, unknown n (next_get c s)) as Hget by (intros c; unfold next_get; destruct (_write_queue s); by apply unknown_on; [left|]).
  destruct e as [c|c|c|c|data|c w| |]; cbn [check step] in *; try discriminate Hc.
  - apply andb_prop in Hc as [Hc _]. apply Nat.ltb_lt in Hc. destruct (phase (conns s c)); try discriminate H.
    assert (s' = _handle_client c s) as -> by (destruct (stopper s); congruence). unfold _handle_client. destruct (_client_writer s); [|by apply Hinstall].
    destruct (_writer_task s); (apply unknown_on; [by right|]); [by apply Hcancel|by apply unknown_on; [left|]].
  - apply Nat.ltb_lt in Hc. unfold resume in H. destruct (phase (conns s c)); try discriminate H.
    + destruct (is_done _); [|discriminate H]. injection H as <-. apply unknown_on; [by right|]. apply unknown_on; [by left|]. by case_bool_decide.
    + injection H as <-. by apply Hinstall.
    + destruct (is_done _); [|discriminate H]. injection H as <-. by apply Hrelease.
  - apply andb_prop in Hc as [Hc _]. apply Nat.ltb_lt in Hc. destruct (phase (conns s c)); try discriminate H. injection H as <-. by apply Hcleanup.
  - apply andb_prop in Hc as [Hc _]. apply Nat.ltb_lt in Hc. destruct (phase (conns s c)); try discriminate H. injection H as <-.
    destruct (is_done _); [by apply Hcleanup|done].
  - injection H as <-. unfold _enqueue_frame. destruct (_write_queue s); [|done]. destruct (_ >? _); [done|]. destruct (_ >=? _); [done|].
    by apply unknown_on; [left|].
  - unfold _writer_loop in H. destruct (task (conns s c)), w; try discriminate H; repeat case_match; simplify_eq;
      try apply Hget; repeat (apply unknown_on; [by left|]); done.
Qed.

Lemma check_orderly n e s : unknown n s → check n e s = true → orderly e s.
Proof.
  intros Hu H. assert (∀ f, f NotConnected = true → forallb (λ d, f (phase (conns s d))) (seq 0 n) = true → ∀ d, f (phase (conns s d)) = true) as Hall.
  { intros f Hf H1 d. destruct (decide (d < n)%nat) as [Hd|Hd]; [|by rewrite Hu by lia].
    rewrite forallb_forall in H1. apply H1, in_seq. lia. }
  destruct e; cbn [check orderly] in *; try done; apply andb_prop in H as [_ H]; [by apply Hall|..];
    intros d k Hk; apply (Hall (λ p, negb (evicts c p)) eq_refl) with (d := d) in H; rewrite Hk in H; cbn in H; by rewrite Nat.eqb_refl in H.
Qed.

Lemma check_run_orderly n l s : unknown n s → check_run n l s = true → orderly_run l s.
Proof.
  revert s. induction l as [|e l IH]; intros s Hu; cbn; [done|]. intros [H1 H2]%andb_prop. split; [by eapply check_orderly|].
  destruct (step e s) as [s'|] eqn:He; [|done]. apply IH; [by eapply unknown_step|done].
Qed.

Lemma clients_isolated_witness :
  (∀ c, accepted (conns (after replaced) c) = frames_of (written (conns (after replaced) c)) ++ omap id (queue (conns (after replaced) c)))
  ∧ ∀ c, phase (conns (after replaced) c) = Reading → closed (conns (after replaced) c) = false →
      _client_writer (after replaced) = Some c ∧ _write_queue (after replaced) = Some c.
Proof.
  apply (clients_isolated replaced).
  - apply (check_run_orderly 2); [done|vm_compute; reflexivity].
  - vm_compute. reflexivity.
Defined.

Example replaced_streams :
  written (conns (after replaced) 0%nat) = [FromQueue (frame 5); Heartbeat (Server.outbound [RESP_CODE_CURR_TIME; 232; 3; 0; 0])]
  ∧ written (conns (after replaced) 1%nat) = [FromQueue (frame 7)] ∧ closed (conns (after replaced) 0%nat) = true.
Proof. vm_compute. by split_and!. Qed.

(** Two clients connect while the same old one is evicted: both are served, and the
    first gets a frame from the queue of the second. *)
Example two_clients_share :
  let s := after [Connect 0; WriterRuns 0 Begun; Connect 1; Connect 2; WriterRuns 0 Cancelled; Resume 1; Resume 2; Resume 1; Resume 2;
                  WriterRuns 1 Begun; WriterRuns 2 Begun; Enqueue [7]; WriterRuns 1 Entry] in
  phase (conns s 1%nat) = Reading ∧ phase (conns s 2%nat) = Reading ∧ closed (conns s 1%nat) = false
  ∧ accepted (conns s 2%nat) = [frame 7] ∧ written (conns s 1%nat) = [FromQueue (frame 7)] ∧ queue (conns s 2%nat) = [].
Proof. vm_compute. by split_and!. Qed.

(** A client hangs up while it is evicted: its clean-up drops the reference to the
    writer of its successor, which the next eviction then does not end; it takes a
    frame of the third client for a closed stream. *)
Example hang_up_loses_frame :
  let s := after [Connect 0; WriterRuns 0 Begun; Connect 1; ReadEnds 0; WriterRuns 0 Cancelled; Resume 1; Resume 1; Resume 0;
                  WriterRuns 1 Begun; Enqueue [7]; WriterRuns 1 Entry; Connect 2; Resume 2; WriterRuns 1 Drained; WriterRuns 2 Begun;
                  Enqueue [8]; WriterRuns 1 Entry] in
  closed (conns s 1%nat) = true ∧ phase (conns s 2%nat) = Reading ∧ accepted (conns s 2%nat) = [frame 8]
  ∧ queue (conns s 2%nat) = [] ∧ written (conns s 2%nat) = [].
Proof. vm_compute. by split_and!. Qed.

(** A client that connects while [stop] waits for the writer is served after it. *)
Example survives_stop :
  let s := after [Connect 0; WriterRuns 0 Begun; Stop; Connect 1; WriterRuns 0 Cancelled; ResumeStop; Resume 1; Resume 1; ResumeStop] in
  stopper s = Stopped ∧ phase (conns s 1%nat) = Reading ∧ closed (conns s 1%nat) = false.
Proof. vm_compute. by split_and!. Qed.
